(* ===== verification/_CoqProject ===== *)
-Q . S2P
Prelude.v
H4.v
HciTypes.v
OpCodes.v
Properties.v
Address.v
PhyLayer.v
TestModel.v
CsTypes.v
Sco.v
Connections.v
LeState.v
Devices.v
TestCommands.v
PcapFilter.v
HciSniffer.v
LeLists.v
LeAdvertiser.v
LePhy.v
LeScan.v
LeConnect.v
LeSubrate.v
LeSounding.v
LeSoundingLink.v
LeApcf.v
LeIso.v
LeReports.v
LeLink.v
Tasks.v
AsyncManager.v
Controller.v
KnownLinks.v
Machine.v
LeReception.v
BrState.v
BaseBand.v
BrCommands.v
BrLink.v
BrInvariant.v
BrMachine.v
BrProcedures.v
BrRole.v
BrSco.v
HciViews.v
Random.v
DualState.v
DualBr.v
DualLe.v
DualVendor.v
DualMode.v
DualInvariant.v
CommandFormats.v
DualAnswers.v
DualReachable.v
DualCredits.v
DualDispatch.v
HciDevice.v
DualQuiet.v
Simulation.v
