(* ===== verification/Prelude.v ===== *)
(** * A verification library for the RootCanal virtual Bluetooth controller

    RootCanal emulates Bluetooth controllers: hosts talk HCI to it over a byte
    stream, and the controllers exchange link layer packets with each other over
    emulated physical layers.  This library models the C++ code under src/ as
    Rocq functions, with its names, and proves what makes it correct.

    ** The parts of the program and the files that model them

    Shared:
    - Prelude (this file): outcomes of a call, fixed width integers, hash tables
      with an unspecified iteration order, ordered sets, record updates, list
      functions.
    - H4: the byte stream, model/hci/h4_parser.cc (the parser and its recovery
      state) and model/hci/h4_data_channel_packetizer.cc (the receive loop).
    - HciTypes, OpCodes, CsTypes: the enumerations and records of
      packets/hci_packets.pdl, packets/link_layer_packets.pdl and
      le_cs_parameters.h that the modelled code uses, with their wire values.  The
      layout of the packets is generated code: a packet is a value.
    - Properties: model/controller/controller_properties.cc, the configuration of
      a controller and the checks on it.
    - Address: lib/hci/address.cc, include/hci/address.h and address_with_type.h,
      and the private addresses of include/crypto and le_controller.cc.
    - Sco: model/controller/sco_connection.cc.
    - Connections: connection_handle.h, acl_connection.cc, le_acl_connection.cc
      and acl_connection_handler.cc, the tables of connections.
    - Tasks: the queue of deferred callbacks (the same code is in le_controller.cc
      and bredr_controller.cc).

    The LE controller (model/controller/le_controller.cc and le_controller.h):
    - LeState: the state of LeController, the packets and events it sends, its
      event masks, and the monad its handlers are written in.
    - LeLists: the device lists, privacy and periodic synchronisation commands.
    - LeAdvertiser: model/controller/le_advertiser.cc, every command and the
      periodic work [LeAdvertising].
    - LePhy, LeScan, LeConnect, LeLink: the PHY update procedure, scanning,
      initiating, and connections (establishment, procedures, reception, end,
      reset).
    - LeSubrate, LeSounding, LeSoundingLink: subrating with power control, and the
      commands and packets of channel sounding.
    - LeApcf: vendor_commands/le_apcf.cc, the tables of the advertising packet
      content filter.
    - LeIso: isochronous data.
    - LeReports: what scanners and initiators do with the advertising they receive.
      LeReception: its theorems, over two controllers.
    - Controller, Machine: all commands as one function [execute], and a controller
      with its task queue as a step relation [machine_step]: commands, data,
      packets of the air, ticks, closing.  KnownLinks: the links the link layer
      library knows are those of the connections.

    The BR/EDR controller (model/controller/bredr_controller.cc):
    - BrState: its state, packets and events, and the monad of its handlers.
    - BrCommands: the commands.  BrLink: packets of the air, data, the task
      callbacks.  BrMachine: its step relation [br_step].
    - BrInvariant: the invariant and what keeps it.  BrProcedures, BrRole, BrSco:
      procedures over two controllers.

    The dual mode controller (model/controller/dual_mode_controller.cc and .h,
    model/devices/device.cc, vendor_commands/csr.h):
    - HciViews: the views of the packets of the host, an interface.  Random: the
      generator of LE Rand.
    - DualState: the state [DualModeController] over the two controllers, and the
      monad of its handlers.
    - DualBr, DualLe, DualVendor: one definition per handler of a command.
    - DualMode: the tables [GetOpCodeToIndex] and [GetHciCommandHandlers], the
      dispatch [HandleCommand], data, ticks, closing, the step relation
      [dual_step].
    - CommandFormats: the formats of the commands, and who answers each.
      DualInvariant, DualAnswers, DualReachable, DualCredits, DualDispatch: its
      theorems.

    Around the controllers:
    - HciSniffer: model/hci/hci_transport.h (an interface), hci_socket_transport.cc
      and hci_sniffer.cc with include/pcap.h, the capture file.  PcapFilter:
      lib/hci/pcap_filter.cc, what a capture hides.
    - HciDevice: model/devices/hci_device.cc, a dual mode controller at the end of
      a transport.
    - PhyLayer: model/setup/phy_layer.cc, phy_device.cc and model/devices/device.cc,
      layers and the packets sent on them.  A device is an interface [Device], the
      task manager an interface [Scheduler].
    - TestModel: model/setup/test_model.cc, the devices and layers of a run.
    - Devices: model/devices/beacon.cc, sniffer.cc, link_layer_socket_device.cc and
      model/setup/device_boutique.cc.  BaseBand: model/devices/baseband_sniffer.cc.
    - TestCommands: model/setup/test_command_handler.cc, test_channel_transport.cc
      and the test channel of desktop/test_environment.cc.
    - AsyncManager: model/setup/async_manager.cc, the task manager and its threads,
      as steps that interleave ([move], [step]); [task_manager] is the [Scheduler]
      that it gives to the test model.
    - DualQuiet, Simulation: controllers on transports, and other devices, as the
      devices of a test model.

    A host's bytes go through the transport ([HciSocketTransport.Tick]) and H4 to
    [HciDevice.handle]. H4 delivers packets; [DualMode.HandleCommand] looks up their operation code and
    runs a handler, which calls the BR/EDR or the LE controller; these keep their
    connections in the tables of Connections, send packets and events, defer
    callbacks through the queue of Tasks, and react to packets received
    ([DualMode.ReceiveLinkLayerPacket]) and to the clock ([DualMode.Tick]).  The
    test model ticks its devices on the task manager; what a device sends reaches
    the others on its layers at once ([PhyLayer.Send]).  Simulation puts these
    together: [simulated_device] makes [HciDevice] a device of PhyLayer.

    ** How the code is modelled

    A call ends as an [outcome]: it returns, it aborts ([ASSERT], [FATAL]), it
    has undefined behaviour, or it does not end.  A handler that only computes is
    a function of the controller; one that also sends, schedules or may abort is
    in the monad of its controller ([LeState.M], [BrState.M], [DualState.D]): it
    reads the clock, changes the state, and lists its outputs in order.  In
    [HciDevice] these are sent when the handler ends; for controllers this is the
    order of the code, as none answers on the air while it receives
    ([DualQuiet.receive_silent]).  A beacon may: its answer would come back between two
    packets of a tick.  The callbacks that a transport
    makes in a tick are a list, so a sniffer records what came from the host in a
    tick before what the controller answers.  A device of [PhyLayer] is a tree of
    actions, as what it sends may come back to it before it goes on.  A
    [uintN_t] is a [Z], with the wrap around written where the code converts.
    Times are nanoseconds.  A [std::unordered_map] is a [gmap]; loops over one
    follow a parameter [IterationOrder], any order that lists each entry once, so
    that no theorem depends on it.

    What the code calls outside src/, in another language or in generated files is
    a parameter: [LeState.Environment] (the AES block cipher, the numbers
    [std::rand] returns, and the answers of the link layer library in Rust, a
    function of the calls made to it), [BrState.Environment] (the clock, the link
    manager library in Rust), [HciViews.Views] (whether bytes have the format of a
    packet, and its fields; [ViewLaws] states what the packet description makes
    sure of), [DualState.OpenSsl], [PcapFilter.Formats] with its laws,
    [BaseBand.BaseBandBuilder] and [HciDevice.Serializers] (bytes of generated
    packets), and [HciSniffer.AsyncDataChannel] (a socket).  The packets and events of the two libraries
    are not modelled: a command they own is forwarded as bytes.

    What the theorems assume of the two libraries in Rust is what they do (src/rust/src/llcp/manager.rs
    and lmp/manager.rs).  The link layer library accepts a link exactly if it does not know
    it, and the removal of a link exactly if it does ([LeState.LinkLayerLaws], over the links
    that the calls so far leave known, [LeState.known_links]); that the controller calls
    it so in every reachable state is proved ([KnownLinks], [Machine.Tick_returns]).
    Theorems about one state ask for no more than the acceptance of the calls they are
    about ([can_connect], [can_disconnect], [takes_payload]).  The link manager has seven slots, so
    that it takes a new link is asked of the states in question only
    ([BrProcedures.takes_link]); the libraries of the examples keep to all this.

    ** What the theorems show

    - H4: packets cut in any way by the socket are delivered unchanged
      ([OnDataReady_roundtrip]); the callbacks depend on the bytes only and no
      input makes the parser abort ([OnDataReady_chunking]); recovery finds the
      first reset command ([recovery_resynchronises]).
    - Properties: what a configured controller supports is decided by the last switch
      that names it, and the check of the supported commands reports what it should.
    - Addresses: what [FromString] accepts, its round trip with [ToString],
      private addresses that resolve.
    - Sco: the link parameters selected are optimal among the feasible ones.
    - Connections: in every reachable state the handles of the three tables are
      in their own ranges and agree with the entries; allocation of a handle,
      and its non-termination when a range is full; disconnection.
    - Tasks: fresh identifiers, cancellation undoes scheduling, the loop over the
      due tasks ends and runs them in order.
    - LeLists: the invariant of the lists under their commands, address
      generation and resolution are inverse, the busy tests, host features.
    - LeAdvertiser: the imperative [LeAdvertising] refines a pure transition of
      each advertising set, keeps an invariant and never aborts
      ([LeAdvertising_refines]); the number of events is bounded and reached;
      enabling sets is all or nothing; fragmented data is reassembled.
    - LePhy, LeSubrate, LeSoundingLink: two controllers and the packets in flight
      as a transition system; the ends agree in every interleaving
      ([phy_agreement], [subrate_agreement], [config_agreement]).
    - LeScan and LeConnect: the commands on every branch, the duration of a
      scan, the agreement of the legacy and extended commands.
    - LeLink: establishment of a connection over both ends, the encryption,
      parameter and disconnection procedures, isolation of connections on
      reception, the supervision timeout, the state after a reset.
    - LeApcf, LeIso: the bounds of the filter tables; an SDU that the host cuts in any
      way arrives unchanged ([iso_sdu_transfer]).
    - LeReception: the active scan and the connection between two controllers, from
      the advertising packet on ([active_scan], [advertising_connection]); reports in
      fragments; periodic synchronisation; reception returns in every reachable
      state but for a configuration of the initiator ([advertising_received]).
    - Machine: the invariant of a controller in every reachable state, and that a
      tick ends ([Tick_returns]).
    - BR/EDR: the invariant of every reachable state ([br_reachable_wf]), the set up
      of links and synchronous connections over both ends, the roles of the two
      ends in every interleaving ([role_agreement]), disconnection, reset.
    - Dual mode: every command the controller returns from is answered exactly once,
      as its format says, or handed to the library that owns it ([HandleCommand_answers]); the invariants of both controllers hold in every
      reachable state ([dual_reachable_wf]); an ACL packet is credited exactly once
      ([acl_packet_credited]); commands without a handler, local loopback, reset.
    - Captures: two users whose packets differ in names and payloads only have the
      same filtered capture, but for the last byte of names in GAP data, which leaks
      ([capture_anonymous]); a capture read back tells what
      passed ([capture_roundtrip]); a sniffer changes nothing
      ([sniffer_transparent]).  BaseBand: the header check accepts what was built
      for it and no burst of errors ([header_check]).
    - HciDevice: each packet the host wrote, however it is cut, is given to the operation
      for its type, and the host is sent what the controller says ([hci_device_stream]).
    - PhyLayer, TestModel: who hears a packet ([send_reaches]); layers and devices
      agree and nothing dangles, whatever the commands and the devices do
      ([test_model_invariant]); a host that connects gets a free address
      ([AddHciConnection_spec]).
    - Devices: framed packets arrive ([socket_device_roundtrip]); a beacon is silent
      when scanned ([beacon_silent]).
    - Simulation: whatever hosts, tests and devices do, every controller stays well
      formed ([simulation_invariant]); what a controller says in a tick reaches
      exactly those it shares layers with, in order ([controller_tick_reaches]).
    - TestCommands: each command is answered once and is a step of the model
      ([test_command_answered]); a session over the socket is the commands and
      their responses ([test_session_roundtrip]).
    - AsyncManager: order, identifiers and exclusion in every interleaving
      ([async_manager_invariant]), scheduling ends ([scheduleTask_spec]), when a
      cancelled task stays silent ([cancelled_silent]) and when a cancellation never
      ends ([cancel_deadlock]).

    ** Bounds and fuel

    The loops of the code that are not structural take fuel.  The receive loop of
    H4 takes as much as the bytes the socket grants, the search for a handle the
    size of its range, [NextTaskId] the number of tasks and two more,
    [RunPendingTasks] the number of due tasks and one more, the loop over the
    fragments of a report the length of the data and one more, the search for a
    sync handle the number of synchronisations and one more, and the loop of
    [IntelDdcConfigWrite] the number of bytes: the theorems prove that these return,
    and, for a full range or a period of 0, that no amount of fuel does.

    [PhyLayer.run] takes fuel for the actions of devices within one another (two
    devices that answer each other for ever do not end); the search for an address
    of [GenerateBluetoothAddress] takes 65536 turns, one for each address, and
    [next_id_loop] one more than there are tasks.  Identifiers of devices and layers
    are assumed to be fewer than 2^32 in a run.  A tick of a controller takes as much
    fuel as it says things, and one more.

    ** What is not modelled

    The servers and the configuration text of desktop/test_environment.cc and
    root_canal_main.cc (command line, start and end of the process), the sockets of
    net/ but for what a read gives, and lib/log.cc: system calls, files and text.
    rust/ and model/controller/ffi.cc: the link manager and link layer libraries are
    in another language, behind an interface of function calls.  The parameters of
    the model stand for all of these.  The task manager has unbounded times where the
    code has 64 bits. *)

From Stdlib Require Export ZArith Lia Bool.
From stdpp Require Export base tactics option list list_numbers gmap strings fin_maps.
From stdpp Require Import sorting.

#[global] Open Scope Z_scope.
#[global] Set Default Goal Selector "!".

(** ** Outcomes

    A call of the C++ code ends in one of four ways: it returns, it stops the
    process ([FATAL], [ASSERT], [ASSERT_LOG] in include/log.h), it runs into
    behaviour the language leaves undefined (an out of range array access), or
    it does not end at all.  The last three are kept apart, so that memory
    safety and termination can be stated. *)

Inductive outcome (A : Type) : Type :=
| Ok (a : A)
| Fatal
| Undef
| Hang.
Arguments Ok {A} a.
Arguments Fatal {A}.
Arguments Undef {A}.
Arguments Hang {A}.

#[export] Instance outcome_ret : MRet outcome := fun A a => Ok a.
#[export] Instance outcome_bind : MBind outcome := fun A B f m =>
  match m with Ok a => f a | Fatal => Fatal | Undef => Undef | Hang => Hang end.
#[export] Instance outcome_fmap : FMap outcome := fun A B f m =>
  match m with Ok a => Ok (f a) | Fatal => Fatal | Undef => Undef | Hang => Hang end.

#[export] Instance outcome_eq_dec {A} `{EqDecision A} : EqDecision (outcome A).
Proof. solve_decision. Defined.

(** [ASSERT(b)]. *)
Definition assert (b : bool) : outcome () := if b then Ok () else Fatal.

(** A read through an index that C++ does not check. *)
Definition unchecked {A} (o : option A) : outcome A :=
  match o with Some a => Ok a | None => Undef end.

Definition is_ok {A} (m : outcome A) : bool :=
  match m with Ok _ => true | _ => false end.

Lemma outcome_bind_ext {A B} (m : outcome A) (f g : A → outcome B) :
  (∀ a, f a = g a) → m ≫= f = m ≫= g.
Proof. intros E. destruct m; [apply E|done..]. Qed.

Lemma bind_Ok {A B} (m : outcome A) (f : A → outcome B) b :
  m ≫= f = Ok b ↔ ∃ a, m = Ok a ∧ f a = Ok b.
Proof. destruct m; naive_solver. Qed.

Lemma assert_Ok b u : assert b = Ok u ↔ b = true.
Proof. destruct b, u; naive_solver. Qed.

Lemma unchecked_Ok {A} (o : option A) a : unchecked o = Ok a ↔ o = Some a.
Proof. destruct o; naive_solver. Qed.

(** ** Fixed width unsigned integers

    A [uintN_t] is the integer it holds; an assignment or a conversion to it
    wraps. *)

Definition wrap (w z : Z) : Z := z mod 2 ^ w.
Abbreviation u8 := (wrap 8) (only parsing).
Abbreviation u16 := (wrap 16) (only parsing).
Abbreviation u32 := (wrap 32) (only parsing).
Abbreviation u64 := (wrap 64) (only parsing).

(** A conversion to [int8_t]. *)
Definition i8 (z : Z) : Z := let w := wrap 8 z in if w <? 128 then w else w - 256.

(** [z] is a value of a [w] bit unsigned integer. *)
Definition fits (w z : Z) : Prop := 0 ≤ z < 2 ^ w.
#[export] Instance fits_dec w z : Decision (fits w z).
Proof. unfold fits. apply _. Defined.
Abbreviation byte_ok := (fits 8) (only parsing).

Lemma wrap_fits w z : 0 ≤ w → fits w (wrap w z).
Proof. intros. unfold fits, wrap. apply Z.mod_pos_bound. lia. Qed.

Lemma wrap_id w z : fits w z → wrap w z = z.
Proof. unfold fits, wrap. apply Z.mod_small. Qed.

Lemma wrap_idemp w z : 0 ≤ w → wrap w (wrap w z) = wrap w z.
Proof. intros. by apply wrap_id, wrap_fits. Qed.

(** Two bytes assembled by [lo | hi << 8]. *)
Lemma lor_shiftl_8 lo hi : fits 8 lo → 0 ≤ hi → Z.lor lo (Z.shiftl hi 8) = lo + 256 * hi.
Proof.
  intros Hlo Hhi. rewrite <-Z.add_nocarry_lor.
  { rewrite Z.shiftl_mul_pow2 by lia. lia. }
  apply Z.bits_inj'. intros n Hn. rewrite Z.land_spec, Z.bits_0.
  destruct (decide (n < 8)).
  - rewrite Z.shiftl_spec_low by lia. by rewrite andb_false_r.
  - unfold fits in Hlo. rewrite <-(Z.mod_small lo (2 ^ 8)) by lia.
    by rewrite Z.mod_pow2_bits_high by lia.
Qed.

Lemma land_ones_fits z w : 0 ≤ w → fits w (Z.land z (Z.ones w)).
Proof. intros. rewrite Z.land_ones by done. by apply wrap_fits. Qed.

Lemma fits_land_ones w x : 0 ≤ w → fits w x ↔ Z.land x (Z.ones w) = x.
Proof.
  intros Hw. rewrite Z.land_ones by done. split; [by intros ?%Z.mod_small|].
  intros E. rewrite <- E. by apply Z.mod_pos_bound, Z.pow_pos_nonneg.
Qed.
Lemma fits_lxor w x y : 0 ≤ w → fits w x → fits w y → fits w (Z.lxor x y).
Proof.
  intros Hw Hx Hy. apply fits_land_ones in Hx, Hy; [|done..]. apply fits_land_ones; [done|].
  rewrite <- Hx, <- Hy at 2. apply Z.bits_inj'. intros i Hi.
  rewrite Z.land_spec, !Z.lxor_spec, !Z.land_spec. by destruct (Z.testbit x i), (Z.testbit y i), (Z.testbit _ i).
Qed.
Lemma fits_land_mask w x m : 0 ≤ w → fits w m → fits w (Z.land x m).
Proof.
  intros Hw Hm. apply fits_land_ones in Hm; [|done]. apply fits_land_ones; [done|].
  by rewrite <- Z.land_assoc, Hm.
Qed.
Lemma fits_shiftr w x n : 0 ≤ n → fits w x → fits w (Z.shiftr x n).
Proof.
  intros Hn [Hx Hx']. rewrite Z.shiftr_div_pow2 by done.
  pose proof (Z.pow_pos_nonneg 2 n ltac:(done) Hn). split; [by apply Z.div_pos|].
  apply Z.div_lt_upper_bound; [done|]. nia.
Qed.

(** Bit [i] of a flag word. *)
Definition bit (z : Z) (i : Z) : bool := Z.testbit z i.

Lemma land_bit z n : 0 ≤ n → negb (Z.land z (Z.shiftl 1 n) =? 0) = Z.testbit z n.
Proof.
  intros Hn. rewrite Z.shiftl_1_l. destruct (Z.testbit z n) eqn:E.
  - apply negb_true_iff, Z.eqb_neq. intros H0.
    assert (Z.testbit (Z.land z (2 ^ n)) n = true) as Ht
      by (rewrite Z.land_spec, E, Z.pow2_bits_true by lia; done).
    rewrite H0, Z.bits_0 in Ht. done.
  - apply negb_false_iff, Z.eqb_eq, Z.bits_inj'. intros m Hm.
    rewrite Z.land_spec, Z.bits_0. destruct (decide (m = n)) as [->|]; [by rewrite E|].
    rewrite Z.pow2_bits_false by lia. apply andb_false_r.
Qed.

(** [o.has_value()]. *)
Definition has_value {A} (o : option A) : bool := match o with Some _ => true | None => false end.

Definition zlength {A} (l : list A) : Z := Z.of_nat (length l).

Lemma zlength_nonneg {A} (l : list A) : 0 ≤ zlength l.
Proof. unfold zlength. lia. Qed.

Lemma zlength_pos {A} (l : list A) : l ≠ [] → 0 < zlength l.
Proof. destruct l; [done|]. unfold zlength. simpl. lia. Qed.

Lemma zlength_app {A} (l k : list A) : zlength (l ++ k) = zlength l + zlength k.
Proof. unfold zlength. rewrite length_app. lia. Qed.

Lemma zlength_cons {A} (x : A) l : zlength (x :: l) = 1 + zlength l.
Proof. unfold zlength. simpl. lia. Qed.

Lemma zlength_nil {A} : zlength (@nil A) = 0.
Proof. done. Qed.

Create HintDb rc.
Create Rewrite HintDb rc.
#[export] Hint Resolve wrap_fits zlength_nonneg zlength_pos : rc.
#[export] Hint Rewrite @zlength_app @zlength_cons @zlength_nil : rc.

(** ** Hash tables

    A [std::unordered_map] with unsigned integer keys is a finite map; the order
    in which a range [for] visits it is not specified, so it is a parameter: any
    function that lists the entries of the map, each once. *)
Class IterationOrder := {
  iterate : ∀ {A : Type}, gmap Z A → list (Z * A);
  iterate_perm : ∀ {A : Type} (m : gmap Z A), iterate m ≡ₚ map_to_list m;
}.

Lemma elem_of_iterate `{IterationOrder} {A} (m : gmap Z A) k x :
  (k, x) ∈ iterate m ↔ m !! k = Some x.
Proof. rewrite iterate_perm. apply elem_of_map_to_list. Qed.

Lemma alter_Some {A} (f : A → A) (m : gmap Z A) k x :
  m !! k = Some x → alter f k m = <[k := f x]> m.
Proof.
  intros Hk. apply map_eq. intros i. destruct (decide (i = k)) as [->|].
  - by rewrite lookup_alter_eq, lookup_insert_eq, Hk.
  - by rewrite lookup_alter_ne, lookup_insert_ne.
Qed.

Lemma alter_None {A} (f : A → A) (m : gmap Z A) k : m !! k = None → alter f k m = m.
Proof.
  intros Hk. apply map_eq. intros i. destruct (decide (i = k)) as [->|].
  - by rewrite lookup_alter_eq, Hk.
  - by rewrite lookup_alter_ne.
Qed.

(** One order among others, for examples. *)
Definition key_order : IterationOrder := {|
  iterate := λ A m, map_to_list m;
  iterate_perm := λ A m, Permutation_refl _;
|}.

(** The first entry that satisfies [f]. *)
Fixpoint find_first {A} (f : A → bool) (l : list A) : option A :=
  match l with
  | [] => None
  | x :: l => if f x then Some x else find_first f l
  end.

Lemma find_first_Some {A} (f : A → bool) l x :
  find_first f l = Some x → x ∈ l ∧ f x = true.
Proof.
  induction l as [|y l IH]; simpl; [done|]. case_match eqn:Hf.
  - intros [= ->]. split; [left|done].
  - intros [? ?]%IH. split; [by right|done].
Qed.

Lemma find_first_None {A} (f : A → bool) l :
  find_first f l = None ↔ ∀ x, x ∈ l → f x = false.
Proof.
  induction l as [|y l IH]; simpl; [by split; [intros _ x ?%elem_of_nil|]|].
  setoid_rewrite elem_of_cons. destruct (f y) eqn:Hf.
  - split; [done|]. intros H. specialize (H y (or_introl eq_refl)). congruence.
  - rewrite IH. naive_solver.
Qed.

(** The keys of a [std::map] or [std::set], in the order in which they are visited. *)
Definition ascending (s : gset Z) : list Z := merge_sort Z.le (elements s).
Lemma elem_of_ascending (s : gset Z) x : x ∈ ascending s ↔ x ∈ s.
Proof. unfold ascending. by rewrite merge_sort_Permutation, elem_of_elements. Qed.
Lemma ascending_NoDup s : NoDup (ascending s).
Proof. unfold ascending. rewrite merge_sort_Permutation. apply NoDup_elements. Qed.

(** [l] without the first element that satisfies [f], if there is one. *)
Fixpoint remove_first {A} (f : A → bool) (l : list A) : option (list A) :=
  match l with
  | [] => None
  | x :: l => if f x then Some l else cons x <$> remove_first f l
  end.

Lemma remove_first_Some {A} (f : A → bool) l l' :
  remove_first f l = Some l' ↔
  ∃ l1 x l2, l = l1 ++ x :: l2 ∧ l' = l1 ++ l2 ∧ f x = true ∧ Forall (λ y, f y = false) l1.
Proof.
  revert l'. induction l as [|x l IH]; intros l'; simpl.
  { split; [done|]. by intros ([|] & ? & ? & ? & _). }
  destruct (f x) eqn:Hf.
  - split.
    + intros [= <-]. by exists [], x, l.
    + intros ([|y l1] & z & l2 & E & -> & Hz & Hl1); simplify_eq/=; [done|].
      apply Forall_cons_1 in Hl1 as [? _]. congruence.
  - rewrite fmap_Some. split.
    + intros (k & (l1 & z & l2 & -> & -> & Hz & Hl1)%IH & ->).
      exists (x :: l1), z, l2. repeat split; [done|]. by constructor.
    + intros ([|y l1] & z & l2 & E & -> & Hz & Hl1); simplify_eq/=; [congruence|].
      apply Forall_cons_1 in Hl1 as [_ ?]. exists (l1 ++ l2). split; [|done].
      apply IH. by exists l1, z, l2.
Qed.

Lemma remove_first_None {A} (f : A → bool) l :
  remove_first f l = None ↔ ∀ x, x ∈ l → f x = false.
Proof.
  induction l as [|x l IH]; simpl; [by split; [intros _ x ?%elem_of_nil|]|].
  setoid_rewrite elem_of_cons. destruct (f x) eqn:Hf.
  - split; [done|]. intros H. specialize (H x (or_introl eq_refl)). congruence.
  - rewrite fmap_None, IH. naive_solver.
Qed.

(** Applies [g] to the first element that satisfies [f]. *)
Fixpoint update_first {A} (f : A → bool) (g : A → A) (l : list A) : list A :=
  match l with
  | [] => []
  | x :: l => if f x then g x :: l else x :: update_first f g l
  end.

Lemma length_update_first {A} f (g : A → A) l : length (update_first f g l) = length l.
Proof. induction l as [|x l IH]; simpl; [done|]. destruct (f x); simpl; by rewrite ?IH. Qed.

Lemma fmap_update_first {A B} f (g : A → A) (h : A → B) l :
  (∀ x, h (g x) = h x) → h <$> update_first f g l = h <$> l.
Proof.
  intros Hg. induction l as [|x l IH]; simpl; [done|].
  destruct (f x); csimpl; by rewrite ?IH, ?Hg.
Qed.

(** ** Record updates

    [r <| f := v |>] is the record [r] with the field [f] replaced.  A record
    opts in by declaring how it is rebuilt from its projections. *)

Class Rebuild (R : Type) := rebuild : R → R.

Ltac field_update R E proj :=
  let inst := constr:(_ : Rebuild R) in
  let whole := eval cbv [rebuild] in (@rebuild R inst) in
  let whole := eval red in whole in
  let abstracted := eval pattern proj in whole in
  lazymatch abstracted with
  | ?body _ =>
      let upd := constr:(fun (g : E → E) (r : R) => body (fun x => g (proj x)) r) in
      let upd := eval cbv beta in upd in
      exact upd
  end.

Class FieldUpdate {R E : Type} (proj : R → E) := modify_field : (E → E) → R → R.
#[export] Hint Extern 0 (@FieldUpdate ?R ?E ?proj) =>
  field_update R E proj : typeclass_instances.

Declare Scope record_scope.
Delimit Scope record_scope with record.
#[global] Open Scope record_scope.
Notation "r <| f := v |>" := (@modify_field _ _ f _ (fun _ => v) r)
  (at level 1, f at level 8, v at level 200, left associativity) : record_scope.
Notation "r <| f ::= g |>" := (@modify_field _ _ f _ g r)
  (at level 1, f at level 8, g at level 200, left associativity) : record_scope.
Arguments modify_field {R E} proj {_} _ _ /.

(** ** Proof automation *)

(** Turns boolean tests into the propositions they decide. *)
Ltac to_prop :=
  repeat match goal with
  | H : context [negb _] |- _ => progress rewrite ?negb_true_iff, ?negb_false_iff in H
  | H : (_ && _) = true |- _ => apply andb_true_iff in H as [??]
  | H : (_ || _) = false |- _ => apply orb_false_iff in H as [??]
  | H : (_ =? _) = true |- _ => apply Z.eqb_eq in H
  | H : (_ =? _) = false |- _ => apply Z.eqb_neq in H
  | H : (_ <? _) = true |- _ => apply Z.ltb_lt in H
  | H : (_ <? _) = false |- _ => apply Z.ltb_ge in H
  | H : (_ <=? _) = true |- _ => apply Z.leb_le in H
  | H : (_ <=? _) = false |- _ => apply Z.leb_gt in H
  | H : bool_decide _ = true |- _ => apply bool_decide_eq_true_1 in H
  | H : bool_decide _ = false |- _ => apply bool_decide_eq_false_1 in H
  end.

(** Runs a computation in the outcome monad that is known to return. *)
Ltac step_ok :=
  repeat match goal with
  | H : _ ≫= _ = Ok _ |- _ => apply bind_Ok in H as (? & ? & H)
  | H : assert _ = Ok _ |- _ => apply assert_Ok in H
  | H : unchecked _ = Ok _ |- _ => apply unchecked_Ok in H
  end.

(** One case per branch of the code, dead branches closed. *)
Ltac branches :=
  repeat (case_match; simplify_eq/=; try done).

(** A chain of checks [H : (if b then Some _ else _) = None]: the first one
    passed. *)
Tactic Notation "passes" hyp(H) ident(E) :=
  match type of H with (if ?b then _ else _) = None => destruct b eqn:E; [discriminate H|] end.

(** The cases of a handler, its tests turned into facts. *)
Tactic Notation "command" reference(op) :=
  unfold op; repeat case_match; simplify_eq/=; try done; to_prop.

(** Closes [Forall byte_ok] on a list of constants. *)
Ltac bytes := apply (bool_decide_unpack _); vm_compute; exact I.

(** Closes a conjunction of bounds on constants by evaluation. *)
Ltac bounds := unfold fits; repeat split; vm_compute; (reflexivity || discriminate).
