(* ===== verification/H4.v ===== *)
(** * The HCI UART transport (model/hci/h4.h, h4_parser.cc, h4_data_channel_packetizer.cc) *)

From S2P Require Import Prelude.

(** [PacketType] is an [enum class] with underlying type [uint8_t]: besides the
    named values it can hold any other byte, which [static_cast] produces. *)
Inductive PacketType :=
| UNKNOWN | COMMAND | ACL | SCO | EVENT | ISO
| Unlisted (v : Z).
#[export] Instance PacketType_eq_dec : EqDecision PacketType.
Proof. solve_decision. Defined.

Definition PacketType_of_u8 (v : Z) : PacketType :=
  if v =? 0 then UNKNOWN else if v =? 1 then COMMAND else if v =? 2 then ACL
  else if v =? 3 then SCO else if v =? 4 then EVENT else if v =? 5 then ISO
  else Unlisted v.

Definition u8_of_PacketType (t : PacketType) : Z :=
  match t with
  | UNKNOWN => 0 | COMMAND => 1 | ACL => 2 | SCO => 3 | EVENT => 4 | ISO => 5
  | Unlisted v => v
  end.

(** ** H4Parser *)
Module H4Parser.

Inductive State := HCI_TYPE | HCI_PREAMBLE | HCI_PAYLOAD | HCI_RECOVERY.
#[export] Instance State_eq_dec : EqDecision State.
Proof. solve_decision. Defined.

Definition COMMAND_PREAMBLE_SIZE := 3.
Definition COMMAND_LENGTH_OFFSET := 2.
Definition ACL_PREAMBLE_SIZE := 4.
Definition ACL_LENGTH_OFFSET := 2.
Definition SCO_PREAMBLE_SIZE := 3.
Definition SCO_LENGTH_OFFSET := 2.
Definition EVENT_PREAMBLE_SIZE := 2.
Definition EVENT_LENGTH_OFFSET := 1.
Definition ISO_PREAMBLE_SIZE := 4.
Definition ISO_LENGTH_OFFSET := 2.

Record H4Parser := MkParser {
  hci_packet_type_ : PacketType;
  state_ : State;
  packet_type_ : Z;
  packet_ : list Z;
  bytes_wanted_ : Z;
  enable_recovery_state_ : bool;
}.

#[export] Instance parser_rebuild : Rebuild H4Parser := fun p =>
  MkParser (hci_packet_type_ p) (state_ p) (packet_type_ p) (packet_ p)
    (bytes_wanted_ p) (enable_recovery_state_ p).

(** The parser as constructed. *)
Definition init (enable_recovery_state : bool) : H4Parser :=
  MkParser UNKNOWN HCI_TYPE 0 [] 0 enable_recovery_state.

Definition Reset (p : H4Parser) : H4Parser :=
  p <| state_ := HCI_TYPE |> <| packet_ := [] |> <| bytes_wanted_ := 0 |>
    <| packet_type_ := 0 |>.

Definition EnableRecovery (p : H4Parser) : H4Parser := p <| enable_recovery_state_ := true |>.
Definition DisableRecovery (p : H4Parser) : H4Parser := p <| enable_recovery_state_ := false |>.

(** The table [packet_length_offset], indexed by the packet type; an index past
    its six entries is out of range. *)
Definition packet_length_offset (t : PacketType) : outcome Z :=
  unchecked ([0; COMMAND_LENGTH_OFFSET; ACL_LENGTH_OFFSET; SCO_LENGTH_OFFSET;
              EVENT_LENGTH_OFFSET; ISO_LENGTH_OFFSET] !! Z.to_nat (u8_of_PacketType t)).

(** The table [preamble_size]. *)
Definition preamble_size (t : PacketType) : outcome Z :=
  unchecked ([0; COMMAND_PREAMBLE_SIZE; ACL_PREAMBLE_SIZE; SCO_PREAMBLE_SIZE;
              EVENT_PREAMBLE_SIZE; ISO_PREAMBLE_SIZE] !! Z.to_nat (u8_of_PacketType t)).

Definition HciGetPacketLengthForType (t : PacketType) (preamble : list Z) : outcome Z :=
  offset ← packet_length_offset t;
  size ← unchecked (preamble !! Z.to_nat offset);
  match t with
  | ACL =>
      hi ← unchecked (preamble !! Z.to_nat (offset + 1));
      Ok (Z.lor size (Z.shiftl hi 8))
  | ISO =>
      hi ← unchecked (preamble !! Z.to_nat (offset + 1));
      Ok (Z.lor size (Z.shiftl (Z.land hi 0x0f) 8))
  | _ => Ok size
  end.

(** A packet handed to one of the five callbacks, named by its packet type. *)
Definition delivery : Type := PacketType * list Z.

Definition OnPacketReady (p : H4Parser) : outcome (H4Parser * list delivery) :=
  match hci_packet_type_ p with
  | COMMAND | ACL | SCO | EVENT | ISO =>
      Ok (p <| hci_packet_type_ := UNKNOWN |>, [(hci_packet_type_ p, packet_ p)])
  | UNKNOWN | Unlisted _ => Fatal
  end.

Definition BytesRequested (p : H4Parser) : Z :=
  match state_ p with
  | HCI_TYPE | HCI_RECOVERY => 1
  | HCI_PREAMBLE | HCI_PAYLOAD => bytes_wanted_ p
  end.

Definition reset_command : list Z := [0x01; 0x03; 0x0c; 0x00].

(** The HCI_RECOVERY case of the first switch of [Consume]. *)
Definition consume_recovery (byte : Z) (p : H4Parser) : outcome H4Parser :=
  let offset := length (packet_ p) in
  let pushed := packet_ p ++ [byte] in
  got ← unchecked (pushed !! offset);
  expected ← unchecked (reset_command !! offset);
  let packet :=
    if got =? expected then pushed
    else if byte =? 0x01 then [byte] else [] in
  if bool_decide (length packet = length reset_command) then
    Ok (p <| packet_ := tail packet |> <| bytes_wanted_ := 0 |>)
  else Ok (p <| packet_ := packet |>).

(** The first switch of [Consume]: store the bytes. *)
Definition consume_store (buffer : list Z) (p : H4Parser) : outcome H4Parser :=
  match state_ p with
  | HCI_TYPE =>
      byte ← unchecked (head buffer);
      Ok (p <| packet_type_ := byte |> <| packet_ := [] |>)
  | HCI_RECOVERY => byte ← unchecked (head buffer); consume_recovery byte p
  | HCI_PREAMBLE | HCI_PAYLOAD =>
      Ok (p <| packet_ ::= (.++ buffer) |>
            <| bytes_wanted_ := u64 (bytes_wanted_ p - zlength buffer) |>)
  end.

(** The second switch of [Consume]: move to the next state. *)
Definition consume_advance (p : H4Parser) : outcome (H4Parser * list delivery) :=
  match state_ p with
  | HCI_TYPE =>
      let t := PacketType_of_u8 (packet_type_ p) in
      let p := p <| hci_packet_type_ := t |> in
      match t with
      | ACL | SCO | COMMAND | EVENT | ISO =>
          size ← preamble_size t;
          Ok (p <| state_ := HCI_PREAMBLE |> <| bytes_wanted_ := size |>, [])
      | UNKNOWN | Unlisted _ =>
          if enable_recovery_state_ p then
            Ok (p <| state_ := HCI_RECOVERY |> <| hci_packet_type_ := COMMAND |>
                  <| bytes_wanted_ := 1 |>, [])
          else Fatal
      end
  | HCI_PREAMBLE =>
      if bytes_wanted_ p =? 0 then
        payload_size ← HciGetPacketLengthForType (hci_packet_type_ p) (packet_ p);
        if payload_size =? 0 then
          '(p, out) ← OnPacketReady p;
          Ok (p <| state_ := HCI_TYPE |>, out)
        else Ok (p <| bytes_wanted_ := payload_size |> <| state_ := HCI_PAYLOAD |>, [])
      else Ok (p, [])
  | HCI_RECOVERY | HCI_PAYLOAD =>
      if bytes_wanted_ p =? 0 then
        '(p, out) ← OnPacketReady p;
        Ok (p <| state_ := HCI_TYPE |>, out)
      else Ok (p, [])
  end.

(** [Consume]: the returned flag, the new parser and the callbacks made.  The
    buffer holds exactly the [bytes_read] bytes. *)
Definition Consume (buffer : list Z) (p : H4Parser)
  : outcome (bool * H4Parser * list delivery) :=
  if zlength buffer <=? 0 then Ok (false, p, [])
  else if BytesRequested p <? zlength buffer then Fatal
  else
    p ← consume_store buffer p;
    '(p, out) ← consume_advance p;
    Ok (true, p, out).

(** *** Reference behaviour: one byte at a time *)

Fixpoint feed (bytes : list Z) (p : H4Parser) : outcome (H4Parser * list delivery) :=
  match bytes with
  | [] => Ok (p, [])
  | b :: bytes =>
      '(_, p, out) ← Consume [b] p;
      '(p, out') ← feed bytes p;
      Ok (p, out ++ out')
  end.

(** The five types the parser accepts, with the size of their preamble. *)
Definition header_size (t : PacketType) : option Z :=
  match t with
  | COMMAND => Some 3 | ACL => Some 4 | SCO => Some 3 | EVENT => Some 2 | ISO => Some 4
  | UNKNOWN | Unlisted _ => None
  end.

(** *** Invariant

    In each state, what the stored bytes are and how many are missing. *)
Definition wf (p : H4Parser) : Prop :=
  Forall byte_ok (packet_ p) ∧
  match state_ p with
  | HCI_TYPE => True
  | HCI_PREAMBLE =>
      ∃ n, header_size (hci_packet_type_ p) = Some n ∧
      0 < bytes_wanted_ p ∧ zlength (packet_ p) + bytes_wanted_ p = n
  | HCI_PAYLOAD =>
      ∃ n len, header_size (hci_packet_type_ p) = Some n ∧
      HciGetPacketLengthForType (hci_packet_type_ p) (packet_ p) = Ok len ∧
      0 < bytes_wanted_ p ∧ n ≤ zlength (packet_ p) ∧ len < 2 ^ 16 ∧
      zlength (packet_ p) + bytes_wanted_ p = n + len
  | HCI_RECOVERY =>
      hci_packet_type_ p = COMMAND ∧ bytes_wanted_ p = 1 ∧
      ∃ k, (k < 4)%nat ∧ packet_ p = take k reset_command
  end.

(** A packet as a host builds it: a header of the type's size, then as many
    bytes as the header announces. *)
Definition packet_wf (d : delivery) : Prop :=
  ∃ n, header_size d.1 = Some n ∧ n ≤ zlength d.2 ∧ Forall byte_ok d.2 ∧
  HciGetPacketLengthForType d.1 d.2 = Ok (zlength d.2 - n).

(** The bytes of a packet on the wire. *)
Definition encode (d : delivery) : list Z := u8_of_PacketType d.1 :: d.2.

Lemma header_size_spec t n :
  header_size t = Some n → preamble_size t = Ok n ∧ 2 ≤ n ≤ 4.
Proof. destruct t; intros [= <-]; (split; [reflexivity|lia]). Qed.

Lemma header_size_of_u8 t n :
  header_size t = Some n → PacketType_of_u8 (u8_of_PacketType t) = t.
Proof. by destruct t; intros [=]. Qed.

(** Reads within the first bytes do not see what follows them. *)
Lemma packet_length_app t pre post len :
  HciGetPacketLengthForType t pre = Ok len →
  HciGetPacketLengthForType t (pre ++ post) = Ok len.
Proof.
  assert (∀ i x, unchecked (pre !! i) = Ok x → unchecked ((pre ++ post) !! i) = Ok x) as Hread.
  { intros i x Hi. apply unchecked_Ok in Hi. by rewrite (lookup_app_l_Some _ _ _ _ Hi). }
  unfold HciGetPacketLengthForType.
  intros (off & -> & (lo & Hlo & H)%bind_Ok)%bind_Ok. simpl.
  rewrite (Hread _ _ Hlo). simpl.
  destruct t; try done; apply bind_Ok in H as (hi & Hhi & H); by rewrite (Hread _ _ Hhi).
Qed.

(** With a whole header the length field is readable and below [2^16]. *)
Lemma packet_length_defined t n bytes :
  header_size t = Some n → zlength bytes = n → Forall byte_ok bytes →
  ∃ len, HciGetPacketLengthForType t bytes = Ok len ∧ 0 ≤ len < 2 ^ 16.
Proof.
  intros Ht Hn Hb. unfold zlength in Hn.
  assert (∀ b, 0 ≤ Z.land b 0x0f < 16) as Hnib.
  { intros b. apply (land_ones_fits b 4). lia. }
  destruct t; simplify_eq/=; repeat (destruct bytes as [|? bytes]; simpl in *; try lia);
    rewrite ?Forall_cons in Hb; destruct_and!;
    cbn -[Z.lor Z.shiftl Z.land]; eexists; (split; [done|]);
    rewrite ?lor_shiftl_8 by (first [done | apply Hnib | unfold fits in *; lia]);
    unfold fits in *; try lia.
  match goal with |- context [Z.land ?b 0x0f] => specialize (Hnib b) end. lia.
Qed.

(** A packet in a valid state asks for at least one byte: the receive loop never
    calls [Recv] with an empty buffer, which it would take for a disconnection. *)
Lemma wf_requests p : wf p → 1 ≤ BytesRequested p.
Proof.
  destruct p as [ty [] pt pk bw en]; unfold wf, BytesRequested; simpl; [lia|..|lia].
  - intros (_ & n & _ & ? & _). lia.
  - intros (_ & n & len & _ & _ & ? & _). lia.
Qed.

(** *** Steps of a single byte, state by state *)

Lemma consume1_type ty pt pk bw en b n :
  header_size (PacketType_of_u8 b) = Some n →
  Consume [b] (MkParser ty HCI_TYPE pt pk bw en) =
    Ok (true, MkParser (PacketType_of_u8 b) HCI_PREAMBLE b [] n en, []).
Proof.
  intros H. unfold Consume, consume_advance. simpl.
  destruct (PacketType_of_u8 b); simplify_eq/=; done.
Qed.

Lemma consume1_invalid ty pt pk bw b :
  header_size (PacketType_of_u8 b) = None →
  Consume [b] (MkParser ty HCI_TYPE pt pk bw true) =
    Ok (true, MkParser COMMAND HCI_RECOVERY b [] 1 true, []).
Proof.
  intros H. unfold Consume, consume_advance. simpl.
  destruct (PacketType_of_u8 b); simplify_eq/=; done.
Qed.

(** Bytes short of the end of a preamble or a payload are only stored. *)
Lemma consume_more st ty pt pk bw en buf :
  st = HCI_PREAMBLE ∨ st = HCI_PAYLOAD → buf ≠ [] → zlength buf < bw < 2 ^ 64 →
  Consume buf (MkParser ty st pt pk bw en) =
    Ok (true, MkParser ty st pt (pk ++ buf) (bw - zlength buf) en, []).
Proof.
  intros Hst Hne Hlt. unfold Consume.
  pose proof (zlength_pos buf Hne).
  rewrite (proj2 (Z.leb_gt _ _)) by lia.
  assert (BytesRequested (MkParser ty st pt pk bw en) = bw) as -> by by destruct Hst as [-> | ->].
  rewrite (proj2 (Z.ltb_ge _ _)) by lia.
  assert (fits 64 (bw - zlength buf)) by (unfold fits; lia).
  destruct Hst as [-> | ->]; simpl; rewrite wrap_id by done;
    unfold consume_advance; simpl; by rewrite (proj2 (Z.eqb_neq _ _)) by lia.
Qed.

(** The bytes that complete a preamble or a payload. *)
Lemma consume_last st ty pt pk en buf :
  st = HCI_PREAMBLE ∨ st = HCI_PAYLOAD → 0 < zlength buf →
  Consume buf (MkParser ty st pt pk (zlength buf) en) =
    '(p, out) ← consume_advance (MkParser ty st pt (pk ++ buf) 0 en); Ok (true, p, out).
Proof.
  intros Hst Hpos. unfold Consume. rewrite (proj2 (Z.leb_gt _ _)) by lia.
  assert (BytesRequested (MkParser ty st pt pk (zlength buf) en) = zlength buf) as ->
    by by destruct Hst as [-> | ->].
  rewrite Z.ltb_irrefl.
  destruct Hst as [-> | ->]; simpl; rewrite Z.sub_diag; done.
Qed.

(** The last bytes of a preamble: the length field decides. *)
Lemma consume_preamble_end ty pt pk bw en buf len :
  bw = zlength buf → header_size ty ≠ None → buf ≠ [] →
  HciGetPacketLengthForType ty (pk ++ buf) = Ok len →
  Consume buf (MkParser ty HCI_PREAMBLE pt pk bw en) =
    if len =? 0 then Ok (true, MkParser UNKNOWN HCI_TYPE pt (pk ++ buf) 0 en, [(ty, pk ++ buf)])
    else Ok (true, MkParser ty HCI_PAYLOAD pt (pk ++ buf) len en, []).
Proof.
  intros -> Hty Hne Hlen.
  rewrite consume_last by (auto using zlength_pos). unfold consume_advance. simpl.
  rewrite Hlen. simpl. destruct (len =? 0); [|done]. by destruct ty.
Qed.

Lemma consume_payload_end ty pt pk bw en buf :
  bw = zlength buf → header_size ty ≠ None → buf ≠ [] →
  Consume buf (MkParser ty HCI_PAYLOAD pt pk bw en) =
    Ok (true, MkParser UNKNOWN HCI_TYPE pt (pk ++ buf) 0 en, [(ty, pk ++ buf)]).
Proof.
  intros -> Hty Hne.
  rewrite consume_last by (auto using zlength_pos). unfold consume_advance. simpl.
  by destruct ty.
Qed.

(** In recovery [k] is the number of bytes of the reset command matched so far. *)
Definition recovery_state (k : nat) (pt : Z) (en : bool) : H4Parser :=
  MkParser COMMAND HCI_RECOVERY pt (take k reset_command) 1 en.

(** What one byte does to the number of matched bytes. *)
Definition recovery_next (k : nat) (b : Z) : nat :=
  if bool_decide (reset_command !! k = Some b) then S k
  else if b =? 0x01 then 1%nat else 0%nat.

Lemma consume1_recovery k pt en b :
  (k < 4)%nat →
  Consume [b] (recovery_state k pt en) =
    if bool_decide (recovery_next k b = 4%nat) then
      Ok (true, MkParser UNKNOWN HCI_TYPE pt [0x03; 0x0c; 0x00] 0 en,
          [(COMMAND, [0x03; 0x0c; 0x00])])
    else Ok (true, recovery_state (recovery_next k b) pt en, []).
Proof.
  intros Hk.
  destruct (decide (b ∈ reset_command)) as [Hin|Hout].
  - unfold reset_command in Hin. rewrite !elem_of_cons, elem_of_nil in Hin.
    destruct Hin as [->|[->|[->|[->|[]]]]];
      destruct k as [|[|[|[|]]]]; first [reflexivity | lia].
  - unfold reset_command in Hout. rewrite !elem_of_cons, elem_of_nil in Hout.
    unfold recovery_next. rewrite !(bool_decide_false (reset_command !! k = Some b)).
    2:{ destruct k as [|[|[|[|]]]]; [..|lia]; intros [= <-]; tauto. }
    unfold Consume, consume_store, consume_recovery, recovery_state.
    destruct k as [|[|[|[|]]]]; [..|lia]; simpl;
      rewrite !(proj2 (Z.eqb_neq b _)) by tauto; reflexivity.
Qed.

Lemma recovery_next_le k b : (k < 4)%nat → (recovery_next k b ≤ 4)%nat.
Proof. unfold recovery_next. intros. repeat case_match; lia. Qed.

(** *** Safety of [Consume] *)

(** A valid parser state is one of four shapes. *)
Lemma wf_cases p :
  wf p →
  state_ p = HCI_TYPE ∨
  (∃ ty pt pk bw en n,
     p = MkParser ty HCI_PREAMBLE pt pk bw en ∧ header_size ty = Some n ∧
     0 < bw ∧ zlength pk + bw = n) ∨
  (∃ ty pt pk bw en n len,
     p = MkParser ty HCI_PAYLOAD pt pk bw en ∧ header_size ty = Some n ∧
     HciGetPacketLengthForType ty pk = Ok len ∧ 0 < bw ∧ n ≤ zlength pk ∧
     len < 2 ^ 16 ∧ zlength pk + bw = n + len) ∨
  (∃ k pt en, (k < 4)%nat ∧ p = recovery_state k pt en).
Proof.
  destruct p as [ty [] pt pk bw en]; unfold wf; simpl; [by left|..].
  - intros (_ & n & ? & ? & ?). right. left. by exists ty, pt, pk, bw, en, n.
  - intros (_ & n & len & ? & ? & ? & ? & ? & ?). right. right. left.
    by exists ty, pt, pk, bw, en, n, len.
  - intros (_ & -> & -> & k & ? & ->). right. right. right. by exists k, pt, en.
Qed.

Lemma wf_type ty pt pk bw en : Forall byte_ok pk → wf (MkParser ty HCI_TYPE pt pk bw en).
Proof. done. Qed.

Lemma wf_recovery k pt en : (k < 4)%nat → wf (recovery_state k pt en).
Proof.
  intros. unfold wf, recovery_state. simpl. split; [|eauto].
  apply Forall_take. repeat constructor; unfold fits; lia.
Qed.

(** A valid parser with recovery enabled accepts any byte: no abort, no out of
    range access, and the new state is valid. *)
Lemma consume1_safe p b :
  wf p → enable_recovery_state_ p = true → byte_ok b →
  ∃ p' out, Consume [b] p = Ok (true, p', out) ∧ wf p' ∧ enable_recovery_state_ p' = true.
Proof.
  intros Hwf Hen Hb. pose proof Hwf as [Hpk _].
  apply wf_cases in Hwf as [Hst|[(ty&pt&pk&bw&en&n&->&Ht&Hbw&Hn)|
    [(ty&pt&pk&bw&en&n&len&->&Ht&Hlen&Hbw&Hge&Hmax&Hn)|(k&pt&en&Hk&->)]]]; simpl in *.
  - destruct p as [ty st pt pk bw en]; simpl in *; subst.
    destruct (header_size (PacketType_of_u8 b)) as [n|] eqn:Ht.
    + rewrite (consume1_type _ _ _ _ _ _ n Ht). do 2 eexists. split; [done|].
      split; [split; [constructor|]|done]. exists n. apply header_size_spec in Ht as ?. simpl.
      split_and!; [done|lia|unfold zlength; simpl; lia].
    + rewrite consume1_invalid by done. do 2 eexists. split; [done|].
      split; [|done]. apply (wf_recovery 0). lia.
  - assert (Forall byte_ok (pk ++ [b])) by (by apply Forall_app_2, Forall_singleton).
    destruct (decide (bw = 1)) as [->|].
    + destruct (packet_length_defined ty n (pk ++ [b])) as (len & Hlen & Hmax);
        [done|by autorewrite with rc|done|].
      erewrite (consume_preamble_end ty pt pk 1 en [b]) by (done || congruence).
      destruct (Z.eqb_spec len 0).
      * do 2 eexists. split; [done|]. by split; [apply wf_type|].
      * do 2 eexists. split; [done|]. split; [split; [done|]|done].
        exists n, len. simpl. autorewrite with rc. split_and!; (done || lia).
    + rewrite consume_more by (auto; autorewrite with rc; apply header_size_spec in Ht;
        pose proof (zlength_nonneg pk); lia).
      do 2 eexists. split; [done|]. split; [split; [done|]|done].
      exists n. simpl. autorewrite with rc. split_and!; [done|lia..].
  - assert (Forall byte_ok (pk ++ [b])) by (by apply Forall_app_2, Forall_singleton).
    destruct (decide (bw = 1)) as [->|].
    + rewrite (consume_payload_end ty pt pk 1 en [b]) by (done || congruence).
      do 2 eexists. split; [done|]. by split; [apply wf_type|].
    + rewrite consume_more by (auto; autorewrite with rc; apply header_size_spec in Ht;
        pose proof (zlength_nonneg pk); lia).
      do 2 eexists. split; [done|]. split; [split; [done|]|done].
      exists n, len. simpl. autorewrite with rc. split_and!; first [done | by apply packet_length_app | lia].
  - rewrite consume1_recovery by done. case_bool_decide as Hnext.
    + do 2 eexists. split; [done|]. split; [|done]. apply wf_type.
      repeat constructor; unfold fits; lia.
    + do 2 eexists. split; [done|]. split; [|done]. apply wf_recovery.
      pose proof (recovery_next_le k b Hk). lia.
Qed.

(** *** Chunking is invisible *)

Lemma consume_split st ty pt pk bw en b buf :
  st = HCI_PREAMBLE ∨ st = HCI_PAYLOAD → buf ≠ [] → zlength (b :: buf) ≤ bw < 2 ^ 64 →
  Consume (b :: buf) (MkParser ty st pt pk bw en) =
  Consume buf (MkParser ty st pt (pk ++ [b]) (bw - 1) en).
Proof.
  intros Hst Hne Hle. pose proof (zlength_pos buf Hne). autorewrite with rc in Hle.
  unfold Consume. autorewrite with rc.
  rewrite !(proj2 (Z.leb_gt _ _)) by lia.
  assert (∀ bw', BytesRequested (MkParser ty st pt pk bw' en) = bw') as Hreq
    by (intros; by destruct Hst as [-> | ->]).
  rewrite Hreq. change (BytesRequested (MkParser ty st pt (pk ++ [b]) (bw - 1) en))
    with (BytesRequested (MkParser ty st pt pk (bw - 1) en)). rewrite Hreq.
  rewrite !(proj2 (Z.ltb_ge _ _)) by lia.
  destruct Hst as [-> | ->]; unfold consume_store; simpl; rewrite <-app_assoc; simpl;
    by replace (bw - zlength (b :: buf)) with (bw - 1 - zlength buf)
      by (autorewrite with rc; lia).
Qed.

(** Only a preamble or a payload asks for more than one byte. *)
Lemma wf_requests_many p :
  wf p → 1 < BytesRequested p →
  ∃ st ty pt pk bw en, p = MkParser ty st pt pk bw en ∧
  (st = HCI_PREAMBLE ∨ st = HCI_PAYLOAD) ∧ BytesRequested p = bw ∧ bw < 2 ^ 64.
Proof.
  intros Hwf Hreq.
  apply wf_cases in Hwf as [Hst|[(ty&pt&pk&bw&en&n&->&Ht&Hbw&Hn)|
    [(ty&pt&pk&bw&en&n&len&->&Ht&Hlen&Hbw&Hge&Hmax&Hn)|(k&pt&en&Hk&->)]]].
  - unfold BytesRequested in Hreq. rewrite Hst in Hreq. lia.
  - apply header_size_spec in Ht. pose proof (zlength_nonneg pk).
    exists HCI_PREAMBLE, ty, pt, pk, bw, en. unfold BytesRequested. simpl.
    split_and!; [auto..|lia].
  - apply header_size_spec in Ht.
    exists HCI_PAYLOAD, ty, pt, pk, bw, en. unfold BytesRequested. simpl.
    split_and!; [auto..|lia].
  - unfold BytesRequested in Hreq. simpl in Hreq. lia.
Qed.

Lemma consume_chunk buf p :
  wf p → enable_recovery_state_ p = true → buf ≠ [] → Forall byte_ok buf →
  zlength buf ≤ BytesRequested p →
  ∃ p' out, Consume buf p = Ok (true, p', out) ∧ feed buf p = Ok (p', out) ∧
  wf p' ∧ enable_recovery_state_ p' = true.
Proof.
  revert p. induction buf as [|b buf IH]; intros p Hwf Hen Hne Hb Hle; [done|].
  apply Forall_cons in Hb as [Hb Hbuf].
  destruct (consume1_safe p b Hwf Hen Hb) as (p1 & out1 & Hc & Hwf1 & Hen1).
  destruct (decide (buf = [])) as [->|Hbufne].
  { exists p1, out1. simpl. rewrite Hc. simpl. by rewrite app_nil_r. }
  pose proof (zlength_pos buf Hbufne). autorewrite with rc in Hle.
  destruct (wf_requests_many p Hwf) as (st & ty & pt & pk & bw & en & -> & Hst & Hreq & Hbw);
    [lia|].
  rewrite (consume_more st ty pt pk bw en [b]) in Hc
    by (auto; autorewrite with rc; lia). simplify_eq.
  replace (bw - zlength [b]) with (bw - 1) in * by (unfold zlength; simpl; lia).
  destruct (IH (MkParser ty st pt (pk ++ [b]) (bw - 1) en)) as (p2 & out2 & Hc2 & Hf2 & ? & ?); auto.
  { destruct Hst as [-> | ->]; unfold BytesRequested in *; simpl in *; lia. }
  exists p2, out2. rewrite consume_split by (auto; autorewrite with rc; lia).
  split; [done|]. split; [|done]. simpl.
  rewrite (consume_more st ty pt pk bw en [b]) by (auto; autorewrite with rc; lia). simpl.
  replace (bw - zlength [b]) with (bw - 1) by (unfold zlength; simpl; lia).
  by rewrite Hf2.
Qed.

Lemma feed_app xs ys p :
  feed (xs ++ ys) p =
    '(p, o1) ← feed xs p; '(p, o2) ← feed ys p; Ok (p, o1 ++ o2).
Proof.
  revert p. induction xs as [|x xs IH]; intros p; simpl.
  - destruct (feed ys p) as [[]| | |]; done.
  - destruct (Consume [x] p) as [[[? p1] o]| | |]; simpl; [|done..].
    rewrite IH. destruct (feed xs p1) as [[p2 o1]| | |]; simpl; [|done..].
    destruct (feed ys p2) as [[p3 o2]| | |]; simpl; [|done..]. by rewrite app_assoc.
Qed.

Lemma feed_safe bytes p :
  wf p → enable_recovery_state_ p = true → Forall byte_ok bytes →
  ∃ p' out, feed bytes p = Ok (p', out) ∧ wf p' ∧ enable_recovery_state_ p' = true.
Proof.
  revert p. induction bytes as [|b bytes IH]; intros p Hwf Hen Hb; simpl; [eauto|].
  apply Forall_cons in Hb as [Hb Hbytes].
  destruct (consume1_safe p b Hwf Hen Hb) as (p1 & out1 & -> & Hwf1 & Hen1). simpl.
  destruct (IH p1) as (p2 & out2 & -> & ? & ?); [done..|]. simpl. eauto.
Qed.

(** A run of bytes that fits the request is one [Consume]. *)
Lemma feed_chunk buf p p' out :
  wf p → enable_recovery_state_ p = true → buf ≠ [] → Forall byte_ok buf →
  zlength buf ≤ BytesRequested p → Consume buf p = Ok (true, p', out) →
  feed buf p = Ok (p', out).
Proof.
  intros Hwf Hen Hne Hb Hle Hc.
  destruct (consume_chunk buf p) as (? & ? & ? & ? & _); [done..|congruence].
Qed.

(** *** Round trip *)

Lemma feed_encode d p :
  packet_wf d → wf p → state_ p = HCI_TYPE → enable_recovery_state_ p = true →
  ∃ p', feed (encode d) p = Ok (p', [d]) ∧ wf p' ∧ state_ p' = HCI_TYPE ∧
        enable_recovery_state_ p' = true.
Proof.
  destruct d as [t body]. intros (n & Ht & Hn & Hb & Hlen) Hwf Hst Hen. simpl in *.
  destruct (header_size_spec t n Ht) as [_ Hn'].
  destruct p as [ty st pt pk bw en]; simpl in *; subst.
  pose proof (consume1_type ty pt pk bw true (u8_of_PacketType t) n) as Hc.
  rewrite (header_size_of_u8 t n Ht) in Hc. specialize (Hc Ht). rewrite Hc. simpl.
  set (p1 := MkParser t HCI_PREAMBLE (u8_of_PacketType t) [] n true).
  assert (wf p1) as Hwf1.
  { split; [constructor|]. exists n. subst p1. cbn -[zlength]. change (zlength (@nil Z)) with 0. split_and!; (done || lia). }
  set (pre := take (Z.to_nat n) body). set (payload := drop (Z.to_nat n) body).
  assert (body = pre ++ payload) as Hbody by (symmetry; apply take_drop).
  assert (zlength pre = n) as Hpre by (unfold zlength in *; subst pre; rewrite length_take; lia).
  assert (zlength payload = zlength body - n) as Hpay
    by (rewrite Hbody; autorewrite with rc; lia).
  assert (pre ≠ []) by (intros E; rewrite E in Hpre; unfold zlength in Hpre; simpl in Hpre; lia).
  rewrite Hbody in Hb. apply Forall_app in Hb as [Hbpre Hbpay].
  destruct (packet_length_defined t n pre) as (len & Hlen' & Hmax); [done..|].
  assert (len = zlength payload) as ->.
  { apply (packet_length_app _ _ payload) in Hlen'. rewrite <-Hbody in Hlen'.
    rewrite Hlen' in Hlen. simplify_eq. lia. }
  destruct (consume_chunk pre p1) as (p2 & o2 & Hc2 & Hf2 & Hwf2 & Hen2); [done..|by rewrite Hpre|].
  subst p1. rewrite (consume_preamble_end t _ [] n true pre (zlength payload)) in Hc2
    by (done || congruence).
  rewrite Hbody, feed_app, Hf2. simpl.
  destruct (Z.eqb_spec (zlength payload) 0) as [Hz|Hz]; simplify_eq.
  { assert (payload = []) as -> by (destruct payload; [done|unfold zlength in Hz; simpl in Hz; lia]).
    simpl. rewrite app_nil_r. eauto. }
  assert (payload ≠ []) as Hpne by (by intros ->).
  destruct (consume_chunk payload _ Hwf2 Hen2 Hpne Hbpay) as (p3 & o3 & Hc3 & Hf3 & Hwf3 & Hen3);
    [done|].
  rewrite Hf3. simpl. rewrite consume_payload_end in Hc3 by (done || congruence).
  simplify_eq/=. eauto.
Qed.

Lemma feed_encode_all ds p :
  Forall packet_wf ds → wf p → state_ p = HCI_TYPE → enable_recovery_state_ p = true →
  ∃ p', feed (concat (encode <$> ds)) p = Ok (p', ds) ∧ wf p' ∧ state_ p' = HCI_TYPE ∧
        enable_recovery_state_ p' = true.
Proof.
  revert p. induction ds as [|d ds IH]; intros p Hds Hwf Hst Hen; [simpl; eauto|].
  apply Forall_cons in Hds as [Hd Hds].
  destruct (feed_encode d p) as (p1 & Hf & Hwf1 & Hst1 & Hen1); [done..|].
  destruct (IH p1) as (p2 & Hf2 & ? & ? & ?); [done..|].
  exists p2. change (concat (encode <$> d :: ds)) with (encode d ++ concat (encode <$> ds)).
  rewrite feed_app, Hf. cbn. by rewrite Hf2.
Qed.

Lemma encode_all_bytes ds : Forall packet_wf ds → Forall byte_ok (concat (encode <$> ds)).
Proof.
  induction 1 as [|[t body] ds (n & Ht & _ & Hb & _) _ IH]; simpl in *; [constructor|].
  constructor; [destruct t; simplify_eq/=; unfold fits; lia|]. by apply Forall_app.
Qed.

(** *** Recovery *)

(** Reference: what follows the first occurrence of the reset command. *)
Fixpoint after_reset (bytes : list Z) : option (list Z) :=
  match bytes with
  | [] => None
  | _ :: rest =>
      if bool_decide (take 4 bytes = reset_command) then Some (drop 4 bytes)
      else after_reset rest
  end.

Lemma after_reset_skip b bytes :
  take 4 (b :: bytes) ≠ reset_command → after_reset (b :: bytes) = after_reset bytes.
Proof. intros. cbn [after_reset]. by rewrite bool_decide_false. Qed.

Lemma after_reset_next k b bytes :
  (k < 4)%nat → recovery_next k b ≠ 4%nat →
  after_reset (take k reset_command ++ b :: bytes) =
  after_reset (take (recovery_next k b) reset_command ++ bytes).
Proof.
  unfold recovery_next. intros Hk Hne.
  case_bool_decide as Hmatch.
  { rewrite (take_S_r _ _ _ Hmatch). by rewrite <-app_assoc. }
  assert (∀ l, after_reset (b :: l) =
    after_reset (take (if b =? 1 then 1%nat else 0%nat) reset_command ++ l)) as Hb.
  { intros l. destruct (Z.eqb_spec b 1) as [->|Hb1]; [done|].
    apply after_reset_skip. unfold reset_command. simpl. naive_solver. }
  rewrite <-Hb.
  destruct k as [|[|[|[|]]]]; [done|..|lia]; simpl take; simpl app;
    rewrite ?(after_reset_skip 1), ?(after_reset_skip 3), ?(after_reset_skip 12);
    unfold reset_command; simpl in *; try done; try congruence.
Qed.

(** In recovery, whatever the parser already matched, it delivers nothing until
    the first HCI Reset command of the stream, delivers that command without its
    type byte, and parses what follows from a fresh state. *)
Lemma feed_recovery bytes k pt en :
  (k < 4)%nat →
  match after_reset (take k reset_command ++ bytes) with
  | None => ∃ k', (k' < 4)%nat ∧ feed bytes (recovery_state k pt en) = Ok (recovery_state k' pt en, [])
  | Some rest =>
      feed bytes (recovery_state k pt en) =
        '(p, out) ← feed rest (MkParser UNKNOWN HCI_TYPE pt [0x03; 0x0c; 0x00] 0 en);
        Ok (p, (COMMAND, [0x03; 0x0c; 0x00]) :: out)
  end.
Proof.
  revert k. induction bytes as [|b bytes IH]; intros k Hk.
  { rewrite app_nil_r.
    assert (after_reset (take k reset_command) = None) as ->
      by (destruct k as [|[|[|[|]]]]; [done..|lia]). simpl. eauto. }
  cbn [feed]. rewrite consume1_recovery by done.
  case_bool_decide as Hnext.
  - assert (after_reset (take k reset_command ++ b :: bytes) = Some bytes) as ->.
    { unfold recovery_next in Hnext. case_bool_decide as Hmatch; [|case_match; lia].
      rewrite cons_middle, app_assoc, <-(take_S_r _ _ _ Hmatch), Hnext. done. }
    simpl. by destruct (feed bytes _) as [[]| | |].
  - rewrite after_reset_next by done.
    pose proof (recovery_next_le k b Hk).
    specialize (IH (recovery_next k b) ltac:(lia)).
    case_match; simpl.
    + rewrite IH. by destruct (feed l _) as [[]| | |].
    + destruct IH as (k' & ? & ->). simpl. eauto.
Qed.

End H4Parser.

(** ** H4DataChannelPacketizer *)
Module H4DataChannelPacketizer.
Import H4Parser.

(** What [Recv] reports when no byte is pending: the peer is gone ([0]), or a
    negative result with [errno]. *)
Inductive recv_end := RecvEof | RecvEAGAIN | RecvECONNRESET | RecvError.

(** The receiving side of an [AsyncDataChannel] at the time of the call: the
    bytes pending in the kernel, how many of them each successive [Recv] is
    granted (a read may be short; at least one byte is granted, and everything
    asked for once the list is exhausted), and what follows the last byte. *)
Record channel := MkChannel {
  pending : list Z;
  grants : list nat;
  ending : recv_end;
}.

Inductive recv_result := Received (bytes : list Z) | NotReceived (e : recv_end).

Definition Recv (size : Z) (ch : channel) : recv_result * channel :=
  match pending ch with
  | [] => (NotReceived (ending ch), ch)
  | _ =>
      let granted := match grants ch with [] => Z.to_nat size | g :: _ => Nat.max 1 g end in
      let count := Nat.min (Z.to_nat size) granted in
      (Received (take count (pending ch)),
       MkChannel (drop count (pending ch)) (tail (grants ch)) (ending ch))
  end.

Record Packetizer := MkPacketizer {
  h4_parser_ : H4Parser;
  disconnected_ : bool;
}.
#[export] Instance packetizer_rebuild : Rebuild Packetizer := fun p =>
  MkPacketizer (h4_parser_ p) (disconnected_ p).

(** The constructor enables the recovery state of its parser. *)
Definition new : Packetizer := MkPacketizer (H4Parser.init true) false.

(** A callback made by the packetizer. *)
Inductive callback := OnPacket (d : delivery) | OnDisconnect.

(** [disconnected_ = true; disconnect_cb_(); return;] *)
Definition disconnect (pk : Packetizer) (out : list callback)
  : outcome (Packetizer * list callback) :=
  Ok (pk <| disconnected_ := true |>, out ++ [OnDisconnect]).

(** The endless loop of [OnDataReady], at most [fuel] rounds of it; [None] when
    the fuel runs out. *)
Fixpoint OnDataReady_loop (fuel : nat) (pk : Packetizer) (ch : channel)
    (out : list callback) : option (outcome (Packetizer * list callback)) :=
  match fuel with
  | O => None
  | S fuel =>
      match Recv (BytesRequested (h4_parser_ pk)) ch with
      | (Received [], _) => Some (disconnect pk out)
      | (Received bytes, ch) =>
          match Consume bytes (h4_parser_ pk) with
          | Ok (_, parser, delivered) =>
              OnDataReady_loop fuel (pk <| h4_parser_ := parser |>) ch
                (out ++ (OnPacket <$> delivered))
          | Fatal => Some Fatal
          | Undef => Some Undef
          | Hang => Some Hang
          end
      | (NotReceived RecvEof, _) => Some (disconnect pk out)
      | (NotReceived RecvEAGAIN, _) => Some (Ok (pk, out))
      | (NotReceived RecvECONNRESET, _) => Some (disconnect pk out)
      | (NotReceived RecvError, _) => Some Fatal
      end
  end.

(** Every round but the last takes at least one pending byte. *)
Definition OnDataReady (pk : Packetizer) (ch : channel)
  : option (outcome (Packetizer * list callback)) :=
  OnDataReady_loop (S (length (pending ch))) pk ch [].

(** What remains to be done once the pending bytes are parsed. *)
Definition after_pending (e : recv_end) (pk : Packetizer) (out : list callback)
  : outcome (Packetizer * list callback) :=
  match e with
  | RecvEAGAIN => Ok (pk, out)
  | RecvEof | RecvECONNRESET => disconnect pk out
  | RecvError => Fatal
  end.

Section Send.
Context {Chan : Type} (chan_send : list Z → Chan → Z * Chan).

(** [Send]: the type byte, then the payload, each in one call; [-1] is an error
    that is logged and then added as it is to the [size_t] total. *)
Definition Send (type : Z) (data : list Z) (ch : Chan) : Z * Chan :=
  let '(ret, ch) := chan_send [type] ch in
  let to_be_written := u64 ret in
  let '(ret, ch) := chan_send data ch in
  (u64 (to_be_written + ret), ch).
End Send.

(** *** Proofs *)

Lemma OnDataReady_loop_spec fuel pk ch out :
  wf (h4_parser_ pk) → enable_recovery_state_ (h4_parser_ pk) = true →
  Forall byte_ok (pending ch) → (length (pending ch) < fuel)%nat →
  ∃ parser delivered,
    feed (pending ch) (h4_parser_ pk) = Ok (parser, delivered) ∧
    OnDataReady_loop fuel pk ch out =
      Some (after_pending (ending ch) (pk <| h4_parser_ := parser |>)
              (out ++ (OnPacket <$> delivered))).
Proof.
  revert pk ch out. induction fuel as [|fuel IH]; intros pk ch out Hwf Hen Hb Hfuel; [lia|].
  destruct pk as [p disc], ch as [bytes gs e]; simpl in *.
  destruct bytes as [|b bytes].
  { exists p, []. simpl. rewrite app_nil_r. split; [done|]. by destruct e. }
  set (granted := match gs with [] => Z.to_nat (BytesRequested p) | g :: _ => Nat.max 1 g end).
  set (count := Nat.min (Z.to_nat (BytesRequested p)) granted).
  pose proof (wf_requests p Hwf) as Hreq.
  assert (1 ≤ granted)%nat by (unfold granted; destruct gs; lia).
  assert (1 ≤ count ≤ Z.to_nat (BytesRequested p))%nat as Hcount by lia.
  pose proof Hb as Hbd. rewrite <-(take_drop count (b :: bytes)) in Hbd.
  apply Forall_app in Hbd as [Hbt Hbd].
  assert (take count (b :: bytes) ≠ []) as Hne by (destruct count; [lia|done]).
  destruct (consume_chunk (take count (b :: bytes)) p) as (p1 & d1 & Hc & Hf & Hwf1 & Hen1); try done.
  { unfold zlength. rewrite length_take. lia. }
  destruct (IH (MkPacketizer p1 disc) (MkChannel (drop count (b :: bytes)) (tail gs) e)
              (out ++ (OnPacket <$> d1))) as (p2 & d2 & Hf2 & Hloop); simpl; try done.
  { rewrite length_drop. cbn [length] in *. lia. }
  exists p2, (d1 ++ d2). split.
  { change (feed (b :: bytes) p = Ok (p2, d1 ++ d2)).
    rewrite <-(take_drop count (b :: bytes)), feed_app, Hf. cbn. cbn [pending h4_parser_] in Hf2. by rewrite Hf2. }
  cbn [Recv pending grants ending]. fold granted count.
  destruct (take count (b :: bytes)) as [|x xs]; [done|].
  rewrite Hc. etrans; [exact Hloop|]. simpl. by rewrite fmap_app, app_assoc.
Qed.

(** C2. The receive loop is safe and terminates, and how the kernel splits the
    byte stream is invisible: from any valid parser (recovery enabled, as the
    packetizer constructs it), whatever bytes are pending and however [Recv]
    cuts them, [OnDataReady] returns, without abort or out of range access
    unless the socket itself fails, having made exactly the callbacks of parsing
    the bytes one at a time; the parser is valid again. *)
Theorem OnDataReady_chunking (pk : Packetizer) (ch : channel)
  (Hwf : wf (h4_parser_ pk)) (Hen : enable_recovery_state_ (h4_parser_ pk) = true)
  (Hbytes : Forall byte_ok (pending ch)) :
  ∃ parser delivered,
    feed (pending ch) (h4_parser_ pk) = Ok (parser, delivered) ∧ wf parser ∧
    OnDataReady pk ch =
      Some (after_pending (ending ch) (pk <| h4_parser_ := parser |>) (OnPacket <$> delivered)).
Proof.
  destruct (OnDataReady_loop_spec (S (length (pending ch))) pk ch [])
    as (p & d & Hf & Hl); [done..|lia|].
  destruct (feed_safe _ _ Hwf Hen Hbytes) as (p' & d' & Hf' & Hwf' & _).
  rewrite Hf in Hf'. injection Hf' as <- <-. exists p, d. by rewrite Hf.
Qed.

(** A stream that ends in the middle of a payload, cut into short reads. *)
Lemma OnDataReady_chunking_witness :
  ∃ parser delivered,
    feed [0x01; 0x03; 0x0c; 0x00; 0x02; 0x05] (h4_parser_ new) = Ok (parser, delivered) ∧
    wf parser ∧
    OnDataReady new (MkChannel [0x01; 0x03; 0x0c; 0x00; 0x02; 0x05] [1; 2; 1; 5]%nat RecvEAGAIN) =
      Some (after_pending RecvEAGAIN (new <| h4_parser_ := parser |>) (OnPacket <$> delivered)).
Proof.
  apply (OnDataReady_chunking new
    (MkChannel [0x01; 0x03; 0x0c; 0x00; 0x02; 0x05] [1; 2; 1; 5]%nat RecvEAGAIN)).
  - split; [constructor|exact I].
  - reflexivity.
  - bytes.
Defined.

(** C1. Round trip of the transport: a parser between two packets that receives
    the bytes of any sequence of well formed command, ACL, SCO, event and ISO
    packets, cut in any way by the kernel, hands exactly those packets, in
    order and unaltered, to the callbacks, and is between two packets again. *)
Theorem OnDataReady_roundtrip (pk : Packetizer) (ds : list delivery) (gs : list nat)
  (Hwf : wf (h4_parser_ pk)) (Hen : enable_recovery_state_ (h4_parser_ pk) = true)
  (Hst : state_ (h4_parser_ pk) = HCI_TYPE) (Hds : Forall packet_wf ds) :
  ∃ parser, state_ parser = HCI_TYPE ∧ wf parser ∧
    OnDataReady pk (MkChannel (concat (encode <$> ds)) gs RecvEAGAIN) =
      Some (Ok (pk <| h4_parser_ := parser |>, OnPacket <$> ds)).
Proof.
  destruct (feed_encode_all ds (h4_parser_ pk)) as (p & Hf & Hwfp & Hstp & _); [done..|].
  destruct (OnDataReady_loop_spec (S (length (concat (encode <$> ds)))) pk
    (MkChannel (concat (encode <$> ds)) gs RecvEAGAIN) []) as (p' & d & Hf' & Hl);
    [done..|by apply encode_all_bytes|simpl; lia|].
  cbn [pending] in Hf'. rewrite Hf in Hf'. injection Hf' as <- <-. by exists p.
Qed.

Lemma OnDataReady_roundtrip_witness :
  ∃ parser, state_ parser = HCI_TYPE ∧ wf parser ∧
    OnDataReady new
      (MkChannel (concat (encode <$> [(ACL, [0x01; 0x20; 0x02; 0x00; 0xaa; 0xbb]);
                                      (EVENT, [0x0e; 0x00])])) [3; 1]%nat RecvEAGAIN) =
      Some (Ok (new <| h4_parser_ := parser |>,
                OnPacket <$> [(ACL, [0x01; 0x20; 0x02; 0x00; 0xaa; 0xbb]); (EVENT, [0x0e; 0x00])])).
Proof.
  apply (OnDataReady_roundtrip new).
  - split; [constructor|exact I].
  - reflexivity.
  - reflexivity.
  - constructor; [|constructor; [|constructor]].
    + exists 4. split_and!; [reflexivity|vm_compute; discriminate| |reflexivity].
      bytes.
    + exists 2. split_and!; [reflexivity|vm_compute; discriminate| |reflexivity].
      bytes.
Defined.

(** C40. Recovery: once an invalid type byte put the parser in recovery, the
    callbacks see nothing until the first HCI Reset command of the stream; that
    command is delivered, without its type byte, and parsing resumes from the
    next byte.  The parser's incremental matching thus agrees with the naive
    search of the command in the stream, for every split of the stream between
    the matched prefix [k] and the pending bytes. *)
Theorem recovery_resynchronises (bytes : list Z) (k : nat) (pt : Z) (en : bool)
  (Hk : (k < 4)%nat) :
  match after_reset (take k reset_command ++ bytes) with
  | None =>
      ∃ k', (k' < 4)%nat ∧
        feed bytes (recovery_state k pt en) = Ok (recovery_state k' pt en, [])
  | Some rest =>
      feed bytes (recovery_state k pt en) =
        '(p, out) ← feed rest (MkParser UNKNOWN HCI_TYPE pt [0x03; 0x0c; 0x00] 0 en);
        Ok (p, (COMMAND, [0x03; 0x0c; 0x00]) :: out)
  end.
Proof. by apply feed_recovery. Qed.

Lemma recovery_resynchronises_witness :
  (2 < 4)%nat ∧
  feed [0x01; 0x03; 0x0c; 0x00; 0x04] (recovery_state 2 0x77 true) =
    '(p, out) ← feed [0x04] (MkParser UNKNOWN HCI_TYPE 0x77 [0x03; 0x0c; 0x00] 0 true);
    Ok (p, (COMMAND, [0x03; 0x0c; 0x00]) :: out).
Proof.
  split; [lia|].
  exact (recovery_resynchronises [0x01; 0x03; 0x0c; 0x00; 0x04] 2 0x77 true ltac:(lia)).
Defined.

End H4DataChannelPacketizer.
