(* ===== verification/HciTypes.v ===== *)
(** * Enumerations of the HCI and link layer packets (packets/hci_packets.pdl,
    packets/link_layer_packets.pdl)

    One module per enumeration, as the scoped enumerations of the generated
    header are used: [ErrorCode.SUCCESS], [AddressType.PUBLIC_DEVICE_ADDRESS].
    [to_Z] is the value on the wire. *)

From S2P Require Import Prelude.

Module ErrorCode.
Inductive t :=
| STATUS_UNKNOWN
| SUCCESS
| UNKNOWN_HCI_COMMAND
| UNKNOWN_CONNECTION
| HARDWARE_FAILURE
| PAGE_TIMEOUT
| AUTHENTICATION_FAILURE
| PIN_OR_KEY_MISSING
| MEMORY_CAPACITY_EXCEEDED
| CONNECTION_TIMEOUT
| CONNECTION_LIMIT_EXCEEDED
| SYNCHRONOUS_CONNECTION_LIMIT_EXCEEDED
| CONNECTION_ALREADY_EXISTS
| COMMAND_DISALLOWED
| CONNECTION_REJECTED_LIMITED_RESOURCES
| CONNECTION_REJECTED_SECURITY_REASONS
| CONNECTION_REJECTED_UNACCEPTABLE_BD_ADDR
| CONNECTION_ACCEPT_TIMEOUT
| UNSUPPORTED_FEATURE_OR_PARAMETER_VALUE
| INVALID_HCI_COMMAND_PARAMETERS
| REMOTE_USER_TERMINATED_CONNECTION
| REMOTE_DEVICE_TERMINATED_CONNECTION_LOW_RESOURCES
| REMOTE_DEVICE_TERMINATED_CONNECTION_POWER_OFF
| CONNECTION_TERMINATED_BY_LOCAL_HOST
| REPEATED_ATTEMPTS
| PAIRING_NOT_ALLOWED
| UNKNOWN_LMP_PDU
| UNSUPPORTED_REMOTE_OR_LMP_FEATURE
| SCO_OFFSET_REJECTED
| SCO_INTERVAL_REJECTED
| SCO_AIR_MODE_REJECTED
| INVALID_LMP_OR_LL_PARAMETERS
| UNSPECIFIED_ERROR
| UNSUPPORTED_LMP_OR_LL_PARAMETER
| ROLE_CHANGE_NOT_ALLOWED
| TRANSACTION_RESPONSE_TIMEOUT
| LINK_LAYER_COLLISION
| ENCRYPTION_MODE_NOT_ACCEPTABLE
| INSUFFICIENT_SECURITY
| ROLE_SWITCH_FAILED
| HOST_BUSY
| CONTROLLER_BUSY
| ADVERTISING_TIMEOUT
| CONNECTION_FAILED_ESTABLISHMENT
| UNKNOWN_ADVERTISING_IDENTIFIER
| LIMIT_REACHED
| OPERATION_CANCELLED_BY_HOST
| PACKET_TOO_LONG
| INSUFFICIENT_CHANNELS.
#[global] Instance t_eq_dec : EqDecision t.
Proof. solve_decision. Defined.
Definition to_Z (x : t) : Z :=
  match x with
  | STATUS_UNKNOWN => 0xFF
  | SUCCESS => 0x00
  | UNKNOWN_HCI_COMMAND => 0x01
  | UNKNOWN_CONNECTION => 0x02
  | HARDWARE_FAILURE => 0x03
  | PAGE_TIMEOUT => 0x04
  | AUTHENTICATION_FAILURE => 0x05
  | PIN_OR_KEY_MISSING => 0x06
  | MEMORY_CAPACITY_EXCEEDED => 0x07
  | CONNECTION_TIMEOUT => 0x08
  | CONNECTION_LIMIT_EXCEEDED => 0x09
  | SYNCHRONOUS_CONNECTION_LIMIT_EXCEEDED => 0x0A
  | CONNECTION_ALREADY_EXISTS => 0x0B
  | COMMAND_DISALLOWED => 0x0C
  | CONNECTION_REJECTED_LIMITED_RESOURCES => 0x0D
  | CONNECTION_REJECTED_SECURITY_REASONS => 0x0E
  | CONNECTION_REJECTED_UNACCEPTABLE_BD_ADDR => 0x0F
  | CONNECTION_ACCEPT_TIMEOUT => 0x10
  | UNSUPPORTED_FEATURE_OR_PARAMETER_VALUE => 0x11
  | INVALID_HCI_COMMAND_PARAMETERS => 0x12
  | REMOTE_USER_TERMINATED_CONNECTION => 0x13
  | REMOTE_DEVICE_TERMINATED_CONNECTION_LOW_RESOURCES => 0x14
  | REMOTE_DEVICE_TERMINATED_CONNECTION_POWER_OFF => 0x15
  | CONNECTION_TERMINATED_BY_LOCAL_HOST => 0x16
  | REPEATED_ATTEMPTS => 0x17
  | PAIRING_NOT_ALLOWED => 0x18
  | UNKNOWN_LMP_PDU => 0x19
  | UNSUPPORTED_REMOTE_OR_LMP_FEATURE => 0x1A
  | SCO_OFFSET_REJECTED => 0x1B
  | SCO_INTERVAL_REJECTED => 0x1C
  | SCO_AIR_MODE_REJECTED => 0x1D
  | INVALID_LMP_OR_LL_PARAMETERS => 0x1E
  | UNSPECIFIED_ERROR => 0x1F
  | UNSUPPORTED_LMP_OR_LL_PARAMETER => 0x20
  | ROLE_CHANGE_NOT_ALLOWED => 0x21
  | TRANSACTION_RESPONSE_TIMEOUT => 0x22
  | LINK_LAYER_COLLISION => 0x23
  | ENCRYPTION_MODE_NOT_ACCEPTABLE => 0x25
  | INSUFFICIENT_SECURITY => 0x2F
  | ROLE_SWITCH_FAILED => 0x35
  | HOST_BUSY => 0x38
  | CONTROLLER_BUSY => 0x3A
  | ADVERTISING_TIMEOUT => 0x3C
  | CONNECTION_FAILED_ESTABLISHMENT => 0x3E
  | UNKNOWN_ADVERTISING_IDENTIFIER => 0x42
  | LIMIT_REACHED => 0x43
  | OPERATION_CANCELLED_BY_HOST => 0x44
  | PACKET_TOO_LONG => 0x45
  | INSUFFICIENT_CHANNELS => 0x48
  end.
End ErrorCode.

Module Role.
Inductive t :=
| CENTRAL
| PERIPHERAL.
#[global] Instance t_eq_dec : EqDecision t.
Proof. solve_decision. Defined.
Definition to_Z (x : t) : Z :=
  match x with
  | CENTRAL => 0x00
  | PERIPHERAL => 0x01
  end.
End Role.

Module AddressType.
Inductive t :=
| PUBLIC_DEVICE_ADDRESS
| RANDOM_DEVICE_ADDRESS
| PUBLIC_IDENTITY_ADDRESS
| RANDOM_IDENTITY_ADDRESS.
#[global] Instance t_eq_dec : EqDecision t.
Proof. solve_decision. Defined.
Definition to_Z (x : t) : Z :=
  match x with
  | PUBLIC_DEVICE_ADDRESS => 0x00
  | RANDOM_DEVICE_ADDRESS => 0x01
  | PUBLIC_IDENTITY_ADDRESS => 0x02
  | RANDOM_IDENTITY_ADDRESS => 0x03
  end.
End AddressType.

Module OwnAddressType.
Inductive t :=
| PUBLIC_DEVICE_ADDRESS
| RANDOM_DEVICE_ADDRESS
| RESOLVABLE_OR_PUBLIC_ADDRESS
| RESOLVABLE_OR_RANDOM_ADDRESS.
#[global] Instance t_eq_dec : EqDecision t.
Proof. solve_decision. Defined.
Definition to_Z (x : t) : Z :=
  match x with
  | PUBLIC_DEVICE_ADDRESS => 0x00
  | RANDOM_DEVICE_ADDRESS => 0x01
  | RESOLVABLE_OR_PUBLIC_ADDRESS => 0x02
  | RESOLVABLE_OR_RANDOM_ADDRESS => 0x03
  end.
End OwnAddressType.

Module PeerAddressType.
Inductive t :=
| PUBLIC_DEVICE_OR_IDENTITY_ADDRESS
| RANDOM_DEVICE_OR_IDENTITY_ADDRESS.
#[global] Instance t_eq_dec : EqDecision t.
Proof. solve_decision. Defined.
Definition to_Z (x : t) : Z :=
  match x with
  | PUBLIC_DEVICE_OR_IDENTITY_ADDRESS => 0x00
  | RANDOM_DEVICE_OR_IDENTITY_ADDRESS => 0x01
  end.
End PeerAddressType.

Module FilterAcceptListAddressType.
Inductive t :=
| PUBLIC
| RANDOM
| ANONYMOUS_ADVERTISERS.
#[global] Instance t_eq_dec : EqDecision t.
Proof. solve_decision. Defined.
Definition to_Z (x : t) : Z :=
  match x with
  | PUBLIC => 0x00
  | RANDOM => 0x01
  | ANONYMOUS_ADVERTISERS => 0xFF
  end.
End FilterAcceptListAddressType.

Module AdvertiserAddressType.
Inductive t :=
| PUBLIC_DEVICE_OR_IDENTITY_ADDRESS
| RANDOM_DEVICE_OR_IDENTITY_ADDRESS.
#[global] Instance t_eq_dec : EqDecision t.
Proof. solve_decision. Defined.
Definition to_Z (x : t) : Z :=
  match x with
  | PUBLIC_DEVICE_OR_IDENTITY_ADDRESS => 0x00
  | RANDOM_DEVICE_OR_IDENTITY_ADDRESS => 0x01
  end.
End AdvertiserAddressType.

Module PrivacyMode.
Inductive t :=
| NETWORK
| DEVICE.
#[global] Instance t_eq_dec : EqDecision t.
Proof. solve_decision. Defined.
Definition to_Z (x : t) : Z :=
  match x with
  | NETWORK => 0
  | DEVICE => 1
  end.
End PrivacyMode.

Module AdvertisingType.
Inductive t :=
| ADV_IND
| ADV_DIRECT_IND_HIGH
| ADV_SCAN_IND
| ADV_NONCONN_IND
| ADV_DIRECT_IND_LOW.
#[global] Instance t_eq_dec : EqDecision t.
Proof. solve_decision. Defined.
Definition to_Z (x : t) : Z :=
  match x with
  | ADV_IND => 0x00
  | ADV_DIRECT_IND_HIGH => 0x01
  | ADV_SCAN_IND => 0x02
  | ADV_NONCONN_IND => 0x03
  | ADV_DIRECT_IND_LOW => 0x04
  end.
End AdvertisingType.

Module AdvertisingFilterPolicy.
Inductive t :=
| ALL_DEVICES
| LISTED_SCAN
| LISTED_CONNECT
| LISTED_SCAN_AND_CONNECT.
#[global] Instance t_eq_dec : EqDecision t.
Proof. solve_decision. Defined.
Definition to_Z (x : t) : Z :=
  match x with
  | ALL_DEVICES => 0
  | LISTED_SCAN => 1
  | LISTED_CONNECT => 2
  | LISTED_SCAN_AND_CONNECT => 3
  end.
End AdvertisingFilterPolicy.

Module LegacyAdvertisingEventProperties.
Inductive t :=
| ADV_IND
| ADV_DIRECT_IND_LOW
| ADV_DIRECT_IND_HIGH
| ADV_SCAN_IND
| ADV_NONCONN_IND.
#[global] Instance t_eq_dec : EqDecision t.
Proof. solve_decision. Defined.
Definition to_Z (x : t) : Z :=
  match x with
  | ADV_IND => 0x3
  | ADV_DIRECT_IND_LOW => 0x5
  | ADV_DIRECT_IND_HIGH => 0xD
  | ADV_SCAN_IND => 0x2
  | ADV_NONCONN_IND => 0
  end.
End LegacyAdvertisingEventProperties.

Module PrimaryPhyType.
Inductive t :=
| LE_1M
| LE_CODED.
#[global] Instance t_eq_dec : EqDecision t.
Proof. solve_decision. Defined.
Definition to_Z (x : t) : Z :=
  match x with
  | LE_1M => 0x01
  | LE_CODED => 0x03
  end.
End PrimaryPhyType.

Module SecondaryPhyType.
Inductive t :=
| NO_PACKETS
| LE_1M
| LE_2M
| LE_CODED.
#[global] Instance t_eq_dec : EqDecision t.
Proof. solve_decision. Defined.
Definition to_Z (x : t) : Z :=
  match x with
  | NO_PACKETS => 0x00
  | LE_1M => 0x01
  | LE_2M => 0x02
  | LE_CODED => 0x03
  end.
End SecondaryPhyType.

Module PhyType.
Inductive t :=
| LE_1M
| LE_2M
| LE_CODED.
#[global] Instance t_eq_dec : EqDecision t.
Proof. solve_decision. Defined.
Definition to_Z (x : t) : Z :=
  match x with
  | LE_1M => 0x01
  | LE_2M => 0x02
  | LE_CODED => 0x03
  end.
End PhyType.

Module Operation.
Inductive t :=
| INTERMEDIATE_FRAGMENT
| FIRST_FRAGMENT
| LAST_FRAGMENT
| COMPLETE_ADVERTISEMENT
| UNCHANGED_DATA.
#[global] Instance t_eq_dec : EqDecision t.
Proof. solve_decision. Defined.
Definition to_Z (x : t) : Z :=
  match x with
  | INTERMEDIATE_FRAGMENT => 0
  | FIRST_FRAGMENT => 1
  | LAST_FRAGMENT => 2
  | COMPLETE_ADVERTISEMENT => 3
  | UNCHANGED_DATA => 4
  end.
End Operation.

Module LeScanType.
Inductive t :=
| PASSIVE
| ACTIVE.
#[global] Instance t_eq_dec : EqDecision t.
Proof. solve_decision. Defined.
Definition to_Z (x : t) : Z :=
  match x with
  | PASSIVE => 0x00
  | ACTIVE => 0x01
  end.
End LeScanType.

Module LeScanningFilterPolicy.
Inductive t :=
| ACCEPT_ALL
| FILTER_ACCEPT_LIST_ONLY
| CHECK_INITIATORS_IDENTITY
| FILTER_ACCEPT_LIST_AND_INITIATORS_IDENTITY.
#[global] Instance t_eq_dec : EqDecision t.
Proof. solve_decision. Defined.
Definition to_Z (x : t) : Z :=
  match x with
  | ACCEPT_ALL => 0x00
  | FILTER_ACCEPT_LIST_ONLY => 0x01
  | CHECK_INITIATORS_IDENTITY => 0x02
  | FILTER_ACCEPT_LIST_AND_INITIATORS_IDENTITY => 0x03
  end.
End LeScanningFilterPolicy.

Module FilterDuplicates.
Inductive t :=
| DISABLED
| ENABLED
| RESET_EACH_PERIOD.
#[global] Instance t_eq_dec : EqDecision t.
Proof. solve_decision. Defined.
Definition to_Z (x : t) : Z :=
  match x with
  | DISABLED => 0
  | ENABLED => 1
  | RESET_EACH_PERIOD => 2
  end.
End FilterDuplicates.

Module InitiatorFilterPolicy.
Inductive t :=
| USE_PEER_ADDRESS
| USE_FILTER_ACCEPT_LIST_WITH_PEER_ADDRESS
| USE_DECISION_PDUS
| USE_FILTER_ACCEPT_LIST_WITH_DECISION_PDUS.
#[global] Instance t_eq_dec : EqDecision t.
Proof. solve_decision. Defined.
Definition to_Z (x : t) : Z :=
  match x with
  | USE_PEER_ADDRESS => 0x00
  | USE_FILTER_ACCEPT_LIST_WITH_PEER_ADDRESS => 0x01
  | USE_DECISION_PDUS => 0x02
  | USE_FILTER_ACCEPT_LIST_WITH_DECISION_PDUS => 0x03
  end.
End InitiatorFilterPolicy.

Module EventCode.
Inductive t :=
| INQUIRY_COMPLETE
| INQUIRY_RESULT
| CONNECTION_COMPLETE
| CONNECTION_REQUEST
| DISCONNECTION_COMPLETE
| AUTHENTICATION_COMPLETE
| REMOTE_NAME_REQUEST_COMPLETE
| ENCRYPTION_CHANGE
| CHANGE_CONNECTION_LINK_KEY_COMPLETE
| CENTRAL_LINK_KEY_COMPLETE
| READ_REMOTE_SUPPORTED_FEATURES_COMPLETE
| READ_REMOTE_VERSION_INFORMATION_COMPLETE
| QOS_SETUP_COMPLETE
| COMMAND_COMPLETE
| COMMAND_STATUS
| HARDWARE_ERROR
| FLUSH_OCCURRED
| ROLE_CHANGE
| NUMBER_OF_COMPLETED_PACKETS
| MODE_CHANGE
| RETURN_LINK_KEYS
| PIN_CODE_REQUEST
| LINK_KEY_REQUEST
| LINK_KEY_NOTIFICATION
| LOOPBACK_COMMAND
| DATA_BUFFER_OVERFLOW
| MAX_SLOTS_CHANGE
| READ_CLOCK_OFFSET_COMPLETE
| CONNECTION_PACKET_TYPE_CHANGED
| QOS_VIOLATION
| PAGE_SCAN_REPETITION_MODE_CHANGE
| FLOW_SPECIFICATION_COMPLETE
| INQUIRY_RESULT_WITH_RSSI
| READ_REMOTE_EXTENDED_FEATURES_COMPLETE
| SYNCHRONOUS_CONNECTION_COMPLETE
| SYNCHRONOUS_CONNECTION_CHANGED
| SNIFF_SUBRATING
| EXTENDED_INQUIRY_RESULT
| ENCRYPTION_KEY_REFRESH_COMPLETE
| IO_CAPABILITY_REQUEST
| IO_CAPABILITY_RESPONSE
| USER_CONFIRMATION_REQUEST
| USER_PASSKEY_REQUEST
| REMOTE_OOB_DATA_REQUEST
| SIMPLE_PAIRING_COMPLETE
| LINK_SUPERVISION_TIMEOUT_CHANGED
| ENHANCED_FLUSH_COMPLETE
| USER_PASSKEY_NOTIFICATION
| KEYPRESS_NOTIFICATION
| REMOTE_HOST_SUPPORTED_FEATURES_NOTIFICATION
| LE_META_EVENT
| NUMBER_OF_COMPLETED_DATA_BLOCKS
| AUTHENTICATED_PAYLOAD_TIMEOUT_EXPIRED
| ENCRYPTION_CHANGE_V2
| VENDOR_SPECIFIC.
#[global] Instance t_eq_dec : EqDecision t.
Proof. solve_decision. Defined.
Definition to_Z (x : t) : Z :=
  match x with
  | INQUIRY_COMPLETE => 0x01
  | INQUIRY_RESULT => 0x02
  | CONNECTION_COMPLETE => 0x03
  | CONNECTION_REQUEST => 0x04
  | DISCONNECTION_COMPLETE => 0x05
  | AUTHENTICATION_COMPLETE => 0x06
  | REMOTE_NAME_REQUEST_COMPLETE => 0x07
  | ENCRYPTION_CHANGE => 0x08
  | CHANGE_CONNECTION_LINK_KEY_COMPLETE => 0x09
  | CENTRAL_LINK_KEY_COMPLETE => 0x0A
  | READ_REMOTE_SUPPORTED_FEATURES_COMPLETE => 0x0B
  | READ_REMOTE_VERSION_INFORMATION_COMPLETE => 0x0C
  | QOS_SETUP_COMPLETE => 0x0D
  | COMMAND_COMPLETE => 0x0E
  | COMMAND_STATUS => 0x0F
  | HARDWARE_ERROR => 0x10
  | FLUSH_OCCURRED => 0x11
  | ROLE_CHANGE => 0x12
  | NUMBER_OF_COMPLETED_PACKETS => 0x13
  | MODE_CHANGE => 0x14
  | RETURN_LINK_KEYS => 0x15
  | PIN_CODE_REQUEST => 0x16
  | LINK_KEY_REQUEST => 0x17
  | LINK_KEY_NOTIFICATION => 0x18
  | LOOPBACK_COMMAND => 0x19
  | DATA_BUFFER_OVERFLOW => 0x1A
  | MAX_SLOTS_CHANGE => 0x1B
  | READ_CLOCK_OFFSET_COMPLETE => 0x1C
  | CONNECTION_PACKET_TYPE_CHANGED => 0x1D
  | QOS_VIOLATION => 0x1E
  | PAGE_SCAN_REPETITION_MODE_CHANGE => 0x20
  | FLOW_SPECIFICATION_COMPLETE => 0x21
  | INQUIRY_RESULT_WITH_RSSI => 0x22
  | READ_REMOTE_EXTENDED_FEATURES_COMPLETE => 0x23
  | SYNCHRONOUS_CONNECTION_COMPLETE => 0x2C
  | SYNCHRONOUS_CONNECTION_CHANGED => 0x2D
  | SNIFF_SUBRATING => 0x2E
  | EXTENDED_INQUIRY_RESULT => 0x2F
  | ENCRYPTION_KEY_REFRESH_COMPLETE => 0x30
  | IO_CAPABILITY_REQUEST => 0x31
  | IO_CAPABILITY_RESPONSE => 0x32
  | USER_CONFIRMATION_REQUEST => 0x33
  | USER_PASSKEY_REQUEST => 0x34
  | REMOTE_OOB_DATA_REQUEST => 0x35
  | SIMPLE_PAIRING_COMPLETE => 0x36
  | LINK_SUPERVISION_TIMEOUT_CHANGED => 0x38
  | ENHANCED_FLUSH_COMPLETE => 0x39
  | USER_PASSKEY_NOTIFICATION => 0x3B
  | KEYPRESS_NOTIFICATION => 0x3C
  | REMOTE_HOST_SUPPORTED_FEATURES_NOTIFICATION => 0x3D
  | LE_META_EVENT => 0x3e
  | NUMBER_OF_COMPLETED_DATA_BLOCKS => 0x48
  | AUTHENTICATED_PAYLOAD_TIMEOUT_EXPIRED => 0x57
  | ENCRYPTION_CHANGE_V2 => 0x59
  | VENDOR_SPECIFIC => 0xFF
  end.
End EventCode.

Module SubeventCode.
Inductive t :=
| LE_CONNECTION_COMPLETE
| LE_ADVERTISING_REPORT
| LE_CONNECTION_UPDATE_COMPLETE
| LE_READ_REMOTE_FEATURES_PAGE_0_COMPLETE
| LE_LONG_TERM_KEY_REQUEST
| LE_REMOTE_CONNECTION_PARAMETER_REQUEST
| LE_DATA_LENGTH_CHANGE
| LE_READ_LOCAL_P256_PUBLIC_KEY_COMPLETE
| LE_GENERATE_DHKEY_COMPLETE
| LE_ENHANCED_CONNECTION_COMPLETE_V1
| LE_DIRECTED_ADVERTISING_REPORT
| LE_PHY_UPDATE_COMPLETE
| LE_EXTENDED_ADVERTISING_REPORT
| LE_PERIODIC_ADVERTISING_SYNC_ESTABLISHED_V1
| LE_PERIODIC_ADVERTISING_REPORT_V1
| LE_PERIODIC_ADVERTISING_SYNC_LOST
| LE_SCAN_TIMEOUT
| LE_ADVERTISING_SET_TERMINATED
| LE_SCAN_REQUEST_RECEIVED
| LE_CHANNEL_SELECTION_ALGORITHM
| LE_CONNECTIONLESS_IQ_REPORT
| LE_CONNECTION_IQ_REPORT
| LE_CTE_REQUEST_FAILED
| LE_PERIODIC_ADVERTISING_SYNC_TRANSFER_RECEIVED_V1
| LE_CIS_ESTABLISHED_V1
| LE_CIS_REQUEST
| LE_CREATE_BIG_COMPLETE
| LE_TERMINATE_BIG_COMPLETE
| LE_BIG_SYNC_ESTABLISHED
| LE_BIG_SYNC_LOST
| LE_REQUEST_PEER_SCA_COMPLETE
| LE_PATH_LOSS_THRESHOLD
| LE_TRANSMIT_POWER_REPORTING
| LE_BIG_INFO_ADVERTISING_REPORT
| LE_SUBRATE_CHANGE
| LE_PERIODIC_ADVERTISING_SYNC_ESTABLISHED_V2
| LE_PERIODIC_ADVERTISING_REPORT_V2
| LE_PERIODIC_ADVERTISING_SYNC_TRANSFER_RECEIVED_V2
| LE_PERIODIC_ADVERTISING_SUBEVENT_DATA_REQUEST
| LE_PERIODIC_ADVERTISING_RESPONSE_REPORT
| LE_ENHANCED_CONNECTION_COMPLETE_V2
| LE_CIS_ESTABLISHED_V2
| LE_READ_ALL_REMOTE_FEATURES_COMPLETE
| LE_CS_READ_REMOTE_SUPPORTED_CAPABILITIES_COMPLETE
| LE_CS_READ_REMOTE_FAE_TABLE_COMPLETE
| LE_CS_SECURITY_ENABLE_COMPLETE
| LE_CS_CONFIG_COMPLETE
| LE_CS_PROCEDURE_ENABLE_COMPLETE
| LE_CS_SUBEVENT_RESULT
| LE_CS_SUBEVENT_RESULT_CONTINUE
| LE_CS_TEST_END_COMPLETE
| LE_MONITORED_ADVERTISERS_REPORT
| LE_FRAME_SPACE_UPDATE_COMPLETE.
#[global] Instance t_eq_dec : EqDecision t.
Proof. solve_decision. Defined.
Definition to_Z (x : t) : Z :=
  match x with
  | LE_CONNECTION_COMPLETE => 0x01
  | LE_ADVERTISING_REPORT => 0x02
  | LE_CONNECTION_UPDATE_COMPLETE => 0x03
  | LE_READ_REMOTE_FEATURES_PAGE_0_COMPLETE => 0x04
  | LE_LONG_TERM_KEY_REQUEST => 0x05
  | LE_REMOTE_CONNECTION_PARAMETER_REQUEST => 0x06
  | LE_DATA_LENGTH_CHANGE => 0x07
  | LE_READ_LOCAL_P256_PUBLIC_KEY_COMPLETE => 0x08
  | LE_GENERATE_DHKEY_COMPLETE => 0x09
  | LE_ENHANCED_CONNECTION_COMPLETE_V1 => 0x0a
  | LE_DIRECTED_ADVERTISING_REPORT => 0x0b
  | LE_PHY_UPDATE_COMPLETE => 0x0c
  | LE_EXTENDED_ADVERTISING_REPORT => 0x0D
  | LE_PERIODIC_ADVERTISING_SYNC_ESTABLISHED_V1 => 0x0E
  | LE_PERIODIC_ADVERTISING_REPORT_V1 => 0x0F
  | LE_PERIODIC_ADVERTISING_SYNC_LOST => 0x10
  | LE_SCAN_TIMEOUT => 0x11
  | LE_ADVERTISING_SET_TERMINATED => 0x12
  | LE_SCAN_REQUEST_RECEIVED => 0x13
  | LE_CHANNEL_SELECTION_ALGORITHM => 0x14
  | LE_CONNECTIONLESS_IQ_REPORT => 0x15
  | LE_CONNECTION_IQ_REPORT => 0x16
  | LE_CTE_REQUEST_FAILED => 0x17
  | LE_PERIODIC_ADVERTISING_SYNC_TRANSFER_RECEIVED_V1 => 0x18
  | LE_CIS_ESTABLISHED_V1 => 0x19
  | LE_CIS_REQUEST => 0x1A
  | LE_CREATE_BIG_COMPLETE => 0x1B
  | LE_TERMINATE_BIG_COMPLETE => 0x1C
  | LE_BIG_SYNC_ESTABLISHED => 0x1D
  | LE_BIG_SYNC_LOST => 0x1E
  | LE_REQUEST_PEER_SCA_COMPLETE => 0x1F
  | LE_PATH_LOSS_THRESHOLD => 0x20
  | LE_TRANSMIT_POWER_REPORTING => 0x21
  | LE_BIG_INFO_ADVERTISING_REPORT => 0x22
  | LE_SUBRATE_CHANGE => 0x23
  | LE_PERIODIC_ADVERTISING_SYNC_ESTABLISHED_V2 => 0x24
  | LE_PERIODIC_ADVERTISING_REPORT_V2 => 0x25
  | LE_PERIODIC_ADVERTISING_SYNC_TRANSFER_RECEIVED_V2 => 0x26
  | LE_PERIODIC_ADVERTISING_SUBEVENT_DATA_REQUEST => 0x27
  | LE_PERIODIC_ADVERTISING_RESPONSE_REPORT => 0x28
  | LE_ENHANCED_CONNECTION_COMPLETE_V2 => 0x29
  | LE_CIS_ESTABLISHED_V2 => 0x2A
  | LE_READ_ALL_REMOTE_FEATURES_COMPLETE => 0x2B
  | LE_CS_READ_REMOTE_SUPPORTED_CAPABILITIES_COMPLETE => 0x2C
  | LE_CS_READ_REMOTE_FAE_TABLE_COMPLETE => 0x2D
  | LE_CS_SECURITY_ENABLE_COMPLETE => 0x2E
  | LE_CS_CONFIG_COMPLETE => 0x2F
  | LE_CS_PROCEDURE_ENABLE_COMPLETE => 0x30
  | LE_CS_SUBEVENT_RESULT => 0x31
  | LE_CS_SUBEVENT_RESULT_CONTINUE => 0x32
  | LE_CS_TEST_END_COMPLETE => 0x33
  | LE_MONITORED_ADVERTISERS_REPORT => 0x34
  | LE_FRAME_SPACE_UPDATE_COMPLETE => 0x35
  end.
End SubeventCode.

Module LLFeaturesBits.
Inductive t :=
| LE_ENCRYPTION
| CONNECTION_PARAMETERS_REQUEST_PROCEDURE
| EXTENDED_REJECT_INDICATION
| PERIPHERAL_INITIATED_FEATURES_EXCHANGE
| LE_PING
| LE_DATA_PACKET_LENGTH_EXTENSION
| LL_PRIVACY
| EXTENDED_SCANNER_FILTER_POLICIES
| LE_2M_PHY
| STABLE_MODULATION_INDEX_TRANSMITTER
| STABLE_MODULATION_INDEX_RECEIVER
| LE_CODED_PHY
| LE_EXTENDED_ADVERTISING
| LE_PERIODIC_ADVERTISING
| CHANNEL_SELECTION_ALGORITHM_2
| LE_POWER_CLASS_1
| MINIMUM_NUMBER_OF_USED_CHANNELS_PROCEDURE
| CONNECTION_CTE_REQUEST
| CONNECTION_CTE_RESPONSE
| CONNECTIONLESS_CTE_TRANSMITTER
| CONNECTIONLESS_CTE_RECEIVER
| ANTENNA_SWITCHING_DURING_CTE_TRANSMISSION
| ANTENNA_SWITCHING_DURING_CTE_RECEPTION
| RECEIVING_CONSTANT_TONE_EXTENSIONS
| PERIODIC_ADVERTISING_SYNC_TRANSFER_SENDER
| PERIODIC_ADVERTISING_SYNC_TRANSFER_RECIPIENT
| SLEEP_CLOCK_ACCURACY_UPDATES
| REMOTE_PUBLIC_KEY_VALIDATION
| CONNECTED_ISOCHRONOUS_STREAM_CENTRAL
| CONNECTED_ISOCHRONOUS_STREAM_PERIPHERAL
| ISOCHRONOUS_BROADCASTER
| SYNCHRONIZED_RECEIVER
| CONNECTED_ISOCHRONOUS_STREAM_HOST_SUPPORT
| LE_POWER_CONTROL_REQUEST
| LE_POWER_CONTROL_REQUEST_BIS
| LE_PATH_LOSS_MONITORING
| PERIODIC_ADVERTISING_ADI_SUPPORT
| CONNECTION_SUBRATING
| CONNECTION_SUBRATING_HOST_SUPPORT
| CHANNEL_CLASSIFICATION
| ADVERTISING_CODING_SELECTION
| ADVERTISING_CODING_SELECTION_HOST_SUPPORT
| DECISION_BASED_ADVERTISING_FILTERING
| PERIODIC_ADVERTISING_WITH_RESPONSES_ADVERTISER
| PERIODIC_ADVERTISING_WITH_RESPONSES_SCANNER
| UNSEGMENTED_FRAMED_MODE
| CHANNEL_SOUNDING
| CHANNEL_SOUNDING_HOST_SUPPORT.
#[global] Instance t_eq_dec : EqDecision t.
Proof. solve_decision. Defined.
Definition to_Z (x : t) : Z :=
  match x with
  | LE_ENCRYPTION => 0x0000000000000001
  | CONNECTION_PARAMETERS_REQUEST_PROCEDURE => 0x0000000000000002
  | EXTENDED_REJECT_INDICATION => 0x0000000000000004
  | PERIPHERAL_INITIATED_FEATURES_EXCHANGE => 0x0000000000000008
  | LE_PING => 0x0000000000000010
  | LE_DATA_PACKET_LENGTH_EXTENSION => 0x0000000000000020
  | LL_PRIVACY => 0x0000000000000040
  | EXTENDED_SCANNER_FILTER_POLICIES => 0x0000000000000080
  | LE_2M_PHY => 0x0000000000000100
  | STABLE_MODULATION_INDEX_TRANSMITTER => 0x0000000000000200
  | STABLE_MODULATION_INDEX_RECEIVER => 0x0000000000000400
  | LE_CODED_PHY => 0x0000000000000800
  | LE_EXTENDED_ADVERTISING => 0x0000000000001000
  | LE_PERIODIC_ADVERTISING => 0x0000000000002000
  | CHANNEL_SELECTION_ALGORITHM_2 => 0x0000000000004000
  | LE_POWER_CLASS_1 => 0x0000000000008000
  | MINIMUM_NUMBER_OF_USED_CHANNELS_PROCEDURE => 0x0000000000010000
  | CONNECTION_CTE_REQUEST => 0x0000000000020000
  | CONNECTION_CTE_RESPONSE => 0x0000000000040000
  | CONNECTIONLESS_CTE_TRANSMITTER => 0x0000000000080000
  | CONNECTIONLESS_CTE_RECEIVER => 0x0000000000100000
  | ANTENNA_SWITCHING_DURING_CTE_TRANSMISSION => 0x0000000000200000
  | ANTENNA_SWITCHING_DURING_CTE_RECEPTION => 0x0000000000400000
  | RECEIVING_CONSTANT_TONE_EXTENSIONS => 0x0000000000800000
  | PERIODIC_ADVERTISING_SYNC_TRANSFER_SENDER => 0x0000000001000000
  | PERIODIC_ADVERTISING_SYNC_TRANSFER_RECIPIENT => 0x0000000002000000
  | SLEEP_CLOCK_ACCURACY_UPDATES => 0x0000000004000000
  | REMOTE_PUBLIC_KEY_VALIDATION => 0x0000000008000000
  | CONNECTED_ISOCHRONOUS_STREAM_CENTRAL => 0x0000000010000000
  | CONNECTED_ISOCHRONOUS_STREAM_PERIPHERAL => 0x0000000020000000
  | ISOCHRONOUS_BROADCASTER => 0x0000000040000000
  | SYNCHRONIZED_RECEIVER => 0x0000000080000000
  | CONNECTED_ISOCHRONOUS_STREAM_HOST_SUPPORT => 0x0000000100000000
  | LE_POWER_CONTROL_REQUEST => 0x0000000200000000
  | LE_POWER_CONTROL_REQUEST_BIS => 0x0000000400000000
  | LE_PATH_LOSS_MONITORING => 0x0000000800000000
  | PERIODIC_ADVERTISING_ADI_SUPPORT => 0x0000001000000000
  | CONNECTION_SUBRATING => 0x0000002000000000
  | CONNECTION_SUBRATING_HOST_SUPPORT => 0x0000004000000000
  | CHANNEL_CLASSIFICATION => 0x0000008000000000
  | ADVERTISING_CODING_SELECTION => 0x0000010000000000
  | ADVERTISING_CODING_SELECTION_HOST_SUPPORT => 0x0000020000000000
  | DECISION_BASED_ADVERTISING_FILTERING => 0x0000040000000000
  | PERIODIC_ADVERTISING_WITH_RESPONSES_ADVERTISER => 0x0000080000000000
  | PERIODIC_ADVERTISING_WITH_RESPONSES_SCANNER => 0x0000100000000000
  | UNSEGMENTED_FRAMED_MODE => 0x0000200000000000
  | CHANNEL_SOUNDING => 0x0000400000000000
  | CHANNEL_SOUNDING_HOST_SUPPORT => 0x0000800000000000
  end.
End LLFeaturesBits.

Module FragmentPreference.
Inductive t :=
| CONTROLLER_MAY_FRAGMENT
| CONTROLLER_SHOULD_NOT.
#[global] Instance t_eq_dec : EqDecision t.
Proof. solve_decision. Defined.
Definition to_Z (x : t) : Z :=
  match x with
  | CONTROLLER_MAY_FRAGMENT => 0
  | CONTROLLER_SHOULD_NOT => 1
  end.
End FragmentPreference.

Module ClockAccuracy.
Inductive t :=
| PPM_500
| PPM_250
| PPM_150
| PPM_100
| PPM_75
| PPM_50
| PPM_30
| PPM_20.
#[global] Instance t_eq_dec : EqDecision t.
Proof. solve_decision. Defined.
Definition to_Z (x : t) : Z :=
  match x with
  | PPM_500 => 0x00
  | PPM_250 => 0x01
  | PPM_150 => 0x02
  | PPM_100 => 0x03
  | PPM_75 => 0x04
  | PPM_50 => 0x05
  | PPM_30 => 0x06
  | PPM_20 => 0x07
  end.
End ClockAccuracy.

Module Enable.
Inductive t :=
| DISABLED
| ENABLED.
#[global] Instance t_eq_dec : EqDecision t.
Proof. solve_decision. Defined.
Definition to_Z (x : t) : Z :=
  match x with
  | DISABLED => 0x00
  | ENABLED => 0x01
  end.
End Enable.

Module ScanEnable.
Inductive t :=
| NO_SCANS
| INQUIRY_SCAN_ONLY
| PAGE_SCAN_ONLY
| INQUIRY_AND_PAGE_SCAN.
#[global] Instance t_eq_dec : EqDecision t.
Proof. solve_decision. Defined.
Definition to_Z (x : t) : Z :=
  match x with
  | NO_SCANS => 0x00
  | INQUIRY_SCAN_ONLY => 0x01
  | PAGE_SCAN_ONLY => 0x02
  | INQUIRY_AND_PAGE_SCAN => 0x03
  end.
End ScanEnable.

Module PageScanRepetitionMode.
Inductive t :=
| R0
| R1
| R2.
#[global] Instance t_eq_dec : EqDecision t.
Proof. solve_decision. Defined.
Definition to_Z (x : t) : Z :=
  match x with
  | R0 => 0x00
  | R1 => 0x01
  | R2 => 0x02
  end.
End PageScanRepetitionMode.

Module AuthenticationEnable.
Inductive t :=
| NOT_REQUIRED
| REQUIRED.
#[global] Instance t_eq_dec : EqDecision t.
Proof. solve_decision. Defined.
Definition to_Z (x : t) : Z :=
  match x with
  | NOT_REQUIRED => 0x00
  | REQUIRED => 0x01
  end.
End AuthenticationEnable.

Module LinkType.
Inductive t :=
| SCO
| ACL.
#[global] Instance t_eq_dec : EqDecision t.
Proof. solve_decision. Defined.
Definition to_Z (x : t) : Z :=
  match x with
  | SCO => 0x00
  | ACL => 0x01
  end.
End LinkType.

Module ConnectionRequestLinkType.
Inductive t :=
| UNKNOWN
| SCO
| ACL
| ESCO.
#[global] Instance t_eq_dec : EqDecision t.
Proof. solve_decision. Defined.
Definition to_Z (x : t) : Z :=
  match x with
  | UNKNOWN => 0xFF
  | SCO => 0x00
  | ACL => 0x01
  | ESCO => 0x02
  end.
End ConnectionRequestLinkType.

Module ScoLinkType.
Inductive t :=
| SCO
| ESCO.
#[global] Instance t_eq_dec : EqDecision t.
Proof. solve_decision. Defined.
Definition to_Z (x : t) : Z :=
  match x with
  | SCO => 0x00
  | ESCO => 0x02
  end.
End ScoLinkType.

Module LoopbackMode.
Inductive t :=
| NO_LOOPBACK
| ENABLE_LOCAL
| ENABLE_REMOTE.
#[global] Instance t_eq_dec : EqDecision t.
Proof. solve_decision. Defined.
Definition to_Z (x : t) : Z :=
  match x with
  | NO_LOOPBACK => 0x00
  | ENABLE_LOCAL => 0x01
  | ENABLE_REMOTE => 0x02
  end.
End LoopbackMode.

Module LegacyAdvertisingType.
Inductive t :=
| ADV_IND
| ADV_DIRECT_IND
| ADV_SCAN_IND
| ADV_NONCONN_IND.
#[global] Instance t_eq_dec : EqDecision t.
Proof. solve_decision. Defined.
Definition to_Z (x : t) : Z :=
  match x with
  | ADV_IND => 0
  | ADV_DIRECT_IND => 1
  | ADV_SCAN_IND => 2
  | ADV_NONCONN_IND => 3
  end.
End LegacyAdvertisingType.

Module AdvertisingEventType.
Inductive t :=
| ADV_IND
| ADV_DIRECT_IND
| ADV_SCAN_IND
| ADV_NONCONN_IND
| SCAN_RESPONSE.
#[global] Instance t_eq_dec : EqDecision t.
Proof. solve_decision. Defined.
Definition to_Z (x : t) : Z :=
  match x with
  | ADV_IND => 0x00
  | ADV_DIRECT_IND => 0x01
  | ADV_SCAN_IND => 0x02
  | ADV_NONCONN_IND => 0x03
  | SCAN_RESPONSE => 0x04
  end.
End AdvertisingEventType.

Module DataStatus.
Inductive t :=
| COMPLETE
| CONTINUING
| TRUNCATED
| RESERVED.
#[global] Instance t_eq_dec : EqDecision t.
Proof. solve_decision. Defined.
Definition to_Z (x : t) : Z :=
  match x with
  | COMPLETE => 0x0
  | CONTINUING => 0x1
  | TRUNCATED => 0x2
  | RESERVED => 0x3
  end.
End DataStatus.

Module LlPhyType.
Inductive t :=
| NO_PACKETS
| LE_1M
| LE_2M
| LE_CODED_S8
| LE_CODED_S2.
#[global] Instance t_eq_dec : EqDecision t.
Proof. solve_decision. Defined.
Definition to_Z (x : t) : Z :=
  match x with
  | NO_PACKETS => 0x00
  | LE_1M => 0x01
  | LE_2M => 0x02
  | LE_CODED_S8 => 0x03
  | LE_CODED_S2 => 0x04
  end.
End LlPhyType.

Module InquiryType.
Inductive t :=
| STANDARD
| RSSI
| EXTENDED.
#[global] Instance t_eq_dec : EqDecision t.
Proof. solve_decision. Defined.
Definition to_Z (x : t) : Z :=
  match x with
  | STANDARD => 0x00
  | RSSI => 0x01
  | EXTENDED => 0x02
  end.
End InquiryType.

