(* ===== verification/OpCodes.v ===== *)
(** * Numbered enumerations of the HCI packets (packets/hci_packets.pdl)

    Enumerations the code uses as numbers: the operation codes of the commands,
    their indices in the table of supported commands, the feature bits and the
    versions.  A value of such a type is a [Z], and may be none of these. *)

From S2P Require Import Prelude.

Module OpCode.
Definition NONE : Z := 0x0000.
Definition INQUIRY : Z := 0x0401.
Definition INQUIRY_CANCEL : Z := 0x0402.
Definition PERIODIC_INQUIRY_MODE : Z := 0x0403.
Definition EXIT_PERIODIC_INQUIRY_MODE : Z := 0x0404.
Definition CREATE_CONNECTION : Z := 0x0405.
Definition DISCONNECT : Z := 0x0406.
Definition ADD_SCO_CONNECTION : Z := 0x0407.
Definition CREATE_CONNECTION_CANCEL : Z := 0x0408.
Definition ACCEPT_CONNECTION_REQUEST : Z := 0x0409.
Definition REJECT_CONNECTION_REQUEST : Z := 0x040A.
Definition LINK_KEY_REQUEST_REPLY : Z := 0x040B.
Definition LINK_KEY_REQUEST_NEGATIVE_REPLY : Z := 0x040C.
Definition PIN_CODE_REQUEST_REPLY : Z := 0x040D.
Definition PIN_CODE_REQUEST_NEGATIVE_REPLY : Z := 0x040E.
Definition CHANGE_CONNECTION_PACKET_TYPE : Z := 0x040F.
Definition AUTHENTICATION_REQUESTED : Z := 0x0411.
Definition SET_CONNECTION_ENCRYPTION : Z := 0x0413.
Definition CHANGE_CONNECTION_LINK_KEY : Z := 0x0415.
Definition CENTRAL_LINK_KEY : Z := 0x0417.
Definition REMOTE_NAME_REQUEST : Z := 0x0419.
Definition REMOTE_NAME_REQUEST_CANCEL : Z := 0x041A.
Definition READ_REMOTE_SUPPORTED_FEATURES : Z := 0x041B.
Definition READ_REMOTE_EXTENDED_FEATURES : Z := 0x041C.
Definition READ_REMOTE_VERSION_INFORMATION : Z := 0x041D.
Definition READ_CLOCK_OFFSET : Z := 0x041F.
Definition READ_LMP_HANDLE : Z := 0x0420.
Definition SETUP_SYNCHRONOUS_CONNECTION : Z := 0x0428.
Definition ACCEPT_SYNCHRONOUS_CONNECTION : Z := 0x0429.
Definition REJECT_SYNCHRONOUS_CONNECTION : Z := 0x042A.
Definition IO_CAPABILITY_REQUEST_REPLY : Z := 0x042B.
Definition USER_CONFIRMATION_REQUEST_REPLY : Z := 0x042C.
Definition USER_CONFIRMATION_REQUEST_NEGATIVE_REPLY : Z := 0x042D.
Definition USER_PASSKEY_REQUEST_REPLY : Z := 0x042E.
Definition USER_PASSKEY_REQUEST_NEGATIVE_REPLY : Z := 0x042F.
Definition REMOTE_OOB_DATA_REQUEST_REPLY : Z := 0x0430.
Definition REMOTE_OOB_DATA_REQUEST_NEGATIVE_REPLY : Z := 0x0433.
Definition IO_CAPABILITY_REQUEST_NEGATIVE_REPLY : Z := 0x0434.
Definition ENHANCED_SETUP_SYNCHRONOUS_CONNECTION : Z := 0x043D.
Definition ENHANCED_ACCEPT_SYNCHRONOUS_CONNECTION : Z := 0x043E.
Definition TRUNCATED_PAGE : Z := 0x043F.
Definition TRUNCATED_PAGE_CANCEL : Z := 0x0440.
Definition SET_CONNECTIONLESS_PERIPHERAL_BROADCAST : Z := 0x0441.
Definition SET_CONNECTIONLESS_PERIPHERAL_BROADCAST_RECEIVE : Z := 0x0442.
Definition START_SYNCHRONIZATION_TRAIN : Z := 0x0443.
Definition RECEIVE_SYNCHRONIZATION_TRAIN : Z := 0x0444.
Definition REMOTE_OOB_EXTENDED_DATA_REQUEST_REPLY : Z := 0x0445.
Definition HOLD_MODE : Z := 0x0801.
Definition SNIFF_MODE : Z := 0x0803.
Definition EXIT_SNIFF_MODE : Z := 0x0804.
Definition QOS_SETUP : Z := 0x0807.
Definition ROLE_DISCOVERY : Z := 0x0809.
Definition SWITCH_ROLE : Z := 0x080B.
Definition READ_LINK_POLICY_SETTINGS : Z := 0x080C.
Definition WRITE_LINK_POLICY_SETTINGS : Z := 0x080D.
Definition READ_DEFAULT_LINK_POLICY_SETTINGS : Z := 0x080E.
Definition WRITE_DEFAULT_LINK_POLICY_SETTINGS : Z := 0x080F.
Definition FLOW_SPECIFICATION : Z := 0x0810.
Definition SNIFF_SUBRATING : Z := 0x0811.
Definition SET_EVENT_MASK : Z := 0x0C01.
Definition RESET : Z := 0x0C03.
Definition SET_EVENT_FILTER : Z := 0x0C05.
Definition FLUSH : Z := 0x0C08.
Definition READ_PIN_TYPE : Z := 0x0C09.
Definition WRITE_PIN_TYPE : Z := 0x0C0A.
Definition READ_STORED_LINK_KEY : Z := 0x0C0D.
Definition WRITE_STORED_LINK_KEY : Z := 0x0C11.
Definition DELETE_STORED_LINK_KEY : Z := 0x0C12.
Definition WRITE_LOCAL_NAME : Z := 0x0C13.
Definition READ_LOCAL_NAME : Z := 0x0C14.
Definition READ_CONNECTION_ACCEPT_TIMEOUT : Z := 0x0C15.
Definition WRITE_CONNECTION_ACCEPT_TIMEOUT : Z := 0x0C16.
Definition READ_PAGE_TIMEOUT : Z := 0x0C17.
Definition WRITE_PAGE_TIMEOUT : Z := 0x0C18.
Definition READ_SCAN_ENABLE : Z := 0x0C19.
Definition WRITE_SCAN_ENABLE : Z := 0x0C1A.
Definition READ_PAGE_SCAN_ACTIVITY : Z := 0x0C1B.
Definition WRITE_PAGE_SCAN_ACTIVITY : Z := 0x0C1C.
Definition READ_INQUIRY_SCAN_ACTIVITY : Z := 0x0C1D.
Definition WRITE_INQUIRY_SCAN_ACTIVITY : Z := 0x0C1E.
Definition READ_AUTHENTICATION_ENABLE : Z := 0x0C1F.
Definition WRITE_AUTHENTICATION_ENABLE : Z := 0x0C20.
Definition READ_CLASS_OF_DEVICE : Z := 0x0C23.
Definition WRITE_CLASS_OF_DEVICE : Z := 0x0C24.
Definition READ_VOICE_SETTING : Z := 0x0C25.
Definition WRITE_VOICE_SETTING : Z := 0x0C26.
Definition READ_AUTOMATIC_FLUSH_TIMEOUT : Z := 0x0C27.
Definition WRITE_AUTOMATIC_FLUSH_TIMEOUT : Z := 0x0C28.
Definition READ_NUM_BROADCAST_RETRANSMITS : Z := 0x0C29.
Definition WRITE_NUM_BROADCAST_RETRANSMITS : Z := 0x0C2A.
Definition READ_HOLD_MODE_ACTIVITY : Z := 0x0C2B.
Definition WRITE_HOLD_MODE_ACTIVITY : Z := 0x0C2C.
Definition READ_TRANSMIT_POWER_LEVEL : Z := 0x0C2D.
Definition READ_SYNCHRONOUS_FLOW_CONTROL_ENABLE : Z := 0x0C2E.
Definition WRITE_SYNCHRONOUS_FLOW_CONTROL_ENABLE : Z := 0x0C2F.
Definition SET_CONTROLLER_TO_HOST_FLOW_CONTROL : Z := 0x0C31.
Definition HOST_BUFFER_SIZE : Z := 0x0C33.
Definition HOST_NUMBER_OF_COMPLETED_PACKETS : Z := 0x0C35.
Definition READ_LINK_SUPERVISION_TIMEOUT : Z := 0x0C36.
Definition WRITE_LINK_SUPERVISION_TIMEOUT : Z := 0x0C37.
Definition READ_NUMBER_OF_SUPPORTED_IAC : Z := 0x0C38.
Definition READ_CURRENT_IAC_LAP : Z := 0x0C39.
Definition WRITE_CURRENT_IAC_LAP : Z := 0x0C3A.
Definition SET_AFH_HOST_CHANNEL_CLASSIFICATION : Z := 0x0C3F.
Definition READ_INQUIRY_SCAN_TYPE : Z := 0x0C42.
Definition WRITE_INQUIRY_SCAN_TYPE : Z := 0x0C43.
Definition READ_INQUIRY_MODE : Z := 0x0C44.
Definition WRITE_INQUIRY_MODE : Z := 0x0C45.
Definition READ_PAGE_SCAN_TYPE : Z := 0x0C46.
Definition WRITE_PAGE_SCAN_TYPE : Z := 0x0C47.
Definition READ_AFH_CHANNEL_ASSESSMENT_MODE : Z := 0x0C48.
Definition WRITE_AFH_CHANNEL_ASSESSMENT_MODE : Z := 0x0C49.
Definition READ_EXTENDED_INQUIRY_RESPONSE : Z := 0x0C51.
Definition WRITE_EXTENDED_INQUIRY_RESPONSE : Z := 0x0C52.
Definition REFRESH_ENCRYPTION_KEY : Z := 0x0C53.
Definition READ_SIMPLE_PAIRING_MODE : Z := 0x0C55.
Definition WRITE_SIMPLE_PAIRING_MODE : Z := 0x0C56.
Definition READ_LOCAL_OOB_DATA : Z := 0x0C57.
Definition READ_INQUIRY_RESPONSE_TRANSMIT_POWER_LEVEL : Z := 0x0C58.
Definition WRITE_INQUIRY_TRANSMIT_POWER_LEVEL : Z := 0x0C59.
Definition READ_DEFAULT_ERRONEOUS_DATA_REPORTING : Z := 0x0C5A.
Definition WRITE_DEFAULT_ERRONEOUS_DATA_REPORTING : Z := 0x0C5B.
Definition ENHANCED_FLUSH : Z := 0x0C5F.
Definition SEND_KEYPRESS_NOTIFICATION : Z := 0x0C60.
Definition SET_EVENT_MASK_PAGE_2 : Z := 0x0C63.
Definition READ_FLOW_CONTROL_MODE : Z := 0x0C66.
Definition WRITE_FLOW_CONTROL_MODE : Z := 0x0C67.
Definition READ_ENHANCED_TRANSMIT_POWER_LEVEL : Z := 0x0C68.
Definition READ_LE_HOST_SUPPORT : Z := 0x0C6C.
Definition WRITE_LE_HOST_SUPPORT : Z := 0x0C6D.
Definition SET_MWS_CHANNEL_PARAMETERS : Z := 0x0C6E.
Definition SET_EXTERNAL_FRAME_CONFIGURATION : Z := 0x0C6F.
Definition SET_MWS_SIGNALING : Z := 0x0C70.
Definition SET_MWS_TRANSPORT_LAYER : Z := 0x0C71.
Definition SET_MWS_SCAN_FREQUENCY_TABLE : Z := 0x0C72.
Definition SET_MWS_PATTERN_CONFIGURATION : Z := 0x0C73.
Definition SET_RESERVED_LT_ADDR : Z := 0x0C74.
Definition DELETE_RESERVED_LT_ADDR : Z := 0x0C75.
Definition SET_CONNECTIONLESS_PERIPHERAL_BROADCAST_DATA : Z := 0x0C76.
Definition READ_SYNCHRONIZATION_TRAIN_PARAMETERS : Z := 0x0C77.
Definition WRITE_SYNCHRONIZATION_TRAIN_PARAMETERS : Z := 0x0C78.
Definition READ_SECURE_CONNECTIONS_HOST_SUPPORT : Z := 0x0C79.
Definition WRITE_SECURE_CONNECTIONS_HOST_SUPPORT : Z := 0x0C7A.
Definition READ_AUTHENTICATED_PAYLOAD_TIMEOUT : Z := 0x0C7B.
Definition WRITE_AUTHENTICATED_PAYLOAD_TIMEOUT : Z := 0x0C7C.
Definition READ_LOCAL_OOB_EXTENDED_DATA : Z := 0x0C7D.
Definition READ_EXTENDED_PAGE_TIMEOUT : Z := 0x0C7E.
Definition WRITE_EXTENDED_PAGE_TIMEOUT : Z := 0x0C7F.
Definition READ_EXTENDED_INQUIRY_LENGTH : Z := 0x0C80.
Definition WRITE_EXTENDED_INQUIRY_LENGTH : Z := 0x0C81.
Definition SET_ECOSYSTEM_BASE_INTERVAL : Z := 0x0C82.
Definition CONFIGURE_DATA_PATH : Z := 0x0C83.
Definition SET_MIN_ENCRYPTION_KEY_SIZE : Z := 0x0C84.
Definition READ_LOCAL_VERSION_INFORMATION : Z := 0x1001.
Definition READ_LOCAL_SUPPORTED_COMMANDS : Z := 0x1002.
Definition READ_LOCAL_SUPPORTED_FEATURES : Z := 0x1003.
Definition READ_LOCAL_EXTENDED_FEATURES : Z := 0x1004.
Definition READ_BUFFER_SIZE : Z := 0x1005.
Definition READ_BD_ADDR : Z := 0x1009.
Definition READ_DATA_BLOCK_SIZE : Z := 0x100A.
Definition READ_LOCAL_SUPPORTED_CODECS_V1 : Z := 0x100B.
Definition READ_LOCAL_SIMPLE_PAIRING_OPTIONS : Z := 0x100C.
Definition READ_LOCAL_SUPPORTED_CODECS_V2 : Z := 0x100D.
Definition READ_LOCAL_SUPPORTED_CODEC_CAPABILITIES : Z := 0x100E.
Definition READ_LOCAL_SUPPORTED_CONTROLLER_DELAY : Z := 0x100F.
Definition READ_FAILED_CONTACT_COUNTER : Z := 0x1401.
Definition RESET_FAILED_CONTACT_COUNTER : Z := 0x1402.
Definition READ_LINK_QUALITY : Z := 0x1403.
Definition READ_RSSI : Z := 0x1405.
Definition READ_AFH_CHANNEL_MAP : Z := 0x1406.
Definition READ_CLOCK : Z := 0x1407.
Definition READ_ENCRYPTION_KEY_SIZE : Z := 0x1408.
Definition GET_MWS_TRANSPORT_LAYER_CONFIGURATION : Z := 0x140C.
Definition SET_TRIGGERED_CLOCK_CAPTURE : Z := 0x140D.
Definition READ_LOOPBACK_MODE : Z := 0x1801.
Definition WRITE_LOOPBACK_MODE : Z := 0x1802.
Definition ENABLE_IMPLEMENTATION_UNDER_TEST_MODE : Z := 0x1803.
Definition WRITE_SIMPLE_PAIRING_DEBUG_MODE : Z := 0x1804.
Definition WRITE_SECURE_CONNECTIONS_TEST_MODE : Z := 0x180A.
Definition LE_SET_EVENT_MASK : Z := 0x2001.
Definition LE_READ_BUFFER_SIZE_V1 : Z := 0x2002.
Definition LE_READ_LOCAL_SUPPORTED_FEATURES_PAGE_0 : Z := 0x2003.
Definition LE_SET_RANDOM_ADDRESS : Z := 0x2005.
Definition LE_SET_ADVERTISING_PARAMETERS : Z := 0x2006.
Definition LE_READ_ADVERTISING_PHYSICAL_CHANNEL_TX_POWER : Z := 0x2007.
Definition LE_SET_ADVERTISING_DATA : Z := 0x2008.
Definition LE_SET_SCAN_RESPONSE_DATA : Z := 0x2009.
Definition LE_SET_ADVERTISING_ENABLE : Z := 0x200A.
Definition LE_SET_SCAN_PARAMETERS : Z := 0x200B.
Definition LE_SET_SCAN_ENABLE : Z := 0x200C.
Definition LE_CREATE_CONNECTION : Z := 0x200D.
Definition LE_CREATE_CONNECTION_CANCEL : Z := 0x200E.
Definition LE_READ_FILTER_ACCEPT_LIST_SIZE : Z := 0x200F.
Definition LE_CLEAR_FILTER_ACCEPT_LIST : Z := 0x2010.
Definition LE_ADD_DEVICE_TO_FILTER_ACCEPT_LIST : Z := 0x2011.
Definition LE_REMOVE_DEVICE_FROM_FILTER_ACCEPT_LIST : Z := 0x2012.
Definition LE_CONNECTION_UPDATE : Z := 0x2013.
Definition LE_SET_HOST_CHANNEL_CLASSIFICATION : Z := 0x2014.
Definition LE_READ_CHANNEL_MAP : Z := 0x2015.
Definition LE_READ_REMOTE_FEATURES_PAGE_0 : Z := 0x2016.
Definition LE_ENCRYPT : Z := 0x2017.
Definition LE_RAND : Z := 0x2018.
Definition LE_START_ENCRYPTION : Z := 0x2019.
Definition LE_LONG_TERM_KEY_REQUEST_REPLY : Z := 0x201A.
Definition LE_LONG_TERM_KEY_REQUEST_NEGATIVE_REPLY : Z := 0x201B.
Definition LE_READ_SUPPORTED_STATES : Z := 0x201C.
Definition LE_RECEIVER_TEST_V1 : Z := 0x201D.
Definition LE_TRANSMITTER_TEST_V1 : Z := 0x201E.
Definition LE_TEST_END : Z := 0x201F.
Definition LE_REMOTE_CONNECTION_PARAMETER_REQUEST_REPLY : Z := 0x2020.
Definition LE_REMOTE_CONNECTION_PARAMETER_REQUEST_NEGATIVE_REPLY : Z := 0x2021.
Definition LE_SET_DATA_LENGTH : Z := 0x2022.
Definition LE_READ_SUGGESTED_DEFAULT_DATA_LENGTH : Z := 0x2023.
Definition LE_WRITE_SUGGESTED_DEFAULT_DATA_LENGTH : Z := 0x2024.
Definition LE_READ_LOCAL_P_256_PUBLIC_KEY : Z := 0x2025.
Definition LE_GENERATE_DHKEY_V1 : Z := 0x2026.
Definition LE_ADD_DEVICE_TO_RESOLVING_LIST : Z := 0x2027.
Definition LE_REMOVE_DEVICE_FROM_RESOLVING_LIST : Z := 0x2028.
Definition LE_CLEAR_RESOLVING_LIST : Z := 0x2029.
Definition LE_READ_RESOLVING_LIST_SIZE : Z := 0x202A.
Definition LE_READ_PEER_RESOLVABLE_ADDRESS : Z := 0x202B.
Definition LE_READ_LOCAL_RESOLVABLE_ADDRESS : Z := 0x202C.
Definition LE_SET_ADDRESS_RESOLUTION_ENABLE : Z := 0x202D.
Definition LE_SET_RESOLVABLE_PRIVATE_ADDRESS_TIMEOUT : Z := 0x202E.
Definition LE_READ_MAXIMUM_DATA_LENGTH : Z := 0x202F.
Definition LE_READ_PHY : Z := 0x2030.
Definition LE_SET_DEFAULT_PHY : Z := 0x2031.
Definition LE_SET_PHY : Z := 0x2032.
Definition LE_RECEIVER_TEST_V2 : Z := 0x2033.
Definition LE_TRANSMITTER_TEST_V2 : Z := 0x2034.
Definition LE_SET_ADVERTISING_SET_RANDOM_ADDRESS : Z := 0x2035.
Definition LE_SET_EXTENDED_ADVERTISING_PARAMETERS_V1 : Z := 0x2036.
Definition LE_SET_EXTENDED_ADVERTISING_DATA : Z := 0x2037.
Definition LE_SET_EXTENDED_SCAN_RESPONSE_DATA : Z := 0x2038.
Definition LE_SET_EXTENDED_ADVERTISING_ENABLE : Z := 0x2039.
Definition LE_READ_MAXIMUM_ADVERTISING_DATA_LENGTH : Z := 0x203A.
Definition LE_READ_NUMBER_OF_SUPPORTED_ADVERTISING_SETS : Z := 0x203B.
Definition LE_REMOVE_ADVERTISING_SET : Z := 0x203C.
Definition LE_CLEAR_ADVERTISING_SETS : Z := 0x203D.
Definition LE_SET_PERIODIC_ADVERTISING_PARAMETERS_V1 : Z := 0x203E.
Definition LE_SET_PERIODIC_ADVERTISING_DATA : Z := 0x203F.
Definition LE_SET_PERIODIC_ADVERTISING_ENABLE : Z := 0x2040.
Definition LE_SET_EXTENDED_SCAN_PARAMETERS : Z := 0x2041.
Definition LE_SET_EXTENDED_SCAN_ENABLE : Z := 0x2042.
Definition LE_EXTENDED_CREATE_CONNECTION_V1 : Z := 0x2043.
Definition LE_PERIODIC_ADVERTISING_CREATE_SYNC : Z := 0x2044.
Definition LE_PERIODIC_ADVERTISING_CREATE_SYNC_CANCEL : Z := 0x2045.
Definition LE_PERIODIC_ADVERTISING_TERMINATE_SYNC : Z := 0x2046.
Definition LE_ADD_DEVICE_TO_PERIODIC_ADVERTISER_LIST : Z := 0x2047.
Definition LE_REMOVE_DEVICE_FROM_PERIODIC_ADVERTISER_LIST : Z := 0x2048.
Definition LE_CLEAR_PERIODIC_ADVERTISER_LIST : Z := 0x2049.
Definition LE_READ_PERIODIC_ADVERTISER_LIST_SIZE : Z := 0x204A.
Definition LE_READ_TRANSMIT_POWER : Z := 0x204B.
Definition LE_READ_RF_PATH_COMPENSATION_POWER : Z := 0x204C.
Definition LE_WRITE_RF_PATH_COMPENSATION_POWER : Z := 0x204D.
Definition LE_SET_PRIVACY_MODE : Z := 0x204E.
Definition LE_RECEIVER_TEST_V3 : Z := 0x204F.
Definition LE_TRANSMITTER_TEST_V3 : Z := 0x2050.
Definition LE_SET_CONNECTIONLESS_CTE_TRANSMIT_PARAMETERS : Z := 0x2051.
Definition LE_SET_CONNECTIONLESS_CTE_TRANSMIT_ENABLE : Z := 0x2052.
Definition LE_SET_CONNECTIONLESS_IQ_SAMPLING_ENABLE : Z := 0x2053.
Definition LE_SET_CONNECTION_CTE_RECEIVE_PARAMETERS : Z := 0x2054.
Definition LE_SET_CONNECTION_CTE_TRANSMIT_PARAMETERS : Z := 0x2055.
Definition LE_CONNECTION_CTE_REQUEST_ENABLE : Z := 0x2056.
Definition LE_CONNECTION_CTE_RESPONSE_ENABLE : Z := 0x2057.
Definition LE_READ_ANTENNA_INFORMATION : Z := 0x2058.
Definition LE_SET_PERIODIC_ADVERTISING_RECEIVE_ENABLE : Z := 0x2059.
Definition LE_PERIODIC_ADVERTISING_SYNC_TRANSFER : Z := 0x205A.
Definition LE_PERIODIC_ADVERTISING_SET_INFO_TRANSFER : Z := 0x205B.
Definition LE_SET_PERIODIC_ADVERTISING_SYNC_TRANSFER_PARAMETERS : Z := 0x205C.
Definition LE_SET_DEFAULT_PERIODIC_ADVERTISING_SYNC_TRANSFER_PARAMETERS : Z := 0x205D.
Definition LE_GENERATE_DHKEY_V2 : Z := 0x205E.
Definition LE_MODIFY_SLEEP_CLOCK_ACCURACY : Z := 0x205F.
Definition LE_READ_BUFFER_SIZE_V2 : Z := 0x2060.
Definition LE_READ_ISO_TX_SYNC : Z := 0x2061.
Definition LE_SET_CIG_PARAMETERS : Z := 0x2062.
Definition LE_SET_CIG_PARAMETERS_TEST : Z := 0x2063.
Definition LE_CREATE_CIS : Z := 0x2064.
Definition LE_REMOVE_CIG : Z := 0x2065.
Definition LE_ACCEPT_CIS_REQUEST : Z := 0x2066.
Definition LE_REJECT_CIS_REQUEST : Z := 0x2067.
Definition LE_CREATE_BIG : Z := 0x2068.
Definition LE_CREATE_BIG_TEST : Z := 0x2069.
Definition LE_TERMINATE_BIG : Z := 0x206A.
Definition LE_BIG_CREATE_SYNC : Z := 0x206B.
Definition LE_BIG_TERMINATE_SYNC : Z := 0x206C.
Definition LE_REQUEST_PEER_SCA : Z := 0x206D.
Definition LE_SETUP_ISO_DATA_PATH : Z := 0x206E.
Definition LE_REMOVE_ISO_DATA_PATH : Z := 0x206F.
Definition LE_ISO_TRANSMIT_TEST : Z := 0x2070.
Definition LE_ISO_RECEIVE_TEST : Z := 0x2071.
Definition LE_ISO_READ_TEST_COUNTERS : Z := 0x2072.
Definition LE_ISO_TEST_END : Z := 0x2073.
Definition LE_SET_HOST_FEATURE_V1 : Z := 0x2074.
Definition LE_READ_ISO_LINK_QUALITY : Z := 0x2075.
Definition LE_ENHANCED_READ_TRANSMIT_POWER_LEVEL : Z := 0x2076.
Definition LE_READ_REMOTE_TRANSMIT_POWER_LEVEL : Z := 0x2077.
Definition LE_SET_PATH_LOSS_REPORTING_PARAMETERS : Z := 0x2078.
Definition LE_SET_PATH_LOSS_REPORTING_ENABLE : Z := 0x2079.
Definition LE_SET_TRANSMIT_POWER_REPORTING_ENABLE : Z := 0x207A.
Definition LE_TRANSMITTER_TEST_V4 : Z := 0x207B.
Definition LE_SET_DATA_RELATED_ADDRESS_CHANGES : Z := 0x207C.
Definition LE_SET_DEFAULT_SUBRATE : Z := 0x207D.
Definition LE_SUBRATE_REQUEST : Z := 0x207E.
Definition LE_SET_EXTENDED_ADVERTISING_PARAMETERS_V2 : Z := 0x207F.
Definition LE_SET_DECISION_DATA : Z := 0x2080.
Definition LE_SET_DECISION_INSTRUCTIONS : Z := 0x2081.
Definition LE_SET_PERIODIC_ADVERTISING_SUBEVENT_DATA : Z := 0x2082.
Definition LE_SET_PERIODIC_ADVERTISING_RESPONSE_DATA : Z := 0x2083.
Definition LE_SET_PERIODIC_SYNC_SUBEVENT : Z := 0x2084.
Definition LE_EXTENDED_CREATE_CONNECTION_V2 : Z := 0x2085.
Definition LE_SET_PERIODIC_ADVERTISING_PARAMETERS_V2 : Z := 0x2086.
Definition LE_READ_ALL_LOCAL_SUPPORTED_FEATURES : Z := 0x2087.
Definition LE_READ_ALL_REMOTE_FEATURES : Z := 0x2088.
Definition LE_CS_READ_LOCAL_SUPPORTED_CAPABILITIES : Z := 0x2089.
Definition LE_CS_READ_REMOTE_SUPPORTED_CAPABILITIES : Z := 0x208A.
Definition LE_CS_WRITE_CACHED_REMOTE_SUPPORTED_CAPABILITIES : Z := 0x208B.
Definition LE_CS_SECURITY_ENABLE : Z := 0x208C.
Definition LE_CS_SET_DEFAULT_SETTINGS : Z := 0x208D.
Definition LE_CS_READ_REMOTE_FAE_TABLE : Z := 0x208E.
Definition LE_CS_WRITE_CACHED_REMOTE_FAE_TABLE : Z := 0x208F.
Definition LE_CS_CREATE_CONFIG : Z := 0x2090.
Definition LE_CS_REMOVE_CONFIG : Z := 0x2091.
Definition LE_CS_SET_CHANNEL_CLASSIFICATION : Z := 0x2092.
Definition LE_CS_SET_PROCEDURE_PARAMETERS : Z := 0x2093.
Definition LE_CS_PROCEDURE_ENABLE : Z := 0x2094.
Definition LE_CS_TEST : Z := 0x2095.
Definition LE_CS_TEST_END : Z := 0x2096.
Definition LE_SET_HOST_FEATURE_V2 : Z := 0x2097.
Definition LE_ADD_DEVICE_TO_MONITORED_ADVERTISERS_LIST : Z := 0x2098.
Definition LE_REMOVE_DEVICE_FROM_MONITORED_ADVERTISERS_LIST : Z := 0x2099.
Definition LE_CLEAR_MONITORED_ADVERTISERS_LIST : Z := 0x209A.
Definition LE_READ_MONITORED_ADVERTISERS_LIST_SIZE : Z := 0x209B.
Definition LE_ENABLE_MONITORING_ADVERTISERS : Z := 0x209C.
Definition LE_FRAME_SPACE_UPDATE : Z := 0x209D.
Definition CSR_OPCODE : Z := 0xFC00.
Definition ROOTCANAL_OPCODE : Z := 0xFC01.
Definition MSFT_OPCODE_INTEL : Z := 0xFC1E.
Definition INTEL_DDC_CONFIG_READ : Z := 0xFC8C.
Definition INTEL_DDC_CONFIG_WRITE : Z := 0xFC8B.
Definition LE_GET_VENDOR_CAPABILITIES : Z := 0xFD53.
Definition LE_BATCH_SCAN : Z := 0xFD56.
Definition LE_APCF : Z := 0xFD57.
Definition LE_GET_CONTROLLER_ACTIVITY_ENERGY_INFO : Z := 0xFD59.
Definition LE_EX_SET_SCAN_PARAMETERS : Z := 0xFD5A.
Definition GET_CONTROLLER_DEBUG_INFO : Z := 0xFD5B.
Definition MSFT_OPCODE_MEDIATEK : Z := 0xFD30.
Definition MSFT_OPCODE_QUALCOMM : Z := 0xFD70.
Definition enumerators : list Z :=
  [NONE; INQUIRY; INQUIRY_CANCEL; PERIODIC_INQUIRY_MODE; EXIT_PERIODIC_INQUIRY_MODE;
   CREATE_CONNECTION; DISCONNECT; ADD_SCO_CONNECTION; CREATE_CONNECTION_CANCEL;
   ACCEPT_CONNECTION_REQUEST; REJECT_CONNECTION_REQUEST; LINK_KEY_REQUEST_REPLY;
   LINK_KEY_REQUEST_NEGATIVE_REPLY; PIN_CODE_REQUEST_REPLY; PIN_CODE_REQUEST_NEGATIVE_REPLY;
   CHANGE_CONNECTION_PACKET_TYPE; AUTHENTICATION_REQUESTED; SET_CONNECTION_ENCRYPTION;
   CHANGE_CONNECTION_LINK_KEY; CENTRAL_LINK_KEY; REMOTE_NAME_REQUEST; REMOTE_NAME_REQUEST_CANCEL;
   READ_REMOTE_SUPPORTED_FEATURES; READ_REMOTE_EXTENDED_FEATURES; READ_REMOTE_VERSION_INFORMATION;
   READ_CLOCK_OFFSET; READ_LMP_HANDLE; SETUP_SYNCHRONOUS_CONNECTION; ACCEPT_SYNCHRONOUS_CONNECTION;
   REJECT_SYNCHRONOUS_CONNECTION; IO_CAPABILITY_REQUEST_REPLY; USER_CONFIRMATION_REQUEST_REPLY;
   USER_CONFIRMATION_REQUEST_NEGATIVE_REPLY; USER_PASSKEY_REQUEST_REPLY;
   USER_PASSKEY_REQUEST_NEGATIVE_REPLY; REMOTE_OOB_DATA_REQUEST_REPLY;
   REMOTE_OOB_DATA_REQUEST_NEGATIVE_REPLY; IO_CAPABILITY_REQUEST_NEGATIVE_REPLY;
   ENHANCED_SETUP_SYNCHRONOUS_CONNECTION; ENHANCED_ACCEPT_SYNCHRONOUS_CONNECTION; TRUNCATED_PAGE;
   TRUNCATED_PAGE_CANCEL; SET_CONNECTIONLESS_PERIPHERAL_BROADCAST;
   SET_CONNECTIONLESS_PERIPHERAL_BROADCAST_RECEIVE; START_SYNCHRONIZATION_TRAIN;
   RECEIVE_SYNCHRONIZATION_TRAIN; REMOTE_OOB_EXTENDED_DATA_REQUEST_REPLY; HOLD_MODE; SNIFF_MODE;
   EXIT_SNIFF_MODE; QOS_SETUP; ROLE_DISCOVERY; SWITCH_ROLE; READ_LINK_POLICY_SETTINGS;
   WRITE_LINK_POLICY_SETTINGS; READ_DEFAULT_LINK_POLICY_SETTINGS;
   WRITE_DEFAULT_LINK_POLICY_SETTINGS; FLOW_SPECIFICATION; SNIFF_SUBRATING; SET_EVENT_MASK; RESET;
   SET_EVENT_FILTER; FLUSH; READ_PIN_TYPE; WRITE_PIN_TYPE; READ_STORED_LINK_KEY;
   WRITE_STORED_LINK_KEY; DELETE_STORED_LINK_KEY; WRITE_LOCAL_NAME; READ_LOCAL_NAME;
   READ_CONNECTION_ACCEPT_TIMEOUT; WRITE_CONNECTION_ACCEPT_TIMEOUT; READ_PAGE_TIMEOUT;
   WRITE_PAGE_TIMEOUT; READ_SCAN_ENABLE; WRITE_SCAN_ENABLE; READ_PAGE_SCAN_ACTIVITY;
   WRITE_PAGE_SCAN_ACTIVITY; READ_INQUIRY_SCAN_ACTIVITY; WRITE_INQUIRY_SCAN_ACTIVITY;
   READ_AUTHENTICATION_ENABLE; WRITE_AUTHENTICATION_ENABLE; READ_CLASS_OF_DEVICE;
   WRITE_CLASS_OF_DEVICE; READ_VOICE_SETTING; WRITE_VOICE_SETTING; READ_AUTOMATIC_FLUSH_TIMEOUT;
   WRITE_AUTOMATIC_FLUSH_TIMEOUT; READ_NUM_BROADCAST_RETRANSMITS; WRITE_NUM_BROADCAST_RETRANSMITS;
   READ_HOLD_MODE_ACTIVITY; WRITE_HOLD_MODE_ACTIVITY; READ_TRANSMIT_POWER_LEVEL;
   READ_SYNCHRONOUS_FLOW_CONTROL_ENABLE; WRITE_SYNCHRONOUS_FLOW_CONTROL_ENABLE;
   SET_CONTROLLER_TO_HOST_FLOW_CONTROL; HOST_BUFFER_SIZE; HOST_NUMBER_OF_COMPLETED_PACKETS;
   READ_LINK_SUPERVISION_TIMEOUT; WRITE_LINK_SUPERVISION_TIMEOUT; READ_NUMBER_OF_SUPPORTED_IAC;
   READ_CURRENT_IAC_LAP; WRITE_CURRENT_IAC_LAP; SET_AFH_HOST_CHANNEL_CLASSIFICATION;
   READ_INQUIRY_SCAN_TYPE; WRITE_INQUIRY_SCAN_TYPE; READ_INQUIRY_MODE; WRITE_INQUIRY_MODE;
   READ_PAGE_SCAN_TYPE; WRITE_PAGE_SCAN_TYPE; READ_AFH_CHANNEL_ASSESSMENT_MODE;
   WRITE_AFH_CHANNEL_ASSESSMENT_MODE; READ_EXTENDED_INQUIRY_RESPONSE;
   WRITE_EXTENDED_INQUIRY_RESPONSE; REFRESH_ENCRYPTION_KEY; READ_SIMPLE_PAIRING_MODE;
   WRITE_SIMPLE_PAIRING_MODE; READ_LOCAL_OOB_DATA; READ_INQUIRY_RESPONSE_TRANSMIT_POWER_LEVEL;
   WRITE_INQUIRY_TRANSMIT_POWER_LEVEL; READ_DEFAULT_ERRONEOUS_DATA_REPORTING;
   WRITE_DEFAULT_ERRONEOUS_DATA_REPORTING; ENHANCED_FLUSH; SEND_KEYPRESS_NOTIFICATION;
   SET_EVENT_MASK_PAGE_2; READ_FLOW_CONTROL_MODE; WRITE_FLOW_CONTROL_MODE;
   READ_ENHANCED_TRANSMIT_POWER_LEVEL; READ_LE_HOST_SUPPORT; WRITE_LE_HOST_SUPPORT;
   SET_MWS_CHANNEL_PARAMETERS; SET_EXTERNAL_FRAME_CONFIGURATION; SET_MWS_SIGNALING;
   SET_MWS_TRANSPORT_LAYER; SET_MWS_SCAN_FREQUENCY_TABLE; SET_MWS_PATTERN_CONFIGURATION;
   SET_RESERVED_LT_ADDR; DELETE_RESERVED_LT_ADDR; SET_CONNECTIONLESS_PERIPHERAL_BROADCAST_DATA;
   READ_SYNCHRONIZATION_TRAIN_PARAMETERS; WRITE_SYNCHRONIZATION_TRAIN_PARAMETERS;
   READ_SECURE_CONNECTIONS_HOST_SUPPORT; WRITE_SECURE_CONNECTIONS_HOST_SUPPORT;
   READ_AUTHENTICATED_PAYLOAD_TIMEOUT; WRITE_AUTHENTICATED_PAYLOAD_TIMEOUT;
   READ_LOCAL_OOB_EXTENDED_DATA; READ_EXTENDED_PAGE_TIMEOUT; WRITE_EXTENDED_PAGE_TIMEOUT;
   READ_EXTENDED_INQUIRY_LENGTH; WRITE_EXTENDED_INQUIRY_LENGTH; SET_ECOSYSTEM_BASE_INTERVAL;
   CONFIGURE_DATA_PATH; SET_MIN_ENCRYPTION_KEY_SIZE; READ_LOCAL_VERSION_INFORMATION;
   READ_LOCAL_SUPPORTED_COMMANDS; READ_LOCAL_SUPPORTED_FEATURES; READ_LOCAL_EXTENDED_FEATURES;
   READ_BUFFER_SIZE; READ_BD_ADDR; READ_DATA_BLOCK_SIZE; READ_LOCAL_SUPPORTED_CODECS_V1;
   READ_LOCAL_SIMPLE_PAIRING_OPTIONS; READ_LOCAL_SUPPORTED_CODECS_V2;
   READ_LOCAL_SUPPORTED_CODEC_CAPABILITIES; READ_LOCAL_SUPPORTED_CONTROLLER_DELAY;
   READ_FAILED_CONTACT_COUNTER; RESET_FAILED_CONTACT_COUNTER; READ_LINK_QUALITY; READ_RSSI;
   READ_AFH_CHANNEL_MAP; READ_CLOCK; READ_ENCRYPTION_KEY_SIZE;
   GET_MWS_TRANSPORT_LAYER_CONFIGURATION; SET_TRIGGERED_CLOCK_CAPTURE; READ_LOOPBACK_MODE;
   WRITE_LOOPBACK_MODE; ENABLE_IMPLEMENTATION_UNDER_TEST_MODE; WRITE_SIMPLE_PAIRING_DEBUG_MODE;
   WRITE_SECURE_CONNECTIONS_TEST_MODE; LE_SET_EVENT_MASK; LE_READ_BUFFER_SIZE_V1;
   LE_READ_LOCAL_SUPPORTED_FEATURES_PAGE_0; LE_SET_RANDOM_ADDRESS; LE_SET_ADVERTISING_PARAMETERS;
   LE_READ_ADVERTISING_PHYSICAL_CHANNEL_TX_POWER; LE_SET_ADVERTISING_DATA;
   LE_SET_SCAN_RESPONSE_DATA; LE_SET_ADVERTISING_ENABLE; LE_SET_SCAN_PARAMETERS;
   LE_SET_SCAN_ENABLE; LE_CREATE_CONNECTION; LE_CREATE_CONNECTION_CANCEL;
   LE_READ_FILTER_ACCEPT_LIST_SIZE; LE_CLEAR_FILTER_ACCEPT_LIST;
   LE_ADD_DEVICE_TO_FILTER_ACCEPT_LIST; LE_REMOVE_DEVICE_FROM_FILTER_ACCEPT_LIST;
   LE_CONNECTION_UPDATE; LE_SET_HOST_CHANNEL_CLASSIFICATION; LE_READ_CHANNEL_MAP;
   LE_READ_REMOTE_FEATURES_PAGE_0; LE_ENCRYPT; LE_RAND; LE_START_ENCRYPTION;
   LE_LONG_TERM_KEY_REQUEST_REPLY; LE_LONG_TERM_KEY_REQUEST_NEGATIVE_REPLY;
   LE_READ_SUPPORTED_STATES; LE_RECEIVER_TEST_V1; LE_TRANSMITTER_TEST_V1; LE_TEST_END;
   LE_REMOTE_CONNECTION_PARAMETER_REQUEST_REPLY;
   LE_REMOTE_CONNECTION_PARAMETER_REQUEST_NEGATIVE_REPLY; LE_SET_DATA_LENGTH;
   LE_READ_SUGGESTED_DEFAULT_DATA_LENGTH; LE_WRITE_SUGGESTED_DEFAULT_DATA_LENGTH;
   LE_READ_LOCAL_P_256_PUBLIC_KEY; LE_GENERATE_DHKEY_V1; LE_ADD_DEVICE_TO_RESOLVING_LIST;
   LE_REMOVE_DEVICE_FROM_RESOLVING_LIST; LE_CLEAR_RESOLVING_LIST; LE_READ_RESOLVING_LIST_SIZE;
   LE_READ_PEER_RESOLVABLE_ADDRESS; LE_READ_LOCAL_RESOLVABLE_ADDRESS;
   LE_SET_ADDRESS_RESOLUTION_ENABLE; LE_SET_RESOLVABLE_PRIVATE_ADDRESS_TIMEOUT;
   LE_READ_MAXIMUM_DATA_LENGTH; LE_READ_PHY; LE_SET_DEFAULT_PHY; LE_SET_PHY; LE_RECEIVER_TEST_V2;
   LE_TRANSMITTER_TEST_V2; LE_SET_ADVERTISING_SET_RANDOM_ADDRESS;
   LE_SET_EXTENDED_ADVERTISING_PARAMETERS_V1; LE_SET_EXTENDED_ADVERTISING_DATA;
   LE_SET_EXTENDED_SCAN_RESPONSE_DATA; LE_SET_EXTENDED_ADVERTISING_ENABLE;
   LE_READ_MAXIMUM_ADVERTISING_DATA_LENGTH; LE_READ_NUMBER_OF_SUPPORTED_ADVERTISING_SETS;
   LE_REMOVE_ADVERTISING_SET; LE_CLEAR_ADVERTISING_SETS; LE_SET_PERIODIC_ADVERTISING_PARAMETERS_V1;
   LE_SET_PERIODIC_ADVERTISING_DATA; LE_SET_PERIODIC_ADVERTISING_ENABLE;
   LE_SET_EXTENDED_SCAN_PARAMETERS; LE_SET_EXTENDED_SCAN_ENABLE; LE_EXTENDED_CREATE_CONNECTION_V1;
   LE_PERIODIC_ADVERTISING_CREATE_SYNC; LE_PERIODIC_ADVERTISING_CREATE_SYNC_CANCEL;
   LE_PERIODIC_ADVERTISING_TERMINATE_SYNC; LE_ADD_DEVICE_TO_PERIODIC_ADVERTISER_LIST;
   LE_REMOVE_DEVICE_FROM_PERIODIC_ADVERTISER_LIST; LE_CLEAR_PERIODIC_ADVERTISER_LIST;
   LE_READ_PERIODIC_ADVERTISER_LIST_SIZE; LE_READ_TRANSMIT_POWER;
   LE_READ_RF_PATH_COMPENSATION_POWER; LE_WRITE_RF_PATH_COMPENSATION_POWER; LE_SET_PRIVACY_MODE;
   LE_RECEIVER_TEST_V3; LE_TRANSMITTER_TEST_V3; LE_SET_CONNECTIONLESS_CTE_TRANSMIT_PARAMETERS;
   LE_SET_CONNECTIONLESS_CTE_TRANSMIT_ENABLE; LE_SET_CONNECTIONLESS_IQ_SAMPLING_ENABLE;
   LE_SET_CONNECTION_CTE_RECEIVE_PARAMETERS; LE_SET_CONNECTION_CTE_TRANSMIT_PARAMETERS;
   LE_CONNECTION_CTE_REQUEST_ENABLE; LE_CONNECTION_CTE_RESPONSE_ENABLE;
   LE_READ_ANTENNA_INFORMATION; LE_SET_PERIODIC_ADVERTISING_RECEIVE_ENABLE;
   LE_PERIODIC_ADVERTISING_SYNC_TRANSFER; LE_PERIODIC_ADVERTISING_SET_INFO_TRANSFER;
   LE_SET_PERIODIC_ADVERTISING_SYNC_TRANSFER_PARAMETERS;
   LE_SET_DEFAULT_PERIODIC_ADVERTISING_SYNC_TRANSFER_PARAMETERS; LE_GENERATE_DHKEY_V2;
   LE_MODIFY_SLEEP_CLOCK_ACCURACY; LE_READ_BUFFER_SIZE_V2; LE_READ_ISO_TX_SYNC;
   LE_SET_CIG_PARAMETERS; LE_SET_CIG_PARAMETERS_TEST; LE_CREATE_CIS; LE_REMOVE_CIG;
   LE_ACCEPT_CIS_REQUEST; LE_REJECT_CIS_REQUEST; LE_CREATE_BIG; LE_CREATE_BIG_TEST;
   LE_TERMINATE_BIG; LE_BIG_CREATE_SYNC; LE_BIG_TERMINATE_SYNC; LE_REQUEST_PEER_SCA;
   LE_SETUP_ISO_DATA_PATH; LE_REMOVE_ISO_DATA_PATH; LE_ISO_TRANSMIT_TEST; LE_ISO_RECEIVE_TEST;
   LE_ISO_READ_TEST_COUNTERS; LE_ISO_TEST_END; LE_SET_HOST_FEATURE_V1; LE_READ_ISO_LINK_QUALITY;
   LE_ENHANCED_READ_TRANSMIT_POWER_LEVEL; LE_READ_REMOTE_TRANSMIT_POWER_LEVEL;
   LE_SET_PATH_LOSS_REPORTING_PARAMETERS; LE_SET_PATH_LOSS_REPORTING_ENABLE;
   LE_SET_TRANSMIT_POWER_REPORTING_ENABLE; LE_TRANSMITTER_TEST_V4;
   LE_SET_DATA_RELATED_ADDRESS_CHANGES; LE_SET_DEFAULT_SUBRATE; LE_SUBRATE_REQUEST;
   LE_SET_EXTENDED_ADVERTISING_PARAMETERS_V2; LE_SET_DECISION_DATA; LE_SET_DECISION_INSTRUCTIONS;
   LE_SET_PERIODIC_ADVERTISING_SUBEVENT_DATA; LE_SET_PERIODIC_ADVERTISING_RESPONSE_DATA;
   LE_SET_PERIODIC_SYNC_SUBEVENT; LE_EXTENDED_CREATE_CONNECTION_V2;
   LE_SET_PERIODIC_ADVERTISING_PARAMETERS_V2; LE_READ_ALL_LOCAL_SUPPORTED_FEATURES;
   LE_READ_ALL_REMOTE_FEATURES; LE_CS_READ_LOCAL_SUPPORTED_CAPABILITIES;
   LE_CS_READ_REMOTE_SUPPORTED_CAPABILITIES; LE_CS_WRITE_CACHED_REMOTE_SUPPORTED_CAPABILITIES;
   LE_CS_SECURITY_ENABLE; LE_CS_SET_DEFAULT_SETTINGS; LE_CS_READ_REMOTE_FAE_TABLE;
   LE_CS_WRITE_CACHED_REMOTE_FAE_TABLE; LE_CS_CREATE_CONFIG; LE_CS_REMOVE_CONFIG;
   LE_CS_SET_CHANNEL_CLASSIFICATION; LE_CS_SET_PROCEDURE_PARAMETERS; LE_CS_PROCEDURE_ENABLE;
   LE_CS_TEST; LE_CS_TEST_END; LE_SET_HOST_FEATURE_V2; LE_ADD_DEVICE_TO_MONITORED_ADVERTISERS_LIST;
   LE_REMOVE_DEVICE_FROM_MONITORED_ADVERTISERS_LIST; LE_CLEAR_MONITORED_ADVERTISERS_LIST;
   LE_READ_MONITORED_ADVERTISERS_LIST_SIZE; LE_ENABLE_MONITORING_ADVERTISERS;
   LE_FRAME_SPACE_UPDATE; CSR_OPCODE; ROOTCANAL_OPCODE; MSFT_OPCODE_INTEL; INTEL_DDC_CONFIG_READ;
   INTEL_DDC_CONFIG_WRITE; LE_GET_VENDOR_CAPABILITIES; LE_BATCH_SCAN; LE_APCF;
   LE_GET_CONTROLLER_ACTIVITY_ENERGY_INFO; LE_EX_SET_SCAN_PARAMETERS; GET_CONTROLLER_DEBUG_INFO;
   MSFT_OPCODE_MEDIATEK; MSFT_OPCODE_QUALCOMM].
End OpCode.

Module OpCodeIndex.
Definition INQUIRY : Z := 0.
Definition INQUIRY_CANCEL : Z := 1.
Definition PERIODIC_INQUIRY_MODE : Z := 2.
Definition EXIT_PERIODIC_INQUIRY_MODE : Z := 3.
Definition CREATE_CONNECTION : Z := 4.
Definition DISCONNECT : Z := 5.
Definition ADD_SCO_CONNECTION : Z := 6.
Definition CREATE_CONNECTION_CANCEL : Z := 7.
Definition ACCEPT_CONNECTION_REQUEST : Z := 10.
Definition REJECT_CONNECTION_REQUEST : Z := 11.
Definition LINK_KEY_REQUEST_REPLY : Z := 12.
Definition LINK_KEY_REQUEST_NEGATIVE_REPLY : Z := 13.
Definition PIN_CODE_REQUEST_REPLY : Z := 14.
Definition PIN_CODE_REQUEST_NEGATIVE_REPLY : Z := 15.
Definition CHANGE_CONNECTION_PACKET_TYPE : Z := 16.
Definition AUTHENTICATION_REQUESTED : Z := 17.
Definition SET_CONNECTION_ENCRYPTION : Z := 20.
Definition CHANGE_CONNECTION_LINK_KEY : Z := 21.
Definition CENTRAL_LINK_KEY : Z := 22.
Definition REMOTE_NAME_REQUEST : Z := 23.
Definition REMOTE_NAME_REQUEST_CANCEL : Z := 24.
Definition READ_REMOTE_SUPPORTED_FEATURES : Z := 25.
Definition READ_REMOTE_EXTENDED_FEATURES : Z := 26.
Definition READ_REMOTE_VERSION_INFORMATION : Z := 27.
Definition READ_CLOCK_OFFSET : Z := 30.
Definition READ_LMP_HANDLE : Z := 31.
Definition HOLD_MODE : Z := 41.
Definition SNIFF_MODE : Z := 42.
Definition EXIT_SNIFF_MODE : Z := 43.
Definition QOS_SETUP : Z := 46.
Definition ROLE_DISCOVERY : Z := 47.
Definition SWITCH_ROLE : Z := 50.
Definition READ_LINK_POLICY_SETTINGS : Z := 51.
Definition WRITE_LINK_POLICY_SETTINGS : Z := 52.
Definition READ_DEFAULT_LINK_POLICY_SETTINGS : Z := 53.
Definition WRITE_DEFAULT_LINK_POLICY_SETTINGS : Z := 54.
Definition FLOW_SPECIFICATION : Z := 55.
Definition SET_EVENT_MASK : Z := 56.
Definition RESET : Z := 57.
Definition SET_EVENT_FILTER : Z := 60.
Definition FLUSH : Z := 61.
Definition READ_PIN_TYPE : Z := 62.
Definition WRITE_PIN_TYPE : Z := 63.
Definition READ_STORED_LINK_KEY : Z := 65.
Definition WRITE_STORED_LINK_KEY : Z := 66.
Definition DELETE_STORED_LINK_KEY : Z := 67.
Definition WRITE_LOCAL_NAME : Z := 70.
Definition READ_LOCAL_NAME : Z := 71.
Definition READ_CONNECTION_ACCEPT_TIMEOUT : Z := 72.
Definition WRITE_CONNECTION_ACCEPT_TIMEOUT : Z := 73.
Definition READ_PAGE_TIMEOUT : Z := 74.
Definition WRITE_PAGE_TIMEOUT : Z := 75.
Definition READ_SCAN_ENABLE : Z := 76.
Definition WRITE_SCAN_ENABLE : Z := 77.
Definition READ_PAGE_SCAN_ACTIVITY : Z := 80.
Definition WRITE_PAGE_SCAN_ACTIVITY : Z := 81.
Definition READ_INQUIRY_SCAN_ACTIVITY : Z := 82.
Definition WRITE_INQUIRY_SCAN_ACTIVITY : Z := 83.
Definition READ_AUTHENTICATION_ENABLE : Z := 84.
Definition WRITE_AUTHENTICATION_ENABLE : Z := 85.
Definition READ_CLASS_OF_DEVICE : Z := 90.
Definition WRITE_CLASS_OF_DEVICE : Z := 91.
Definition READ_VOICE_SETTING : Z := 92.
Definition WRITE_VOICE_SETTING : Z := 93.
Definition READ_AUTOMATIC_FLUSH_TIMEOUT : Z := 94.
Definition WRITE_AUTOMATIC_FLUSH_TIMEOUT : Z := 95.
Definition READ_NUM_BROADCAST_RETRANSMITS : Z := 96.
Definition WRITE_NUM_BROADCAST_RETRANSMITS : Z := 97.
Definition READ_HOLD_MODE_ACTIVITY : Z := 100.
Definition WRITE_HOLD_MODE_ACTIVITY : Z := 101.
Definition READ_TRANSMIT_POWER_LEVEL : Z := 102.
Definition READ_SYNCHRONOUS_FLOW_CONTROL_ENABLE : Z := 103.
Definition WRITE_SYNCHRONOUS_FLOW_CONTROL_ENABLE : Z := 104.
Definition SET_CONTROLLER_TO_HOST_FLOW_CONTROL : Z := 105.
Definition HOST_BUFFER_SIZE : Z := 106.
Definition HOST_NUMBER_OF_COMPLETED_PACKETS : Z := 107.
Definition READ_LINK_SUPERVISION_TIMEOUT : Z := 110.
Definition WRITE_LINK_SUPERVISION_TIMEOUT : Z := 111.
Definition READ_NUMBER_OF_SUPPORTED_IAC : Z := 112.
Definition READ_CURRENT_IAC_LAP : Z := 113.
Definition WRITE_CURRENT_IAC_LAP : Z := 114.
Definition SET_AFH_HOST_CHANNEL_CLASSIFICATION : Z := 121.
Definition LE_CS_READ_REMOTE_FAE_TABLE : Z := 122.
Definition LE_CS_WRITE_CACHED_REMOTE_FAE_TABLE : Z := 123.
Definition READ_INQUIRY_SCAN_TYPE : Z := 124.
Definition WRITE_INQUIRY_SCAN_TYPE : Z := 125.
Definition READ_INQUIRY_MODE : Z := 126.
Definition WRITE_INQUIRY_MODE : Z := 127.
Definition READ_PAGE_SCAN_TYPE : Z := 130.
Definition WRITE_PAGE_SCAN_TYPE : Z := 131.
Definition READ_AFH_CHANNEL_ASSESSMENT_MODE : Z := 132.
Definition WRITE_AFH_CHANNEL_ASSESSMENT_MODE : Z := 133.
Definition READ_LOCAL_VERSION_INFORMATION : Z := 143.
Definition READ_LOCAL_SUPPORTED_FEATURES : Z := 145.
Definition READ_LOCAL_EXTENDED_FEATURES : Z := 146.
Definition READ_BUFFER_SIZE : Z := 147.
Definition READ_BD_ADDR : Z := 151.
Definition READ_FAILED_CONTACT_COUNTER : Z := 152.
Definition RESET_FAILED_CONTACT_COUNTER : Z := 153.
Definition READ_LINK_QUALITY : Z := 154.
Definition READ_RSSI : Z := 155.
Definition READ_AFH_CHANNEL_MAP : Z := 156.
Definition READ_CLOCK : Z := 157.
Definition READ_LOOPBACK_MODE : Z := 160.
Definition WRITE_LOOPBACK_MODE : Z := 161.
Definition ENABLE_IMPLEMENTATION_UNDER_TEST_MODE : Z := 162.
Definition SETUP_SYNCHRONOUS_CONNECTION : Z := 163.
Definition ACCEPT_SYNCHRONOUS_CONNECTION : Z := 164.
Definition REJECT_SYNCHRONOUS_CONNECTION : Z := 165.
Definition LE_CS_CREATE_CONFIG : Z := 166.
Definition LE_CS_REMOVE_CONFIG : Z := 167.
Definition READ_EXTENDED_INQUIRY_RESPONSE : Z := 170.
Definition WRITE_EXTENDED_INQUIRY_RESPONSE : Z := 171.
Definition REFRESH_ENCRYPTION_KEY : Z := 172.
Definition SNIFF_SUBRATING : Z := 174.
Definition READ_SIMPLE_PAIRING_MODE : Z := 175.
Definition WRITE_SIMPLE_PAIRING_MODE : Z := 176.
Definition READ_LOCAL_OOB_DATA : Z := 177.
Definition READ_INQUIRY_RESPONSE_TRANSMIT_POWER_LEVEL : Z := 180.
Definition WRITE_INQUIRY_TRANSMIT_POWER_LEVEL : Z := 181.
Definition READ_DEFAULT_ERRONEOUS_DATA_REPORTING : Z := 182.
Definition WRITE_DEFAULT_ERRONEOUS_DATA_REPORTING : Z := 183.
Definition IO_CAPABILITY_REQUEST_REPLY : Z := 187.
Definition USER_CONFIRMATION_REQUEST_REPLY : Z := 190.
Definition USER_CONFIRMATION_REQUEST_NEGATIVE_REPLY : Z := 191.
Definition USER_PASSKEY_REQUEST_REPLY : Z := 192.
Definition USER_PASSKEY_REQUEST_NEGATIVE_REPLY : Z := 193.
Definition REMOTE_OOB_DATA_REQUEST_REPLY : Z := 194.
Definition WRITE_SIMPLE_PAIRING_DEBUG_MODE : Z := 195.
Definition ENHANCED_FLUSH : Z := 196.
Definition REMOTE_OOB_DATA_REQUEST_NEGATIVE_REPLY : Z := 197.
Definition SEND_KEYPRESS_NOTIFICATION : Z := 202.
Definition IO_CAPABILITY_REQUEST_NEGATIVE_REPLY : Z := 203.
Definition READ_ENCRYPTION_KEY_SIZE : Z := 204.
Definition LE_CS_READ_LOCAL_SUPPORTED_CAPABILITIES : Z := 205.
Definition LE_CS_READ_REMOTE_SUPPORTED_CAPABILITIES : Z := 206.
Definition LE_CS_WRITE_CACHED_REMOTE_SUPPORTED_CAPABILITIES : Z := 207.
Definition SET_EVENT_MASK_PAGE_2 : Z := 222.
Definition READ_FLOW_CONTROL_MODE : Z := 230.
Definition WRITE_FLOW_CONTROL_MODE : Z := 231.
Definition READ_DATA_BLOCK_SIZE : Z := 232.
Definition LE_CS_TEST : Z := 233.
Definition LE_CS_TEST_END : Z := 234.
Definition READ_ENHANCED_TRANSMIT_POWER_LEVEL : Z := 240.
Definition LE_CS_SECURITY_ENABLE : Z := 241.
Definition READ_LE_HOST_SUPPORT : Z := 245.
Definition WRITE_LE_HOST_SUPPORT : Z := 246.
Definition LE_CS_SET_DEFAULT_SETTINGS : Z := 247.
Definition LE_SET_EVENT_MASK : Z := 250.
Definition LE_READ_BUFFER_SIZE_V1 : Z := 251.
Definition LE_READ_LOCAL_SUPPORTED_FEATURES_PAGE_0 : Z := 252.
Definition LE_SET_RANDOM_ADDRESS : Z := 254.
Definition LE_SET_ADVERTISING_PARAMETERS : Z := 255.
Definition LE_READ_ADVERTISING_PHYSICAL_CHANNEL_TX_POWER : Z := 256.
Definition LE_SET_ADVERTISING_DATA : Z := 257.
Definition LE_SET_SCAN_RESPONSE_DATA : Z := 260.
Definition LE_SET_ADVERTISING_ENABLE : Z := 261.
Definition LE_SET_SCAN_PARAMETERS : Z := 262.
Definition LE_SET_SCAN_ENABLE : Z := 263.
Definition LE_CREATE_CONNECTION : Z := 264.
Definition LE_CREATE_CONNECTION_CANCEL : Z := 265.
Definition LE_READ_FILTER_ACCEPT_LIST_SIZE : Z := 266.
Definition LE_CLEAR_FILTER_ACCEPT_LIST : Z := 267.
Definition LE_ADD_DEVICE_TO_FILTER_ACCEPT_LIST : Z := 270.
Definition LE_REMOVE_DEVICE_FROM_FILTER_ACCEPT_LIST : Z := 271.
Definition LE_CONNECTION_UPDATE : Z := 272.
Definition LE_SET_HOST_CHANNEL_CLASSIFICATION : Z := 273.
Definition LE_READ_CHANNEL_MAP : Z := 274.
Definition LE_READ_REMOTE_FEATURES_PAGE_0 : Z := 275.
Definition LE_ENCRYPT : Z := 276.
Definition LE_RAND : Z := 277.
Definition LE_START_ENCRYPTION : Z := 280.
Definition LE_LONG_TERM_KEY_REQUEST_REPLY : Z := 281.
Definition LE_LONG_TERM_KEY_REQUEST_NEGATIVE_REPLY : Z := 282.
Definition LE_READ_SUPPORTED_STATES : Z := 283.
Definition LE_RECEIVER_TEST_V1 : Z := 284.
Definition LE_TRANSMITTER_TEST_V1 : Z := 285.
Definition LE_TEST_END : Z := 286.
Definition LE_ENABLE_MONITORING_ADVERTISERS : Z := 287.
Definition LE_CS_SET_CHANNEL_CLASSIFICATION : Z := 290.
Definition LE_CS_SET_PROCEDURE_PARAMETERS : Z := 291.
Definition LE_CS_PROCEDURE_ENABLE : Z := 292.
Definition ENHANCED_SETUP_SYNCHRONOUS_CONNECTION : Z := 293.
Definition ENHANCED_ACCEPT_SYNCHRONOUS_CONNECTION : Z := 294.
Definition READ_LOCAL_SUPPORTED_CODECS_V1 : Z := 295.
Definition SET_MWS_CHANNEL_PARAMETERS : Z := 296.
Definition SET_EXTERNAL_FRAME_CONFIGURATION : Z := 297.
Definition SET_MWS_SIGNALING : Z := 300.
Definition SET_MWS_TRANSPORT_LAYER : Z := 301.
Definition SET_MWS_SCAN_FREQUENCY_TABLE : Z := 302.
Definition GET_MWS_TRANSPORT_LAYER_CONFIGURATION : Z := 303.
Definition SET_MWS_PATTERN_CONFIGURATION : Z := 304.
Definition SET_TRIGGERED_CLOCK_CAPTURE : Z := 305.
Definition TRUNCATED_PAGE : Z := 306.
Definition TRUNCATED_PAGE_CANCEL : Z := 307.
Definition SET_CONNECTIONLESS_PERIPHERAL_BROADCAST : Z := 310.
Definition SET_CONNECTIONLESS_PERIPHERAL_BROADCAST_RECEIVE : Z := 311.
Definition START_SYNCHRONIZATION_TRAIN : Z := 312.
Definition RECEIVE_SYNCHRONIZATION_TRAIN : Z := 313.
Definition SET_RESERVED_LT_ADDR : Z := 314.
Definition DELETE_RESERVED_LT_ADDR : Z := 315.
Definition SET_CONNECTIONLESS_PERIPHERAL_BROADCAST_DATA : Z := 316.
Definition READ_SYNCHRONIZATION_TRAIN_PARAMETERS : Z := 317.
Definition WRITE_SYNCHRONIZATION_TRAIN_PARAMETERS : Z := 320.
Definition REMOTE_OOB_EXTENDED_DATA_REQUEST_REPLY : Z := 321.
Definition READ_SECURE_CONNECTIONS_HOST_SUPPORT : Z := 322.
Definition WRITE_SECURE_CONNECTIONS_HOST_SUPPORT : Z := 323.
Definition READ_AUTHENTICATED_PAYLOAD_TIMEOUT : Z := 324.
Definition WRITE_AUTHENTICATED_PAYLOAD_TIMEOUT : Z := 325.
Definition READ_LOCAL_OOB_EXTENDED_DATA : Z := 326.
Definition WRITE_SECURE_CONNECTIONS_TEST_MODE : Z := 327.
Definition READ_EXTENDED_PAGE_TIMEOUT : Z := 330.
Definition WRITE_EXTENDED_PAGE_TIMEOUT : Z := 331.
Definition READ_EXTENDED_INQUIRY_LENGTH : Z := 332.
Definition WRITE_EXTENDED_INQUIRY_LENGTH : Z := 333.
Definition LE_REMOTE_CONNECTION_PARAMETER_REQUEST_REPLY : Z := 334.
Definition LE_REMOTE_CONNECTION_PARAMETER_REQUEST_NEGATIVE_REPLY : Z := 335.
Definition LE_SET_DATA_LENGTH : Z := 336.
Definition LE_READ_SUGGESTED_DEFAULT_DATA_LENGTH : Z := 337.
Definition LE_WRITE_SUGGESTED_DEFAULT_DATA_LENGTH : Z := 340.
Definition LE_READ_LOCAL_P_256_PUBLIC_KEY : Z := 341.
Definition LE_GENERATE_DHKEY_V1 : Z := 342.
Definition LE_ADD_DEVICE_TO_RESOLVING_LIST : Z := 343.
Definition LE_REMOVE_DEVICE_FROM_RESOLVING_LIST : Z := 344.
Definition LE_CLEAR_RESOLVING_LIST : Z := 345.
Definition LE_READ_RESOLVING_LIST_SIZE : Z := 346.
Definition LE_READ_PEER_RESOLVABLE_ADDRESS : Z := 347.
Definition LE_READ_LOCAL_RESOLVABLE_ADDRESS : Z := 350.
Definition LE_SET_ADDRESS_RESOLUTION_ENABLE : Z := 351.
Definition LE_SET_RESOLVABLE_PRIVATE_ADDRESS_TIMEOUT : Z := 352.
Definition LE_READ_MAXIMUM_DATA_LENGTH : Z := 353.
Definition LE_READ_PHY : Z := 354.
Definition LE_SET_DEFAULT_PHY : Z := 355.
Definition LE_SET_PHY : Z := 356.
Definition LE_RECEIVER_TEST_V2 : Z := 357.
Definition LE_TRANSMITTER_TEST_V2 : Z := 360.
Definition LE_SET_ADVERTISING_SET_RANDOM_ADDRESS : Z := 361.
Definition LE_SET_EXTENDED_ADVERTISING_PARAMETERS_V1 : Z := 362.
Definition LE_SET_EXTENDED_ADVERTISING_DATA : Z := 363.
Definition LE_SET_EXTENDED_SCAN_RESPONSE_DATA : Z := 364.
Definition LE_SET_EXTENDED_ADVERTISING_ENABLE : Z := 365.
Definition LE_READ_MAXIMUM_ADVERTISING_DATA_LENGTH : Z := 366.
Definition LE_READ_NUMBER_OF_SUPPORTED_ADVERTISING_SETS : Z := 367.
Definition LE_REMOVE_ADVERTISING_SET : Z := 370.
Definition LE_CLEAR_ADVERTISING_SETS : Z := 371.
Definition LE_SET_PERIODIC_ADVERTISING_PARAMETERS_V1 : Z := 372.
Definition LE_SET_PERIODIC_ADVERTISING_DATA : Z := 373.
Definition LE_SET_PERIODIC_ADVERTISING_ENABLE : Z := 374.
Definition LE_SET_EXTENDED_SCAN_PARAMETERS : Z := 375.
Definition LE_SET_EXTENDED_SCAN_ENABLE : Z := 376.
Definition LE_EXTENDED_CREATE_CONNECTION_V1 : Z := 377.
Definition LE_PERIODIC_ADVERTISING_CREATE_SYNC : Z := 380.
Definition LE_PERIODIC_ADVERTISING_CREATE_SYNC_CANCEL : Z := 381.
Definition LE_PERIODIC_ADVERTISING_TERMINATE_SYNC : Z := 382.
Definition LE_ADD_DEVICE_TO_PERIODIC_ADVERTISER_LIST : Z := 383.
Definition LE_REMOVE_DEVICE_FROM_PERIODIC_ADVERTISER_LIST : Z := 384.
Definition LE_CLEAR_PERIODIC_ADVERTISER_LIST : Z := 385.
Definition LE_READ_PERIODIC_ADVERTISER_LIST_SIZE : Z := 386.
Definition LE_READ_TRANSMIT_POWER : Z := 387.
Definition LE_READ_RF_PATH_COMPENSATION_POWER : Z := 390.
Definition LE_WRITE_RF_PATH_COMPENSATION_POWER : Z := 391.
Definition LE_SET_PRIVACY_MODE : Z := 392.
Definition LE_RECEIVER_TEST_V3 : Z := 393.
Definition LE_TRANSMITTER_TEST_V3 : Z := 394.
Definition LE_SET_CONNECTIONLESS_CTE_TRANSMIT_PARAMETERS : Z := 395.
Definition LE_SET_CONNECTIONLESS_CTE_TRANSMIT_ENABLE : Z := 396.
Definition LE_SET_CONNECTIONLESS_IQ_SAMPLING_ENABLE : Z := 397.
Definition LE_SET_CONNECTION_CTE_RECEIVE_PARAMETERS : Z := 400.
Definition LE_SET_CONNECTION_CTE_TRANSMIT_PARAMETERS : Z := 401.
Definition LE_CONNECTION_CTE_REQUEST_ENABLE : Z := 402.
Definition LE_CONNECTION_CTE_RESPONSE_ENABLE : Z := 403.
Definition LE_READ_ANTENNA_INFORMATION : Z := 404.
Definition LE_SET_PERIODIC_ADVERTISING_RECEIVE_ENABLE : Z := 405.
Definition LE_PERIODIC_ADVERTISING_SYNC_TRANSFER : Z := 406.
Definition LE_PERIODIC_ADVERTISING_SET_INFO_TRANSFER : Z := 407.
Definition LE_SET_PERIODIC_ADVERTISING_SYNC_TRANSFER_PARAMETERS : Z := 410.
Definition LE_SET_DEFAULT_PERIODIC_ADVERTISING_SYNC_TRANSFER_PARAMETERS : Z := 411.
Definition LE_GENERATE_DHKEY_V2 : Z := 412.
Definition READ_LOCAL_SIMPLE_PAIRING_OPTIONS : Z := 413.
Definition LE_MODIFY_SLEEP_CLOCK_ACCURACY : Z := 414.
Definition LE_READ_BUFFER_SIZE_V2 : Z := 415.
Definition LE_READ_ISO_TX_SYNC : Z := 416.
Definition LE_SET_CIG_PARAMETERS : Z := 417.
Definition LE_SET_CIG_PARAMETERS_TEST : Z := 420.
Definition LE_CREATE_CIS : Z := 421.
Definition LE_REMOVE_CIG : Z := 422.
Definition LE_ACCEPT_CIS_REQUEST : Z := 423.
Definition LE_REJECT_CIS_REQUEST : Z := 424.
Definition LE_CREATE_BIG : Z := 425.
Definition LE_CREATE_BIG_TEST : Z := 426.
Definition LE_TERMINATE_BIG : Z := 427.
Definition LE_BIG_CREATE_SYNC : Z := 430.
Definition LE_BIG_TERMINATE_SYNC : Z := 431.
Definition LE_REQUEST_PEER_SCA : Z := 432.
Definition LE_SETUP_ISO_DATA_PATH : Z := 433.
Definition LE_REMOVE_ISO_DATA_PATH : Z := 434.
Definition LE_ISO_TRANSMIT_TEST : Z := 435.
Definition LE_ISO_RECEIVE_TEST : Z := 436.
Definition LE_ISO_READ_TEST_COUNTERS : Z := 437.
Definition LE_ISO_TEST_END : Z := 440.
Definition LE_SET_HOST_FEATURE_V1 : Z := 441.
Definition LE_READ_ISO_LINK_QUALITY : Z := 442.
Definition LE_ENHANCED_READ_TRANSMIT_POWER_LEVEL : Z := 443.
Definition LE_READ_REMOTE_TRANSMIT_POWER_LEVEL : Z := 444.
Definition LE_SET_PATH_LOSS_REPORTING_PARAMETERS : Z := 445.
Definition LE_SET_PATH_LOSS_REPORTING_ENABLE : Z := 446.
Definition LE_SET_TRANSMIT_POWER_REPORTING_ENABLE : Z := 447.
Definition LE_TRANSMITTER_TEST_V4 : Z := 450.
Definition SET_ECOSYSTEM_BASE_INTERVAL : Z := 451.
Definition READ_LOCAL_SUPPORTED_CODECS_V2 : Z := 452.
Definition READ_LOCAL_SUPPORTED_CODEC_CAPABILITIES : Z := 453.
Definition READ_LOCAL_SUPPORTED_CONTROLLER_DELAY : Z := 454.
Definition CONFIGURE_DATA_PATH : Z := 455.
Definition LE_SET_DATA_RELATED_ADDRESS_CHANGES : Z := 456.
Definition SET_MIN_ENCRYPTION_KEY_SIZE : Z := 457.
Definition LE_SET_DEFAULT_SUBRATE : Z := 460.
Definition LE_SUBRATE_REQUEST : Z := 461.
Definition LE_SET_EXTENDED_ADVERTISING_PARAMETERS_V2 : Z := 462.
Definition LE_SET_DECISION_DATA : Z := 463.
Definition LE_SET_DECISION_INSTRUCTIONS : Z := 464.
Definition LE_SET_PERIODIC_ADVERTISING_SUBEVENT_DATA : Z := 465.
Definition LE_SET_PERIODIC_ADVERTISING_RESPONSE_DATA : Z := 466.
Definition LE_SET_PERIODIC_SYNC_SUBEVENT : Z := 467.
Definition LE_EXTENDED_CREATE_CONNECTION_V2 : Z := 470.
Definition LE_SET_PERIODIC_ADVERTISING_PARAMETERS_V2 : Z := 471.
Definition LE_READ_ALL_LOCAL_SUPPORTED_FEATURES : Z := 472.
Definition LE_READ_ALL_REMOTE_FEATURES : Z := 473.
Definition LE_SET_HOST_FEATURE_V2 : Z := 474.
Definition LE_ADD_DEVICE_TO_MONITORED_ADVERTISERS_LIST : Z := 475.
Definition LE_REMOVE_DEVICE_FROM_MONITORED_ADVERTISERS_LIST : Z := 476.
Definition LE_CLEAR_MONITORED_ADVERTISERS_LIST : Z := 477.
Definition LE_READ_MONITORED_ADVERTISERS_LIST_SIZE : Z := 480.
Definition LE_FRAME_SPACE_UPDATE : Z := 481.
Definition enumerators : list Z :=
  [INQUIRY; INQUIRY_CANCEL; PERIODIC_INQUIRY_MODE; EXIT_PERIODIC_INQUIRY_MODE; CREATE_CONNECTION;
   DISCONNECT; ADD_SCO_CONNECTION; CREATE_CONNECTION_CANCEL; ACCEPT_CONNECTION_REQUEST;
   REJECT_CONNECTION_REQUEST; LINK_KEY_REQUEST_REPLY; LINK_KEY_REQUEST_NEGATIVE_REPLY;
   PIN_CODE_REQUEST_REPLY; PIN_CODE_REQUEST_NEGATIVE_REPLY; CHANGE_CONNECTION_PACKET_TYPE;
   AUTHENTICATION_REQUESTED; SET_CONNECTION_ENCRYPTION; CHANGE_CONNECTION_LINK_KEY;
   CENTRAL_LINK_KEY; REMOTE_NAME_REQUEST; REMOTE_NAME_REQUEST_CANCEL;
   READ_REMOTE_SUPPORTED_FEATURES; READ_REMOTE_EXTENDED_FEATURES; READ_REMOTE_VERSION_INFORMATION;
   READ_CLOCK_OFFSET; READ_LMP_HANDLE; HOLD_MODE; SNIFF_MODE; EXIT_SNIFF_MODE; QOS_SETUP;
   ROLE_DISCOVERY; SWITCH_ROLE; READ_LINK_POLICY_SETTINGS; WRITE_LINK_POLICY_SETTINGS;
   READ_DEFAULT_LINK_POLICY_SETTINGS; WRITE_DEFAULT_LINK_POLICY_SETTINGS; FLOW_SPECIFICATION;
   SET_EVENT_MASK; RESET; SET_EVENT_FILTER; FLUSH; READ_PIN_TYPE; WRITE_PIN_TYPE;
   READ_STORED_LINK_KEY; WRITE_STORED_LINK_KEY; DELETE_STORED_LINK_KEY; WRITE_LOCAL_NAME;
   READ_LOCAL_NAME; READ_CONNECTION_ACCEPT_TIMEOUT; WRITE_CONNECTION_ACCEPT_TIMEOUT;
   READ_PAGE_TIMEOUT; WRITE_PAGE_TIMEOUT; READ_SCAN_ENABLE; WRITE_SCAN_ENABLE;
   READ_PAGE_SCAN_ACTIVITY; WRITE_PAGE_SCAN_ACTIVITY; READ_INQUIRY_SCAN_ACTIVITY;
   WRITE_INQUIRY_SCAN_ACTIVITY; READ_AUTHENTICATION_ENABLE; WRITE_AUTHENTICATION_ENABLE;
   READ_CLASS_OF_DEVICE; WRITE_CLASS_OF_DEVICE; READ_VOICE_SETTING; WRITE_VOICE_SETTING;
   READ_AUTOMATIC_FLUSH_TIMEOUT; WRITE_AUTOMATIC_FLUSH_TIMEOUT; READ_NUM_BROADCAST_RETRANSMITS;
   WRITE_NUM_BROADCAST_RETRANSMITS; READ_HOLD_MODE_ACTIVITY; WRITE_HOLD_MODE_ACTIVITY;
   READ_TRANSMIT_POWER_LEVEL; READ_SYNCHRONOUS_FLOW_CONTROL_ENABLE;
   WRITE_SYNCHRONOUS_FLOW_CONTROL_ENABLE; SET_CONTROLLER_TO_HOST_FLOW_CONTROL; HOST_BUFFER_SIZE;
   HOST_NUMBER_OF_COMPLETED_PACKETS; READ_LINK_SUPERVISION_TIMEOUT; WRITE_LINK_SUPERVISION_TIMEOUT;
   READ_NUMBER_OF_SUPPORTED_IAC; READ_CURRENT_IAC_LAP; WRITE_CURRENT_IAC_LAP;
   SET_AFH_HOST_CHANNEL_CLASSIFICATION; LE_CS_READ_REMOTE_FAE_TABLE;
   LE_CS_WRITE_CACHED_REMOTE_FAE_TABLE; READ_INQUIRY_SCAN_TYPE; WRITE_INQUIRY_SCAN_TYPE;
   READ_INQUIRY_MODE; WRITE_INQUIRY_MODE; READ_PAGE_SCAN_TYPE; WRITE_PAGE_SCAN_TYPE;
   READ_AFH_CHANNEL_ASSESSMENT_MODE; WRITE_AFH_CHANNEL_ASSESSMENT_MODE;
   READ_LOCAL_VERSION_INFORMATION; READ_LOCAL_SUPPORTED_FEATURES; READ_LOCAL_EXTENDED_FEATURES;
   READ_BUFFER_SIZE; READ_BD_ADDR; READ_FAILED_CONTACT_COUNTER; RESET_FAILED_CONTACT_COUNTER;
   READ_LINK_QUALITY; READ_RSSI; READ_AFH_CHANNEL_MAP; READ_CLOCK; READ_LOOPBACK_MODE;
   WRITE_LOOPBACK_MODE; ENABLE_IMPLEMENTATION_UNDER_TEST_MODE; SETUP_SYNCHRONOUS_CONNECTION;
   ACCEPT_SYNCHRONOUS_CONNECTION; REJECT_SYNCHRONOUS_CONNECTION; LE_CS_CREATE_CONFIG;
   LE_CS_REMOVE_CONFIG; READ_EXTENDED_INQUIRY_RESPONSE; WRITE_EXTENDED_INQUIRY_RESPONSE;
   REFRESH_ENCRYPTION_KEY; SNIFF_SUBRATING; READ_SIMPLE_PAIRING_MODE; WRITE_SIMPLE_PAIRING_MODE;
   READ_LOCAL_OOB_DATA; READ_INQUIRY_RESPONSE_TRANSMIT_POWER_LEVEL;
   WRITE_INQUIRY_TRANSMIT_POWER_LEVEL; READ_DEFAULT_ERRONEOUS_DATA_REPORTING;
   WRITE_DEFAULT_ERRONEOUS_DATA_REPORTING; IO_CAPABILITY_REQUEST_REPLY;
   USER_CONFIRMATION_REQUEST_REPLY; USER_CONFIRMATION_REQUEST_NEGATIVE_REPLY;
   USER_PASSKEY_REQUEST_REPLY; USER_PASSKEY_REQUEST_NEGATIVE_REPLY; REMOTE_OOB_DATA_REQUEST_REPLY;
   WRITE_SIMPLE_PAIRING_DEBUG_MODE; ENHANCED_FLUSH; REMOTE_OOB_DATA_REQUEST_NEGATIVE_REPLY;
   SEND_KEYPRESS_NOTIFICATION; IO_CAPABILITY_REQUEST_NEGATIVE_REPLY; READ_ENCRYPTION_KEY_SIZE;
   LE_CS_READ_LOCAL_SUPPORTED_CAPABILITIES; LE_CS_READ_REMOTE_SUPPORTED_CAPABILITIES;
   LE_CS_WRITE_CACHED_REMOTE_SUPPORTED_CAPABILITIES; SET_EVENT_MASK_PAGE_2; READ_FLOW_CONTROL_MODE;
   WRITE_FLOW_CONTROL_MODE; READ_DATA_BLOCK_SIZE; LE_CS_TEST; LE_CS_TEST_END;
   READ_ENHANCED_TRANSMIT_POWER_LEVEL; LE_CS_SECURITY_ENABLE; READ_LE_HOST_SUPPORT;
   WRITE_LE_HOST_SUPPORT; LE_CS_SET_DEFAULT_SETTINGS; LE_SET_EVENT_MASK; LE_READ_BUFFER_SIZE_V1;
   LE_READ_LOCAL_SUPPORTED_FEATURES_PAGE_0; LE_SET_RANDOM_ADDRESS; LE_SET_ADVERTISING_PARAMETERS;
   LE_READ_ADVERTISING_PHYSICAL_CHANNEL_TX_POWER; LE_SET_ADVERTISING_DATA;
   LE_SET_SCAN_RESPONSE_DATA; LE_SET_ADVERTISING_ENABLE; LE_SET_SCAN_PARAMETERS;
   LE_SET_SCAN_ENABLE; LE_CREATE_CONNECTION; LE_CREATE_CONNECTION_CANCEL;
   LE_READ_FILTER_ACCEPT_LIST_SIZE; LE_CLEAR_FILTER_ACCEPT_LIST;
   LE_ADD_DEVICE_TO_FILTER_ACCEPT_LIST; LE_REMOVE_DEVICE_FROM_FILTER_ACCEPT_LIST;
   LE_CONNECTION_UPDATE; LE_SET_HOST_CHANNEL_CLASSIFICATION; LE_READ_CHANNEL_MAP;
   LE_READ_REMOTE_FEATURES_PAGE_0; LE_ENCRYPT; LE_RAND; LE_START_ENCRYPTION;
   LE_LONG_TERM_KEY_REQUEST_REPLY; LE_LONG_TERM_KEY_REQUEST_NEGATIVE_REPLY;
   LE_READ_SUPPORTED_STATES; LE_RECEIVER_TEST_V1; LE_TRANSMITTER_TEST_V1; LE_TEST_END;
   LE_ENABLE_MONITORING_ADVERTISERS; LE_CS_SET_CHANNEL_CLASSIFICATION;
   LE_CS_SET_PROCEDURE_PARAMETERS; LE_CS_PROCEDURE_ENABLE; ENHANCED_SETUP_SYNCHRONOUS_CONNECTION;
   ENHANCED_ACCEPT_SYNCHRONOUS_CONNECTION; READ_LOCAL_SUPPORTED_CODECS_V1;
   SET_MWS_CHANNEL_PARAMETERS; SET_EXTERNAL_FRAME_CONFIGURATION; SET_MWS_SIGNALING;
   SET_MWS_TRANSPORT_LAYER; SET_MWS_SCAN_FREQUENCY_TABLE; GET_MWS_TRANSPORT_LAYER_CONFIGURATION;
   SET_MWS_PATTERN_CONFIGURATION; SET_TRIGGERED_CLOCK_CAPTURE; TRUNCATED_PAGE;
   TRUNCATED_PAGE_CANCEL; SET_CONNECTIONLESS_PERIPHERAL_BROADCAST;
   SET_CONNECTIONLESS_PERIPHERAL_BROADCAST_RECEIVE; START_SYNCHRONIZATION_TRAIN;
   RECEIVE_SYNCHRONIZATION_TRAIN; SET_RESERVED_LT_ADDR; DELETE_RESERVED_LT_ADDR;
   SET_CONNECTIONLESS_PERIPHERAL_BROADCAST_DATA; READ_SYNCHRONIZATION_TRAIN_PARAMETERS;
   WRITE_SYNCHRONIZATION_TRAIN_PARAMETERS; REMOTE_OOB_EXTENDED_DATA_REQUEST_REPLY;
   READ_SECURE_CONNECTIONS_HOST_SUPPORT; WRITE_SECURE_CONNECTIONS_HOST_SUPPORT;
   READ_AUTHENTICATED_PAYLOAD_TIMEOUT; WRITE_AUTHENTICATED_PAYLOAD_TIMEOUT;
   READ_LOCAL_OOB_EXTENDED_DATA; WRITE_SECURE_CONNECTIONS_TEST_MODE; READ_EXTENDED_PAGE_TIMEOUT;
   WRITE_EXTENDED_PAGE_TIMEOUT; READ_EXTENDED_INQUIRY_LENGTH; WRITE_EXTENDED_INQUIRY_LENGTH;
   LE_REMOTE_CONNECTION_PARAMETER_REQUEST_REPLY;
   LE_REMOTE_CONNECTION_PARAMETER_REQUEST_NEGATIVE_REPLY; LE_SET_DATA_LENGTH;
   LE_READ_SUGGESTED_DEFAULT_DATA_LENGTH; LE_WRITE_SUGGESTED_DEFAULT_DATA_LENGTH;
   LE_READ_LOCAL_P_256_PUBLIC_KEY; LE_GENERATE_DHKEY_V1; LE_ADD_DEVICE_TO_RESOLVING_LIST;
   LE_REMOVE_DEVICE_FROM_RESOLVING_LIST; LE_CLEAR_RESOLVING_LIST; LE_READ_RESOLVING_LIST_SIZE;
   LE_READ_PEER_RESOLVABLE_ADDRESS; LE_READ_LOCAL_RESOLVABLE_ADDRESS;
   LE_SET_ADDRESS_RESOLUTION_ENABLE; LE_SET_RESOLVABLE_PRIVATE_ADDRESS_TIMEOUT;
   LE_READ_MAXIMUM_DATA_LENGTH; LE_READ_PHY; LE_SET_DEFAULT_PHY; LE_SET_PHY; LE_RECEIVER_TEST_V2;
   LE_TRANSMITTER_TEST_V2; LE_SET_ADVERTISING_SET_RANDOM_ADDRESS;
   LE_SET_EXTENDED_ADVERTISING_PARAMETERS_V1; LE_SET_EXTENDED_ADVERTISING_DATA;
   LE_SET_EXTENDED_SCAN_RESPONSE_DATA; LE_SET_EXTENDED_ADVERTISING_ENABLE;
   LE_READ_MAXIMUM_ADVERTISING_DATA_LENGTH; LE_READ_NUMBER_OF_SUPPORTED_ADVERTISING_SETS;
   LE_REMOVE_ADVERTISING_SET; LE_CLEAR_ADVERTISING_SETS; LE_SET_PERIODIC_ADVERTISING_PARAMETERS_V1;
   LE_SET_PERIODIC_ADVERTISING_DATA; LE_SET_PERIODIC_ADVERTISING_ENABLE;
   LE_SET_EXTENDED_SCAN_PARAMETERS; LE_SET_EXTENDED_SCAN_ENABLE; LE_EXTENDED_CREATE_CONNECTION_V1;
   LE_PERIODIC_ADVERTISING_CREATE_SYNC; LE_PERIODIC_ADVERTISING_CREATE_SYNC_CANCEL;
   LE_PERIODIC_ADVERTISING_TERMINATE_SYNC; LE_ADD_DEVICE_TO_PERIODIC_ADVERTISER_LIST;
   LE_REMOVE_DEVICE_FROM_PERIODIC_ADVERTISER_LIST; LE_CLEAR_PERIODIC_ADVERTISER_LIST;
   LE_READ_PERIODIC_ADVERTISER_LIST_SIZE; LE_READ_TRANSMIT_POWER;
   LE_READ_RF_PATH_COMPENSATION_POWER; LE_WRITE_RF_PATH_COMPENSATION_POWER; LE_SET_PRIVACY_MODE;
   LE_RECEIVER_TEST_V3; LE_TRANSMITTER_TEST_V3; LE_SET_CONNECTIONLESS_CTE_TRANSMIT_PARAMETERS;
   LE_SET_CONNECTIONLESS_CTE_TRANSMIT_ENABLE; LE_SET_CONNECTIONLESS_IQ_SAMPLING_ENABLE;
   LE_SET_CONNECTION_CTE_RECEIVE_PARAMETERS; LE_SET_CONNECTION_CTE_TRANSMIT_PARAMETERS;
   LE_CONNECTION_CTE_REQUEST_ENABLE; LE_CONNECTION_CTE_RESPONSE_ENABLE;
   LE_READ_ANTENNA_INFORMATION; LE_SET_PERIODIC_ADVERTISING_RECEIVE_ENABLE;
   LE_PERIODIC_ADVERTISING_SYNC_TRANSFER; LE_PERIODIC_ADVERTISING_SET_INFO_TRANSFER;
   LE_SET_PERIODIC_ADVERTISING_SYNC_TRANSFER_PARAMETERS;
   LE_SET_DEFAULT_PERIODIC_ADVERTISING_SYNC_TRANSFER_PARAMETERS; LE_GENERATE_DHKEY_V2;
   READ_LOCAL_SIMPLE_PAIRING_OPTIONS; LE_MODIFY_SLEEP_CLOCK_ACCURACY; LE_READ_BUFFER_SIZE_V2;
   LE_READ_ISO_TX_SYNC; LE_SET_CIG_PARAMETERS; LE_SET_CIG_PARAMETERS_TEST; LE_CREATE_CIS;
   LE_REMOVE_CIG; LE_ACCEPT_CIS_REQUEST; LE_REJECT_CIS_REQUEST; LE_CREATE_BIG; LE_CREATE_BIG_TEST;
   LE_TERMINATE_BIG; LE_BIG_CREATE_SYNC; LE_BIG_TERMINATE_SYNC; LE_REQUEST_PEER_SCA;
   LE_SETUP_ISO_DATA_PATH; LE_REMOVE_ISO_DATA_PATH; LE_ISO_TRANSMIT_TEST; LE_ISO_RECEIVE_TEST;
   LE_ISO_READ_TEST_COUNTERS; LE_ISO_TEST_END; LE_SET_HOST_FEATURE_V1; LE_READ_ISO_LINK_QUALITY;
   LE_ENHANCED_READ_TRANSMIT_POWER_LEVEL; LE_READ_REMOTE_TRANSMIT_POWER_LEVEL;
   LE_SET_PATH_LOSS_REPORTING_PARAMETERS; LE_SET_PATH_LOSS_REPORTING_ENABLE;
   LE_SET_TRANSMIT_POWER_REPORTING_ENABLE; LE_TRANSMITTER_TEST_V4; SET_ECOSYSTEM_BASE_INTERVAL;
   READ_LOCAL_SUPPORTED_CODECS_V2; READ_LOCAL_SUPPORTED_CODEC_CAPABILITIES;
   READ_LOCAL_SUPPORTED_CONTROLLER_DELAY; CONFIGURE_DATA_PATH; LE_SET_DATA_RELATED_ADDRESS_CHANGES;
   SET_MIN_ENCRYPTION_KEY_SIZE; LE_SET_DEFAULT_SUBRATE; LE_SUBRATE_REQUEST;
   LE_SET_EXTENDED_ADVERTISING_PARAMETERS_V2; LE_SET_DECISION_DATA; LE_SET_DECISION_INSTRUCTIONS;
   LE_SET_PERIODIC_ADVERTISING_SUBEVENT_DATA; LE_SET_PERIODIC_ADVERTISING_RESPONSE_DATA;
   LE_SET_PERIODIC_SYNC_SUBEVENT; LE_EXTENDED_CREATE_CONNECTION_V2;
   LE_SET_PERIODIC_ADVERTISING_PARAMETERS_V2; LE_READ_ALL_LOCAL_SUPPORTED_FEATURES;
   LE_READ_ALL_REMOTE_FEATURES; LE_SET_HOST_FEATURE_V2;
   LE_ADD_DEVICE_TO_MONITORED_ADVERTISERS_LIST; LE_REMOVE_DEVICE_FROM_MONITORED_ADVERTISERS_LIST;
   LE_CLEAR_MONITORED_ADVERTISERS_LIST; LE_READ_MONITORED_ADVERTISERS_LIST_SIZE;
   LE_FRAME_SPACE_UPDATE].
End OpCodeIndex.

Module LmpVersion.
Definition V_1_0B : Z := 0x00.
Definition V_1_1 : Z := 0x01.
Definition V_1_2 : Z := 0x02.
Definition V_2_0 : Z := 0x03.
Definition V_2_1 : Z := 0x04.
Definition V_3_0 : Z := 0x05.
Definition V_4_0 : Z := 0x06.
Definition V_4_1 : Z := 0x07.
Definition V_4_2 : Z := 0x08.
Definition V_5_0 : Z := 0x09.
Definition V_5_1 : Z := 0x0a.
Definition V_5_2 : Z := 0x0b.
Definition V_5_3 : Z := 0x0c.
Definition V_5_4 : Z := 0x0d.
Definition V_6_0 : Z := 0x0e.
Definition enumerators : list Z :=
  [V_1_0B; V_1_1; V_1_2; V_2_0; V_2_1; V_3_0; V_4_0; V_4_1; V_4_2; V_5_0; V_5_1; V_5_2; V_5_3;
   V_5_4; V_6_0].
End LmpVersion.

Module HciVersion.
Definition V_1_0B : Z := 0x00.
Definition V_1_1 : Z := 0x01.
Definition V_1_2 : Z := 0x02.
Definition V_2_0 : Z := 0x03.
Definition V_2_1 : Z := 0x04.
Definition V_3_0 : Z := 0x05.
Definition V_4_0 : Z := 0x06.
Definition V_4_1 : Z := 0x07.
Definition V_4_2 : Z := 0x08.
Definition V_5_0 : Z := 0x09.
Definition V_5_1 : Z := 0x0a.
Definition V_5_2 : Z := 0x0b.
Definition V_5_3 : Z := 0x0c.
Definition V_5_4 : Z := 0x0d.
Definition V_6_0 : Z := 0x0e.
Definition enumerators : list Z :=
  [V_1_0B; V_1_1; V_1_2; V_2_0; V_2_1; V_3_0; V_4_0; V_4_1; V_4_2; V_5_0; V_5_1; V_5_2; V_5_3;
   V_5_4; V_6_0].
End HciVersion.

Module LMPFeaturesPage0Bits.
Definition LMP_3_SLOT_PACKETS : Z := 0x01.
Definition LMP_5_SLOT_PACKETS : Z := 0x02.
Definition ENCRYPTION : Z := 0x04.
Definition SLOT_OFFSET : Z := 0x08.
Definition TIMING_ACCURACY : Z := 0x10.
Definition ROLE_SWITCH : Z := 0x20.
Definition HOLD_MODE : Z := 0x40.
Definition SNIFF_MODE : Z := 0x80.
Definition POWER_CONTROL_REQUESTS : Z := 0x0200.
Definition CHANNEL_QUALITY_DRIVEN_DATA_RATE : Z := 0x0400.
Definition SCO_LINK : Z := 0x0800.
Definition HV2_PACKETS : Z := 0x1000.
Definition HV3_PACKETS : Z := 0x2000.
Definition M_LAW_LOG_SYNCHRONOUS_DATA : Z := 0x4000.
Definition A_LAW_LOG_SYNCHRONOUS_DATA : Z := 0x8000.
Definition CVSD_SYNCHRONOUS_DATA : Z := 0x010000.
Definition PAGING_PARAMETER_NEGOTIATION : Z := 0x020000.
Definition POWER_CONTROL : Z := 0x040000.
Definition TRANSPARENT_SYNCHRONOUS_DATA : Z := 0x080000.
Definition FLOW_CONTROL_LAG_LEAST_SIGNIFICANT_BIT : Z := 0x100000.
Definition FLOW_CONTROL_LAG_MIDDLE_BIT : Z := 0x200000.
Definition FLOW_CONTROL_LAG_MOST_SIGNIFICANT_BIT : Z := 0x400000.
Definition BROADCAST_ENCRYPTION : Z := 0x800000.
Definition ENHANCED_DATA_RATE_ACL_2_MB_S_MODE : Z := 0x02000000.
Definition ENHANCED_DATA_RATE_ACL_3_MB_S_MODE : Z := 0x04000000.
Definition ENHANCED_INQUIRY_SCAN : Z := 0x08000000.
Definition INTERLACED_INQUIRY_SCAN : Z := 0x10000000.
Definition INTERLACED_PAGE_SCAN : Z := 0x20000000.
Definition RSSI_WITH_INQUIRY_RESULTS : Z := 0x40000000.
Definition EXTENDED_SCO_LINK : Z := 0x80000000.
Definition EV4_PACKETS : Z := 0x0100000000.
Definition EV5_PACKETS : Z := 0x0200000000.
Definition AFH_CAPABLE_PERIPHERAL : Z := 0x0800000000.
Definition AFH_CLASSIFICATION_PERIPHERAL : Z := 0x1000000000.
Definition BR_EDR_NOT_SUPPORTED : Z := 0x2000000000.
Definition LE_SUPPORTED_CONTROLLER : Z := 0x4000000000.
Definition LMP_3_SLOT_ENHANCED_DATA_RATE_ACL_PACKETS : Z := 0x8000000000.
Definition LMP_5_SLOT_ENHANCED_DATA_RATE_ACL_PACKETS : Z := 0x010000000000.
Definition SNIFF_SUBRATING : Z := 0x020000000000.
Definition PAUSE_ENCRYPTION : Z := 0x040000000000.
Definition AFH_CAPABLE_CENTRAL : Z := 0x080000000000.
Definition AFH_CLASSIFICATION_CENTRAL : Z := 0x100000000000.
Definition ENHANCED_DATA_RATE_ESCO_2_MB_S_MODE : Z := 0x200000000000.
Definition ENHANCED_DATA_RATE_ESCO_3_MB_S_MODE : Z := 0x400000000000.
Definition LMP_3_SLOT_ENHANCED_DATA_RATE_ESCO_PACKETS : Z := 0x800000000000.
Definition EXTENDED_INQUIRY_RESPONSE : Z := 0x01000000000000.
Definition SIMULTANEOUS_LE_AND_BR_CONTROLLER : Z := 0x02000000000000.
Definition SECURE_SIMPLE_PAIRING_CONTROLLER : Z := 0x08000000000000.
Definition ENCAPSULATED_PDU : Z := 0x10000000000000.
Definition ERRONEOUS_DATA_REPORTING : Z := 0x20000000000000.
Definition NON_FLUSHABLE_PACKET_BOUNDARY_FLAG : Z := 0x40000000000000.
Definition HCI_LINK_SUPERVISION_TIMEOUT_CHANGED_EVENT : Z := 0x0100000000000000.
Definition VARIABLE_INQUIRY_TX_POWER_LEVEL : Z := 0x0200000000000000.
Definition ENHANCED_POWER_CONTROL : Z := 0x0400000000000000.
Definition EXTENDED_FEATURES : Z := 0x8000000000000000.
Definition enumerators : list Z :=
  [LMP_3_SLOT_PACKETS; LMP_5_SLOT_PACKETS; ENCRYPTION; SLOT_OFFSET; TIMING_ACCURACY; ROLE_SWITCH;
   HOLD_MODE; SNIFF_MODE; POWER_CONTROL_REQUESTS; CHANNEL_QUALITY_DRIVEN_DATA_RATE; SCO_LINK;
   HV2_PACKETS; HV3_PACKETS; M_LAW_LOG_SYNCHRONOUS_DATA; A_LAW_LOG_SYNCHRONOUS_DATA;
   CVSD_SYNCHRONOUS_DATA; PAGING_PARAMETER_NEGOTIATION; POWER_CONTROL;
   TRANSPARENT_SYNCHRONOUS_DATA; FLOW_CONTROL_LAG_LEAST_SIGNIFICANT_BIT;
   FLOW_CONTROL_LAG_MIDDLE_BIT; FLOW_CONTROL_LAG_MOST_SIGNIFICANT_BIT; BROADCAST_ENCRYPTION;
   ENHANCED_DATA_RATE_ACL_2_MB_S_MODE; ENHANCED_DATA_RATE_ACL_3_MB_S_MODE; ENHANCED_INQUIRY_SCAN;
   INTERLACED_INQUIRY_SCAN; INTERLACED_PAGE_SCAN; RSSI_WITH_INQUIRY_RESULTS; EXTENDED_SCO_LINK;
   EV4_PACKETS; EV5_PACKETS; AFH_CAPABLE_PERIPHERAL; AFH_CLASSIFICATION_PERIPHERAL;
   BR_EDR_NOT_SUPPORTED; LE_SUPPORTED_CONTROLLER; LMP_3_SLOT_ENHANCED_DATA_RATE_ACL_PACKETS;
   LMP_5_SLOT_ENHANCED_DATA_RATE_ACL_PACKETS; SNIFF_SUBRATING; PAUSE_ENCRYPTION;
   AFH_CAPABLE_CENTRAL; AFH_CLASSIFICATION_CENTRAL; ENHANCED_DATA_RATE_ESCO_2_MB_S_MODE;
   ENHANCED_DATA_RATE_ESCO_3_MB_S_MODE; LMP_3_SLOT_ENHANCED_DATA_RATE_ESCO_PACKETS;
   EXTENDED_INQUIRY_RESPONSE; SIMULTANEOUS_LE_AND_BR_CONTROLLER; SECURE_SIMPLE_PAIRING_CONTROLLER;
   ENCAPSULATED_PDU; ERRONEOUS_DATA_REPORTING; NON_FLUSHABLE_PACKET_BOUNDARY_FLAG;
   HCI_LINK_SUPERVISION_TIMEOUT_CHANGED_EVENT; VARIABLE_INQUIRY_TX_POWER_LEVEL;
   ENHANCED_POWER_CONTROL; EXTENDED_FEATURES].
End LMPFeaturesPage0Bits.

Module LMPFeaturesPage2Bits.
Definition CONNECTIONLESS_PERIPHERAL_BROADCAST_TRANSMITTER_OPERATION : Z := 0x01.
Definition CONNECTIONLESS_PERIPHERAL_BROADCAST_RECEIVER_OPERATION : Z := 0x02.
Definition SYNCHRONIZATION_TRAIN : Z := 0x04.
Definition SYNCHRONIZATION_SCAN : Z := 0x08.
Definition HCI_INQUIRY_RESPONSE_NOTIFICATION_EVENT : Z := 0x10.
Definition GENERALIZED_INTERLACED_SCAN : Z := 0x20.
Definition COARSE_CLOCK_ADJUSTMENT : Z := 0x40.
Definition SECURE_CONNECTIONS_CONTROLLER_SUPPORT : Z := 0x0100.
Definition PING : Z := 0x0200.
Definition SLOT_AVAILABILITY_MASK : Z := 0x0400.
Definition TRAIN_NUDGING : Z := 0x0800.
Definition enumerators : list Z :=
  [CONNECTIONLESS_PERIPHERAL_BROADCAST_TRANSMITTER_OPERATION;
   CONNECTIONLESS_PERIPHERAL_BROADCAST_RECEIVER_OPERATION; SYNCHRONIZATION_TRAIN;
   SYNCHRONIZATION_SCAN; HCI_INQUIRY_RESPONSE_NOTIFICATION_EVENT; GENERALIZED_INTERLACED_SCAN;
   COARSE_CLOCK_ADJUSTMENT; SECURE_CONNECTIONS_CONTROLLER_SUPPORT; PING; SLOT_AVAILABILITY_MASK;
   TRAIN_NUDGING].
End LMPFeaturesPage2Bits.

Module CsRolesSupported.
Definition INITIATOR : Z := 0x01.
Definition REFLECTOR : Z := 0x02.
Definition enumerators : list Z :=
  [INITIATOR; REFLECTOR].
End CsRolesSupported.

