(* ===== verification/Properties.v ===== *)
(** * Properties of a controller (controller_properties.h, controller_properties.cc)

    What a controller supports: versions, commands, features, sizes; the presets
    and the switches of a configuration; and the checks of their consistency. *)

From Stdlib Require Import Btauto.
From S2P Require Import Prelude HciTypes OpCodes.

(** ** The records *)

Record ControllerQuirks := MkControllerQuirks {
  has_default_random_address : bool;
  hardware_error_before_reset : bool;
}.
#[export] Instance ControllerQuirks_rebuild : Rebuild ControllerQuirks := λ q,
  MkControllerQuirks (has_default_random_address q) (hardware_error_before_reset q).

Record CsLocalSupportedCapabilities := MkCsLocalSupportedCapabilities {
  num_config_supported : Z;
  max_consecutive_procedures_supported : Z;
  num_antennae_supported : Z;
  max_antenna_paths_supported : Z;
  roles_supported : Z;
  modes_supported : Z;
  rtt_capability : Z;
  rtt_aa_only_n : Z;
  rtt_sounding_n : Z;
  rtt_random_sequence_n : Z;
  nadm_sounding_capability : Z;
  nadm_random_capability : Z;
  cs_sync_phys_supported : Z;
  subfeatures_supported : Z;
  t_ip1_times_supported : Z;
  t_ip2_times_supported : Z;
  t_fcs_times_supported : Z;
  t_pm_times_supported : Z;
  t_sw_time_supported : Z;
  tx_snr_capability : Z;
}.

#[export] Instance CsLocalSupportedCapabilities_eq_dec : EqDecision CsLocalSupportedCapabilities.
Proof. solve_decision. Defined.

Record ControllerProperties := MkControllerProperties {
  quirks : ControllerQuirks;
  strict : bool;
  hci_version : Z;
  lmp_version : Z;
  hci_subversion : Z;
  lmp_subversion : Z;
  company_identifier : Z;
  br_supported : bool;
  le_supported : bool;
  (** An array of 64 bytes. *)
  supported_commands : list Z;
  supports_le_get_vendor_capabilities_command : bool;
  supports_csr_vendor_command : bool;
  supports_le_apcf_vendor_command : bool;
  (** An array of three 64 bit pages. *)
  lmp_features : list Z;
  le_features : Z;
  acl_data_packet_length : Z;
  sco_data_packet_length : Z;
  total_num_acl_data_packets : Z;
  total_num_sco_data_packets : Z;
  le_acl_data_packet_length : Z;
  iso_data_packet_length : Z;
  total_num_le_acl_data_packets : Z;
  total_num_iso_data_packets : Z;
  num_supported_iac : Z;
  le_advertising_physical_channel_tx_power : Z;
  supported_standard_codecs : list Z;
  supported_vendor_specific_codecs : list Z;
  le_filter_accept_list_size : Z;
  le_resolving_list_size : Z;
  le_supported_states : Z;
  le_max_advertising_data_length : Z;
  le_num_supported_advertising_sets : Z;
  le_periodic_advertiser_list_size : Z;
  cs_local_supported_capabilities : CsLocalSupportedCapabilities;
  le_apcf_filter_list_size : Z;
  le_apcf_num_of_tracked_advertisers : Z;
  le_apcf_broadcaster_address_filter_list_size : Z;
  le_apcf_service_uuid_filter_list_size : Z;
  le_apcf_service_solicitation_uuid_filter_list_size : Z;
  le_apcf_local_name_filter_list_size : Z;
  le_apcf_manufacturer_data_filter_list_size : Z;
  le_apcf_service_data_filter_list_size : Z;
  le_apcf_ad_type_filter_list_size : Z;
}.
#[export] Instance ControllerProperties_rebuild : Rebuild ControllerProperties := λ p,
  MkControllerProperties (quirks p) (strict p) (hci_version p) (lmp_version p) (hci_subversion p)
    (lmp_subversion p) (company_identifier p) (br_supported p) (le_supported p)
    (supported_commands p) (supports_le_get_vendor_capabilities_command p)
    (supports_csr_vendor_command p) (supports_le_apcf_vendor_command p) (lmp_features p)
    (le_features p) (acl_data_packet_length p) (sco_data_packet_length p)
    (total_num_acl_data_packets p) (total_num_sco_data_packets p) (le_acl_data_packet_length p)
    (iso_data_packet_length p) (total_num_le_acl_data_packets p) (total_num_iso_data_packets p)
    (num_supported_iac p) (le_advertising_physical_channel_tx_power p)
    (supported_standard_codecs p) (supported_vendor_specific_codecs p)
    (le_filter_accept_list_size p) (le_resolving_list_size p) (le_supported_states p)
    (le_max_advertising_data_length p) (le_num_supported_advertising_sets p)
    (le_periodic_advertiser_list_size p) (cs_local_supported_capabilities p)
    (le_apcf_filter_list_size p) (le_apcf_num_of_tracked_advertisers p)
    (le_apcf_broadcaster_address_filter_list_size p) (le_apcf_service_uuid_filter_list_size p)
    (le_apcf_service_solicitation_uuid_filter_list_size p)
    (le_apcf_local_name_filter_list_size p) (le_apcf_manufacturer_data_filter_list_size p)
    (le_apcf_service_data_filter_list_size p) (le_apcf_ad_type_filter_list_size p).

Definition lmp_page (p : ControllerProperties) (page : nat) : Z := nth page (lmp_features p) 0.
Definition SupportsLMPFeature0 (p : ControllerProperties) (bit : Z) : bool :=
  negb (Z.land (lmp_page p 0) bit =? 0).
Definition SupportsLMPFeature2 (p : ControllerProperties) (bit : Z) : bool :=
  negb (Z.land (lmp_page p 2) bit =? 0).
Definition SupportsLLFeature (p : ControllerProperties) (b : LLFeaturesBits.t) : bool :=
  negb (Z.land (le_features p) (LLFeaturesBits.to_Z b) =? 0).
(** [op_code] is the value of an [OpCodeIndex]: the byte and the bit. *)
Definition SupportsCommand (p : ControllerProperties) (op_code : Z) : bool :=
  bit (nth (Z.to_nat (op_code / 10)) (supported_commands p) 0) (op_code mod 10).
Definition LeSupportedPhys (p : ControllerProperties) : Z :=
  let supported_phys := 0x1 in
  let supported_phys :=
    if SupportsLLFeature p LLFeaturesBits.LE_2M_PHY then Z.lor supported_phys 0x2
    else supported_phys in
  if SupportsLLFeature p LLFeaturesBits.LE_CODED_PHY then Z.lor supported_phys 0x4
  else supported_phys.

(** ** The default features and commands *)

Definition feature_mask (features : list Z) : Z := fold_left Z.lor features 0.
Definition SetLLFeatureBit (b : LLFeaturesBits.t) (set : bool) (le_features : Z) : Z :=
  if set then Z.lor le_features (LLFeaturesBits.to_Z b)
  else Z.ldiff le_features (LLFeaturesBits.to_Z b).
Definition set_command_bit (set : bool) (supported_commands : list Z) (command : Z) : list Z :=
  alter (λ byte, if set then u8 (Z.lor byte (Z.shiftl 1 (command mod 10)))
                 else u8 (Z.ldiff byte (Z.shiftl 1 (command mod 10))))
    (Z.to_nat (command / 10)) supported_commands.
Definition SetSupportedCommandBits (commands : list Z) (set : bool) (supported_commands : list Z)
  : list Z := fold_left (set_command_bit set) commands supported_commands.

(** ** Requirements on the commands *)

Inductive Requirement := kMandatory | kOptional | kExcluded.
#[export] Instance Requirement_eq_dec : EqDecision Requirement.
Proof. solve_decision. Defined.
Definition mandatory_or_excluded (cond : bool) : Requirement := if cond then kMandatory else kExcluded.
Definition mandatory_or_optional (cond : bool) : Requirement := if cond then kMandatory else kOptional.
Definition optional_or_excluded (cond : bool) : Requirement := if cond then kMandatory else kExcluded.
Definition mandatory_or_optional_or_excluded (cond1 cond2 : bool) : Requirement :=
  if cond1 then kMandatory else if cond2 then kOptional else kExcluded.
Definition is_requirement (r r' : Requirement) : bool := bool_decide (r = r').
Definition command_requirement (br_supported : bool) (br_requirement : Requirement)
    (le_supported : bool) (le_requirement : Requirement) : Requirement :=
  if negb br_supported then le_requirement
  else if negb le_supported then br_requirement
  else if is_requirement le_requirement kMandatory || is_requirement br_requirement kMandatory
  then kMandatory
  else if is_requirement le_requirement kOptional || is_requirement br_requirement kOptional
  then kOptional
  else kExcluded.
Definition requirement_met (requirement : Requirement) (command_supported : bool) : bool :=
  match requirement with
  | kMandatory => command_supported
  | kExcluded => negb command_supported
  | kOptional => true
  end.

Definition Page0LmpFeatures : Z :=
  feature_mask
    [LMPFeaturesPage0Bits.LMP_3_SLOT_PACKETS; LMPFeaturesPage0Bits.LMP_5_SLOT_PACKETS;
      LMPFeaturesPage0Bits.ENCRYPTION; LMPFeaturesPage0Bits.SLOT_OFFSET;
      LMPFeaturesPage0Bits.TIMING_ACCURACY; LMPFeaturesPage0Bits.ROLE_SWITCH;
      LMPFeaturesPage0Bits.HOLD_MODE; LMPFeaturesPage0Bits.SNIFF_MODE;
      LMPFeaturesPage0Bits.POWER_CONTROL_REQUESTS;
      LMPFeaturesPage0Bits.CHANNEL_QUALITY_DRIVEN_DATA_RATE; LMPFeaturesPage0Bits.SCO_LINK;
      LMPFeaturesPage0Bits.HV2_PACKETS; LMPFeaturesPage0Bits.HV3_PACKETS;
      LMPFeaturesPage0Bits.M_LAW_LOG_SYNCHRONOUS_DATA;
      LMPFeaturesPage0Bits.A_LAW_LOG_SYNCHRONOUS_DATA;
      LMPFeaturesPage0Bits.CVSD_SYNCHRONOUS_DATA;
      LMPFeaturesPage0Bits.PAGING_PARAMETER_NEGOTIATION; LMPFeaturesPage0Bits.POWER_CONTROL;
      LMPFeaturesPage0Bits.TRANSPARENT_SYNCHRONOUS_DATA;
      LMPFeaturesPage0Bits.BROADCAST_ENCRYPTION;
      LMPFeaturesPage0Bits.ENHANCED_DATA_RATE_ACL_2_MB_S_MODE;
      LMPFeaturesPage0Bits.ENHANCED_DATA_RATE_ACL_3_MB_S_MODE;
      LMPFeaturesPage0Bits.ENHANCED_INQUIRY_SCAN; LMPFeaturesPage0Bits.INTERLACED_INQUIRY_SCAN;
      LMPFeaturesPage0Bits.INTERLACED_PAGE_SCAN; LMPFeaturesPage0Bits.RSSI_WITH_INQUIRY_RESULTS;
      LMPFeaturesPage0Bits.EXTENDED_SCO_LINK; LMPFeaturesPage0Bits.EV4_PACKETS;
      LMPFeaturesPage0Bits.EV5_PACKETS; LMPFeaturesPage0Bits.AFH_CAPABLE_PERIPHERAL;
      LMPFeaturesPage0Bits.AFH_CLASSIFICATION_PERIPHERAL;
      LMPFeaturesPage0Bits.LE_SUPPORTED_CONTROLLER;
      LMPFeaturesPage0Bits.LMP_3_SLOT_ENHANCED_DATA_RATE_ACL_PACKETS;
      LMPFeaturesPage0Bits.LMP_5_SLOT_ENHANCED_DATA_RATE_ACL_PACKETS;
      LMPFeaturesPage0Bits.SNIFF_SUBRATING; LMPFeaturesPage0Bits.PAUSE_ENCRYPTION;
      LMPFeaturesPage0Bits.AFH_CAPABLE_CENTRAL; LMPFeaturesPage0Bits.AFH_CLASSIFICATION_CENTRAL;
      LMPFeaturesPage0Bits.ENHANCED_DATA_RATE_ESCO_2_MB_S_MODE;
      LMPFeaturesPage0Bits.ENHANCED_DATA_RATE_ESCO_3_MB_S_MODE;
      LMPFeaturesPage0Bits.LMP_3_SLOT_ENHANCED_DATA_RATE_ESCO_PACKETS;
      LMPFeaturesPage0Bits.EXTENDED_INQUIRY_RESPONSE;
      LMPFeaturesPage0Bits.SIMULTANEOUS_LE_AND_BR_CONTROLLER;
      LMPFeaturesPage0Bits.SECURE_SIMPLE_PAIRING_CONTROLLER;
      LMPFeaturesPage0Bits.ENCAPSULATED_PDU;
      LMPFeaturesPage0Bits.HCI_LINK_SUPERVISION_TIMEOUT_CHANGED_EVENT;
      LMPFeaturesPage0Bits.VARIABLE_INQUIRY_TX_POWER_LEVEL;
      LMPFeaturesPage0Bits.ENHANCED_POWER_CONTROL; LMPFeaturesPage0Bits.EXTENDED_FEATURES].

Definition Page2LmpFeatures : Z :=
  feature_mask
    [LMPFeaturesPage2Bits.SECURE_CONNECTIONS_CONTROLLER_SUPPORT; LMPFeaturesPage2Bits.PING].

Definition LlFeatures : Z :=
  feature_mask
    [LLFeaturesBits.to_Z LLFeaturesBits.LE_ENCRYPTION; LLFeaturesBits.to_Z
      LLFeaturesBits.CONNECTION_PARAMETERS_REQUEST_PROCEDURE; LLFeaturesBits.to_Z
      LLFeaturesBits.EXTENDED_REJECT_INDICATION; LLFeaturesBits.to_Z
      LLFeaturesBits.PERIPHERAL_INITIATED_FEATURES_EXCHANGE; LLFeaturesBits.to_Z
      LLFeaturesBits.LE_PING; LLFeaturesBits.to_Z LLFeaturesBits.LE_DATA_PACKET_LENGTH_EXTENSION;
      LLFeaturesBits.to_Z LLFeaturesBits.LL_PRIVACY; LLFeaturesBits.to_Z
      LLFeaturesBits.EXTENDED_SCANNER_FILTER_POLICIES; LLFeaturesBits.to_Z
      LLFeaturesBits.LE_2M_PHY; LLFeaturesBits.to_Z LLFeaturesBits.LE_CODED_PHY;
      LLFeaturesBits.to_Z LLFeaturesBits.LE_EXTENDED_ADVERTISING; LLFeaturesBits.to_Z
      LLFeaturesBits.LE_PERIODIC_ADVERTISING; LLFeaturesBits.to_Z
      LLFeaturesBits.CONNECTED_ISOCHRONOUS_STREAM_CENTRAL; LLFeaturesBits.to_Z
      LLFeaturesBits.CONNECTED_ISOCHRONOUS_STREAM_PERIPHERAL; LLFeaturesBits.to_Z
      LLFeaturesBits.LE_POWER_CONTROL_REQUEST; LLFeaturesBits.to_Z
      LLFeaturesBits.CONNECTION_SUBRATING; LLFeaturesBits.to_Z LLFeaturesBits.CHANNEL_SOUNDING].

Definition supported_commands_1 : list Z :=
  [OpCodeIndex.INQUIRY; OpCodeIndex.INQUIRY_CANCEL; OpCodeIndex.CREATE_CONNECTION;
    OpCodeIndex.DISCONNECT; OpCodeIndex.ADD_SCO_CONNECTION; OpCodeIndex.CREATE_CONNECTION_CANCEL;
    OpCodeIndex.ACCEPT_CONNECTION_REQUEST; OpCodeIndex.REJECT_CONNECTION_REQUEST;
    OpCodeIndex.LINK_KEY_REQUEST_REPLY; OpCodeIndex.LINK_KEY_REQUEST_NEGATIVE_REPLY;
    OpCodeIndex.PIN_CODE_REQUEST_REPLY; OpCodeIndex.PIN_CODE_REQUEST_NEGATIVE_REPLY;
    OpCodeIndex.CHANGE_CONNECTION_PACKET_TYPE; OpCodeIndex.AUTHENTICATION_REQUESTED;
    OpCodeIndex.SET_CONNECTION_ENCRYPTION; OpCodeIndex.CHANGE_CONNECTION_LINK_KEY;
    OpCodeIndex.CENTRAL_LINK_KEY; OpCodeIndex.REMOTE_NAME_REQUEST;
    OpCodeIndex.READ_REMOTE_SUPPORTED_FEATURES; OpCodeIndex.READ_REMOTE_EXTENDED_FEATURES;
    OpCodeIndex.READ_REMOTE_VERSION_INFORMATION; OpCodeIndex.READ_CLOCK_OFFSET;
    OpCodeIndex.READ_LMP_HANDLE; OpCodeIndex.SETUP_SYNCHRONOUS_CONNECTION;
    OpCodeIndex.ACCEPT_SYNCHRONOUS_CONNECTION; OpCodeIndex.REJECT_SYNCHRONOUS_CONNECTION;
    OpCodeIndex.IO_CAPABILITY_REQUEST_REPLY; OpCodeIndex.USER_CONFIRMATION_REQUEST_REPLY;
    OpCodeIndex.USER_CONFIRMATION_REQUEST_NEGATIVE_REPLY; OpCodeIndex.USER_PASSKEY_REQUEST_REPLY;
    OpCodeIndex.USER_PASSKEY_REQUEST_NEGATIVE_REPLY; OpCodeIndex.REMOTE_OOB_DATA_REQUEST_REPLY;
    OpCodeIndex.REMOTE_OOB_DATA_REQUEST_NEGATIVE_REPLY;
    OpCodeIndex.IO_CAPABILITY_REQUEST_NEGATIVE_REPLY;
    OpCodeIndex.ENHANCED_SETUP_SYNCHRONOUS_CONNECTION;
    OpCodeIndex.ENHANCED_ACCEPT_SYNCHRONOUS_CONNECTION;
    OpCodeIndex.REMOTE_OOB_EXTENDED_DATA_REQUEST_REPLY; OpCodeIndex.HOLD_MODE;
    OpCodeIndex.SNIFF_MODE; OpCodeIndex.EXIT_SNIFF_MODE; OpCodeIndex.QOS_SETUP;
    OpCodeIndex.ROLE_DISCOVERY; OpCodeIndex.SWITCH_ROLE; OpCodeIndex.READ_LINK_POLICY_SETTINGS;
    OpCodeIndex.WRITE_LINK_POLICY_SETTINGS; OpCodeIndex.READ_DEFAULT_LINK_POLICY_SETTINGS;
    OpCodeIndex.WRITE_DEFAULT_LINK_POLICY_SETTINGS; OpCodeIndex.FLOW_SPECIFICATION;
    OpCodeIndex.SNIFF_SUBRATING; OpCodeIndex.SET_EVENT_MASK; OpCodeIndex.RESET;
    OpCodeIndex.SET_EVENT_FILTER; OpCodeIndex.FLUSH; OpCodeIndex.DELETE_STORED_LINK_KEY;
    OpCodeIndex.WRITE_LOCAL_NAME; OpCodeIndex.READ_LOCAL_NAME;
    OpCodeIndex.READ_CONNECTION_ACCEPT_TIMEOUT; OpCodeIndex.WRITE_CONNECTION_ACCEPT_TIMEOUT;
    OpCodeIndex.READ_PAGE_TIMEOUT; OpCodeIndex.WRITE_PAGE_TIMEOUT; OpCodeIndex.READ_SCAN_ENABLE;
    OpCodeIndex.WRITE_SCAN_ENABLE; OpCodeIndex.READ_PAGE_SCAN_ACTIVITY;
    OpCodeIndex.WRITE_PAGE_SCAN_ACTIVITY; OpCodeIndex.READ_INQUIRY_SCAN_ACTIVITY;
    OpCodeIndex.WRITE_INQUIRY_SCAN_ACTIVITY; OpCodeIndex.READ_AUTHENTICATION_ENABLE;
    OpCodeIndex.WRITE_AUTHENTICATION_ENABLE; OpCodeIndex.READ_CLASS_OF_DEVICE;
    OpCodeIndex.WRITE_CLASS_OF_DEVICE; OpCodeIndex.READ_VOICE_SETTING;
    OpCodeIndex.WRITE_VOICE_SETTING; OpCodeIndex.READ_AUTOMATIC_FLUSH_TIMEOUT;
    OpCodeIndex.WRITE_AUTOMATIC_FLUSH_TIMEOUT; OpCodeIndex.READ_HOLD_MODE_ACTIVITY;
    OpCodeIndex.WRITE_HOLD_MODE_ACTIVITY; OpCodeIndex.READ_TRANSMIT_POWER_LEVEL;
    OpCodeIndex.READ_SYNCHRONOUS_FLOW_CONTROL_ENABLE;
    OpCodeIndex.WRITE_SYNCHRONOUS_FLOW_CONTROL_ENABLE;
    OpCodeIndex.SET_CONTROLLER_TO_HOST_FLOW_CONTROL; OpCodeIndex.HOST_BUFFER_SIZE;
    OpCodeIndex.HOST_NUMBER_OF_COMPLETED_PACKETS; OpCodeIndex.READ_LINK_SUPERVISION_TIMEOUT;
    OpCodeIndex.WRITE_LINK_SUPERVISION_TIMEOUT; OpCodeIndex.READ_NUMBER_OF_SUPPORTED_IAC;
    OpCodeIndex.READ_CURRENT_IAC_LAP; OpCodeIndex.WRITE_CURRENT_IAC_LAP;
    OpCodeIndex.SET_AFH_HOST_CHANNEL_CLASSIFICATION; OpCodeIndex.READ_INQUIRY_SCAN_TYPE;
    OpCodeIndex.WRITE_INQUIRY_SCAN_TYPE; OpCodeIndex.READ_INQUIRY_MODE;
    OpCodeIndex.WRITE_INQUIRY_MODE; OpCodeIndex.READ_PAGE_SCAN_TYPE;
    OpCodeIndex.WRITE_PAGE_SCAN_TYPE; OpCodeIndex.READ_AFH_CHANNEL_ASSESSMENT_MODE;
    OpCodeIndex.WRITE_AFH_CHANNEL_ASSESSMENT_MODE; OpCodeIndex.READ_EXTENDED_INQUIRY_RESPONSE;
    OpCodeIndex.WRITE_EXTENDED_INQUIRY_RESPONSE; OpCodeIndex.REFRESH_ENCRYPTION_KEY;
    OpCodeIndex.READ_SIMPLE_PAIRING_MODE; OpCodeIndex.WRITE_SIMPLE_PAIRING_MODE;
    OpCodeIndex.READ_LOCAL_OOB_DATA; OpCodeIndex.READ_INQUIRY_RESPONSE_TRANSMIT_POWER_LEVEL;
    OpCodeIndex.WRITE_INQUIRY_TRANSMIT_POWER_LEVEL; OpCodeIndex.ENHANCED_FLUSH;
    OpCodeIndex.SEND_KEYPRESS_NOTIFICATION; OpCodeIndex.SET_EVENT_MASK_PAGE_2;
    OpCodeIndex.READ_ENHANCED_TRANSMIT_POWER_LEVEL; OpCodeIndex.READ_LE_HOST_SUPPORT;
    OpCodeIndex.WRITE_LE_HOST_SUPPORT; OpCodeIndex.READ_SECURE_CONNECTIONS_HOST_SUPPORT;
    OpCodeIndex.WRITE_SECURE_CONNECTIONS_HOST_SUPPORT;
    OpCodeIndex.READ_AUTHENTICATED_PAYLOAD_TIMEOUT].
Definition supported_commands_2 : list Z :=
  [OpCodeIndex.WRITE_AUTHENTICATED_PAYLOAD_TIMEOUT; OpCodeIndex.READ_LOCAL_OOB_EXTENDED_DATA;
    OpCodeIndex.READ_LOCAL_VERSION_INFORMATION; OpCodeIndex.READ_LOCAL_SUPPORTED_FEATURES;
    OpCodeIndex.READ_LOCAL_EXTENDED_FEATURES; OpCodeIndex.READ_BUFFER_SIZE;
    OpCodeIndex.READ_BD_ADDR; OpCodeIndex.READ_LOCAL_SUPPORTED_CODECS_V1;
    OpCodeIndex.READ_FAILED_CONTACT_COUNTER; OpCodeIndex.RESET_FAILED_CONTACT_COUNTER;
    OpCodeIndex.READ_RSSI; OpCodeIndex.READ_AFH_CHANNEL_MAP;
    OpCodeIndex.READ_ENCRYPTION_KEY_SIZE; OpCodeIndex.READ_LOOPBACK_MODE;
    OpCodeIndex.WRITE_LOOPBACK_MODE; OpCodeIndex.ENABLE_IMPLEMENTATION_UNDER_TEST_MODE;
    OpCodeIndex.WRITE_SIMPLE_PAIRING_DEBUG_MODE; OpCodeIndex.WRITE_SECURE_CONNECTIONS_TEST_MODE;
    OpCodeIndex.LE_SET_EVENT_MASK; OpCodeIndex.LE_READ_BUFFER_SIZE_V1;
    OpCodeIndex.LE_READ_LOCAL_SUPPORTED_FEATURES_PAGE_0; OpCodeIndex.LE_SET_RANDOM_ADDRESS;
    OpCodeIndex.LE_SET_ADVERTISING_PARAMETERS;
    OpCodeIndex.LE_READ_ADVERTISING_PHYSICAL_CHANNEL_TX_POWER;
    OpCodeIndex.LE_SET_ADVERTISING_DATA; OpCodeIndex.LE_SET_SCAN_RESPONSE_DATA;
    OpCodeIndex.LE_SET_ADVERTISING_ENABLE; OpCodeIndex.LE_SET_SCAN_PARAMETERS;
    OpCodeIndex.LE_SET_SCAN_ENABLE; OpCodeIndex.LE_CREATE_CONNECTION;
    OpCodeIndex.LE_CREATE_CONNECTION_CANCEL; OpCodeIndex.LE_READ_FILTER_ACCEPT_LIST_SIZE;
    OpCodeIndex.LE_CLEAR_FILTER_ACCEPT_LIST; OpCodeIndex.LE_ADD_DEVICE_TO_FILTER_ACCEPT_LIST;
    OpCodeIndex.LE_REMOVE_DEVICE_FROM_FILTER_ACCEPT_LIST; OpCodeIndex.LE_CONNECTION_UPDATE;
    OpCodeIndex.LE_SET_HOST_CHANNEL_CLASSIFICATION; OpCodeIndex.LE_READ_CHANNEL_MAP;
    OpCodeIndex.LE_READ_REMOTE_FEATURES_PAGE_0; OpCodeIndex.LE_ENCRYPT; OpCodeIndex.LE_RAND;
    OpCodeIndex.LE_START_ENCRYPTION; OpCodeIndex.LE_LONG_TERM_KEY_REQUEST_REPLY;
    OpCodeIndex.LE_LONG_TERM_KEY_REQUEST_NEGATIVE_REPLY; OpCodeIndex.LE_READ_SUPPORTED_STATES;
    OpCodeIndex.LE_RECEIVER_TEST_V1; OpCodeIndex.LE_TRANSMITTER_TEST_V1; OpCodeIndex.LE_TEST_END;
    OpCodeIndex.LE_REMOTE_CONNECTION_PARAMETER_REQUEST_REPLY;
    OpCodeIndex.LE_REMOTE_CONNECTION_PARAMETER_REQUEST_NEGATIVE_REPLY;
    OpCodeIndex.LE_SET_DATA_LENGTH; OpCodeIndex.LE_READ_SUGGESTED_DEFAULT_DATA_LENGTH;
    OpCodeIndex.LE_WRITE_SUGGESTED_DEFAULT_DATA_LENGTH;
    OpCodeIndex.LE_READ_LOCAL_P_256_PUBLIC_KEY; OpCodeIndex.LE_ADD_DEVICE_TO_RESOLVING_LIST;
    OpCodeIndex.LE_REMOVE_DEVICE_FROM_RESOLVING_LIST; OpCodeIndex.LE_CLEAR_RESOLVING_LIST;
    OpCodeIndex.LE_READ_RESOLVING_LIST_SIZE; OpCodeIndex.LE_READ_PEER_RESOLVABLE_ADDRESS;
    OpCodeIndex.LE_READ_LOCAL_RESOLVABLE_ADDRESS; OpCodeIndex.LE_SET_ADDRESS_RESOLUTION_ENABLE;
    OpCodeIndex.LE_SET_RESOLVABLE_PRIVATE_ADDRESS_TIMEOUT;
    OpCodeIndex.LE_READ_MAXIMUM_DATA_LENGTH; OpCodeIndex.LE_READ_PHY;
    OpCodeIndex.LE_SET_DEFAULT_PHY; OpCodeIndex.LE_SET_PHY;
    OpCodeIndex.LE_SET_ADVERTISING_SET_RANDOM_ADDRESS;
    OpCodeIndex.LE_SET_EXTENDED_ADVERTISING_PARAMETERS_V1;
    OpCodeIndex.LE_SET_EXTENDED_ADVERTISING_DATA; OpCodeIndex.LE_SET_EXTENDED_SCAN_RESPONSE_DATA;
    OpCodeIndex.LE_SET_EXTENDED_ADVERTISING_ENABLE;
    OpCodeIndex.LE_READ_MAXIMUM_ADVERTISING_DATA_LENGTH;
    OpCodeIndex.LE_READ_NUMBER_OF_SUPPORTED_ADVERTISING_SETS;
    OpCodeIndex.LE_REMOVE_ADVERTISING_SET; OpCodeIndex.LE_CLEAR_ADVERTISING_SETS;
    OpCodeIndex.LE_SET_PERIODIC_ADVERTISING_PARAMETERS_V1;
    OpCodeIndex.LE_SET_PERIODIC_ADVERTISING_DATA; OpCodeIndex.LE_SET_PERIODIC_ADVERTISING_ENABLE;
    OpCodeIndex.LE_SET_EXTENDED_SCAN_PARAMETERS; OpCodeIndex.LE_SET_EXTENDED_SCAN_ENABLE;
    OpCodeIndex.LE_EXTENDED_CREATE_CONNECTION_V1;
    OpCodeIndex.LE_PERIODIC_ADVERTISING_CREATE_SYNC;
    OpCodeIndex.LE_PERIODIC_ADVERTISING_CREATE_SYNC_CANCEL;
    OpCodeIndex.LE_PERIODIC_ADVERTISING_TERMINATE_SYNC;
    OpCodeIndex.LE_ADD_DEVICE_TO_PERIODIC_ADVERTISER_LIST;
    OpCodeIndex.LE_REMOVE_DEVICE_FROM_PERIODIC_ADVERTISER_LIST;
    OpCodeIndex.LE_CLEAR_PERIODIC_ADVERTISER_LIST;
    OpCodeIndex.LE_READ_PERIODIC_ADVERTISER_LIST_SIZE; OpCodeIndex.LE_READ_TRANSMIT_POWER;
    OpCodeIndex.LE_READ_RF_PATH_COMPENSATION_POWER;
    OpCodeIndex.LE_WRITE_RF_PATH_COMPENSATION_POWER; OpCodeIndex.LE_SET_PRIVACY_MODE;
    OpCodeIndex.LE_READ_BUFFER_SIZE_V2; OpCodeIndex.LE_SET_CIG_PARAMETERS;
    OpCodeIndex.LE_SET_CIG_PARAMETERS_TEST; OpCodeIndex.LE_CREATE_CIS; OpCodeIndex.LE_REMOVE_CIG;
    OpCodeIndex.LE_ACCEPT_CIS_REQUEST; OpCodeIndex.LE_REJECT_CIS_REQUEST].
Definition supported_commands_3 : list Z :=
  [OpCodeIndex.LE_REQUEST_PEER_SCA; OpCodeIndex.LE_SETUP_ISO_DATA_PATH;
    OpCodeIndex.LE_REMOVE_ISO_DATA_PATH; OpCodeIndex.LE_SET_HOST_FEATURE_V1;
    OpCodeIndex.LE_ENHANCED_READ_TRANSMIT_POWER_LEVEL;
    OpCodeIndex.LE_READ_REMOTE_TRANSMIT_POWER_LEVEL;
    OpCodeIndex.LE_SET_TRANSMIT_POWER_REPORTING_ENABLE; OpCodeIndex.LE_TRANSMITTER_TEST_V4;
    OpCodeIndex.LE_SET_DEFAULT_SUBRATE; OpCodeIndex.LE_SUBRATE_REQUEST;
    OpCodeIndex.LE_CS_READ_LOCAL_SUPPORTED_CAPABILITIES;
    OpCodeIndex.LE_CS_READ_REMOTE_SUPPORTED_CAPABILITIES;
    OpCodeIndex.LE_CS_WRITE_CACHED_REMOTE_SUPPORTED_CAPABILITIES;
    OpCodeIndex.LE_CS_SECURITY_ENABLE; OpCodeIndex.LE_CS_SET_DEFAULT_SETTINGS;
    OpCodeIndex.LE_CS_READ_REMOTE_FAE_TABLE; OpCodeIndex.LE_CS_WRITE_CACHED_REMOTE_FAE_TABLE;
    OpCodeIndex.LE_CS_CREATE_CONFIG; OpCodeIndex.LE_CS_REMOVE_CONFIG;
    OpCodeIndex.LE_CS_SET_CHANNEL_CLASSIFICATION; OpCodeIndex.LE_CS_SET_PROCEDURE_PARAMETERS;
    OpCodeIndex.LE_CS_PROCEDURE_ENABLE; OpCodeIndex.LE_CS_TEST; OpCodeIndex.LE_CS_TEST_END].
Definition SupportedCommands : list Z :=
  SetSupportedCommandBits (supported_commands_1 ++ supported_commands_2 ++ supported_commands_3) true (replicate 64 0).

(** The reserved bits of the pages 0 and 2. *)
Definition reserved_bits (lmp_version : Z) : Z * Z :=
  if lmp_version =? LmpVersion.V_1_0B then (0x7fffe7e407000000, 0xffffffffffffffff) else
  if lmp_version =? LmpVersion.V_1_1 then (0x7fffe7e407000000, 0xffffffffffffffff) else
  if lmp_version =? LmpVersion.V_1_2 then (0x7fffe7e407000000, 0xffffffffffffffff) else
  if lmp_version =? LmpVersion.V_2_0 then (0x7fff066401000000, 0xffffffffffffffff) else
  if lmp_version =? LmpVersion.V_2_1 then (0x7c86006401000000, 0xffffffffffffffff) else
  if lmp_version =? LmpVersion.V_3_0 then (0x7886006401000000, 0xffffffffffffffff) else
  if lmp_version =? LmpVersion.V_4_0 then (0x7884000401000000, 0xffffffffffffffff) else
  if lmp_version =? LmpVersion.V_4_1 then (0x7884000401000000, 0xfffffffffffff480) else
  if lmp_version =? LmpVersion.V_4_2 then (0x7884000401000000, 0xfffffffffffff480) else
  if lmp_version =? LmpVersion.V_5_0 then (0x7884000401000100, 0xfffffffffffff480) else
  if lmp_version =? LmpVersion.V_5_1 then (0x7884000401000100, 0xfffffffffffff080) else
  if lmp_version =? LmpVersion.V_5_2 then (0x7884000401000100, 0xfffffffffffff080) else
  (0x7884000401000100, 0xfffffffffffff080).

Section Checks.
Context (p : ControllerProperties).
Notation lmp0 := (SupportsLMPFeature0 p).
Notation lmp2 := (SupportsLMPFeature2 p).
Notation ll := (SupportsLLFeature p).
Notation cmd := (SupportsCommand p).

(** Tables 3.5 to 3.8 of Vol 2, Part C § 3.5. *)
Definition check_tables_3_5_to_3_8 : bool :=
  if negb (lmp0 LMPFeaturesPage0Bits.ENCRYPTION) || negb (lmp0
    LMPFeaturesPage0Bits.SECURE_SIMPLE_PAIRING_CONTROLLER) || negb (lmp0
    LMPFeaturesPage0Bits.ENCAPSULATED_PDU) then false else
  if lmp0 LMPFeaturesPage0Bits.BR_EDR_NOT_SUPPORTED then false else
  if negb (Bool.eqb (lmp0 LMPFeaturesPage0Bits.SNIFF_MODE) (lmp0
    LMPFeaturesPage0Bits.SNIFF_SUBRATING)) then false else
  if lmp0 LMPFeaturesPage0Bits.BROADCAST_ENCRYPTION && lmp2
    LMPFeaturesPage2Bits.COARSE_CLOCK_ADJUSTMENT then false else
  true.

(** Table 3.9. *)
Definition check_table_3_9 : bool :=
  if lmp0 LMPFeaturesPage0Bits.ROLE_SWITCH && negb (lmp0 LMPFeaturesPage0Bits.SLOT_OFFSET) then
    false else
  if lmp0 LMPFeaturesPage0Bits.HV2_PACKETS && negb (lmp0 LMPFeaturesPage0Bits.SCO_LINK) then
    false else
  if lmp0 LMPFeaturesPage0Bits.HV3_PACKETS && negb (lmp0 LMPFeaturesPage0Bits.SCO_LINK) then
    false else
  if lmp0 LMPFeaturesPage0Bits.M_LAW_LOG_SYNCHRONOUS_DATA && negb (lmp0
    LMPFeaturesPage0Bits.SCO_LINK) && negb (lmp0 LMPFeaturesPage0Bits.EXTENDED_SCO_LINK) then
    false else
  if lmp0 LMPFeaturesPage0Bits.A_LAW_LOG_SYNCHRONOUS_DATA && negb (lmp0
    LMPFeaturesPage0Bits.SCO_LINK) && negb (lmp0 LMPFeaturesPage0Bits.EXTENDED_SCO_LINK) then
    false else
  if lmp0 LMPFeaturesPage0Bits.CVSD_SYNCHRONOUS_DATA && negb (lmp0 LMPFeaturesPage0Bits.SCO_LINK)
    && negb (lmp0 LMPFeaturesPage0Bits.EXTENDED_SCO_LINK) then false else
  if lmp0 LMPFeaturesPage0Bits.TRANSPARENT_SYNCHRONOUS_DATA && negb (lmp0
    LMPFeaturesPage0Bits.SCO_LINK) && negb (lmp0 LMPFeaturesPage0Bits.EXTENDED_SCO_LINK) then
    false else
  if lmp0 LMPFeaturesPage0Bits.ENHANCED_DATA_RATE_ACL_3_MB_S_MODE && negb (lmp0
    LMPFeaturesPage0Bits.ENHANCED_DATA_RATE_ACL_2_MB_S_MODE) then false else
  if lmp0 LMPFeaturesPage0Bits.EV4_PACKETS && negb (lmp0 LMPFeaturesPage0Bits.EXTENDED_SCO_LINK)
    then false else
  if lmp0 LMPFeaturesPage0Bits.EV5_PACKETS && negb (lmp0 LMPFeaturesPage0Bits.EXTENDED_SCO_LINK)
    then false else
  if lmp0 LMPFeaturesPage0Bits.AFH_CLASSIFICATION_PERIPHERAL && negb (lmp0
    LMPFeaturesPage0Bits.AFH_CAPABLE_PERIPHERAL) then false else
  if lmp0 LMPFeaturesPage0Bits.LMP_3_SLOT_ENHANCED_DATA_RATE_ACL_PACKETS && negb (lmp0
    LMPFeaturesPage0Bits.ENHANCED_DATA_RATE_ACL_2_MB_S_MODE) then false else
  if lmp0 LMPFeaturesPage0Bits.LMP_5_SLOT_ENHANCED_DATA_RATE_ACL_PACKETS && negb (lmp0
    LMPFeaturesPage0Bits.ENHANCED_DATA_RATE_ACL_2_MB_S_MODE) then false else
  if lmp0 LMPFeaturesPage0Bits.AFH_CLASSIFICATION_CENTRAL && negb (lmp0
    LMPFeaturesPage0Bits.AFH_CAPABLE_CENTRAL) then false else
  if lmp0 LMPFeaturesPage0Bits.ENHANCED_DATA_RATE_ESCO_2_MB_S_MODE && negb (lmp0
    LMPFeaturesPage0Bits.EXTENDED_SCO_LINK) then false else
  if lmp0 LMPFeaturesPage0Bits.ENHANCED_DATA_RATE_ESCO_3_MB_S_MODE && negb (lmp0
    LMPFeaturesPage0Bits.ENHANCED_DATA_RATE_ESCO_2_MB_S_MODE) then false else
  if lmp0 LMPFeaturesPage0Bits.LMP_3_SLOT_ENHANCED_DATA_RATE_ESCO_PACKETS && negb (lmp0
    LMPFeaturesPage0Bits.ENHANCED_DATA_RATE_ESCO_2_MB_S_MODE) then false else
  if lmp0 LMPFeaturesPage0Bits.EXTENDED_INQUIRY_RESPONSE && negb (lmp0
    LMPFeaturesPage0Bits.RSSI_WITH_INQUIRY_RESULTS) then false else
  if lmp0 LMPFeaturesPage0Bits.SIMULTANEOUS_LE_AND_BR_CONTROLLER && negb (lmp0
    LMPFeaturesPage0Bits.LE_SUPPORTED_CONTROLLER) then false else
  if lmp0 LMPFeaturesPage0Bits.ERRONEOUS_DATA_REPORTING && negb (lmp0
    LMPFeaturesPage0Bits.SCO_LINK) && negb (lmp0 LMPFeaturesPage0Bits.EXTENDED_SCO_LINK) then
    false else
  if lmp0 LMPFeaturesPage0Bits.ENHANCED_POWER_CONTROL && (negb (lmp0
    LMPFeaturesPage0Bits.POWER_CONTROL_REQUESTS) || negb (lmp0
    LMPFeaturesPage0Bits.POWER_CONTROL)) then false else
  if lmp2 LMPFeaturesPage2Bits.CONNECTIONLESS_PERIPHERAL_BROADCAST_TRANSMITTER_OPERATION && negb
    (lmp2 LMPFeaturesPage2Bits.SYNCHRONIZATION_TRAIN) then false else
  if lmp2 LMPFeaturesPage2Bits.CONNECTIONLESS_PERIPHERAL_BROADCAST_RECEIVER_OPERATION && negb
    (lmp2 LMPFeaturesPage2Bits.SYNCHRONIZATION_SCAN) then false else
  if lmp2 LMPFeaturesPage2Bits.GENERALIZED_INTERLACED_SCAN && negb (lmp0
    LMPFeaturesPage0Bits.INTERLACED_INQUIRY_SCAN) && negb (lmp0
    LMPFeaturesPage0Bits.INTERLACED_PAGE_SCAN) then false else
  if lmp2 LMPFeaturesPage2Bits.COARSE_CLOCK_ADJUSTMENT && (negb (lmp0
    LMPFeaturesPage0Bits.AFH_CAPABLE_PERIPHERAL) || negb (lmp0
    LMPFeaturesPage0Bits.AFH_CAPABLE_CENTRAL) || negb (lmp2
    LMPFeaturesPage2Bits.SYNCHRONIZATION_TRAIN) || negb (lmp2
    LMPFeaturesPage2Bits.SYNCHRONIZATION_SCAN)) then false else
  if lmp2 LMPFeaturesPage2Bits.SECURE_CONNECTIONS_CONTROLLER_SUPPORT && (negb (lmp0
    LMPFeaturesPage0Bits.PAUSE_ENCRYPTION) || negb (lmp2 LMPFeaturesPage2Bits.PING)) then false
    else
  true.

Definition CheckSupportedFeatures : bool :=
  let '(lmp_page_0_reserved_bits, lmp_page_2_reserved_bits) := reserved_bits (lmp_version p) in
  if negb (Z.land lmp_page_0_reserved_bits (lmp_page p 0) =? 0) then false else
  if negb (Z.land lmp_page_2_reserved_bits (lmp_page p 2) =? 0) then false else
  check_tables_3_5_to_3_8 && check_table_3_9.

Definition c1 : Requirement :=
  kMandatory.
Definition c2 : Requirement :=
  kMandatory.
Definition c3 : Requirement :=
  kMandatory.
Definition c4 : Requirement :=
  mandatory_or_excluded (ll LLFeaturesBits.LE_ENCRYPTION).
Definition c6 : Requirement :=
  mandatory_or_excluded (ll LLFeaturesBits.CONNECTION_PARAMETERS_REQUEST_PROCEDURE).
Definition c7 : Requirement :=
  mandatory_or_excluded (ll LLFeaturesBits.LE_ENCRYPTION && ll LLFeaturesBits.LE_PING).
Definition c8 : Requirement :=
  mandatory_or_optional (ll LLFeaturesBits.LE_DATA_PACKET_LENGTH_EXTENSION).
Definition c9 : Requirement :=
  mandatory_or_excluded (ll LLFeaturesBits.LL_PRIVACY).
Definition c10 : Requirement :=
  optional_or_excluded (ll LLFeaturesBits.LL_PRIVACY).
Definition c11 : Requirement :=
  mandatory_or_optional (ll LLFeaturesBits.LE_2M_PHY || ll LLFeaturesBits.LE_CODED_PHY).
Definition c12 : Requirement :=
  mandatory_or_excluded (ll LLFeaturesBits.LE_2M_PHY || ll LLFeaturesBits.LE_CODED_PHY || ll
    LLFeaturesBits.STABLE_MODULATION_INDEX_TRANSMITTER).
Definition c13 : Requirement :=
  mandatory_or_excluded (ll LLFeaturesBits.LE_2M_PHY || ll LLFeaturesBits.LE_CODED_PHY || ll
    LLFeaturesBits.STABLE_MODULATION_INDEX_RECEIVER).
Definition c15 : Requirement :=
  kMandatory.
Definition c16 : Requirement :=
  mandatory_or_excluded (ll LLFeaturesBits.LE_PERIODIC_ADVERTISING).
Definition c17 : Requirement :=
  mandatory_or_excluded (ll LLFeaturesBits.LE_EXTENDED_ADVERTISING).
Definition c18 : Requirement :=
  mandatory_or_excluded (ll LLFeaturesBits.LE_PERIODIC_ADVERTISING).
Definition c19 : Requirement :=
  mandatory_or_excluded (ll LLFeaturesBits.LE_EXTENDED_ADVERTISING).
Definition c20 : Requirement :=
  mandatory_or_excluded (ll LLFeaturesBits.LE_EXTENDED_ADVERTISING).
Definition c21 : Requirement :=
  mandatory_or_excluded (ll LLFeaturesBits.LE_PERIODIC_ADVERTISING).
Definition c22 : Requirement :=
  kMandatory.
Definition c25 : Requirement :=
  mandatory_or_excluded (ll LLFeaturesBits.CONNECTION_CTE_REQUEST).
Definition c26 : Requirement :=
  mandatory_or_excluded (ll LLFeaturesBits.CONNECTION_CTE_RESPONSE).
Definition c27 : Requirement :=
  mandatory_or_excluded (ll LLFeaturesBits.CONNECTIONLESS_CTE_TRANSMITTER).
Definition c28 : Requirement :=
  mandatory_or_excluded (ll LLFeaturesBits.CONNECTIONLESS_CTE_RECEIVER).
Definition c29 : Requirement :=
  mandatory_or_optional (ll LLFeaturesBits.CONNECTION_CTE_RESPONSE || ll
    LLFeaturesBits.CONNECTIONLESS_CTE_TRANSMITTER).
Definition c30 : Requirement :=
  mandatory_or_optional (ll LLFeaturesBits.CONNECTION_CTE_REQUEST || ll
    LLFeaturesBits.CONNECTIONLESS_CTE_RECEIVER).
Definition c31 : Requirement :=
  mandatory_or_excluded (ll LLFeaturesBits.CONNECTION_CTE_REQUEST || ll
    LLFeaturesBits.CONNECTION_CTE_RESPONSE || ll LLFeaturesBits.CONNECTIONLESS_CTE_TRANSMITTER ||
    ll LLFeaturesBits.CONNECTIONLESS_CTE_RECEIVER).
Definition c32 : Requirement :=
  mandatory_or_optional_or_excluded (ll
    LLFeaturesBits.PERIODIC_ADVERTISING_SYNC_TRANSFER_RECIPIENT) (ll
    LLFeaturesBits.LE_PERIODIC_ADVERTISING).
Definition c33 : Requirement :=
  mandatory_or_excluded (ll LLFeaturesBits.PERIODIC_ADVERTISING_SYNC_TRANSFER_SENDER).
Definition c34 : Requirement :=
  mandatory_or_excluded (ll LLFeaturesBits.PERIODIC_ADVERTISING_SYNC_TRANSFER_SENDER).
Definition c35 : Requirement :=
  mandatory_or_excluded (ll LLFeaturesBits.PERIODIC_ADVERTISING_SYNC_TRANSFER_RECIPIENT).
Definition c36 : Requirement :=
  kMandatory.
Definition c37 : Requirement :=
  mandatory_or_excluded (ll LLFeaturesBits.SLEEP_CLOCK_ACCURACY_UPDATES).
Definition c39 : Requirement :=
  mandatory_or_excluded (ll LLFeaturesBits.CONNECTED_ISOCHRONOUS_STREAM_CENTRAL).
Definition c40 : Requirement :=
  mandatory_or_excluded (ll LLFeaturesBits.CONNECTED_ISOCHRONOUS_STREAM_PERIPHERAL).
Definition c41 : Requirement :=
  mandatory_or_excluded (ll LLFeaturesBits.ISOCHRONOUS_BROADCASTER).
Definition c42 : Requirement :=
  mandatory_or_excluded (ll LLFeaturesBits.SYNCHRONIZED_RECEIVER).
Definition c44 : Requirement :=
  mandatory_or_optional_or_excluded (ll LLFeaturesBits.SLEEP_CLOCK_ACCURACY_UPDATES && (ll
    LLFeaturesBits.CONNECTED_ISOCHRONOUS_STREAM_CENTRAL || ll
    LLFeaturesBits.CONNECTED_ISOCHRONOUS_STREAM_PERIPHERAL)) (ll
    LLFeaturesBits.SLEEP_CLOCK_ACCURACY_UPDATES).
Definition c45 : Requirement :=
  mandatory_or_excluded (ll LLFeaturesBits.CONNECTED_ISOCHRONOUS_STREAM_CENTRAL || ll
    LLFeaturesBits.CONNECTED_ISOCHRONOUS_STREAM_PERIPHERAL || ll
    LLFeaturesBits.ISOCHRONOUS_BROADCASTER).
Definition c46 : Requirement :=
  mandatory_or_excluded (ll LLFeaturesBits.CONNECTED_ISOCHRONOUS_STREAM_CENTRAL || ll
    LLFeaturesBits.CONNECTED_ISOCHRONOUS_STREAM_PERIPHERAL || ll
    LLFeaturesBits.SYNCHRONIZED_RECEIVER).
Definition c47 : Requirement :=
  mandatory_or_excluded (ll LLFeaturesBits.CONNECTED_ISOCHRONOUS_STREAM_CENTRAL || ll
    LLFeaturesBits.CONNECTED_ISOCHRONOUS_STREAM_PERIPHERAL || ll
    LLFeaturesBits.ISOCHRONOUS_BROADCASTER || ll LLFeaturesBits.SYNCHRONIZED_RECEIVER).
Definition c49 : Requirement :=
  mandatory_or_optional (ll LLFeaturesBits.CONNECTED_ISOCHRONOUS_STREAM_CENTRAL || ll
    LLFeaturesBits.CONNECTED_ISOCHRONOUS_STREAM_PERIPHERAL || ll
    LLFeaturesBits.CONNECTION_SUBRATING).
Definition c50 : Requirement :=
  optional_or_excluded (ll LLFeaturesBits.CONNECTED_ISOCHRONOUS_STREAM_CENTRAL || ll
    LLFeaturesBits.CONNECTED_ISOCHRONOUS_STREAM_PERIPHERAL || ll
    LLFeaturesBits.SYNCHRONIZED_RECEIVER).
Definition c51 : Requirement :=
  mandatory_or_excluded (ll LLFeaturesBits.LE_POWER_CONTROL_REQUEST).
Definition c52 : Requirement :=
  mandatory_or_excluded (ll LLFeaturesBits.LE_PATH_LOSS_MONITORING).
Definition c53 : Requirement :=
  mandatory_or_optional (ll LLFeaturesBits.LE_POWER_CONTROL_REQUEST).
Definition c55 : Requirement :=
  mandatory_or_optional (ll LLFeaturesBits.CONNECTED_ISOCHRONOUS_STREAM_CENTRAL || ll
    LLFeaturesBits.CONNECTED_ISOCHRONOUS_STREAM_PERIPHERAL || ll
    LLFeaturesBits.ISOCHRONOUS_BROADCASTER).
Definition c57 : Requirement :=
  mandatory_or_excluded (ll LLFeaturesBits.CONNECTION_SUBRATING).
Definition c58 : Requirement :=
  mandatory_or_excluded (ll LLFeaturesBits.CHANNEL_CLASSIFICATION).
Definition c59 : Requirement :=
  kMandatory.
Definition c60 : Requirement :=
  mandatory_or_excluded (ll LLFeaturesBits.LE_ENCRYPTION).
Definition c61 : Requirement :=
  mandatory_or_excluded (ll LLFeaturesBits.LE_ENCRYPTION).
Definition c62 : Requirement :=
  kMandatory.
Definition c64 : Requirement :=
  kOptional.
Definition c75 : Requirement :=
  mandatory_or_excluded (ll LLFeaturesBits.CHANNEL_SOUNDING).
Definition c76 : Requirement :=
  mandatory_or_excluded (ll LLFeaturesBits.CHANNEL_SOUNDING && (negb (Z.land (roles_supported
    (cs_local_supported_capabilities p)) CsRolesSupported.INITIATOR =? 0))).
Definition c94 : Requirement :=
  mandatory_or_excluded (cmd OpCodeIndex.LE_CREATE_CONNECTION || cmd
    OpCodeIndex.LE_EXTENDED_CREATE_CONNECTION_V1).
Definition c96 : Requirement :=
  kOptional.
Definition c97 : Requirement :=
  kMandatory.
Definition c98 : Requirement :=
  kMandatory.
Definition c99 : Requirement :=
  mandatory_or_optional (cmd OpCodeIndex.LE_GENERATE_DHKEY_V2).
Definition c103 : Requirement :=
  mandatory_or_excluded (cmd OpCodeIndex.PERIODIC_INQUIRY_MODE).
Definition c106 : Requirement :=
  mandatory_or_excluded (cmd OpCodeIndex.REMOTE_NAME_REQUEST).
Definition c107 : Requirement :=
  mandatory_or_excluded (cmd OpCodeIndex.SET_CONTROLLER_TO_HOST_FLOW_CONTROL).
Definition c108 : Requirement :=
  mandatory_or_optional (cmd OpCodeIndex.SET_MWS_PATTERN_CONFIGURATION).
Definition c109 : Requirement :=
  mandatory_or_excluded (cmd OpCodeIndex.SET_MWS_SIGNALING).
Definition c111 : Requirement :=
  mandatory_or_excluded (cmd OpCodeIndex.WRITE_AUTHENTICATION_ENABLE).
Definition c112 : Requirement :=
  mandatory_or_excluded (cmd OpCodeIndex.WRITE_DEFAULT_ERRONEOUS_DATA_REPORTING).
Definition c113 : Requirement :=
  mandatory_or_excluded (cmd OpCodeIndex.WRITE_EXTENDED_INQUIRY_LENGTH).
Definition c114 : Requirement :=
  mandatory_or_excluded (cmd OpCodeIndex.WRITE_EXTENDED_PAGE_TIMEOUT).
Definition c115 : Requirement :=
  mandatory_or_excluded (cmd OpCodeIndex.WRITE_INQUIRY_MODE).
Definition c116 : Requirement :=
  mandatory_or_excluded (cmd OpCodeIndex.WRITE_LE_HOST_SUPPORT).
Definition c117 : Requirement :=
  mandatory_or_excluded (cmd OpCodeIndex.WRITE_LINK_SUPERVISION_TIMEOUT).
Definition c118 : Requirement :=
  mandatory_or_excluded (cmd OpCodeIndex.WRITE_NUM_BROADCAST_RETRANSMITS).
Definition c119 : Requirement :=
  mandatory_or_excluded (cmd OpCodeIndex.WRITE_PAGE_SCAN_TYPE).
Definition c120 : Requirement :=
  mandatory_or_excluded (cmd OpCodeIndex.WRITE_PIN_TYPE).
Definition c121 : Requirement :=
  mandatory_or_excluded (cmd OpCodeIndex.WRITE_STORED_LINK_KEY).
Definition c122 : Requirement :=
  mandatory_or_excluded (cmd OpCodeIndex.WRITE_SYNCHRONOUS_FLOW_CONTROL_ENABLE).
Definition c123 : Requirement :=
  kMandatory.
Definition c124 : Requirement :=
  kExcluded.
Definition c125 : Requirement :=
  kMandatory.
Definition c127 : Requirement :=
  kMandatory.
Definition c128 : Requirement :=
  kOptional.
Definition c129 : Requirement :=
  kExcluded.
Definition c133 : Requirement :=
  mandatory_or_excluded (lmp0 LMPFeaturesPage0Bits.HV2_PACKETS || lmp0
    LMPFeaturesPage0Bits.HV3_PACKETS || lmp0
    LMPFeaturesPage0Bits.ENHANCED_DATA_RATE_ACL_2_MB_S_MODE || lmp0
    LMPFeaturesPage0Bits.ENHANCED_DATA_RATE_ACL_3_MB_S_MODE || lmp0
    LMPFeaturesPage0Bits.LMP_3_SLOT_ENHANCED_DATA_RATE_ACL_PACKETS).
Definition c134 : Requirement :=
  mandatory_or_excluded (lmp0 LMPFeaturesPage0Bits.SCO_LINK || lmp0
    LMPFeaturesPage0Bits.EXTENDED_SCO_LINK).
Definition c135 : Requirement :=
  optional_or_excluded (lmp0 LMPFeaturesPage0Bits.SCO_LINK || lmp0
    LMPFeaturesPage0Bits.EXTENDED_SCO_LINK).
Definition c136 : Requirement :=
  optional_or_excluded (lmp2 LMPFeaturesPage2Bits.SLOT_AVAILABILITY_MASK).
Definition c138 : Requirement :=
  mandatory_or_optional_or_excluded (lmp2
    LMPFeaturesPage2Bits.SECURE_CONNECTIONS_CONTROLLER_SUPPORT) (lmp0
    LMPFeaturesPage0Bits.EXTENDED_SCO_LINK).
Definition c139 : Requirement :=
  mandatory_or_excluded (lmp0 LMPFeaturesPage0Bits.AFH_CAPABLE_CENTRAL || lmp0
    LMPFeaturesPage0Bits.AFH_CAPABLE_PERIPHERAL).
Definition c140 : Requirement :=
  mandatory_or_excluded (lmp0 LMPFeaturesPage0Bits.AFH_CLASSIFICATION_CENTRAL || lmp0
    LMPFeaturesPage0Bits.AFH_CLASSIFICATION_PERIPHERAL || lmp0
    LMPFeaturesPage0Bits.AFH_CAPABLE_CENTRAL).
Definition c141 : Requirement :=
  mandatory_or_excluded (lmp0 LMPFeaturesPage0Bits.ROLE_SWITCH || lmp0
    LMPFeaturesPage0Bits.HOLD_MODE || lmp0 LMPFeaturesPage0Bits.SNIFF_MODE).
Definition c142 : Requirement :=
  kMandatory.
Definition c143 : Requirement :=
  mandatory_or_excluded (lmp2 LMPFeaturesPage2Bits.SECURE_CONNECTIONS_CONTROLLER_SUPPORT).
Definition c145 : Requirement :=
  kMandatory.
Definition c146 : Requirement :=
  kMandatory.
Definition c148 : Requirement :=
  kMandatory.
Definition c151 : Requirement :=
  mandatory_or_excluded (lmp2 LMPFeaturesPage2Bits.SECURE_CONNECTIONS_CONTROLLER_SUPPORT && lmp2
    LMPFeaturesPage2Bits.PING).
Definition c152 : Requirement :=
  mandatory_or_excluded (lmp0 LMPFeaturesPage0Bits.POWER_CONTROL).
Definition c153 : Requirement :=
  mandatory_or_excluded (lmp0 LMPFeaturesPage0Bits.LE_SUPPORTED_CONTROLLER).
Definition c154 : Requirement :=
  mandatory_or_excluded (lmp0 LMPFeaturesPage0Bits.INTERLACED_PAGE_SCAN).
Definition c155 : Requirement :=
  mandatory_or_excluded (cmd OpCodeIndex.WRITE_AUTHENTICATED_PAYLOAD_TIMEOUT).
Definition c156 : Requirement :=
  mandatory_or_excluded (cmd OpCodeIndex.READ_LOCAL_SUPPORTED_CODECS_V2).
Definition c157 : Requirement :=
  mandatory_or_optional (cmd OpCodeIndex.READ_LOCAL_SUPPORTED_CODECS_V2).
Definition c201 : Requirement :=
  mandatory_or_excluded (lmp2
    LMPFeaturesPage2Bits.CONNECTIONLESS_PERIPHERAL_BROADCAST_TRANSMITTER_OPERATION).
Definition c202 : Requirement :=
  mandatory_or_excluded (lmp2
    LMPFeaturesPage2Bits.CONNECTIONLESS_PERIPHERAL_BROADCAST_RECEIVER_OPERATION).
Definition c203 : Requirement :=
  mandatory_or_excluded (lmp2 LMPFeaturesPage2Bits.SYNCHRONIZATION_TRAIN).
Definition c204 : Requirement :=
  mandatory_or_excluded (lmp2 LMPFeaturesPage2Bits.SYNCHRONIZATION_SCAN).
Definition c205 : Requirement :=
  mandatory_or_excluded (lmp0 LMPFeaturesPage0Bits.EXTENDED_INQUIRY_RESPONSE).
Definition c212 : Requirement :=
  mandatory_or_excluded (lmp0 LMPFeaturesPage0Bits.ROLE_SWITCH).
Definition c213 : Requirement :=
  mandatory_or_excluded (lmp0 LMPFeaturesPage0Bits.HOLD_MODE).
Definition c214 : Requirement :=
  mandatory_or_excluded (lmp0 LMPFeaturesPage0Bits.SNIFF_MODE).
Definition c215 : Requirement :=
  mandatory_or_excluded (lmp0 LMPFeaturesPage0Bits.BROADCAST_ENCRYPTION).
Definition c217 : Requirement :=
  mandatory_or_excluded (lmp0 LMPFeaturesPage0Bits.ENHANCED_POWER_CONTROL).
Definition c218 : Requirement :=
  mandatory_or_excluded (lmp2 LMPFeaturesPage2Bits.SECURE_CONNECTIONS_CONTROLLER_SUPPORT).
Definition c220 : Requirement :=
  mandatory_or_excluded (lmp0 LMPFeaturesPage0Bits.EXTENDED_FEATURES).
Definition c221 : Requirement :=
  mandatory_or_excluded (lmp0 LMPFeaturesPage0Bits.SNIFF_SUBRATING).

(** Table 3.1 of Vol 4, Part E § 3: the command, and what each transport requires. *)
Definition commands_1 : list (Z * Requirement * Requirement) :=
  [(OpCodeIndex.ACCEPT_CONNECTION_REQUEST, kMandatory, kExcluded);
   (OpCodeIndex.ACCEPT_SYNCHRONOUS_CONNECTION, c134, kExcluded);
   (OpCodeIndex.CHANGE_CONNECTION_PACKET_TYPE, c133, kExcluded);
   (OpCodeIndex.CONFIGURE_DATA_PATH, c156, c156);
   (OpCodeIndex.CREATE_CONNECTION_CANCEL, kMandatory, kExcluded);
   (OpCodeIndex.CREATE_CONNECTION, kMandatory, kExcluded);
   (OpCodeIndex.DELETE_RESERVED_LT_ADDR, c201, kExcluded);
   (OpCodeIndex.DELETE_STORED_LINK_KEY, c121, kExcluded);
   (OpCodeIndex.DISCONNECT, kMandatory, c3);
   (OpCodeIndex.ENABLE_IMPLEMENTATION_UNDER_TEST_MODE, c123, kExcluded);
   (OpCodeIndex.ENHANCED_ACCEPT_SYNCHRONOUS_CONNECTION, c135, kExcluded);
   (OpCodeIndex.ENHANCED_FLUSH, kMandatory, kExcluded);
   (OpCodeIndex.ENHANCED_SETUP_SYNCHRONOUS_CONNECTION, c135, kExcluded);
   (OpCodeIndex.EXIT_PERIODIC_INQUIRY_MODE, c103, kExcluded);
   (OpCodeIndex.EXIT_SNIFF_MODE, c214, kExcluded);
   (OpCodeIndex.FLOW_SPECIFICATION, kMandatory, kExcluded);
   (OpCodeIndex.FLUSH, kMandatory, kExcluded);
   (OpCodeIndex.GET_MWS_TRANSPORT_LAYER_CONFIGURATION, c109, c109);
   (OpCodeIndex.HOLD_MODE, c213, kExcluded);
   (OpCodeIndex.HOST_BUFFER_SIZE, c107, c107);
   (OpCodeIndex.HOST_NUMBER_OF_COMPLETED_PACKETS, c107, c107);
   (OpCodeIndex.INQUIRY_CANCEL, c127, kExcluded);
   (OpCodeIndex.INQUIRY, c127, kExcluded);
   (OpCodeIndex.IO_CAPABILITY_REQUEST_NEGATIVE_REPLY, kMandatory, kExcluded);
   (OpCodeIndex.IO_CAPABILITY_REQUEST_REPLY, kMandatory, kExcluded);
   (OpCodeIndex.LE_ACCEPT_CIS_REQUEST, kExcluded, c40);
   (OpCodeIndex.LE_ADD_DEVICE_TO_FILTER_ACCEPT_LIST, kExcluded, kMandatory);
   (OpCodeIndex.LE_ADD_DEVICE_TO_PERIODIC_ADVERTISER_LIST, kExcluded, c21);
   (OpCodeIndex.LE_ADD_DEVICE_TO_RESOLVING_LIST, kExcluded, c9);
   (OpCodeIndex.LE_BIG_CREATE_SYNC, kExcluded, c42);
   (OpCodeIndex.LE_BIG_TERMINATE_SYNC, kExcluded, c42);
   (OpCodeIndex.LE_CLEAR_ADVERTISING_SETS, kExcluded, c17);
   (OpCodeIndex.LE_CLEAR_FILTER_ACCEPT_LIST, kExcluded, kMandatory);
   (OpCodeIndex.LE_CLEAR_PERIODIC_ADVERTISER_LIST, kExcluded, c21);
   (OpCodeIndex.LE_CLEAR_RESOLVING_LIST, kExcluded, c9);
   (OpCodeIndex.LE_CONNECTION_CTE_REQUEST_ENABLE, kExcluded, c25);
   (OpCodeIndex.LE_CONNECTION_CTE_RESPONSE_ENABLE, kExcluded, c26);
   (OpCodeIndex.LE_CONNECTION_UPDATE, kExcluded, c62);
   (OpCodeIndex.LE_CREATE_BIG, kExcluded, c41);
   (OpCodeIndex.LE_CREATE_BIG_TEST, kExcluded, c41);
   (OpCodeIndex.LE_CREATE_CIS, kExcluded, c39);
   (OpCodeIndex.LE_CREATE_CONNECTION_CANCEL, kExcluded, c94);
   (OpCodeIndex.LE_CREATE_CONNECTION, kExcluded, c59);
   (OpCodeIndex.LE_CS_CREATE_CONFIG, kExcluded, c75);
   (OpCodeIndex.LE_CS_PROCEDURE_ENABLE, kExcluded, c75);
   (OpCodeIndex.LE_CS_READ_LOCAL_SUPPORTED_CAPABILITIES, kExcluded, c75);
   (OpCodeIndex.LE_CS_READ_REMOTE_FAE_TABLE, kExcluded, c75);
   (OpCodeIndex.LE_CS_READ_REMOTE_SUPPORTED_CAPABILITIES, kExcluded, c75);
   (OpCodeIndex.LE_CS_REMOVE_CONFIG, kExcluded, c75);
   (OpCodeIndex.LE_CS_SECURITY_ENABLE, kExcluded, c75);
   (OpCodeIndex.LE_CS_SET_CHANNEL_CLASSIFICATION, kExcluded, c75);
   (OpCodeIndex.LE_CS_SET_DEFAULT_SETTINGS, kExcluded, c75);
   (OpCodeIndex.LE_CS_SET_PROCEDURE_PARAMETERS, kExcluded, c75);
   (OpCodeIndex.LE_CS_TEST, kExcluded, c75);
   (OpCodeIndex.LE_CS_TEST_END, kExcluded, c75);
   (OpCodeIndex.LE_CS_WRITE_CACHED_REMOTE_FAE_TABLE, kExcluded, c76);
   (OpCodeIndex.LE_CS_WRITE_CACHED_REMOTE_SUPPORTED_CAPABILITIES, kExcluded, c75);
   (OpCodeIndex.LE_START_ENCRYPTION, kExcluded, c60);
   (OpCodeIndex.LE_ENCRYPT, kExcluded, c4);
   (OpCodeIndex.LE_ENHANCED_READ_TRANSMIT_POWER_LEVEL, kExcluded, c51);
   (OpCodeIndex.LE_EXTENDED_CREATE_CONNECTION_V1, kExcluded, c20);
   (OpCodeIndex.LE_GENERATE_DHKEY_V1, kExcluded, c99);
   (OpCodeIndex.LE_GENERATE_DHKEY_V2, kExcluded, kOptional);
   (OpCodeIndex.LE_ISO_READ_TEST_COUNTERS, kExcluded, c46);
   (OpCodeIndex.LE_ISO_RECEIVE_TEST, kExcluded, c46);
   (OpCodeIndex.LE_ISO_TEST_END, kExcluded, c47);
   (OpCodeIndex.LE_ISO_TRANSMIT_TEST, kExcluded, c45);
   (OpCodeIndex.LE_LONG_TERM_KEY_REQUEST_NEGATIVE_REPLY, kExcluded, c61);
   (OpCodeIndex.LE_LONG_TERM_KEY_REQUEST_REPLY, kExcluded, c61);
   (OpCodeIndex.LE_MODIFY_SLEEP_CLOCK_ACCURACY, kExcluded, c37);
   (OpCodeIndex.LE_PERIODIC_ADVERTISING_CREATE_SYNC_CANCEL, kExcluded, c16);
   (OpCodeIndex.LE_PERIODIC_ADVERTISING_CREATE_SYNC, kExcluded, c16);
   (OpCodeIndex.LE_PERIODIC_ADVERTISING_SET_INFO_TRANSFER, kExcluded, c34);
   (OpCodeIndex.LE_PERIODIC_ADVERTISING_SYNC_TRANSFER, kExcluded, c33);
   (OpCodeIndex.LE_PERIODIC_ADVERTISING_TERMINATE_SYNC, kExcluded, c21);
   (OpCodeIndex.LE_RAND, kExcluded, c4);
   (OpCodeIndex.LE_READ_ADVERTISING_PHYSICAL_CHANNEL_TX_POWER, kExcluded, c97);
   (OpCodeIndex.LE_READ_ANTENNA_INFORMATION, kExcluded, c31);
   (OpCodeIndex.LE_READ_BUFFER_SIZE_V1, kExcluded, c3);
   (OpCodeIndex.LE_READ_BUFFER_SIZE_V2, kExcluded, c55);
   (OpCodeIndex.LE_READ_CHANNEL_MAP, kExcluded, c3);
   (OpCodeIndex.LE_READ_FILTER_ACCEPT_LIST_SIZE, kExcluded, kMandatory);
   (OpCodeIndex.LE_READ_ISO_LINK_QUALITY, kExcluded, c50);
   (OpCodeIndex.LE_READ_ISO_TX_SYNC, kExcluded, c45);
   (OpCodeIndex.LE_READ_LOCAL_RESOLVABLE_ADDRESS, kExcluded, c10);
   (OpCodeIndex.LE_READ_LOCAL_SUPPORTED_FEATURES_PAGE_0, kExcluded, kMandatory);
   (OpCodeIndex.LE_READ_MAXIMUM_ADVERTISING_DATA_LENGTH, kExcluded, c17);
   (OpCodeIndex.LE_READ_MAXIMUM_DATA_LENGTH, kExcluded, c8);
   (OpCodeIndex.LE_READ_NUMBER_OF_SUPPORTED_ADVERTISING_SETS, kExcluded, c17);
   (OpCodeIndex.LE_READ_PEER_RESOLVABLE_ADDRESS, kExcluded, c10);
   (OpCodeIndex.LE_READ_PERIODIC_ADVERTISER_LIST_SIZE, kExcluded, c21);
   (OpCodeIndex.LE_READ_PHY, kExcluded, c11);
   (OpCodeIndex.LE_READ_REMOTE_FEATURES_PAGE_0, kExcluded, c3);
   (OpCodeIndex.LE_READ_REMOTE_TRANSMIT_POWER_LEVEL, kExcluded, c51);
   (OpCodeIndex.LE_READ_RESOLVING_LIST_SIZE, kExcluded, c9);
   (OpCodeIndex.LE_READ_RF_PATH_COMPENSATION_POWER, kExcluded, c22);
   (OpCodeIndex.LE_READ_SUGGESTED_DEFAULT_DATA_LENGTH, kExcluded, c8);
   (OpCodeIndex.LE_READ_SUPPORTED_STATES, kExcluded, kMandatory);
   (OpCodeIndex.LE_READ_TRANSMIT_POWER, kExcluded, c64);
   (OpCodeIndex.LE_RECEIVER_TEST_V1, kExcluded, c2);
   (OpCodeIndex.LE_RECEIVER_TEST_V2, kExcluded, c13);
   (OpCodeIndex.LE_RECEIVER_TEST_V3, kExcluded, c30);
   (OpCodeIndex.LE_REJECT_CIS_REQUEST, kExcluded, c40);
   (OpCodeIndex.LE_REMOTE_CONNECTION_PARAMETER_REQUEST_NEGATIVE_REPLY, kExcluded, c6);
   (OpCodeIndex.LE_REMOTE_CONNECTION_PARAMETER_REQUEST_REPLY, kExcluded, c6);
   (OpCodeIndex.LE_REMOVE_ADVERTISING_SET, kExcluded, c17);
   (OpCodeIndex.LE_REMOVE_CIG, kExcluded, c39);
   (OpCodeIndex.LE_REMOVE_DEVICE_FROM_FILTER_ACCEPT_LIST, kExcluded, kMandatory);
   (OpCodeIndex.LE_REMOVE_DEVICE_FROM_PERIODIC_ADVERTISER_LIST, kExcluded, c21);
   (OpCodeIndex.LE_REMOVE_DEVICE_FROM_RESOLVING_LIST, kExcluded, c9);
   (OpCodeIndex.LE_REMOVE_ISO_DATA_PATH, kExcluded, c47);
   (OpCodeIndex.LE_REQUEST_PEER_SCA, kExcluded, c44);
   (OpCodeIndex.LE_SET_ADDRESS_RESOLUTION_ENABLE, kExcluded, c9);
   (OpCodeIndex.LE_SET_ADVERTISING_DATA, kExcluded, c97);
   (OpCodeIndex.LE_SET_ADVERTISING_ENABLE, kExcluded, c97);
   (OpCodeIndex.LE_SET_ADVERTISING_PARAMETERS, kExcluded, c97);
   (OpCodeIndex.LE_SET_ADVERTISING_SET_RANDOM_ADDRESS, kExcluded, c17);
   (OpCodeIndex.LE_SET_CIG_PARAMETERS, kExcluded, c39);
   (OpCodeIndex.LE_SET_CIG_PARAMETERS_TEST, kExcluded, c39);
   (OpCodeIndex.LE_SET_CONNECTION_CTE_RECEIVE_PARAMETERS, kExcluded, c25);
   (OpCodeIndex.LE_SET_CONNECTION_CTE_TRANSMIT_PARAMETERS, kExcluded, c26);
   (OpCodeIndex.LE_SET_CONNECTIONLESS_CTE_TRANSMIT_ENABLE, kExcluded, c27);
   (OpCodeIndex.LE_SET_CONNECTIONLESS_CTE_TRANSMIT_PARAMETERS, kExcluded, c27);
   (OpCodeIndex.LE_SET_CONNECTIONLESS_IQ_SAMPLING_ENABLE, kExcluded, c28);
   (OpCodeIndex.LE_SET_DATA_LENGTH, kExcluded, c8);
   (OpCodeIndex.LE_SET_DATA_RELATED_ADDRESS_CHANGES, kExcluded, c10);
   (OpCodeIndex.LE_SET_DEFAULT_PERIODIC_ADVERTISING_SYNC_TRANSFER_PARAMETERS, kExcluded, c35)].
Definition commands_2 : list (Z * Requirement * Requirement) :=
  [(OpCodeIndex.LE_SET_DEFAULT_PHY, kExcluded, c11);
   (OpCodeIndex.LE_SET_DEFAULT_SUBRATE, kExcluded, c57);
   (OpCodeIndex.LE_SET_EVENT_MASK, kExcluded, kMandatory);
   (OpCodeIndex.LE_SET_EXTENDED_ADVERTISING_DATA, kExcluded, c17);
   (OpCodeIndex.LE_SET_EXTENDED_ADVERTISING_ENABLE, kExcluded, c17);
   (OpCodeIndex.LE_SET_EXTENDED_ADVERTISING_PARAMETERS_V1, kExcluded, c17);
   (OpCodeIndex.LE_SET_EXTENDED_SCAN_ENABLE, kExcluded, c19);
   (OpCodeIndex.LE_SET_EXTENDED_SCAN_PARAMETERS, kExcluded, c19);
   (OpCodeIndex.LE_SET_EXTENDED_SCAN_RESPONSE_DATA, kExcluded, c17);
   (OpCodeIndex.LE_SET_HOST_CHANNEL_CLASSIFICATION, kExcluded, c36);
   (OpCodeIndex.LE_SET_HOST_FEATURE_V1, kExcluded, c49);
   (OpCodeIndex.LE_SET_PATH_LOSS_REPORTING_ENABLE, kExcluded, c52);
   (OpCodeIndex.LE_SET_PATH_LOSS_REPORTING_PARAMETERS, kExcluded, c52);
   (OpCodeIndex.LE_SET_PERIODIC_ADVERTISING_DATA, kExcluded, c18);
   (OpCodeIndex.LE_SET_PERIODIC_ADVERTISING_ENABLE, kExcluded, c18);
   (OpCodeIndex.LE_SET_PERIODIC_ADVERTISING_PARAMETERS_V1, kExcluded, c18);
   (OpCodeIndex.LE_SET_PERIODIC_ADVERTISING_RECEIVE_ENABLE, kExcluded, c32);
   (OpCodeIndex.LE_SET_PERIODIC_ADVERTISING_SYNC_TRANSFER_PARAMETERS, kExcluded, c35);
   (OpCodeIndex.LE_SET_PHY, kExcluded, c11);
   (OpCodeIndex.LE_SET_PRIVACY_MODE, kExcluded, c9);
   (OpCodeIndex.LE_SET_RANDOM_ADDRESS, kExcluded, c1);
   (OpCodeIndex.LE_SET_RESOLVABLE_PRIVATE_ADDRESS_TIMEOUT, kExcluded, c9);
   (OpCodeIndex.LE_SET_SCAN_ENABLE, kExcluded, c98);
   (OpCodeIndex.LE_SET_SCAN_PARAMETERS, kExcluded, c98);
   (OpCodeIndex.LE_SET_SCAN_RESPONSE_DATA, kExcluded, c15);
   (OpCodeIndex.LE_SET_TRANSMIT_POWER_REPORTING_ENABLE, kExcluded, c51);
   (OpCodeIndex.LE_SETUP_ISO_DATA_PATH, kExcluded, c47);
   (OpCodeIndex.LE_SUBRATE_REQUEST, kExcluded, c57);
   (OpCodeIndex.LE_TERMINATE_BIG, kExcluded, c41);
   (OpCodeIndex.LE_TEST_END, kExcluded, kMandatory);
   (OpCodeIndex.LE_TRANSMITTER_TEST_V1, kExcluded, c1);
   (OpCodeIndex.LE_TRANSMITTER_TEST_V2, kExcluded, c12);
   (OpCodeIndex.LE_TRANSMITTER_TEST_V3, kExcluded, c29);
   (OpCodeIndex.LE_TRANSMITTER_TEST_V4, kExcluded, c53);
   (OpCodeIndex.LE_WRITE_RF_PATH_COMPENSATION_POWER, kExcluded, c22);
   (OpCodeIndex.LE_WRITE_SUGGESTED_DEFAULT_DATA_LENGTH, kExcluded, c8);
   (OpCodeIndex.LINK_KEY_REQUEST_NEGATIVE_REPLY, kMandatory, kExcluded);
   (OpCodeIndex.LINK_KEY_REQUEST_REPLY, kMandatory, kExcluded);
   (OpCodeIndex.CENTRAL_LINK_KEY, c215, kExcluded);
   (OpCodeIndex.PERIODIC_INQUIRY_MODE, c128, kExcluded);
   (OpCodeIndex.PIN_CODE_REQUEST_NEGATIVE_REPLY, kMandatory, kExcluded);
   (OpCodeIndex.PIN_CODE_REQUEST_REPLY, kMandatory, kExcluded);
   (OpCodeIndex.QOS_SETUP, kMandatory, kExcluded);
   (OpCodeIndex.READ_AFH_CHANNEL_ASSESSMENT_MODE, c140, c58);
   (OpCodeIndex.READ_AFH_CHANNEL_MAP, c139, kExcluded);
   (OpCodeIndex.READ_AUTHENTICATED_PAYLOAD_TIMEOUT, c155, c155);
   (OpCodeIndex.READ_AUTHENTICATION_ENABLE, c111, kExcluded);
   (OpCodeIndex.READ_AUTOMATIC_FLUSH_TIMEOUT, kMandatory, kExcluded);
   (OpCodeIndex.READ_BD_ADDR, kMandatory, kMandatory);
   (OpCodeIndex.READ_BUFFER_SIZE, kMandatory, kExcluded);
   (OpCodeIndex.READ_CLASS_OF_DEVICE, kMandatory, kExcluded);
   (OpCodeIndex.READ_CLOCK, kOptional, kExcluded);
   (OpCodeIndex.READ_CLOCK_OFFSET, kOptional, kExcluded);
   (OpCodeIndex.READ_CONNECTION_ACCEPT_TIMEOUT, kMandatory, c40);
   (OpCodeIndex.READ_CURRENT_IAC_LAP, c125, kExcluded);
   (OpCodeIndex.READ_DATA_BLOCK_SIZE, c124, kExcluded);
   (OpCodeIndex.READ_DEFAULT_ERRONEOUS_DATA_REPORTING, c112, kExcluded);
   (OpCodeIndex.READ_DEFAULT_LINK_POLICY_SETTINGS, c141, kExcluded);
   (OpCodeIndex.READ_ENCRYPTION_KEY_SIZE, kMandatory, kExcluded);
   (OpCodeIndex.READ_ENHANCED_TRANSMIT_POWER_LEVEL, c217, kExcluded);
   (OpCodeIndex.READ_EXTENDED_INQUIRY_LENGTH, c113, kExcluded);
   (OpCodeIndex.READ_EXTENDED_INQUIRY_RESPONSE, c205, kExcluded);
   (OpCodeIndex.READ_EXTENDED_PAGE_TIMEOUT, c114, kExcluded);
   (OpCodeIndex.READ_FAILED_CONTACT_COUNTER, kMandatory, kExcluded);
   (OpCodeIndex.READ_FLOW_CONTROL_MODE, c124, kExcluded);
   (OpCodeIndex.READ_HOLD_MODE_ACTIVITY, c213, kExcluded);
   (OpCodeIndex.READ_INQUIRY_MODE, c115, kExcluded);
   (OpCodeIndex.READ_INQUIRY_RESPONSE_TRANSMIT_POWER_LEVEL, c125, kExcluded);
   (OpCodeIndex.READ_INQUIRY_SCAN_ACTIVITY, c125, kExcluded);
   (OpCodeIndex.READ_INQUIRY_SCAN_TYPE, c125, kExcluded);
   (OpCodeIndex.READ_LE_HOST_SUPPORT, c116, c116);
   (OpCodeIndex.READ_LINK_POLICY_SETTINGS, c141, kExcluded);
   (OpCodeIndex.READ_LINK_QUALITY, kOptional, kExcluded);
   (OpCodeIndex.READ_LINK_SUPERVISION_TIMEOUT, c117, kExcluded);
   (OpCodeIndex.READ_LMP_HANDLE, c134, kExcluded);
   (OpCodeIndex.READ_LOCAL_EXTENDED_FEATURES, c220, kExcluded);
   (OpCodeIndex.READ_LOCAL_NAME, kMandatory, kExcluded);
   (OpCodeIndex.READ_LOCAL_OOB_DATA, kMandatory, kExcluded);
   (OpCodeIndex.READ_LOCAL_OOB_EXTENDED_DATA, c142, kExcluded);
   (OpCodeIndex.READ_LOCAL_SIMPLE_PAIRING_OPTIONS, kOptional, kExcluded);
   (OpCodeIndex.READ_LOCAL_SUPPORTED_CODEC_CAPABILITIES, c156, c156);
   (OpCodeIndex.READ_LOCAL_SUPPORTED_CODECS_V1, c157, kExcluded);
   (OpCodeIndex.READ_LOCAL_SUPPORTED_CODECS_V2, kOptional, kOptional);
   (OpCodeIndex.READ_LOCAL_SUPPORTED_CONTROLLER_DELAY, c156, c156);
   (OpCodeIndex.READ_LOCAL_SUPPORTED_FEATURES, kMandatory, kMandatory);
   (OpCodeIndex.READ_LOCAL_VERSION_INFORMATION, kMandatory, kMandatory);
   (OpCodeIndex.READ_LOOPBACK_MODE, c123, kExcluded);
   (OpCodeIndex.READ_NUM_BROADCAST_RETRANSMITS, c118, kExcluded);
   (OpCodeIndex.READ_NUMBER_OF_SUPPORTED_IAC, c125, kExcluded);
   (OpCodeIndex.READ_PAGE_SCAN_ACTIVITY, kMandatory, kExcluded);
   (OpCodeIndex.READ_PAGE_SCAN_TYPE, c119, kExcluded);
   (OpCodeIndex.READ_PAGE_TIMEOUT, kMandatory, kExcluded);
   (OpCodeIndex.READ_PIN_TYPE, c120, kExcluded);
   (OpCodeIndex.READ_REMOTE_EXTENDED_FEATURES, c220, kExcluded);
   (OpCodeIndex.READ_REMOTE_SUPPORTED_FEATURES, kMandatory, kExcluded);
   (OpCodeIndex.READ_REMOTE_VERSION_INFORMATION, kOptional, c3);
   (OpCodeIndex.READ_RSSI, kOptional, c3);
   (OpCodeIndex.READ_SCAN_ENABLE, kMandatory, kExcluded);
   (OpCodeIndex.READ_SECURE_CONNECTIONS_HOST_SUPPORT, c218, kExcluded);
   (OpCodeIndex.READ_SIMPLE_PAIRING_MODE, kMandatory, kExcluded);
   (OpCodeIndex.READ_STORED_LINK_KEY, c121, kExcluded);
   (OpCodeIndex.READ_SYNCHRONIZATION_TRAIN_PARAMETERS, c203, kExcluded);
   (OpCodeIndex.READ_SYNCHRONOUS_FLOW_CONTROL_ENABLE, c122, kExcluded);
   (OpCodeIndex.READ_TRANSMIT_POWER_LEVEL, c152, c3);
   (OpCodeIndex.READ_VOICE_SETTING, c134, kExcluded);
   (OpCodeIndex.RECEIVE_SYNCHRONIZATION_TRAIN, c204, kExcluded);
   (OpCodeIndex.REFRESH_ENCRYPTION_KEY, kMandatory, kExcluded);
   (OpCodeIndex.REJECT_CONNECTION_REQUEST, kMandatory, kExcluded);
   (OpCodeIndex.REJECT_SYNCHRONOUS_CONNECTION, c134, kExcluded);
   (OpCodeIndex.REMOTE_NAME_REQUEST_CANCEL, c106, kExcluded);
   (OpCodeIndex.REMOTE_NAME_REQUEST, kOptional, kExcluded);
   (OpCodeIndex.REMOTE_OOB_DATA_REQUEST_NEGATIVE_REPLY, kMandatory, kExcluded);
   (OpCodeIndex.REMOTE_OOB_DATA_REQUEST_REPLY, kMandatory, kExcluded);
   (OpCodeIndex.REMOTE_OOB_EXTENDED_DATA_REQUEST_REPLY, c143, kExcluded);
   (OpCodeIndex.RESET, kMandatory, kMandatory);
   (OpCodeIndex.RESET_FAILED_CONTACT_COUNTER, kMandatory, kExcluded);
   (OpCodeIndex.ROLE_DISCOVERY, kOptional, kExcluded);
   (OpCodeIndex.SEND_KEYPRESS_NOTIFICATION, kMandatory, kExcluded);
   (OpCodeIndex.SET_AFH_HOST_CHANNEL_CLASSIFICATION, c140, kExcluded);
   (OpCodeIndex.SET_CONNECTION_ENCRYPTION, kMandatory, kExcluded);
   (OpCodeIndex.SET_CONNECTIONLESS_PERIPHERAL_BROADCAST, c201, kExcluded);
   (OpCodeIndex.SET_CONNECTIONLESS_PERIPHERAL_BROADCAST_DATA, c201, kExcluded);
   (OpCodeIndex.SET_CONNECTIONLESS_PERIPHERAL_BROADCAST_RECEIVE, c202, kExcluded);
   (OpCodeIndex.SET_CONTROLLER_TO_HOST_FLOW_CONTROL, kOptional, c96);
   (OpCodeIndex.SET_ECOSYSTEM_BASE_INTERVAL, kOptional, kOptional);
   (OpCodeIndex.SET_EVENT_FILTER, c148, kExcluded);
   (OpCodeIndex.SET_EVENT_MASK, kMandatory, kMandatory);
   (OpCodeIndex.SET_EVENT_MASK_PAGE_2, c145, c145)].
Definition commands_3 : list (Z * Requirement * Requirement) :=
  [(OpCodeIndex.SET_EXTERNAL_FRAME_CONFIGURATION, c108, kOptional);
   (OpCodeIndex.SET_MIN_ENCRYPTION_KEY_SIZE, kOptional, kExcluded);
   (OpCodeIndex.SET_MWS_CHANNEL_PARAMETERS, kOptional, kOptional);
   (OpCodeIndex.SET_MWS_SCAN_FREQUENCY_TABLE, kOptional, kOptional);
   (OpCodeIndex.SET_MWS_SIGNALING, kOptional, kOptional);
   (OpCodeIndex.SET_MWS_TRANSPORT_LAYER, c109, c109);
   (OpCodeIndex.SET_MWS_PATTERN_CONFIGURATION, c136, kExcluded);
   (OpCodeIndex.SET_RESERVED_LT_ADDR, c201, kExcluded);
   (OpCodeIndex.SET_TRIGGERED_CLOCK_CAPTURE, kOptional, kExcluded);
   (OpCodeIndex.SETUP_SYNCHRONOUS_CONNECTION, c134, kExcluded);
   (OpCodeIndex.SNIFF_MODE, c214, kExcluded);
   (OpCodeIndex.SNIFF_SUBRATING, c221, kExcluded);
   (OpCodeIndex.START_SYNCHRONIZATION_TRAIN, c203, kExcluded);
   (OpCodeIndex.SWITCH_ROLE, c212, kExcluded);
   (OpCodeIndex.TRUNCATED_PAGE_CANCEL, c129, kExcluded);
   (OpCodeIndex.TRUNCATED_PAGE, c129, kExcluded);
   (OpCodeIndex.USER_CONFIRMATION_REQUEST_NEGATIVE_REPLY, kMandatory, kExcluded);
   (OpCodeIndex.USER_CONFIRMATION_REQUEST_REPLY, kMandatory, kExcluded);
   (OpCodeIndex.USER_PASSKEY_REQUEST_NEGATIVE_REPLY, kMandatory, kExcluded);
   (OpCodeIndex.USER_PASSKEY_REQUEST_REPLY, kMandatory, kExcluded);
   (OpCodeIndex.WRITE_AFH_CHANNEL_ASSESSMENT_MODE, c140, c58);
   (OpCodeIndex.WRITE_AUTHENTICATED_PAYLOAD_TIMEOUT, c151, c7);
   (OpCodeIndex.WRITE_AUTHENTICATION_ENABLE, kOptional, kExcluded);
   (OpCodeIndex.WRITE_AUTOMATIC_FLUSH_TIMEOUT, kMandatory, kExcluded);
   (OpCodeIndex.WRITE_CLASS_OF_DEVICE, kMandatory, kExcluded);
   (OpCodeIndex.WRITE_CONNECTION_ACCEPT_TIMEOUT, kMandatory, c40);
   (OpCodeIndex.WRITE_CURRENT_IAC_LAP, c125, kExcluded);
   (OpCodeIndex.WRITE_DEFAULT_ERRONEOUS_DATA_REPORTING, c135, kExcluded);
   (OpCodeIndex.WRITE_DEFAULT_LINK_POLICY_SETTINGS, c141, kExcluded);
   (OpCodeIndex.WRITE_EXTENDED_INQUIRY_LENGTH, c128, kExcluded);
   (OpCodeIndex.WRITE_EXTENDED_INQUIRY_RESPONSE, c205, kExcluded);
   (OpCodeIndex.WRITE_EXTENDED_PAGE_TIMEOUT, kOptional, kExcluded);
   (OpCodeIndex.WRITE_FLOW_CONTROL_MODE, c124, kExcluded);
   (OpCodeIndex.WRITE_HOLD_MODE_ACTIVITY, c213, kExcluded);
   (OpCodeIndex.WRITE_INQUIRY_MODE, c146, kExcluded);
   (OpCodeIndex.WRITE_INQUIRY_SCAN_ACTIVITY, c125, kExcluded);
   (OpCodeIndex.WRITE_INQUIRY_SCAN_TYPE, c125, kExcluded);
   (OpCodeIndex.WRITE_INQUIRY_TRANSMIT_POWER_LEVEL, c127, kExcluded);
   (OpCodeIndex.WRITE_LE_HOST_SUPPORT, c153, kOptional);
   (OpCodeIndex.WRITE_LINK_POLICY_SETTINGS, c141, kExcluded);
   (OpCodeIndex.WRITE_LINK_SUPERVISION_TIMEOUT, kOptional, kExcluded);
   (OpCodeIndex.WRITE_LOCAL_NAME, kMandatory, kExcluded);
   (OpCodeIndex.WRITE_LOOPBACK_MODE, c123, kExcluded);
   (OpCodeIndex.WRITE_NUM_BROADCAST_RETRANSMITS, kOptional, kExcluded);
   (OpCodeIndex.WRITE_PAGE_SCAN_ACTIVITY, kMandatory, kExcluded);
   (OpCodeIndex.WRITE_PAGE_SCAN_TYPE, c154, kExcluded);
   (OpCodeIndex.WRITE_PAGE_TIMEOUT, kMandatory, kExcluded);
   (OpCodeIndex.WRITE_PIN_TYPE, kOptional, kExcluded);
   (OpCodeIndex.WRITE_SCAN_ENABLE, kMandatory, kExcluded);
   (OpCodeIndex.WRITE_SECURE_CONNECTIONS_HOST_SUPPORT, c218, kExcluded);
   (OpCodeIndex.WRITE_SECURE_CONNECTIONS_TEST_MODE, c138, kExcluded);
   (OpCodeIndex.WRITE_SIMPLE_PAIRING_DEBUG_MODE, kMandatory, kExcluded);
   (OpCodeIndex.WRITE_SIMPLE_PAIRING_MODE, kMandatory, kExcluded);
   (OpCodeIndex.WRITE_STORED_LINK_KEY, kOptional, kExcluded);
   (OpCodeIndex.WRITE_SYNCHRONIZATION_TRAIN_PARAMETERS, c203, kExcluded);
   (OpCodeIndex.WRITE_SYNCHRONOUS_FLOW_CONTROL_ENABLE, c135, kExcluded);
   (OpCodeIndex.WRITE_VOICE_SETTING, c134, kExcluded)].
Definition commands : list (Z * Requirement * Requirement) := commands_1 ++ commands_2 ++ commands_3.

(** A command whose requirement is not met is logged; the macro does not return. *)
Definition check_command (row : Z * Requirement * Requirement) : bool :=
  let '(op_code, br_requirement, le_requirement) := row in
  requirement_met
    (command_requirement (br_supported p) br_requirement (le_supported p) le_requirement)
    (SupportsCommand p op_code).
(** The result, and the commands logged. *)
Definition CheckSupportedCommands : bool * list Z :=
  (true, fst ∘ fst <$> filter (λ row, check_command row = false) commands).
End Checks.

(** ** Configurations *)

Definition le_extended_advertising_commands_ : list Z :=
  [OpCodeIndex.LE_CLEAR_ADVERTISING_SETS; OpCodeIndex.LE_EXTENDED_CREATE_CONNECTION_V1;
    OpCodeIndex.LE_READ_MAXIMUM_ADVERTISING_DATA_LENGTH;
    OpCodeIndex.LE_READ_NUMBER_OF_SUPPORTED_ADVERTISING_SETS; OpCodeIndex.LE_RECEIVER_TEST_V2;
    OpCodeIndex.LE_REMOVE_ADVERTISING_SET; OpCodeIndex.LE_SET_ADVERTISING_SET_RANDOM_ADDRESS;
    OpCodeIndex.LE_SET_DATA_RELATED_ADDRESS_CHANGES;
    OpCodeIndex.LE_SET_EXTENDED_ADVERTISING_DATA; OpCodeIndex.LE_SET_EXTENDED_ADVERTISING_ENABLE;
    OpCodeIndex.LE_SET_EXTENDED_ADVERTISING_PARAMETERS_V1;
    OpCodeIndex.LE_SET_EXTENDED_SCAN_ENABLE; OpCodeIndex.LE_SET_EXTENDED_SCAN_PARAMETERS;
    OpCodeIndex.LE_SET_EXTENDED_SCAN_RESPONSE_DATA].
Definition le_periodic_advertising_commands_ : list Z :=
  [OpCodeIndex.LE_ADD_DEVICE_TO_PERIODIC_ADVERTISER_LIST;
    OpCodeIndex.LE_CLEAR_PERIODIC_ADVERTISER_LIST;
    OpCodeIndex.LE_PERIODIC_ADVERTISING_CREATE_SYNC_CANCEL;
    OpCodeIndex.LE_PERIODIC_ADVERTISING_CREATE_SYNC;
    OpCodeIndex.LE_PERIODIC_ADVERTISING_TERMINATE_SYNC;
    OpCodeIndex.LE_READ_PERIODIC_ADVERTISER_LIST_SIZE; OpCodeIndex.LE_RECEIVER_TEST_V2;
    OpCodeIndex.LE_REMOVE_DEVICE_FROM_PERIODIC_ADVERTISER_LIST;
    OpCodeIndex.LE_SET_DATA_RELATED_ADDRESS_CHANGES;
    OpCodeIndex.LE_SET_PERIODIC_ADVERTISING_DATA; OpCodeIndex.LE_SET_PERIODIC_ADVERTISING_ENABLE;
    OpCodeIndex.LE_SET_PERIODIC_ADVERTISING_PARAMETERS_V1].
Definition ll_privacy_commands_ : list Z :=
  [OpCodeIndex.LE_ADD_DEVICE_TO_RESOLVING_LIST; OpCodeIndex.LE_CLEAR_RESOLVING_LIST;
    OpCodeIndex.LE_READ_LOCAL_RESOLVABLE_ADDRESS; OpCodeIndex.LE_READ_PEER_RESOLVABLE_ADDRESS;
    OpCodeIndex.LE_READ_RESOLVING_LIST_SIZE; OpCodeIndex.LE_RECEIVER_TEST_V2;
    OpCodeIndex.LE_REMOVE_DEVICE_FROM_RESOLVING_LIST;
    OpCodeIndex.LE_SET_ADDRESS_RESOLUTION_ENABLE; OpCodeIndex.LE_SET_PRIVACY_MODE;
    OpCodeIndex.LE_SET_RESOLVABLE_PRIVATE_ADDRESS_TIMEOUT].
Definition connected_isochronous_stream_commands_ : list Z :=
  [OpCodeIndex.LE_SET_CIG_PARAMETERS; OpCodeIndex.LE_SET_CIG_PARAMETERS_TEST;
    OpCodeIndex.LE_CREATE_CIS; OpCodeIndex.LE_REMOVE_CIG; OpCodeIndex.LE_ACCEPT_CIS_REQUEST;
    OpCodeIndex.LE_REJECT_CIS_REQUEST; OpCodeIndex.LE_SETUP_ISO_DATA_PATH;
    OpCodeIndex.LE_REMOVE_ISO_DATA_PATH; OpCodeIndex.LE_REQUEST_PEER_SCA].
Definition connection_subrating_commands_ : list Z :=
  [OpCodeIndex.LE_SET_DEFAULT_SUBRATE; OpCodeIndex.LE_SUBRATE_REQUEST].
Definition channel_sounding_commands_ : list Z :=
  [OpCodeIndex.LE_CS_READ_LOCAL_SUPPORTED_CAPABILITIES;
    OpCodeIndex.LE_CS_READ_REMOTE_SUPPORTED_CAPABILITIES;
    OpCodeIndex.LE_CS_WRITE_CACHED_REMOTE_SUPPORTED_CAPABILITIES;
    OpCodeIndex.LE_CS_SECURITY_ENABLE; OpCodeIndex.LE_CS_SET_DEFAULT_SETTINGS;
    OpCodeIndex.LE_CS_READ_REMOTE_FAE_TABLE; OpCodeIndex.LE_CS_WRITE_CACHED_REMOTE_FAE_TABLE;
    OpCodeIndex.LE_CS_CREATE_CONFIG; OpCodeIndex.LE_CS_REMOVE_CONFIG;
    OpCodeIndex.LE_CS_SET_CHANNEL_CLASSIFICATION; OpCodeIndex.LE_CS_SET_PROCEDURE_PARAMETERS;
    OpCodeIndex.LE_CS_PROCEDURE_ENABLE; OpCodeIndex.LE_CS_TEST; OpCodeIndex.LE_CS_TEST_END].
Definition le_power_control_request_commands_ : list Z :=
  [OpCodeIndex.LE_ENHANCED_READ_TRANSMIT_POWER_LEVEL;
    OpCodeIndex.LE_READ_REMOTE_TRANSMIT_POWER_LEVEL;
    OpCodeIndex.LE_SET_TRANSMIT_POWER_REPORTING_ENABLE].
Definition laird_bl654 (p : ControllerProperties) : ControllerProperties :=
  p
    <| br_supported := false |>
    <| le_supported := true |>
    <| hci_version := HciVersion.V_5_4 |>
    <| hci_subversion := 0x5ad2 |>
    <| lmp_version := LmpVersion.V_5_4 |>
    <| lmp_subversion := 0x5ad2 |>
    <| company_identifier := 0x7e8 |>
    <| supported_commands := [0x20; 0x00; 0x80; 0x00; 0x00; 0xc0; 0x00; 0x0c; 0x00; 0x00; 0x04;
      0x00; 0x00; 0x00; 0x28; 0x22; 0x00; 0x00; 0x00; 0x00; 0x00; 0x00; 0x04; 0x00; 0x00; 0xf7;
      0xff; 0xff; 0x7f; 0x00; 0x00; 0x00; 0x30; 0xf0; 0xff; 0xff; 0xff; 0xff; 0xff; 0x1f; 0xe0;
      0xf7; 0xff; 0xff; 0xff; 0xc1; 0xe3; 0x03] ++ replicate 16 0x00 |>
    <| lmp_features := [0x6000000000; 0x0; 0x0] |>
    <| le_features := 0x19beff017fff |>
    <| le_acl_data_packet_length := 512 |>
    <| total_num_le_acl_data_packets := 4 |>
    <| iso_data_packet_length := 512 |>
    <| total_num_iso_data_packets := 5 |>
    <| le_filter_accept_list_size := 4 |>
    <| le_resolving_list_size := 4 |>
    <| le_supported_states := 0x3ffffffffff |>
    <| le_max_advertising_data_length := 256 |>
    <| le_num_supported_advertising_sets := 4 |>
    <| le_periodic_advertiser_list_size := 4 |>.
Definition csr_rck_pts_dongle (p : ControllerProperties) : ControllerProperties :=
  p
    <| supports_csr_vendor_command := true |>
    <| br_supported := true |>
    <| le_supported := true |>
    <| hci_version := HciVersion.V_4_2 |>
    <| hci_subversion := 0x30e8 |>
    <| lmp_version := LmpVersion.V_4_2 |>
    <| lmp_subversion := 0x30e8 |>
    <| company_identifier := 0xa |>
    <| supported_commands := [0xff; 0xff; 0xff; 0x03; 0xfe; 0xff; 0xff; 0xff; 0xff; 0xff; 0xff;
      0xff; 0xf3; 0x0f; 0xe8; 0xfe; 0x3f; 0xf7; 0x83; 0xff; 0x1c; 0x00; 0x04; 0x00; 0x61; 0xf7;
      0xff; 0xff; 0x7f; 0x00; 0xc0; 0xff; 0xff; 0x30] ++ replicate 30 0x00 |>
    <| lmp_features := [0x875b1fd87e8fffff; 0x0; 0x30f] |>
    <| acl_data_packet_length := 310 |>
    <| total_num_acl_data_packets := 10 |>
    <| sco_data_packet_length := 64 |>
    <| total_num_sco_data_packets := 8 |>
    <| num_supported_iac := 2 |>
    <| le_features := 0x1f |>
    <| le_acl_data_packet_length := 0 |>
    <| total_num_le_acl_data_packets := 0 |>
    <| le_filter_accept_list_size := 25 |>
    <| le_supported_states := 0x3ffffffffff |>.
Definition intel_be200 (p : ControllerProperties) : ControllerProperties :=
  p
    <| supports_csr_vendor_command := true |>
    <| br_supported := true |>
    <| le_supported := true |>
    <| hci_version := HciVersion.V_5_4 |>
    <| hci_subversion := 0x4363 |>
    <| lmp_version := LmpVersion.V_5_4 |>
    <| lmp_subversion := 0x4363 |>
    <| company_identifier := 0x2 |>
    <| supported_commands := [0xbf; 0xff; 0xfb; 0x03; 0xcc; 0xff; 0x0f; 0xff; 0xbf; 0xff; 0xfc;
      0x1f; 0xf2; 0x0f; 0xe8; 0xfe; 0x3f; 0xf7; 0x8f; 0xff; 0x1c; 0x00; 0x04; 0x00; 0x61; 0xf7;
      0xff; 0xff; 0x7f; 0x38; 0x00; 0x00; 0xfe; 0xf0; 0xff; 0xff; 0xff; 0xe3; 0x80; 0x07; 0x00;
      0xe8; 0x1f; 0xfc; 0xff; 0xff; 0x03] ++ replicate 17 0x00 |>
    <| lmp_features := [0x877bffdbfe0ffebf; 0x0; 0x300] |>
    <| acl_data_packet_length := 1021 |>
    <| total_num_acl_data_packets := 4 |>
    <| sco_data_packet_length := 96 |>
    <| total_num_sco_data_packets := 6 |>
    <| num_supported_iac := 2 |>
    <| le_features := 0x80059ff |>
    <| le_acl_data_packet_length := 251 |>
    <| total_num_le_acl_data_packets := 3 |>
    <| le_filter_accept_list_size := 25 |>
    <| le_resolving_list_size := 25 |>
    <| le_supported_states := 0x3ffffffffff |>
    <| le_max_advertising_data_length := 160 |>
    <| le_num_supported_advertising_sets := 12 |>
    <| le_periodic_advertiser_list_size := 12 |>.

(** The default member initialisers. *)
Definition default_capabilities : CsLocalSupportedCapabilities :=
  MkCsLocalSupportedCapabilities 3 1 1 1 0x03 0x01 0x07 1 1 1 0 0 0x01 0x0c 0x01 0x01 0x01 0x01 0x0a 0x01.
Definition ControllerProperties_default : ControllerProperties :=
  MkControllerProperties (MkControllerQuirks false false) true HciVersion.V_5_3 LmpVersion.V_5_3 0 0
    0x00e0 true true SupportedCommands true true true [Page0LmpFeatures; 0; Page2LmpFeatures]
    LlFeatures 1023 255 10 10 27 1021 20 12 4 (u8 (-10)) [0] [] 16 16 0x3ffffffffff 512 16 8
    default_capabilities 16 16 16 16 16 16 16 16 16.

(** The messages of proto/rootcanal/configuration.proto; a field that is not set
    is [None]. *)
Module ControllerPreset.
Inductive t := DEFAULT | LAIRD_BL654 | CSR_RCK_PTS_DONGLE | INTEL_BE200.
End ControllerPreset.
Record ControllerFeatures := MkControllerFeatures {
  le_extended_advertising : option bool;
  le_periodic_advertising : option bool;
  ll_privacy : option bool;
  le_2m_phy : option bool;
  le_coded_phy : option bool;
  le_connected_isochronous_stream : option bool;
  le_connection_subrating : option bool;
  le_channel_sounding : option bool;
  le_power_control_request : option bool;
}.
Record Configuration := MkConfiguration {
  config_preset : option ControllerPreset.t;
  config_features : option ControllerFeatures;
  config_quirks : option (option bool * option bool);
  config_strict : option bool;
  (** The fields [csr] and [android]. *)
  config_vendor : option (option bool * option bool);
}.

Definition apply_preset (preset : ControllerPreset.t) (p : ControllerProperties) : ControllerProperties :=
  match preset with
  | ControllerPreset.DEFAULT => p
  | ControllerPreset.LAIRD_BL654 => laird_bl654 p
  | ControllerPreset.CSR_RCK_PTS_DONGLE => csr_rck_pts_dongle p
  | ControllerPreset.INTEL_BE200 => intel_be200 p
  end.

(** A switch of [features], with the feature bits and the commands it controls. *)
Definition apply_switch (switch : option bool) (bits : list LLFeaturesBits.t) (commands : list Z)
    (p : ControllerProperties) : ControllerProperties :=
  match switch with
  | None => p
  | Some set =>
      p <| le_features ::= λ f, fold_left (λ f b, SetLLFeatureBit b set f) bits f |>
        <| supported_commands ::= SetSupportedCommandBits commands set |>
  end.
Definition switches (features : ControllerFeatures)
  : list (option bool * list LLFeaturesBits.t * list Z) :=
  [(le_extended_advertising features, [LLFeaturesBits.LE_EXTENDED_ADVERTISING],
    le_extended_advertising_commands_);
   (le_periodic_advertising features, [LLFeaturesBits.LE_PERIODIC_ADVERTISING],
    le_periodic_advertising_commands_);
   (ll_privacy features, [LLFeaturesBits.LL_PRIVACY], ll_privacy_commands_);
   (le_2m_phy features, [LLFeaturesBits.LE_2M_PHY], []);
   (le_coded_phy features, [LLFeaturesBits.LE_CODED_PHY], []);
   (le_connected_isochronous_stream features,
    [LLFeaturesBits.CONNECTED_ISOCHRONOUS_STREAM_CENTRAL;
     LLFeaturesBits.CONNECTED_ISOCHRONOUS_STREAM_PERIPHERAL],
    connected_isochronous_stream_commands_);
   (le_connection_subrating features, [LLFeaturesBits.CONNECTION_SUBRATING],
    connection_subrating_commands_);
   (le_channel_sounding features, [LLFeaturesBits.CHANNEL_SOUNDING], channel_sounding_commands_);
   (le_power_control_request features, [LLFeaturesBits.LE_POWER_CONTROL_REQUEST],
    le_power_control_request_commands_)].
Definition apply_features (features : ControllerFeatures) (p : ControllerProperties)
  : ControllerProperties :=
  fold_left (λ p '(switch, bits, commands), apply_switch switch bits commands p) (switches features) p.

Definition apply_quirks (q : option bool * option bool) (p : ControllerProperties) : ControllerProperties :=
  p <| quirks ::= λ old, MkControllerQuirks (default (has_default_random_address old) (fst q))
                           (default (hardware_error_before_reset old) (snd q)) |>.
Definition apply_vendor (v : option bool * option bool) (p : ControllerProperties) : ControllerProperties :=
  let p := p <| supports_csr_vendor_command ::= λ old, default old (fst v) |> in
  p <| supports_le_get_vendor_capabilities_command ::= λ old, default old (snd v) |>
    <| supports_le_apcf_vendor_command ::= λ old, default old (snd v) |>.

(** [if (config.has_field()) f(config.field())]. *)
Definition apply_if {A} (f : A → ControllerProperties → ControllerProperties) (field : option A)
    (p : ControllerProperties) : ControllerProperties :=
  match field with Some a => f a p | None => p end.

(** The constructor from a configuration; the checks at its end only log. *)
Definition ControllerProperties_configured (config : Configuration) : ControllerProperties :=
  let p := ControllerProperties_default <| strict := default true (config_strict config) |> in
  let p := apply_if apply_preset (config_preset config) p in
  let p := apply_if apply_features (config_features config) p in
  let p := apply_if apply_quirks (config_quirks config) p in
  apply_if apply_vendor (config_vendor config) p.

(** ** What a configuration yields *)

(** The scalar fields, with the width of their type. *)
Definition scalar_fields (p : ControllerProperties) : list (Z * Z) :=
  [(8, hci_version p); (8, lmp_version p); (8, sco_data_packet_length p);
   (8, total_num_le_acl_data_packets p); (8, total_num_iso_data_packets p);
   (8, num_supported_iac p); (8, le_advertising_physical_channel_tx_power p);
   (8, le_filter_accept_list_size p); (8, le_resolving_list_size p);
   (8, le_num_supported_advertising_sets p); (8, le_periodic_advertiser_list_size p);
   (8, le_apcf_filter_list_size p); (8, le_apcf_num_of_tracked_advertisers p);
   (16, hci_subversion p); (16, lmp_subversion p); (16, company_identifier p);
   (16, acl_data_packet_length p); (16, total_num_acl_data_packets p);
   (16, total_num_sco_data_packets p); (16, le_acl_data_packet_length p);
   (16, iso_data_packet_length p); (16, le_max_advertising_data_length p);
   (64, le_supported_states p)].
(** The arrays have their sizes, and every value its width. *)
Definition wf_properties (p : ControllerProperties) : Prop :=
  length (supported_commands p) = 64%nat ∧ Forall (fits 8) (supported_commands p)
  ∧ length (lmp_features p) = 3%nat ∧ Forall (fits 64) (lmp_features p) ∧ fits 64 (le_features p)
  ∧ Forall (λ f, fits (fst f) (snd f)) (scalar_fields p).
#[global] Instance wf_properties_dec p : Decision (wf_properties p).
Proof. unfold wf_properties. apply _. Defined.

(** The last switch that is set and lists [x]. *)
Fixpoint setting {A} `{EqDecision A} (x : A) (l : list (option bool * list A)) : option bool :=
  match l with
  | [] => None
  | (switch, xs) :: l =>
      match setting x l with
      | Some set => Some set
      | None => if bool_decide (x ∈ xs) then switch else None
      end
  end.
(** The switches of a configuration with the feature bits, and with the commands,
    that they control. *)
Definition config_switches (config : Configuration)
  : list (option bool * list LLFeaturesBits.t * list Z) :=
  match config_features config with Some features => switches features | None => [] end.
Definition switch_bits (config : Configuration) : list (option bool * list LLFeaturesBits.t) :=
  fst <$> config_switches config.
Definition switch_commands (config : Configuration) : list (option bool * list Z) :=
  (λ '(switch, _, commands), (switch, commands)) <$> config_switches config.
Definition base_properties (config : Configuration) : ControllerProperties :=
  apply_if apply_preset (config_preset config)
    (ControllerProperties_default <| strict := default true (config_strict config) |>).

(** An [OpCodeIndex] names a byte of the array and a bit of the byte. *)
Definition index_ok (command : Z) : bool :=
  (0 <=? command) && (command / 10 <? 64) && (command mod 10 <? 8).

Lemma fits_ldiff w x y : 0 ≤ w → fits w x → fits w (Z.ldiff x y).
Proof.
  intros ? Hx. rewrite <-(wrap_id _ _ Hx). unfold wrap. rewrite <-Z.land_ones by done.
  replace (Z.ldiff (Z.land x (Z.ones w)) y) with (Z.land (Z.ldiff x y) (Z.ones w)); [by apply land_ones_fits|].
  apply Z.bits_inj'. intros i ?. rewrite Z.land_spec, !Z.ldiff_spec, Z.land_spec. btauto.
Qed.
Lemma fits_lor w x y : 0 ≤ w → fits w x → fits w y → fits w (Z.lor x y).
Proof.
  intros ? Hx Hy.
  rewrite <-(wrap_id _ _ Hx), <-(wrap_id _ _ Hy). unfold wrap.
  rewrite <-!Z.land_ones, <-Z.land_lor_distr_l by done. by apply land_ones_fits.
Qed.

(** *** Feature bits *)

Definition ll_bit (b : LLFeaturesBits.t) : Z := Z.log2 (LLFeaturesBits.to_Z b).
Lemma to_Z_ll_bit b : LLFeaturesBits.to_Z b = 2 ^ ll_bit b.
Proof. by destruct b. Qed.
Lemma ll_bit_range b : 0 ≤ ll_bit b < 64.
Proof. by destruct b. Qed.
Definition all_bits : list LLFeaturesBits.t :=
  [LLFeaturesBits.LE_ENCRYPTION; LLFeaturesBits.CONNECTION_PARAMETERS_REQUEST_PROCEDURE;
   LLFeaturesBits.EXTENDED_REJECT_INDICATION;
   LLFeaturesBits.PERIPHERAL_INITIATED_FEATURES_EXCHANGE; LLFeaturesBits.LE_PING;
   LLFeaturesBits.LE_DATA_PACKET_LENGTH_EXTENSION; LLFeaturesBits.LL_PRIVACY;
   LLFeaturesBits.EXTENDED_SCANNER_FILTER_POLICIES; LLFeaturesBits.LE_2M_PHY;
   LLFeaturesBits.STABLE_MODULATION_INDEX_TRANSMITTER;
   LLFeaturesBits.STABLE_MODULATION_INDEX_RECEIVER; LLFeaturesBits.LE_CODED_PHY;
   LLFeaturesBits.LE_EXTENDED_ADVERTISING; LLFeaturesBits.LE_PERIODIC_ADVERTISING;
   LLFeaturesBits.CHANNEL_SELECTION_ALGORITHM_2; LLFeaturesBits.LE_POWER_CLASS_1;
   LLFeaturesBits.MINIMUM_NUMBER_OF_USED_CHANNELS_PROCEDURE;
   LLFeaturesBits.CONNECTION_CTE_REQUEST; LLFeaturesBits.CONNECTION_CTE_RESPONSE;
   LLFeaturesBits.CONNECTIONLESS_CTE_TRANSMITTER; LLFeaturesBits.CONNECTIONLESS_CTE_RECEIVER;
   LLFeaturesBits.ANTENNA_SWITCHING_DURING_CTE_TRANSMISSION;
   LLFeaturesBits.ANTENNA_SWITCHING_DURING_CTE_RECEPTION;
   LLFeaturesBits.RECEIVING_CONSTANT_TONE_EXTENSIONS;
   LLFeaturesBits.PERIODIC_ADVERTISING_SYNC_TRANSFER_SENDER;
   LLFeaturesBits.PERIODIC_ADVERTISING_SYNC_TRANSFER_RECIPIENT;
   LLFeaturesBits.SLEEP_CLOCK_ACCURACY_UPDATES; LLFeaturesBits.REMOTE_PUBLIC_KEY_VALIDATION;
   LLFeaturesBits.CONNECTED_ISOCHRONOUS_STREAM_CENTRAL;
   LLFeaturesBits.CONNECTED_ISOCHRONOUS_STREAM_PERIPHERAL; LLFeaturesBits.ISOCHRONOUS_BROADCASTER;
   LLFeaturesBits.SYNCHRONIZED_RECEIVER; LLFeaturesBits.CONNECTED_ISOCHRONOUS_STREAM_HOST_SUPPORT;
   LLFeaturesBits.LE_POWER_CONTROL_REQUEST; LLFeaturesBits.LE_POWER_CONTROL_REQUEST_BIS;
   LLFeaturesBits.LE_PATH_LOSS_MONITORING; LLFeaturesBits.PERIODIC_ADVERTISING_ADI_SUPPORT;
   LLFeaturesBits.CONNECTION_SUBRATING; LLFeaturesBits.CONNECTION_SUBRATING_HOST_SUPPORT;
   LLFeaturesBits.CHANNEL_CLASSIFICATION; LLFeaturesBits.ADVERTISING_CODING_SELECTION;
   LLFeaturesBits.ADVERTISING_CODING_SELECTION_HOST_SUPPORT;
   LLFeaturesBits.DECISION_BASED_ADVERTISING_FILTERING;
   LLFeaturesBits.PERIODIC_ADVERTISING_WITH_RESPONSES_ADVERTISER;
   LLFeaturesBits.PERIODIC_ADVERTISING_WITH_RESPONSES_SCANNER;
   LLFeaturesBits.UNSEGMENTED_FRAMED_MODE; LLFeaturesBits.CHANNEL_SOUNDING;
   LLFeaturesBits.CHANNEL_SOUNDING_HOST_SUPPORT].
Lemma ll_bit_inj b b' : ll_bit b = ll_bit b' → b = b'.
Proof.
  assert (find : ∀ b, list_find (λ c, ll_bit c = ll_bit b) all_bits = list_find (eq b) all_bits)
    by (intros []; vm_compute; reflexivity).
  assert (all : ∀ b, snd <$> list_find (eq b) all_bits = Some b) by (intros []; vm_compute; reflexivity).
  intros E. pose proof (all b) as A. pose proof (all b') as A'.
  rewrite <-find in A, A'. rewrite E in A. congruence.
Qed.
Lemma SupportsLLFeature_testbit p b : SupportsLLFeature p b = Z.testbit (le_features p) (ll_bit b).
Proof.
  unfold SupportsLLFeature. rewrite to_Z_ll_bit. pose proof (ll_bit_range b).
  destruct (Z.testbit (le_features p) (ll_bit b)) eqn:T.
  - apply negb_true_iff, Z.eqb_neq. intros E.
    assert (Z.testbit (Z.land (le_features p) (2 ^ ll_bit b)) (ll_bit b) = true) as E'.
    { by rewrite Z.land_spec, T, Z.pow2_bits_true by lia. }
    by rewrite E, Z.bits_0 in E'.
  - apply negb_false_iff, Z.eqb_eq, Z.bits_inj'. intros i ?.
    rewrite Z.bits_0, Z.land_spec, Z.pow2_bits_eqb by lia.
    destruct (Z.eqb_spec (ll_bit b) i); [subst; by rewrite T|by rewrite andb_false_r].
Qed.

Lemma fits_SetLLFeatureBit b set f : fits 64 f → fits 64 (SetLLFeatureBit b set f).
Proof.
  intros. assert (fits 64 (LLFeaturesBits.to_Z b)) by (unfold fits; by destruct b).
  destruct set; [by apply fits_lor|]. by apply fits_ldiff.
Qed.
Lemma testbit_SetLLFeatureBit b set f b' :
  Z.testbit (SetLLFeatureBit b set f) (ll_bit b')
  = if bool_decide (b' = b) then set else Z.testbit f (ll_bit b').
Proof.
  pose proof (ll_bit_range b). pose proof (ll_bit_range b').
  unfold SetLLFeatureBit. rewrite to_Z_ll_bit. case_bool_decide as D.
  - subst b'. destruct set; rewrite ?Z.lor_spec, ?Z.ldiff_spec, Z.pow2_bits_true by lia.
    + by rewrite orb_true_r.
    + by rewrite andb_false_r.
  - assert (ll_bit b ≠ ll_bit b') by (intros ?%ll_bit_inj; congruence).
    destruct set; rewrite ?Z.lor_spec, ?Z.ldiff_spec, Z.pow2_bits_false by lia.
    + by rewrite orb_false_r.
    + by rewrite andb_true_r.
Qed.
Lemma testbit_fold_SetLLFeatureBit bits set f b' :
  Z.testbit (fold_left (λ f b, SetLLFeatureBit b set f) bits f) (ll_bit b')
  = if bool_decide (b' ∈ bits) then set else Z.testbit f (ll_bit b').
Proof.
  revert f. induction bits as [|b bits IH]; intros f; cbn [fold_left].
  { by rewrite bool_decide_eq_false_2 by apply not_elem_of_nil. }
  rewrite IH, testbit_SetLLFeatureBit. repeat case_bool_decide; set_solver.
Qed.

(** *** Command bits *)

Lemma length_set_command_bit set l command : length (set_command_bit set l command) = length l.
Proof. apply length_alter. Qed.
Lemma length_SetSupportedCommandBits commands set l :
  length (SetSupportedCommandBits commands set l) = length l.
Proof.
  revert l. induction commands as [|c commands IH]; intros l; [done|].
  unfold SetSupportedCommandBits in *. cbn [fold_left].
  by rewrite IH, length_set_command_bit.
Qed.
Lemma Forall_set_command_bit set l command :
  Forall (fits 8) l → Forall (fits 8) (set_command_bit set l command).
Proof.
  intros. apply Forall_alter; [done|]. intros. destruct set; by apply wrap_fits.
Qed.
Lemma Forall_SetSupportedCommandBits commands set l :
  Forall (fits 8) l → Forall (fits 8) (SetSupportedCommandBits commands set l).
Proof.
  revert l. induction commands as [|c commands IH]; intros l ?; [done|].
  unfold SetSupportedCommandBits in *. cbn [fold_left]. by apply IH, Forall_set_command_bit.
Qed.

Definition command_bit (l : list Z) (command : Z) : bool :=
  bit (nth (Z.to_nat (command / 10)) l 0) (command mod 10).
Lemma index_ok_spec c : index_ok c = true → 0 ≤ c ∧ 0 ≤ c / 10 < 64 ∧ 0 ≤ c mod 10 < 8.
Proof.
  unfold index_ok. rewrite !andb_true_iff, Z.leb_le, !Z.ltb_lt.
  intros [[? ?] ?]. pose proof (Z.mod_pos_bound c 10). pose proof (Z.div_pos c 10). lia.
Qed.
Lemma index_eq c c' : 0 ≤ c → 0 ≤ c' → c / 10 = c' / 10 → c mod 10 = c' mod 10 → c = c'.
Proof.
  intros. rewrite (Z.div_mod c 10), (Z.div_mod c' 10) by lia. congruence.
Qed.
Lemma command_bit_set set l c c' :
  length l = 64%nat → index_ok c = true → index_ok c' = true →
  command_bit (set_command_bit set l c) c' = if bool_decide (c' = c) then set else command_bit l c'.
Proof.
  intros Hl Hc%index_ok_spec Hc'%index_ok_spec. unfold command_bit, set_command_bit, bit.
  rewrite !nth_lookup. destruct (decide (c / 10 = c' / 10)) as [E|E].
  2:{ rewrite list_lookup_alter_ne by (intros ?%Z2Nat.inj; lia).
      by rewrite bool_decide_eq_false_2 by (intros ->; congruence). }
  rewrite <-E, list_lookup_alter_eq.
  destruct (lookup_lt_is_Some_2 l (Z.to_nat (c / 10))) as [byte ->]; [lia|]. cbn [fmap option_fmap option_map from_option id].
  assert (u8_bit : ∀ x, Z.testbit (u8 x) (c' mod 10) = Z.testbit x (c' mod 10)).
  { intros x. unfold wrap. apply Z.mod_pow2_bits_low. lia. }
  destruct set; rewrite u8_bit, ?Z.lor_spec, ?Z.ldiff_spec, Z.shiftl_1_l; case_bool_decide as D.
  - by rewrite D, Z.pow2_bits_true, orb_true_r by lia.
  - rewrite Z.pow2_bits_false, orb_false_r; [done|]. intros ?. apply D. apply index_eq; lia.
  - by rewrite D, Z.pow2_bits_true, andb_false_r by lia.
  - rewrite Z.pow2_bits_false, andb_true_r; [done|]. intros ?. apply D. apply index_eq; lia.
Qed.
Lemma command_bit_SetSupportedCommandBits cs set l c' :
  length l = 64%nat → Forall (λ c, index_ok c = true) cs → index_ok c' = true →
  command_bit (SetSupportedCommandBits cs set l) c'
  = if bool_decide (c' ∈ cs) then set else command_bit l c'.
Proof.
  intros Hl Hcs Hc'. revert l Hl.
  induction Hcs as [|c cs Hc Hcs IH]; intros l Hl; unfold SetSupportedCommandBits in *; cbn [fold_left].
  { by rewrite bool_decide_eq_false_2 by apply not_elem_of_nil. }
  rewrite IH by (by rewrite length_set_command_bit). rewrite command_bit_set by done.
  repeat case_bool_decide; set_solver.
Qed.

(** *** Switches *)

Lemma wf_apply_switch switch bits commands p :
  wf_properties p → wf_properties (apply_switch switch bits commands p).
Proof.
  destruct switch as [set|]; [|done]. intros (? & ? & ? & ? & Hf & ?).
  split_and!; try done; cbn.
  - by rewrite length_SetSupportedCommandBits.
  - by apply Forall_SetSupportedCommandBits.
  - clear -Hf. revert Hf. generalize (le_features p). induction bits; [done|]. intros.
    by apply IHbits, fits_SetLLFeatureBit.
Qed.
Lemma SupportsLLFeature_apply_switch switch bits commands p b :
  SupportsLLFeature (apply_switch switch bits commands p) b
  = default (SupportsLLFeature p b) (if bool_decide (b ∈ bits) then switch else None).
Proof.
  destruct switch as [set|]; [|by case_bool_decide].
  rewrite !SupportsLLFeature_testbit. cbn [apply_switch].
  etrans; [apply testbit_fold_SetLLFeatureBit|]. by case_bool_decide.
Qed.
Lemma SupportsCommand_apply_switch switch bits commands p c :
  wf_properties p → Forall (λ c, index_ok c = true) commands → index_ok c = true →
  SupportsCommand (apply_switch switch bits commands p) c
  = default (SupportsCommand p c) (if bool_decide (c ∈ commands) then switch else None).
Proof.
  intros [Hl _] ? ?. destruct switch as [set|]; [|by case_bool_decide].
  etrans; [by apply (command_bit_SetSupportedCommandBits commands set (supported_commands p))|].
  by case_bool_decide.
Qed.

Abbreviation apply_switches :=
  (fold_left (λ p '(switch, bits, commands), apply_switch switch bits commands p)).
Lemma wf_apply_switches l p : wf_properties p → wf_properties (apply_switches l p).
Proof.
  revert p. induction l as [|[[switch bits] commands] l IH]; intros p ?; [done|].
  by apply IH, wf_apply_switch.
Qed.
Lemma SupportsLLFeature_apply_switches l p b :
  SupportsLLFeature (apply_switches l p) b = default (SupportsLLFeature p b) (setting b (fst <$> l)).
Proof.
  revert p. induction l as [|[[switch bits] commands] l IH]; intros p; [done|].
  cbn. rewrite IH, SupportsLLFeature_apply_switch. by destruct (setting b _).
Qed.
Lemma SupportsCommand_apply_switches l p c :
  wf_properties p → Forall (λ '(_, _, commands), Forall (λ c, index_ok c = true) commands) l →
  index_ok c = true →
  SupportsCommand (apply_switches l p) c
  = default (SupportsCommand p c)
      (setting c ((λ '(switch, _, commands), (switch, commands)) <$> l)).
Proof.
  intros Hp Hl Hc. revert p Hp.
  induction Hl as [|[[switch bits] commands] l Hcs Hl IH]; intros p Hp; [done|].
  cbn. rewrite IH by by apply wf_apply_switch. rewrite SupportsCommand_apply_switch by done.
  by destruct (setting c _).
Qed.
Lemma switches_index_ok features :
  Forall (λ '(_, _, commands), Forall (λ c, index_ok c = true) commands) (switches features).
Proof. unfold switches. repeat constructor. Qed.

Lemma wf_base config : wf_properties (base_properties config).
Proof.
  unfold base_properties.
  generalize (default true (config_strict config)). intros s.
  destruct (config_preset config) as [[]|]; destruct s; apply (bool_decide_unpack _); vm_compute; exact I.
Qed.

(** Quirks and vendor extensions change neither features nor commands. *)
Definition arrays (p : ControllerProperties) : list Z * list Z * Z :=
  (supported_commands p, lmp_features p, le_features p).
Lemma arrays_apply_if {A} (f : A → ControllerProperties → ControllerProperties) field p :
  (∀ a p, arrays (f a p) = arrays p) → arrays (apply_if f field p) = arrays p.
Proof. intros Hf. destruct field; [apply Hf|done]. Qed.
Lemma configured_arrays config :
  arrays (ControllerProperties_configured config)
  = arrays (apply_switches (config_switches config) (base_properties config)).
Proof.
  unfold ControllerProperties_configured. rewrite !arrays_apply_if by done.
  unfold config_switches, base_properties. by destruct (config_features config).
Qed.

Lemma wf_apply_if {A} (f : A → ControllerProperties → ControllerProperties) field p :
  (∀ a p, wf_properties p → wf_properties (f a p)) →
  wf_properties p → wf_properties (apply_if f field p).
Proof. intros Hf. destruct field; [apply Hf|done]. Qed.

(** *** Properties *)

(** What a configured controller supports: a link layer feature, and a
    command, is decided by the last switch of the configuration that is set and
    lists it, and by the preset when there is none.  In particular a switch
    reaches every bit it lists and no other. *)
Theorem configured_support (config : Configuration) (b : LLFeaturesBits.t) (c : Z)
    (Hc : index_ok c = true) :
  SupportsLLFeature (ControllerProperties_configured config) b
  = default (SupportsLLFeature (base_properties config) b) (setting b (switch_bits config))
  ∧ SupportsCommand (ControllerProperties_configured config) c
    = default (SupportsCommand (base_properties config) c) (setting c (switch_commands config)).
Proof.
  pose proof (configured_arrays config) as [= Hcs _ Hf]. split.
  - unfold SupportsLLFeature at 1. rewrite Hf. apply SupportsLLFeature_apply_switches.
  - unfold SupportsCommand at 1. rewrite Hcs.
    apply SupportsCommand_apply_switches; [apply wf_base| |done].
    unfold config_switches. destruct (config_features config); [apply switches_index_ok|constructor].
Qed.

(** Extended advertising is on and, after it, LL privacy off: LE Receiver Test
    [v2], which both list, is off. *)
Definition privacy_off : Configuration :=
  MkConfiguration (Some ControllerPreset.INTEL_BE200)
    (Some (MkControllerFeatures (Some true) None (Some false) None None None None None None))
    None None None.
Lemma configured_support_witness :
  index_ok OpCodeIndex.LE_RECEIVER_TEST_V2 = true
  ∧ SupportsLLFeature (ControllerProperties_configured privacy_off)
      LLFeaturesBits.LE_EXTENDED_ADVERTISING = true
  ∧ SupportsCommand (ControllerProperties_configured privacy_off)
      OpCodeIndex.LE_RECEIVER_TEST_V2 = false.
Proof.
  split; [reflexivity|].
  destruct (configured_support privacy_off LLFeaturesBits.LE_EXTENDED_ADVERTISING
    OpCodeIndex.LE_RECEIVER_TEST_V2 eq_refl) as [H1 H2].
  rewrite H1, H2. vm_compute. done.
Defined.

(** A supported transport makes [c] mandatory; every supported one excludes it. *)
Definition mandatory_row (p : ControllerProperties) (row : Z * Requirement * Requirement) : Prop :=
  (br_supported p = true ∧ snd (fst row) = kMandatory)
  ∨ (le_supported p = true ∧ snd row = kMandatory).
Definition excluded_row (p : ControllerProperties) (row : Z * Requirement * Requirement) : Prop :=
  (br_supported p = true → snd (fst row) = kExcluded)
  ∧ (le_supported p = true → snd row = kExcluded).

Lemma check_command_false p row :
  br_supported p || le_supported p = true →
  check_command p row = false
  ↔ (mandatory_row p row ∧ SupportsCommand p (fst (fst row)) = false)
    ∨ (excluded_row p row ∧ SupportsCommand p (fst (fst row)) = true).
Proof.
  destruct row as [[op br] le]. unfold mandatory_row, excluded_row, check_command, command_requirement.
  unfold is_requirement. cbn [fst snd].
  destruct (br_supported p), (le_supported p), br, le, (SupportsCommand p op);
    cbn; naive_solver.
Qed.

(** The check of the commands of a controller with a transport reports
    exactly the rows of the table that are violated (a command that some supported
    transport makes mandatory is missing, or one that every supported transport
    excludes is present), and nevertheless succeeds, whatever it reports. *)
Theorem CheckSupportedCommands_reports (p : ControllerProperties) (c : Z)
    (Hp : br_supported p || le_supported p = true) :
  fst (CheckSupportedCommands p) = true
  ∧ (c ∈ snd (CheckSupportedCommands p)
     ↔ ∃ row, row ∈ commands p ∧ fst (fst row) = c
         ∧ ((mandatory_row p row ∧ SupportsCommand p c = false)
            ∨ (excluded_row p row ∧ SupportsCommand p c = true))).
Proof.
  split; [done|]. unfold CheckSupportedCommands, snd at 1. rewrite list_elem_of_fmap.
  apply exist_proper. intros row. rewrite list_elem_of_filter, check_command_false by done.
  unfold compose. split; [intros (-> & ? & ?); done|intros (? & <- & ?); done].
Qed.

(** The default properties pass although thirteen rows are violated. *)
Lemma CheckSupportedCommands_reports_witness :
  br_supported ControllerProperties_default || le_supported ControllerProperties_default = true
  ∧ CheckSupportedFeatures ControllerProperties_default = true
  ∧ fst (CheckSupportedCommands ControllerProperties_default) = true
  ∧ (∃ row, row ∈ commands ControllerProperties_default
       ∧ fst (fst row) = OpCodeIndex.LE_SET_DATA_RELATED_ADDRESS_CHANGES
       ∧ ((mandatory_row ControllerProperties_default row
           ∧ SupportsCommand ControllerProperties_default
               OpCodeIndex.LE_SET_DATA_RELATED_ADDRESS_CHANGES = false)
          ∨ (excluded_row ControllerProperties_default row
             ∧ SupportsCommand ControllerProperties_default
                 OpCodeIndex.LE_SET_DATA_RELATED_ADDRESS_CHANGES = true))).
Proof.
  destruct (CheckSupportedCommands_reports ControllerProperties_default
    OpCodeIndex.LE_SET_DATA_RELATED_ADDRESS_CHANGES eq_refl) as [H1 H2].
  split_and!; [reflexivity|vm_compute; reflexivity|exact H1|].
  apply H2. apply (bool_decide_unpack _). vm_compute. exact I.
Defined.
