(* ===== verification/Address.v ===== *)
(** * Device addresses (lib/hci/address.cc, include/hci/address.h,
    include/hci/address_with_type.h, crypto.h and the private addresses of
    le_controller.cc) *)

From Stdlib Require Import Ascii String.
From S2P Require Import Prelude HciTypes.
Local Open Scope Z_scope.

(** ** Address *)

(** The six octets in little endian order: [address[0]] is the least
    significant one. *)
Record Address := MkAddress { a0 : Z; a1 : Z; a2 : Z; a3 : Z; a4 : Z; a5 : Z }.

#[export] Instance Address_eq_dec : EqDecision Address.
Proof. solve_decision. Defined.
#[export] Instance Address_countable : Countable Address.
Proof.
  refine (inj_countable' (λ a, (a0 a, a1 a, a2 a, a3 a, a4 a, a5 a))
    (λ '(x0, x1, x2, x3, x4, x5), MkAddress x0 x1 x2 x3 x4 x5) _).
  by intros [].
Defined.

Definition octets (a : Address) : list Z := [a0 a; a1 a; a2 a; a3 a; a4 a; a5 a].
Definition address_ok (a : Address) : Prop := Forall byte_ok (octets a).

Definition kEmpty : Address := MkAddress 0 0 0 0 0 0.
Definition kAny : Address := MkAddress 0xFF 0xFF 0xFF 0xFF 0xFF 0xFF.

Definition IsEmpty (a : Address) : bool := bool_decide (a = kEmpty).

(** [operator<]: lexicographic on the array, index 0 first. *)
Fixpoint lex_ltb (xs ys : list Z) : bool :=
  match xs, ys with
  | _, [] => false
  | [], _ :: _ => true
  | x :: xs, y :: ys => (x <? y) || ((x =? y) && lex_ltb xs ys)
  end.
Definition address_ltb (a b : Address) : bool := lex_ltb (octets a) (octets b).

(** [Parse] takes six octets off the front of the slice, or fails. *)
Definition Parse (input : list Z) : option (Address * list Z) :=
  match input with
  | x0 :: x1 :: x2 :: x3 :: x4 :: x5 :: rest => Some (MkAddress x0 x1 x2 x3 x4 x5, rest)
  | _ => None
  end.

Definition Serialize (a : Address) (output : list Z) : list Z := output ++ octets a.

(** *** Text form *)

Definition text := list ascii.
Coercion text_of_string (s : string) : text := list_ascii_of_string s.

Definition code (c : ascii) : Z := Z.of_N (N_of_ascii c).
Definition char (z : Z) : ascii := ascii_of_N (Z.to_N z).
Definition bytes_of (s : string) : list Z := map code (text_of_string s).

(** A digit of [std::hex] with [std::nouppercase]. *)
Definition hex_digit (n : Z) : ascii := if n <? 10 then char (48 + n) else char (87 + n).

(** [std::hex << std::setw(2) << std::setfill('0')] of a byte. *)
Definition hex2 (b : Z) : text := [hex_digit (b / 16); hex_digit (b mod 16)].

Definition colon : ascii := ":"%char.

Definition ToString (a : Address) : text :=
  hex2 (a5 a) ++ colon :: hex2 (a4 a) ++ colon :: hex2 (a3 a) ++ colon ::
  hex2 (a2 a) ++ colon :: hex2 (a1 a) ++ colon :: hex2 (a0 a).

(** The tokens that [getline(stream, token, ':')] returns in turn: a final
    colon does not start another token. *)
Fixpoint tokens (s : text) : list text :=
  match s with
  | [] => []
  | c :: s =>
      if bool_decide (c = colon) then [] :: tokens s
      else match tokens s with [] => [[c]] | t :: ts => (c :: t) :: ts end
  end.

(** [std::strtol(s, &end, 16)] in the C locale, on the characters up to the end
    of the string: the value and what is left at [end]. *)
Definition is_space (c : ascii) : bool := (code c =? 32) || ((9 <=? code c) && (code c <=? 13)).

Definition digit_value (c : ascii) : option Z :=
  let n := code c in
  if (48 <=? n) && (n <=? 57) then Some (n - 48)
  else if (97 <=? n) && (n <=? 102) then Some (n - 87)
  else if (65 <=? n) && (n <=? 70) then Some (n - 55)
  else None.

Fixpoint skip_spaces (s : text) : text :=
  match s with c :: rest => if is_space c then skip_spaces rest else s | [] => [] end.

Fixpoint hex_digits (acc : Z) (s : text) : Z * text :=
  match s with
  | c :: rest =>
      match digit_value c with
      | Some d => hex_digits (16 * acc + d) rest
      | None => (acc, s)
      end
  | [] => (acc, [])
  end.

Definition long_clamp (z : Z) : Z := Z.max (- 2 ^ 63) (Z.min (2 ^ 63 - 1) z).

(** Without a digit nothing is consumed, not even the spaces and the sign. *)
Definition strtol16 (s : text) : Z * text :=
  let body := skip_spaces s in
  let '(negative, body) :=
    match body with
    | c :: rest =>
        if bool_decide (c = "-"%char) then (true, rest)
        else if bool_decide (c = "+"%char) then (false, rest) else (false, body)
    | [] => (false, [])
    end in
  let body :=
    match body with
    | z :: x :: d :: rest =>
        if bool_decide (z = "0"%char) && (bool_decide (x = "x"%char) || bool_decide (x = "X"%char))
           && bool_decide (is_Some (digit_value d))
        then d :: rest else body
    | _ => body
    end in
  match body with
  | d :: _ =>
      match digit_value d with
      | Some _ =>
          let '(v, rest) := hex_digits 0 body in
          (long_clamp (if negative then - v else v), rest)
      | None => (0, s)
      end
  | [] => (0, s)
  end.

(** [addr.address.at(i) = v]. *)
Definition set_octet (a : Address) (i : Z) (v : Z) : Address :=
  let '(MkAddress x0 x1 x2 x3 x4 x5) := a in
  if i =? 0 then MkAddress v x1 x2 x3 x4 x5 else if i =? 1 then MkAddress x0 v x2 x3 x4 x5
  else if i =? 2 then MkAddress x0 x1 v x3 x4 x5 else if i =? 3 then MkAddress x0 x1 x2 v x4 x5
  else if i =? 4 then MkAddress x0 x1 x2 x3 v x5 else if i =? 5 then MkAddress x0 x1 x2 x3 x4 v
  else a.

(** The loop over the tokens. *)
Fixpoint parse_tokens (index : Z) (addr : Address) (ts : list text) : option Address :=
  match ts with
  | [] => if index =? 6 then Some addr else None
  | token :: ts =>
      if 6 <=? index then None
      else if negb (bool_decide (length token = 2%nat)) then None
      else
        let '(v, rest) := strtol16 token in
        let addr := set_octet addr (5 - index) (u8 v) in
        if bool_decide (rest = token) then None
        else if bool_decide (rest = []) then parse_tokens (index + 1) addr ts
        else None
  end.

Definition FromString (from : text) : option Address :=
  if negb (bool_decide (length from = 17%nat)) then None
  else parse_tokens 0 kEmpty (tokens from).

(** [FromString(from, to)]: the flag and the new value of [to]. *)
Definition FromString_to (from : text) (to : Address) : bool * Address :=
  match FromString from with
  | None => (false, kEmpty)
  | Some addr => (true, addr)
  end.

Definition IsValidAddress (s : text) : bool := bool_decide (is_Some (FromString s)).

(** *** Proofs about the text form *)

(** The tokens written back with a colon between them. *)
Fixpoint join (ts : list text) : text :=
  match ts with
  | [] => []
  | [t] => t
  | t :: ts => t ++ (colon :: join ts)
  end.

(** What a token must be for [FromString] to take it: a hexadecimal digit after
    a digit, a white space or a sign. *)
Definition is_hex (c : ascii) : bool := bool_decide (is_Some (digit_value c)).
Definition lenient (t : text) : bool :=
  match t with
  | [c; d] =>
      is_hex d && (is_hex c || is_space c || bool_decide (c = "+"%char) || bool_decide (c = "-"%char))
  | _ => false
  end.

Definition all_chars : list ascii := ascii_of_nat <$> seq 0 256.

Lemma all_chars_in c : c ∈ all_chars.
Proof.
  apply list_elem_of_fmap. exists (nat_of_ascii c). split; [by rewrite ascii_nat_embedding|].
  apply elem_of_seq. pose proof (nat_ascii_bounded c). lia.
Qed.

(** A boolean property of pairs of characters is checked by evaluation. *)
Lemma check_chars2 (P : ascii → ascii → bool) :
  forallb (λ c, forallb (P c) all_chars) all_chars = true → ∀ c d, P c d = true.
Proof.
  intros H c d. rewrite forallb_forall in H.
  specialize (H c (proj1 (list_elem_of_In _ _) (all_chars_in c))). rewrite forallb_forall in H.
  exact (H d (proj1 (list_elem_of_In _ _) (all_chars_in d))).
Qed.

(** [strtol] consumes exactly the lenient two character tokens; others leave
    the parse unfinished or not started. *)
Lemma strtol16_token c d :
  bool_decide (snd (strtol16 [c; d]) = []) = lenient [c; d] ∧
  (lenient [c; d] = true → colon ∉ [c; d]).
Proof.
  pose (P c d := Bool.eqb (bool_decide (snd (strtol16 [c; d]) = [])) (lenient [c; d]) &&
                 (negb (lenient [c; d]) || bool_decide (colon ∉ [c; d]))).
  assert (P c d = true) as HP by (apply check_chars2; vm_compute; reflexivity).
  unfold P in HP. apply andb_true_iff in HP as [HP1 HP2]. apply eqb_prop in HP1.
  split; [done|]. intros Hl. rewrite Hl in HP2. by apply bool_decide_eq_true in HP2.
Qed.

(** A byte printed with two digits is read back. *)
Lemma strtol16_hex2 b : byte_ok b → strtol16 (hex2 b) = (b, []) ∧ colon ∉ hex2 b ∧ lenient (hex2 b) = true.
Proof.
  pose (P b := (bool_decide (strtol16 (hex2 b) = (b, [])) && bool_decide (colon ∉ hex2 b))
               && lenient (hex2 b)).
  assert (forallb P (seqZ 0 256) = true) as HP by (vm_compute; reflexivity).
  intros Hb. rewrite forallb_forall in HP. specialize (HP b).
  rewrite <-list_elem_of_In, elem_of_seqZ in HP. unfold fits in Hb. specialize (HP ltac:(lia)).
  unfold P in HP. apply andb_true_iff in HP as [HP Hl]. apply andb_true_iff in HP as [H1 H2].
  by apply bool_decide_eq_true in H1, H2.
Qed.

Lemma tokens_colon t s : colon ∉ t → tokens (t ++ (colon :: s)) = t :: tokens s.
Proof.
  induction t as [|c t IH]; intros Hc; simpl; [done|].
  apply not_elem_of_cons in Hc as [Hc1 Hc2]. by rewrite bool_decide_false, IH.
Qed.

Lemma tokens_single t : colon ∉ t → t ≠ [] → tokens t = [t].
Proof.
  induction t as [|c t IH]; intros Hc Hne; simpl; [done|].
  apply not_elem_of_cons in Hc as [Hc1 Hc2]. rewrite bool_decide_false by done.
  destruct (decide (t = [])) as [->|]; [done|]. by rewrite IH.
Qed.

Lemma tokens_join_inv ts :
  Forall (λ t, colon ∉ t ∧ t ≠ []) ts → tokens (join ts) = ts.
Proof.
  induction 1 as [|t ts [Hc Hne] Hts IH]; [done|].
  destruct ts as [|t' ts]; [by apply tokens_single|].
  change (join (t :: t' :: ts)) with (t ++ (colon :: join (t' :: ts))).
  by rewrite tokens_colon, IH.
Qed.

(** Only a final colon is lost by [tokens]. *)
Lemma join_tokens s : s = join (tokens s) ∨ s = join (tokens s) ++ [colon].
Proof.
  induction s as [|c s IH]; [by left|]. simpl. case_bool_decide as Hc.
  - subst c. destruct (tokens s) as [|t ts] eqn:E; simpl in *.
    + destruct IH as [-> | ->]; simpl; [by right|by right].
    + destruct IH as [-> | ->]; [by left|by right].
  - destruct (tokens s) as [|t ts] eqn:E.
    + destruct IH as [-> | ->]; [by left|]. done.
    + destruct ts as [|t' ts]; destruct IH as [-> | ->]; simpl; auto.
Qed.

Definition octet_value (t : text) : Z := u8 (fst (strtol16 t)).

(** The address spelled by six tokens, most significant octet first. *)
Definition address_of_tokens (ts : list text) : option Address :=
  match ts with
  | [t5; t4; t3; t2; t1; t0] =>
      Some (MkAddress (octet_value t0) (octet_value t1) (octet_value t2)
                      (octet_value t3) (octet_value t4) (octet_value t5))
  | _ => None
  end.

Lemma lenient_spec t : lenient t = true → ∃ c d, t = [c; d] ∧ colon ∉ t.
Proof.
  destruct t as [|c [|d [|]]]; try done. intros Hl. exists c, d. split; [done|].
  by apply strtol16_token.
Qed.

(** One round of the loop. *)
Lemma parse_tokens_cons i addr t ts :
  parse_tokens i addr (t :: ts) =
  if (i <? 6) && lenient t then parse_tokens (i + 1) (set_octet addr (5 - i) (octet_value t)) ts
  else None.
Proof.
  cbn [parse_tokens]. unfold octet_value.
  destruct (Z.leb_spec 6 i), (Z.ltb_spec i 6); try lia; [done|]. cbn [andb].
  destruct t as [|c [|d [|e t]]]; try done.
  rewrite bool_decide_true by done. cbn [negb].
  destruct (strtol16_token c d) as [<- _].
  destruct (strtol16 [c; d]) as [v rest]. cbn [fst snd].
  destruct (decide (rest = [])) as [->|Hr].
  - by rewrite bool_decide_false, bool_decide_true.
  - rewrite (bool_decide_false (rest = [])) by done. by case_bool_decide.
Qed.

Fixpoint fill (i : Z) (addr : Address) (ts : list text) : Address :=
  match ts with
  | [] => addr
  | t :: ts => fill (i + 1) (set_octet addr (5 - i) (octet_value t)) ts
  end.

Lemma parse_tokens_fill i addr ts :
  parse_tokens i addr ts =
  if forallb lenient ts && (i + zlength ts =? 6) then Some (fill i addr ts) else None.
Proof.
  revert i addr. induction ts as [|t ts IH]; intros i addr.
  { unfold zlength. simpl. by rewrite Z.add_0_r. }
  rewrite parse_tokens_cons, IH. cbn [forallb fill]. autorewrite with rc.
  pose proof (zlength_nonneg ts).
  replace (i + (1 + zlength ts)) with (i + 1 + zlength ts) by lia.
  destruct (lenient t), (Z.ltb_spec i 6); simpl; try done.
  rewrite (proj2 (Z.eqb_neq _ _)), andb_false_r by lia. done.
Qed.

Lemma parse_tokens_spec ts addr :
  parse_tokens 0 kEmpty ts = Some addr ↔
  forallb lenient ts = true ∧ address_of_tokens ts = Some addr.
Proof.
  rewrite parse_tokens_fill.
  destruct (decide (length ts = 6%nat)) as [Hlen|Hlen].
  - do 6 (destruct ts as [|? ts]; [done|]). destruct ts; [|done].
    change (0 + zlength _ =? 6) with true. rewrite andb_true_r.
    change (fill 0 kEmpty _) with (fill 0 kEmpty [t; t0; t1; t2; t3; t4]).
    change (address_of_tokens _) with (Some (fill 0 kEmpty [t; t0; t1; t2; t3; t4])).
    destruct (forallb lenient _); naive_solver.
  - rewrite (proj2 (Z.eqb_neq _ _)), andb_false_r by (unfold zlength; lia).
    split; [done|]. intros [_ H].
    do 7 (destruct ts as [|? ts]; try done).
Qed.

Lemma join_length6 ts addr :
  forallb lenient ts = true → address_of_tokens ts = Some addr → length (join ts) = 17%nat.
Proof.
  intros Hl Ha. do 7 (destruct ts as [|? ts]; try done). simpl in Hl.
  repeat (apply andb_true_iff in Hl as [?%lenient_spec Hl]). naive_solver.
Qed.

Lemma lenient_tokens ts :
  forallb lenient ts = true → Forall (λ t, colon ∉ t ∧ t ≠ []) ts.
Proof.
  rewrite forallb_forall. intros H. apply Forall_forall. intros t Ht%list_elem_of_In.
  apply H, lenient_spec in Ht. naive_solver.
Qed.

(** Exactly which strings [Address::FromString] takes, and what they mean:
    six two character tokens separated by colons, most significant octet first.
    Each token ends with a hexadecimal digit; its first character may be a
    digit, but also a white space or a sign, which [strtol] skips. *)
Theorem FromString_spec (s : text) (addr : Address) :
  FromString s = Some addr ↔
  ∃ ts, s = join ts ∧ forallb lenient ts = true ∧ address_of_tokens ts = Some addr.
Proof.
  unfold FromString. split.
  - case_bool_decide as Hlen; [|done]. intros [Hl Ha]%parse_tokens_spec.
    exists (tokens s). split; [|done].
    pose proof (join_length6 _ _ Hl Ha). destruct (join_tokens s) as [|Hs]; [done|].
    apply (f_equal length) in Hs. rewrite length_app in Hs. simpl in Hs. lia.
  - intros (ts & -> & Hl & Ha). rewrite bool_decide_true by by eapply join_length6.
    simpl. apply parse_tokens_spec.
    by rewrite tokens_join_inv by by apply lenient_tokens.
Qed.

(** Printing an address and reading it back gives the address. *)
Theorem FromString_ToString (a : Address) (Ha : address_ok a) : FromString (ToString a) = Some a.
Proof.
  destruct a as [x0 x1 x2 x3 x4 x5]. unfold address_ok, octets in Ha.
  cbn [a0 a1 a2 a3 a4 a5] in Ha. rewrite !Forall_cons in Ha. destruct_and!.
  apply FromString_spec.
  exists (hex2 <$> [x5; x4; x3; x2; x1; x0]). split; [done|].
  assert (∀ b, byte_ok b → lenient (hex2 b) = true) as Hlen by (intros; by apply strtol16_hex2).
  assert (∀ b, byte_ok b → octet_value (hex2 b) = b) as Hval.
  { intros b Hb. unfold octet_value. rewrite (proj1 (strtol16_hex2 b Hb)). by apply wrap_id. }
  split; cbn [fmap list_fmap forallb address_of_tokens].
  - by rewrite !Hlen.
  - by rewrite !Hval.
Qed.

Lemma FromString_ToString_witness :
  FromString (ToString (MkAddress 0x00 0x9f 0x03 0xa4 0x05 0xff)) =
  Some (MkAddress 0x00 0x9f 0x03 0xa4 0x05 0xff).
Proof.
  apply (FromString_ToString (MkAddress 0x00 0x9f 0x03 0xa4 0x05 0xff)).
  bytes.
Defined.

(** A failed [FromString(from, to)] does not leave [to] as it was: it
    returns false and clears it. *)
Theorem FromString_to_clears (s : text) (to : Address) :
  (fst (FromString_to s to) = false ↔ FromString s = None) ∧
  (FromString s = None → snd (FromString_to s to) = kEmpty) ∧
  (∀ a, FromString s = Some a → FromString_to s to = (true, a)).
Proof. unfold FromString_to. destruct (FromString s); naive_solver. Qed.

Example FromString_sign : FromString "+1:-1: 2:03:04:05" = Some (MkAddress 5 4 3 2 0xff 1).
Proof. reflexivity. Qed.

(** ** AddressWithType *)

Record AddressWithType := MkAddressWithType {
  GetAddress : Address;
  GetAddressType : AddressType.t;
}.
#[export] Instance AddressWithType_eq_dec : EqDecision AddressWithType.
Proof. solve_decision. Defined.

(** The default constructor. *)
Definition empty_address : AddressWithType :=
  MkAddressWithType kEmpty AddressType.PUBLIC_DEVICE_ADDRESS.

(** Is this a resolvable private address? *)
Definition IsRpa (a : AddressWithType) : bool :=
  bool_decide (GetAddressType a = AddressType.RANDOM_DEVICE_ADDRESS) &&
  (Z.land (a5 (GetAddress a)) 0xc0 =? 0x40).

Definition ToFilterAcceptListAddressType (a : AddressWithType) : FilterAcceptListAddressType.t :=
  match GetAddressType a with
  | AddressType.PUBLIC_DEVICE_ADDRESS | AddressType.PUBLIC_IDENTITY_ADDRESS =>
      FilterAcceptListAddressType.PUBLIC
  | AddressType.RANDOM_DEVICE_ADDRESS | AddressType.RANDOM_IDENTITY_ADDRESS =>
      FilterAcceptListAddressType.RANDOM
  end.

Definition ToPeerAddressType (a : AddressWithType) : PeerAddressType.t :=
  match GetAddressType a with
  | AddressType.PUBLIC_DEVICE_ADDRESS | AddressType.PUBLIC_IDENTITY_ADDRESS =>
      PeerAddressType.PUBLIC_DEVICE_OR_IDENTITY_ADDRESS
  | AddressType.RANDOM_DEVICE_ADDRESS | AddressType.RANDOM_IDENTITY_ADDRESS =>
      PeerAddressType.RANDOM_DEVICE_OR_IDENTITY_ADDRESS
  end.

Definition PeerDeviceAddress (a : Address) (t : PeerAddressType.t) : AddressWithType :=
  match t with
  | PeerAddressType.PUBLIC_DEVICE_OR_IDENTITY_ADDRESS =>
      MkAddressWithType a AddressType.PUBLIC_DEVICE_ADDRESS
  | PeerAddressType.RANDOM_DEVICE_OR_IDENTITY_ADDRESS =>
      MkAddressWithType a AddressType.RANDOM_DEVICE_ADDRESS
  end.

Definition PeerIdentityAddress (a : Address) (t : PeerAddressType.t) : AddressWithType :=
  match t with
  | PeerAddressType.PUBLIC_DEVICE_OR_IDENTITY_ADDRESS =>
      MkAddressWithType a AddressType.PUBLIC_IDENTITY_ADDRESS
  | PeerAddressType.RANDOM_DEVICE_OR_IDENTITY_ADDRESS =>
      MkAddressWithType a AddressType.RANDOM_IDENTITY_ADDRESS
  end.

(** ** Resolvable private addresses

    The block cipher is OpenSSL's: a parameter of the model.  An [Octet16] is a
    list of sixteen bytes. *)
Class Crypto := aes_128_block : list Z → list Z → list Z.

Section Rpa.
Context `{Crypto}.

(** [aes_128(key, message, length)] pads the message with zeroes. *)
Definition aes_128 (key message : list Z) : list Z :=
  aes_128_block key (message ++ replicate (16 - length message) 0).

Definition octet (l : list Z) (i : nat) : Z := nth i l 0.

Definition IsRpaThatMatchesIrk (a : AddressWithType) (irk : list Z) : bool :=
  if negb (IsRpa a) then false
  else
    let '(MkAddress h0 h1 h2 p0 p1 p2) := GetAddress a in
    let computed_hash := aes_128 irk [p0; p1; p2] in
    bool_decide ([octet computed_hash 0; octet computed_hash 1; octet computed_hash 2]
                 = [h0; h1; h2]).

(** [LeController::generate_rpa]; [rand i] is the result of the [i]th call of
    [std::rand()], a non negative [int]. *)
Definition generate_rpa (rand : nat → Z) (irk : list Z) : Address :=
  let prand0 := u8 (rand 0%nat) in
  let prand1 := u8 (rand 1%nat) in
  let prand2 := u8 (rand 2%nat) in
  let prand2 := u8 (Z.land prand2 (Z.lnot 0xC0)) in
  let prand0 :=
    if ((prand0 =? 0x00) && (prand1 =? 0x00) && (prand2 =? 0x00)) ||
       ((prand0 =? 0xFF) && (prand1 =? 0xFF) && (prand2 =? 0x3F))
    then u8 (Z.rem (rand 3%nat) 0xFE + 1) else prand0 in
  let prand2 := u8 (Z.lor prand2 0x40) in
  let p := aes_128 irk [prand0; prand1; prand2] in
  MkAddress (octet p 0) (octet p 1) (octet p 2) prand0 prand1 prand2.

Definition irk_is_zero (irk : list Z) : bool := forallb (λ b, b =? 0) irk.

(** *** Proofs *)

Lemma prand2_bits b :
  byte_ok b →
  let m := u8 (Z.land b (Z.lnot 0xC0)) in
  Z.land (u8 (Z.lor m 0x40)) 0xc0 = 0x40 ∧ Z.land (u8 (Z.lor m 0x40)) 0x3f = m ∧ 0 ≤ m ≤ 0x3f.
Proof.
  set (P b := let m := u8 (Z.land b (Z.lnot 0xC0)) in
    bool_decide (Z.land (u8 (Z.lor m 0x40)) 0xc0 = 0x40 ∧
      Z.land (u8 (Z.lor m 0x40)) 0x3f = m ∧ 0 ≤ m ≤ 0x3f)).
  assert (forallb P (seqZ 0 256) = true) as HP by (vm_compute; reflexivity).
  intros Hb. rewrite forallb_forall in HP. specialize (HP b).
  rewrite <-list_elem_of_In, elem_of_seqZ in HP. unfold fits in Hb. specialize (HP ltac:(lia)).
  by apply bool_decide_eq_true in HP.
Qed.

Lemma generate_rpa_matches rand irk :
  IsRpaThatMatchesIrk
    (MkAddressWithType (generate_rpa rand irk) AddressType.RANDOM_DEVICE_ADDRESS) irk = true.
Proof.
  unfold generate_rpa, IsRpaThatMatchesIrk, IsRpa. cbn [GetAddress GetAddressType a3 a4 a5].
  destruct (prand2_bits (u8 (rand 2%nat))) as (-> & _ & _); [by apply wrap_fits|].
  rewrite bool_decide_true by done. cbn [negb andb Z.eqb Pos.eqb].
  by rewrite bool_decide_true.
Qed.

(** A generated resolvable private address is one, resolves with the key it
    was generated from whatever the cipher computes, and its random part (the
    lower 22 bits of prand) is neither all zeroes nor all ones. *)
Theorem generate_rpa_resolves (rand : nat → Z) (irk : list Z) (Hrand : ∀ i, 0 ≤ rand i) :
  let rpa := generate_rpa rand irk in
  IsRpaThatMatchesIrk (MkAddressWithType rpa AddressType.RANDOM_DEVICE_ADDRESS) irk = true ∧
  let prand := [a3 rpa; a4 rpa; Z.land (a5 rpa) 0x3f] in
  prand ≠ [0x00; 0x00; 0x00] ∧ prand ≠ [0xFF; 0xFF; 0x3F].
Proof.
  cbv zeta. split; [apply generate_rpa_matches|]. unfold generate_rpa. cbn [a3 a4 a5].
  destruct (prand2_bits (u8 (rand 2%nat))) as (_ & Hlow & Hm); [by apply wrap_fits|].
  rewrite Hlow.
  assert (1 ≤ u8 (Z.rem (rand 3%nat) 0xFE + 1) ≤ 0xFE) as Hreplaced.
  { pose proof (Z.rem_bound_pos (rand 3%nat) 0xFE (Hrand 3%nat) ltac:(lia)).
    rewrite wrap_id by (unfold fits; lia). lia. }
  destruct (_ || _) eqn:E.
  - split; intros [= ? ? ?]; lia.
  - to_prop. rewrite !andb_false_iff in *. to_prop.
    split; intros [= E0 E1 E2]; rewrite E0, E1, E2 in *; naive_solver.
Qed.
End Rpa.

(** A cipher that only copies the padded message. *)
Definition echo_cipher : Crypto := λ key message, message.

Lemma generate_rpa_resolves_witness :
  let rpa := generate_rpa (H := echo_cipher) (λ i, 0xFFFF) [] in
  IsRpaThatMatchesIrk (H := echo_cipher)
    (MkAddressWithType rpa AddressType.RANDOM_DEVICE_ADDRESS) [] = true ∧
  let prand := [a3 rpa; a4 rpa; Z.land (a5 rpa) 0x3f] in
  prand ≠ [0x00; 0x00; 0x00] ∧ prand ≠ [0xFF; 0xFF; 0x3F].
Proof. apply (generate_rpa_resolves (H := echo_cipher) (λ i, 0xFFFF) []). intros i. lia. Defined.
