(* ===== verification/PhyLayer.v ===== *)
(** * Physical layers (model/setup/phy_layer.cc, phy_device.cc, model/devices/device.cc,
    include/phy.h)

    Devices are on physical layers; what one sends on a type of layer reaches the others on its
    layers of that type, at once: a device may answer before the sender goes on.  A device is a
    parameter, by the interface [Device]; what it does is a tree of actions, because what
    comes back may change it between two of them. *)

From Stdlib Require Import Ascii.
From S2P Require Import Prelude Address.

(** [Phy::Type]. *)
Inductive PhyType := LOW_ENERGY | BR_EDR.
#[export] Instance PhyType_eq_dec : EqDecision PhyType.
Proof. solve_decision. Defined.

(** ** Devices *)

(** What a device does in a call: it is [d] when it sends a packet or calls its close
    callback, and goes on from what it is after that. *)
Inductive Effect := SendLinkLayerPacket (packet : list Z) (type : PhyType) (tx_power : Z) | CloseCallback.
Inductive Action (D : Type) :=
| Return (d : D)
| Do (e : Effect) (d : D) (k : D → Action D).
Arguments Return {D}. Arguments Do {D}.

Class Device (D : Type) := {
  (** [LinkLayerPacketView::Create] and [IsValid]: generated code. *)
  View : Type;
  parse_view : list Z → option View;
  ReceiveLinkLayerPacket : View → PhyType → Z → D → Action D;
  device_Tick : D → Action D;
  GetTypeString : D → list ascii;
  device_address : D → Address;
  set_device_address : Address → D → D;
}.

(** The functions the model is given to schedule tasks: a part of the task manager. *)
Inductive Task := TickTask | ConnectionClosedTask (device_id user_id : Z) | ResetTask.
Class Scheduler (M : Type) := {
  get_user_id : M → Z * M;
  schedule_task : Z → Z → Task → M → Z * M;
  schedule_periodic_task : Z → Z → Z → Task → M → Z * M;
  cancel_task : Z → M → M;
  cancel_tasks_from_user : Z → M → M;
}.

(** [PhyDevice]; the set of its layers holds pointers, which are their identifiers here.
    [close_callback_] is the user the callback schedules its task for. *)
Record PhyDevice (D : Type) := MkPhyDevice {
  device_ : D;
  phy_layers_ : gmap Z ();
  close_callback_ : option Z;
}.
Arguments MkPhyDevice {D}. Arguments device_ {D}. Arguments phy_layers_ {D}. Arguments close_callback_ {D}.
Record PhyLayer := MkPhyLayer {
  phy_type : PhyType;
  phy_devices_ : list Z;
}.

(** The layers, the devices, the static variable of [ComputeRssi] and the task manager. *)
Record Air (D M : Type) := MkAir {
  layers : gmap Z PhyLayer;
  devices : gmap Z (PhyDevice D);
  rssi : Z;
  scheduler : M;
}.
Arguments MkAir {D M}. Arguments layers {D M}. Arguments devices {D M}. Arguments rssi {D M}. Arguments scheduler {D M}.

Section Air.
Context {D M : Type} `{Device D, Scheduler M, IterationOrder}.

#[export] Instance phy_device_rebuild : Rebuild (PhyDevice D) := λ p,
  MkPhyDevice (device_ p) (phy_layers_ p) (close_callback_ p).
#[export] Instance air_rebuild : Rebuild (Air D M) := λ w,
  MkAir (layers w) (devices w) (rssi w) (scheduler w).

Definition set_device (id : Z) (d : D) (w : Air D M) : Air D M :=
  w <| devices ::= alter (λ p, MkPhyDevice d (phy_layers_ p) (close_callback_ p)) id |>.
Definition set_layers (id : Z) (f : gmap Z () → gmap Z ()) (w : Air D M) : Air D M :=
  w <| devices ::= alter (λ p, MkPhyDevice (device_ p) (f (phy_layers_ p)) (close_callback_ p)) id |>.

(** ** The layers' devices *)

(** [PhyLayer::Register]. *)
Definition Register (phy id : Z) (w : Air D M) : Air D M :=
  let w := set_layers id <[phy := ()]> w in
  w <| layers ::= alter (λ p, MkPhyLayer (phy_type p) (phy_devices_ p ++ [id])) phy |>.
(** [PhyLayer::Unregister]: [std::list::remove] takes all that equal the element. *)
Definition Unregister (phy id : Z) (w : Air D M) : Air D M :=
  match layers w !! phy with
  | None => w
  | Some p =>
      if bool_decide (id ∈ phy_devices_ p)
      then
        let w := set_layers id (delete phy) w in
        w <| layers ::= <[phy := MkPhyLayer (phy_type p) (filter (.≠ id) (phy_devices_ p))]> |>
      else w
  end.
(** [PhyLayer::UnregisterAll]. *)
Definition UnregisterAll (phy : Z) (w : Air D M) : Air D M :=
  match layers w !! phy with
  | None => w
  | Some p =>
      let w := foldr (λ id, set_layers id (delete phy)) w (phy_devices_ p) in
      w <| layers ::= <[phy := MkPhyLayer (phy_type p) []]> |>
  end.

(** ** Sending *)

(** The next value of the static variable, and the result, an [int8_t]. *)
Definition ComputeRssi (w : Air D M) : Z * Air D M :=
  let r := (rssi w + 5) mod 128 in
  (i8 (- r), w <| rssi := r |>).

(** The body of the loop of [PhyLayer::Send]; [receive] is [PhyDevice::Receive]. *)
Fixpoint send_to (receive : Z → Z → Air D M → outcome (Air D M)) (sender_id : Z) (ids : list Z)
  (w : Air D M) : outcome (Air D M) :=
  match ids with
  | [] => Ok w
  | id :: ids =>
      w ← (if bool_decide (sender_id = id) then Ok w
           else let '(r, w) := ComputeRssi w in receive id r w);
      send_to receive sender_id ids w
  end.
(** The loop of [PhyDevice::Send], over the pointers of the device. *)
Fixpoint send_on (send : PhyLayer → Air D M → outcome (Air D M)) (type : PhyType) (phys : list Z)
  (w : Air D M) : outcome (Air D M) :=
  match phys with
  | [] => Ok w
  | phy :: phys =>
      p ← unchecked (layers w !! phy);
      w ← (if bool_decide (phy_type p = type) then send p w else Ok w);
      send_on send type phys w
  end.

(** What a device does; what it sends is received before it goes on. The fuel bounds the
    number of actions within one another. *)
Fixpoint run (fuel : nat) (id : Z) (a : Action D) (w : Air D M) : outcome (Air D M) :=
  match fuel with
  | O => Hang
  | S fuel =>
      match a with
      | Return d => Ok (set_device id d w)
      | Do e d k =>
          let w := set_device id d w in
          p ← unchecked (devices w !! id);
          w ← (match e with
               | SendLinkLayerPacket packet type tx_power =>
                   send_on (λ phy, send_to (λ receiver r w,
                     q ← unchecked (devices w !! receiver);
                     match parse_view packet with
                     | Some view => run fuel receiver (ReceiveLinkLayerPacket view (phy_type phy) r (device_ q)) w
                     | None => Ok w
                     end) id (phy_devices_ phy)) type (map fst (iterate (phy_layers_ p))) w
               | CloseCallback =>
                   match close_callback_ p with
                   | None => Ok w
                   | Some user_id =>
                       let '(_, s) := schedule_task user_id 0 (ConnectionClosedTask id user_id) (scheduler w) in
                       Ok (w <| scheduler := s |>)
                   end
               end);
          p ← unchecked (devices w !! id);
          run fuel id (k (device_ p)) w
      end
  end.

(** [PhyDevice::Receive], [PhyDevice::Send], [PhyDevice::Tick] and [PhyLayer::Tick]. *)
Definition Receive (fuel : nat) (id : Z) (packet : list Z) (type : PhyType) (r : Z) (w : Air D M)
  : outcome (Air D M) :=
  q ← unchecked (devices w !! id);
  match parse_view packet with
  | Some view => run fuel id (ReceiveLinkLayerPacket view type r (device_ q)) w
  | None => Ok w
  end.
Definition phy_Send (fuel : nat) (packet : list Z) (sender_id : Z) (phy : PhyLayer) (w : Air D M)
  : outcome (Air D M) :=
  send_to (λ receiver r w, Receive fuel receiver packet (phy_type phy) r w) sender_id (phy_devices_ phy) w.
Definition Send (fuel : nat) (id : Z) (packet : list Z) (type : PhyType) (w : Air D M) : outcome (Air D M) :=
  p ← unchecked (devices w !! id);
  send_on (phy_Send fuel packet id) type (map fst (iterate (phy_layers_ p))) w.
Definition Tick (fuel : nat) (id : Z) (w : Air D M) : outcome (Air D M) :=
  p ← unchecked (devices w !! id);
  run fuel id (device_Tick (device_ p)) w.
Fixpoint Ticks (fuel : nat) (ids : list Z) (w : Air D M) : outcome (Air D M) :=
  match ids with [] => Ok w | id :: ids => w ← Tick fuel id w; Ticks fuel ids w end.
Definition phy_Tick (fuel : nat) (phy : Z) (w : Air D M) : outcome (Air D M) :=
  match layers w !! phy with Some p => Ticks fuel (phy_devices_ p) w | None => Ok w end.
End Air.

(** ** Who is where *)

Section Registry.
Context {D M : Type} `{Device D, Scheduler M, IterationOrder}.
Implicit Types w : Air D M.

(** What is known of the layers and the devices but for what the devices are. *)
Definition registry w : gmap Z PhyLayer * gmap Z (gmap Z () * option Z) :=
  (layers w, (λ p, (phy_layers_ p, close_callback_ p)) <$> devices w).

(** The lists of the layers and the sets of the devices agree, and no pointer dangles. *)
Definition placed (layers : gmap Z PhyLayer) (sets : gmap Z (gmap Z () * option Z)) : Prop :=
  (∀ phy p id, layers !! phy = Some p → id ∈ phy_devices_ p →
     ∃ on, sets !! id = Some on ∧ on.1 !! phy = Some ()) ∧
  (∀ id on phy, sets !! id = Some on → on.1 !! phy = Some () →
     ∃ p, layers !! phy = Some p ∧ id ∈ phy_devices_ p).
Definition air_wf w : Prop := placed (registry w).1 (registry w).2.

Lemma air_wf_registry w w' : registry w' = registry w → air_wf w → air_wf w'.
Proof. unfold air_wf. by intros ->. Qed.
Lemma registry_set_device id d w : registry (set_device id d w) = registry w.
Proof.
  unfold registry, set_device. cbn. f_equal. apply map_eq. intros i. rewrite !lookup_fmap.
  destruct (decide (i = id)) as [->|]; [|by rewrite lookup_alter_ne].
  rewrite lookup_alter_eq. by destruct (devices w !! id).
Qed.
Lemma registry_device w w' id p :
  registry w' = registry w → devices w !! id = Some p →
  ∃ p', devices w' !! id = Some p' ∧ phy_layers_ p' = phy_layers_ p ∧ close_callback_ p' = close_callback_ p.
Proof.
  intros E Hp. apply (f_equal (λ r, r.2 !! id)) in E. cbn in E. rewrite !lookup_fmap, Hp in E.
  destruct (devices w' !! id) as [p'|]; [|done]. injection E as E1 E2. by exists p'.
Qed.
Lemma registry_layers w w' : registry w' = registry w → layers w' = layers w.
Proof. intros E. exact (f_equal fst E). Qed.
Lemma lookup_set_device id d w p :
  devices w !! id = Some p →
  devices (set_device id d w) !! id = Some (MkPhyDevice d (phy_layers_ p) (close_callback_ p)).
Proof. intros Hp. unfold set_device. cbn. by rewrite lookup_alter_eq, Hp. Qed.
Lemma lookup_set_device_ne id d w j : id ≠ j → devices (set_device id d w) !! j = devices w !! j.
Proof. intros. unfold set_device. cbn. by rewrite lookup_alter_ne. Qed.

(** A call that leaves the registry as it is, if it ends. *)
Definition sound w (x : outcome (Air D M)) : Prop :=
  match x with Ok w' => registry w' = registry w | Hang => True | Fatal | Undef => False end.
Lemma sound_bind w x (f : Air D M → outcome (Air D M)) :
  sound w x → (∀ w', registry w' = registry w → sound w (f w')) → sound w (x ≫= f).
Proof. intros Hx Hf. destruct x as [w'| | |]; try done. by apply Hf. Qed.
Lemma sound_registry w w' x : registry w' = registry w → sound w' x → sound w x.
Proof. unfold sound. intros E. destruct x; try done. by rewrite E. Qed.

Lemma send_to_sound receive sender ids w :
  (∀ id r w', id ∈ ids → registry w' = registry w → sound w (receive id r w')) →
  ∀ w', registry w' = registry w → sound w (send_to receive sender ids w').
Proof.
  intros Hr. induction ids as [|id ids IH]; intros w' E; [done|]. cbn [send_to].
  apply sound_bind; [|apply IH; intros; apply Hr; [by right|done]]. case_bool_decide; [done|].
  apply Hr; [by left|done].
Qed.
Lemma send_on_sound (send : PhyLayer → Air D M → outcome (Air D M)) type phys w :
  (∀ phy, phy ∈ phys → is_Some (layers w !! phy)) →
  (∀ phy p w', phy ∈ phys → layers w !! phy = Some p → registry w' = registry w → sound w (send p w')) →
  ∀ w', registry w' = registry w → sound w (send_on send type phys w').
Proof.
  intros Hl Hs. induction phys as [|phy phys IH]; intros w' E; [done|]. cbn [send_on].
  destruct (Hl phy) as [p Hp]; [by left|]. rewrite (registry_layers _ _ E), Hp. cbn [unchecked mbind outcome_bind].
  apply sound_bind; [case_bool_decide; [apply (Hs phy); [by left|done..]|done]|].
  apply IH; [intros; apply Hl; by right|]. intros phy1 p1 w1 H1phy; apply Hs; by right.
Qed.

Lemma elem_of_phys (on : gmap Z ()) phy : phy ∈ map fst (iterate on) ↔ on !! phy = Some ().
Proof.
  change (map fst) with (@fmap list _ (Z * ()) Z fst). rewrite list_elem_of_fmap. split.
  - intros ([k []] & -> & Hk). by apply elem_of_iterate in Hk.
  - intros Hk. exists (phy, ()). split; [done|]. by apply elem_of_iterate.
Qed.

(** Where a device sends, nothing dangles. *)
Lemma device_layers w w' id p :
  air_wf w → registry w' = registry w → devices w' !! id = Some p →
  ∀ phy, phy ∈ map fst (iterate (phy_layers_ p)) →
  ∃ l, layers w !! phy = Some l ∧ ∀ j, j ∈ phy_devices_ l → is_Some (devices w !! j).
Proof.
  intros [Hin Hon] E Hp phy Hphy%elem_of_phys.
  destruct (registry_device w' w id p) as (q & Hq & Hl & _); [done..|].
  destruct (Hon id (phy_layers_ q, close_callback_ q) phy) as (l & Hll & _).
  { cbn. by rewrite lookup_fmap, Hq. } { by rewrite Hl. }
  exists l. split; [done|]. intros j Hj. destruct (Hin phy l j Hll Hj) as (on & Hon' & _).
  cbn in Hon'. rewrite lookup_fmap in Hon'. destruct (devices w !! j) as [q'|]; [by eexists|done].
Qed.

Lemma run_sound fuel id a w :
  air_wf w → is_Some (devices w !! id) → ∀ w', registry w' = registry w → sound w (run fuel id a w').
Proof.
  intros Hwf. revert id a. induction fuel as [|fuel IH]; intros id a [p Hp] w' E; [done|].
  destruct a as [d|e d k]; cbn [run].
  { cbn. by rewrite registry_set_device. }
  destruct (registry_device w w' id p) as (p' & Hp' & Hl & _); [done..|].
  rewrite (lookup_set_device _ _ _ _ Hp'). cbn [unchecked mbind outcome_bind].
  assert (registry (set_device id d w') = registry w) as E' by by rewrite registry_set_device.
  apply sound_bind.
  - destruct e as [packet type tx|].
    + assert (∀ phy, phy ∈ map fst (iterate (phy_layers_ (MkPhyDevice d (phy_layers_ p') (close_callback_ p')))) →
        ∃ l, layers w !! phy = Some l ∧ ∀ j, j ∈ phy_devices_ l → is_Some (devices w !! j)) as Hphys.
      { eapply device_layers; [done|exact E'|by apply lookup_set_device]. }
      apply send_on_sound; [| |done].
      * intros phy Hphy. destruct (Hphys phy Hphy) as (l & -> & _). done.
      * intros phy l w2 Hphy Hl2 E2. destruct (Hphys phy Hphy) as (l' & Hl' & Hj). rewrite Hl2 in Hl'. injection Hl' as <-.
        apply send_to_sound; [|done]. intros j r w3 Hin E3. destruct (Hj j Hin) as [q Hq].
        destruct (registry_device w w3 j q) as (q' & -> & _); [done..|]. cbn [unchecked mbind outcome_bind].
        destruct (parse_view packet) as [view|]; [|done]. by apply IH.
    + cbn [close_callback_]. destruct (close_callback_ p'); [|done].
      destruct (schedule_task _ _ _ _) as [n s]. cbn. done.
  - intros w2 E2. destruct (registry_device w w2 id p) as (p2 & -> & _); [done..|].
    cbn [unchecked mbind outcome_bind]. by apply IH.
Qed.

(** *** Registration keeps the layers and the devices in agreement *)

Lemma registry_with_layers f w : registry (w <| layers ::= f |>) = (f (layers w), (registry w).2).
Proof. done. Qed.
Lemma registry_set_layers id f w :
  registry (set_layers id f w) = (layers w, alter (λ on, (f on.1, on.2)) id (registry w).2).
Proof.
  unfold registry, set_layers. cbn. f_equal. apply map_eq. intros i. rewrite lookup_fmap.
  destruct (decide (i = id)) as [->|].
  - rewrite !lookup_alter_eq, lookup_fmap. by destruct (devices w !! id).
  - by rewrite !lookup_alter_ne, lookup_fmap by done.
Qed.

Lemma placed_register L S phy p id on :
  placed L S → L !! phy = Some p → S !! id = Some on →
  placed (<[phy := MkPhyLayer (phy_type p) (phy_devices_ p ++ [id])]> L) (<[id := (<[phy := ()]> on.1, on.2)]> S).
Proof.
  intros [Hin Hon] Hp Hid. split.
  - intros phy' p' j Hp' Hj. apply lookup_insert_Some in Hp' as [[<- <-]|[Hne Hp']].
    + cbn in Hj. destruct (decide (j = id)) as [->|Hji].
      { eexists. split; [apply lookup_insert_eq|apply lookup_insert_eq]. }
      apply elem_of_app in Hj as [Hj|Hj%list_elem_of_singleton]; [|done].
      destruct (Hin phy p j Hp Hj) as (on' & ? & ?). exists on'. by rewrite lookup_insert_ne.
    + destruct (Hin phy' p' j Hp' Hj) as (on' & Hj' & Hon'). destruct (decide (j = id)) as [->|].
      * simplify_eq. eexists. split; [apply lookup_insert_eq|]. cbn. by rewrite lookup_insert_ne.
      * exists on'. by rewrite lookup_insert_ne.
  - intros j on' phy' Hj Hphy. apply lookup_insert_Some in Hj as [[<- <-]|[Hne Hj]].
    + cbn in Hphy. destruct (decide (phy = phy')) as [<-|].
      { eexists. split; [apply lookup_insert_eq|]. cbn. apply elem_of_app. right. by apply list_elem_of_singleton. }
      rewrite lookup_insert_ne in Hphy by done. destruct (Hon id on phy' Hid Hphy) as (p' & ? & ?).
      exists p'. by rewrite lookup_insert_ne.
    + destruct (Hon j on' phy' Hj Hphy) as (p' & Hp' & Hj'). destruct (decide (phy = phy')) as [<-|].
      * simplify_eq. eexists. split; [apply lookup_insert_eq|]. cbn. apply elem_of_app. by left.
      * exists p'. by rewrite lookup_insert_ne.
Qed.

(** Taking a set of devices off a layer. *)
Lemma placed_remove L S S' phy p (off : Z → Prop) `{∀ id, Decision (off id)} :
  placed L S → L !! phy = Some p →
  (∀ id, S' !! id = (λ on, if decide (off id ∧ id ∈ phy_devices_ p) then (delete phy on.1, on.2) else on) <$> S !! id) →
  placed (<[phy := MkPhyLayer (phy_type p) (filter (λ id, ¬ off id) (phy_devices_ p))]> L) S'.
Proof.
  intros [Hin Hon] Hp HS. split.
  - intros phy' p' j Hp' Hj. apply lookup_insert_Some in Hp' as [[<- <-]|[Hne Hp']].
    + cbn in Hj. apply list_elem_of_filter in Hj as [Hoff Hj]. destruct (Hin phy p j Hp Hj) as (on & Hs & Ho).
      exists on. rewrite HS, Hs. cbn. by rewrite decide_False by tauto.
    + destruct (Hin phy' p' j Hp' Hj) as (on & Hs & Ho). rewrite HS, Hs. cbn. eexists. split; [done|].
      case_decide; [|done]. cbn. by rewrite lookup_delete_ne.
  - intros j on' phy' Hj Hphy. rewrite HS in Hj. apply fmap_Some in Hj as (on & Hj & ->).
    assert (on.1 !! phy' = Some ()) as Ho.
    { case_decide; [|done]. cbn in Hphy. by apply lookup_delete_Some in Hphy as [_ ?]. }
    destruct (Hon j on phy' Hj Ho) as (p' & Hp' & Hj'). destruct (decide (phy = phy')) as [<-|].
    + simplify_eq. eexists. split; [apply lookup_insert_eq|]. cbn. apply list_elem_of_filter. split; [|done].
      intros Hoff. rewrite decide_True in Hphy by done. cbn in Hphy. by rewrite lookup_delete_eq in Hphy.
    + exists p'. by rewrite lookup_insert_ne.
Qed.

Lemma Register_wf phy id w :
  air_wf w → is_Some (layers w !! phy) → is_Some (devices w !! id) → air_wf (Register phy id w).
Proof.
  intros Hwf [p Hp] [q Hq]. unfold air_wf, Register.
  rewrite registry_with_layers, registry_set_layers. cbn [fst snd].
  change (layers (set_layers id <[phy:=()]> w)) with (layers w). erewrite alter_Some by exact Hp.
  assert ((registry w).2 !! id = Some (phy_layers_ q, close_callback_ q)) as Hr by (cbn; by rewrite lookup_fmap, Hq).
  erewrite alter_Some by exact Hr. by apply placed_register.
Qed.

Lemma Unregister_wf phy id w : air_wf w → air_wf (Unregister phy id w).
Proof.
  intros Hwf. unfold Unregister. destruct (layers w !! phy) as [p|] eqn:Hp; [|done]. case_bool_decide as Hin; [|done].
  unfold air_wf.
  cbv zeta. rewrite registry_with_layers, registry_set_layers. cbn [fst snd].
  change (layers (set_layers id (delete phy) w)) with (layers w).
  apply (placed_remove (layers w) (registry w).2 _ phy p (λ j, j = id)); [done..|].
  intros j. destruct (decide (j = id)) as [->|Hj].
  - rewrite lookup_alter_eq. destruct ((registry w).2 !! id); [|done]. cbn. by rewrite decide_True.
  - rewrite lookup_alter_ne by done. destruct ((registry w).2 !! j); [|done]. cbn. rewrite decide_False; [done|naive_solver].
Qed.

Lemma layers_set_all ids phy w : layers (foldr (λ id, set_layers id (delete phy)) w ids) = layers w.
Proof. induction ids as [|id ids IH]; [done|]. exact IH. Qed.
Lemma sets_set_all ids phy w j :
  (registry (foldr (λ id, set_layers id (delete phy)) w ids)).2 !! j =
    (λ on, if decide (j ∈ ids) then (delete phy on.1, on.2) else on) <$> (registry w).2 !! j.
Proof.
  induction ids as [|id ids IH].
  { cbn [foldr]. destruct ((registry w).2 !! j) as [on|]; [|done]. cbn. rewrite decide_False; [done|apply not_elem_of_nil]. }
  cbn [foldr]. rewrite registry_set_layers. cbn [snd]. destruct (decide (j = id)) as [->|Hj].
  - rewrite lookup_alter_eq, IH. destruct ((registry w).2 !! id) as [[s c]|]; [|done]. cbn.
    rewrite (decide_True (P := id ∈ id :: ids)) by by left. case_decide; cbn; [|done]. by rewrite delete_delete_eq.
  - rewrite lookup_alter_ne, IH by done. destruct ((registry w).2 !! j); [|done]. cbn. f_equal.
    apply decide_ext. rewrite elem_of_cons. naive_solver.
Qed.
Lemma UnregisterAll_wf phy w : air_wf w → air_wf (UnregisterAll phy w).
Proof.
  intros Hwf. unfold UnregisterAll. destruct (layers w !! phy) as [p|] eqn:Hp; [|done].
  unfold air_wf. cbv zeta. rewrite registry_with_layers, layers_set_all. cbn [fst snd].
  replace (MkPhyLayer (phy_type p) []) with (MkPhyLayer (phy_type p) (filter (λ _, ¬ True) (phy_devices_ p))).
  2: { f_equal. induction (phy_devices_ p) as [|x l IH]; [done|]. by rewrite filter_cons_False by tauto. }
  apply (placed_remove (layers w) (registry w).2 _ phy p (λ _, True)); [done..|].
  intros j. rewrite sets_set_all. destruct ((registry w).2 !! j) as [on|]; [|done]. cbn. f_equal.
  apply decide_ext. naive_solver.
Qed.
End Registry.

(** ** What every device keeps *)

Section Kept.
Context {D M : Type} `{Device D, Scheduler M, IterationOrder}.
Context (P : D → Prop).
Implicit Types w : Air D M.

(** Whatever the device has become when it goes on. *)
Inductive keeps : Action D → Prop :=
| keeps_return d : P d → keeps (Return d)
| keeps_do e d k : P d → (∀ d', P d' → keeps (k d')) → keeps (Do e d k).

Definition all_devices w : Prop := ∀ id p, devices w !! id = Some p → P (device_ p).

Lemma all_devices_set id d w : P d → all_devices w → all_devices (set_device id d w).
Proof.
  intros Hd Hw j p Hp. unfold set_device in Hp. cbn in Hp.
  apply lookup_alter_Some in Hp as [(_ & q & _ & ->)|[_ Hp]]; [done|by eapply Hw].
Qed.
Lemma send_to_keeps receive sender ids w w' :
  (∀ id r w w', all_devices w → receive id r w = Ok w' → all_devices w') →
  all_devices w → send_to receive sender ids w = Ok w' → all_devices w'.
Proof.
  intros Hr. revert w. induction ids as [|id ids IH]; intros w Hw; [by intros [= <-]|]. cbn [send_to].
  intros (w1 & E & E')%bind_Ok. eapply IH; [|exact E']. case_bool_decide; [by injection E as <-|]. by eapply Hr; [|exact E].
Qed.
Lemma send_on_keeps (send : PhyLayer → Air D M → outcome (Air D M)) type phys w w' :
  (∀ l w w', all_devices w → send l w = Ok w' → all_devices w') →
  all_devices w → send_on send type phys w = Ok w' → all_devices w'.
Proof.
  intros Hs. revert w. induction phys as [|phy phys IH]; intros w Hw; [by intros [= <-]|]. cbn [send_on].
  intros (l & _ & (w1 & E & E')%bind_Ok)%bind_Ok. eapply IH; [|exact E'].
  case_bool_decide; [by eapply Hs|by injection E as <-].
Qed.

Context (Hreceive : ∀ view type r d, P d → keeps (ReceiveLinkLayerPacket view type r d)).
Context (Htick : ∀ d, P d → keeps (device_Tick d)).

Lemma run_keeps fuel id a w w' : keeps a → all_devices w → run fuel id a w = Ok w' → all_devices w'.
Proof.
  revert id a w w'. induction fuel as [|fuel IH]; intros id a w w' Ha Hw E; [done|]. cbn [run] in E.
  destruct Ha as [d Hd|e d k Hd Hk]; [injection E as <-; by apply all_devices_set|].
  apply bind_Ok in E as (p & _ & (w1 & E1 & (p1 & Hp1 & E)%bind_Ok)%bind_Ok).
  pose proof (all_devices_set id d w Hd Hw) as Hw0.
  assert (all_devices w1) as Hw1.
  { destruct e as [packet type tx|].
    - eapply send_on_keeps; [|exact Hw0|exact E1]. intros l w2 w2' Hw2 E2.
      eapply send_to_keeps; [|exact Hw2|exact E2]. intros j r w3 w3' Hw3 (q & Hq & E3)%bind_Ok.
      destruct (parse_view packet) as [view|]; [|by injection E3 as <-]. eapply IH; [|exact Hw3|exact E3].
      apply Hreceive. apply (Hw3 j). by destruct (devices w3 !! j); [injection Hq as ->|].
    - destruct (close_callback_ p); [|by injection E1 as <-]. destruct (schedule_task _ _ _ _). by injection E1 as <-. }
  eapply IH; [|exact Hw1|exact E]. apply Hk, (Hw1 id). by destruct (devices w1 !! id); [injection Hp1 as ->|].
Qed.
Lemma Ticks_keeps fuel ids w w' : all_devices w → Ticks fuel ids w = Ok w' → all_devices w'.
Proof.
  revert w. induction ids as [|id ids IH]; intros w Hw; [by intros [= <-]|]. cbn [Ticks].
  intros (w1 & (p & Hp & E)%bind_Ok & E')%bind_Ok. eapply IH; [|exact E']. eapply run_keeps; [|exact Hw|exact E].
  apply Htick, (Hw id). by destruct (devices w !! id); [injection Hp as ->|].
Qed.
End Kept.

(** ** What a packet reaches *)

Section Routing.
Context {D M : Type} `{Device D, Scheduler M, IterationOrder}.
(** Devices that take what they receive and do not answer. *)
Context (hear : View → PhyType → Z → D → D).
Context (Hquiet : ∀ view type r d, ReceiveLinkLayerPacket view type r d = Return (hear view type r d)).
Implicit Types w : Air D M.

(** The devices that receive a packet of the device [id], each as often and in the
    order in which it receives it. *)
Definition on_layer w (id : Z) (type : PhyType) (phy : Z) : list Z :=
  match layers w !! phy with
  | Some l => if bool_decide (phy_type l = type) then filter (λ j, id ≠ j) (phy_devices_ l) else []
  | None => []
  end.
Definition receivers w (id : Z) (type : PhyType) : list Z :=
  match devices w !! id with
  | Some p => concat (map (on_layer w id type) (map fst (iterate (phy_layers_ p))))
  | None => []
  end.

Definition deliver (view : View) (type : PhyType) w (j : Z) : Air D M :=
  let '(r, w) := ComputeRssi w in
  match devices w !! j with Some q => set_device j (hear view type r (device_ q)) w | None => w end.

Lemma ComputeRssi_range w : -127 ≤ fst (ComputeRssi w) ≤ 0.
Proof.
  cbn. pose proof (Z.mod_pos_bound (rssi w + 5) 128) as Hr.
  assert (forallb (λ r, (-127 <=? i8 (- r)) && (i8 (- r) <=? 0)) (seqZ 0 128) = true) as Hall by by vm_compute.
  rewrite forallb_forall in Hall. specialize (Hall ((rssi w + 5) mod 128)). apply andb_true_iff in Hall.
  - rewrite !Z.leb_le in Hall. lia.
  - apply list_elem_of_In, elem_of_seqZ. lia.
Qed.
Lemma registry_deliver view type w j : registry (deliver view type w j) = registry w.
Proof.
  unfold deliver. destruct (ComputeRssi w) as [r w1] eqn:E. injection E as <- <-. cbn [devices].
  match goal with |- context [match ?x with _ => _ end] => destruct x end; [|done]. by rewrite registry_set_device.
Qed.
Lemma registry_delivers view type l w : registry (foldl (deliver view type) w l) = registry w.
Proof. revert w. induction l as [|j l IH]; intros w; [done|]. cbn [foldl]. by rewrite IH, registry_deliver. Qed.

Lemma send_to_quiet fuel packet view type sender ids w :
  parse_view packet = Some view → (∀ j, j ∈ ids → is_Some (devices w !! j)) →
  send_to (λ j r w, Receive (S fuel) j packet type r w) sender ids w =
    Ok (foldl (deliver view type) w (filter (λ j, sender ≠ j) ids)).
Proof.
  intros Hv. revert w. induction ids as [|j ids IH]; intros w Hd; [done|]. cbn [send_to].
  assert (∀ w', registry w' = registry w → ∀ j', j' ∈ ids → is_Some (devices w' !! j')) as Hd'.
  { intros w' E j' Hj'. destruct (Hd j') as [q Hq]; [by right|].
    destruct (registry_device w w' j' q) as (q' & ? & _); [done..|]. by exists q'. }
  case_bool_decide as Hs.
  - rewrite filter_cons_False by tauto. apply IH. by apply Hd'.
  - rewrite filter_cons_True by done. cbn [foldl].
    assert ((let '(r, w) := ComputeRssi w in Receive (S fuel) j packet type r w) = Ok (deliver view type w j)) as ->.
    { destruct (Hd j) as [q Hq]; [by left|]. unfold deliver, ComputeRssi, Receive. cbn [devices].
      change (devices (w <| rssi := ?x |>)) with (devices w). rewrite Hq. cbn [unchecked mbind outcome_bind].
      rewrite Hv, Hquiet. done. }
    cbn [mbind outcome_bind]. apply IH. apply Hd'. apply registry_deliver.
Qed.

Lemma on_layer_registry w w' id type phy : registry w' = registry w → on_layer w' id type phy = on_layer w id type phy.
Proof. intros E. unfold on_layer. by rewrite (registry_layers _ _ E). Qed.

Lemma send_on_quiet fuel packet view type id phys w :
  parse_view packet = Some view →
  (∀ phy, phy ∈ phys → ∃ l, layers w !! phy = Some l ∧ ∀ j, j ∈ phy_devices_ l → is_Some (devices w !! j)) →
  send_on (phy_Send (S fuel) packet id) type phys w =
    Ok (foldl (deliver view type) w (concat (map (on_layer w id type) phys))).
Proof.
  intros Hv. revert w. induction phys as [|phy phys IH]; intros w Hphys; [done|].
  cbn [send_on map concat]. destruct (Hphys phy) as (l & Hl & Hj); [by left|].
  unfold on_layer at 1. rewrite Hl. cbn [unchecked mbind outcome_bind].
  assert (∀ w', registry w' = registry w → ∀ phy', phy' ∈ phys →
    ∃ l, layers w' !! phy' = Some l ∧ ∀ j, j ∈ phy_devices_ l → is_Some (devices w' !! j)) as Hphys'.
  { intros w' E phy' Hphy'. destruct (Hphys phy') as (l' & Hl' & Hj'); [by right|]. exists l'.
    rewrite (registry_layers _ _ E). split; [done|]. intros j Hjin. destruct (Hj' j Hjin) as [q Hq].
    destruct (registry_device w w' j q) as (q' & ? & _); [done..|]. by exists q'. }
  case_bool_decide as Ht.
  - unfold phy_Send. rewrite Ht, (send_to_quiet _ _ view) by done. cbn [mbind outcome_bind].
    rewrite foldl_app, IH by (apply Hphys', registry_delivers). do 3 f_equal. apply map_ext. intros phy'.
    apply on_layer_registry, registry_delivers.
  - by apply IH, Hphys'.
Qed.

Lemma Send_quiet fuel packet view type id w :
  air_wf w → is_Some (devices w !! id) → parse_view packet = Some view →
  Send (S fuel) id packet type w = Ok (foldl (deliver view type) w (receivers w id type)).
Proof.
  intros Hwf [p Hp] Hv. unfold Send, receivers. rewrite Hp. cbn [unchecked mbind outcome_bind].
  apply send_on_quiet; [done|]. by eapply device_layers.
Qed.

Lemma receivers_registry w w' id type : registry w' = registry w → receivers w' id type = receivers w id type.
Proof.
  intros E. unfold receivers. destruct (devices w !! id) as [p|] eqn:Hp.
  - destruct (registry_device w w' id p) as (p' & -> & -> & _); [done..|]. f_equal. apply map_ext. intros phy.
    by apply on_layer_registry.
  - pose proof (f_equal (λ r, r.2 !! id) E) as E'. cbn in E'. rewrite !lookup_fmap, Hp in E'.
    by destruct (devices w' !! id).
Qed.

(** What a device has heard after that. *)
Lemma delivers_heard view type l w j q :
  devices w !! j = Some q →
  ∃ rs, length rs = length (filter (λ i, i = j) l) ∧ Forall (λ r, -127 ≤ r ≤ 0) rs ∧
  devices (foldl (deliver view type) w l) !! j =
    Some (MkPhyDevice (foldl (λ d r, hear view type r d) (device_ q) rs) (phy_layers_ q) (close_callback_ q)).
Proof.
  revert w q. induction l as [|i l IH]; intros w q Hq.
  { exists []. repeat split; [constructor|]. cbn. rewrite Hq. by destruct q. }
  cbn [foldl]. destruct (decide (i = j)) as [->|Hij].
  - rewrite filter_cons_True by done. pose proof (ComputeRssi_range w) as Hr.
    destruct (IH (deliver view type w j)
      (MkPhyDevice (hear view type (fst (ComputeRssi w)) (device_ q)) (phy_layers_ q) (close_callback_ q)))
      as (rs & Hl & Hf & E).
    { unfold deliver, ComputeRssi. change (devices (w <| rssi := ?x |>)) with (devices w). rewrite Hq. by apply lookup_set_device. }
    exists (fst (ComputeRssi w) :: rs). split; [cbn [length]; by rewrite Hl|]. split; [by constructor|]. exact E.
  - rewrite filter_cons_False by done. apply IH. unfold deliver, ComputeRssi.
    change (devices (w <| rssi := ?x |>)) with (devices w). destruct (devices w !! i); [|done].
    by rewrite lookup_set_device_ne.
Qed.

(** The receivers, one by one. *)
Lemma elem_of_receivers w id type j :
  air_wf w →
  j ∈ receivers w id type ↔ j ≠ id ∧ ∃ phy l, layers w !! phy = Some l ∧ phy_type l = type ∧
    id ∈ phy_devices_ l ∧ j ∈ phy_devices_ l.
Proof.
  intros [Hin Hon]. unfold receivers. split.
  - destruct (devices w !! id) as [p|] eqn:Hp; [|by intros ?%elem_of_nil]. intros Hj.
    apply list_elem_of_In, in_concat in Hj as (l & Hl & Hj). apply in_map_iff in Hl as (phy & <- & Hphy).
    apply list_elem_of_In, elem_of_phys in Hphy. apply list_elem_of_In in Hj. unfold on_layer in Hj.
    destruct (layers w !! phy) as [l|] eqn:Hl; [|by apply elem_of_nil in Hj].
    case_bool_decide; [|by apply elem_of_nil in Hj]. apply list_elem_of_filter in Hj as [Hne Hj].
    split; [done|]. exists phy, l. split_and!; [done..| |done].
    destruct (Hon id (phy_layers_ p, close_callback_ p) phy) as (l' & Hl' & ?); [cbn; by rewrite lookup_fmap, Hp|done|].
    cbn in Hl'. by simplify_eq.
  - intros (Hne & phy & l & Hl & Ht & Hid & Hj). destruct (Hin phy l id Hl Hid) as (on & Hs & Ho).
    cbn in Hs. rewrite lookup_fmap in Hs. destruct (devices w !! id) as [p|]; [|done]. injection Hs as <-. cbn in Ho.
    apply list_elem_of_In, in_concat. exists (on_layer w id type phy). split.
    + apply in_map_iff. exists phy. split; [done|]. by apply list_elem_of_In, elem_of_phys.
    + apply list_elem_of_In. unfold on_layer. rewrite Hl, bool_decide_true by done. by apply list_elem_of_filter.
Qed.

(** C30. A packet that a device sends on a type of layer reaches the other devices on
    its layers of that type, and no one else: the call returns, each device has heard the packet
    as often as it is on such a layer, with a signal strength between -127 and 0 each time, and
    the sender, and every device that is on none of these layers, is as it was. *)
Theorem send_reaches (fuel : nat) (packet : list Z) (view : View) (type : PhyType) (id : Z) w
  (Hwf : air_wf w) (Hid : is_Some (devices w !! id)) (Hv : parse_view packet = Some view) :
  ∃ w', Send (S fuel) id packet type w = Ok w' ∧ registry w' = registry w ∧
  (∀ j, j ∈ receivers w id type ↔ j ≠ id ∧ ∃ phy l, layers w !! phy = Some l ∧ phy_type l = type ∧
     id ∈ phy_devices_ l ∧ j ∈ phy_devices_ l) ∧
  ∀ j q, devices w !! j = Some q → ∃ rs,
    length rs = length (filter (λ i, i = j) (receivers w id type)) ∧ Forall (λ r, -127 ≤ r ≤ 0) rs ∧
    devices w' !! j =
      Some (MkPhyDevice (foldl (λ d r, hear view type r d) (device_ q) rs) (phy_layers_ q) (close_callback_ q)).
Proof.
  exists (foldl (deliver view type) w (receivers w id type)). split; [by apply Send_quiet|].
  split; [apply registry_delivers|].
  split; [intros j; by apply elem_of_receivers|]. intros j q Hq. by apply delivers_heard.
Qed.
End Routing.

(** ** Examples *)

(** A device that keeps the signal strengths it hears, and sends one packet in a tick. *)
Definition example_hear (view : list Z) (type : PhyType) (r : Z) (d : Address * list Z) : Address * list Z :=
  (d.1, d.2 ++ [r]).
#[export] Instance example_device : Device (Address * list Z) := {|
  View := list Z;
  parse_view packet := if bool_decide (packet = []) then None else Some packet;
  ReceiveLinkLayerPacket view type r d := Return (example_hear view type r d);
  device_Tick d := Do (SendLinkLayerPacket [1] LOW_ENERGY 0) d Return;
  GetTypeString _ := [];
  device_address := fst;
  set_device_address a d := (a, d.2);
|}.
(** A task manager that numbers its users and tasks. *)
#[export] Instance example_scheduler : Scheduler Z := {|
  get_user_id n := (n, n + 1);
  schedule_task _ _ _ n := (n, n + 1);
  schedule_periodic_task _ _ _ _ n := (n, n + 1);
  cancel_task _ n := n;
  cancel_tasks_from_user _ n := n;
|}.
(** Two devices on a layer. *)
Definition two_on_air {D M : Type} (type : PhyType) (d0 d1 : D) (s : M) : Air D M :=
  Register 0 1 (Register 0 0
    (MkAir {[0 := MkPhyLayer type []]} (<[0 := MkPhyDevice d0 ∅ None]> {[1 := MkPhyDevice d1 ∅ None]}) 0 s)).
Lemma two_on_air_wf {D M : Type} type (d0 d1 : D) (s : M) : air_wf (two_on_air type d0 d1 s).
Proof.
  apply Register_wf; [apply Register_wf|..].
  - split; intros *; cbn.
    + intros [<- <-]%lookup_singleton_Some. by intros ?%elem_of_nil.
    + rewrite fmap_insert, map_fmap_singleton.
      intros [[<- <-]|[_ [<- <-]%lookup_singleton_Some]]%lookup_insert_Some; cbn; by intros ?%lookup_empty_Some.
  - by eexists.
  - by eexists.
  - by eexists.
  - by eexists.
Qed.
Definition example_air : Air (Address * list Z) Z := two_on_air LOW_ENERGY (kEmpty, []) (kAny, []) 1.
Lemma send_reaches_witness :
  let H := key_order in
  ∃ w', Send 1 0 [1] LOW_ENERGY example_air = Ok w' ∧ registry w' = registry example_air ∧
  (∀ j, j ∈ receivers example_air 0 LOW_ENERGY ↔ j ≠ 0 ∧ ∃ phy l, layers example_air !! phy = Some l ∧
     phy_type l = LOW_ENERGY ∧ 0 ∈ phy_devices_ l ∧ j ∈ phy_devices_ l) ∧
  ∀ j q, devices example_air !! j = Some q → ∃ rs,
    length rs = length (filter (λ i, i = j) (receivers example_air 0 LOW_ENERGY)) ∧ Forall (λ r, -127 ≤ r ≤ 0) rs ∧
    devices w' !! j =
      Some (MkPhyDevice (foldl (λ d r, example_hear [1] LOW_ENERGY r d) (device_ q) rs) (phy_layers_ q) (close_callback_ q)).
Proof.
  intros H.
  apply (@send_reaches _ _ example_device example_scheduler key_order example_hear (λ _ _ _ _, eq_refl)
    0 [1] [1] LOW_ENERGY 0 example_air).
  - apply two_on_air_wf.
  - by eexists.
  - reflexivity.
Defined.

(** What the other device of the layer hears; the sender hears nothing. *)
Example send_example :
  let H := key_order in
  (λ w, (device_ <$> devices w !! 0, device_ <$> devices w !! 1)) <$> Tick 2 0 example_air =
    Ok (Some (kEmpty, []), Some (kAny, [-5])).
Proof. vm_compute. reflexivity. Qed.

(** A device that is put on a layer a second time hears every packet twice. *)
Example registered_twice :
  let H := key_order in
  (λ w, device_ <$> devices w !! 1) <$> Tick 2 0 (Register 0 1 example_air) = Ok (Some (kAny, [-5; -10])).
Proof. vm_compute. reflexivity. Qed.
