(* ===== verification/TestModel.v ===== *)
(** * The test model (model/setup/test_model.cc, test_model.h)

    [TestModel] holds the devices and the physical layers and says which device is where;
    it gives HCI devices their addresses and ticks the devices. *)

From Stdlib Require Import Ascii String.
From stdpp Require Import pretty.
From S2P Require Import Prelude Address PhyLayer.

Definition kInvalidTaskId : Z := 0.

(** [next_id] and [instance_counter] are static variables: of [AddPhy], and of the
    constructor of a device, which takes its identifier before it is added. *)
Record TestModel (D M : Type) := MkTestModel {
  air : Air D M;
  phy_devices_ : gset Z;
  reuse_device_addresses_ : bool;
  bluetooth_address_prefix_ : Z * Z * Z * Z;
  model_user_id_ : Z;
  timer_tick_task_ : Z;
  timer_period_ : Z;
  next_id : Z;
  instance_counter : Z;
}.
Arguments MkTestModel {D M}. Arguments air {D M}. Arguments phy_devices_ {D M}.
Arguments reuse_device_addresses_ {D M}. Arguments bluetooth_address_prefix_ {D M}. Arguments model_user_id_ {D M}.
Arguments timer_tick_task_ {D M}. Arguments timer_period_ {D M}. Arguments next_id {D M}. Arguments instance_counter {D M}.

#[export] Instance test_model_rebuild {D M} : Rebuild (TestModel D M) := λ m,
  MkTestModel (air m) (phy_devices_ m) (reuse_device_addresses_ m) (bluetooth_address_prefix_ m) (model_user_id_ m)
    (timer_tick_task_ m) (timer_period_ m) (next_id m) (instance_counter m).

Section TestModel.
Context {D M : Type} `{Device D, Scheduler M, IterationOrder}.
(** [Device::SetProperties] of a controller device, from the preset of a configuration. *)
Context {Configuration : Type} (SetProperties : Configuration → D → D).
(** The connection that [AddRemote] makes is the environment's: the device, if there is one. *)
Context (connect_to_remote_ : list ascii → Z → PhyType → option D).
Notation Model := (TestModel D M).
Implicit Types m : Model.

Definition has_device m (id : Z) : bool := bool_decide (id ∈ phy_devices_ m).
Definition has_phy m (phy : Z) : bool := has_value (layers (air m) !! phy).

(** The constructor [Device()]: its identifier. *)
Definition next_instance_id m : Z * Model := (instance_counter m, m <| instance_counter ::= λ n, u32 (n + 1) |>).

Definition SetReuseDeviceAddresses (reuse : bool) m : Model := m <| reuse_device_addresses_ := reuse |>.

(** *** Devices and layers *)

Definition on_air (f : Air D M → Air D M) m : Model := m <| air ::= f |>.
Definition on_scheduler {A} (f : M → A * M) m : A * Model :=
  let '(a, s) := f (scheduler (air m)) in (a, on_air (λ w, w <| scheduler := s |>) m).

(** A [PhyDevice] for a new device. *)
Definition AddDevice (id : Z) (d : D) m : Model :=
  let m := on_air (λ w, w <| devices ::= <[id := MkPhyDevice d ∅ None]> |>) m in
  m <| phy_devices_ ::= union {[id]} |>.
Definition RemoveDevice (device_id : Z) m : Model :=
  let m := on_air (λ w, foldl (λ w phy, Unregister phy device_id w) w (ascending (dom (layers w)))) m in
  m <| phy_devices_ ::= λ s, s ∖ {[device_id]} |>.
Definition AddPhy (type : PhyType) m : Z * Model :=
  let id := next_id m in
  let m := on_air (λ w, w <| layers ::= <[id := MkPhyLayer type []]> |>) m in
  (id, m <| next_id ::= λ n, u32 (n + 1) |>).
Definition RemovePhy (phy_id : Z) m : Model :=
  if has_phy m phy_id
  then on_air (λ w, let w := UnregisterAll phy_id w in w <| layers ::= delete phy_id |>) m
  else m.
Definition AddDeviceToPhy (device_id phy_id : Z) m : Model :=
  if has_phy m phy_id && has_device m device_id then on_air (Register phy_id device_id) m else m.
Definition RemoveDeviceFromPhy (device_id phy_id : Z) m : Model :=
  if has_phy m phy_id then on_air (Unregister phy_id device_id) m else m.

(** *** Addresses *)

Definition GetAddress m (id : Z) : option Address := (λ p, device_address (device_ p)) <$> devices (air m) !! id.
Definition is_used m (address : Address) : bool :=
  existsb (λ id, bool_decide (GetAddress m id = Some address)) (ascending (phy_devices_ m)).
Definition numbered_address m (n : Z) : Address :=
  let '(p0, p1, p2, p3) := bluetooth_address_prefix_ m in
  MkAddress (u8 n) (u8 (Z.shiftr n 8)) p3 p2 p1 p0.
(** The loop over [b0], a [uint16_t] that is never above 0xffff. *)
Fixpoint first_unused (fuel : nat) (b0 : Z) m : outcome Address :=
  match fuel with
  | O => Hang
  | S fuel =>
      let address := numbered_address m b0 in
      if negb (is_used m address) then Ok address else first_unused fuel (u16 (b0 + 1)) m
  end.
Definition GenerateBluetoothAddress (device_id : Z) m : outcome Address :=
  if reuse_device_addresses_ m then first_unused (Z.to_nat 65536) 0 m else Ok (numbered_address m device_id).

Definition SetDeviceAddress (device_id : Z) (address : Address) m : Model :=
  if has_device m device_id
  then on_air (λ w, w <| devices ::= alter (λ p,
         MkPhyDevice (set_device_address address (device_ p)) (phy_layers_ p) (close_callback_ p)) device_id |>) m
  else m.
Definition hci_device : list ascii := text_of_string "hci_device".
Definition SetDeviceConfiguration (device_id : Z) (configuration : Configuration) m : Model :=
  if has_device m device_id
  then on_air (λ w, w <| devices ::= alter (λ p,
         if bool_decide (GetTypeString (device_ p) = hci_device)
         then MkPhyDevice (SetProperties configuration (device_ p)) (phy_layers_ p) (close_callback_ p)
         else p) device_id |>) m
  else m.

(** *** Connections *)

Definition RegisterCloseCallback (device_id user_id : Z) m : Model :=
  on_air (λ w, w <| devices ::= alter (λ p, MkPhyDevice (device_ p) (phy_layers_ p) (Some user_id)) device_id |>) m.
(** The loops that register a new device on the layers. *)
Definition register_on (phys : list Z) (device_id : Z) m : Model :=
  on_air (λ w, foldl (λ w phy, Register phy device_id w) w phys) m.
Definition phys_of_type (type : PhyType) m : list Z :=
  filter (λ phy, (phy_type <$> layers (air m) !! phy) = Some type) (ascending (dom (layers (air m)))).

Definition AddLinkLayerConnection (device_id : Z) (d : D) (type : PhyType) m : Model :=
  let m := AddDevice device_id d m in
  let m := register_on (phys_of_type type m) device_id m in
  let '(user_id, m) := on_scheduler get_user_id m in
  RegisterCloseCallback device_id user_id m.
Definition AddRemote (server : list ascii) (port : Z) (type : PhyType) m : Model :=
  match connect_to_remote_ server port type with
  | None => m
  | Some d => let '(id, m) := next_instance_id m in AddLinkLayerConnection id d type m
  end.
(** The argument of [value_or] is computed in any case. *)
Definition AddHciConnection (device_id : Z) (d : D) (address : option Address) m : outcome (Z * Model) :=
  generated ← GenerateBluetoothAddress device_id m;
  let m := AddDevice device_id (set_device_address (default generated address) d) m in
  let m := register_on (ascending (dom (layers (air m)))) device_id m in
  let '(user_id, m) := on_scheduler get_user_id m in
  Ok (device_id, RegisterCloseCallback device_id user_id m).
Definition OnConnectionClosed (device_id user_id : Z) m : Model :=
  if has_device m device_id
  then
    let m := on_air (λ w, w <| scheduler ::= cancel_tasks_from_user user_id |>) m in
    RemoveDevice device_id m
  else m.

(** *** Time *)

Definition StartTimer m : Model :=
  let '(id, m) := on_scheduler (schedule_periodic_task (model_user_id_ m) 0 (timer_period_ m) TickTask) m in
  m <| timer_tick_task_ := id |>.
Definition StopTimer m : Model :=
  let m := on_air (λ w, w <| scheduler ::= cancel_task (timer_tick_task_ m) |>) m in
  m <| timer_tick_task_ := kInvalidTaskId |>.
Definition SetTimerPeriod (new_period : Z) m : Model :=
  let m := m <| timer_period_ := new_period |> in
  if timer_tick_task_ m =? kInvalidTaskId then m else StartTimer (StopTimer m).
Definition Tick (fuel : nat) m : outcome Model :=
  w ← Ticks fuel (ascending (phy_devices_ m)) (air m);
  Ok (m <| air := w |>).
Definition Reset m : Model :=
  let m := StopTimer m in
  snd (on_scheduler (schedule_task (model_user_id_ m) 0 ResetTask) m).
(** The task of [Reset]. *)
Definition run_reset m : Model :=
  let m := on_air (λ w, foldl (λ w phy, UnregisterAll phy w) w (ascending (dom (layers w)))) m in
  m <| phy_devices_ := ∅ |>.
Definition run_task (fuel : nat) (t : Task) m : outcome Model :=
  match t with
  | TickTask => Tick fuel m
  | ConnectionClosedTask device_id user_id => Ok (OnConnectionClosed device_id user_id m)
  | ResetTask => Ok (run_reset m)
  end.

(** *** The list of it all *)

Definition number (n : Z) : list ascii := text_of_string (pretty n).
Definition type_name (type : PhyType) : list ascii :=
  match type with LOW_ENERGY => text_of_string "LOW_ENERGY: " | BR_EDR => text_of_string "BR_EDR: " end.
Definition device_ToString (d : D) : list ascii := GetTypeString d ++ text_of_string "@" ++ ToString (device_address d).
Definition phy_ToString (l : PhyLayer) : list ascii :=
  type_name (phy_type l) ++ concat (map (λ id, number id ++ text_of_string ",") (PhyLayer.phy_devices_ l)).
Definition crlf : list ascii := ["013"%char; "010"%char].
Definition List m : list ascii :=
  text_of_string " Devices: " ++ crlf ++
  concat (map (λ id, text_of_string "  " ++ number id ++ text_of_string ":" ++
    from_option (λ p, device_ToString (device_ p)) [] (devices (air m) !! id) ++ text_of_string " " ++ crlf)
    (ascending (phy_devices_ m))) ++
  text_of_string " Phys: " ++ crlf ++
  concat (map (λ phy, text_of_string "  " ++ number phy ++ text_of_string ":" ++
    from_option phy_ToString [] (layers (air m) !! phy) ++ text_of_string " " ++ crlf)
    (ascending (dom (layers (air m))))).
End TestModel.

(** The constructor. *)
Definition new_model {D M} `{Scheduler M} (s : M) (prefix : Z * Z * Z * Z) : TestModel D M :=
  let '(user_id, s) := get_user_id s in
  MkTestModel (MkAir ∅ ∅ 0 s) ∅ true prefix user_id kInvalidTaskId 0 0 0.

(** ** Who may be where *)

Section Invariant.
Context {D M : Type} `{Device D, Scheduler M, IterationOrder}.
Context {Configuration : Type} (SetProperties : Configuration → D → D).
Context (connect_to_remote_ : list ascii → Z → PhyType → option D).
Notation Model := (TestModel D M).
Implicit Types (m : Model) (w : Air D M).


(** Calls that neither make nor drop layers and devices. *)
Definition same_things w w' : Prop :=
  dom (layers w') = dom (layers w) ∧ dom (devices w') = dom (devices w).
(** Only devices of a set are on the layers. *)
Definition only w (ids : gset Z) : Prop :=
  ∀ phy l id, layers w !! phy = Some l → id ∈ PhyLayer.phy_devices_ l → id ∈ ids.

Lemma Register_same phy id w : same_things w (Register phy id w).
Proof. split; [apply dom_alter_L|apply dom_alter_L]. Qed.
Lemma Unregister_same phy id w : same_things w (Unregister phy id w).
Proof.
  unfold Unregister. destruct (layers w !! phy) eqn:Hp; [|done]. case_bool_decide; [|done].
  split; [|apply dom_alter_L]. cbn. rewrite dom_insert_L. apply elem_of_dom_2 in Hp. set_solver.
Qed.
Lemma UnregisterAll_same phy w : same_things w (UnregisterAll phy w).
Proof.
  unfold UnregisterAll. destruct (layers w !! phy) as [p|] eqn:Hp; [|done]. split.
  - cbn. rewrite layers_set_all, dom_insert_L. apply elem_of_dom_2 in Hp. set_solver.
  - cbn. induction (PhyLayer.phy_devices_ p) as [|id ids IH]; [done|]. cbn. by rewrite dom_alter_L.
Qed.

Lemma Register_only phy id w ids : only w ids → id ∈ ids → only (Register phy id w) ids.
Proof.
  intros Ho Hid phy' l j Hl Hj. unfold Register in Hl. cbn in Hl. apply lookup_alter_Some in Hl as [(-> & l' & Hl' & ->)|[_ Hl]].
  - cbn in Hj. apply elem_of_app in Hj as [Hj|Hj%list_elem_of_singleton]; [by eapply Ho|by subst].
  - by eapply Ho.
Qed.
(** What is on a layer after a device, or all, was taken off: less. *)
Lemma Unregister_lookup phy id w phy' :
  layers (Unregister phy id w) !! phy' =
    (λ l, if decide (phy = phy') then MkPhyLayer (phy_type l) (filter (.≠ id) (PhyLayer.phy_devices_ l)) else l)
    <$> layers w !! phy'.
Proof.
  unfold Unregister. destruct (layers w !! phy) as [p|] eqn:Hp.
  - case_bool_decide as Hin; cbn.
    + destruct (decide (phy = phy')) as [<-|]; [by rewrite lookup_insert_eq, Hp|].
      rewrite lookup_insert_ne by done. by destruct (layers w !! phy').
    + destruct (decide (phy = phy')) as [<-|]; [|by destruct (layers w !! phy')]. rewrite Hp. cbn. do 2 f_equal.
      destruct p as [ty l]. cbn in *. f_equal. clear Hp. induction l as [|x l IH]; [done|].
      apply not_elem_of_cons in Hin as [Hx Hin]. rewrite filter_cons_True by done. by rewrite <-IH.
  - destruct (decide (phy = phy')) as [<-|]; [by rewrite Hp|by destruct (layers w !! phy')].
Qed.
Lemma UnregisterAll_lookup phy w phy' :
  layers (UnregisterAll phy w) !! phy' =
    (λ l, if decide (phy = phy') then MkPhyLayer (phy_type l) [] else l) <$> layers w !! phy'.
Proof.
  unfold UnregisterAll. destruct (layers w !! phy) as [p|] eqn:Hp.
  - cbn. rewrite layers_set_all. destruct (decide (phy = phy')) as [<-|]; [by rewrite lookup_insert_eq, Hp|].
    rewrite lookup_insert_ne by done. by destruct (layers w !! phy').
  - destruct (decide (phy = phy')) as [<-|]; [by rewrite Hp|by destruct (layers w !! phy')].
Qed.
Lemma Unregister_only phy id w ids : only w ids → only (Unregister phy id w) ids.
Proof.
  intros Ho phy' l j Hl Hj. rewrite Unregister_lookup in Hl. apply fmap_Some in Hl as (l' & Hl' & ->).
  case_decide; [|by eapply Ho]. cbn in Hj. apply list_elem_of_filter in Hj as [_ Hj]. by eapply Ho.
Qed.
Lemma UnregisterAll_only phy w ids : only w ids → only (UnregisterAll phy w) ids.
Proof.
  intros Ho phy' l j Hl Hj. rewrite UnregisterAll_lookup in Hl. apply fmap_Some in Hl as (l' & Hl' & ->).
  case_decide; [|by eapply Ho]. cbn in Hj. by apply elem_of_nil in Hj.
Qed.

(** The loops over the layers. *)
Lemma foldl_same (f : Air D M → Z → Air D M) phys w :
  (∀ w phy, same_things w (f w phy)) → same_things w (foldl f w phys).
Proof.
  intros Hf. revert w. induction phys as [|phy phys IH]; intros w; [done|]. cbn.
  destruct (IH (f w phy)) as [E1 E2]. unfold same_things. rewrite E1, E2. apply Hf.
Qed.
Lemma foldl_inv (P : Air D M → Prop) (f : Air D M → Z → Air D M) phys w :
  (∀ w phy, P w → P (f w phy)) → P w → P (foldl f w phys).
Proof. intros Hf. revert w. induction phys as [|phy phys IH]; intros w Hw; [done|]. apply IH, Hf, Hw. Qed.
Lemma unregister_all_layers id phys w phy l :
  layers (foldl (λ w phy, Unregister phy id w) w phys) !! phy = Some l → phy ∈ phys → id ∉ PhyLayer.phy_devices_ l.
Proof.
  revert w. induction phys as [|phy' phys IH]; intros w Hl Hin; [by apply elem_of_nil in Hin|]. cbn in Hl.
  destruct (decide (phy ∈ phys)) as [Hin'|Hnin]; [by eapply IH|].
  apply elem_of_cons in Hin as [->|Hin]; [|done]. clear IH.
  assert (∀ w, (∀ l, layers w !! phy' = Some l → id ∉ PhyLayer.phy_devices_ l) →
    ∀ l, layers (foldl (λ w phy, Unregister phy id w) w phys) !! phy' = Some l → id ∉ PhyLayer.phy_devices_ l) as Hkeep.
  { clear. induction phys as [|x phys IH]; intros w Hw l Hl; [by apply Hw|]. apply (IH (Unregister x id w)); [|done].
    intros l' Hl' Hid. rewrite Unregister_lookup in Hl'. apply fmap_Some in Hl' as (l0 & Hl0 & ->).
    apply (Hw l0 Hl0). case_decide; [|done]. cbn in Hid. by apply list_elem_of_filter in Hid as [_ Hid]. }
  apply (Hkeep (Unregister phy' id w)); [|done]. intros l' Hl'. rewrite Unregister_lookup in Hl'.
  apply fmap_Some in Hl' as (l0 & _ & ->). rewrite decide_True by done. cbn. intros [Hne _]%list_elem_of_filter. done.
Qed.

(** The invariant of the model. *)
Record model_wf m : Prop := {
  wf_air : air_wf (air m);
  wf_only : only (air m) (phy_devices_ m);
  wf_devices : phy_devices_ m ⊆ dom (devices (air m));
  wf_ids : ∀ id, id ∈ dom (devices (air m)) → 0 ≤ id < instance_counter m;
  wf_phys : ∀ phy, phy ∈ dom (layers (air m)) → 0 ≤ phy < next_id m;
  wf_counters : 0 ≤ instance_counter m ∧ 0 ≤ next_id m;
}.

(** Calls on the air that keep the things. *)
Lemma on_air_wf (f : Air D M → Air D M) m :
  model_wf m → same_things (air m) (f (air m)) → air_wf (f (air m)) → only (f (air m)) (phy_devices_ m) →
  model_wf (on_air f m).
Proof.
  intros [Ha Ho Hd Hi Hp Hc] [Hl Hv] Ha' Ho'. split; try done; cbn; by rewrite ?Hl, ?Hv.
Qed.
(** A change of the devices themselves, of the scheduler and of the signal strength. *)
Lemma on_air_registry (f : Air D M → Air D M) m :
  model_wf m → registry (f (air m)) = registry (air m) → model_wf (on_air f m).
Proof.
  intros Hm E. apply on_air_wf; [done| |by eapply air_wf_registry, Hm|].
  - split; [by rewrite (registry_layers _ _ E)|].
    apply (f_equal (λ r, dom r.2)) in E. cbn in E. by rewrite !dom_fmap_L in E.
  - intros phy l id. rewrite (registry_layers _ _ E). apply Hm.
Qed.

Lemma next_instance_id_wf m :
  model_wf m → instance_counter m < 2 ^ 32 - 1 →
  model_wf (snd (next_instance_id m)) ∧ instance_counter (snd (next_instance_id m)) = instance_counter m + 1.
Proof.
  intros [Ha Ho Hd Hi Hp Hc] Hb.
  assert (instance_counter (snd (next_instance_id m)) = instance_counter m + 1) as E.
  { cbn. apply wrap_id. unfold fits. lia. }
  split; [|done]. split; try done; rewrite ?E; [|split; [lia|apply Hc]]. intros id Hid. specialize (Hi id Hid). lia.
Qed.

Lemma placed_add L S id : placed L S → S !! id = None → placed L (<[id := (∅, None)]> S).
Proof.
  intros [Hin Hon] Hid. split.
  - intros phy p j Hp Hj. destruct (Hin phy p j Hp Hj) as (on & Hs & Ho). exists on.
    by rewrite lookup_insert_ne by (by intros ->; rewrite Hid in Hs).
  - intros j on phy Hj Ho. apply lookup_insert_Some in Hj as [[<- <-]|[_ Hj]]; [cbn in Ho; by rewrite lookup_empty in Ho|by eapply Hon].
Qed.
Lemma placed_close L S id c : placed L S → placed L (alter (λ on, (on.1, c)) id S).
Proof.
  intros [Hin Hon]. split.
  - intros phy p j Hp Hj. destruct (Hin phy p j Hp Hj) as (on & Hs & Ho). destruct (decide (id = j)) as [->|].
    + exists (on.1, c). by rewrite lookup_alter_eq, Hs.
    + exists on. by rewrite lookup_alter_ne.
  - intros j on phy Hj Ho. apply lookup_alter_Some in Hj as [(-> & on' & Hj & ->)|[_ Hj]]; by eapply Hon.
Qed.
Lemma placed_new_layer L S phy type : placed L S → L !! phy = None → placed (<[phy := MkPhyLayer type []]> L) S.
Proof.
  intros [Hin Hon] Hphy. split.
  - intros phy' p j Hp Hj. apply lookup_insert_Some in Hp as [[<- <-]|[_ Hp]]; [by apply elem_of_nil in Hj|by eapply Hin].
  - intros j on phy' Hj Ho. destruct (Hon j on phy' Hj Ho) as (p & Hp & ?). exists p.
    by rewrite lookup_insert_ne by (by intros <-; rewrite Hphy in Hp).
Qed.
Lemma placed_drop_layer L S phy p :
  placed L S → L !! phy = Some p → PhyLayer.phy_devices_ p = [] → placed (delete phy L) S.
Proof.
  intros [Hin Hon] Hp Hnil. split.
  - intros phy' p' j Hp' Hj. apply lookup_delete_Some in Hp' as [_ Hp']. by eapply Hin.
  - intros j on phy' Hj Ho. destruct (Hon j on phy' Hj Ho) as (p' & Hp' & Hj'). exists p'.
    rewrite lookup_delete_ne; [done|]. intros <-. simplify_eq. rewrite Hnil in Hj'. by apply elem_of_nil in Hj'.
Qed.

(** A device whose identifier was taken from the counter. *)
Lemma AddDevice_wf m d :
  model_wf m → instance_counter m < 2 ^ 32 - 1 →
  model_wf (AddDevice (instance_counter m) d (snd (next_instance_id m))).
Proof.
  intros Hm Hb. destruct (next_instance_id_wf m Hm Hb) as [_ E]. destruct Hm as [Ha Ho Hd Hi Hp Hc].
  set (id := instance_counter m) in *.
  assert (id ∉ dom (devices (air m))) as Hfresh by (intros Hid%Hi; lia).
  split; cbn in *; rewrite ?E.
  - unfold air_wf, registry. cbn. rewrite fmap_insert. cbn. apply placed_add; [exact Ha|].
    apply not_elem_of_dom in Hfresh. cbn. by rewrite lookup_fmap, Hfresh.
  - intros phy l j Hl Hj. specialize (Ho phy l j Hl Hj). set_solver.
  - rewrite dom_insert_L. set_solver.
  - intros j. rewrite dom_insert_L. intros [->%elem_of_singleton|Hj%Hi]%elem_of_union; unfold id; lia.
  - exact Hp.
  - unfold id. lia.
Qed.
Lemma AddPhy_wf m type :
  model_wf m → next_id m < 2 ^ 32 - 1 → model_wf (snd (AddPhy type m)).
Proof.
  intros [Ha Ho Hd Hi Hp Hc] Hb. assert (u32 (next_id m + 1) = next_id m + 1) as E by (apply wrap_id; unfold fits; lia).
  assert (next_id m ∉ dom (layers (air m))) as Hfresh by (intros Hid%Hp; lia).
  split; cbn in *; rewrite ?E.
  - apply placed_new_layer; [exact Ha|by apply not_elem_of_dom].
  - intros phy l j Hl Hj. cbn in Hl. apply lookup_insert_Some in Hl as [[_ <-]|[_ Hl]]; [by apply elem_of_nil in Hj|by eapply Ho].
  - exact Hd.
  - exact Hi.
  - intros phy. rewrite dom_insert_L. intros [->%elem_of_singleton|Hj%Hp]%elem_of_union; lia.
  - lia.
Qed.
Lemma RemovePhy_wf m phy : model_wf m → model_wf (RemovePhy phy m).
Proof.
  intros Hm. unfold RemovePhy, has_phy. destruct (layers (air m) !! phy) as [p|] eqn:Hphy; [|done]. cbn [has_value].
  pose proof (UnregisterAll_wf phy (air m) (wf_air m Hm)) as Hw.
  pose proof (UnregisterAll_same phy (air m)) as [Hl Hv].
  pose proof (UnregisterAll_only phy (air m) _ (wf_only m Hm)) as Ho.
  pose proof (UnregisterAll_lookup phy (air m) phy) as Hlook. rewrite Hphy in Hlook. cbn in Hlook.
  rewrite decide_True in Hlook by done.
  set (w := UnregisterAll phy (air m)) in *. destruct Hm as [_ _ Hd Hi Hp Hc].
  split; cbn; fold w; rewrite ?Hv; try done.
  - exact (placed_drop_layer _ _ _ _ Hw Hlook eq_refl).
  - intros phy' l j Hl' Hj. cbn in Hl'. apply lookup_delete_Some in Hl' as [_ Hl']. by eapply Ho.
  - intros phy'. rewrite dom_delete_L, Hl. intros [Hphy' _]%elem_of_difference. by apply Hp.
Qed.
Lemma AddDeviceToPhy_wf m id phy : model_wf m → model_wf (AddDeviceToPhy id phy m).
Proof.
  intros Hm. unfold AddDeviceToPhy, has_phy, has_device. destruct (layers (air m) !! phy) eqn:Hphy; [|done].
  case_bool_decide as Hid; [|done]. cbn. apply on_air_wf; [done|apply Register_same| |].
  - apply Register_wf; [apply Hm|by eexists|]. apply elem_of_dom. by apply Hm.
  - apply Register_only; [apply Hm|done].
Qed.
Lemma RemoveDeviceFromPhy_wf m id phy : model_wf m → model_wf (RemoveDeviceFromPhy id phy m).
Proof.
  intros Hm. unfold RemoveDeviceFromPhy. destruct (has_phy m phy); [|done].
  apply on_air_wf; [done|apply Unregister_same|apply Unregister_wf, Hm|apply Unregister_only, Hm].
Qed.
Lemma register_on_wf m phys id :
  model_wf m → id ∈ phy_devices_ m → (∀ phy, phy ∈ phys → phy ∈ dom (layers (air m))) → model_wf (register_on phys id m).
Proof.
  intros Hm Hid Hphys.
  assert (∀ phys w, (∀ phy, phy ∈ phys → phy ∈ dom (layers w)) → id ∈ dom (devices w) → air_wf w → only w (phy_devices_ m) →
    air_wf (foldl (λ w phy, Register phy id w) w phys) ∧ only (foldl (λ w phy, Register phy id w) w phys) (phy_devices_ m)) as Hall.
  { clear phys Hphys. induction phys as [|phy phys IH]; intros w Hphys Hd Ha Ho; [done|]. cbn.
    destruct (Register_same phy id w) as [El Ed]. apply IH.
    - intros phy' Hphy'. rewrite El. apply Hphys. by right.
    - by rewrite Ed.
    - apply Register_wf; [done|apply elem_of_dom, Hphys; by left|by apply elem_of_dom].
    - by apply Register_only. }
  destruct (Hall phys (air m)) as [Ha Ho]; [done|by apply Hm|apply Hm|apply Hm|].
  apply on_air_wf; [done|apply foldl_same; intros; apply Register_same|done|done].
Qed.
Lemma RegisterCloseCallback_wf m id user : model_wf m → model_wf (RegisterCloseCallback id user m).
Proof.
  intros Hm. apply on_air_wf; [done|by split; [|apply dom_alter_L]| |intros phy l j; apply Hm].
  unfold air_wf, registry. cbn.
  replace (_ <$> alter _ id (devices (air m))) with (alter (λ on, (on.1, Some user)) id (registry (air m)).2).
  - apply placed_close, Hm.
  - cbn. apply map_eq. intros j. rewrite lookup_fmap. destruct (decide (j = id)) as [->|].
    + rewrite !lookup_alter_eq, lookup_fmap. by destruct (devices (air m) !! id).
    + by rewrite !lookup_alter_ne, lookup_fmap by done.
Qed.
Lemma RemoveDevice_wf m id : model_wf m → model_wf (RemoveDevice id m).
Proof.
  intros Hm. unfold RemoveDevice. set (f := λ w, foldl (λ w phy, Unregister phy id w) w (ascending (dom (layers w)))).
  assert (same_things (air m) (f (air m))) as Hs by (apply foldl_same; intros; apply Unregister_same).
  assert (model_wf (on_air f m)) as Hm'.
  { apply on_air_wf; [done..| |].
    - apply foldl_inv; [intros; by apply Unregister_wf|apply Hm].
    - apply (foldl_inv (λ w, only w (phy_devices_ m))); [intros; by apply Unregister_only|apply Hm]. }
  destruct Hm' as [Ha Ho Hd Hi Hp Hc]. split; try done.
  - intros phy l j Hl Hj. cbn. apply elem_of_difference. split; [by eapply Ho|]. intros ->%elem_of_singleton.
    eapply unregister_all_layers; [exact Hl| |exact Hj]. apply elem_of_ascending.
    destruct Hs as [<- _]. by eapply elem_of_dom_2.
  - cbn. clear -Hd. cbn in Hd. set_solver.
Qed.
Lemma run_reset_wf m : model_wf m → model_wf (run_reset m).
Proof.
  intros Hm. unfold run_reset. set (f := λ w, foldl (λ w phy, UnregisterAll phy w) w (ascending (dom (layers w)))).
  assert (same_things (air m) (f (air m))) as Hs by (apply foldl_same; intros; apply UnregisterAll_same).
  assert (model_wf (on_air f m)) as Hm'.
  { apply on_air_wf; [done..| |].
    - apply foldl_inv; [intros; by apply UnregisterAll_wf|apply Hm].
    - apply (foldl_inv (λ w, only w (phy_devices_ m))); [intros; by apply UnregisterAll_only|apply Hm]. }
  destruct Hm' as [Ha Ho Hd Hi Hp Hc]. split; try done.
  assert (∀ phys w phy l, layers (foldl (λ w phy, UnregisterAll phy w) w phys) !! phy = Some l →
    phy ∈ phys ∨ (∀ l', layers w !! phy = Some l' → PhyLayer.phy_devices_ l' = []) → PhyLayer.phy_devices_ l = []) as Hnil.
  { induction phys as [|phy' phys IH]; intros w phy l Hl Hor.
    { destruct Hor as [Hin|Hnil]; [by apply elem_of_nil in Hin|by apply Hnil]. }
    cbn in Hl. apply (IH _ _ _ Hl). destruct Hor as [[->|Hin]%elem_of_cons|Hnil]; [right|by left|right].
    - intros l' Hl'. rewrite UnregisterAll_lookup in Hl'.
      apply fmap_Some in Hl' as (l0 & _ & ->). by rewrite decide_True.
    - intros l' Hl'. rewrite UnregisterAll_lookup in Hl'. apply fmap_Some in Hl' as (l0 & Hl0 & ->).
      case_decide; [done|by apply Hnil]. }
  intros phy l j Hl Hj. rewrite (Hnil _ _ _ _ Hl) in Hj; [by apply elem_of_nil in Hj|]. left.
  apply elem_of_ascending. destruct Hs as [<- _]. by eapply elem_of_dom_2.
Qed.
End Invariant.

(** ** What happens to a model *)

Section Reachable.
Context {D M : Type} `{Device D, Scheduler M, IterationOrder}.
Context {Configuration : Type} (SetProperties : Configuration → D → D).
Context (connect_to_remote_ : list ascii → Z → PhyType → option D).
Notation Model := (TestModel D M).
Implicit Types m : Model.

(** The commands, the connections, the tasks and what the task manager does between
    them. Identifiers are 32 bits wide: of the devices and layers of a run there are fewer. *)
Inductive model_step : Model → Model → Prop :=
| step_add_device m d : instance_counter m < 2 ^ 32 - 1 →
    model_step m (AddDevice (instance_counter m) d (snd (next_instance_id m)))
| step_discarded_device m : instance_counter m < 2 ^ 32 - 1 → model_step m (snd (next_instance_id m))
| step_link_layer m d type : instance_counter m < 2 ^ 32 - 1 →
    model_step m (AddLinkLayerConnection (instance_counter m) d type (snd (next_instance_id m)))
| step_remote m server port type : instance_counter m < 2 ^ 32 - 1 →
    model_step m (AddRemote connect_to_remote_ server port type m)
| step_hci m d address id m' : instance_counter m < 2 ^ 32 - 1 →
    AddHciConnection (instance_counter m) d address (snd (next_instance_id m)) = Ok (id, m') → model_step m m'
| step_remove_device m id : model_step m (RemoveDevice id m)
| step_add_phy m type : next_id m < 2 ^ 32 - 1 → model_step m (snd (AddPhy type m))
| step_remove_phy m phy : model_step m (RemovePhy phy m)
| step_to_phy m id phy : model_step m (AddDeviceToPhy id phy m)
| step_from_phy m id phy : model_step m (RemoveDeviceFromPhy id phy m)
| step_address m id address : model_step m (SetDeviceAddress id address m)
| step_configuration m id configuration : model_step m (SetDeviceConfiguration SetProperties id configuration m)
| step_period m period : model_step m (SetTimerPeriod period m)
| step_start m : model_step m (StartTimer m)
| step_stop m : model_step m (StopTimer m)
| step_reset m : model_step m (Reset m)
| step_reuse m reuse : model_step m (SetReuseDeviceAddresses reuse m)
| step_task m fuel t m' : run_task fuel t m = Ok m' → model_step m m'
| step_manager m s : model_step m (on_air (λ w, w <| scheduler := s |>) m).
Definition reachable (s : M) (prefix : Z * Z * Z * Z) : Model → Prop := rtc model_step (new_model s prefix).

Lemma on_scheduler_wf {A} (f : M → A * M) m : model_wf m → model_wf (snd (on_scheduler f m)).
Proof.
  intros Hm. unfold on_scheduler. destruct (f (scheduler (air m))) as [a s]. by apply on_air_registry.
Qed.
Lemma AddLinkLayerConnection_wf m d type :
  model_wf m → instance_counter m < 2 ^ 32 - 1 →
  model_wf (AddLinkLayerConnection (instance_counter m) d type (snd (next_instance_id m))).
Proof.
  intros Hm Hb. pose proof (AddDevice_wf m d Hm Hb) as Ha. unfold AddLinkLayerConnection.
  set (m1 := AddDevice _ _ _) in *.
  assert (model_wf (register_on (phys_of_type type m1) (instance_counter m) m1)) as Hr.
  { apply register_on_wf; [done|cbn; set_solver|]. intros phy [_ Hphy]%list_elem_of_filter. by apply elem_of_ascending. }
  apply (on_scheduler_wf get_user_id) in Hr. destruct (on_scheduler get_user_id _) as [user m2].
  by apply RegisterCloseCallback_wf.
Qed.
Lemma AddHciConnection_wf m d address id m' :
  model_wf m → instance_counter m < 2 ^ 32 - 1 →
  AddHciConnection (instance_counter m) d address (snd (next_instance_id m)) = Ok (id, m') → model_wf m'.
Proof.
  intros Hm Hb. unfold AddHciConnection. intros (generated & _ & E)%bind_Ok.
  pose proof (AddDevice_wf m (set_device_address (default generated address) d) Hm Hb) as Ha.
  set (m1 := AddDevice _ _ _) in *.
  assert (model_wf (register_on (ascending (dom (layers (air m1)))) (instance_counter m) m1)) as Hr.
  { apply register_on_wf; [done|cbn; set_solver|]. intros phy Hphy. by apply elem_of_ascending. }
  apply (on_scheduler_wf get_user_id) in Hr. destruct (on_scheduler get_user_id _) as [user m2].
  injection E as _ <-. by apply RegisterCloseCallback_wf.
Qed.
Lemma alter_device_registry (f : PhyDevice D → PhyDevice D) id (w : Air D M) :
  (∀ p, phy_layers_ (f p) = phy_layers_ p ∧ close_callback_ (f p) = close_callback_ p) →
  registry (w <| devices ::= alter f id |>) = registry w.
Proof.
  intros Hf. unfold registry. cbn. f_equal. apply map_eq. intros j. rewrite !lookup_fmap.
  destruct (decide (j = id)) as [->|]; [|by rewrite lookup_alter_ne].
  rewrite lookup_alter_eq. destruct (devices w !! id) as [p|]; [|done]. cbn. by destruct (Hf p) as [-> ->].
Qed.
Lemma StopTimer_wf m : model_wf m → model_wf (StopTimer m).
Proof. intros [Ha Ho Hd Hi Hp Hc]. by split. Qed.
Lemma StartTimer_wf m : model_wf m → model_wf (StartTimer m).
Proof.
  intros Hm. unfold StartTimer.
  apply (on_scheduler_wf (schedule_periodic_task (model_user_id_ m) 0 (timer_period_ m) TickTask)) in Hm.
  destruct (on_scheduler _ _) as [id m1]. destruct Hm. by split.
Qed.

(** Nothing that a device does fails but by not ending. *)
Lemma Ticks_sound fuel ids w :
  air_wf w → (∀ id, id ∈ ids → is_Some (devices w !! id)) →
  ∀ w', registry w' = registry w → sound w (Ticks fuel ids w').
Proof.
  intros Hwf. induction ids as [|id ids IH]; intros Hids w' E; [done|]. cbn [Ticks].
  apply sound_bind; [|intros w2 E2; apply IH; [intros; apply Hids; by right|done]].
  destruct (Hids id) as [p Hp]; [by left|]. unfold PhyLayer.Tick.
  destruct (registry_device w w' id p) as (p' & -> & _); [done..|]. cbn [unchecked mbind outcome_bind].
  by apply run_sound.
Qed.
Lemma Tick_sound fuel m : model_wf m → sound (air m) (Ticks fuel (ascending (phy_devices_ m)) (air m)).
Proof.
  intros Hm. apply Ticks_sound; [apply Hm| |done]. intros id Hid%elem_of_ascending. apply elem_of_dom. by apply Hm.
Qed.
Lemma model_Tick_wf fuel m m' : model_wf m → Tick fuel m = Ok m' → model_wf m'.
Proof.
  intros Hm (w & E & [= <-])%bind_Ok. pose proof (Tick_sound fuel m Hm) as Hs. rewrite E in Hs. cbn in Hs.
  by apply (on_air_registry (λ _, w)).
Qed.

Lemma new_model_wf s prefix : model_wf (new_model (D := D) s prefix).
Proof.
  unfold new_model. destruct (get_user_id s) as [user s']. split; cbn; try set_solver; try lia.
  - split; intros *; cbn; rewrite ?fmap_empty; by intros ?%lookup_empty_Some.
  - intros phy l id Hl. cbn in Hl. by apply lookup_empty_Some in Hl.
Qed.
Lemma model_step_wf m m' : model_step m m' → model_wf m → model_wf m'.
Proof.
  intros Hs Hm. destruct Hs.
  - by apply AddDevice_wf.
  - by apply next_instance_id_wf.
  - by apply AddLinkLayerConnection_wf.
  - unfold AddRemote. destruct (connect_to_remote_ server port type); [by apply AddLinkLayerConnection_wf|done].
  - by eapply AddHciConnection_wf.
  - by apply RemoveDevice_wf.
  - by apply AddPhy_wf.
  - by apply RemovePhy_wf.
  - by apply AddDeviceToPhy_wf.
  - by apply RemoveDeviceFromPhy_wf.
  - unfold SetDeviceAddress. destruct (has_device m id); [|done]. apply on_air_registry; [done|].
    by apply alter_device_registry.
  - unfold SetDeviceConfiguration. destruct (has_device m id); [|done]. apply on_air_registry; [done|].
    apply alter_device_registry. intros p. by case_bool_decide.
  - unfold SetTimerPeriod. assert (model_wf (m <| timer_period_ := period |>)) as Hm' by by destruct Hm.
    case_match; [done|]. by apply StartTimer_wf, StopTimer_wf.
  - by apply StartTimer_wf.
  - by apply StopTimer_wf.
  - by apply on_scheduler_wf, StopTimer_wf.
  - by destruct Hm.
  - destruct t; cbn in *; simplify_eq; [by eapply model_Tick_wf| |by apply run_reset_wf].
    unfold OnConnectionClosed. destruct (has_device m device_id); [|done]. apply RemoveDevice_wf.
    by apply on_air_registry.
  - by apply on_air_registry.
Qed.

(** C29. Whatever the commands, the connections and the tasks: the layers and the devices
    agree on who is on which layer, no pointer to a layer outlives it, only devices of the model
    are on layers, and so a tick, with all that the devices send and answer, reads and writes
    nothing that is not there, whatever the devices do. *)
Theorem test_model_invariant (s : M) (prefix : Z * Z * Z * Z) m (Hm : reachable s prefix m) :
  model_wf m ∧ ∀ fuel, match Tick fuel m with Ok m' => model_wf m' | Hang => True | Fatal | Undef => False end.
Proof.
  assert (model_wf m) as Hwf.
  { revert m Hm. apply rtc_ind_r; [apply new_model_wf|]. intros m1 m2 _ Hs. by apply model_step_wf. }
  split; [done|]. intros fuel. pose proof (Tick_sound fuel m Hwf) as Hs.
  destruct (Tick fuel m) as [m'| | |] eqn:E; [by eapply model_Tick_wf|..|done]; unfold Tick in E;
    by destruct (Ticks _ _ _).
Qed.

(** *** What every device keeps *)

(** The devices are what they were. *)
Definition same_devices (w w' : Air D M) : Prop :=
  ∀ id, device_ <$> devices w' !! id = device_ <$> devices w !! id.
Lemma alter_same_devices (f : PhyDevice D → PhyDevice D) id (w : Air D M) :
  (∀ p, device_ (f p) = device_ p) → same_devices w (w <| devices ::= alter f id |>).
Proof.
  intros Hf j. cbn. destruct (decide (id = j)) as [->|]; [|by rewrite lookup_alter_ne].
  rewrite lookup_alter_eq. destruct (devices w !! j) as [p|]; [|done]. cbn. by rewrite Hf.
Qed.
Lemma same_devices_trans w1 w2 w3 : same_devices w1 w2 → same_devices w2 w3 → same_devices w1 w3.
Proof. intros E1 E2 id. by rewrite E2, E1. Qed.
Lemma foldl_same_devices (f : Air D M → Z → Air D M) l w :
  (∀ w x, same_devices w (f w x)) → same_devices w (foldl f w l).
Proof.
  intros Hf. revert w. induction l as [|x l IH]; intros w; [done|]. cbn [foldl].
  eapply same_devices_trans; [apply Hf|apply IH].
Qed.
Lemma Register_same_devices phy id w : same_devices w (Register phy id w).
Proof. by apply alter_same_devices. Qed.
Lemma Unregister_same_devices phy id w : same_devices w (Unregister phy id w).
Proof.
  unfold Unregister. destruct (layers w !! phy); [|done]. case_bool_decide; [|done]. by apply alter_same_devices.
Qed.
Lemma UnregisterAll_same_devices phy w : same_devices w (UnregisterAll phy w).
Proof.
  unfold UnregisterAll. destruct (layers w !! phy) as [l|]; [|done].
  change (same_devices w (foldr (λ id, set_layers id (delete phy)) w (PhyLayer.phy_devices_ l))).
  induction (PhyLayer.phy_devices_ l) as [|id ids IH]; [done|]. cbn [foldr].
  eapply same_devices_trans; [exact IH|]. by apply alter_same_devices.
Qed.
Lemma RemoveDevice_same_devices id m : same_devices (air m) (air (RemoveDevice id m)).
Proof. apply foldl_same_devices. intros. apply Unregister_same_devices. Qed.
Lemma on_scheduler_same_devices {A} (f : M → A * M) m : same_devices (air m) (air (snd (on_scheduler f m))).
Proof. unfold on_scheduler. by destruct (f (scheduler (air m))). Qed.

(** A new device is the only difference. *)
Lemma AddDevice_same_devices id d m j :
  j ≠ id → device_ <$> devices (air (AddDevice id d m)) !! j = device_ <$> devices (air m) !! j.
Proof. intros Hj. cbn. by rewrite lookup_insert_ne. Qed.
Definition but_new m (id : Z) m' : Prop :=
  ∀ j, j ≠ id → device_ <$> devices (air m') !! j = device_ <$> devices (air m) !! j.
Lemma AddLinkLayerConnection_but_new id d type m : but_new m id (AddLinkLayerConnection id d type (snd (next_instance_id m))).
Proof.
  unfold AddLinkLayerConnection. set (m1 := AddDevice _ _ _).
  pose proof (on_scheduler_same_devices get_user_id (register_on (phys_of_type type m1) id m1)) as Hs.
  destruct (on_scheduler get_user_id _) as [user m2]. intros j Hj. etransitivity; [by apply alter_same_devices|].
  cbn in Hs. rewrite Hs. etransitivity; [apply foldl_same_devices; intros; apply Register_same_devices|].
  by apply (AddDevice_same_devices _ _ (snd (next_instance_id m))).
Qed.
Lemma AddHciConnection_but_new id d address id' m m' :
  AddHciConnection id d address (snd (next_instance_id m)) = Ok (id', m') → but_new m id m'.
Proof.
  unfold AddHciConnection. intros (generated & _ & E)%bind_Ok. set (m1 := AddDevice _ _ _) in E.
  pose proof (on_scheduler_same_devices get_user_id (register_on (ascending (dom (layers (air m1)))) id m1)) as Hs.
  destruct (on_scheduler get_user_id _) as [user m2]. injection E as _ <-. intros j Hj.
  etransitivity; [by apply alter_same_devices|]. cbn in Hs. rewrite Hs.
  etransitivity; [apply foldl_same_devices; intros; apply Register_same_devices|].
  by apply (AddDevice_same_devices _ _ (snd (next_instance_id m))).
Qed.

Section Kept.
Context (P : D → Prop).
Context (Hreceive : ∀ view type r d, P d → keeps P (ReceiveLinkLayerPacket view type r d)).
Context (Htick : ∀ d, P d → keeps P (device_Tick d)).

(** A test changes a setting of a device. *)
Inductive setting m : Model → Prop :=
| setting_address id address : setting m (SetDeviceAddress id address m)
| setting_configuration id configuration : setting m (SetDeviceConfiguration SetProperties id configuration m).

(** The devices that a step adds. *)
Definition added m m' : Prop :=
  ∀ id p, devices (air m') !! id = Some p → devices (air m) !! id = None → P (device_ p).
Lemma all_devices_same w w' : same_devices w w' → all_devices P w → all_devices P w'.
Proof.
  intros Hs Hw id p' Hp'. specialize (Hs id). rewrite Hp' in Hs.
  destruct (devices w !! id) as [p|] eqn:Hp; [|done]. injection Hs as ->. by eapply Hw.
Qed.
Lemma all_devices_new m m' :
  model_wf m → but_new m (instance_counter m) m' → added m m' → all_devices P (air m) → all_devices P (air m').
Proof.
  intros Hm Hb Ha Hw id p' Hp'. destruct (decide (id = instance_counter m)) as [->|Hid].
  - eapply Ha; [exact Hp'|]. apply not_elem_of_dom. intros Hid%(wf_ids m Hm). lia.
  - specialize (Hb id Hid). rewrite Hp' in Hb. destruct (devices (air m) !! id) as [p|] eqn:Hp; [|done].
    injection Hb as ->. by eapply Hw.
Qed.

Lemma model_step_devices m m' :
  model_wf m → model_step m m' → setting m m' ∨ (added m m' → all_devices P (air m) → all_devices P (air m')).
Proof.
  intros Hm Hs. destruct Hs; try (left; constructor); right; intros Ha Hw.
  - eapply all_devices_new; [done| |done|done]. intros j Hj. by apply (AddDevice_same_devices _ _ (snd (next_instance_id m))).
  - done.
  - eapply all_devices_new; [done| |done|done]. apply AddLinkLayerConnection_but_new.
  - revert Ha. unfold AddRemote. destruct (connect_to_remote_ server port type); [|done]. cbn [next_instance_id]. intros Ha.
    eapply all_devices_new; [done| |exact Ha|done]. apply AddLinkLayerConnection_but_new.
  - eapply all_devices_new; [done| |done|done]. by eapply AddHciConnection_but_new.
  - by eapply all_devices_same, Hw; apply RemoveDevice_same_devices.
  - done.
  - unfold RemovePhy. destruct (has_phy m phy); [|done]. eapply all_devices_same, Hw. apply UnregisterAll_same_devices.
  - unfold AddDeviceToPhy. destruct (has_phy m phy && has_device m id); [|done].
    eapply all_devices_same, Hw. apply Register_same_devices.
  - unfold RemoveDeviceFromPhy. destruct (has_phy m phy); [|done]. eapply all_devices_same, Hw. apply Unregister_same_devices.
  - unfold SetTimerPeriod. case_match; [done|]. unfold StartTimer. set (f := schedule_periodic_task _ _ _ _).
    match goal with |- context [on_scheduler f ?m] => pose proof (on_scheduler_same_devices f m) as Hs;
      destruct (on_scheduler f m) as [n m1] end. by eapply all_devices_same, Hw.
  - unfold StartTimer. set (f := schedule_periodic_task _ _ _ _).
    pose proof (on_scheduler_same_devices f m) as Hs. destruct (on_scheduler f m) as [n m1]. by eapply all_devices_same, Hw.
  - done.
  - eapply all_devices_same, Hw. apply (on_scheduler_same_devices _ (StopTimer m)).
  - done.
  - destruct t; cbn in *.
    + unfold Tick in *. match goal with H : _ = Ok m' |- _ => apply bind_Ok in H as (w & E & [= <-]) end.
      cbn. by eapply Ticks_keeps; [| |exact Hw|exact E].
    + simplify_eq. unfold OnConnectionClosed. destruct (has_device m device_id); [|done].
      eapply all_devices_same; [apply RemoveDevice_same_devices|exact Hw].
    + simplify_eq. eapply all_devices_same, Hw. apply foldl_same_devices. intros. apply UnregisterAll_same_devices.
  - done.
Qed.
End Kept.
End Reachable.

(** ** Addresses of new devices *)

Section Addresses.
Context {D M : Type} `{Device D, Scheduler M, IterationOrder}.
Notation Model := (TestModel D M).
Implicit Types m : Model.

Lemma is_used_spec m a : is_used m a = true ↔ ∃ id, id ∈ phy_devices_ m ∧ GetAddress m id = Some a.
Proof.
  unfold is_used. rewrite existsb_exists. setoid_rewrite <-list_elem_of_In. setoid_rewrite elem_of_ascending.
  by setoid_rewrite bool_decide_eq_true.
Qed.
Lemma numbered_address_inj m n n' :
  0 ≤ n < 65536 → 0 ≤ n' < 65536 → numbered_address m n = numbered_address m n' → n = n'.
Proof.
  unfold numbered_address, wrap. destruct (bluetooth_address_prefix_ m) as [[[p0 p1] p2] p3]. intros Hn Hn' E.
  injection E as E0 E1. rewrite !Z.shiftr_div_pow2 in E1 by done. change (2 ^ 8) with 256 in *.
  rewrite (Z.mod_small (n / 256)), (Z.mod_small (n' / 256)) in E1
    by (split; [apply Z.div_pos|apply Z.div_lt_upper_bound]; lia).
  rewrite (Z.div_mod n 256), (Z.div_mod n' 256) by done. congruence.
Qed.

(** The loop, from any number. *)
Lemma first_unused_spec fuel b0 m :
  0 ≤ b0 → b0 + Z.of_nat fuel ≤ 65536 →
  match first_unused fuel b0 m with
  | Ok a => ∃ n, b0 ≤ n < b0 + Z.of_nat fuel ∧ a = numbered_address m n ∧ is_used m a = false ∧
      ∀ k, b0 ≤ k < n → is_used m (numbered_address m k) = true
  | Hang => ∀ k, b0 ≤ k < b0 + Z.of_nat fuel → is_used m (numbered_address m k) = true
  | Fatal | Undef => False
  end.
Proof.
  revert b0. induction fuel as [|fuel IH]; intros b0 Hb Hf; [intros k Hk; lia|]. cbn [first_unused].
  destruct (is_used m (numbered_address m b0)) eqn:Hu; cbn [negb].
  2: { exists b0. split_and!; [lia..|done|done|]. intros k Hk. lia. }
  assert (∀ k, b0 ≤ k < b0 + 1 → is_used m (numbered_address m k) = true) as Hb0.
  { intros k Hk. by replace k with b0 by lia. }
  destruct (decide (b0 + 1 = 65536)) as [E|E].
  { destruct fuel; [|lia]. cbn [first_unused]. intros k Hk. apply Hb0. lia. }
  rewrite wrap_id by (unfold fits; lia). specialize (IH (b0 + 1) ltac:(lia) ltac:(lia)).
  destruct (first_unused fuel (b0 + 1) m) as [a| | |]; try done.
  - destruct IH as (n & Hn & Ha & Hun & Hk). exists n. split_and!; [lia..|done|done|].
    intros k Hkn. destruct (decide (k = b0)) as [->|]; [done|]. apply Hk. lia.
  - intros k Hk. destruct (decide (k = b0)) as [->|]; [done|]. apply IH. lia.
Qed.
(** When all the addresses are used the loop does not end, as [b0] wraps. *)
Lemma first_unused_hangs fuel b0 m :
  0 ≤ b0 < 65536 → (∀ n, 0 ≤ n < 65536 → is_used m (numbered_address m n) = true) → first_unused fuel b0 m = Hang.
Proof.
  intros Hb0 Hall. revert b0 Hb0. induction fuel as [|fuel IH]; intros b0 Hb0; [done|]. cbn [first_unused].
  rewrite Hall by done. apply IH. pose proof (wrap_fits 16 (b0 + 1) ltac:(done)) as Hw. exact Hw.
Qed.

(** With fewer devices than addresses, one is free. *)
Lemma some_unused m :
  Z.of_nat (size (phy_devices_ m)) < 65536 → ∃ n, 0 ≤ n < 65536 ∧ is_used m (numbered_address m n) = false.
Proof.
  intros Hsize. destruct (decide (Forall (λ n, is_used m (numbered_address m n) = true) (seqZ 0 65536))) as [Hall|Hn].
  - exfalso. set (addresses := numbered_address m <$> seqZ 0 65536).
    assert (NoDup addresses) as Hnd.
    { apply NoDup_fmap_2_strong; [|apply NoDup_seqZ]. intros x y Hx%elem_of_seqZ Hy%elem_of_seqZ. by apply numbered_address_inj; lia. }
    assert (addresses ⊆+ omap (GetAddress m) (elements (phy_devices_ m))) as Hsub.
    { apply NoDup_submseteq; [done|]. intros a (n & -> & Hn)%list_elem_of_fmap. rewrite Forall_forall in Hall.
      apply Hall, is_used_spec in Hn as (id & Hid & Ha). apply list_elem_of_omap. exists id.
      by rewrite elem_of_elements. }
    apply submseteq_length in Hsub. unfold addresses in Hsub. rewrite length_fmap, length_seqZ in Hsub.
    assert (∀ l : list Z, length (omap (GetAddress m) l) ≤ length l)%nat as Hol.
    { induction l as [|x l IH]; [done|]. cbn. destruct (GetAddress m x); cbn; lia. }
    specialize (Hol (elements (phy_devices_ m))).
    change (length (elements (phy_devices_ m))) with (size (phy_devices_ m)) in Hol. lia.
  - apply not_Forall_Exists in Hn; [|apply _]. apply Exists_exists in Hn as (n & Hn%elem_of_seqZ & Hu).
    exists n. split; [lia|]. by apply not_true_is_false.
Qed.

Lemma register_all_layers id phys (w : Air D M) phy :
  NoDup phys →
  layers (foldl (λ w phy, Register phy id w) w phys) !! phy =
    (λ l, if decide (phy ∈ phys) then MkPhyLayer (phy_type l) (PhyLayer.phy_devices_ l ++ [id]) else l) <$> layers w !! phy.
Proof.
  revert w. induction phys as [|phy' phys IH]; intros w Hnd; cbn [foldl].
  { destruct (layers w !! phy); [|done]. cbn. rewrite decide_False; [done|apply not_elem_of_nil]. }
  apply NoDup_cons in Hnd as [Hphy' Hnd]. rewrite IH by done. unfold Register. cbn.
  destruct (decide (phy' = phy)) as [->|Hne].
  - rewrite lookup_alter_eq. destruct (layers w !! phy); [|done]. cbn. rewrite decide_False by done.
    by rewrite decide_True by by left.
  - rewrite lookup_alter_ne by done. destruct (layers w !! phy); [|done]. cbn. f_equal. apply decide_ext.
    rewrite elem_of_cons. naive_solver.
Qed.
Lemma register_all_device id phys (w : Air D M) j :
  device_ <$> devices (foldl (λ w phy, Register phy id w) w phys) !! j = device_ <$> devices w !! j.
Proof.
  revert w. induction phys as [|phy phys IH]; intros w; [done|]. cbn [foldl]. rewrite IH. cbn.
  destruct (decide (id = j)) as [->|]; [|by rewrite lookup_alter_ne]. rewrite lookup_alter_eq.
  by destruct (devices w !! j).
Qed.

Lemma AddHciConnection_run m d a id :
  GenerateBluetoothAddress id m = Ok a →
  ∃ m', AddHciConnection id d None m = Ok (id, m') ∧ phy_devices_ m' = {[id]} ∪ phy_devices_ m ∧
  (∀ phy, layers (air m') !! phy =
     (λ l, MkPhyLayer (phy_type l) (PhyLayer.phy_devices_ l ++ [id])) <$> layers (air m) !! phy) ∧
  (∀ j, device_ <$> devices (air m') !! j =
     if decide (j = id) then Some (set_device_address a d) else device_ <$> devices (air m) !! j).
Proof.
  intros Ha. unfold AddHciConnection. rewrite Ha. cbn [mbind outcome_bind default].
  set (m1 := AddDevice id (set_device_address a d) m). unfold on_scheduler.
  destruct (get_user_id _) as [user s]. eexists. split; [reflexivity|]. split; [done|]. split.
  - intros phy. cbn. rewrite register_all_layers by apply ascending_NoDup. cbn.
    destruct (layers (air m) !! phy) as [l|] eqn:E; [|done]. cbn. rewrite decide_True; [done|].
    apply elem_of_ascending. by eapply elem_of_dom_2.
  - intros j. cbn. transitivity (device_ <$> devices (foldl (λ w phy, Register phy id w) (air m1)
      (ascending (dom (layers (air m1))))) !! j).
    { destruct (decide (id = j)) as [->|]; [|by rewrite lookup_alter_ne]. rewrite lookup_alter_eq.
      by destruct (devices _ !! j). }
    rewrite register_all_device. cbn. case_decide as Hj; [subst; by rewrite lookup_insert_eq|by rewrite lookup_insert_ne].
Qed.

(** C32. A host that connects, while fewer than 65536 devices are there and addresses are
    used again (the default, without [-disable_address_reuse]), always gets its controller: the call returns, the new device has an address that no other device has, the
    first that is free, it is on every layer, once and after the devices that were there, and
    nothing of the others changes. *)
Theorem AddHciConnection_spec m (d : D)
  (Haddress : ∀ a (d : D), device_address (set_device_address a d) = a)
  (Hwf : model_wf m) (Hid : instance_counter m < 2 ^ 32 - 1) (Hreuse : reuse_device_addresses_ m = true)
  (Hroom : Z.of_nat (size (phy_devices_ m)) < 65536) :
  let id := instance_counter m in
  ∃ m' n, AddHciConnection id d None (snd (next_instance_id m)) = Ok (id, m') ∧ model_wf m' ∧
  GetAddress m' id = Some (numbered_address m n) ∧ 0 ≤ n < 65536 ∧
  is_used m (numbered_address m n) = false ∧ (∀ k, 0 ≤ k < n → is_used m (numbered_address m k) = true) ∧
  phy_devices_ m' = {[id]} ∪ phy_devices_ m ∧
  (∀ j, j ∈ phy_devices_ m → GetAddress m' j = GetAddress m j) ∧
  (∀ phy, layers (air m') !! phy =
     (λ l, MkPhyLayer (phy_type l) (PhyLayer.phy_devices_ l ++ [id])) <$> layers (air m) !! phy).
Proof.
  intros id. set (m0 := snd (next_instance_id m)).
  assert (∃ n, GenerateBluetoothAddress id m0 = Ok (numbered_address m n) ∧ 0 ≤ n < 65536 ∧
    is_used m (numbered_address m n) = false ∧ ∀ k, 0 ≤ k < n → is_used m (numbered_address m k) = true)
    as (n & Hg & Hn & Hu & Hk).
  { unfold GenerateBluetoothAddress. change (reuse_device_addresses_ m0) with (reuse_device_addresses_ m). rewrite Hreuse.
    destruct (some_unused m Hroom) as (n & Hn & Hu).
    pose proof (first_unused_spec (Z.to_nat 65536) 0 m0 ltac:(lia) ltac:(lia)) as Hs.
    destruct (first_unused (Z.to_nat 65536) 0 m0) as [a| | |]; try done.
    - destruct Hs as (n' & Hn' & -> & Hu' & Hk'). exists n'. split; [done|]. split; [lia|]. by split.
    - specialize (Hs n ltac:(lia)). change (is_used m0 (numbered_address m0 n)) with (is_used m (numbered_address m n)) in Hs.
      by rewrite Hu in Hs. }
  destruct (AddHciConnection_run m0 d (numbered_address m n) id Hg) as (m' & E & Hids & Hl & Hd).
  exists m', n. split; [exact E|]. split; [by eapply AddHciConnection_wf|].
  split. { pose proof (Hd id) as Hd'. rewrite decide_True in Hd' by done. unfold GetAddress.
    destruct (devices (air m') !! id); [|done]. injection Hd' as Hd'. cbn. by rewrite Hd', Haddress. }
  split_and!; try done; [lia..|]. intros j Hj.
  assert (j ≠ id) as Hne.
  { intros ->. apply (wf_devices m Hwf), (wf_ids m Hwf) in Hj. unfold id in Hj. lia. }
  specialize (Hd j). rewrite decide_False in Hd by done. change (air m0) with (air m) in Hd. unfold GetAddress.
  destruct (devices (air m') !! j), (devices (air m) !! j); try done. cbn in *. by injection Hd as ->.
Qed.
End Addresses.

(** ** Examples *)

Definition example_model : TestModel (Address * list Z) Z := new_model 1 (0xda, 0x4c, 0x10, 0xde).
Lemma test_model_invariant_witness :
  let H := key_order in
  let m := AddDevice 0 (kEmpty, []) (snd (next_instance_id example_model)) in
  model_wf m ∧ ∀ fuel, match Tick fuel m with Ok m' => model_wf m' | Hang => True | Fatal | Undef => False end.
Proof.
  intros H m.
  apply (test_model_invariant (Configuration := Z) (λ _ d, d) (λ _ _ _, None) 1 (0xda, 0x4c, 0x10, 0xde)).
  apply rtc_once. apply (step_add_device (λ _ d, d) (λ _ _ _, None) example_model (kEmpty, [])). reflexivity.
Defined.
Lemma AddHciConnection_spec_witness :
  let m := example_model in
  ∃ m' n, AddHciConnection 0 (kEmpty, []) None (snd (next_instance_id m)) = Ok (0, m') ∧ model_wf m' ∧
  GetAddress m' 0 = Some (numbered_address m n) ∧ 0 ≤ n < 65536 ∧
  is_used m (numbered_address m n) = false ∧ (∀ k, 0 ≤ k < n → is_used m (numbered_address m k) = true) ∧
  phy_devices_ m' = {[0]} ∪ phy_devices_ m ∧
  (∀ j, j ∈ phy_devices_ m → GetAddress m' j = GetAddress m j) ∧
  (∀ phy, layers (air m') !! phy =
     (λ l, MkPhyLayer (phy_type l) (PhyLayer.phy_devices_ l ++ [0])) <$> layers (air m) !! phy).
Proof.
  intros m. apply (AddHciConnection_spec m (kEmpty, [])).
  - reflexivity.
  - apply new_model_wf.
  - reflexivity.
  - reflexivity.
  - reflexivity.
Defined.

(** A timer that is started twice: the first task goes on when the timer is stopped. The
    scheduler here is the list of the tasks that run. *)
Definition running_tasks : Scheduler (list Z * Z) := {|
  get_user_id s := (0, s);
  schedule_task _ _ _ s := (snd s, (fst s ++ [snd s], snd s + 1));
  schedule_periodic_task _ _ _ _ s := (snd s, (fst s ++ [snd s], snd s + 1));
  cancel_task id s := (filter (.≠ id) (fst s), snd s);
  cancel_tasks_from_user _ s := s;
|}.
Example timer_started_twice :
  let H := running_tasks in
  scheduler (air (StopTimer (StartTimer (StartTimer (new_model (D := Address * list Z) ([], 1) (0, 0, 0, 0)))))) = ([1], 3).
Proof. reflexivity. Qed.
