(* ===== verification/CsTypes.v ===== *)
(** * Types of channel sounding (le_cs_parameters.h, the [Cs] enumerations of
    packets/hci_packets.pdl, the [LlCs] packets of packets/link_layer_packets.pdl)

    The code reads the enumerated parameters of a command as bytes and compares
    them, so they are numbers here; the enumerators are named constants. *)

From S2P Require Import Prelude HciTypes OpCodes Properties Address.

(** ** Enumerations *)

Module CsSyncAntennaSelection.
Definition ANTENNA_1 : Z := 0x01.
Definition ANTENNA_2 : Z := 0x02.
Definition ANTENNA_3 : Z := 0x03.
Definition ANTENNA_4 : Z := 0x04.
Definition ANTENNAS_IN_REPETITIVE_ORDER : Z := 0xFD.
Definition ANTENNAS_IN_ORDER : Z := 0xFE.
Definition NO_RECOMMENDATION : Z := 0xFF.
End CsSyncAntennaSelection.

Module CsCreateContext.
Definition LOCAL_CONTROLLER_ONLY : Z := 0x00.
Definition BOTH_LOCAL_AND_REMOTE_CONTROLLER : Z := 0x01.
End CsCreateContext.

Module CsMainModeType.
Definition MODE_1 : Z := 0x01.
Definition MODE_2 : Z := 0x02.
Definition MODE_3 : Z := 0x03.
End CsMainModeType.

Module CsSubModeType.
Definition MODE_1 : Z := 0x01.
Definition MODE_2 : Z := 0x02.
Definition MODE_3 : Z := 0x03.
Definition UNUSED : Z := 0xff.
End CsSubModeType.

Module CsRole.
Definition INITIATOR : Z := 0x00.
Definition REFLECTOR : Z := 0x01.
End CsRole.

Module CsRttType.
Definition RTT_AA_ONLY : Z := 0x00.
Definition RTT_WITH_32_BIT_SOUNDING_SEQUENCE : Z := 0x01.
Definition RTT_WITH_96_BIT_SOUNDING_SEQUENCE : Z := 0x02.
Definition RTT_WITH_32_BIT_RANDOM_SEQUENCE : Z := 0x03.
Definition RTT_WITH_64_BIT_RANDOM_SEQUENCE : Z := 0x04.
Definition RTT_WITH_96_BIT_RANDOM_SEQUENCE : Z := 0x05.
Definition RTT_WITH_128_BIT_RANDOM_SEQUENCE : Z := 0x06.
End CsRttType.

Module CsSyncPhy.
Definition LE_1M_PHY : Z := 0x01.
Definition LE_2M_PHY : Z := 0x02.
Definition LE_2M_2BT_PHY : Z := 0x03.
End CsSyncPhy.

Module CsChannelSelectionType.
Definition TYPE_3B : Z := 0x00.
Definition TYPE_3C : Z := 0x01.
End CsChannelSelectionType.

Module CsCh3cShape.
Definition HAT_SHAPE : Z := 0x00.
Definition X_SHAPE : Z := 0x01.
End CsCh3cShape.

Module CsAction.
Definition CONFIG_REMOVED : Z := 0x00.
Definition CONFIG_CREATED : Z := 0x01.
End CsAction.

Module CsPhy.
Definition LE_1M_PHY : Z := 0x01.
Definition LE_2M_PHY : Z := 0x02.
Definition LE_CODED_PHY_S2 : Z := 0x03.
Definition LE_CODED_PHY_S8 : Z := 0x04.
End CsPhy.

Module CsSnrControl.
Definition ADJUST_18_DB : Z := 0x00.
Definition ADJUST_21_DB : Z := 0x01.
Definition ADJUST_24_DB : Z := 0x02.
Definition ADJUST_27_DB : Z := 0x03.
Definition ADJUST_30_DB : Z := 0x04.
Definition NOT_APPLIED : Z := 0xFF.
End CsSnrControl.

Module CsModesSupported.
Definition MODE_3 : Z := 0x01.
End CsModesSupported.

Module ApcfAction.
Definition ADD : Z := 0x00.
Definition DELETE : Z := 0x01.
Definition CLEAR : Z := 0x02.
End ApcfAction.

(** ** Settings of a connection *)

Module LeCsDefaultSettings.
Record LeCsDefaultSettings := MkLeCsDefaultSettings {
  role_enable : Z;
  cs_sync_antenna_selection : Z;
  max_tx_power : Z;
}.
#[global] Instance LeCsDefaultSettings_eq_dec : EqDecision LeCsDefaultSettings.
Proof. solve_decision. Defined.
End LeCsDefaultSettings.
Export LeCsDefaultSettings (LeCsDefaultSettings).

Module LeCsProcedureParameters.
Record LeCsProcedureParameters := MkLeCsProcedureParameters {
  max_procedure_len : Z;
  min_procedure_interval : Z;
  max_procedure_interval : Z;
  max_procedure_count : Z;
  min_subevent_len : Z;
  max_subevent_len : Z;
  tone_antenna_config_selection : Z;
  procedure_phy : Z;
  tx_power_delta : Z;
  preferred_peer_antenna : Z;
  snr_control_initiator : Z;
  snr_control_reflector : Z;
}.
#[global] Instance LeCsProcedureParameters_eq_dec : EqDecision LeCsProcedureParameters.
Proof. solve_decision. Defined.
End LeCsProcedureParameters.
Export LeCsProcedureParameters (LeCsProcedureParameters).

Module LeCsConfig.
Record LeCsConfig := MkLeCsConfig {
  config_id : Z;
  channel_map : list Z;
  channel_map_repetition : Z;
  main_mode_type : Z;
  sub_mode_type : Z;
  min_main_mode_steps : Z;
  max_main_mode_steps : Z;
  main_mode_repetition : Z;
  mode_0_steps : Z;
  cs_sync_phy : Z;
  rtt_type : Z;
  role : Z;
  channel_selection_type : Z;
  ch3c_shape : Z;
  ch3c_jump : Z;
  enabled : bool;
  procedure_parameters : option LeCsProcedureParameters;
}.
#[global] Instance LeCsConfig_rebuild : Rebuild LeCsConfig := λ c,
  MkLeCsConfig (config_id c) (channel_map c) (channel_map_repetition c) (main_mode_type c)
    (sub_mode_type c) (min_main_mode_steps c) (max_main_mode_steps c) (main_mode_repetition c)
    (mode_0_steps c) (cs_sync_phy c) (rtt_type c) (role c) (channel_selection_type c)
    (ch3c_shape c) (ch3c_jump c) (enabled c) (procedure_parameters c).
#[global] Instance LeCsConfig_eq_dec : EqDecision LeCsConfig.
Proof. solve_decision. Defined.
End LeCsConfig.
Export LeCsConfig (LeCsConfig).

Module LeCsParameters.
Record LeCsParameters := MkLeCsParameters {
  remote_cs_capabilities : option CsLocalSupportedCapabilities;
  remote_fae_table : option (list Z);
  default_settings : LeCsDefaultSettings;
  config_map : gmap Z LeCsConfig;
  security_enabled : bool;
  security_iv : Z;
  security_in : Z;
  security_pv : Z;
}.
#[global] Instance LeCsParameters_rebuild : Rebuild LeCsParameters := λ p,
  MkLeCsParameters (remote_cs_capabilities p) (remote_fae_table p) (default_settings p)
    (config_map p) (security_enabled p) (security_iv p) (security_in p) (security_pv p).
Definition new : LeCsParameters :=
  MkLeCsParameters None None (LeCsDefaultSettings.MkLeCsDefaultSettings 0 CsSyncAntennaSelection.ANTENNA_1 20) ∅
    false 0 0 0.
End LeCsParameters.
Export LeCsParameters (LeCsParameters).

(** ** Packets *)

(** The fields of [LlCsCapabilitiesReq] and [LlCsCapabilitiesRsp]. *)
Module LlCsCapabilities.
Record t := Mk {
  mode_types : Z;
  rtt_capability : Z;
  rtt_aa_only_n : Z;
  rtt_sounding_n : Z;
  rtt_random_sequence_n : Z;
  nadm_sounding_capability : Z;
  nadm_random_capability : Z;
  cs_sync_phy_capability : Z;
  num_ant : Z;
  max_ant_path : Z;
  role : Z;
  no_fae : Z;
  channel_selection_3c : Z;
  sounding_pct_estimate : Z;
  num_configs : Z;
  max_procedures_supported : Z;
  t_sw : Z;
  t_ip1_capability : Z;
  t_ip2_capability : Z;
  t_fcs_capability : Z;
  t_pm_capability : Z;
  tx_snr_capability : Z;
}.
#[global] Instance t_eq_dec : EqDecision t.
Proof. solve_decision. Defined.
End LlCsCapabilities.

(** The fields of [LlCsConfigReq]. *)
Module LlCsConfig.
Record t := Mk {
  config_id : Z;
  action : Z;
  channel_map : list Z;
  channel_map_repetition : Z;
  main_mode_type : Z;
  sub_mode_type : Z;
  min_main_mode_steps : Z;
  max_main_mode_steps : Z;
  main_mode_repetition : Z;
  mode_0_steps : Z;
  cs_sync_phy : Z;
  rtt_type : Z;
  role : Z;
  channel_selection_type : Z;
  ch3c_shape : Z;
  ch3c_jump : Z;
  t_ip1 : Z;
  t_ip2 : Z;
  t_fcs : Z;
  t_pm : Z;
}.
#[global] Instance t_eq_dec : EqDecision t.
Proof. solve_decision. Defined.
End LlCsConfig.

(** The fields of [LlCsReq]. *)
Module LlCsRequest.
Record t := Mk {
  config_id : Z;
  conn_event_count : Z;
  offset_min : Z;
  offset_max : Z;
  max_procedure_len : Z;
  event_interval : Z;
  subevents_per_event : Z;
  subevent_interval : Z;
  subevent_len : Z;
  procedure_interval : Z;
  procedure_count : Z;
  aci : Z;
  preferred_peer_ant : Z;
  phy : Z;
  pwr_delta : Z;
  tx_snr_i : Z;
  tx_snr_r : Z;
}.
#[global] Instance t_eq_dec : EqDecision t.
Proof. solve_decision. Defined.
End LlCsRequest.

(** The fields [LlCsRsp] and [LlCsInd] share. *)
Module LlCsSchedule.
Record t := Mk {
  config_id : Z;
  conn_event_count : Z;
  offset_min : Z;
  event_interval : Z;
  subevents_per_event : Z;
  subevent_interval : Z;
  subevent_len : Z;
  aci : Z;
  phy : Z;
  pwr_delta : Z;
}.
#[global] Instance t_eq_dec : EqDecision t.
Proof. solve_decision. Defined.
End LlCsSchedule.

(** The fields of the event LE CS Config Complete from [action] on. *)
Module CsConfigFields.
Record t := Mk {
  action : Z;
  main_mode_type : Z;
  sub_mode_type : Z;
  min_main_mode_steps : Z;
  max_main_mode_steps : Z;
  main_mode_repetition : Z;
  mode_0_steps : Z;
  role : Z;
  rtt_type : Z;
  cs_sync_phy : Z;
  channel_map : list Z;
  channel_map_repetition : Z;
  channel_selection_type : Z;
  ch3c_shape : Z;
  ch3c_jump : Z;
  reserved : Z;
  t_ip1_time : Z;
  t_ip2_time : Z;
  t_fcs_time : Z;
  t_pm_time : Z;
}.
#[global] Instance t_eq_dec : EqDecision t.
Proof. solve_decision. Defined.
End CsConfigFields.

(** The fields of the event LE CS Procedure Enable Complete from [state] on. *)
Module CsProcedureFields.
Record t := Mk {
  state : bool;
  tone_antenna_config_selection : Z;
  selected_tx_power : Z;
  subevent_len : Z;
  subevents_per_event : Z;
  subevent_interval : Z;
  event_interval : Z;
  procedure_interval : Z;
  procedure_count : Z;
  max_procedure_len : Z;
}.
#[global] Instance t_eq_dec : EqDecision t.
Proof. solve_decision. Defined.
End CsProcedureFields.
