(* ===== verification/Sco.v ===== *)
(** * SCO and eSCO connections (model/controller/sco_connection.h, sco_connection.cc) *)

From S2P Require Import Prelude HciTypes Address.

(** [RetransmissionEffort], kept as the byte the host sent. *)
Definition NO_RETRANSMISSION := 0x00.
Definition OPTIMIZED_FOR_POWER := 0x01.
Definition OPTIMIZED_FOR_LINK_QUALITY := 0x02.
Definition DO_NOT_CARE := 0xFF.

(** [SynchronousPacketTypeBits]. *)
Definition HV1_ALLOWED := 0x0001.
Definition HV2_ALLOWED := 0x0002.
Definition HV3_ALLOWED := 0x0004.
Definition EV3_ALLOWED := 0x0008.
Definition EV4_ALLOWED := 0x0010.
Definition EV5_ALLOWED := 0x0020.
Definition NO_2_EV3_ALLOWED := 0x0040.
Definition NO_3_EV3_ALLOWED := 0x0080.
Definition NO_2_EV5_ALLOWED := 0x0100.
Definition NO_3_EV5_ALLOWED := 0x0200.

Record ScoLinkParameters := MkScoLinkParameters {
  transmission_interval : Z;
  retransmission_window : Z;
  rx_packet_length : Z;
  tx_packet_length : Z;
  air_mode : Z;
  extended : bool;
}.
#[export] Instance ScoLinkParameters_eq_dec : EqDecision ScoLinkParameters.
Proof. solve_decision. Defined.

Record ScoConnectionParameters := MkScoConnectionParameters {
  transmit_bandwidth : Z;
  receive_bandwidth : Z;
  max_latency : Z;
  voice_setting : Z;
  retransmission_effort : Z;
  packet_type : Z;
}.
#[export] Instance ScoConnectionParameters_eq_dec : EqDecision ScoConnectionParameters.
Proof. solve_decision. Defined.

(** The widths of the fields: [uint32_t], [uint16_t], [uint8_t]. *)
Definition parameters_ok (p : ScoConnectionParameters) : Prop :=
  fits 32 (transmit_bandwidth p) ∧ fits 32 (receive_bandwidth p) ∧
  fits 16 (max_latency p) ∧ fits 16 (voice_setting p) ∧
  fits 8 (retransmission_effort p) ∧ fits 16 (packet_type p).

Definition IsExtended (p : ScoConnectionParameters) : bool :=
  let legacy := Z.lor (Z.lor HV1_ALLOWED HV2_ALLOWED) HV3_ALLOWED in
  let edr := Z.lor (Z.lor (Z.lor NO_2_EV3_ALLOWED NO_3_EV3_ALLOWED) NO_2_EV5_ALLOWED)
                   NO_3_EV5_ALLOWED in
  negb (Z.land (Z.lxor (packet_type p) edr) (Z.lnot legacy) =? 0).

(** *** Link parameters *)

(** The local [struct Packet]. *)
Record Packet := MkPacket { length_ : Z; slots_ : Z }.

Definition has (flags mask : Z) : bool := negb (Z.land flags mask =? 0).

Definition accepted_packets (t : Z) : list Packet :=
  [MkPacket 0 1] ++
  (if has t EV3_ALLOWED then [MkPacket 30 1] else []) ++
  (if has t EV4_ALLOWED then [MkPacket 120 3] else []) ++
  (if has t EV5_ALLOWED then [MkPacket 180 3] else []) ++
  (if negb (has t NO_2_EV3_ALLOWED) then [MkPacket 60 1] else []) ++
  (if negb (has t NO_3_EV3_ALLOWED) then [MkPacket 360 3] else []) ++
  (if negb (has t NO_2_EV5_ALLOWED) then [MkPacket 90 1] else []) ++
  (if negb (has t NO_3_EV5_ALLOWED) then [MkPacket 540 3] else []).

(** [air_coding_to_air_mode[voice_setting & 0x3]]. *)
Definition air_mode_of (p : ScoConnectionParameters) : Z :=
  match Z.land (voice_setting p) 0x3 with
  | 0 => 0x02 | 1 => 0x00 | 2 => 0x01 | _ => 0x03
  end.

(** The transmission interval of a combination of packets, in slots. *)
Definition interval_of (p : ScoConnectionParameters) (tx rx : Packet) : Z :=
  let tx_max_interval := u32 (1600 * length_ tx) / transmit_bandwidth p in
  let rx_max_interval := u32 (1600 * length_ rx) / receive_bandwidth p in
  let interval := Z.min tx_max_interval rx_max_interval in
  let interval := interval - interval mod 2 in
  Z.min interval 254.

Definition retransmission_of (p : ScoConnectionParameters) (tx rx : Packet) : Z :=
  if retransmission_effort p =? NO_RETRANSMISSION then 0
  else if retransmission_effort p =? OPTIMIZED_FOR_POWER then slots_ rx + slots_ tx
  else if retransmission_effort p =? OPTIMIZED_FOR_LINK_QUALITY then 2 * (slots_ rx + slots_ tx)
  else 0.

Definition window_of (p : ScoConnectionParameters) (tx rx : Packet) : Z :=
  slots_ tx + slots_ rx + retransmission_of p tx rx.

(** The checks of the inner loop body before the bandwidth usage is compared. *)
Definition valid_combination (p : ScoConnectionParameters) (tx rx : Packet) : bool :=
  negb (length_ tx =? 0) && negb (length_ rx =? 0) &&
  negb (interval_of p tx rx <? window_of p tx rx) &&
  negb (1000 * max_latency p <? window_of p tx rx * 1250 / 2).

Definition esco_parameters (p : ScoConnectionParameters) (tx rx : Packet) : ScoLinkParameters :=
  let interval := interval_of p tx rx in
  MkScoLinkParameters
    (u8 interval)
    (u8 (retransmission_of p tx rx))
    (u16 (u32 (receive_bandwidth p * interval + 1600 - 1) / 1600))
    (u16 (u32 (transmit_bandwidth p * interval + 1600 - 1) / 1600))
    (air_mode_of p)
    true.

(** The best combination so far: its bandwidth usage as the fraction
    window / interval (the initial [1.0] is 1/1), and its parameters.

    The code divides in [double].  Windows are at most 18 and intervals at most
    254, so two different quotients differ by more than 2^-16 and equal
    quotients round to the same double: comparing the doubles is comparing the
    fractions, which is done by cross multiplication. *)
Definition best : Type := (Z * Z) * option ScoLinkParameters.

Definition usage_le (u v : Z * Z) : bool := u.1 * v.2 <=? v.1 * u.2.

Definition consider (p : ScoConnectionParameters) (b : best) (c : Packet * Packet) : best :=
  let '(tx, rx) := c in
  if valid_combination p tx rx then
    let usage := (window_of p tx rx, interval_of p tx rx) in
    if usage_le usage b.1 then (usage, Some (esco_parameters p tx rx)) else b
  else b.

(** All pairs in the order of the two nested loops. *)
Definition combinations (t : Z) : list (Packet * Packet) :=
  concat ((λ tx, (λ rx, (tx, rx)) <$> accepted_packets t) <$> accepted_packets t).

Definition best_esco (p : ScoConnectionParameters) : option ScoLinkParameters :=
  snd (foldl (consider p) ((1, 1), None) (combinations (packet_type p))).

(** The second phase: HV packets. *)
Definition sco_parameters (p : ScoConnectionParameters) : option ScoLinkParameters :=
  if (retransmission_effort p =? OPTIMIZED_FOR_POWER) ||
     (retransmission_effort p =? OPTIMIZED_FOR_LINK_QUALITY) then None
  else
    let params interval length :=
      Some (MkScoLinkParameters interval 0 length length (air_mode_of p) false) in
    if has (packet_type p) HV3_ALLOWED then params 6 30
    else if has (packet_type p) HV2_ALLOWED then params 4 20
    else if has (packet_type p) HV1_ALLOWED then params 2 10
    else None.

Definition GetLinkParameters (p : ScoConnectionParameters) : option ScoLinkParameters :=
  if (transmit_bandwidth p =? 0) || (receive_bandwidth p =? 0) then None
  else match best_esco p with
       | Some params => Some params
       | None => sco_parameters p
       end.

(** ** ScoConnection *)

Inductive ScoState :=
| SCO_STATE_CLOSED | SCO_STATE_PENDING | SCO_STATE_SENT_ESCO_CONNECTION_REQUEST
| SCO_STATE_SENT_SCO_CONNECTION_REQUEST | SCO_STATE_OPENED.
#[export] Instance ScoState_eq_dec : EqDecision ScoState.
Proof. solve_decision. Defined.

Inductive ScoDatapath := NORMAL | SPOOFED.
#[export] Instance ScoDatapath_eq_dec : EqDecision ScoDatapath.
Proof. solve_decision. Defined.

Record ScoConnection := MkScoConnection {
  address_ : Address;
  parameters_ : ScoConnectionParameters;
  link_parameters_ : ScoLinkParameters;
  sco_state_ : ScoState;
  datapath_ : ScoDatapath;
  stream_handle_ : option Z;
  legacy_ : bool;
}.
#[export] Instance ScoConnection_rebuild : Rebuild ScoConnection := λ c,
  MkScoConnection (address_ c) (parameters_ c) (link_parameters_ c) (sco_state_ c)
    (datapath_ c) (stream_handle_ c) (legacy_ c).

(** Value initialisation. *)
Definition no_link_parameters : ScoLinkParameters := MkScoLinkParameters 0 0 0 0 0 false.
Definition no_connection_parameters : ScoConnectionParameters :=
  MkScoConnectionParameters 0 0 0 0 0 0.

Definition new_ScoConnection (address : Address) (parameters : ScoConnectionParameters)
    (state : ScoState) (datapath : ScoDatapath) (legacy : bool) : ScoConnection :=
  MkScoConnection address parameters no_link_parameters state datapath None legacy.

Definition SetState (state : ScoState) (c : ScoConnection) : ScoConnection :=
  c <| sco_state_ := state |>.
Definition SetLinkParameters (params : ScoLinkParameters) (c : ScoConnection) : ScoConnection :=
  c <| link_parameters_ := params |>.

(** The bits of the packet types both sides allow; the [NO_] bits exclude. *)
Definition negotiated_packet_type (own peer : Z) : Z :=
  Z.lor (Z.land (Z.land peer own) 0x3f) (Z.land (Z.lor peer own) 0x3c0).

Definition negotiated_latency (own peer : Z) : Z :=
  if peer =? 0xffff then own else if own =? 0xffff then peer else Z.min peer own.

(** [None] when the requirements cannot be met. *)
Definition negotiated_effort (state : ScoState) (own peer : Z) : option Z :=
  if bool_decide (state = SCO_STATE_SENT_SCO_CONNECTION_REQUEST) then Some NO_RETRANSMISSION
  else if (peer =? own) || (peer =? DO_NOT_CARE) then Some own
  else if own =? DO_NOT_CARE then Some peer
  else if (peer =? NO_RETRANSMISSION) || (own =? NO_RETRANSMISSION) then None
  else Some OPTIMIZED_FOR_POWER.

Definition NegotiateLinkParameters (peer : ScoConnectionParameters) (c : ScoConnection)
  : bool * ScoConnection :=
  let own := parameters_ c in
  if negb (transmit_bandwidth peer =? 0xffff) &&
     negb (transmit_bandwidth peer =? receive_bandwidth own) then (false, c)
  else if bool_decide (sco_state_ c = SCO_STATE_SENT_ESCO_CONNECTION_REQUEST) &&
          negb (receive_bandwidth peer =? 0xffff) &&
          negb (receive_bandwidth peer =? transmit_bandwidth own) then (false, c)
  else if negb (Z.land (voice_setting peer) (Z.lnot 0x3) =?
                Z.land (voice_setting own) (Z.lnot 0x3)) then (false, c)
  else
    let packet_type' := negotiated_packet_type (packet_type own) (packet_type peer) in
    if packet_type' =? 0x3c0 then (false, c)
    else
      let latency := negotiated_latency (max_latency own) (max_latency peer) in
      match negotiated_effort (sco_state_ c) (retransmission_effort own)
              (retransmission_effort peer) with
      | None => (false, c)
      | Some effort =>
          let negotiated :=
            MkScoConnectionParameters (transmit_bandwidth own) (receive_bandwidth own) latency
              (voice_setting own) effort packet_type' in
          match GetLinkParameters negotiated with
          | Some params => (true, c <| link_parameters_ := params |>)
          | None => (false, c)
          end
      end.

(** [StartStream]: [task] is the identifier [startStream()] returns when called. *)
Definition StartStream (task : Z) (c : ScoConnection) : outcome ScoConnection :=
  _ ← assert (bool_decide (stream_handle_ c = None));
  if bool_decide (datapath_ c = SPOOFED) then Ok (c <| stream_handle_ := Some task |>) else Ok c.

(** [StopStream]: the connection and the task identifiers given to [stopStream]. *)
Definition StopStream (c : ScoConnection) : ScoConnection * list Z :=
  (c <| stream_handle_ := None |>,
   match stream_handle_ c with Some task => [task] | None => [] end).

(** The destructor asserts that no stream is left. *)
Definition destroy (c : ScoConnection) : outcome () :=
  assert (bool_decide (stream_handle_ c = None)).

(** ** Proofs *)

Lemma accepted_packet_bounds t c :
  c ∈ accepted_packets t → 0 ≤ length_ c ≤ 540 ∧ 1 ≤ slots_ c ≤ 3.
Proof.
  revert c. apply Forall_forall. unfold accepted_packets.
  repeat (apply Forall_app; split);
    repeat case_match; repeat constructor; vm_compute; discriminate.
Qed.

Lemma elem_of_combinations t tx rx :
  (tx, rx) ∈ combinations t ↔ tx ∈ accepted_packets t ∧ rx ∈ accepted_packets t.
Proof.
  unfold combinations. rewrite list_elem_of_In, in_concat.
  setoid_rewrite <-list_elem_of_In. split.
  - intros (l & (tx' & -> & Htx)%list_elem_of_fmap & (rx' & [= -> ->] & Hrx)%list_elem_of_fmap).
    done.
  - intros [Htx Hrx]. exists ((λ rx, (tx, rx)) <$> accepted_packets t). split.
    + apply list_elem_of_fmap. eauto.
    + apply list_elem_of_fmap. eauto.
Qed.

Section Negotiation.
Context (p : ScoConnectionParameters).
Context (Hp : parameters_ok p).
Context (Htx : transmit_bandwidth p ≠ 0) (Hrx : receive_bandwidth p ≠ 0).

Definition candidate (c : Packet * Packet) : Prop :=
  c ∈ combinations (packet_type p) ∧ valid_combination p c.1 c.2 = true.

Definition usage (c : Packet * Packet) : Z * Z := (window_of p c.1 c.2, interval_of p c.1 c.2).

(** What a valid combination satisfies, in numbers. *)
Lemma candidate_bounds tx rx :
  candidate (tx, rx) →
  let i := interval_of p tx rx in
  let w := window_of p tx rx in
  2 ≤ w ≤ i ∧ i ≤ 254 ∧ i mod 2 = 0 ∧ 0 ≤ retransmission_of p tx rx ≤ 12 ∧
  transmit_bandwidth p * i ≤ 1600 * length_ tx ∧
  receive_bandwidth p * i ≤ 1600 * length_ rx ∧
  w * 1250 / 2 ≤ 1000 * max_latency p ∧ length_ tx ≤ 540 ∧ length_ rx ≤ 540.
Proof.
  intros [[Htxin Hrxin]%elem_of_combinations Hv]. simpl in Hv.
  destruct (accepted_packet_bounds _ _ Htxin), (accepted_packet_bounds _ _ Hrxin).
  unfold valid_combination in Hv. to_prop.
  assert (0 ≤ retransmission_of p tx rx ≤ 12) as Hr
    by (unfold retransmission_of; repeat case_match; lia).
  cbv zeta. destruct Hp as ((? & ?) & (? & ?) & _).
  assert (2 ≤ window_of p tx rx) by (unfold window_of; lia).
  assert (interval_of p tx rx mod 2 = 0 ∧
    interval_of p tx rx ≤ 254 ∧
    interval_of p tx rx ≤ 1600 * length_ tx / transmit_bandwidth p ∧
    interval_of p tx rx ≤ 1600 * length_ rx / receive_bandwidth p) as (? & ? & Ht & Hr').
  { unfold interval_of. rewrite !wrap_id by (unfold fits; lia).
    generalize (1600 * length_ tx / transmit_bandwidth p)
      (1600 * length_ rx / receive_bandwidth p). intros x y.
    pose proof (Z.mod_pos_bound (Z.min x y) 2).
    split; [|lia].
    destruct (Z.min_spec (Z.min x y - Z.min x y mod 2) 254) as [[_ ->]|[_ ->]]; [|done].
    rewrite Zminus_mod_idemp_r, Z.sub_diag. done. }
  assert (∀ a b, 0 < a → interval_of p tx rx ≤ b / a → a * interval_of p tx rx ≤ b) as Hdiv.
  { intros a b Ha Hb. pose proof (Z.mul_div_le b a Ha). nia. }
  split_and!; try lia; apply Hdiv; lia.
Qed.

Lemma usage_le_trans u v w :
  0 < u.2 → 0 < v.2 → 0 < w.2 → 0 ≤ u.1 → 0 ≤ v.1 →
  usage_le u v = true → usage_le v w = true → usage_le u w = true.
Proof. unfold usage_le. intros. to_prop. apply Z.leb_le. nia. Qed.

Lemma usage_pos c : candidate c → 0 < (usage c).2 ∧ 0 ≤ (usage c).1 ∧ usage_le (usage c) (1, 1) = true.
Proof.
  destruct c as [tx rx]. intros Hc. destruct (candidate_bounds tx rx Hc) as (? & ? & _).
  unfold usage, usage_le. cbn [fst snd] in *. rewrite Z.leb_le. lia.
Qed.

(** What the loops maintain: the best candidate among those seen. *)
Definition best_among (b : best) (seen : list (Packet * Packet)) : Prop :=
  match b.2 with
  | None => b.1 = (1, 1) ∧ ∀ c, c ∈ seen → ¬ candidate c
  | Some r =>
      ∃ c, c ∈ seen ∧ candidate c ∧ b.1 = usage c ∧ r = esco_parameters p c.1 c.2 ∧
      ∀ c', c' ∈ seen → candidate c' → usage_le (usage c) (usage c') = true
  end.

Lemma usage_le_refl u : usage_le u u = true.
Proof. unfold usage_le. apply Z.leb_le. lia. Qed.

Lemma usage_le_total u v : usage_le u v = false → usage_le v u = true.
Proof. unfold usage_le. rewrite Z.leb_le, Z.leb_gt. lia. Qed.

Lemma consider_best b seen c :
  c ∈ combinations (packet_type p) →
  best_among b seen → best_among (consider p b c) (seen ++ [c]).
Proof.
  intros Hin Hb. unfold consider. destruct c as [tx rx].
  destruct (valid_combination p tx rx) eqn:Hv.
  2:{ destruct b as [u [r|]]; unfold best_among in *; simpl in *.
      - destruct Hb as (c & ? & ? & ? & ? & Hmin). exists c. rewrite elem_of_app. split_and!; auto.
        intros c' [?| ->%list_elem_of_singleton]%elem_of_app Hc'; [auto|].
        destruct Hc' as [_ Hc']. simpl in Hc'. congruence.
      - destruct Hb as [? Hnone]. split; [done|].
        intros c' [?| ->%list_elem_of_singleton]%elem_of_app; [auto|].
        intros [_ Hc']. simpl in Hc'. congruence. }
  assert (candidate (tx, rx)) as Hc by done.
  destruct (usage_pos _ Hc) as (Hp2 & Hp1 & Hone).
  destruct b as [u [r|]]; unfold best_among in Hb; simpl in Hb; simpl.
  - destruct Hb as (c & Hcin & Hcc & -> & Hr & Hmin).
    destruct (usage_pos _ Hcc) as (Hq2 & Hq1 & _).
    destruct (usage_le _ (usage c)) eqn:Hle; unfold best_among; simpl.
    + exists (tx, rx). rewrite elem_of_app, list_elem_of_singleton. split_and!; auto.
      intros c' [Hc'| ->%list_elem_of_singleton]%elem_of_app Hcc'; [|apply usage_le_refl].
      destruct (usage_pos _ Hcc') as (? & ? & _).
      by apply (usage_le_trans _ (usage c)); auto.
    + exists c. rewrite elem_of_app. split_and!; auto.
      intros c' [Hc'| ->%list_elem_of_singleton]%elem_of_app Hcc'; [auto|].
      by apply usage_le_total.
  - destruct Hb as [-> Hnone].
    change (window_of p tx rx, interval_of p tx rx) with (usage (tx, rx)). rewrite Hone.
    unfold best_among; simpl. exists (tx, rx). rewrite elem_of_app, list_elem_of_singleton.
    split_and!; auto.
    intros c' [Hc'| ->%list_elem_of_singleton]%elem_of_app Hcc'; [by destruct (Hnone c')|].
    apply usage_le_refl.
Qed.

Lemma foldl_best l b seen :
  (∀ c, c ∈ l → c ∈ combinations (packet_type p)) →
  best_among b seen → best_among (foldl (consider p) b l) (seen ++ l).
Proof.
  revert b seen. induction l as [|c l IH]; intros b seen Hl Hb; simpl.
  { by rewrite app_nil_r. }
  rewrite cons_middle, app_assoc. apply IH; [set_solver|].
  apply consider_best; [set_solver|done].
Qed.

Lemma best_esco_spec :
  best_among (foldl (consider p) ((1, 1), None) (combinations (packet_type p)))
    (combinations (packet_type p)).
Proof.
  apply (foldl_best _ _ []); [done|]. split; [done|]. intros c Hc. by apply not_elem_of_nil in Hc.
Qed.

(** The narrowing conversions of a valid combination lose nothing. *)
Lemma esco_parameters_exact tx rx :
  candidate (tx, rx) →
  let r := esco_parameters p tx rx in
  transmission_interval r = interval_of p tx rx ∧
  retransmission_window r = retransmission_of p tx rx ∧
  rx_packet_length r = (receive_bandwidth p * interval_of p tx rx + 1599) / 1600 ∧
  tx_packet_length r = (transmit_bandwidth p * interval_of p tx rx + 1599) / 1600 ∧
  rx_packet_length r ≤ length_ rx ∧ tx_packet_length r ≤ length_ tx.
Proof.
  intros Hc. destruct (candidate_bounds tx rx Hc)
    as ((? & ?) & ? & ? & ? & Ht & Hr & _ & ? & ?).
  destruct Hp as ((? & ?) & (? & ?) & _).
  unfold esco_parameters. cbn [transmission_interval retransmission_window rx_packet_length tx_packet_length].
  assert (∀ x n, 0 ≤ x → x ≤ 1600 * n → n ≤ 540 →
    u16 (u32 (x + 1600 - 1) / 1600) = (x + 1599) / 1600 ∧ (x + 1599) / 1600 ≤ n) as Hlen.
  { intros x n Hx Hxn Hn. rewrite (wrap_id 32) by (unfold fits; lia).
    replace (x + 1600 - 1) with (x + 1599) by lia.
    pose proof (Z.div_pos (x + 1599) 1600 ltac:(lia) ltac:(lia)).
    pose proof (Z.div_lt_upper_bound (x + 1599) 1600 (n + 1) ltac:(lia) ltac:(lia)).
    rewrite wrap_id by (unfold fits; lia). lia. }
  destruct (Hlen (receive_bandwidth p * interval_of p tx rx) (length_ rx)) as [-> ?]; [nia|lia|lia|].
  destruct (Hlen (transmit_bandwidth p * interval_of p tx rx) (length_ tx)) as [-> ?]; [nia|lia|lia|].
  rewrite !wrap_id by (unfold fits; lia). split_and!; done.
Qed.
End Negotiation.

(** C9. [GetLinkParameters] negotiates the best eSCO link there is.  When some
    pair of the packets the host accepts is feasible (its transmission window
    fits the interval and its latency the budget), the result is an extended
    link built from a feasible pair whose bandwidth usage is minimal among all
    feasible pairs; its interval is even and at most 254 slots, its window fits
    it, and each packet length carries the bandwidth of an interval within the
    selected packet, with nothing lost to the narrow result types.  Otherwise the
    result is the one of the legacy phase, which is never an extended link. *)
Theorem GetLinkParameters_optimal (p : ScoConnectionParameters)
  (Hp : parameters_ok p) (Htx : transmit_bandwidth p ≠ 0) (Hrx : receive_bandwidth p ≠ 0) :
  (∃ tx rx, candidate p (tx, rx) ∧
     (∀ c, candidate p c → usage_le (usage p (tx, rx)) (usage p c) = true) ∧
     ∃ r, GetLinkParameters p = Some r ∧ extended r = true ∧
       transmission_interval r = interval_of p tx rx ∧
       transmission_interval r mod 2 = 0 ∧ window_of p tx rx ≤ transmission_interval r ≤ 254 ∧
       retransmission_window r = retransmission_of p tx rx ∧
       transmit_bandwidth p * transmission_interval r ≤ 1600 * tx_packet_length r ∧
       tx_packet_length r ≤ length_ tx ∧
       receive_bandwidth p * transmission_interval r ≤ 1600 * rx_packet_length r ∧
       rx_packet_length r ≤ length_ rx) ∨
  ((∀ c, ¬ candidate p c) ∧ GetLinkParameters p = sco_parameters p ∧
   ∀ r, sco_parameters p = Some r → extended r = false).
Proof.
  pose proof (best_esco_spec p Hp Htx Hrx) as Hbest. unfold GetLinkParameters, best_esco.
  rewrite (proj2 (Z.eqb_neq _ _) Htx), (proj2 (Z.eqb_neq _ _) Hrx). cbn [orb].
  destruct (foldl _ _ _) as [u [r|]]; unfold best_among in Hbest; cbn [fst snd] in Hbest |- *.
  - left. destruct Hbest as ([tx rx] & _ & Hc & _ & -> & Hmin).
    exists tx, rx. split; [done|]. split; [intros c Hc'; apply Hmin; [apply Hc'|done]|].
    destruct (esco_parameters_exact p Hp Htx Hrx tx rx Hc) as (Hi & Hr & Hrl & Htl & ? & ?).
    destruct (candidate_bounds p Hp Htx Hrx tx rx Hc) as (? & ? & ? & _).
    cbn [fst snd] in *. exists (esco_parameters p tx rx).
    split; [done|]. split; [done|]. rewrite Hi, Hr.
    assert (∀ x, x ≤ 1600 * ((x + 1599) / 1600)) as Hceil
      by (intros x; pose proof (Z.div_mod (x + 1599) 1600 ltac:(lia));
          pose proof (Z.mod_pos_bound (x + 1599) 1600 ltac:(lia)); lia).
    split_and!; try done; try lia; [rewrite Htl|rewrite Hrl]; apply Hceil.
  - right. destruct Hbest as [_ Hnone]. split; [intros c Hc; apply (Hnone c); [apply Hc|done]|].
    split; [done|]. unfold sco_parameters. intros r. repeat case_match; by intros [= <-].
Qed.

Lemma GetLinkParameters_optimal_witness :
  let p := MkScoConnectionParameters 8000 8000 10 0x60 DO_NOT_CARE 0x0388 in
  (∃ tx rx, candidate p (tx, rx) ∧
     (∀ c, candidate p c → usage_le (usage p (tx, rx)) (usage p c) = true) ∧
     ∃ r, GetLinkParameters p = Some r ∧ extended r = true ∧
       transmission_interval r = interval_of p tx rx ∧
       transmission_interval r mod 2 = 0 ∧ window_of p tx rx ≤ transmission_interval r ≤ 254 ∧
       retransmission_window r = retransmission_of p tx rx ∧
       transmit_bandwidth p * transmission_interval r ≤ 1600 * tx_packet_length r ∧
       tx_packet_length r ≤ length_ tx ∧
       receive_bandwidth p * transmission_interval r ≤ 1600 * rx_packet_length r ∧
       rx_packet_length r ≤ length_ rx) ∨
  ((∀ c, ¬ candidate p c) ∧ GetLinkParameters p = sco_parameters p ∧
   ∀ r, sco_parameters p = Some r → extended r = false).
Proof.
  apply (GetLinkParameters_optimal (MkScoConnectionParameters 8000 8000 10 0x60 DO_NOT_CARE 0x0388)).
  - unfold parameters_ok. bounds.
  - discriminate.
  - discriminate.
Defined.
