(* ===== verification/Connections.v ===== *)
(** * Connections and their handles (connection_handle.h, acl_connection.cc,
    le_acl_connection.cc, acl_connection_handler.cc under model/controller) *)

From S2P Require Import Prelude HciTypes Properties Address CsTypes Sco.

(** ** Connection handles *)

Definition kAclRangeStart := 0x000.
Definition kAclRangeEnd := 0x0FF.
Definition kScoRangeStart := 0x100.
Definition kScoRangeEnd := 0x1FF.
Definition kLeAclRangeStart := 0x200.
Definition kLeAclRangeEnd := 0x2FF.
Definition kBisRangeStart := 0xD00.
Definition kBisRangeEnd := 0xDFF.
Definition kCisRangeStart := 0xE00.
Definition kCisRangeEnd := 0xEFF.

Definition IsAclConnectionHandle (h : Z) : bool := (kAclRangeStart <=? h) && (h <=? kAclRangeEnd).
Definition IsScoConnectionHandle (h : Z) : bool := (kScoRangeStart <=? h) && (h <=? kScoRangeEnd).
Definition IsLeAclConnectionHandle (h : Z) : bool :=
  (kLeAclRangeStart <=? h) && (h <=? kLeAclRangeEnd).
Definition IsBisConnectionHandle (h : Z) : bool := (kBisRangeStart <=? h) && (h <=? kBisRangeEnd).
Definition IsCisConnectionHandle (h : Z) : bool := (kCisRangeStart <=? h) && (h <=? kCisRangeEnd).

(** ** AclConnection

    Times are nanoseconds of the steady clock. *)

Inductive AclConnectionState := kActiveMode | kHoldMode | kSniffMode.

Definition supervision_timeout_ns : Z := 3000000000.

Module AclConnection.
Record AclConnection := MkAclConnection {
  handle : Z;
  address : Address;
  own_address : Address;
  rssi_ : Z;
  encrypted_ : bool;
  link_policy_settings_ : Z;
  state_ : AclConnectionState;
  role_ : Role.t;
  last_packet_timestamp_ : Z;
  timeout_ : Z;
}.
#[global] Instance AclConnection_rebuild : Rebuild AclConnection := λ c,
  MkAclConnection (handle c) (address c) (own_address c) (rssi_ c) (encrypted_ c)
    (link_policy_settings_ c) (state_ c) (role_ c) (last_packet_timestamp_ c) (timeout_ c).

Definition new (now : Z) (handle : Z) (address own_address : Address) (role : Role.t) : AclConnection :=
  MkAclConnection handle address own_address 0 false 0 kActiveMode role now supervision_timeout_ns.

Definition Encrypt (c : AclConnection) : AclConnection := c <| encrypted_ := true |>.
Definition IsEncrypted (c : AclConnection) : bool := encrypted_ c.
Definition SetLinkPolicySettings (settings : Z) (c : AclConnection) : AclConnection :=
  c <| link_policy_settings_ := settings |>.
Definition IsRoleSwitchEnabled (c : AclConnection) : bool :=
  negb (Z.land (link_policy_settings_ c) 0x1 =? 0).
Definition IsHoldModeEnabled (c : AclConnection) : bool :=
  negb (Z.land (link_policy_settings_ c) 0x2 =? 0).
Definition IsSniffModeEnabled (c : AclConnection) : bool :=
  negb (Z.land (link_policy_settings_ c) 0x4 =? 0).
Definition SetRole (role : Role.t) (c : AclConnection) : AclConnection := c <| role_ := role |>.
Definition SetRssi (rssi : Z) (c : AclConnection) : AclConnection := c <| rssi_ := rssi |>.
Definition ResetLinkTimer (now : Z) (c : AclConnection) : AclConnection :=
  c <| last_packet_timestamp_ := now |>.
Definition TimeUntilNearExpiring (now : Z) (c : AclConnection) : Z :=
  last_packet_timestamp_ c + Z.quot (timeout_ c) 2 - now.
Definition IsNearExpiring (now : Z) (c : AclConnection) : bool := TimeUntilNearExpiring now c <? 0.
Definition TimeUntilExpired (now : Z) (c : AclConnection) : Z :=
  last_packet_timestamp_ c + timeout_ c - now.
Definition HasExpired (now : Z) (c : AclConnection) : bool := TimeUntilExpired now c <? 0.
End AclConnection.
Export AclConnection (AclConnection).

(** ** LeAclConnection *)

Record LeAclConnectionParameters := MkLeAclConnectionParameters {
  conn_interval : Z;
  conn_subrate_factor : Z;
  conn_continuation_number : Z;
  conn_peripheral_latency : Z;
  conn_supervision_timeout : Z;
}.
#[export] Instance LeAclConnectionParameters_rebuild : Rebuild LeAclConnectionParameters := λ p,
  MkLeAclConnectionParameters (conn_interval p) (conn_subrate_factor p)
    (conn_continuation_number p) (conn_peripheral_latency p) (conn_supervision_timeout p).
Definition default_connection_parameters : LeAclConnectionParameters :=
  MkLeAclConnectionParameters 0 1 0 0 0.

Record LeAclSubrateParameters := MkLeAclSubrateParameters {
  subrate_min : Z;
  subrate_max : Z;
  subrate_max_latency : Z;
  continuation_number : Z;
  supervision_timeout : Z;
}.
Definition default_subrate_parameters : LeAclSubrateParameters :=
  MkLeAclSubrateParameters 1 1 0 0 0x0c80.

Module LeAclConnection.
Record LeAclConnection := MkLeAclConnection {
  handle : Z;
  address : AddressWithType;
  own_address : AddressWithType;
  resolved_address : AddressWithType;
  role : Role.t;
  parameters : LeAclConnectionParameters;
  remote_supported_features : option Z;
  subrate_parameters : LeAclSubrateParameters;
  cs_parameters : LeCsParameters;
  ltk : option (list Z);
  rssi_ : Z;
  encrypted_ : bool;
  last_packet_timestamp_ : Z;
  timeout_ : Z;
  tx_phy_ : PhyType.t;
  rx_phy_ : PhyType.t;
  initiated_phy_update_ : bool;
}.
#[global] Instance LeAclConnection_rebuild : Rebuild LeAclConnection := λ c,
  MkLeAclConnection (handle c) (address c) (own_address c) (resolved_address c) (role c)
    (parameters c) (remote_supported_features c) (subrate_parameters c)
    (cs_parameters c) (ltk c) (rssi_ c) (encrypted_ c) (last_packet_timestamp_ c) (timeout_ c) (tx_phy_ c) (rx_phy_ c)
    (initiated_phy_update_ c).

Definition new (now : Z) (handle : Z) (address own_address resolved_address : AddressWithType)
    (role : Role.t) (parameters : LeAclConnectionParameters)
    (subrate_parameters : LeAclSubrateParameters) : LeAclConnection :=
  MkLeAclConnection handle address own_address resolved_address role parameters None
    subrate_parameters LeCsParameters.new None 0 false now supervision_timeout_ns PhyType.LE_1M PhyType.LE_1M false.

Definition Encrypt (c : LeAclConnection) : LeAclConnection := c <| encrypted_ := true |>.
Definition IsEncrypted (c : LeAclConnection) : bool := encrypted_ c.
Definition SetRssi (rssi : Z) (c : LeAclConnection) : LeAclConnection := c <| rssi_ := rssi |>.
Definition ResetLinkTimer (now : Z) (c : LeAclConnection) : LeAclConnection :=
  c <| last_packet_timestamp_ := now |>.
Definition TimeUntilNearExpiring (now : Z) (c : LeAclConnection) : Z :=
  last_packet_timestamp_ c + Z.quot (timeout_ c) 2 - now.
Definition IsNearExpiring (now : Z) (c : LeAclConnection) : bool :=
  TimeUntilNearExpiring now c <? 0.
Definition TimeUntilExpired (now : Z) (c : LeAclConnection) : Z :=
  last_packet_timestamp_ c + timeout_ c - now.
Definition HasExpired (now : Z) (c : LeAclConnection) : bool := TimeUntilExpired now c <? 0.
Definition InitiatePhyUpdate (c : LeAclConnection) : LeAclConnection :=
  c <| initiated_phy_update_ := true |>.
Definition PhyUpdateComplete (c : LeAclConnection) : LeAclConnection :=
  c <| initiated_phy_update_ := false |>.
Definition SetTxPhy (phy : PhyType.t) (c : LeAclConnection) : LeAclConnection := c <| tx_phy_ := phy |>.
Definition SetRxPhy (phy : PhyType.t) (c : LeAclConnection) : LeAclConnection := c <| rx_phy_ := phy |>.
End LeAclConnection.
Export LeAclConnection (LeAclConnection).

(** ** AclConnectionHandler *)

Record AclConnectionHandler := MkHandler {
  acl_connections_ : gmap Z AclConnection;
  le_acl_connections_ : gmap Z LeAclConnection;
  sco_connections_ : gmap Z ScoConnection;
  last_acl_handle_ : Z;
  last_sco_handle_ : Z;
  last_le_acl_handle_ : Z;
}.
#[export] Instance AclConnectionHandler_rebuild : Rebuild AclConnectionHandler := λ h,
  MkHandler (acl_connections_ h) (le_acl_connections_ h) (sco_connections_ h)
    (last_acl_handle_ h) (last_sco_handle_ h) (last_le_acl_handle_ h).

Definition empty_handler : AclConnectionHandler :=
  MkHandler ∅ ∅ ∅ kAclRangeStart kScoRangeStart kLeAclRangeStart.

(** [if (++last > range_end) last = range_start]. *)
Definition next_handle (range_start range_end last : Z) : Z :=
  let last := u16 (last + 1) in
  if range_end <? last then range_start else last.

(** The loop of [GetUnusedHandle], at most [fuel] rounds of it. *)
Fixpoint skip_used {C} (fuel : nat) (connections : gmap Z C) (range_start range_end last : Z)
  : outcome Z :=
  match connections !! last with
  | None => Ok last
  | Some _ =>
      match fuel with
      | O => Hang
      | S fuel =>
          skip_used fuel connections range_start range_end (next_handle range_start range_end last)
      end
  end.

(** The handle and the new value of [last].  The candidates repeat after a
    whole turn of the range: as many rounds as the range has handles decide. *)
Definition GetUnusedHandle {C} (connections : gmap Z C) (range_start range_end last : Z)
  : outcome (Z * Z) :=
  unused ← skip_used (Z.to_nat (range_end - range_start + 1)) connections range_start range_end last;
  Ok (unused, next_handle range_start range_end unused).

Definition HasAclHandle (handle : Z) (h : AclConnectionHandler) : bool :=
  bool_decide (is_Some (acl_connections_ h !! handle)).
Definition HasLeAclHandle (handle : Z) (h : AclConnectionHandler) : bool :=
  bool_decide (is_Some (le_acl_connections_ h !! handle)).
Definition HasScoHandle (handle : Z) (h : AclConnectionHandler) : bool :=
  bool_decide (is_Some (sco_connections_ h !! handle)).

(** [emplace] leaves an existing entry alone. *)
Definition emplace {C} (k : Z) (c : C) (m : gmap Z C) : gmap Z C :=
  match m !! k with Some _ => m | None => <[k := c]> m end.

Definition CreateConnection (now : Z) (addr own_addr : Address) (h : AclConnectionHandler)
  : outcome (Z * AclConnectionHandler) :=
  '(handle, last) ← GetUnusedHandle (acl_connections_ h) kAclRangeStart kAclRangeEnd
                      (last_acl_handle_ h);
  Ok (handle,
      h <| last_acl_handle_ := last |>
        <| acl_connections_ ::= emplace handle (AclConnection.new now handle addr own_addr Role.CENTRAL) |>).

Definition CreateLeConnection (now : Z) (addr resolved_peer own_addr : AddressWithType)
    (role : Role.t) (connection_parameters : LeAclConnectionParameters)
    (subrate_parameters : LeAclSubrateParameters) (h : AclConnectionHandler)
  : outcome (Z * AclConnectionHandler) :=
  '(handle, last) ← GetUnusedHandle (le_acl_connections_ h) kLeAclRangeStart kLeAclRangeEnd
                      (last_le_acl_handle_ h);
  Ok (handle,
      h <| last_le_acl_handle_ := last |>
        <| le_acl_connections_ ::=
             emplace handle (LeAclConnection.new now handle addr own_addr resolved_peer role
                               connection_parameters subrate_parameters) |>).

Definition CreateScoConnection (addr : Address) (parameters : ScoConnectionParameters)
    (state : ScoState) (datapath : ScoDatapath) (legacy : bool) (h : AclConnectionHandler)
  : outcome AclConnectionHandler :=
  '(handle, last) ← GetUnusedHandle (sco_connections_ h) kScoRangeStart kScoRangeEnd
                      (last_sco_handle_ h);
  Ok (h <| last_sco_handle_ := last |>
        <| sco_connections_ ::=
             emplace handle (new_ScoConnection addr parameters state datapath legacy) |>).

(** Accessors that assert the handle exists. *)
Definition GetAclConnection (handle : Z) (h : AclConnectionHandler) : outcome AclConnection :=
  match acl_connections_ h !! handle with Some c => Ok c | None => Fatal end.
Definition GetLeAclConnection (handle : Z) (h : AclConnectionHandler) : outcome LeAclConnection :=
  match le_acl_connections_ h !! handle with Some c => Ok c | None => Fatal end.
Definition GetScoAddress (handle : Z) (h : AclConnectionHandler) : outcome Address :=
  match sco_connections_ h !! handle with Some c => Ok (address_ c) | None => Fatal end.

Section Lookup.
Context `{IterationOrder}.

Definition find_sco (addr : Address) (h : AclConnectionHandler) : option (Z * ScoConnection) :=
  find_first (λ '(_, c), bool_decide (address_ c = addr)) (iterate (sco_connections_ h)).

Definition GetAclConnectionHandle (bd_addr : Address) (h : AclConnectionHandler) : option Z :=
  fst <$> find_first (λ '(_, c), bool_decide (AclConnection.address c = bd_addr))
            (iterate (acl_connections_ h)).

Definition GetLeAclConnectionHandle (local_address remote_address : Address)
    (h : AclConnectionHandler) : option Z :=
  fst <$> find_first
    (λ '(_, c),
       bool_decide (GetAddress (LeAclConnection.address c) = remote_address) &&
       bool_decide (GetAddress (LeAclConnection.own_address c) = local_address))
    (iterate (le_acl_connections_ h)).

Definition GetScoConnectionHandle (addr : Address) (h : AclConnectionHandler) : option Z :=
  fst <$> find_sco addr h.

Definition HasPendingScoConnection (addr : Address) (h : AclConnectionHandler) : bool :=
  match find_sco addr h with
  | Some (_, c) =>
      bool_decide (sco_state_ c = SCO_STATE_PENDING) ||
      bool_decide (sco_state_ c = SCO_STATE_SENT_ESCO_CONNECTION_REQUEST) ||
      bool_decide (sco_state_ c = SCO_STATE_SENT_SCO_CONNECTION_REQUEST)
  | None => false
  end.

Definition GetScoConnectionState (addr : Address) (h : AclConnectionHandler) : ScoState :=
  match find_sco addr h with Some (_, c) => sco_state_ c | None => SCO_STATE_CLOSED end.

Definition IsLegacyScoConnection (addr : Address) (h : AclConnectionHandler) : bool :=
  match find_sco addr h with Some (_, c) => legacy_ c | None => false end.

Definition GetScoConnectionParameters (addr : Address) (h : AclConnectionHandler)
  : ScoConnectionParameters :=
  match find_sco addr h with Some (_, c) => parameters_ c | None => no_connection_parameters end.

Definition GetScoLinkParameters (addr : Address) (h : AclConnectionHandler) : ScoLinkParameters :=
  match find_sco addr h with Some (_, c) => link_parameters_ c | None => no_link_parameters end.

(** Erasing runs the destructor, which asserts that no stream is left. *)
Definition CancelPendingScoConnection (addr : Address) (h : AclConnectionHandler)
  : outcome AclConnectionHandler :=
  match find_sco addr h with
  | Some (handle, c) => _ ← destroy c; Ok (h <| sco_connections_ ::= delete handle |>)
  | None => Ok h
  end.

(** The overload that takes the link parameters chosen by the peer.  [task] is
    the identifier [startStream()] returns if it is called. *)
Definition AcceptPendingScoConnection (addr : Address) (parameters : ScoLinkParameters) (task : Z)
    (h : AclConnectionHandler) : outcome (bool * AclConnectionHandler) :=
  match find_sco addr h with
  | Some (handle, c) =>
      c ← StartStream task (SetState SCO_STATE_OPENED (SetLinkParameters parameters c));
      Ok (true, h <| sco_connections_ ::= <[handle := c]> |>)
  | None => Ok (false, h)
  end.

(** The overload that negotiates with the connection parameters of the peer. *)
Definition AcceptPendingScoConnection_negotiate (addr : Address)
    (parameters : ScoConnectionParameters) (task : Z) (h : AclConnectionHandler)
  : outcome (bool * AclConnectionHandler) :=
  match find_sco addr h with
  | Some (handle, c) =>
      let '(ok, c) := NegotiateLinkParameters parameters c in
      let c := SetState (if ok then SCO_STATE_OPENED else SCO_STATE_CLOSED) c in
      c ← if ok then StartStream task c else Ok c;
      Ok (ok, h <| sco_connections_ ::= <[handle := c]> |>)
  | None => Ok (false, h)
  end.

(** [Disconnect]: the flag, the new state and the tasks stopped. *)
Definition Disconnect (handle : Z) (h : AclConnectionHandler)
  : outcome (bool * AclConnectionHandler * list Z) :=
  match sco_connections_ h !! handle with
  | Some c =>
      let '(c, stopped) := StopStream c in
      _ ← destroy c;
      Ok (true, h <| sco_connections_ ::= delete handle |>, stopped)
  | None =>
      match acl_connections_ h !! handle with
      | Some c =>
          _ ← assert (bool_decide (GetScoConnectionHandle (AclConnection.address c) h = None));
          Ok (true, h <| acl_connections_ ::= delete handle |>, [])
      | None =>
          if HasLeAclHandle handle h then
            Ok (true, h <| le_acl_connections_ ::= delete handle |>, [])
          else Ok (false, h, [])
      end
  end.

(** [Reset]: the new state and the tasks stopped. *)
Definition Reset (h : AclConnectionHandler) : AclConnectionHandler * list Z :=
  (MkHandler ∅ ∅ ∅ kAclRangeStart kScoRangeStart kLeAclRangeStart,
   concat ((λ '(_, c), snd (StopStream c)) <$> iterate (sco_connections_ h))).

Definition GetScoHandles (h : AclConnectionHandler) : list Z := fst <$> iterate (sco_connections_ h).
Definition GetAclHandles (h : AclConnectionHandler) : list Z := fst <$> iterate (acl_connections_ h).
Definition GetLeAclHandles (h : AclConnectionHandler) : list Z :=
  fst <$> iterate (le_acl_connections_ h).
End Lookup.

(** ** Proofs *)

(** *** The search for an unused handle *)
Section Unused.
Context {C : Type} (m : gmap Z C) (s e : Z).
Context (Hs : 0 ≤ s) (Hse : s ≤ e) (He : e < 2 ^ 16 - 1).

Lemma next_handle_range last : s ≤ last ≤ e → s ≤ next_handle s e last ≤ e.
Proof.
  intros. unfold next_handle. rewrite wrap_id by (unfold fits; lia).
  destruct (Z.ltb_spec e (last + 1)); lia.
Qed.

(** The distance to a given handle shrinks by one at each round. *)
Lemma next_handle_distance last u :
  s ≤ last ≤ e → s ≤ u ≤ e → last ≠ u →
  (u - next_handle s e last) mod (e - s + 1) = (u - last) mod (e - s + 1) - 1.
Proof.
  intros. unfold next_handle. rewrite wrap_id by (unfold fits; lia).
  assert (∀ x, 0 ≤ x < e - s + 1 → x mod (e - s + 1) = x) as Hmod by (intros; apply Z.mod_small; lia).
  assert (∀ x, - (e - s + 1) ≤ x < 0 → x mod (e - s + 1) = x + (e - s + 1)) as Hneg.
  { intros x Hx. rewrite <-(Z.mod_unique x (e - s + 1) (-1) (x + (e - s + 1))); lia. }
  destruct (Z.ltb_spec e (last + 1)).
  - assert (last = e) as -> by lia. rewrite Hmod, Hneg by lia. lia.
  - destruct (decide (last < u)); [rewrite !Hmod by lia; lia|].
    rewrite !Hneg by lia. lia.
Qed.

Lemma skip_used_sound fuel last h :
  s ≤ last ≤ e → skip_used fuel m s e last = Ok h → s ≤ h ≤ e ∧ m !! h = None.
Proof.
  revert last. induction fuel as [|fuel IH]; intros last Hlast; simpl;
    destruct (m !! last) eqn:E; intros; simplify_eq; [done| |done].
  by apply IH in H; [|apply next_handle_range].
Qed.

Lemma skip_used_finds fuel last u :
  s ≤ last ≤ e → s ≤ u ≤ e → m !! u = None →
  (u - last) mod (e - s + 1) ≤ Z.of_nat fuel → ∃ h, skip_used fuel m s e last = Ok h.
Proof.
  revert last. induction fuel as [|fuel IH]; intros last Hlast Hu Hfree Hd; simpl;
    destruct (m !! last) eqn:E; eauto.
  - pose proof (Z.mod_pos_bound (u - last) (e - s + 1) ltac:(lia)).
    assert ((u - last) mod (e - s + 1) = 0) as [q Hq]%Z.mod_divide by lia; [|lia].
    assert (q = 0) by nia. assert (u = last) by lia. congruence.
  - apply IH; auto using next_handle_range.
    rewrite next_handle_distance by (auto; congruence). lia.
Qed.

Lemma skip_used_full fuel last :
  s ≤ last ≤ e → (∀ u, s ≤ u ≤ e → is_Some (m !! u)) → skip_used fuel m s e last = Hang.
Proof.
  revert last. induction fuel as [|fuel IH]; intros last Hlast Hfull; simpl;
    destruct (Hfull last Hlast) as [? ->]; [done|].
  apply IH; auto using next_handle_range.
Qed.

Lemma GetUnusedHandle_Ok last u l :
  s ≤ last ≤ e → GetUnusedHandle m s e last = Ok (u, l) →
  s ≤ u ≤ e ∧ m !! u = None ∧ s ≤ l ≤ e.
Proof.
  intros Hlast (x & Hx & [= <- <-])%bind_Ok.
  apply skip_used_sound in Hx as [??]; [|done]. auto using next_handle_range.
Qed.

(** Allocation of a handle in a range [s..e].  If some handle of the range
    is free, the loop ends and returns a free handle of the range, and the next
    search starts in the range.  If none is, the loop never ends: no number of
    rounds is enough, so the caller hangs. *)
Theorem GetUnusedHandle_spec (last : Z) (Hlast : s ≤ last ≤ e) :
  ((∃ u, s ≤ u ≤ e ∧ m !! u = None) ∧
   ∃ h last', GetUnusedHandle m s e last = Ok (h, last') ∧
     s ≤ h ≤ e ∧ m !! h = None ∧ s ≤ last' ≤ e) ∨
  ((∀ u, s ≤ u ≤ e → is_Some (m !! u)) ∧ ∀ fuel, skip_used fuel m s e last = Hang).
Proof.
  destruct (decide (Exists (λ u, m !! u = None) (seqZ s (e - s + 1)))) as [Hfree|Hfull].
  - left. apply Exists_exists in Hfree as (u & Hu%elem_of_seqZ & Hfree).
    split; [exists u; split; [lia|done]|].
    destruct (skip_used_finds (Z.to_nat (e - s + 1)) last u) as [h Hh]; [done|lia|done| |].
    { pose proof (Z.mod_pos_bound (u - last) (e - s + 1) ltac:(lia)). lia. }
    exists h, (next_handle s e h). unfold GetUnusedHandle. rewrite Hh.
    destruct (skip_used_sound _ _ _ Hlast Hh). auto using next_handle_range.
  - right. assert (∀ u, s ≤ u ≤ e → is_Some (m !! u)) as Hall.
    { intros u Hu. apply not_eq_None_Some. intros Hn. apply Hfull, Exists_exists.
      exists u. split; [apply elem_of_seqZ; lia|done]. }
    split; [done|]. intros. by apply skip_used_full.
Qed.
End Unused.

Lemma GetUnusedHandle_spec_witness :
  let m : gmap Z () := list_to_map ((λ k, (k, ())) <$> seqZ 0x100 3) in
  ((∃ u, 0x100 ≤ u ≤ 0x102 ∧ m !! u = None) ∧
   ∃ h last', GetUnusedHandle m 0x100 0x102 0x101 = Ok (h, last') ∧
     0x100 ≤ h ≤ 0x102 ∧ m !! h = None ∧ 0x100 ≤ last' ≤ 0x102) ∨
  ((∀ u, 0x100 ≤ u ≤ 0x102 → is_Some (m !! u)) ∧
   ∀ fuel, skip_used fuel m 0x100 0x102 0x101 = Hang).
Proof. apply GetUnusedHandle_spec; lia. Defined.

(** *** Invariant of the connection tables *)

Record handler_wf (h : AclConnectionHandler) : Prop := {
  wf_acl : ∀ k c, acl_connections_ h !! k = Some c →
             kAclRangeStart ≤ k ≤ kAclRangeEnd ∧ AclConnection.handle c = k;
  wf_le : ∀ k c, le_acl_connections_ h !! k = Some c →
            kLeAclRangeStart ≤ k ≤ kLeAclRangeEnd ∧ LeAclConnection.handle c = k;
  wf_sco : ∀ k c, sco_connections_ h !! k = Some c → kScoRangeStart ≤ k ≤ kScoRangeEnd;
  wf_last_acl : kAclRangeStart ≤ last_acl_handle_ h ≤ kAclRangeEnd;
  wf_last_le : kLeAclRangeStart ≤ last_le_acl_handle_ h ≤ kLeAclRangeEnd;
  wf_last_sco : kScoRangeStart ≤ last_sco_handle_ h ≤ kScoRangeEnd;
}.

Lemma empty_handler_wf : handler_wf empty_handler.
Proof. by split; simpl. Qed.

(** Updates of a table that keep what holds of each entry. *)
Lemma emplace_forall {C} (P : Z → C → Prop) m k c :
  P k c → map_Forall P m → map_Forall P (emplace k c m).
Proof. unfold emplace. intros. destruct (m !! k) eqn:E; [done|]. by apply map_Forall_insert_2. Qed.

Lemma emplace_fresh {C} (m : gmap Z C) k c : m !! k = None → emplace k c m = <[k := c]> m.
Proof. unfold emplace. by intros ->. Qed.

Ltac handler_case :=
  repeat match goal with
  | H : _ ≫= _ = Ok _ |- _ => apply bind_Ok in H as (? & ? & ?)
  | x : _ * _ |- _ => destruct x
  | H : Ok _ = Ok _ |- _ => injection H as ?; subst
  | H : Ok _ = Ok _ |- _ => injection H as ? ?; subst
  end.

Lemma handler_wf_create_acl now a o h k h' :
  handler_wf h → CreateConnection now a o h = Ok (k, h') → handler_wf h'.
Proof.
  intros [Ha Hl Hsc Hla Hll Hls] ([u l] & Hu & [= <- <-])%bind_Ok.
  apply GetUnusedHandle_Ok in Hu as (Hr & Hfree & Hlast); [|done..].
  split; simpl; try done. by apply emplace_forall.
Qed.

Lemma handler_wf_create_le now a r o role cp sp h k h' :
  handler_wf h → CreateLeConnection now a r o role cp sp h = Ok (k, h') → handler_wf h'.
Proof.
  intros [Ha Hl Hsc Hla Hll Hls] ([u l] & Hu & [= <- <-])%bind_Ok.
  apply GetUnusedHandle_Ok in Hu as (Hr & Hfree & Hlast); [|done..].
  split; simpl; try done. by apply emplace_forall.
Qed.

(** A free handle of a range is found. *)
Lemma GetUnusedHandle_finds {C} (m : gmap Z C) s e last :
  0 ≤ s → s ≤ e → e < 2 ^ 16 - 1 → s ≤ last ≤ e → (∃ u, s ≤ u ≤ e ∧ m !! u = None) →
  ∃ k, GetUnusedHandle m s e last = Ok (k, next_handle s e k) ∧ m !! k = None.
Proof.
  intros Hs Hse He Hlast (u & Hu & Hfree).
  destruct (skip_used_finds m s e Hs Hse He (Z.to_nat (e - s + 1)) last u) as [k Hk]; [done|done|done| |].
  { pose proof (Z.mod_pos_bound (u - last) (e - s + 1) ltac:(lia)). lia. }
  assert (m !! k = None) as Hnone by by eapply (skip_used_sound m s e) in Hk as [_ ?].
  exists k. unfold GetUnusedHandle. by rewrite Hk.
Qed.

(** A new connection takes a free handle of the range and changes no other. *)
Lemma CreateLeConnection_fresh now a r o role cp sp h :
  handler_wf h → (∃ u, kLeAclRangeStart ≤ u ≤ kLeAclRangeEnd ∧ le_acl_connections_ h !! u = None) →
  ∃ k l, CreateLeConnection now a r o role cp sp h =
    Ok (k, h <| last_le_acl_handle_ := l |>
             <| le_acl_connections_ ::= insert k (LeAclConnection.new now k a o r role cp sp) |>) ∧
  le_acl_connections_ h !! k = None.
Proof.
  intros Hwf Hfree. destruct (GetUnusedHandle_finds (le_acl_connections_ h) kLeAclRangeStart kLeAclRangeEnd
    (last_le_acl_handle_ h)) as (k & E & Hnone); [done..|apply Hwf|done|].
  exists k, (next_handle kLeAclRangeStart kLeAclRangeEnd k). split; [|done].
  unfold CreateLeConnection. rewrite E. cbn [mbind outcome_bind]. cbn. by rewrite emplace_fresh.
Qed.
(** A connection made has a handle of its own. *)
Lemma CreateLeConnection_inserts now a r o role cp sp h k h' :
  handler_wf h → CreateLeConnection now a r o role cp sp h = Ok (k, h') →
  le_acl_connections_ h !! k = None ∧
  le_acl_connections_ h' = <[k := LeAclConnection.new now k a o r role cp sp]> (le_acl_connections_ h).
Proof.
  intros Hwf ([u l] & Hu & [= <- <-])%bind_Ok.
  apply GetUnusedHandle_Ok in Hu as (_ & Hfree & _); [|done..|apply Hwf]. cbn. by rewrite emplace_fresh.
Qed.
Lemma CreateConnection_fresh now a o h :
  handler_wf h → (∃ u, kAclRangeStart ≤ u ≤ kAclRangeEnd ∧ acl_connections_ h !! u = None) →
  ∃ k l, CreateConnection now a o h =
    Ok (k, h <| last_acl_handle_ := l |>
             <| acl_connections_ ::= insert k (AclConnection.new now k a o Role.CENTRAL) |>) ∧
  acl_connections_ h !! k = None.
Proof.
  intros Hwf Hfree. destruct (GetUnusedHandle_finds (acl_connections_ h) kAclRangeStart kAclRangeEnd
    (last_acl_handle_ h)) as (k & E & Hnone); [done..|apply Hwf|done|].
  exists k, (next_handle kAclRangeStart kAclRangeEnd k). split; [|done].
  unfold CreateConnection. rewrite E. cbn [mbind outcome_bind]. cbn. by rewrite emplace_fresh.
Qed.

Lemma handler_wf_create_sco a p st dp lg h h' :
  handler_wf h → CreateScoConnection a p st dp lg h = Ok h' → handler_wf h'.
Proof.
  intros [Ha Hl Hsc Hla Hll Hls] ([u l] & Hu & [= <-])%bind_Ok.
  apply GetUnusedHandle_Ok in Hu as (Hr & Hfree & Hlast); [|done..].
  split; simpl; try done. by apply emplace_forall.
Qed.

(** Shrinking or updating the SCO table. *)
Lemma handler_wf_sco_delete k h :
  handler_wf h → handler_wf (h <| sco_connections_ ::= delete k |>).
Proof. intros []. split; simpl; try done. by apply (map_Forall_delete (λ k _, kScoRangeStart ≤ k ≤ kScoRangeEnd)). Qed.

Lemma handler_wf_sco_insert k c c' h :
  sco_connections_ h !! k = Some c → handler_wf h →
  handler_wf (h <| sco_connections_ ::= <[k := c']> |>).
Proof.
  intros Hk []. split; simpl; try done.
  apply (map_Forall_insert_2 (λ k _, kScoRangeStart ≤ k ≤ kScoRangeEnd)); eauto.
Qed.

Section Steps.
Context `{IterationOrder}.

Lemma find_sco_Some addr h k c :
  find_sco addr h = Some (k, c) → sco_connections_ h !! k = Some c ∧ address_ c = addr.
Proof.
  intros [Hin Hf]%find_first_Some. apply elem_of_iterate in Hin.
  by apply bool_decide_eq_true in Hf.
Qed.

(** The calls that change the tables. *)
Inductive handler_step (h : AclConnectionHandler) : AclConnectionHandler → Prop :=
| step_create_acl now a o k h' : CreateConnection now a o h = Ok (k, h') → handler_step h h'
| step_create_le now a r o role cp sp k h' :
    CreateLeConnection now a r o role cp sp h = Ok (k, h') → handler_step h h'
| step_create_sco a p st dp lg h' :
    CreateScoConnection a p st dp lg h = Ok h' → handler_step h h'
| step_cancel_sco a h' : CancelPendingScoConnection a h = Ok h' → handler_step h h'
| step_accept_sco a p task ok h' :
    AcceptPendingScoConnection a p task h = Ok (ok, h') → handler_step h h'
| step_negotiate_sco a p task ok h' :
    AcceptPendingScoConnection_negotiate a p task h = Ok (ok, h') → handler_step h h'
| step_disconnect k ok h' stopped : Disconnect k h = Ok (ok, h', stopped) → handler_step h h'
| step_reset : handler_step h (fst (Reset h)).

Lemma handler_step_wf h h' : handler_wf h → handler_step h h' → handler_wf h'.
Proof.
  intros Hwf Hstep. destruct Hstep as [? ? ? ? ? E|? ? ? ? ? ? ? ? ? E|? ? ? ? ? ? E|? ? E
    |? ? ? ? ? E|? ? ? ? ? E|k ? ? ? E|].
  - by eapply handler_wf_create_acl.
  - by eapply handler_wf_create_le.
  - by eapply handler_wf_create_sco.
  - unfold CancelPendingScoConnection in E. destruct (find_sco _ _) as [[k c]|]; [|by simplify_eq].
    apply bind_Ok in E as (? & _ & [= <-]). by apply handler_wf_sco_delete.
  - unfold AcceptPendingScoConnection in E.
    destruct (find_sco _ _) as [[k c]|] eqn:Hf; [|by simplify_eq].
    apply find_sco_Some in Hf as [Hf _].
    apply bind_Ok in E as (? & _ & [= _ <-]). by eapply handler_wf_sco_insert.
  - unfold AcceptPendingScoConnection_negotiate in E.
    destruct (find_sco _ _) as [[k c]|] eqn:Hf; [|by simplify_eq].
    apply find_sco_Some in Hf as [Hf _]. destruct (NegotiateLinkParameters _ _) as [b c'].
    apply bind_Ok in E as (? & _ & [= _ <-]). by eapply handler_wf_sco_insert.
  - unfold Disconnect in E. destruct (sco_connections_ h !! k).
    { apply bind_Ok in E as (? & _ & [= _ <- _]). by apply handler_wf_sco_delete. }
    destruct (acl_connections_ h !! k).
    { apply bind_Ok in E as (? & _ & [= _ <- _]). destruct Hwf. split; simpl; try done.
      by apply map_Forall_delete. }
    destruct (HasLeAclHandle k h); simplify_eq; [|done].
    destruct Hwf. split; simpl; try done. by apply map_Forall_delete.
  - apply empty_handler_wf.
Qed.

(** In every state the calls of the connection handler can reach, each
    table only holds handles of its own range, each connection carries the
    handle it is stored under, the next handles are in range, and so a handle
    names a connection of at most one kind. *)
Theorem handler_reachable_wf (h : AclConnectionHandler) (Hr : rtc handler_step empty_handler h) :
  handler_wf h ∧
  ∀ k, ¬ (HasAclHandle k h = true ∧ HasLeAclHandle k h = true) ∧
       ¬ (HasAclHandle k h = true ∧ HasScoHandle k h = true) ∧
       ¬ (HasLeAclHandle k h = true ∧ HasScoHandle k h = true).
Proof.
  assert (handler_wf h) as Hwf.
  { assert (handler_wf empty_handler) as H0 by apply empty_handler_wf.
    induction Hr; eauto using handler_step_wf. }
  split; [done|]. intros k. unfold HasAclHandle, HasLeAclHandle, HasScoHandle.
  rewrite !bool_decide_eq_true.
  destruct Hwf as [Ha Hl Hs _ _ _].
  repeat split; intros [[c1 H1] [c2 H2]];
    repeat match goal with
    | H : _ !! _ = Some _ |- _ => first [apply Ha in H|apply Hl in H|apply Hs in H]
    end;
    unfold kAclRangeStart, kAclRangeEnd, kLeAclRangeStart, kLeAclRangeEnd, kScoRangeStart,
      kScoRangeEnd in *; lia.
Qed.

(** What [Disconnect] returns, if it does. *)
Lemma Disconnect_cases k h :
  match Disconnect k h with
  | Ok r => (∃ l, r = (true, h <| sco_connections_ ::= delete k |>, l)) ∨
            r = (true, h <| acl_connections_ ::= delete k |>, []) ∨
            r = (true, h <| le_acl_connections_ ::= delete k |>, []) ∨ r = (false, h, [])
  | _ => True
  end.
Proof.
  unfold Disconnect. destruct (sco_connections_ h !! k); [cbn; eauto|].
  destruct (acl_connections_ h !! k).
  - destruct (bool_decide _); cbn; auto.
  - destruct (HasLeAclHandle k h); cbn; auto.
Qed.

(** [Disconnect] on every branch.  It answers whether the handle is in
    use; it stops the stream of an SCO connection; it removes the connection of
    that handle and no other; and it only aborts on a classic connection whose
    peer still has an SCO connection. *)
Theorem Disconnect_spec (k : Z) (h : AclConnectionHandler) :
  match sco_connections_ h !! k, acl_connections_ h !! k, le_acl_connections_ h !! k with
  | Some c, _, _ =>
      Disconnect k h = Ok (true, h <| sco_connections_ ::= delete k |>,
                           match stream_handle_ c with Some t => [t] | None => [] end)
  | None, Some c, _ =>
      ((∀ k' c', sco_connections_ h !! k' = Some c' → address_ c' ≠ AclConnection.address c) ∧
       Disconnect k h = Ok (true, h <| acl_connections_ ::= delete k |>, [])) ∨
      ((∃ k' c', sco_connections_ h !! k' = Some c' ∧ address_ c' = AclConnection.address c) ∧
       Disconnect k h = Fatal)
  | None, None, Some _ => Disconnect k h = Ok (true, h <| le_acl_connections_ ::= delete k |>, [])
  | None, None, None => Disconnect k h = Ok (false, h, [])
  end.
Proof.
  unfold Disconnect, HasLeAclHandle.
  destruct (sco_connections_ h !! k); [done|].
  destruct (acl_connections_ h !! k) as [c|].
  - unfold GetScoConnectionHandle. destruct (find_sco _ h) as [[k' c']|] eqn:Hf; simpl.
    + right. apply find_sco_Some in Hf. eauto.
    + left. split; [|done]. intros k' c' Hk' Ha.
      apply elem_of_iterate in Hk'. unfold find_sco in Hf. rewrite find_first_None in Hf.
      apply Hf in Hk'. by apply bool_decide_eq_false in Hk'.
  - by destruct (le_acl_connections_ h !! k).
Qed.
End Steps.

Lemma handler_reachable_wf_witness :
  let h := empty_handler <| last_acl_handle_ := 1 |>
             <| acl_connections_ := {[ 0 := AclConnection.new 7 0 kAny kEmpty Role.CENTRAL ]} |> in
  handler_wf h ∧
  ∀ k, ¬ (HasAclHandle k h = true ∧ HasLeAclHandle k h = true) ∧
       ¬ (HasAclHandle k h = true ∧ HasScoHandle k h = true) ∧
       ¬ (HasLeAclHandle k h = true ∧ HasScoHandle k h = true).
Proof.
  apply (handler_reachable_wf (H := key_order)). apply rtc_once.
  apply (step_create_acl (H := key_order) _ 7 kAny kEmpty 0). vm_compute. reflexivity.
Defined.
