(* ===== verification/LeState.v ===== *)
(** * The state of the LE controller (le_controller.h, le_advertiser.h,
    controller_properties.h)

    The advertisers, the scanner, the initiator, the lists and the controller
    record, the environment the code runs in, and the monad of the handlers. *)

From S2P Require Import Prelude HciTypes Properties Address CsTypes Connections.

(** ** Time

    [steady_clock] counts nanoseconds; [slots] are 625 microseconds. *)
Definition milliseconds (n : Z) : Z := n * 1000000.
Definition slots (n : Z) : Z := n * 625000.

(** ** Advertisers *)

Record AdvertisingEventProperties := MkAdvertisingEventProperties {
  connectable_ : bool;
  scannable_ : bool;
  directed_ : bool;
  high_duty_cycle_ : bool;
  legacy_ : bool;
  anonymous_ : bool;
  include_tx_power_ : bool;
  decision_ : bool;
  include_adva_ : bool;
  include_adi_ : bool;
}.
Definition no_properties : AdvertisingEventProperties :=
  MkAdvertisingEventProperties false false false false false false false false false false.

Module LegacyAdvertiser.
Record LegacyAdvertiser := MkLegacyAdvertiser {
  advertising_enable : bool;
  advertising_address : AddressWithType;
  target_address : AddressWithType;
  next_event : Z;
  timeout : option Z;
  (** In slots. *)
  advertising_interval : Z;
  advertising_type : AdvertisingType.t;
  own_address_type : OwnAddressType.t;
  peer_address_type : PeerAddressType.t;
  peer_address : Address;
  advertising_channel_map : Z;
  advertising_filter_policy : AdvertisingFilterPolicy.t;
  advertising_data : list Z;
  scan_response_data : list Z;
}.
#[global] Instance LegacyAdvertiser_rebuild : Rebuild LegacyAdvertiser := λ a,
  MkLegacyAdvertiser (advertising_enable a) (advertising_address a) (target_address a)
    (next_event a) (timeout a) (advertising_interval a) (advertising_type a) (own_address_type a)
    (peer_address_type a) (peer_address a) (advertising_channel_map a)
    (advertising_filter_policy a) (advertising_data a) (scan_response_data a).

Definition new : LegacyAdvertiser :=
  MkLegacyAdvertiser false empty_address empty_address 0 None 0x0800 AdvertisingType.ADV_IND
    OwnAddressType.PUBLIC_DEVICE_ADDRESS PeerAddressType.PUBLIC_DEVICE_OR_IDENTITY_ADDRESS kEmpty
    0x07 AdvertisingFilterPolicy.ALL_DEVICES [] [].

Definition IsEnabled (a : LegacyAdvertiser) : bool := advertising_enable a.
Definition Disable (a : LegacyAdvertiser) : LegacyAdvertiser := a <| advertising_enable := false |>.

Definition IsScannable (a : LegacyAdvertiser) : bool :=
  bool_decide (advertising_type a ≠ AdvertisingType.ADV_NONCONN_IND) &&
  bool_decide (advertising_type a ≠ AdvertisingType.ADV_DIRECT_IND_HIGH) &&
  bool_decide (advertising_type a ≠ AdvertisingType.ADV_DIRECT_IND_LOW).
Definition IsConnectable (a : LegacyAdvertiser) : bool :=
  bool_decide (advertising_type a ≠ AdvertisingType.ADV_NONCONN_IND) &&
  bool_decide (advertising_type a ≠ AdvertisingType.ADV_SCAN_IND).
Definition IsDirected (a : LegacyAdvertiser) : bool :=
  bool_decide (advertising_type a = AdvertisingType.ADV_DIRECT_IND_HIGH) ||
  bool_decide (advertising_type a = AdvertisingType.ADV_DIRECT_IND_LOW).
End LegacyAdvertiser.
Export LegacyAdvertiser (LegacyAdvertiser).

(** Vol 6, Part B § 2.3.4.9. *)
Definition max_legacy_advertising_pdu_size : Z := 31.
Definition max_extended_advertising_pdu_size : Z := 1650.

Module ExtendedAdvertiser.
Record ExtendedAdvertiser := MkExtendedAdvertiser {
  advertising_enable : bool;
  advertising_address : AddressWithType;
  target_address : AddressWithType;
  next_event : Z;
  timeout : option Z;
  advertising_handle : Z;
  advertising_event_properties : AdvertisingEventProperties;
  primary_advertising_interval : Z;
  primary_advertising_channel_map : Z;
  own_address_type : OwnAddressType.t;
  peer_address_type : PeerAddressType.t;
  peer_address : Address;
  random_address : option Address;
  advertising_filter_policy : AdvertisingFilterPolicy.t;
  advertising_tx_power : Z;
  primary_advertising_phy : option PrimaryPhyType.t;
  secondary_max_skip : Z;
  secondary_advertising_phy : SecondaryPhyType.t;
  advertising_sid : Z;
  scan_request_notification_enable : bool;
  advertising_data : list Z;
  scan_response_data : list Z;
  partial_advertising_data : bool;
  partial_scan_response_data : bool;
  periodic_advertising_enable : bool;
  periodic_advertising_enable_latch : bool;
  periodic_advertising_interval : Z;
  periodic_advertising_data : list Z;
  partial_periodic_advertising_data : bool;
  next_periodic_event : Z;
  max_extended_advertising_events : Z;
  num_completed_extended_advertising_events : Z;
  constant_tone_extensions : bool;
}.
#[global] Instance ExtendedAdvertiser_rebuild : Rebuild ExtendedAdvertiser := λ a,
  MkExtendedAdvertiser (advertising_enable a) (advertising_address a) (target_address a)
    (next_event a) (timeout a) (advertising_handle a) (advertising_event_properties a)
    (primary_advertising_interval a) (primary_advertising_channel_map a) (own_address_type a)
    (peer_address_type a) (peer_address a) (random_address a) (advertising_filter_policy a)
    (advertising_tx_power a) (primary_advertising_phy a) (secondary_max_skip a)
    (secondary_advertising_phy a) (advertising_sid a) (scan_request_notification_enable a)
    (advertising_data a) (scan_response_data a) (partial_advertising_data a)
    (partial_scan_response_data a) (periodic_advertising_enable a)
    (periodic_advertising_enable_latch a) (periodic_advertising_interval a)
    (periodic_advertising_data a) (partial_periodic_advertising_data a) (next_periodic_event a)
    (max_extended_advertising_events a) (num_completed_extended_advertising_events a)
    (constant_tone_extensions a).

(** The enumerations are value initialised: to the enumerator of value 0, and
    [primary_advertising_phy], which has none, to no enumerator. *)
Definition new (advertising_handle : Z) : ExtendedAdvertiser :=
  MkExtendedAdvertiser false empty_address empty_address 0 None advertising_handle no_properties
    0 0 OwnAddressType.PUBLIC_DEVICE_ADDRESS PeerAddressType.PUBLIC_DEVICE_OR_IDENTITY_ADDRESS
    kEmpty None AdvertisingFilterPolicy.ALL_DEVICES 0 None 0 SecondaryPhyType.NO_PACKETS 0 false
    [] [] false false false false 0 [] false 0 0 0 false.

Definition IsEnabled (a : ExtendedAdvertiser) : bool := advertising_enable a.
Definition Disable (a : ExtendedAdvertiser) : ExtendedAdvertiser :=
  a <| advertising_enable := false |>.
Definition Enable (now : Z) (a : ExtendedAdvertiser) : ExtendedAdvertiser :=
  a <| advertising_enable := true |>
    <| periodic_advertising_enable_latch := periodic_advertising_enable a |>
    <| next_event := now |>.
Definition EnablePeriodic (now : Z) (a : ExtendedAdvertiser) : ExtendedAdvertiser :=
  a <| periodic_advertising_enable := true |>
    <| periodic_advertising_enable_latch := advertising_enable a |>
    <| next_periodic_event := now |>.
Definition DisablePeriodic (a : ExtendedAdvertiser) : ExtendedAdvertiser :=
  a <| periodic_advertising_enable := false |>
    <| periodic_advertising_enable_latch := false |>.
Definition IsPeriodicEnabled (a : ExtendedAdvertiser) : bool := periodic_advertising_enable_latch a.
Definition IsScannable (a : ExtendedAdvertiser) : bool := scannable_ (advertising_event_properties a).
Definition IsConnectable (a : ExtendedAdvertiser) : bool :=
  connectable_ (advertising_event_properties a).
Definition IsDirected (a : ExtendedAdvertiser) : bool := directed_ (advertising_event_properties a).

Definition GetMaxAdvertisingDataLength (p : AdvertisingEventProperties) : Z :=
  if legacy_ p && directed_ p then 0
  else if legacy_ p then max_legacy_advertising_pdu_size
  else if scannable_ p then 0
  else if negb (connectable_ p) then max_extended_advertising_pdu_size
  else
    let max_advertising_data_length := 254 in
    let max_advertising_data_length := u16 (max_advertising_data_length - 6) in
    let max_advertising_data_length := u16 (max_advertising_data_length - 2) in
    let max_advertising_data_length :=
      u16 (max_advertising_data_length - 6 * Z.b2z (directed_ p)) in
    u16 (max_advertising_data_length - 1 * Z.b2z (include_tx_power_ p)).

Definition GetMaxScanResponseDataLength (p : AdvertisingEventProperties) : Z :=
  if negb (scannable_ p) then 0
  else if legacy_ p then max_legacy_advertising_pdu_size
  else max_extended_advertising_pdu_size.

Definition GetRawAdvertisingEventProperties (p : AdvertisingEventProperties) : Z :=
  let mask := 0 in
  let mask := if connectable_ p then Z.lor mask 0x1 else mask in
  let mask := if scannable_ p then Z.lor mask 0x2 else mask in
  let mask := if directed_ p then Z.lor mask 0x4 else mask in
  let mask := if high_duty_cycle_ p then Z.lor mask 0x8 else mask in
  let mask := if legacy_ p then Z.lor mask 0x10 else mask in
  let mask := if anonymous_ p then Z.lor mask 0x20 else mask in
  if include_tx_power_ p then Z.lor mask 0x40 else mask.

Definition GetMaxPeriodicAdvertisingDataLength (periodic_advertising_interval : Z) : Z :=
  max_extended_advertising_pdu_size.
End ExtendedAdvertiser.
Export ExtendedAdvertiser (ExtendedAdvertiser).

(** ** Lists *)

Record FilterAcceptListEntry := MkFilterAcceptListEntry {
  fal_address_type : FilterAcceptListAddressType.t;
  fal_address : Address;
}.
#[export] Instance FilterAcceptListEntry_eq_dec : EqDecision FilterAcceptListEntry.
Proof. solve_decision. Defined.

Record ResolvingListEntry := MkResolvingListEntry {
  peer_identity_address_type : PeerAddressType.t;
  peer_identity_address : Address;
  peer_irk : list Z;
  local_irk : list Z;
  privacy_mode : PrivacyMode.t;
  local_resolvable_address : option Address;
  peer_resolvable_address : option Address;
}.
#[export] Instance ResolvingListEntry_rebuild : Rebuild ResolvingListEntry := λ e,
  MkResolvingListEntry (peer_identity_address_type e) (peer_identity_address e) (peer_irk e)
    (local_irk e) (privacy_mode e) (local_resolvable_address e) (peer_resolvable_address e).
#[export] Instance ResolvingListEntry_eq_dec : EqDecision ResolvingListEntry.
Proof. solve_decision. Defined.

Record PeriodicAdvertiserListEntry := MkPeriodicAdvertiserListEntry {
  pal_advertiser_address_type : AdvertiserAddressType.t;
  pal_advertiser_address : Address;
  pal_advertising_sid : Z;
}.
#[export] Instance PeriodicAdvertiserListEntry_eq_dec : EqDecision PeriodicAdvertiserListEntry.
Proof. solve_decision. Defined.

(** ** Scanner *)

Module Scanner.
Record PhyParameters := MkPhyParameters {
  enabled : bool;
  scan_type : LeScanType.t;
  scan_interval : Z;
  scan_window : Z;
}.
#[global] Instance PhyParameters_rebuild : Rebuild PhyParameters := λ p,
  MkPhyParameters (enabled p) (scan_type p) (scan_interval p) (scan_window p).
Definition no_phy : PhyParameters := MkPhyParameters false LeScanType.PASSIVE 0 0.

Record ScanRequest := MkScanRequest {
  connectable : bool;
  extended : bool;
  primary_phy : LlPhyType.t;
  secondary_phy : LlPhyType.t;
  timeout : Z;
}.

(** [pending_scan_requests] is a hash table: its entries are listed with their
    keys.  [history] holds the bytes of the reported packets. *)
Record Scanner := MkScanner {
  scan_enable : bool;
  period : Z;
  duration : Z;
  filter_duplicates : FilterDuplicates.t;
  own_address_type : OwnAddressType.t;
  scan_filter_policy : LeScanningFilterPolicy.t;
  le_1m_phy : PhyParameters;
  le_coded_phy : PhyParameters;
  pending_scan_requests : list (AddressWithType * ScanRequest);
  scan_timeout : option Z;
  periodical_timeout : option Z;
  history : list (list Z);
}.
#[global] Instance Scanner_rebuild : Rebuild Scanner := λ s,
  MkScanner (scan_enable s) (period s) (duration s) (filter_duplicates s) (own_address_type s)
    (scan_filter_policy s) (le_1m_phy s) (le_coded_phy s) (pending_scan_requests s)
    (scan_timeout s) (periodical_timeout s) (history s).
Definition new : Scanner :=
  MkScanner false 0 0 FilterDuplicates.DISABLED OwnAddressType.PUBLIC_DEVICE_ADDRESS
    LeScanningFilterPolicy.ACCEPT_ALL no_phy no_phy [] None None [].
Definition IsEnabled (s : Scanner) : bool := scan_enable s.
Definition IsPacketInHistory (packet : list Z) (s : Scanner) : bool :=
  existsb (λ a, bool_decide (a = packet)) (history s).
Definition AddPacketToHistory (packet : list Z) (s : Scanner) : Scanner :=
  s <| history ::= λ h, h ++ [packet] |>.
End Scanner.
Export Scanner (Scanner).

(** ** Initiator *)

Module Initiator.
Record PhyParameters := MkPhyParameters {
  enabled : bool;
  scan_interval : Z;
  scan_window : Z;
  connection_interval_min : Z;
  connection_interval_max : Z;
  max_latency : Z;
  supervision_timeout : Z;
  min_ce_length : Z;
  max_ce_length : Z;
}.
#[global] Instance PhyParameters_rebuild : Rebuild PhyParameters := λ p,
  MkPhyParameters (enabled p) (scan_interval p) (scan_window p) (connection_interval_min p)
    (connection_interval_max p) (max_latency p) (supervision_timeout p) (min_ce_length p)
    (max_ce_length p).
Definition no_phy : PhyParameters := MkPhyParameters false 0 0 0 0 0 0 0 0.

Record Initiator := MkInitiator {
  connect_enable : bool;
  initiator_filter_policy : InitiatorFilterPolicy.t;
  peer_address : AddressWithType;
  own_address_type : OwnAddressType.t;
  le_1m_phy : PhyParameters;
  le_2m_phy : PhyParameters;
  le_coded_phy : PhyParameters;
  initiating_address : Address;
  pending_connect_request : option AddressWithType;
}.
#[global] Instance Initiator_rebuild : Rebuild Initiator := λ i,
  MkInitiator (connect_enable i) (initiator_filter_policy i) (peer_address i)
    (own_address_type i) (le_1m_phy i) (le_2m_phy i) (le_coded_phy i) (initiating_address i)
    (pending_connect_request i).
Definition new : Initiator :=
  MkInitiator false InitiatorFilterPolicy.USE_PEER_ADDRESS empty_address
    OwnAddressType.PUBLIC_DEVICE_ADDRESS no_phy no_phy no_phy kEmpty None.
Definition IsEnabled (i : Initiator) : bool := connect_enable i.
Definition Disable (i : Initiator) : Initiator := i <| connect_enable := false |>.
End Initiator.
Export Initiator (Initiator).

(** ** Periodic advertising synchronisation *)

Record PeriodicAdvertisingOptions := MkPeriodicAdvertisingOptions {
  use_periodic_advertiser_list_ : bool;
  disable_reporting_ : bool;
  enable_duplicate_filtering_ : bool;
}.

Module Synchronizing.
Record Synchronizing := MkSynchronizing {
  options : PeriodicAdvertisingOptions;
  advertiser_address_type : AdvertiserAddressType.t;
  advertiser_address : Address;
  advertising_sid : Z;
  sync_timeout : Z;
}.
End Synchronizing.
Export Synchronizing (Synchronizing).

Module Synchronized.
Record Synchronized := MkSynchronized {
  advertiser_address_type : AdvertiserAddressType.t;
  advertiser_address : Address;
  advertising_sid : Z;
  sync_handle : Z;
  sync_timeout : Z;
  timeout : Z;
}.
End Synchronized.
Export Synchronized (Synchronized).

(** ** The advertising packet content filter (vendor_commands/le_apcf.h) *)

Module ApcfScanner.
Record Filter := MkFilter {
  filter_index : Z;
  feature_selection : Z;
  list_logic_type : Z;
  filter_logic_type : Z;
  rssi_high_thresh : Z;
  delivery_mode : Z;
  onfound_timeout : Z;
  onfound_timeout_cnt : Z;
  rssi_low_thresh : Z;
  onlost_timeout : Z;
  num_of_tracking_entries : Z;
}.
Record BroadcasterAddressFilter := MkBroadcasterAddressFilter {
  broadcaster_filter_index : Z;
  broadcaster_address : Address;
  application_address_type : Z;
}.
#[global] Instance BroadcasterAddressFilter_eq_dec : EqDecision BroadcasterAddressFilter.
Proof. solve_decision. Defined.
Record GapDataFilter := MkGapDataFilter {
  gap_filter_index : Z;
  gap_data : list Z;
  gap_data_mask : list Z;
}.
#[global] Instance GapDataFilter_eq_dec : EqDecision GapDataFilter.
Proof. solve_decision. Defined.
Record AdTypeFilter := MkAdTypeFilter {
  ad_filter_index : Z;
  ad_type : Z;
  ad_data : list Z;
  ad_data_mask : list Z;
}.
#[global] Instance AdTypeFilter_eq_dec : EqDecision AdTypeFilter.
Proof. solve_decision. Defined.

Record ApcfScanner := MkApcfScanner {
  enable : bool;
  filters : list Filter;
  broadcaster_address_filters : list BroadcasterAddressFilter;
  service_uuid_filters : list GapDataFilter;
  service_solicitation_uuid_filters : list GapDataFilter;
  local_name_filters : list GapDataFilter;
  manufacturer_data_filters : list GapDataFilter;
  service_data_filters : list GapDataFilter;
  ad_type_filters : list AdTypeFilter;
}.
#[global] Instance ApcfScanner_rebuild : Rebuild ApcfScanner := λ s,
  MkApcfScanner (enable s) (filters s) (broadcaster_address_filters s) (service_uuid_filters s)
    (service_solicitation_uuid_filters s) (local_name_filters s) (manufacturer_data_filters s)
    (service_data_filters s) (ad_type_filters s).
Definition new : ApcfScanner := MkApcfScanner false [] [] [] [] [] [] [] [].
End ApcfScanner.
Export ApcfScanner (ApcfScanner).

(** ** Packets, events and scheduled tasks

    The link layer packets (packets/link_layer_packets.pdl) the LE controller
    builds, named and laid out as the generated builders: source and
    destination first.  The [AddressType] of the link layer packets has the
    values of the HCI one, and the code casts between them. *)

Inductive LinkLayerPacket :=
| AclPacket (source destination : Address) (packet_boundary_flag broadcast_flag : Z) (data : list Z)
| LlcpPacket (source destination : Address) (payload : list Z)
| LeLegacyAdvertisingPdu (source destination : Address)
    (advertising_address_type target_address_type : AddressType.t)
    (advertising_type : LegacyAdvertisingType.t) (advertising_data : list Z)
| LeExtendedAdvertisingPdu (source destination : Address)
    (advertising_address_type target_address_type : AddressType.t)
    (connectable scannable directed : bool) (sid tx_power : Z)
    (primary_phy secondary_phy : option LlPhyType.t) (periodic_advertising_interval : Z)
    (advertising_data : list Z)
| LePeriodicAdvertisingPdu (source destination : Address)
    (advertising_address_type : AddressType.t) (sid tx_power advertising_interval : Z)
    (advertising_data : list Z)
| LeConnect (source destination : Address)
    (initiating_address_type advertising_address_type : AddressType.t)
    (conn_interval conn_peripheral_latency conn_supervision_timeout : Z)
| LeConnectComplete (source destination : Address)
    (initiating_address_type advertising_address_type : AddressType.t)
    (conn_interval conn_peripheral_latency conn_supervision_timeout : Z)
| LeScan (source destination : Address) (scanning_address_type advertising_address_type : AddressType.t)
| LeScanResponse (source destination : Address) (advertising_address_type : AddressType.t)
    (scan_response_data : list Z)
| LlPhyReq (source destination : Address) (tx_phys rx_phys : Z)
| LlPhyRsp (source destination : Address) (tx_phys rx_phys : Z)
| LlPhyUpdateInd (source destination : Address) (phy_c_to_p phy_p_to_c instant : Z)
| DisconnectPacket (source destination : Address) (reason : Z)
| PingRequest (source destination : Address)
| PingResponse (source destination : Address)
| ReadRemoteVersionInformationPacket (source destination : Address)
| ReadRemoteVersionInformationResponse (source destination : Address)
    (lmp_version lmp_subversion manufacturer_name : Z)
| LeConnectionParameterRequest (source destination : Address)
    (interval_min interval_max latency timeout : Z)
| LeConnectionParameterUpdate (source destination : Address)
    (status interval latency timeout : Z)
| LeEncryptConnection (source destination : Address) (rand : list Z) (ediv : Z) (ltk : list Z)
| LeEncryptConnectionResponse (source destination : Address) (status : Z) (rand : list Z)
    (ediv : Z) (ltk : list Z)
| LeReadRemoteFeatures (source destination : Address)
| LeReadRemoteFeaturesResponse (source destination : Address) (features status : Z)
| LlSubrateReq (source destination : Address)
    (subrate_factor_min subrate_factor_max max_latency continuation_number supervision_timeout : Z)
| LlSubrateInd (source destination : Address)
    (status subrate_factor subrate_base_event latency continuation_number supervision_timeout : Z)
| LlCsCapabilitiesReq (source destination : Address) (capabilities : LlCsCapabilities.t)
| LlCsCapabilitiesRsp (source destination : Address) (status : Z) (capabilities : LlCsCapabilities.t)
| LlCsFaeReq (source destination : Address)
| LlCsFaeRsp (source destination : Address) (status : Z) (remote_fae_table : list Z)
| LlCsConfigReq (source destination : Address) (config : LlCsConfig.t)
| LlCsConfigRsp (source destination : Address) (status config_id : Z)
| LlCsSecurityEnableReq (source destination : Address) (cs_iv_c cs_in_c cs_pv_c : Z)
| LlCsSecurityEnableRsp (source destination : Address) (status cs_iv_p cs_in_p cs_pv_p : Z)
| LlCsReq (source destination : Address) (request : LlCsRequest.t)
| LlCsRsp (source destination : Address) (status offset_max : Z) (schedule : LlCsSchedule.t)
| LlCsInd (source destination : Address) (status : Z) (schedule : LlCsSchedule.t)
| LlCsTerminateReq (source destination : Address) (config_id procedure_count error_code : Z)
| LlCsTerminateRsp (source destination : Address) (config_id procedure_count error_code : Z)
| LlCsChannelMapInd (source destination : Address) (channel_map : list Z) (instant : Z)
| LeConnectedIsochronousPdu (source destination : Address) (cig_id cis_id sequence_number : Z)
    (data : list Z).
#[export] Instance LinkLayerPacket_eq_dec : EqDecision LinkLayerPacket.
Proof. solve_decision. Defined.

(** What the advertising reports say (packets/hci_packets.pdl).  The address types
    and the PHYs are cast from those of the packet. *)
Record LeAdvertisingResponse := MkLeAdvertisingResponse {
  adv_event_type : AdvertisingEventType.t;
  adv_address_type : AddressType.t;
  adv_address : Address;
  adv_advertising_data : list Z;
  adv_rssi : Z;
}.
#[export] Instance LeAdvertisingResponse_eq_dec : EqDecision LeAdvertisingResponse.
Proof. solve_decision. Defined.
Record LeDirectedAdvertisingResponse := MkLeDirectedAdvertisingResponse {
  dir_event_type : Z;
  dir_address_type : Z;
  dir_address : Address;
  dir_direct_address_type : Z;
  dir_direct_address : Address;
  dir_rssi : Z;
}.
#[export] Instance LeDirectedAdvertisingResponse_eq_dec : EqDecision LeDirectedAdvertisingResponse.
Proof. solve_decision. Defined.
Record LeExtendedAdvertisingResponse := MkLeExtendedAdvertisingResponse {
  ext_connectable : bool;
  ext_scannable : bool;
  ext_directed : bool;
  ext_scan_response : bool;
  ext_legacy : bool;
  ext_data_status : DataStatus.t;
  ext_address_type : Z;
  ext_address : Address;
  ext_primary_phy : Z;
  ext_secondary_phy : Z;
  ext_advertising_sid : Z;
  ext_tx_power : Z;
  ext_rssi : Z;
  ext_periodic_advertising_interval : Z;
  ext_direct_address_type : Z;
  ext_direct_address : Address;
  ext_advertising_data : list Z;
}.
#[export] Instance LeExtendedAdvertisingResponse_rebuild : Rebuild LeExtendedAdvertisingResponse := λ r,
  MkLeExtendedAdvertisingResponse (ext_connectable r) (ext_scannable r) (ext_directed r)
    (ext_scan_response r) (ext_legacy r) (ext_data_status r) (ext_address_type r) (ext_address r)
    (ext_primary_phy r) (ext_secondary_phy r) (ext_advertising_sid r) (ext_tx_power r) (ext_rssi r)
    (ext_periodic_advertising_interval r) (ext_direct_address_type r) (ext_direct_address r)
    (ext_advertising_data r).
#[export] Instance LeExtendedAdvertisingResponse_eq_dec : EqDecision LeExtendedAdvertisingResponse.
Proof. solve_decision. Defined.

(** The HCI events the LE controller sends to the host.  A status that comes from
    the peer is the byte it sent, which the code casts to an [ErrorCode]. *)
Inductive HciEvent :=
| LeConnectionComplete (status : ErrorCode.t) (handle : Z) (role : Role.t)
    (peer_address_type : AddressType.t) (peer_address : Address)
    (interval latency supervision_timeout : Z) (clock_accuracy : ClockAccuracy.t)
| LeEnhancedConnectionCompleteV1 (status : ErrorCode.t) (handle : Z) (role : Role.t)
    (peer_address_type : AddressType.t) (peer_address : Address)
    (local_resolvable peer_resolvable : Address)
    (interval latency supervision_timeout : Z) (clock_accuracy : ClockAccuracy.t)
| LeChannelSelectionAlgorithm (handle : Z) (algorithm : Z)
| LeAdvertisingSetTerminated (status : ErrorCode.t) (advertising_handle connection_handle : Z)
    (num_completed_extended_advertising_events : Z)
| LePhyUpdateComplete (status : ErrorCode.t) (handle : Z) (tx_phy rx_phy : PhyType.t)
| LeScanTimeout
| LeAdvertisingReport (response : LeAdvertisingResponse)
| LeDirectedAdvertisingReport (response : LeDirectedAdvertisingResponse)
| LeExtendedAdvertisingReport (response : LeExtendedAdvertisingResponse)
| LePeriodicAdvertisingReportV1 (sync_handle tx_power rssi cte_type : Z) (data_status : DataStatus.t)
    (data : list Z)
| LePeriodicAdvertisingSyncEstablishedV1 (status : ErrorCode.t) (sync_handle advertising_sid : Z)
    (advertiser_address_type : AddressType.t) (advertiser_address : Address)
    (advertiser_phy : SecondaryPhyType.t) (periodic_advertising_interval : Z)
    (clock_accuracy : ClockAccuracy.t)
| LePeriodicAdvertisingSyncLost (sync_handle : Z)
| DisconnectionComplete (status : ErrorCode.t) (handle reason : Z)
| LeConnectionUpdateComplete (status : Z) (handle interval latency supervision_timeout : Z)
| LeRemoteConnectionParameterRequest (handle interval_min interval_max latency timeout : Z)
| LeLongTermKeyRequest (handle : Z) (random_number : list Z) (encrypted_diversifier : Z)
| EncryptionKeyRefreshComplete (status : Z) (handle : Z)
| EncryptionChange (status : Z) (handle : Z) (encryption_enabled : bool)
| EncryptionChangeV2 (status : ErrorCode.t) (handle : Z) (encryption_enabled : bool) (key_size : Z)
| LeReadRemoteFeaturesPage0Complete (status handle features : Z)
| ReadRemoteVersionInformationComplete (status : ErrorCode.t)
    (handle version manufacturer_name sub_version : Z)
| NumberOfCompletedPackets (handle num_packets : Z)
| LeSubrateChange (status : Z) (handle subrate_factor peripheral_latency
    continuation_number supervision_timeout : Z)
| LeTransmitPowerReporting (status : ErrorCode.t) (handle reason phy transmit_power_level
    transmit_power_level_flag delta : Z)
| LeCsReadRemoteSupportedCapabilitiesComplete (status handle : Z)
    (capabilities : CsLocalSupportedCapabilities)
| LeCsReadRemoteFaeTableComplete (status handle : Z) (remote_fae_table : list Z)
| LeCsConfigComplete (status handle config_id : Z) (fields : CsConfigFields.t)
| LeCsSecurityEnableComplete (status handle : Z)
| LeCsProcedureEnableComplete (status handle config_id : Z) (fields : CsProcedureFields.t).
#[export] Instance HciEvent_eq_dec : EqDecision HciEvent.
Proof. solve_decision. Defined.

(** The closures the LE controller schedules. *)
Inductive TaskCallback :=
| SendToRemote (packet : LinkLayerPacket) (tx_power : Z)
| SendEventLater (event : HciEvent)
| CheckExpiringConnectionLater (handle : Z)
| HandleLeEnableEncryptionLater (handle : Z) (rand : list Z) (ediv : Z) (ltk : list Z).
#[export] Instance TaskCallback_eq_dec : EqDecision TaskCallback.
Proof. solve_decision. Defined.

(** What a handler does beside changing the controller, in order: it calls
    [send_event_], [send_acl_], [send_iso_], [ScheduleTask] with a delay in milliseconds, or
    [CancelScheduledTask]. *)
Inductive Output :=
| SendEvent (event : HciEvent)
| SendAcl (handle packet_boundary_flag broadcast_flag : Z) (data : list Z)
| SendIso (handle packet_boundary_flag sequence_number iso_sdu_length : Z) (fragment : list Z)
| CancelTask (task_id : Z)
| ScheduleTask (delay : Z) (callback : TaskCallback).
#[export] Instance Output_eq_dec : EqDecision Output.
Proof. solve_decision. Defined.

(** ** The controller *)

(** A call to the Rust link layer library, and the calls made to it since it was
    created: what it answers is a function of those. *)
Inductive LinkLayerCall :=
| link_layer_add_link (handle : Z) (peer_address : Address) (role : Z)
| link_layer_remove_link (handle reason : Z)
| link_layer_ingest_hci (command : list Z)
| link_layer_ingest_llcp (handle : Z) (payload : list Z).
#[export] Instance LinkLayerCall_eq_dec : EqDecision LinkLayerCall.
Proof. solve_decision. Defined.

Definition initial_channel_classification : list Z :=
  [0xfc; 0xff; 0x7f; 0xfc; 0xff; 0xff; 0xff; 0xff; 0xff; 0x1f].
(** [steady_clock::time_point::min()]. *)
Definition time_point_min : Z := - 2 ^ 63.

Record LeController := MkLeController {
  address_ : Address;
  properties_ : ControllerProperties;
  host_supported_features_ : Z;
  le_host_support_ : bool;
  secure_simple_pairing_host_support_ : bool;
  secure_connections_host_support_ : bool;
  le_host_supported_features_ : Z;
  connected_isochronous_stream_host_support_ : bool;
  connection_subrating_host_support_ : bool;
  channel_sounding_host_support_ : bool;
  random_address_ : Address;
  event_mask_ : Z;
  event_mask_page_2_ : Z;
  le_event_mask_ : Z;
  le_suggested_max_tx_octets_ : Z;
  le_suggested_max_tx_time_ : Z;
  default_subrate_parameters_ : LeAclSubrateParameters;
  (** In seconds. *)
  resolvable_private_address_timeout_ : Z;
  connections_ : AclConnectionHandler;
  le_filter_accept_list_ : list FilterAcceptListEntry;
  le_resolving_list_ : list ResolvingListEntry;
  le_resolving_list_enabled_ : bool;
  legacy_advertising_in_use_ : bool;
  extended_advertising_in_use_ : bool;
  legacy_advertiser_ : LegacyAdvertiser;
  extended_advertisers_ : gmap Z ExtendedAdvertiser;
  default_tx_phys_ : Z;
  default_rx_phys_ : Z;
  requested_tx_phys_ : Z;
  requested_rx_phys_ : Z;
  le_periodic_advertiser_list_ : list PeriodicAdvertiserListEntry;
  scanner_ : Scanner;
  initiator_ : Initiator;
  synchronizing_ : option Synchronizing;
  synchronized_ : gmap Z Synchronized;
  apcf_scanner_ : ApcfScanner;
  le_cs_channel_classification_ : list Z;
  last_le_cs_set_channel_classification_time_ : Z;
  (** The SDU received from the host so far. *)
  iso_sdu_ : list Z;
  (** The calls made to the link layer library, the last one first. *)
  ll_ : list LinkLayerCall;
  (** The calls of [std::rand] made so far. *)
  rand_calls_ : nat;
}.
#[export] Instance LeController_rebuild : Rebuild LeController := λ c,
  MkLeController (address_ c) (properties_ c) (host_supported_features_ c) (le_host_support_ c)
    (secure_simple_pairing_host_support_ c) (secure_connections_host_support_ c)
    (le_host_supported_features_ c) (connected_isochronous_stream_host_support_ c)
    (connection_subrating_host_support_ c) (channel_sounding_host_support_ c)
    (random_address_ c) (event_mask_ c) (event_mask_page_2_ c) (le_event_mask_ c)
    (le_suggested_max_tx_octets_ c) (le_suggested_max_tx_time_ c) (default_subrate_parameters_ c)
    (resolvable_private_address_timeout_ c) (connections_ c) (le_filter_accept_list_ c)
    (le_resolving_list_ c) (le_resolving_list_enabled_ c) (legacy_advertising_in_use_ c)
    (extended_advertising_in_use_ c) (legacy_advertiser_ c) (extended_advertisers_ c)
    (default_tx_phys_ c) (default_rx_phys_ c) (requested_tx_phys_ c) (requested_rx_phys_ c)
    (le_periodic_advertiser_list_ c) (scanner_ c) (initiator_ c) (synchronizing_ c)
    (synchronized_ c) (apcf_scanner_ c)
    (le_cs_channel_classification_ c) (last_le_cs_set_channel_classification_time_ c) (iso_sdu_ c)
    (ll_ c) (rand_calls_ c).

(** The constructor: the default member initialisers of le_controller.h, and the
    quirk of the random address. *)
Definition new_controller (address : Address) (properties : ControllerProperties) : LeController :=
  MkLeController address properties 0 false false false 0 false false false
    (if has_default_random_address (quirks properties)
     then MkAddress 0xba 0xdb 0xad 0xba 0xdb 0xad else kEmpty)
    0x00001fffffffffff 0x0 0x01f 0x001b 0x0148 default_subrate_parameters 0x0384 empty_handler
    [] [] false false false LegacyAdvertiser.new ∅ 0x1 0x1 0x1 0x1 [] Scanner.new Initiator.new
    None ∅ ApcfScanner.new initial_channel_classification time_point_min [] [] 0.

(** What the code runs in: the cipher, the order of the hash tables, the numbers
    [std::rand] returns, the answers of the link layer library, and the generated
    code of the packets. *)
Class Environment := {
  env_crypto :: Crypto;
  env_order :: IterationOrder;
  std_rand : nat → Z;
  link_layer_accepts : list LinkLayerCall → LinkLayerCall → bool;
  (** The connection handle of a CIS given by its CIG and its number; the ACL
      connection handle, the CIG, the number and the longest SDU of a CIS. *)
  link_layer_get_cis_connection_handle : list LinkLayerCall → Z → Z → option Z;
  link_layer_get_cis_information : list LinkLayerCall → Z → option (Z * Z * Z * Z);
  (** [IsoWithTimestampView], [IsoWithoutTimestampView]: the sequence number and
      the payload. *)
  IsoWithTimestampView : list Z → option (Z * list Z);
  IsoWithoutTimestampView : list Z → option (Z * list Z);
  (** The bytes of a link layer packet. *)
  packet_bytes : LinkLayerPacket → list Z;
}.

(** The ACL connections the library knows after these calls (the [links] of
    src/rust/src/llcp/manager.rs); the library is in Rust, and what it answers to
    the calls about links is stated as laws. *)
Fixpoint known_links (calls : list LinkLayerCall) : gset Z :=
  match calls with
  | [] => ∅
  | link_layer_add_link handle _ _ :: calls => {[handle]} ∪ known_links calls
  | link_layer_remove_link handle _ :: calls => known_links calls ∖ {[handle]}
  | _ :: calls => known_links calls
  end.
Class LinkLayerLaws {env : Environment} : Prop := {
  accepts_add_link calls handle address role :
    link_layer_accepts calls (link_layer_add_link handle address role) =
      bool_decide (handle ∉ known_links calls);
  accepts_remove_link calls handle reason :
    link_layer_accepts calls (link_layer_remove_link handle reason) =
      bool_decide (handle ∈ known_links calls);
}.

(** A library that keeps to the laws, and takes every packet. *)
Definition example_link_layer (calls : list LinkLayerCall) (call : LinkLayerCall) : bool :=
  match call with
  | link_layer_add_link handle _ _ => bool_decide (handle ∉ known_links calls)
  | link_layer_remove_link handle _ => bool_decide (handle ∈ known_links calls)
  | link_layer_ingest_hci _ | link_layer_ingest_llcp _ _ => true
  end.

(** An environment for examples. *)
Definition example_environment : Environment := {|
  env_crypto := echo_cipher;
  env_order := key_order;
  std_rand := λ _, 0x7f;
  link_layer_accepts := example_link_layer;
  link_layer_get_cis_connection_handle := λ _ cig_id cis_id, Some (kCisRangeStart + 16 * cig_id + cis_id);
  link_layer_get_cis_information := λ _ handle,
    Some (kLeAclRangeStart, Z.shiftr (handle - kCisRangeStart) 4, (handle - kCisRangeStart) mod 16, 4095);
  IsoWithTimestampView := λ bytes,
    match bytes with
    | _ :: _ :: _ :: _ :: s0 :: s1 :: _ :: _ :: payload => Some (s0 + 256 * s1, payload)
    | _ => None
    end;
  IsoWithoutTimestampView := λ bytes,
    match bytes with
    | s0 :: s1 :: _ :: _ :: payload => Some (s0 + 256 * s1, payload)
    | _ => None
    end;
  packet_bytes := λ packet,
    match packet with
    | LeLegacyAdvertisingPdu source _ _ _ _ data => a0 source :: data
    | LeScanResponse source _ _ data => a0 source :: 0 :: data
    | _ => []
    end;
|}.

Lemma example_link_laws : @LinkLayerLaws example_environment.
Proof. by split. Qed.

(** ** Handlers

    A handler runs at a time ([steady_clock::now()] during the call), reads and
    changes the controller, and produces outputs.  A handler without outputs
    that cannot fail is a plain function of the controller. *)

Definition M (A : Type) : Type := Z → LeController → outcome (A * LeController * list Output).

#[export] Instance M_ret : MRet M := λ A a now c, Ok (a, c, []).
#[export] Instance M_bind : MBind M := λ A B f m now c,
  match m now c with
  | Ok (a, c', out) =>
      match f a now c' with
      | Ok (b, c'', out') => Ok (b, c'', out ++ out')
      | Fatal => Fatal
      | Undef => Undef
      | Hang => Hang
      end
  | Fatal => Fatal
  | Undef => Undef
  | Hang => Hang
  end.

Definition now : M Z := λ now c, Ok (now, c, []).
Definition gets {A} (f : LeController → A) : M A := λ now c, Ok (f c, c, []).
Definition modify (f : LeController → LeController) : M () := λ now c, Ok ((), f c, []).
Definition lift {A} (m : outcome A) : M A := λ now c,
  match m with Ok a => Ok (a, c, []) | Fatal => Fatal | Undef => Undef | Hang => Hang end.
(** A handler without outputs. *)
Definition pure {A} (f : LeController → A * LeController) : M A := λ now c,
  let '(a, c') := f c in Ok (a, c', []).
Definition output (o : Output) : M () := λ now c, Ok ((), c, [o]).
Definition send_event_ (e : HciEvent) : M () := output (SendEvent e).
Definition when (b : bool) (m : M ()) : M () := if b then m else mret ().

(** [for (auto x : l) { body }]. *)
Fixpoint for_each {A} (l : list A) (body : A → M ()) : M () :=
  match l with
  | [] => mret ()
  | x :: l => body x ≫= λ _, for_each l body
  end.

(** The same with a body that may return from the function. *)
Fixpoint for_each_or_return {A R} (l : list A) (body : A → M (option R)) : M (option R) :=
  match l with
  | [] => mret None
  | x :: l =>
      body x ≫= λ r, match r with Some r => mret (Some r) | None => for_each_or_return l body end
  end.

(** [SendLeLinkLayerPacket]: the packet is handed over by a task; the transmit
    power is an [int8_t]. *)
Definition SendLeLinkLayerPacket (packet : LinkLayerPacket) (tx_power : Z) : M () :=
  output (ScheduleTask 0 (SendToRemote packet (i8 tx_power))).

(** A call of the link layer library, and its answer. *)
Definition link_layer {env : Environment} (call : LinkLayerCall) : M bool := λ now c,
  Ok (link_layer_accepts (ll_ c) call, c <| ll_ ::= cons call |>, []).

(** *** Rules *)

Lemma M_bind_Ok {A B} (m : M A) (f : A → M B) t c r :
  (m ≫= f) t c = Ok r ↔
  ∃ a c1 o1 b c2 o2,
    m t c = Ok (a, c1, o1) ∧ f a t c1 = Ok (b, c2, o2) ∧ r = (b, c2, o1 ++ o2).
Proof.
  unfold mbind, M_bind. split.
  - destruct (m t c) as [[[a c1] o1]| | |] eqn:E1; try done.
    destruct (f a t c1) as [[[b c2] o2]| | |] eqn:E2; try done.
    intros [= <-]. by exists a, c1, o1, b, c2, o2.
  - intros (a & c1 & o1 & b & c2 & o2 & -> & -> & ->). done.
Qed.

(** Running a handler step by step. *)
Definition emit {A} (o : list Output) (r : outcome (A * LeController * list Output))
  : outcome (A * LeController * list Output) :=
  '(a, c, out) ← r; Ok (a, c, o ++ out).

Lemma run_bind {A B} (m : M A) (f : A → M B) t c a c' out :
  m t c = Ok (a, c', out) → (m ≫= f) t c = emit out (f a t c').
Proof. intros E. unfold mbind at 1, M_bind. rewrite E. by destruct (f a t c') as [[[b d] o]| | |]. Qed.

Lemma emit_nil {A} (r : outcome (A * LeController * list Output)) : emit [] r = r.
Proof. by destruct r as [[[a c] o]| | |]. Qed.

Lemma run_now {B} (f : Z → M B) t c : (now ≫= f) t c = f t t c.
Proof. erewrite run_bind by done. apply emit_nil. Qed.

Lemma run_gets {A B} (g : LeController → A) (f : A → M B) t c : (gets g ≫= f) t c = f (g c) t c.
Proof. erewrite run_bind by done. apply emit_nil. Qed.

Lemma run_lift_Ok {A B} (a : A) (f : A → M B) t c : (lift (Ok a) ≫= f) t c = f a t c.
Proof. erewrite run_bind by done. apply emit_nil. Qed.

Lemma run_modify {B} g (f : () → M B) t c : (modify g ≫= f) t c = f () t (g c).
Proof. erewrite run_bind by done. apply emit_nil. Qed.

Lemma run_output {B} o (f : () → M B) t c : (output o ≫= f) t c = emit [o] (f () t c).
Proof. by erewrite run_bind. Qed.

Lemma run_ret {A B} (a : A) (f : A → M B) t c : (mret a ≫= f) t c = f a t c.
Proof. erewrite run_bind by done. apply emit_nil. Qed.

Lemma run_assoc {A B D} (m : M A) (f : A → M B) (g : B → M D) t c :
  ((m ≫= f) ≫= g) t c = (m ≫= (λ a, f a ≫= g)) t c.
Proof.
  unfold mbind, M_bind. destruct (m t c) as [[[a c1] o1]| | |]; [|done..].
  destruct (f a t c1) as [[[b c2] o2]| | |]; [|done..].
  destruct (g b t c2) as [[[d c3] o3]| | |]; [|done..]. by rewrite app_assoc.
Qed.

(** [m] keeps the property [P] of the controller, and its outputs satisfy [Q]. *)
Definition preserves {A} (P : LeController → Prop) (Q : Output → Prop) (m : M A) : Prop :=
  ∀ t c a c' out, P c → m t c = Ok (a, c', out) → P c' ∧ Forall Q out.

(** [m] returns from every controller that satisfies [P]. *)
Definition returns {A} (P : LeController → Prop) (m : M A) : Prop :=
  ∀ t c, P c → ∃ a c' out, m t c = Ok (a, c', out).

Section Rules.
Context (P : LeController → Prop) (Q : Output → Prop).

Lemma preserves_ret {A} (a : A) : preserves P Q (mret a).
Proof. intros t c a' c' out Hc [= <- <- <-]. by split. Qed.

Lemma preserves_bind {A B} (m : M A) (f : A → M B) :
  preserves P Q m → (∀ a, preserves P Q (f a)) → preserves P Q (m ≫= f).
Proof.
  intros Hm Hf t c r c' out Hc (a & c1 & o1 & b & c2 & o2 & H1 & H2 & [= -> -> ->])%M_bind_Ok.
  destruct (Hm _ _ _ _ _ Hc H1) as [Hc1 HQ1]. destruct (Hf a _ _ _ _ _ Hc1 H2) as [Hc2 HQ2].
  split; [done|]. by apply Forall_app.
Qed.

Lemma preserves_now : preserves P Q now.
Proof. intros t c a c' out Hc [= <- <- <-]. by split. Qed.

Lemma preserves_gets {A} (f : LeController → A) : preserves P Q (gets f).
Proof. intros t c a c' out Hc [= <- <- <-]. by split. Qed.

Lemma preserves_modify f : (∀ c, P c → P (f c)) → preserves P Q (modify f).
Proof. intros Hf t c a c' out Hc [= <- <- <-]. split; auto. Qed.

Lemma preserves_pure {A} (f : LeController → A * LeController) :
  (∀ c, P c → P (snd (f c))) → preserves P Q (pure f).
Proof.
  intros Hf t c a c' out Hc. unfold pure. specialize (Hf c Hc).
  destruct (f c) as [a1 c1]. intros [= <- <- <-]. by split.
Qed.

Lemma preserves_lift {A} (m : outcome A) : preserves P Q (lift m).
Proof. intros t c a c' out Hc. unfold lift. destruct m; intros [= <- <- <-]. by split. Qed.

Lemma preserves_output o : Q o → preserves P Q (output o).
Proof. intros HQ t c a c' out Hc [= <- <- <-]. split; [done|]. by apply Forall_singleton. Qed.

Lemma preserves_when b m : preserves P Q m → preserves P Q (when b m).
Proof. destruct b; [done|]. intros _. apply preserves_ret. Qed.

Lemma preserves_for_each {A} (l : list A) body :
  (∀ x, x ∈ l → preserves P Q (body x)) → preserves P Q (for_each l body).
Proof.
  induction l as [|x l IH]; simpl; intros Hb; [apply preserves_ret|].
  apply preserves_bind; [apply Hb; left|]. intros _. apply IH. intros y ?. apply Hb. by right.
Qed.

Lemma preserves_for_each_or_return {A R} (l : list A) (body : A → M (option R)) :
  (∀ x, x ∈ l → preserves P Q (body x)) → preserves P Q (for_each_or_return l body).
Proof.
  induction l as [|x l IH]; simpl; intros Hb; [apply preserves_ret|].
  apply preserves_bind; [apply Hb; left|]. intros [r|]; [apply preserves_ret|].
  apply IH. intros y ?. apply Hb. by right.
Qed.

Lemma returns_ret {A} (a : A) : returns P (mret a).
Proof. intros t c _. by do 3 eexists. Qed.

Lemma returns_gets {A} (f : LeController → A) : returns P (gets f).
Proof. intros t c _. by do 3 eexists. Qed.

Lemma returns_now : returns P now.
Proof. intros t c _. by do 3 eexists. Qed.

Lemma returns_modify f : returns P (modify f).
Proof. intros t c _. by do 3 eexists. Qed.

Lemma returns_output o : returns P (output o).
Proof. intros t c _. by do 3 eexists. Qed.

Lemma returns_when b m : returns P m → returns P (when b m).
Proof. destruct b; [done|]. intros _. apply returns_ret. Qed.

Lemma returns_bind {A B} (m : M A) (f : A → M B) :
  returns P m → preserves P (λ _, True) m → (∀ a, returns P (f a)) → returns P (m ≫= f).
Proof.
  intros Hm Hp Hf t c Hc. destruct (Hm t c Hc) as (a & c1 & o1 & E1).
  destruct (Hp t c _ _ _ Hc E1) as [Hc1 _]. destruct (Hf a t c1 Hc1) as (b & c2 & o2 & E2).
  unfold mbind, M_bind. rewrite E1, E2. by do 3 eexists.
Qed.

Lemma returns_for_each {A} (l : list A) body :
  (∀ x, x ∈ l → returns P (body x)) → (∀ x, x ∈ l → preserves P (λ _, True) (body x)) →
  returns P (for_each l body).
Proof.
  induction l as [|x l IH]; simpl; intros Hr Hp; [apply returns_ret|].
  apply returns_bind; [apply Hr; left|apply Hp; left|]. intros _.
  apply IH; intros y ?; [apply Hr|apply Hp]; by right.
Qed.
End Rules.

Create Rewrite HintDb run.
#[export] Hint Rewrite @run_now @run_gets @run_lift_Ok @run_modify @run_output @run_ret @run_assoc
  @emit_nil : run.

#[export] Hint Resolve preserves_ret preserves_now preserves_gets preserves_lift
  preserves_when returns_ret returns_gets returns_now returns_modify returns_output
  returns_when : rc.

(** ** Event masks *)

(** The masks select a bit by a shift; a shift by 64 or more is undefined. *)
Definition IsEventUnmasked (event : EventCode.t) (c : LeController) : outcome bool :=
  let evt := EventCode.to_Z event in
  let '(mask, n) := if evt <=? 64 then (event_mask_ c, evt - 1)
                    else (event_mask_page_2_ c, u8 (evt - 64) - 1) in
  if (n <? 0) || (64 <=? n) then Undef
  else Ok (negb (Z.land mask (Z.shiftl 1 n) =? 0)).

Definition IsLeEventUnmasked (subevent : SubeventCode.t) (c : LeController) : outcome bool :=
  let n := SubeventCode.to_Z subevent - 1 in
  if (n <? 0) || (64 <=? n) then Undef
  else
    meta ← IsEventUnmasked EventCode.LE_META_EVENT c;
    Ok (meta && negb (Z.land (le_event_mask_ c) (Z.shiftl 1 n) =? 0)).

(** The bit [IsLeEventUnmasked] reads. *)
Definition le_event_unmasked (subevent : SubeventCode.t) (c : LeController) : bool :=
  bit (event_mask_ c) 61 && bit (le_event_mask_ c) (SubeventCode.to_Z subevent - 1).

Lemma IsLeEventUnmasked_Ok subevent c :
  IsLeEventUnmasked subevent c = Ok (le_event_unmasked subevent c).
Proof.
  unfold IsLeEventUnmasked, le_event_unmasked.
  assert (0 ≤ SubeventCode.to_Z subevent - 1 < 64) as Hn by (destruct subevent; simpl; lia).
  destruct (_ || _) eqn:E; [apply orb_true_iff in E as [?|?]; to_prop; lia|].
  unfold IsEventUnmasked. cbn -[Z.land Z.shiftl Z.eqb].
  by rewrite !land_bit by lia.
Qed.

(** The bit [IsEventUnmasked] reads. *)
Definition event_unmasked (event : EventCode.t) (c : LeController) : bool :=
  let n := EventCode.to_Z event in
  if n <=? 64 then bit (event_mask_ c) (n - 1) else bit (event_mask_page_2_ c) (n - 65).

Lemma IsEventUnmasked_Ok event c :
  IsEventUnmasked event c =
    if bool_decide (event = EventCode.VENDOR_SPECIFIC) then Undef else Ok (event_unmasked event c).
Proof.
  unfold IsEventUnmasked, event_unmasked.
  destruct event; cbn -[Z.land Z.shiftl Z.eqb]; try done; by rewrite land_bit.
Qed.

(** The default properties, with every feature and command. *)
Definition example_properties : ControllerProperties :=
  ControllerProperties_default <| supported_commands := replicate 64 0xff |>
    <| le_features := 2 ^ 64 - 1 |>.

(** The event masks: each of the two 64 bit masks is read at the bit of the
    event, and only the vendor specific event code, which has no bit, makes the
    shift undefined; the LE mask is never read out of range. *)
Theorem IsEventUnmasked_spec (c : LeController) :
  (∀ event, IsEventUnmasked event c =
     if bool_decide (event = EventCode.VENDOR_SPECIFIC) then Undef
     else Ok (if EventCode.to_Z event <=? 64 then bit (event_mask_ c) (EventCode.to_Z event - 1)
              else bit (event_mask_page_2_ c) (EventCode.to_Z event - 65))) ∧
  (∀ subevent, IsLeEventUnmasked subevent c =
     Ok (bit (event_mask_ c) 61 && bit (le_event_mask_ c) (SubeventCode.to_Z subevent - 1))).
Proof.
  split; intros; [apply IsEventUnmasked_Ok|apply IsLeEventUnmasked_Ok].
Qed.
