(* ===== verification/Devices.v ===== *)
(** * The simple devices (model/devices/beacon.cc, sniffer.cc, link_layer_socket_device.cc,
    model/setup/device_boutique.cc)

    A beacon, a sniffer, and the end of a socket over which another process takes part; and the
    table of the devices that the test commands can make.  The bytes of link layer packets are
    generated code, a parameter. *)

From Stdlib Require Import Ascii String.
From S2P Require Import Prelude HciTypes Address H4 LeState PhyLayer.

(** [std::stoi(s)]: spaces, a sign, decimal digits, and the rest is ignored; it throws when there is
    no digit or the number is not an [int], which ends the process. *)
Fixpoint decimal (s : list ascii) (value : option Z) : option Z :=
  match s with
  | [] => value
  | c :: s =>
      match digit_value c with
      | Some n => if n <? 10 then decimal s (Some (10 * default 0 value + n)) else value
      | None => value
      end
  end.
Definition stoi (s : list ascii) : outcome Z :=
  let '(sign, s) := match skip_spaces s with
    | c :: s => if bool_decide (c = "-"%char) then (-1, s) else if bool_decide (c = "+"%char) then (1, s) else (1, c :: s)
    | [] => (1, [])
    end in
  match decimal s None with
  | Some n => if (- 2 ^ 31 <=? sign * n) && (sign * n <? 2 ^ 31) then Ok (sign * n) else Fatal
  | None => Fatal
  end.

(** The address that [Address::FromString(args[1], address_)] leaves. *)
Definition default_address : Address := MkAddress 0xAD 0xBB 0xBB 0xBB 0xBB 0xBB.
Definition address_of_args (args : list (list ascii)) : Address :=
  match args with _ :: arg :: _ => snd (FromString_to arg default_address) | _ => default_address end.

(** ** The beacon *)

Module Beacon.
Record Beacon := MkBeacon {
  address_ : Address;
  advertising_type_ : LegacyAdvertisingType.t;
  advertising_data_ : list Z;
  scan_response_data_ : list Z;
  (** In nanoseconds. *)
  advertising_interval_ : Z;
  advertising_last_ : Z;
}.
(** An array of 31 bytes. *)
Definition array31 (l : list Z) : list Z := l ++ replicate (31 - length l) 0.
Definition ms : Z := 1000000.

Definition default_beacon : Beacon :=
  MkBeacon default_address LegacyAdvertisingType.ADV_NONCONN_IND
    (array31 ([0x0F; 0x09] ++ bytes_of "gDevice-beacon" ++ [0x02; 0x01; Z.lor 0x4 0x2]))
    (array31 ([0x05; 0x08] ++ bytes_of "beac")) (1280 * ms) 0.
Definition Create (args : list (list ascii)) : outcome Beacon :=
  let b := default_beacon in
  interval ← (match args with _ :: _ :: arg :: _ => n ← stoi arg; Ok (n * ms) | _ => Ok (advertising_interval_ b) end);
  Ok (MkBeacon (address_of_args args) (advertising_type_ b) (advertising_data_ b) (scan_response_data_ b) interval
        (advertising_last_ b)).

Section Beacon.
(** [SerializeToBytes] of the builders. *)
Context (SerializeToBytes : LinkLayerPacket → list Z).

(** [now] is the monotonic clock. *)
Definition Tick (now : Z) (b : Beacon) : Action Beacon :=
  if advertising_interval_ b <=? now - advertising_last_ b then
    let b := MkBeacon (address_ b) (advertising_type_ b) (advertising_data_ b) (scan_response_data_ b)
      (advertising_interval_ b) now in
    Do (SendLinkLayerPacket (SerializeToBytes (LeLegacyAdvertisingPdu (address_ b) kEmpty
          AddressType.PUBLIC_DEVICE_ADDRESS AddressType.PUBLIC_DEVICE_ADDRESS (advertising_type_ b)
          (advertising_data_ b))) LOW_ENERGY 0) b Return
  else Return b.
(** A scan request is all that a beacon may answer. *)
Definition ReceiveLinkLayerPacket (packet : LinkLayerPacket) (b : Beacon) : Action Beacon :=
  match packet with
  | LeScan source destination _ _ =>
      if bool_decide (destination = address_ b) &&
         (bool_decide (advertising_type_ b = LegacyAdvertisingType.ADV_IND) ||
          bool_decide (advertising_type_ b = LegacyAdvertisingType.ADV_SCAN_IND))
      then Do (SendLinkLayerPacket (SerializeToBytes (LeScanResponse (address_ b) source
                 AddressType.PUBLIC_DEVICE_ADDRESS (scan_response_data_ b))) LOW_ENERGY 0) b Return
      else Return b
  | _ => Return b
  end.
End Beacon.
End Beacon.

(** ** The sniffer *)

Module Sniffer.
(** What it logs of a packet: the direction, the addresses and the type. *)
Inductive direction := Both | From | To.
Record Sniffer := MkSniffer { address_ : Address }.
Definition Create (args : list (list ascii)) : Sniffer := MkSniffer (address_of_args args).
Definition ReceiveLinkLayerPacket (source dest : Address) (s : Sniffer) : option direction :=
  let match_source := bool_decide (address_ s = source) in
  let match_dest := bool_decide (address_ s = dest) in
  if negb match_source && negb match_dest then None
  else Some (if match_source then if match_dest then Both else From else To).
End Sniffer.

(** ** The socket device *)

Module LinkLayerSocketDevice.
Import H4DataChannelPacketizer.
Definition kSizeBytes : Z := 4.

(** The receiving side of the socket, as for the packetizer; a read of nothing gives nothing
    and leaves [errno] at zero, as the socket does. *)
Definition recv (size : Z) (ch : channel) : recv_result * channel :=
  if size =? 0 then (Received [], ch) else Recv size ch.

Record LinkLayerSocketDevice := MkSocketDevice {
  phy_type_ : PhyType;
  receiving_size_ : bool;
  bytes_left_ : Z;
  offset_ : nat;
  size_bytes_ : list Z;
  received_ : list Z;
}.
#[export] Instance socket_device_rebuild : Rebuild LinkLayerSocketDevice := λ d,
  MkSocketDevice (phy_type_ d) (receiving_size_ d) (bytes_left_ d) (offset_ d) (size_bytes_ d) (received_ d).
Definition new (phy_type : PhyType) : LinkLayerSocketDevice :=
  MkSocketDevice phy_type true kSizeBytes 0 (replicate 4 0) [].

(** What a tick comes to: nothing, a packet sent on the device's type of layer, or [Close]. *)
Inductive result := Nothing | Send (packet : list Z) | Close.

(** [Recv(vector->data() + offset, ...)]: beyond the vector is undefined. *)
Definition store (offset : nat) (bytes vector : list Z) : outcome (list Z) :=
  if (offset + length bytes <=? length vector)%nat
  then Ok (take offset vector ++ bytes ++ drop (offset + length bytes) vector)
  else Undef.
Fixpoint read_le (bytes : list Z) : Z := match bytes with [] => 0 | b :: bytes => b + 256 * read_le bytes end.

(** The second half of [Tick]. *)
Definition receive_packet (d : LinkLayerSocketDevice) (ch : channel)
  : outcome (LinkLayerSocketDevice * channel * result) :=
  match recv (bytes_left_ d) ch with
  | (Received [], ch) => Ok (d, ch, Close)
  | (NotReceived RecvEAGAIN, ch) => Ok (d, ch, Nothing)
  | (NotReceived _, ch) => Ok (d, ch, Close)
  | (Received bytes, ch) =>
      received ← store (offset_ d) bytes (received_ d);
      let d := d <| received_ := received |> in
      if zlength bytes <? bytes_left_ d then
        Ok (d <| bytes_left_ ::= λ n, n - zlength bytes |> <| offset_ ::= λ o, (o + length bytes)%nat |>, ch, Nothing)
      else
        Ok (d <| bytes_left_ := kSizeBytes |> <| offset_ := 0%nat |> <| receiving_size_ := true |>, ch,
            Send (received_ d))
  end.
Definition Tick (d : LinkLayerSocketDevice) (ch : channel)
  : outcome (LinkLayerSocketDevice * channel * result) :=
  if receiving_size_ d then
    match recv kSizeBytes ch with
    | (Received [], ch) => Ok (d, ch, Close)
    | (NotReceived RecvEAGAIN, ch) => Ok (d, ch, Nothing)
    | (NotReceived _, ch) => Ok (d, ch, Close)
    | (Received bytes, ch) =>
        size ← store (offset_ d) bytes (size_bytes_ d);
        let d := d <| size_bytes_ := size |> in
        if zlength bytes <? bytes_left_ d then
          Ok (d <| bytes_left_ ::= λ n, n - zlength bytes |> <| offset_ ::= λ o, (o + length bytes)%nat |>, ch, Nothing)
        else
          let left := read_le (size_bytes_ d) in
          receive_packet (d <| bytes_left_ := left |> <| received_ := replicate (Z.to_nat left) 0 |>
                            <| offset_ := 0%nat |> <| receiving_size_ := false |>) ch
    end
  else receive_packet d ch.

(** [ReceiveLinkLayerPacket]: the bytes it writes to the socket, unless the size was not
    written whole. *)
Fixpoint write_le (n : nat) (value : Z) : list Z :=
  match n with O => [] | S n => value mod 256 :: write_le n (value / 256) end.
Definition ReceiveLinkLayerPacket {Chan} (socket_Send : list Z → Chan → Z * Chan) (packet_bytes : list Z) (ch : Chan) : Chan :=
  let '(written, ch) := socket_Send (write_le 4 (zlength packet_bytes)) ch in
  if written =? kSizeBytes then snd (socket_Send packet_bytes ch) else ch.
End LinkLayerSocketDevice.

(** ** The devices that can be made by name *)

Module DeviceBoutique.
Section Boutique.
Context {D : Type}.
Definition Map : Type := list (list ascii * (list (list ascii) → outcome D)).
(** [GetMap()[device_type] = method]. *)
Definition Register (device_type : list ascii) (method : list (list ascii) → outcome D) (m : Map) : Map :=
  (device_type, method) :: filter (λ e, fst e ≠ device_type) m.
(** [None] is the null pointer. *)
Definition Create (args : list (list ascii)) (m : Map) : outcome (option D) :=
  match args with
  | [] => Fatal
  | name :: _ =>
      match find_first (λ e, bool_decide (fst e = name)) m with
      | Some (_, method) => d ← method args; Ok (Some d)
      | None => Ok None
      end
  end.
End Boutique.
End DeviceBoutique.

(** ** What they do *)

(** No beacon ever answers: whatever the arguments it was made with, the times it
    ticked at and the packet it receives, it stays as it is and sends nothing. *)
Theorem beacon_silent (serialize : LinkLayerPacket → list Z) (args : list (list ascii)) (b : Beacon.Beacon)
  (nows : list Z) (packet : LinkLayerPacket) (Hb : Beacon.Create args = Ok b) :
  let b := foldl (λ b now, match Beacon.Tick serialize now b with Do _ b _ | Return b => b end) b nows in
  Beacon.ReceiveLinkLayerPacket serialize packet b = Return b.
Proof.
  assert (Beacon.advertising_type_ b = LegacyAdvertisingType.ADV_NONCONN_IND) as Ht.
  { unfold Beacon.Create in Hb. by apply bind_Ok in Hb as (interval & _ & [= <-]). }
  clear Hb. revert b Ht. induction nows as [|now nows IH]; intros b Ht; cbn [foldl].
  - unfold Beacon.ReceiveLinkLayerPacket. destruct packet; try done. by rewrite Ht, andb_false_r.
  - apply IH. unfold Beacon.Tick. by destruct (_ <=? _).
Qed.
Lemma beacon_silent_witness :
  let b := foldl (λ b now, match Beacon.Tick (λ _, [0]) now b with Do _ b _ | Return b => b end)
    Beacon.default_beacon [2000000000] in
  Beacon.ReceiveLinkLayerPacket (λ _, [0])
    (LeScan kAny (Beacon.address_ b) AddressType.PUBLIC_DEVICE_ADDRESS AddressType.PUBLIC_DEVICE_ADDRESS) b = Return b.
Proof. apply (beacon_silent (λ _, [0]) [text_of_string "beacon"]). reflexivity. Defined.

Module SocketDevice.
Import H4DataChannelPacketizer LinkLayerSocketDevice.
Implicit Types (d : LinkLayerSocketDevice) (ch : channel).

Fixpoint ticks (n : nat) d ch : outcome (LinkLayerSocketDevice * channel * list result) :=
  match n with
  | O => Ok (d, ch, [])
  | S n => '(d, ch, r) ← Tick d ch; '(d, ch, rs) ← ticks n d ch; Ok (d, ch, r :: rs)
  end.
(** The packets among the results. *)
Definition sent (rs : list result) : list (list Z) := omap (λ r, match r with Send p => Some p | _ => None end) rs.

(** What the other end writes for a packet. *)
Definition frame (packet : list Z) : list Z := write_le 4 (zlength packet) ++ packet.
(** Between two packets. *)
Definition idle d : Prop := receiving_size_ d = true ∧ bytes_left_ d = 4 ∧ offset_ d = 0%nat ∧ length (size_bytes_ d) = 4%nat.
(** In a packet of which [k] bytes have come. *)
Definition receiving (packet : list Z) (k : nat) d : Prop :=
  receiving_size_ d = false ∧ bytes_left_ d = zlength packet - Z.of_nat k ∧ offset_ d = k ∧
  (∃ tail, received_ d = take k packet ++ tail ∧ length tail = (length packet - k)%nat) ∧ length (size_bytes_ d) = 4%nat.

Lemma read_write_le z : fits 32 z → read_le (write_le 4 z) = z.
Proof.
  unfold fits. intros Hz. cbn [write_le read_le]. 
  pose proof (Z.div_mod z 256). pose proof (Z.div_mod (z / 256) 256). pose proof (Z.div_mod (z / 256 / 256) 256).
  pose proof (Z.div_mod (z / 256 / 256 / 256) 256).
  assert (z / 256 / 256 / 256 / 256 = 0).
  { rewrite !Z.div_div by done. apply Z.div_small. lia. }
  lia.
Qed.

Lemma recv_spec size ch :
  0 < size → pending ch ≠ [] → Forall (λ g, 4 ≤ g)%nat (grants ch) →
  ∃ bytes rest, recv size ch = (Received bytes, MkChannel rest (tail (grants ch)) (ending ch)) ∧
  pending ch = bytes ++ rest ∧ bytes ≠ [] ∧ zlength bytes ≤ size ∧ Z.min 4 (Z.min size (zlength (pending ch))) ≤ zlength bytes.
Proof.
  intros Hs Hp Hg. unfold recv. rewrite (proj2 (Z.eqb_neq size 0)) by lia. unfold Recv.
  destruct (pending ch) as [|b bytes] eqn:E; [done|].
  set (granted := match grants ch with [] => Z.to_nat size | g :: _ => Nat.max 1 g end).
  assert (4 ≤ granted ∨ granted = Z.to_nat size)%nat as Hgr.
  { unfold granted. destruct (grants ch) as [|g gs]; [by right|left]. apply Forall_cons in Hg as [? _]. lia. }
  set (count := Nat.min (Z.to_nat size) granted).
  exists (take count (b :: bytes)), (drop count (b :: bytes)). split; [done|]. split; [by rewrite take_drop|].
  unfold zlength. rewrite length_take. split; [destruct count eqn:Ec; [lia|done]|]. unfold count. lia.
Qed.

Lemma receive_packet_step packet k d ch rest :
  receiving packet k d → (k < length packet)%nat → pending ch = drop k packet ++ rest → Forall (λ g, 4 ≤ g)%nat (grants ch) →
  ∃ d' ch' n, receive_packet d ch = Ok (d', ch', if decide (k + n = length packet)%nat then Send packet else Nothing) ∧
  (1 ≤ n ∧ k + n ≤ length packet)%nat ∧ pending ch' = drop (k + n) packet ++ rest ∧ Forall (λ g, 4 ≤ g)%nat (grants ch') ∧
  ending ch' = ending ch ∧
  if decide (k + n = length packet)%nat then idle d' else receiving packet (k + n) d'.
Proof.
  intros (Hr & Hb & Ho & (tl & Ht & Hl) & Hsz) Hk Hp Hg. unfold receive_packet.
  destruct (recv_spec (bytes_left_ d) ch) as (bytes & rest' & -> & Hpend & Hne & Hle & _); [unfold zlength in *; lia| |done|].
  { rewrite Hp. intros E. apply (f_equal length) in E. rewrite length_app, length_drop in E. cbn in E. lia. }
  destruct bytes as [|b bytes]; [done|]. set (bs := b :: bytes) in *.
  assert (bs = take (length bs) (drop k packet) ∧ rest' = drop (length bs) (drop k packet) ++ rest) as [Hbs ->].
  { rewrite Hp in Hpend. assert (length bs ≤ length (drop k packet))%nat as Hlen
      by (rewrite length_drop; unfold zlength in *; lia).
    split.
    - apply (f_equal (take (length bs))) in Hpend. rewrite take_app_le, take_app_length in Hpend by done. done.
    - apply (f_equal (drop (length bs))) in Hpend. rewrite drop_app_le, drop_app_length in Hpend by done. done. }
  assert (length bs + k ≤ length packet ∧ 1 ≤ length bs)%nat as [Hlen Hpos]
    by (split; [unfold zlength in *; lia|unfold bs; cbn; lia]).
  unfold store. rewrite Ho, Ht. rewrite length_app, length_take, Hl. rewrite (proj2 (Nat.leb_le _ _)) by lia.
  cbn [mbind outcome_bind].
  assert (take k (take k packet ++ tl) ++ bs ++ drop (k + length bs) (take k packet ++ tl) =
    take (k + length bs) packet ++ drop (length bs) tl) as E.
  { rewrite take_app_le, take_take, Nat.min_id by (rewrite length_take; lia).
    replace (k + length bs)%nat with (length (take k packet) + length bs)%nat at 1 by (rewrite length_take; lia).
    rewrite drop_app_add, app_assoc. f_equal. rewrite Hbs at 1. by rewrite take_take_drop. }
  rewrite E. set (d1 := d <| received_ := _ |>).
  change (bytes_left_ d1) with (bytes_left_ d).
  destruct (Z.ltb_spec (zlength bs) (bytes_left_ d)) as [Hlt|Hge].
  - do 2 eexists. exists (length bs). rewrite !decide_False by (unfold zlength in *; lia). split; [reflexivity|].
    split; [lia|]. cbn [pending grants ending].
    split; [by rewrite drop_drop|]. split; [by apply Forall_tail|]. split; [done|].
    split; [done|]. split; [change (bytes_left_ d - zlength bs = zlength packet - Z.of_nat (k + length bs)); rewrite Hb; unfold zlength; lia|]. split; [cbn; lia|]. split; [|done].
    exists (drop (length bs) tl). split; [done|]. rewrite length_drop. lia.
  - do 2 eexists. exists (length bs). rewrite !decide_True by (unfold zlength in *; lia).
    assert (k + length bs = length packet)%nat as Hfull by (unfold zlength in *; lia).
    assert (received_ d1 = packet) as Hrec.
    { unfold d1. cbn [received_ modify_field]. change (take (k + length bs) packet ++ drop (length bs) tl = packet).
      rewrite Hfull, firstn_all, drop_ge by lia. by rewrite app_nil_r. }
    rewrite Hrec. split; [reflexivity|].
    split; [lia|]. cbn [pending grants ending].
    split; [by rewrite drop_drop|]. split; [by apply Forall_tail|]. split; [done|]. by split.
Qed.

(** The rest of a packet, in as many ticks as it takes. *)
Lemma ticks_packet m packet k d ch rest :
  (length packet - k ≤ m)%nat → receiving packet k d → (k < length packet)%nat →
  pending ch = drop k packet ++ rest → Forall (λ g, 4 ≤ g)%nat (grants ch) →
  ∃ n d' ch' rs, ticks n d ch = Ok (d', ch', rs) ∧ sent rs = [packet] ∧ Close ∉ rs ∧ idle d' ∧ pending ch' = rest ∧
  Forall (λ g, 4 ≤ g)%nat (grants ch') ∧ ending ch' = ending ch.
Proof.
  revert k d ch. induction m as [|m IH]; intros k d ch Hm Hr Hk Hp Hg; [lia|].
  destruct (receive_packet_step packet k d ch rest Hr Hk Hp Hg) as (d1 & ch1 & c & Hrec & Hc & Hp1 & Hg1 & He & Hst).
  assert (Tick d ch = receive_packet d ch) as Htick by (unfold Tick; by rewrite (proj1 Hr)).
  destruct (decide (k + c = length packet)%nat) as [Hfull|Hpart].
  - exists 1%nat, d1, ch1, [Send packet]. cbn [ticks]. rewrite Htick, Hrec. split; [done|]. split; [done|].
    split; [by intros ?%list_elem_of_singleton|]. split; [done|]. rewrite Hp1, Hfull, drop_all. by split.
  - destruct (IH (k + c)%nat d1 ch1) as (n & d' & ch' & rs & Ht & Hs & Hn & Hi & Hp' & Hg' & He'); [lia|done|lia|done..|].
    exists (S n), d', ch', (Nothing :: rs). cbn [ticks]. rewrite Htick, Hrec. cbn [mbind outcome_bind]. rewrite Ht.
    split; [done|]. split; [done|]. split; [by intros [|]%elem_of_cons|]. split_and!; try done. by rewrite He'.
Qed.

(** A packet from its size on: the first tick takes the size and what it can of the packet. *)
Lemma ticks_frame packet d ch rest :
  idle d → packet ≠ [] → fits 32 (zlength packet) → pending ch = frame packet ++ rest →
  Forall (λ g, 4 ≤ g)%nat (grants ch) →
  ∃ n d' ch' rs, ticks n d ch = Ok (d', ch', rs) ∧ sent rs = [packet] ∧ Close ∉ rs ∧ idle d' ∧ pending ch' = rest ∧
  Forall (λ g, 4 ≤ g)%nat (grants ch') ∧ ending ch' = ending ch.
Proof.
  intros (Hr & Hb & Ho & Hsz) Hne Hfit Hp Hg. unfold frame in Hp. rewrite <-app_assoc in Hp.
  set (size := write_le 4 (zlength packet)) in *. assert (length size = 4%nat) as Hsize by done.
  assert (read_le size = zlength packet) as Hread by by apply read_write_le.
  clearbody size.
  destruct (recv_spec 4 ch) as (bytes & rest' & Hrecv & Hpend & Hbne & Hle & Hmin); [done| |done|].
  { rewrite Hp. intros E%(f_equal length). rewrite length_app, Hsize in E. done. }
  assert (length bytes = 4%nat) as Hlen.
  { rewrite Hp, zlength_app in Hmin. unfold zlength in *. rewrite Hsize in Hmin. lia. }
  assert (bytes = size ∧ rest' = packet ++ rest) as [-> ->] by (rewrite Hp in Hpend; apply app_inj_1 in Hpend as [-> ->]; [done|lia]).
  set (d1 := d <| size_bytes_ := size |> <| bytes_left_ := zlength packet |>
    <| received_ := replicate (length packet) 0 |> <| offset_ := 0%nat |> <| receiving_size_ := false |>).
  set (ch1 := MkChannel (packet ++ rest) (tail (grants ch)) (ending ch)).
  assert (Tick d ch = receive_packet d1 ch1) as Htick.
  { unfold Tick. rewrite Hr. change kSizeBytes with 4. rewrite Hrecv.
    destruct size as [|b bs] eqn:Es; [done|]. rewrite <-Es in Hsize, Hread |- *. unfold store. rewrite Ho, Hsize, Hsz. cbn [Nat.leb Nat.add].
    cbn [mbind outcome_bind]. rewrite take_0, drop_ge by (rewrite Hsz; done). rewrite app_nil_r. cbn [app].
    change (bytes_left_ (d <| size_bytes_ := size |>)) with (bytes_left_ d). rewrite Hb.
    unfold zlength at 1. rewrite Hsize. change (Z.of_nat 4 <? 4) with false. cbv iota.
    change (size_bytes_ (d <| size_bytes_ := size |>)) with size. rewrite Hread.
    unfold d1, zlength. by rewrite Nat2Z.id, <-Es. }
  assert (receiving packet 0 d1) as Hr1.
  { split; [done|]. split; [cbn; lia|]. split; [done|]. split; [|done].
    exists (replicate (length packet) 0). split; [done|]. rewrite length_replicate. lia. }
  destruct (ticks_packet (length packet) packet 0 d1 ch1 rest) as (n & d' & ch' & rs & Ht & H); try done; [lia| |by apply Forall_tail|].
  { destruct packet; [done|cbn; lia]. }
  destruct n as [|n]; [cbn in Ht; injection Ht as <- <- <-; by destruct H|].
  exists (S n), d', ch', rs. split; [|exact H]. cbn [ticks] in *. rewrite Htick.
  replace (Tick d1 ch1) with (receive_packet d1 ch1) in Ht by done. exact Ht.
Qed.

Lemma ticks_app n1 n2 d ch :
  ticks (n1 + n2) d ch =
    '(d, ch, rs) ← ticks n1 d ch; '(d, ch, rs') ← ticks n2 d ch; Ok (d, ch, rs ++ rs').
Proof.
  revert d ch. induction n1 as [|n1 IH]; intros d ch; cbn [ticks Nat.add].
  - cbn. by destruct (ticks n2 d ch) as [[[]]| | |].
  - destruct (Tick d ch) as [[[d1 ch1] r]| | |]; cbn; try done. rewrite IH.
    destruct (ticks n1 d1 ch1) as [[[d2 ch2] rs]| | |]; cbn; try done.
    by destruct (ticks n2 d2 ch2) as [[[]]| | |].
Qed.

(** C36. What one end of a socket writes for its packets, the other end reads: whatever the
    packets that are not empty, and however the socket cuts the stream, as long as a read gives at
    least four bytes that are there, some number of ticks sends exactly these packets, in order,
    to the other devices, without closing, and leaves the device between two packets. *)
Theorem socket_device_roundtrip (packets : list (list Z)) (d : LinkLayerSocketDevice) (ch : channel)
  (Hd : idle d) (Hpackets : Forall (λ p, p ≠ [] ∧ fits 32 (zlength p)) packets)
  (Hch : pending ch = concat (map frame packets)) (Hg : Forall (λ g, 4 ≤ g)%nat (grants ch)) :
  ∃ n d' ch' rs, ticks n d ch = Ok (d', ch', rs) ∧ sent rs = packets ∧ Close ∉ rs ∧ idle d' ∧ pending ch' = [].
Proof.
  revert d ch Hd Hch Hg. induction packets as [|p packets IH]; intros d ch Hd Hch Hg.
  { exists 0%nat, d, ch, []. split_and!; try done. apply not_elem_of_nil. }
  apply Forall_cons in Hpackets as [[Hne Hfit] Hpackets]. cbn [map concat] in Hch.
  destruct (ticks_frame p d ch _ Hd Hne Hfit Hch Hg) as (n1 & d1 & ch1 & rs1 & E1 & Hs1 & Hc1 & Hi1 & Hp1 & Hg1 & _).
  destruct (IH Hpackets d1 ch1 Hi1 Hp1 Hg1) as (n2 & d2 & ch2 & rs2 & E2 & Hs2 & Hc2 & Hi2 & Hp2).
  exists (n1 + n2)%nat, d2, ch2, (rs1 ++ rs2). rewrite ticks_app, E1. cbn [mbind outcome_bind]. rewrite E2.
  split; [done|]. split. { unfold sent in *. by rewrite omap_app, Hs1, Hs2. }
  split; [by intros [|]%elem_of_app|]. by split.
Qed.
Lemma socket_device_roundtrip_witness :
  ∃ n d' ch' rs,
    ticks n (new LOW_ENERGY) (MkChannel (concat (map frame [[1; 2; 3; 4; 5; 6]; [7]])) [4; 5; 9]%nat RecvEAGAIN) =
      Ok (d', ch', rs) ∧
    sent rs = [[1; 2; 3; 4; 5; 6]; [7]] ∧ Close ∉ rs ∧ idle d' ∧ pending ch' = [].
Proof.
  apply (socket_device_roundtrip [[1; 2; 3; 4; 5; 6]; [7]] (new LOW_ENERGY)).
  - by split_and!.
  - repeat constructor; done.
  - reflexivity.
  - repeat constructor; lia.
Defined.

(** A size that comes in two reads: the second asks for four bytes again, and they go past the
    end of the buffer. *)
Example split_size_overflows :
  ticks 2 (new LOW_ENERGY) (MkChannel (frame [1; 2; 3; 4]) [2; 4]%nat RecvEAGAIN) = Undef.
Proof. reflexivity. Qed.
(** A packet of no bytes closes the socket. *)
Example empty_packet_closes :
  (λ r, snd r) <$> ticks 1 (new LOW_ENERGY) (MkChannel (frame [] ++ frame [1]) [] RecvEAGAIN) = Ok [Close].
Proof. reflexivity. Qed.
End SocketDevice.
