(* ===== verification/TestCommands.v ===== *)
(** * The test channel (model/setup/test_command_handler.cc, test_channel_transport.cc,
    desktop/test_environment.cc)

    A test gives its commands as texts over a socket: [TestChannelTransport] reads them,
    [TestCommandHandler] carries them out on the test model and answers each with a text. *)

From Stdlib Require Import Ascii String.
From stdpp Require Import pretty.
From S2P Require Import Prelude HciTypes Address Properties H4 PhyLayer TestModel LeState Devices.

(** ** Numbers *)

(** [std::strtoul(s, nullptr, 0)]: spaces, a sign, the base by the prefix, and the digits up to
    the first other character; a number that is too large gives the largest. *)
Definition digit_below (base : Z) (c : ascii) : option Z :=
  d ← digit_value c; if d <? base then Some d else None.
Fixpoint digits (base acc : Z) (s : list ascii) : Z :=
  match s with
  | [] => acc
  | c :: s => match digit_below base c with Some d => digits base (base * acc + d) s | None => acc end
  end.
Definition base_of (s : list ascii) : Z * list ascii :=
  match s with
  | z :: s' =>
      if bool_decide (z = "0"%char) then
        match s' with
        | x :: d :: rest =>
            if (bool_decide (x = "x"%char) || bool_decide (x = "X"%char)) && has_value (digit_value d)
            then (16, d :: rest) else (8, s)
        | _ => (8, s)
        end
      else (10, s)
  | [] => (10, [])
  end.
Definition strtoul (s : list ascii) : Z :=
  let '(negative, s) := match skip_spaces s with
    | c :: s => if bool_decide (c = "-"%char) then (true, s) else if bool_decide (c = "+"%char) then (false, s) else (false, c :: s)
    | [] => (false, [])
    end in
  let '(base, s) := base_of s in
  let v := digits base 0 s in
  if 2 ^ 64 <=? v then 2 ^ 64 - 1 else if negative then wrap 64 (- v) else v.
Definition ParseIntParam (s : list ascii) : Z := strtoul s.

(** [std::chrono::milliseconds(period)]: a [size_t] as a 64 bit integer with a sign. *)
Definition i64 (z : Z) : Z := let w := wrap 64 z in if w <? 2 ^ 63 then w else w - 2 ^ 64.

(** [args[0]] of a vector. *)
Definition first (args : list (list ascii)) : outcome (list ascii) :=
  match args with arg :: _ => Ok arg | [] => Undef end.

(** ** The commands *)

Section Commands.
Context {D M : Type} `{Device D, Scheduler M, IterationOrder}.
Context (SetProperties : Configuration → D → D).
Context (connect_to_remote_ : list ascii → Z → PhyType → option D).
(** The devices that can be made by name. *)
Context (boutique : @DeviceBoutique.Map D).
Notation Model := (TestModel D M).
Implicit Types (m : Model) (args : list (list ascii)).

(** What a command does: the model after it and what is given to [send_response_]. *)
Definition handler : Type := list (list ascii) → Model → outcome (Model * list (list ascii)).
Definition respond (response : list ascii) m : outcome (Model * list (list ascii)) := Ok (m, [response]).

Definition AddDevice : handler := λ args m,
  match args with
  | [] => respond (text_of_string "TestCommandHandler 'add' takes an argument") m
  | name :: _ =>
      new_dev ← DeviceBoutique.Create args boutique;
      match new_dev with
      | None => respond (text_of_string "TestCommandHandler 'add' " ++ name ++ text_of_string " failed!") m
      | Some d =>
          let '(id, m) := next_instance_id m in
          respond (number id ++ text_of_string ":" ++ device_ToString d) (TestModel.AddDevice id d m)
      end
  end.
Definition AddRemote : handler := λ args m,
  match args with
  | server :: port_text :: type :: _ =>
      let port := ParseIntParam port_text in
      let phy_type := if bool_decide (type = text_of_string "LOW_ENERGY") then LOW_ENERGY else BR_EDR in
      if (port =? 0) || (0xffff <? port) || (length server <? 2)%nat
      then respond (text_of_string "TestCommandHandler bad arguments to 'add_remote': " ++ server ++ text_of_string "@" ++ port_text) m
      else respond (server ++ text_of_string "@" ++ number port) (TestModel.AddRemote connect_to_remote_ server port phy_type m)
  | _ => respond (text_of_string "TestCommandHandler usage: add_remote host port phy_type") m
  end.
(** An index is a [size_t], an identifier 32 bits wide. *)
Definition RemoveDevice : handler := λ args m,
  arg ← first args;
  let dev_index := ParseIntParam arg in
  respond (text_of_string "TestCommandHandler 'del' called with device at index " ++ number dev_index)
    (TestModel.RemoveDevice (u32 dev_index) m).
Definition AddPhy : handler := λ args m,
  match args with
  | [type] =>
      if bool_decide (type = text_of_string "LOW_ENERGY") then
        respond (text_of_string "TestCommandHandler 'add_phy' called with LOW_ENERGY") (snd (TestModel.AddPhy LOW_ENERGY m))
      else if bool_decide (type = text_of_string "BR_EDR") then
        respond (text_of_string "TestCommandHandler 'add_phy' called with BR_EDR") (snd (TestModel.AddPhy BR_EDR m))
      else respond (text_of_string "TestCommandHandler 'add_phy' with unrecognized type " ++ type) m
  | _ => respond (text_of_string "TestCommandHandler 'add_phy' takes one argument") m
  end.
Definition RemovePhy : handler := λ args m,
  arg ← first args;
  let phy_index := ParseIntParam arg in
  respond (text_of_string "TestCommandHandler 'del_phy' called with phy at index " ++ number phy_index)
    (TestModel.RemovePhy (u32 phy_index) m).
Definition AddDeviceToPhy : handler := λ args m,
  match args with
  | [device; phy] =>
      let dev_index := ParseIntParam device in
      let phy_index := ParseIntParam phy in
      respond (text_of_string "TestCommandHandler 'add_device_to_phy' called with device " ++ number dev_index ++
               text_of_string " and phy " ++ number phy_index)
        (TestModel.AddDeviceToPhy (u32 dev_index) (u32 phy_index) m)
  | _ => respond (text_of_string "TestCommandHandler 'add_device_to_phy' takes two arguments") m
  end.
Definition RemoveDeviceFromPhy : handler := λ args m,
  match args with
  | [device; phy] =>
      let dev_index := ParseIntParam device in
      let phy_index := ParseIntParam phy in
      respond (text_of_string "TestCommandHandler 'del_device_from_phy' called with device " ++ number dev_index ++
               text_of_string " and phy " ++ number phy_index)
        (TestModel.RemoveDeviceFromPhy (u32 dev_index) (u32 phy_index) m)
  | _ => respond (text_of_string "TestCommandHandler 'del_device_from_phy' takes two arguments") m
  end.
Definition List : handler := λ args m,
  match args with [] => respond (TestModel.List m) m | _ => Ok (m, []) end.
Definition SetDeviceAddress : handler := λ args m,
  match args with
  | [device; address] =>
      let device_address := snd (FromString_to address kEmpty) in
      respond (text_of_string "set_device_address " ++ device ++ text_of_string " " ++ address)
        (TestModel.SetDeviceAddress (u32 (ParseIntParam device)) device_address m)
  | _ => respond (text_of_string "TestCommandHandler 'set_device_address' takes two arguments") m
  end.
Definition presets : list (list ascii * ControllerPreset.t) :=
  [(text_of_string "default", ControllerPreset.DEFAULT); (text_of_string "laird_bl654", ControllerPreset.LAIRD_BL654);
   (text_of_string "csr_rck_pts_dongle", ControllerPreset.CSR_RCK_PTS_DONGLE);
   (text_of_string "intel_be200", ControllerPreset.INTEL_BE200)].
Definition SetDeviceConfiguration : handler := λ args m,
  match args with
  | [device; name] =>
      match find_first (λ p, bool_decide (fst p = name)) presets with
      | None => respond (text_of_string "TestCommandHandler 'set_device_configuration' invalid configuration preset") m
      | Some (_, preset) =>
          let configuration := MkConfiguration (Some preset) None None None None in
          respond (text_of_string "set_device_configuration " ++ device ++ text_of_string " " ++ name)
            (TestModel.SetDeviceConfiguration SetProperties (u32 (ParseIntParam device)) configuration m)
      end
  | _ => respond (text_of_string "TestCommandHandler 'set_device_configuration' takes two arguments") m
  end.
Definition SetTimerPeriod : handler := λ args m,
  arg ← first args;
  let period := ParseIntParam arg in
  if negb (period =? 0)
  then respond (text_of_string "set timer period to " ++ arg) (TestModel.SetTimerPeriod (i64 period) m)
  else respond (text_of_string "invalid timer period " ++ arg) m.
Definition StartTimer : handler := λ _ m, respond (text_of_string "timer started") (TestModel.StartTimer m).
Definition StopTimer : handler := λ _ m, respond (text_of_string "timer stopped") (TestModel.StopTimer m).
Definition Reset : handler := λ _ m, respond (text_of_string "model reset") (TestModel.Reset m).

(** [active_commands_]. *)
Definition active_commands_ : list (list ascii * handler) :=
  [(text_of_string "add", AddDevice); (text_of_string "add_remote", AddRemote); (text_of_string "del", RemoveDevice); (text_of_string "add_phy", AddPhy);
   (text_of_string "del_phy", RemovePhy); (text_of_string "add_device_to_phy", AddDeviceToPhy);
   (text_of_string "del_device_from_phy", RemoveDeviceFromPhy); (text_of_string "list", List);
   (text_of_string "set_device_address", SetDeviceAddress); (text_of_string "set_device_configuration", SetDeviceConfiguration);
   (text_of_string "set_timer_period", SetTimerPeriod); (text_of_string "start_timer", StartTimer); (text_of_string "stop_timer", StopTimer);
   (text_of_string "reset", Reset)].
Definition HandleCommand (name : list ascii) : handler := λ args m,
  match find_first (λ c, bool_decide (fst c = name)) active_commands_ with
  | None => respond (text_of_string "Unhandled command: " ++ name) m
  | Some (_, method) => method args m
  end.

(** A sequence of commands, and all the responses. *)
Fixpoint HandleCommands (commands : list (list ascii * list (list ascii))) m
  : outcome (Model * list (list ascii)) :=
  match commands with
  | [] => Ok (m, [])
  | (name, args) :: commands =>
      '(m, r) ← HandleCommand name args m;
      '(m, rs) ← HandleCommands commands m;
      Ok (m, r ++ rs)
  end.

Definition AddDefaults m : outcome (Model * list (list ascii)) :=
  HandleCommands [(text_of_string "add_phy", [text_of_string "LOW_ENERGY"]); (text_of_string "add_phy", [text_of_string "BR_EDR"]);
    (text_of_string "add_device_to_phy", [text_of_string "1"; text_of_string "1"]); (text_of_string "add_device_to_phy", [text_of_string "1"; text_of_string "2"]);
    (text_of_string "list", []); (text_of_string "set_timer_period", [text_of_string "10"]); (text_of_string "start_timer", [])] m.
End Commands.

(** ** The channel *)

Module TestChannelTransport.
Import H4DataChannelPacketizer LinkLayerSocketDevice.

(** What a call does to its socket and its callbacks. *)
Inductive action := CloseSocket | Unwatch | Handle (name : list ascii) (args : list (list ascii)).

(** A read into a buffer of zeros of this size, and whether the buffer is full. *)
Definition read_into (size : nat) (ch : channel) : list Z * bool * channel :=
  match recv (Z.of_nat size) ch with
  | (Received bytes, ch) => (bytes ++ replicate (size - length bytes) 0, bool_decide (length bytes = size), ch)
  | (NotReceived _, ch) => (replicate size 0, false, ch)
  end.
Definition read_byte (ch : channel) : nat * bool * channel :=
  let '(bytes, full, ch) := read_into 1 ch in (Z.to_nat (default 0 (head bytes)), full, ch).
Definition read_text (size : nat) (ch : channel) : list ascii * channel :=
  let '(bytes, _, ch) := read_into size ch in (map char bytes, ch).
Fixpoint read_args (n : nat) (ch : channel) : list (list ascii) * channel :=
  match n with
  | O => ([], ch)
  | S n =>
      let '(size, _, ch) := read_byte ch in
      let '(arg, ch) := read_text size ch in
      let '(args, ch) := read_args n ch in
      (arg :: args, ch)
  end.
Definition OnCommandReady (ch : channel) : list action * channel :=
  let '(command_name_size, full, ch) := read_byte ch in
  let closed := if full then [] else [CloseSocket] in
  let '(command_name, ch) := read_text command_name_size ch in
  if bool_decide (command_name = text_of_string "CLOSE_TEST_CHANNEL") || bool_decide (command_name = [])
  then (closed ++ [Unwatch; CloseSocket], ch)
  else
    let '(num_args, _, ch) := read_byte ch in
    let '(args, ch) := read_args num_args ch in
    (closed ++ [Handle command_name args], ch).

(** [SendResponse]; [socket_Send] gives what [Send] returns and, for -1, whether [errno] is
    [EBADF]. *)
Section SendResponse.
Context {Chan : Type} (socket_Send : list Z → Chan → Z * bool * Chan).
Definition SendResponse (response : list ascii) (socket : Chan) : outcome Chan :=
  let size := Z.min (zlength response) 0xffff in
  let '(written, bad, socket) := socket_Send (write_le 4 size) socket in
  if (written =? -1) && bad then Ok socket
  else
    _ ← assert (written =? 4);
    let '(written, _, socket) := socket_Send (take (Z.to_nat size) (map code response)) socket in
    _ ← assert (written =? size);
    Ok socket.
End SendResponse.
End TestChannelTransport.

(** ** What the commands do *)

Section Answers.
Context {D M : Type} `{Device D, Scheduler M, IterationOrder}.
Context (SetProperties : Configuration → D → D).
Context (connect_to_remote_ : list ascii → Z → PhyType → option D).
Context (boutique : @DeviceBoutique.Map D).
Notation Model := (TestModel D M).
Implicit Types (m : Model) (args : list (list ascii)).
Notation steps := (rtc (model_step SetProperties connect_to_remote_)).
Notation HandleCommand := (HandleCommand SetProperties connect_to_remote_ boutique).
Notation active_commands_ := (active_commands_ SetProperties connect_to_remote_ boutique).

(** Identifiers are left. *)
Definition room m : Prop := instance_counter m < 2 ^ 32 - 1 ∧ next_id m < 2 ^ 32 - 1.
(** No constructor of a device ends the process. *)
Definition constructible args : Prop := Forall (λ e, is_ok (snd e args) = true) boutique.
(** A command that needs an argument, or else reads beyond the vector. *)
Definition needs_argument (name : list ascii) : Prop :=
  name ∈ [text_of_string "del"; text_of_string "del_phy"; text_of_string "set_timer_period"].
Definition responses_of (name : list ascii) args : nat :=
  match args with [] => 1 | _ => if bool_decide (name = text_of_string "list") then 0 else 1 end.

(** The command ends, by steps of the model, with this many responses. *)
Definition answered (n : nat) m (x : outcome (Model * list (list ascii))) : Prop :=
  ∃ m' rs, x = Ok (m', rs) ∧ steps m m' ∧ length rs = n.

Lemma respond_steps response m m' : steps m m' → answered 1 m (respond response m').
Proof. intros Hs. by exists m', [response]. Qed.
Lemma respond_same response m : answered 1 m (respond response m).
Proof. by apply respond_steps. Qed.
Lemma respond_step response m m' :
  model_step SetProperties connect_to_remote_ m m' → answered 1 m (respond response m').
Proof. intros Hs. by apply respond_steps, rtc_once. Qed.

Lemma AddDevice_answered args m : constructible args → room m → answered 1 m (AddDevice boutique args m).
Proof.
  intros Hc [Hi _]. unfold AddDevice. destruct args as [|name args]; [apply respond_same|]. unfold DeviceBoutique.Create.
  destruct (find_first _ boutique) as [[name' method]|] eqn:E; [|apply respond_same].
  apply find_first_Some in E as [E _]. apply (proj1 (Forall_forall _ _) Hc) in E. cbn [snd] in E.
  destruct (method (name :: args)) as [d| | |]; try discriminate E. cbn [mbind outcome_bind].
  apply respond_step, step_add_device. done.
Qed.
Lemma AddRemote_answered args m : room m → answered 1 m (AddRemote connect_to_remote_ args m).
Proof.
  intros [Hi _]. destruct args as [|server [|port [|type args]]]; cbn [AddRemote]; try apply respond_same.
  case_match; [apply respond_same|]. by apply respond_step, step_remote.
Qed.
Lemma AddPhy_answered args m : room m → answered 1 m (AddPhy args m).
Proof.
  intros [_ Hp]. destruct args as [|type [|? args]]; cbn [AddPhy]; try apply respond_same.
  repeat case_bool_decide; try apply respond_same; by apply respond_step, step_add_phy.
Qed.

(** A command that is a call of the model, or an answer. *)
Ltac answer :=
  lazymatch goal with
  | |- answered _ ?m (respond _ ?m) => apply respond_same
  | |- answered _ _ (respond _ _) => apply respond_step; constructor
  end.
Ltac call args :=
  destruct args as [|? [|? [|? ?]]]; cbn -[respond text_of_string u32]; repeat (case_match || case_bool_decide); first [answer|done|idtac].

(** Every command of the table. *)
Lemma active_commands_answered args m :
  room m → constructible args →
  Forall (λ c, (args = [] → ¬ needs_argument (fst c)) → answered (responses_of (fst c) args) m (snd c args m))
    active_commands_.
Proof.
  intros Hroom Hc. unfold active_commands_.
  repeat (apply Forall_cons; split); [..|constructor]; cbn [fst snd]; intros Hargs.
  - by destruct args; apply AddDevice_answered.
  - by destruct args; apply AddRemote_answered.
  - call args. by destruct Hargs; [|repeat constructor].
  - by destruct args; apply AddPhy_answered.
  - call args. by destruct Hargs; [|repeat constructor].
  - call args.
  - call args.
  - destruct args; [apply respond_same|]. by exists m, [].
  - call args.
  - destruct args as [|device [|name [|? ?]]]; try apply respond_same. unfold SetDeviceConfiguration.
    destruct (find_first _ presets) as [[? preset]|]; answer.
  - call args. by destruct Hargs; [|repeat constructor].
  - destruct args; unfold StartTimer; answer.
  - destruct args; unfold StopTimer; answer.
  - destruct args; unfold Reset; answer.
Qed.

(** C34. A test gets one answer to each of its commands: with identifiers left and device
    constructors that do not throw, any command that the handler knows, with any arguments (one
    at least for those that need one), and any that it does not know, ends, is a sequence of steps
    of the model, so that what holds of a reachable model holds after it, and is answered with
    exactly one text, except for a list command with arguments, which is answered by none; an
    unknown command does nothing else. *)
Theorem test_command_answered (name : list ascii) args m
  (Hroom : room m) (Hc : constructible args) (Hargs : args = [] → ¬ needs_argument name) :
  ∃ m' responses, HandleCommand name args m = Ok (m', responses) ∧ steps m m' ∧
  length responses = responses_of name args ∧
  (name ∉ map fst active_commands_ → m' = m ∧ responses = [text_of_string "Unhandled command: " ++ name]).
Proof.
  unfold TestCommands.HandleCommand.
  destruct (find_first _ active_commands_) as [[name' method]|] eqn:E.
  - apply find_first_Some in E as [Hin Hname]. apply bool_decide_eq_true in Hname. cbn [fst] in Hname. subst name'.
    pose proof (active_commands_answered args m Hroom Hc) as Hall. rewrite Forall_forall in Hall.
    destruct (Hall _ Hin Hargs) as (m' & rs & Hr & Hs & Hl). exists m', rs. split_and!; try done.
    intros Hn. destruct Hn. change (map fst active_commands_) with (fst <$> active_commands_).
    apply list_elem_of_fmap. by exists (name, method).
  - pose proof (proj1 (find_first_None _ _) E) as Hn. exists m, [text_of_string "Unhandled command: " ++ name].
    split; [done|]. split; [done|]. split; [|done]. unfold responses_of. destruct args; [done|].
    case_bool_decide as Hl; [|done]. exfalso.
    assert (Hin : (text_of_string "list", List (D := D) (M := M)) ∈ active_commands_) by (do 7 right; left).
    subst. by apply Hn in Hin.
Qed.
End Answers.

(** ** The environment *)

Module TestEnvironment.
Import H4DataChannelPacketizer TestChannelTransport.
Section Environment.
Context {D M : Type} `{Device D, Scheduler M, IterationOrder}.
Context (SetProperties : Configuration → D → D).
Context (connect_to_remote_ : list ascii → Z → PhyType → option D).
Context (boutique : @DeviceBoutique.Map D).
Context {Chan : Type} (socket_Send : list Z → Chan → Z * bool * Chan) (socket_Close : Chan → Chan).

Record Environment := MkEnvironment {
  test_model_ : TestModel D M;
  test_channel_open_ : bool;
  (** [barrier_] is set. *)
  ended : bool;
}.
#[export] Instance environment_rebuild : Rebuild Environment := λ e,
  MkEnvironment (test_model_ e) (test_channel_open_ e) (ended e).

Fixpoint send_responses (responses : list (list ascii)) (conn_fd : Chan) : outcome Chan :=
  match responses with
  | [] => Ok conn_fd
  | response :: responses => c ← SendResponse socket_Send response conn_fd; send_responses responses c
  end.

(** The callback for connections in [SetUpTestChannel]. *)
Definition on_connect (conn_fd : Chan) (e : Environment) : outcome (Environment * Chan) :=
  if test_channel_open_ e then
    c ← SendResponse socket_Send (text_of_string "The connection is broken") conn_fd; Ok (e, c)
  else
    c ← SendResponse socket_Send (text_of_string "RegisterSendResponse called") conn_fd;
    Ok (e <| test_channel_open_ := true |>, c).
(** The task that the command handler of [initialize] gives to the task thread; a
    barrier that is set twice throws. *)
Definition on_command (name : list ascii) (args : list (list ascii)) (conn_fd : Chan) (e : Environment)
  : outcome (Environment * Chan) :=
  if bool_decide (name = text_of_string "END_SIMULATION") then
    if ended e then Fatal else Ok (e <| ended := true |>, conn_fd)
  else
    '(m, responses) ← HandleCommand SetProperties connect_to_remote_ boutique name args (test_model_ e);
    c ← send_responses responses conn_fd;
    Ok (e <| test_model_ := m |>, c).
Fixpoint perform (actions : list action) (conn_fd : Chan) (e : Environment) : outcome (Environment * Chan) :=
  match actions with
  | [] => Ok (e, conn_fd)
  | CloseSocket :: actions => perform actions (socket_Close conn_fd) e
  | Unwatch :: actions => perform actions conn_fd (e <| test_channel_open_ := false |>)
  | Handle name args :: actions =>
      '(e, conn_fd) ← on_command name args conn_fd e; perform actions conn_fd e
  end.
(** The callback for a socket that can be read. *)
Definition on_readable (ch : channel) (conn_fd : Chan) (e : Environment)
  : outcome (Environment * channel * Chan) :=
  let '(actions, ch) := OnCommandReady ch in
  '(e, conn_fd) ← perform actions conn_fd e;
  Ok (e, ch, conn_fd).
Fixpoint on_readables (n : nat) (ch : channel) (conn_fd : Chan) (e : Environment)
  : outcome (Environment * channel * Chan) :=
  match n with
  | O => Ok (e, ch, conn_fd)
  | S n => '(e, ch, conn_fd) ← on_readable ch conn_fd e; on_readables n ch conn_fd e
  end.

(** What [SetUpTestChannel] has the handler do before there is anyone to answer to. *)
Definition SetUpTestChannel (m : TestModel D M) : outcome (TestModel D M) :=
  '(m, _) ← HandleCommands SetProperties connect_to_remote_ boutique
    [(text_of_string "add_phy", [text_of_string "BR_EDR"]); (text_of_string "add_phy", [text_of_string "LOW_ENERGY"]);
     (text_of_string "add", [text_of_string "beacon"; text_of_string "be:ac:01:55:00:01"; text_of_string "1000"]);
     (text_of_string "add_device_to_phy", [text_of_string "0"; text_of_string "1"]);
     (text_of_string "add", [text_of_string "beacon"; text_of_string "be:ac:01:55:00:02"; text_of_string "1000"]);
     (text_of_string "add_device_to_phy", [text_of_string "1"; text_of_string "1"]);
     (text_of_string "set_timer_period", [text_of_string "5"]); (text_of_string "start_timer", [])] m;
  Ok m.
End Environment.
Arguments Environment : clear implicits.
Arguments MkEnvironment {D M}.
End TestEnvironment.

(** ** A session *)

Section Session.
Import H4DataChannelPacketizer LinkLayerSocketDevice TestChannelTransport TestEnvironment.
Implicit Types (ch : channel) (s : list ascii).

(** What a client writes for a command. *)
Definition encode_text s : list Z := zlength s :: map code s.
Definition encode_command (command : list ascii * list (list ascii)) : list Z :=
  encode_text (fst command) ++ zlength (snd command) :: concat (map encode_text (snd command)).
Definition short s : Prop := (length s < 256)%nat.
Definition command_wf (command : list ascii * list (list ascii)) : Prop :=
  fst command ≠ [] ∧ fst command ≠ text_of_string "CLOSE_TEST_CHANNEL" ∧ short (fst command) ∧
  (length (snd command) < 256)%nat ∧ Forall short (snd command).

(** How a client reads the responses. *)
Fixpoint read_responses (fuel : nat) (bytes : list Z) : option (list (list ascii)) :=
  match bytes, fuel with
  | [], _ => Some []
  | _, O => None
  | _, S fuel =>
      let size := Z.to_nat (read_le (take 4 bytes)) in
      let rest := drop 4 bytes in
      if (size <=? length rest)%nat
      then rs ← read_responses fuel (drop size rest); Some (map char (take size rest) :: rs)
      else None
  end.
Definition encode_response s : list Z :=
  write_le 4 (Z.min (zlength s) 0xffff) ++ take (Z.to_nat (Z.min (zlength s) 0xffff)) (map code s).

(** A socket that takes all that is sent. *)
Definition full_send (bytes written : list Z) : Z * bool * list Z := (zlength bytes, false, written ++ bytes).

Lemma char_code c : char (code c) = c.
Proof. unfold char, code. by rewrite N2Z.id, ascii_N_embedding. Qed.
Lemma chars_of_bytes s : map char (map code s) = s.
Proof. rewrite map_map. rewrite <-(map_id s) at 2. apply map_ext, char_code. Qed.

(** A channel from which a read gets what is there, up to 255 bytes. *)
Definition granting ch : Prop := Forall (λ g, 255 ≤ g)%nat (grants ch).
Lemma recv_full size bytes rest ch :
  length bytes = size → (size < 256)%nat → pending ch = bytes ++ rest → granting ch →
  ∃ ch', recv (Z.of_nat size) ch = (Received bytes, ch') ∧ pending ch' = rest ∧ granting ch' ∧ ending ch' = ending ch.
Proof.
  intros Hl Hs Hp Hg. unfold recv. destruct (Z.eqb_spec (Z.of_nat size) 0) as [Hz|Hz].
  { destruct bytes; [|cbn in Hl; lia]. by exists ch. }
  unfold Recv. rewrite Nat2Z.id. destruct (pending ch) as [|b bs] eqn:E.
  { destruct bytes; [cbn in Hl; lia|done]. }
  rewrite Hp. set (granted := match grants ch with [] => size | g :: _ => Nat.max 1 g end).
  assert (Nat.min size granted = length bytes) as ->.
  { unfold granted. destruct (grants ch) as [|g gs] eqn:Eg; [lia|]. unfold granting in Hg. rewrite Eg in Hg.
    apply Forall_cons in Hg as [? _]. lia. }
  rewrite take_app_length, drop_app_length. eexists. split; [reflexivity|]. split; [done|]. split; [|done].
  unfold granting in *. cbn. by apply Forall_tail.
Qed.
Lemma read_into_full size bytes rest ch :
  length bytes = size → (size < 256)%nat → pending ch = bytes ++ rest → granting ch →
  ∃ ch', read_into size ch = (bytes, true, ch') ∧ pending ch' = rest ∧ granting ch'.
Proof.
  intros Hl Hs Hp Hg. destruct (recv_full size bytes rest ch Hl Hs Hp Hg) as (ch' & E & ? & ? & _).
  exists ch'. unfold read_into. rewrite E, Hl, Nat.sub_diag, app_nil_r. by rewrite bool_decide_true by done.
Qed.
Lemma read_text_full s rest ch :
  short s → pending ch = encode_text s ++ rest → granting ch →
  ∃ ch1 ch2, read_byte ch = (length s, true, ch1) ∧ read_text (length s) ch1 = (s, ch2) ∧
  pending ch2 = rest ∧ granting ch2.
Proof.
  intros Hs Hp Hg. unfold short in Hs. unfold encode_text in Hp. cbn [app] in Hp.
  destruct (read_into_full 1 [zlength s] (map code s ++ rest) ch) as (ch1 & E1 & Hp1 & Hg1); [done|lia|done..|].
  destruct (read_into_full (length s) (map code s) rest ch1) as (ch2 & E2 & Hp2 & Hg2);
    [apply length_map|done..|].
  exists ch1, ch2. unfold read_byte, read_text. rewrite E1, E2. cbn [head default]. unfold zlength.
  cbn. by rewrite Nat2Z.id, chars_of_bytes.
Qed.
Lemma read_args_full args rest ch :
  Forall short args → pending ch = concat (map encode_text args) ++ rest → granting ch →
  ∃ ch', read_args (length args) ch = (args, ch') ∧ pending ch' = rest ∧ granting ch'.
Proof.
  intros Hargs. revert ch. induction Hargs as [|s args Hs _ IH]; intros ch Hp Hg; [by exists ch|].
  cbn [map concat] in Hp. rewrite <-app_assoc in Hp.
  destruct (read_text_full s _ ch Hs Hp Hg) as (ch1 & ch2 & E1 & E2 & Hp2 & Hg2).
  destruct (IH ch2 Hp2 Hg2) as (ch3 & E3 & Hp3 & Hg3). exists ch3. cbn [length read_args]. by rewrite E1, E2, E3.
Qed.
Lemma OnCommandReady_full command rest ch :
  command_wf command → pending ch = encode_command command ++ rest → granting ch →
  ∃ ch', OnCommandReady ch = ([Handle (fst command) (snd command)], ch') ∧ pending ch' = rest ∧ granting ch'.
Proof.
  destruct command as [name args]. intros (Hne & Hnc & Hs & Hl & Hargs) Hp Hg. cbn [fst snd] in *.
  unfold encode_command in Hp. cbn [fst snd] in Hp. rewrite <-app_assoc in Hp.
  destruct (read_text_full name _ ch Hs Hp Hg) as (ch1 & ch2 & E1 & E2 & Hp2 & Hg2).
  cbn [app] in Hp2.
  destruct (read_into_full 1 [zlength args] _ ch2 eq_refl ltac:(lia) Hp2 Hg2) as (ch3 & E3 & Hp3 & Hg3).
  destruct (read_args_full args rest ch3 Hargs Hp3 Hg3) as (ch4 & E4 & Hp4 & Hg4).
  exists ch4. unfold OnCommandReady. rewrite E1, E2. rewrite !bool_decide_false by done. cbn [orb].
  unfold read_byte. rewrite E3. cbn [head default]. unfold zlength. cbn. rewrite Nat2Z.id, E4. done.
Qed.

Lemma SendResponse_full s written :
  SendResponse full_send s written = Ok (written ++ encode_response s).
Proof.
  unfold SendResponse, full_send, encode_response. cbn [zlength length write_le].
  set (size := Z.min (zlength s) 0xffff). assert (0 ≤ size ≤ zlength s) as Hsize by (unfold size; pose proof (zlength_nonneg s); lia).
  cbn. assert (zlength (take (Z.to_nat size) (map code s)) =? size = true) as ->.
  { apply Z.eqb_eq. unfold zlength in *. rewrite length_take, length_map. lia. }
  cbn. by rewrite <-!app_assoc.
Qed.
Lemma send_responses_full responses written :
  send_responses full_send responses written = Ok (written ++ concat (map encode_response responses)).
Proof.
  revert written. induction responses as [|s responses IH]; intros written; cbn [send_responses map concat].
  - by rewrite app_nil_r.
  - rewrite SendResponse_full. cbn [mbind outcome_bind]. rewrite IH. by rewrite <-app_assoc.
Qed.

Lemma read_encode_response fuel s rest rs :
  read_responses fuel rest = Some rs →
  read_responses (S fuel) (encode_response s ++ rest) = Some (take (Z.to_nat 0xffff) s :: rs).
Proof.
  intros Hr. unfold encode_response. set (size := Z.min (zlength s) 0xffff).
  assert (0 ≤ size ≤ 0xffff ∧ size ≤ zlength s) as [Hsize Hle]
    by (unfold size; pose proof (zlength_nonneg s); lia).
  assert (length (take (Z.to_nat size) (map code s)) = Z.to_nat size) as Hl
    by (rewrite length_take, length_map; unfold zlength in *; lia).
  assert (read_le (take 4 ((write_le 4 size ++ take (Z.to_nat size) (map code s)) ++ rest)) = size) as Hread.
  { transitivity (read_le (write_le 4 size)); [done|]. apply Devices.SocketDevice.read_write_le. unfold fits. lia. }
  assert (drop 4 ((write_le 4 size ++ take (Z.to_nat size) (map code s)) ++ rest) =
    take (Z.to_nat size) (map code s) ++ rest) as Hdrop by done.
  cbn [read_responses]. destruct ((write_le 4 size ++ _) ++ rest) as [|b bs] eqn:E; [done|]. rewrite <-E in Hread, Hdrop |- *.
  rewrite Hread, Hdrop, length_app, Hl, (proj2 (Nat.leb_le _ _)) by lia.
  rewrite drop_app_le, (drop_ge (take _ _)), take_app_le, take_take, Nat.min_id by lia. cbn [app]. rewrite Hr. cbn [mbind option_bind].
  do 2 f_equal. rewrite <-firstn_map, chars_of_bytes. unfold size, zlength.
  destruct (decide (length s ≤ Z.to_nat 0xffff)%nat).
  - rewrite !firstn_all2; [done|lia..].
  - f_equal. lia.
Qed.
Lemma read_encode_responses responses :
  read_responses (length responses) (concat (map encode_response responses)) = Some (map (take (Z.to_nat 0xffff)) responses).
Proof.
  induction responses as [|s responses IH]; [done|]. cbn [map concat length]. by apply read_encode_response.
Qed.

Context {D M : Type} `{Device D, Scheduler M, IterationOrder}.
Context (SetProperties : Configuration → D → D).
Context (connect_to_remote_ : list ascii → Z → PhyType → option D).
Context (boutique : @DeviceBoutique.Map D).
Notation on_readables := (on_readables SetProperties connect_to_remote_ boutique full_send (λ c, c)).
Notation HandleCommands := (HandleCommands SetProperties connect_to_remote_ boutique).

Lemma on_readables_full commands (m m' : TestModel D M) responses opened over ch written :
  Forall command_wf commands → Forall (λ c, fst c ≠ text_of_string "END_SIMULATION") commands →
  pending ch = concat (map encode_command commands) → granting ch →
  HandleCommands commands m = Ok (m', responses) →
  ∃ ch', on_readables (length commands) ch written (MkEnvironment m opened over) =
    Ok (MkEnvironment m' opened over, ch', written ++ concat (map encode_response responses)) ∧ pending ch' = [].
Proof.
  intros Hc Hn. revert m responses ch written. induction Hc as [|[name args] commands Hcmd Hc IH];
    intros m responses ch written Hp Hg Hrun.
  { injection Hrun as <- <-. exists ch. cbn. by rewrite app_nil_r. }
  apply Forall_cons in Hn as [Hname Hn]. cbn [fst] in Hname.
  destruct (OnCommandReady_full (name, args) _ ch Hcmd Hp Hg) as (ch1 & E1 & Hp1 & Hg1). cbn [fst snd] in E1.
  cbn [TestCommands.HandleCommands] in Hrun.
  apply bind_Ok in Hrun as ([m1 r1] & Er1 & ([m2 r2] & Er2 & [= <- <-])%bind_Ok).
  destruct (IH Hn m1 r2 ch1 (written ++ concat (map encode_response r1)) Hp1 Hg1 Er2) as (ch' & E' & Hp').
  exists ch'. split; [|done]. cbn [length TestEnvironment.on_readables]. unfold on_readable. rewrite E1.
  cbn [perform]. unfold on_command. rewrite bool_decide_false by done. cbn [test_model_]. rewrite Er1.
  cbn [mbind outcome_bind]. rewrite send_responses_full. cbn [mbind outcome_bind].
  rewrite map_app, concat_app, app_assoc. exact E'.
Qed.

(** C33. A test and the simulator understand one another: whatever the commands (with names
    that are not empty and texts below 256 characters), written to the socket one after the other,
    as many calls as there are commands carry out exactly these commands, in this order, and what
    the client then reads is exactly the responses of the handler, in order, each cut to 65535
    characters; nothing is left in the socket. *)
Theorem test_session_roundtrip (commands : list (list ascii * list (list ascii))) (m m' : TestModel D M)
  (responses : list (list ascii)) (opened over : bool) ch
  (Hc : Forall command_wf commands) (Hn : Forall (λ c, fst c ≠ text_of_string "END_SIMULATION") commands)
  (Hp : pending ch = concat (map encode_command commands)) (Hg : granting ch)
  (Hrun : HandleCommands commands m = Ok (m', responses)) :
  ∃ ch' bytes, on_readables (length commands) ch [] (MkEnvironment m opened over) =
    Ok (MkEnvironment m' opened over, ch', bytes) ∧ pending ch' = [] ∧
  read_responses (length responses) bytes = Some (map (take (Z.to_nat 0xffff)) responses).
Proof.
  destruct (on_readables_full commands m m' responses opened over ch [] Hc Hn Hp Hg Hrun) as (ch' & E & Hp').
  do 2 eexists. split; [exact E|]. split; [done|]. apply read_encode_responses.
Qed.
End Session.

(** ** Numbers, written and read *)

Section Numbers.
Lemma digit_of_N d : (d < 10)%N → digit_below 10 (pretty_N_char d) = Some (Z.of_N d).
Proof.
  intros Hd. assert (Forall (λ d, digit_below 10 (pretty_N_char d) = Some (Z.of_N d)) (N.of_nat <$> seq 0 10)) as Hall
    by (vm_compute; repeat constructor).
  rewrite Forall_forall in Hall. apply Hall. apply list_elem_of_fmap. exists (N.to_nat d). rewrite N2Nat.id.
  split; [done|]. apply elem_of_seq. lia.
Qed.
Lemma digits_pretty_go x s :
  digits 10 0 (list_ascii_of_string (pretty_N_go x s)) = digits 10 (Z.of_N x) (list_ascii_of_string s).
Proof.
  revert s. induction x as [x IH] using (well_founded_induction N.lt_wf_0); intros s.
  destruct (decide (x = 0)%N) as [->|Hx]; [by rewrite pretty_N_go_0|]. rewrite pretty_N_go_step by lia.
  rewrite IH by (apply N.div_lt; lia). cbn [list_ascii_of_string digits].
  rewrite digit_of_N by (apply N.mod_lt; lia). f_equal. pose proof (N.div_mod x 10 ltac:(lia)). lia.
Qed.
(** The first digit is not zero. *)
Lemma pretty_go_head x s :
  (0 < x)%N → ∃ d rest, (0 < d < 10)%N ∧ list_ascii_of_string (pretty_N_go x s) = pretty_N_char d :: rest.
Proof.
  revert s. induction x as [x IH] using (well_founded_induction N.lt_wf_0); intros s Hx. rewrite pretty_N_go_step by lia.
  destruct (decide (x / 10 = 0)%N) as [E|E].
  - rewrite E, pretty_N_go_0. exists (x mod 10)%N, (list_ascii_of_string s). split; [|done].
    pose proof (N.div_mod x 10 ltac:(lia)). pose proof (N.mod_lt x 10 ltac:(lia)). lia.
  - apply IH; [apply N.div_lt; lia|by apply N.neq_0_lt_0].
Qed.
Lemma strtoul_digit d rest :
  (0 < d < 10)%N → strtoul (pretty_N_char d :: rest) =
    let v := digits 10 0 (pretty_N_char d :: rest) in if 2 ^ 64 <=? v then 2 ^ 64 - 1 else v.
Proof.
  intros Hd.
  assert (d = 1 ∨ d = 2 ∨ d = 3 ∨ d = 4 ∨ d = 5 ∨ d = 6 ∨ d = 7 ∨ d = 8 ∨ d = 9)%N as Hcases by lia.
  by destruct_or! Hcases; subst.
Qed.

(** A number that a response or the list shows is the one that a command reads. *)
Lemma ParseIntParam_number (n : Z) : fits 64 n → ParseIntParam (number n) = n.
Proof.
  intros [H0 Hn]. unfold ParseIntParam, number, text_of_string. destruct n as [|p|p]; [done| |lia].
  assert (pretty (Z.pos p) = pretty_N_go (N.pos p) "") as -> by done.
  destruct (pretty_go_head (N.pos p) "" ltac:(lia)) as (d & rest & Hd & E).
  pose proof (digits_pretty_go (N.pos p) "") as Hv. rewrite E in Hv |- *. rewrite strtoul_digit by done. cbv zeta.
  rewrite Hv. cbn [list_ascii_of_string digits]. rewrite (proj2 (Z.leb_gt _ _)) by lia. done.
Qed.
End Numbers.

(** ** Examples *)

Section Examples.
#[local] Instance example_order : IterationOrder := key_order.
Notation ExampleModel := (TestModel (Address * list Z) Z).
(** The devices that can be made: beacons, of which the address is kept. *)
Definition example_boutique : @DeviceBoutique.Map (Address * list Z) :=
  DeviceBoutique.Register (text_of_string "beacon") (λ args, b ← Beacon.Create args; Ok (Beacon.address_ b, [])) [].
Definition no_connection : list ascii → Z → PhyType → option (Address * list Z) := λ _ _ _, None.
Definition keep : Configuration → Address * list Z → Address * list Z := λ _ d, d.

Lemma test_command_answered_witness :
  ∃ (m' : ExampleModel) responses,
    HandleCommand keep no_connection example_boutique (text_of_string "add") [text_of_string "beacon"] example_model = Ok (m', responses) ∧
    rtc (model_step keep no_connection) example_model m' ∧
    length responses = 1%nat ∧
    (text_of_string "add" ∉ map fst (active_commands_ (H0 := example_scheduler) keep no_connection example_boutique) →
       m' = example_model ∧ responses = [text_of_string "Unhandled command: " ++ text_of_string "add"]).
Proof.
  apply (test_command_answered keep no_connection example_boutique (text_of_string "add") [text_of_string "beacon"] example_model).
  - split; reflexivity.
  - repeat constructor.
  - discriminate.
Defined.

Lemma test_session_roundtrip_witness :
  ∃ (m' : ExampleModel) ch' bytes,
    TestEnvironment.on_readables keep no_connection example_boutique full_send (λ c, c) 2
      (H4DataChannelPacketizer.MkChannel (concat (map encode_command
        [(text_of_string "add_phy", [text_of_string "BR_EDR"]); (text_of_string "reset", [])])) [] H4DataChannelPacketizer.RecvEAGAIN) []
      (TestEnvironment.MkEnvironment example_model true false) =
      Ok (TestEnvironment.MkEnvironment m' true false, ch', bytes) ∧
    H4DataChannelPacketizer.pending ch' = [] ∧
    read_responses 2 bytes =
      Some [text_of_string "TestCommandHandler 'add_phy' called with BR_EDR"; text_of_string "model reset"].
Proof.
  eexists.
  apply (test_session_roundtrip keep no_connection example_boutique
    [(text_of_string "add_phy", [text_of_string "BR_EDR"]); (text_of_string "reset", [])] example_model _
    [text_of_string "TestCommandHandler 'add_phy' called with BR_EDR"; text_of_string "model reset"]).
  - repeat constructor; cbn; try discriminate; lia.
  - repeat constructor; discriminate.
  - reflexivity.
  - constructor.
  - reflexivity.
Defined.

(** The layers and the devices on them. *)
Definition placement (m : ExampleModel) : list (Z * list Z) :=
  map (λ phy, (phy, from_option PhyLayer.phy_devices_ [] (layers (air m) !! phy))) (ascending (dom (layers (air m)))).
(** The environment sets up two layers, with two beacons on the second. *)
Example set_up :
  (λ m, (placement m, ascending (TestModel.phy_devices_ m))) <$>
    TestEnvironment.SetUpTestChannel keep no_connection example_boutique example_model =
  Ok ([(0, []); (1, [0; 1])], [0; 1]).
Proof. vm_compute. reflexivity. Qed.
(** The defaults put no device anywhere: identifiers start at 0. *)
Example defaults_add_nothing :
  (λ '(m, _), placement m) <$>
    AddDefaults keep no_connection example_boutique
      (TestModel.AddDevice 0 (kEmpty, []) (snd (next_instance_id example_model))) =
  Ok [(0, []); (1, [])].
Proof. vm_compute. reflexivity. Qed.

(** A beacon with an interval that is no number ends the process. *)
Example bad_interval :
  AddDevice example_boutique [text_of_string "beacon"; text_of_string "be:ac:01:55:00:01"; text_of_string "fast"] example_model = Fatal.
Proof. reflexivity. Qed.
(** A command without the argument that it needs. *)
Example del_without_argument :
  HandleCommand keep no_connection example_boutique (text_of_string "del") [] example_model = Undef.
Proof. reflexivity. Qed.
Example negative_index : u32 (ParseIntParam (text_of_string "-1")) = 4294967295 ∧ ParseIntParam (text_of_string "0x1f") = 31 ∧
  ParseIntParam (text_of_string "010") = 8 ∧ ParseIntParam (text_of_string "ten") = 0.
Proof. repeat split. Qed.
(** A command of which only a part has come is carried out with zeros for the rest. *)
Example partial_command :
  fst (TestChannelTransport.OnCommandReady
    (H4DataChannelPacketizer.MkChannel [5; 114; 101] [] H4DataChannelPacketizer.RecvEAGAIN)) =
    [TestChannelTransport.Handle ["r"; "e"; "000"; "000"; "000"]%char []].
Proof. reflexivity. Qed.
(** A client that has gone before it is answered: the process ends. *)
Example client_gone :
  TestChannelTransport.SendResponse (λ _ (c : ()), (-1, false, c)) (text_of_string "timer started") () = Fatal.
Proof. reflexivity. Qed.
End Examples.
