(* ===== verification/PcapFilter.v ===== *)
(** * The filter of packet captures (lib/hci/pcap_filter.cc)

    [PcapFilter] rewrites the HCI packets that go to a capture file: device names
    are replaced, data are wiped.  Reading a packet and writing one are generated
    code, a parameter here. *)

From Stdlib Require Import Ascii String.
From stdpp Require Import pretty.
From S2P Require Import Prelude HciTypes OpCodes Address LeState.

(** ** The packets the filter reads and writes *)

(** A format, by the type of the fields the code reads ([XxxView]) and writes
    ([XxxBuilder]). *)
Inductive format : Type → Type :=
| Acl : format (Z * Z * Z * list Z)
| Sco : format (Z * Z * list Z)
| Iso : format (Z * Z * Z * list Z)
| Command : format Z
| Event : format Z
| LeMetaEvent : format Z
| CommandComplete : format Z
| WriteLocalName : format (list Z)
| WriteExtendedInquiryResponse : format (Z * list Z)
| LeSetAdvertisingData : format (list Z)
| LeSetScanResponseData : format (list Z)
| LeSetExtendedAdvertisingData : format (Z * Z * Z * list Z)
| LeSetExtendedScanResponseData : format (Z * Z * Z * list Z)
| LeSetPeriodicAdvertisingData : format (Z * Z * list Z)
| ReadLocalNameComplete : format (Z * ErrorCode.t * list Z)
| ReadExtendedInquiryResponseComplete : format (Z * ErrorCode.t * Z * list Z)
| RemoteNameRequestComplete : format (ErrorCode.t * Address * list Z)
| ExtendedInquiryResult : format (Address * Z * Z * Z * Z * list Z)
| LeAdvertisingReport : format (list LeAdvertisingResponse)
| LeExtendedAdvertisingReport : format (list LeExtendedAdvertisingResponse).

(** [View::Create] followed by [IsValid] and the getters, and
    [Builder::Create(...)->SerializeToBytes()]. *)
Class Formats := {
  Create : ∀ {A}, format A → list Z → option A;
  SerializeToBytes : ∀ {A}, format A → A → list Z;
}.

(** ** The filter *)

(** [device_name_map]: the names replaced so far, in order. *)
Definition PcapFilter : Type := list (list Z * list Z).

(** The methods change the filter and may stop the process. *)
Definition F (A : Type) : Type := PcapFilter → outcome (A * PcapFilter).
#[export] Instance F_ret : MRet F := λ A a m, Ok (a, m).
#[export] Instance F_bind : MBind F := λ A B f x m, '(a, m) ← x m; f a m.
Definition check {A} (x : outcome A) : F A := λ m, a ← x; Ok (a, m).
(** [ASSERT(view.IsValid())]. *)
Definition valid {A} (view : option A) : F A :=
  check (match view with Some a => Ok a | None => Fatal end).

(** *** Names *)

(** The digits of [%02zu]. *)
Definition two_digits (n : nat) : string :=
  let s := pretty (N.of_nat n) in
  if (String.length s <? 2)%nat then ("0" ++ s)%string else s.

(** [std::snprintf(buffer, buffer.size(), ...)] of a text: its beginning and a null
    byte, as far as there is room. *)
Definition snprintf (text buffer : list Z) : list Z :=
  match length buffer with
  | O => buffer
  | S room => take room text ++ [0] ++ drop (length (take room text) + 1) buffer
  end.
Definition device_name_text (device_nr : nat) : list Z :=
  bytes_of "#" ++ bytes_of (two_digits device_nr) ++ bytes_of " device".
Definition generate_device_name (device_nr device_name_len : nat) (padded : bool) : list Z :=
  let output := snprintf (device_name_text device_nr) (replicate (device_name_len + 1) 0) in
  let written_len := length (device_name_text device_nr) in
  let output := take device_name_len output in
  if padded && (written_len <? length output)%nat
  then take written_len output ++ replicate (length output - written_len) 32
  else output.

(** The two overloads of [ChangeDeviceName] differ in the padding. *)
Definition ChangeDeviceName (padded : bool) (device_name : list Z) : F (list Z) := λ m,
  match find_first (λ '(old_device_name, _), bool_decide (old_device_name = device_name)) m with
  | Some (_, new_device_name) => Ok (new_device_name, m)
  | None =>
      let new_device_name := generate_device_name (length m) (length device_name) padded in
      Ok (new_device_name, m ++ [(device_name, new_device_name)])
  end.

(** *** GAP data *)

Definition SHORTENED_LOCAL_NAME : Z := 0x08.
Definition COMPLETE_LOCAL_NAME : Z := 0x09.
Definition is_name (data_type : Z) : bool :=
  (data_type =? COMPLETE_LOCAL_NAME) || (data_type =? SHORTENED_LOCAL_NAME).

(** [std::copy] into an array: beyond its end is undefined. *)
Definition copy_at (start : nat) (source target : list Z) : outcome (list Z) :=
  if (start + length source <=? length target)%nat
  then Ok (take start target ++ source ++ drop (start + length source) target)
  else Undef.

(** The loop of [FilterGapData]; every turn goes on by a byte at least. *)
Fixpoint filter_gap_data (fuel offset : nat) (gap_data : list Z) : F (list Z) :=
  match fuel with
  | O => check Hang
  | S fuel =>
      if negb (offset + 2 <=? length gap_data)%nat then mret gap_data
      else
        len ← check (unchecked (gap_data !! offset));
        data_type ← check (unchecked (gap_data !! (offset + 1)%nat));
        let len := Z.to_nat len in
        if (length gap_data <? offset + len + 1)%nat then mret gap_data
        else if (len =? 0)%nat then filter_gap_data fuel (offset + 1) gap_data
        else
          gap_data ← (if is_name data_type then
            let start_pos := (offset + 1)%nat in
            let end_pos := (offset + len)%nat in
            new_name ← ChangeDeviceName true (take (end_pos - start_pos) (drop start_pos gap_data));
            check (copy_at start_pos new_name gap_data)
          else mret gap_data);
          filter_gap_data fuel (offset + (len + 1)) gap_data
  end.
Definition FilterGapData (gap_data : list Z) : F (list Z) :=
  filter_gap_data (length gap_data + 1) 0 gap_data.

(** [std::copy] into a zeroed array of 248 bytes. *)
Definition ChangeDeviceName248 (device_name : list Z) : F (list Z) :=
  new_device_name ← ChangeDeviceName false device_name;
  check (copy_at 0 new_device_name (replicate 248 0)).

(** ** The packets *)

Section Packets.
Context {formats : Formats}.

Definition wiped (l : list Z) : list Z := replicate (length l) 0.
Definition FilterHciAcl (packet : list Z) : F (list Z) :=
  '(handle, packet_boundary_flag, broadcast_flag, payload) ← valid (Create Acl packet);
  mret (SerializeToBytes Acl (handle, packet_boundary_flag, broadcast_flag, wiped payload)).
Definition FilterHciSco (packet : list Z) : F (list Z) :=
  '(handle, packet_status_flag, data) ← valid (Create Sco packet);
  mret (SerializeToBytes Sco (handle, packet_status_flag, wiped data)).
Definition FilterHciIso (packet : list Z) : F (list Z) :=
  '(connection_handle, pb_flag, ts_flag, payload) ← valid (Create Iso packet);
  mret (SerializeToBytes Iso (connection_handle, pb_flag, ts_flag, wiped payload)).

Definition FilterWriteLocalName (command : list Z) : F (list Z) :=
  local_name ← valid (Create WriteLocalName command);
  local_name ← ChangeDeviceName248 local_name;
  mret (SerializeToBytes WriteLocalName local_name).
Definition FilterWriteExtendedInquiryResponse (command : list Z) : F (list Z) :=
  '(fec_required, extended_inquiry_response) ← valid (Create WriteExtendedInquiryResponse command);
  extended_inquiry_response ← FilterGapData extended_inquiry_response;
  mret (SerializeToBytes WriteExtendedInquiryResponse (fec_required, extended_inquiry_response)).
Definition FilterLeSetAdvertisingData (command : list Z) : F (list Z) :=
  advertising_data ← valid (Create LeSetAdvertisingData command);
  advertising_data ← FilterGapData advertising_data;
  mret (SerializeToBytes LeSetAdvertisingData advertising_data).
Definition FilterLeSetScanResponseData (command : list Z) : F (list Z) :=
  advertising_data ← valid (Create LeSetScanResponseData command);
  advertising_data ← FilterGapData advertising_data;
  mret (SerializeToBytes LeSetScanResponseData advertising_data).
Definition FilterLeSetExtendedAdvertisingData (command : list Z) : F (list Z) :=
  '(advertising_handle, operation, fragment_preference, advertising_data) ←
    valid (Create LeSetExtendedAdvertisingData command);
  advertising_data ← FilterGapData advertising_data;
  mret (SerializeToBytes LeSetExtendedAdvertisingData
          (advertising_handle, operation, fragment_preference, advertising_data)).
Definition FilterLeSetExtendedScanResponseData (command : list Z) : F (list Z) :=
  '(advertising_handle, operation, fragment_preference, scan_response_data) ←
    valid (Create LeSetExtendedScanResponseData command);
  advertising_data ← FilterGapData scan_response_data;
  mret (SerializeToBytes LeSetExtendedScanResponseData
          (advertising_handle, operation, fragment_preference, advertising_data)).
Definition FilterLeSetPeriodicAdvertisingData (command : list Z) : F (list Z) :=
  '(advertising_handle, operation, advertising_data) ← valid (Create LeSetPeriodicAdvertisingData command);
  advertising_data ← FilterGapData advertising_data;
  mret (SerializeToBytes LeSetPeriodicAdvertisingData (advertising_handle, operation, advertising_data)).

Definition FilterReadLocalNameComplete (command_complete : list Z) : F (list Z) :=
  '(num_hci_command_packets, status, local_name) ← valid (Create ReadLocalNameComplete command_complete);
  local_name ← (if bool_decide (status = ErrorCode.SUCCESS) then ChangeDeviceName248 local_name
                else mret local_name);
  mret (SerializeToBytes ReadLocalNameComplete (num_hci_command_packets, status, local_name)).
Definition FilterReadExtendedInquiryResponseComplete (command_complete : list Z) : F (list Z) :=
  '(num_hci_command_packets, status, fec_required, extended_inquiry_response) ←
    valid (Create ReadExtendedInquiryResponseComplete command_complete);
  extended_inquiry_response ← (if bool_decide (status = ErrorCode.SUCCESS)
                               then FilterGapData extended_inquiry_response
                               else mret extended_inquiry_response);
  mret (SerializeToBytes ReadExtendedInquiryResponseComplete
          (num_hci_command_packets, status, fec_required, extended_inquiry_response)).
Definition FilterRemoteNameRequestComplete (event : list Z) : F (list Z) :=
  '(status, bd_addr, remote_name) ← valid (Create RemoteNameRequestComplete event);
  remote_name ← (if bool_decide (status = ErrorCode.SUCCESS) then ChangeDeviceName248 remote_name
                 else mret remote_name);
  mret (SerializeToBytes RemoteNameRequestComplete (status, bd_addr, remote_name)).
Definition FilterExtendedInquiryResult (event : list Z) : F (list Z) :=
  '(address, page_scan_repetition_mode, class_of_device, clock_offset, rssi, extended_inquiry_response) ←
    valid (Create ExtendedInquiryResult event);
  extended_inquiry_response ← FilterGapData extended_inquiry_response;
  mret (SerializeToBytes ExtendedInquiryResult
          (address, page_scan_repetition_mode, class_of_device, clock_offset, rssi, extended_inquiry_response)).

(** [for (auto& response : responses) FilterGapData(response.advertising_data_)]. *)
Fixpoint filter_responses {R} (data : R → list Z) (set_data : list Z → R → R) (responses : list R) : F (list R) :=
  match responses with
  | [] => mret []
  | response :: responses =>
      advertising_data ← FilterGapData (data response);
      responses ← filter_responses data set_data responses;
      mret (set_data advertising_data response :: responses)
  end.
Definition set_legacy_data (advertising_data : list Z) (r : LeAdvertisingResponse) : LeAdvertisingResponse :=
  MkLeAdvertisingResponse (adv_event_type r) (adv_address_type r) (adv_address r) advertising_data (adv_rssi r).
Definition set_extended_data (advertising_data : list Z) (r : LeExtendedAdvertisingResponse)
  : LeExtendedAdvertisingResponse := r <| ext_advertising_data := advertising_data |>.
Definition FilterLeAdvertisingReport (event : list Z) : F (list Z) :=
  responses ← valid (Create LeAdvertisingReport event);
  responses ← filter_responses adv_advertising_data set_legacy_data responses;
  mret (SerializeToBytes LeAdvertisingReport responses).
Definition FilterLeExtendedAdvertisingReport (event : list Z) : F (list Z) :=
  responses ← valid (Create LeExtendedAdvertisingReport event);
  responses ← filter_responses ext_advertising_data set_extended_data responses;
  mret (SerializeToBytes LeExtendedAdvertisingReport responses).

Definition FilterHciCommand (packet : list Z) : F (list Z) :=
  op_code ← valid (Create Command packet);
  if op_code =? OpCode.WRITE_LOCAL_NAME then FilterWriteLocalName packet
  else if op_code =? OpCode.WRITE_EXTENDED_INQUIRY_RESPONSE then FilterWriteExtendedInquiryResponse packet
  else if op_code =? OpCode.LE_SET_ADVERTISING_DATA then FilterLeSetAdvertisingData packet
  else if op_code =? OpCode.LE_SET_SCAN_RESPONSE_DATA then FilterLeSetScanResponseData packet
  else if op_code =? OpCode.LE_SET_EXTENDED_ADVERTISING_DATA then FilterLeSetExtendedAdvertisingData packet
  else if op_code =? OpCode.LE_SET_EXTENDED_SCAN_RESPONSE_DATA then FilterLeSetExtendedScanResponseData packet
  else if op_code =? OpCode.LE_SET_PERIODIC_ADVERTISING_DATA then FilterLeSetPeriodicAdvertisingData packet
  else mret packet.

Definition FilterHciEvent (packet : list Z) : F (list Z) :=
  event_code ← valid (Create Event packet);
  if event_code =? EventCode.to_Z EventCode.LE_META_EVENT then
    subevent_code ← valid (Create LeMetaEvent packet);
    if subevent_code =? SubeventCode.to_Z SubeventCode.LE_ADVERTISING_REPORT
    then FilterLeAdvertisingReport packet
    else if subevent_code =? SubeventCode.to_Z SubeventCode.LE_EXTENDED_ADVERTISING_REPORT
    then FilterLeExtendedAdvertisingReport packet
    else mret packet
  else if event_code =? EventCode.to_Z EventCode.COMMAND_COMPLETE then
    op_code ← valid (Create CommandComplete packet);
    if op_code =? OpCode.READ_LOCAL_NAME then FilterReadLocalNameComplete packet
    else if op_code =? OpCode.READ_EXTENDED_INQUIRY_RESPONSE
    then FilterReadExtendedInquiryResponseComplete packet
    else mret packet
  else if event_code =? EventCode.to_Z EventCode.REMOTE_NAME_REQUEST_COMPLETE
  then FilterRemoteNameRequestComplete packet
  else if event_code =? EventCode.to_Z EventCode.EXTENDED_INQUIRY_RESULT
  then FilterExtendedInquiryResult packet
  else mret packet.

Definition FilterHciPacket (packet : list Z) (idc : Z) : F (list Z) :=
  if idc =? 0x1 then FilterHciCommand packet
  else if idc =? 0x2 then FilterHciAcl packet
  else if idc =? 0x3 then FilterHciSco packet
  else if idc =? 0x4 then FilterHciEvent packet
  else if idc =? 0x5 then FilterHciIso packet
  else mret packet.
End Packets.

(** ** What the filter does to GAP data *)

(** The same on the entries: a length, a type and a value.  Of a name all but the
    last byte, and the type before it, is taken for the name. *)
Definition filter_entry (entry : list Z) : F (list Z) :=
  match entry with
  | data_type :: _ =>
      if is_name data_type then
        new_name ← ChangeDeviceName true (take (length entry - 1) entry);
        mret (new_name ++ drop (length entry - 1) entry)
      else mret entry
  | [] => mret entry
  end.
Fixpoint filter_entries (fuel : nat) (gap_data : list Z) : F (list Z) :=
  match fuel, gap_data with
  | S fuel, len :: rest =>
      if bool_decide (rest = []) || (length rest <? Z.to_nat len)%nat then mret gap_data
      else
        entry ← filter_entry (take (Z.to_nat len) rest);
        rest ← filter_entries fuel (drop (Z.to_nat len) rest);
        mret (len :: entry ++ rest)
  | _, _ => mret gap_data
  end.

(** The names in the table are replaced by names as long. *)
Definition filter_wf (m : PcapFilter) : Prop := Forall (λ '(old, new), length new = length old) m.

Lemma length_generate_device_name nr len padded : length (generate_device_name nr len padded) = len.
Proof.
  assert (length (take len (snprintf (device_name_text nr) (replicate (len + 1) 0))) = len) as Hlen.
  { unfold snprintf. rewrite length_replicate, Nat.add_1_r, length_take, !length_app, length_take, length_drop,
      length_replicate. cbn [length]. lia. }
  unfold generate_device_name. destruct (_ && _) eqn:E; [|done].
  apply andb_true_iff in E as [_ E%Nat.ltb_lt]. rewrite length_app, length_take, length_replicate. lia.
Qed.

Lemma ChangeDeviceName_run padded name m :
  filter_wf m → ∃ new m', ChangeDeviceName padded name m = Ok (new, m') ∧ length new = length name ∧ filter_wf m'.
Proof.
  intros Hm. unfold ChangeDeviceName. destruct (find_first _ m) as [[old new]|] eqn:E.
  - apply find_first_Some in E as [Hin Heq%bool_decide_eq_true]. subst old. exists new, m. split; [done|].
    split; [|done]. unfold filter_wf in Hm. rewrite Forall_forall in Hm. by apply (Hm _ Hin).
  - do 2 eexists. split; [done|]. rewrite length_generate_device_name. split; [done|].
    apply Forall_app. split; [done|]. apply Forall_singleton. apply length_generate_device_name.
Qed.

Lemma F_bind_Ok {A B} (x : F A) (f : A → F B) m a m1 : x m = Ok (a, m1) → (x ≫= f) m = f a m1.
Proof. intros E. unfold mbind, F_bind. by rewrite E. Qed.

Lemma filter_entry_run entry m :
  filter_wf m → ∃ entry' m', filter_entry entry m = Ok (entry', m') ∧ length entry' = length entry ∧ filter_wf m'.
Proof.
  intros Hm. unfold filter_entry. destruct entry as [|data_type entry]; [by do 2 eexists|].
  destruct (is_name data_type); [|by do 2 eexists].
  destruct (ChangeDeviceName_run true (take (length (data_type :: entry) - 1) (data_type :: entry)) m Hm) as
    (new & m' & E & Hlen & Hm').
  rewrite (F_bind_Ok _ _ _ _ _ E). do 2 eexists. split; [done|]. split; [|done].
  rewrite length_app, Hlen, length_take, length_drop. cbn [length]. lia.
Qed.

Lemma filter_entries_run fuel data m :
  filter_wf m → ∃ data' m', filter_entries fuel data m = Ok (data', m') ∧ length data' = length data ∧ filter_wf m'.
Proof.
  revert data m. induction fuel as [|fuel IH]; intros data m Hm; [by do 2 eexists|]. cbn [filter_entries].
  destruct data as [|len rest]; [by do 2 eexists|]. destruct (_ || _) eqn:E; [by do 2 eexists|].
  apply orb_false_iff in E as [_ E%Nat.ltb_ge].
  destruct (filter_entry_run (take (Z.to_nat len) rest) m Hm) as (entry & m1 & E1 & Hl1 & Hm1).
  rewrite (F_bind_Ok _ _ _ _ _ E1). destruct (IH (drop (Z.to_nat len) rest) m1 Hm1) as (rest' & m2 & E2 & Hl2 & Hm2).
  rewrite (F_bind_Ok _ _ _ _ _ E2). do 2 eexists. split; [done|]. split; [|done].
  cbn [length]. rewrite length_app, Hl1, Hl2, length_take, length_drop. lia.
Qed.

Lemma name_slice (pre : list Z) len data_type rest n :
  (n ≤ length rest)%nat →
  take (length pre + S n - (length pre + 1)) (drop (length pre + 1) (pre ++ len :: data_type :: rest)) =
    take n (data_type :: rest) ∧
  take n (data_type :: take n rest) = take n (data_type :: rest).
Proof.
  intros Hn. split.
  - rewrite (cons_middle len), (assoc_L (++)). rewrite drop_app_length' by (rewrite length_app; cbn; lia).
    f_equal. lia.
  - destruct n as [|n]; [done|]. cbn [take]. by rewrite take_take, Nat.min_l by lia.
Qed.
Lemma name_copied n (pre : list Z) len data_type rest new :
  length new = n → (n ≤ length rest)%nat →
  copy_at (length pre + 1) new (pre ++ len :: data_type :: rest) =
    Ok (pre ++ len :: (new ++ drop n (data_type :: take n rest)) ++ drop n rest).
Proof.
  intros Hnew Hn. unfold copy_at. rewrite length_app. cbn [length].
  rewrite (proj2 (Nat.leb_le _ _)) by lia. f_equal.
  replace (pre ++ len :: data_type :: rest) with ((pre ++ [len]) ++ data_type :: rest) by (by rewrite <-app_assoc).
  rewrite take_app_length' by (rewrite length_app; cbn; lia).
  replace (length pre + 1 + length new)%nat with (length (pre ++ [len]) + n)%nat
    by (rewrite length_app; cbn; lia).
  rewrite drop_app_add, <-!app_assoc. cbn [app]. do 3 f_equal.
  rewrite <-(take_drop n rest) at 1. rewrite (app_comm_cons (take n rest)).
  apply drop_app_le. cbn [length]. rewrite length_take. lia.
Qed.

Lemma filter_gap_data_entries fuel fuel' pre suf m :
  filter_wf m → (length suf < fuel)%nat → (length suf < fuel')%nat →
  filter_gap_data fuel (length pre) (pre ++ suf) m =
    ('(suf, m) ← filter_entries fuel' suf m; Ok (pre ++ suf, m)).
Proof.
  revert fuel' pre suf m. induction fuel as [|fuel IH]; intros fuel' pre suf m Hm Hf Hf'; [lia|].
  destruct fuel' as [|fuel']; [lia|]. cbn [filter_gap_data filter_entries].
  destruct suf as [|len [|data_type rest]].
  1-2: rewrite length_app; cbn [length]; rewrite (proj2 (Nat.leb_gt _ _)) by lia; done.
  rewrite length_app. cbn [length] in *. rewrite (proj2 (Nat.leb_le _ _)) by lia. cbn [negb].
  assert ((pre ++ len :: data_type :: rest) !! length pre = Some len) as -> by by apply list_lookup_middle.
  assert ((pre ++ len :: data_type :: rest) !! (length pre + 1)%nat = Some data_type) as ->.
  { rewrite (cons_middle len), (assoc_L (++)). apply list_lookup_middle. rewrite length_app. cbn. lia. }
  erewrite F_bind_Ok by reflexivity. erewrite F_bind_Ok by reflexivity. rewrite bool_decide_false by done.
  cbn [orb]. set (n := Z.to_nat len) in *.
  replace (length pre + S (S (length rest)) <? length pre + n + 1)%nat with (S (length rest) <? n)%nat
    by (destruct (Nat.ltb_spec (S (length rest)) n), (Nat.ltb_spec (length pre + S (S (length rest))) (length pre + n + 1));
        try done; lia).
  destruct (Nat.ltb_spec (S (length rest)) n) as [Hn|Hn]; [done|].
  assert (∀ entry m1, length entry = n → filter_wf m1 →
    filter_gap_data fuel (length pre + (n + 1)) (pre ++ len :: entry ++ drop n (data_type :: rest)) m1 =
    ('(rest', m2) ← filter_entries fuel' (drop n (data_type :: rest)) m1; Ok (pre ++ len :: entry ++ rest', m2)))
    as Hnext.
  { intros entry m1 Hentry Hm1. rewrite (cons_middle len), !(assoc_L (++)).
    replace (length pre + (n + 1))%nat with (length ((pre ++ [len]) ++ entry)) by (rewrite !length_app; cbn; lia).
    rewrite (IH fuel'); [|done|rewrite length_drop; cbn; lia..].
    apply outcome_bind_ext. intros [rest' m2]. by rewrite <-!(assoc_L (++)). }
  destruct (Nat.eqb_spec n 0) as [Hz|Hz].
  - rewrite Hz in *. specialize (Hnext [] m eq_refl Hm). cbn [drop take app] in *.
    replace (length pre + 1)%nat with (length pre + (0 + 1))%nat by lia. rewrite Hnext.
    unfold mbind, F_bind, outcome_bind. cbn. by destruct (filter_entries fuel' (data_type :: rest) m) as [[]| | |].
  - destruct n as [|n']; [done|]. cbn [take filter_entry].
    assert (length (data_type :: take n' rest) - 1 = n')%nat as -> by (cbn [length]; rewrite length_take; lia).
    assert (∀ entry m1, length entry = S n' → filter_wf m1 →
      filter_gap_data fuel (length pre + (S n' + 1)) (pre ++ len :: entry ++ drop n' rest) m1 =
      ('(suf, m0) ← (rest0 ← filter_entries fuel' (drop n' rest); mret (len :: entry ++ rest0)) m1;
       Ok (pre ++ suf, m0))) as Hdone.
    { intros entry m1 Hentry Hm1. etrans; [exact (Hnext entry m1 Hentry Hm1)|]. cbn [drop].
      unfold mbind, F_bind, outcome_bind. by destruct (filter_entries fuel' (drop n' rest) m1) as [[]| | |]. }
    destruct (is_name data_type).
    + destruct (name_slice pre len data_type rest n') as [-> ->]; [lia|].
      destruct (ChangeDeviceName_run true (take n' (data_type :: rest)) m Hm) as (new & m1 & E & Hlen & Hm1).
      rewrite length_take in Hlen. cbn [length] in Hlen.
      erewrite F_bind_Ok.
      2: { erewrite F_bind_Ok by exact E. rewrite (name_copied n') by lia. reflexivity. }
      rewrite Hdone; [|rewrite length_app, length_drop; cbn [length]; rewrite length_take; lia|done].
      erewrite (F_bind_Ok (_ ≫= _)); [done|]. by erewrite F_bind_Ok by exact E.
    + erewrite F_bind_Ok by reflexivity. erewrite (F_bind_Ok (mret _)) by reflexivity.
      rewrite <-Hdone; [|cbn [length]; rewrite length_take; lia|done]. cbn [app]. by rewrite take_drop.
Qed.

Lemma FilterGapData_entries data m :
  filter_wf m → FilterGapData data m = filter_entries (length data + 1) data m.
Proof.
  intros Hm. unfold FilterGapData.
  pose proof (filter_gap_data_entries (length data + 1) (length data + 1) [] data m Hm) as E.
  cbn [length app] in E. rewrite E by lia. by destruct (filter_entries _ data m) as [[]| | |].
Qed.

(** The loop over the GAP data ends, whatever the bytes, reads and writes within
    the array, and keeps its length. What it does is to walk over the entries from the front,
    to stop at the first one that does not fit, and to replace in each entry of a name
    type, in order, what the table of names says; the other bytes stay. *)
Theorem FilterGapData_spec (data : list Z) (m : PcapFilter) (Hm : filter_wf m) :
  ∃ data' m', FilterGapData data m = Ok (data', m') ∧ length data' = length data ∧ filter_wf m' ∧
  filter_entries (length data + 1) data m = Ok (data', m').
Proof.
  rewrite FilterGapData_entries by done.
  destruct (filter_entries_run (length data + 1) data m Hm) as (data' & m' & -> & Hl & Hm'). by exists data', m'.
Qed.

(** ** What the filter does to a packet *)

Section Layout.
Context {formats : Formats}.

(** The dispatch of [FilterHciPacket] without what is done: the format a packet is
    rewritten in, if it is rewritten. *)
Definition rewritten_as {A} (f : format A) : option (sigT format) := Some (existT A f).
Definition layout_of_command (op_code : Z) : option (sigT format) :=
  if op_code =? OpCode.WRITE_LOCAL_NAME then rewritten_as WriteLocalName
  else if op_code =? OpCode.WRITE_EXTENDED_INQUIRY_RESPONSE then rewritten_as WriteExtendedInquiryResponse
  else if op_code =? OpCode.LE_SET_ADVERTISING_DATA then rewritten_as LeSetAdvertisingData
  else if op_code =? OpCode.LE_SET_SCAN_RESPONSE_DATA then rewritten_as LeSetScanResponseData
  else if op_code =? OpCode.LE_SET_EXTENDED_ADVERTISING_DATA then rewritten_as LeSetExtendedAdvertisingData
  else if op_code =? OpCode.LE_SET_EXTENDED_SCAN_RESPONSE_DATA then rewritten_as LeSetExtendedScanResponseData
  else if op_code =? OpCode.LE_SET_PERIODIC_ADVERTISING_DATA then rewritten_as LeSetPeriodicAdvertisingData
  else None.
Definition read {A B} (view : option A) (f : A → option B) : option B :=
  match view with Some a => f a | None => None end.
Definition layout_of_event (packet : list Z) (event_code : Z) : option (option (sigT format)) :=
  if event_code =? EventCode.to_Z EventCode.LE_META_EVENT then
    read (Create LeMetaEvent packet) (λ subevent_code,
    Some (if subevent_code =? SubeventCode.to_Z SubeventCode.LE_ADVERTISING_REPORT
          then rewritten_as LeAdvertisingReport
          else if subevent_code =? SubeventCode.to_Z SubeventCode.LE_EXTENDED_ADVERTISING_REPORT
          then rewritten_as LeExtendedAdvertisingReport else None))
  else if event_code =? EventCode.to_Z EventCode.COMMAND_COMPLETE then
    read (Create CommandComplete packet) (λ op_code,
    Some (if op_code =? OpCode.READ_LOCAL_NAME then rewritten_as ReadLocalNameComplete
          else if op_code =? OpCode.READ_EXTENDED_INQUIRY_RESPONSE
          then rewritten_as ReadExtendedInquiryResponseComplete else None))
  else Some (if event_code =? EventCode.to_Z EventCode.REMOTE_NAME_REQUEST_COMPLETE
             then rewritten_as RemoteNameRequestComplete
             else if event_code =? EventCode.to_Z EventCode.EXTENDED_INQUIRY_RESULT
             then rewritten_as ExtendedInquiryResult else None).
Definition layout (packet : list Z) (idc : Z) : option (option (sigT format)) :=
  if idc =? 0x1 then read (Create Command packet) (λ op_code,
    Some (layout_of_command op_code))
  else if idc =? 0x2 then Some (rewritten_as Acl)
  else if idc =? 0x3 then Some (rewritten_as Sco)
  else if idc =? 0x4 then read (Create Event packet) (λ event_code,
    layout_of_event packet event_code)
  else if idc =? 0x5 then Some (rewritten_as Iso)
  else Some None.

(** What is done to the fields of a format. *)
Definition filter_fields {A} (f : format A) : A → F A :=
  match f in format A return A → F A with
  | Acl => λ '(handle, pb, bc, payload), mret (handle, pb, bc, wiped payload)
  | Sco => λ '(handle, status, data), mret (handle, status, wiped data)
  | Iso => λ '(handle, pb, ts, payload), mret (handle, pb, ts, wiped payload)
  | WriteLocalName => ChangeDeviceName248
  | LeSetAdvertisingData | LeSetScanResponseData => FilterGapData
  | WriteExtendedInquiryResponse => λ '(fec, data), data ← FilterGapData data; mret (fec, data)
  | LeSetExtendedAdvertisingData | LeSetExtendedScanResponseData =>
      λ '(handle, operation, preference, data), data ← FilterGapData data; mret (handle, operation, preference, data)
  | LeSetPeriodicAdvertisingData =>
      λ '(handle, operation, data), data ← FilterGapData data; mret (handle, operation, data)
  | ReadLocalNameComplete => λ '(num, status, name),
      name ← (if bool_decide (status = ErrorCode.SUCCESS) then ChangeDeviceName248 name else mret name);
      mret (num, status, name)
  | ReadExtendedInquiryResponseComplete => λ '(num, status, fec, data),
      data ← (if bool_decide (status = ErrorCode.SUCCESS) then FilterGapData data else mret data);
      mret (num, status, fec, data)
  | RemoteNameRequestComplete => λ '(status, address, name),
      name ← (if bool_decide (status = ErrorCode.SUCCESS) then ChangeDeviceName248 name else mret name);
      mret (status, address, name)
  | ExtendedInquiryResult => λ '(address, mode, class, offset, rssi, data),
      data ← FilterGapData data; mret (address, mode, class, offset, rssi, data)
  | LeAdvertisingReport => filter_responses adv_advertising_data set_legacy_data
  | LeExtendedAdvertisingReport => filter_responses ext_advertising_data set_extended_data
  | Command | Event | LeMetaEvent | CommandComplete => λ a, mret a
  end.
Definition rewrite_packet (f : sigT format) (packet : list Z) : F (list Z) :=
  a ← valid (Create (projT2 f) packet);
  a ← filter_fields (projT2 f) a;
  mret (SerializeToBytes (projT2 f) a).

Lemma F_bind_assoc {A B C} (x : F A) (f : A → F B) (g : B → F C) m :
  ((x ≫= f) ≫= g) m = (x ≫= λ a, f a ≫= g) m.
Proof. unfold mbind, F_bind, outcome_bind. by destruct (x m) as [[]| | |]. Qed.
Lemma F_bind_ext {A B} (x : F A) (f g : A → F B) m :
  (∀ a m, f a m = g a m) → (x ≫= f) m = (x ≫= g) m.
Proof. intros H. unfold mbind, F_bind, outcome_bind. destruct (x m) as [[]| | |]; [apply H|done..]. Qed.
Lemma F_bind_mret {A B} (a : A) (f : A → F B) m : (mret a ≫= f) m = f a m.
Proof. done. Qed.

(** A packet that is rewritten: both sides read it, the fields are changed and written. *)
Ltac rewritten :=
  unfold rewrite_packet, rewritten_as; apply F_bind_ext; intros;
  repeat match goal with a : (_ * _)%type |- _ => destruct a end;
  try reflexivity; cbn [filter_fields projT2]; rewrite F_bind_assoc; reflexivity.

Ltac dispatched := repeat lazymatch goal with |- (if ?b then _ else _) ?m = _ => destruct b; [rewritten|] end.

Lemma FilterHciCommand_layout packet m :
  FilterHciCommand packet m =
    (op_code ← valid (Create Command packet);
     match layout_of_command op_code with Some f => rewrite_packet f packet | None => mret packet end) m.
Proof.
  unfold FilterHciCommand. apply F_bind_ext. intros op_code m'. unfold layout_of_command.
  dispatched; done.
Qed.
Lemma FilterHciEvent_layout packet m :
  FilterHciEvent packet m =
    (event_code ← valid (Create Event packet);
     match layout_of_event packet event_code with
     | None => check Fatal
     | Some (Some f) => rewrite_packet f packet
     | Some None => mret packet
     end) m.
Proof.
  unfold FilterHciEvent. apply F_bind_ext. intros event_code m'. unfold layout_of_event.
  destruct (event_code =? _).
  { destruct (Create LeMetaEvent packet) as [subevent_code|]; [|done].
    change (valid (Some subevent_code)) with (mret (M := F) subevent_code). rewrite F_bind_mret.
    cbn [read]. dispatched; done. }
  destruct (event_code =? _).
  { destruct (Create CommandComplete packet) as [op_code|]; [|done].
    change (valid (Some op_code)) with (mret (M := F) op_code). rewrite F_bind_mret.
    cbn [read]. dispatched; done. }
  dispatched; done.
Qed.

Lemma FilterHciPacket_run (packet : list Z) (idc : Z) (m : PcapFilter) :
  FilterHciPacket packet idc m =
    match layout packet idc with
    | None => Fatal
    | Some (Some f) => rewrite_packet f packet m
    | Some None => Ok (packet, m)
    end.
Proof.
  unfold FilterHciPacket, layout. destruct (idc =? 1).
  { rewrite FilterHciCommand_layout. destruct (Create Command packet) as [op_code|]; [|done].
    erewrite F_bind_Ok by reflexivity. cbn [read]. by destruct (layout_of_command op_code). }
  destruct (idc =? 2); [rewritten|]. destruct (idc =? 3); [rewritten|]. destruct (idc =? 4).
  { rewrite FilterHciEvent_layout. destruct (Create Event packet) as [event_code|]; [|done].
    erewrite F_bind_Ok by reflexivity. cbn [read]. by destruct (layout_of_event packet event_code) as [[]|]. }
  destruct (idc =? 5); [rewritten|done].
Qed.

(** The packet filter, method by method of every kind of packet, is: find the
    format of the packet, read it, change the fields of that format that hold names or data, and
    write it in the same format. A packet without such a format is returned as
    it came, and one that cannot be read stops the process. *)
Theorem FilterHciPacket_layout (packet : list Z) (idc : Z) (m : PcapFilter) :
  FilterHciPacket packet idc m =
    match layout packet idc with
    | None => Fatal
    | Some (Some f) => rewrite_packet f packet m
    | Some None => Ok (packet, m)
    end.
Proof. apply FilterHciPacket_run. Qed.
End Layout.

(** ** What a capture tells of the names *)

Section Anonymity.
Context {formats : Formats}.
(** A correspondence between the names of two users, one to one, of equal lengths. *)
Context (R : list Z → list Z → Prop).
Context (HR : ∀ a b a' b', R a b → R a' b' → a = a' ↔ b = b').
Context (Hlength : ∀ a b, R a b → length a = length b).

(** The tables of the two filters. *)
Definition same_map (m1 m2 : PcapFilter) : Prop :=
  Forall2 (λ '(old1, new1) '(old2, new2), R old1 old2 ∧ new1 = new2) m1 m2.

Lemma ChangeDeviceName_same padded a b m1 m2 :
  R a b → same_map m1 m2 →
  ∃ new m1' m2', ChangeDeviceName padded a m1 = Ok (new, m1') ∧ ChangeDeviceName padded b m2 = Ok (new, m2') ∧
  same_map m1' m2'.
Proof.
  intros Hab Hm. unfold ChangeDeviceName.
  assert ((∃ old1 old2 new,
    find_first (λ '(old, _), bool_decide (old = a)) m1 = Some (old1, new) ∧
    find_first (λ '(old, _), bool_decide (old = b)) m2 = Some (old2, new)) ∨
    find_first (λ '(old, _), bool_decide (old = a)) m1 = None ∧
    find_first (λ '(old, _), bool_decide (old = b)) m2 = None) as [(o1 & o2 & new & -> & ->)|[-> ->]].
  { induction Hm as [|[o1 n1] [o2 n2] m1 m2 [Ho ->] Hm IH]; [by right|]. cbn.
    rewrite (bool_decide_ext (o1 = a) (o2 = b)) by by apply HR.
    case_bool_decide; [left; by do 3 eexists|exact IH]. }
  - by do 3 eexists.
  - rewrite (Forall2_length _ _ _ Hm), (Hlength _ _ Hab). do 3 eexists. do 2 (split; [done|]).
    apply Forall2_app; [exact Hm|]. by repeat constructor.
Qed.

(** GAP data of the two users: the entries agree, but for the name types and, but for
    the last byte, which the filter leaves as it is, the names. *)
Inductive same_gap : list Z → list Z → Prop :=
| same_end : same_gap [] []
| same_stop len rest :
    bool_decide (rest = []) || (length rest <? Z.to_nat len)%nat = true → same_gap (len :: rest) (len :: rest)
| same_empty len rest1 rest2 :
    Z.to_nat len = 0%nat → same_gap rest1 rest2 → same_gap (len :: rest1) (len :: rest2)
| same_other len data_type value rest1 rest2 :
    Z.to_nat len = S (length value) → is_name data_type = false → same_gap rest1 rest2 →
    same_gap (len :: data_type :: value ++ rest1) (len :: data_type :: value ++ rest2)
| same_name len name1 name2 last rest1 rest2 :
    Z.to_nat len = S (length name1) → is_name (hd last name1) = true → is_name (hd last name2) = true →
    R name1 name2 → same_gap rest1 rest2 →
    same_gap (len :: name1 ++ last :: rest1) (len :: name2 ++ last :: rest2).

Lemma filter_entry_name name last m :
  is_name (hd last name) = true →
  filter_entry (name ++ [last]) m = ('(new, m) ← ChangeDeviceName true name m; Ok (new ++ [last], m)).
Proof.
  intros Hn. unfold filter_entry. destruct (name ++ [last]) as [|d l] eqn:E; [by destruct name|].
  assert (d = hd last name) as -> by (destruct name; by injection E as <- _). rewrite Hn, <-E.
  rewrite length_app. cbn [length]. rewrite Nat.add_sub, take_app_length, drop_app_length.
  unfold mbind at 1, F_bind. by destruct (ChangeDeviceName true name m) as [[]| | |].
Qed.

Lemma same_gap_length d1 d2 : same_gap d1 d2 → length d1 = length d2.
Proof.
  induction 1 as [| |len r1 r2 _ _ IH|len ty v r1 r2 _ _ _ IH|len n1 n2 x r1 r2 _ _ _ Hn _ IH]; cbn; try done.
  - by rewrite IH.
  - by rewrite !length_app, IH.
  - rewrite !length_app. cbn. by rewrite IH, (Hlength _ _ Hn).
Qed.

(** One entry and the rest. *)
Lemma filter_entries_step fuel len entry rest m :
  Z.to_nat len = length entry → entry ++ rest ≠ [] →
  filter_entries (S fuel) (len :: entry ++ rest) m =
    ('(entry, m) ← filter_entry entry m; '(rest, m) ← filter_entries fuel rest m; Ok (len :: entry ++ rest, m)).
Proof.
  intros Hlen Hne. cbn [filter_entries]. rewrite bool_decide_false by done. cbn [orb].
  rewrite length_app, (proj2 (Nat.ltb_ge _ _)) by lia. rewrite Hlen, take_app_length, drop_app_length. done.
Qed.

Lemma filter_entries_same fuel d1 d2 m1 m2 :
  same_gap d1 d2 → same_map m1 m2 → filter_wf m1 → filter_wf m2 → (length d1 < fuel)%nat →
  ∃ d m1' m2', filter_entries fuel d1 m1 = Ok (d, m1') ∧ filter_entries fuel d2 m2 = Ok (d, m2') ∧
  same_map m1' m2' ∧ filter_wf m1' ∧ filter_wf m2'.
Proof.
  intros Hd. revert fuel m1 m2.
  induction Hd as [|len rest Hstop|len r1 r2 Hlen Hr IH|len ty v r1 r2 Hlen Hty Hr IH|len n1 n2 x r1 r2 Hlen H1 H2 Hn Hr IH];
    intros [|fuel] m1 m2 Hm Hw1 Hw2 Hf; try (cbn in Hf; lia).
  - by do 3 eexists.
  - cbn [filter_entries]. rewrite Hstop. by do 3 eexists.
  - destruct (decide (r1 = [])) as [->|Hne].
    { apply same_gap_length in Hr. destruct r2; [|done]. cbn. by do 3 eexists. }
    assert (r2 ≠ []) as Hne2 by (apply same_gap_length in Hr; by destruct r1, r2).
    destruct (IH fuel m1 m2) as (d & m1' & m2' & E1 & E2 & ?); [done..|cbn in Hf; lia|].
    exists (len :: d), m1', m2'. rewrite (filter_entries_step fuel len [] r1), (filter_entries_step fuel len [] r2) by done.
    cbn [filter_entry mret F_ret mbind outcome_bind app]. by rewrite E1, E2.
  - destruct (IH fuel m1 m2) as (d & m1' & m2' & E1 & E2 & ?); [done..|cbn in Hf; rewrite length_app in Hf; lia|].
    exists (len :: (ty :: v) ++ d), m1', m2'.
    rewrite (filter_entries_step fuel len (ty :: v) r1), (filter_entries_step fuel len (ty :: v) r2) by done.
    unfold filter_entry. rewrite Hty. cbn [mret F_ret mbind outcome_bind]. by rewrite E1, E2.
  - destruct (ChangeDeviceName_same true n1 n2 m1 m2 Hn Hm) as (new & k1 & k2 & F1 & F2 & Hk).
    destruct (ChangeDeviceName_run true n1 m1 Hw1) as (? & ? & G1 & _ & Hk1). rewrite F1 in G1. injection G1 as <- <-.
    destruct (ChangeDeviceName_run true n2 m2 Hw2) as (? & ? & G2 & _ & Hk2). rewrite F2 in G2. injection G2 as <- <-.
    destruct (IH fuel k1 k2) as (d & m1' & m2' & E1 & E2 & ?); [done..| |].
    { cbn in Hf. rewrite length_app in Hf. cbn in Hf. lia. }
    exists (len :: (new ++ [x]) ++ d), m1', m2'.
    change (x :: r1) with ([x] ++ r1). change (x :: r2) with ([x] ++ r2). rewrite !app_assoc.
    rewrite !filter_entries_step.
    + rewrite !filter_entry_name by done. rewrite F1, F2. cbn [mbind outcome_bind]. by rewrite E1, E2.
    + rewrite length_app, Hlen, (Hlength _ _ Hn). cbn. lia.
    + by destruct n2.
    + rewrite length_app, Hlen. cbn. lia.
    + by destruct n1.
Qed.

Lemma FilterGapData_same d1 d2 m1 m2 :
  same_gap d1 d2 → same_map m1 m2 → filter_wf m1 → filter_wf m2 →
  ∃ d m1' m2', FilterGapData d1 m1 = Ok (d, m1') ∧ FilterGapData d2 m2 = Ok (d, m2') ∧
  same_map m1' m2' ∧ filter_wf m1' ∧ filter_wf m2'.
Proof.
  intros Hd Hm Hw1 Hw2. rewrite !FilterGapData_entries by done. rewrite <-(same_gap_length _ _ Hd).
  apply filter_entries_same; try done. lia.
Qed.

Lemma ChangeDeviceName248_same a b m1 m2 :
  R a b → length a = 248%nat → same_map m1 m2 → filter_wf m1 → filter_wf m2 →
  ∃ d m1' m2', ChangeDeviceName248 a m1 = Ok (d, m1') ∧ ChangeDeviceName248 b m2 = Ok (d, m2') ∧
  same_map m1' m2' ∧ filter_wf m1' ∧ filter_wf m2'.
Proof.
  intros Hab Hl Hm Hw1 Hw2. unfold ChangeDeviceName248.
  destruct (ChangeDeviceName_same false a b m1 m2 Hab Hm) as (new & k1 & k2 & F1 & F2 & Hk).
  destruct (ChangeDeviceName_run false a m1 Hw1) as (? & ? & G1 & Hnew & Hk1). rewrite F1 in G1. injection G1 as <- <-.
  destruct (ChangeDeviceName_run false b m2 Hw2) as (? & ? & G2 & _ & Hk2). rewrite F2 in G2. injection G2 as <- <-.
  rewrite (F_bind_Ok _ _ _ _ _ F1), (F_bind_Ok _ _ _ _ _ F2). unfold copy_at.
  rewrite (proj2 (Nat.leb_le _ _)) by (rewrite length_replicate; lia). by do 3 eexists.
Qed.

(** The last byte of a name stays. *)
Lemma FilterGapData_name len name last rest m d m' :
  filter_wf m → Z.to_nat len = S (length name) → is_name (hd last name) = true →
  FilterGapData (len :: name ++ last :: rest) m = Ok (d, m') →
  ∃ new rest', length new = length name ∧ d = len :: new ++ last :: rest'.
Proof.
  intros Hw Hlen Hn. rewrite FilterGapData_entries by done.
  change (last :: rest) with ([last] ++ rest). rewrite app_assoc, Nat.add_1_r, filter_entries_step; [|by rewrite length_app, Hlen, Nat.add_comm|by destruct name].
  rewrite filter_entry_name by done. destruct (ChangeDeviceName_run true name m Hw) as (new & m1 & -> & Hl & _).
  cbn [mbind outcome_bind]. intros ([rest' m2] & _ & [= <- _])%bind_Ok. exists new, rest'.
  by rewrite <-app_assoc.
Qed.

(** A method that, of the two users' data, makes the same. *)
Definition agree {A} (f g : F A) : Prop := ∀ m1 m2,
  same_map m1 m2 → filter_wf m1 → filter_wf m2 →
  ∃ (a : A) m1' m2', f m1 = Ok (a, m1') ∧ g m2 = Ok (a, m2') ∧ same_map m1' m2' ∧ filter_wf m1' ∧ filter_wf m2'.

Lemma agree_mret {A} (a : A) : agree (mret a) (mret a).
Proof. intros m1 m2 ???. by do 3 eexists. Qed.
Lemma agree_bind {A B} (f g : F A) (k k' : A → F B) :
  agree f g → (∀ a, agree (k a) (k' a)) → agree (f ≫= k) (g ≫= k').
Proof.
  intros Hf Hk m1 m2 Hm H1 H2. destruct (Hf m1 m2 Hm H1 H2) as (a & m1' & m2' & E1 & E2 & Hm' & H1' & H2').
  rewrite (F_bind_Ok _ _ _ _ _ E1), (F_bind_Ok _ _ _ _ _ E2). by apply Hk.
Qed.
Lemma agree_gap d1 d2 : same_gap d1 d2 → agree (FilterGapData d1) (FilterGapData d2).
Proof. intros Hd m1 m2 Hm H1 H2. by apply FilterGapData_same. Qed.
Lemma agree_name a b : R a b → length a = 248%nat → agree (ChangeDeviceName248 a) (ChangeDeviceName248 b).
Proof. intros Hab Hl m1 m2 Hm H1 H2. by apply ChangeDeviceName248_same. Qed.

Definition same_response {A} (data : A → list Z) (set_data : list Z → A → A) (r1 r2 : A) : Prop :=
  same_gap (data r1) (data r2) ∧ ∀ d, set_data d r1 = set_data d r2.
Lemma agree_responses {A} (data : A → list Z) set_data l1 l2 :
  Forall2 (same_response data set_data) l1 l2 →
  agree (filter_responses data set_data l1) (filter_responses data set_data l2).
Proof.
  induction 1 as [|r1 r2 l1 l2 [Hd Hs] _ IH]; [apply agree_mret|]. cbn [filter_responses].
  apply agree_bind; [by apply agree_gap|]. intros d. apply agree_bind; [exact IH|]. intros l. rewrite Hs. apply agree_mret.
Qed.

(** The fields of the two users' packets: the payloads have the same length, a name is
    the name of the other user's device, the GAP data agree, and the rest is equal. *)
Definition same_device_name (a b : list Z) : Prop := R a b ∧ length a = 248%nat.
Definition if_success (status : ErrorCode.t) (P : list Z → list Z → Prop) (a b : list Z) : Prop :=
  if bool_decide (status = ErrorCode.SUCCESS) then P a b else a = b.
Definition same_fields {A} (f : format A) : A → A → Prop :=
  match f in format A return A → A → Prop with
  | Acl | Iso => λ '(x, y, z, p) '(x', y', z', p'), (x, y, z) = (x', y', z') ∧ length p = length p'
  | Sco => λ '(x, y, p) '(x', y', p'), (x, y) = (x', y') ∧ length p = length p'
  | WriteLocalName => same_device_name
  | LeSetAdvertisingData | LeSetScanResponseData => same_gap
  | WriteExtendedInquiryResponse => λ '(x, d) '(x', d'), x = x' ∧ same_gap d d'
  | LeSetExtendedAdvertisingData | LeSetExtendedScanResponseData =>
      λ '(x, y, z, d) '(x', y', z', d'), (x, y, z) = (x', y', z') ∧ same_gap d d'
  | LeSetPeriodicAdvertisingData => λ '(x, y, d) '(x', y', d'), (x, y) = (x', y') ∧ same_gap d d'
  | ReadLocalNameComplete => λ '(x, status, n) '(x', status', n'),
      (x, status) = (x', status') ∧ if_success status same_device_name n n'
  | ReadExtendedInquiryResponseComplete => λ '(x, status, z, d) '(x', status', z', d'),
      (x, status, z) = (x', status', z') ∧ if_success status same_gap d d'
  | RemoteNameRequestComplete => λ '(status, y, n) '(status', y', n'),
      (status, y) = (status', y') ∧ if_success status same_device_name n n'
  | ExtendedInquiryResult => λ '(a, x, y, z, t, d) '(a', x', y', z', t', d'),
      (a, x, y, z, t) = (a', x', y', z', t') ∧ same_gap d d'
  | LeAdvertisingReport => Forall2 (same_response adv_advertising_data set_legacy_data)
  | LeExtendedAdvertisingReport => Forall2 (same_response ext_advertising_data set_extended_data)
  | Command | Event | LeMetaEvent | CommandComplete => λ a b, a = b
  end.

Lemma agree_fields {A} (f : format A) (a b : A) : same_fields f a b → agree (filter_fields f a) (filter_fields f b).
Proof.
  destruct f; cbn [same_fields filter_fields]; intros H;
    repeat match goal with p : (_ * _)%type |- _ => destruct p end;
    try (destruct H as [[=] H]; subst); subst;
    unfold if_success, wiped in *; rewrite ?H; try apply agree_mret;
    try (apply agree_bind; [|intros; apply agree_mret]); try (by apply agree_gap);
    try (case_bool_decide; [|subst; apply agree_mret]); try (by apply agree_gap);
    try (apply agree_name; apply H); by apply agree_responses.
Qed.

(** Packets of the two users. *)
Inductive same_packet (idc : Z) (p1 p2 : list Z) : Prop :=
| same_filtered A (f : format A) a b :
    layout p1 idc = Some (Some (existT A f)) → layout p2 idc = Some (Some (existT A f)) →
    Create f p1 = Some a → Create f p2 = Some b → same_fields f a b → same_packet idc p1 p2
| same_unfiltered : layout p1 idc = Some None → p1 = p2 → same_packet idc p1 p2.

Lemma agree_packet idc p1 p2 :
  same_packet idc p1 p2 → agree (FilterHciPacket p1 idc) (FilterHciPacket p2 idc).
Proof.
  intros [A f a b L1 L2 C1 C2 Hab|L ->] m1 m2 Hm H1 H2; rewrite !FilterHciPacket_run.
  - rewrite L1, L2. unfold rewrite_packet. cbn [projT1 projT2]. rewrite C1, C2.
    erewrite !(F_bind_Ok (valid _)) by reflexivity.
    apply (agree_bind _ _ _ _ (agree_fields f a b Hab) (λ a, agree_mret _)); done.
  - rewrite L. by do 3 eexists.
Qed.
End Anonymity.

(** The packets of a capture, in order, through one filter. *)
Fixpoint filter_packets {formats : Formats} (packets : list (Z * list Z)) : F (list (list Z)) :=
  match packets with
  | [] => mret []
  | (idc, packet) :: packets =>
      packet ← FilterHciPacket packet idc;
      packets ← filter_packets packets;
      mret (packet :: packets)
  end.

(** C23. The capture tells nothing of a device name but its last byte, and that only
    where the name is in GAP data. Take the packets of two users, which can be read
    and differ only in the device names, one name for one name of the same length
    wherever it comes, and in the payloads of data packets; names in GAP data have
    the same last byte. The filter makes the same capture of both, and returns on
    every packet. The condition on the last byte is needed: GAP data of two names
    that end in different bytes are never filtered to the same data, whatever the
    filter has seen before. *)
Theorem capture_anonymous {formats : Formats} (R : list Z → list Z → Prop)
  (HR : ∀ a b a' b', R a b → R a' b' → a = a' ↔ b = b') (Hlength : ∀ a b, R a b → length a = length b)
  (packets1 packets2 : list (Z * list Z))
  (Hp : Forall2 (λ '(idc1, p1) '(idc2, p2), idc1 = idc2 ∧ same_packet R idc1 p1 p2) packets1 packets2) :
  (∃ capture m1 m2, filter_packets packets1 [] = Ok (capture, m1) ∧ filter_packets packets2 [] = Ok (capture, m2)) ∧
  ∀ len name1 name2 last1 last2 rest1 rest2 m1 m2 d1 d2 m1' m2',
    Z.to_nat len = S (length name1) → R name1 name2 → is_name (hd last1 name1) = true →
    is_name (hd last2 name2) = true → last1 ≠ last2 → filter_wf m1 → filter_wf m2 →
    FilterGapData (len :: name1 ++ last1 :: rest1) m1 = Ok (d1, m1') →
    FilterGapData (len :: name2 ++ last2 :: rest2) m2 = Ok (d2, m2') → d1 ≠ d2.
Proof.
  split.
  - assert (agree R (filter_packets packets1) (filter_packets packets2)) as Ha.
    { induction Hp as [|[idc1 p1] [idc2 p2] ?? [-> H] _ IH]; [apply agree_mret|]. cbn [filter_packets].
      apply agree_bind; [by apply agree_packet|]. intros packet. apply agree_bind; [exact IH|]. intros. apply agree_mret. }
    destruct (Ha [] []) as (capture & m1 & m2 & E1 & E2 & _); [constructor..|]. by exists capture, m1, m2.
  - intros len name1 name2 last1 last2 rest1 rest2 m1 m2 d1 d2 m1' m2' Hlen HRn H1 H2 Hne Hw1 Hw2 E1 E2 ->.
    destruct (FilterGapData_name _ _ _ _ _ _ _ Hw1 Hlen H1 E1) as (new1 & r1 & Hl1 & ->).
    rewrite (Hlength _ _ HRn) in Hlen.
    destruct (FilterGapData_name _ _ _ _ _ _ _ Hw2 Hlen H2 E2) as (new2 & r2 & Hl2 & E).
    injection E as E. apply app_inj_1 in E as [_ E]; [|by rewrite Hl1, Hl2, (Hlength _ _ HRn)].
    by injection E.
Qed.

(** ** The length of the packets *)

(** What the generated code promises of the formats, by their fields: a name is an array of
    248 bytes, and a packet that is read has the length of what is written with the same
    fields, other data of the same lengths. *)
Definition sized {A} (f : format A) : A → Prop :=
  match f in format A return A → Prop with
  | WriteLocalName => λ n, length n = 248%nat
  | ReadLocalNameComplete => λ '(_, _, n), length n = 248%nat
  | RemoteNameRequestComplete => λ '(_, _, n), length n = 248%nat
  | _ => λ _, True
  end.
Definition same_length (a b : list Z) : Prop := length a = length b.
Definition same_size {A} (data : A → list Z) (set_data : list Z → A → A) (r1 r2 : A) : Prop :=
  same_length (data r1) (data r2) ∧ ∀ d, set_data d r1 = set_data d r2.
Definition same_shape {A} (f : format A) : A → A → Prop :=
  match f in format A return A → A → Prop with
  | Acl | Iso | LeSetExtendedAdvertisingData | LeSetExtendedScanResponseData =>
      λ '(x, y, z, d) '(x', y', z', d'), (x, y, z) = (x', y', z') ∧ same_length d d'
  | Sco => λ '(x, y, d) '(x', y', d'), (x, y) = (x', y') ∧ same_length d d'
  | WriteLocalName | LeSetAdvertisingData | LeSetScanResponseData => same_length
  | WriteExtendedInquiryResponse => λ '(x, d) '(x', d'), x = x' ∧ same_length d d'
  | LeSetPeriodicAdvertisingData => λ '(x, y, d) '(x', y', d'), (x, y) = (x', y') ∧ same_length d d'
  | ReadLocalNameComplete => λ '(x, y, d) '(x', y', d'), (x, y) = (x', y') ∧ same_length d d'
  | ReadExtendedInquiryResponseComplete =>
      λ '(x, y, z, d) '(x', y', z', d'), (x, y, z) = (x', y', z') ∧ same_length d d'
  | RemoteNameRequestComplete => λ '(x, y, d) '(x', y', d'), (x, y) = (x', y') ∧ same_length d d'
  | ExtendedInquiryResult => λ '(a, x, y, z, t, d) '(a', x', y', z', t', d'),
      (a, x, y, z, t) = (a', x', y', z', t') ∧ same_length d d'
  | LeAdvertisingReport => Forall2 (same_size adv_advertising_data set_legacy_data)
  | LeExtendedAdvertisingReport => Forall2 (same_size ext_advertising_data set_extended_data)
  | Command | Event | LeMetaEvent | CommandComplete => λ a b, a = b
  end.
(** [CommandView] and the like are read only. *)
Definition written {A} (f : format A) : Prop :=
  match f with Command | Event | LeMetaEvent | CommandComplete => False | _ => True end.
Class FormatsLaws (formats : Formats) := {
  Create_sized : ∀ A (f : format A) packet a, Create f packet = Some a → sized f a;
  Serialize_length : ∀ A (f : format A) packet a b,
    written f → Create f packet = Some a → same_shape f a b → length (SerializeToBytes f b) = length packet;
}.

(** A method that does not fail, on a filter that is well formed, and whose result is as said. *)
Definition total {A} (x : F A) (P : A → Prop) : Prop :=
  ∀ m, filter_wf m → ∃ a m', x m = Ok (a, m') ∧ P a ∧ filter_wf m'.
Lemma total_mret {A} (a : A) (P : A → Prop) : P a → total (mret a) P.
Proof. intros Ha m Hm. by exists a, m. Qed.
Lemma total_bind {A B} (x : F A) (f : A → F B) (P : A → Prop) (Q : B → Prop) :
  total x P → (∀ a, P a → total (f a) Q) → total (x ≫= f) Q.
Proof.
  intros Hx Hf m Hm. destruct (Hx m Hm) as (a & m' & E & Ha & Hm'). rewrite (F_bind_Ok _ _ _ _ _ E). by apply Hf.
Qed.
Lemma total_gap data : total (FilterGapData data) (same_length data).
Proof.
  intros m Hm. rewrite FilterGapData_entries by done.
  destruct (filter_entries_run (length data + 1) data m Hm) as (data' & m' & -> & Hl & Hm'). by exists data', m'.
Qed.
Lemma total_name name : length name = 248%nat → total (ChangeDeviceName248 name) (same_length name).
Proof.
  intros Hn m Hm. unfold ChangeDeviceName248, copy_at.
  destruct (ChangeDeviceName_run false name m Hm) as (new & m' & E & Hl & Hm'). rewrite (F_bind_Ok _ _ _ _ _ E).
  rewrite length_replicate, Hl, Hn. do 2 eexists. split; [done|]. split; [|done]. unfold same_length.
  rewrite !length_app, length_take, length_drop, length_replicate. lia.
Qed.
Lemma total_responses {A} (data : A → list Z) set_data (l : list A) :
  (∀ d r, data (set_data d r) = d) → (∀ d d' r, set_data d (set_data d' r) = set_data d r) →
  total (filter_responses data set_data l) (Forall2 (same_size data set_data) l).
Proof.
  intros Hget Hset. induction l as [|r l IH]; [by apply total_mret|]. cbn [filter_responses].
  eapply total_bind; [apply total_gap|]. intros d Hd. eapply total_bind; [exact IH|]. intros l' Hl'.
  apply total_mret. constructor; [|done]. split; [by rewrite Hget|]. intros d'. by rewrite Hset.
Qed.

Lemma total_fields {A} (f : format A) (a : A) : sized f a → total (filter_fields f a) (same_shape f a).
Proof.
  assert (∀ l, same_length l (wiped l)) as Hw by (intros l; symmetry; apply length_replicate).
  destruct f; cbn [sized filter_fields same_shape]; intros H;
    repeat match goal with p : (_ * _)%type |- _ => destruct p end;
    try (apply total_mret; done); try apply total_gap; try (by apply total_name);
    try (by apply total_responses);
    (eapply total_bind; [|intros d Hd; apply total_mret; split; [done|exact Hd]]);
    try apply total_gap; (case_bool_decide; [by (apply total_gap || apply total_name)|by apply total_mret]).
Qed.

(** The packets that do not stop the filter. *)
Definition readable {formats : Formats} (packet : list Z) (idc : Z) : Prop :=
  match layout packet idc with
  | Some (Some f) => is_Some (Create (projT2 f) packet)
  | Some None => True
  | None => False
  end.

Lemma layout_written {formats : Formats} packet idc f :
  layout packet idc = Some (Some f) → written (projT2 f).
Proof.
  unfold layout, read, layout_of_command, layout_of_event, rewritten_as, read.
  intros H; repeat case_match; simplify_eq; exact I.
Qed.
Lemma FilterHciPacket_total {formats : Formats} `{!FormatsLaws formats} packet idc :
  readable packet idc → total (FilterHciPacket packet idc) (same_length packet).
Proof.
  intros Hr m Hm. rewrite FilterHciPacket_run. unfold readable in Hr.
  destruct (layout packet idc) as [[[A f]|]|] eqn:Hf; [|by do 2 eexists|done]. destruct Hr as [a Ha].
  unfold rewrite_packet. cbn [projT1 projT2] in *. rewrite Ha. erewrite F_bind_Ok by reflexivity.
  eapply total_bind; [apply total_fields; by eapply Create_sized| |done].
  intros b Hb. apply total_mret. symmetry.
  eapply Serialize_length; [exact (layout_written _ _ _ Hf)|done..].
Qed.

(** ** Examples *)

(** Commands with one variable field. *)
Definition example_formats : Formats := {|
  Create A f := match f in format A return list Z → option A with
    | Command => λ packet, match packet with lo :: hi :: _ => Some (lo + 256 * hi) | _ => None end
    | WriteLocalName => λ packet, if (length packet =? 251)%nat then Some (drop 3 packet) else None
    | LeSetAdvertisingData => λ packet, if (3 <=? length packet)%nat then Some (drop 3 packet) else None
    | _ => λ _, None
    end;
  SerializeToBytes A f := match f in format A return A → list Z with
    | WriteLocalName => λ name, [0x13; 0x0c; Z.of_nat (length name)] ++ name
    | LeSetAdvertisingData => λ data, [0x08; 0x20; Z.of_nat (length data)] ++ data
    | _ => λ _, []
    end
|}.

#[export] Instance example_laws : FormatsLaws example_formats.
Proof.
  split.
  - intros A [] packet a; cbn [sized Create example_formats]; try done.
    destruct (Nat.eqb_spec (length packet) 251) as [Hl|]; [|done]. intros [= <-]. rewrite length_drop. lia.
  - intros A [] packet a b; cbn [Create example_formats same_shape SerializeToBytes]; try done.
    + destruct (Nat.eqb_spec (length packet) 251) as [Hl|]; [|done]. intros _ [= <-] Hb.
      unfold same_length in Hb. rewrite length_drop in Hb. rewrite length_app. cbn. lia.
    + destruct (Nat.leb_spec 3 (length packet)); [|done]. intros _ [= <-] Hb.
      unfold same_length in Hb. rewrite length_drop in Hb. rewrite length_app. cbn. lia.
Qed.

(** A device called ABC and one called DEF. *)
Definition example_packets (a b c : Z) : list (Z * list Z) :=
  [(1, [0x08; 0x20; 5; 4; 9; a; b; c]); (1, [0x13; 0x0c; 248] ++ [a; b; c] ++ replicate 245 0)].
Definition example_names (name1 name2 : list Z) : Prop :=
  name1 = [9; 65; 66] ∧ name2 = [9; 68; 69] ∨
  name1 = [65; 66; 67] ++ replicate 245 0 ∧ name2 = [68; 69; 67] ++ replicate 245 0.

Theorem capture_anonymous_witness :
  ∃ capture m1 m2,
    filter_packets (formats := example_formats) (example_packets 65 66 67) [] = Ok (capture, m1) ∧
    filter_packets (formats := example_formats) (example_packets 68 69 67) [] = Ok (capture, m2).
Proof.
  apply (capture_anonymous (formats := example_formats) example_names).
  - intros a b a' b' [[-> ->]|[-> ->]] [[-> ->]|[-> ->]]; done.
  - intros a b [[-> ->]|[-> ->]]; reflexivity.
  - unfold example_packets. constructor; [split; [done|]|constructor; [split; [done|]|constructor]].
    + apply (same_filtered _ _ _ _ _ LeSetAdvertisingData [4; 9; 65; 66; 67] [4; 9; 68; 69; 67]); try reflexivity.
      apply (same_name _ 4 [9; 65; 66] [9; 68; 69] 67 [] []); [reflexivity..|by left|constructor].
    + apply (same_filtered _ _ _ _ _ WriteLocalName ([65; 66; 67] ++ replicate 245 0) ([68; 69; 67] ++ replicate 245 0));
        try reflexivity.
      split; [by right|reflexivity].
Defined.

(** The entry of a name starts with its type: the type is replaced with the name, and the
    last byte of the name stays. *)
Example FilterGapData_shifted : FilterGapData [4; 9; 65; 66; 67] [] = Ok ([4; 35; 48; 48; 67], [([9; 65; 66], [35; 48; 48])]).
Proof. reflexivity. Qed.

(** Names of two bytes are all replaced by the same name. *)
Example short_names_collide :
  FilterGapData [3; 9; 65; 66; 3; 9; 67; 68] [] =
    Ok ([3; 35; 48; 66; 3; 35; 48; 68], [([9; 65], [35; 48]); ([9; 67], [35; 48])]).
Proof. reflexivity. Qed.

(** A command that cannot be read stops the process. *)
Example truncated_command_aborts m : FilterHciPacket (formats := example_formats) [0x13] 1 m = Fatal.
Proof. reflexivity. Qed.

Theorem FilterGapData_spec_witness :
  ∃ data' m', FilterGapData [4; 9; 65; 66; 67] [] = Ok (data', m') ∧ length data' = 5%nat ∧ filter_wf m' ∧
  filter_entries 6 [4; 9; 65; 66; 67] [] = Ok (data', m').
Proof. exact (FilterGapData_spec [4; 9; 65; 66; 67] [] (Forall_nil_2 _)). Defined.
