(* ===== verification/HciSniffer.v ===== *)
(** * Transports and captures (model/hci/hci_transport.h, hci_socket_transport.cc,
    hci_sniffer.cc, include/pcap.h)

    The interface of the HCI transports, the one over a socket, and [HciSniffer], which
    stands before another transport and writes what passes to a capture file, through the
    filter of PcapFilter.v. *)

From S2P Require Import Prelude H4 PcapFilter.

(** ** The interface *)

(** A callback registered with [RegisterCallbacks] and called by [Tick]. *)
Notation callback := H4DataChannelPacketizer.callback.
Notation OnPacket := H4DataChannelPacketizer.OnPacket.
Notation OnDisconnect := H4DataChannelPacketizer.OnDisconnect.

(** [HciTransport]; [Tick] gives the calls of the registered callbacks, in order. *)
Class HciTransport (T : Type) := {
  transport_Send : PacketType → list Z → T → outcome T;
  transport_Tick : T → outcome (T * list callback);
  transport_Close : T → outcome T;
}.

(** What a controller does with its transport, and what comes of it. *)
Inductive operation := Send (packet_type : PacketType) (packet : list Z) | Tick | Close.
Inductive event := Sent (packet_type : PacketType) (packet : list Z) | Called (c : callback) | Closed.

Definition operate `{HciTransport T} (o : operation) (t : T) : outcome (T * list event) :=
  match o with
  | Send packet_type packet => t ← transport_Send packet_type packet t; Ok (t, [Sent packet_type packet])
  | Tick => '(t, calls) ← transport_Tick t; Ok (t, map Called calls)
  | Close => t ← transport_Close t; Ok (t, [Closed])
  end.
Fixpoint run `{HciTransport T} (os : list operation) (t : T) : outcome (T * list event) :=
  match os with
  | [] => Ok (t, [])
  | o :: os => '(t, events) ← operate o t; '(t, events') ← run os t; Ok (t, events ++ events')
  end.

(** ** A transport over a socket *)

(** [AsyncDataChannel], the system's: what [Recv] will give until it blocks or
    fails, and the channel after that. *)
Class AsyncDataChannel (Chan : Type) := {
  Connected : Chan → bool;
  channel_Send : list Z → Chan → Z * Chan;
  channel_Recv : Chan → H4DataChannelPacketizer.channel * Chan;
  channel_Close : Chan → Chan;
}.

Record HciSocketTransport (Chan : Type) := MkSocketTransport {
  socket_ : option Chan;
  h4_ : H4DataChannelPacketizer.Packetizer;
}.
Arguments MkSocketTransport {_}. Arguments socket_ {_}. Arguments h4_ {_}.

Module HciSocketTransport.
Section Socket.
Context `{AsyncDataChannel Chan}.

Definition Create (socket : option Chan) : HciSocketTransport Chan :=
  MkSocketTransport socket H4DataChannelPacketizer.new.

(** The callbacks of the packetizer: no event comes from the host. *)
Fixpoint RegisterCallbacks (calls : list callback) : outcome (list callback) :=
  match calls with
  | [] => Ok []
  | OnPacket (EVENT, _) :: _ => Fatal
  | call :: calls => calls ← RegisterCallbacks calls; Ok (call :: calls)
  end.
Definition Tick (t : HciSocketTransport Chan) : outcome (HciSocketTransport Chan * list callback) :=
  socket ← unchecked (socket_ t);
  let '(ch, socket) := channel_Recv socket in
  match H4DataChannelPacketizer.OnDataReady (h4_ t) ch with
  | None => Hang
  | Some result =>
      '(h4, calls) ← result;
      calls ← RegisterCallbacks calls;
      Ok (MkSocketTransport (Some socket) h4, calls)
  end.
Definition Send (packet_type : PacketType) (packet : list Z) (t : HciSocketTransport Chan)
  : outcome (HciSocketTransport Chan) :=
  match socket_ t with
  | None => Ok t
  | Some socket =>
      if negb (Connected socket) then Ok t
      else
        let '(_, socket) :=
          H4DataChannelPacketizer.Send channel_Send (u8_of_PacketType packet_type) packet socket in
        Ok (MkSocketTransport (Some socket) (h4_ t))
  end.
Definition Close (t : HciSocketTransport Chan) : outcome (HciSocketTransport Chan) :=
  socket ← unchecked (socket_ t);
  Ok (MkSocketTransport (Some (channel_Close socket)) (h4_ t)).

#[export] Instance socket_transport : HciTransport (HciSocketTransport Chan) :=
  {| transport_Send := Send; transport_Tick := Tick; transport_Close := Close |}.
End Socket.
End HciSocketTransport.

(** ** The capture file (include/pcap.h) *)

Module pcap.
(** [output.write] of the [n] bytes of an integer, on a little endian machine. *)
Fixpoint write (n : nat) (value : Z) : list Z :=
  match n with O => [] | S n => value mod 256 :: write n (value / 256) end.

Definition WriteHeader (linktype : Z) : list Z :=
  write 4 0xa1b2c3d4 ++ write 2 2 ++ write 2 4 ++ write 4 0 ++ write 4 0 ++ write 4 (2 ^ 32 - 1) ++ write 4 linktype.

(** [time] is in nanoseconds. *)
Definition s : Z := 1000000000.
Definition ms : Z := 1000000.
Definition seconds (time : Z) : Z := u32 (time / s).
Definition microseconds (time : Z) : Z := u32 ((time mod s) / ms).
Definition WriteRecordHeader (time length : Z) : list Z :=
  write 4 (seconds time) ++ write 4 (microseconds time) ++ write 4 (u32 length) ++ write 4 (u32 length).
End pcap.

(** ** The sniffer *)

Inductive PacketDirection := HOST_TO_CONTROLLER | CONTROLLER_TO_HOST.
Definition u8_of_direction (d : PacketDirection) : Z :=
  match d with HOST_TO_CONTROLLER => 0 | CONTROLLER_TO_HOST => 1 end.

Record HciSniffer (T : Type) := MkSniffer {
  output_ : option (list Z);
  transport_ : T;
  filter_ : option PcapFilter;
  (** The records written so far, by which the clock is read. *)
  records : nat;
}.
Arguments MkSniffer {_}. Arguments output_ {_}. Arguments transport_ {_}. Arguments filter_ {_}.
Arguments records {_}.

Module HciSniffer.
Section Sniffer.
Context {formats : Formats} `{HciTransport T}.
(** The system's clock when the n-th record is written. *)
Context (now : nat → Z).

Definition SetOutputStream (output : option (list Z)) (s : HciSniffer T) : HciSniffer T :=
  match output with
  | Some file => MkSniffer (Some (file ++ pcap.WriteHeader 201)) (transport_ s) (filter_ s) (records s)
  | None => MkSniffer None (transport_ s) (filter_ s) (records s)
  end.
Definition SetPcapFilter (filter : option PcapFilter) (s : HciSniffer T) : HciSniffer T :=
  MkSniffer (output_ s) (transport_ s) filter (records s).
(** The filter is not handed on. *)
Definition Create (transport : T) (output : option (list Z)) (filter : option PcapFilter) : HciSniffer T :=
  SetOutputStream output (MkSniffer None transport None 0).

Definition AppendRecord (packet_direction : PacketDirection) (packet_type : PacketType) (packet : list Z)
  (s : HciSniffer T) : outcome (HciSniffer T) :=
  match output_ s with
  | None => Ok s
  | Some output =>
      let output := output ++ pcap.WriteRecordHeader (now (records s)) (4 + 1 + zlength packet) in
      let direction := [0; 0; 0; u8_of_direction packet_direction] in
      let idc := u8_of_PacketType packet_type in
      let output := output ++ direction ++ [idc] in
      match filter_ s with
      | Some filter =>
          '(filtered_packet, filter) ← FilterHciPacket packet idc filter;
          Ok (MkSniffer (Some (output ++ filtered_packet)) (transport_ s) (Some filter) (S (records s)))
      | None => Ok (MkSniffer (Some (output ++ packet)) (transport_ s) None (S (records s)))
      end
  end.

Definition Send (packet_type : PacketType) (packet : list Z) (s : HciSniffer T) : outcome (HciSniffer T) :=
  s ← AppendRecord CONTROLLER_TO_HOST packet_type packet s;
  t ← transport_Send packet_type packet (transport_ s);
  Ok (MkSniffer (output_ s) t (filter_ s) (records s)).

(** The callback that the sniffer registers writes a record before each packet it
    hands on; that for the end is handed on as it is. *)
Fixpoint RegisterCallbacks (calls : list callback) (s : HciSniffer T) : outcome (HciSniffer T) :=
  match calls with
  | [] => Ok s
  | OnPacket (packet_type, packet) :: calls =>
      s ← AppendRecord HOST_TO_CONTROLLER packet_type packet s; RegisterCallbacks calls s
  | OnDisconnect :: calls => RegisterCallbacks calls s
  end.
Definition Tick (s : HciSniffer T) : outcome (HciSniffer T * list callback) :=
  '(t, calls) ← transport_Tick (transport_ s);
  s ← RegisterCallbacks calls (MkSniffer (output_ s) t (filter_ s) (records s));
  Ok (s, calls).
Definition Close (s : HciSniffer T) : outcome (HciSniffer T) :=
  t ← transport_Close (transport_ s);
  Ok (MkSniffer (output_ s) t (filter_ s) (records s)).

#[export] Instance sniffer_transport : HciTransport (HciSniffer T) :=
  {| transport_Send := Send; transport_Tick := Tick; transport_Close := Close |}.
End Sniffer.
End HciSniffer.

(** ** Reading a capture back *)

Record CaptureRecord := MkRecord {
  record_seconds : Z;
  record_fraction : Z;
  record_direction : Z;
  record_idc : Z;
  record_packet : list Z;
}.

Fixpoint le_value (bytes : list Z) : Z := match bytes with [] => 0 | b :: bytes => b + 256 * le_value bytes end.
Definition field (start : nat) (bytes : list Z) : Z := le_value (take 4 (drop start bytes)).

(** A record: its header, then as many bytes as the header says, which start with the
    pseudo header of LINKTYPE_BLUETOOTH_HCI_H4_WITH_PHDR and the H4 type. *)
Definition parse_record (bytes : list Z) : option (CaptureRecord * list Z) :=
  let size := Z.to_nat (field 8 bytes) in
  let data := take size (drop 16 bytes) in
  if (length data =? size)%nat && (field 8 bytes =? field 12 bytes) then
    match data with
    | 0 :: 0 :: 0 :: direction :: idc :: packet =>
        Some (MkRecord (field 0 bytes) (field 4 bytes) direction idc packet, drop (16 + size) bytes)
    | _ => None
    end
  else None.
Fixpoint parse_records (fuel : nat) (bytes : list Z) : option (list CaptureRecord) :=
  match fuel, bytes with
  | _, [] => Some []
  | O, _ => None
  | S fuel, _ =>
      '(record, bytes) ← parse_record bytes; records ← parse_records fuel bytes; Some (record :: records)
  end.
(** The link type, and the records. *)
Definition parse_capture (file : list Z) : option (Z * list CaptureRecord) :=
  if bool_decide (take 20 file = take 20 (pcap.WriteHeader 0))
  then records ← parse_records (length file) (drop 24 file); Some (field 20 file, records)
  else None.

Lemma write_4 z :
  ∃ b0 b1 b2 b3, pcap.write 4 z = [b0; b1; b2; b3] ∧ le_value [b0; b1; b2; b3] = u32 z.
Proof.
  do 4 eexists. split; [reflexivity|]. cbn [le_value]. unfold wrap.
  change (2 ^ 32) with (256 * (256 * (256 * 256))). rewrite !Z.rem_mul_r by lia. lia.
Qed.

Definition encode_record (time : Z) (direction : PacketDirection) (packet_type : PacketType) (size : Z)
  (packet : list Z) : list Z :=
  pcap.WriteRecordHeader time (4 + 1 + size) ++
  [0; 0; 0; u8_of_direction direction; u8_of_PacketType packet_type] ++ packet.
Definition decoded_record (time : Z) (direction : PacketDirection) (packet_type : PacketType) (packet : list Z)
  : CaptureRecord :=
  MkRecord (pcap.seconds time) (pcap.microseconds time) (u8_of_direction direction)
    (u8_of_PacketType packet_type) packet.

Lemma parse_encode_record time direction packet_type packet rest :
  5 + zlength packet < 2 ^ 32 →
  parse_record (encode_record time direction packet_type (zlength packet) packet ++ rest) =
    Some (decoded_record time direction packet_type packet, rest).
Proof.
  intros Hsize. unfold encode_record, decoded_record, pcap.WriteRecordHeader, parse_record, field.
  pose proof (zlength_nonneg packet).
  destruct (write_4 (pcap.seconds time)) as (s0 & s1 & s2 & s3 & -> & Hs).
  destruct (write_4 (pcap.microseconds time)) as (m0 & m1 & m2 & m3 & -> & Hm).
  destruct (write_4 (u32 (4 + 1 + zlength packet))) as (l0 & l1 & l2 & l3 & -> & Hl).
  rewrite wrap_idemp, wrap_id in Hl by (unfold fits; lia).
  cbn [app drop take]. rewrite Hs, Hm, Hl. unfold pcap.seconds, pcap.microseconds. rewrite !wrap_idemp by lia.
  rewrite Z.eqb_refl, andb_true_r.
  replace (Z.to_nat (4 + 1 + zlength packet)) with (5 + length packet)%nat by (unfold zlength; lia).
  cbn [Nat.add take]. rewrite take_app_length. cbn [length drop]. rewrite drop_app_length.
  by rewrite Nat.eqb_refl.
Qed.

(** ** What the sniffer writes *)

(** A packet that passes the sniffer. *)
Definition passing : Type := PacketDirection * PacketType * list Z.
Definition passed_of_event (e : event) : list passing :=
  match e with
  | Sent packet_type packet => [(CONTROLLER_TO_HOST, packet_type, packet)]
  | Called (OnPacket (packet_type, packet)) => [(HOST_TO_CONTROLLER, packet_type, packet)]
  | Called OnDisconnect | Closed => []
  end.
Definition passed (events : list event) : list passing := concat (map passed_of_event events).

Section Filtered.
Context {formats : Formats}.
Definition filter_passing (filter : option PcapFilter) (p : passing) : outcome (list Z * option PcapFilter) :=
  let '(_, packet_type, packet) := p in
  match filter with
  | None => Ok (packet, None)
  | Some filter => '(packet, filter) ← FilterHciPacket packet (u8_of_PacketType packet_type) filter; Ok (packet, Some filter)
  end.
Fixpoint filter_all (filter : option PcapFilter) (ps : list passing)
  : outcome (list (list Z) * option PcapFilter) :=
  match ps with
  | [] => Ok ([], filter)
  | p :: ps =>
      '(packet, filter) ← filter_passing filter p;
      '(packets, filter) ← filter_all filter ps;
      Ok (packet :: packets, filter)
  end.

Lemma filter_all_app filter ps qs :
  filter_all filter (ps ++ qs) =
    '(packets, filter) ← filter_all filter ps;
    '(packets', filter) ← filter_all filter qs;
    Ok (packets ++ packets', filter).
Proof.
  revert filter. induction ps as [|p ps IH]; intros filter; cbn [filter_all app].
  - cbn. by destruct (filter_all filter qs) as [[]| | |].
  - destruct (filter_passing filter p) as [[packet f]| | |]; cbn; try done. rewrite IH.
    destruct (filter_all f ps) as [[packets f']| | |]; cbn; try done.
    by destruct (filter_all f' qs) as [[]| | |].
Qed.
Lemma length_filter_all filter ps packets filter' :
  filter_all filter ps = Ok (packets, filter') → length packets = length ps.
Proof.
  revert filter packets. induction ps as [|p ps IH]; intros filter packets; cbn [filter_all].
  - by intros [= <- _].
  - intros ([packet f] & _ & ([packets' f'] & E & [= <- <-])%bind_Ok)%bind_Ok. cbn [length]. f_equal. exact (IH _ _ E).
Qed.

(** The packets that the filter, if there is one, does not stop at, of a size that fits. *)
Definition fit (filter : option PcapFilter) (p : passing) : Prop :=
  let '(_, packet_type, packet) := p in
  (has_value filter = true → readable packet (u8_of_PacketType packet_type)) ∧ 5 + zlength packet < 2 ^ 32.
Lemma filter_all_total `{!FormatsLaws formats} filter ps :
  from_option filter_wf True filter → Forall (fit filter) ps →
  ∃ packets filter', filter_all filter ps = Ok (packets, filter') ∧
  Forall2 (λ '(_, packet) packet', same_length packet packet') ps packets.
Proof.
  intros Hwf Hps. revert filter Hwf Hps. induction ps as [|[[d ty] packet] ps IH]; intros filter Hwf Hps;
    [by do 2 eexists|].
  apply Forall_cons in Hps as [[Hr _] Hps]. cbn [filter_all filter_passing].
  destruct filter as [filter|].
  - destruct (FilterHciPacket_total packet _ (Hr eq_refl) filter Hwf) as (packet' & f & -> & Hl & Hf).
    destruct (IH (Some f) Hf Hps) as (packets & f' & E & H). cbn [mbind outcome_bind]. rewrite E.
    do 2 eexists. split; [done|]. by constructor.
  - destruct (IH None I Hps) as (packets & f' & E & H). cbn [mbind outcome_bind]. rewrite E.
    do 2 eexists. split; [done|]. by constructor.
Qed.
End Filtered.

Section Capture.
Context {formats : Formats} `{HciTransport T} (now : nat → Z).
#[local] Instance sniffing : HciTransport (HciSniffer T) := HciSniffer.sniffer_transport now.

(** The records of packets, the first of them the n-th of the capture. *)
Fixpoint encode_records (n : nat) (ps : list passing) (packets : list (list Z)) : list Z :=
  match ps, packets with
  | (direction, packet_type, original) :: ps, packet :: packets =>
      encode_record (now n) direction packet_type (zlength original) packet ++ encode_records (S n) ps packets
  | _, _ => []
  end.
Fixpoint decoded_records (n : nat) (ps : list passing) (packets : list (list Z)) : list CaptureRecord :=
  match ps, packets with
  | (direction, packet_type, _) :: ps, packet :: packets =>
      decoded_record (now n) direction packet_type packet :: decoded_records (S n) ps packets
  | _, _ => []
  end.

Lemma encode_records_app n ps qs packets packets' :
  length packets = length ps →
  encode_records n (ps ++ qs) (packets ++ packets') =
    encode_records n ps packets ++ encode_records (n + length ps) qs packets'.
Proof.
  revert n packets. induction ps as [|[[d ty] p] ps IH]; intros n [|packet packets] Hl; cbn in *; try done.
  - by rewrite Nat.add_0_r.
  - rewrite IH by lia. by rewrite <-app_assoc, Nat.add_succ_r.
Qed.

Lemma parse_encode_records fuel n ps packets :
  Forall2 (λ '(_, packet) packet', same_length packet packet' ∧ 5 + zlength packet < 2 ^ 32) ps packets →
  (length (encode_records n ps packets) ≤ fuel)%nat →
  parse_records fuel (encode_records n ps packets) = Some (decoded_records n ps packets).
Proof.
  intros Hp. revert fuel n. induction Hp as [|[[d ty] p] p' ps packets [Hl Hs] _ IH]; intros fuel n Hf; [by destruct fuel|].
  cbn [encode_records decoded_records] in *. unfold same_length in Hl.
  assert (zlength p = zlength p') as Hz by (unfold zlength; lia). rewrite Hz in *.
  assert (1 ≤ length (encode_record (now n) d ty (zlength p') p'))%nat as He by (cbn; lia).
  rewrite length_app in Hf. destruct fuel as [|fuel]; [lia|].
  cbn [parse_records]. destruct (encode_record _ _ _ _ p' ++ _) as [|b bytes] eqn:E.
  { apply (f_equal length) in E. rewrite length_app in E. cbn in E. lia. }
  rewrite <-E, parse_encode_record by done. cbn [mbind option_bind]. rewrite IH by lia. done.
Qed.

Lemma AppendRecord_output direction packet_type packet (s : HciSniffer T) file :
  output_ s = Some file →
  HciSniffer.AppendRecord now direction packet_type packet s =
    '(packet', filter) ← filter_passing (filter_ s) (direction, packet_type, packet);
    Ok (MkSniffer (Some (file ++ encode_record (now (records s)) direction packet_type (zlength packet) packet'))
         (transport_ s) filter (S (records s))).
Proof.
  intros Hf. unfold HciSniffer.AppendRecord, filter_passing, encode_record. rewrite Hf.
  destruct (filter_ s) as [filter|].
  - destruct (FilterHciPacket packet _ filter) as [[packet' filter']| | |]; try done. cbn.
    by rewrite <-!app_assoc.
  - cbn. by rewrite <-!app_assoc.
Qed.

(** The sniffer after some packets. *)
Definition sniffed (s : HciSniffer T) (t : T) (file : list Z) (ps : list passing)
  (packets : list (list Z)) (filter : option PcapFilter) : HciSniffer T :=
  MkSniffer (Some (file ++ encode_records (records s) ps packets)) t filter (records s + length ps).

Lemma RegisterCallbacks_output calls (s : HciSniffer T) file packets filter :
  output_ s = Some file → filter_all (filter_ s) (passed (map Called calls)) = Ok (packets, filter) →
  HciSniffer.RegisterCallbacks now calls s =
    Ok (sniffed s (transport_ s) file (passed (map Called calls)) packets filter).
Proof.
  revert s file packets. induction calls as [|[[ty p]|] calls IH]; intros s file packets Hfile Hps.
  - injection Hps as <- <-. cbn. unfold sniffed. cbn. rewrite app_nil_r, Nat.add_0_r, <-Hfile. by destruct s.
  - cbn [HciSniffer.RegisterCallbacks]. rewrite (AppendRecord_output _ _ _ _ file) by done.
    unfold passed in Hps |- *. cbn [map concat passed_of_event app filter_all] in Hps |- *.
    destruct (filter_passing (filter_ s) (HOST_TO_CONTROLLER, ty, p)) as [[p' f]| | |]; try done.
    cbn [mbind outcome_bind] in *. apply bind_Ok in Hps as ([packets' f'] & E & [= <- <-]).
    erewrite IH; [|reflexivity|exact E]. unfold sniffed. cbn. by rewrite <-app_assoc, Nat.add_succ_r.
  - exact (IH s file packets Hfile Hps).
Qed.

Lemma operate_sniffed o (s : HciSniffer T) file t events packets filter :
  output_ s = Some file → operate o (transport_ s) = Ok (t, events) →
  filter_all (filter_ s) (passed events) = Ok (packets, filter) →
  operate o s = Ok (sniffed s t file (passed events) packets filter, events).
Proof.
  intros Hfile Ho Hps. destruct o as [ty p| |]; cbn [operate] in *.
  - apply bind_Ok in Ho as (t' & Et & [= <- <-]). cbn [transport_Send sniffing HciSniffer.sniffer_transport].
    unfold HciSniffer.Send. rewrite (AppendRecord_output _ _ _ _ file) by done.
    unfold passed in *. cbn [map concat passed_of_event app filter_all] in *.
    destruct (filter_passing (filter_ s) (CONTROLLER_TO_HOST, ty, p)) as [[p' f]| | |]; try done.
    injection Hps as <- <-. cbn [mbind outcome_bind transport_]. rewrite Et. unfold sniffed. cbn.
    by rewrite app_nil_r, Nat.add_1_r.
  - apply bind_Ok in Ho as ([t' calls] & Et & [= <- <-]). cbn [transport_Tick sniffing HciSniffer.sniffer_transport].
    unfold HciSniffer.Tick. rewrite Et. cbn [mbind outcome_bind].
    by erewrite RegisterCallbacks_output by done.
  - apply bind_Ok in Ho as (t' & Et & [= <- <-]). injection Hps as <- <-.
    cbn [transport_Close sniffing HciSniffer.sniffer_transport]. unfold HciSniffer.Close. rewrite Et.
    cbn. unfold sniffed. cbn. by rewrite Hfile, app_nil_r, Nat.add_0_r.
Qed.

Lemma run_sniffed os (s : HciSniffer T) file t events packets filter :
  output_ s = Some file → run os (transport_ s) = Ok (t, events) →
  filter_all (filter_ s) (passed events) = Ok (packets, filter) →
  run os s = Ok (sniffed s t file (passed events) packets filter, events).
Proof.
  revert s file t events packets. induction os as [|o os IH]; intros s file t events packets Hfile Hr Hps.
  - injection Hr as <- <-. injection Hps as <- <-. unfold sniffed. cbn.
    rewrite app_nil_r, Nat.add_0_r, <-Hfile. by destruct s.
  - cbn [run] in *. apply bind_Ok in Hr as ([t1 ev1] & E1 & ([t2 ev2] & E2 & [= <- <-])%bind_Ok).
    assert (passed (ev1 ++ ev2) = passed ev1 ++ passed ev2) as Happ
      by (unfold passed; by rewrite map_app, concat_app).
    rewrite Happ, filter_all_app in Hps.
    apply bind_Ok in Hps as ([p1 f1] & F1 & ([p2 f2] & F2 & [= <- <-])%bind_Ok).
    rewrite (operate_sniffed _ _ file t1 ev1 p1 f1) by done. cbn [mbind outcome_bind].
    erewrite IH; [|reflexivity|exact E2|exact F2]. cbn [mbind outcome_bind]. do 2 f_equal.
    unfold sniffed. cbn [records]. rewrite Happ, length_app, encode_records_app, app_assoc, Nat.add_assoc; [done|].
    by eapply length_filter_all.
Qed.

Lemma AppendRecord_transparent direction packet_type packet (s : HciSniffer T) :
  filter_ s = None → ∃ file n, HciSniffer.AppendRecord now direction packet_type packet s =
    Ok (MkSniffer file (transport_ s) None n).
Proof.
  intros Hs. unfold HciSniffer.AppendRecord. rewrite Hs. destruct (output_ s) eqn:E; [by do 2 eexists|].
  exists None, (records s). rewrite <-E, <-Hs. by destruct s.
Qed.
Lemma RegisterCallbacks_transparent calls (s : HciSniffer T) :
  filter_ s = None → ∃ file n, HciSniffer.RegisterCallbacks now calls s = Ok (MkSniffer file (transport_ s) None n).
Proof.
  revert s. induction calls as [|[[ty p]|] calls IH]; intros s Hs; cbn [HciSniffer.RegisterCallbacks].
  - exists (output_ s), (records s). rewrite <-Hs. by destruct s.
  - destruct (AppendRecord_transparent HOST_TO_CONTROLLER ty p s Hs) as (file & n & ->).
    cbn [mbind outcome_bind]. by apply (IH (MkSniffer file (transport_ s) None n)).
  - by apply IH.
Qed.
Lemma operate_transparent o (s : HciSniffer T) :
  filter_ s = None →
  ('(s', events) ← operate o s; Ok (transport_ s', filter_ s', events)) =
    ('(t, events) ← operate o (transport_ s); Ok (t, None, events)).
Proof.
  intros Hs. destruct o as [ty p| |]; cbn [operate transport_Send transport_Tick transport_Close sniffing
    HciSniffer.sniffer_transport]; unfold HciSniffer.Send, HciSniffer.Tick, HciSniffer.Close.
  - destruct (AppendRecord_transparent CONTROLLER_TO_HOST ty p s Hs) as (file & n & ->).
    cbn [mbind outcome_bind transport_]. by destruct (transport_Send ty p (transport_ s)).
  - destruct (transport_Tick (transport_ s)) as [[t calls]| | |]; cbn [mbind outcome_bind]; try done.
    destruct (RegisterCallbacks_transparent calls (MkSniffer (output_ s) t (filter_ s) (records s)) Hs)
      as (file & n & ->). done.
  - rewrite Hs. by destruct (transport_Close (transport_ s)).
Qed.

(** The sniffer is transparent: without a filter, whatever the operations, a sniffer
    does to its transport, and gives its controller, what the transport alone would, and it
    fails exactly when the transport does. *)
Theorem sniffer_transparent (os : list operation) (s : HciSniffer T) (Hs : filter_ s = None) :
  ('(s', events) ← run os s; Ok (transport_ s', events)) = run os (transport_ s).
Proof.
  revert s Hs. induction os as [|o os IH]; intros s Hs; [done|]. cbn [run].
  pose proof (operate_transparent o s Hs) as E.
  destruct (operate o s) as [[s' events]| | |], (operate o (transport_ s)) as [[t' events']| | |]; try done.
  injection E as <- Hs' <-. cbn [mbind outcome_bind]. rewrite <-IH by done.
  by destruct (run os s') as [[]| | |].
Qed.

(** C24. A capture tells what passed: when the transport alone would do the operations, the
    sniffer before it does them too, and its file, read back, holds one record for each packet that
    passed, in order and with its direction and type, with the packet the filter made of it. *)
Theorem capture_roundtrip `{!FormatsLaws formats} (os : list operation) (t t' : T) (filter : option PcapFilter)
  (events : list event)
  (Hwf : from_option filter_wf True filter) (Hrun : run os t = Ok (t', events))
  (Hfit : Forall (fit filter) (passed events)) :
  ∃ s' file packets filter',
    run os (HciSniffer.SetPcapFilter filter (HciSniffer.Create t (Some []) None)) = Ok (s', events) ∧
    transport_ s' = t' ∧ output_ s' = Some file ∧
    filter_all filter (passed events) = Ok (packets, filter') ∧
    parse_capture file = Some (201, decoded_records 0 (passed events) packets).
Proof.
  destruct (filter_all_total filter (passed events) Hwf Hfit) as (packets & filter' & Hf & Hl).
  erewrite run_sniffed; [|reflexivity|exact Hrun|exact Hf]. do 4 eexists. do 4 (split; [done|]).
  unfold parse_capture, field. cbn [app HciSniffer.Create HciSniffer.SetOutputStream HciSniffer.SetPcapFilter records].
  set (data := encode_records 0 (passed events) packets).
  assert (take 20 (pcap.WriteHeader 201 ++ data) = take 20 (pcap.WriteHeader 0)) as -> by reflexivity.
  assert (take 4 (drop 20 (pcap.WriteHeader 201 ++ data)) = [201; 0; 0; 0]) as -> by reflexivity.
  assert (drop 24 (pcap.WriteHeader 201 ++ data) = data) as -> by reflexivity.
  rewrite bool_decide_true by done. unfold data. rewrite parse_encode_records; [done| |].
  - clear -Hl Hfit. induction Hl as [|[[d ty] p] p' ps packets Hp _ IH]; [constructor|].
    apply Forall_cons in Hfit as [[_ Hs] Hfit]. constructor; [by split|by apply IH].
  - rewrite length_app. lia.
Qed.
End Capture.

(** ** Examples *)

#[local] Existing Instance HciSocketTransport.socket_transport.
(** A socket with bytes to read. *)
#[local] Instance example_socket : AsyncDataChannel (list Z) := {|
  Connected _ := true;
  channel_Send bytes pending := (zlength bytes, pending);
  channel_Recv pending := (H4DataChannelPacketizer.MkChannel pending [] H4DataChannelPacketizer.RecvEAGAIN, []);
  channel_Close _ := [];
|}.
(** The host gives the name ABC in its advertising data, and a controller reads that
    and closes the transport. *)
Definition example_transport : HciSocketTransport (list Z) :=
  HciSocketTransport.Create (Some [1; 0x08; 0x20; 5; 4; 9; 65; 66; 67]).
Definition example_clock (n : nat) : Z := 1123456789 + Z.of_nat n.
Definition example_packet : list Z := [0x08; 0x20; 5; 4; 9; 65; 66; 67].

#[local] Instance example_sniffer : HciTransport (HciSniffer (HciSocketTransport (list Z))) :=
  HciSniffer.sniffer_transport (formats := example_formats) example_clock.

Theorem capture_roundtrip_witness :
  ∃ s' file packets filter',
    run [Tick; Close] (HciSniffer.SetPcapFilter (Some []) (HciSniffer.Create example_transport (Some []) None)) =
      Ok (s', [Called (OnPacket (COMMAND, example_packet)); Closed]) ∧
    transport_ s' = MkSocketTransport (Some []) (h4_ (transport_ s')) ∧ output_ s' = Some file ∧
    filter_all (formats := example_formats) (Some []) [(HOST_TO_CONTROLLER, COMMAND, example_packet)] =
      Ok (packets, filter') ∧
    parse_capture file = Some (201, decoded_records example_clock 0 [(HOST_TO_CONTROLLER, COMMAND, example_packet)] packets).
Proof.
  edestruct (capture_roundtrip (formats := example_formats) example_clock [Tick; Close] example_transport)
    as (s' & file & packets & filter' & Hr & Ht & Ho & Hf & Hp).
  - exact (Forall_nil_2 _ : from_option filter_wf True (Some [])).
  - vm_compute. reflexivity.
  - repeat constructor; eexists; reflexivity.
  - exists s', file, packets, filter'. split; [exact Hr|]. split; [by rewrite Ht|]. by repeat split.
Defined.

(** The file of the example: the name is replaced, but for its last byte, and the fraction of
    the time 1.123456789 s that the record carries is 123, in milliseconds. *)
Example capture_example :
  ∃ s' events, run [Tick] (HciSniffer.SetPcapFilter (Some []) (HciSniffer.Create example_transport (Some []) None)) =
      Ok (s', events) ∧
  output_ s' ≫= parse_capture =
    Some (201, [MkRecord 1 123 0 1 [0x08; 0x20; 5; 4; 35; 48; 48; 67]]).
Proof. do 2 eexists. split; vm_compute; reflexivity. Qed.

(** The filter given to [Create] is lost: the name goes to the file as it is. *)
Example Create_ignores_filter :
  ∃ s' events, run [Tick] (HciSniffer.Create example_transport (Some []) (Some [])) = Ok (s', events) ∧
  output_ s' ≫= parse_capture = Some (201, [MkRecord 1 123 0 1 example_packet]).
Proof. do 2 eexists. split; vm_compute; reflexivity. Qed.

Theorem sniffer_transparent_witness :
  ('(s', events) ← run [Tick; Close] (HciSniffer.Create example_transport (Some []) None);
   Ok (transport_ s', events)) = run [Tick; Close] example_transport.
Proof. exact (sniffer_transparent (formats := example_formats) example_clock [Tick; Close] (HciSniffer.Create example_transport (Some []) None) eq_refl). Defined.
