(* ===== verification/LeLists.v ===== *)
(** * The lists of the LE controller and its general commands (le_controller.cc)

    Resolution and generation of private addresses, the resolving list, the
    filter accept list, the periodic advertiser list, and the commands that set
    one parameter.  A handler that sends nothing and cannot fail is a function of
    the controller. *)

From S2P Require Import Prelude HciTypes OpCodes Properties Address Connections LeState.

(** The commands that end with a status. *)
Abbreviation reply := (ErrorCode.t * LeController)%type.

Section Commands.
Context {env : Environment}.
Implicit Types c : LeController.

(** ** Extended and legacy advertising *)

Definition SelectLegacyAdvertising (c : LeController) : bool * LeController :=
  if extended_advertising_in_use_ c then (false, c)
  else (true, c <| legacy_advertising_in_use_ := true |>).

Definition SelectExtendedAdvertising (c : LeController) : bool * LeController :=
  if legacy_advertising_in_use_ c then (false, c)
  else (true, c <| extended_advertising_in_use_ := true |>).

Definition GetLeSupportedFeatures (c : LeController) : Z :=
  Z.lor (le_features (properties_ c)) (le_host_supported_features_ c).

(** ** The event masks and the suggested data length *)

Definition SetEventMask (event_mask : Z) (c : LeController) : LeController :=
  c <| event_mask_ := event_mask |>.
Definition SetEventMaskPage2 (event_mask : Z) (c : LeController) : LeController :=
  c <| event_mask_page_2_ := event_mask |>.
Definition SetLeEventMask (le_event_mask : Z) (c : LeController) : LeController :=
  c <| le_event_mask_ := le_event_mask |>.
Definition SetLeSuggestedMaxTxOctets (max_tx_octets : Z) (c : LeController) : LeController :=
  c <| le_suggested_max_tx_octets_ := max_tx_octets |>.
Definition SetLeSuggestedMaxTxTime (max_tx_time : Z) (c : LeController) : LeController :=
  c <| le_suggested_max_tx_time_ := max_tx_time |>.

(** ** Is a list in use? *)

Definition FilterAcceptListBusy (c : LeController) : bool :=
  if LegacyAdvertiser.IsEnabled (legacy_advertiser_ c) &&
     bool_decide (LegacyAdvertiser.advertising_filter_policy (legacy_advertiser_ c)
                  ≠ AdvertisingFilterPolicy.ALL_DEVICES)
  then true
  else if existsb (λ '(_, advertiser),
            ExtendedAdvertiser.IsEnabled advertiser &&
            bool_decide (ExtendedAdvertiser.advertising_filter_policy advertiser
                         ≠ AdvertisingFilterPolicy.ALL_DEVICES))
            (iterate (extended_advertisers_ c))
  then true
  else if Scanner.IsEnabled (scanner_ c) &&
     (bool_decide (Scanner.scan_filter_policy (scanner_ c)
                   = LeScanningFilterPolicy.FILTER_ACCEPT_LIST_ONLY) ||
      bool_decide (Scanner.scan_filter_policy (scanner_ c)
                   = LeScanningFilterPolicy.FILTER_ACCEPT_LIST_AND_INITIATORS_IDENTITY))
  then true
  else if Initiator.IsEnabled (initiator_ c) &&
     bool_decide (Initiator.initiator_filter_policy (initiator_ c)
                  = InitiatorFilterPolicy.USE_FILTER_ACCEPT_LIST_WITH_PEER_ADDRESS)
  then true
  else false.

Definition ResolvingListBusy (c : LeController) : bool :=
  if LegacyAdvertiser.IsEnabled (legacy_advertiser_ c) then true
  else if existsb (λ '(_, advertiser), ExtendedAdvertiser.IsEnabled advertiser)
            (iterate (extended_advertisers_ c)) then true
  else if Scanner.IsEnabled (scanner_ c) then true
  else if Initiator.IsEnabled (initiator_ c) then true
  else false.

(** ** Membership *)

(** The test of the filter accept list; the address of an entry for anonymous
    advertisers is ignored. *)
Definition filter_accept_list_match (address_type : FilterAcceptListAddressType.t)
    (address : Address) (entry : FilterAcceptListEntry) : bool :=
  bool_decide (fal_address_type entry = address_type) &&
  (bool_decide (address_type = FilterAcceptListAddressType.ANONYMOUS_ADVERTISERS) ||
   bool_decide (fal_address entry = address)).

Definition LeFilterAcceptListContainsDevice (address_type : FilterAcceptListAddressType.t)
    (address : Address) (c : LeController) : bool :=
  existsb (filter_accept_list_match address_type address) (le_filter_accept_list_ c).

(** The overload that takes an [AddressWithType]. *)
Definition LeFilterAcceptListContainsAddress (address : AddressWithType) (c : LeController) : bool :=
  let address_type :=
    match GetAddressType address with
    | AddressType.PUBLIC_DEVICE_ADDRESS | AddressType.PUBLIC_IDENTITY_ADDRESS =>
        FilterAcceptListAddressType.PUBLIC
    | AddressType.RANDOM_DEVICE_ADDRESS | AddressType.RANDOM_IDENTITY_ADDRESS =>
        FilterAcceptListAddressType.RANDOM
    end in
  LeFilterAcceptListContainsDevice address_type (GetAddress address) c.

Definition periodic_advertiser_list_match (advertiser_address_type : AdvertiserAddressType.t)
    (advertiser_address : Address) (advertising_sid : Z) (entry : PeriodicAdvertiserListEntry)
  : bool :=
  bool_decide (pal_advertiser_address_type entry = advertiser_address_type) &&
  bool_decide (pal_advertiser_address entry = advertiser_address) &&
  (pal_advertising_sid entry =? advertising_sid).

Definition LePeriodicAdvertiserListContainsDevice
    (advertiser_address_type : AdvertiserAddressType.t) (advertiser_address : Address)
    (advertising_sid : Z) (c : LeController) : bool :=
  existsb (periodic_advertiser_list_match advertiser_address_type advertiser_address advertising_sid)
    (le_periodic_advertiser_list_ c).

(** ** Resolvable private addresses *)

(** The identity of the first entry whose peer key resolves the address; that
    entry remembers the address. *)
Definition ResolvePrivateAddress (address : AddressWithType) (c : LeController)
  : option AddressWithType * LeController :=
  if negb (IsRpa address) then (Some address, c)
  else if negb (le_resolving_list_enabled_ c) then (None, c)
  else
    let resolves entry := IsRpaThatMatchesIrk address (peer_irk entry) in
    match find_first resolves (le_resolving_list_ c) with
    | Some entry =>
        (Some (PeerDeviceAddress (peer_identity_address entry) (peer_identity_address_type entry)),
         c <| le_resolving_list_ ::= update_first resolves
                (λ entry, entry <| peer_resolvable_address := Some (GetAddress address) |>) |>)
    | None => (None, c)
    end.

Definition ResolveTargetA (target_a adv_a : AddressWithType) (c : LeController) : bool :=
  if negb (le_resolving_list_enabled_ c) then false
  else existsb (λ entry,
         bool_decide (adv_a = PeerDeviceAddress (peer_identity_address entry)
                                (peer_identity_address_type entry)) &&
         IsRpaThatMatchesIrk target_a (local_irk entry)) (le_resolving_list_ c).

Definition IsLocalPublicOrRandomAddress (address : AddressWithType) (c : LeController) : bool :=
  match GetAddressType address with
  | AddressType.PUBLIC_DEVICE_ADDRESS => bool_decide (GetAddress address = address_ c)
  | AddressType.RANDOM_DEVICE_ADDRESS => bool_decide (GetAddress address = random_address_ c)
  | _ => false
  end.

Definition ValidateTargetA (target_a adv_a : AddressWithType) (c : LeController) : bool :=
  if IsLocalPublicOrRandomAddress target_a c then true
  else if IsRpa target_a then ResolveTargetA target_a adv_a c
  else false.

(** [generate_rpa] with the numbers [std::rand] is about to return. *)
Definition draw_rpa (irk : list Z) (c : LeController) : Address * LeController :=
  let rand i := std_rand (rand_calls_ c + i)%nat in
  let prand0 := u8 (rand 0%nat) in
  let prand1 := u8 (rand 1%nat) in
  let prand2 := u8 (Z.land (u8 (rand 2%nat)) (Z.lnot 0xC0)) in
  let calls :=
    if ((prand0 =? 0x00) && (prand1 =? 0x00) && (prand2 =? 0x00)) ||
       ((prand0 =? 0xFF) && (prand1 =? 0xFF) && (prand2 =? 0x3F)) then 4%nat else 3%nat in
  (generate_rpa rand irk, c <| rand_calls_ ::= Nat.add calls |>).

Inductive IrkSelection := Peer | Local.

Definition GenerateResolvablePrivateAddress (address : AddressWithType) (irk : IrkSelection)
    (c : LeController) : option AddressWithType * LeController :=
  let is_peer entry :=
    bool_decide (GetAddress address = peer_identity_address entry) &&
    bool_decide (ToPeerAddressType address = peer_identity_address_type entry) in
  match find_first is_peer (le_resolving_list_ c) with
  | Some entry =>
      let used_irk := match irk with Local => local_irk entry | Peer => peer_irk entry end in
      let '(local_resolvable_address, c) := draw_rpa used_irk c in
      let c := match irk with
               | Local =>
                   c <| le_resolving_list_ ::= update_first is_peer (λ entry,
                          entry <| LeState.local_resolvable_address :=
                                     Some local_resolvable_address |>) |>
               | Peer => c
               end in
      (Some (MkAddressWithType local_resolvable_address AddressType.RANDOM_DEVICE_ADDRESS), c)
  | None => (None, c)
  end.

(** ** General commands *)

Definition ReadRssi (connection_handle : Z) (c : LeController) : outcome (ErrorCode.t * option Z) :=
  if HasLeAclHandle connection_handle (connections_ c) then
    connection ← GetLeAclConnection connection_handle (connections_ c);
    Ok (ErrorCode.SUCCESS, Some (LeAclConnection.rssi_ connection))
  else Ok (ErrorCode.UNKNOWN_CONNECTION, None).

Definition LeSetRandomAddress (random_address : Address) (c : LeController) : reply :=
  if LegacyAdvertiser.IsEnabled (legacy_advertiser_ c) || Scanner.IsEnabled (scanner_ c) ||
     Initiator.IsEnabled (initiator_ c)
  then (ErrorCode.COMMAND_DISALLOWED, c)
  else if bool_decide (random_address = kEmpty)
  then (ErrorCode.INVALID_HCI_COMMAND_PARAMETERS, c)
  else (ErrorCode.SUCCESS, c <| random_address_ := random_address |>).

Definition LeSetResolvablePrivateAddressTimeout (rpa_timeout : Z) (c : LeController) : reply :=
  if (rpa_timeout <? 0x1) || (0x0e10 <? rpa_timeout)
  then (ErrorCode.INVALID_HCI_COMMAND_PARAMETERS, c)
  else (ErrorCode.SUCCESS, c <| resolvable_private_address_timeout_ := rpa_timeout |>).

Definition LeReadPhy (connection_handle : Z) (c : LeController)
  : outcome (ErrorCode.t * option (PhyType.t * PhyType.t)) :=
  if negb (HasLeAclHandle connection_handle (connections_ c))
  then Ok (ErrorCode.UNKNOWN_CONNECTION, None)
  else
    connection ← GetLeAclConnection connection_handle (connections_ c);
    Ok (ErrorCode.SUCCESS,
        Some (LeAclConnection.tx_phy_ connection, LeAclConnection.rx_phy_ connection)).

Definition LeSetDataLength (connection_handle tx_octets tx_time : Z) (c : LeController) : reply :=
  if negb (HasLeAclHandle connection_handle (connections_ c))
  then (ErrorCode.UNKNOWN_CONNECTION, c)
  else if (tx_octets <? 0x001B) || (0x00FB <? tx_octets)
  then (ErrorCode.INVALID_HCI_COMMAND_PARAMETERS, c)
  else if (tx_time <? 0x0148) || (0x4290 <? tx_time)
  then (ErrorCode.INVALID_HCI_COMMAND_PARAMETERS, c)
  else (ErrorCode.SUCCESS, c).

(** [~bit_mask] on 64 bits is the bits of [bit_mask] removed. *)
Definition LeSetHostFeature (bit_number bit_value : Z) (c : LeController) : reply :=
  if (64 <=? bit_number) || (1 <? bit_value)
  then (ErrorCode.INVALID_HCI_COMMAND_PARAMETERS, c)
  else if negb (bool_decide (GetLeAclHandles (connections_ c) = []))
  then (ErrorCode.COMMAND_DISALLOWED, c)
  else
    let bit_mask := u64 (Z.shiftl 1 bit_number) in
    let update (c : LeController) : reply :=
      (ErrorCode.SUCCESS,
       if negb (bit_value =? 0)
       then c <| le_host_supported_features_ ::= λ f, Z.lor f bit_mask |>
       else c <| le_host_supported_features_ ::= λ f, Z.ldiff f bit_mask |>) in
    if bit_mask =? LLFeaturesBits.to_Z LLFeaturesBits.CONNECTED_ISOCHRONOUS_STREAM_HOST_SUPPORT
    then update (c <| connected_isochronous_stream_host_support_ := negb (bit_value =? 0) |>)
    else if bit_mask =? LLFeaturesBits.to_Z LLFeaturesBits.CONNECTION_SUBRATING_HOST_SUPPORT
    then update (c <| connection_subrating_host_support_ := negb (bit_value =? 0) |>)
    else if bit_mask =? LLFeaturesBits.to_Z LLFeaturesBits.CHANNEL_SOUNDING_HOST_SUPPORT
    then update (c <| channel_sounding_host_support_ := negb (bit_value =? 0) |>)
    else (ErrorCode.UNSUPPORTED_FEATURE_OR_PARAMETER_VALUE, c).

(** ** Resolving list *)

(** The entry of a peer. *)
Definition resolving_list_match (peer_type : PeerAddressType.t) (peer : Address)
    (entry : ResolvingListEntry) : bool :=
  bool_decide (peer_identity_address_type entry = peer_type) &&
  bool_decide (peer_identity_address entry = peer).

Definition LeAddDeviceToResolvingList (peer_type : PeerAddressType.t) (peer : Address)
    (new_peer_irk new_local_irk : list Z) (c : LeController) : reply :=
  if le_resolving_list_enabled_ c && ResolvingListBusy c
  then (ErrorCode.COMMAND_DISALLOWED, c)
  else if le_resolving_list_size (properties_ c) <=? zlength (le_resolving_list_ c)
  then (ErrorCode.MEMORY_CAPACITY_EXCEEDED, c)
  else if existsb (λ entry,
            resolving_list_match peer_type peer entry ||
            (bool_decide (peer_irk entry = new_peer_irk) && negb (irk_is_zero new_peer_irk)))
            (le_resolving_list_ c)
  then (ErrorCode.INVALID_HCI_COMMAND_PARAMETERS, c)
  else
    (ErrorCode.SUCCESS,
     c <| le_resolving_list_ ::= λ l, l ++
       [MkResolvingListEntry peer_type peer new_peer_irk new_local_irk PrivacyMode.NETWORK None None]
     |>).

Definition LeRemoveDeviceFromResolvingList (peer_type : PeerAddressType.t) (peer : Address)
    (c : LeController) : reply :=
  if le_resolving_list_enabled_ c && ResolvingListBusy c
  then (ErrorCode.COMMAND_DISALLOWED, c)
  else
    match remove_first (resolving_list_match peer_type peer) (le_resolving_list_ c) with
    | Some l => (ErrorCode.SUCCESS, c <| le_resolving_list_ := l |>)
    | None => (ErrorCode.UNKNOWN_CONNECTION, c)
    end.

Definition LeClearResolvingList (c : LeController) : reply :=
  if le_resolving_list_enabled_ c && ResolvingListBusy c
  then (ErrorCode.COMMAND_DISALLOWED, c)
  else (ErrorCode.SUCCESS, c <| le_resolving_list_ := [] |>).


Definition LeReadPeerResolvableAddress (peer_type : PeerAddressType.t) (peer : Address)
    (c : LeController) : ErrorCode.t * option Address :=
  match find_first (λ entry, resolving_list_match peer_type peer entry &&
                             has_value (peer_resolvable_address entry)) (le_resolving_list_ c) with
  | Some entry => (ErrorCode.SUCCESS, peer_resolvable_address entry)
  | None => (ErrorCode.UNKNOWN_CONNECTION, None)
  end.

Definition LeReadLocalResolvableAddress (peer_type : PeerAddressType.t) (peer : Address)
    (c : LeController) : ErrorCode.t * option Address :=
  match find_first (λ entry, resolving_list_match peer_type peer entry &&
                             has_value (local_resolvable_address entry)) (le_resolving_list_ c) with
  | Some entry => (ErrorCode.SUCCESS, local_resolvable_address entry)
  | None => (ErrorCode.UNKNOWN_CONNECTION, None)
  end.

Definition LeSetAddressResolutionEnable (enable : bool) (c : LeController) : reply :=
  if ResolvingListBusy c then (ErrorCode.COMMAND_DISALLOWED, c)
  else (ErrorCode.SUCCESS, c <| le_resolving_list_enabled_ := enable |>).

Definition LeSetPrivacyMode (peer_type : PeerAddressType.t) (peer : Address)
    (mode : PrivacyMode.t) (c : LeController) : reply :=
  if le_resolving_list_enabled_ c && ResolvingListBusy c
  then (ErrorCode.COMMAND_DISALLOWED, c)
  else if existsb (resolving_list_match peer_type peer) (le_resolving_list_ c)
  then (ErrorCode.SUCCESS,
        c <| le_resolving_list_ ::= update_first (resolving_list_match peer_type peer)
               (λ entry, entry <| privacy_mode := mode |>) |>)
  else (ErrorCode.UNKNOWN_CONNECTION, c).

(** ** Filter accept list *)

Definition LeClearFilterAcceptList (c : LeController) : reply :=
  if FilterAcceptListBusy c then (ErrorCode.COMMAND_DISALLOWED, c)
  else (ErrorCode.SUCCESS, c <| le_filter_accept_list_ := [] |>).

Definition LeAddDeviceToFilterAcceptList (address_type : FilterAcceptListAddressType.t)
    (address : Address) (c : LeController) : reply :=
  if FilterAcceptListBusy c then (ErrorCode.COMMAND_DISALLOWED, c)
  else if le_filter_accept_list_size (properties_ c) <=? zlength (le_filter_accept_list_ c)
  then (ErrorCode.MEMORY_CAPACITY_EXCEEDED, c)
  else (ErrorCode.SUCCESS,
        c <| le_filter_accept_list_ ::= λ l, l ++ [MkFilterAcceptListEntry address_type address] |>).

Definition LeRemoveDeviceFromFilterAcceptList (address_type : FilterAcceptListAddressType.t)
    (address : Address) (c : LeController) : reply :=
  if FilterAcceptListBusy c then (ErrorCode.COMMAND_DISALLOWED, c)
  else
    match remove_first (filter_accept_list_match address_type address) (le_filter_accept_list_ c) with
    | Some l => (ErrorCode.SUCCESS, c <| le_filter_accept_list_ := l |>)
    | None => (ErrorCode.SUCCESS, c)
    end.

(** ** Periodic advertiser list *)

Definition LeAddDeviceToPeriodicAdvertiserList (advertiser_address_type : AdvertiserAddressType.t)
    (advertiser_address : Address) (advertising_sid : Z) (c : LeController) : reply :=
  if has_value (synchronizing_ c) then (ErrorCode.COMMAND_DISALLOWED, c)
  else if le_periodic_advertiser_list_size (properties_ c)
          <=? zlength (le_periodic_advertiser_list_ c)
  then (ErrorCode.MEMORY_CAPACITY_EXCEEDED, c)
  else if existsb (periodic_advertiser_list_match advertiser_address_type advertiser_address
                     advertising_sid) (le_periodic_advertiser_list_ c)
  then (ErrorCode.INVALID_HCI_COMMAND_PARAMETERS, c)
  else (ErrorCode.SUCCESS,
        c <| le_periodic_advertiser_list_ ::= λ l, l ++
          [MkPeriodicAdvertiserListEntry advertiser_address_type advertiser_address advertising_sid]
        |>).

Definition LeRemoveDeviceFromPeriodicAdvertiserList
    (advertiser_address_type : AdvertiserAddressType.t) (advertiser_address : Address)
    (advertising_sid : Z) (c : LeController) : reply :=
  if has_value (synchronizing_ c) then (ErrorCode.COMMAND_DISALLOWED, c)
  else
    match remove_first (periodic_advertiser_list_match advertiser_address_type advertiser_address
                          advertising_sid) (le_periodic_advertiser_list_ c) with
    | Some l => (ErrorCode.SUCCESS, c <| le_periodic_advertiser_list_ := l |>)
    | None => (ErrorCode.UNKNOWN_ADVERTISING_IDENTIFIER, c)
    end.

Definition LeClearPeriodicAdvertiserList (c : LeController) : reply :=
  if has_value (synchronizing_ c) then (ErrorCode.COMMAND_DISALLOWED, c)
  else (ErrorCode.SUCCESS, c <| le_periodic_advertiser_list_ := [] |>).

(** ** Periodic advertising synchronisation *)

Definition LePeriodicAdvertisingCreateSync (options : PeriodicAdvertisingOptions)
    (advertising_sid : Z) (advertiser_address_type : AdvertiserAddressType.t)
    (advertiser_address : Address) (sync_timeout sync_cte_type : Z) (c : LeController) : reply :=
  if has_value (synchronizing_ c) then (ErrorCode.COMMAND_DISALLOWED, c)
  else if Z.land sync_cte_type 0x1f =? 0x1f then (ErrorCode.COMMAND_DISALLOWED, c)
  else
    let has_synchronized_train := existsb (λ '(_, sync),
      bool_decide (Synchronized.advertiser_address_type sync = advertiser_address_type) &&
      bool_decide (Synchronized.advertiser_address sync = advertiser_address) &&
      (Synchronized.advertising_sid sync =? advertising_sid)) (iterate (synchronized_ c)) in
    if negb (use_periodic_advertiser_list_ options) && has_synchronized_train
    then (ErrorCode.CONNECTION_ALREADY_EXISTS, c)
    else if negb (disable_reporting_ options) && enable_duplicate_filtering_ options &&
       negb (SupportsLLFeature (properties_ c) LLFeaturesBits.PERIODIC_ADVERTISING_ADI_SUPPORT)
    then (ErrorCode.UNSUPPORTED_FEATURE_OR_PARAMETER_VALUE, c)
    else if disable_reporting_ options &&
       negb (SupportsCommand (properties_ c) OpCodeIndex.LE_SET_PERIODIC_ADVERTISING_RECEIVE_ENABLE)
    then (ErrorCode.CONNECTION_FAILED_ESTABLISHMENT, c)
    else (ErrorCode.SUCCESS,
          c <| synchronizing_ := Some (Synchronizing.MkSynchronizing options
                 advertiser_address_type advertiser_address advertising_sid
                 (milliseconds 10 * sync_timeout)) |>).

Definition LePeriodicAdvertisingCreateSyncCancel : M ErrorCode.t :=
  synchronizing ← gets synchronizing_;
  if negb (has_value synchronizing) then mret ErrorCode.COMMAND_DISALLOWED
  else
    unmasked ← gets (IsLeEventUnmasked SubeventCode.LE_PERIODIC_ADVERTISING_SYNC_ESTABLISHED_V1);
    unmasked ← lift unmasked;
    when unmasked (output (ScheduleTask 0 (SendEventLater
      (LePeriodicAdvertisingSyncEstablishedV1 ErrorCode.OPERATION_CANCELLED_BY_HOST 0 0
         AddressType.PUBLIC_DEVICE_ADDRESS kEmpty SecondaryPhyType.NO_PACKETS 0
         ClockAccuracy.PPM_500))));;
    modify (λ c, c <| synchronizing_ := None |>);;
    mret ErrorCode.SUCCESS.

Definition LePeriodicAdvertisingTerminateSync (sync_handle : Z) (c : LeController) : reply :=
  match synchronized_ c !! sync_handle with
  | None => (ErrorCode.UNKNOWN_ADVERTISING_IDENTIFIER, c)
  | Some _ => (ErrorCode.SUCCESS, c <| synchronized_ ::= delete sync_handle |>)
  end.
End Commands.

(** ** Proofs *)

(** *** Tables *)

Section Proofs.
Context {env : Environment}.
Implicit Types c : LeController.

Lemma existsb_elem {A} (f : A → bool) l : existsb f l = true ↔ ∃ x, x ∈ l ∧ f x = true.
Proof.
  rewrite existsb_exists. split; intros (x & ? & ?); exists x; split; try done;
    by apply list_elem_of_In.
Qed.

Lemma existsb_iterate {A} (f : A → bool) (m : gmap Z A) :
  existsb (λ '(_, x), f x) (iterate m) = true ↔ ∃ k x, m !! k = Some x ∧ f x = true.
Proof.
  rewrite existsb_elem. split.
  - intros ([k x] & Hin & Hf). apply elem_of_iterate in Hin. by exists k, x.
  - intros (k & x & Hk & Hf). exists (k, x). split; [by apply elem_of_iterate|done].
Qed.

(** The resolving list has room for its entries, at most one for a peer, and no
    key other than zero twice. *)
Record resolving_list_wf (limit : Z) (l : list ResolvingListEntry) : Prop := {
  rl_size : zlength l ≤ limit;
  rl_peers : NoDup ((λ e, (peer_identity_address_type e, peer_identity_address e)) <$> l);
  rl_keys : NoDup (filter (λ irk, irk_is_zero irk = false) (peer_irk <$> l));
}.

Record lists_wf (c : LeController) : Prop := {
  lists_resolving : resolving_list_wf (le_resolving_list_size (properties_ c)) (le_resolving_list_ c);
  lists_filter : zlength (le_filter_accept_list_ c) ≤ le_filter_accept_list_size (properties_ c);
  lists_periodic_size :
    zlength (le_periodic_advertiser_list_ c) ≤ le_periodic_advertiser_list_size (properties_ c);
  lists_periodic : NoDup (le_periodic_advertiser_list_ c);
}.

Lemma resolving_list_wf_nil limit : 0 ≤ limit → resolving_list_wf limit [].
Proof. intros. constructor; [done| |]; csimpl; constructor. Qed.

Lemma resolving_list_wf_update limit l f g :
  (∀ e, peer_identity_address_type (g e) = peer_identity_address_type e ∧
        peer_identity_address (g e) = peer_identity_address e ∧ peer_irk (g e) = peer_irk e) →
  resolving_list_wf limit l → resolving_list_wf limit (update_first f g l).
Proof.
  intros Hg [Hs Hp Hk]. constructor.
  - unfold zlength. by rewrite length_update_first.
  - rewrite fmap_update_first; [done|]. intros e. by destruct (Hg e) as (-> & -> & _).
  - rewrite fmap_update_first; [done|]. intros e. by destruct (Hg e) as (_ & _ & ->).
Qed.

Lemma resolving_list_wf_remove limit l1 e l2 :
  resolving_list_wf limit (l1 ++ e :: l2) → resolving_list_wf limit (l1 ++ l2).
Proof.
  intros [Hs Hp Hk]. constructor.
  - autorewrite with rc in *. lia.
  - revert Hp. rewrite !fmap_app, fmap_cons. intros Hp. eapply sublist_NoDup; [exact Hp|].
    apply sublist_app; [done|]. by constructor.
  - revert Hk. rewrite !fmap_app, fmap_cons, !filter_app, filter_cons.
    intros Hk. eapply sublist_NoDup; [exact Hk|].
    apply sublist_app; [done|]. case_decide; [by constructor|done].
Qed.

Lemma resolving_list_wf_add limit l t a peer local :
  zlength l < limit →
  existsb (λ e, resolving_list_match t a e ||
                (bool_decide (peer_irk e = peer) && negb (irk_is_zero peer))) l = false →
  resolving_list_wf limit l →
  resolving_list_wf limit
    (l ++ [MkResolvingListEntry t a peer local PrivacyMode.NETWORK None None]).
Proof.
  intros Hl Hnew [Hs Hp Hk].
  assert (∀ e, e ∈ l → resolving_list_match t a e = false ∧
    (peer_irk e = peer → irk_is_zero peer = true)) as Hn.
  { intros e He. destruct (resolving_list_match t a e ||
      (bool_decide (peer_irk e = peer) && negb (irk_is_zero peer))) eqn:E.
    - assert (∃ e, e ∈ l ∧ (resolving_list_match t a e ||
        (bool_decide (peer_irk e = peer) && negb (irk_is_zero peer))) = true) as Hex by eauto.
      apply existsb_elem in Hex. congruence.
    - apply orb_false_iff in E as [? E]. split; [done|]. intros <-.
      rewrite bool_decide_true in E by done. by apply negb_false_iff. }
  constructor.
  - autorewrite with rc. lia.
  - rewrite fmap_app. apply NoDup_app. split; [done|]. split; [|apply NoDup_singleton].
    intros x (e & -> & He)%list_elem_of_fmap [= Ht Ha]%list_elem_of_singleton.
    apply Hn in He as [He _]. unfold resolving_list_match in He.
    by rewrite Ht, Ha, !bool_decide_true in He.
  - rewrite fmap_app, filter_app. csimpl. destruct (irk_is_zero peer) eqn:Hz.
    { rewrite filter_cons_False by congruence. by rewrite filter_nil, app_nil_r. }
    rewrite filter_cons_True by done. rewrite filter_nil.
    apply NoDup_app. split; [done|]. split; [|apply NoDup_singleton].
    intros x [Hx (e & -> & He)%list_elem_of_fmap]%list_elem_of_filter Hxp%list_elem_of_singleton.
    apply Hn in He as [_ He]. by apply He in Hxp.
Qed.

Lemma lists_wf_frame c c' :
  properties_ c' = properties_ c → le_resolving_list_ c' = le_resolving_list_ c →
  le_filter_accept_list_ c' = le_filter_accept_list_ c →
  le_periodic_advertiser_list_ c' = le_periodic_advertiser_list_ c → lists_wf c → lists_wf c'.
Proof. intros Hp Hr Hf Ha [? ? ? ?]. constructor; congruence. Qed.

(** A command that changes the lists changes nothing else the invariant reads. *)
Lemma lists_wf_resolving c l :
  lists_wf c → resolving_list_wf (le_resolving_list_size (properties_ c)) l →
  lists_wf (c <| le_resolving_list_ := l |>).
Proof. intros [? ? ? ?] ?. by constructor. Qed.

Lemma lists_wf_filter c l :
  lists_wf c → zlength l ≤ le_filter_accept_list_size (properties_ c) →
  lists_wf (c <| le_filter_accept_list_ := l |>).
Proof. intros [? ? ? ?] ?. by constructor. Qed.

Lemma lists_wf_periodic c l :
  lists_wf c → zlength l ≤ le_periodic_advertiser_list_size (properties_ c) → NoDup l →
  lists_wf (c <| le_periodic_advertiser_list_ := l |>).
Proof. intros [? ? ? ?] ? ?. by constructor. Qed.

Lemma LeAddDeviceToResolvingList_wf t a p l c :
  lists_wf c → lists_wf (snd (LeAddDeviceToResolvingList t a p l c)).
Proof.
  intros Hc. command LeAddDeviceToResolvingList.
  apply (lists_wf_resolving c); [done|]. by apply resolving_list_wf_add; [..|apply Hc].
Qed.

Lemma LeRemoveDeviceFromResolvingList_wf t a c :
  lists_wf c → lists_wf (snd (LeRemoveDeviceFromResolvingList t a c)).
Proof.
  intros Hc. command LeRemoveDeviceFromResolvingList.
  match goal with H : remove_first _ _ = Some _ |- _ =>
    apply remove_first_Some in H as (l1 & e & l2 & Hl & -> & _ & _) end.
  apply (lists_wf_resolving c); [done|]. apply resolving_list_wf_remove with e.
  rewrite <-Hl. apply Hc.
Qed.

Lemma LeClearResolvingList_wf c : lists_wf c → lists_wf (snd (LeClearResolvingList c)).
Proof.
  intros Hc. command LeClearResolvingList. apply (lists_wf_resolving c); [done|].
  apply resolving_list_wf_nil. destruct Hc as [[Hs _ _] _ _ _].
  pose proof (zlength_nonneg (le_resolving_list_ c)). lia.
Qed.

Lemma LeSetPrivacyMode_wf t a m c : lists_wf c → lists_wf (snd (LeSetPrivacyMode t a m c)).
Proof.
  intros Hc. command LeSetPrivacyMode. apply (lists_wf_resolving c); [done|].
  apply resolving_list_wf_update; [done|apply Hc].
Qed.

Lemma ResolvePrivateAddress_wf a c : lists_wf c → lists_wf (snd (ResolvePrivateAddress a c)).
Proof.
  intros Hc. command ResolvePrivateAddress. apply (lists_wf_resolving c); [done|].
  apply resolving_list_wf_update; [done|apply Hc].
Qed.

Lemma GenerateResolvablePrivateAddress_wf a irk c :
  lists_wf c → lists_wf (snd (GenerateResolvablePrivateAddress a irk c)).
Proof.
  intros Hc. unfold GenerateResolvablePrivateAddress, draw_rpa.
  destruct (find_first _ _); [|done]. destruct irk; cbn [snd].
  { by apply (lists_wf_frame c). }
  apply lists_wf_resolving; [by apply (lists_wf_frame c)|].
  apply resolving_list_wf_update; [done|]. apply (lists_resolving c Hc).
Qed.

Lemma LeClearFilterAcceptList_wf c : lists_wf c → lists_wf (snd (LeClearFilterAcceptList c)).
Proof.
  intros Hc. command LeClearFilterAcceptList. apply (lists_wf_filter c); [done|].
  pose proof (lists_filter c Hc). pose proof (zlength_nonneg (le_filter_accept_list_ c)).
  autorewrite with rc. lia.
Qed.

Lemma LeAddDeviceToFilterAcceptList_wf t a c :
  lists_wf c → lists_wf (snd (LeAddDeviceToFilterAcceptList t a c)).
Proof.
  intros Hc. command LeAddDeviceToFilterAcceptList. apply (lists_wf_filter c); [done|].
  autorewrite with rc. lia.
Qed.

Lemma LeRemoveDeviceFromFilterAcceptList_wf t a c :
  lists_wf c → lists_wf (snd (LeRemoveDeviceFromFilterAcceptList t a c)).
Proof.
  intros Hc. command LeRemoveDeviceFromFilterAcceptList.
  match goal with H : remove_first _ _ = Some _ |- _ =>
    apply remove_first_Some in H as (l1 & e & l2 & Hl & -> & _ & _) end.
  apply (lists_wf_filter c); [done|]. pose proof (lists_filter c Hc) as Hs.
  rewrite Hl in Hs. autorewrite with rc in *. lia.
Qed.

Lemma LeAddDeviceToPeriodicAdvertiserList_wf t a sid c :
  lists_wf c → lists_wf (snd (LeAddDeviceToPeriodicAdvertiserList t a sid c)).
Proof.
  intros Hc. command LeAddDeviceToPeriodicAdvertiserList.
  apply (lists_wf_periodic c); [done|autorewrite with rc; lia|].
  apply NoDup_app. split; [apply Hc|]. split; [|apply NoDup_singleton].
  intros e He ->%list_elem_of_singleton.
  match goal with H : existsb ?f ?l = false |- _ =>
    assert (existsb f l = true) as Hin; [|congruence] end.
  apply existsb_elem. eexists. split; [exact He|]. unfold periodic_advertiser_list_match. cbn.
  by rewrite !bool_decide_true, Z.eqb_refl.
Qed.

Lemma LeRemoveDeviceFromPeriodicAdvertiserList_wf t a sid c :
  lists_wf c → lists_wf (snd (LeRemoveDeviceFromPeriodicAdvertiserList t a sid c)).
Proof.
  intros Hc. command LeRemoveDeviceFromPeriodicAdvertiserList.
  match goal with H : remove_first _ _ = Some _ |- _ =>
    apply remove_first_Some in H as (l1 & e & l2 & Hl & -> & _ & _) end.
  pose proof (lists_periodic_size c Hc) as Hs. pose proof (lists_periodic c Hc) as Hd.
  rewrite Hl in Hs, Hd. autorewrite with rc in *.
  apply (lists_wf_periodic c); [done|autorewrite with rc; lia|].
  eapply sublist_NoDup; [exact Hd|]. apply sublist_app; [done|]. by constructor.
Qed.

Lemma LeClearPeriodicAdvertiserList_wf c :
  lists_wf c → lists_wf (snd (LeClearPeriodicAdvertiserList c)).
Proof.
  intros Hc. command LeClearPeriodicAdvertiserList.
  apply (lists_wf_periodic c); [done| |constructor].
  pose proof (lists_periodic_size c Hc). pose proof (zlength_nonneg (le_periodic_advertiser_list_ c)).
  autorewrite with rc. lia.
Qed.

(** *** Private addresses *)

Lemma find_first_app {A} (f : A → bool) l1 x l2 :
  Forall (λ y, f y = false) l1 → f x = true → find_first f (l1 ++ x :: l2) = Some x.
Proof. induction 1 as [|y l1 Hy _ IH]; intros Hx; simpl; [by rewrite Hx|]. rewrite Hy. by apply IH. Qed.

Lemma update_first_app {A} (f : A → bool) g l1 x l2 :
  Forall (λ y, f y = false) l1 → f x = true → update_first f g (l1 ++ x :: l2) = l1 ++ g x :: l2.
Proof.
  induction 1 as [|y l1 Hy _ IH]; intros Hx; simpl; [by rewrite Hx|]. rewrite Hy. by rewrite IH.
Qed.

Lemma find_first_split {A} (f : A → bool) l x :
  find_first f l = Some x → ∃ l1 l2, l = l1 ++ x :: l2 ∧ Forall (λ y, f y = false) l1 ∧ f x = true.
Proof.
  induction l as [|y l IH]; simpl; [done|]. destruct (f y) eqn:Hy.
  - intros [= ->]. by exists [], l.
  - intros (l1 & l2 & -> & Hl1 & Hx)%IH. exists (y :: l1), l2. split; [done|]. by split; [constructor|].
Qed.

(** The peers before and after an entry are other peers. *)
Lemma resolving_list_other limit l1 e l2 :
  resolving_list_wf limit (l1 ++ e :: l2) →
  Forall (λ x, resolving_list_match (peer_identity_address_type e) (peer_identity_address e) x = false) l1.
Proof.
  intros [_ Hp _]. rewrite fmap_app, fmap_cons in Hp. apply NoDup_app in Hp as (_ & Hd & _).
  apply Forall_forall. intros x Hx. apply not_true_iff_false. unfold resolving_list_match.
  intros [Ht%bool_decide_eq_true Ha%bool_decide_eq_true]%andb_true_iff.
  apply (list_elem_of_fmap_2 (λ e, (peer_identity_address_type e, peer_identity_address e))) in Hx.
  apply (Hd _ Hx). rewrite Ht, Ha. by left.
Qed.

Lemma find_first_weaken {A} (f g : A → bool) l1 x l2 :
  Forall (λ y, f y = false) l1 → f x = true → g x = true →
  find_first (λ y, f y && g y) (l1 ++ x :: l2) = Some x.
Proof.
  intros Hl1 Hf Hg. apply find_first_app; [|by rewrite Hf, Hg].
  eapply Forall_impl; [exact Hl1|]. intros y ->. done.
Qed.

Lemma resolving_list_match_self e :
  resolving_list_match (peer_identity_address_type e) (peer_identity_address e) e = true.
Proof. unfold resolving_list_match. by rewrite !bool_decide_true. Qed.

(** The address a device generates for a peer resolves at that peer to the
    identity the peer knows the device by, when the two share the key and no
    earlier entry of the peer resolves it too; both sides then report it for the
    entry they used. *)
Theorem private_address_roundtrip (a b a' b' : LeController) (peer : AddressWithType)
    (rpa : AddressWithType) (ea eb : ResolvingListEntry) (r : option AddressWithType)
    (l1 l2 k1 k2 : list ResolvingListEntry)
    (Ha : lists_wf a) (Hb : lists_wf b)
    (Hea : le_resolving_list_ a = l1 ++ ea :: l2)
    (Hpeer : peer = PeerDeviceAddress (peer_identity_address ea) (peer_identity_address_type ea))
    (Heb : le_resolving_list_ b = k1 ++ eb :: k2)
    (Henabled : le_resolving_list_enabled_ b = true)
    (Hkey : peer_irk eb = local_irk ea)
    (Hgenerate : GenerateResolvablePrivateAddress peer Local a = (Some rpa, a'))
    (Hfirst : Forall (λ e, IsRpaThatMatchesIrk rpa (peer_irk e) = false) k1)
    (Hresolve : ResolvePrivateAddress rpa b = (r, b')) :
  r = Some (PeerDeviceAddress (peer_identity_address eb) (peer_identity_address_type eb)) ∧
  LeReadLocalResolvableAddress (peer_identity_address_type ea) (peer_identity_address ea) a' =
    (ErrorCode.SUCCESS, Some (GetAddress rpa)) ∧
  LeReadPeerResolvableAddress (peer_identity_address_type eb) (peer_identity_address eb) b' =
    (ErrorCode.SUCCESS, Some (GetAddress rpa)).
Proof.
  pose proof (resolving_list_other _ l1 ea l2 ltac:(rewrite <-Hea; apply Ha)) as Hoa.
  pose proof (resolving_list_other _ k1 eb k2 ltac:(rewrite <-Heb; apply Hb)) as Hob.
  unfold GenerateResolvablePrivateAddress in Hgenerate. set (is_peer := λ e : ResolvingListEntry, _ && _) in Hgenerate.
  assert (∀ e, is_peer e = resolving_list_match (peer_identity_address_type ea)
                             (peer_identity_address ea) e) as His.
  { intros e. unfold is_peer, resolving_list_match. subst peer.
    destruct (peer_identity_address_type ea) eqn:E; cbn; rewrite andb_comm;
      f_equal; apply bool_decide_ext; split; congruence. }
  assert (Forall (λ e, is_peer e = false) l1) as Hl1.
  { eapply Forall_impl; [exact Hoa|]. intros e. by rewrite His. }
  assert (is_peer ea = true) as Hme by (rewrite His; apply resolving_list_match_self).
  rewrite Hea, (find_first_app is_peer) in Hgenerate by done.
  unfold draw_rpa in Hgenerate. injection Hgenerate as Hrpa <-. subst rpa.
  set (x := generate_rpa _ _) in *. set (rpa := MkAddressWithType x _) in *.
  assert (IsRpaThatMatchesIrk rpa (peer_irk eb) = true) as Hm
    by (rewrite Hkey; apply generate_rpa_matches).
  unfold ResolvePrivateAddress in Hresolve.
  assert (IsRpa rpa = true) as Hr.
  { unfold IsRpaThatMatchesIrk in Hm. by destruct (IsRpa rpa). }
  rewrite Hr, Henabled, Heb in Hresolve. cbn [negb] in Hresolve.
  rewrite (find_first_app (λ e, IsRpaThatMatchesIrk rpa (peer_irk e))) in Hresolve by done.
  injection Hresolve as <- <-. split; [done|]. split.
  - unfold LeReadLocalResolvableAddress. cbn [le_resolving_list_ modify_field].
    rewrite Hea, (update_first_app is_peer) by done.
    rewrite find_first_weaken; [done|exact Hoa|apply (resolving_list_match_self ea)|done].
  - unfold LeReadPeerResolvableAddress. cbn [le_resolving_list_ modify_field].
    rewrite Heb, (update_first_app (λ e, IsRpaThatMatchesIrk rpa (peer_irk e))) by done.
    rewrite find_first_weaken; [done|exact Hob|apply (resolving_list_match_self eb)|done].
Qed.

(** *** Filter accept list *)

(** The entries that stand for a device. *)
Definition accept_count (t : FilterAcceptListAddressType.t) (a : Address) (c : LeController) : nat :=
  length (filter (λ e, filter_accept_list_match t a e = true) (le_filter_accept_list_ c)).

Lemma accept_count_contains t a c :
  LeFilterAcceptListContainsDevice t a c = true ↔ (0 < accept_count t a c)%nat.
Proof.
  unfold LeFilterAcceptListContainsDevice, accept_count. rewrite existsb_elem. split.
  - intros (e & Hin & He). destruct (filter _ _) eqn:E; [|simpl; lia].
    assert (e ∈ []) as []%elem_of_nil. rewrite <-E. apply list_elem_of_filter. by split.
  - intros Hlen. destruct (filter _ _) as [|e l] eqn:E; [simpl in Hlen; lia|].
    assert (e ∈ e :: l) as He by left. rewrite <-E in He. apply list_elem_of_filter in He.
    naive_solver.
Qed.

(** What the commands on the filter accept list do to a device (t, a): a
    successful addition of (u, b) adds one entry, to the devices it stands for;
    a removal, which succeeds whether the device is listed or not, takes one
    entry away, so a device added twice stays listed; clearing removes all.  The
    list is left alone by a command that fails. *)
Theorem filter_accept_list_count (t u : FilterAcceptListAddressType.t) (a b : Address)
    (c : LeController) :
  let added := LeAddDeviceToFilterAcceptList u b c in
  let removed := LeRemoveDeviceFromFilterAcceptList t a c in
  let cleared := LeClearFilterAcceptList c in
  (fst added = ErrorCode.SUCCESS →
   accept_count t a (snd added) = (accept_count t a c +
     (if filter_accept_list_match t a (MkFilterAcceptListEntry u b) then 1 else 0))%nat) ∧
  (fst removed = ErrorCode.SUCCESS → accept_count t a (snd removed) = (accept_count t a c - 1)%nat) ∧
  (fst cleared = ErrorCode.SUCCESS → accept_count t a (snd cleared) = 0%nat) ∧
  (fst added ≠ ErrorCode.SUCCESS → snd added = c) ∧
  (fst removed ≠ ErrorCode.SUCCESS → snd removed = c) ∧
  (fst cleared ≠ ErrorCode.SUCCESS → snd cleared = c).
Proof.
  cbv zeta. unfold LeAddDeviceToFilterAcceptList, LeRemoveDeviceFromFilterAcceptList,
    LeClearFilterAcceptList, accept_count.
  destruct (FilterAcceptListBusy c); cbn [fst snd]; [done|].
  split; [|split; [|split; [done|split; [|split; [|done]]]]].
  - case_match; cbn [fst snd]; [done|]. intros _. cbn. rewrite filter_app, length_app. f_equal.
    rewrite filter_cons, filter_nil. case_decide as E; [by rewrite E|].
    by apply not_true_is_false in E as ->.
  - intros _. destruct (remove_first _ _) as [l|] eqn:E; cbn.
    + apply remove_first_Some in E as (l1 & e & l2 & -> & -> & He & Hl1).
      rewrite !filter_app, filter_cons_True, !length_app by done. simpl. lia.
    + rewrite remove_first_None in E. destruct (filter _ _) as [|e l] eqn:Ef; [done|].
      assert (e ∈ e :: l) as He by left. rewrite <-Ef in He.
      apply list_elem_of_filter in He as [He Hin]. rewrite E in He by done. done.
  - case_match; done.
  - destruct (remove_first _ _); done.
Qed.

(** *** Busy lists *)

(** An advertiser, the scanner or the initiator selects peers with the filter
    accept list. *)
Definition uses_filter_accept_list (c : LeController) : Prop :=
  (LegacyAdvertiser.advertising_enable (legacy_advertiser_ c) = true ∧
   LegacyAdvertiser.advertising_filter_policy (legacy_advertiser_ c)
     ≠ AdvertisingFilterPolicy.ALL_DEVICES) ∨
  (∃ handle a, extended_advertisers_ c !! handle = Some a ∧
     ExtendedAdvertiser.advertising_enable a = true ∧
     ExtendedAdvertiser.advertising_filter_policy a ≠ AdvertisingFilterPolicy.ALL_DEVICES) ∨
  (Scanner.scan_enable (scanner_ c) = true ∧
   (Scanner.scan_filter_policy (scanner_ c) = LeScanningFilterPolicy.FILTER_ACCEPT_LIST_ONLY ∨
    Scanner.scan_filter_policy (scanner_ c)
      = LeScanningFilterPolicy.FILTER_ACCEPT_LIST_AND_INITIATORS_IDENTITY)) ∨
  (Initiator.connect_enable (initiator_ c) = true ∧
   Initiator.initiator_filter_policy (initiator_ c)
     = InitiatorFilterPolicy.USE_FILTER_ACCEPT_LIST_WITH_PEER_ADDRESS).

Definition uses_resolving_list (c : LeController) : Prop :=
  LegacyAdvertiser.advertising_enable (legacy_advertiser_ c) = true ∨
  (∃ handle a, extended_advertisers_ c !! handle = Some a ∧
     ExtendedAdvertiser.advertising_enable a = true) ∨
  Scanner.scan_enable (scanner_ c) = true ∨ Initiator.connect_enable (initiator_ c) = true.

Lemma if_orb (b c : bool) : (if b then true else c) = b || c.
Proof. by destruct b. Qed.

Lemma FilterAcceptListBusy_spec c : FilterAcceptListBusy c = true ↔ uses_filter_accept_list c.
Proof.
  unfold FilterAcceptListBusy, uses_filter_accept_list.
  rewrite !if_orb, orb_false_r, !orb_true_iff, !andb_true_iff, orb_true_iff, !bool_decide_eq_true.
  rewrite (existsb_iterate (λ a, ExtendedAdvertiser.IsEnabled a && _)).
  setoid_rewrite andb_true_iff. setoid_rewrite bool_decide_eq_true. done.
Qed.

Lemma ResolvingListBusy_spec c : ResolvingListBusy c = true ↔ uses_resolving_list c.
Proof.
  unfold ResolvingListBusy, uses_resolving_list.
  by rewrite !if_orb, orb_false_r, !orb_true_iff, (existsb_iterate ExtendedAdvertiser.IsEnabled).
Qed.

(** While a filter policy that uses the filter accept list is in effect, no
    command changes that list; while address resolution is enabled and the
    controller advertises, scans or initiates, no command changes the resolving
    list; each of them answers Command Disallowed, in whatever order the sets
    are visited.  The advertiser, the scanner and the initiator are idle when
    the enable flag of address resolution changes. *)
Theorem busy_lists (c : LeController) :
  (uses_filter_accept_list c ↔
   LeClearFilterAcceptList c = (ErrorCode.COMMAND_DISALLOWED, c) ∧
   (∀ t a, LeAddDeviceToFilterAcceptList t a c = (ErrorCode.COMMAND_DISALLOWED, c)) ∧
   (∀ t a, LeRemoveDeviceFromFilterAcceptList t a c = (ErrorCode.COMMAND_DISALLOWED, c))) ∧
  (le_resolving_list_enabled_ c = true ∧ uses_resolving_list c ↔
   LeClearResolvingList c = (ErrorCode.COMMAND_DISALLOWED, c) ∧
   (∀ t a p l, LeAddDeviceToResolvingList t a p l c = (ErrorCode.COMMAND_DISALLOWED, c)) ∧
   (∀ t a, LeRemoveDeviceFromResolvingList t a c = (ErrorCode.COMMAND_DISALLOWED, c)) ∧
   (∀ t a m, LeSetPrivacyMode t a m c = (ErrorCode.COMMAND_DISALLOWED, c))) ∧
  (∀ enable, fst (LeSetAddressResolutionEnable enable c) = ErrorCode.SUCCESS ↔ ¬ uses_resolving_list c).
Proof.
  rewrite <-FilterAcceptListBusy_spec, <-ResolvingListBusy_spec.
  unfold LeClearFilterAcceptList, LeAddDeviceToFilterAcceptList, LeRemoveDeviceFromFilterAcceptList,
    LeClearResolvingList, LeAddDeviceToResolvingList, LeRemoveDeviceFromResolvingList,
    LeSetPrivacyMode, LeSetAddressResolutionEnable.
  split; [|split].
  - destruct (FilterAcceptListBusy c); [done|]. split; [done|]. by intros [? _].
  - destruct (le_resolving_list_enabled_ c), (ResolvingListBusy c); cbn;
      (split; [naive_solver|intros [? _]; done]).
  - intros enable. rewrite <-ResolvingListBusy_spec.
    destruct (ResolvingListBusy c); cbn; split; (done || by intros Hn; destruct Hn).
Qed.

(** *** Host features *)

(** The flags of the host features are the bits of the feature mask. *)
Definition host_features_wf (c : LeController) : Prop :=
  bit (le_host_supported_features_ c) 32 = connected_isochronous_stream_host_support_ c ∧
  bit (le_host_supported_features_ c) 38 = connection_subrating_host_support_ c ∧
  bit (le_host_supported_features_ c) 47 = channel_sounding_host_support_ c.

Lemma bit_lor_shift z n m : 0 ≤ n → 0 ≤ m → bit (Z.lor z (Z.shiftl 1 n)) m = bit z m || (n =? m).
Proof.
  intros. unfold bit. by rewrite Z.lor_spec, Z.shiftl_1_l, Z.pow2_bits_eqb.
Qed.

Lemma bit_ldiff_shift z n m :
  0 ≤ n → 0 ≤ m → bit (Z.ldiff z (Z.shiftl 1 n)) m = bit z m && negb (n =? m).
Proof.
  intros. unfold bit. by rewrite Z.ldiff_spec, Z.shiftl_1_l, Z.pow2_bits_eqb.
Qed.

(** HCI_LE_Set_Host_Feature changes one bit of the feature mask, to the
    value given, exactly when it succeeds: for the three features the host
    controls, with no connection open; it keeps the flags in step with the
    mask, and changes nothing when it fails. *)
Theorem LeSetHostFeature_spec (n v : Z) (c : LeController) (Hn : 0 ≤ n) (Hv : 0 ≤ v)
    (Hc : host_features_wf c) :
  let '(status, c') := LeSetHostFeature n v c in
  (status = ErrorCode.SUCCESS ↔
     (n = 32 ∨ n = 38 ∨ n = 47) ∧ v ≤ 1 ∧ le_acl_connections_ (connections_ c) = ∅) ∧
  host_features_wf c' ∧
  (status = ErrorCode.SUCCESS →
   ∀ m, 0 ≤ m → bit (le_host_supported_features_ c') m =
     if m =? n then v =? 1 else bit (le_host_supported_features_ c) m) ∧
  (status ≠ ErrorCode.SUCCESS → c' = c).
Proof.
  unfold LeSetHostFeature. destruct (_ || _) eqn:Erange.
  { split; [|done]. split; [done|]. apply orb_true_iff in Erange as [?|?]; to_prop; lia. }
  to_prop. destruct (negb _) eqn:Eidle.
  { split; [|done]. split; [done|]. intros (_ & _ & He). exfalso. to_prop. apply Eidle.
    unfold GetLeAclHandles. rewrite He.
    assert (iterate (∅ : gmap Z LeAclConnection) = []) as ->; [|done].
    apply Permutation_nil. rewrite iterate_perm. by rewrite map_to_list_empty. }
  to_prop. assert (le_acl_connections_ (connections_ c) = ∅) as Hempty.
  { unfold GetLeAclHandles in Eidle. apply fmap_nil_inv in Eidle.
    apply map_to_list_empty_iff, Permutation_nil. by rewrite <-iterate_perm, Eidle. }
  assert (u64 (Z.shiftl 1 n) = Z.shiftl 1 n) as ->.
  { apply wrap_id. rewrite Z.shiftl_1_l. unfold fits. split; [lia|]. apply Z.pow_lt_mono_r; lia. }
  assert (∀ k, 0 ≤ k → (Z.shiftl 1 n =? 2 ^ k) = (n =? k)) as Hpow.
  { intros k Hk. rewrite Z.shiftl_1_l. destruct (n =? k) eqn:E; to_prop; [subst; apply Z.eqb_refl|].
    apply Z.eqb_neq. intros Hp. apply E. apply (Z.pow_inj_r 2); lia. }
  change (LLFeaturesBits.to_Z LLFeaturesBits.CONNECTED_ISOCHRONOUS_STREAM_HOST_SUPPORT) with (2 ^ 32).
  change (LLFeaturesBits.to_Z LLFeaturesBits.CONNECTION_SUBRATING_HOST_SUPPORT) with (2 ^ 38).
  change (LLFeaturesBits.to_Z LLFeaturesBits.CHANNEL_SOUNDING_HOST_SUPPORT) with (2 ^ 47).
  rewrite !Hpow by done.
  assert (∀ c', le_host_supported_features_ c' = le_host_supported_features_ c →
    ∀ m, 0 ≤ m →
    bit (le_host_supported_features_ (if negb (v =? 0)
       then c' <| le_host_supported_features_ ::= λ f, Z.lor f (Z.shiftl 1 n) |>
       else c' <| le_host_supported_features_ ::= λ f, Z.ldiff f (Z.shiftl 1 n) |>)) m =
    if m =? n then v =? 1 else bit (le_host_supported_features_ c) m) as Hbit.
  { intros c' Hf m Hm. assert (v = 0 ∨ v = 1) as [-> | ->] by lia; cbn; rewrite Hf.
    - rewrite bit_ldiff_shift, (Z.eqb_sym n) by lia. destruct (m =? n); cbn; [apply andb_false_r|apply andb_true_r].
    - rewrite bit_lor_shift, (Z.eqb_sym n) by lia. destruct (m =? n); cbn; [apply orb_true_r|apply orb_false_r]. }
  assert (negb (v =? 0) = (v =? 1)) as Hflag
    by (assert (v = 0 ∨ v = 1) as [-> | ->] by lia; done).
  destruct Hc as (Hiso & Hsub & Hcs).
  destruct (n =? 32) eqn:E1; to_prop; [|destruct (n =? 38) eqn:E2; to_prop;
    [|destruct (n =? 47) eqn:E3; to_prop]]; [subst n..|].
  4: { split; [split; [done|lia]|by split]. }
  all: split; [split; [intros _; repeat split; [tauto|lia|done]|done]|].
  all: split; [|split; [intros _; by apply Hbit|done]].
  all: unfold host_features_wf; rewrite !Hbit by done; cbn [Z.eqb Pos.eqb].
  all: destruct (negb (v =? 0)); cbn; by rewrite <-?Hflag.
Qed.
End Proofs.

#[export] Hint Resolve LeAddDeviceToResolvingList_wf LeRemoveDeviceFromResolvingList_wf
  LeClearResolvingList_wf LeSetPrivacyMode_wf ResolvePrivateAddress_wf
  GenerateResolvablePrivateAddress_wf LeClearFilterAcceptList_wf LeAddDeviceToFilterAcceptList_wf
  LeRemoveDeviceFromFilterAcceptList_wf LeAddDeviceToPeriodicAdvertiserList_wf
  LeRemoveDeviceFromPeriodicAdvertiserList_wf LeClearPeriodicAdvertiserList_wf : rc.

(** *** Examples *)

Lemma new_controller_lists_wf address p :
  0 ≤ le_resolving_list_size p → 0 ≤ le_filter_accept_list_size p →
  0 ≤ le_periodic_advertiser_list_size p → lists_wf (new_controller address p).
Proof. intros. constructor; [by apply resolving_list_wf_nil|done..|constructor]. Qed.

#[local] Existing Instance example_environment.

Definition example_address (n : Z) : Address := MkAddress n n n n n n.

(** A device with one peer in its resolving list. *)
Definition example_device (address peer : Z) (peer_irk local_irk : list Z) : LeController :=
  snd (LeAddDeviceToResolvingList PeerAddressType.PUBLIC_DEVICE_OR_IDENTITY_ADDRESS
         (example_address peer) peer_irk local_irk
         (new_controller (example_address address) example_properties)).

Lemma private_address_roundtrip_witness :
  let public := PeerAddressType.PUBLIC_DEVICE_OR_IDENTITY_ADDRESS in
  let a := example_device 1 2 (replicate 16 7) (replicate 16 9) in
  let b := snd (LeSetAddressResolutionEnable true
                  (example_device 2 1 (replicate 16 9) (replicate 16 7))) in
  let generated :=
    GenerateResolvablePrivateAddress (PeerDeviceAddress (example_address 2) public) Local a in
  let rpa := default empty_address (fst generated) in
  let resolved := ResolvePrivateAddress rpa b in
  fst resolved = Some (PeerDeviceAddress (example_address 1) public) ∧
  LeReadLocalResolvableAddress public (example_address 2) (snd generated) =
    (ErrorCode.SUCCESS, Some (GetAddress rpa)) ∧
  LeReadPeerResolvableAddress public (example_address 1) (snd resolved) =
    (ErrorCode.SUCCESS, Some (GetAddress rpa)).
Proof.
  assert (∀ n m k l, lists_wf (example_device n m k l)) as Hwf.
  { intros. apply LeAddDeviceToResolvingList_wf. by apply new_controller_lists_wf. }
  intros public a b generated rpa resolved.
  apply (private_address_roundtrip a b (snd generated) (snd resolved)
    (PeerDeviceAddress (example_address 2) public) rpa
    (MkResolvingListEntry public (example_address 2) (replicate 16 7) (replicate 16 9)
       PrivacyMode.NETWORK None None)
    (MkResolvingListEntry public (example_address 1) (replicate 16 9) (replicate 16 7)
       PrivacyMode.NETWORK None None) (fst resolved) [] [] [] []);
    try (vm_compute; reflexivity); [apply Hwf| |by constructor].
  by apply (lists_wf_frame (example_device 2 1 (replicate 16 9) (replicate 16 7))).
Defined.

Lemma LeSetHostFeature_spec_witness :
  let c := new_controller (example_address 1) example_properties in
  let '(status, c') := LeSetHostFeature 47 1 c in
  (status = ErrorCode.SUCCESS ↔
     (47 = 32 ∨ 47 = 38 ∨ 47 = 47) ∧ 1 ≤ 1 ∧ le_acl_connections_ (connections_ c) = ∅) ∧
  host_features_wf c' ∧
  (status = ErrorCode.SUCCESS →
   ∀ m, 0 ≤ m → bit (le_host_supported_features_ c') m =
     if m =? 47 then 1 =? 1 else bit (le_host_supported_features_ c) m) ∧
  (status ≠ ErrorCode.SUCCESS → c' = c).
Proof.
  apply (LeSetHostFeature_spec 47 1 (new_controller (example_address 1) example_properties));
    [lia|lia|by repeat split].
Defined.
