(* ===== verification/LeAdvertiser.v ===== *)
(** * Advertising (le_advertiser.cc)

    The legacy, extended and periodic advertising commands, and the routine the
    clock runs, which sends the advertising PDUs. *)

From S2P Require Import Prelude HciTypes Properties Address Connections LeState LeLists.

Definition adv_direct_ind_high_timeout : Z := milliseconds 1280.
Definition adv_direct_ind_high_interval : Z := milliseconds 10.

(** [std::vector::empty]. *)
Definition is_empty {A} (l : list A) : bool := match l with [] => true | _ => false end.

(** [advertising_data_] as the host sends it, and one entry of
    HCI_LE_Set_Extended_Advertising_Enable. *)
Record EnabledSet := MkEnabledSet {
  advertising_handle_ : Z;
  duration_ : Z;
  max_extended_advertising_events_ : Z;
}.

Section Advertising.
Context {env : Environment}.

(** ** Legacy advertising commands *)

Definition LeSetAdvertisingParameters (advertising_interval_min advertising_interval_max : Z)
    (advertising_type : AdvertisingType.t) (own_address_type : OwnAddressType.t)
    (peer_address_type : PeerAddressType.t) (peer_address : Address)
    (advertising_channel_map : Z) (advertising_filter_policy : AdvertisingFilterPolicy.t)
    (c : LeController) : reply :=
  let '(selected, c) := SelectLegacyAdvertising c in
  if negb selected then (ErrorCode.COMMAND_DISALLOWED, c)
  else
    let advertising_channel_map := Z.land advertising_channel_map 0x7 in
    let high := bool_decide (advertising_type = AdvertisingType.ADV_DIRECT_IND_HIGH) in
    let advertising_interval_min := if high then 0x800 else advertising_interval_min in
    let advertising_interval_max := if high then 0x800 else advertising_interval_max in
    if LegacyAdvertiser.advertising_enable (legacy_advertiser_ c)
    then (ErrorCode.COMMAND_DISALLOWED, c)
    else if advertising_channel_map =? 0
    then (ErrorCode.INVALID_HCI_COMMAND_PARAMETERS, c)
    else if (advertising_interval_min <? 0x0020) || (0x4000 <? advertising_interval_min) ||
       (advertising_interval_max <? 0x0020) || (0x4000 <? advertising_interval_max)
    then (ErrorCode.UNSUPPORTED_FEATURE_OR_PARAMETER_VALUE, c)
    else if advertising_interval_max <? advertising_interval_min
    then (ErrorCode.INVALID_HCI_COMMAND_PARAMETERS, c)
    else
      (ErrorCode.SUCCESS,
       c <| legacy_advertiser_ ::= λ a, a
              <| LegacyAdvertiser.advertising_interval :=
                   if high then adv_direct_ind_high_interval / slots 1
                   else advertising_interval_min |>
              <| LegacyAdvertiser.advertising_type := advertising_type |>
              <| LegacyAdvertiser.own_address_type := own_address_type |>
              <| LegacyAdvertiser.peer_address_type := peer_address_type |>
              <| LegacyAdvertiser.peer_address := peer_address |>
              <| LegacyAdvertiser.advertising_channel_map := advertising_channel_map |>
              <| LegacyAdvertiser.advertising_filter_policy := advertising_filter_policy |> |>).

Definition LeSetAdvertisingData (advertising_data : list Z) (c : LeController) : reply :=
  let '(selected, c) := SelectLegacyAdvertising c in
  if negb selected then (ErrorCode.COMMAND_DISALLOWED, c)
  else (ErrorCode.SUCCESS, c <| legacy_advertiser_ ::= λ a,
                             a <| LegacyAdvertiser.advertising_data := advertising_data |> |>).

Definition LeSetScanResponseData (scan_response_data : list Z) (c : LeController) : reply :=
  let '(selected, c) := SelectLegacyAdvertising c in
  if negb selected then (ErrorCode.COMMAND_DISALLOWED, c)
  else (ErrorCode.SUCCESS, c <| legacy_advertiser_ ::= λ a,
                             a <| LegacyAdvertiser.scan_response_data := scan_response_data |> |>).

(** The switch on the own address type, common to the legacy and the extended
    advertisers: the advertising address, or none when the random address it
    asks for is not initialized. *)
Definition select_advertising_address (own_address_type : OwnAddressType.t)
    (public_address random_address : AddressWithType) (resolvable_address : option AddressWithType)
  : option AddressWithType :=
  let random :=
    if bool_decide (GetAddress random_address = kEmpty) then None else Some random_address in
  match own_address_type with
  | OwnAddressType.PUBLIC_DEVICE_ADDRESS => Some public_address
  | OwnAddressType.RANDOM_DEVICE_ADDRESS => random
  | OwnAddressType.RESOLVABLE_OR_PUBLIC_ADDRESS => Some (default public_address resolvable_address)
  | OwnAddressType.RESOLVABLE_OR_RANDOM_ADDRESS =>
      match resolvable_address with Some a => Some a | None => random end
  end.

Definition LeSetAdvertisingEnable (now : Z) (advertising_enable : bool) (c : LeController) : reply :=
  let '(selected, c) := SelectLegacyAdvertising c in
  if negb selected then (ErrorCode.COMMAND_DISALLOWED, c)
  else if negb advertising_enable
  then (ErrorCode.SUCCESS, c <| legacy_advertiser_ ::= LegacyAdvertiser.Disable |>)
  else
    let advertiser := legacy_advertiser_ c in
    let peer_address := PeerDeviceAddress (LegacyAdvertiser.peer_address advertiser)
                          (LegacyAdvertiser.peer_address_type advertiser) in
    let public_address := MkAddressWithType (address_ c) AddressType.PUBLIC_DEVICE_ADDRESS in
    let random_address := MkAddressWithType (random_address_ c) AddressType.RANDOM_DEVICE_ADDRESS in
    let '(resolvable_address, c) := GenerateResolvablePrivateAddress peer_address Local c in
    match select_advertising_address (LegacyAdvertiser.own_address_type advertiser)
            public_address random_address resolvable_address with
    | None => (ErrorCode.INVALID_HCI_COMMAND_PARAMETERS, c)
    | Some advertising_address =>
        let '(timeout, target_address, c) :=
          match LegacyAdvertiser.advertising_type advertiser with
          | AdvertisingType.ADV_DIRECT_IND_HIGH =>
              let '(peer_resolvable_address, c) :=
                GenerateResolvablePrivateAddress peer_address Peer c in
              (Some (now + adv_direct_ind_high_timeout),
               default peer_address peer_resolvable_address, c)
          | AdvertisingType.ADV_DIRECT_IND_LOW =>
              let '(peer_resolvable_address, c) :=
                GenerateResolvablePrivateAddress peer_address Peer c in
              (None, default peer_address peer_resolvable_address, c)
          | _ => (None, empty_address, c)
          end in
        (ErrorCode.SUCCESS,
         c <| legacy_advertiser_ ::= λ a, a
                <| LegacyAdvertiser.advertising_address := advertising_address |>
                <| LegacyAdvertiser.timeout := timeout |>
                <| LegacyAdvertiser.target_address := target_address |>
                <| LegacyAdvertiser.advertising_enable := true |>
                <| LegacyAdvertiser.next_event :=
                     now + slots (LegacyAdvertiser.advertising_interval advertiser) |> |>)
    end.

(** ** Extended advertising commands *)

(** [extended_advertisers_[handle]] of an existing set, replaced. *)
Definition set_advertiser (handle : Z) (a : ExtendedAdvertiser) (c : LeController) : LeController :=
  c <| extended_advertisers_ ::= <[handle := a]> |>.

Definition LeSetAdvertisingSetRandomAddress (advertising_handle : Z) (random_address : Address)
    (c : LeController) : reply :=
  match extended_advertisers_ c !! advertising_handle with
  | None => (ErrorCode.UNKNOWN_ADVERTISING_IDENTIFIER, c)
  | Some advertiser =>
      if ExtendedAdvertiser.advertising_enable advertiser
      then (ErrorCode.COMMAND_DISALLOWED, c)
      else (ErrorCode.SUCCESS,
            set_advertiser advertising_handle
              (advertiser <| ExtendedAdvertiser.random_address := Some random_address |>) c)
  end.

(** The values of Table 7.2. *)
Definition legacy_event_properties : list LegacyAdvertisingEventProperties.t :=
  [LegacyAdvertisingEventProperties.ADV_IND; LegacyAdvertisingEventProperties.ADV_DIRECT_IND_LOW;
   LegacyAdvertisingEventProperties.ADV_DIRECT_IND_HIGH;
   LegacyAdvertisingEventProperties.ADV_SCAN_IND; LegacyAdvertisingEventProperties.ADV_NONCONN_IND].

Definition can_have_advertising_data (p : AdvertisingEventProperties) : bool :=
  (legacy_ p && negb (directed_ p)) || (negb (legacy_ p) && negb (scannable_ p)).

(** The checks of HCI_LE_Set_Extended_Advertising_Parameters on the set the
    parameters are for, in their order: the error of the first that fails. *)
Definition check_advertising_parameters (advertiser : ExtendedAdvertiser)
    (p : AdvertisingEventProperties)
    (primary_advertising_interval_min primary_advertising_interval_max : Z)
    (primary_advertising_channel_map : Z) (primary_advertising_phy : PrimaryPhyType.t)
    (secondary_advertising_phy : SecondaryPhyType.t) : option ErrorCode.t :=
  let legacy_advertising := legacy_ p in
  let extended_advertising := negb (legacy_ p) in
  let raw := ExtendedAdvertiser.GetRawAdvertisingEventProperties p in
  let advertising_data := ExtendedAdvertiser.advertising_data advertiser in
  let scan_response_data := ExtendedAdvertiser.scan_response_data advertiser in
  if ExtendedAdvertiser.advertising_enable advertiser then Some ErrorCode.COMMAND_DISALLOWED
  else if legacy_advertising &&
     forallb (λ t, negb (Z.ldiff raw 0x10 =? LegacyAdvertisingEventProperties.to_Z t))
       legacy_event_properties
  then Some ErrorCode.INVALID_HCI_COMMAND_PARAMETERS
  else if negb (can_have_advertising_data p) && negb (is_empty advertising_data)
  then Some ErrorCode.INVALID_HCI_COMMAND_PARAMETERS
  else if negb (scannable_ p) && negb (is_empty scan_response_data)
  then Some ErrorCode.INVALID_HCI_COMMAND_PARAMETERS
  else if legacy_advertising &&
     ((max_legacy_advertising_pdu_size <? zlength advertising_data) ||
      (max_legacy_advertising_pdu_size <? zlength scan_response_data))
  then Some ErrorCode.INVALID_HCI_COMMAND_PARAMETERS
  else if extended_advertising && connectable_ p && scannable_ p
  then Some ErrorCode.INVALID_HCI_COMMAND_PARAMETERS
  else if extended_advertising && connectable_ p && directed_ p && high_duty_cycle_ p
  then Some ErrorCode.INVALID_HCI_COMMAND_PARAMETERS
  else if (primary_advertising_interval_min <? 0x20) || (primary_advertising_interval_max <? 0x20)
  then Some ErrorCode.UNSUPPORTED_FEATURE_OR_PARAMETER_VALUE
  else if primary_advertising_interval_max <? primary_advertising_interval_min
  then Some ErrorCode.INVALID_HCI_COMMAND_PARAMETERS
  else if primary_advertising_channel_map =? 0
  then Some ErrorCode.INVALID_HCI_COMMAND_PARAMETERS
  else if legacy_advertising && bool_decide (primary_advertising_phy ≠ PrimaryPhyType.LE_1M)
  then Some ErrorCode.INVALID_HCI_COMMAND_PARAMETERS
  else if ExtendedAdvertiser.constant_tone_extensions advertiser &&
     bool_decide (secondary_advertising_phy = SecondaryPhyType.LE_CODED)
  then Some ErrorCode.COMMAND_DISALLOWED
  else if ExtendedAdvertiser.periodic_advertising_enable advertiser &&
     (connectable_ p || scannable_ p || legacy_advertising || anonymous_ p)
  then Some ErrorCode.INVALID_HCI_COMMAND_PARAMETERS
  else if extended_advertising &&
     ((max_extended_advertising_pdu_size <? zlength advertising_data) ||
      (max_extended_advertising_pdu_size <? zlength scan_response_data))
  then Some ErrorCode.PACKET_TOO_LONG
  else None.

Definition LeSetExtendedAdvertisingParameters (advertising_handle : Z)
    (p : AdvertisingEventProperties)
    (primary_advertising_interval_min primary_advertising_interval_max : Z)
    (primary_advertising_channel_map : Z) (own_address_type : OwnAddressType.t)
    (peer_address_type : PeerAddressType.t) (peer_address : Address)
    (advertising_filter_policy : AdvertisingFilterPolicy.t) (advertising_tx_power : Z)
    (primary_advertising_phy : PrimaryPhyType.t) (secondary_max_skip : Z)
    (secondary_advertising_phy : SecondaryPhyType.t) (advertising_sid : Z)
    (scan_request_notification_enable : bool) (c : LeController) : reply :=
  let '(selected, c) := SelectExtendedAdvertising c in
  if negb selected then (ErrorCode.COMMAND_DISALLOWED, c)
  else
    let primary_advertising_channel_map := Z.land primary_advertising_channel_map 0x7 in
    let advertiser :=
      match extended_advertisers_ c !! advertising_handle with
      | None =>
          if le_num_supported_advertising_sets (properties_ c)
             <=? Z.of_nat (size (extended_advertisers_ c))
          then None else Some (ExtendedAdvertiser.new advertising_handle)
      | Some advertiser => Some advertiser
      end in
    match advertiser with
    | None => (ErrorCode.MEMORY_CAPACITY_EXCEEDED, c)
    | Some advertiser =>
        match check_advertising_parameters advertiser p primary_advertising_interval_min
                primary_advertising_interval_max primary_advertising_channel_map
                primary_advertising_phy secondary_advertising_phy with
        | Some status => (status, c)
        | None =>
            (ErrorCode.SUCCESS,
             set_advertiser advertising_handle
               (advertiser
                  <| ExtendedAdvertiser.advertising_event_properties := p |>
                  <| ExtendedAdvertiser.primary_advertising_interval :=
                       primary_advertising_interval_min |>
                  <| ExtendedAdvertiser.primary_advertising_channel_map :=
                       primary_advertising_channel_map |>
                  <| ExtendedAdvertiser.own_address_type := own_address_type |>
                  <| ExtendedAdvertiser.peer_address_type := peer_address_type |>
                  <| ExtendedAdvertiser.peer_address := peer_address |>
                  <| ExtendedAdvertiser.advertising_filter_policy := advertising_filter_policy |>
                  <| ExtendedAdvertiser.advertising_tx_power := advertising_tx_power |>
                  <| ExtendedAdvertiser.primary_advertising_phy := Some primary_advertising_phy |>
                  <| ExtendedAdvertiser.secondary_max_skip := secondary_max_skip |>
                  <| ExtendedAdvertiser.secondary_advertising_phy := secondary_advertising_phy |>
                  <| ExtendedAdvertiser.advertising_sid := advertising_sid |>
                  <| ExtendedAdvertiser.scan_request_notification_enable :=
                       scan_request_notification_enable |>) c)
        end
    end.

Definition is_op (o o' : Operation.t) : bool := bool_decide (o = o').

(** The switch that assembles the fragments, the same for the three kinds of
    data: the data and the partial flag after an operation. *)
Definition assemble (operation : Operation.t) (data : list Z) (old : list Z) (partial : bool)
  : list Z * bool :=
  match operation with
  | Operation.INTERMEDIATE_FRAGMENT => (old ++ data, true)
  | Operation.FIRST_FRAGMENT => (data, true)
  | Operation.LAST_FRAGMENT => (old ++ data, false)
  | Operation.COMPLETE_ADVERTISEMENT => (data, false)
  | Operation.UNCHANGED_DATA => (old, partial)
  end.

Definition check_advertising_data (a : ExtendedAdvertiser) (operation : Operation.t)
    (advertising_data : list Z) : option ErrorCode.t :=
  let p := ExtendedAdvertiser.advertising_event_properties a in
  if negb (can_have_advertising_data p) then Some ErrorCode.INVALID_HCI_COMMAND_PARAMETERS
  else if legacy_ p && (negb (is_op operation Operation.COMPLETE_ADVERTISEMENT) ||
                        (max_legacy_advertising_pdu_size <? zlength advertising_data))
  then Some ErrorCode.INVALID_HCI_COMMAND_PARAMETERS
  else if is_op operation Operation.UNCHANGED_DATA &&
     (negb (ExtendedAdvertiser.advertising_enable a) ||
      is_empty (ExtendedAdvertiser.advertising_data a) || legacy_ p ||
      negb (is_empty advertising_data))
  then Some ErrorCode.INVALID_HCI_COMMAND_PARAMETERS
  else if negb (is_op operation Operation.COMPLETE_ADVERTISEMENT) &&
     negb (is_op operation Operation.UNCHANGED_DATA) && is_empty advertising_data
  then Some ErrorCode.INVALID_HCI_COMMAND_PARAMETERS
  else if ExtendedAdvertiser.advertising_enable a &&
     negb (is_op operation Operation.COMPLETE_ADVERTISEMENT) &&
     negb (is_op operation Operation.UNCHANGED_DATA)
  then Some ErrorCode.COMMAND_DISALLOWED
  else None.

Definition LeSetExtendedAdvertisingData (advertising_handle : Z) (operation : Operation.t)
    (fragment_preference : FragmentPreference.t) (advertising_data : list Z)
    (c : LeController) : reply :=
  let '(selected, c) := SelectExtendedAdvertising c in
  if negb selected then (ErrorCode.COMMAND_DISALLOWED, c)
  else
    match extended_advertisers_ c !! advertising_handle with
    | None => (ErrorCode.UNKNOWN_ADVERTISING_IDENTIFIER, c)
    | Some a =>
        match check_advertising_data a operation advertising_data with
        | Some status => (status, c)
        | None =>
            let '(data, partial) := assemble operation advertising_data
              (ExtendedAdvertiser.advertising_data a)
              (ExtendedAdvertiser.partial_advertising_data a) in
            let store data partial :=
              set_advertiser advertising_handle
                (a <| ExtendedAdvertiser.advertising_data := data |>
                   <| ExtendedAdvertiser.partial_advertising_data := partial |>) c in
            if le_max_advertising_data_length (properties_ c) <? zlength data
            then (ErrorCode.MEMORY_CAPACITY_EXCEEDED, store [] false)
            else if ExtendedAdvertiser.advertising_enable a &&
               (ExtendedAdvertiser.GetMaxAdvertisingDataLength
                  (ExtendedAdvertiser.advertising_event_properties a) <? zlength data)
            then (ErrorCode.PACKET_TOO_LONG, store [] false)
            else (ErrorCode.SUCCESS, store data partial)
        end
    end.

Definition check_scan_response_data (a : ExtendedAdvertiser) (operation : Operation.t)
    (scan_response_data : list Z) : option ErrorCode.t :=
  let p := ExtendedAdvertiser.advertising_event_properties a in
  if negb (scannable_ p) && negb (is_empty scan_response_data)
  then Some ErrorCode.INVALID_HCI_COMMAND_PARAMETERS
  else if scannable_ p && legacy_ p &&
     (negb (is_op operation Operation.COMPLETE_ADVERTISEMENT) ||
      (max_legacy_advertising_pdu_size <? zlength scan_response_data))
  then Some ErrorCode.INVALID_HCI_COMMAND_PARAMETERS
  else if negb (is_op operation Operation.COMPLETE_ADVERTISEMENT) && is_empty scan_response_data
  then Some ErrorCode.INVALID_HCI_COMMAND_PARAMETERS
  else if ExtendedAdvertiser.advertising_enable a &&
     negb (is_op operation Operation.COMPLETE_ADVERTISEMENT)
  then Some ErrorCode.COMMAND_DISALLOWED
  else if ExtendedAdvertiser.advertising_enable a && scannable_ p && negb (legacy_ p) &&
     is_empty scan_response_data
  then Some ErrorCode.COMMAND_DISALLOWED
  else if is_op operation Operation.UNCHANGED_DATA
  then Some ErrorCode.INVALID_HCI_COMMAND_PARAMETERS
  else None.

Definition LeSetExtendedScanResponseData (advertising_handle : Z) (operation : Operation.t)
    (fragment_preference : FragmentPreference.t) (scan_response_data : list Z)
    (c : LeController) : reply :=
  let '(selected, c) := SelectExtendedAdvertising c in
  if negb selected then (ErrorCode.COMMAND_DISALLOWED, c)
  else
    match extended_advertisers_ c !! advertising_handle with
    | None => (ErrorCode.UNKNOWN_ADVERTISING_IDENTIFIER, c)
    | Some a =>
        match check_scan_response_data a operation scan_response_data with
        | Some status => (status, c)
        | None =>
            let '(data, partial) := assemble operation scan_response_data
              (ExtendedAdvertiser.scan_response_data a)
              (ExtendedAdvertiser.partial_scan_response_data a) in
            let store data partial :=
              set_advertiser advertising_handle
                (a <| ExtendedAdvertiser.scan_response_data := data |>
                   <| ExtendedAdvertiser.partial_scan_response_data := partial |>) c in
            if le_max_advertising_data_length (properties_ c) <? zlength data
            then (ErrorCode.MEMORY_CAPACITY_EXCEEDED, store [] false)
            else if max_extended_advertising_pdu_size <? zlength data
            then (ErrorCode.PACKET_TOO_LONG, store [] false)
            else (ErrorCode.SUCCESS, store data partial)
        end
    end.

(** *** HCI_LE_Set_Extended_Advertising_Enable *)

(** [std::array<bool, UINT8_MAX>] has 255 elements: the index 255 is out of
    range. *)
Definition used_handles : Type := gset Z.
Definition read_used (used : used_handles) (handle : Z) : outcome bool :=
  if handle <? 255 then Ok (bool_decide (handle ∈ used)) else Undef.

(** The validation of the advertising handles. *)
Fixpoint check_handles (used : used_handles) (sets : list EnabledSet)
    (advertisers : gmap Z ExtendedAdvertiser) : outcome (option ErrorCode.t) :=
  match sets with
  | [] => Ok None
  | set :: sets =>
      let handle := advertising_handle_ set in
      seen ← read_used used handle;
      if (seen : bool) then Ok (Some ErrorCode.INVALID_HCI_COMMAND_PARAMETERS)
      else match advertisers !! handle with
           | None => Ok (Some ErrorCode.UNKNOWN_ADVERTISING_IDENTIFIER)
           | Some _ => check_handles ({[handle]} ∪ used) sets advertisers
           end
  end.

(** The checks on one set before it is enabled. *)
Definition check_enable (a : ExtendedAdvertiser) (set : EnabledSet) : option ErrorCode.t :=
  let p := ExtendedAdvertiser.advertising_event_properties a in
  let extended_advertising := negb (legacy_ p) in
  let advertising_data := ExtendedAdvertiser.advertising_data a in
  let scan_response_data := ExtendedAdvertiser.scan_response_data a in
  let duration := milliseconds (duration_ set * 10) in
  if connectable_ p && directed_ p && high_duty_cycle_ p &&
     ((duration_ set =? 0) || (adv_direct_ind_high_timeout <? duration))
  then Some ErrorCode.INVALID_HCI_COMMAND_PARAMETERS
  else if ExtendedAdvertiser.partial_advertising_data a ||
     ExtendedAdvertiser.partial_scan_response_data a
  then Some ErrorCode.COMMAND_DISALLOWED
  else if extended_advertising && scannable_ p && is_empty scan_response_data
  then Some ErrorCode.COMMAND_DISALLOWED
  else if extended_advertising && connectable_ p &&
     (ExtendedAdvertiser.GetMaxAdvertisingDataLength p <? zlength advertising_data)
  then Some ErrorCode.INVALID_HCI_COMMAND_PARAMETERS
  else if extended_advertising &&
     ((max_extended_advertising_pdu_size <? zlength advertising_data) ||
      (max_extended_advertising_pdu_size <? zlength scan_response_data))
  then Some ErrorCode.PACKET_TOO_LONG
  else None.

(** The body of the loop that validates the sets and chooses their addresses. *)
Definition prepare_set (set : EnabledSet) (c : LeController) : option ErrorCode.t * LeController :=
  let handle := advertising_handle_ set in
  match extended_advertisers_ c !! handle with
  | None => (None, c)
  | Some a =>
      match check_enable a set with
      | Some status => (Some status, c)
      | None =>
          let peer_address := PeerDeviceAddress (ExtendedAdvertiser.peer_address a)
                                (ExtendedAdvertiser.peer_address_type a) in
          let public_address :=
            MkAddressWithType (address_ c) AddressType.PUBLIC_DEVICE_ADDRESS in
          let random_address :=
            MkAddressWithType (default kEmpty (ExtendedAdvertiser.random_address a))
              AddressType.RANDOM_DEVICE_ADDRESS in
          let '(resolvable_address, c) := GenerateResolvablePrivateAddress peer_address Local c in
          match select_advertising_address (ExtendedAdvertiser.own_address_type a)
                  public_address random_address resolvable_address with
          | None => (Some ErrorCode.INVALID_HCI_COMMAND_PARAMETERS, c)
          | Some advertising_address =>
              let a := a <| ExtendedAdvertiser.advertising_address := advertising_address |> in
              let '(a, c) :=
                if ExtendedAdvertiser.IsDirected a then
                  let '(target, c) := GenerateResolvablePrivateAddress peer_address Peer c in
                  (a <| ExtendedAdvertiser.target_address := default peer_address target |>, c)
                else (a, c) in
              (None, set_advertiser handle a c)
          end
      end
  end.

Fixpoint prepare_sets (sets : list EnabledSet) (c : LeController)
  : option ErrorCode.t * LeController :=
  match sets with
  | [] => (None, c)
  | set :: sets =>
      match prepare_set set c with
      | (Some status, c) => (Some status, c)
      | (None, c) => prepare_sets sets c
      end
  end.

(** The body of the loop that enables the sets. *)
Definition enable_set (now : Z) (set : EnabledSet) (a : ExtendedAdvertiser) : ExtendedAdvertiser :=
  let a := a <| ExtendedAdvertiser.max_extended_advertising_events :=
                  max_extended_advertising_events_ set |>
             <| ExtendedAdvertiser.num_completed_extended_advertising_events := 0 |> in
  let a := ExtendedAdvertiser.Enable now a in
  if 0 <? duration_ set
  then a <| ExtendedAdvertiser.timeout := Some (now + milliseconds (duration_ set * 10)) |>
  else a <| ExtendedAdvertiser.timeout := None |>.

(** [for (auto& set : sets) f(extended_advertisers_[set.advertising_handle_])],
    for sets that exist. *)
Definition update_sets (f : EnabledSet → ExtendedAdvertiser → ExtendedAdvertiser)
    (sets : list EnabledSet) (c : LeController) : LeController :=
  foldl (λ c set, c <| extended_advertisers_ ::= alter (f set) (advertising_handle_ set) |>) c sets.

Definition LeSetExtendedAdvertisingEnable (now : Z) (enable : bool) (sets : list EnabledSet)
    (c : LeController) : outcome reply :=
  let '(selected, c) := SelectExtendedAdvertising c in
  if negb selected then Ok (ErrorCode.COMMAND_DISALLOWED, c)
  else
    invalid ← check_handles ∅ sets (extended_advertisers_ c);
    match invalid with
    | Some status => Ok (status, c)
    | None =>
        if negb enable && is_empty sets
        then Ok (ErrorCode.SUCCESS, c <| extended_advertisers_ ::= fmap ExtendedAdvertiser.Disable |>)
        else if is_empty sets then Ok (ErrorCode.INVALID_HCI_COMMAND_PARAMETERS, c)
        else if negb enable
        then Ok (ErrorCode.SUCCESS, update_sets (λ _, ExtendedAdvertiser.Disable) sets c)
        else
          match prepare_sets sets c with
          | (Some status, c) => Ok (status, c)
          | (None, c) => Ok (ErrorCode.SUCCESS, update_sets (enable_set now) sets c)
          end
    end.

Definition LeRemoveAdvertisingSet (advertising_handle : Z) (c : LeController) : reply :=
  match extended_advertisers_ c !! advertising_handle with
  | None => (ErrorCode.UNKNOWN_ADVERTISING_IDENTIFIER, c)
  | Some advertiser =>
      if ExtendedAdvertiser.advertising_enable advertiser
      then (ErrorCode.COMMAND_DISALLOWED, c)
      else (ErrorCode.SUCCESS, c <| extended_advertisers_ ::= delete advertising_handle |>)
  end.

Definition LeClearAdvertisingSets (c : LeController) : reply :=
  if existsb (λ '(_, advertiser), ExtendedAdvertiser.advertising_enable advertiser)
       (iterate (extended_advertisers_ c))
  then (ErrorCode.COMMAND_DISALLOWED, c)
  else (ErrorCode.SUCCESS, c <| extended_advertisers_ := ∅ |>).

(** ** Periodic advertising commands *)

(** The advertising set specifies scannable, connectable, legacy or anonymous
    advertising. *)
Definition not_periodic (p : AdvertisingEventProperties) : bool :=
  connectable_ p || scannable_ p || legacy_ p || anonymous_ p.

Definition LeSetPeriodicAdvertisingParameters (advertising_handle : Z)
    (periodic_advertising_interval_min periodic_advertising_interval_max : Z)
    (include_tx_power : bool) (c : LeController) : reply :=
  match extended_advertisers_ c !! advertising_handle with
  | None => (ErrorCode.UNKNOWN_ADVERTISING_IDENTIFIER, c)
  | Some a =>
      if (periodic_advertising_interval_min <? 0x6) || (periodic_advertising_interval_max <? 0x6) ||
         (periodic_advertising_interval_max <? periodic_advertising_interval_min)
      then (ErrorCode.INVALID_HCI_COMMAND_PARAMETERS, c)
      else if not_periodic (ExtendedAdvertiser.advertising_event_properties a)
      then (ErrorCode.INVALID_HCI_COMMAND_PARAMETERS, c)
      else if ExtendedAdvertiser.periodic_advertising_enable a
      then (ErrorCode.COMMAND_DISALLOWED, c)
      else if ExtendedAdvertiser.GetMaxPeriodicAdvertisingDataLength
                periodic_advertising_interval_max
              <? zlength (ExtendedAdvertiser.periodic_advertising_data a)
      then (ErrorCode.PACKET_TOO_LONG, c)
      else (ErrorCode.SUCCESS,
            set_advertiser advertising_handle
              (a <| ExtendedAdvertiser.periodic_advertising_interval :=
                      periodic_advertising_interval_max |>) c)
  end.

Definition check_periodic_advertising_data (a : ExtendedAdvertiser) (operation : Operation.t)
    (advertising_data : list Z) : option ErrorCode.t :=
  let keeps := is_op operation Operation.COMPLETE_ADVERTISEMENT ||
               is_op operation Operation.UNCHANGED_DATA in
  if ExtendedAdvertiser.periodic_advertising_interval a =? 0
  then Some ErrorCode.COMMAND_DISALLOWED
  else if ExtendedAdvertiser.periodic_advertising_enable a && negb keeps
  then Some ErrorCode.COMMAND_DISALLOWED
  else if is_empty advertising_data && negb keeps
  then Some ErrorCode.INVALID_HCI_COMMAND_PARAMETERS
  else if is_op operation Operation.UNCHANGED_DATA &&
     (negb (ExtendedAdvertiser.periodic_advertising_enable a) ||
      is_empty (ExtendedAdvertiser.periodic_advertising_data a) ||
      negb (is_empty advertising_data))
  then Some ErrorCode.INVALID_HCI_COMMAND_PARAMETERS
  else None.

Definition LeSetPeriodicAdvertisingData (advertising_handle : Z) (operation : Operation.t)
    (advertising_data : list Z) (c : LeController) : reply :=
  match extended_advertisers_ c !! advertising_handle with
  | None => (ErrorCode.UNKNOWN_ADVERTISING_IDENTIFIER, c)
  | Some a =>
      match check_periodic_advertising_data a operation advertising_data with
      | Some status => (status, c)
      | None =>
          let '(data, partial) := assemble operation advertising_data
            (ExtendedAdvertiser.periodic_advertising_data a)
            (ExtendedAdvertiser.partial_periodic_advertising_data a) in
          let store data partial :=
            set_advertiser advertising_handle
              (a <| ExtendedAdvertiser.periodic_advertising_data := data |>
                 <| ExtendedAdvertiser.partial_periodic_advertising_data := partial |>) c in
          if le_max_advertising_data_length (properties_ c) <? zlength data
          then (ErrorCode.MEMORY_CAPACITY_EXCEEDED, store [] false)
          else if ExtendedAdvertiser.GetMaxPeriodicAdvertisingDataLength
                    (ExtendedAdvertiser.periodic_advertising_interval a) <? zlength data
          then (ErrorCode.PACKET_TOO_LONG, store [] false)
          else (ErrorCode.SUCCESS, store data partial)
      end
  end.

Definition LeSetPeriodicAdvertisingEnable (now : Z) (enable include_adi : bool)
    (advertising_handle : Z) (c : LeController) : reply :=
  match extended_advertisers_ c !! advertising_handle with
  | None => (ErrorCode.UNKNOWN_ADVERTISING_IDENTIFIER, c)
  | Some a =>
      if negb enable
      then (ErrorCode.SUCCESS,
            set_advertiser advertising_handle (ExtendedAdvertiser.DisablePeriodic a) c)
      else if ExtendedAdvertiser.partial_periodic_advertising_data a
      then (ErrorCode.COMMAND_DISALLOWED, c)
      else if ExtendedAdvertiser.periodic_advertising_interval a =? 0
      then (ErrorCode.COMMAND_DISALLOWED, c)
      else if ExtendedAdvertiser.GetMaxPeriodicAdvertisingDataLength
                (ExtendedAdvertiser.periodic_advertising_interval a)
              <? zlength (ExtendedAdvertiser.periodic_advertising_data a)
      then (ErrorCode.PACKET_TOO_LONG, c)
      else if not_periodic (ExtendedAdvertiser.advertising_event_properties a)
      then (ErrorCode.COMMAND_DISALLOWED, c)
      else if include_adi &&
         negb (SupportsLLFeature (properties_ c) LLFeaturesBits.PERIODIC_ADVERTISING_ADI_SUPPORT)
      then (ErrorCode.UNSUPPORTED_FEATURE_OR_PARAMETER_VALUE, c)
      else (ErrorCode.SUCCESS,
            set_advertiser advertising_handle (ExtendedAdvertiser.EnablePeriodic now a) c)
  end.

(** ** The advertising routine *)

(** [if (IsLeEventUnmasked(code)) send_event_(event)]. *)
Definition event_if_unmasked (code : SubeventCode.t) (event : HciEvent) : M () :=
  unmasked ← gets (IsLeEventUnmasked code);
  unmasked ← lift unmasked;
  when unmasked (send_event_ event).

Definition connection_timeout_event : HciEvent :=
  LeConnectionComplete ErrorCode.ADVERTISING_TIMEOUT 0 Role.CENTRAL
    AddressType.PUBLIC_DEVICE_ADDRESS kEmpty 0 0 0 ClockAccuracy.PPM_500.
Definition enhanced_connection_timeout_event : HciEvent :=
  LeEnhancedConnectionCompleteV1 ErrorCode.ADVERTISING_TIMEOUT 0 Role.CENTRAL
    AddressType.PUBLIC_DEVICE_ADDRESS kEmpty kEmpty kEmpty 0 0 0 ClockAccuracy.PPM_500.

Definition update_legacy (f : LegacyAdvertiser → LegacyAdvertiser) : M () :=
  modify (λ c, c <| legacy_advertiser_ ::= f |>).

(** [timeout && now >= timeout.value()]. *)
Definition expired (t : Z) (timeout : option Z) : bool :=
  match timeout with Some x => x <=? t | None => false end.

Definition legacy_advertising_timeout : M () :=
  t ← now;
  a ← gets legacy_advertiser_;
  when (LegacyAdvertiser.IsEnabled a && expired t (LegacyAdvertiser.timeout a))
    (update_legacy LegacyAdvertiser.Disable;;
     event_if_unmasked SubeventCode.LE_CONNECTION_COMPLETE connection_timeout_event).

Definition legacy_pdu_type (t : AdvertisingType.t) : LegacyAdvertisingType.t :=
  match t with
  | AdvertisingType.ADV_IND => LegacyAdvertisingType.ADV_IND
  | AdvertisingType.ADV_DIRECT_IND_HIGH | AdvertisingType.ADV_DIRECT_IND_LOW =>
      LegacyAdvertisingType.ADV_DIRECT_IND
  | AdvertisingType.ADV_SCAN_IND => LegacyAdvertisingType.ADV_SCAN_IND
  | AdvertisingType.ADV_NONCONN_IND => LegacyAdvertisingType.ADV_NONCONN_IND
  end.

Definition legacy_advertising_event : M () :=
  t ← now;
  a ← gets legacy_advertiser_;
  when (LegacyAdvertiser.IsEnabled a && (LegacyAdvertiser.next_event a <=? t))
    (update_legacy (λ a, a <| LegacyAdvertiser.next_event :=
                                t + slots (LegacyAdvertiser.advertising_interval a) |>);;
     tx_power ← gets (λ c, le_advertising_physical_channel_tx_power (properties_ c));
     SendLeLinkLayerPacket
       (LeLegacyAdvertisingPdu
          (GetAddress (LegacyAdvertiser.advertising_address a))
          (GetAddress (LegacyAdvertiser.target_address a))
          (GetAddressType (LegacyAdvertiser.advertising_address a))
          (GetAddressType (LegacyAdvertiser.target_address a))
          (legacy_pdu_type (LegacyAdvertiser.advertising_type a))
          (if LegacyAdvertiser.IsDirected a then []
           else LegacyAdvertiser.advertising_data a))
       tx_power).

(** [auto& [handle, advertiser]], and an assignment through it. *)
Definition get_advertiser (handle : Z) : M ExtendedAdvertiser :=
  a ← gets (λ c, extended_advertisers_ c !! handle); lift (unchecked a).
Definition update_advertiser (handle : Z) (f : ExtendedAdvertiser → ExtendedAdvertiser) : M () :=
  modify (λ c, c <| extended_advertisers_ ::= alter f handle |>).

Definition set_terminated_event (a : ExtendedAdvertiser) (events : Z) : HciEvent :=
  LeAdvertisingSetTerminated ErrorCode.ADVERTISING_TIMEOUT
    (ExtendedAdvertiser.advertising_handle a) 0 events.

Definition extended_advertising_timeout (handle : Z) : M () :=
  t ← now;
  a ← get_advertiser handle;
  when (ExtendedAdvertiser.IsEnabled a && expired t (ExtendedAdvertiser.timeout a))
    (update_advertiser handle ExtendedAdvertiser.Disable;;
     let p := ExtendedAdvertiser.advertising_event_properties a in
     let high_duty_cycle_connectable_directed_advertising :=
       directed_ p && connectable_ p && high_duty_cycle_ p in
     enhanced ← gets (IsLeEventUnmasked SubeventCode.LE_ENHANCED_CONNECTION_COMPLETE_V1);
     enhanced ← lift enhanced;
     connection ← gets (IsLeEventUnmasked SubeventCode.LE_CONNECTION_COMPLETE);
     connection ← lift connection;
     (if high_duty_cycle_connectable_directed_advertising && enhanced
      then send_event_ enhanced_connection_timeout_event
      else when (high_duty_cycle_connectable_directed_advertising && connection)
             (send_event_ connection_timeout_event));;
     event_if_unmasked SubeventCode.LE_ADVERTISING_SET_TERMINATED
       (set_terminated_event a
          (if negb (ExtendedAdvertiser.max_extended_advertising_events a =? 0)
           then ExtendedAdvertiser.num_completed_extended_advertising_events a else 0))).

Definition extended_advertising_count (handle : Z) : M () :=
  a ← get_advertiser handle;
  when (ExtendedAdvertiser.IsEnabled a &&
        negb (ExtendedAdvertiser.max_extended_advertising_events a =? 0) &&
        (ExtendedAdvertiser.max_extended_advertising_events a
           <=? ExtendedAdvertiser.num_completed_extended_advertising_events a))
    (update_advertiser handle ExtendedAdvertiser.Disable;;
     event_if_unmasked SubeventCode.LE_ADVERTISING_SET_TERMINATED
       (set_terminated_event a (ExtendedAdvertiser.num_completed_extended_advertising_events a))).

(** The switch on the advertising event properties, whose default case stops
    the process. *)
Definition extended_legacy_pdu_type (p : AdvertisingEventProperties)
  : outcome LegacyAdvertisingType.t :=
  let raw := Z.land (ExtendedAdvertiser.GetRawAdvertisingEventProperties p) 0xf in
  if raw =? LegacyAdvertisingEventProperties.to_Z LegacyAdvertisingEventProperties.ADV_IND
  then Ok LegacyAdvertisingType.ADV_IND
  else if (raw =? LegacyAdvertisingEventProperties.to_Z
                    LegacyAdvertisingEventProperties.ADV_DIRECT_IND_HIGH) ||
          (raw =? LegacyAdvertisingEventProperties.to_Z
                    LegacyAdvertisingEventProperties.ADV_DIRECT_IND_LOW)
  then Ok LegacyAdvertisingType.ADV_DIRECT_IND
  else if raw =? LegacyAdvertisingEventProperties.to_Z LegacyAdvertisingEventProperties.ADV_SCAN_IND
  then Ok LegacyAdvertisingType.ADV_SCAN_IND
  else if raw =? LegacyAdvertisingEventProperties.to_Z
                   LegacyAdvertisingEventProperties.ADV_NONCONN_IND
  then Ok LegacyAdvertisingType.ADV_NONCONN_IND
  else Fatal.

(** The casts of the PHYs to the enumeration of the link layer packets. *)
Definition primary_phy_cast (phy : PrimaryPhyType.t) : LlPhyType.t :=
  match phy with
  | PrimaryPhyType.LE_1M => LlPhyType.LE_1M
  | PrimaryPhyType.LE_CODED => LlPhyType.LE_CODED_S8
  end.
Definition secondary_phy_cast (phy : SecondaryPhyType.t) : LlPhyType.t :=
  match phy with
  | SecondaryPhyType.NO_PACKETS => LlPhyType.NO_PACKETS
  | SecondaryPhyType.LE_1M => LlPhyType.LE_1M
  | SecondaryPhyType.LE_2M => LlPhyType.LE_2M
  | SecondaryPhyType.LE_CODED => LlPhyType.LE_CODED_S8
  end.

Definition extended_pdu (a : ExtendedAdvertiser) : LinkLayerPacket :=
  let p := ExtendedAdvertiser.advertising_event_properties a in
  LeExtendedAdvertisingPdu
    (GetAddress (ExtendedAdvertiser.advertising_address a))
    (GetAddress (ExtendedAdvertiser.target_address a))
    (GetAddressType (ExtendedAdvertiser.advertising_address a))
    (GetAddressType (ExtendedAdvertiser.target_address a))
    (connectable_ p) (scannable_ p) (directed_ p)
    (ExtendedAdvertiser.advertising_sid a) (ExtendedAdvertiser.advertising_tx_power a)
    (primary_phy_cast <$> ExtendedAdvertiser.primary_advertising_phy a)
    (Some (secondary_phy_cast (ExtendedAdvertiser.secondary_advertising_phy a)))
    (u16 (ExtendedAdvertiser.periodic_advertising_interval a))
    (ExtendedAdvertiser.advertising_data a).

Definition extended_advertising_event (handle : Z) : M () :=
  t ← now;
  a ← get_advertiser handle;
  when (ExtendedAdvertiser.IsEnabled a && (ExtendedAdvertiser.next_event a <=? t))
    (update_advertiser handle (λ a, a
       <| ExtendedAdvertiser.next_event ::=
            Z.add (slots (ExtendedAdvertiser.primary_advertising_interval a)) |>
       <| ExtendedAdvertiser.num_completed_extended_advertising_events ::= λ n, u8 (n + 1) |>);;
     if legacy_ (ExtendedAdvertiser.advertising_event_properties a) then
       type ← lift (extended_legacy_pdu_type (ExtendedAdvertiser.advertising_event_properties a));
       SendLeLinkLayerPacket
         (LeLegacyAdvertisingPdu
            (GetAddress (ExtendedAdvertiser.advertising_address a))
            (GetAddress (ExtendedAdvertiser.target_address a))
            (GetAddressType (ExtendedAdvertiser.advertising_address a))
            (GetAddressType (ExtendedAdvertiser.target_address a))
            type (ExtendedAdvertiser.advertising_data a))
         (ExtendedAdvertiser.advertising_tx_power a)
     else SendLeLinkLayerPacket (extended_pdu a) (ExtendedAdvertiser.advertising_tx_power a)).

Definition periodic_advertising_event (handle : Z) : M () :=
  t ← now;
  a ← get_advertiser handle;
  when (ExtendedAdvertiser.IsPeriodicEnabled a && (ExtendedAdvertiser.next_periodic_event a <=? t))
    (update_advertiser handle (λ a, a
       <| ExtendedAdvertiser.next_periodic_event ::=
            Z.add (slots (ExtendedAdvertiser.periodic_advertising_interval a)) |>);;
     SendLeLinkLayerPacket
       (LePeriodicAdvertisingPdu
          (GetAddress (ExtendedAdvertiser.advertising_address a)) kEmpty
          (GetAddressType (ExtendedAdvertiser.advertising_address a))
          (ExtendedAdvertiser.advertising_sid a) (ExtendedAdvertiser.advertising_tx_power a)
          (u16 (ExtendedAdvertiser.periodic_advertising_interval a))
          (ExtendedAdvertiser.periodic_advertising_data a))
       (ExtendedAdvertiser.advertising_tx_power a)).

(** The body of the loop over the advertising sets. *)
Definition extended_advertiser_tick (handle : Z) : M () :=
  extended_advertising_timeout handle;;
  extended_advertising_count handle;;
  extended_advertising_event handle;;
  periodic_advertising_event handle.

Definition LeAdvertising : M () :=
  legacy_advertising_timeout;;
  legacy_advertising_event;;
  handles ← gets (λ c, fst <$> iterate (extended_advertisers_ c));
  for_each handles extended_advertiser_tick.
End Advertising.

(** ** The invariant of the advertising sets *)

Import ExtendedAdvertiser.

(** What the commands keep true of one advertising set, whose data is limited to
    [limit] bytes. *)
Record set_wf (limit handle : Z) (a : ExtendedAdvertiser) : Prop := {
  set_handle : advertising_handle a = handle;
  (** A legacy set uses one of the legacy PDU types ... *)
  set_legacy : legacy_ (advertising_event_properties a) = true →
    is_ok (extended_legacy_pdu_type (advertising_event_properties a)) = true ∧
    zlength (advertising_data a) ≤ max_legacy_advertising_pdu_size ∧
    zlength (scan_response_data a) ≤ max_legacy_advertising_pdu_size;
  (** ... and an extended one is not both connectable and scannable. *)
  set_extended : legacy_ (advertising_event_properties a) = false →
    connectable_ (advertising_event_properties a) && scannable_ (advertising_event_properties a) = false;
  set_no_data : can_have_advertising_data (advertising_event_properties a) = false →
    advertising_data a = [];
  set_no_scan_response : scannable_ (advertising_event_properties a) = false →
    scan_response_data a = [];
  set_capacity : zlength (advertising_data a) ≤ limit ∧ zlength (scan_response_data a) ≤ limit ∧
    zlength (periodic_advertising_data a) ≤ limit;
  set_scan_response : zlength (scan_response_data a) ≤ max_extended_advertising_pdu_size;
  set_periodic_data : zlength (periodic_advertising_data a) ≤ max_extended_advertising_pdu_size;
  (** An enabled set is complete and its data fits the PDUs. *)
  set_enabled : advertising_enable a = true →
    partial_advertising_data a = false ∧ partial_scan_response_data a = false ∧
    zlength (advertising_data a) ≤ GetMaxAdvertisingDataLength (advertising_event_properties a);
  set_events : fits 8 (num_completed_extended_advertising_events a) ∧
    fits 8 (max_extended_advertising_events a) ∧
    (max_extended_advertising_events a ≠ 0 →
     num_completed_extended_advertising_events a ≤ max_extended_advertising_events a);
  set_periodic : periodic_advertising_enable a = true →
    not_periodic (advertising_event_properties a) = false ∧ periodic_advertising_interval a ≠ 0;
  set_latch : periodic_advertising_enable_latch a = true → periodic_advertising_enable a = true;
}.

(** The legacy advertiser: its data fits the PDUs, and it stops by itself only
    when it is high duty cycle. *)
Record legacy_wf (a : LegacyAdvertiser) : Prop := {
  legacy_data : zlength (LegacyAdvertiser.advertising_data a) ≤ max_legacy_advertising_pdu_size ∧
    zlength (LegacyAdvertiser.scan_response_data a) ≤ max_legacy_advertising_pdu_size;
  legacy_timeout : LegacyAdvertiser.advertising_enable a = true →
    (LegacyAdvertiser.timeout a = None ↔
     LegacyAdvertiser.advertising_type a ≠ AdvertisingType.ADV_DIRECT_IND_HIGH);
  legacy_interval : 0x10 ≤ LegacyAdvertiser.advertising_interval a ≤ 0x4000;
  legacy_channels : LegacyAdvertiser.advertising_channel_map a ≠ 0;
}.

Record advertising_wf (c : LeController) : Prop := {
  adv_limit : 0 ≤ le_max_advertising_data_length (properties_ c);
  adv_sets : map_Forall (set_wf (le_max_advertising_data_length (properties_ c)))
    (extended_advertisers_ c);
  adv_size : Z.of_nat (size (extended_advertisers_ c))
    ≤ Z.max 0 (le_num_supported_advertising_sets (properties_ c));
  (** Legacy and extended advertising exclude each other. *)
  adv_exclusive : legacy_advertising_in_use_ c && extended_advertising_in_use_ c = false;
  adv_extended_in_use : extended_advertisers_ c ≠ ∅ → extended_advertising_in_use_ c = true;
  adv_legacy_in_use : LegacyAdvertiser.advertising_enable (legacy_advertiser_ c) = true →
    legacy_advertising_in_use_ c = true;
  adv_legacy : legacy_wf (legacy_advertiser_ c);
}.

Lemma advertising_wf_frame c c' :
  properties_ c' = properties_ c → extended_advertisers_ c' = extended_advertisers_ c →
  legacy_advertising_in_use_ c' = legacy_advertising_in_use_ c →
  extended_advertising_in_use_ c' = extended_advertising_in_use_ c →
  legacy_advertiser_ c' = legacy_advertiser_ c → advertising_wf c → advertising_wf c'.
Proof. intros Hp He Hl Hx Ha [? ? ? ? ? ? ?]. constructor; rewrite ?Hp, ?He, ?Hl, ?Hx, ?Ha; done. Qed.

Lemma new_set_wf limit handle : 0 ≤ limit → set_wf limit handle (ExtendedAdvertiser.new handle).
Proof. intros. constructor; cbn; try done; unfold fits; by repeat split. Qed.

Lemma new_legacy_wf : legacy_wf LegacyAdvertiser.new.
Proof. constructor; cbn; try done; by repeat split. Qed.

(** Replacing one set by another. *)
Lemma set_advertiser_wf c handle a :
  advertising_wf c → set_wf (le_max_advertising_data_length (properties_ c)) handle a →
  is_Some (extended_advertisers_ c !! handle) → advertising_wf (set_advertiser handle a c).
Proof.
  intros [? ? ? ? Hx ? ?] Ha Hin. constructor; cbn; try done.
  - by apply map_Forall_insert_2.
  - rewrite map_size_insert. by destruct Hin as [? ->].
  - intros _. apply Hx. intros He. rewrite He in Hin. by apply lookup_empty_is_Some in Hin.
Qed.

Lemma SelectLegacyAdvertising_wf c : advertising_wf c → advertising_wf (snd (SelectLegacyAdvertising c)).
Proof.
  intros Hc. unfold SelectLegacyAdvertising. destruct (extended_advertising_in_use_ c) eqn:E; [done|].
  destruct Hc. constructor; cbn; try done.
Qed.

Lemma SelectExtendedAdvertising_wf c :
  advertising_wf c → advertising_wf (snd (SelectExtendedAdvertising c)).
Proof.
  intros Hc. unfold SelectExtendedAdvertising. destruct (legacy_advertising_in_use_ c) eqn:E; [done|].
  destruct Hc. constructor; cbn; try done. by rewrite E.
Qed.

Lemma legacy_advertiser_wf c a :
  advertising_wf c → legacy_wf a →
  (LegacyAdvertiser.advertising_enable a = true → legacy_advertising_in_use_ c = true) →
  advertising_wf (c <| legacy_advertiser_ := a |>).
Proof. intros [? ? ? ? ? ? ?] ? ?. by constructor. Qed.

(** Generating an address changes only the resolving list and the state of the
    random numbers. *)
Lemma GenerateResolvablePrivateAddress_frame {env : Environment} address irk c :
  let c' := snd (GenerateResolvablePrivateAddress address irk c) in
  properties_ c' = properties_ c ∧ extended_advertisers_ c' = extended_advertisers_ c ∧
  legacy_advertising_in_use_ c' = legacy_advertising_in_use_ c ∧
  extended_advertising_in_use_ c' = extended_advertising_in_use_ c ∧
  legacy_advertiser_ c' = legacy_advertiser_ c.
Proof.
  unfold GenerateResolvablePrivateAddress, draw_rpa. destruct (find_first _ _); [|done].
  by destruct irk.
Qed.

Lemma GenerateResolvablePrivateAddress_advertising_wf {env : Environment} address irk c :
  advertising_wf c → advertising_wf (snd (GenerateResolvablePrivateAddress address irk c)).
Proof.
  pose proof (GenerateResolvablePrivateAddress_frame address irk c) as (? & ? & ? & ? & ?).
  by apply advertising_wf_frame.
Qed.

Section Preservation.
Context {env : Environment}.

Lemma LeSetAdvertisingParameters_wf imin imax t own pt pa map pol c :
  advertising_wf c → advertising_wf (snd (LeSetAdvertisingParameters imin imax t own pt pa map pol c)).
Proof.
  intros Hc%SelectLegacyAdvertising_wf. unfold LeSetAdvertisingParameters.
  destruct (SelectLegacyAdvertising c) as [sel c1]. cbn [snd] in Hc.
  destruct (bool_decide (t = _)) eqn:Hhigh; repeat case_match; cbn [snd]; try done; to_prop;
    (apply (legacy_advertiser_wf c1); [done| |cbn; congruence]);
    destruct (adv_legacy c1 Hc) as [? ? ? ?];
    (constructor; cbn; [done|congruence| |done]); [by split|lia].
Qed.

Lemma LeSetAdvertisingData_wf data c :
  zlength data ≤ max_legacy_advertising_pdu_size →
  advertising_wf c → advertising_wf (snd (LeSetAdvertisingData data c)).
Proof.
  intros Hd Hc%SelectLegacyAdvertising_wf. unfold LeSetAdvertisingData.
  destruct (SelectLegacyAdvertising c) as [[] c1]; cbn [snd negb] in *; [|done].
  apply (legacy_advertiser_wf c1); [done| |apply Hc].
  destruct (adv_legacy c1 Hc) as [[? ?] ? ? ?]. by constructor.
Qed.

Lemma LeSetScanResponseData_wf data c :
  zlength data ≤ max_legacy_advertising_pdu_size →
  advertising_wf c → advertising_wf (snd (LeSetScanResponseData data c)).
Proof.
  intros Hd Hc%SelectLegacyAdvertising_wf. unfold LeSetScanResponseData.
  destruct (SelectLegacyAdvertising c) as [[] c1]; cbn [snd negb] in *; [|done].
  apply (legacy_advertiser_wf c1); [done| |apply Hc].
  destruct (adv_legacy c1 Hc) as [[? ?] ? ? ?]. by constructor.
Qed.

Lemma SelectLegacyAdvertising_in_use c c' :
  SelectLegacyAdvertising c = (true, c') → legacy_advertising_in_use_ c' = true.
Proof. unfold SelectLegacyAdvertising. case_match; [done|]. by intros [= <-]. Qed.

Lemma LeSetAdvertisingEnable_wf t enable c :
  advertising_wf c → advertising_wf (snd (LeSetAdvertisingEnable t enable c)).
Proof.
  intros Hc%SelectLegacyAdvertising_wf. unfold LeSetAdvertisingEnable.
  destruct (SelectLegacyAdvertising c) as [[] c1] eqn:Hsel; cbn [snd negb] in *; [|done].
  apply SelectLegacyAdvertising_in_use in Hsel.
  destruct enable; cbn [negb snd].
  2: { apply (legacy_advertiser_wf c1); [done| |done].
       destruct (adv_legacy c1 Hc) as [? ? ? ?]. by constructor. }
  set (peer := PeerDeviceAddress _ _).
  pose proof (GenerateResolvablePrivateAddress_frame peer Local c1) as (_ & _ & Hu & _ & Ha).
  pose proof (GenerateResolvablePrivateAddress_advertising_wf peer Local c1 Hc) as Hc2.
  destruct (GenerateResolvablePrivateAddress peer Local c1) as [r c2]. cbn [snd] in *.
  destruct (select_advertising_address _ _ _ _) as [address|]; [|done].
  pose proof (GenerateResolvablePrivateAddress_frame peer Peer c2) as (_ & _ & Hu3 & _ & Ha3).
  pose proof (GenerateResolvablePrivateAddress_advertising_wf peer Peer c2 Hc2) as Hc3.
  destruct (GenerateResolvablePrivateAddress peer Peer c2) as [r3 c3]. cbn [snd] in *.
  destruct (adv_legacy c1 Hc) as [? ? ? ?].
  destruct (LegacyAdvertiser.advertising_type _) eqn:Ht; cbn [snd];
    (eapply legacy_advertiser_wf; [done| |cbn; congruence]); rewrite ?Ha3, ?Ha;
    constructor; cbn; rewrite ?Ht; try done.
Qed.

(** The legacy event types the parameters accept are those the advertising
    routine knows. *)
Lemma legacy_types_known p :
  legacy_ p = true →
  forallb (λ t, negb (Z.ldiff (GetRawAdvertisingEventProperties p) 0x10
                      =? LegacyAdvertisingEventProperties.to_Z t)) legacy_event_properties = false →
  is_ok (extended_legacy_pdu_type p) = true.
Proof. destruct p as [[] [] [] [] [] [] [] ? ? ?]; by vm_compute. Qed.

Lemma is_empty_nil {A} (l : list A) : is_empty l = true → l = [].
Proof. by destruct l. Qed.

Lemma check_advertising_parameters_wf limit handle a p imin imax map phy1 phy2 own pt pa pol tx skip sid notify :
  check_advertising_parameters a p imin imax map phy1 phy2 = None →
  set_wf limit handle a →
  set_wf limit handle
    (a <| advertising_event_properties := p |> <| primary_advertising_interval := imin |>
       <| primary_advertising_channel_map := map |> <| own_address_type := own |>
       <| peer_address_type := pt |> <| peer_address := pa |> <| advertising_filter_policy := pol |>
       <| advertising_tx_power := tx |> <| primary_advertising_phy := Some phy1 |>
       <| secondary_max_skip := skip |> <| secondary_advertising_phy := phy2 |>
       <| advertising_sid := sid |> <| scan_request_notification_enable := notify |>).
Proof.
  intros Hcheck [? ? ? ? ? ? ? ? ? ? Hper ?]. unfold check_advertising_parameters in Hcheck.
  passes Hcheck Hdisabled. passes Hcheck Htype. passes Hcheck Hdata. passes Hcheck Hscan.
  passes Hcheck Hsize. passes Hcheck Hkind. passes Hcheck Hhigh. passes Hcheck Hrange.
  passes Hcheck Horder. passes Hcheck Hmap. passes Hcheck Hphy. passes Hcheck Hcte.
  passes Hcheck Hperiodic. clear Hcheck.
  constructor; cbn; try done.
  - intros Hl. rewrite Hl in Htype, Hsize. cbn in Htype, Hsize. to_prop.
    split; [by apply legacy_types_known|]. done.
  - intros Hl. by rewrite Hl in Hkind.
  - intros Hl. rewrite Hl in Hdata. apply is_empty_nil. by apply negb_false_iff.
  - intros Hl. rewrite Hl in Hscan. apply is_empty_nil. by apply negb_false_iff.
  - congruence.
  - intros He. split; [|by apply Hper]. by rewrite He in Hperiodic.
Qed.


Lemma add_advertiser_wf c handle a :
  advertising_wf c → set_wf (le_max_advertising_data_length (properties_ c)) handle a →
  Z.of_nat (size (extended_advertisers_ c)) < le_num_supported_advertising_sets (properties_ c) →
  extended_advertising_in_use_ c = true → advertising_wf (set_advertiser handle a c).
Proof.
  intros [? ? ? ? Hx ? ?] Ha Hs Hu. constructor; cbn; try done.
  - by apply map_Forall_insert_2.
  - rewrite map_size_insert. destruct (_ !! _); cbn; lia.
Qed.

Lemma SelectExtendedAdvertising_in_use c c' :
  SelectExtendedAdvertising c = (true, c') → extended_advertising_in_use_ c' = true.
Proof. unfold SelectExtendedAdvertising. case_match; [done|]. by intros [= <-]. Qed.

Lemma LeSetExtendedAdvertisingParameters_wf handle p imin imax map own pt pa pol tx phy1 skip phy2 sid
    notify c :
  advertising_wf c →
  advertising_wf (snd (LeSetExtendedAdvertisingParameters handle p imin imax map own pt pa pol tx
                         phy1 skip phy2 sid notify c)).
Proof.
  intros Hc%SelectExtendedAdvertising_wf. unfold LeSetExtendedAdvertisingParameters.
  destruct (SelectExtendedAdvertising c) as [[] c1] eqn:Hsel; cbn [snd negb] in *; [|done].
  apply SelectExtendedAdvertising_in_use in Hsel.
  destruct (extended_advertisers_ c1 !! handle) as [a|] eqn:Ha.
  - destruct (check_advertising_parameters _ _ _ _ _ _ _) eqn:Hcheck; [done|]. cbn [snd].
    apply set_advertiser_wf; [done| |done].
    eapply check_advertising_parameters_wf; [done|]. by apply (adv_sets c1 Hc).
  - destruct (_ <=? _) eqn:Hroom; [done|]. to_prop.
    destruct (check_advertising_parameters _ _ _ _ _ _ _) eqn:Hcheck; [done|]. cbn [snd].
    apply add_advertiser_wf; [done| |lia|done].
    eapply check_advertising_parameters_wf; [done|]. apply new_set_wf, Hc.
Qed.

(** A set is changed by a function that keeps its invariant. *)
Lemma alter_advertiser_wf c handle f :
  advertising_wf c →
  (∀ limit a, extended_advertisers_ c !! handle = Some a →
     set_wf limit handle a → set_wf limit handle (f a)) →
  advertising_wf (c <| extended_advertisers_ ::= alter f handle |>).
Proof.
  intros Hc Hf. destruct (extended_advertisers_ c !! handle) as [a|] eqn:Ha.
  - cbn. erewrite alter_Some by done. apply (set_advertiser_wf c); [done| |done].
    apply Hf; [done|]. by apply (adv_sets c Hc).
  - apply (advertising_wf_frame c); cbn; try done. by apply alter_None.
Qed.

Lemma LeSetAdvertisingSetRandomAddress_wf handle ra c :
  advertising_wf c → advertising_wf (snd (LeSetAdvertisingSetRandomAddress handle ra c)).
Proof.
  intros Hc. unfold LeSetAdvertisingSetRandomAddress.
  destruct (extended_advertisers_ c !! handle) as [a|] eqn:Ha; [|done].
  destruct (advertising_enable a); [done|]. cbn [snd].
  apply set_advertiser_wf; [done| |done]. destruct (adv_sets c Hc _ _ Ha). by constructor.
Qed.

Lemma check_advertising_data_None a op data :
  check_advertising_data a op data = None →
  can_have_advertising_data (advertising_event_properties a) = true ∧
  (legacy_ (advertising_event_properties a) = true →
   op = Operation.COMPLETE_ADVERTISEMENT ∧ zlength data ≤ max_legacy_advertising_pdu_size) ∧
  (advertising_enable a = true →
   op = Operation.COMPLETE_ADVERTISEMENT ∨ op = Operation.UNCHANGED_DATA).
Proof.
  unfold check_advertising_data. intros Hcheck.
  passes Hcheck Hcan. passes Hcheck Hlegacy. passes Hcheck Hunchanged. passes Hcheck Hempty.
  passes Hcheck Henabled. clear Hcheck. apply negb_false_iff in Hcan.
  split; [done|]. unfold is_op in *. split; intros Hb.
  - rewrite Hb in Hlegacy. cbn in Hlegacy. to_prop. done.
  - rewrite Hb in Henabled. cbn in Henabled. apply andb_false_iff in Henabled as [E|E]; to_prop;
      auto.
Qed.

Lemma zlength_0 {A} : zlength (@nil A) = 0.
Proof. done. Qed.

Lemma GetMaxAdvertisingDataLength_bounds p :
  0 ≤ GetMaxAdvertisingDataLength p ≤ max_extended_advertising_pdu_size ∧
  (legacy_ p = true → GetMaxAdvertisingDataLength p ≤ max_legacy_advertising_pdu_size) ∧
  (can_have_advertising_data p = false → GetMaxAdvertisingDataLength p = 0).
Proof. destruct p as [[] [] [] [] [] [] [] ? ? ?]; vm_compute; repeat split; discriminate. Qed.

Lemma LeSetExtendedAdvertisingData_wf handle op pref data c :
  advertising_wf c → advertising_wf (snd (LeSetExtendedAdvertisingData handle op pref data c)).
Proof.
  intros Hc%SelectExtendedAdvertising_wf. unfold LeSetExtendedAdvertisingData.
  destruct (SelectExtendedAdvertising c) as [[] c1] eqn:Hsel; cbn [snd negb] in *; [|done].
  destruct (extended_advertisers_ c1 !! handle) as [a|] eqn:Ha; [|done].
  destruct (check_advertising_data a op data) eqn:Hcheck; [done|].
  apply check_advertising_data_None in Hcheck as (Hcan & Hlegacy & Henabled).
  destruct (assemble _ _ _ _) as [new partial] eqn:Hnew.
  destruct (adv_sets c1 Hc _ _ Ha) as [? Hl ? ? ? [? [? ?]] ? ? Hen ? ? ?].
  pose proof (adv_limit c1 Hc).
  pose proof (GetMaxAdvertisingDataLength_bounds (advertising_event_properties a)) as [? _].
  destruct (_ <? zlength new) eqn:Hroom; [|destruct (advertising_enable a && _) eqn:Hfit];
    cbn [snd]; to_prop; (apply set_advertiser_wf; [done| |done]);
    constructor; cbn; rewrite ?zlength_nil; try done; try congruence.
  - intros Hb. destruct (Hl Hb) as (? & ? & ?). by repeat split.
  - intros Hb. destruct (Hen Hb) as (? & ? & ?). repeat split; [done|lia].
  - intros Hb. destruct (Hl Hb) as (? & ? & ?). by repeat split.
  - intros Hb. destruct (Hen Hb) as (? & ? & ?). repeat split; [done|lia].
  - intros Hb. destruct (Hl Hb) as (? & ? & ?), (Hlegacy Hb) as [-> ?].
    injection Hnew as <- <-. done.
  - intros Hb. destruct (Hen Hb) as (? & ? & ?). rewrite Hb in Hfit. cbn in Hfit. to_prop.
    destruct (Henabled Hb) as [-> | ->]; injection Hnew as <- <-; done.
Qed.

Lemma check_scan_response_data_None a op data :
  check_scan_response_data a op data = None →
  (scannable_ (advertising_event_properties a) = false →
   op = Operation.COMPLETE_ADVERTISEMENT ∧ data = []) ∧
  (scannable_ (advertising_event_properties a) && legacy_ (advertising_event_properties a) = true →
   op = Operation.COMPLETE_ADVERTISEMENT ∧ zlength data ≤ max_legacy_advertising_pdu_size) ∧
  (advertising_enable a = true → op = Operation.COMPLETE_ADVERTISEMENT).
Proof.
  unfold check_scan_response_data. intros Hcheck.
  passes Hcheck Hscan. passes Hcheck Hlegacy. passes Hcheck Hempty. passes Hcheck Henabled.
  clear Hcheck. unfold is_op in *. split; [|split]; intros Hb.
  - rewrite Hb in Hscan. cbn in Hscan. apply negb_false_iff in Hscan. rewrite Hscan in Hempty.
    rewrite andb_true_r in Hempty. split; [by to_prop|by apply is_empty_nil].
  - rewrite Hb in Hlegacy. cbn in Hlegacy. by to_prop.
  - rewrite Hb in Henabled. cbn in Henabled. by to_prop.
Qed.

Lemma LeSetExtendedScanResponseData_wf handle op pref data c :
  advertising_wf c → advertising_wf (snd (LeSetExtendedScanResponseData handle op pref data c)).
Proof.
  intros Hc%SelectExtendedAdvertising_wf. unfold LeSetExtendedScanResponseData.
  destruct (SelectExtendedAdvertising c) as [[] c1] eqn:Hsel; cbn [snd negb] in *; [|done].
  destruct (extended_advertisers_ c1 !! handle) as [a|] eqn:Ha; [|done].
  destruct (check_scan_response_data a op data) eqn:Hcheck; [done|].
  apply check_scan_response_data_None in Hcheck as (Hscan & Hlegacy & Henabled).
  destruct (assemble _ _ _ _) as [new partial] eqn:Hnew.
  destruct (adv_sets c1 Hc _ _ Ha) as [? Hl ? ? Hns [? [? ?]] ? ? Hen ? ? ?].
  pose proof (adv_limit c1 Hc).
  destruct (_ <? zlength new) eqn:Hroom; [|destruct (max_extended_advertising_pdu_size <? _) eqn:Hfit];
    cbn [snd]; to_prop; (apply set_advertiser_wf; [done| |done]);
    constructor; cbn; rewrite ?zlength_nil; try done; try congruence.
  - intros Hb. destruct (Hl Hb) as (? & ? & ?). by repeat split.
  - intros Hb. by destruct (Hen Hb) as (? & ? & ?).
  - intros Hb. destruct (Hl Hb) as (? & ? & ?). by repeat split.
  - intros Hb. by destruct (Hen Hb) as (? & ? & ?).
  - intros Hb. destruct (Hl Hb) as (? & ? & ?). repeat split; [done..|].
    destruct (scannable_ (advertising_event_properties a)) eqn:Hs.
    + destruct Hlegacy as [-> ?]; [done|]. by injection Hnew as <- <-.
    + destruct Hscan as [-> ->]; [done|]. by injection Hnew as <- <-.
  - intros Hb. destruct Hscan as [-> ->]; [done|]. by injection Hnew as <- <-.
  - intros Hb. destruct (Hen Hb) as (? & ? & ?). rewrite (Henabled Hb) in Hnew.
    injection Hnew as <- <-. done.
Qed.

Lemma Disable_wf limit handle a : set_wf limit handle a → set_wf limit handle (ExtendedAdvertiser.Disable a).
Proof. intros []. by constructor. Qed.

(** The checks that precede the enabling of a set are enough for it. *)
Lemma check_enable_None limit handle a set :
  set_wf limit handle a → check_enable a set = None →
  partial_advertising_data a = false ∧ partial_scan_response_data a = false ∧
  zlength (advertising_data a) ≤ GetMaxAdvertisingDataLength (advertising_event_properties a).
Proof.
  intros Ha Hcheck. unfold check_enable in Hcheck.
  passes Hcheck Hduration. passes Hcheck Hpartial. passes Hcheck Hscan. passes Hcheck Hfit.
  passes Hcheck Hlong. clear Hcheck. to_prop. split; [done|]. split; [done|].
  destruct (can_have_advertising_data (advertising_event_properties a)) eqn:Hcan.
  2: { rewrite (set_no_data _ _ _ Ha Hcan). apply GetMaxAdvertisingDataLength_bounds. }
  destruct (legacy_ (advertising_event_properties a)) eqn:Hl.
  - destruct (set_legacy _ _ _ Ha Hl) as (_ & Hs & _). unfold can_have_advertising_data in Hcan.
    unfold GetMaxAdvertisingDataLength. rewrite Hl in *. cbn in Hcan |- *.
    by destruct (directed_ _).
  - cbn in Hfit, Hlong. to_prop.
    destruct (connectable_ (advertising_event_properties a)) eqn:Hconn; [by cbn in Hfit; to_prop|].
    unfold can_have_advertising_data in Hcan. unfold GetMaxAdvertisingDataLength.
    rewrite Hl, Hconn in *. cbn in Hcan |- *. by destruct (scannable_ _).
Qed.

(** Two sets with the same data, properties and state. *)
Definition same_data (a b : ExtendedAdvertiser) : Prop :=
  advertising_data a = advertising_data b ∧
  advertising_event_properties a = advertising_event_properties b ∧
  partial_advertising_data a = partial_advertising_data b ∧
  partial_scan_response_data a = partial_scan_response_data b ∧
  advertising_enable a = advertising_enable b.

(** [prepare_set] replaces one set by one with other addresses. *)
Lemma prepare_set_spec set c :
  let '(r, c') := prepare_set set c in
  properties_ c' = properties_ c ∧
  legacy_advertising_in_use_ c' = legacy_advertising_in_use_ c ∧
  extended_advertising_in_use_ c' = extended_advertising_in_use_ c ∧
  legacy_advertiser_ c' = legacy_advertiser_ c ∧
  ∃ x y, extended_advertisers_ c' =
    match r with
    | None => alter (λ a, a <| advertising_address := x |> <| target_address := y a |>)
                (advertising_handle_ set) (extended_advertisers_ c)
    | Some _ => extended_advertisers_ c
    end ∧
    (r = None → ∀ a, extended_advertisers_ c !! advertising_handle_ set = Some a →
     check_enable a set = None).
Proof.
  unfold prepare_set. destruct (extended_advertisers_ c !! advertising_handle_ set) as [a|] eqn:Ha.
  2: { do 4 (split; [done|]). exists empty_address, target_address. by rewrite alter_None. }
  destruct (check_enable a set) eqn:Hcheck.
  { do 4 (split; [done|]). by exists empty_address, target_address. }
  set (peer := PeerDeviceAddress _ _).
  pose proof (GenerateResolvablePrivateAddress_frame peer Local c) as (Hp & He & Hl & Hx & Hy).
  destruct (GenerateResolvablePrivateAddress peer Local c) as [r c2]. cbn [snd] in *.
  destruct (select_advertising_address _ _ _ _) as [x|].
  2: { do 4 (split; [congruence|]). by exists empty_address, target_address. }
  pose proof (GenerateResolvablePrivateAddress_frame peer Peer c2) as (Hp3 & He3 & Hl3 & Hx3 & Hy3).
  destruct (GenerateResolvablePrivateAddress peer Peer c2) as [r3 c3]. cbn [snd] in *.
  unfold IsDirected. cbn. destruct (directed_ _) eqn:Hd; do 4 (split; [cbn; congruence|]).
  - exists x, (λ _, default peer r3). cbn. rewrite He3, He. split; [|intros _ b; congruence].
    by erewrite alter_Some.
  - exists x, target_address. cbn. rewrite He. split; [|intros _ b; congruence].
    by erewrite alter_Some.
Qed.

Definition same_sets (m m' : gmap Z ExtendedAdvertiser) : Prop :=
  ∀ h, option_Forall2 same_data (m !! h) (m' !! h).

#[local] Instance same_sets_preorder : PreOrder same_sets.
Proof.
  split.
  - intros m h. destruct (m !! h); by repeat constructor.
  - intros m1 m2 m3 H12 H23 h. specialize (H12 h). specialize (H23 h).
    inversion H12 as [a b (? & ? & ? & ? & ?) E1 E2|E1 E2]; rewrite <-E2 in H23;
      inversion H23 as [b' d (? & ? & ? & ? & ?) E3 E4|E3 E4]; constructor.
    unfold same_data. repeat split; congruence.
Qed.

Lemma prepare_set_same set c : same_sets (extended_advertisers_ c) (extended_advertisers_ (snd (prepare_set set c))).
Proof.
  pose proof (prepare_set_spec set c) as Hs. destruct (prepare_set set c) as [r c'].
  destruct Hs as (_ & _ & _ & _ & x & y & He & _). cbn [snd]. rewrite He.
  destruct r; [reflexivity|]. intros h. destruct (decide (h = advertising_handle_ set)) as [->|].
  - rewrite lookup_alter_eq. destruct (_ !! _); by repeat constructor.
  - rewrite lookup_alter_ne by done. destruct (_ !! _); by repeat constructor.
Qed.

Lemma prepare_set_wf set c : advertising_wf c → advertising_wf (snd (prepare_set set c)).
Proof.
  intros Hc. pose proof (prepare_set_spec set c) as Hs. destruct (prepare_set set c) as [r c'].
  destruct Hs as (? & ? & ? & ? & x & y & He & _). cbn [snd]. destruct r.
  - by apply (advertising_wf_frame c).
  - apply (advertising_wf_frame (c <| extended_advertisers_ ::=
      alter (λ a, a <| advertising_address := x |> <| target_address := y a |>)
        (advertising_handle_ set) |>)); try done.
    apply alter_advertiser_wf; [done|]. intros limit a _ []. by constructor.
Qed.

Lemma prepare_sets_spec sets c :
  advertising_wf c →
  let '(r, c') := prepare_sets sets c in
  advertising_wf c' ∧ same_sets (extended_advertisers_ c) (extended_advertisers_ c') ∧
  (r = None → ∀ set a, set ∈ sets → extended_advertisers_ c' !! advertising_handle_ set = Some a →
   partial_advertising_data a = false ∧ partial_scan_response_data a = false ∧
   zlength (advertising_data a) ≤ GetMaxAdvertisingDataLength (advertising_event_properties a)).
Proof.
  revert c. induction sets as [|set sets IH]; intros c Hc; cbn.
  { split; [done|]. split; [reflexivity|]. by intros _ set a ?%elem_of_nil. }
  pose proof (prepare_set_wf set c Hc) as Hc1. pose proof (prepare_set_same set c) as Hsame.
  pose proof (prepare_set_spec set c) as Hs.
  destruct (prepare_set set c) as [[status|] c1]; cbn [snd] in *; [by split|].
  destruct Hs as (_ & _ & _ & _ & _ & _ & _ & Hcheck).
  specialize (IH c1 Hc1). destruct (prepare_sets sets c1) as [r c2].
  destruct IH as (? & Hsame2 & Hdone). split; [done|]. split; [by etransitivity|].
  intros Hr s a [->|Hin]%elem_of_cons Ha; [|by apply (Hdone Hr s)].
  assert (same_sets (extended_advertisers_ c) (extended_advertisers_ c2)) as Hall by by etransitivity.
  specialize (Hall (advertising_handle_ set)). rewrite Ha in Hall.
  inversion Hall as [b a' (Hd & Hp & Hp1 & Hp2 & _) Hb|]; subst a'.
  rewrite <-Hd, <-Hp, <-Hp1, <-Hp2. symmetry in Hb.
  eapply check_enable_None; [by apply (adv_sets c Hc)|by apply Hcheck].
Qed.

Lemma enable_set_wf limit handle t set a :
  fits 8 (max_extended_advertising_events_ set) → set_wf limit handle a →
  partial_advertising_data a = false ∧ partial_scan_response_data a = false ∧
  zlength (advertising_data a) ≤ GetMaxAdvertisingDataLength (advertising_event_properties a) →
  set_wf limit handle (enable_set t set a).
Proof.
  intros Hmax [] Hen. unfold enable_set, Enable. destruct (0 <? duration_ set);
    (constructor; cbn; try done; unfold fits in *; repeat split; try lia; done).
Qed.

(** The facts [check_enable] established still hold. *)
Definition may_enable (a : ExtendedAdvertiser) : Prop :=
  partial_advertising_data a = false ∧ partial_scan_response_data a = false ∧
  zlength (advertising_data a) ≤ GetMaxAdvertisingDataLength (advertising_event_properties a).

Lemma may_enable_enable_set t set a : may_enable (enable_set t set a) ↔ may_enable a.
Proof. unfold enable_set, may_enable. by destruct (0 <? duration_ set). Qed.

Lemma enable_sets_wf t sets c :
  advertising_wf c → Forall (λ set, fits 8 (max_extended_advertising_events_ set)) sets →
  (∀ set a, set ∈ sets → extended_advertisers_ c !! advertising_handle_ set = Some a → may_enable a) →
  advertising_wf (update_sets (enable_set t) sets c).
Proof.
  unfold update_sets. revert c. induction sets as [|set sets IH]; intros c Hc Hmax Hen; cbn; [done|].
  apply Forall_cons_1 in Hmax as [Hmax Hmaxs]. apply IH; [|done|].
  - apply alter_advertiser_wf; [done|]. intros limit a Ha Hwf. apply enable_set_wf; [done..|].
    eapply Hen; [left|done].
  - intros s a Hin Ha. cbn in Ha.
    apply lookup_alter_Some in Ha as [(Hh & b & Hb & ->)|(_ & Hb)].
    + apply may_enable_enable_set. apply (Hen s); [by right|done].
    + apply (Hen s); [by right|done].
Qed.

Lemma disable_sets_wf sets c :
  advertising_wf c → advertising_wf (update_sets (λ _, ExtendedAdvertiser.Disable) sets c).
Proof.
  unfold update_sets. revert c. induction sets as [|set sets IH]; intros c Hc; cbn; [done|].
  apply IH, alter_advertiser_wf; [done|]. intros limit a _. apply Disable_wf.
Qed.

Lemma fmap_sets_wf f c :
  advertising_wf c → (∀ limit handle a, set_wf limit handle a → set_wf limit handle (f a)) →
  advertising_wf (c <| extended_advertisers_ ::= fmap f |>).
Proof.
  intros [? Hs ? ? Hx ? ?] Hf. constructor; cbn; try done.
  - intros k a Ha. apply lookup_fmap_Some in Ha as (b & <- & Hb). by apply Hf, Hs.
  - by rewrite map_size_fmap.
  - intros Hne. apply Hx. intros He. apply Hne. by rewrite He, fmap_empty.
Qed.

Lemma LeSetExtendedAdvertisingEnable_wf t enable sets c status c' :
  Forall (λ set, fits 8 (max_extended_advertising_events_ set)) sets →
  advertising_wf c → LeSetExtendedAdvertisingEnable t enable sets c = Ok (status, c') →
  advertising_wf c'.
Proof.
  intros Hmax Hc%SelectExtendedAdvertising_wf. unfold LeSetExtendedAdvertisingEnable.
  destruct (SelectExtendedAdvertising c) as [[] c1] eqn:Hsel; cbn [snd negb] in *;
    [|by intros [= _ <-]].
  intros H. step_ok. destruct x as [status'|]; [by injection H as _ <-|].
  destruct (negb enable && is_empty sets).
  { injection H as _ <-. apply fmap_sets_wf; [done|]. intros. by apply Disable_wf. }
  destruct (is_empty sets); [by injection H as _ <-|].
  destruct (negb enable); [injection H as _ <-; by apply disable_sets_wf|].
  pose proof (prepare_sets_spec sets c1 Hc) as Hprep.
  destruct (prepare_sets sets c1) as [[status'|] c2]; injection H as _ <-; [apply Hprep|].
  destruct Hprep as (? & _ & Hen). apply enable_sets_wf; [done..|]. by apply Hen.
Qed.

Lemma LeRemoveAdvertisingSet_wf handle c :
  advertising_wf c → advertising_wf (snd (LeRemoveAdvertisingSet handle c)).
Proof.
  intros Hc. unfold LeRemoveAdvertisingSet.
  destruct (extended_advertisers_ c !! handle) as [a|] eqn:Ha; [|done].
  destruct (advertising_enable a); [done|]. destruct Hc as [? ? Hs ? Hx ? ?].
  constructor; cbn; try done.
  - by apply map_Forall_delete.
  - rewrite map_size_delete, Ha. cbn. lia.
  - intros _. apply Hx. intros He. by rewrite He, lookup_empty in Ha.
Qed.

Lemma LeClearAdvertisingSets_wf c :
  advertising_wf c → advertising_wf (snd (LeClearAdvertisingSets c)).
Proof.
  intros Hc. unfold LeClearAdvertisingSets. case_match; [done|]. destruct Hc as [? ? Hs ? Hx ? ?].
  constructor; cbn; try done. rewrite map_size_empty. lia.
Qed.

Lemma LeSetPeriodicAdvertisingParameters_wf handle imin imax tx c :
  advertising_wf c → advertising_wf (snd (LeSetPeriodicAdvertisingParameters handle imin imax tx c)).
Proof.
  intros Hc. command LeSetPeriodicAdvertisingParameters.
  match goal with H : _ !! handle = Some ?a |- _ =>
    apply set_advertiser_wf; [done| |done]; destruct (adv_sets c Hc _ _ H) end.
  constructor; cbn; try done. intros Hp. split; [|lia].
  match goal with H : _ → _ ∧ _ |- _ => by apply H end.
Qed.

Lemma LeSetPeriodicAdvertisingData_wf handle op data c :
  advertising_wf c → advertising_wf (snd (LeSetPeriodicAdvertisingData handle op data c)).
Proof.
  intros Hc. unfold LeSetPeriodicAdvertisingData.
  destruct (extended_advertisers_ c !! handle) as [a|] eqn:Ha; [|done].
  destruct (check_periodic_advertising_data a op data); [done|].
  destruct (assemble _ _ _ _) as [new partial]. pose proof (adv_limit c Hc).
  destruct (adv_sets c Hc _ _ Ha) as [? ? ? ? ? (? & ? & ?) ? ? ? ? ? ?].
  destruct (_ <? zlength new) eqn:Hroom; [|destruct (GetMaxPeriodicAdvertisingDataLength _ <? _) eqn:Hfit];
    cbn [snd]; to_prop; (apply set_advertiser_wf; [done| |done]);
    constructor; cbn; rewrite ?zlength_nil; done.
Qed.

Lemma LeSetPeriodicAdvertisingEnable_wf t enable adi handle c :
  advertising_wf c → advertising_wf (snd (LeSetPeriodicAdvertisingEnable t enable adi handle c)).
Proof.
  intros Hc. unfold LeSetPeriodicAdvertisingEnable.
  destruct (extended_advertisers_ c !! handle) as [a|] eqn:Ha; [|done].
  destruct (adv_sets c Hc _ _ Ha).
  repeat case_match; try done; cbn [snd]; to_prop;
    (apply set_advertiser_wf; [done| |done]); by constructor.
Qed.

(** *** The advertising routine *)

(** What the advertising routine may send. *)
Definition pdu_ok (packet : LinkLayerPacket) : Prop :=
  match packet with
  | LeLegacyAdvertisingPdu _ _ _ _ type data =>
      zlength data ≤ max_legacy_advertising_pdu_size ∧
      (type = LegacyAdvertisingType.ADV_DIRECT_IND → data = [])
  | LeExtendedAdvertisingPdu _ _ _ _ connectable scannable _ _ _ _ _ _ data =>
      connectable && scannable = false ∧ zlength data ≤ max_extended_advertising_pdu_size ∧
      (scannable = true → data = []) ∧ (connectable = true → zlength data ≤ 246)
  | LePeriodicAdvertisingPdu _ _ _ _ _ _ data => zlength data ≤ max_extended_advertising_pdu_size
  | _ => False
  end.

Definition output_ok (o : Output) : Prop :=
  match o with
  | SendEvent _ => True
  | ScheduleTask _ (SendToRemote packet _) => pdu_ok packet
  | ScheduleTask _ _ | SendAcl _ _ _ _ | SendIso _ _ _ _ _ | CancelTask _ => False
  end.

Lemma run_event_if_unmasked code e t c :
  event_if_unmasked code e t c =
    Ok ((), c, if le_event_unmasked code c then [SendEvent e] else []).
Proof.
  unfold event_if_unmasked. autorewrite with run. rewrite IsLeEventUnmasked_Ok.
  autorewrite with run. by destruct (le_event_unmasked code c).
Qed.

Lemma run_get_advertiser {B} handle (f : ExtendedAdvertiser → M B) t c a :
  extended_advertisers_ c !! handle = Some a → (get_advertiser handle ≫= f) t c = f a t c.
Proof. intros Ha. unfold get_advertiser. autorewrite with run. rewrite Ha. apply run_lift_Ok. Qed.

(** An enabled set has room for one more event when the count was checked. *)
Definition counted (a : ExtendedAdvertiser) : Prop :=
  advertising_enable a = true → max_extended_advertising_events a ≠ 0 →
  num_completed_extended_advertising_events a < max_extended_advertising_events a.

Lemma event_set_wf limit handle a interval :
  set_wf limit handle a → advertising_enable a = true → counted a →
  set_wf limit handle
    (a <| next_event ::= Z.add interval |>
       <| num_completed_extended_advertising_events ::= λ n, u8 (n + 1) |>).
Proof.
  intros [? ? ? ? ? ? ? ? ? (Hn & Hm & Hle) ? ?] He Hcounted. constructor; cbn; try done.
  split; [by apply wrap_fits|]. split; [done|]. intros Hmax. specialize (Hcounted He Hmax).
  rewrite wrap_id; [lia|]. unfold fits in *. lia.
Qed.

Lemma legacy_pdu_ok limit handle a type :
  set_wf limit handle a → legacy_ (advertising_event_properties a) = true →
  extended_legacy_pdu_type (advertising_event_properties a) = Ok type →
  zlength (advertising_data a) ≤ max_legacy_advertising_pdu_size ∧
  (type = LegacyAdvertisingType.ADV_DIRECT_IND → advertising_data a = []).
Proof.
  intros Ha Hl Ht. split; [by apply (set_legacy _ _ _ Ha)|]. intros ->.
  apply (set_no_data _ _ _ Ha). revert Hl Ht.
  by destruct (advertising_event_properties a) as [[] [] [] [] [] [] [] ? ? ?]; vm_compute.
Qed.

Lemma extended_pdu_ok limit handle a :
  set_wf limit handle a → legacy_ (advertising_event_properties a) = false →
  advertising_enable a = true → pdu_ok (extended_pdu a).
Proof.
  intros Ha Hl He. destruct (set_enabled _ _ _ Ha He) as (_ & _ & Hs).
  split; [by apply (set_extended _ _ _ Ha)|].
  split; [etransitivity; [done|apply GetMaxAdvertisingDataLength_bounds]|]. split.
  - intros Hscan. apply (set_no_data _ _ _ Ha). unfold can_have_advertising_data.
    by rewrite Hl, Hscan.
  - intros Hconn. etransitivity; [done|]. clear -Hl Hconn. revert Hl Hconn.
    destruct (advertising_event_properties a) as [[] [] [] [] [] [] [] ? ? ?]; vm_compute; congruence.
Qed.

(** *** A specification of the routine

    One set advances on its own: its new state, and the number of advertising
    PDUs it sends.  The specification has no order among the sets. *)
Definition set_tick (t : Z) (a : ExtendedAdvertiser) : ExtendedAdvertiser * nat :=
  let a := if advertising_enable a && expired t (timeout a) then Disable a else a in
  let a := if advertising_enable a && negb (max_extended_advertising_events a =? 0) &&
              (max_extended_advertising_events a <=? num_completed_extended_advertising_events a)
           then Disable a else a in
  let '(a, n) :=
    if advertising_enable a && (next_event a <=? t)
    then (a <| next_event ::= Z.add (slots (primary_advertising_interval a)) |>
            <| num_completed_extended_advertising_events ::= λ n, u8 (n + 1) |>, 1%nat)
    else (a, 0%nat) in
  (if periodic_advertising_enable_latch a && (next_periodic_event a <=? t)
   then a <| next_periodic_event ::= Z.add (slots (periodic_advertising_interval a)) |> else a, n).

Definition legacy_tick (t : Z) (a : LegacyAdvertiser) : LegacyAdvertiser * nat :=
  let a := if LegacyAdvertiser.advertising_enable a && expired t (LegacyAdvertiser.timeout a)
           then LegacyAdvertiser.Disable a else a in
  if LegacyAdvertiser.advertising_enable a && (LegacyAdvertiser.next_event a <=? t)
  then (a <| LegacyAdvertiser.next_event := t + slots (LegacyAdvertiser.advertising_interval a) |>,
        1%nat)
  else (a, 0%nat).

Definition is_advertising_pdu (o : Output) : bool :=
  match o with
  | ScheduleTask _ (SendToRemote (LeLegacyAdvertisingPdu _ _ _ _ _ _) _)
  | ScheduleTask _ (SendToRemote (LeExtendedAdvertisingPdu _ _ _ _ _ _ _ _ _ _ _ _ _) _) => true
  | _ => false
  end.
Definition sent (out : list Output) : nat := length (filter (λ o, is_advertising_pdu o = true) out).

Lemma sent_app o o' : sent (o ++ o') = (sent o + sent o')%nat.
Proof. unfold sent. by rewrite filter_app, length_app. Qed.

(** [m] makes the set of a handle advance by [f], sends [n a] PDUs, and changes
    nothing else. *)
Definition refines_set (m : M ()) (handle : Z) (f : ExtendedAdvertiser → ExtendedAdvertiser)
    (n : ExtendedAdvertiser → nat) (t : Z) (a : ExtendedAdvertiser) : Prop :=
  ∀ c, extended_advertisers_ c !! handle = Some a →
  ∃ out, m t c = Ok ((), c <| extended_advertisers_ ::= <[handle := f a]> |>, out) ∧
    sent out = n a ∧ Forall output_ok out.

Lemma refines_set_seq m m' handle f f' n n' t a :
  refines_set m handle f n t a → refines_set m' handle f' n' t (f a) →
  refines_set (m ≫= λ _, m') handle (λ a, f' (f a)) (λ a, n a + n' (f a))%nat t a.
Proof.
  intros H1 H2 c Ha. destruct (H1 c Ha) as (o1 & E1 & S1 & Q1).
  destruct (H2 (c <| extended_advertisers_ ::= <[handle := f a]> |>)) as (o2 & E2 & S2 & Q2).
  { cbn. apply lookup_insert_eq. }
  exists (o1 ++ o2). erewrite run_bind, E2 by done. cbn. rewrite sent_app, S1, S2.
  rewrite insert_insert_eq. split; [done|]. split; [done|]. by apply Forall_app.
Qed.

(** A conditional step that updates the set and then runs something that leaves
    the controller alone. *)
Lemma refines_set_when (b : bool) handle g (k : () → M ()) n t a :
  (b = true → ∀ c, ∃ out, k () t c = Ok ((), c, out) ∧ sent out = n ∧ Forall output_ok out) →
  refines_set (λ t c, when b (update_advertiser handle g ≫= k) t c) handle
    (λ a, if b then g a else a) (λ _, if b then n else 0%nat) t a.
Proof.
  intros Hk c Ha. destruct b; cbn [when].
  - unfold update_advertiser. autorewrite with run.
    destruct (Hk eq_refl (c <| extended_advertisers_ ::= alter g handle |>)) as (out & -> & Hs & Hq).
    exists out. split; [|done]. do 2 f_equal. cbn. by erewrite alter_Some.
  - exists []. split; [|done]. cbn. rewrite insert_id by done. by destruct c.
Qed.

(** Leaves the proof that the body of the test sends [n] PDUs. *)
Ltac refine_when n a Ha :=
  lazymatch goal with
  | |- context [when ?b (update_advertiser ?h ?g ≫= ?k) ?t ?c] =>
      let Hk := fresh "Hk" in
      assert (b = true →
        ∀ c, ∃ out, k () t c = Ok ((), c, out) ∧ sent out = n ∧ Forall output_ok out) as Hk;
      [|exact (refines_set_when b h g k n t a Hk c Ha)]
  end.

Lemma extended_advertising_timeout_refines handle t a :
  refines_set (extended_advertising_timeout handle) handle
    (λ a, if advertising_enable a && expired t (timeout a) then Disable a else a)
    (λ a, if advertising_enable a && expired t (timeout a) then 0%nat else 0%nat) t a.
Proof.
  intros c Ha. unfold extended_advertising_timeout. autorewrite with run.
  rewrite (run_get_advertiser _ _ _ _ _ Ha). refine_when 0%nat a Ha.
  intros _ c1. autorewrite with run. rewrite IsLeEventUnmasked_Ok. autorewrite with run.
  rewrite IsLeEventUnmasked_Ok. autorewrite with run.
  destruct (directed_ _ && _ && _), (le_event_unmasked _ c1), (le_event_unmasked _ c1);
    cbn [andb when]; unfold send_event_; autorewrite with run; rewrite run_event_if_unmasked;
    cbn; (eexists; split; [reflexivity|]);
    destruct (le_event_unmasked _ c1); by repeat constructor.
Qed.

Definition count_reached (a : ExtendedAdvertiser) : bool :=
  advertising_enable a && negb (max_extended_advertising_events a =? 0) &&
  (max_extended_advertising_events a <=? num_completed_extended_advertising_events a).

Lemma extended_advertising_count_refines handle t a :
  refines_set (extended_advertising_count handle) handle
    (λ a, if count_reached a then Disable a else a)
    (λ a, if count_reached a then 0%nat else 0%nat) t a.
Proof.
  intros c Ha. unfold extended_advertising_count.
  rewrite (run_get_advertiser _ _ _ _ _ Ha). refine_when 0%nat a Ha.
  intros _ c1. rewrite run_event_if_unmasked.
  eexists. split; [reflexivity|]. destruct (le_event_unmasked _ c1); by repeat constructor.
Qed.

Definition event_due (t : Z) (a : ExtendedAdvertiser) : bool :=
  advertising_enable a && (next_event a <=? t).

Lemma extended_advertising_event_refines limit handle t a :
  set_wf limit handle a →
  refines_set (extended_advertising_event handle) handle
    (λ a, if event_due t a then
       a <| next_event ::= Z.add (slots (primary_advertising_interval a)) |>
         <| num_completed_extended_advertising_events ::= λ n, u8 (n + 1) |> else a)
    (λ a, if event_due t a then 1%nat else 0%nat) t a.
Proof.
  intros Hwf c Ha. unfold extended_advertising_event. autorewrite with run.
  rewrite (run_get_advertiser _ _ _ _ _ Ha). refine_when 1%nat a Ha.
  intros [He _]%andb_true_iff c1. destruct (legacy_ _) eqn:Hl.
  - destruct (set_legacy _ _ _ Hwf Hl) as (Hok & _).
    destruct (extended_legacy_pdu_type _) as [type| | |] eqn:Ht; [|done..].
    autorewrite with run. eexists. split; [reflexivity|]. split; [done|].
    constructor; [|done]. by apply (legacy_pdu_ok _ _ _ type Hwf).
  - eexists. split; [reflexivity|]. split; [done|].
    constructor; [|done]. by apply (extended_pdu_ok _ _ _ Hwf).
Qed.

Lemma periodic_advertising_event_refines limit handle t a :
  set_wf limit handle a →
  refines_set (periodic_advertising_event handle) handle
    (λ a, if periodic_advertising_enable_latch a && (next_periodic_event a <=? t)
       then a <| next_periodic_event ::= Z.add (slots (periodic_advertising_interval a)) |> else a)
    (λ a, if periodic_advertising_enable_latch a && (next_periodic_event a <=? t)
          then 0%nat else 0%nat) t a.
Proof.
  intros Hwf c Ha. unfold periodic_advertising_event. autorewrite with run.
  rewrite (run_get_advertiser _ _ _ _ _ Ha). refine_when 0%nat a Ha.
  intros _ c1. eexists. split; [reflexivity|]. split; [done|].
  constructor; [|done]. cbn. by destruct Hwf.
Qed.

(** One set after the checks of its timeout and of its count, and after its
    event. *)
Lemma checks_wf limit handle t a :
  set_wf limit handle a →
  let a1 := if advertising_enable a && expired t (timeout a) then Disable a else a in
  let a2 := if count_reached a1 then Disable a1 else a1 in
  set_wf limit handle a2 ∧ counted a2.
Proof.
  intros Ha. cbv zeta.
  set (a1 := if _ : bool then Disable a else a).
  assert (set_wf limit handle a1) as Ha1 by (unfold a1; case_match; [by apply Disable_wf|done]).
  clearbody a1. destruct (count_reached a1) eqn:Hb; [by split; [apply Disable_wf|]|].
  split; [done|]. intros He Hm. unfold count_reached in Hb. rewrite He in Hb.
  apply andb_false_iff in Hb as [Hb|Hb]; to_prop; [cbn in Hb; by to_prop|lia].
Qed.

Lemma event_wf limit handle t a :
  set_wf limit handle a → counted a →
  set_wf limit handle
    (if event_due t a then
       a <| next_event ::= Z.add (slots (primary_advertising_interval a)) |>
         <| num_completed_extended_advertising_events ::= λ n, u8 (n + 1) |> else a).
Proof.
  intros Ha Hc. destruct (event_due t a) eqn:Hb; [|done].
  apply andb_true_iff in Hb as [He _]. by apply event_set_wf.
Qed.

Lemma set_tick_wf limit handle t a :
  set_wf limit handle a → set_wf limit handle (fst (set_tick t a)).
Proof.
  intros Ha. destruct (checks_wf limit handle t a Ha) as [Ha2 Hc2].
  pose proof (event_wf limit handle t _ Ha2 Hc2) as Ha3.
  unfold set_tick, count_reached, event_due in *. cbv zeta in *.
  set (a2 := if _ : bool then Disable _ else _) in *. clearbody a2.
  destruct (advertising_enable a2 && _); cbn [fst] in *;
    (case_match; [|done]); destruct Ha3; by constructor.
Qed.

Lemma extended_advertiser_tick_refines limit handle t a :
  set_wf limit handle a →
  refines_set (extended_advertiser_tick handle) handle
    (λ a, fst (set_tick t a)) (λ a, snd (set_tick t a)) t a.
Proof.
  intros Ha c Hin. destruct (checks_wf limit handle t a Ha) as [Ha2 Hc2].
  pose proof (event_wf limit handle t _ Ha2 Hc2) as Ha3.
  pose proof (extended_advertising_timeout_refines handle t a) as H1.
  eapply refines_set_seq in H1; [|eapply refines_set_seq; [apply extended_advertising_count_refines|
    eapply refines_set_seq; [by eapply extended_advertising_event_refines|
    by eapply periodic_advertising_event_refines]]].
  destruct (H1 c Hin) as (out & E & Hs & Hq). exists out. unfold extended_advertiser_tick. rewrite E.
  unfold set_tick, event_due, count_reached in *. cbv beta in Hs |- *.
  repeat (case_match; cbn [fst snd] in *; try done); split; done || lia.
Qed.

Lemma legacy_advertising_refines t c :
  ∃ out, (legacy_advertising_timeout ≫= λ _, legacy_advertising_event) t c =
    Ok ((), c <| legacy_advertiser_ ::= λ a, fst (legacy_tick t a) |>, out) ∧
  sent out = snd (legacy_tick t (legacy_advertiser_ c)) ∧
  (legacy_wf (legacy_advertiser_ c) → Forall output_ok out).
Proof.
  unfold legacy_advertising_timeout. autorewrite with run.
  assert (∀ c, ∃ out, legacy_advertising_event t c =
    Ok ((), c <| legacy_advertiser_ ::= λ a,
          if LegacyAdvertiser.advertising_enable a && (LegacyAdvertiser.next_event a <=? t)
          then a <| LegacyAdvertiser.next_event :=
                      t + slots (LegacyAdvertiser.advertising_interval a) |> else a |>, out) ∧
    sent out = (if LegacyAdvertiser.advertising_enable (legacy_advertiser_ c) &&
                   (LegacyAdvertiser.next_event (legacy_advertiser_ c) <=? t) then 1%nat else 0%nat) ∧
    (legacy_wf (legacy_advertiser_ c) → Forall output_ok out)) as Hevent.
  { intros c1. unfold legacy_advertising_event. autorewrite with run.
    unfold LegacyAdvertiser.IsEnabled. destruct (_ && _) eqn:Hb; cbn [when].
    2: { exists []. split; [|done]. cbn. rewrite Hb. by destruct c1. }
    unfold update_legacy. autorewrite with run. eexists. split; [cbn; by rewrite Hb|].
    split; [done|]. intros [[Hs _] _ _ _]. constructor; [|done]. cbn.
    split; [by destruct (LegacyAdvertiser.IsDirected _)|].
    unfold legacy_pdu_type, LegacyAdvertiser.IsDirected.
    by destruct (LegacyAdvertiser.advertising_type _). }
  unfold LegacyAdvertiser.IsEnabled. destruct (_ && expired _ _) eqn:Hb; cbn [when].
  - unfold update_legacy. autorewrite with run. erewrite run_bind by apply run_event_if_unmasked.
    match goal with |- context [emit _ (legacy_advertising_event t ?c1)] => destruct (Hevent c1) as (out & E & Hs & Hok) end.
    rewrite E. eexists. split; [cbn; unfold legacy_tick; rewrite Hb; reflexivity|].
    rewrite sent_app, Hs. unfold legacy_tick. rewrite Hb. cbn. split; [by destruct (le_event_unmasked _ _)|].
    intros Hwf. apply Forall_app. split; [by destruct (le_event_unmasked _ _); repeat constructor|].
    apply Hok. cbn. destruct Hwf. by constructor.
  - autorewrite with run. destruct (Hevent c) as (out & E & Hs & Hok). exists out. rewrite E, Hs.
    cbn. unfold legacy_tick. rewrite Hb. by destruct (_ && (_ <=? t)).
Qed.

Lemma extended_advertising_loop t handles c limit :
  map_Forall (set_wf limit) (extended_advertisers_ c) → NoDup handles →
  (∀ h, h ∈ handles → is_Some (extended_advertisers_ c !! h)) →
  ∃ out m, for_each handles extended_advertiser_tick t c =
    Ok ((), c <| extended_advertisers_ := m |>, out) ∧
  (∀ h, m !! h = (if decide (h ∈ handles) then λ a, fst (set_tick t a) else id)
                   <$> extended_advertisers_ c !! h) ∧
  sent out = sum_list ((λ h, from_option (λ a, snd (set_tick t a)) 0%nat
                                (extended_advertisers_ c !! h)) <$> handles) ∧
  Forall output_ok out.
Proof.
  revert c. induction handles as [|h handles IH]; intros c Hwf Hnd Hin; cbn.
  { exists [], (extended_advertisers_ c). split; [by destruct c|]. split; [|done].
    intros k. rewrite decide_False by apply not_elem_of_nil. by destruct (_ !! k). }
  apply NoDup_cons in Hnd as [Hh Hnd]. destruct (Hin h) as [a Ha]; [by left|].
  destruct (extended_advertiser_tick_refines limit h t a (Hwf _ _ Ha) c Ha) as (o1 & E1 & S1 & Q1).
  set (c1 := c <| extended_advertisers_ ::= <[h:=(set_tick t a).1]> |>) in *.
  assert (∀ k, k ≠ h → extended_advertisers_ c1 !! k = extended_advertisers_ c !! k) as Hother.
  { intros k Hk. cbn. by apply lookup_insert_ne. }
  destruct (IH c1) as (o2 & m & E2 & Hm & S2 & Q2); [|done| |].
  { apply map_Forall_insert_2; [|done]. by apply set_tick_wf, Hwf. }
  { intros k Hk. rewrite Hother; [apply Hin; by right|congruence]. }
  exists (o1 ++ o2), m. erewrite run_bind, E2 by done. split; [done|]. split; [|split].
  - intros k. rewrite Hm. destruct (decide (k = h)) as [->|Hk].
    + rewrite decide_False, decide_True by (done || by left). cbn.
      by rewrite lookup_insert_eq, Ha.
    + rewrite Hother by done. destruct (decide (k ∈ handles)).
      * by rewrite decide_True by (by right).
      * rewrite decide_False; [done|]. by intros [?|?]%elem_of_cons.
  - rewrite sent_app, S1, S2, Ha. cbn. f_equal. f_equal. apply list_fmap_ext.
    intros i k Hk%list_elem_of_lookup_2. rewrite Hother; [done|congruence].
  - by apply Forall_app.
Qed.

Lemma sum_list_iterate {A} (f : A → nat) (m : gmap Z A) :
  sum_list ((λ h, from_option f 0%nat (m !! h)) <$> (fst <$> iterate m)) =
  sum_list ((λ '(_, a), f a) <$> map_to_list m).
Proof.
  rewrite <-list_fmap_compose.
  transitivity (sum_list ((λ '(_, a), f a) <$> iterate m)).
  - f_equal. apply list_fmap_ext. intros i [h a] Hin%list_elem_of_lookup_2. cbn.
    apply elem_of_iterate in Hin. by rewrite Hin.
  - by rewrite (iterate_perm m).
Qed.

(** The whole routine, in whatever order it visits the sets. *)
Lemma LeAdvertising_run t c :
  advertising_wf c →
  ∃ out, LeAdvertising t c =
    Ok ((), c <| legacy_advertiser_ ::= λ a, fst (legacy_tick t a) |>
              <| extended_advertisers_ ::= fmap (λ a, fst (set_tick t a)) |>, out) ∧
  sent out = (snd (legacy_tick t (legacy_advertiser_ c)) +
    sum_list ((λ '(_, a), snd (set_tick t a)) <$> map_to_list (extended_advertisers_ c)))%nat ∧
  Forall output_ok out.
Proof.
  intros Hc. destruct (legacy_advertising_refines t c) as (o1 & E1 & S1 & Q1).
  set (c1 := c <| legacy_advertiser_ ::= _ |>) in *.
  destruct (extended_advertising_loop t (fst <$> iterate (extended_advertisers_ c1)) c1
    (le_max_advertising_data_length (properties_ c))) as (o2 & m & E2 & Hm & S2 & Q2).
  { apply Hc. }
  { rewrite iterate_perm. apply NoDup_fst_map_to_list. }
  { intros h ([k a] & -> & Hin)%list_elem_of_fmap. apply elem_of_iterate in Hin. by eexists. }
  assert (m = (λ a, fst (set_tick t a)) <$> extended_advertisers_ c) as ->.
  { apply map_eq. intros h. rewrite Hm, lookup_fmap. cbn.
    destruct (extended_advertisers_ c !! h) as [a|] eqn:Ha; [|done].
    rewrite decide_True; [done|]. apply list_elem_of_fmap. exists (h, a). split; [done|].
    by apply elem_of_iterate. }
  exists (o1 ++ o2). split.
  - unfold LeAdvertising. rewrite <-run_assoc. erewrite run_bind by exact E1.
    by rewrite run_gets, E2.
  - rewrite sent_app, S1, S2. split; [|apply Forall_app; split; [by apply Q1, Hc|done]].
    f_equal. apply (sum_list_iterate (λ a, snd (set_tick t a))).
Qed.

Lemma legacy_tick_wf t a : legacy_wf a → legacy_wf (fst (legacy_tick t a)).
Proof.
  intros [? ? ? ?]. unfold legacy_tick. destruct (_ && expired _ _); cbn; [by constructor|].
  destruct (_ && _); by constructor.
Qed.

Lemma legacy_tick_disabled t a :
  LegacyAdvertiser.advertising_enable (fst (legacy_tick t a)) = true →
  LegacyAdvertiser.advertising_enable a = true.
Proof. unfold legacy_tick. destruct (_ && expired _ _); cbn; [done|]. by destruct (_ && _). Qed.

Lemma LeAdvertising_wf t c c' out :
  advertising_wf c → LeAdvertising t c = Ok ((), c', out) → advertising_wf c'.
Proof.
  intros Hc E. destruct (LeAdvertising_run t c Hc) as (o & E' & _ & _).
  assert (c' = c <| legacy_advertiser_ ::= λ a, fst (legacy_tick t a) |>
                  <| extended_advertisers_ ::= fmap (λ a, fst (set_tick t a)) |>) as -> by congruence.
  apply (fmap_sets_wf (λ a, fst (set_tick t a)) (c <| legacy_advertiser_ ::= λ a, fst (legacy_tick t a) |>)).
  - apply (legacy_advertiser_wf c); [done|by apply legacy_tick_wf, Hc|].
    intros He%legacy_tick_disabled. by apply Hc.
  - intros limit handle a. apply set_tick_wf.
Qed.

(** C20. From a controller that satisfies the invariant, one run of the
    advertising routine returns (the default case of its switch, which stops the
    process, is not reached), whatever the order of the hash table; every set
    advances as the specification [set_tick] says, and the legacy advertiser as
    [legacy_tick], independently of each other, with that many advertising PDUs
    sent; no PDU carries more data than its kind allows, none is both connectable
    and scannable, directed legacy ones carry none; the invariant holds again. *)
Theorem LeAdvertising_refines (t : Z) (c : LeController) (Hc : advertising_wf c) :
  ∃ c' out, LeAdvertising t c = Ok ((), c', out) ∧
  c' = c <| legacy_advertiser_ ::= λ a, fst (legacy_tick t a) |>
         <| extended_advertisers_ ::= fmap (λ a, fst (set_tick t a)) |> ∧
  sent out = (snd (legacy_tick t (legacy_advertiser_ c)) +
    sum_list ((λ '(_, a), snd (set_tick t a)) <$> map_to_list (extended_advertisers_ c)))%nat ∧
  Forall output_ok out ∧ advertising_wf c'.
Proof.
  destruct (LeAdvertising_run t c Hc) as (out & E & Hs & Hq).
  eexists _, out. split; [exact E|]. split; [done|]. split; [done|]. split; [done|].
  by eapply LeAdvertising_wf.
Qed.

(** The routine at successive times. *)
Fixpoint run_ticks (ts : list Z) (c : LeController) : outcome (LeController * list Output) :=
  match ts with
  | [] => Ok (c, [])
  | t :: ts =>
      '(_, c, out) ← LeAdvertising t c;
      '(c, out') ← run_ticks ts c;
      Ok (c, out ++ out')
  end.

(** Times each at or after the one at which an event is due. *)
Fixpoint spaced (next interval : Z) (ts : list Z) : Prop :=
  match ts with
  | [] => True
  | t :: ts => next ≤ t ∧ spaced (next + interval) interval ts
  end.

Lemma set_tick_counts limit handle t a :
  set_wf limit handle a → max_extended_advertising_events a ≠ 0 →
  let '(a', n) := set_tick t a in
  max_extended_advertising_events a' = max_extended_advertising_events a ∧
  primary_advertising_interval a' = primary_advertising_interval a ∧
  num_completed_extended_advertising_events a' =
    num_completed_extended_advertising_events a + Z.of_nat n ∧
  (advertising_enable a = false → advertising_enable a' = false) ∧
  (next_event a ≤ t → advertising_enable a' = true →
   n = 1%nat ∧ next_event a' = next_event a + slots (primary_advertising_interval a)).
Proof.
  intros Ha Hmax. destruct (checks_wf limit handle t a Ha) as [Ha2 Hc2].
  assert (∀ a2, (a2 = a ∨ a2 = Disable a) → set_wf limit handle a2 → counted a2 →
    let '(a3, n) :=
      if advertising_enable a2 && (next_event a2 <=? t)
      then (a2 <| next_event ::= Z.add (slots (primary_advertising_interval a2)) |>
               <| num_completed_extended_advertising_events ::= λ n, u8 (n + 1) |>, 1%nat)
      else (a2, 0%nat) in
    max_extended_advertising_events a3 = max_extended_advertising_events a ∧
    primary_advertising_interval a3 = primary_advertising_interval a ∧
    num_completed_extended_advertising_events a3 =
      num_completed_extended_advertising_events a + Z.of_nat n ∧
    (advertising_enable a = false → advertising_enable a3 = false) ∧
    (next_event a ≤ t → advertising_enable a3 = true →
     n = 1%nat ∧ next_event a3 = next_event a + slots (primary_advertising_interval a))) as Hevent.
  { intros a2 [-> | ->] Hwf Hcounted; cbn.
    - destruct (advertising_enable a) eqn:He; cbn.
      + destruct (next_event a <=? t) eqn:Ht; cbn; to_prop; repeat split; try lia.
        rewrite wrap_id; [done|]. destruct (set_events _ _ _ Hwf) as (? & ? & _).
        specialize (Hcounted He Hmax). unfold fits in *. lia.
      + repeat split; try lia; congruence.
    - repeat split; try lia; congruence. }
  unfold set_tick, count_reached in *. cbv zeta in *.
  set (a1 := if advertising_enable a && _ then Disable a else a) in *.
  set (a2 := if _ : bool then Disable a1 else a1) in *.
  assert (a2 = a ∨ a2 = Disable a) as H2.
  { unfold a2, a1. repeat case_match; auto. }
  specialize (Hevent a2 H2 Ha2 Hc2).
  destruct (if advertising_enable a2 && _ then _ else _) as [a3 n]. by case_match.
Qed.

Lemma legacy_tick_off t a :
  LegacyAdvertiser.advertising_enable a = false → legacy_tick t a = (a, 0%nat).
Proof. intros H. unfold legacy_tick. rewrite H. cbn. by rewrite H. Qed.

Lemma run_ticks_counts h ts c a :
  advertising_wf c → extended_advertisers_ c !! h = Some a →
  max_extended_advertising_events a ≠ 0 →
  ∃ c' out a', run_ticks ts c = Ok (c', out) ∧ extended_advertisers_ c' !! h = Some a' ∧
  num_completed_extended_advertising_events a ≤ num_completed_extended_advertising_events a'
    ≤ max_extended_advertising_events a ∧
  (advertising_enable a = false ∨
   (spaced (next_event a) (slots (primary_advertising_interval a)) ts ∧
    max_extended_advertising_events a - num_completed_extended_advertising_events a < zlength ts) →
   advertising_enable a' = false) ∧
  (extended_advertisers_ c = {[h := a]} →
   LegacyAdvertiser.advertising_enable (legacy_advertiser_ c) = false →
   Z.of_nat (sent out) = num_completed_extended_advertising_events a'
                         - num_completed_extended_advertising_events a).
Proof.
  revert c a. induction ts as [|t ts IH]; intros c a Hc Ha Hmax.
  { exists c, [], a. split; [done|]. split; [done|].
    destruct (set_events _ _ _ (adv_sets c Hc _ _ Ha)) as (_ & _ & Hle). specialize (Hle Hmax).
    split; [lia|]. split; [|by cbn; lia]. rewrite zlength_nil. intros [?|[_ ?]]; [done|lia]. }
  destruct (LeAdvertising_run t c Hc) as (o1 & E1 & S1 & _).
  pose proof (LeAdvertising_wf _ _ _ _ Hc E1) as Hc1. set (c1 := _ <| extended_advertisers_ ::= _ |>) in *.
  pose proof (set_tick_counts _ _ t a (adv_sets c Hc _ _ Ha) Hmax) as Hstep.
  assert (extended_advertisers_ c1 !! h = Some (fst (set_tick t a))) as Ha1
    by (cbn; by rewrite lookup_fmap, Ha).
  destruct (set_tick t a) as [a1 n] eqn:Ht. cbn [fst] in Ha1.
  destruct Hstep as (Hm1 & Hi1 & Hn1 & Hoff1 & Hon1).
  destruct (IH c1 a1 Hc1 Ha1) as (c2 & o2 & a2 & E2 & Ha2 & Hn2 & Hoff2 & Hs2); [congruence|].
  exists c2, (o1 ++ o2), a2. split; [cbn; by rewrite E1; cbn; rewrite E2|]. split; [done|].
  split; [lia|]. split.
  - intros Hoff. apply Hoff2. destruct (advertising_enable a1) eqn:He1; [right|by left].
    destruct Hoff as [Hoff|[[Hnext Hspaced] Hlen]]; [apply Hoff1 in Hoff; congruence|].
    destruct (Hon1 Hnext eq_refl) as [-> Hnext1]. rewrite Hnext1, Hi1. split; [done|].
    rewrite zlength_cons in Hlen. lia.
  - intros Hsingle Hlegacy. rewrite sent_app, S1, Hsingle, map_to_list_singleton, legacy_tick_off by done.
    cbn. rewrite Ht. cbn. rewrite Nat.add_0_r, Nat2Z.inj_add, Hs2; [lia| |].
    + cbn. by rewrite Hsingle, map_fmap_singleton, Ht.
    + cbn. by rewrite legacy_tick_off.
Qed.

(** C21. A set enabled with a maximum number of advertising events: however often
    and whenever the routine runs it always returns, and the set never completes
    more events than the maximum; if the routine runs after each event is due,
    the set is disabled after at most one run more than the events it had left;
    when it is the only advertiser, the PDUs sent are the events completed. *)
Theorem advertising_event_count (ts : list Z) (c : LeController) (h : Z) (a : ExtendedAdvertiser)
    (Hc : advertising_wf c) (Ha : extended_advertisers_ c !! h = Some a)
    (Hmax : max_extended_advertising_events a ≠ 0) :
  ∃ c' out a', run_ticks ts c = Ok (c', out) ∧ extended_advertisers_ c' !! h = Some a' ∧
  num_completed_extended_advertising_events a ≤ num_completed_extended_advertising_events a'
    ≤ max_extended_advertising_events a ∧
  (spaced (next_event a) (slots (primary_advertising_interval a)) ts →
   max_extended_advertising_events a - num_completed_extended_advertising_events a < zlength ts →
   advertising_enable a' = false) ∧
  (extended_advertisers_ c = {[h := a]} →
   LegacyAdvertiser.advertising_enable (legacy_advertiser_ c) = false →
   Z.of_nat (sent out) = num_completed_extended_advertising_events a'
                         - num_completed_extended_advertising_events a).
Proof.
  destruct (run_ticks_counts h ts c a Hc Ha Hmax) as (c' & out & a' & ? & ? & ? & Hoff & ?).
  exists c', out, a'. do 3 (split; [done|]). split; [|done]. intros. apply Hoff. auto.
Qed.

(** *** Data in fragments *)

(** A sequence of data commands: their statuses, and the controller. *)
Fixpoint run_data (h : Z) (pref : FragmentPreference.t) (ops : list (Operation.t * list Z))
    (c : LeController) : list ErrorCode.t * LeController :=
  match ops with
  | [] => ([], c)
  | (op, data) :: ops =>
      let '(status, c) := LeSetExtendedAdvertisingData h op pref data c in
      let '(statuses, c) := run_data h pref ops c in
      (status :: statuses, c)
  end.

Definition fragments (first : list Z) (middle : list (list Z)) (last : list Z)
  : list (Operation.t * list Z) :=
  (Operation.FIRST_FRAGMENT, first) ::
  ((λ f, (Operation.INTERMEDIATE_FRAGMENT, f)) <$> middle) ++ [(Operation.LAST_FRAGMENT, last)].

(** An extended set that is not enabled takes a fragment. *)
Lemma LeSetExtendedAdvertisingData_fragment h pref op data c a :
  legacy_advertising_in_use_ c = false → extended_advertisers_ c !! h = Some a →
  advertising_enable a = false → legacy_ (advertising_event_properties a) = false →
  scannable_ (advertising_event_properties a) = false →
  op = Operation.COMPLETE_ADVERTISEMENT ∨ (op ≠ Operation.UNCHANGED_DATA ∧ data ≠ []) →
  let '(new, partial) := assemble op data (advertising_data a) (partial_advertising_data a) in
  zlength new ≤ le_max_advertising_data_length (properties_ c) →
  LeSetExtendedAdvertisingData h op pref data c =
    (ErrorCode.SUCCESS,
     set_advertiser h (a <| advertising_data := new |> <| partial_advertising_data := partial |>)
       (c <| extended_advertising_in_use_ := true |>)).
Proof.
  intros Hl Ha He Hx Hs Hop. destruct (assemble _ _ _ _) as [new partial] eqn:Hnew. intros Hlen.
  unfold LeSetExtendedAdvertisingData, SelectExtendedAdvertising. rewrite Hl. cbn [negb].
  cbn. rewrite Ha.
  assert (check_advertising_data a op data = None) as ->.
  { unfold check_advertising_data, can_have_advertising_data, is_op. rewrite Hx, Hs, He. cbn.
    destruct Hop as [-> |[Hop Hd]]; [done|]. rewrite (bool_decide_false (op = _)) by done. cbn.
    destruct data; [done|]. by rewrite andb_false_r. }
  rewrite Hnew, He. cbn. by rewrite (proj2 (Z.ltb_ge _ _)).
Qed.

Lemma concat_length_le (fs : list (list Z)) f : zlength f ≤ zlength (f ++ concat fs).
Proof. rewrite zlength_app. pose proof (zlength_nonneg (concat fs)). lia. Qed.

Lemma run_data_middle h pref last middle c a :
  legacy_advertising_in_use_ c = false → extended_advertisers_ c !! h = Some a →
  advertising_enable a = false → legacy_ (advertising_event_properties a) = false →
  scannable_ (advertising_event_properties a) = false →
  Forall (λ f, f ≠ []) (middle ++ [last]) →
  zlength (advertising_data a ++ concat (middle ++ [last]))
    ≤ le_max_advertising_data_length (properties_ c) →
  run_data h pref (((λ f, (Operation.INTERMEDIATE_FRAGMENT, f)) <$> middle)
                     ++ [(Operation.LAST_FRAGMENT, last)]) c =
    (replicate (length middle + 1) ErrorCode.SUCCESS,
     set_advertiser h (a <| advertising_data := advertising_data a ++ concat (middle ++ [last]) |>
                         <| partial_advertising_data := false |>)
       (c <| extended_advertising_in_use_ := true |>)).
Proof.
  revert c a. induction middle as [|f middle IH]; intros c a Hl Ha He Hx Hs Hne Hlen; cbn.
  - cbn in Hne, Hlen. apply Forall_cons_1 in Hne as [Hne _]. rewrite app_nil_r in *.
    pose proof (LeSetExtendedAdvertisingData_fragment h pref Operation.LAST_FRAGMENT last c a) as E.
    cbn in E. rewrite E; [done|done|done|done|done|done| |done].
    right. by split.
  - apply Forall_cons_1 in Hne as [Hf Hne]. cbn in Hlen. rewrite app_assoc in Hlen.
    pose proof (LeSetExtendedAdvertisingData_fragment h pref Operation.INTERMEDIATE_FRAGMENT f c a) as E.
    cbn in E. rewrite E; [|done|done|done|done|done|right; by split|].
    2: { etransitivity; [apply (concat_length_le (middle ++ [last]))|done]. }
    rewrite (IH _ (a <| advertising_data := advertising_data a ++ f |> <| partial_advertising_data := true |>));
      [|done|cbn; apply lookup_insert_eq|done..].
    f_equal. unfold set_advertiser. cbn. by rewrite insert_insert_eq, app_assoc.
Qed.

(** Advertising data sent to an extended set in fragments, however it is
    cut, is the data sent in one command: every command succeeds and the
    controller ends in the same state, when the set is not enabled, no fragment
    is empty, and the whole fits the capacity of the set. *)
Theorem advertising_data_fragments (h : Z) (pref : FragmentPreference.t) (c : LeController)
    (a : ExtendedAdvertiser) (first last : list Z) (middle : list (list Z))
    (Hl : legacy_advertising_in_use_ c = false) (Ha : extended_advertisers_ c !! h = Some a)
    (He : advertising_enable a = false) (Hx : legacy_ (advertising_event_properties a) = false)
    (Hs : scannable_ (advertising_event_properties a) = false)
    (Hne : Forall (λ f, f ≠ []) (first :: middle ++ [last]))
    (Hlen : zlength (concat (first :: middle ++ [last]))
            ≤ le_max_advertising_data_length (properties_ c)) :
  run_data h pref (fragments first middle last) c =
    (replicate (length middle + 2) ErrorCode.SUCCESS,
     snd (LeSetExtendedAdvertisingData h Operation.COMPLETE_ADVERTISEMENT pref
            (concat (first :: middle ++ [last])) c)) ∧
  fst (LeSetExtendedAdvertisingData h Operation.COMPLETE_ADVERTISEMENT pref
         (concat (first :: middle ++ [last])) c) = ErrorCode.SUCCESS.
Proof.
  apply Forall_cons_1 in Hne as [Hf Hne]. cbn [concat] in *.
  pose proof (LeSetExtendedAdvertisingData_fragment h pref Operation.COMPLETE_ADVERTISEMENT
    (first ++ concat (middle ++ [last])) c a) as Ec. cbn in Ec.
  rewrite Ec by (done || by left).
  split; [|done]. unfold fragments. cbn [run_data snd].
  pose proof (LeSetExtendedAdvertisingData_fragment h pref Operation.FIRST_FRAGMENT first c a) as E.
  cbn in E. rewrite E; [|done|done|done|done|done|right; by split|].
  2: { etransitivity; [apply concat_length_le|done]. }
  rewrite (run_data_middle h pref last middle _ (a <| advertising_data := first |>
    <| partial_advertising_data := true |>)); [|done|cbn; apply lookup_insert_eq|done..].
  replace (length middle + 2)%nat with (S (length middle + 1)) by lia. cbn. f_equal.
  unfold set_advertiser. cbn. by rewrite insert_insert_eq.
Qed.

(** *** Enabling sets *)

Definition handles (sets : list EnabledSet) : list Z := advertising_handle_ <$> sets.

Lemma check_handles_spec used sets m :
  match check_handles used sets m with
  | Ok None => NoDup (handles sets) ∧ Forall (λ h, h ∉ used ∧ is_Some (m !! h)) (handles sets)
  | Ok (Some status) => status ≠ ErrorCode.SUCCESS
  | Undef => ∃ h, h ∈ handles sets ∧ 255 ≤ h
  | Fatal | Hang => False
  end.
Proof.
  revert used. induction sets as [|set sets IH]; intros used; cbn.
  { split; constructor. }
  unfold read_used. destruct (_ <? 255) eqn:H255; cbn.
  2: { exists (advertising_handle_ set). split; [left|]. by to_prop. }
  case_bool_decide as Hused; [done|]. destruct (m !! advertising_handle_ set) as [a|] eqn:Ha; [|done].
  specialize (IH ({[advertising_handle_ set]} ∪ used)).
  destruct (check_handles _ sets m) as [[status|]| | |]; [done| |done| |done].
  - destruct IH as [Hnd Hall]. split.
    + constructor; [|done]. intros Hin. rewrite Forall_forall in Hall. apply Hall in Hin. set_solver.
    + constructor; [by split; [|eexists]|]. eapply Forall_impl; [exact Hall|]. cbn. set_solver.
  - destruct IH as (h & Hin & Hh). exists h. split; [by right|done].
Qed.

(** What enabling and disabling leave alone. *)
Definition same_content (a b : ExtendedAdvertiser) : Prop :=
  advertising_data a = advertising_data b ∧
  advertising_event_properties a = advertising_event_properties b ∧
  partial_advertising_data a = partial_advertising_data b ∧
  partial_scan_response_data a = partial_scan_response_data b.

Lemma update_sets_lookup f b sets c h a :
  (∀ set a, advertising_enable (f set a) = b ∧ same_content a (f set a)) →
  extended_advertisers_ c !! h = Some a →
  ∃ a', extended_advertisers_ (update_sets f sets c) !! h = Some a' ∧ same_content a a' ∧
    advertising_enable a' = if decide (h ∈ handles sets) then b else advertising_enable a.
Proof.
  intros Hf. unfold update_sets. revert c a. induction sets as [|set sets IH]; intros c a Ha; cbn.
  { exists a. split; [done|]. split; [done|]. by rewrite decide_False by apply not_elem_of_nil. }
  set (c1 := c <| extended_advertisers_ ::= alter (f set) (advertising_handle_ set) |>).
  destruct (decide (h = advertising_handle_ set)) as [->|Hh].
  - destruct (Hf set a) as [Hb Hsame].
    destruct (IH c1 (f set a)) as (a' & ? & Hc & He); [by cbn; rewrite lookup_alter_eq, Ha|].
    exists a'. split; [done|]. split.
    + unfold same_content in *. intuition congruence.
    + rewrite decide_True by (by left). rewrite He. by case_decide.
  - destruct (IH c1 a) as (a' & ? & Hc & He); [by cbn; rewrite lookup_alter_ne|].
    exists a'. split; [done|]. split; [done|]. rewrite He. unfold handles. cbn.
    destruct (decide (h ∈ _ <$> sets)) as [Hin|Hin].
    + by rewrite decide_True by (by right).
    + rewrite decide_False; [done|]. by intros [?|?]%elem_of_cons.
Qed.

Lemma enable_set_content t set a :
  advertising_enable (enable_set t set a) = true ∧ same_content a (enable_set t set a).
Proof. unfold enable_set. by destruct (0 <? duration_ set). Qed.

Lemma check_enable_not_success a set : check_enable a set ≠ Some ErrorCode.SUCCESS.
Proof. unfold check_enable. by repeat case_match. Qed.

Lemma prepare_sets_not_success sets c : fst (prepare_sets sets c) ≠ Some ErrorCode.SUCCESS.
Proof.
  revert c. induction sets as [|set sets IH]; intros c; cbn; [done|].
  destruct (prepare_set set c) as [[status|] c1] eqn:E; [|apply IH].
  cbn. intros [= ->]. unfold prepare_set in E. pose proof check_enable_not_success.
  repeat case_match; simplify_eq. by eapply check_enable_not_success.
Qed.

(** What the command does to the set with handle [h]: [e] is the new value of
    its enable flag. *)
Definition becomes (m m' : gmap Z ExtendedAdvertiser) (h : Z) (e : bool → bool) : Prop :=
  ∀ a, m !! h = Some a →
  ∃ a', m' !! h = Some a' ∧ same_content a a' ∧ advertising_enable a' = e (advertising_enable a).

Lemma same_sets_becomes m m' h : same_sets m m' → becomes m m' h id.
Proof.
  intros Hs a Ha. specialize (Hs h). rewrite Ha in Hs.
  inversion Hs as [x y (? & ? & ? & ? & ?) Hx Hy|]; subst. exists y.
  unfold same_content. by repeat split; auto.
Qed.

(** The flag after a command that succeeds. *)
Definition new_flag (enable : bool) (sets : list EnabledSet) (h : Z) (old : bool) : bool :=
  if negb enable && is_empty sets then false
  else if decide (h ∈ handles sets) then enable else old.

(** LE_Set_Extended_Advertising_Enable is all or nothing. When it succeeds
    the handles are distinct, they name existing sets, exactly those sets take
    the requested state (all the sets when the command disables with no
    handle), and no set loses data or properties; when it fails every set keeps
    its state and its content. Nothing else happens: the handler only has
    undefined behaviour, for a handle of 0xFF or more, which is out of the
    bounds of [used_advertising_handles]. *)
Theorem extended_advertising_enable_spec (t : Z) (enable : bool) (sets : list EnabledSet)
    (c : LeController) (Hc : advertising_wf c) :
  match LeSetExtendedAdvertisingEnable t enable sets c with
  | Ok (status, c') =>
      if decide (status = ErrorCode.SUCCESS)
      then NoDup (handles sets) ∧
           (∀ h, h ∈ handles sets → is_Some (extended_advertisers_ c !! h)) ∧
           ∀ h, becomes (extended_advertisers_ c) (extended_advertisers_ c') h
                  (new_flag enable sets h)
      else ∀ h, becomes (extended_advertisers_ c) (extended_advertisers_ c') h id
  | Undef => ∃ h, h ∈ handles sets ∧ 255 ≤ h
  | Fatal | Hang => False
  end.
Proof.
  unfold LeSetExtendedAdvertisingEnable.
  assert (Hsel : extended_advertisers_ (snd (SelectExtendedAdvertising c)) = extended_advertisers_ c ∧
    advertising_wf (snd (SelectExtendedAdvertising c))).
  { split; [unfold SelectExtendedAdvertising; by destruct (legacy_advertising_in_use_ c)|].
    by apply SelectExtendedAdvertising_wf. }
  destruct (SelectExtendedAdvertising c) as [selected c1]. cbn [snd] in Hsel.
  destruct Hsel as [<- Hc1]. clear Hc c.
  assert (Hsame : ∀ h, becomes (extended_advertisers_ c1) (extended_advertisers_ c1) h id)
    by (intros h; by apply same_sets_becomes).
  destruct selected; cbn [negb]; [|by rewrite decide_False].
  pose proof (check_handles_spec ∅ sets (extended_advertisers_ c1)) as Hh.
  destruct (check_handles _ _ _) as [[status|]| | |]; cbn; [by rewrite decide_False|..|done|done|done].
  destruct Hh as [Hnd Hall].
  assert (Hex : ∀ h, h ∈ handles sets → is_Some (extended_advertisers_ c1 !! h)).
  { rewrite Forall_forall in Hall. intros h Hin. by apply Hall. }
  destruct (negb enable && is_empty sets) eqn:Hdis.
  { rewrite decide_True by done. split; [done|]. split; [done|]. intros h a Ha.
    exists (Disable a). cbn. rewrite lookup_fmap, Ha. unfold new_flag. by rewrite Hdis. }
  destruct (is_empty sets) eqn:Hempty; [by rewrite decide_False|].
  destruct enable; cbn [negb] in *.
  - pose proof (prepare_sets_spec sets c1 Hc1) as Hp. pose proof (prepare_sets_not_success sets c1) as Hs.
    destruct (prepare_sets sets c1) as [[status|] c2]; cbn in Hs |- *; destruct Hp as (_ & Hps & _).
    { rewrite decide_False by congruence. intros h. by apply same_sets_becomes. }
    rewrite decide_True by done. split; [done|]. split; [done|]. intros h a Ha.
    destruct (same_sets_becomes _ _ h Hps a Ha) as (a2 & Ha2 & Hc2 & He2).
    destruct (update_sets_lookup (enable_set t) true sets c2 h a2 (enable_set_content t) Ha2)
      as (a3 & Ha3 & Hc3 & He3).
    exists a3. split; [done|]. split; [unfold same_content in *; intuition congruence|].
    unfold new_flag. cbn. rewrite He3, He2. by case_decide.
  - cbn. rewrite decide_True by done. split; [done|]. split; [done|]. intros h a Ha.
    destruct (update_sets_lookup (λ _, Disable) false sets c1 h a) as (a3 & Ha3 & Hc3 & He3); [done..|].
    exists a3. split; [done|]. split; [done|]. unfold new_flag. rewrite Hempty. by rewrite He3.
Qed.
End Preservation.

Lemma new_controller_advertising_wf address properties :
  0 ≤ le_max_advertising_data_length properties → advertising_wf (new_controller address properties).
Proof.
  intros Hlim. constructor; cbn; try done; try apply new_legacy_wf.
  all: rewrite ?map_size_empty; lia.
Qed.

(** ** Examples *)

#[local] Existing Instance example_environment.

(** A set of legacy, non connectable advertising events: ADV_NONCONN_IND. *)
Definition nonconn_properties : AdvertisingEventProperties :=
  MkAdvertisingEventProperties false false false false true false false false false false.

(** The set 1 configured with the properties [p] and an interval of 20 ms. *)
Definition with_set (p : AdvertisingEventProperties) (c : LeController) : LeController :=
  snd (LeSetExtendedAdvertisingParameters 1 p 0x20 0x20 0x7 OwnAddressType.PUBLIC_DEVICE_ADDRESS
         PeerAddressType.PUBLIC_DEVICE_OR_IDENTITY_ADDRESS kEmpty
         AdvertisingFilterPolicy.ALL_DEVICES 0 PrimaryPhyType.LE_1M 0 SecondaryPhyType.LE_1M 0
         false c).
Definition configured : LeController :=
  with_set nonconn_properties (new_controller (example_address 1) example_properties).

(** The controller after the set is enabled at time 0 for three events. *)
Definition advertising : LeController :=
  match LeSetExtendedAdvertisingEnable 0 true [MkEnabledSet 1 0 3] configured with
  | Ok (_, c) => c
  | _ => configured
  end.

Lemma configured_wf p : advertising_wf (with_set p (new_controller (example_address 1) example_properties)).
Proof.
  apply LeSetExtendedAdvertisingParameters_wf. by apply new_controller_advertising_wf.
Qed.

Lemma advertising_advertising_wf : advertising_wf advertising.
Proof.
  apply (LeSetExtendedAdvertisingEnable_wf 0 true [MkEnabledSet 1 0 3] configured
           ErrorCode.SUCCESS); [by constructor|apply configured_wf|vm_compute; reflexivity].
Qed.

Lemma LeAdvertising_refines_witness :
  ∃ c' out, LeAdvertising (milliseconds 10) advertising = Ok ((), c', out) ∧
  c' = advertising <| legacy_advertiser_ ::= λ a, fst (legacy_tick (milliseconds 10) a) |>
         <| extended_advertisers_ ::= fmap (λ a, fst (set_tick (milliseconds 10) a)) |> ∧
  sent out = (snd (legacy_tick (milliseconds 10) (legacy_advertiser_ advertising)) +
    sum_list ((λ '(_, a), snd (set_tick (milliseconds 10) a))
                <$> map_to_list (extended_advertisers_ advertising)))%nat ∧
  Forall output_ok out ∧ advertising_wf c'.
Proof. exact (LeAdvertising_refines _ _ advertising_advertising_wf). Defined.

Definition advertising_set : ExtendedAdvertiser :=
  default (ExtendedAdvertiser.new 1) (extended_advertisers_ advertising !! 1).

Lemma advertising_event_count_witness :
  let ts := milliseconds <$> [0; 20; 40; 60; 80] in
  ∃ c' out a', run_ticks ts advertising = Ok (c', out) ∧ extended_advertisers_ c' !! 1 = Some a' ∧
  advertising_enable a' = false ∧ Z.of_nat (sent out) = num_completed_extended_advertising_events a' ∧
  num_completed_extended_advertising_events a' ≤ 3.
Proof.
  intros ts.
  destruct (advertising_event_count ts advertising 1 advertising_set) as
    (c' & out & a' & Hrun & Ha & Hcount & Hoff & Hsent).
  - apply advertising_advertising_wf.
  - vm_compute. reflexivity.
  - vm_compute. discriminate.
  - assert (Hset : max_extended_advertising_events advertising_set = 3 ∧
      num_completed_extended_advertising_events advertising_set = 0)
      by (split; vm_compute; reflexivity).
    destruct Hset as [Hmax Hnum]. rewrite Hmax, Hnum in *. exists c', out, a'.
    split; [done|]. split; [done|]. split; [apply Hoff|].
    + vm_compute. repeat split; discriminate.
    + vm_compute. reflexivity.
    + split; [|lia]. rewrite Hsent; [lia| |]; vm_compute; reflexivity.
Defined.

Lemma advertising_data_fragments_witness :
  let c := with_set no_properties (new_controller (example_address 1) example_properties) in
  run_data 1 FragmentPreference.CONTROLLER_MAY_FRAGMENT (fragments [1; 2] [[3]; [4; 5]] [6]) c =
    (replicate 4 ErrorCode.SUCCESS,
     snd (LeSetExtendedAdvertisingData 1 Operation.COMPLETE_ADVERTISEMENT
            FragmentPreference.CONTROLLER_MAY_FRAGMENT [1; 2; 3; 4; 5; 6] c)) ∧
  fst (LeSetExtendedAdvertisingData 1 Operation.COMPLETE_ADVERTISEMENT
         FragmentPreference.CONTROLLER_MAY_FRAGMENT [1; 2; 3; 4; 5; 6] c) = ErrorCode.SUCCESS.
Proof.
  intros c. eapply (advertising_data_fragments 1 FragmentPreference.CONTROLLER_MAY_FRAGMENT c
    (default (ExtendedAdvertiser.new 1) (extended_advertisers_ c !! 1)) [1; 2] [6] [[3]; [4; 5]]);
    try (vm_compute; reflexivity); [by repeat constructor|vm_compute; discriminate].
Defined.

Lemma extended_advertising_enable_spec_witness :
  match LeSetExtendedAdvertisingEnable 0 true [MkEnabledSet 1 0 3] configured with
  | Ok (status, c') =>
      if decide (status = ErrorCode.SUCCESS)
      then NoDup (handles [MkEnabledSet 1 0 3]) ∧
           (∀ h, h ∈ handles [MkEnabledSet 1 0 3] → is_Some (extended_advertisers_ configured !! h)) ∧
           ∀ h, becomes (extended_advertisers_ configured) (extended_advertisers_ c') h
                  (new_flag true [MkEnabledSet 1 0 3] h)
      else ∀ h, becomes (extended_advertisers_ configured) (extended_advertisers_ c') h id
  | Undef => ∃ h, h ∈ handles [MkEnabledSet 1 0 3] ∧ 255 ≤ h
  | Fatal | Hang => False
  end.
Proof.
  exact (extended_advertising_enable_spec 0 true [MkEnabledSet 1 0 3] configured (configured_wf _)).
Defined.
