(* ===== verification/LePhy.v ===== *)
(** * The PHY update procedure (le_controller.cc)

    The commands that choose the PHYs and the LL_PHY_REQ, LL_PHY_RSP and
    LL_PHY_UPDATE_IND exchange, then two controllers joined by a connection:
    both ends agree on the PHYs however the procedures interleave. *)

From S2P Require Import Prelude HciTypes Properties Address Connections LeState LeLists.

(** ** Access to a connection *)

(** [connections_.GetLeAclConnection(handle)], which asserts it exists. *)
Definition le_connection (handle : Z) : M LeAclConnection :=
  h ← gets connections_;
  lift (GetLeAclConnection handle h).
Definition set_le_connection (handle : Z) (f : LeAclConnection → LeAclConnection)
    (c : LeController) : LeController :=
  c <| connections_ ::= λ h, h <| le_acl_connections_ ::= alter f handle |> |>.
(** Changing the connection through the reference to it. *)
Definition update_le_connection (handle : Z) (f : LeAclConnection → LeAclConnection) : M () :=
  modify (set_le_connection handle f).

(** [!connections_.HasLeAclHandle(handle)] answers Unknown Connection. *)
Definition with_connection (handle : Z) (f : LeAclConnection → M ErrorCode.t) : M ErrorCode.t :=
  c ← gets id;
  if negb (HasLeAclHandle handle (connections_ c)) then mret ErrorCode.UNKNOWN_CONNECTION
  else
    connection ← le_connection handle;
    f connection.

(** The addresses of the packets sent on a connection. *)
Definition own (k : LeAclConnection) : Address := GetAddress (LeAclConnection.own_address k).
Definition peer (k : LeAclConnection) : Address := GetAddress (LeAclConnection.address k).

(** [if (IsLeEventUnmasked(code)) send_event_(event)], under a condition. *)
Definition event_when (b : bool) (code : SubeventCode.t) (event : HciEvent) : M () :=
  c ← gets id;
  unmasked ← lift (IsLeEventUnmasked code c);
  when ((unmasked : bool) && b) (send_event_ event).

(** The connection [handle] of a controller. *)
Definition connection_of (handle : Z) (c : LeController) : option LeAclConnection :=
  le_acl_connections_ (connections_ c) !! handle.

Lemma run_le_connection {B} handle k (f : LeAclConnection → M B) t c :
  connection_of handle c = Some k → (le_connection handle ≫= f) t c = f k t c.
Proof.
  intros Hk. unfold le_connection. autorewrite with run. unfold GetLeAclConnection.
  unfold connection_of in Hk. rewrite Hk. by autorewrite with run.
Qed.

Lemma run_update_le_connection {B} handle g (f : () → M B) t c :
  (update_le_connection handle g ≫= f) t c = f () t (set_le_connection handle g c).
Proof. unfold update_le_connection. by autorewrite with run. Qed.

Lemma run_send {B} packet tx (f : () → M B) t c :
  (SendLeLinkLayerPacket packet tx ≫= f) t c =
    emit [ScheduleTask 0 (SendToRemote packet (i8 tx))] (f () t c).
Proof. unfold SendLeLinkLayerPacket. by autorewrite with run. Qed.

Definition event_output (b : bool) (event : HciEvent) : list Output :=
  if b then [SendEvent event] else [].

Lemma run_event_when {B} b code event (f : () → M B) t c :
  (event_when b code event ≫= f) t c =
    emit (event_output (le_event_unmasked code c && b) event) (f () t c).
Proof.
  unfold event_when. autorewrite with run. rewrite IsLeEventUnmasked_Ok. autorewrite with run.
  unfold id. destruct (_ && b); cbn [when event_output]; [|by autorewrite with run].
  unfold send_event_. by autorewrite with run.
Qed.

#[export] Hint Rewrite @run_update_le_connection @run_send @run_event_when : run.

Lemma run_with_connection handle f t c k :
  connection_of handle c = Some k → with_connection handle f t c = f k t c.
Proof.
  intros Hk. unfold with_connection, HasLeAclHandle. autorewrite with run. unfold id.
  rewrite bool_decide_true by by exists k. cbn [negb]. by apply run_le_connection.
Qed.
#[export] Hint Rewrite @run_with_connection using done : run.

Lemma connection_of_set handle g c h :
  connection_of h (set_le_connection handle g c) =
    if decide (h = handle) then g <$> connection_of h c else connection_of h c.
Proof.
  unfold connection_of, set_le_connection. cbn. case_decide as Hh.
  - subst. apply lookup_alter_eq.
  - by apply lookup_alter_ne.
Qed.

(** ** Commands *)

(** The checks both commands make: the PHYs to use, or the error. *)
Definition check_phys (supported_phys : Z) (all_phys_no_transmit_preference
    all_phys_no_receive_preference : bool) (tx_phys rx_phys : Z) : ErrorCode.t + Z * Z :=
  let tx_phys := if all_phys_no_transmit_preference then supported_phys else tx_phys in
  if tx_phys =? 0 then inl ErrorCode.INVALID_HCI_COMMAND_PARAMETERS
  else
    let rx_phys := if all_phys_no_receive_preference then supported_phys else rx_phys in
    if rx_phys =? 0 then inl ErrorCode.INVALID_HCI_COMMAND_PARAMETERS
    else if negb (Z.ldiff tx_phys supported_phys =? 0)
    then inl ErrorCode.UNSUPPORTED_FEATURE_OR_PARAMETER_VALUE
    else if negb (Z.ldiff rx_phys supported_phys =? 0)
    then inl ErrorCode.UNSUPPORTED_FEATURE_OR_PARAMETER_VALUE
    else inr (tx_phys, rx_phys).

Definition LeSetDefaultPhy (all_phys_no_transmit_preference all_phys_no_receive_preference : bool)
    (tx_phys rx_phys : Z) (c : LeController) : reply :=
  match check_phys (LeSupportedPhys (properties_ c)) all_phys_no_transmit_preference
          all_phys_no_receive_preference tx_phys rx_phys with
  | inl status => (status, c)
  | inr (tx_phys, rx_phys) =>
      (ErrorCode.SUCCESS, c <| default_tx_phys_ := tx_phys |> <| default_rx_phys_ := rx_phys |>)
  end.

Definition LeSetPhy (connection_handle : Z) (all_phys_no_transmit_preference
    all_phys_no_receive_preference : bool) (tx_phys rx_phys : Z) : M ErrorCode.t :=
  c ← gets id;
  if negb (HasLeAclHandle connection_handle (connections_ c))
  then mret ErrorCode.UNKNOWN_CONNECTION
  else
    connection ← le_connection connection_handle;
    match check_phys (LeSupportedPhys (properties_ c)) all_phys_no_transmit_preference
            all_phys_no_receive_preference tx_phys rx_phys with
    | inl status => mret status
    | inr (tx_phys, rx_phys) =>
        SendLeLinkLayerPacket
          (LlPhyReq (GetAddress (LeAclConnection.own_address connection))
             (GetAddress (LeAclConnection.address connection)) tx_phys rx_phys) 0;;
        update_le_connection connection_handle LeAclConnection.InitiatePhyUpdate;;
        modify (λ c, c <| requested_tx_phys_ := tx_phys |> <| requested_rx_phys_ := rx_phys |>);;
        mret ErrorCode.SUCCESS
    end.

(** ** Packets *)

Definition select_phy (phys : Z) (current : PhyType.t) : PhyType.t :=
  if bit phys 2 then PhyType.LE_CODED
  else if bit phys 1 then PhyType.LE_2M
  else if bit phys 0 then PhyType.LE_1M
  else current.

Definition indicate_phy (selected current : PhyType.t) : Z :=
  if bool_decide (selected = current) then 0x0
  else if bool_decide (selected = PhyType.LE_CODED) then 0x4
  else if bool_decide (selected = PhyType.LE_2M) then 0x2
  else 0x1.

Definition set_phys (tx rx : PhyType.t) (k : LeAclConnection) : LeAclConnection :=
  LeAclConnection.SetRxPhy rx (LeAclConnection.SetTxPhy tx k).

(** The central's reply to the preferences of the peripheral: it selects the
    PHYs among its own [tx_phys] and [rx_phys]. *)
Definition send_phy_update_ind (source destination : Address) (connection : LeAclConnection)
    (phy_c_to_p phy_p_to_c : PhyType.t) : M () :=
  SendLeLinkLayerPacket
    (LlPhyUpdateInd source destination
       (indicate_phy phy_c_to_p (LeAclConnection.tx_phy_ connection))
       (indicate_phy phy_p_to_c (LeAclConnection.rx_phy_ connection)) 0) 0.

Definition IncomingLlPhyReq (handle : Z) (source destination : Address) (req_tx_phys req_rx_phys : Z)
  : M () :=
  connection ← le_connection handle;
  c ← gets id;
  if bool_decide (LeAclConnection.role connection = Role.PERIPHERAL) then
    SendLeLinkLayerPacket
      (LlPhyRsp destination source (default_tx_phys_ c) (default_rx_phys_ c)) 0
  else
    let tx_phys := Z.land req_rx_phys (default_tx_phys_ c) in
    let rx_phys := Z.land req_tx_phys (default_rx_phys_ c) in
    let phy_c_to_p := select_phy tx_phys (LeAclConnection.tx_phy_ connection) in
    let phy_p_to_c := select_phy rx_phys (LeAclConnection.rx_phy_ connection) in
    send_phy_update_ind destination source connection phy_c_to_p phy_p_to_c;;
    event_when (bool_decide (phy_c_to_p ≠ LeAclConnection.tx_phy_ connection) ||
                bool_decide (phy_p_to_c ≠ LeAclConnection.rx_phy_ connection))
      SubeventCode.LE_PHY_UPDATE_COMPLETE
      (LePhyUpdateComplete ErrorCode.SUCCESS (LeAclConnection.handle connection)
         phy_c_to_p phy_p_to_c);;
    update_le_connection handle (set_phys phy_c_to_p phy_p_to_c);;
    mret ().

Definition IncomingLlPhyRsp (handle : Z) (source destination : Address) (rsp_tx_phys rsp_rx_phys : Z)
  : M () :=
  connection ← le_connection handle;
  lift (assert (bool_decide (LeAclConnection.role connection = Role.CENTRAL)));;
  c ← gets id;
  let tx_phys := Z.land rsp_rx_phys (requested_tx_phys_ c) in
  let rx_phys := Z.land rsp_tx_phys (requested_rx_phys_ c) in
  let phy_c_to_p := select_phy tx_phys (LeAclConnection.tx_phy_ connection) in
  let phy_p_to_c := select_phy rx_phys (LeAclConnection.rx_phy_ connection) in
  send_phy_update_ind destination source connection phy_c_to_p phy_p_to_c;;
  event_when true SubeventCode.LE_PHY_UPDATE_COMPLETE
    (LePhyUpdateComplete ErrorCode.SUCCESS (LeAclConnection.handle connection)
       phy_c_to_p phy_p_to_c);;
  update_le_connection handle
    (λ k, set_phys phy_c_to_p phy_p_to_c (LeAclConnection.PhyUpdateComplete k));;
  mret ().

Definition IncomingLlPhyUpdateInd (handle : Z) (phy_c_to_p phy_p_to_c : Z) : M () :=
  connection ← le_connection handle;
  lift (assert (bool_decide (LeAclConnection.role connection = Role.PERIPHERAL)));;
  let tx_phy := select_phy phy_p_to_c (LeAclConnection.tx_phy_ connection) in
  let rx_phy := select_phy phy_c_to_p (LeAclConnection.rx_phy_ connection) in
  event_when (bool_decide (tx_phy ≠ LeAclConnection.tx_phy_ connection) ||
              bool_decide (rx_phy ≠ LeAclConnection.rx_phy_ connection) ||
              LeAclConnection.initiated_phy_update_ connection)
    SubeventCode.LE_PHY_UPDATE_COMPLETE
    (LePhyUpdateComplete ErrorCode.SUCCESS (LeAclConnection.handle connection) tx_phy rx_phy);;
  update_le_connection handle
    (λ k, set_phys tx_phy rx_phy (LeAclConnection.PhyUpdateComplete k));;
  mret ().

(** ** Two controllers joined by a connection *)

(** The packets handed to the physical layer. *)
Definition sent_packets (out : list Output) : list LinkLayerPacket :=
  omap (λ o, match o with ScheduleTask _ (SendToRemote p _) => Some p | _ => None end) out.

(** What [IncomingPacket] does with the packets of the procedure. *)
Definition receive_phy (handle : Z) (packet : LinkLayerPacket) : M () :=
  match packet with
  | LlPhyReq source destination tx rx => IncomingLlPhyReq handle source destination tx rx
  | LlPhyRsp source destination tx rx => IncomingLlPhyRsp handle source destination tx rx
  | LlPhyUpdateInd _ _ phy_c_to_p phy_p_to_c _ =>
      IncomingLlPhyUpdateInd handle phy_c_to_p phy_p_to_c
  | _ => mret ()
  end.

(** The central, the peripheral, and the packets on their way to each, in the
    order they were sent. *)
Record PhyLink := MkPhyLink {
  central_ : LeController;
  peripheral_ : LeController;
  to_peripheral : list LinkLayerPacket;
  to_central : list LinkLayerPacket;
}.

Section PhyLink.
(** The handles of the connection at the two ends. *)
Context (hc hp : Z).

(** A command of a host, or the delivery of the first packet on its way. *)
Inductive phy_step : PhyLink → PhyLink → Prop :=
| central_set_phy t all_tx all_rx tx rx a b to_p to_c status a' out :
    LeSetPhy hc all_tx all_rx tx rx t a = Ok (status, a', out) →
    phy_step (MkPhyLink a b to_p to_c) (MkPhyLink a' b (to_p ++ sent_packets out) to_c)
| peripheral_set_phy t all_tx all_rx tx rx a b to_p to_c status b' out :
    LeSetPhy hp all_tx all_rx tx rx t b = Ok (status, b', out) →
    phy_step (MkPhyLink a b to_p to_c) (MkPhyLink a b' to_p (to_c ++ sent_packets out))
| central_set_default all_tx all_rx tx rx a b to_p to_c :
    phy_step (MkPhyLink a b to_p to_c)
      (MkPhyLink (snd (LeSetDefaultPhy all_tx all_rx tx rx a)) b to_p to_c)
| peripheral_set_default all_tx all_rx tx rx a b to_p to_c :
    phy_step (MkPhyLink a b to_p to_c)
      (MkPhyLink a (snd (LeSetDefaultPhy all_tx all_rx tx rx b)) to_p to_c)
| peripheral_receives t packet a b to_p to_c b' out :
    receive_phy hp packet t b = Ok ((), b', out) →
    phy_step (MkPhyLink a b (packet :: to_p) to_c) (MkPhyLink a b' to_p (to_c ++ sent_packets out))
| central_receives t packet a b to_p to_c a' out :
    receive_phy hc packet t a = Ok ((), a', out) →
    phy_step (MkPhyLink a b to_p (packet :: to_c)) (MkPhyLink a' b (to_p ++ sent_packets out) to_c).

Definition to_peripheral_ok (packet : LinkLayerPacket) : Prop :=
  match packet with LlPhyReq _ _ _ _ | LlPhyUpdateInd _ _ _ _ _ => True | _ => False end.
Definition to_central_ok (packet : LinkLayerPacket) : Prop :=
  match packet with LlPhyReq _ _ _ _ | LlPhyRsp _ _ _ _ => True | _ => False end.

(** The PHYs (TX, RX) of the peripheral once a packet is delivered to it. *)
Definition deliver_ind (phys : PhyType.t * PhyType.t) (packet : LinkLayerPacket)
  : PhyType.t * PhyType.t :=
  match packet with
  | LlPhyUpdateInd _ _ phy_c_to_p phy_p_to_c _ =>
      (select_phy phy_p_to_c (fst phys), select_phy phy_c_to_p (snd phys))
  | _ => phys
  end.

Definition phys_of (k : LeAclConnection) : PhyType.t * PhyType.t :=
  (LeAclConnection.tx_phy_ k, LeAclConnection.rx_phy_ k).

(** The peripheral will be where the central is when it has received what was
    sent to it. *)
Definition phy_inv (l : PhyLink) : Prop :=
  ∃ a b, connection_of hc (central_ l) = Some a ∧ connection_of hp (peripheral_ l) = Some b ∧
  LeAclConnection.role a = Role.CENTRAL ∧ LeAclConnection.role b = Role.PERIPHERAL ∧
  Forall to_peripheral_ok (to_peripheral l) ∧ Forall to_central_ok (to_central l) ∧
  foldl deliver_ind (phys_of b) (to_peripheral l) =
    (LeAclConnection.rx_phy_ a, LeAclConnection.tx_phy_ a).

Lemma select_indicate selected current :
  select_phy (indicate_phy selected current) current = selected.
Proof. by destruct selected, current. Qed.

(** A command sends at most a request, and changes no PHY. *)
Lemma LeSetPhy_run h all_tx all_rx tx rx t c k :
  connection_of h c = Some k →
  ∃ status c' out k', LeSetPhy h all_tx all_rx tx rx t c = Ok (status, c', out) ∧
  connection_of h c' = Some k' ∧ phys_of k' = phys_of k ∧
  LeAclConnection.role k' = LeAclConnection.role k ∧
  Forall (λ p, match p with LlPhyReq _ _ _ _ => True | _ => False end) (sent_packets out).
Proof.
  intros Hk. unfold LeSetPhy. autorewrite with run. unfold id, HasLeAclHandle.
  rewrite bool_decide_true by by exists k. cbn [negb]. erewrite run_le_connection by done.
  destruct (check_phys _ _ _ _ _) as [status|[tx' rx']].
  - by exists status, c, [], k.
  - autorewrite with run. cbn [emit mret M_ret]. do 4 eexists. split; [done|]. split.
    + unfold connection_of in *. cbn. by rewrite lookup_alter_eq, Hk.
    + by repeat constructor.
Qed.

Lemma LeSetDefaultPhy_connection h all_tx all_rx tx rx c :
  connection_of h (snd (LeSetDefaultPhy all_tx all_rx tx rx c)) = connection_of h c.
Proof. unfold LeSetDefaultPhy. by destruct (check_phys _ _ _ _ _) as [?|[]]. Qed.

(** The peripheral answers a request, and follows an indication. *)
Lemma peripheral_run packet t c k :
  connection_of hp c = Some k → LeAclConnection.role k = Role.PERIPHERAL → to_peripheral_ok packet →
  ∃ c' out k', receive_phy hp packet t c = Ok ((), c', out) ∧
  connection_of hp c' = Some k' ∧ LeAclConnection.role k' = Role.PERIPHERAL ∧
  phys_of k' = deliver_ind (phys_of k) packet ∧ Forall to_central_ok (sent_packets out).
Proof.
  intros Hk Hrole Hp. destruct packet; try done; cbn [receive_phy].
  - unfold IncomingLlPhyReq. erewrite run_le_connection by done. autorewrite with run.
    rewrite bool_decide_true by done. do 3 eexists. split; [done|]. split; [done|].
    by repeat constructor.
  - unfold IncomingLlPhyUpdateInd. erewrite run_le_connection by done.
    rewrite (bool_decide_true (LeAclConnection.role k = _)) by done. cbn [assert].
    autorewrite with run.
    cbn [emit mret M_ret]. do 3 eexists. split; [done|]. split.
    + rewrite connection_of_set, decide_True, Hk by done. done.
    + split; [done|]. split; [done|]. by destruct (_ && _).
Qed.

(** The central answers with an indication of the PHYs it moves to. *)
Lemma central_run packet t c k :
  connection_of hc c = Some k → LeAclConnection.role k = Role.CENTRAL → to_central_ok packet →
  ∃ c' out k', receive_phy hc packet t c = Ok ((), c', out) ∧
  connection_of hc c' = Some k' ∧ LeAclConnection.role k' = Role.CENTRAL ∧
  Forall to_peripheral_ok (sent_packets out) ∧
  foldl deliver_ind (LeAclConnection.rx_phy_ k, LeAclConnection.tx_phy_ k) (sent_packets out) =
    (LeAclConnection.rx_phy_ k', LeAclConnection.tx_phy_ k').
Proof.
  intros Hk Hrole Hp. destruct packet; try done; cbn [receive_phy].
  - unfold IncomingLlPhyReq, send_phy_update_ind. erewrite run_le_connection by done.
    autorewrite with run. rewrite bool_decide_false by by rewrite Hrole.
    autorewrite with run. cbn [emit mret M_ret]. do 3 eexists. split; [done|]. split.
    + rewrite connection_of_set, decide_True, Hk by done. done.
    + split; [done|]. destruct (_ && _); cbn; (split; [by repeat constructor|]);
        by rewrite !select_indicate.
  - unfold IncomingLlPhyRsp, send_phy_update_ind. erewrite run_le_connection by done.
    rewrite (bool_decide_true (LeAclConnection.role k = _)) by done. cbn [assert].
    autorewrite with run.
    cbn [emit mret M_ret]. do 3 eexists. split; [done|]. split.
    + rewrite connection_of_set, decide_True, Hk by done. done.
    + split; [done|]. destruct (_ && _); cbn; (split; [by repeat constructor|]);
        by rewrite !select_indicate.
Qed.

Lemma requests_to_peripheral q phys :
  Forall (λ p, match p with LlPhyReq _ _ _ _ => True | _ => False end) q →
  Forall to_peripheral_ok q ∧ Forall to_central_ok q ∧ foldl deliver_ind phys q = phys.
Proof.
  induction 1 as [|p q Hp _ (Hq1 & Hq2 & Hq3)]; cbn; [by repeat constructor|].
  destruct p; try done. split; [by constructor|]. by split; [constructor|].
Qed.

Lemma phy_step_inv l l' : phy_inv l → phy_step l l' → phy_inv l'.
Proof.
  intros (ka & kb & Ha & Hb & Hra & Hrb & Htp & Htc & Hagree).
  destruct 1 as [t ? ? ? ? a b q1 q2 status a' out E|t ? ? ? ? a b q1 q2 status b' out E
    |? ? ? ? a b q1 q2|? ? ? ? a b q1 q2
    |t packet a b q1 q2 b' out E|t packet a b q1 q2 a' out E]; cbn in *.
  - edestruct (LeSetPhy_run hc) as (? & ? & ? & ka' & E' & Ha' & Hphys & Hrole & Hreq); [exact Ha|].
    rewrite E in E'. injection E' as <- <- <-. injection Hphys as Htx Hrx.
    destruct (requests_to_peripheral _ (LeAclConnection.rx_phy_ ka, LeAclConnection.tx_phy_ ka) Hreq)
      as (Hok & _ & Hfold).
    exists ka', kb. do 4 (split; [done || congruence|]). cbn. split; [by apply Forall_app|].
    split; [done|]. by rewrite foldl_app, Hagree, Hfold, Htx, Hrx.
  - edestruct (LeSetPhy_run hp) as (? & ? & ? & kb' & E' & Hb' & Hphys & Hrole & Hreq); [exact Hb|].
    rewrite E in E'. injection E' as <- <- <-.
    destruct (requests_to_peripheral _ (phys_of kb) Hreq) as (_ & Hok & _).
    exists ka, kb'. do 4 (split; [done || congruence|]). cbn. split; [done|].
    split; [by apply Forall_app|]. by rewrite Hphys.
  - exists ka, kb. cbn. by rewrite LeSetDefaultPhy_connection.
  - exists ka, kb. cbn. by rewrite LeSetDefaultPhy_connection.
  - apply Forall_cons_1 in Htp as [Hp Htp].
    destruct (peripheral_run packet t b kb Hb Hrb Hp) as (? & ? & kb' & E' & Hb' & Hrole & Hphys & Hok).
    rewrite E in E'. injection E' as <- <-. exists ka, kb'. do 4 (split; [done|]). cbn.
    split; [done|]. split; [by apply Forall_app|]. by rewrite Hphys.
  - apply Forall_cons_1 in Htc as [Hp Htc].
    destruct (central_run packet t a ka Ha Hra Hp) as (? & ? & ka' & E' & Ha' & Hrole & Hok & Hphys).
    rewrite E in E'. injection E' as <- <-. exists ka', kb. do 4 (split; [done|]). cbn.
    split; [by apply Forall_app|]. split; [done|]. by rewrite foldl_app, Hagree, Hphys.
Qed.

Lemma no_indication q phys :
  Forall (λ p, match p with LlPhyUpdateInd _ _ _ _ _ => False | _ => True end) q →
  foldl deliver_ind phys q = phys.
Proof. induction 1 as [|p q Hp _ IH]; [done|]. by destruct p. Qed.

(** C22. Both ends of a connection agree on the PHYs. Start with a connection
    whose ends agree and let the two hosts issue LE_Set_PHY and
    LE_Set_Default_PHY, in any order and with procedures overlapping, while the
    packets are delivered in order: the reception of a packet never aborts, and
    whenever no LL_PHY_UPDATE_IND is on its way, the peripheral receives on the
    PHY the central transmits on, and transmits on the one it receives on. *)
Theorem phy_agreement (l0 l : PhyLink) (a0 b0 : LeAclConnection)
    (Ha0 : connection_of hc (central_ l0) = Some a0)
    (Hb0 : connection_of hp (peripheral_ l0) = Some b0)
    (Hra : LeAclConnection.role a0 = Role.CENTRAL)
    (Hrb : LeAclConnection.role b0 = Role.PERIPHERAL)
    (Hagree : phys_of b0 = (LeAclConnection.rx_phy_ a0, LeAclConnection.tx_phy_ a0))
    (Hidle : to_peripheral l0 = [] ∧ to_central l0 = []) (Hrun : rtc phy_step l0 l) :
  (∃ a b, connection_of hc (central_ l) = Some a ∧ connection_of hp (peripheral_ l) = Some b ∧
   (Forall (λ p, match p with LlPhyUpdateInd _ _ _ _ _ => False | _ => True end)
      (to_peripheral l) →
    LeAclConnection.rx_phy_ b = LeAclConnection.tx_phy_ a ∧
    LeAclConnection.tx_phy_ b = LeAclConnection.rx_phy_ a)) ∧
  (∀ t packet q, to_peripheral l = packet :: q →
   ∃ c out, receive_phy hp packet t (peripheral_ l) = Ok ((), c, out)) ∧
  (∀ t packet q, to_central l = packet :: q →
   ∃ c out, receive_phy hc packet t (central_ l) = Ok ((), c, out)).
Proof.
  assert (phy_inv l) as (a & b & Ha & Hb & Hra' & Hrb' & Htp & Htc & Hfold).
  { destruct Hidle as [Hp Hc]. clear - Ha0 Hb0 Hra Hrb Hagree Hp Hc Hrun.
    assert (phy_inv l0) as Hinv.
    { exists a0, b0. rewrite Hp, Hc. by repeat constructor. }
    clear - Hinv Hrun. induction Hrun; [done|]. by eauto using phy_step_inv. }
  split; [|split].
  - exists a, b. split; [done|]. split; [done|]. intros Hno.
    rewrite no_indication in Hfold by done. by injection Hfold.
  - intros t packet q E. rewrite E in Htp. apply Forall_cons_1 in Htp as [Hp _].
    destruct (peripheral_run packet t _ b Hb Hrb' Hp) as (? & ? & ? & ? & _). eauto.
  - intros t packet q E. rewrite E in Htc. apply Forall_cons_1 in Htc as [Hp _].
    destruct (central_run packet t _ a Ha Hra' Hp) as (? & ? & ? & ? & _). eauto.
Qed.
End PhyLink.

(** ** One procedure from its start to its end *)

Definition host_events (out : list Output) : list HciEvent :=
  omap (λ o, match o with SendEvent e => Some e | _ => None end) out.

(** Deliver at most [fuel] packets, those for the peripheral first, until none is
    on its way: the link, and the events for the hosts of the two ends. *)
Fixpoint deliver (fuel : nat) (hc hp t : Z) (l : PhyLink)
  : outcome (PhyLink * list HciEvent * list HciEvent) :=
  match fuel, l with
  | S fuel, MkPhyLink a b (packet :: to_p) to_c =>
      '(_, b, out) ← receive_phy hp packet t b;
      '(l, ea, eb) ← deliver fuel hc hp t (MkPhyLink a b to_p (to_c ++ sent_packets out));
      Ok (l, ea, host_events out ++ eb)
  | S fuel, MkPhyLink a b [] (packet :: to_c) =>
      '(_, a, out) ← receive_phy hc packet t a;
      '(l, ea, eb) ← deliver fuel hc hp t (MkPhyLink a b (sent_packets out) to_c);
      Ok (l, host_events out ++ ea, eb)
  | _, l => Ok (l, [], [])
  end.

(** The event a host receives about the connection [handle]. *)
Definition phy_event (c : LeController) (b : bool) (handle : Z) (tx rx : PhyType.t) : list HciEvent :=
  if le_event_unmasked SubeventCode.LE_PHY_UPDATE_COMPLETE c && b
  then [LePhyUpdateComplete ErrorCode.SUCCESS handle tx rx] else [].

Definition phys_differ (k : LeAclConnection) (tx rx : PhyType.t) : bool :=
  bool_decide (tx ≠ LeAclConnection.tx_phy_ k) || bool_decide (rx ≠ LeAclConnection.rx_phy_ k).

Section Procedure.
Context (hc hp t : Z).

Lemma peripheral_req s d tx rx c k :
  connection_of hp c = Some k → LeAclConnection.role k = Role.PERIPHERAL →
  receive_phy hp (LlPhyReq s d tx rx) t c =
    Ok ((), c, [ScheduleTask 0 (SendToRemote (LlPhyRsp d s (default_tx_phys_ c) (default_rx_phys_ c)) 0)]).
Proof.
  intros Hk Hrole. cbn. unfold IncomingLlPhyReq. erewrite run_le_connection by done.
  autorewrite with run. by rewrite bool_decide_true.
Qed.

(** What the central does when it has selected the PHYs [tx] and [rx]. *)
Definition central_out (d s : Address) (c : LeController) (k : LeAclConnection) (b : bool)
    (tx rx : PhyType.t) : list Output :=
  ScheduleTask 0 (SendToRemote (LlPhyUpdateInd d s (indicate_phy tx (LeAclConnection.tx_phy_ k))
                                  (indicate_phy rx (LeAclConnection.rx_phy_ k)) 0) 0)
    :: (SendEvent <$> phy_event c b (LeAclConnection.handle k) tx rx).

Lemma central_req s d tx rx c k :
  connection_of hc c = Some k → LeAclConnection.role k = Role.CENTRAL →
  let tx' := select_phy (Z.land rx (default_tx_phys_ c)) (LeAclConnection.tx_phy_ k) in
  let rx' := select_phy (Z.land tx (default_rx_phys_ c)) (LeAclConnection.rx_phy_ k) in
  receive_phy hc (LlPhyReq s d tx rx) t c =
    Ok ((), set_le_connection hc (set_phys tx' rx') c,
        central_out d s c k (phys_differ k tx' rx') tx' rx').
Proof.
  intros Hk Hrole. cbn. unfold IncomingLlPhyReq, send_phy_update_ind.
  erewrite run_le_connection by done. autorewrite with run.
  rewrite bool_decide_false by by rewrite Hrole. autorewrite with run.
  unfold central_out, phy_event, phys_differ. cbn. by destruct (_ && _).
Qed.

Lemma central_rsp s d tx rx c k :
  connection_of hc c = Some k → LeAclConnection.role k = Role.CENTRAL →
  let tx' := select_phy (Z.land rx (requested_tx_phys_ c)) (LeAclConnection.tx_phy_ k) in
  let rx' := select_phy (Z.land tx (requested_rx_phys_ c)) (LeAclConnection.rx_phy_ k) in
  receive_phy hc (LlPhyRsp s d tx rx) t c =
    Ok ((), set_le_connection hc
              (λ k, set_phys tx' rx' (LeAclConnection.PhyUpdateComplete k)) c,
        central_out d s c k true tx' rx').
Proof.
  intros Hk Hrole. cbn. unfold IncomingLlPhyRsp, send_phy_update_ind.
  erewrite run_le_connection by done. rewrite bool_decide_true by done. cbn [assert].
  autorewrite with run. unfold central_out, phy_event. cbn. by destruct (_ && _).
Qed.

(** The peripheral, when the central indicates the PHYs [tx] and [rx] of the
    central and the ends agreed. *)
Lemma peripheral_ind s d n tx rx c k :
  connection_of hp c = Some k → LeAclConnection.role k = Role.PERIPHERAL →
  receive_phy hp (LlPhyUpdateInd s d (indicate_phy tx (LeAclConnection.rx_phy_ k))
                    (indicate_phy rx (LeAclConnection.tx_phy_ k)) n) t c =
    Ok ((), set_le_connection hp
              (λ k, set_phys rx tx (LeAclConnection.PhyUpdateComplete k)) c,
        SendEvent <$> phy_event c (phys_differ k rx tx || LeAclConnection.initiated_phy_update_ k)
                        (LeAclConnection.handle k) rx tx).
Proof.
  intros Hk Hrole. cbn. unfold IncomingLlPhyUpdateInd. erewrite run_le_connection by done.
  rewrite (bool_decide_true (LeAclConnection.role k = _)) by done. cbn [assert].
  autorewrite with run. rewrite !select_indicate. unfold phy_event, phys_differ. cbn.
  by destruct (_ && _).
Qed.

Lemma sent_packets_events es : sent_packets (SendEvent <$> es) = [].
Proof. by induction es. Qed.

Lemma host_events_events es : host_events (SendEvent <$> es) = es.
Proof. induction es as [|e es IH]; [done|]. cbn. by f_equal. Qed.

(** A command that succeeds sends the request, marks the connection, and
    remembers the PHYs it asked for. *)
Lemma LeSetPhy_success h all_tx all_rx tx rx c k c' out :
  connection_of h c = Some k → LeSetPhy h all_tx all_rx tx rx t c = Ok (ErrorCode.SUCCESS, c', out) →
  let tx := if all_tx then LeSupportedPhys (properties_ c) else tx in
  let rx := if all_rx then LeSupportedPhys (properties_ c) else rx in
  c' = set_le_connection h LeAclConnection.InitiatePhyUpdate c
         <| requested_tx_phys_ := tx |> <| requested_rx_phys_ := rx |> ∧
  out = [ScheduleTask 0 (SendToRemote
           (LlPhyReq (GetAddress (LeAclConnection.own_address k))
              (GetAddress (LeAclConnection.address k)) tx rx) 0)].
Proof.
  intros Hk. unfold LeSetPhy, HasLeAclHandle. autorewrite with run. unfold id.
  rewrite bool_decide_true by by exists k. cbn [negb]. erewrite run_le_connection by done.
  unfold check_phys. destruct (_ =? 0); [by intros [=]|]. destruct (_ =? 0); [by intros [=]|].
  destruct (negb _); [by intros [=]|]. destruct (negb _); [by intros [=]|].
  autorewrite with run. by intros [= <- <-].
Qed.

(** What a PHY update procedure does, from a connection whose ends agree and
    with no other procedure running. Central and peripheral exchange three
    packets when the central's host starts it and two when the peripheral's
    does, and nothing remains on its way; both ends then use, in each direction,
    the highest PHY that both sides prefer, or the former PHY when they have none
    in common. The host that asked always gets LE_PHY_Update_Complete, the other
    one if a PHY changed. *)
Theorem phy_update_procedure (ca cb : LeController) (a b : LeAclConnection)
    (Ha : connection_of hc ca = Some a) (Hb : connection_of hp cb = Some b)
    (Hra : LeAclConnection.role a = Role.CENTRAL) (Hrb : LeAclConnection.role b = Role.PERIPHERAL)
    (Hagree : phys_of b = (LeAclConnection.rx_phy_ a, LeAclConnection.tx_phy_ a))
    (all_tx all_rx : bool) (tx rx : Z) :
  (∀ ca' out, LeSetPhy hc all_tx all_rx tx rx t ca = Ok (ErrorCode.SUCCESS, ca', out) →
   let tx := if all_tx then LeSupportedPhys (properties_ ca) else tx in
   let rx := if all_rx then LeSupportedPhys (properties_ ca) else rx in
   let tx' := select_phy (Z.land (default_rx_phys_ cb) tx) (LeAclConnection.tx_phy_ a) in
   let rx' := select_phy (Z.land (default_tx_phys_ cb) rx) (LeAclConnection.rx_phy_ a) in
   ∃ ca2 cb2, deliver 3 hc hp t (MkPhyLink ca' cb (sent_packets out) []) =
     Ok (MkPhyLink ca2 cb2 [] [], phy_event ca true (LeAclConnection.handle a) tx' rx',
         phy_event cb (phys_differ b rx' tx' || LeAclConnection.initiated_phy_update_ b)
           (LeAclConnection.handle b) rx' tx') ∧
   connection_of hc ca2 = Some (set_phys tx' rx' (LeAclConnection.PhyUpdateComplete a)) ∧
   connection_of hp cb2 = Some (set_phys rx' tx' (LeAclConnection.PhyUpdateComplete b))) ∧
  (∀ cb' out, LeSetPhy hp all_tx all_rx tx rx t cb = Ok (ErrorCode.SUCCESS, cb', out) →
   let tx := if all_tx then LeSupportedPhys (properties_ cb) else tx in
   let rx := if all_rx then LeSupportedPhys (properties_ cb) else rx in
   let tx' := select_phy (Z.land rx (default_tx_phys_ ca)) (LeAclConnection.tx_phy_ a) in
   let rx' := select_phy (Z.land tx (default_rx_phys_ ca)) (LeAclConnection.rx_phy_ a) in
   ∃ ca2 cb2, deliver 2 hc hp t (MkPhyLink ca cb' [] (sent_packets out)) =
     Ok (MkPhyLink ca2 cb2 [] [],
         phy_event ca (phys_differ a tx' rx') (LeAclConnection.handle a) tx' rx',
         phy_event cb true (LeAclConnection.handle b) rx' tx') ∧
   connection_of hc ca2 = Some (set_phys tx' rx' a) ∧
   connection_of hp cb2 = Some (set_phys rx' tx' (LeAclConnection.PhyUpdateComplete b))).
Proof.
  injection Hagree as Htx Hrx. split.
  - intros ca' out E ptx prx tx' rx'. destruct (LeSetPhy_success hc _ _ _ _ ca a _ _ Ha E) as [-> ->].
    fold ptx prx. cbn [sent_packets omap list_omap deliver].
    rewrite (peripheral_req _ _ _ _ cb b) by done. cbn -[receive_phy].
    erewrite central_rsp; [|unfold connection_of in *; cbn; by rewrite lookup_alter_eq, Ha|done].
    cbn -[receive_phy]. rewrite sent_packets_events. cbn -[receive_phy].
    fold tx' rx'. rewrite <-Htx, <-Hrx, (peripheral_ind _ _ _ _ _ cb b) by done.
    cbn. rewrite sent_packets_events, !host_events_events, !app_nil_r. do 2 eexists.
    split; [done|]. unfold connection_of in *. cbn. rewrite !lookup_alter_eq, Ha, Hb. done.
  - intros cb' out E ptx prx tx' rx'. destruct (LeSetPhy_success hp _ _ _ _ cb b _ _ Hb E) as [-> ->].
    fold ptx prx. cbn [sent_packets omap list_omap deliver].
    rewrite (central_req _ _ _ _ ca a) by done. fold tx' rx'. cbn -[receive_phy].
    rewrite sent_packets_events. cbn -[receive_phy].
    rewrite <-Htx, <-Hrx. erewrite (peripheral_ind _ _ _ _ _ _
      (LeAclConnection.InitiatePhyUpdate b)); [|unfold connection_of in *; cbn;
      by rewrite lookup_alter_eq, Hb|done].
    cbn. rewrite sent_packets_events, !host_events_events, !app_nil_r, orb_true_r. do 2 eexists.
    split; [done|]. unfold connection_of in *. cbn. rewrite !lookup_alter_eq, Ha, Hb. done.
Qed.
End Procedure.

(** ** Examples *)

#[local] Existing Instance example_environment.

(** A controller with a connection of each of the [roles], whose peers are
    numbered from 2. *)
Fixpoint connected (roles : list Role.t) (n : Z) (c : LeController) : LeController :=
  match roles with
  | [] => c
  | role :: roles =>
      let address n := MkAddressWithType (example_address n) AddressType.PUBLIC_DEVICE_ADDRESS in
      match CreateLeConnection 0 (address n) (address n) (address 1) role
              default_connection_parameters default_subrate_parameters (connections_ c) with
      | Ok (handle, h) =>
          connected roles (n + 1)
            (c <| connections_ := h |>
               <| ll_ ::= cons (link_layer_add_link handle (example_address n) (Role.to_Z role)) |>)
      | _ => c
      end
  end.
Definition example_end (roles : list Role.t) : LeController :=
  snd (LeSetDefaultPhy true true 0 0
         (connected roles 2 (new_controller (example_address 1) example_properties))).
Definition example_connection (h : Z) (c : LeController) : LeAclConnection :=
  default (LeAclConnection.new 0 h empty_address empty_address empty_address Role.CENTRAL
             default_connection_parameters default_subrate_parameters) (connection_of h c).

Lemma phy_agreement_witness :
  let l0 := MkPhyLink (example_end [Role.CENTRAL]) (example_end [Role.PERIPHERAL]) [] [] in
  ∃ l, rtc (phy_step 0x200 0x200) l0 l ∧ l ≠ l0 ∧
  ∃ a b, connection_of 0x200 (central_ l) = Some a ∧ connection_of 0x200 (peripheral_ l) = Some b ∧
   (Forall (λ p, match p with LlPhyUpdateInd _ _ _ _ _ => False | _ => True end)
      (to_peripheral l) →
    LeAclConnection.rx_phy_ b = LeAclConnection.tx_phy_ a ∧
    LeAclConnection.tx_phy_ b = LeAclConnection.rx_phy_ a).
Proof.
  intros l0.
  destruct (LeSetPhy 0x200 false false 2 2 0 (example_end [Role.CENTRAL])) as [[[s a'] out]| | |] eqn:E;
    [|by exfalso; revert E; vm_compute..].
  assert (rtc (phy_step 0x200 0x200) l0
            (MkPhyLink a' (example_end [Role.PERIPHERAL]) ([] ++ sent_packets out) [])) as Hrun.
  { eapply rtc_once, central_set_phy, E. }
  eexists. split; [exact Hrun|]. split.
  { vm_compute in E. injection E as <- <- <-. by intros ?. }
  edestruct (phy_agreement 0x200 0x200 l0
    (MkPhyLink a' (example_end [Role.PERIPHERAL]) ([] ++ sent_packets out) [])
    (example_connection 0x200 (example_end [Role.CENTRAL]))
    (example_connection 0x200 (example_end [Role.PERIPHERAL]))) as [Hagree _];
    [vm_compute; reflexivity..|split; vm_compute; reflexivity|exact Hrun|exact Hagree].
Defined.

Lemma phy_update_procedure_witness :
  let ca := example_end [Role.CENTRAL] in
  let cb := example_end [Role.PERIPHERAL] in
  let a := example_connection 0x200 ca in
  let b := example_connection 0x200 cb in
  ∃ ca' out ca2 cb2, LeSetPhy 0x200 false false 3 1 0 ca = Ok (ErrorCode.SUCCESS, ca', out) ∧
  deliver 3 0x200 0x200 0 (MkPhyLink ca' cb (sent_packets out) []) =
    Ok (MkPhyLink ca2 cb2 [] [], phy_event ca true (LeAclConnection.handle a) PhyType.LE_2M PhyType.LE_1M,
        phy_event cb true (LeAclConnection.handle b) PhyType.LE_1M PhyType.LE_2M) ∧
  connection_of 0x200 ca2 =
    Some (set_phys PhyType.LE_2M PhyType.LE_1M (LeAclConnection.PhyUpdateComplete a)).
Proof.
  intros ca cb a b.
  destruct (LeSetPhy 0x200 false false 3 1 0 ca) as [[[s ca'] out]| | |] eqn:E;
    [|by exfalso; revert E; vm_compute..].
  assert (s = ErrorCode.SUCCESS) as -> by (vm_compute in E; by injection E as <- _ _).
  edestruct (phy_update_procedure 0x200 0x200 0 ca cb a b) with (all_tx := false)
    (all_rx := false) (tx := 3) (rx := 1) as [H _]; [vm_compute; reflexivity..|].
  destruct (H ca' out E) as (ca2 & cb2 & Hd & Hca & _).
  exists ca', out, ca2, cb2. split; [reflexivity|].
  split; [exact Hd|exact Hca].
Defined.

(** The PHYs asked for are kept once per controller: a second LE_Set_PHY, for
    another connection, changes what the first procedure selects. Here the host
    asks for LE 1M on the connection 0x200, then for LE 2M on 0x201, and the
    connection 0x200 moves to LE 2M. *)
Example requested_phys_shared :
  let ca := example_end [Role.CENTRAL; Role.CENTRAL] in
  let cb := example_end [Role.PERIPHERAL] in
  match LeSetPhy 0x200 false false 1 1 0 ca with
  | Ok (_, c1, out) =>
      match LeSetPhy 0x201 false false 2 2 0 c1 with
      | Ok (_, c2, _) =>
          match deliver 3 0x200 0x200 0 (MkPhyLink c2 cb (sent_packets out) []) with
          | Ok (l, _, _) => LeAclConnection.tx_phy_ <$> connection_of 0x200 (central_ l)
          | _ => None
          end
      | _ => None
      end
  | _ => None
  end = Some PhyType.LE_2M.
Proof. vm_compute. reflexivity. Qed.
