(* ===== verification/LeScan.v ===== *)
(** * Scanning (le_controller.cc)

    The legacy and extended scan commands, and the routines that time the
    scanner and the synchronised trains. *)

From S2P Require Import Prelude HciTypes Properties Address Connections LeState LeLists LePhy.

Section Scanning.
Context {env : Environment}.

(** ** Legacy scanning *)

Definition set_scanner (f : Scanner → Scanner) (c : LeController) : LeController :=
  c <| scanner_ ::= f |>.

Definition LeSetScanParameters (scan_type : LeScanType.t) (scan_interval scan_window : Z)
    (own_address_type : OwnAddressType.t) (scanning_filter_policy : LeScanningFilterPolicy.t)
    (c : LeController) : reply :=
  let '(selected, c) := SelectLegacyAdvertising c in
  if negb selected then (ErrorCode.COMMAND_DISALLOWED, c)
  else if Scanner.IsEnabled (scanner_ c) then (ErrorCode.COMMAND_DISALLOWED, c)
  else if (scan_interval <? 0x4) || (0x4000 <? scan_interval) || (scan_window <? 0x4) ||
          (0x4000 <? scan_window)
  then (ErrorCode.UNSUPPORTED_FEATURE_OR_PARAMETER_VALUE, c)
  else if scan_interval <? scan_window then (ErrorCode.INVALID_HCI_COMMAND_PARAMETERS, c)
  else
    (ErrorCode.SUCCESS,
     set_scanner (λ s, s
       <| Scanner.le_1m_phy ::= λ p, p <| Scanner.enabled := true |> |>
       <| Scanner.le_coded_phy ::= λ p, p <| Scanner.enabled := false |> |>
       <| Scanner.le_1m_phy ::= λ p, p <| Scanner.scan_type := scan_type |>
            <| Scanner.scan_interval := scan_interval |> <| Scanner.scan_window := scan_window |> |>
       <| Scanner.own_address_type := own_address_type |>
       <| Scanner.scan_filter_policy := scanning_filter_policy |>) c).

Definition stop_scan (s : Scanner) : Scanner :=
  s <| Scanner.scan_enable := false |> <| Scanner.pending_scan_requests := [] |>
    <| Scanner.history := [] |>.

(** The scanner's address is the random address, which is not set. *)
Definition random_address_missing (c : LeController) : bool :=
  (bool_decide (Scanner.own_address_type (scanner_ c) = OwnAddressType.RANDOM_DEVICE_ADDRESS) ||
   bool_decide (Scanner.own_address_type (scanner_ c) = OwnAddressType.RESOLVABLE_OR_RANDOM_ADDRESS)) &&
  bool_decide (random_address_ c = kEmpty).

Definition start_scan (s : Scanner) : Scanner :=
  s <| Scanner.scan_enable := true |> <| Scanner.history := [] |> <| Scanner.scan_timeout := None |>
    <| Scanner.periodical_timeout := None |> <| Scanner.pending_scan_requests := [] |>.

Definition LeSetScanEnable (enable filter_duplicates : bool) (c : LeController) : reply :=
  let '(selected, c) := SelectLegacyAdvertising c in
  if negb selected then (ErrorCode.COMMAND_DISALLOWED, c)
  else if negb enable then (ErrorCode.SUCCESS, set_scanner stop_scan c)
  else if random_address_missing c then (ErrorCode.INVALID_HCI_COMMAND_PARAMETERS, c)
  else
    (ErrorCode.SUCCESS,
     set_scanner (λ s, (start_scan s)
       <| Scanner.filter_duplicates :=
            if filter_duplicates then FilterDuplicates.ENABLED else FilterDuplicates.DISABLED |>) c).

(** ** Extended scanning *)

Record ScanningPhyParameters := MkScanningPhyParameters {
  le_scan_type_ : LeScanType.t;
  le_scan_interval_ : Z;
  le_scan_window_ : Z;
}.

(** [__builtin_popcount] of a byte. *)
Definition popcount (z : Z) : Z :=
  zlength (filter (λ i, bit z i = true) (seqZ 0 8)).

(** The loop that checks the parameters. *)
Fixpoint check_scan_parameters (parameters : list ScanningPhyParameters) : option ErrorCode.t :=
  match parameters with
  | [] => None
  | p :: parameters =>
      if (le_scan_interval_ p <? 0x4) || (le_scan_window_ p <? 0x4)
      then Some ErrorCode.INVALID_HCI_COMMAND_PARAMETERS
      else if le_scan_interval_ p <? le_scan_window_ p
      then Some ErrorCode.INVALID_HCI_COMMAND_PARAMETERS
      else check_scan_parameters parameters
  end.

Definition scan_phy (p : ScanningPhyParameters) : Scanner.PhyParameters :=
  Scanner.MkPhyParameters true (le_scan_type_ p) (le_scan_interval_ p) (le_scan_window_ p).

(** [if (phys & bit) { phy = parameters[offset]; offset++; }]: the new
    parameters if any, and the new offset. *)
Definition take_phy {A} (selected : bool) (parameters : list A) (offset : nat)
  : outcome (option A * nat) :=
  if selected then
    p ← unchecked (parameters !! offset);
    Ok (Some p, S offset)
  else Ok (None, offset).

Definition LeSetExtendedScanParameters (own_address_type : OwnAddressType.t)
    (scanning_filter_policy : LeScanningFilterPolicy.t) (scanning_phys : Z)
    (scanning_phy_parameters : list ScanningPhyParameters) (c : LeController) : outcome reply :=
  let supported_phys := LeSupportedPhys (properties_ c) in
  let '(selected, c) := SelectExtendedAdvertising c in
  if negb selected then Ok (ErrorCode.COMMAND_DISALLOWED, c)
  else if Scanner.IsEnabled (scanner_ c) then Ok (ErrorCode.COMMAND_DISALLOWED, c)
  else if negb (Z.ldiff scanning_phys supported_phys =? 0)
  then Ok (ErrorCode.UNSUPPORTED_FEATURE_OR_PARAMETER_VALUE, c)
  else if negb (popcount scanning_phys =? zlength scanning_phy_parameters)
  then Ok (ErrorCode.INVALID_HCI_COMMAND_PARAMETERS, c)
  else if scanning_phys =? 0 then Ok (ErrorCode.INVALID_HCI_COMMAND_PARAMETERS, c)
  else
    match check_scan_parameters scanning_phy_parameters with
    | Some status => Ok (status, c)
    | None =>
        let s := (scanner_ c)
                   <| Scanner.own_address_type := own_address_type |>
                   <| Scanner.scan_filter_policy := scanning_filter_policy |>
                   <| Scanner.le_1m_phy ::= λ p, p <| Scanner.enabled := false |> |>
                   <| Scanner.le_coded_phy ::= λ p, p <| Scanner.enabled := false |> |> in
        '(p, offset) ← take_phy (bit scanning_phys 0) scanning_phy_parameters 0;
        let s := match p with
                 | Some p => s <| Scanner.le_1m_phy := scan_phy p |> | None => s end in
        '(p, offset) ← take_phy (bit scanning_phys 2) scanning_phy_parameters offset;
        let s := match p with
                 | Some p => s <| Scanner.le_coded_phy := scan_phy p |> | None => s end in
        Ok (ErrorCode.SUCCESS, c <| scanner_ := s |>)
    end.

Definition LeSetExtendedScanEnable (now : Z) (enable : bool) (filter_duplicates : FilterDuplicates.t)
    (duration period : Z) (c : LeController) : reply :=
  let '(selected, c) := SelectExtendedAdvertising c in
  if negb selected then (ErrorCode.COMMAND_DISALLOWED, c)
  else if negb enable then (ErrorCode.SUCCESS, set_scanner stop_scan c)
  else
    let period := if duration =? 0 then 0 else period in
    if bool_decide (filter_duplicates = FilterDuplicates.RESET_EACH_PERIOD) &&
       ((period =? 0) || (duration =? 0))
    then (ErrorCode.INVALID_HCI_COMMAND_PARAMETERS, c)
    else
      let duration_ms := milliseconds (10 * duration) in
      let period_ms := milliseconds (1280 * period) in
      if negb (period =? 0) && negb (duration =? 0) && (period_ms <=? duration_ms)
      then (ErrorCode.INVALID_HCI_COMMAND_PARAMETERS, c)
      else if random_address_missing c then (ErrorCode.INVALID_HCI_COMMAND_PARAMETERS, c)
      else
        (ErrorCode.SUCCESS,
         set_scanner (λ s, (start_scan s)
           <| Scanner.filter_duplicates := filter_duplicates |>
           <| Scanner.duration := duration_ms |> <| Scanner.period := period_ms |>
           <| Scanner.scan_timeout := if duration =? 0 then None else Some (now + duration_ms) |>
           <| Scanner.periodical_timeout := if period =? 0 then None else Some (now + period_ms) |>) c).

(** ** Periodic work *)

(** [now >= timeout.value()], for a timeout that has one. *)
Definition reached (t : Z) (timeout : option Z) : bool :=
  match timeout with Some u => u <=? t | None => false end.

(** End of a single scan. *)
Definition scan_timeout_step (t : Z) : M () :=
  s ← gets scanner_;
  when (has_value (Scanner.scan_timeout s) && negb (has_value (Scanner.periodical_timeout s)) &&
        reached t (Scanner.scan_timeout s))
    (modify (set_scanner stop_scan);;
     event_when true SubeventCode.LE_SCAN_TIMEOUT LeScanTimeout;;
     mret ()).

(** End of the duration in a periodic scan. *)
Definition scan_duration_step (t : Z) : M () :=
  s ← gets scanner_;
  when (has_value (Scanner.scan_timeout s) && has_value (Scanner.periodical_timeout s) &&
        reached t (Scanner.scan_timeout s))
    (modify (set_scanner (λ s, s <| Scanner.scan_timeout := None |>))).

(** End of the period. *)
Definition scan_period_step (t : Z) : M () :=
  s ← gets scanner_;
  when (negb (has_value (Scanner.scan_timeout s)) && has_value (Scanner.periodical_timeout s) &&
        reached t (Scanner.periodical_timeout s))
    (when (bool_decide (Scanner.filter_duplicates s = FilterDuplicates.RESET_EACH_PERIOD))
       (modify (set_scanner (λ s, s <| Scanner.history := [] |>)));;
     modify (set_scanner (λ s, s <| Scanner.scan_timeout := Some (t + Scanner.duration s) |>
                                 <| Scanner.periodical_timeout := Some (t + Scanner.period s) |>))).

Definition drop_requests (t : Z) (s : Scanner) : Scanner :=
  s <| Scanner.pending_scan_requests ::=
         filter (λ '(_, r), negb (Scanner.timeout r <=? t) = true) |>.

Definition LeScanning : M () :=
  c ← gets id;
  if negb (Scanner.IsEnabled (scanner_ c)) then mret ()
  else
    t ← now;
    scan_timeout_step t;;
    scan_duration_step t;;
    scan_period_step t;;
    modify (set_scanner (drop_requests t)).

(** No caller is left of this one. *)
Definition LeSynchronization : M () :=
  c ← gets id;
  t ← now;
  for_each (iterate (synchronized_ c))
    (λ '(_, sync),
       event_when true SubeventCode.LE_PERIODIC_ADVERTISING_SYNC_LOST
         (LePeriodicAdvertisingSyncLost (Synchronized.sync_handle sync)));;
  for_each (Synchronized.sync_handle <$>
              filter (λ sync, (t <? Synchronized.timeout sync) = true)
                (snd <$> iterate (synchronized_ c)))
    (λ sync_handle, modify (λ c, c <| synchronized_ ::= delete sync_handle |>)).
End Scanning.

(** ** Scan parameters *)

Definition valid_scan_phy (p : ScanningPhyParameters) : Prop :=
  0x4 ≤ le_scan_interval_ p ∧ 0x4 ≤ le_scan_window_ p ≤ le_scan_interval_ p.

#[export] Instance valid_scan_phy_dec p : Decision (valid_scan_phy p).
Proof. unfold valid_scan_phy. apply _. Defined.

Lemma check_scan_parameters_spec parameters :
  check_scan_parameters parameters =
    if decide (Forall valid_scan_phy parameters)
    then None else Some ErrorCode.INVALID_HCI_COMMAND_PARAMETERS.
Proof.
  induction parameters as [|p parameters IH]; cbn [check_scan_parameters].
  { by rewrite decide_True by constructor. }
  assert (Forall valid_scan_phy (p :: parameters) ↔ valid_scan_phy p ∧ Forall valid_scan_phy parameters)
    as Hcons by apply Forall_cons.
  rewrite (decide_ext _ _ _ _ Hcons).
  destruct (_ || _) eqn:E1; [|destruct (le_scan_interval_ p <? le_scan_window_ p) eqn:E2].
  - rewrite decide_False; [done|]. intros [[] _]. apply orb_true_iff in E1 as [?|?]; to_prop; lia.
  - rewrite decide_False; [done|]. intros [[] _]. to_prop. lia.
  - rewrite IH. to_prop. assert (valid_scan_phy p) by (unfold valid_scan_phy; lia).
    destruct (decide (Forall _ _)); [by rewrite decide_True|]. by rewrite decide_False by by intros [].
Qed.

Lemma zlength_filter {A} (f : A → bool) (l : list A) :
  zlength (filter (λ x, f x = true) l) = foldr (λ x n, Z.b2z (f x) + n) 0 l.
Proof.
  induction l as [|x l IH]; [done|]. rewrite filter_cons. cbn [foldr]. rewrite <-IH.
  destruct (f x); case_decide; try done. by rewrite zlength_cons.
Qed.

(** One entry per bit: there are enough for LE 1M and LE Coded. *)
Lemma popcount_ge z : Z.b2z (bit z 0) + Z.b2z (bit z 2) ≤ popcount z.
Proof.
  unfold popcount. rewrite zlength_filter. change (seqZ 0 8) with [0; 1; 2; 3; 4; 5; 6; 7].
  cbn [foldr]. assert (∀ b, 0 ≤ Z.b2z b) as Hb by by intros [].
  pose proof (Hb (bit z 1)). pose proof (Hb (bit z 3)). pose proof (Hb (bit z 4)).
  pose proof (Hb (bit z 5)). pose proof (Hb (bit z 6)). pose proof (Hb (bit z 7)). lia.
Qed.

Lemma take_phy_Ok {A} selected (l : list A) offset :
  (selected = true → (offset < length l)%nat) →
  take_phy selected l offset =
    Ok (if selected then l !! offset else None, if selected then S offset else offset).
Proof.
  intros Hl. unfold take_phy. destruct selected; [|done].
  destruct (lookup_lt_is_Some_2 l offset (Hl eq_refl)) as [p Hp]. by rewrite Hp.
Qed.

(** The scanner after LE_Set_Extended_Scan_Parameters. *)
Definition scan_phys (phys : Z) (parameters : list ScanningPhyParameters) (s : Scanner) : Scanner :=
  let coded := if bit phys 0 then 1%nat else 0%nat in
  s <| Scanner.le_1m_phy ::= λ p,
         if bit phys 0 then default p (scan_phy <$> parameters !! 0%nat)
         else p <| Scanner.enabled := false |> |>
    <| Scanner.le_coded_phy ::= λ p,
         if bit phys 2 then default p (scan_phy <$> parameters !! coded)
         else p <| Scanner.enabled := false |> |>.

Lemma LeSetExtendedScanParameters_run (own : OwnAddressType.t) (policy : LeScanningFilterPolicy.t)
    (phys : Z) (parameters : list ScanningPhyParameters) (c : LeController) :
  ∃ status c', LeSetExtendedScanParameters own policy phys parameters c = Ok (status, c') ∧
  (status = ErrorCode.SUCCESS ↔
     legacy_advertising_in_use_ c = false ∧ Scanner.scan_enable (scanner_ c) = false ∧
     Z.ldiff phys (LeSupportedPhys (properties_ c)) = 0 ∧ phys ≠ 0 ∧
     popcount phys = zlength parameters ∧
     Forall valid_scan_phy parameters) ∧
  scanner_ c' =
    (if bool_decide (status = ErrorCode.SUCCESS)
     then (scan_phys phys parameters (scanner_ c))
            <| Scanner.own_address_type := own |> <| Scanner.scan_filter_policy := policy |>
     else scanner_ c).
Proof.
  unfold LeSetExtendedScanParameters, SelectExtendedAdvertising, Scanner.IsEnabled.
  destruct (legacy_advertising_in_use_ c) eqn:Hl; cbn [negb].
  { do 2 eexists. split; [done|]. split; [|done]. split; [done|]. by intros (? & _). }
  cbn -[Z.ldiff popcount bit]. destruct (Scanner.scan_enable (scanner_ c)) eqn:Hs.
  { do 2 eexists. split; [done|]. split; [|done]. split; [done|]. by intros (_ & ? & _). }
  destruct (Z.ldiff _ _ =? 0) eqn:H1; to_prop; cbn [negb].
  2: { do 2 eexists. split; [done|]. split; [|done]. split; [done|]. by intros (_ & _ & ? & _). }
  destruct (popcount phys =? _) eqn:H2; to_prop; cbn [negb].
  2: { do 2 eexists. split; [done|]. split; [|done]. split; [done|].
       by intros (_ & _ & _ & _ & ? & _). }
  destruct (phys =? 0) eqn:H3; to_prop.
  { do 2 eexists. split; [done|]. split; [|done]. split; [done|]. by intros (_ & _ & _ & ? & _). }
  rewrite check_scan_parameters_spec. case_decide as H4.
  2: { do 2 eexists. split; [done|]. split; [|done]. split; [done|].
       by intros (_ & _ & _ & _ & _ & ?). }
  pose proof (popcount_ge phys) as Hb. rewrite H2 in Hb. unfold zlength in Hb.
  rewrite take_phy_Ok. 2: { intros E. rewrite E in Hb. destruct (bit phys 2); cbn in Hb; lia. }
  cbn [mbind outcome_bind]. rewrite take_phy_Ok.
  2: { intros E. rewrite E in Hb. destruct (bit phys 0); cbn in Hb; lia. }
  cbn [mbind outcome_bind]. do 2 eexists. split; [done|]. split; [done|].
  rewrite bool_decide_true by done. cbn -[bit]. unfold scan_phys.
  assert (∀ k, (k < length parameters)%nat → ∃ p, parameters !! k = Some p) as Hk
    by by apply lookup_lt_is_Some_2.
  destruct (bit phys 0) eqn:E0, (bit phys 2) eqn:E2; cbn in Hb; cbn;
    repeat match goal with
    | |- context [parameters !! ?k] => let p := fresh "p" in let E := fresh "E" in
        destruct (Hk k) as [p E]; [lia|rewrite E; cbn]
    end; done.
Qed.

(** LE_Set_Extended_Scan_Parameters. The parameters are never read out of
    range. The command succeeds exactly when legacy commands are not in use, the
    scanner is idle, the PHYs are supported and at least one is given, there is
    one entry per PHY, and each entry has 4 <= window <= interval. When it
    succeeds the LE 1M entry is the first one and the LE Coded entry the next,
    and a PHY that is not selected is disabled; when it fails the scanner is
    unchanged. *)
Theorem LeSetExtendedScanParameters_spec (own : OwnAddressType.t) (policy : LeScanningFilterPolicy.t)
    (phys : Z) (parameters : list ScanningPhyParameters) (c : LeController) :
  ∃ status c', LeSetExtendedScanParameters own policy phys parameters c = Ok (status, c') ∧
  (status = ErrorCode.SUCCESS ↔
     legacy_advertising_in_use_ c = false ∧ Scanner.scan_enable (scanner_ c) = false ∧
     Z.ldiff phys (LeSupportedPhys (properties_ c)) = 0 ∧ phys ≠ 0 ∧
     popcount phys = zlength parameters ∧
     Forall valid_scan_phy parameters) ∧
  scanner_ c' =
    (if bool_decide (status = ErrorCode.SUCCESS)
     then (scan_phys phys parameters (scanner_ c))
            <| Scanner.own_address_type := own |> <| Scanner.scan_filter_policy := policy |>
     else scanner_ c).
Proof. apply LeSetExtendedScanParameters_run. Qed.

(** ** Timing *)

(** One run of the scanner's timers. *)
Definition scan_expired (t : Z) (s : Scanner) : bool :=
  has_value (Scanner.scan_timeout s) && negb (has_value (Scanner.periodical_timeout s)) &&
  reached t (Scanner.scan_timeout s).
Definition expire (t : Z) (s : Scanner) : Scanner := if scan_expired t s then stop_scan s else s.
Definition pause (t : Z) (s : Scanner) : Scanner :=
  if has_value (Scanner.scan_timeout s) && has_value (Scanner.periodical_timeout s) &&
     reached t (Scanner.scan_timeout s)
  then s <| Scanner.scan_timeout := None |> else s.
Definition renew (t : Z) (s : Scanner) : Scanner :=
  if negb (has_value (Scanner.scan_timeout s)) && has_value (Scanner.periodical_timeout s) &&
     reached t (Scanner.periodical_timeout s)
  then s <| Scanner.history ::=
              λ h, if bool_decide (Scanner.filter_duplicates s = FilterDuplicates.RESET_EACH_PERIOD)
                   then [] else h |>
         <| Scanner.scan_timeout := Some (t + Scanner.duration s) |>
         <| Scanner.periodical_timeout := Some (t + Scanner.period s) |>
  else s.
Definition scan_tick (t : Z) (s : Scanner) : Scanner :=
  if Scanner.IsEnabled s then drop_requests t (renew t (pause t (expire t s))) else s.

Lemma set_scanner_same c : set_scanner (λ s, s) c = c.
Proof. by destruct c. Qed.

Lemma scan_timeout_step_run t c :
  scan_timeout_step t t c =
    Ok ((), set_scanner (expire t) c,
        event_output (scan_expired t (scanner_ c) &&
                      le_event_unmasked SubeventCode.LE_SCAN_TIMEOUT c) LeScanTimeout).
Proof.
  unfold scan_timeout_step. autorewrite with run. fold (scan_expired t (scanner_ c)).
  unfold set_scanner at 2. cbn [modify_field]. unfold expire.
  destruct (scan_expired t (scanner_ c)) eqn:E; cbn [when andb].
  - autorewrite with run. rewrite andb_true_r.
    change (le_event_unmasked SubeventCode.LE_SCAN_TIMEOUT (set_scanner stop_scan c))
      with (le_event_unmasked SubeventCode.LE_SCAN_TIMEOUT c).
    by destruct (le_event_unmasked _ c).
  - by destruct c.
Qed.

Lemma scan_duration_step_run t c :
  scan_duration_step t t c = Ok ((), set_scanner (pause t) c, []).
Proof.
  unfold scan_duration_step, pause. autorewrite with run. unfold set_scanner. cbn.
  destruct (_ && _); [done|]. by destruct c.
Qed.

Lemma scan_period_step_run t c :
  scan_period_step t t c = Ok ((), set_scanner (renew t) c, []).
Proof.
  unfold scan_period_step, renew. autorewrite with run. unfold set_scanner. cbn.
  destruct (_ && _); [|by destruct c]. cbn. by destruct (bool_decide _).
Qed.

Lemma LeScanning_run t c :
  LeScanning t c =
    Ok ((), set_scanner (scan_tick t) c,
        event_output (Scanner.IsEnabled (scanner_ c) && (scan_expired t (scanner_ c) &&
                      le_event_unmasked SubeventCode.LE_SCAN_TIMEOUT c)) LeScanTimeout).
Proof.
  unfold LeScanning, scan_tick. autorewrite with run. unfold id.
  destruct (Scanner.IsEnabled (scanner_ c)) eqn:E; cbn [negb andb].
  2: { unfold set_scanner. cbn. rewrite E. by destruct c. }
  autorewrite with run. erewrite run_bind by apply scan_timeout_step_run.
  erewrite run_bind by apply scan_duration_step_run.
  erewrite run_bind by apply scan_period_step_run. unfold modify. cbn -[le_event_unmasked].
  rewrite !app_nil_r. unfold set_scanner. cbn -[le_event_unmasked]. by rewrite E.
Qed.

(** The scanner's timers run at the times [ts]. *)
Fixpoint run_scans (ts : list Z) (c : LeController) : outcome (LeController * list Output) :=
  match ts with
  | [] => Ok (c, [])
  | t :: ts =>
      '(_, c, out) ← LeScanning t c;
      '(c, out') ← run_scans ts c;
      Ok (c, out ++ out')
  end.

(** A scanner that will not stop by itself. *)
Definition endless (s : Scanner) : Prop :=
  Scanner.scan_timeout s = None ∨ Scanner.periodical_timeout s ≠ None.

Lemma run_scans_idle ts c :
  Scanner.scan_enable (scanner_ c) = false → run_scans ts c = Ok (c, []).
Proof.
  intros Hs. induction ts as [|t ts IH]; cbn [run_scans]; [done|]. rewrite LeScanning_run.
  unfold scan_tick, Scanner.IsEnabled, set_scanner. rewrite Hs. cbn. rewrite Hs.
  destruct c; cbn in *. by rewrite IH.
Qed.

Lemma scan_tick_endless t s : Scanner.scan_enable s = true → endless s →
  scan_expired t s = false ∧ Scanner.scan_enable (scan_tick t s) = true ∧ endless (scan_tick t s).
Proof.
  intros He Hs. assert (scan_expired t s = false) as Hx.
  { unfold scan_expired. destruct Hs as [->|Hp]; [done|].
    destruct (Scanner.periodical_timeout s); [|done]. by rewrite andb_false_r. }
  split; [done|]. unfold scan_tick, expire, Scanner.IsEnabled, endless. rewrite He, Hx.
  unfold pause, renew, drop_requests.
  destruct s as [en per dur fd own pol p1 pc req st pt hist]; cbn in *.
  destruct st as [u|], pt as [v|]; cbn; repeat (case_match; cbn); auto.
Qed.

Lemma run_scans_endless ts c :
  Scanner.scan_enable (scanner_ c) = true → endless (scanner_ c) →
  ∃ c2, run_scans ts c = Ok (c2, []) ∧ Scanner.scan_enable (scanner_ c2) = true.
Proof.
  revert c. induction ts as [|t ts IH]; intros c He Hs; cbn [run_scans]; [by eexists|].
  destruct (scan_tick_endless t _ He Hs) as (Hx & He2 & Hs2).
  destruct (IH (set_scanner (scan_tick t) c) He2 Hs2) as (c2 & E & ?).
  rewrite LeScanning_run, Hx, andb_false_r. cbn [mbind outcome_bind event_output].
  rewrite E. by exists c2.
Qed.

(** Unfolds a run of the timers. *)
Ltac tick := cbn; unfold scan_tick, expire, Scanner.IsEnabled, pause, renew, drop_requests, stop_scan.

Lemma run_scans_single ts c u :
  Scanner.scan_enable (scanner_ c) = true → Scanner.scan_timeout (scanner_ c) = Some u →
  Scanner.periodical_timeout (scanner_ c) = None →
  ∃ c2, run_scans ts c =
    Ok (c2, event_output (existsb (λ t, u <=? t) ts &&
                          le_event_unmasked SubeventCode.LE_SCAN_TIMEOUT c) LeScanTimeout) ∧
  Scanner.scan_enable (scanner_ c2) = negb (existsb (λ t, u <=? t) ts).
Proof.
  revert c. induction ts as [|t ts IH]; intros c He Hs Hp; cbn [run_scans existsb]; [by exists c|].
  rewrite LeScanning_run. unfold Scanner.IsEnabled. rewrite He. cbn [mbind outcome_bind].
  assert (scan_expired t (scanner_ c) = (u <=? t)) as Hx by (unfold scan_expired; by rewrite Hs, Hp).
  rewrite Hx. destruct (u <=? t) eqn:Hu; cbn [orb andb].
  - rewrite run_scans_idle by (tick; rewrite He, Hx; cbn; by rewrite Hs, Hp).
    eexists. split; [cbn [mbind outcome_bind]; by rewrite app_nil_r|].
    tick. rewrite He, Hx. cbn. by rewrite Hs, Hp.
  - destruct (IH (set_scanner (scan_tick t) c)) as (c2 & E & ?);
      [tick; rewrite He, Hx, Hs, Hp; cbn; by rewrite Hs, Hp..|].
    rewrite E. by exists c2.
Qed.

(** A scan lasts as long as the host asked. After a successful
    LE_Set_Extended_Scan_Enable, at whatever times the timers then run: a scan
    with a duration and no period is stopped by the first run at or after its
    end, and the host gets LE_Scan_Timeout then, exactly once; a scan with no
    duration, or with a period, is never stopped and sends no event. *)
Theorem extended_scan_duration (t0 : Z) (fd : FilterDuplicates.t) (duration period : Z)
    (c c1 : LeController) (ts : list Z)
    (Hok : LeSetExtendedScanEnable t0 true fd duration period c = (ErrorCode.SUCCESS, c1)) :
  let single := negb (duration =? 0) && (period =? 0) in
  let over := existsb (λ t, t0 + milliseconds (10 * duration) <=? t) ts in
  ∃ c2, run_scans ts c1 =
    Ok (c2, event_output (single && over && le_event_unmasked SubeventCode.LE_SCAN_TIMEOUT c)
              LeScanTimeout) ∧
  Scanner.scan_enable (scanner_ c2) = negb (single && over).
Proof.
  intros single over. unfold LeSetExtendedScanEnable, SelectExtendedAdvertising in Hok.
  destruct (legacy_advertising_in_use_ c); cbn [negb] in Hok; [by injection Hok|].
  destruct (_ && _) in Hok; [by injection Hok|]. destruct (_ && _) in Hok; [by injection Hok|].
  destruct (random_address_missing _); [by injection Hok|]. injection Hok as <-.
  set (c1 := set_scanner _ _). assert (Scanner.scan_enable (scanner_ c1) = true) as He by done.
  change (le_event_unmasked _ c) with (le_event_unmasked SubeventCode.LE_SCAN_TIMEOUT c1).
  destruct single eqn:Hsingle; unfold single in Hsingle.
  - apply andb_true_iff in Hsingle as [Hd Hp]. apply negb_true_iff in Hd.
    apply (run_scans_single ts c1 (t0 + milliseconds (10 * duration))); [done|..].
    + unfold c1. cbn -[Z.eqb]. by rewrite Hd.
    + unfold c1. cbn -[Z.eqb]. by rewrite Hd, Hp.
  - apply run_scans_endless; [done|]. unfold endless, c1. cbn -[Z.eqb].
    destruct (duration =? 0) eqn:Hd; [by left|]. cbn in Hsingle. rewrite Hsingle. by right.
Qed.

(** ** Invariant of the scanner *)

(** An enabled PHY has a valid window, a scanner that is off has no pending
    request and no history, and periodic scans pause before they renew. *)
Definition phy_wf (p : Scanner.PhyParameters) : Prop :=
  Scanner.enabled p = true →
  0x4 ≤ Scanner.scan_window p ∧ Scanner.scan_window p ≤ Scanner.scan_interval p.
Record scanner_wf (s : Scanner) : Prop := {
  scan_1m : phy_wf (Scanner.le_1m_phy s);
  scan_coded : phy_wf (Scanner.le_coded_phy s);
  scan_off : Scanner.scan_enable s = false →
    Scanner.pending_scan_requests s = [] ∧ Scanner.history s = [];
  scan_period : Scanner.periodical_timeout s ≠ None → Scanner.duration s < Scanner.period s;
}.

Lemma new_scanner_wf : scanner_wf Scanner.new.
Proof. by constructor. Qed.

Lemma LeSetScanParameters_scanner_wf t i w own pol c :
  scanner_wf (scanner_ c) → scanner_wf (scanner_ (snd (LeSetScanParameters t i w own pol c))).
Proof.
  intros Hs. unfold LeSetScanParameters, SelectLegacyAdvertising, Scanner.IsEnabled.
  destruct (extended_advertising_in_use_ c); [done|]. cbn [negb].
  destruct (Scanner.scan_enable _); [done|]. destruct (_ || _) eqn:H1; [done|].
  destruct (i <? w) eqn:H2; [done|]. to_prop. destruct Hs. by constructor.
Qed.

Lemma set_scanner_scanner_wf f c :
  scanner_wf (f (scanner_ c)) → scanner_wf (scanner_ (set_scanner f c)).
Proof. done. Qed.

Lemma stop_scan_wf s : scanner_wf s → scanner_wf (stop_scan s).
Proof. intros []. by constructor. Qed.

Lemma LeSetScanEnable_scanner_wf e fd c :
  scanner_wf (scanner_ c) → scanner_wf (scanner_ (snd (LeSetScanEnable e fd c))).
Proof.
  intros Hs. unfold LeSetScanEnable, SelectLegacyAdvertising.
  destruct (extended_advertising_in_use_ c); [done|]. cbn [negb].
  destruct (negb e); [by apply stop_scan_wf|]. destruct (random_address_missing _); [done|].
  destruct Hs. by constructor.
Qed.

Lemma LeSetExtendedScanParameters_scanner_wf own pol phys ps c status c' :
  scanner_wf (scanner_ c) → LeSetExtendedScanParameters own pol phys ps c = Ok (status, c') →
  scanner_wf (scanner_ c').
Proof.
  intros Hs E. destruct (LeSetExtendedScanParameters_run own pol phys ps c)
    as (status' & c2 & E2 & Hiff & Hc). rewrite E in E2. injection E2 as <- <-.
  rewrite Hc. case_bool_decide as Hst; [|done]. apply Hiff in Hst as (_ & _ & _ & _ & _ & Hall).
  destruct Hs as [H1 Hcoded Hoff Hper]. rewrite Forall_lookup in Hall.
  constructor; cbn -[bit]; try done; unfold phy_wf.
  - destruct (bit phys 0); [|done]. destruct (ps !! _) as [p|] eqn:Hp; [|exact H1].
    apply Hall in Hp. unfold valid_scan_phy in Hp. cbn. lia.
  - destruct (bit phys 2); [|done]. destruct (ps !! _) as [p|] eqn:Hp; [|exact Hcoded].
    apply Hall in Hp. unfold valid_scan_phy in Hp. cbn. lia.
Qed.

Lemma LeSetExtendedScanEnable_scanner_wf t e fd d p c :
  scanner_wf (scanner_ c) → scanner_wf (scanner_ (snd (LeSetExtendedScanEnable t e fd d p c))).
Proof.
  intros Hs. unfold LeSetExtendedScanEnable, SelectExtendedAdvertising.
  destruct (legacy_advertising_in_use_ c); [done|]. cbn [negb].
  destruct (negb e); [by apply stop_scan_wf|]. destruct (_ && _); [done|].
  destruct (_ && _) eqn:Hp; [done|]. destruct (random_address_missing _); [done|].
  destruct Hs. constructor; try done. cbn -[Z.eqb milliseconds].
  destruct (d =? 0); [done|]. cbn in Hp. destruct (p =? 0); [done|]. cbn in Hp. to_prop. done.
Qed.

Lemma scan_tick_wf t s : scanner_wf s → scanner_wf (scan_tick t s).
Proof.
  intros Hs. unfold scan_tick. destruct (Scanner.IsEnabled s); [|done].
  assert (scanner_wf (expire t s)) as H1.
  { unfold expire. destruct (scan_expired t s); [by apply stop_scan_wf|done]. }
  assert (scanner_wf (pause t (expire t s))) as H2.
  { unfold pause. destruct (_ && _); [|done]. destruct H1. by constructor. }
  assert (scanner_wf (renew t (pause t (expire t s)))) as [].
  { unfold renew. destruct (_ && _) eqn:E; [|done]. destruct H2 as [? ? Hoff Hper].
    constructor; cbn; try done.
    - intros Hen. destruct (Hoff Hen) as [? ->]. by destruct (bool_decide _).
    - intros _. apply Hper. intros Hnone. rewrite Hnone in E. by rewrite andb_false_r in E. }
  constructor; cbn; try done. intros Hen. destruct (scan_off0 Hen) as [-> ?]. done.
Qed.

(** ** Examples *)

#[local] Existing Instance example_environment.

Definition idle : LeController := new_controller (example_address 1) example_properties.

Lemma extended_scan_duration_witness :
  let c1 := snd (LeSetExtendedScanEnable 0 true FilterDuplicates.DISABLED 10 0 idle) in
  ∃ c2, run_scans (milliseconds <$> [50; 100; 150]) c1 =
    Ok (c2, event_output (true && true && le_event_unmasked SubeventCode.LE_SCAN_TIMEOUT idle)
              LeScanTimeout) ∧
  Scanner.scan_enable (scanner_ c2) = negb (true && true).
Proof.
  intros c1. apply (extended_scan_duration 0 FilterDuplicates.DISABLED 10 0 idle c1).
  vm_compute. reflexivity.
Defined.

(** The LE 2M bit is accepted, as a supported PHY, but is not counted when the
    entries are distributed: with LE 2M and LE Coded selected, the scanner uses
    for LE Coded the entry the host gave for LE 2M; with LE 2M alone the command
    succeeds and no PHY is enabled. *)
Example scan_parameters_2m :
  let scan phys ps :=
    match LeSetExtendedScanParameters OwnAddressType.PUBLIC_DEVICE_ADDRESS
            LeScanningFilterPolicy.ACCEPT_ALL phys ps idle with
    | Ok (status, c) => Some (status, Scanner.le_1m_phy (scanner_ c), Scanner.le_coded_phy (scanner_ c))
    | _ => None
    end in
  let for_2m := MkScanningPhyParameters LeScanType.PASSIVE 0x20 0x10 in
  let for_coded := MkScanningPhyParameters LeScanType.ACTIVE 0x60 0x30 in
  scan 0x6 [for_2m; for_coded] = Some (ErrorCode.SUCCESS, Scanner.no_phy, scan_phy for_2m) ∧
  scan 0x2 [for_2m] = Some (ErrorCode.SUCCESS, Scanner.no_phy, Scanner.no_phy).
Proof. split; vm_compute; reflexivity. Qed.

(** The test of the timeout is reversed and the event is sent for every train:
    one whose timeout is in the future is dropped, one whose timeout has passed
    is kept, and both are reported as lost. *)
Example synchronization_reversed :
  let sync h timeout := Synchronized.MkSynchronized
    AdvertiserAddressType.PUBLIC_DEVICE_OR_IDENTITY_ADDRESS (example_address 2) 0 h 100 timeout in
  let c := idle <| synchronized_ := <[1 := sync 1 200]> (<[2 := sync 2 50]> ∅) |>
                <| event_mask_ := 2 ^ 64 - 1 |> <| le_event_mask_ := 2 ^ 64 - 1 |> in
  match LeSynchronization 100 c with
  | Ok (_, c, out) => Some (fst <$> map_to_list (synchronized_ c), host_events out)
  | _ => None
  end = Some ([2], [LePeriodicAdvertisingSyncLost 2; LePeriodicAdvertisingSyncLost 1]).
Proof. vm_compute. reflexivity. Qed.
