(* ===== verification/LeConnect.v ===== *)
(** * Initiating connections (le_controller.cc)

    The legacy and extended commands that create a connection, and the command
    that cancels one. *)

From S2P Require Import Prelude HciTypes Properties Address Connections LeState LeLists LePhy LeScan.

Record InitiatingPhyParameters := MkInitiatingPhyParameters {
  scan_interval_ : Z;
  scan_window_ : Z;
  connection_interval_min_ : Z;
  connection_interval_max_ : Z;
  max_latency_ : Z;
  supervision_timeout_ : Z;
  min_ce_length_ : Z;
  max_ce_length_ : Z;
}.

(** [duration_cast<milliseconds>((1 + max_latency) *
    slots(2 * connection_interval_max) * 2)]. *)
Definition min_supervision_timeout (max_latency connection_interval_max : Z) : Z :=
  (1 + max_latency) * (2 * connection_interval_max) * 2 * 625 / 1000.

(** The checks on the parameters of one PHY, which both commands make. *)
Definition check_initiating_parameters (p : InitiatingPhyParameters) : option ErrorCode.t :=
  if (scan_interval_ p <? 0x4) || (0x4000 <? scan_interval_ p) || (scan_window_ p <? 0x4) ||
     (0x4000 <? scan_window_ p)
  then Some ErrorCode.UNSUPPORTED_FEATURE_OR_PARAMETER_VALUE
  else if scan_interval_ p <? scan_window_ p
  then Some ErrorCode.INVALID_HCI_COMMAND_PARAMETERS
  else if (connection_interval_min_ p <? 0x6) || (0x0c80 <? connection_interval_min_ p) ||
     (connection_interval_max_ p <? 0x6) || (0x0c80 <? connection_interval_max_ p)
  then Some ErrorCode.UNSUPPORTED_FEATURE_OR_PARAMETER_VALUE
  else if connection_interval_max_ p <? connection_interval_min_ p
  then Some ErrorCode.INVALID_HCI_COMMAND_PARAMETERS
  else if 0x01f3 <? max_latency_ p then Some ErrorCode.UNSUPPORTED_FEATURE_OR_PARAMETER_VALUE
  else if (supervision_timeout_ p <? 0xa) || (0x0c80 <? supervision_timeout_ p)
  then Some ErrorCode.UNSUPPORTED_FEATURE_OR_PARAMETER_VALUE
  else if supervision_timeout_ p * 10 <?
          min_supervision_timeout (max_latency_ p) (connection_interval_max_ p)
  then Some ErrorCode.INVALID_HCI_COMMAND_PARAMETERS
  else None.

(** The loop over the parameters. *)
Fixpoint check_all_initiating_parameters (ps : list InitiatingPhyParameters) : option ErrorCode.t :=
  match ps with
  | [] => None
  | p :: ps =>
      match check_initiating_parameters p with
      | Some status => Some status
      | None => check_all_initiating_parameters ps
      end
  end.

Definition initiating_phy (p : InitiatingPhyParameters) : Initiator.PhyParameters :=
  Initiator.MkPhyParameters true (scan_interval_ p) (scan_window_ p) (connection_interval_min_ p)
    (connection_interval_max_ p) (max_latency_ p) (supervision_timeout_ p) (min_ce_length_ p)
    (max_ce_length_ p).

Section Initiating.
Context {env : Environment}.

(** The checks on the address of the initiator, whether they pass.  Testing for a
    resolvable private address generates one. *)
Definition check_own_address (own_address_type : OwnAddressType.t)
    (initiator_filter_policy : InitiatorFilterPolicy.t) (peer_address : AddressWithType)
    (c : LeController) : bool * LeController :=
  if bool_decide (own_address_type = OwnAddressType.RANDOM_DEVICE_ADDRESS) &&
     bool_decide (random_address_ c = kEmpty)
  then (false, c)
  else if bool_decide (own_address_type = OwnAddressType.RESOLVABLE_OR_RANDOM_ADDRESS) &&
     bool_decide (initiator_filter_policy = InitiatorFilterPolicy.USE_PEER_ADDRESS)
  then
    let '(resolvable, c) := GenerateResolvablePrivateAddress peer_address Local c in
    (has_value resolvable || negb (bool_decide (random_address_ c = kEmpty)), c)
  else (true, c).

Definition LeCreateConnection (scan_interval scan_window : Z)
    (initiator_filter_policy : InitiatorFilterPolicy.t) (peer_address : AddressWithType)
    (own_address_type : OwnAddressType.t) (connection_interval_min connection_interval_max
    max_latency supervision_timeout min_ce_length max_ce_length : Z) (c : LeController) : reply :=
  let '(selected, c) := SelectLegacyAdvertising c in
  if negb selected then (ErrorCode.COMMAND_DISALLOWED, c)
  else if Initiator.IsEnabled (initiator_ c) then (ErrorCode.COMMAND_DISALLOWED, c)
  else
    let p := MkInitiatingPhyParameters scan_interval scan_window connection_interval_min
               connection_interval_max max_latency supervision_timeout min_ce_length
               max_ce_length in
    match check_initiating_parameters p with
    | Some status => (status, c)
    | None =>
        let '(pass, c) := check_own_address own_address_type initiator_filter_policy peer_address c in
        if negb pass then (ErrorCode.INVALID_HCI_COMMAND_PARAMETERS, c)
        else
          (ErrorCode.SUCCESS,
           c <| initiator_ ::= λ i, i
             <| Initiator.connect_enable := true |>
             <| Initiator.initiator_filter_policy := initiator_filter_policy |>
             <| Initiator.peer_address := peer_address |>
             <| Initiator.own_address_type := own_address_type |>
             <| Initiator.le_1m_phy := initiating_phy p |>
             <| Initiator.le_2m_phy ::= λ p, p <| Initiator.enabled := false |> |>
             <| Initiator.le_coded_phy ::= λ p, p <| Initiator.enabled := false |> |>
             <| Initiator.pending_connect_request := None |> |>)
    end.

Definition cancelled_event : HciEvent :=
  LeConnectionComplete ErrorCode.UNKNOWN_CONNECTION 0 Role.CENTRAL
    AddressType.PUBLIC_DEVICE_ADDRESS kEmpty 0 0 0 ClockAccuracy.PPM_500.
Definition enhanced_cancelled_event : HciEvent :=
  LeEnhancedConnectionCompleteV1 ErrorCode.UNKNOWN_CONNECTION 0 Role.CENTRAL
    AddressType.PUBLIC_DEVICE_ADDRESS kEmpty kEmpty kEmpty 0 0 0 ClockAccuracy.PPM_500.

Definition LeCreateConnectionCancel : M ErrorCode.t :=
  c ← gets id;
  if negb (Initiator.IsEnabled (initiator_ c)) then mret ErrorCode.COMMAND_DISALLOWED
  else
    enhanced ← lift (IsLeEventUnmasked SubeventCode.LE_ENHANCED_CONNECTION_COMPLETE_V1 c);
    unmasked ← lift (IsLeEventUnmasked SubeventCode.LE_CONNECTION_COMPLETE c);
    (if (enhanced : bool) then output (ScheduleTask 0 (SendEventLater enhanced_cancelled_event))
     else when unmasked (output (ScheduleTask 0 (SendEventLater cancelled_event))));;
    modify (λ c, c <| initiator_ ::= Initiator.Disable |>);;
    mret ErrorCode.SUCCESS.

Definition set_phy (p : option InitiatingPhyParameters) (old : Initiator.PhyParameters)
  : Initiator.PhyParameters :=
  match p with Some p => initiating_phy p | None => old end.

Definition LeExtendedCreateConnection (initiator_filter_policy : InitiatorFilterPolicy.t)
    (own_address_type : OwnAddressType.t) (peer_address : AddressWithType) (initiating_phys : Z)
    (initiating_phy_parameters : list InitiatingPhyParameters) (c : LeController) : outcome reply :=
  let '(selected, c) := SelectExtendedAdvertising c in
  if negb selected then Ok (ErrorCode.COMMAND_DISALLOWED, c)
  else if Initiator.IsEnabled (initiator_ c) then Ok (ErrorCode.COMMAND_DISALLOWED, c)
  else if negb (Z.land initiating_phys 0xf8 =? 0)
  then Ok (ErrorCode.UNSUPPORTED_FEATURE_OR_PARAMETER_VALUE, c)
  else if negb (popcount initiating_phys =? zlength initiating_phy_parameters)
  then Ok (ErrorCode.INVALID_HCI_COMMAND_PARAMETERS, c)
  else if initiating_phys =? 0 then Ok (ErrorCode.INVALID_HCI_COMMAND_PARAMETERS, c)
  else
    match check_all_initiating_parameters initiating_phy_parameters with
    | Some status => Ok (status, c)
    | None =>
        let '(pass, c) := check_own_address own_address_type initiator_filter_policy peer_address c in
        if negb pass then Ok (ErrorCode.INVALID_HCI_COMMAND_PARAMETERS, c)
        else
          let i := (initiator_ c)
            <| Initiator.connect_enable := true |>
            <| Initiator.initiator_filter_policy := initiator_filter_policy |>
            <| Initiator.peer_address := peer_address |>
            <| Initiator.own_address_type := own_address_type |>
            <| Initiator.pending_connect_request := None |>
            <| Initiator.le_1m_phy ::= λ p, p <| Initiator.enabled := false |> |>
            <| Initiator.le_2m_phy ::= λ p, p <| Initiator.enabled := false |> |>
            <| Initiator.le_coded_phy ::= λ p, p <| Initiator.enabled := false |> |> in
          '(p, offset) ← take_phy (bit initiating_phys 0) initiating_phy_parameters 0;
          let i := i <| Initiator.le_1m_phy ::= set_phy p |> in
          '(p, offset) ← take_phy (bit initiating_phys 1) initiating_phy_parameters offset;
          let i := i <| Initiator.le_2m_phy ::= set_phy p |> in
          '(p, offset) ← take_phy (bit initiating_phys 2) initiating_phy_parameters offset;
          let i := i <| Initiator.le_coded_phy ::= set_phy p |> in
          Ok (ErrorCode.SUCCESS, c <| initiator_ := i |>)
    end.
End Initiating.

(** ** Properties *)

(** The parameters a connection may have; the supervision timeout (in units of
    10 ms) is at least twice the longest time between two packets of the
    peripheral (in units of 1.25 ms). *)
Definition valid_initiating (p : InitiatingPhyParameters) : Prop :=
  0x4 ≤ scan_window_ p ∧ scan_window_ p ≤ scan_interval_ p ∧ scan_interval_ p ≤ 0x4000 ∧
  0x6 ≤ connection_interval_min_ p ∧ connection_interval_min_ p ≤ connection_interval_max_ p ∧
  connection_interval_max_ p ≤ 0x0c80 ∧ max_latency_ p ≤ 0x01f3 ∧
  0xa ≤ supervision_timeout_ p ∧ supervision_timeout_ p ≤ 0x0c80 ∧
  2 * (1 + max_latency_ p) * (connection_interval_max_ p * 1250) ≤ supervision_timeout_ p * 10000.

(** Rounding to milliseconds loses nothing. *)
Lemma min_supervision_timeout_le timeout latency interval :
  min_supervision_timeout latency interval ≤ timeout * 10 ↔
  2 * (1 + latency) * (interval * 1250) ≤ timeout * 10000.
Proof.
  unfold min_supervision_timeout.
  replace ((1 + latency) * (2 * interval) * 2 * 625) with (2500 * ((1 + latency) * interval)) by ring.
  replace (2 * (1 + latency) * (interval * 1250)) with (2500 * ((1 + latency) * interval)) by ring.
  generalize ((1 + latency) * interval). intros x.
  pose proof (Z.div_mod (2500 * x) 1000). pose proof (Z.mod_pos_bound (2500 * x) 1000). lia.
Qed.

Lemma check_initiating_parameters_None p :
  check_initiating_parameters p = None ↔ valid_initiating p.
Proof.
  unfold valid_initiating. rewrite <-min_supervision_timeout_le. split.
  - unfold check_initiating_parameters. intros H. passes H E1. passes H E2. passes H E3. passes H E4.
    passes H E5. passes H E6. passes H E7. to_prop. lia.
  - intros Hv. unfold check_initiating_parameters.
    repeat match goal with
    | |- (if ?b then _ else _) = None => destruct b eqn:?E; [exfalso|]
    end; [..|done]; rewrite ?orb_true_iff, ?Z.ltb_lt in *; lia.
Qed.

Lemma check_initiating_parameters_error p :
  check_initiating_parameters p ≠ Some ErrorCode.SUCCESS.
Proof. unfold check_initiating_parameters. by repeat case_match. Qed.

Lemma check_all_initiating_parameters_spec ps :
  (check_all_initiating_parameters ps = None ↔ Forall valid_initiating ps) ∧
  check_all_initiating_parameters ps ≠ Some ErrorCode.SUCCESS.
Proof.
  induction ps as [|p ps [IH1 IH2]]; cbn; [by repeat split; try constructor|].
  rewrite Forall_cons, <-check_initiating_parameters_None.
  pose proof (check_initiating_parameters_error p).
  destruct (check_initiating_parameters p); [|tauto]. split; [|congruence]. by split; [|intros []].
Qed.

Section Properties.
Context {env : Environment}.

(** The initiator has an address to use. *)
Definition own_address_ok (own : OwnAddressType.t) (policy : InitiatorFilterPolicy.t)
    (peer : AddressWithType) (c : LeController) : Prop :=
  ¬ (own = OwnAddressType.RANDOM_DEVICE_ADDRESS ∧ random_address_ c = kEmpty) ∧
  ¬ (own = OwnAddressType.RESOLVABLE_OR_RANDOM_ADDRESS ∧
     policy = InitiatorFilterPolicy.USE_PEER_ADDRESS ∧
     fst (GenerateResolvablePrivateAddress peer Local c) = None ∧ random_address_ c = kEmpty).

Lemma GenerateResolvablePrivateAddress_initiator address irk c :
  let c' := snd (GenerateResolvablePrivateAddress address irk c) in
  initiator_ c' = initiator_ c ∧ random_address_ c' = random_address_ c.
Proof.
  unfold GenerateResolvablePrivateAddress, draw_rpa. destruct (find_first _ _); [|done].
  by destruct irk.
Qed.

Lemma check_own_address_spec own policy peer c :
  (fst (check_own_address own policy peer c) = true ↔ own_address_ok own policy peer c) ∧
  initiator_ (snd (check_own_address own policy peer c)) = initiator_ c.
Proof.
  unfold check_own_address, own_address_ok.
  pose proof (GenerateResolvablePrivateAddress_initiator peer Local c) as [Hi Hr].
  destruct (bool_decide (own = OwnAddressType.RANDOM_DEVICE_ADDRESS)) eqn:H1,
    (bool_decide (random_address_ c = kEmpty)) eqn:H2; cbn [andb]; to_prop.
  - split; [|done]. split; [done|]. intros [[] _]. by split.
  - subst own. cbn. split; [|done]. split; [|done]. intros _. by split; intros [].
  - destruct (bool_decide (own = _)) eqn:H3, (bool_decide (policy = _)) eqn:H4; cbn [andb]; to_prop;
      [|split; [|done]; split; [|done]; intros _; split; [by intros []|by intros (? & ? & _)]..].
    destruct (GenerateResolvablePrivateAddress peer Local c) as [r c']. cbn in *. split; [|done].
    rewrite bool_decide_true by congruence. rewrite orb_false_r. destruct r; cbn.
    2: { split; [done|]. intros [_ []]. by repeat split. }
    split; [|done]. intros _. split; [by intros []|]. by intros (_ & _ & ? & _).
  - destruct (bool_decide (own = _)) eqn:H3, (bool_decide (policy = _)) eqn:H4; cbn [andb]; to_prop;
      [|split; [|done]; split; [|done]; intros _; split; [by intros []|by intros (? & ? & _)]..].
    destruct (GenerateResolvablePrivateAddress peer Local c) as [r c']. cbn in *. split; [|done].
    rewrite bool_decide_false by congruence. rewrite orb_true_r. split; [|done].
    intros _. split; [by intros []|by intros (? & ? & ? & ?)].
Qed.

(** The rank of the bit [i] among the bits of [phys], and the parameters the
    command gives to that PHY. *)
Definition rank (phys : Z) (i : Z) : nat := length (filter (λ j, bit phys j = true) (seqZ 0 i)).
Definition initiating_phy_at (phys : Z) (ps : list InitiatingPhyParameters) (i : Z)
    (old : Initiator.PhyParameters) : Initiator.PhyParameters :=
  if bit phys i then set_phy (ps !! rank phys i) old else old <| Initiator.enabled := false |>.

Definition initiate (policy : InitiatorFilterPolicy.t) (own : OwnAddressType.t)
    (peer : AddressWithType) (phys : Z) (ps : list InitiatingPhyParameters) (i : Initiator) : Initiator :=
  i <| Initiator.connect_enable := true |> <| Initiator.initiator_filter_policy := policy |>
    <| Initiator.peer_address := peer |> <| Initiator.own_address_type := own |>
    <| Initiator.pending_connect_request := None |>
    <| Initiator.le_1m_phy ::= initiating_phy_at phys ps 0 |>
    <| Initiator.le_2m_phy ::= initiating_phy_at phys ps 1 |>
    <| Initiator.le_coded_phy ::= initiating_phy_at phys ps 2 |>.

Lemma ranks phys :
  rank phys 0 = 0%nat ∧ rank phys 1 = (if bit phys 0 then 1 else 0)%nat ∧
  rank phys 2 = ((if bit phys 0 then 1 else 0) + (if bit phys 1 then 1 else 0))%nat.
Proof.
  unfold rank. change (seqZ 0 0) with (@nil Z). change (seqZ 0 1) with [0]. change (seqZ 0 2) with [0; 1].
  rewrite !filter_cons, filter_nil.
  destruct (bit phys 0), (bit phys 1); repeat case_decide; by repeat split.
Qed.

Lemma popcount_ge3 z : Z.b2z (bit z 0) + Z.b2z (bit z 1) + Z.b2z (bit z 2) ≤ popcount z.
Proof.
  unfold popcount. rewrite zlength_filter. change (seqZ 0 8) with [0; 1; 2; 3; 4; 5; 6; 7].
  cbn [foldr]. assert (∀ b, 0 ≤ Z.b2z b) as Hb by by intros [].
  pose proof (Hb (bit z 3)). pose proof (Hb (bit z 4)).
  pose proof (Hb (bit z 5)). pose proof (Hb (bit z 6)). pose proof (Hb (bit z 7)). lia.
Qed.

Lemma own_address_ok_in_use own policy peer l e c :
  own_address_ok own policy peer (c <| legacy_advertising_in_use_ := l |>
                                    <| extended_advertising_in_use_ := e |>) ↔
  own_address_ok own policy peer c.
Proof.
  unfold own_address_ok, GenerateResolvablePrivateAddress, draw_rpa. cbn.
  by destruct (find_first _ _).
Qed.

Lemma LeExtendedCreateConnection_run policy own peer phys ps c :
  ∃ status c', LeExtendedCreateConnection policy own peer phys ps c = Ok (status, c') ∧
  (status = ErrorCode.SUCCESS ↔
     legacy_advertising_in_use_ c = false ∧ Initiator.connect_enable (initiator_ c) = false ∧
     Z.land phys 0xf8 = 0 ∧ phys ≠ 0 ∧ popcount phys = zlength ps ∧
     Forall valid_initiating ps ∧ own_address_ok own policy peer c) ∧
  initiator_ c' =
    (if bool_decide (status = ErrorCode.SUCCESS)
     then initiate policy own peer phys ps (initiator_ c) else initiator_ c).
Proof.
  unfold LeExtendedCreateConnection, SelectExtendedAdvertising, Initiator.IsEnabled.
  destruct (legacy_advertising_in_use_ c) eqn:Hl; cbn [negb].
  { do 2 eexists. split; [done|]. split; [|done]. split; [done|]. by intros (? & _). }
  set (c1 := c <| extended_advertising_in_use_ := true |>).
  change (initiator_ c1) with (initiator_ c).
  assert (own_address_ok own policy peer c1 ↔ own_address_ok own policy peer c) as Hok.
  { rewrite <-(own_address_ok_in_use own policy peer false true c). unfold c1. destruct c; cbn in *. by subst. }
  destruct (Initiator.connect_enable (initiator_ c)) eqn:Hs.
  { do 2 eexists. split; [done|]. split; [|done]. split; [done|]. by intros (_ & ? & _). }
  destruct (Z.land _ _ =? 0) eqn:H1; to_prop; cbn [negb].
  2: { do 2 eexists. split; [done|]. split; [|done]. split; [done|]. by intros (_ & _ & ? & _). }
  destruct (popcount phys =? _) eqn:H2; to_prop; cbn [negb].
  2: { do 2 eexists. split; [done|]. split; [|done]. split; [done|].
       by intros (_ & _ & _ & _ & ? & _). }
  destruct (phys =? 0) eqn:H3; to_prop.
  { do 2 eexists. split; [done|]. split; [|done]. split; [done|]. by intros (_ & _ & _ & ? & _). }
  pose proof (check_all_initiating_parameters_spec ps) as [Hall Hns].
  destruct (check_all_initiating_parameters ps) as [status|].
  { do 2 eexists. split; [done|]. split; [|by rewrite bool_decide_false by congruence].
    split; [congruence|]. intros (_ & _ & _ & _ & _ & H & _). by apply Hall in H. }
  pose proof (check_own_address_spec own policy peer c1) as [Hown Hinit]. rewrite Hok in Hown.
  destruct (check_own_address own policy peer c1) as [[] c2]; cbn [fst snd negb] in *.
  2: { do 2 eexists. split; [done|]. split; [|done]. split; [done|].
       intros (_ & _ & _ & _ & _ & _ & H). by apply Hown in H. }
  pose proof (popcount_ge3 phys) as Hb. rewrite H2 in Hb. unfold zlength in Hb.
  pose proof (ranks phys) as (R0 & R1 & R2).
  rewrite (take_phy_Ok (bit phys 0)).
  2: { intros E. rewrite E in Hb. destruct (bit phys 1), (bit phys 2); cbn in Hb; lia. }
  cbn [mbind outcome_bind]. rewrite (take_phy_Ok (bit phys 1)).
  2: { intros E. rewrite E in Hb. destruct (bit phys 0), (bit phys 2); cbn in Hb; lia. }
  cbn [mbind outcome_bind]. rewrite (take_phy_Ok (bit phys 2)).
  2: { intros E. rewrite E in Hb. destruct (bit phys 0), (bit phys 1); cbn in Hb; lia. }
  cbn [mbind outcome_bind]. do 2 eexists. split; [done|]. split; [tauto|].
  rewrite bool_decide_true by done. unfold initiate, initiating_phy_at. rewrite R0, R1, R2.
  cbn -[bit]. rewrite Hinit.
  assert (∀ k, (k < length ps)%nat → ∃ p, ps !! k = Some p) as Hk by by apply lookup_lt_is_Some_2.
  destruct (bit phys 0), (bit phys 1), (bit phys 2); cbn in Hb; cbn;
    repeat match goal with
    | |- context [ps !! ?k] => let p := fresh "p" in let E := fresh "E" in
        destruct (Hk k) as [p E]; [lia|rewrite E; cbn]
    end; done.
Qed.

(** LE_Extended_Create_Connection. The parameters are never read out of
    range. The command succeeds exactly when legacy commands are not in use, no
    connection is being created, the PHYs have no reserved bit and at least one
    is given, there is one entry per PHY, every entry is within the ranges of the
    specification with a supervision timeout of at least twice the effective
    connection interval, and the initiator has an address to use. It then starts
    the initiator, each PHY with its own entry; when it fails the initiator is
    unchanged. *)
Theorem LeExtendedCreateConnection_spec (policy : InitiatorFilterPolicy.t) (own : OwnAddressType.t)
    (peer : AddressWithType) (phys : Z) (ps : list InitiatingPhyParameters) (c : LeController) :
  ∃ status c', LeExtendedCreateConnection policy own peer phys ps c = Ok (status, c') ∧
  (status = ErrorCode.SUCCESS ↔
     legacy_advertising_in_use_ c = false ∧ Initiator.connect_enable (initiator_ c) = false ∧
     Z.land phys 0xf8 = 0 ∧ phys ≠ 0 ∧ popcount phys = zlength ps ∧
     Forall valid_initiating ps ∧ own_address_ok own policy peer c) ∧
  initiator_ c' =
    (if bool_decide (status = ErrorCode.SUCCESS)
     then initiate policy own peer phys ps (initiator_ c) else initiator_ c).
Proof. apply LeExtendedCreateConnection_run. Qed.

Definition in_use (l e : bool) (c : LeController) : LeController :=
  c <| legacy_advertising_in_use_ := l |> <| extended_advertising_in_use_ := e |>.

Lemma check_own_address_in_use own policy peer l e c :
  check_own_address own policy peer (in_use l e c) =
    prod_map id (in_use l e) (check_own_address own policy peer c).
Proof.
  unfold check_own_address, GenerateResolvablePrivateAddress, draw_rpa. cbn.
  destruct (_ && _); [done|]. destruct (_ && _); [|done]. by destruct (find_first _ _).
Qed.

Lemma in_use_same c : in_use (legacy_advertising_in_use_ c) (extended_advertising_in_use_ c) c = c.
Proof. by destruct c. Qed.

(** The two commands that create a connection agree: on a controller where
    neither kind of command was used, LE_Create_Connection answers and does what
    LE_Extended_Create_Connection does with the same parameters for LE 1M alone,
    but for the kind of command recorded as used. *)
Theorem create_connection_equivalence (policy : InitiatorFilterPolicy.t) (own : OwnAddressType.t)
    (peer : AddressWithType) (p : InitiatingPhyParameters) (c : LeController)
    (Hl : legacy_advertising_in_use_ c = false) (He : extended_advertising_in_use_ c = false) :
  let '(status, c1) :=
    LeCreateConnection (scan_interval_ p) (scan_window_ p) policy peer own
      (connection_interval_min_ p) (connection_interval_max_ p) (max_latency_ p)
      (supervision_timeout_ p) (min_ce_length_ p) (max_ce_length_ p) c in
  LeExtendedCreateConnection policy own peer 0x1 [p] c = Ok (status, in_use false true c1).
Proof.
  unfold LeCreateConnection, LeExtendedCreateConnection, SelectLegacyAdvertising,
    SelectExtendedAdvertising, Initiator.IsEnabled. rewrite Hl, He. cbn [negb].
  assert (c <| legacy_advertising_in_use_ := true |> = in_use true false c) as ->
    by (destruct c; cbn in *; by subst).
  assert (c <| extended_advertising_in_use_ := true |> = in_use false true c) as ->
    by (destruct c; cbn in *; by subst).
  change (initiator_ (in_use _ _ c)) with (initiator_ c).
  destruct (Initiator.connect_enable (initiator_ c)); [done|].
  replace (MkInitiatingPhyParameters _ _ _ _ _ _ _ _) with p by by destruct p.
  cbn [check_all_initiating_parameters].
  change (negb (Z.land 1 248 =? 0)) with false. change (popcount 1) with 1.
  change (negb (1 =? zlength [p])) with false. change (1 =? 0) with false. cbn [check_all_initiating_parameters].
  destruct (check_initiating_parameters p); [done|].
  rewrite !check_own_address_in_use.
  destruct (check_own_address own policy peer c) as [[] c2]; cbn [prod_map fst snd id negb]; [|done].
  cbn. done.
Qed.

(** *** Invariant of the initiator *)

Definition initiating_wf (p : Initiator.PhyParameters) : Prop :=
  Initiator.enabled p = true →
  valid_initiating (MkInitiatingPhyParameters (Initiator.scan_interval p) (Initiator.scan_window p)
    (Initiator.connection_interval_min p) (Initiator.connection_interval_max p)
    (Initiator.max_latency p) (Initiator.supervision_timeout p) (Initiator.min_ce_length p)
    (Initiator.max_ce_length p)).
Record initiator_wf (i : Initiator) : Prop := {
  init_1m : initiating_wf (Initiator.le_1m_phy i);
  init_2m : initiating_wf (Initiator.le_2m_phy i);
  init_coded : initiating_wf (Initiator.le_coded_phy i);
}.

Lemma new_initiator_wf : initiator_wf Initiator.new.
Proof. by constructor. Qed.

Lemma initiating_phy_wf p : valid_initiating p → initiating_wf (initiating_phy p).
Proof. intros Hp _. by destruct p. Qed.

Lemma initiating_phy_at_wf phys ps i old :
  Forall valid_initiating ps → initiating_wf old → initiating_wf (initiating_phy_at phys ps i old).
Proof.
  intros Hps Hold. unfold initiating_phy_at. destruct (bit phys i); [|by intros [=]].
  destruct (ps !! _) as [p|] eqn:E; [|done]. apply initiating_phy_wf.
  by eapply Forall_lookup_1.
Qed.

Lemma LeExtendedCreateConnection_initiator_wf policy own peer phys ps c status c' :
  initiator_wf (initiator_ c) → LeExtendedCreateConnection policy own peer phys ps c = Ok (status, c') →
  initiator_wf (initiator_ c').
Proof.
  intros Hi E. destruct (LeExtendedCreateConnection_run policy own peer phys ps c)
    as (status' & c2 & E2 & Hiff & Hc). rewrite E in E2. injection E2 as <- <-.
  rewrite Hc. case_bool_decide as Hst; [|done]. apply Hiff in Hst as (_ & _ & _ & _ & _ & Hall & _).
  destruct Hi. by constructor; apply initiating_phy_at_wf.
Qed.

Lemma LeCreateConnection_initiator_wf si sw policy peer own imin imax lat sup cmin cmax c :
  initiator_wf (initiator_ c) →
  initiator_wf (initiator_ (snd (LeCreateConnection si sw policy peer own imin imax lat sup cmin cmax c))).
Proof.
  intros Hi. unfold LeCreateConnection, SelectLegacyAdvertising.
  destruct (extended_advertising_in_use_ c); [done|]. cbn [negb].
  destruct (Initiator.IsEnabled _); [done|].
  destruct (check_initiating_parameters _) eqn:Hp; [done|]. apply check_initiating_parameters_None in Hp.
  pose proof (check_own_address_spec own policy peer (c <| legacy_advertising_in_use_ := true |>)) as [_ Hown].
  destruct (check_own_address _ _ _ _) as [[] c2]; cbn in *; rewrite Hown; [|done].
  destruct Hi. constructor; cbn; [by intros _|by intros [=]..].
Qed.

(** The command that cancels answers and disables the initiator. *)
Lemma LeCreateConnectionCancel_run t c :
  LeCreateConnectionCancel t c =
    if Initiator.connect_enable (initiator_ c)
    then Ok (ErrorCode.SUCCESS, c <| initiator_ ::= Initiator.Disable |>,
             if le_event_unmasked SubeventCode.LE_ENHANCED_CONNECTION_COMPLETE_V1 c
             then [ScheduleTask 0 (SendEventLater enhanced_cancelled_event)]
             else if le_event_unmasked SubeventCode.LE_CONNECTION_COMPLETE c
             then [ScheduleTask 0 (SendEventLater cancelled_event)] else [])
    else Ok (ErrorCode.COMMAND_DISALLOWED, c, []).
Proof.
  unfold LeCreateConnectionCancel, Initiator.IsEnabled. autorewrite with run. unfold id.
  destruct (Initiator.connect_enable _); [cbn [negb]|done].
  rewrite !IsLeEventUnmasked_Ok. autorewrite with run.
  destruct (le_event_unmasked SubeventCode.LE_ENHANCED_CONNECTION_COMPLETE_V1 c);
    [by autorewrite with run|].
  by destruct (le_event_unmasked SubeventCode.LE_CONNECTION_COMPLETE c).
Qed.
End Properties.

(** ** Examples *)

#[local] Existing Instance example_environment.

Lemma create_connection_equivalence_witness :
  let p := MkInitiatingPhyParameters 0x60 0x30 0x18 0x28 0 0x2a 0 0 in
  let peer := MkAddressWithType (example_address 2) AddressType.PUBLIC_DEVICE_ADDRESS in
  let '(status, c1) :=
    LeCreateConnection 0x60 0x30 InitiatorFilterPolicy.USE_PEER_ADDRESS peer
      OwnAddressType.PUBLIC_DEVICE_ADDRESS 0x18 0x28 0 0x2a 0 0 idle in
  LeExtendedCreateConnection InitiatorFilterPolicy.USE_PEER_ADDRESS
    OwnAddressType.PUBLIC_DEVICE_ADDRESS peer 0x1 [p] idle = Ok (status, in_use false true c1).
Proof.
  intros p peer.
  exact (create_connection_equivalence InitiatorFilterPolicy.USE_PEER_ADDRESS
           OwnAddressType.PUBLIC_DEVICE_ADDRESS peer p idle eq_refl eq_refl).
Defined.

(** A supervision timeout equal to the minimum is accepted, where the
    specification asks for a larger one. *)
Example supervision_timeout_equal :
  check_initiating_parameters (MkInitiatingPhyParameters 0x60 0x30 0x18 0x28 0 0xa 0 0) = None ∧
  2 * (1 + 0) * (0x28 * 1250) = 0xa * 10000.
Proof. by split. Qed.
