(* ===== verification/LeSubrate.v ===== *)
(** * Connection subrating and power reporting (le_controller.cc)

    The commands that set the subrate parameters and request new ones, the two
    packets of the procedure, and the transmit power commands. *)

From S2P Require Import Prelude HciTypes Properties Address CsTypes Connections LeState LeLists LePhy.

(** A product of [int]s, at most 32 bits wide. *)
Definition int_mul (x y : Z) : outcome Z :=
  let p := x * y in
  if (- 2 ^ 31 <=? p) && (p <? 2 ^ 31) then Ok p else Undef.

Section Subrating.
Context {env : Environment}.

(** [if (IsLeEventUnmasked(code)) ScheduleTask(kNoDelayMs, send_event_(event))]. *)
Definition schedule_if_unmasked (code : SubeventCode.t) (event : HciEvent) : M () :=
  c ← gets id;
  unmasked ← lift (IsLeEventUnmasked code c);
  when unmasked (output (ScheduleTask 0 (SendEventLater event))).

(** ** Power reporting *)

Definition LeReadRemoteTransmitPowerLevel (connection_handle phy : Z) : M ErrorCode.t :=
  with_connection connection_handle (λ _,
    output (ScheduleTask 0 (SendEventLater
      (LeTransmitPowerReporting ErrorCode.SUCCESS connection_handle 0x02 phy (u8 (-30)) 0 0x7f)));;
    mret ErrorCode.SUCCESS).

Definition LeSetTransmitPowerReportingEnable (connection_handle local_enable remote_enable : Z)
  : M ErrorCode.t :=
  with_connection connection_handle (λ _, mret ErrorCode.SUCCESS).

(** ** Commands *)

(** The checks of both commands, which answer differently when the bounds of the
    factor are crossed. *)
Definition check_subrate (crossed : ErrorCode.t) (p : LeAclSubrateParameters) : option ErrorCode.t :=
  if (subrate_min p <? 0x0001) || (0x01f4 <? subrate_min p)
  then Some ErrorCode.UNSUPPORTED_FEATURE_OR_PARAMETER_VALUE
  else if (subrate_max p <? 0x0001) || (0x01f4 <? subrate_max p)
  then Some ErrorCode.UNSUPPORTED_FEATURE_OR_PARAMETER_VALUE
  else if subrate_max p <? subrate_min p then Some crossed
  else if 0x01f3 <? subrate_max_latency p
  then Some ErrorCode.UNSUPPORTED_FEATURE_OR_PARAMETER_VALUE
  else if 0x01f3 <? continuation_number p
  then Some ErrorCode.UNSUPPORTED_FEATURE_OR_PARAMETER_VALUE
  else if (supervision_timeout p <? 0x000a) || (0x0c80 <? supervision_timeout p)
  then Some ErrorCode.UNSUPPORTED_FEATURE_OR_PARAMETER_VALUE
  else None.

Definition LeSetDefaultSubrate (p : LeAclSubrateParameters) (c : LeController) : reply :=
  match check_subrate ErrorCode.UNSUPPORTED_FEATURE_OR_PARAMETER_VALUE p with
  | Some status => (status, c)
  | None => (ErrorCode.SUCCESS, c <| default_subrate_parameters_ := p |>)
  end.

(** The checks of the request against the connection. *)
Definition check_subrate_request (p : LeAclSubrateParameters) (k : LeAclConnection)
  : option ErrorCode.t :=
  let interval := conn_interval (LeAclConnection.parameters k) in
  match check_subrate ErrorCode.INVALID_HCI_COMMAND_PARAMETERS p with
  | Some status => Some status
  | None =>
      if 500 <? subrate_max p * (subrate_max_latency p + 1)
      then Some ErrorCode.INVALID_HCI_COMMAND_PARAMETERS
      else if supervision_timeout p / 2 <=? interval * subrate_max p * (subrate_max_latency p + 1)
      then Some ErrorCode.INVALID_HCI_COMMAND_PARAMETERS
      else if subrate_max p <=? continuation_number p
      then Some ErrorCode.INVALID_HCI_COMMAND_PARAMETERS
      else None
  end.

(** The assignments to [connection.parameters]. *)
Definition set_link_parameters (factor latency continuation timeout : Z) (k : LeAclConnection)
  : LeAclConnection :=
  k <| LeAclConnection.parameters ::= λ p, p
       <| conn_subrate_factor := factor |>
       <| conn_continuation_number := continuation |>
       <| conn_peripheral_latency := latency |>
       <| conn_supervision_timeout := timeout |> |>.

Definition LeSubrateRequest (connection_handle : Z) (p : LeAclSubrateParameters) : M ErrorCode.t :=
  with_connection connection_handle (λ connection,
    match check_subrate_request p connection with
    | Some status => mret status
    | None =>
        (if bool_decide (LeAclConnection.role connection = Role.CENTRAL) then
           SendLeLinkLayerPacket
             (LlSubrateInd (own connection) (peer connection) (ErrorCode.to_Z ErrorCode.SUCCESS)
                (subrate_max p) 0 (subrate_max_latency p) (continuation_number p)
                (supervision_timeout p)) 0;;
           update_le_connection connection_handle (λ k,
             (set_link_parameters (subrate_max p) (subrate_max_latency p) (continuation_number p)
                (supervision_timeout p) k) <| LeAclConnection.subrate_parameters := p |>);;
           schedule_if_unmasked SubeventCode.LE_SUBRATE_CHANGE
             (LeSubrateChange (ErrorCode.to_Z ErrorCode.SUCCESS) connection_handle (subrate_max p)
                (subrate_max_latency p) (continuation_number p) (supervision_timeout p))
         else
           SendLeLinkLayerPacket
             (LlSubrateReq (own connection) (peer connection) (subrate_min p) (subrate_max p)
                (subrate_max_latency p) (continuation_number p) (supervision_timeout p)) 0);;
        mret ErrorCode.SUCCESS
    end).

(** ** Packets *)

(** The status the central answers a request with. *)
Definition subrate_request_status (k : LeAclConnection)
    (factor_min factor_max max_latency timeout : Z) : outcome ErrorCode.t :=
  let acceptable := LeAclConnection.subrate_parameters k in
  p ← int_mul (conn_interval (LeAclConnection.parameters k)) factor_min;
  p ← int_mul p (max_latency + 1);
  p ← int_mul p 2;
  Ok (if (factor_max <? subrate_min acceptable) || (subrate_max acceptable <? factor_min)
         || (subrate_max_latency acceptable <? max_latency)
         || (supervision_timeout acceptable <? timeout)
         || (p <? timeout)
      then ErrorCode.INVALID_LMP_OR_LL_PARAMETERS
      else ErrorCode.SUCCESS).

Definition IncomingLlSubrateReq (handle factor_min factor_max max_latency requested_continuation
    timeout : Z) : M () :=
  connection ← le_connection handle;
  lift (assert (bool_decide (LeAclConnection.role connection = Role.CENTRAL)));;
  let acceptable := LeAclConnection.subrate_parameters connection in
  status ← lift (subrate_request_status connection factor_min factor_max max_latency timeout);
  if bool_decide (status ≠ ErrorCode.SUCCESS) then
    SendLeLinkLayerPacket
      (LlSubrateInd (own connection) (peer connection) (ErrorCode.to_Z status) 0 0 0 0 0) 0
  else
    let subrate_factor := Z.min factor_max (subrate_max acceptable) in
    let continuation :=
      Z.min (Z.max requested_continuation (continuation_number acceptable)) (u16 (subrate_factor - 1)) in
    let latency := Z.min max_latency (subrate_max_latency acceptable) in
    let supervision_timeout := Z.min timeout (supervision_timeout acceptable) in
    update_le_connection handle
      (set_link_parameters subrate_factor latency continuation supervision_timeout);;
    schedule_if_unmasked SubeventCode.LE_SUBRATE_CHANGE
      (LeSubrateChange (ErrorCode.to_Z ErrorCode.SUCCESS) (LeAclConnection.handle connection)
         subrate_factor latency continuation supervision_timeout);;
    SendLeLinkLayerPacket
      (LlSubrateInd (own connection) (peer connection) (ErrorCode.to_Z status) subrate_factor 0
         latency continuation supervision_timeout) 0.

Definition IncomingLlSubrateInd (handle status subrate_factor latency continuation timeout : Z)
  : M () :=
  connection ← le_connection handle;
  lift (assert (bool_decide (LeAclConnection.role connection = Role.PERIPHERAL)));;
  (if status =? ErrorCode.to_Z ErrorCode.SUCCESS
   then update_le_connection handle (set_link_parameters subrate_factor latency continuation timeout)
   else mret ());;
  schedule_if_unmasked SubeventCode.LE_SUBRATE_CHANGE
    (LeSubrateChange status (LeAclConnection.handle connection) subrate_factor latency continuation
       timeout).
End Subrating.

(** ** The procedure *)

Section Procedure.
Context {env : Environment}.

Definition later_if_unmasked (c : LeController) (code : SubeventCode.t) (event : HciEvent) : list Output :=
  if le_event_unmasked code c then [ScheduleTask 0 (SendEventLater event)] else [].
Lemma schedule_if_unmasked_run code event t c :
  schedule_if_unmasked code event t c = Ok ((), c, later_if_unmasked c code event).
Proof.
  unfold schedule_if_unmasked, later_if_unmasked. autorewrite with run. rewrite IsLeEventUnmasked_Ok.
  autorewrite with run. unfold id. by destruct (le_event_unmasked code c).
Qed.
Lemma run_schedule_if_unmasked {B} code event (f : () → M B) t c :
  (schedule_if_unmasked code event ≫= f) t c = emit (later_if_unmasked c code event) (f () t c).
Proof. erewrite run_bind; [done|]. apply schedule_if_unmasked_run. Qed.

(** A packet handed over to the physical layer. *)
Definition handed_over (packet : LinkLayerPacket) : Output := ScheduleTask 0 (SendToRemote packet 0).

(** The link parameters the two ends of a connection must agree on. *)
Definition link_parameters (k : LeAclConnection) : Z * Z * Z * Z :=
  let p := LeAclConnection.parameters k in
  (conn_subrate_factor p, conn_peripheral_latency p, conn_continuation_number p, conn_supervision_timeout p).

Lemma check_subrate_None crossed p :
  check_subrate crossed p = None →
  0x0001 ≤ subrate_min p ≤ subrate_max p ∧ subrate_max p ≤ 0x01f4 ∧ subrate_max_latency p ≤ 0x01f3 ∧
  continuation_number p ≤ 0x01f3 ∧ 0x000a ≤ supervision_timeout p ≤ 0x0c80.
Proof. unfold check_subrate. repeat (case_match; [done|]). lia. Qed.
Lemma check_subrate_request_None p k :
  check_subrate_request p k = None →
  check_subrate ErrorCode.INVALID_HCI_COMMAND_PARAMETERS p = None ∧
  subrate_max p * (subrate_max_latency p + 1) ≤ 500 ∧
  conn_interval (LeAclConnection.parameters k) * subrate_max p * (subrate_max_latency p + 1)
    < supervision_timeout p / 2 ∧
  continuation_number p < subrate_max p.
Proof. unfold check_subrate_request. repeat (case_match; [done|]). intros _. split; [done|]. lia. Qed.

(** A connection with other parameters. *)
Lemma connection_of_updated handle f k c :
  connection_of handle c = Some k → connection_of handle (set_le_connection handle f c) = Some (f k).
Proof. intros Hk. by rewrite connection_of_set, decide_True, Hk. Qed.

Lemma IncomingLlSubrateInd_run handle status factor latency continuation timeout t c k :
  connection_of handle c = Some k → LeAclConnection.role k = Role.PERIPHERAL →
  IncomingLlSubrateInd handle status factor latency continuation timeout t c =
    let c' := if status =? ErrorCode.to_Z ErrorCode.SUCCESS
              then set_le_connection handle (set_link_parameters factor latency continuation timeout) c
              else c in
    Ok ((), c', later_if_unmasked c' SubeventCode.LE_SUBRATE_CHANGE
      (LeSubrateChange status (LeAclConnection.handle k) factor latency continuation timeout)).
Proof.
  intros Hk Hr. unfold IncomingLlSubrateInd. rewrite (run_le_connection _ k) by done.
  rewrite bool_decide_true by done. cbn [assert]. autorewrite with run.
  destruct (_ =? _); autorewrite with run; apply schedule_if_unmasked_run.
Qed.

Lemma LeSubrateRequest_central handle p t c k :
  connection_of handle c = Some k → LeAclConnection.role k = Role.CENTRAL →
  check_subrate_request p k = None →
  let c' := set_le_connection handle (λ k,
              (set_link_parameters (subrate_max p) (subrate_max_latency p) (continuation_number p)
                 (supervision_timeout p) k) <| LeAclConnection.subrate_parameters := p |>) c in
  LeSubrateRequest handle p t c = Ok (ErrorCode.SUCCESS, c',
    handed_over (LlSubrateInd (own k) (peer k) 0 (subrate_max p) 0 (subrate_max_latency p)
            (continuation_number p) (supervision_timeout p)) ::
    later_if_unmasked c' SubeventCode.LE_SUBRATE_CHANGE
      (LeSubrateChange 0 handle (subrate_max p) (subrate_max_latency p) (continuation_number p)
         (supervision_timeout p))).
Proof.
  intros Hk Hr Hp c'. unfold LeSubrateRequest. rewrite (run_with_connection _ _ _ _ k) by done.
  rewrite Hp, bool_decide_true by done. autorewrite with run. rewrite run_schedule_if_unmasked.
  unfold mret, M_ret, emit. cbn. by rewrite app_nil_r.
Qed.

Lemma IncomingLlSubrateReq_run handle fmin fmax latency continuation timeout t c k :
  connection_of handle c = Some k → LeAclConnection.role k = Role.CENTRAL →
  subrate_request_status k fmin fmax latency timeout = Ok ErrorCode.SUCCESS →
  let acceptable := LeAclConnection.subrate_parameters k in
  let f := Z.min fmax (subrate_max acceptable) in
  let l := Z.min latency (subrate_max_latency acceptable) in
  let n := Z.min (Z.max continuation (continuation_number acceptable)) (u16 (f - 1)) in
  let s := Z.min timeout (supervision_timeout acceptable) in
  let c' := set_le_connection handle (set_link_parameters f l n s) c in
  IncomingLlSubrateReq handle fmin fmax latency continuation timeout t c = Ok ((), c',
    later_if_unmasked c' SubeventCode.LE_SUBRATE_CHANGE
      (LeSubrateChange 0 (LeAclConnection.handle k) f l n s) ++
    [handed_over (LlSubrateInd (own k) (peer k) 0 f 0 l n s)]).
Proof.
  intros Hk Hr Hs. cbv zeta. unfold IncomingLlSubrateReq. rewrite (run_le_connection _ k) by done.
  rewrite bool_decide_true by done. cbn [assert]. autorewrite with run. rewrite Hs. autorewrite with run.
  rewrite bool_decide_false by auto. autorewrite with run. by rewrite run_schedule_if_unmasked.
Qed.

Lemma IncomingLlSubrateReq_rejected handle fmin fmax latency continuation timeout t c k status :
  connection_of handle c = Some k → LeAclConnection.role k = Role.CENTRAL →
  subrate_request_status k fmin fmax latency timeout = Ok status → status ≠ ErrorCode.SUCCESS →
  IncomingLlSubrateReq handle fmin fmax latency continuation timeout t c =
    Ok ((), c, [handed_over (LlSubrateInd (own k) (peer k) (ErrorCode.to_Z status) 0 0 0 0 0)]).
Proof.
  intros Hk Hr Hs Hn. unfold IncomingLlSubrateReq. rewrite (run_le_connection _ k) by done.
  rewrite bool_decide_true by done. cbn [assert]. autorewrite with run. rewrite Hs. autorewrite with run.
  by rewrite bool_decide_true.
Qed.

(** The peripheral, told of the parameters of [c'] by a packet in [out], adopts them. *)
Definition adopts (k : LeAclConnection) (handle : Z) (c' : LeController) (out : list Output)
    (handle' : Z) (d : LeController) (t' : Z) : Prop :=
  ∃ f l n s d' out',
    handed_over (LlSubrateInd (own k) (peer k) 0 f 0 l n s) ∈ out ∧
    IncomingLlSubrateInd handle' 0 f l n s t' d = Ok ((), d', out') ∧
    link_parameters <$> connection_of handle c' = Some (f, l, n, s) ∧
    link_parameters <$> connection_of handle' d' = Some (f, l, n, s).

Lemma adopts_sent k handle c out f l n s g handle' d k' t' :
  connection_of handle c = Some g → link_parameters g = (f, l, n, s) →
  handed_over (LlSubrateInd (own k) (peer k) 0 f 0 l n s) ∈ out →
  connection_of handle' d = Some k' → LeAclConnection.role k' = Role.PERIPHERAL →
  adopts k handle c out handle' d t'.
Proof.
  intros Hg Hl Hin Hk' Hr'. pose proof (IncomingLlSubrateInd_run handle' 0 f l n s t' d k' Hk' Hr') as E.
  cbv zeta in E. change (0 =? ErrorCode.to_Z ErrorCode.SUCCESS) with true in E. cbv iota in E.
  do 6 eexists. split; [exact Hin|]. split; [exact E|]. rewrite Hg. cbn. rewrite Hl. split; [done|].
  by rewrite (connection_of_updated _ _ k').
Qed.

(** The subrate procedure ends with both ends of a connection on the same
    parameters.  When the central's host asks for parameters that pass the checks,
    or when the central accepts a request of the peripheral, the central sends the
    parameters it has adopted, and the peripheral that receives them adopts the
    same; those of an accepted request are within what both sides asked for. *)
Theorem subrate_agreement handle c k handle' d k' t t'
    (Hk : connection_of handle c = Some k) (Hr : LeAclConnection.role k = Role.CENTRAL)
    (Hk' : connection_of handle' d = Some k') (Hr' : LeAclConnection.role k' = Role.PERIPHERAL) :
  (∀ p, check_subrate_request p k = None →
     ∃ c' out, LeSubrateRequest handle p t c = Ok (ErrorCode.SUCCESS, c', out) ∧
       adopts k handle c' out handle' d t') ∧
  (∀ fmin fmax latency continuation timeout,
     let acceptable := LeAclConnection.subrate_parameters k in
     subrate_request_status k fmin fmax latency timeout = Ok ErrorCode.SUCCESS →
     1 ≤ fmin ≤ fmax → 1 ≤ subrate_min acceptable ≤ subrate_max acceptable →
     ∃ c' out, IncomingLlSubrateReq handle fmin fmax latency continuation timeout t c = Ok ((), c', out) ∧
       adopts k handle c' out handle' d t' ∧
       (∃ f l n s, link_parameters <$> connection_of handle c' = Some (f, l, n, s) ∧
         Z.max fmin (subrate_min acceptable) ≤ f ≤ Z.min fmax (subrate_max acceptable) ∧
         l ≤ Z.min latency (subrate_max_latency acceptable) ∧
         s ≤ Z.min timeout (supervision_timeout acceptable))).
Proof.
  split.
  - intros p Hp. do 2 eexists. split; [by eapply LeSubrateRequest_central|].
    eapply adopts_sent; [by apply connection_of_updated|done|left|done..].
  - cbv zeta. intros fmin fmax latency continuation timeout Hs Hf Ha.
    assert (Hov : ¬ fmax < subrate_min (LeAclConnection.subrate_parameters k) ∧
                  ¬ subrate_max (LeAclConnection.subrate_parameters k) < fmin).
    { revert Hs. unfold subrate_request_status. intros (? & _ & (? & _ & (? & _ & E)%bind_Ok)%bind_Ok)%bind_Ok.
      revert E. case_match; [done|]. intros _. lia. }
    do 2 eexists. split; [by eapply IncomingLlSubrateReq_run|]. split.
    + eapply adopts_sent; [by apply connection_of_updated|done|set_solver|done..].
    + do 4 eexists. rewrite (connection_of_updated _ _ k) by done. split; [done|].
      cbn -[Z.min Z.max wrap]. lia.
Qed.

Lemma int_mul_small x y b : 0 ≤ x → 0 ≤ y → x * y ≤ b → b < 2 ^ 31 → int_mul x y = Ok (x * y).
Proof. intros. unfold int_mul. by rewrite (proj2 (Z.leb_le _ _)), (proj2 (Z.ltb_lt _ _)) by nia. Qed.

(** The central refuses every request that passes the checks of the peripheral's
    own command: the command makes sure that the timeout is more than twice the
    effective interval, and the packet is refused because it is. *)
Theorem peripheral_subrate_request_refused handle c k handle' d k' p t t' t''
    (Hk : connection_of handle c = Some k) (Hr : LeAclConnection.role k = Role.CENTRAL)
    (Hk' : connection_of handle' d = Some k') (Hr' : LeAclConnection.role k' = Role.PERIPHERAL)
    (Hinterval : conn_interval (LeAclConnection.parameters k) =
                 conn_interval (LeAclConnection.parameters k'))
    (Hpositive : 0 ≤ conn_interval (LeAclConnection.parameters k))
    (Hlatency : 0 ≤ subrate_max_latency p)
    (Hp : check_subrate_request p k' = None) :
  LeSubrateRequest handle' p t d = Ok (ErrorCode.SUCCESS, d,
    [handed_over (LlSubrateReq (own k') (peer k') (subrate_min p) (subrate_max p) (subrate_max_latency p)
             (continuation_number p) (supervision_timeout p))]) ∧
  let refused := ErrorCode.to_Z ErrorCode.INVALID_LMP_OR_LL_PARAMETERS in
  IncomingLlSubrateReq handle (subrate_min p) (subrate_max p) (subrate_max_latency p)
    (continuation_number p) (supervision_timeout p) t' c =
    Ok ((), c, [handed_over (LlSubrateInd (own k) (peer k) refused 0 0 0 0 0)]) ∧
  ∃ out, IncomingLlSubrateInd handle' refused 0 0 0 0 t'' d = Ok ((), d, out).
Proof.
  pose proof (check_subrate_request_None _ _ Hp) as (Hc & H500 & Hlong & _).
  apply check_subrate_None in Hc. rewrite <-Hinterval in Hlong.
  set (i := conn_interval (LeAclConnection.parameters k)) in *.
  assert (Ht : i * subrate_min p * (subrate_max_latency p + 1) * 2 < supervision_timeout p).
  { assert (i * subrate_min p * (subrate_max_latency p + 1) <=
            i * subrate_max p * (subrate_max_latency p + 1)) by (apply Z.mul_le_mono_nonneg_r; nia).
    pose proof (Z.mul_div_le (supervision_timeout p) 2). lia. }
  assert (Hstatus : subrate_request_status k (subrate_min p) (subrate_max p) (subrate_max_latency p)
                      (supervision_timeout p) = Ok ErrorCode.INVALID_LMP_OR_LL_PARAMETERS).
  { unfold subrate_request_status. fold i.
    assert (0 ≤ i * subrate_min p) by nia.
    assert (i * subrate_min p ≤ i * subrate_min p * (subrate_max_latency p + 1)) by nia.
    do 3 (rewrite (int_mul_small _ _ 0x0c80); [cbn [mbind outcome_bind]|try lia..]).
    rewrite (proj2 (Z.ltb_lt (_ * 2) _) Ht). by rewrite orb_true_r. }
  split; [|split].
  - unfold LeSubrateRequest. rewrite (run_with_connection _ _ _ _ k') by done.
    rewrite Hp, bool_decide_false by congruence. by autorewrite with run.
  - by eapply IncomingLlSubrateReq_rejected.
  - eexists. by rewrite (IncomingLlSubrateInd_run _ _ _ _ _ _ _ _ k').
Qed.
End Procedure.

(** ** Examples *)

Definition example_parameters : LeAclSubrateParameters := MkLeAclSubrateParameters 2 4 1 1 300.
Definition example_link (role : Role.t) (address own : Address) : LeAclConnection :=
  LeAclConnection.new 0 0x200 (MkAddressWithType address AddressType.PUBLIC_DEVICE_ADDRESS)
    (MkAddressWithType own AddressType.PUBLIC_DEVICE_ADDRESS)
    (MkAddressWithType address AddressType.PUBLIC_DEVICE_ADDRESS) role
    (MkLeAclConnectionParameters 6 1 0 0 200) default_subrate_parameters.
Definition subrate_end (role : Role.t) (address own : Address) : LeController :=
  (new_controller own ControllerProperties_default)
    <| connections_ ::= λ h, h <| le_acl_connections_ ::= <[0x200 := example_link role address own]> |> |>
    <| le_event_mask_ := 0xffffffffffff |> <| event_mask_ := 0x3fffffffffffffff |>.
Definition address_a : Address := MkAddress 1 2 3 4 5 6.
Definition address_b : Address := MkAddress 6 5 4 3 2 1.
Definition central : LeController := subrate_end Role.CENTRAL address_b address_a.
Definition peripheral : LeController := subrate_end Role.PERIPHERAL address_a address_b.

(** A request the central accepts: its timeout is too short for its interval. *)
Example accepted_request :
  subrate_request_status (example_link Role.CENTRAL address_b address_a) 1 4 0 10 = Ok ErrorCode.SUCCESS.
Proof. vm_compute. reflexivity. Qed.

Lemma subrate_agreement_witness :
  check_subrate_request example_parameters (example_link Role.CENTRAL address_b address_a) = None ∧
  ∃ c' out, LeSubrateRequest 0x200 example_parameters 0 central = Ok (ErrorCode.SUCCESS, c', out) ∧
    adopts (example_link Role.CENTRAL address_b address_a) 0x200 c' out 0x200 peripheral 1.
Proof.
  split; [vm_compute; reflexivity|].
  eapply (subrate_agreement 0x200 central _ 0x200 peripheral _ 0 1); vm_compute; reflexivity.
Defined.

Lemma peripheral_subrate_request_refused_witness :
  check_subrate_request example_parameters (example_link Role.PERIPHERAL address_a address_b) = None ∧
  ∃ out, IncomingLlSubrateInd 0x200 (ErrorCode.to_Z ErrorCode.INVALID_LMP_OR_LL_PARAMETERS) 0 0 0 0 2
           peripheral = Ok ((), peripheral, out).
Proof.
  split; [vm_compute; reflexivity|].
  eapply (peripheral_subrate_request_refused 0x200 central (example_link Role.CENTRAL address_b address_a)
            0x200 peripheral (example_link Role.PERIPHERAL address_a address_b) example_parameters 0 1 2);
    try reflexivity; vm_compute; congruence.
Defined.
