(* ===== verification/LeSounding.v ===== *)
(** * Channel sounding: the commands (le_controller.cc)

    The capabilities, the tables, the configurations, the security and the
    procedures of channel sounding, as the host sets them. *)

From S2P Require Import Prelude HciTypes OpCodes Properties Address CsTypes Connections LeState LeLists.
From S2P Require Import LePhy LeScan LeSubrate.

(** ** Capabilities *)

(** The fields of [CreateCsCapabilitiesRequest] and [CreateCsCapabilitiesResponse]. *)
Definition local_capabilities (p : CsLocalSupportedCapabilities) : LlCsCapabilities.t :=
  LlCsCapabilities.Mk (modes_supported p) (rtt_capability p) (rtt_aa_only_n p) (rtt_sounding_n p)
    (rtt_random_sequence_n p) (nadm_sounding_capability p) (nadm_random_capability p)
    (cs_sync_phys_supported p) (num_antennae_supported p) (max_antenna_paths_supported p)
    (roles_supported p) 0 0 0 (num_config_supported p) (max_consecutive_procedures_supported p)
    (t_sw_time_supported p) (t_ip1_times_supported p) (t_ip2_times_supported p)
    (t_fcs_times_supported p) (t_pm_times_supported p) (tx_snr_capability p).

(** What is kept of the capabilities in a packet, with the given subfeatures. *)
Definition remote_capabilities (r : LlCsCapabilities.t) (subfeatures : Z) : CsLocalSupportedCapabilities :=
  MkCsLocalSupportedCapabilities (LlCsCapabilities.num_configs r)
    (LlCsCapabilities.max_procedures_supported r) (LlCsCapabilities.num_ant r)
    (LlCsCapabilities.max_ant_path r) (LlCsCapabilities.role r) (LlCsCapabilities.mode_types r)
    (LlCsCapabilities.rtt_capability r) (LlCsCapabilities.rtt_aa_only_n r)
    (LlCsCapabilities.rtt_sounding_n r) (LlCsCapabilities.rtt_random_sequence_n r)
    (LlCsCapabilities.nadm_sounding_capability r) (LlCsCapabilities.nadm_random_capability r)
    (LlCsCapabilities.cs_sync_phy_capability r) subfeatures (LlCsCapabilities.t_ip1_capability r)
    (LlCsCapabilities.t_ip2_capability r) (LlCsCapabilities.t_fcs_capability r)
    (LlCsCapabilities.t_pm_capability r) (LlCsCapabilities.t_sw r)
    (LlCsCapabilities.tx_snr_capability r).
Definition no_capabilities : CsLocalSupportedCapabilities :=
  MkCsLocalSupportedCapabilities 0 0 0 0 0 0 0 0 0 0 0 0 0 0 0 0 0 0 0 0.

Definition kNoFaeMask : Z := 0x0002.
Definition kDefaultSubfeatures : Z := 0.

(** Changing [connection.cs_parameters]. *)
Definition set_cs (f : LeCsParameters → LeCsParameters) (k : LeAclConnection) : LeAclConnection :=
  k <| LeAclConnection.cs_parameters ::= f |>.
Definition update_cs (handle : Z) (f : LeCsParameters → LeCsParameters) : M () :=
  update_le_connection handle (set_cs f).

(** The number of channels of a map of ten bytes; the channels of [mask] are not in it. *)
Definition num_channels (map : list Z) : Z := foldr Z.add 0 (popcount <$> map).
Definition avoids (mask map : list Z) : bool :=
  forallb (λ m, Z.land (fst m) (snd m) =? 0) (zip map mask).
Definition channels_ok (mask map : list Z) : bool := avoids mask map && (15 <=? num_channels map).

Section Sounding.
Context {env : Environment}.

Definition LeCsReadRemoteSupportedCapabilities (connection_handle : Z) : M ErrorCode.t :=
  with_connection connection_handle (λ connection,
    c ← gets id;
    if negb (channel_sounding_host_support_ c) ||
       match LeAclConnection.remote_supported_features connection with
       | Some features =>
           Z.land features (LLFeaturesBits.to_Z LLFeaturesBits.CHANNEL_SOUNDING_HOST_SUPPORT) =? 0
       | None => false
       end
    then mret ErrorCode.COMMAND_DISALLOWED
    else
      match LeCsParameters.remote_cs_capabilities (LeAclConnection.cs_parameters connection) with
      | Some caps =>
          schedule_if_unmasked SubeventCode.LE_CS_READ_REMOTE_SUPPORTED_CAPABILITIES_COMPLETE
            (LeCsReadRemoteSupportedCapabilitiesComplete (ErrorCode.to_Z ErrorCode.SUCCESS)
               (LeAclConnection.handle connection) caps);;
          mret ErrorCode.SUCCESS
      | None =>
          SendLeLinkLayerPacket
            (LlCsCapabilitiesReq (own connection) (peer connection)
               (local_capabilities (cs_local_supported_capabilities (properties_ c)))) 0;;
          mret ErrorCode.SUCCESS
      end).

Definition antenna_selection_ok (selection num_antennas : Z) : bool :=
  if (CsSyncAntennaSelection.ANTENNA_1 <=? selection) && (selection <=? CsSyncAntennaSelection.ANTENNA_4)
  then selection <=? num_antennas
  else (selection =? CsSyncAntennaSelection.ANTENNAS_IN_ORDER) ||
       (selection =? CsSyncAntennaSelection.ANTENNAS_IN_REPETITIVE_ORDER) ||
       (selection =? CsSyncAntennaSelection.NO_RECOMMENDATION).

Definition LeCsSetDefaultSettings (connection_handle role_enable cs_sync_antenna_selection
    max_tx_power : Z) : M ErrorCode.t :=
  with_connection connection_handle (λ connection,
    c ← gets id;
    let local := cs_local_supported_capabilities (properties_ c) in
    if (role_enable =? 0) &&
       negb (bool_decide (LeCsParameters.config_map (LeAclConnection.cs_parameters connection) = ∅))
    then mret ErrorCode.INVALID_HCI_COMMAND_PARAMETERS
    else if negb (Z.land role_enable (Z.lnot (roles_supported local)) =? 0)
    then mret ErrorCode.UNSUPPORTED_FEATURE_OR_PARAMETER_VALUE
    else if negb (antenna_selection_ok cs_sync_antenna_selection (num_antennae_supported local))
    then mret ErrorCode.UNSUPPORTED_FEATURE_OR_PARAMETER_VALUE
    else
      update_cs connection_handle (λ p, p <| LeCsParameters.default_settings :=
        LeCsDefaultSettings.MkLeCsDefaultSettings role_enable cs_sync_antenna_selection max_tx_power |>);;
      mret ErrorCode.SUCCESS).

(** ** The tables of frequency actuation errors *)

(** The peer has none: [(remote_cs_capabilities->subfeatures_supported & 0x02) != 0]. *)
Definition no_fae (p : LeCsParameters) : bool :=
  match LeCsParameters.remote_cs_capabilities p with
  | Some caps => negb (Z.land (subfeatures_supported caps) 0x02 =? 0)
  | None => false
  end.

Definition LeCsReadRemoteFaeTable (connection_handle : Z) : M ErrorCode.t :=
  with_connection connection_handle (λ connection,
    c ← gets id;
    let parameters := LeAclConnection.cs_parameters connection in
    if negb (channel_sounding_host_support_ c) then mret ErrorCode.COMMAND_DISALLOWED
    else if no_fae parameters then mret ErrorCode.UNSUPPORTED_FEATURE_OR_PARAMETER_VALUE
    else
      match LeCsParameters.remote_fae_table parameters with
      | Some table =>
          schedule_if_unmasked SubeventCode.LE_CS_READ_REMOTE_FAE_TABLE_COMPLETE
            (LeCsReadRemoteFaeTableComplete (ErrorCode.to_Z ErrorCode.SUCCESS)
               (LeAclConnection.handle connection) table);;
          mret ErrorCode.SUCCESS
      | None =>
          SendLeLinkLayerPacket (LlCsFaeReq (own connection) (peer connection)) 0;;
          mret ErrorCode.SUCCESS
      end).

Definition LeCsWriteCachedRemoteFaeTable (connection_handle : Z) (table : list Z) : M ErrorCode.t :=
  with_connection connection_handle (λ connection,
    let parameters := LeAclConnection.cs_parameters connection in
    if no_fae parameters then mret ErrorCode.UNSUPPORTED_FEATURE_OR_PARAMETER_VALUE
    else if bool_decide (is_Some (LeCsParameters.remote_fae_table parameters))
    then mret ErrorCode.COMMAND_DISALLOWED
    else if negb (bool_decide (LeCsParameters.config_map parameters = ∅))
    then mret ErrorCode.COMMAND_DISALLOWED
    else
      update_cs connection_handle (λ p, p <| LeCsParameters.remote_fae_table := Some table |>);;
      mret ErrorCode.SUCCESS).

Definition LeCsWriteCachedRemoteSupportedCapabilities (connection_handle : Z)
    (caps : CsLocalSupportedCapabilities) : M ErrorCode.t :=
  with_connection connection_handle (λ connection,
    c ← gets id;
    let parameters := LeAclConnection.cs_parameters connection in
    if negb (channel_sounding_host_support_ c) then mret ErrorCode.COMMAND_DISALLOWED
    else if bool_decide (is_Some (LeCsParameters.remote_cs_capabilities parameters))
    then mret ErrorCode.COMMAND_DISALLOWED
    else if negb (bool_decide (LeCsParameters.config_map parameters = ∅))
    then mret ErrorCode.COMMAND_DISALLOWED
    else
      update_cs connection_handle (λ p, p <| LeCsParameters.remote_cs_capabilities := Some caps |>);;
      mret ErrorCode.SUCCESS).

(** ** Configurations *)

(** The checks on the parameters themselves, which all answer Invalid Parameters. *)
Definition valid_config (create_context reserved : Z) (p : LeCsConfig) : bool :=
  let sub := LeCsConfig.sub_mode_type p in
  let main := LeCsConfig.main_mode_type p in
  (LeCsConfig.config_id p <=? 3) &&
  ((create_context =? CsCreateContext.LOCAL_CONTROLLER_ONLY) ||
   (create_context =? CsCreateContext.BOTH_LOCAL_AND_REMOTE_CONTROLLER)) &&
  ((main =? CsMainModeType.MODE_1) || (main =? CsMainModeType.MODE_2) || (main =? CsMainModeType.MODE_3)) &&
  ((sub =? CsSubModeType.UNUSED) || (sub =? CsSubModeType.MODE_1) || (sub =? CsSubModeType.MODE_2) ||
   (sub =? CsSubModeType.MODE_3)) &&
  (LeCsConfig.main_mode_repetition p <=? 3) &&
  ((1 <=? LeCsConfig.mode_0_steps p) && (LeCsConfig.mode_0_steps p <=? 3)) &&
  (1 <=? LeCsConfig.channel_map_repetition p) &&
  (if LeCsConfig.channel_selection_type p =? CsChannelSelectionType.TYPE_3C then
     ((LeCsConfig.ch3c_shape p =? CsCh3cShape.HAT_SHAPE) || (LeCsConfig.ch3c_shape p =? CsCh3cShape.X_SHAPE)) &&
     ((2 <=? LeCsConfig.ch3c_jump p) && (LeCsConfig.ch3c_jump p <=? 8))
   else true) &&
  (if sub =? CsSubModeType.UNUSED then true
   else (1 <=? LeCsConfig.min_main_mode_steps p) && (1 <=? LeCsConfig.max_main_mode_steps p) &&
        (LeCsConfig.min_main_mode_steps p <=? LeCsConfig.max_main_mode_steps p)) &&
  channels_ok [0x03; 0x00; 0x80; 0x03; 0x00; 0x00; 0x00; 0x00; 0x00; 0x60] (LeCsConfig.channel_map p) &&
  ((sub =? CsSubModeType.UNUSED) ||
   ((main =? CsMainModeType.MODE_2) && (sub =? CsSubModeType.MODE_1)) ||
   ((main =? CsMainModeType.MODE_2) && (sub =? CsSubModeType.MODE_3)) ||
   ((main =? CsMainModeType.MODE_3) && (sub =? CsSubModeType.MODE_2))) &&
  (reserved =? 0).

Definition main_mode_supported (mode mask : Z) : bool :=
  (mode =? CsMainModeType.MODE_1) || (mode =? CsMainModeType.MODE_2) ||
  ((mode =? CsMainModeType.MODE_3) && bit mask 0).
Definition sub_mode_supported (mode mask : Z) : bool :=
  (mode =? CsSubModeType.UNUSED) || (mode =? CsSubModeType.MODE_1) || (mode =? CsSubModeType.MODE_2) ||
  ((mode =? CsSubModeType.MODE_3) && bit mask 0).
Definition rtt_supported (rtt : Z) (caps : CsLocalSupportedCapabilities) : bool :=
  if rtt =? CsRttType.RTT_AA_ONLY then negb (rtt_aa_only_n caps =? 0)
  else if (rtt =? CsRttType.RTT_WITH_32_BIT_SOUNDING_SEQUENCE) ||
          (rtt =? CsRttType.RTT_WITH_96_BIT_SOUNDING_SEQUENCE)
  then negb (rtt_sounding_n caps =? 0)
  else if (CsRttType.RTT_WITH_32_BIT_RANDOM_SEQUENCE <=? rtt) &&
          (rtt <=? CsRttType.RTT_WITH_128_BIT_RANDOM_SEQUENCE)
  then negb (rtt_random_sequence_n caps =? 0)
  else false.
Definition phy_supported (phy : Z) (caps : CsLocalSupportedCapabilities) : bool :=
  if phy =? CsSyncPhy.LE_1M_PHY then true
  else if phy =? CsSyncPhy.LE_2M_PHY then negb (Z.land (cs_sync_phys_supported caps) 0x02 =? 0)
  else if phy =? CsSyncPhy.LE_2M_2BT_PHY then negb (Z.land (cs_sync_phys_supported caps) 0x04 =? 0)
  else false.

(** The checks against the capabilities of the two ends.  [1 << role] is an [int]. *)
Definition supported_config (p : LeCsConfig) (local remote : CsLocalSupportedCapabilities) : outcome bool :=
  let both (f : CsLocalSupportedCapabilities → bool) := f local && f remote in
  if negb (both (λ caps, LeCsConfig.config_id p <? num_config_supported caps)) then Ok false
  else if 32 <=? LeCsConfig.role p then Undef
  else Ok (
    negb (Z.land (roles_supported local) (Z.shiftl 1 (LeCsConfig.role p)) =? 0) &&
    negb (Z.land (roles_supported remote)
            (if LeCsConfig.role p =? CsRole.INITIATOR then 0x02 else 0x01) =? 0) &&
    both (λ caps, main_mode_supported (LeCsConfig.main_mode_type p) (modes_supported caps)) &&
    both (λ caps, sub_mode_supported (LeCsConfig.sub_mode_type p) (modes_supported caps)) &&
    both (rtt_supported (LeCsConfig.rtt_type p)) && both (phy_supported (LeCsConfig.cs_sync_phy p)) &&
    (LeCsConfig.channel_selection_type p =? CsChannelSelectionType.TYPE_3C)).

(** [new_config]: disabled and without procedure. *)
Definition new_config (p : LeCsConfig) : LeCsConfig :=
  p <| LeCsConfig.enabled := false |> <| LeCsConfig.procedure_parameters := None |>.
Definition create_request (p : LeCsConfig) : LlCsConfig.t :=
  LlCsConfig.Mk (LeCsConfig.config_id p) 1 (LeCsConfig.channel_map p) (LeCsConfig.channel_map_repetition p)
    (LeCsConfig.main_mode_type p) (LeCsConfig.sub_mode_type p) (LeCsConfig.min_main_mode_steps p)
    (LeCsConfig.max_main_mode_steps p) (LeCsConfig.main_mode_repetition p) (LeCsConfig.mode_0_steps p)
    (LeCsConfig.cs_sync_phy p) (LeCsConfig.rtt_type p) (LeCsConfig.role p)
    (LeCsConfig.channel_selection_type p) (LeCsConfig.ch3c_shape p) (LeCsConfig.ch3c_jump p) 0 0 0 0.
(** The event about a stored configuration. *)
Definition created_fields (p : LeCsConfig) : CsConfigFields.t :=
  CsConfigFields.Mk CsAction.CONFIG_CREATED (LeCsConfig.main_mode_type p) (LeCsConfig.sub_mode_type p)
    (LeCsConfig.min_main_mode_steps p) (LeCsConfig.max_main_mode_steps p)
    (LeCsConfig.main_mode_repetition p) (LeCsConfig.mode_0_steps p) (LeCsConfig.role p)
    (LeCsConfig.rtt_type p) (LeCsConfig.cs_sync_phy p) (LeCsConfig.channel_map p)
    (LeCsConfig.channel_map_repetition p) (LeCsConfig.channel_selection_type p)
    (LeCsConfig.ch3c_shape p) (LeCsConfig.ch3c_jump p) 0 0 0 0 0.
Definition set_config (p : LeCsConfig) (s : LeCsParameters) : LeCsParameters :=
  s <| LeCsParameters.config_map ::= <[LeCsConfig.config_id p := p]> |>.

(** The host's parameters are given as the configuration they make. *)
Definition LeCsCreateConfig (connection_handle create_context reserved : Z) (p : LeCsConfig) : M ErrorCode.t :=
  with_connection connection_handle (λ connection,
    c ← gets id;
    let parameters := LeAclConnection.cs_parameters connection in
    match LeCsParameters.remote_cs_capabilities parameters with
    | None => mret ErrorCode.COMMAND_DISALLOWED
    | Some remote =>
        if Z.land (LeCsDefaultSettings.role_enable (LeCsParameters.default_settings parameters))
             (if LeCsConfig.role p =? CsRole.INITIATOR then 0x01 else 0x02) =? 0
        then mret ErrorCode.INVALID_HCI_COMMAND_PARAMETERS
        else if negb (valid_config create_context reserved p)
        then mret ErrorCode.INVALID_HCI_COMMAND_PARAMETERS
        else
          supported ← lift (supported_config p (cs_local_supported_capabilities (properties_ c)) remote);
          if negb supported then mret ErrorCode.UNSUPPORTED_FEATURE_OR_PARAMETER_VALUE
          else
            update_cs connection_handle (set_config (new_config p));;
            (if create_context =? CsCreateContext.BOTH_LOCAL_AND_REMOTE_CONTROLLER then
               SendLeLinkLayerPacket
                 (LlCsConfigReq (own connection) (peer connection) (create_request p)) 0
             else if create_context =? CsCreateContext.LOCAL_CONTROLLER_ONLY then
               schedule_if_unmasked SubeventCode.LE_CS_CONFIG_COMPLETE
                 (LeCsConfigComplete (ErrorCode.to_Z ErrorCode.SUCCESS) connection_handle
                    (LeCsConfig.config_id p) (created_fields p))
             else mret ());;
            mret ErrorCode.SUCCESS
    end).

Definition remove_request (config_id : Z) : LlCsConfig.t :=
  LlCsConfig.Mk config_id 0 (replicate 10 0) 0 1 0xff 0 0 0 0 1 0 0 0 0 0 0 0 0 0.

Definition LeCsRemoveConfig (connection_handle config_id : Z) : M ErrorCode.t :=
  with_connection connection_handle (λ connection,
    match LeCsParameters.config_map (LeAclConnection.cs_parameters connection) !! config_id with
    | None => mret ErrorCode.INVALID_HCI_COMMAND_PARAMETERS
    | Some _ =>
        SendLeLinkLayerPacket
          (LlCsConfigReq (own connection) (peer connection) (remove_request config_id)) 0;;
        update_cs connection_handle (λ s, s <| LeCsParameters.config_map ::= delete config_id |>);;
        mret ErrorCode.SUCCESS
    end).

(** Every configuration takes the channels. *)
Definition reclassify (map : list Z) (s : LeCsParameters) : LeCsParameters :=
  s <| LeCsParameters.config_map ::= fmap (λ p, p <| LeCsConfig.channel_map := map |>) |>.

Definition LeCsSetChannelClassification (classification : list Z) : M ErrorCode.t :=
  now ← now;
  c ← gets id;
  if now <? last_le_cs_set_channel_classification_time_ c + 1000000000
  then mret ErrorCode.COMMAND_DISALLOWED
  else if negb (channels_ok [0x03; 0x00; 0x80; 0x03; 0x00; 0x00; 0x00; 0x00; 0x00; 0xE0] classification)
  then mret ErrorCode.INVALID_HCI_COMMAND_PARAMETERS
  else
    modify (λ c, c <| le_cs_channel_classification_ := classification |>
                   <| last_le_cs_set_channel_classification_time_ := now |>);;
    for_each (GetLeAclHandles (connections_ c)) (λ handle,
      connection ← le_connection handle;
      SendLeLinkLayerPacket (LlCsChannelMapInd (own connection) (peer connection) classification 0) 0;;
      update_cs handle (reclassify classification));;
    mret ErrorCode.SUCCESS.

(** ** Security *)

Definition set_security (iv in_ pv : Z) (s : LeCsParameters) : LeCsParameters :=
  s <| LeCsParameters.security_iv := iv |> <| LeCsParameters.security_in := in_ |>
    <| LeCsParameters.security_pv := pv |>.

Definition LeCsSecurityEnable (connection_handle : Z) : M ErrorCode.t :=
  with_connection connection_handle (λ connection,
    c ← gets id;
    if bool_decide (LeAclConnection.role connection = Role.PERIPHERAL)
    then mret ErrorCode.COMMAND_DISALLOWED
    else if negb (LeAclConnection.IsEncrypted connection) then mret ErrorCode.INSUFFICIENT_SECURITY
    else if negb (channel_sounding_host_support_ c) then mret ErrorCode.COMMAND_DISALLOWED
    else
      update_cs connection_handle (set_security 0x1122334455667788 0x12345678 0x0011223344556677);;
      SendLeLinkLayerPacket
        (LlCsSecurityEnableReq (own connection) (peer connection) 0x1122334455667788 0x12345678
           0x0011223344556677) 0;;
      mret ErrorCode.SUCCESS).

(** ** Procedures *)

(** [switch (phy)] of the procedure parameters. *)
Definition procedure_phy_supported (phy : Z) (caps : CsLocalSupportedCapabilities) : bool :=
  if phy =? CsPhy.LE_1M_PHY then true
  else if (phy =? CsPhy.LE_2M_PHY) || (phy =? CsPhy.LE_CODED_PHY_S2)
  then negb (Z.land (cs_sync_phys_supported caps) (Z.shiftl 1 phy) =? 0)
  else false.

Definition LeCsSetProcedureParameters (connection_handle config_id : Z) (p : LeCsProcedureParameters)
  : M ErrorCode.t :=
  with_connection connection_handle (λ connection,
    c ← gets id;
    let local := cs_local_supported_capabilities (properties_ c) in
    let out_of_range len := (len <? 1250) || (3999999 <? len) in
    match LeCsParameters.config_map (LeAclConnection.cs_parameters connection) !! config_id with
    | None => mret ErrorCode.INVALID_HCI_COMMAND_PARAMETERS
    | Some config =>
        if LeCsConfig.enabled config then mret ErrorCode.COMMAND_DISALLOWED
        else if out_of_range (LeCsProcedureParameters.min_subevent_len p) ||
                out_of_range (LeCsProcedureParameters.max_subevent_len p) ||
                (LeCsProcedureParameters.max_subevent_len p <? LeCsProcedureParameters.min_subevent_len p) ||
                (num_antennae_supported local <=? LeCsProcedureParameters.tone_antenna_config_selection p) ||
                negb (procedure_phy_supported (LeCsProcedureParameters.procedure_phy p) local)
        then mret ErrorCode.CONNECTION_REJECTED_LIMITED_RESOURCES
        else
          update_cs connection_handle (λ s, s <| LeCsParameters.config_map ::=
            alter (λ k, k <| LeCsConfig.procedure_parameters := Some p |>) config_id |>);;
          mret ErrorCode.SUCCESS
    end).

(** The lambda returns nothing for any other value. *)
Definition convert_snr_control (snr_control : Z) : outcome Z :=
  if (CsSnrControl.ADJUST_18_DB <=? snr_control) && (snr_control <=? CsSnrControl.ADJUST_30_DB)
  then Ok snr_control
  else if snr_control =? CsSnrControl.NOT_APPLIED then Ok 0x05
  else Undef.

(** [enable] is the byte of the command: 1 enables, 0 disables. *)
Definition LeCsProcedureEnable (connection_handle config_id enable : Z) : M ErrorCode.t :=
  with_connection connection_handle (λ connection,
    let set b := update_cs connection_handle (λ s, s <| LeCsParameters.config_map ::=
                   alter (λ k, k <| LeCsConfig.enabled := b |>) config_id |>) in
    match LeCsParameters.config_map (LeAclConnection.cs_parameters connection) !! config_id with
    | None => mret ErrorCode.INVALID_HCI_COMMAND_PARAMETERS
    | Some config =>
        match LeCsConfig.procedure_parameters config with
        | None => mret ErrorCode.COMMAND_DISALLOWED
        | Some p =>
            if LeCsConfig.enabled config then mret ErrorCode.COMMAND_DISALLOWED
            else
              (if enable =? 1 then
                 snr_i ← lift (convert_snr_control (LeCsProcedureParameters.snr_control_initiator p));
                 snr_r ← lift (convert_snr_control (LeCsProcedureParameters.snr_control_reflector p));
                 SendLeLinkLayerPacket
                   (LlCsReq (own connection) (peer connection)
                      (LlCsRequest.Mk config_id 0 0 0 (LeCsProcedureParameters.max_procedure_len p) 0 1 0
                         (LeCsProcedureParameters.min_subevent_len p)
                         (LeCsProcedureParameters.min_procedure_interval p)
                         (LeCsProcedureParameters.max_procedure_count p)
                         (LeCsProcedureParameters.tone_antenna_config_selection p)
                         (LeCsProcedureParameters.preferred_peer_antenna p)
                         (LeCsProcedureParameters.procedure_phy p)
                         (LeCsProcedureParameters.tx_power_delta p) snr_i snr_r)) 0;;
                 set true
               else if enable =? 0 then
                 set false;;
                 SendLeLinkLayerPacket
                   (LlCsTerminateReq (own connection) (peer connection) config_id 1
                      (ErrorCode.to_Z ErrorCode.SUCCESS)) 0
               else mret ());;
              mret ErrorCode.SUCCESS
        end
    end).
End Sounding.
