(* ===== verification/LeSoundingLink.v ===== *)
(** * Channel sounding: the packets (le_controller.cc)

    What a controller does with the channel sounding packets of its peer, and the
    agreement of the two ends on their configurations. *)

From S2P Require Import Prelude HciTypes OpCodes Properties Address CsTypes Connections LeState LeLists.
From S2P Require Import LePhy LeScan LeSubrate LeSounding.

Section Packets.
Context {env : Environment}.

(** [if (IsLeEventUnmasked(code)) send_event_(event)]. *)
Definition tell (code : SubeventCode.t) (event : HciEvent) : M () := event_when true code event.
Definition byte_of (status : ErrorCode.t) : Z := ErrorCode.to_Z status.

(** ** Capabilities *)

Definition capabilities_event (connection : LeAclConnection) (status : Z)
    (caps : CsLocalSupportedCapabilities) : M () :=
  tell SubeventCode.LE_CS_READ_REMOTE_SUPPORTED_CAPABILITIES_COMPLETE
    (LeCsReadRemoteSupportedCapabilitiesComplete status (LeAclConnection.handle connection) caps).

(** The capabilities a packet makes known. *)
Definition learn (handle : Z) (r : LlCsCapabilities.t) : M () :=
  update_cs handle (λ s, s <| LeCsParameters.remote_cs_capabilities := Some (remote_capabilities r
    (if LlCsCapabilities.no_fae r =? 0 then kDefaultSubfeatures else kNoFaeMask)) |>).

Definition IncomingLlCsCapabilitiesReq (handle : Z) (req : LlCsCapabilities.t) : M () :=
  connection ← le_connection handle;
  c ← gets id;
  let response status := LlCsCapabilitiesRsp (own connection) (peer connection) (byte_of status)
    (local_capabilities (cs_local_supported_capabilities (properties_ c))) in
  if negb (channel_sounding_host_support_ c)
  then SendLeLinkLayerPacket (response ErrorCode.UNSUPPORTED_REMOTE_OR_LMP_FEATURE) 0
  else
    learn handle req;;
    SendLeLinkLayerPacket (response ErrorCode.SUCCESS) 0;;
    capabilities_event connection (byte_of ErrorCode.SUCCESS) (remote_capabilities req 0).

Definition IncomingLlCsCapabilitiesRsp (handle status : Z) (rsp : LlCsCapabilities.t) : M () :=
  connection ← le_connection handle;
  if negb (status =? byte_of ErrorCode.SUCCESS) then capabilities_event connection status no_capabilities
  else
    learn handle rsp;;
    capabilities_event connection (byte_of ErrorCode.SUCCESS) (remote_capabilities rsp 0).

(** ** Frequency actuation errors *)

Definition IncomingLlCsFaeReq (handle : Z) : M () :=
  connection ← le_connection handle;
  c ← gets id;
  if negb (channel_sounding_host_support_ c) then
    SendLeLinkLayerPacket
      (LlCsFaeRsp (own connection) (peer connection)
         (byte_of ErrorCode.UNSUPPORTED_REMOTE_OR_LMP_FEATURE) (replicate 72 0)) 0
  else
    SendLeLinkLayerPacket
      (LlCsFaeRsp (own connection) (peer connection) (byte_of ErrorCode.SUCCESS)
         ((λ i, u8 (i + 1)) <$> seqZ 0 72)) 0.

Definition IncomingLlCsFaeRsp (handle status : Z) (table : list Z) : M () :=
  connection ← le_connection handle;
  let event status table := tell SubeventCode.LE_CS_READ_REMOTE_FAE_TABLE_COMPLETE
    (LeCsReadRemoteFaeTableComplete status (LeAclConnection.handle connection) table) in
  if negb (status =? byte_of ErrorCode.SUCCESS) then event status (replicate 72 0)
  else
    update_cs handle (λ s, s <| LeCsParameters.remote_fae_table := Some table |>);;
    event (byte_of ErrorCode.SUCCESS) table.

(** ** Configurations *)

(** The checks of a request, which all answer Unsupported Parameter; the role is
    compared with the enumeration of the roles supported. *)
Definition acceptable_config (r : LlCsConfig.t) (local : CsLocalSupportedCapabilities) : bool :=
  negb (Z.land (roles_supported local)
          (if LlCsConfig.role r =? CsRolesSupported.INITIATOR then CsRolesSupported.REFLECTOR
           else CsRolesSupported.INITIATOR) =? 0) &&
  ((LlCsConfig.main_mode_type r =? CsModesSupported.MODE_3) && bit (modes_supported local) 0) &&
  ((LlCsConfig.sub_mode_type r =? CsSubModeType.UNUSED) || (LlCsConfig.sub_mode_type r =? CsSubModeType.MODE_2)) &&
  rtt_supported (LlCsConfig.rtt_type r) local && phy_supported (LlCsConfig.cs_sync_phy r) local &&
  (LlCsConfig.channel_selection_type r =? 0x01) &&
  ((LlCsConfig.ch3c_shape r =? 0x00) || (LlCsConfig.ch3c_shape r =? 0x01)) &&
  ((0x02 <=? LlCsConfig.ch3c_jump r) && (LlCsConfig.ch3c_jump r <=? 0x08)).

Definition local_role (r : LlCsConfig.t) : Z := if LlCsConfig.role r =? 0 then 1 else 0.
Definition requested_config (r : LlCsConfig.t) : LeCsConfig :=
  LeCsConfig.MkLeCsConfig (LlCsConfig.config_id r) (LlCsConfig.channel_map r)
    (LlCsConfig.channel_map_repetition r) (LlCsConfig.main_mode_type r) (LlCsConfig.sub_mode_type r)
    (LlCsConfig.min_main_mode_steps r) (LlCsConfig.max_main_mode_steps r)
    (LlCsConfig.main_mode_repetition r) (LlCsConfig.mode_0_steps r) (LlCsConfig.cs_sync_phy r)
    (LlCsConfig.rtt_type r) (local_role r) (LlCsConfig.channel_selection_type r)
    (LlCsConfig.ch3c_shape r) (LlCsConfig.ch3c_jump r) false None.

(** [build_cs_config_event]: the reserved byte and the jump change places. *)
Definition request_fields (r : LlCsConfig.t) : CsConfigFields.t :=
  let created := LlCsConfig.action r =? 1 in
  let pick x y := if created then x else y in
  CsConfigFields.Mk (pick CsAction.CONFIG_CREATED CsAction.CONFIG_REMOVED)
    (pick (LlCsConfig.main_mode_type r) CsMainModeType.MODE_1)
    (pick (LlCsConfig.sub_mode_type r) CsSubModeType.UNUSED)
    (LlCsConfig.min_main_mode_steps r) (LlCsConfig.max_main_mode_steps r)
    (LlCsConfig.main_mode_repetition r) (LlCsConfig.mode_0_steps r)
    (pick (local_role r) CsRole.INITIATOR) (pick (LlCsConfig.rtt_type r) CsRttType.RTT_AA_ONLY)
    (pick (LlCsConfig.cs_sync_phy r) CsSyncPhy.LE_1M_PHY) (LlCsConfig.channel_map r)
    (LlCsConfig.channel_map_repetition r)
    (pick (LlCsConfig.channel_selection_type r) CsChannelSelectionType.TYPE_3B)
    (pick (LlCsConfig.ch3c_shape r) CsCh3cShape.HAT_SHAPE) 0 (LlCsConfig.ch3c_jump r)
    (LlCsConfig.t_ip1 r) (LlCsConfig.t_ip2 r) (LlCsConfig.t_fcs r) (LlCsConfig.t_pm r).

Definition apply_request (r : LlCsConfig.t) (s : LeCsParameters) : LeCsParameters :=
  if LlCsConfig.action r =? 1 then set_config (requested_config r) s
  else if LlCsConfig.action r =? 0
  then s <| LeCsParameters.config_map ::= delete (LlCsConfig.config_id r) |>
  else s.

Definition IncomingLlCsConfigReq (handle : Z) (req : LlCsConfig.t) : M () :=
  connection ← le_connection handle;
  c ← gets id;
  let respond status config_id := SendLeLinkLayerPacket
    (LlCsConfigRsp (own connection) (peer connection) (byte_of status) config_id) 0 in
  if negb (channel_sounding_host_support_ c)
  then respond ErrorCode.UNSUPPORTED_REMOTE_OR_LMP_FEATURE 0
  else if negb (acceptable_config req (cs_local_supported_capabilities (properties_ c)))
  then respond ErrorCode.UNSUPPORTED_LMP_OR_LL_PARAMETER (LlCsConfig.config_id req)
  else
    update_cs handle (apply_request req);;
    respond ErrorCode.SUCCESS (LlCsConfig.config_id req);;
    tell SubeventCode.LE_CS_CONFIG_COMPLETE
      (LeCsConfigComplete (byte_of ErrorCode.SUCCESS) (LeAclConnection.handle connection)
         (LlCsConfig.config_id req) (request_fields req)).

Definition removed_fields : CsConfigFields.t :=
  CsConfigFields.Mk CsAction.CONFIG_REMOVED 0 0 0 0 0 0 0 0 0 (replicate 10 0) 0 0 0 0 0 0 0 0 0.

Definition IncomingLlCsConfigRsp (handle status config_id : Z) : M () :=
  connection ← le_connection handle;
  let event fields := tell SubeventCode.LE_CS_CONFIG_COMPLETE
    (LeCsConfigComplete status (LeAclConnection.handle connection) config_id fields) in
  match LeCsParameters.config_map (LeAclConnection.cs_parameters connection) !! config_id with
  | None => event removed_fields
  | Some config =>
      (if negb (status =? byte_of ErrorCode.SUCCESS)
       then update_cs handle (λ s, s <| LeCsParameters.config_map ::= delete config_id |>)
       else mret ());;
      event (created_fields config)
  end.

(** ** Security *)

Definition security_event (connection : LeAclConnection) (status : Z) : HciEvent :=
  LeCsSecurityEnableComplete status (LeAclConnection.handle connection).

Definition IncomingLlCsSecurityReq (handle : Z) : M () :=
  connection ← le_connection handle;
  c ← gets id;
  let respond status iv in_ pv := SendLeLinkLayerPacket
    (LlCsSecurityEnableRsp (own connection) (peer connection) (byte_of status) iv in_ pv) 0 in
  if negb (LeAclConnection.IsEncrypted connection) then respond ErrorCode.INSUFFICIENT_SECURITY 0 0 0
  else if negb (channel_sounding_host_support_ c)
  then respond ErrorCode.UNSUPPORTED_REMOTE_OR_LMP_FEATURE 0 0 0
  else
    update_cs handle (λ s,
      (set_security 0x1234567890ABCDEF 0x12345678 0xFEDCBA0987654321 s)
        <| LeCsParameters.security_enabled := true |>);;
    respond ErrorCode.SUCCESS 0x1234567890ABCDEF 0x12345678 0xFEDCBA0987654321;;
    schedule_if_unmasked SubeventCode.LE_CS_SECURITY_ENABLE_COMPLETE
      (security_event connection (byte_of ErrorCode.SUCCESS)).

Definition IncomingLlCsSecurityRsp (handle status : Z) : M () :=
  connection ← le_connection handle;
  if negb (status =? byte_of ErrorCode.SUCCESS)
  then tell SubeventCode.LE_CS_SECURITY_ENABLE_COMPLETE (security_event connection status)
  else
    update_cs handle (λ s, s <| LeCsParameters.security_enabled := true |>);;
    tell SubeventCode.LE_CS_SECURITY_ENABLE_COMPLETE (security_event connection (byte_of ErrorCode.SUCCESS)).

(** ** Procedures *)

(** The event that a procedure has started; [procedure_parameters.value()] throws
    where the host has set none. *)
Definition procedure_started (connection : LeAclConnection) (s : LlCsSchedule.t) : M () :=
  c ← gets id;
  unmasked ← lift (IsLeEventUnmasked SubeventCode.LE_CS_PROCEDURE_ENABLE_COMPLETE c);
  if negb unmasked then mret ()
  else
    match LeCsParameters.config_map (LeAclConnection.cs_parameters connection) !!
            LlCsSchedule.config_id s with
    | None => mret ()
    | Some config =>
        match LeCsConfig.procedure_parameters config with
        | None => lift Fatal
        | Some p =>
            send_event_ (LeCsProcedureEnableComplete (byte_of ErrorCode.SUCCESS)
              (LeAclConnection.handle connection) (LlCsSchedule.config_id s)
              (CsProcedureFields.Mk true (LeCsProcedureParameters.tone_antenna_config_selection p)
                 (LeCsProcedureParameters.tx_power_delta p) (LlCsSchedule.subevent_len s)
                 (LlCsSchedule.subevents_per_event s) (LlCsSchedule.subevent_interval s)
                 (LlCsSchedule.event_interval s) (LeCsProcedureParameters.min_procedure_interval p)
                 (LeCsProcedureParameters.max_procedure_count p)
                 (LeCsProcedureParameters.max_procedure_len p)))
        end
    end.

Definition no_schedule (config_id : Z) : LlCsSchedule.t := LlCsSchedule.Mk config_id 0 0 0 0 0 0 0 0 0.
Definition requested_schedule (r : LlCsRequest.t) : LlCsSchedule.t :=
  LlCsSchedule.Mk (LlCsRequest.config_id r) (LlCsRequest.conn_event_count r) (LlCsRequest.offset_min r)
    (LlCsRequest.event_interval r) (LlCsRequest.subevents_per_event r) (LlCsRequest.subevent_interval r)
    (LlCsRequest.subevent_len r) (LlCsRequest.aci r) (LlCsRequest.phy r) (LlCsRequest.pwr_delta r).

Definition IncomingLlCsReq (handle : Z) (req : LlCsRequest.t) : M () :=
  connection ← le_connection handle;
  c ← gets id;
  let parameters := LeAclConnection.cs_parameters connection in
  let config_id := LlCsRequest.config_id req in
  let refuse status config_id := SendLeLinkLayerPacket
    (LlCsRsp (own connection) (peer connection) (byte_of status) 0 (no_schedule config_id)) 0 in
  if negb (channel_sounding_host_support_ c) then refuse ErrorCode.UNSUPPORTED_REMOTE_OR_LMP_FEATURE 0
  else if bool_decide (LeCsParameters.config_map parameters !! config_id = None)
  then refuse ErrorCode.INVALID_LMP_OR_LL_PARAMETERS 0
  else if LeCsParameters.security_iv parameters =? 0 then refuse ErrorCode.PIN_OR_KEY_MISSING config_id
  else if negb (bool_decide (is_Some (LeCsParameters.remote_fae_table parameters)))
  then refuse ErrorCode.COMMAND_DISALLOWED config_id
  else if bool_decide (LeAclConnection.role connection = Role.PERIPHERAL) then
    SendLeLinkLayerPacket
      (LlCsRsp (own connection) (peer connection) (byte_of ErrorCode.SUCCESS) (LlCsRequest.offset_max req)
         (requested_schedule req)) 0
  else
    SendLeLinkLayerPacket
      (LlCsInd (own connection) (peer connection) (byte_of ErrorCode.SUCCESS) (requested_schedule req)) 0;;
    procedure_started connection (requested_schedule req).

Definition IncomingLlCsRsp (handle : Z) (rsp : LlCsSchedule.t) : M () :=
  c ← gets id;
  if negb (channel_sounding_host_support_ c) then mret ()
  else
    connection ← le_connection handle;
    if negb (bool_decide (LeAclConnection.role connection = Role.CENTRAL)) then mret ()
    else
      SendLeLinkLayerPacket
        (LlCsInd (own connection) (peer connection) (byte_of ErrorCode.SUCCESS) rsp) 0;;
      procedure_started connection rsp.

(** The configurations that run take the channels. *)
Definition IncomingLlCsChannelMapInd (handle : Z) (map : list Z) : M () :=
  le_connection handle;;
  update_cs handle (λ s, s <| LeCsParameters.config_map ::=
    fmap (λ p, if LeCsConfig.enabled p then p <| LeCsConfig.channel_map := map |> else p) |>).

Definition IncomingLlCsInd (handle : Z) (ind : LlCsSchedule.t) : M () :=
  c ← gets id;
  if negb (channel_sounding_host_support_ c) then mret ()
  else
    connection ← le_connection handle;
    if bool_decide (LeAclConnection.role connection = Role.PERIPHERAL)
    then procedure_started connection ind
    else mret ().

Definition procedure_stopped (connection : LeAclConnection) (error_code config_id : Z) : M () :=
  tell SubeventCode.LE_CS_PROCEDURE_ENABLE_COMPLETE
    (LeCsProcedureEnableComplete error_code (LeAclConnection.handle connection) config_id
       (CsProcedureFields.Mk false 0 0 0 0 0 0 0 0 0)).

Definition IncomingLlCsTerminateReq (handle config_id procedure_count error_code : Z) : M () :=
  connection ← le_connection handle;
  let error_code :=
    match LeCsParameters.config_map (LeAclConnection.cs_parameters connection) !! config_id with
    | None => byte_of ErrorCode.COMMAND_DISALLOWED
    | Some _ => error_code
    end in
  SendLeLinkLayerPacket
    (LlCsTerminateRsp (own connection) (peer connection) config_id procedure_count error_code) 0;;
  procedure_stopped connection error_code config_id.

Definition IncomingLlCsTerminateRsp (handle config_id error_code : Z) : M () :=
  connection ← le_connection handle;
  procedure_stopped connection error_code config_id.
End Packets.

(** ** The two ends of a connection *)

Section Ends.
Context {env : Environment}.

Definition config_of (handle id : Z) (c : LeController) : option LeCsConfig :=
  k ← connection_of handle c; LeCsParameters.config_map (LeAclConnection.cs_parameters k) !! id.

Lemma config_of_update handle id f c k :
  connection_of handle c = Some k →
  config_of handle id (set_le_connection handle (set_cs f) c) =
    LeCsParameters.config_map (f (LeAclConnection.cs_parameters k)) !! id.
Proof. intros Hk. unfold config_of. by rewrite (connection_of_updated _ _ k). Qed.
Lemma config_of_connection handle id c k :
  connection_of handle c = Some k →
  config_of handle id c = LeCsParameters.config_map (LeAclConnection.cs_parameters k) !! id.
Proof. unfold config_of. by intros ->. Qed.

Lemma tell_run code event t c :
  tell code event t c = Ok ((), c, if le_event_unmasked code c then [SendEvent event] else []).
Proof.
  unfold tell, event_when. autorewrite with run. rewrite IsLeEventUnmasked_Ok. autorewrite with run.
  unfold id. rewrite andb_true_r. by destruct (le_event_unmasked code c).
Qed.
Lemma run_update_cs {B} handle f (g : () → M B) t c :
  (update_cs handle f ≫= g) t c = g () t (set_le_connection handle (set_cs f) c).
Proof. unfold update_cs. by autorewrite with run. Qed.

Lemma LeCsCreateConfig_Ok handle reserved p t c k c' out :
  connection_of handle c = Some k →
  LeCsCreateConfig handle CsCreateContext.BOTH_LOCAL_AND_REMOTE_CONTROLLER reserved p t c =
    Ok (ErrorCode.SUCCESS, c', out) →
  c' = set_le_connection handle (set_cs (set_config (new_config p))) c ∧
  out = [handed_over (LlCsConfigReq (own k) (peer k) (create_request p))].
Proof.
  intros Hk. unfold LeCsCreateConfig. rewrite (run_with_connection _ _ _ _ k) by done.
  autorewrite with run. destruct (LeCsParameters.remote_cs_capabilities _) as [remote|]; [|done].
  destruct (_ =? 0); [done|]. destruct (valid_config _ _ _); cbn [negb]; [|done]. unfold id.
  intros (b & c1 & o1 & st & c2 & o2 & E1 & E2 & [= <- <- ->])%M_bind_Ok.
  unfold lift in E1. destruct (supported_config _ _ _) as [b1| | |]; try done. injection E1 as -> <- <-.
  destruct b; cbn [negb] in E2; [|done]. revert E2. rewrite run_update_cs.
  rewrite Z.eqb_refl.
  autorewrite with run. by intros [= <- <-].
Qed.

Lemma IncomingLlCsConfigReq_refused handle r t c k :
  connection_of handle c = Some k → channel_sounding_host_support_ c = true →
  acceptable_config r (cs_local_supported_capabilities (properties_ c)) = false →
  IncomingLlCsConfigReq handle r t c = Ok ((), c,
    [handed_over (LlCsConfigRsp (own k) (peer k) (byte_of ErrorCode.UNSUPPORTED_LMP_OR_LL_PARAMETER)
             (LlCsConfig.config_id r))]).
Proof.
  intros Hk Hhost Ha. unfold IncomingLlCsConfigReq. rewrite (run_le_connection _ k) by done.
  autorewrite with run. unfold id. by rewrite Hhost, Ha.
Qed.

Lemma IncomingLlCsConfigReq_accepted handle r t c k :
  connection_of handle c = Some k → channel_sounding_host_support_ c = true →
  acceptable_config r (cs_local_supported_capabilities (properties_ c)) = true →
  let c' := set_le_connection handle (set_cs (apply_request r)) c in
  ∃ events, IncomingLlCsConfigReq handle r t c = Ok ((), c',
    handed_over (LlCsConfigRsp (own k) (peer k) (byte_of ErrorCode.SUCCESS) (LlCsConfig.config_id r)) :: events).
Proof.
  intros Hk Hhost Ha c'. unfold IncomingLlCsConfigReq. rewrite (run_le_connection _ k) by done.
  autorewrite with run. unfold id. rewrite Hhost, Ha. cbn [negb]. rewrite run_update_cs.
  autorewrite with run. rewrite tell_run. by eexists.
Qed.

Lemma IncomingLlCsConfigRsp_run handle status id t c k config :
  connection_of handle c = Some k → config_of handle id c = Some config →
  let c' := if status =? byte_of ErrorCode.SUCCESS then c
            else set_le_connection handle
                   (set_cs (λ s, s <| LeCsParameters.config_map ::= delete id |>)) c in
  ∃ events, IncomingLlCsConfigRsp handle status id t c = Ok ((), c', events).
Proof.
  intros Hk Hc c'. rewrite (config_of_connection _ _ _ k) in Hc by done.
  unfold IncomingLlCsConfigRsp. rewrite (run_le_connection _ k) by done. rewrite Hc.
  unfold c'. destruct (_ =? _); cbn [negb]; rewrite ?run_update_cs; autorewrite with run;
    rewrite tell_run; by eexists.
Qed.

(** The configuration of the other end: the same with the other role. *)
Definition mirrored_config (p : LeCsConfig) : LeCsConfig :=
  (new_config p) <| LeCsConfig.role := if LeCsConfig.role p =? 0 then 1 else 0 |>.


(** The request to remove a configuration is one every controller refuses, for
    its channel selection type: the peer keeps the configuration. *)
Theorem removed_config_stays_at_peer handle c k handle' d k' id t t' c' out
    (Hk : connection_of handle c = Some k) (Hk' : connection_of handle' d = Some k')
    (Hremove : LeCsRemoveConfig handle id t c = Ok (ErrorCode.SUCCESS, c', out)) :
  config_of handle id c' = None ∧
  out = [handed_over (LlCsConfigReq (own k) (peer k) (remove_request id))] ∧
  ∃ out', IncomingLlCsConfigReq handle' (remove_request id) t' d = Ok ((), d, out').
Proof.
  revert Hremove. unfold LeCsRemoveConfig. rewrite (run_with_connection _ _ _ _ k) by done.
  destruct (_ !! id); [|done]. autorewrite with run. rewrite run_update_cs. intros [= <- <-].
  split; [|split; [done|]].
  - rewrite (config_of_update _ _ _ _ k) by done. cbn. apply lookup_delete_eq.
  - unfold IncomingLlCsConfigReq. rewrite (run_le_connection _ k') by done. autorewrite with run. unfold Datatypes.id.
    destruct (channel_sounding_host_support_ d); cbn [negb]; [|by eexists].
    assert (acceptable_config (remove_request id) (cs_local_supported_capabilities (properties_ d)) = false) as ->.
    { unfold acceptable_config. cbn [remove_request LlCsConfig.channel_selection_type]. change (0 =? 1) with false.
      by rewrite andb_false_r. }
    by eexists.
Qed.

(** A procedure that was enabled can neither be stopped nor started again by the
    host: the command that would is disallowed and changes nothing. *)
Theorem started_procedure_cannot_be_stopped handle c k id t c' out
    (Hk : connection_of handle c = Some k)
    (Hstart : LeCsProcedureEnable handle id 1 t c = Ok (ErrorCode.SUCCESS, c', out)) :
  (∃ config, config_of handle id c' = Some config ∧ LeCsConfig.enabled config = true) ∧
  ∀ enable t', LeCsProcedureEnable handle id enable t' c' = Ok (ErrorCode.COMMAND_DISALLOWED, c', []).
Proof.
  assert (Hrun : ∀ c k enable t' config, connection_of handle c = Some k →
            config_of handle id c = Some config → LeCsConfig.enabled config = true →
            LeCsProcedureEnable handle id enable t' c = Ok (ErrorCode.COMMAND_DISALLOWED, c, [])).
  { clear. intros c k enable t' config Hk Hc He. unfold LeCsProcedureEnable.
    rewrite (run_with_connection _ _ _ _ k) by done. rewrite (config_of_connection _ _ _ k) in Hc by done.
    rewrite Hc. destruct (LeCsConfig.procedure_parameters config); [|done]. by rewrite He. }
  revert Hstart. unfold LeCsProcedureEnable at 1. rewrite (run_with_connection _ _ _ _ k) by done.
  destruct (LeCsParameters.config_map _ !! id) as [config|] eqn:Ec; [|done].
  destruct (LeCsConfig.procedure_parameters config) as [p|]; [|done].
  destruct (LeCsConfig.enabled config); [done|]. change (1 =? 1) with true. cbv iota. autorewrite with run.
  destruct (convert_snr_control (LeCsProcedureParameters.snr_control_initiator p)) as [si| | |]; [|done..].
  destruct (convert_snr_control (LeCsProcedureParameters.snr_control_reflector p)) as [sr| | |]; [|done..].
  autorewrite with run. rewrite run_update_cs. intros [= <- _].
  assert (Hc : config_of handle id (set_le_connection handle (set_cs (λ s, s <| LeCsParameters.config_map ::=
            alter (λ k, k <| LeCsConfig.enabled := true |>) id |>)) c) =
            Some (config <| LeCsConfig.enabled := true |>)).
  { rewrite (config_of_update _ _ _ _ k) by done. cbn. by rewrite lookup_alter_eq, Ec. }
  split; [by eexists|]. intros enable t'. eapply Hrun; [by apply connection_of_updated|exact Hc|done].
Qed.
End Ends.

(** ** Examples *)

Definition example_sounding (role : Role.t) (address own : Address) : LeController :=
  set_le_connection 0x200 (set_cs (λ s, s
    <| LeCsParameters.remote_cs_capabilities := Some default_capabilities |>
    <| LeCsParameters.default_settings := LeCsDefaultSettings.MkLeCsDefaultSettings 3 1 20 |>))
    ((subrate_end role address own) <| channel_sounding_host_support_ := true |>).
Definition sounding_central : LeController := example_sounding Role.CENTRAL address_b address_a.
Definition sounding_peripheral : LeController := example_sounding Role.PERIPHERAL address_a address_b.
Definition example_config : LeCsConfig :=
  LeCsConfig.MkLeCsConfig 1 [0xfc; 0xff; 0x7f; 0xfc; 0xff; 0xff; 0xff; 0xff; 0xff; 0x1f] 1 1 0xff 0 0 0 1
    1 0 0 1 0 2 false None.
Definition example_procedure : LeCsProcedureParameters :=
  LeCsProcedureParameters.MkLeCsProcedureParameters 10 1 1 1 2000 3000 0 1 0 1 0xff 0xff.
Definition state_after {A} (m : M A) (c : LeController) : LeController :=
  match m 0 c with Ok (_, c', _) => c' | _ => c end.
Definition sounding_configured : LeController :=
  state_after (LeCsCreateConfig 0x200 1 0 example_config) sounding_central.
Definition ready : LeController :=
  state_after (LeCsSetProcedureParameters 0x200 1 example_procedure) sounding_configured.

Example created : (fst <$> LeCsCreateConfig 0x200 1 0 example_config 0 sounding_central) =
  Ok (ErrorCode.SUCCESS, sounding_configured).
Proof. vm_compute. reflexivity. Qed.

Definition link_of (c : LeController) : LeAclConnection :=
  default (example_link Role.CENTRAL address_b address_a) (connection_of 0x200 c).


Lemma removed_config_stays_at_peer_witness :
  LeCsRemoveConfig 0x200 1 3 sounding_configured =
    Ok (ErrorCode.SUCCESS, state_after (LeCsRemoveConfig 0x200 1) sounding_configured,
        [handed_over (LlCsConfigReq (own (link_of sounding_configured)) (peer (link_of sounding_configured)) (remove_request 1))]) ∧
  ∃ out', IncomingLlCsConfigReq 0x200 (remove_request 1) 4
            (state_after (IncomingLlCsConfigReq 0x200 (create_request example_config)) sounding_peripheral) =
          Ok ((), state_after (IncomingLlCsConfigReq 0x200 (create_request example_config)) sounding_peripheral, out').
Proof.
  split; [vm_compute; reflexivity|].
  eapply (removed_config_stays_at_peer 0x200 sounding_configured (link_of sounding_configured) 0x200 _
            (link_of (state_after (IncomingLlCsConfigReq 0x200 (create_request example_config)) sounding_peripheral))
            1 3 4); vm_compute; reflexivity.
Defined.

Lemma started_procedure_cannot_be_stopped_witness :
  LeCsConfig.procedure_parameters <$> config_of 0x200 1 ready = Some (Some example_procedure) ∧
  LeCsProcedureEnable 0x200 1 0 6 (state_after (LeCsProcedureEnable 0x200 1 1) ready) =
    Ok (ErrorCode.COMMAND_DISALLOWED, state_after (LeCsProcedureEnable 0x200 1 1) ready, []).
Proof.
  split; [vm_compute; reflexivity|].
  eapply (started_procedure_cannot_be_stopped 0x200 ready (link_of ready) 1 5); vm_compute; reflexivity.
Defined.
