(* ===== verification/LeApcf.v ===== *)
(** * The advertising packet content filter (vendor_commands/le_apcf.cc)

    The filters the host sets up with the vendor commands, and the invariant of
    their tables. *)

From S2P Require Import Prelude HciTypes Properties Address CsTypes Connections LeState LeLists.
Import ApcfScanner.

(** ** ApcfScanner *)

Definition HasFilterIndex (apcf_filter_index : Z) (s : ApcfScanner) : bool :=
  existsb (λ it, filter_index it =? apcf_filter_index) (filters s).

(** [erase(remove_if(...))]. *)
Definition erase_if {T} (p : T → bool) (l : list T) : list T := List.filter (λ it, negb (p it)) l.
Definition of_index {T} (index : T → Z) (i : Z) (it : T) : bool := index it =? i.

Definition ClearFilterIndex (i : Z) (s : ApcfScanner) : ApcfScanner :=
  s <| broadcaster_address_filters ::= erase_if (of_index broadcaster_filter_index i) |>
    <| service_uuid_filters ::= erase_if (of_index gap_filter_index i) |>
    <| service_solicitation_uuid_filters ::= erase_if (of_index gap_filter_index i) |>
    <| local_name_filters ::= erase_if (of_index gap_filter_index i) |>
    <| manufacturer_data_filters ::= erase_if (of_index gap_filter_index i) |>
    <| service_data_filters ::= erase_if (of_index gap_filter_index i) |>
    <| ad_type_filters ::= erase_if (of_index ad_filter_index i) |>.

Definition Clear (s : ApcfScanner) : ApcfScanner :=
  s <| filters := [] |> <| broadcaster_address_filters := [] |> <| service_uuid_filters := [] |>
    <| service_solicitation_uuid_filters := [] |> <| local_name_filters := [] |>
    <| manufacturer_data_filters := [] |> <| service_data_filters := [] |> <| ad_type_filters := [] |>.

Definition UpdateFilterList {T} `{EqDecision T} (index : T → Z) (filter_list : list T)
    (max_filter_list_size action : Z) (filter : T) (s : ApcfScanner) : ErrorCode.t * list T :=
  if negb (HasFilterIndex (index filter) s) then (ErrorCode.UNKNOWN_CONNECTION, filter_list)
  else if action =? ApcfAction.ADD then
    if zlength filter_list =? max_filter_list_size
    then (ErrorCode.MEMORY_CAPACITY_EXCEEDED, filter_list)
    else (ErrorCode.SUCCESS, filter_list ++ [filter])
  else if action =? ApcfAction.DELETE then
    (ErrorCode.SUCCESS, erase_if (λ it, bool_decide (it = filter)) filter_list)
  else if action =? ApcfAction.CLEAR then
    (ErrorCode.SUCCESS, erase_if (of_index index (index filter)) filter_list)
  else (ErrorCode.INVALID_HCI_COMMAND_PARAMETERS, filter_list).

(** ** Commands

    A command returns its status and [apcf_available_spaces], an 8 bit number. *)

Definition apcf_reply : Type := ErrorCode.t * Z * LeController.

Definition LeApcfEnable (apcf_enable : bool) (c : LeController) : reply :=
  (ErrorCode.SUCCESS, c <| apcf_scanner_ ::= λ s, s <| enable := apcf_enable |> |>).

Definition LeApcfAddFilteringParameters (f : Filter) (c : LeController) : apcf_reply :=
  let s := apcf_scanner_ c in
  let spaces := u8 (le_apcf_filter_list_size (properties_ c) - zlength (filters s)) in
  if HasFilterIndex (filter_index f) s then (ErrorCode.INVALID_HCI_COMMAND_PARAMETERS, spaces, c)
  else if spaces =? 0 then (ErrorCode.MEMORY_CAPACITY_EXCEEDED, spaces, c)
  else (ErrorCode.SUCCESS, u8 (spaces - 1),
        c <| apcf_scanner_ ::= λ s, s <| filters ::= λ l, l ++ [f] |> |>).

Definition LeApcfDeleteFilteringParameters (i : Z) (c : LeController) : apcf_reply :=
  let s := apcf_scanner_ c in
  let spaces := u8 (le_apcf_filter_list_size (properties_ c) - zlength (filters s)) in
  if negb (HasFilterIndex i s) then (ErrorCode.UNKNOWN_CONNECTION, spaces, c)
  else (ErrorCode.SUCCESS, u8 (spaces + 1),
        c <| apcf_scanner_ ::= λ s,
               ClearFilterIndex i (s <| filters ::= erase_if (of_index filter_index i) |>) |>).

Definition LeApcfClearFilteringParameters (c : LeController) : apcf_reply :=
  (ErrorCode.SUCCESS, le_apcf_filter_list_size (properties_ c), c <| apcf_scanner_ ::= Clear |>).

(** A command on one table: [get] reads it, [set] stores it, [max] bounds it. *)
Definition update_table {T} `{EqDecision T} (get : ApcfScanner → list T)
    (set : list T → ApcfScanner → ApcfScanner) (max : ControllerProperties → Z) (index : T → Z)
    (action : Z) (filter : T) (c : LeController) : apcf_reply :=
  let s := apcf_scanner_ c in
  let '(status, l) := UpdateFilterList index (get s) (max (properties_ c)) action filter s in
  (status, u8 (max (properties_ c) - zlength l), c <| apcf_scanner_ := set l s |>).

Definition LeApcfBroadcasterAddress (action i : Z) (address : Address) (type : Z) : LeController → apcf_reply :=
  update_table broadcaster_address_filters (λ l s, s <| broadcaster_address_filters := l |>)
    le_apcf_broadcaster_address_filter_list_size broadcaster_filter_index action
    (MkBroadcasterAddressFilter i address type).

(** The data and its mask are the two halves of the bytes. *)
Definition gap_filter (i : Z) (bytes : list Z) : GapDataFilter :=
  let n := Nat.div (length bytes) 2 in MkGapDataFilter i (take n bytes) (drop n bytes).

Definition LeApcfServiceUuid (action i : Z) (bytes : list Z) : LeController → apcf_reply :=
  update_table service_uuid_filters (λ l s, s <| service_uuid_filters := l |>)
    le_apcf_service_uuid_filter_list_size gap_filter_index action (gap_filter i bytes).
Definition LeApcfServiceSolicitationUuid (action i : Z) (bytes : list Z) : LeController → apcf_reply :=
  update_table service_solicitation_uuid_filters (λ l s, s <| service_solicitation_uuid_filters := l |>)
    le_apcf_service_solicitation_uuid_filter_list_size gap_filter_index action (gap_filter i bytes).
Definition LeApcfLocalName (action i : Z) (bytes : list Z) : LeController → apcf_reply :=
  update_table local_name_filters (λ l s, s <| local_name_filters := l |>)
    le_apcf_local_name_filter_list_size gap_filter_index action (gap_filter i bytes).
Definition LeApcfManufacturerData (action i : Z) (bytes : list Z) : LeController → apcf_reply :=
  update_table manufacturer_data_filters (λ l s, s <| manufacturer_data_filters := l |>)
    le_apcf_manufacturer_data_filter_list_size gap_filter_index action (gap_filter i bytes).
Definition LeApcfServiceData (action i : Z) (bytes : list Z) : LeController → apcf_reply :=
  update_table service_data_filters (λ l s, s <| service_data_filters := l |>)
    le_apcf_service_data_filter_list_size gap_filter_index action (gap_filter i bytes).
Definition LeApcfAdTypeFilter (action i type : Z) (data mask : list Z) : LeController → apcf_reply :=
  update_table ad_type_filters (λ l s, s <| ad_type_filters := l |>)
    le_apcf_ad_type_filter_list_size ad_filter_index action (MkAdTypeFilter i type data mask).

(** ** The invariant *)

(** A table within its bound, all of whose entries belong to a filter. *)
Definition table_ok {T} (index : T → Z) (max : Z) (s : ApcfScanner) (l : list T) : Prop :=
  zlength l ≤ max ∧ ∀ it, it ∈ l → index it ∈ filter_index <$> filters s.
Record apcf_wf (p : ControllerProperties) (s : ApcfScanner) : Prop := {
  apcf_unique : NoDup (filter_index <$> filters s);
  apcf_filters : zlength (filters s) ≤ le_apcf_filter_list_size p;
  apcf_broadcaster : table_ok broadcaster_filter_index (le_apcf_broadcaster_address_filter_list_size p) s
                       (broadcaster_address_filters s);
  apcf_service : table_ok gap_filter_index (le_apcf_service_uuid_filter_list_size p) s (service_uuid_filters s);
  apcf_solicitation : table_ok gap_filter_index (le_apcf_service_solicitation_uuid_filter_list_size p) s
                        (service_solicitation_uuid_filters s);
  apcf_name : table_ok gap_filter_index (le_apcf_local_name_filter_list_size p) s (local_name_filters s);
  apcf_manufacturer : table_ok gap_filter_index (le_apcf_manufacturer_data_filter_list_size p) s
                        (manufacturer_data_filters s);
  apcf_data : table_ok gap_filter_index (le_apcf_service_data_filter_list_size p) s (service_data_filters s);
  apcf_ad : table_ok ad_filter_index (le_apcf_ad_type_filter_list_size p) s (ad_type_filters s);
}.

(** The bounds are 8 bit numbers. *)
Record apcf_limits (p : ControllerProperties) : Prop := {
  limit_filters : fits 8 (le_apcf_filter_list_size p);
  limit_broadcaster : fits 8 (le_apcf_broadcaster_address_filter_list_size p);
  limit_service : fits 8 (le_apcf_service_uuid_filter_list_size p);
  limit_solicitation : fits 8 (le_apcf_service_solicitation_uuid_filter_list_size p);
  limit_name : fits 8 (le_apcf_local_name_filter_list_size p);
  limit_manufacturer : fits 8 (le_apcf_manufacturer_data_filter_list_size p);
  limit_data : fits 8 (le_apcf_service_data_filter_list_size p);
  limit_ad : fits 8 (le_apcf_ad_type_filter_list_size p);
}.

(** ** Lists of filters *)

Lemma HasFilterIndex_spec i s : HasFilterIndex i s = true ↔ i ∈ filter_index <$> filters s.
Proof.
  unfold HasFilterIndex. rewrite existsb_exists, list_elem_of_fmap. split.
  - intros (it & Hin & <-%Z.eqb_eq). exists it. by rewrite list_elem_of_In.
  - intros (it & -> & Hin%list_elem_of_In). exists it. by rewrite Z.eqb_refl.
Qed.

Lemma elem_of_erase_if {T} p (l : list T) it : it ∈ erase_if p l ↔ it ∈ l ∧ p it = false.
Proof. unfold erase_if. rewrite !list_elem_of_In, filter_In, negb_true_iff. done. Qed.
Lemma zlength_erase_if {T} p (l : list T) : zlength (erase_if p l) ≤ zlength l.
Proof. unfold erase_if, zlength. pose proof (filter_length_le (λ it, negb (p it)) l). lia. Qed.

Section Tables.
Context {T : Type} (index : T → Z).

Lemma table_ok_erase max s p l : table_ok index max s l → table_ok index max s (erase_if p l).
Proof.
  intros [Hl Hi]. split; [pose proof (zlength_erase_if p l); lia|]. intros it [? _]%elem_of_erase_if. auto.
Qed.
Lemma table_ok_filters max s s' l : filters s' = filters s → table_ok index max s l → table_ok index max s' l.
Proof. unfold table_ok. by intros ->. Qed.
Lemma table_ok_nil max s : 0 ≤ max → table_ok index max s [].
Proof. by split; [|intros it ?%not_elem_of_nil]. Qed.

(** What a command does to its table. *)
Lemma UpdateFilterList_ok `{EqDecision T} max s action f l :
  table_ok index max s l → table_ok index max s (snd (UpdateFilterList index l max action f s)).
Proof.
  intros Ht. unfold UpdateFilterList. destruct (HasFilterIndex _ s) eqn:Hf; cbn [negb snd]; [|done].
  destruct (action =? _); [|repeat case_match; by try apply table_ok_erase].
  destruct (zlength l =? max) eqn:E; [done|]. destruct Ht as [Hl Hi]. split; cbn [snd].
  - autorewrite with rc. lia.
  - intros it [?| ->%list_elem_of_singleton]%elem_of_app; [auto|]. by apply HasFilterIndex_spec.
Qed.

(** Dropping a filter and what belongs to it. *)
Lemma table_ok_drop max s i l :
  table_ok index max s l →
  table_ok index max (s <| filters ::= erase_if (of_index filter_index i) |>) (erase_if (of_index index i) l).
Proof.
  intros [Hl Hi]. split; [pose proof (zlength_erase_if (of_index index i) l); lia|].
  intros it [Hin Hn]%elem_of_erase_if. apply Hi in Hin. cbn. unfold of_index in Hn.
  apply list_elem_of_fmap in Hin as (f & Ef & Hin). apply list_elem_of_fmap. exists f. split; [done|].
  apply elem_of_erase_if. split; [done|]. unfold of_index. by rewrite <-Ef.
Qed.
End Tables.

Lemma erase_index_NoDup i (l : list Filter) :
  NoDup (filter_index <$> l) → NoDup (filter_index <$> erase_if (of_index filter_index i) l).
Proof.
  induction l as [|f l IH]; [done|]. cbn. intros [Hn Hl]%NoDup_cons. unfold erase_if. cbn.
  destruct (of_index filter_index i f); cbn; [by apply IH|]. apply NoDup_cons. split; [|by apply IH].
  intros (g & Hg & [Hin _]%elem_of_erase_if)%list_elem_of_fmap. apply Hn. rewrite Hg. by apply list_elem_of_fmap_2.
Qed.
Lemma erase_index_none i (l : list Filter) :
  i ∉ filter_index <$> l → erase_if (of_index filter_index i) l = l.
Proof.
  induction l as [|f l IH]; [done|]. cbn. intros [Hf Hl]%not_elem_of_cons. unfold erase_if. cbn.
  unfold of_index at 1. replace (filter_index f =? i) with false by lia. cbn. f_equal. by apply IH.
Qed.
Lemma zlength_erase_index i (l : list Filter) :
  NoDup (filter_index <$> l) → i ∈ filter_index <$> l →
  zlength (erase_if (of_index filter_index i) l) = zlength l - 1.
Proof.
  induction l as [|f l IH]; cbn; [by intros _ ?%not_elem_of_nil|].
  intros [Hn Hl]%NoDup_cons Hin. unfold erase_if. cbn. unfold of_index at 1.
  destruct (filter_index f =? i) eqn:E; cbn.
  - apply Z.eqb_eq in E as <-. fold (erase_if (of_index filter_index (filter_index f)) l).
    rewrite erase_index_none by done. autorewrite with rc. lia.
  - apply elem_of_cons in Hin as [->|Hin]; [by rewrite Z.eqb_refl in E|]. autorewrite with rc.
    fold (erase_if (of_index filter_index i) l). rewrite IH by done. lia.
Qed.

(** ** Every command keeps the invariant *)

Inductive ApcfCommand :=
| ApcfAdd (f : Filter)
| ApcfDelete (i : Z)
| ApcfClear
| ApcfBroadcaster (action i : Z) (address : Address) (type : Z)
| ApcfServiceUuid (action i : Z) (bytes : list Z)
| ApcfSolicitationUuid (action i : Z) (bytes : list Z)
| ApcfLocalName (action i : Z) (bytes : list Z)
| ApcfManufacturer (action i : Z) (bytes : list Z)
| ApcfServiceData (action i : Z) (bytes : list Z)
| ApcfAdType (action i type : Z) (data mask : list Z).
Definition apcf_execute (command : ApcfCommand) : LeController → apcf_reply :=
  match command with
  | ApcfAdd f => LeApcfAddFilteringParameters f
  | ApcfDelete i => LeApcfDeleteFilteringParameters i
  | ApcfClear => LeApcfClearFilteringParameters
  | ApcfBroadcaster action i address type => LeApcfBroadcasterAddress action i address type
  | ApcfServiceUuid action i bytes => LeApcfServiceUuid action i bytes
  | ApcfSolicitationUuid action i bytes => LeApcfServiceSolicitationUuid action i bytes
  | ApcfLocalName action i bytes => LeApcfLocalName action i bytes
  | ApcfManufacturer action i bytes => LeApcfManufacturerData action i bytes
  | ApcfServiceData action i bytes => LeApcfServiceData action i bytes
  | ApcfAdType action i type data mask => LeApcfAdTypeFilter action i type data mask
  end.

(** The room in the table of the command. *)
Definition room (command : ApcfCommand) (p : ControllerProperties) (s : ApcfScanner) : Z :=
  match command with
  | ApcfAdd _ | ApcfDelete _ | ApcfClear => le_apcf_filter_list_size p - zlength (filters s)
  | ApcfBroadcaster _ _ _ _ =>
      le_apcf_broadcaster_address_filter_list_size p - zlength (broadcaster_address_filters s)
  | ApcfServiceUuid _ _ _ => le_apcf_service_uuid_filter_list_size p - zlength (service_uuid_filters s)
  | ApcfSolicitationUuid _ _ _ =>
      le_apcf_service_solicitation_uuid_filter_list_size p - zlength (service_solicitation_uuid_filters s)
  | ApcfLocalName _ _ _ => le_apcf_local_name_filter_list_size p - zlength (local_name_filters s)
  | ApcfManufacturer _ _ _ =>
      le_apcf_manufacturer_data_filter_list_size p - zlength (manufacturer_data_filters s)
  | ApcfServiceData _ _ _ => le_apcf_service_data_filter_list_size p - zlength (service_data_filters s)
  | ApcfAdType _ _ _ _ _ => le_apcf_ad_type_filter_list_size p - zlength (ad_type_filters s)
  end.

Lemma u8_room n l : fits 8 n → 0 ≤ l ≤ n → u8 (n - l) = n - l.
Proof. intros ? ?. apply wrap_id. unfold fits in *. lia. Qed.
Lemma u8_room_table {T} (index : T → Z) n s l : fits 8 n → table_ok index n s l → u8 (n - zlength l) = n - zlength l.
Proof. intros ? [? _]. apply u8_room; [done|]. pose proof (zlength_nonneg l). lia. Qed.

(** The invariant after a command on one table. *)
Lemma apcf_wf_filters p s s' :
  apcf_wf p s → filters s' = filters s →
  table_ok broadcaster_filter_index (le_apcf_broadcaster_address_filter_list_size p) s (broadcaster_address_filters s') →
  table_ok gap_filter_index (le_apcf_service_uuid_filter_list_size p) s (service_uuid_filters s') →
  table_ok gap_filter_index (le_apcf_service_solicitation_uuid_filter_list_size p) s
    (service_solicitation_uuid_filters s') →
  table_ok gap_filter_index (le_apcf_local_name_filter_list_size p) s (local_name_filters s') →
  table_ok gap_filter_index (le_apcf_manufacturer_data_filter_list_size p) s (manufacturer_data_filters s') →
  table_ok gap_filter_index (le_apcf_service_data_filter_list_size p) s (service_data_filters s') →
  table_ok ad_filter_index (le_apcf_ad_type_filter_list_size p) s (ad_type_filters s') →
  apcf_wf p s'.
Proof.
  intros [Hu Hf _ _ _ _ _ _ _] E ? ? ? ? ? ? ?.
  split; rewrite ?E; try done; by eapply table_ok_filters.
Qed.

Lemma table_ok_add {T} (index : T → Z) max s f l :
  table_ok index max s l → table_ok index max (s <| filters ::= λ l, l ++ [f] |>) l.
Proof.
  intros [? Hi]. split; [done|]. intros it Hin. cbn. rewrite fmap_app. apply elem_of_app. left. auto.
Qed.
Lemma apcf_wf_add p s f :
  apcf_wf p s → filter_index f ∉ filter_index <$> filters s → zlength (filters s) < le_apcf_filter_list_size p →
  apcf_wf p (s <| filters ::= λ l, l ++ [f] |>).
Proof.
  intros [Hu Hf Hb Hs Hq Hn Hm Hd Ha] Hnew Hroom. split; try (by apply table_ok_add); cbn.
  - rewrite fmap_app. apply NoDup_app. split; [done|]. split; [|apply NoDup_singleton].
    by intros i Hi ->%list_elem_of_singleton.
  - autorewrite with rc. lia.
Qed.
Lemma apcf_wf_delete p s i :
  apcf_wf p s → apcf_wf p (ClearFilterIndex i (s <| filters ::= erase_if (of_index filter_index i) |>)).
Proof.
  intros [Hu Hf Hb Hs Hq Hn Hm Hd Ha]. split; try (by apply table_ok_drop); cbn.
  - by apply erase_index_NoDup.
  - pose proof (zlength_erase_if (of_index filter_index i) (filters s)). lia.
Qed.

(** A command of the filter changes the filter only. *)
Lemma apcf_execute_frame command c :
  ∃ s, snd (apcf_execute command c) = c <| apcf_scanner_ := s |>.
Proof.
  destruct command; cbn [apcf_execute]; unfold LeApcfAddFilteringParameters, LeApcfDeleteFilteringParameters,
    LeApcfBroadcasterAddress, LeApcfServiceUuid, LeApcfServiceSolicitationUuid, LeApcfLocalName,
    LeApcfManufacturerData, LeApcfServiceData, LeApcfAdTypeFilter, update_table; repeat case_match;
    simplify_eq/=; first [by eexists|by exists (apcf_scanner_ c); destruct c].
Qed.

(** Every command keeps the tables within their bounds and their entries attached
    to a filter that exists, and reports the room that is left in its table. *)
Theorem apcf_commands_keep command c status spaces c'
    (Hlimits : apcf_limits (properties_ c)) (Hc : apcf_wf (properties_ c) (apcf_scanner_ c))
    (Hrun : apcf_execute command c = (status, spaces, c')) :
  properties_ c' = properties_ c ∧ apcf_wf (properties_ c) (apcf_scanner_ c') ∧
  spaces = room command (properties_ c) (apcf_scanner_ c').
Proof.
  assert (Htable : ∀ T (D : EqDecision T) get set max index action (f : T),
    update_table get set max index action f c = (status, spaces, c') →
    fits 8 (max (properties_ c)) → table_ok index (max (properties_ c)) (apcf_scanner_ c) (get (apcf_scanner_ c)) →
    ∃ l, table_ok index (max (properties_ c)) (apcf_scanner_ c) l ∧
      c' = c <| apcf_scanner_ := set l (apcf_scanner_ c) |> ∧ spaces = max (properties_ c) - zlength l).
  { clear. intros T D get set max index action f E Hfit Ht. unfold update_table in E.
    pose proof (UpdateFilterList_ok index _ _ action f _ Ht) as Hl.
    destruct (UpdateFilterList _ _ _ _ _ _) as [st l]. injection E as _ <- <-. exists l.
    split; [done|]. split; [done|]. by eapply u8_room_table. }
  pose proof Hc as [Hu Hf Hb Hs Hq Hn Hm Hd Ha]. destruct Hlimits.
  pose proof (zlength_nonneg (filters (apcf_scanner_ c))).
  destruct command; cbn [apcf_execute room] in *;
    try (apply Htable in Hrun as (l & Hl & -> & ->); [|done..]; split; [done|]; split; [|done];
         by apply (apcf_wf_filters _ (apcf_scanner_ c))); clear Htable.
  - unfold LeApcfAddFilteringParameters in Hrun. rewrite u8_room in Hrun by (done || lia).
    destruct (HasFilterIndex _ _) eqn:Hi; [by injection Hrun as _ <- <-|].
    destruct (_ =? 0) eqn:Eroom; [by injection Hrun as _ <- <-|]. injection Hrun as _ <- <-.
    split; [done|]. split.
    + apply apcf_wf_add; [done| |cbn; lia]. by rewrite <-HasFilterIndex_spec, Hi.
    + cbn. autorewrite with rc. unfold fits in *. rewrite wrap_id by (unfold fits; lia). lia.
  - unfold LeApcfDeleteFilteringParameters in Hrun. rewrite u8_room in Hrun by (done || lia).
    destruct (HasFilterIndex _ _) eqn:Hi; cbn [negb] in Hrun; [|by injection Hrun as _ <- <-].
    injection Hrun as _ <- <-. apply HasFilterIndex_spec in Hi.
    split; [done|]. split; [by apply apcf_wf_delete|]. cbn. rewrite zlength_erase_index by done.
    assert (zlength (filters (apcf_scanner_ c)) ≠ 0).
    { destruct (filters (apcf_scanner_ c)); [by apply not_elem_of_nil in Hi|]. autorewrite with rc.
      pose proof (zlength_nonneg l). lia. }
    unfold fits in *. rewrite wrap_id by (unfold fits; lia). lia.
  - injection Hrun as _ <- <-. split; [done|]. cbn. split; [|rewrite zlength_nil; lia].
    split; cbn; try (apply table_ok_nil; unfold fits in *; lia); [apply NoDup_nil_2|rewrite zlength_nil; unfold fits in *; lia].
Qed.

(** ** Example *)

Definition example_filter (i : Z) : Filter := MkFilter i 1 1 0 0 0 0 0 0 0 0.
Definition filtering : LeController :=
  snd (LeApcfAddFilteringParameters (example_filter 1) (new_controller kEmpty ControllerProperties_default)).
Lemma apcf_commands_keep_witness :
  apcf_wf ControllerProperties_default (apcf_scanner_ filtering) ∧
  ∃ status c', LeApcfLocalName ApcfAction.ADD 1 [65; 66; 255; 255] filtering = (status, 15, c') ∧
    status = ErrorCode.SUCCESS ∧ apcf_wf ControllerProperties_default (apcf_scanner_ c').
Proof.
  assert (Hl : apcf_limits ControllerProperties_default) by (split; by vm_compute).
  assert (Hw : apcf_wf ControllerProperties_default (apcf_scanner_ filtering)).
  { split; try (by apply table_ok_nil); [repeat constructor; by intros ?%not_elem_of_nil|by vm_compute]. }
  split; [exact Hw|]. do 2 eexists. split; [vm_compute; reflexivity|]. split; [reflexivity|].
  destruct (apcf_commands_keep (ApcfLocalName ApcfAction.ADD 1 [65; 66; 255; 255]) filtering
              ErrorCode.SUCCESS 15 _ Hl Hw eq_refl) as (_ & H & _). exact H.
Defined.
