(* ===== verification/LeIso.v ===== *)
(** * Isochronous data (le_controller.cc)

    The data of connected isochronous streams, from the host to the peer and from
    the peer to the host, and the commands handed to the link layer library.  The
    streams themselves are the library's. *)

From S2P Require Import Prelude HciTypes Properties Address CsTypes Connections LeState LeLists LePhy LeSubrate.

Module IsoPacketBoundaryFlag.
Definition FIRST_FRAGMENT : Z := 0.
Definition CONTINUATION_FRAGMENT : Z := 1.
Definition COMPLETE_SDU : Z := 2.
Definition LAST_FRAGMENT : Z := 3.
End IsoPacketBoundaryFlag.

(** Remove sequence_number and iso_sdu_length. *)
Definition kMaxPayloadSize : nat := 4095 - 4.
Arguments kMaxPayloadSize : simpl never.

Section Iso.
Context {env : Environment}.

(** The loop that cuts an SDU; every turn consumes data, so that its length and
    one more turns are enough. *)
Fixpoint iso_fragments (fuel : nat) (flag : Z) (data : list Z) : list (Z * list Z) :=
  match fuel with
  | O => []
  | S fuel =>
      let fragment := take kMaxPayloadSize data in
      let remaining := drop kMaxPayloadSize data in
      let next := if bool_decide (length remaining ≤ kMaxPayloadSize)%nat
                  then IsoPacketBoundaryFlag.LAST_FRAGMENT
                  else IsoPacketBoundaryFlag.CONTINUATION_FRAGMENT in
      (flag, fragment) ::
      (if bool_decide (0 < length remaining)%nat then iso_fragments fuel next remaining else [])
  end.
Definition first_flag (data : list Z) : Z :=
  if bool_decide (length data ≤ kMaxPayloadSize)%nat then IsoPacketBoundaryFlag.COMPLETE_SDU
  else IsoPacketBoundaryFlag.FIRST_FRAGMENT.

Definition IncomingLeConnectedIsochronousPdu (cig_id cis_id sequence_number : Z) (data : list Z) : M () :=
  c ← gets id;
  match link_layer_get_cis_connection_handle (ll_ c) cig_id cis_id with
  | None => mret ()
  | Some handle =>
      for_each (iso_fragments (length data + 1) (first_flag data) data) (λ '(flag, fragment),
        output (SendIso handle flag sequence_number (u16 (zlength data)) fragment))
  end.

(** [present] is [TimeStampFlag::PRESENT]; [payload] is the payload of the ISO
    packet, whose header is part of it. *)
Definition HandleIso (cis_connection_handle pb_flag : Z) (present : bool) (payload : list Z) : M () :=
  output (ScheduleTask 0 (SendEventLater (NumberOfCompletedPackets cis_connection_handle 1)));;
  c ← gets id;
  lift (assert (zlength payload <=? iso_data_packet_length (properties_ c)));;
  lift (assert (negb (present && ((pb_flag =? IsoPacketBoundaryFlag.CONTINUATION_FRAGMENT) ||
                                  (pb_flag =? IsoPacketBoundaryFlag.LAST_FRAGMENT)))));;
  match link_layer_get_cis_information (ll_ c) cis_connection_handle with
  | None => mret ()
  | Some (acl_connection_handle, cig_id, cis_id, max_sdu_length) =>
      if negb (HasLeAclHandle acl_connection_handle (connections_ c)) then mret ()
      else
        (if (pb_flag =? IsoPacketBoundaryFlag.FIRST_FRAGMENT) || (pb_flag =? IsoPacketBoundaryFlag.COMPLETE_SDU)
         then modify (λ c, c <| iso_sdu_ := [] |>) else mret ());;
        match (if present then IsoWithTimestampView payload else IsoWithoutTimestampView payload) with
        | None => lift Fatal
        | Some (packet_sequence_number, iso_payload) =>
            modify (λ c, c <| iso_sdu_ ::= λ sdu, sdu ++ iso_payload |>);;
            if (pb_flag =? IsoPacketBoundaryFlag.LAST_FRAGMENT) || (pb_flag =? IsoPacketBoundaryFlag.COMPLETE_SDU)
            then
              sdu ← gets iso_sdu_;
              if max_sdu_length <? zlength sdu then mret ()
              else
                connection ← le_connection acl_connection_handle;
                SendLeLinkLayerPacket
                  (LeConnectedIsochronousPdu (own connection) (peer connection) cig_id cis_id
                     packet_sequence_number sdu) 0;;
                modify (λ c, c <| iso_sdu_ := [] |>)
            else mret ()
        end
  end.

Definition ForwardToLl (command : list Z) : M () :=
  accepted ← link_layer (link_layer_ingest_hci command);
  lift (assert accepted).
End Iso.

(** ** An SDU from host to host *)

Section Transfer.
Context {env : Environment}.

Lemma kMaxPayloadSize_pos : (0 < kMaxPayloadSize)%nat.
Proof. unfold kMaxPayloadSize. lia. Qed.

Definition starts (flag : Z) : bool :=
  (flag =? IsoPacketBoundaryFlag.FIRST_FRAGMENT) || (flag =? IsoPacketBoundaryFlag.COMPLETE_SDU).
Definition ends (flag : Z) : bool :=
  (flag =? IsoPacketBoundaryFlag.LAST_FRAGMENT) || (flag =? IsoPacketBoundaryFlag.COMPLETE_SDU).

(** The pieces of an SDU with the flags the specification gives them, whatever the
    cut: a complete SDU; or a first fragment, any number that continue, and the last. *)
Fixpoint later_fragments (cut : list (list Z)) : list (Z * list Z) :=
  match cut with
  | [] => []
  | [piece] => [(IsoPacketBoundaryFlag.LAST_FRAGMENT, piece)]
  | piece :: cut => (IsoPacketBoundaryFlag.CONTINUATION_FRAGMENT, piece) :: later_fragments cut
  end.
Definition sdu_fragments (cut : list (list Z)) : list (Z * list Z) :=
  match cut with
  | [] => []
  | [piece] => [(IsoPacketBoundaryFlag.COMPLETE_SDU, piece)]
  | piece :: cut => (IsoPacketBoundaryFlag.FIRST_FRAGMENT, piece) :: later_fragments cut
  end.

(** The loop of the controller is one of these cuts. *)
Lemma iso_fragments_later fuel data :
  (length data < fuel)%nat →
  ∃ cut, cut ≠ [] ∧ concat cut = data ∧ Forall (λ piece, length piece ≤ kMaxPayloadSize)%nat cut ∧
  iso_fragments fuel (if bool_decide (length data ≤ kMaxPayloadSize)%nat then IsoPacketBoundaryFlag.LAST_FRAGMENT
                      else IsoPacketBoundaryFlag.CONTINUATION_FRAGMENT) data = later_fragments cut ∧
  iso_fragments fuel (first_flag data) data = sdu_fragments cut.
Proof.
  pose proof kMaxPayloadSize_pos as Hpos.
  revert data. induction fuel as [|fuel IH]; intros data Hlen; [lia|]. cbn [iso_fragments]. unfold first_flag.
  case_bool_decide as E.
  - exists [data]. rewrite take_ge, bool_decide_false by (rewrite ?length_drop; lia).
    split; [done|]. split; [apply app_nil_r|]. split; [by apply Forall_singleton|done].
  - rewrite (bool_decide_true (0 < _)%nat) by (rewrite length_drop; lia).
    destruct (IH (drop kMaxPayloadSize data)) as (cut & Hne & Hc & Hf & -> & _); [rewrite length_drop; lia|].
    exists (take kMaxPayloadSize data :: cut). split; [done|]. cbn [concat]. rewrite Hc, take_drop.
    split; [done|]. split; [constructor; [rewrite length_take; lia|done]|]. by destruct cut.
Qed.

Lemma for_each_cons {A} (x : A) l body t c c1 o1 c2 o2 :
  body x t c = Ok ((), c1, o1) → for_each l body t c1 = Ok ((), c2, o2) →
  for_each (x :: l) body t c = Ok ((), c2, o1 ++ o2).
Proof. intros E1 E2. cbn [for_each]. by rewrite (run_bind _ _ _ _ _ _ _ E1), E2. Qed.

Section Stream.
Context (cis acl cig_id cis_id max_sdu_length seq : Z) (t : Z) (k : LeAclConnection).

(** A controller with the stream. *)
Definition stream_ready (c : LeController) : Prop :=
  link_layer_get_cis_information (ll_ c) cis = Some (acl, cig_id, cis_id, max_sdu_length) ∧
  connection_of acl c = Some k.
Definition acknowledgment : Output := ScheduleTask 0 (SendEventLater (NumberOfCompletedPackets cis 1)).
Definition delivered (sdu : list Z) : Output :=
  handed_over (LeConnectedIsochronousPdu (own k) (peer k) cig_id cis_id seq sdu).
(** What leaves once the SDU is complete, and what is kept. *)
Definition fits_stream (sdu : list Z) : bool := zlength sdu <=? max_sdu_length.
Definition passed_on (sdu : list Z) : list Output := if fits_stream sdu then [delivered sdu] else [].
Definition kept_sdu (sdu : list Z) : list Z := if fits_stream sdu then [] else sdu.

(** The payload of a packet, with a time stamp or without, carries a piece. *)
Definition carries (packet : bool * list Z) (piece : list Z) : Prop :=
  (if fst packet then IsoWithTimestampView (snd packet) else IsoWithoutTimestampView (snd packet)) = Some (seq, piece).

Lemma HandleIso_run flag packet piece c :
  stream_ready c → zlength (snd packet) ≤ iso_data_packet_length (properties_ c) →
  (fst packet = true → starts flag = true) → carries packet piece →
  let sdu := (if starts flag then [] else iso_sdu_ c) ++ piece in
  HandleIso cis flag (fst packet) (snd packet) t c =
    Ok ((), c <| iso_sdu_ := if ends flag then kept_sdu sdu else sdu |>,
        acknowledgment :: if ends flag then passed_on sdu else []).
Proof.
  destruct packet as [present payload]. intros [Hll Hk] Hp Hts Hv sdu. unfold HandleIso. autorewrite with run.
  unfold id, carries in *. cbn [fst snd] in *. rewrite (proj2 (Z.leb_le _ _)) by done.
  cbn [assert]. autorewrite with run.
  assert (negb (present && ((flag =? IsoPacketBoundaryFlag.CONTINUATION_FRAGMENT) ||
                            (flag =? IsoPacketBoundaryFlag.LAST_FRAGMENT))) = true) as ->.
  { destruct present; [|done]. specialize (Hts eq_refl). unfold starts in Hts. cbn.
    apply orb_true_iff in Hts as [->%Z.eqb_eq| ->%Z.eqb_eq]; done. }
  cbn [assert]. autorewrite with run. rewrite Hll.
  unfold HasLeAclHandle. rewrite bool_decide_true by (by eexists). cbn [negb].
  rewrite Hv. fold (starts flag). fold (ends flag). unfold sdu, kept_sdu, passed_on, fits_stream. clear sdu.
  destruct (starts flag); autorewrite with run; (destruct (ends flag); autorewrite with run; [|done]);
    cbn [iso_sdu_]; rewrite Z.leb_antisym; destruct (_ <? _); cbn [negb]; try done;
    rewrite (run_le_connection _ k) by done; by autorewrite with run.
Qed.

(** The host sends packets one after the other. *)
Definition send_all (packets : list (Z * (bool * list Z))) : M () :=
  for_each packets (λ '(flag, packet), HandleIso cis flag (fst packet) (snd packet)).

Lemma send_cons flag packet packets c c1 o1 c2 o2 :
  HandleIso cis flag (fst packet) (snd packet) t c = Ok ((), c1, o1) → send_all packets t c1 = Ok ((), c2, o2) →
  send_all ((flag, packet) :: packets) t c = Ok ((), c2, o1 ++ o2).
Proof. intros E1 E2. unfold send_all. by eapply for_each_cons. Qed.
Lemma send_last flag packet c c1 o1 :
  HandleIso cis flag (fst packet) (snd packet) t c = Ok ((), c1, o1) →
  send_all [(flag, packet)] t c = Ok ((), c1, o1).
Proof. intros E1. rewrite <-(app_nil_r o1). by eapply send_cons. Qed.

Lemma later_delivered cut packets c :
  cut ≠ [] → stream_ready c → Forall2 carries packets cut → Forall (λ p, fst p = false) packets →
  Forall (λ p, zlength (snd p) ≤ iso_data_packet_length (properties_ c)) packets →
  let sdu := iso_sdu_ c ++ concat cut in
  send_all (zip (fst <$> later_fragments cut) packets) t c =
    Ok ((), c <| iso_sdu_ := kept_sdu sdu |>, replicate (length cut) acknowledgment ++ passed_on sdu).
Proof.
  intros Hne. revert packets c. induction cut as [|piece [|piece' cut] IH]; intros packets c; [done|..].
  all: intros Hc Hcarry; inversion Hcarry as [|p f ps fs Hp Hps]; subst.
  all: intros [Hts Htss]%Forall_cons [Hlimit Hlimits]%Forall_cons.
  - inversion Hps; subst. cbn [concat].
    pose proof (HandleIso_run IsoPacketBoundaryFlag.LAST_FRAGMENT p piece c Hc Hlimit) as R. cbv zeta in R.
    specialize (R ltac:(by rewrite Hts) Hp). rewrite app_nil_r. by apply send_last.
  - pose proof (HandleIso_run IsoPacketBoundaryFlag.CONTINUATION_FRAGMENT p piece c Hc Hlimit) as R. cbv zeta in R.
    specialize (R ltac:(by rewrite Hts) Hp).
    change (HandleIso cis IsoPacketBoundaryFlag.CONTINUATION_FRAGMENT (fst p) (snd p) t c =
            Ok ((), c <| iso_sdu_ := iso_sdu_ c ++ piece |>, [acknowledgment])) in R.
    set (c1 := c <| iso_sdu_ := iso_sdu_ c ++ piece |>) in R.
    specialize (IH ltac:(done) ps c1 Hc Hps Htss Hlimits). cbv zeta in IH.
    assert (iso_sdu_ c1 ++ concat (piece' :: cut) = iso_sdu_ c ++ concat (piece :: piece' :: cut)) as Esdu
      by (cbn; by rewrite <-app_assoc).
    rewrite Esdu in IH.
    change (later_fragments (piece :: piece' :: cut)) with
      ((IsoPacketBoundaryFlag.CONTINUATION_FRAGMENT, piece) :: later_fragments (piece' :: cut)).
    rewrite fmap_cons. cbn [fst zip zip_with]. rewrite (send_cons _ _ _ _ _ _ _ _ R IH).
    reflexivity.
Qed.

(** C37. An SDU travels from host to host. The host cuts it in any way, into one
    packet or many: the pieces are flagged as the specification says, each has a header,
    as the code reads it (the specification has one on the first only), with which it
    fits the data packet length of the controller, and the first may have a time stamp. Every packet is acknowledged; an SDU that fits the stream reaches the
    peer as one packet with all its data, one that does not is not sent. The peer's
    controller hands it over to its host cut into pieces none of which is too long,
    flagged in the same way, which together are the SDU. *)
Theorem iso_sdu_transfer c d handle cut packets t' (Hcut : cut ≠ [])
    (Hstream : stream_ready c) (Hcarry : Forall2 carries packets cut)
    (Hstamp : Forall (λ p, fst p = false) (tail packets))
    (Hlimit : Forall (λ p, zlength (snd p) ≤ iso_data_packet_length (properties_ c)) packets)
    (Hpeer : link_layer_get_cis_connection_handle (ll_ d) cig_id cis_id = Some handle) :
  let sdu := concat cut in
  send_all (zip (fst <$> sdu_fragments cut) packets) t c =
    Ok ((), c <| iso_sdu_ := if zlength sdu <=? max_sdu_length then [] else sdu |>,
        replicate (length cut) acknowledgment ++ (if zlength sdu <=? max_sdu_length then [delivered sdu] else [])) ∧
  ∃ cut', IncomingLeConnectedIsochronousPdu cig_id cis_id seq sdu t' d =
     Ok ((), d, (λ '(flag, piece), SendIso handle flag seq (u16 (zlength sdu)) piece) <$> sdu_fragments cut') ∧
     cut' ≠ [] ∧ concat cut' = sdu ∧ Forall (λ piece, length piece ≤ kMaxPayloadSize)%nat cut'.
Proof.
  intros sdu. split.
  - change (if zlength sdu <=? max_sdu_length then [] else sdu) with (kept_sdu sdu).
    change (if zlength sdu <=? max_sdu_length then [delivered sdu] else []) with (passed_on sdu).
    unfold sdu. clear sdu. destruct cut as [|piece cut]; [done|].
    inversion Hcarry as [|p f ps fs Hp Hps]; subst. apply Forall_cons in Hlimit as [Hlimit Hlimits]. cbn [tail] in Hstamp.
    destruct cut as [|piece' cut].
    + inversion Hps; subst. cbn [concat].
      pose proof (HandleIso_run IsoPacketBoundaryFlag.COMPLETE_SDU p piece c Hstream Hlimit) as R. cbv zeta in R.
      specialize (R ltac:(done) Hp). rewrite app_nil_r. by apply send_last.
    + pose proof (HandleIso_run IsoPacketBoundaryFlag.FIRST_FRAGMENT p piece c Hstream Hlimit) as R. cbv zeta in R.
      specialize (R ltac:(done) Hp).
      change (HandleIso cis IsoPacketBoundaryFlag.FIRST_FRAGMENT (fst p) (snd p) t c =
              Ok ((), c <| iso_sdu_ := piece |>, [acknowledgment])) in R.
      set (c1 := c <| iso_sdu_ := piece |>) in R.
      pose proof (later_delivered (piece' :: cut) ps c1 ltac:(done) Hstream Hps Hstamp Hlimits) as R'.
      change (sdu_fragments (piece :: piece' :: cut)) with
        ((IsoPacketBoundaryFlag.FIRST_FRAGMENT, piece) :: later_fragments (piece' :: cut)).
      rewrite fmap_cons. cbn [fst zip zip_with]. by rewrite (send_cons _ _ _ _ _ _ _ _ R R').
  - destruct (iso_fragments_later (length sdu + 1) sdu) as (cut' & Hne & Hc & Hf & _ & E); [lia|].
    exists cut'. split; [|done]. rewrite <-E.
    unfold IncomingLeConnectedIsochronousPdu. autorewrite with run. unfold id. rewrite Hpeer.
    clear E. generalize (iso_fragments (length sdu + 1) (first_flag sdu) sdu).
    intros l. induction l as [|[flag part] l IH]; [done|].
    by rewrite (for_each_cons _ _ _ _ _ d [SendIso handle flag seq (u16 (zlength sdu)) part] d
                  ((λ '(flag, part), SendIso handle flag seq (u16 (zlength sdu)) part) <$> l)).
Qed.
End Stream.
End Transfer.

(** ** Example *)

(** The stream of the example environment, on the example connection. *)
Definition example_payload (seq : Z) (fragment : list Z) : list Z := [seq; 0; 0; 0] ++ fragment.
Definition central_with_stream : LeController :=
  central <| properties_ ::= λ p, p <| iso_data_packet_length := 1021 |> |>.
(** An SDU of 2000 bytes, in packets of 1021 bytes or less, the first with a time stamp. *)
Definition example_cut : list (list Z) := [replicate 1000 1; replicate 900 2; replicate 100 3].
Definition example_packets : list (bool * list Z) :=
  [(true, [0; 0; 0; 0; 7; 0; 0; 0] ++ replicate 1000 1); (false, example_payload 7 (replicate 900 2));
   (false, example_payload 7 (replicate 100 3))].
Lemma iso_sdu_transfer_witness :
  let _ := example_environment in
  let k := example_link Role.CENTRAL address_b address_a in
  stream_ready 0xe00 0x200 0 0 4095 k central_with_stream ∧
  fst <$> sdu_fragments example_cut = [0; 1; 3] ∧
  send_all 0xe00 (zip (fst <$> sdu_fragments example_cut) example_packets) 0 central_with_stream =
    Ok ((), central_with_stream <| iso_sdu_ := [] |>,
        replicate 3 (acknowledgment 0xe00) ++ [delivered 0 0 7 k (concat example_cut)]).
Proof.
  intros env k.
  assert (Hs : stream_ready 0xe00 0x200 0 0 4095 k central_with_stream) by (split; vm_compute; reflexivity).
  split; [exact Hs|]. split; [vm_compute; reflexivity|].
  destruct (iso_sdu_transfer 0xe00 0x200 0 0 4095 7 0 k central_with_stream peripheral 0xe00 example_cut
              example_packets 1) as [E _].
  - discriminate.
  - exact Hs.
  - repeat constructor.
  - repeat constructor.
  - repeat constructor; vm_compute; discriminate.
  - vm_compute. reflexivity.
  - exact E.
Defined.
