(* ===== verification/LeReports.v ===== *)
(** * Advertising reports (le_controller.cc)

    What the controller does with the advertising and scan response packets it
    receives: as a scanner it reports them to the host and asks for scan responses,
    as an initiator it asks for a connection, and it synchronises with periodic
    advertising. *)

From S2P Require Import Prelude HciTypes Properties Address CsTypes Connections LeState LeLists LePhy LeScan LeConnect.

(** ** The own address *)

(** A scanner that runs has an address.  So has an initiator with the own address
    type Random; the commands do not make sure of it for the type Resolvable or
    Random. *)
Record own_addresses_wf (c : LeController) : Prop := {
  own_scanner : Scanner.scan_enable (scanner_ c) = true → random_address_missing c = false;
  own_initiator : Initiator.connect_enable (initiator_ c) = true →
    Initiator.own_address_type (initiator_ c) = OwnAddressType.RANDOM_DEVICE_ADDRESS →
    random_address_ c ≠ kEmpty;
}.

Section Reports.
Context {env : Environment}.

(** ** Shared parts of the handlers *)

(** [PUBLIC_DEVICE_ADDRESS] and so on, of [DirectAdvertisingAddressType]. *)
Definition NO_ADDRESS_PROVIDED : Z := 0xFF.
Definition RANDOM_DEVICE_ADDRESS : Z := 0x01.
(** [DirectAdvertisingEventType::ADV_DIRECT_IND] *)
Definition ADV_DIRECT_IND : Z := 0x01.
(** [CteType::NO_CONSTANT_TONE_EXTENSION] *)
Definition NO_CONSTANT_TONE_EXTENSION : Z := 0xFF.
(** In milliseconds. *)
Definition kScanRequestTimeout : Z := 200.

(** [ResolvePrivateAddress(address).value_or(address)] *)
Definition resolve_or_keep (address : AddressWithType) : M AddressWithType :=
  resolved ← pure (ResolvePrivateAddress address);
  mret (default address resolved).

(** The switch on the scanner filter policy. *)
Definition scanner_accepts (resolved_advertising_address : AddressWithType) (c : LeController) : bool :=
  match Scanner.scan_filter_policy (scanner_ c) with
  | LeScanningFilterPolicy.ACCEPT_ALL | LeScanningFilterPolicy.CHECK_INITIATORS_IDENTITY => true
  | LeScanningFilterPolicy.FILTER_ACCEPT_LIST_ONLY
  | LeScanningFilterPolicy.FILTER_ACCEPT_LIST_AND_INITIATORS_IDENTITY =>
      LeFilterAcceptListContainsAddress resolved_advertising_address c
  end.

(** Whether directed advertising is for this scanner. *)
Definition scanner_is_target (target_address resolved_advertising_address : AddressWithType)
    (c : LeController) : bool :=
  match Scanner.scan_filter_policy (scanner_ c) with
  | LeScanningFilterPolicy.ACCEPT_ALL | LeScanningFilterPolicy.FILTER_ACCEPT_LIST_ONLY =>
      ValidateTargetA target_address resolved_advertising_address c
  | LeScanningFilterPolicy.CHECK_INITIATORS_IDENTITY
  | LeScanningFilterPolicy.FILTER_ACCEPT_LIST_AND_INITIATORS_IDENTITY =>
      IsLocalPublicOrRandomAddress target_address c || IsRpa target_address
  end.

(** [should_send_directed_advertising_report], for directed advertising. *)
Definition target_unresolved (target_address resolved_advertising_address : AddressWithType)
    (c : LeController) : bool :=
  match Scanner.scan_filter_policy (scanner_ c) with
  | LeScanningFilterPolicy.ACCEPT_ALL | LeScanningFilterPolicy.FILTER_ACCEPT_LIST_ONLY => false
  | LeScanningFilterPolicy.CHECK_INITIATORS_IDENTITY
  | LeScanningFilterPolicy.FILTER_ACCEPT_LIST_AND_INITIATORS_IDENTITY =>
      IsRpa target_address && negb (ResolveTargetA target_address resolved_advertising_address c)
  end.

(** [should_send_advertising_report]: the packet is not a duplicate, and remembered. *)
Definition check_duplicate (packet : list Z) : M bool :=
  s ← gets scanner_;
  if bool_decide (Scanner.filter_duplicates s = FilterDuplicates.DISABLED) then mret true
  else if Scanner.IsPacketInHistory packet s then mret false
  else
    modify (set_scanner (Scanner.AddPacketToHistory packet));;
    mret true.

Definition active_phy (p : Scanner.PhyParameters) : bool :=
  Scanner.enabled p && bool_decide (Scanner.scan_type p = LeScanType.ACTIVE).
Definition active_scanning (s : Scanner) : bool :=
  active_phy (Scanner.le_1m_phy s) || active_phy (Scanner.le_coded_phy s).

Definition is_pending (address : AddressWithType) (s : Scanner) : bool :=
  existsb (λ '(a, _), bool_decide (a = address)) (Scanner.pending_scan_requests s).

(** The switch on the own address type, of the scanner and of the initiator. *)
Definition choose_address (own_address_type : OwnAddressType.t) (resolvable : option AddressWithType)
  : M AddressWithType :=
  c ← gets id;
  let public_address := MkAddressWithType (address_ c) AddressType.PUBLIC_DEVICE_ADDRESS in
  let random_address := MkAddressWithType (random_address_ c) AddressType.RANDOM_DEVICE_ADDRESS in
  let has_random := negb (bool_decide (random_address_ c = kEmpty)) in
  match own_address_type with
  | OwnAddressType.PUBLIC_DEVICE_ADDRESS => mret public_address
  | OwnAddressType.RANDOM_DEVICE_ADDRESS =>
      lift (assert has_random);;
      mret random_address
  | OwnAddressType.RESOLVABLE_OR_PUBLIC_ADDRESS => mret (default public_address resolvable)
  | OwnAddressType.RESOLVABLE_OR_RANDOM_ADDRESS =>
      lift (assert has_random);;
      mret (default random_address resolvable)
  end.

Definition send_scan_request (advertising_address resolved_advertising_address : AddressWithType)
    (connectable extended : bool) (primary_phy secondary_phy : LlPhyType.t) : M () :=
  resolvable_address ← pure (GenerateResolvablePrivateAddress resolved_advertising_address Local);
  s ← gets scanner_;
  scanning_address ← choose_address (Scanner.own_address_type s) resolvable_address;
  t ← now;
  modify (set_scanner (λ s, s <| Scanner.pending_scan_requests ::=
    cons (advertising_address,
          Scanner.MkScanRequest connectable extended primary_phy secondary_phy
            (t + milliseconds kScanRequestTimeout)) |>));;
  SendLeLinkLayerPacket
    (LeScan (GetAddress scanning_address) (GetAddress advertising_address)
       (GetAddressType scanning_address) (GetAddressType advertising_address)) 0.

(** The active scanning part: a scan request goes to scannable advertising that was
    reported, unless one is pending. *)
Definition request_scan (scannable_advertising should_send_advertising_report : bool)
    (advertising_address resolved_advertising_address : AddressWithType)
    (connectable extended : bool) (primary_phy secondary_phy : LlPhyType.t) : M () :=
  s ← gets scanner_;
  when (scannable_advertising && active_scanning s && negb (is_pending advertising_address s) &&
        should_send_advertising_report)
    (send_scan_request advertising_address resolved_advertising_address connectable extended
       primary_phy secondary_phy).

(** The loop that cuts the data of a report: the status and the data of each one.
    Every turn but the last consumes data, so that its length and one more turns are
    enough. *)
Fixpoint report_fragments (fuel max_fragment_size : nat) (advertising_data : list Z)
  : list (DataStatus.t * list Z) :=
  match fuel with
  | O => []
  | S fuel =>
      let rest := drop max_fragment_size advertising_data in
      (if bool_decide (length advertising_data ≤ max_fragment_size)%nat then DataStatus.COMPLETE
       else DataStatus.CONTINUING, take max_fragment_size advertising_data) ::
      (if bool_decide (0 < length rest)%nat then report_fragments fuel max_fragment_size rest else [])
  end.
Definition fragments (max_fragment_size : nat) (advertising_data : list Z) : list (DataStatus.t * list Z) :=
  report_fragments (length advertising_data + 1) max_fragment_size advertising_data.

(** [max_fragment_size] of the extended and of the periodic reports. *)
Definition max_extended_fragment : nat := 229.
Definition max_periodic_fragment : nat := 247.

Definition send_extended_reports (response : LeExtendedAdvertisingResponse) (advertising_data : list Z) : M () :=
  for_each (fragments max_extended_fragment advertising_data) (λ '(data_status, data),
    send_event_ (LeExtendedAdvertisingReport
      (response <| ext_data_status := data_status |> <| ext_advertising_data := data |>))).

(** ** Legacy advertising *)

Definition is_scannable (type : LegacyAdvertisingType.t) : bool :=
  match type with LegacyAdvertisingType.ADV_IND | LegacyAdvertisingType.ADV_SCAN_IND => true | _ => false end.
Definition is_directed (type : LegacyAdvertisingType.t) : bool :=
  match type with LegacyAdvertisingType.ADV_DIRECT_IND => true | _ => false end.
Definition is_connectable (type : LegacyAdvertisingType.t) : bool :=
  match type with LegacyAdvertisingType.ADV_IND | LegacyAdvertisingType.ADV_DIRECT_IND => true | _ => false end.
Definition event_type_of (type : LegacyAdvertisingType.t) : AdvertisingEventType.t :=
  match type with
  | LegacyAdvertisingType.ADV_IND => AdvertisingEventType.ADV_IND
  | LegacyAdvertisingType.ADV_DIRECT_IND => AdvertisingEventType.ADV_DIRECT_IND
  | LegacyAdvertisingType.ADV_SCAN_IND => AdvertisingEventType.ADV_SCAN_IND
  | LegacyAdvertisingType.ADV_NONCONN_IND => AdvertisingEventType.ADV_NONCONN_IND
  end.

(** [direct_address_type_] and [direct_address_] of an extended report. *)
Definition direct_address (directed : bool) (target_address : AddressWithType) : Z * Address :=
  if directed then (AddressType.to_Z (GetAddressType target_address), GetAddress target_address)
  else (NO_ADDRESS_PROVIDED, kEmpty).

Definition directed_response (resolved_advertising_address target_address : AddressWithType) (rssi : Z)
  : LeDirectedAdvertisingResponse :=
  MkLeDirectedAdvertisingResponse ADV_DIRECT_IND
    (AddressType.to_Z (GetAddressType resolved_advertising_address))
    (GetAddress resolved_advertising_address) RANDOM_DEVICE_ADDRESS (GetAddress target_address) rssi.
Definition legacy_response (type : LegacyAdvertisingType.t) (resolved_advertising_address : AddressWithType)
    (advertising_data : list Z) (rssi : Z) : LeAdvertisingResponse :=
  MkLeAdvertisingResponse (event_type_of type) (GetAddressType resolved_advertising_address)
    (GetAddress resolved_advertising_address) advertising_data rssi.
Definition legacy_extended_response (type : LegacyAdvertisingType.t)
    (resolved_advertising_address target_address : AddressWithType) (advertising_data : list Z) (rssi : Z)
  : LeExtendedAdvertisingResponse :=
  let '(direct_type, direct) := direct_address (is_directed type) target_address in
  MkLeExtendedAdvertisingResponse (is_connectable type) (is_scannable type) (is_directed type) false true
    DataStatus.COMPLETE (AddressType.to_Z (GetAddressType resolved_advertising_address))
    (GetAddress resolved_advertising_address) (PrimaryPhyType.to_Z PrimaryPhyType.LE_1M)
    (SecondaryPhyType.to_Z SecondaryPhyType.NO_PACKETS) 0xff 0x7f rssi 0 direct_type direct advertising_data.

Definition ScanIncomingLeLegacyAdvertisingPdu (advertising_address target_address : AddressWithType)
    (advertising_type : LegacyAdvertisingType.t) (advertising_data pdu_bytes : list Z) (rssi : Z) : M () :=
  c ← gets id;
  if negb (Scanner.IsEnabled (scanner_ c)) then mret () else
  resolved ← resolve_or_keep advertising_address;
  c ← gets id;
  if negb (scanner_accepts resolved c) then mret ()
  else if is_directed advertising_type && negb (scanner_is_target target_address resolved c) then mret ()
  else
    let directed_report := is_directed advertising_type && target_unresolved target_address resolved c in
    report ← check_duplicate pdu_bytes;
    event_when (legacy_advertising_in_use_ c && report && directed_report)
      SubeventCode.LE_DIRECTED_ADVERTISING_REPORT
      (LeDirectedAdvertisingReport (directed_response resolved target_address rssi));;
    event_when (legacy_advertising_in_use_ c && report && negb directed_report)
      SubeventCode.LE_ADVERTISING_REPORT
      (LeAdvertisingReport (legacy_response advertising_type resolved advertising_data rssi));;
    event_when (extended_advertising_in_use_ c && report)
      SubeventCode.LE_EXTENDED_ADVERTISING_REPORT
      (LeExtendedAdvertisingReport
         (legacy_extended_response advertising_type resolved target_address advertising_data rssi));;
    request_scan (is_scannable advertising_type) report advertising_address resolved
      (is_connectable advertising_type) false LlPhyType.LE_1M LlPhyType.NO_PACKETS.

(** ** Initiating *)

(** The switch on the initiator filter policy. *)
Definition initiator_accepts (resolved_advertising_address : AddressWithType) (c : LeController) : bool :=
  match Initiator.initiator_filter_policy (initiator_ c) with
  | InitiatorFilterPolicy.USE_PEER_ADDRESS =>
      bool_decide (resolved_advertising_address = Initiator.peer_address (initiator_ c))
  | InitiatorFilterPolicy.USE_FILTER_ACCEPT_LIST_WITH_PEER_ADDRESS =>
      LeFilterAcceptListContainsAddress resolved_advertising_address c
  | InitiatorFilterPolicy.USE_DECISION_PDUS
  | InitiatorFilterPolicy.USE_FILTER_ACCEPT_LIST_WITH_DECISION_PDUS => false
  end.

(** Whether directed advertising is for this initiator. *)
Definition initiator_is_target (target_address resolved_advertising_address : AddressWithType)
    (c : LeController) : bool :=
  ValidateTargetA target_address resolved_advertising_address c &&
  (IsRpa target_address ||
   match Initiator.own_address_type (initiator_ c) with
   | OwnAddressType.RESOLVABLE_OR_PUBLIC_ADDRESS | OwnAddressType.RESOLVABLE_OR_RANDOM_ADDRESS => false
   | _ => true
   end).

(** What the handlers of legacy and extended advertising share: the connect request. *)
Definition request_connection (advertising_address target_address : AddressWithType) (directed_advertising : bool) : M () :=
  resolved ← resolve_or_keep advertising_address;
  c ← gets id;
  if negb (initiator_accepts resolved c) then mret ()
  else if directed_advertising && negb (initiator_is_target target_address resolved c) then mret ()
  else
    resolvable_initiating_address ← pure (GenerateResolvablePrivateAddress resolved Local);
    initiating_address ← choose_address (Initiator.own_address_type (initiator_ c)) resolvable_initiating_address;
    modify (λ c, c <| initiator_ ::= λ i,
      i <| Initiator.pending_connect_request := Some advertising_address |>
        <| Initiator.initiating_address := GetAddress initiating_address |> |>);;
    let phy := Initiator.le_1m_phy (initiator_ c) in
    SendLeLinkLayerPacket
      (LeConnect (GetAddress initiating_address) (GetAddress advertising_address)
         (GetAddressType initiating_address) (GetAddressType advertising_address)
         (Initiator.connection_interval_max phy) (Initiator.max_latency phy)
         (Initiator.supervision_timeout phy)) 0.

Definition ConnectIncomingLeLegacyAdvertisingPdu (advertising_address target_address : AddressWithType)
    (advertising_type : LegacyAdvertisingType.t) : M () :=
  i ← gets initiator_;
  if negb (Initiator.IsEnabled i) || negb (is_connectable advertising_type) ||
     has_value (Initiator.pending_connect_request i)
  then mret ()
  else request_connection advertising_address target_address (is_directed advertising_type).

Definition IncomingLeLegacyAdvertisingPdu (advertising_address target_address : AddressWithType)
    (advertising_type : LegacyAdvertisingType.t) (advertising_data pdu_bytes : list Z) (rssi : Z) : M () :=
  ScanIncomingLeLegacyAdvertisingPdu advertising_address target_address advertising_type advertising_data
    pdu_bytes rssi;;
  ConnectIncomingLeLegacyAdvertisingPdu advertising_address target_address advertising_type.

(** ** Extended advertising *)

(** The fields of [LeExtendedAdvertisingPduView] that are read. *)
Record ExtendedPdu := MkExtendedPdu {
  pdu_connectable : bool;
  pdu_scannable : bool;
  pdu_directed : bool;
  pdu_sid : Z;
  pdu_tx_power : Z;
  pdu_primary_phy : option LlPhyType.t;
  pdu_secondary_phy : option LlPhyType.t;
  pdu_periodic_advertising_interval : Z;
  pdu_advertising_data : list Z;
}.

(** A PHY the sender never set has no meaning. *)
Definition read_phy (phy : option LlPhyType.t) : M LlPhyType.t :=
  lift (match phy with Some phy => Ok phy | None => Undef end).

(** The scanner is active on the primary PHY. *)
Definition scans_primary (primary_phy : LlPhyType.t) (s : Scanner) : bool :=
  match primary_phy with
  | LlPhyType.LE_1M => Scanner.enabled (Scanner.le_1m_phy s)
  | LlPhyType.LE_CODED_S8 => Scanner.enabled (Scanner.le_coded_phy s)
  | _ => true
  end.
(** The controller supports the secondary PHY. *)
Definition supports_secondary (secondary_phy : LlPhyType.t) (p : ControllerProperties) : bool :=
  match secondary_phy with
  | LlPhyType.LE_2M => SupportsLLFeature p LLFeaturesBits.LE_2M_PHY
  | LlPhyType.LE_CODED_S8 | LlPhyType.LE_CODED_S2 => SupportsLLFeature p LLFeaturesBits.LE_CODED_PHY
  | _ => true
  end.

(** The report, without the status and the data of its fragments. *)
Definition extended_response (pdu : ExtendedPdu) (primary_phy secondary_phy : LlPhyType.t)
    (resolved_advertising_address target_address : AddressWithType) (rssi : Z)
  : LeExtendedAdvertisingResponse :=
  let '(direct_type, direct) := direct_address (pdu_directed pdu) target_address in
  MkLeExtendedAdvertisingResponse (pdu_connectable pdu) (pdu_scannable pdu) (pdu_directed pdu) false false
    DataStatus.COMPLETE (AddressType.to_Z (GetAddressType resolved_advertising_address))
    (GetAddress resolved_advertising_address) (LlPhyType.to_Z primary_phy) (LlPhyType.to_Z secondary_phy)
    (pdu_sid pdu) (pdu_tx_power pdu) rssi (pdu_periodic_advertising_interval pdu) direct_type direct
    (pdu_advertising_data pdu).

Definition ScanIncomingLeExtendedAdvertisingPdu (advertising_address target_address : AddressWithType)
    (pdu : ExtendedPdu) (pdu_bytes : list Z) (rssi : Z) : M () :=
  c ← gets id;
  if negb (Scanner.IsEnabled (scanner_ c)) then mret () else
  if negb (extended_advertising_in_use_ c) then mret () else
  primary_phy ← read_phy (pdu_primary_phy pdu);
  secondary_phy ← read_phy (pdu_secondary_phy pdu);
  if negb (scans_primary primary_phy (scanner_ c)) || negb (supports_secondary secondary_phy (properties_ c))
  then mret () else
  resolved ← resolve_or_keep advertising_address;
  c ← gets id;
  if negb (scanner_accepts resolved c) then mret ()
  else if pdu_directed pdu && negb (scanner_is_target target_address resolved c) then mret ()
  else
    report ← check_duplicate pdu_bytes;
    unmasked ← lift (IsLeEventUnmasked SubeventCode.LE_EXTENDED_ADVERTISING_REPORT c);
    when ((report : bool) && unmasked)
      (send_extended_reports (extended_response pdu primary_phy secondary_phy resolved target_address rssi)
         (pdu_advertising_data pdu));;
    request_scan (pdu_scannable pdu) report advertising_address resolved (pdu_connectable pdu) true
      primary_phy secondary_phy.

Definition ConnectIncomingLeExtendedAdvertisingPdu (advertising_address target_address : AddressWithType)
    (pdu : ExtendedPdu) : M () :=
  c ← gets id;
  if negb (Initiator.IsEnabled (initiator_ c)) || negb (extended_advertising_in_use_ c) ||
     negb (pdu_connectable pdu) || has_value (Initiator.pending_connect_request (initiator_ c))
  then mret ()
  else request_connection advertising_address target_address (pdu_directed pdu).

Definition IncomingLeExtendedAdvertisingPdu (advertising_address target_address : AddressWithType)
    (pdu : ExtendedPdu) (pdu_bytes : list Z) (rssi : Z) : M () :=
  ScanIncomingLeExtendedAdvertisingPdu advertising_address target_address pdu pdu_bytes rssi;;
  ConnectIncomingLeExtendedAdvertisingPdu advertising_address target_address pdu.

(** ** Scan responses *)

Definition scan_response_extended (scan_request : Scanner.ScanRequest)
    (resolved_advertising_address : AddressWithType) (rssi : Z) : LeExtendedAdvertisingResponse :=
  MkLeExtendedAdvertisingResponse (Scanner.connectable scan_request) true false true
    (negb (Scanner.extended scan_request)) DataStatus.COMPLETE
    (AddressType.to_Z (GetAddressType resolved_advertising_address)) (GetAddress resolved_advertising_address)
    (LlPhyType.to_Z (Scanner.primary_phy scan_request)) (LlPhyType.to_Z (Scanner.secondary_phy scan_request))
    0xFF 0x7F rssi 0 NO_ADDRESS_PROVIDED kEmpty [].

Definition find_request (address : AddressWithType) (s : Scanner) : option Scanner.ScanRequest :=
  snd <$> find_first (λ '(a, _), bool_decide (a = address)) (Scanner.pending_scan_requests s).
Definition erase_request (address : AddressWithType) (s : Scanner) : Scanner :=
  s <| Scanner.pending_scan_requests ::= filter (λ '(a, _), a ≠ address) |>.

Definition IncomingLeScanResponsePacket (advertising_address : AddressWithType)
    (scan_response_data packet_bytes : list Z) (rssi : Z) : M () :=
  c ← gets id;
  if negb (Scanner.IsEnabled (scanner_ c)) then mret () else
  match find_request advertising_address (scanner_ c) with
  | None => mret ()
  | Some scan_request =>
      resolved ← resolve_or_keep advertising_address;
      modify (set_scanner (erase_request advertising_address));;
      report ← check_duplicate packet_bytes;
      c ← gets id;
      event_when (legacy_advertising_in_use_ c && report) SubeventCode.LE_ADVERTISING_REPORT
        (LeAdvertisingReport
           (MkLeAdvertisingResponse AdvertisingEventType.SCAN_RESPONSE (GetAddressType resolved)
              (GetAddress resolved) scan_response_data rssi));;
      unmasked ← lift (IsLeEventUnmasked SubeventCode.LE_EXTENDED_ADVERTISING_REPORT c);
      when (extended_advertising_in_use_ c && report && unmasked)
        (send_extended_reports (scan_response_extended scan_request resolved rssi) scan_response_data)
  end.

(** ** Periodic advertising *)

Definition advertiser_address_type_of (type : AddressType.t) : AdvertiserAddressType.t :=
  match type with
  | AddressType.PUBLIC_DEVICE_ADDRESS | AddressType.PUBLIC_IDENTITY_ADDRESS =>
      AdvertiserAddressType.PUBLIC_DEVICE_OR_IDENTITY_ADDRESS
  | AddressType.RANDOM_DEVICE_ADDRESS | AddressType.RANDOM_IDENTITY_ADDRESS =>
      AdvertiserAddressType.RANDOM_DEVICE_OR_IDENTITY_ADDRESS
  end.

Definition matches_synchronizing (type : AdvertiserAddressType.t) (address : Address) (advertising_sid : Z)
    (c : LeController) : bool :=
  match synchronizing_ c with
  | None => false
  | Some s =>
      if use_periodic_advertiser_list_ (Synchronizing.options s)
      then LePeriodicAdvertiserListContainsDevice type address advertising_sid c
      else bool_decide (Synchronizing.advertiser_address_type s = type) &&
           bool_decide (Synchronizing.advertiser_address s = address) &&
           (Synchronizing.advertising_sid s =? advertising_sid)
  end.
Definition matches_sync (type : AdvertiserAddressType.t) (address : Address) (advertising_sid : Z)
    (sync : Synchronized) : bool :=
  bool_decide (Synchronized.advertiser_address_type sync = type) &&
  bool_decide (Synchronized.advertiser_address sync = address) &&
  (Synchronized.advertising_sid sync =? advertising_sid).

(** The loop that looks for an unused handle: as many turns as there are
    synchronisations, and one more. *)
Fixpoint unused_sync_handle (fuel : nat) (sync_handle : Z) (synchronized : gmap Z Synchronized) : outcome Z :=
  match fuel with
  | O => Hang
  | S fuel =>
      if has_value (synchronized !! sync_handle)
      then unused_sync_handle fuel (u16 (sync_handle + 1)) synchronized
      else Ok sync_handle
  end.

(** The matching advertising is what [LE_Periodic_Advertising_Create_Sync] waits for. *)
Definition establish_sync (s : Synchronizing) (type : AdvertiserAddressType.t) (resolved : AddressWithType)
    (advertising_sid advertising_interval : Z) : M () :=
  c ← gets id;
  sync_handle ← lift (unused_sync_handle (S (size (synchronized_ c))) 0 (synchronized_ c));
  event_when true SubeventCode.LE_PERIODIC_ADVERTISING_SYNC_ESTABLISHED_V1
    (LePeriodicAdvertisingSyncEstablishedV1 ErrorCode.SUCCESS sync_handle advertising_sid
       (GetAddressType resolved) (GetAddress resolved) SecondaryPhyType.LE_1M advertising_interval
       ClockAccuracy.PPM_500);;
  t ← now;
  modify (λ c, c <| synchronized_ ::= <[sync_handle :=
                      Synchronized.MkSynchronized type (GetAddress resolved) advertising_sid sync_handle
                        (Synchronizing.sync_timeout s) (t + Synchronizing.sync_timeout s)]> |>
                 <| synchronizing_ := None |>).

(** A synchronisation that matches reports the data and is refreshed. *)
Definition report_sync (handle : Z) (tx_power rssi : Z) (advertising_data : list Z) (sync : Synchronized) : M () :=
  c ← gets id;
  unmasked ← lift (IsLeEventUnmasked SubeventCode.LE_PERIODIC_ADVERTISING_REPORT_V1 c);
  when unmasked
    (for_each (fragments max_periodic_fragment advertising_data) (λ '(data_status, data),
       send_event_ (LePeriodicAdvertisingReportV1 (Synchronized.sync_handle sync) tx_power rssi
                      NO_CONSTANT_TONE_EXTENSION data_status data)));;
  t ← now;
  modify (λ c, c <| synchronized_ ::= alter (λ sync : Synchronized,
    Synchronized.MkSynchronized (Synchronized.advertiser_address_type sync)
      (Synchronized.advertiser_address sync) (Synchronized.advertising_sid sync)
      (Synchronized.sync_handle sync) (Synchronized.sync_timeout sync)
      (t + Synchronized.sync_timeout sync)) handle |>).

Definition report_syncs (type : AdvertiserAddressType.t) (address : Address)
    (advertising_sid tx_power rssi : Z) (advertising_data : list Z) : M () :=
  synchronized ← gets synchronized_;
  for_each (iterate synchronized) (λ '(handle, sync),
    when (matches_sync type address advertising_sid sync)
      (report_sync handle tx_power rssi advertising_data sync)).

Definition IncomingLePeriodicAdvertisingPdu (advertiser_address : AddressWithType)
    (advertising_sid tx_power advertising_interval : Z) (advertising_data : list Z) (rssi : Z) : M () :=
  c ← gets id;
  if negb (Scanner.IsEnabled (scanner_ c)) then mret () else
  if negb (extended_advertising_in_use_ c) then mret () else
  resolved ← resolve_or_keep advertiser_address;
  let type := advertiser_address_type_of (GetAddressType resolved) in
  c ← gets id;
  match synchronizing_ c with
  | Some s =>
      if matches_synchronizing type (GetAddress resolved) advertising_sid c
      then establish_sync s type resolved advertising_sid advertising_interval
      else report_syncs type (GetAddress resolved) advertising_sid tx_power rssi advertising_data
  | None => report_syncs type (GetAddress resolved) advertising_sid tx_power rssi advertising_data
  end.
End Reports.
