(* ===== verification/LeLink.v ===== *)
(** * Connections of the LE controller (le_controller.cc)

    How a connection comes to be, on both ends; the procedures that run on it
    (parameter update, encryption, features, version, ACL data, keep alive); how
    it ends; scan requests; and the reset of the controller. *)

From S2P Require Import Prelude HciTypes Properties Address Connections LeState LeLists LeAdvertiser LePhy.
From S2P Require Import LeScan LeConnect CsTypes LeSubrate LeSounding LeSoundingLink LeIso LeReports.

Section Links.
Context {env : Environment}.

(** [if (IsEventUnmasked(code)) m]. *)
Definition if_unmasked (code : EventCode.t) (yes no : M ()) : M () :=
  c ← gets id;
  unmasked ← lift (IsEventUnmasked code c);
  if (unmasked : bool) then yes else no.
Definition send_if_unmasked (code : EventCode.t) (event : HciEvent) : M () :=
  if_unmasked code (send_event_ event) (mret ()).

(** ** The end of a connection *)

Definition SendDisconnectionCompleteEvent (handle reason : Z) : M () :=
  if_unmasked EventCode.DISCONNECTION_COMPLETE
    (output (ScheduleTask 0
       (SendEventLater (DisconnectionComplete ErrorCode.SUCCESS handle reason))))
    (mret ()).

(** [connections_.Disconnect(handle, ...)], the flag it returns. *)
Definition disconnect_handle (handle : Z) : M bool :=
  h ← gets connections_;
  '(found, h, stopped) ← lift (Connections.Disconnect handle h);
  modify (λ c, c <| connections_ := h |>);;
  for_each stopped (λ task_id, output (CancelTask task_id));;
  mret found.

Definition Disconnect (handle : Z) (host_reason controller_reason : ErrorCode.t) : M ErrorCode.t :=
  with_connection handle (λ connection,
    SendLeLinkLayerPacket
      (DisconnectPacket (own connection) (peer connection) (ErrorCode.to_Z host_reason)) 0;;
    disconnect_handle handle;;
    SendDisconnectionCompleteEvent handle (ErrorCode.to_Z controller_reason);;
    accepted ← link_layer (link_layer_remove_link handle (ErrorCode.to_Z controller_reason));
    lift (assert accepted);;
    mret ErrorCode.SUCCESS).

Definition IncomingLeDisconnectPacket (handle reason : Z) : M () :=
  connection ← le_connection handle;
  found ← disconnect_handle (LeAclConnection.handle connection);
  lift (assert found);;
  accepted ← link_layer (link_layer_remove_link (LeAclConnection.handle connection) reason);
  lift (assert accepted);;
  SendDisconnectionCompleteEvent (LeAclConnection.handle connection) reason.

(** [duration_cast<milliseconds>] of a number of nanoseconds. *)
Definition to_milliseconds (ns : Z) : Z := Z.quot ns 1000000.

Definition CheckExpiringConnection (handle : Z) : M () :=
  c ← gets id;
  if negb (HasLeAclHandle handle (connections_ c)) then mret ()
  else
    connection ← le_connection handle;
    t ← now;
    if LeAclConnection.HasExpired t connection then
      Disconnect handle ErrorCode.CONNECTION_TIMEOUT ErrorCode.CONNECTION_TIMEOUT;;
      mret ()
    else if LeAclConnection.IsNearExpiring t connection then
      SendLeLinkLayerPacket (PingRequest (own connection) (peer connection)) 0;;
      output (ScheduleTask (to_milliseconds (LeAclConnection.TimeUntilExpired t connection))
                (CheckExpiringConnectionLater handle))
    else
      output (ScheduleTask (to_milliseconds (LeAclConnection.TimeUntilNearExpiring t connection))
                (CheckExpiringConnectionLater handle)).

(** ** The start of a connection *)

Definition HandleLeConnection (address resolved_address own_address : AddressWithType)
    (role : Role.t) (connection_interval connection_latency supervision_timeout : Z)
    (send_le_channel_selection_algorithm_event : bool) : M Z :=
  t ← now;
  c ← gets id;
  '(handle, h) ← lift (CreateLeConnection t address resolved_address own_address role
    (MkLeAclConnectionParameters connection_interval 1 0 connection_latency supervision_timeout)
    (default_subrate_parameters_ c) (connections_ c));
  modify (λ c, c <| connections_ := h |>);;
  CheckExpiringConnection handle;;
  c ← gets id;
  enhanced ← lift (IsLeEventUnmasked SubeventCode.LE_ENHANCED_CONNECTION_COMPLETE_V1 c);
  legacy ← lift (IsLeEventUnmasked SubeventCode.LE_CONNECTION_COMPLETE c);
  (if (enhanced : bool) then
     let resolved := bool_decide (resolved_address ≠ empty_address) in
     let peer_resolvable_private_address := if resolved then GetAddress address else kEmpty in
     let peer_address_type :=
       if resolved then GetAddressType resolved_address else GetAddressType address in
     let connection_address :=
       if resolved then GetAddress resolved_address else GetAddress address in
     let local_resolved_address := GetAddress own_address in
     let local_resolved_address :=
       if bool_decide (local_resolved_address = address_ c) ||
          bool_decide (local_resolved_address = random_address_ c)
       then kEmpty else local_resolved_address in
     send_event_ (LeEnhancedConnectionCompleteV1 ErrorCode.SUCCESS handle role peer_address_type
       connection_address local_resolved_address peer_resolvable_private_address
       connection_interval connection_latency supervision_timeout ClockAccuracy.PPM_500)
   else when legacy
     (send_event_ (LeConnectionComplete ErrorCode.SUCCESS handle role (GetAddressType address)
        (GetAddress address) connection_interval connection_latency supervision_timeout
        ClockAccuracy.PPM_500)));;
  accepted ← link_layer (link_layer_add_link handle (GetAddress address) (Role.to_Z role));
  lift (assert accepted);;
  event_when send_le_channel_selection_algorithm_event SubeventCode.LE_CHANNEL_SELECTION_ALGORITHM
    (LeChannelSelectionAlgorithm handle 0);;
  modify (λ c,
    if bool_decide (GetAddress own_address = Initiator.initiating_address (initiator_ c))
    then c <| initiator_ ::= λ i, i <| Initiator.initiating_address := kEmpty |> |> else c);;
  mret handle.

(** A filter policy lets a device connect, or scan. *)
Definition listed_to_connect (policy : AdvertisingFilterPolicy.t) : bool :=
  match policy with
  | AdvertisingFilterPolicy.ALL_DEVICES | AdvertisingFilterPolicy.LISTED_SCAN => false
  | AdvertisingFilterPolicy.LISTED_CONNECT | AdvertisingFilterPolicy.LISTED_SCAN_AND_CONNECT => true
  end.
Definition listed_to_scan (policy : AdvertisingFilterPolicy.t) : bool :=
  match policy with
  | AdvertisingFilterPolicy.ALL_DEVICES | AdvertisingFilterPolicy.LISTED_CONNECT => false
  | AdvertisingFilterPolicy.LISTED_SCAN | AdvertisingFilterPolicy.LISTED_SCAN_AND_CONNECT => true
  end.

(** The CONNECT_IND PDU. *)
Record ConnectInd := MkConnectInd {
  ci_initiating_address : AddressWithType;
  ci_advertising_address : AddressWithType;
  ci_interval : Z;
  ci_latency : Z;
  ci_timeout : Z;
}.

(** The tests on the initiator that both kinds of advertiser make. *)
Definition accepts_initiator (directed : bool) (peer_address : Address)
    (peer_address_type : PeerAddressType.t) (policy : AdvertisingFilterPolicy.t)
    (resolved_initiating_address : AddressWithType) (c : LeController) : bool :=
  if directed
  then bool_decide (resolved_initiating_address = PeerDeviceAddress peer_address peer_address_type)
  else if listed_to_connect policy
  then LeFilterAcceptListContainsAddress resolved_initiating_address c
  else true.

(** Creating the connection and answering the initiator. *)
Definition accept_connection (connect_ind : ConnectInd) (resolved_initiating_address : AddressWithType)
  : M Z :=
  let initiating_address := ci_initiating_address connect_ind in
  let advertising_address := ci_advertising_address connect_ind in
  handle ← HandleLeConnection initiating_address
    (if bool_decide (resolved_initiating_address ≠ initiating_address)
     then resolved_initiating_address else empty_address)
    advertising_address Role.PERIPHERAL (ci_interval connect_ind) (ci_latency connect_ind)
    (ci_timeout connect_ind) false;
  SendLeLinkLayerPacket
    (LeConnectComplete (GetAddress advertising_address) (GetAddress initiating_address)
       (GetAddressType initiating_address) (GetAddressType advertising_address)
       (ci_interval connect_ind) (ci_latency connect_ind) (ci_timeout connect_ind)) 0;;
  mret handle.

Definition ProcessIncomingLegacyConnectRequest (connect_ind : ConnectInd) : M bool :=
  a ← gets legacy_advertiser_;
  if negb (LegacyAdvertiser.IsEnabled a) then mret false
  else if negb (LegacyAdvertiser.IsConnectable a) then mret false
  else if bool_decide (LegacyAdvertiser.advertising_address a ≠ ci_advertising_address connect_ind)
  then mret false
  else
    resolved ← pure (ResolvePrivateAddress (ci_initiating_address connect_ind));
    let resolved_initiating_address := default (ci_initiating_address connect_ind) resolved in
    c ← gets id;
    if negb (accepts_initiator (LegacyAdvertiser.IsDirected a) (LegacyAdvertiser.peer_address a)
               (LegacyAdvertiser.peer_address_type a) (LegacyAdvertiser.advertising_filter_policy a)
               resolved_initiating_address c)
    then mret false
    else
      accept_connection connect_ind resolved_initiating_address;;
      modify (λ c, c <| legacy_advertiser_ ::= LegacyAdvertiser.Disable |>);;
      mret true.

Definition ProcessIncomingExtendedConnectRequest (advertising_handle : Z) (connect_ind : ConnectInd)
  : M bool :=
  a ← get_advertiser advertising_handle;
  if negb (ExtendedAdvertiser.IsEnabled a) then mret false
  else if negb (ExtendedAdvertiser.IsConnectable a) then mret false
  else if bool_decide (ExtendedAdvertiser.advertising_address a ≠ ci_advertising_address connect_ind)
  then mret false
  else
    resolved ← pure (ResolvePrivateAddress (ci_initiating_address connect_ind));
    let resolved_initiating_address := default (ci_initiating_address connect_ind) resolved in
    c ← gets id;
    if negb (accepts_initiator (ExtendedAdvertiser.IsDirected a) (ExtendedAdvertiser.peer_address a)
               (ExtendedAdvertiser.peer_address_type a)
               (ExtendedAdvertiser.advertising_filter_policy a) resolved_initiating_address c)
    then mret false
    else
      update_advertiser advertising_handle ExtendedAdvertiser.Disable;;
      connection_handle ← accept_connection connect_ind resolved_initiating_address;
      event_when true SubeventCode.LE_ADVERTISING_SET_TERMINATED
        (LeAdvertisingSetTerminated ErrorCode.SUCCESS (ExtendedAdvertiser.advertising_handle a)
           connection_handle (ExtendedAdvertiser.num_completed_extended_advertising_events a));;
      mret true.

Definition IncomingLeConnectPacket (connect_ind : ConnectInd) : M () :=
  accepted ← ProcessIncomingLegacyConnectRequest connect_ind;
  if (accepted : bool) then mret ()
  else
    advertisers ← gets extended_advertisers_;
    for_each_or_return (fst <$> iterate advertisers)
      (λ handle,
         accepted ← ProcessIncomingExtendedConnectRequest handle connect_ind;
         mret (if (accepted : bool) then Some () else None));;
    mret ().

Definition IncomingLeConnectCompletePacket (complete : ConnectInd) : M () :=
  i ← gets initiator_;
  let initiating_address := ci_initiating_address complete in
  let advertising_address := ci_advertising_address complete in
  if bool_decide (Initiator.pending_connect_request i ≠ Some advertising_address) &&
     bool_decide (Initiator.initiating_address i ≠ GetAddress initiating_address)
  then mret ()
  else
    resolved ← (if IsRpa advertising_address then pure (ResolvePrivateAddress advertising_address)
                else mret None);
    e ← gets extended_advertising_in_use_;
    HandleLeConnection advertising_address (default empty_address resolved) initiating_address
      Role.CENTRAL (ci_interval complete) (ci_latency complete) (ci_timeout complete) e;;
    modify (λ c, c <| initiator_ ::= λ i,
      Initiator.Disable (i <| Initiator.pending_connect_request := None |>) |>).

(** ** Scan requests *)

(** The advertiser answers the scanner, if the filter policy lets it. *)
Definition ProcessIncomingLegacyScanRequest (scanning_address resolved_scanning_address
    advertising_address : AddressWithType) : M () :=
  c ← gets id;
  let a := legacy_advertiser_ c in
  if negb (LegacyAdvertiser.IsEnabled a) then mret ()
  else if negb (LegacyAdvertiser.IsScannable a) then mret ()
  else if bool_decide (advertising_address ≠ LegacyAdvertiser.advertising_address a) then mret ()
  else if listed_to_scan (LegacyAdvertiser.advertising_filter_policy a) &&
          negb (LeFilterAcceptListContainsAddress resolved_scanning_address c)
  then mret ()
  else
    SendLeLinkLayerPacket
      (LeScanResponse (GetAddress advertising_address) (GetAddress scanning_address)
         (GetAddressType advertising_address) (LegacyAdvertiser.scan_response_data a))
      (le_advertising_physical_channel_tx_power (properties_ c)).

Definition ProcessIncomingExtendedScanRequest (a : ExtendedAdvertiser)
    (scanning_address resolved_scanning_address advertising_address : AddressWithType) : M () :=
  c ← gets id;
  if negb (ExtendedAdvertiser.IsEnabled a) then mret ()
  else if negb (ExtendedAdvertiser.IsScannable a) then mret ()
  else if bool_decide (advertising_address ≠ ExtendedAdvertiser.advertising_address a) then mret ()
  else if listed_to_scan (ExtendedAdvertiser.advertising_filter_policy a) &&
          negb (LeFilterAcceptListContainsAddress resolved_scanning_address c)
  then mret ()
  else if ExtendedAdvertiser.IsDirected a &&
          bool_decide (ExtendedAdvertiser.target_address a ≠ resolved_scanning_address)
  then mret ()
  else
    SendLeLinkLayerPacket
      (LeScanResponse (GetAddress advertising_address) (GetAddress scanning_address)
         (GetAddressType advertising_address) (ExtendedAdvertiser.scan_response_data a))
      (ExtendedAdvertiser.advertising_tx_power a).

Definition IncomingLeScanPacket (scanning_address advertising_address : AddressWithType) : M () :=
  resolved ← pure (ResolvePrivateAddress scanning_address);
  let resolved_scanning_address := default scanning_address resolved in
  ProcessIncomingLegacyScanRequest scanning_address resolved_scanning_address advertising_address;;
  advertisers ← gets extended_advertisers_;
  for_each (iterate advertisers) (λ '(_, advertiser),
    ProcessIncomingExtendedScanRequest advertiser scanning_address resolved_scanning_address
      advertising_address).

(** ** Connection parameters *)

Definition set_parameters (interval latency timeout : Z) (k : LeAclConnection) : LeAclConnection :=
  k <| LeAclConnection.parameters := MkLeAclConnectionParameters interval 1 0 latency timeout |>.

Definition LeConnectionUpdate (handle interval_min interval_max latency supervision_timeout : Z)
  : M ErrorCode.t :=
  with_connection handle (λ connection,
    (if bool_decide (LeAclConnection.role connection = Role.CENTRAL) then
       SendLeLinkLayerPacket
         (LeConnectionParameterUpdate (own connection) (peer connection)
            (ErrorCode.to_Z ErrorCode.SUCCESS) interval_max latency supervision_timeout) 0;;
       event_when true SubeventCode.LE_CONNECTION_UPDATE_COMPLETE
         (LeConnectionUpdateComplete (ErrorCode.to_Z ErrorCode.SUCCESS) handle interval_max latency
            supervision_timeout)
     else
       SendLeLinkLayerPacket
         (LeConnectionParameterRequest (own connection) (peer connection) interval_min interval_max
            latency supervision_timeout) 0);;
    mret ErrorCode.SUCCESS).

(** The parameters of a reply are invalid.  The last test is reached when the
    others fail, so its product does not overflow an [int]. *)
Definition invalid_reply (interval_min interval_max supervision_timeout latency : Z) : bool :=
  (interval_min <? 6) || (0xC80 <? interval_max) || (interval_max <? interval_min) ||
  (interval_max <? interval_min) || (0x1F3 <? latency) || (supervision_timeout <? 0xA) ||
  (0xC80 <? supervision_timeout) ||
  (supervision_timeout <=? Z.quot (Z.quot ((1 + latency) * interval_max * 10) 4) 10).

Definition LeRemoteConnectionParameterRequestReply (connection_handle interval_min interval_max
    supervision_timeout latency minimum_ce_length maximum_ce_length : Z) : M ErrorCode.t :=
  with_connection connection_handle (λ connection,
    if invalid_reply interval_min interval_max supervision_timeout latency
    then mret ErrorCode.INVALID_HCI_COMMAND_PARAMETERS
    else if maximum_ce_length <? minimum_ce_length
    then mret ErrorCode.INVALID_HCI_COMMAND_PARAMETERS
    else
      update_le_connection connection_handle
        (set_parameters interval_min latency supervision_timeout);;
      SendLeLinkLayerPacket
        (LeConnectionParameterUpdate (own connection) (peer connection)
           (ErrorCode.to_Z ErrorCode.SUCCESS) interval_min latency supervision_timeout) 0;;
      event_when true SubeventCode.LE_CONNECTION_UPDATE_COMPLETE
        (LeConnectionUpdateComplete (ErrorCode.to_Z ErrorCode.SUCCESS)
           (LeAclConnection.handle connection) interval_min latency supervision_timeout);;
      mret ErrorCode.SUCCESS).

Definition LeRemoteConnectionParameterRequestNegativeReply (connection_handle : Z)
    (reason : ErrorCode.t) : M ErrorCode.t :=
  with_connection connection_handle (λ connection,
    SendLeLinkLayerPacket
      (LeConnectionParameterUpdate (own connection) (peer connection) (ErrorCode.to_Z reason) 0 0 0) 0;;
    mret ErrorCode.SUCCESS).

Definition IncomingLeConnectionParameterRequest (handle : Z) (source destination : Address)
    (interval_min interval_max latency timeout : Z) : M () :=
  connection ← le_connection handle;
  c ← gets id;
  unmasked ← lift (IsLeEventUnmasked SubeventCode.LE_REMOTE_CONNECTION_PARAMETER_REQUEST c);
  if (unmasked : bool) then
    send_event_ (LeRemoteConnectionParameterRequest (LeAclConnection.handle connection)
                   interval_min interval_max latency timeout)
  else
    SendLeLinkLayerPacket
      (LeConnectionParameterUpdate destination source
         (ErrorCode.to_Z ErrorCode.UNSUPPORTED_REMOTE_OR_LMP_FEATURE) 0 0 0) 0.

Definition IncomingLeConnectionParameterUpdate (handle status interval latency timeout : Z) : M () :=
  connection ← le_connection handle;
  when (status =? ErrorCode.to_Z ErrorCode.SUCCESS)
    (update_le_connection handle (set_parameters interval latency timeout));;
  event_when true SubeventCode.LE_CONNECTION_UPDATE_COMPLETE
    (LeConnectionUpdateComplete status (LeAclConnection.handle connection) interval latency timeout).

(** ** Encryption *)

Definition set_ltk (ltk : list Z) (k : LeAclConnection) : LeAclConnection :=
  k <| LeAclConnection.ltk := Some ltk |>.

Definition HandleLeEnableEncryption (handle : Z) (rand : list Z) (ediv : Z) (ltk : list Z) : M () :=
  c ← gets id;
  if negb (HasLeAclHandle handle (connections_ c)) then mret ()
  else
    connection ← le_connection handle;
    update_le_connection handle (set_ltk ltk);;
    SendLeLinkLayerPacket
      (LeEncryptConnection (own connection) (peer connection) rand ediv ltk) 0.

Definition LeEnableEncryption (handle : Z) (rand : list Z) (ediv : Z) (ltk : list Z) : M ErrorCode.t :=
  c ← gets id;
  if negb (HasLeAclHandle handle (connections_ c)) then mret ErrorCode.UNKNOWN_CONNECTION
  else
    output (ScheduleTask 0 (HandleLeEnableEncryptionLater handle rand ediv ltk));;
    mret ErrorCode.SUCCESS.

Definition LeLongTermKeyRequestReply (handle : Z) (ltk : list Z) : M ErrorCode.t :=
  with_connection handle (λ connection,
    (if LeAclConnection.IsEncrypted connection then
       send_if_unmasked EventCode.ENCRYPTION_KEY_REFRESH_COMPLETE
         (EncryptionKeyRefreshComplete (ErrorCode.to_Z ErrorCode.SUCCESS) handle)
     else
       update_le_connection handle LeAclConnection.Encrypt;;
       if_unmasked EventCode.ENCRYPTION_CHANGE_V2
         (send_event_ (EncryptionChangeV2 ErrorCode.SUCCESS handle true 0x10))
         (send_if_unmasked EventCode.ENCRYPTION_CHANGE
            (EncryptionChange (ErrorCode.to_Z ErrorCode.SUCCESS) handle true)));;
    SendLeLinkLayerPacket
      (LeEncryptConnectionResponse (own connection) (peer connection)
         (ErrorCode.to_Z ErrorCode.SUCCESS) (replicate 8 0) 0 ltk) 0;;
    mret ErrorCode.SUCCESS).

Definition LeLongTermKeyRequestNegativeReply (handle : Z) : M ErrorCode.t :=
  with_connection handle (λ connection,
    SendLeLinkLayerPacket
      (LeEncryptConnectionResponse (own connection) (peer connection)
         (ErrorCode.to_Z ErrorCode.PIN_OR_KEY_MISSING) (replicate 8 0) 0 (replicate 16 0)) 0;;
    mret ErrorCode.SUCCESS).

Definition IncomingLeEncryptConnection (handle : Z) (rand : list Z) (ediv : Z) (ltk : list Z) : M () :=
  connection ← le_connection handle;
  update_le_connection handle (set_ltk ltk);;
  send_if_unmasked EventCode.LE_META_EVENT
    (LeLongTermKeyRequest (LeAclConnection.handle connection) rand ediv).

Definition IncomingLeEncryptConnectionResponse (handle response_status : Z) (ltk : list Z) : M () :=
  connection ← le_connection handle;
  let '(status, success) :=
    if negb (response_status =? 0) then (response_status, false)
    else match LeAclConnection.ltk connection with
         | Some expected =>
             if bool_decide (ltk ≠ expected)
             then (ErrorCode.to_Z ErrorCode.AUTHENTICATION_FAILURE, false)
             else (ErrorCode.to_Z ErrorCode.SUCCESS, true)
         | None => (ErrorCode.to_Z ErrorCode.SUCCESS, true)
         end in
  if LeAclConnection.IsEncrypted connection then
    send_if_unmasked EventCode.ENCRYPTION_KEY_REFRESH_COMPLETE
      (EncryptionKeyRefreshComplete status (LeAclConnection.handle connection))
  else if success : bool then
    update_le_connection handle LeAclConnection.Encrypt;;
    send_if_unmasked EventCode.ENCRYPTION_CHANGE
      (EncryptionChange status (LeAclConnection.handle connection) true)
  else
    send_if_unmasked EventCode.ENCRYPTION_CHANGE
      (EncryptionChange status (LeAclConnection.handle connection) false).

(** ** Features, version, data and keep alive *)

Definition LeReadRemoteFeaturesPage0 (connection_handle : Z) : M ErrorCode.t :=
  with_connection connection_handle (λ connection,
    SendLeLinkLayerPacket (LeReadRemoteFeatures (own connection) (peer connection)) 0;;
    mret ErrorCode.SUCCESS).

Definition IncomingLeReadRemoteFeatures (source destination : Address) : M () :=
  c ← gets id;
  SendLeLinkLayerPacket
    (LeReadRemoteFeaturesResponse destination source (GetLeSupportedFeatures c)
       (ErrorCode.to_Z ErrorCode.SUCCESS)) 0.

Definition IncomingLeReadRemoteFeaturesResponse (handle features status : Z) : M () :=
  connection ← le_connection handle;
  when (status =? ErrorCode.to_Z ErrorCode.SUCCESS)
    (update_le_connection handle (λ k,
       k <| LeAclConnection.remote_supported_features := Some features |>));;
  send_if_unmasked EventCode.LE_META_EVENT
    (LeReadRemoteFeaturesPage0Complete status (LeAclConnection.handle connection) features).

Definition ReadRemoteVersionInformation (connection_handle : Z) : M ErrorCode.t :=
  with_connection connection_handle (λ connection,
    SendLeLinkLayerPacket (ReadRemoteVersionInformationPacket (own connection) (peer connection)) 0;;
    mret ErrorCode.SUCCESS).

Definition IncomingReadRemoteVersion (source destination : Address) : M () :=
  p ← gets properties_;
  SendLeLinkLayerPacket
    (ReadRemoteVersionInformationResponse destination source (u8 (lmp_version p))
       (u16 (lmp_subversion p)) (company_identifier p)) 0.

Definition IncomingReadRemoteVersionResponse (source destination : Address)
    (version sub_version manufacturer_name : Z) : M () :=
  h ← gets connections_;
  match GetLeAclConnectionHandle destination source h with
  | None => mret ()
  | Some handle =>
      send_if_unmasked EventCode.READ_REMOTE_VERSION_INFORMATION_COMPLETE
        (ReadRemoteVersionInformationComplete ErrorCode.SUCCESS handle version manufacturer_name
           sub_version)
  end.

Definition IncomingPingRequest (source destination : Address) : M () :=
  SendLeLinkLayerPacket (PingResponse destination source) 0.

(** [FIRST_NON_AUTOMATICALLY_FLUSHABLE] is 0, [FIRST_AUTOMATICALLY_FLUSHABLE] 2. *)
Definition IncomingLeAclPacket (handle packet_boundary_flag broadcast_flag : Z) (data : list Z)
    (rssi : Z) : M () :=
  connection ← le_connection handle;
  let packet_boundary_flag := if packet_boundary_flag =? 0 then 2 else packet_boundary_flag in
  update_le_connection handle (LeAclConnection.SetRssi rssi);;
  output (SendAcl (LeAclConnection.handle connection) packet_boundary_flag broadcast_flag data).

Definition HandleAcl (connection_handle packet_boundary_flag broadcast_flag : Z) (payload : list Z)
  : M () :=
  lift (assert (broadcast_flag =? 0));;
  c ← gets id;
  (if HasLeAclHandle connection_handle (connections_ c) then
     connection ← le_connection connection_handle;
     SendLeLinkLayerPacket
       (AclPacket (own connection) (peer connection) (u8 packet_boundary_flag) (u8 broadcast_flag)
          payload) 0
   else mret ());;
  output (ScheduleTask 0 (SendEventLater (NumberOfCompletedPackets connection_handle 1))).

Definition IncomingLlcpPacket (source destination : Address) (payload : list Z) : M () :=
  h ← gets connections_;
  match GetLeAclConnectionHandle destination source h with
  | None => mret ()
  | Some handle =>
      accepted ← link_layer (link_layer_ingest_llcp handle payload);
      lift (assert accepted)
  end.

(** ** Reception *)

(** The second switch of [IncomingPacket], for a packet received on the
    connection [handle]; [None] for the packets that are not of a connection. *)
Definition IncomingConnectionPacket (handle : Z) (packet : LinkLayerPacket) (rssi : Z)
  : option (M ()) :=
  match packet with
  | AclPacket _ _ pb bc data => Some (IncomingLeAclPacket handle pb bc data rssi)
  | DisconnectPacket _ _ reason => Some (IncomingLeDisconnectPacket handle reason)
  | LlcpPacket source destination payload => Some (IncomingLlcpPacket source destination payload)
  | LeConnectionParameterRequest source destination interval_min interval_max latency timeout =>
      Some (IncomingLeConnectionParameterRequest handle source destination interval_min interval_max
              latency timeout)
  | LeConnectionParameterUpdate _ _ status interval latency timeout =>
      Some (IncomingLeConnectionParameterUpdate handle status interval latency timeout)
  | LeEncryptConnection _ _ rand ediv ltk => Some (IncomingLeEncryptConnection handle rand ediv ltk)
  | LeEncryptConnectionResponse _ _ status _ _ ltk =>
      Some (IncomingLeEncryptConnectionResponse handle status ltk)
  | LeReadRemoteFeatures source destination => Some (IncomingLeReadRemoteFeatures source destination)
  | LeReadRemoteFeaturesResponse _ _ features status =>
      Some (IncomingLeReadRemoteFeaturesResponse handle features status)
  | ReadRemoteVersionInformationPacket source destination =>
      Some (IncomingReadRemoteVersion source destination)
  | ReadRemoteVersionInformationResponse source destination version sub_version manufacturer_name =>
      Some (IncomingReadRemoteVersionResponse source destination version sub_version
              manufacturer_name)
  | PingRequest source destination => Some (IncomingPingRequest source destination)
  | PingResponse _ _ => Some (mret ())
  | LlPhyReq source destination tx rx => Some (IncomingLlPhyReq handle source destination tx rx)
  | LlPhyRsp source destination tx rx => Some (IncomingLlPhyRsp handle source destination tx rx)
  | LlPhyUpdateInd _ _ phy_c_to_p phy_p_to_c _ =>
      Some (IncomingLlPhyUpdateInd handle phy_c_to_p phy_p_to_c)
  | LeConnectedIsochronousPdu _ _ cig_id cis_id sequence_number data =>
      Some (IncomingLeConnectedIsochronousPdu cig_id cis_id sequence_number data)
  | LlSubrateReq _ _ fmin fmax latency continuation timeout =>
      Some (IncomingLlSubrateReq handle fmin fmax latency continuation timeout)
  | LlSubrateInd _ _ status factor _ latency continuation timeout =>
      Some (IncomingLlSubrateInd handle status factor latency continuation timeout)
  | LlCsCapabilitiesReq _ _ capabilities => Some (IncomingLlCsCapabilitiesReq handle capabilities)
  | LlCsCapabilitiesRsp _ _ status capabilities =>
      Some (IncomingLlCsCapabilitiesRsp handle status capabilities)
  | LlCsFaeReq _ _ => Some (IncomingLlCsFaeReq handle)
  | LlCsFaeRsp _ _ status table => Some (IncomingLlCsFaeRsp handle status table)
  | LlCsConfigReq _ _ config => Some (IncomingLlCsConfigReq handle config)
  | LlCsConfigRsp _ _ status config_id => Some (IncomingLlCsConfigRsp handle status config_id)
  | LlCsSecurityEnableReq _ _ _ _ _ => Some (IncomingLlCsSecurityReq handle)
  | LlCsSecurityEnableRsp _ _ status _ _ _ => Some (IncomingLlCsSecurityRsp handle status)
  | LlCsReq _ _ request => Some (IncomingLlCsReq handle request)
  | LlCsRsp _ _ _ _ schedule => Some (IncomingLlCsRsp handle schedule)
  | LlCsInd _ _ _ schedule => Some (IncomingLlCsInd handle schedule)
  | LlCsTerminateReq _ _ config_id procedure_count error_code =>
      Some (IncomingLlCsTerminateReq handle config_id procedure_count error_code)
  | LlCsTerminateRsp _ _ config_id _ error_code =>
      Some (IncomingLlCsTerminateRsp handle config_id error_code)
  | LlCsChannelMapInd _ _ channel_map _ => Some (IncomingLlCsChannelMapInd handle channel_map)
  | _ => None
  end.

(** The source and the destination of a packet received on a connection. *)
Definition packet_addresses (packet : LinkLayerPacket) : Address * Address :=
  match packet with
  | AclPacket s d _ _ _ | DisconnectPacket s d _ | LlcpPacket s d _
  | LeConnectionParameterRequest s d _ _ _ _ | LeConnectionParameterUpdate s d _ _ _ _
  | LeEncryptConnection s d _ _ _ | LeEncryptConnectionResponse s d _ _ _ _
  | LeReadRemoteFeatures s d | LeReadRemoteFeaturesResponse s d _ _
  | ReadRemoteVersionInformationPacket s d | ReadRemoteVersionInformationResponse s d _ _ _
  | PingRequest s d | PingResponse s d | LlPhyReq s d _ _ | LlPhyRsp s d _ _
  | LlPhyUpdateInd s d _ _ _ | LlSubrateReq s d _ _ _ _ _ | LlSubrateInd s d _ _ _ _ _ _
  | LeLegacyAdvertisingPdu s d _ _ _ _ | LeExtendedAdvertisingPdu s d _ _ _ _ _ _ _ _ _ _ _
  | LePeriodicAdvertisingPdu s d _ _ _ _ _ | LeConnect s d _ _ _ _ _
  | LeConnectComplete s d _ _ _ _ _ | LeScan s d _ _ | LeScanResponse s d _ _
  | LlCsCapabilitiesReq s d _ | LlCsCapabilitiesRsp s d _ _ | LlCsFaeReq s d | LlCsFaeRsp s d _ _
  | LlCsConfigReq s d _ | LlCsConfigRsp s d _ _ | LlCsSecurityEnableReq s d _ _ _
  | LlCsSecurityEnableRsp s d _ _ _ _ | LlCsReq s d _ | LlCsRsp s d _ _ _ | LlCsInd s d _ _
  | LlCsTerminateReq s d _ _ _ | LlCsTerminateRsp s d _ _ _ | LlCsChannelMapInd s d _ _
  | LeConnectedIsochronousPdu s d _ _ _ _ => (s, d)
  end.

(** [rssi] is an [int8_t]; the reports have it as a byte. *)
Definition IncomingPacket (packet : LinkLayerPacket) (rssi : Z) : M () :=
  match packet with
  | LeScan s d scanning_type advertising_type =>
      IncomingLeScanPacket (MkAddressWithType s scanning_type) (MkAddressWithType d advertising_type)
  | LeScanResponse s _ advertising_type data =>
      IncomingLeScanResponsePacket (MkAddressWithType s advertising_type) data (packet_bytes packet) (u8 rssi)
  | LeLegacyAdvertisingPdu s d advertising_address_type target_address_type advertising_type data =>
      IncomingLeLegacyAdvertisingPdu (MkAddressWithType s advertising_address_type)
        (MkAddressWithType d target_address_type) advertising_type data (packet_bytes packet) (u8 rssi)
  | LeExtendedAdvertisingPdu s d advertising_address_type target_address_type connectable scannable directed
      sid tx_power primary_phy secondary_phy periodic_advertising_interval data =>
      IncomingLeExtendedAdvertisingPdu (MkAddressWithType s advertising_address_type)
        (MkAddressWithType d target_address_type)
        (MkExtendedPdu connectable scannable directed sid tx_power primary_phy secondary_phy
           periodic_advertising_interval data) (packet_bytes packet) (u8 rssi)
  | LePeriodicAdvertisingPdu s _ advertising_address_type sid tx_power advertising_interval data =>
      IncomingLePeriodicAdvertisingPdu (MkAddressWithType s advertising_address_type) sid tx_power
        advertising_interval data (u8 rssi)
  | LeConnect s d initiating_type advertising_type interval latency timeout =>
      IncomingLeConnectPacket
        (MkConnectInd (MkAddressWithType s initiating_type) (MkAddressWithType d advertising_type)
           interval latency timeout)
  | LeConnectComplete s d initiating_type advertising_type interval latency timeout =>
      IncomingLeConnectCompletePacket
        (MkConnectInd (MkAddressWithType d initiating_type) (MkAddressWithType s advertising_type)
           interval latency timeout)
  | _ =>
      let '(source_address, destination_address) := packet_addresses packet in
      c ← gets id;
      match GetLeAclConnectionHandle destination_address source_address (connections_ c) with
      | None => mret ()
      | Some handle =>
          t ← now;
          le_connection handle;;
          update_le_connection handle (LeAclConnection.ResetLinkTimer t);;
          default (mret ()) (IncomingConnectionPacket handle packet rssi)
      end
  end.

(** ** Reset *)

Definition DisconnectAll (reason : ErrorCode.t) : M () :=
  h ← gets connections_;
  for_each (GetLeAclHandles h) (λ connection_handle,
    connection ← le_connection connection_handle;
    SendLeLinkLayerPacket
      (DisconnectPacket (own connection) (peer connection) (ErrorCode.to_Z reason)) 0).

Definition Close : M () :=
  DisconnectAll ErrorCode.REMOTE_DEVICE_TERMINATED_CONNECTION_POWER_OFF.

(** The assignments of [Reset], in the order of the fields; the library is created
    anew.  [channel_sounding_host_support_] and the requested PHYs are left. *)
Definition reset_fields (c : LeController) : LeController :=
  c <| host_supported_features_ := 0 |>
    <| le_host_support_ := false |>
    <| secure_simple_pairing_host_support_ := false |>
    <| secure_connections_host_support_ := false |>
    <| le_host_supported_features_ := 0 |>
    <| connected_isochronous_stream_host_support_ := false |>
    <| connection_subrating_host_support_ := false |>
    <| random_address_ := kEmpty |>
    <| event_mask_ := 0x00001fffffffffff |>
    <| event_mask_page_2_ := 0x0 |>
    <| le_event_mask_ := 0x01f |>
    <| le_suggested_max_tx_octets_ := 0x001b |>
    <| le_suggested_max_tx_time_ := 0x0148 |>
    <| resolvable_private_address_timeout_ := 0x0384 |>
    <| le_periodic_advertiser_list_ := [] |>
    <| le_filter_accept_list_ := [] |>
    <| le_resolving_list_ := [] |>
    <| le_resolving_list_enabled_ := false |>
    <| legacy_advertising_in_use_ := false |>
    <| extended_advertising_in_use_ := false |>
    <| legacy_advertiser_ := LegacyAdvertiser.new |>
    <| extended_advertisers_ := ∅ |>
    <| scanner_ := Scanner.new |>
    <| initiator_ := Initiator.new |>
    <| synchronizing_ := None |>
    <| synchronized_ := ∅ |>
    <| default_tx_phys_ := LeSupportedPhys (properties_ c) |>
    <| default_rx_phys_ := LeSupportedPhys (properties_ c) |>
    <| default_subrate_parameters_ := default_subrate_parameters |>
    <| apcf_scanner_ := ApcfScanner.new |>
    <| le_cs_channel_classification_ := initial_channel_classification |>
    <| last_le_cs_set_channel_classification_time_ := time_point_min |>
    <| ll_ := [] |>.

Definition Reset : M () :=
  DisconnectAll ErrorCode.REMOTE_USER_TERMINATED_CONNECTION;;
  h ← gets connections_;
  let '(h, stopped) := Connections.Reset h in
  for_each stopped (λ task_id, output (CancelTask task_id));;
  modify (λ c, reset_fields (c <| connections_ := h |>)).

(** ** Host support flags *)

Definition set_bit_of (enable : bool) (b f : Z) : Z := if enable then Z.lor f b else Z.ldiff f b.
Definition SetSecureSimplePairingSupport (enable : bool) (c : LeController) : LeController :=
  c <| secure_simple_pairing_host_support_ := enable |>
    <| host_supported_features_ ::= set_bit_of enable 0x1 |>.
Definition SetLeHostSupport (enable : bool) (c : LeController) : LeController :=
  c <| le_host_support_ := enable |> <| host_supported_features_ ::= set_bit_of enable 0x2 |>.
Definition SetSecureConnectionsSupport (enable : bool) (c : LeController) : LeController :=
  c <| secure_connections_host_support_ := enable |>
    <| host_supported_features_ ::= set_bit_of enable 0x8 |>.
End Links.

(** ** Running the handlers *)

Section Running.
Context {env : Environment}.

Lemma run_if_unmasked {B} code yes no (f : () → M B) t c :
  code ≠ EventCode.VENDOR_SPECIFIC →
  (if_unmasked code yes no ≫= f) t c = ((if event_unmasked code c then yes else no) ≫= f) t c.
Proof.
  intros Hcode. unfold if_unmasked. autorewrite with run. rewrite IsEventUnmasked_Ok.
  rewrite bool_decide_false by done. by autorewrite with run.
Qed.

Lemma if_unmasked_run code yes no t c :
  code ≠ EventCode.VENDOR_SPECIFIC →
  if_unmasked code yes no t c = (if event_unmasked code c then yes else no) t c.
Proof.
  intros Hcode. unfold if_unmasked. autorewrite with run. rewrite IsEventUnmasked_Ok.
  rewrite bool_decide_false by done. by autorewrite with run.
Qed.

Lemma send_if_unmasked_run code event t c :
  code ≠ EventCode.VENDOR_SPECIFIC →
  send_if_unmasked code event t c = Ok ((), c, event_output (event_unmasked code c) event).
Proof.
  intros Hcode. unfold send_if_unmasked. rewrite if_unmasked_run by done.
  by destruct (event_unmasked code c).
Qed.

Lemma run_send_if_unmasked {B} code event (f : () → M B) t c :
  code ≠ EventCode.VENDOR_SPECIFIC →
  (send_if_unmasked code event ≫= f) t c =
    emit (event_output (event_unmasked code c) event) (f () t c).
Proof. intros. erewrite run_bind; [done|]. by apply send_if_unmasked_run. Qed.

Lemma run_link_layer {B} call (f : bool → M B) t c :
  (link_layer call ≫= f) t c = f (link_layer_accepts (ll_ c) call) t (c <| ll_ ::= cons call |>).
Proof. erewrite run_bind by done. apply emit_nil. Qed.

Lemma run_assert {B} (b : bool) (f : () → M B) t c :
  b = true → (lift (assert b) ≫= f) t c = f () t c.
Proof. intros ->. cbn [assert]. by autorewrite with run. Qed.

Lemma event_when_run b code event t c :
  event_when b code event t c = Ok ((), c, event_output (le_event_unmasked code c && b) event).
Proof.
  unfold event_when. autorewrite with run. rewrite IsLeEventUnmasked_Ok. autorewrite with run.
  unfold id. by destruct (_ && b).
Qed.

Lemma run_pure {A B} (g : LeController → A * LeController) (f : A → M B) t c :
  (pure g ≫= f) t c = f (fst (g c)) t (snd (g c)).
Proof.
  unfold pure, mbind, M_bind. destruct (g c) as [a c']. cbn.
  by destruct (f a t c') as [[[? ?] ?]| | |].
Qed.
End Running.

#[export] Hint Rewrite @run_link_layer @run_pure using done : run.

(** ** Encryption *)

Section Encryption.
Context {env : Environment} (hc hp t : Z).

Definition encrypted (handle : Z) (c : LeController) : option bool :=
  LeAclConnection.encrypted_ <$> connection_of handle c.

(** The answer of the peripheral's host. *)
Lemma LeLongTermKeyRequestReply_run ltk c k :
  connection_of hp c = Some k → LeAclConnection.encrypted_ k = false →
  ∃ out, LeLongTermKeyRequestReply hp ltk t c =
    Ok (ErrorCode.SUCCESS, set_le_connection hp LeAclConnection.Encrypt c, out) ∧
  sent_packets out = [LeEncryptConnectionResponse (own k) (peer k) 0 (replicate 8 0) 0 ltk].
Proof.
  intros Hk He. unfold LeLongTermKeyRequestReply. erewrite run_with_connection by done.
  unfold LeAclConnection.IsEncrypted. rewrite He. autorewrite with run.
  rewrite run_if_unmasked by done. destruct (event_unmasked _ _).
  - unfold send_event_. autorewrite with run. by eexists.
  - rewrite run_send_if_unmasked by done. autorewrite with run.
    destruct (event_unmasked _ _); by eexists.
Qed.

(** The answer received by the central. *)
Lemma IncomingLeEncryptConnectionResponse_run status ltk ltk' c k :
  connection_of hc c = Some k → LeAclConnection.encrypted_ k = false →
  LeAclConnection.ltk k = Some ltk →
  let '(result, success) :=
    if negb (status =? 0) then (status, false)
    else if bool_decide (ltk' = ltk) then (ErrorCode.to_Z ErrorCode.SUCCESS, true)
    else (ErrorCode.to_Z ErrorCode.AUTHENTICATION_FAILURE, false) in
  IncomingLeEncryptConnectionResponse hc status ltk' t c =
    Ok ((), if success then set_le_connection hc LeAclConnection.Encrypt c else c,
        event_output (event_unmasked EventCode.ENCRYPTION_CHANGE c)
          (EncryptionChange result (LeAclConnection.handle k) success)).
Proof.
  intros Hk He Hltk. unfold IncomingLeEncryptConnectionResponse. erewrite run_le_connection by done.
  unfold LeAclConnection.IsEncrypted. rewrite He, Hltk.
  destruct (negb (status =? 0)); [by apply send_if_unmasked_run|].
  destruct (bool_decide (ltk' = ltk)) eqn:E; to_prop.
  - rewrite bool_decide_false by tauto. autorewrite with run. by rewrite send_if_unmasked_run.
  - rewrite bool_decide_true by done. by apply send_if_unmasked_run.
Qed.

(** The encryption procedure, on a connection that is not encrypted. The
    central's host gives a key, the peripheral's host is asked for one and
    answers with its own key or with a refusal, and the central gets the answer.
    No step aborts, each sends exactly the packet the next one waits for. If the
    hosts have the same key both ends encrypt and both hosts are told so. If the
    keys differ the central refuses with Authentication Failure and stays in
    clear; the peripheral encrypts in any case. If the peripheral's host refuses,
    neither end encrypts and the central's host is told PIN or Key Missing. *)
Theorem encryption_procedure (ca cb : LeController) (a b : LeAclConnection)
    (rand : list Z) (ediv : Z) (ltk ltk' : list Z)
    (Ha : connection_of hc ca = Some a) (Hb : connection_of hp cb = Some b)
    (Hea : LeAclConnection.encrypted_ a = false) (Heb : LeAclConnection.encrypted_ b = false) :
  let told c status on := event_output (event_unmasked EventCode.ENCRYPTION_CHANGE c)
    (EncryptionChange (ErrorCode.to_Z status) (LeAclConnection.handle a) on) in
  ∃ ca1 out1, HandleLeEnableEncryption hc rand ediv ltk t ca = Ok ((), ca1, out1) ∧
  sent_packets out1 = [LeEncryptConnection (own a) (peer a) rand ediv ltk] ∧
  ∃ cb1 out2, IncomingLeEncryptConnection hp rand ediv ltk t cb = Ok ((), cb1, out2) ∧
  out2 = event_output (event_unmasked EventCode.LE_META_EVENT cb)
           (LeLongTermKeyRequest (LeAclConnection.handle b) rand ediv) ∧
  (∃ cb2 out3 ca2 out4, LeLongTermKeyRequestReply hp ltk' t cb1 = Ok (ErrorCode.SUCCESS, cb2, out3) ∧
   sent_packets out3 = [LeEncryptConnectionResponse (own b) (peer b) 0 (replicate 8 0) 0 ltk'] ∧
   IncomingLeEncryptConnectionResponse hc 0 ltk' t ca1 = Ok ((), ca2, out4) ∧
   encrypted hc ca2 = Some (bool_decide (ltk' = ltk)) ∧ encrypted hp cb2 = Some true ∧
   out4 = told ca (if bool_decide (ltk' = ltk) then ErrorCode.SUCCESS
                   else ErrorCode.AUTHENTICATION_FAILURE) (bool_decide (ltk' = ltk))) ∧
  (∃ out3 ca2 out4, LeLongTermKeyRequestNegativeReply hp t cb1 = Ok (ErrorCode.SUCCESS, cb1, out3) ∧
   sent_packets out3 = [LeEncryptConnectionResponse (own b) (peer b) 6 (replicate 8 0) 0 (replicate 16 0)] ∧
   IncomingLeEncryptConnectionResponse hc 6 (replicate 16 0) t ca1 = Ok ((), ca2, out4) ∧
   encrypted hc ca2 = Some false ∧ encrypted hp cb1 = Some false ∧
   out4 = told ca ErrorCode.PIN_OR_KEY_MISSING false).
Proof.
  intros told. unfold HandleLeEnableEncryption, HasLeAclHandle. autorewrite with run. unfold id.
  rewrite bool_decide_true by by exists a. cbn [negb]. erewrite run_le_connection by done.
  autorewrite with run. do 2 eexists. split; [done|]. split; [done|].
  unfold IncomingLeEncryptConnection. erewrite run_le_connection by done. autorewrite with run.
  do 2 eexists. split; [by apply send_if_unmasked_run|]. split; [done|].
  set (ca1 := set_le_connection hc (set_ltk ltk) ca). set (cb1 := set_le_connection hp (set_ltk ltk) cb).
  assert (connection_of hc ca1 = Some (set_ltk ltk a)) as Ha1
    by (unfold ca1; by rewrite connection_of_set, decide_True, Ha).
  assert (connection_of hp cb1 = Some (set_ltk ltk b)) as Hb1
    by (unfold cb1; by rewrite connection_of_set, decide_True, Hb).
  split.
  - destruct (LeLongTermKeyRequestReply_run ltk' cb1 (set_ltk ltk b) Hb1) as (out3 & -> & Hs3); [done|].
    pose proof (IncomingLeEncryptConnectionResponse_run 0 ltk ltk' ca1 (set_ltk ltk a) Ha1 Hea eq_refl)
      as Hr. cbn [Z.eqb negb] in Hr. destruct (bool_decide (ltk' = ltk)) eqn:E.
    + rewrite Hr. do 4 eexists. do 3 (split; [done|]). unfold encrypted.
      by rewrite !connection_of_set, !decide_True, Ha1, Hb1.
    + rewrite Hr. do 4 eexists. do 3 (split; [done|]). unfold encrypted.
      rewrite !connection_of_set, !decide_True, Ha1, Hb1 by done. split; [|done]. cbn. by rewrite Hea.
  - unfold LeLongTermKeyRequestNegativeReply. erewrite run_with_connection by done.
    autorewrite with run.
    pose proof (IncomingLeEncryptConnectionResponse_run 6 ltk (replicate 16 0) ca1 (set_ltk ltk a)
      Ha1 Hea eq_refl) as Hr. cbn [Z.eqb negb] in Hr. rewrite Hr.
    do 3 eexists. do 3 (split; [done|]). unfold encrypted. rewrite Ha1, Hb1. cbn. by rewrite Hea, Heb.
Qed.
End Encryption.

(** ** Establishment *)

Section Establishment.
Context {env : Environment}.

(** A new connection can be made. *)
Definition can_connect (c : LeController) : Prop :=
  handler_wf (connections_ c) ∧
  (∃ u, kLeAclRangeStart ≤ u ≤ kLeAclRangeEnd ∧ le_acl_connections_ (connections_ c) !! u = None) ∧
  ∀ handle address role, connection_of handle c = None →
    link_layer_accepts (ll_ c) (link_layer_add_link handle address role) = true.

(** The event for the host of a new connection. *)
Definition announces (handle : Z) (role : Role.t) (event : HciEvent) : Prop :=
  match event with
  | LeConnectionComplete status h r _ _ _ _ _ _
  | LeEnhancedConnectionCompleteV1 status h r _ _ _ _ _ _ _ _ =>
      status = ErrorCode.SUCCESS ∧ h = handle ∧ r = role
  | _ => False
  end.
Definition wants_connection_events (c : LeController) : bool :=
  le_event_unmasked SubeventCode.LE_ENHANCED_CONNECTION_COMPLETE_V1 c ||
  le_event_unmasked SubeventCode.LE_CONNECTION_COMPLETE c.

(** The keep alive timer of a new connection is the only thing it starts. *)
Lemma CheckExpiringConnection_new handle t c k :
  connection_of handle c = Some k → LeAclConnection.last_packet_timestamp_ k = t →
  LeAclConnection.timeout_ k = supervision_timeout_ns →
  CheckExpiringConnection handle t c =
    Ok ((), c, [ScheduleTask 1500 (CheckExpiringConnectionLater handle)]).
Proof.
  intros Hk Hlast Htime. unfold CheckExpiringConnection, HasLeAclHandle. autorewrite with run. unfold id.
  rewrite bool_decide_true by by exists k. cbn [negb]. erewrite run_le_connection by done.
  autorewrite with run.
  unfold LeAclConnection.HasExpired, LeAclConnection.IsNearExpiring, LeAclConnection.TimeUntilExpired,
    LeAclConnection.TimeUntilNearExpiring. rewrite Hlast, Htime.
  replace (t + supervision_timeout_ns - t) with supervision_timeout_ns by lia.
  replace (t + Z.quot supervision_timeout_ns 2 - t) with (Z.quot supervision_timeout_ns 2) by lia.
  done.
Qed.

(** The new connection. *)
Definition new_connection (t handle : Z) (address resolved_address own_address : AddressWithType)
    (role : Role.t) (interval latency timeout : Z) (c : LeController) : LeAclConnection :=
  LeAclConnection.new t handle address own_address resolved_address role
    (MkLeAclConnectionParameters interval 1 0 latency timeout) (default_subrate_parameters_ c).

(** What [HandleLeConnection] leaves as it is. *)
Definition same_but_links (c c' : LeController) : Prop :=
  legacy_advertiser_ c' = legacy_advertiser_ c ∧ extended_advertisers_ c' = extended_advertisers_ c ∧
  scanner_ c' = scanner_ c ∧ le_resolving_list_ c' = le_resolving_list_ c ∧
  Initiator.pending_connect_request (initiator_ c') = Initiator.pending_connect_request (initiator_ c).

Lemma HandleLeConnection_run address resolved own_address role interval latency timeout alg t c :
  can_connect c →
  ∃ handle c' out,
  HandleLeConnection address resolved own_address role interval latency timeout alg t c =
    Ok (handle, c', out) ∧
  connection_of handle c = None ∧
  le_acl_connections_ (connections_ c') =
    <[handle := new_connection t handle address resolved own_address role interval latency timeout c]>
      (le_acl_connections_ (connections_ c)) ∧
  handler_wf (connections_ c') ∧ same_but_links c c' ∧ sent_packets out = [] ∧
  (wants_connection_events c = true →
   ∃ event rest, host_events out = event :: rest ∧ announces handle role event).
Proof.
  intros (Hwf & Hfree & Hll). unfold HandleLeConnection. autorewrite with run. unfold id.
  destruct (CreateLeConnection_fresh t address resolved own_address role
    (MkLeAclConnectionParameters interval 1 0 latency timeout) (default_subrate_parameters_ c)
    (connections_ c) Hwf Hfree) as (handle & l & E & Hnone).
  pose proof (handler_wf_create_le _ _ _ _ _ _ _ _ _ _ Hwf E) as Hwf'. rewrite E.
  set (h' := modify_field _ _ _) in *. autorewrite with run.
  set (c1 := c <| connections_ := h' |>).
  erewrite run_bind.
  2: { apply (CheckExpiringConnection_new handle t c1
         (new_connection t handle address resolved own_address role interval latency timeout c));
         [|done|done]. unfold connection_of. cbn. apply lookup_insert_eq. }
  autorewrite with run. rewrite !IsLeEventUnmasked_Ok. autorewrite with run.
  set (m1 := if _ : bool then _ else _).
  assert (∃ out1, m1 t c1 = Ok ((), c1, out1) ∧ sent_packets out1 = [] ∧
    (wants_connection_events c = true → ∃ event rest, host_events out1 = event :: rest ∧
     announces handle role event)) as (out1 & E1 & Hs1 & He1).
  { unfold m1, wants_connection_events. change (le_event_unmasked ?e c1) with (le_event_unmasked e c).
    destruct (le_event_unmasked SubeventCode.LE_ENHANCED_CONNECTION_COMPLETE_V1 c).
    - eexists. split; [done|]. split; [done|]. intros _. by do 2 eexists.
    - destruct (le_event_unmasked SubeventCode.LE_CONNECTION_COMPLETE c); eexists;
        (split; [done|]); (split; [done|]); intros [=]. by do 2 eexists. }
  erewrite run_bind by exact E1. autorewrite with run. rewrite run_assert by by apply Hll.
  autorewrite with run. cbn [emit mret M_ret mbind outcome_bind].
  do 3 eexists. split; [reflexivity|]. split; [done|]. split; [by case_bool_decide|].
  split; [by case_bool_decide|]. split; [unfold same_but_links; by case_bool_decide|].
  unfold sent_packets, host_events in *. rewrite !omap_app, Hs1. split.
  - by destruct (_ && _).
  - intros Hw. destruct (He1 Hw) as (event & rest & -> & ?). cbn. by do 2 eexists.
Qed.

(** Resolving an address changes only the resolving list. *)
Lemma ResolvePrivateAddress_frame address c :
  ∃ l, snd (ResolvePrivateAddress address c) = c <| le_resolving_list_ := l |>.
Proof.
  unfold ResolvePrivateAddress. destruct (negb _); [exists (le_resolving_list_ c); by destruct c|].
  destruct (negb _); [exists (le_resolving_list_ c); by destruct c|].
  destruct (find_first _ _); [by eexists|]. exists (le_resolving_list_ c). by destruct c.
Qed.

(** The legacy advertiser accepts the request. *)
Definition accepts_request (ci : ConnectInd) (c : LeController) : Prop :=
  let a := legacy_advertiser_ c in
  let '(resolved, c') := ResolvePrivateAddress (ci_initiating_address ci) c in
  LegacyAdvertiser.advertising_enable a = true ∧ LegacyAdvertiser.IsConnectable a = true ∧
  LegacyAdvertiser.advertising_address a = ci_advertising_address ci ∧
  accepts_initiator (LegacyAdvertiser.IsDirected a) (LegacyAdvertiser.peer_address a)
    (LegacyAdvertiser.peer_address_type a) (LegacyAdvertiser.advertising_filter_policy a)
    (default (ci_initiating_address ci) resolved) c' = true.

(** The packet that answers a request. *)
Definition connect_complete (ci : ConnectInd) : LinkLayerPacket :=
  LeConnectComplete (GetAddress (ci_advertising_address ci)) (GetAddress (ci_initiating_address ci))
    (GetAddressType (ci_initiating_address ci)) (GetAddressType (ci_advertising_address ci))
    (ci_interval ci) (ci_latency ci) (ci_timeout ci).

(** The advertiser's end of the establishment. *)
Lemma IncomingLeConnectPacket_accepts ci t c :
  can_connect c → accepts_request ci c →
  ∃ c' out handle k, IncomingLeConnectPacket ci t c = Ok ((), c', out) ∧
  sent_packets out = [connect_complete ci] ∧
  connection_of handle c = None ∧
  le_acl_connections_ (connections_ c') = <[handle := k]> (le_acl_connections_ (connections_ c)) ∧
  LeAclConnection.address k = ci_initiating_address ci ∧
  LeAclConnection.own_address k = ci_advertising_address ci ∧
  LeAclConnection.role k = Role.PERIPHERAL ∧
  LeAclConnection.parameters k =
    MkLeAclConnectionParameters (ci_interval ci) 1 0 (ci_latency ci) (ci_timeout ci) ∧
  phys_of k = (PhyType.LE_1M, PhyType.LE_1M) ∧
  LegacyAdvertiser.advertising_enable (legacy_advertiser_ c') = false ∧
  (wants_connection_events c = true →
   ∃ event rest, host_events out = event :: rest ∧ announces handle Role.PERIPHERAL event).
Proof.
  intros Hcan Hacc. unfold IncomingLeConnectPacket, ProcessIncomingLegacyConnectRequest.
  autorewrite with run. unfold accepts_request in Hacc.
  destruct (ResolvePrivateAddress_frame (ci_initiating_address ci) c) as [l Hl].
  destruct (ResolvePrivateAddress (ci_initiating_address ci) c) as [resolved c1] eqn:Er.
  cbn [snd] in Hl. destruct Hacc as (Hen & Hconn & Haddr & Hok).
  unfold LegacyAdvertiser.IsEnabled. rewrite Hen, Hconn. cbn [negb].
  rewrite bool_decide_false by by intros []. autorewrite with run. rewrite Er. cbn [fst snd].
  unfold id in *. rewrite Hok. cbn [negb]. unfold accept_connection. autorewrite with run.
  assert (can_connect c1) as Hcan1 by (by rewrite Hl).
  edestruct HandleLeConnection_run as (handle & c2 & out & E & Hnone & Hmap & Hwf & Hsame & Hs & He);
    [exact Hcan1|].
  erewrite run_bind by exact E. autorewrite with run. cbn [emit mret M_ret mbind outcome_bind].
  do 4 eexists. split; [reflexivity|]. split.
  { unfold sent_packets in *. by rewrite omap_app, Hs. }
  subst c1. split; [exact Hnone|]. split; [exact Hmap|]. do 6 (split; [done|]).
  intros Hw. destruct (He Hw) as (event & rest & Hev & ?). unfold host_events in *.
  rewrite omap_app, Hev. cbn. by do 2 eexists.
Qed.

(** The initiator's end. *)
Lemma IncomingLeConnectCompletePacket_completes ci t c :
  can_connect c →
  Initiator.pending_connect_request (initiator_ c) = Some (ci_advertising_address ci) →
  ∃ c' out handle k, IncomingLeConnectCompletePacket ci t c = Ok ((), c', out) ∧
  sent_packets out = [] ∧
  connection_of handle c = None ∧
  le_acl_connections_ (connections_ c') = <[handle := k]> (le_acl_connections_ (connections_ c)) ∧
  LeAclConnection.address k = ci_advertising_address ci ∧
  LeAclConnection.own_address k = ci_initiating_address ci ∧
  LeAclConnection.role k = Role.CENTRAL ∧
  LeAclConnection.parameters k =
    MkLeAclConnectionParameters (ci_interval ci) 1 0 (ci_latency ci) (ci_timeout ci) ∧
  phys_of k = (PhyType.LE_1M, PhyType.LE_1M) ∧
  Initiator.pending_connect_request (initiator_ c') = None ∧
  Initiator.connect_enable (initiator_ c') = false ∧
  (wants_connection_events c = true →
   ∃ event rest, host_events out = event :: rest ∧ announces handle Role.CENTRAL event).
Proof.
  intros Hcan Hpending. unfold IncomingLeConnectCompletePacket. autorewrite with run.
  rewrite Hpending, bool_decide_false by by intros []. cbn [andb].
  set (m := if IsRpa _ then _ else _).
  assert (∃ resolved l, ∀ (B : Type) (f : _ → M B),
    (m ≫= f) t c = f resolved t (c <| le_resolving_list_ := l |>)) as (resolved & l & Em).
  { unfold m. destruct (IsRpa _).
    - destruct (ResolvePrivateAddress_frame (ci_advertising_address ci) c) as [l Hl].
      exists (fst (ResolvePrivateAddress (ci_advertising_address ci) c)), l. intros B f.
      by rewrite run_pure, Hl.
    - exists None, (le_resolving_list_ c). intros B f. autorewrite with run. by destruct c. }
  rewrite Em. clear m Em. set (c1 := c <| le_resolving_list_ := l |>). autorewrite with run.
  assert (can_connect c1) as Hcan1 by done.
  edestruct HandleLeConnection_run as (handle & c2 & out & E & Hnone & Hmap & Hwf & Hsame & Hs & He);
    [exact Hcan1|].
  erewrite run_bind by exact E. unfold emit, modify. cbn [mbind outcome_bind].
  rewrite app_nil_r.
  do 4 eexists. split; [reflexivity|]. do 9 (split; [done|]). split; [done|].
  exact He.
Qed.

(** Establishment of a connection between a legacy advertiser and an
    initiator. If the advertiser accepts the initiator's request (it is enabled,
    connectable, advertises with the address requested, and neither its target
    nor its filter accept list excludes the initiator) and both sides have a free
    handle, the advertiser creates a peripheral connection, stops advertising
    and answers with exactly one packet. The initiator, which waits for this
    advertiser, turns that packet into a central connection and stops
    initiating. No step aborts. Each side gains exactly one connection, under a
    handle it did not use; the two have mirrored addresses, the same parameters
    and the 1M PHY, and the event of the new handle is the first thing a host
    that has not masked it hears. *)
Theorem connection_establishment (tp tc rssi : Z) (ci : ConnectInd) (p c : LeController)
    (Hp : can_connect p) (Hc : can_connect c) (Hacc : accepts_request ci p)
    (Hpending : Initiator.pending_connect_request (initiator_ c) = Some (ci_advertising_address ci)) :
  ∃ p' outp hp kp, IncomingLeConnectPacket ci tp p = Ok ((), p', outp) ∧
  sent_packets outp = [connect_complete ci] ∧
  ∃ c' outc hc kc, IncomingPacket (connect_complete ci) rssi tc c = Ok ((), c', outc) ∧ sent_packets outc = [] ∧
  connection_of hp p = None ∧ connection_of hc c = None ∧
  le_acl_connections_ (connections_ p') = <[hp := kp]> (le_acl_connections_ (connections_ p)) ∧
  le_acl_connections_ (connections_ c') = <[hc := kc]> (le_acl_connections_ (connections_ c)) ∧
  LeAclConnection.address kp = LeAclConnection.own_address kc ∧
  LeAclConnection.own_address kp = LeAclConnection.address kc ∧
  LeAclConnection.role kp = Role.PERIPHERAL ∧ LeAclConnection.role kc = Role.CENTRAL ∧
  LeAclConnection.parameters kp = LeAclConnection.parameters kc ∧
  LeAclConnection.parameters kp =
    MkLeAclConnectionParameters (ci_interval ci) 1 0 (ci_latency ci) (ci_timeout ci) ∧
  phys_of kp = (PhyType.LE_1M, PhyType.LE_1M) ∧ phys_of kc = (PhyType.LE_1M, PhyType.LE_1M) ∧
  LegacyAdvertiser.advertising_enable (legacy_advertiser_ p') = false ∧
  Initiator.connect_enable (initiator_ c') = false ∧
  Initiator.pending_connect_request (initiator_ c') = None ∧
  (wants_connection_events p = true →
   ∃ event rest, host_events outp = event :: rest ∧ announces hp Role.PERIPHERAL event) ∧
  (wants_connection_events c = true →
   ∃ event rest, host_events outc = event :: rest ∧ announces hc Role.CENTRAL event).
Proof.
  destruct (IncomingLeConnectPacket_accepts ci tp p Hp Hacc) as
    (p' & outp & hp & kp & Ep & Hsp & Hnp & Hmp & Hap & Hop & Hrp & Hpp & Hphp & Hdis & Hep).
  destruct (IncomingLeConnectCompletePacket_completes ci tc c Hc Hpending) as
    (c' & outc & hc & kc & Ec & Hsc & Hnc & Hmc & Hac & Hoc & Hrc & Hpc & Hphc & Hpend & Hcen & Hec).
  exists p', outp, hp, kp. do 2 (split; [done|]).
  exists c', outc, hc, kc. split; [by destruct ci as [[] [] ? ? ?]|].
  by rewrite Hap, Hoc, Hop, Hac, Hpp, Hpc.
Qed.
End Establishment.

(** ** Connection parameters *)

Section Parameters.
Context {env : Environment} (hc hp t : Z).

(** What the specification asks of the parameters of a reply: the supervision
    timeout (in 10 ms) is larger than (1 + latency) * interval_max (in 1.25 ms) * 2. *)
Definition valid_reply (interval_min interval_max supervision_timeout latency minimum_ce_length
    maximum_ce_length : Z) : Prop :=
  6 ≤ interval_min ≤ interval_max ∧ interval_max ≤ 0xC80 ∧ latency ≤ 0x1F3 ∧
  0xA ≤ supervision_timeout ≤ 0xC80 ∧
  (1 + latency) * interval_max * 125 * 2 < supervision_timeout * 1000 ∧
  minimum_ce_length ≤ maximum_ce_length.

Lemma invalid_reply_spec interval_min interval_max supervision_timeout latency min_ce max_ce :
  0 ≤ latency →
  invalid_reply interval_min interval_max supervision_timeout latency || (max_ce <? min_ce) = false ↔
  valid_reply interval_min interval_max supervision_timeout latency min_ce max_ce.
Proof.
  intros Hlat. unfold invalid_reply, valid_reply. rewrite !orb_false_iff.
  destruct (decide (6 ≤ interval_max)) as [Hmax|]; [|lia].
  rewrite !Z.quot_div_nonneg by (try apply Z.quot_pos; nia).
  rewrite Z.div_div by lia. rewrite Z.div_mul_cancel_r by lia.
  pose proof (Z.div_mod ((1 + latency) * interval_max) 4 ltac:(lia)) as Hd.
  pose proof (Z.mod_pos_bound ((1 + latency) * interval_max) 4 ltac:(lia)).
  set (x := (1 + latency) * interval_max) in *. lia.
Qed.

Definition parameters_of (handle : Z) (c : LeController) : option LeAclConnectionParameters :=
  LeAclConnection.parameters <$> connection_of handle c.

(** The reply of a host, on every branch. *)
Lemma LeRemoteConnectionParameterRequestReply_run imin imax timeout latency min_ce max_ce c k :
  connection_of hc c = Some k → 0 ≤ latency →
  (¬ valid_reply imin imax timeout latency min_ce max_ce →
   LeRemoteConnectionParameterRequestReply hc imin imax timeout latency min_ce max_ce t c =
     Ok (ErrorCode.INVALID_HCI_COMMAND_PARAMETERS, c, [])) ∧
  (valid_reply imin imax timeout latency min_ce max_ce →
   LeRemoteConnectionParameterRequestReply hc imin imax timeout latency min_ce max_ce t c =
     Ok (ErrorCode.SUCCESS, set_le_connection hc (set_parameters imin latency timeout) c,
         ScheduleTask 0 (SendToRemote
           (LeConnectionParameterUpdate (own k) (peer k) 0 imin latency timeout) 0) ::
         event_output (le_event_unmasked SubeventCode.LE_CONNECTION_UPDATE_COMPLETE c)
           (LeConnectionUpdateComplete 0 (LeAclConnection.handle k) imin latency timeout))).
Proof.
  intros Hk Hlat. rewrite <- (invalid_reply_spec imin imax timeout latency min_ce max_ce Hlat).
  unfold LeRemoteConnectionParameterRequestReply. erewrite run_with_connection by done.
  destruct (invalid_reply _ _ _ _); cbn [orb]; [by split|].
  destruct (max_ce <? min_ce); [by split|]. split; [done|]. intros _. autorewrite with run.
  rewrite andb_true_r. unfold mret, M_ret. cbn. by rewrite !app_nil_r.
Qed.

(** The update received. *)
Lemma IncomingLeConnectionParameterUpdate_run status interval latency timeout c k :
  connection_of hp c = Some k →
  IncomingLeConnectionParameterUpdate hp status interval latency timeout t c =
    Ok ((), if status =? 0 then set_le_connection hp (set_parameters interval latency timeout) c else c,
        event_output (le_event_unmasked SubeventCode.LE_CONNECTION_UPDATE_COMPLETE c)
          (LeConnectionUpdateComplete status (LeAclConnection.handle k) interval latency timeout)).
Proof.
  intros Hk. unfold IncomingLeConnectionParameterUpdate. erewrite run_le_connection by done.
  change (ErrorCode.to_Z ErrorCode.SUCCESS) with 0. destruct (status =? 0); cbn [when];
  autorewrite with run; by rewrite event_when_run, andb_true_r.
Qed.

(** The connection parameters request procedure. The peripheral's host asks
    for new parameters; the request reaches the central. If the central's host
    does not take such requests the central refuses on its own. Otherwise its host
    is asked: an invalid answer (exactly when it breaks one of the bounds of the
    specification) is an error and has no effect; a valid one makes both ends
    hold the same new parameters, and both hosts are told the same; a refusal
    leaves both ends as they were, and the peripheral's host is told the reason.
    Each step succeeds and sends exactly the packet the next one waits for. *)
Theorem parameter_request_procedure (ca cb : LeController) (a b : LeAclConnection)
    (imin imax lat tmo imin' imax' tmo' lat' min_ce max_ce : Z) (reason : ErrorCode.t)
    (Ha : connection_of hc ca = Some a) (Hb : connection_of hp cb = Some b)
    (Hperipheral : LeAclConnection.role b = Role.PERIPHERAL) (Hlat' : 0 ≤ lat')
    (Hreason : reason ≠ ErrorCode.SUCCESS) :
  let told c k status i l m := event_output (le_event_unmasked
    SubeventCode.LE_CONNECTION_UPDATE_COMPLETE c)
    (LeConnectionUpdateComplete status (LeAclConnection.handle k) i l m) in
  let refused status := ∃ out,
    IncomingLeConnectionParameterUpdate hp status 0 0 0 t cb = Ok ((), cb, out) ∧
    out = told cb b status 0 0 0 in
  LeConnectionUpdate hp imin imax lat tmo t cb =
    Ok (ErrorCode.SUCCESS, cb, [ScheduleTask 0 (SendToRemote
      (LeConnectionParameterRequest (own b) (peer b) imin imax lat tmo) 0)]) ∧
  ∃ out1, IncomingLeConnectionParameterRequest hc (own b) (peer b) imin imax lat tmo t ca =
    Ok ((), ca, out1) ∧
  if le_event_unmasked SubeventCode.LE_REMOTE_CONNECTION_PARAMETER_REQUEST ca then
    out1 = [SendEvent (LeRemoteConnectionParameterRequest (LeAclConnection.handle a)
                         imin imax lat tmo)] ∧
    (¬ valid_reply imin' imax' tmo' lat' min_ce max_ce →
     LeRemoteConnectionParameterRequestReply hc imin' imax' tmo' lat' min_ce max_ce t ca =
       Ok (ErrorCode.INVALID_HCI_COMMAND_PARAMETERS, ca, [])) ∧
    (valid_reply imin' imax' tmo' lat' min_ce max_ce →
     ∃ ca' outa cb' outb,
     LeRemoteConnectionParameterRequestReply hc imin' imax' tmo' lat' min_ce max_ce t ca =
       Ok (ErrorCode.SUCCESS, ca', outa) ∧
     outa = ScheduleTask 0 (SendToRemote
       (LeConnectionParameterUpdate (own a) (peer a) 0 imin' lat' tmo') 0) ::
       told ca a 0 imin' lat' tmo' ∧
     IncomingLeConnectionParameterUpdate hp 0 imin' lat' tmo' t cb = Ok ((), cb', outb) ∧
     outb = told cb b 0 imin' lat' tmo' ∧
     parameters_of hc ca' = Some (MkLeAclConnectionParameters imin' 1 0 lat' tmo') ∧
     parameters_of hp cb' = parameters_of hc ca') ∧
    LeRemoteConnectionParameterRequestNegativeReply hc reason t ca =
      Ok (ErrorCode.SUCCESS, ca, [ScheduleTask 0 (SendToRemote
        (LeConnectionParameterUpdate (own a) (peer a) (ErrorCode.to_Z reason) 0 0 0) 0)]) ∧
    refused (ErrorCode.to_Z reason)
  else
    out1 = [ScheduleTask 0 (SendToRemote (LeConnectionParameterUpdate (peer b) (own b)
      (ErrorCode.to_Z ErrorCode.UNSUPPORTED_REMOTE_OR_LMP_FEATURE) 0 0 0) 0)] ∧
    refused (ErrorCode.to_Z ErrorCode.UNSUPPORTED_REMOTE_OR_LMP_FEATURE).
Proof.
  intros told refused.
  assert (∀ e, e ≠ ErrorCode.SUCCESS → refused (ErrorCode.to_Z e)) as Hrefused.
  { intros e He. unfold refused. erewrite IncomingLeConnectionParameterUpdate_run by done.
    destruct (Z.eqb_spec (ErrorCode.to_Z e) 0); [by destruct e|]. by eexists. }
  split.
  { unfold LeConnectionUpdate. erewrite run_with_connection by done.
    rewrite bool_decide_false by by rewrite Hperipheral. by autorewrite with run. }
  unfold IncomingLeConnectionParameterRequest. erewrite run_le_connection by done.
  autorewrite with run. rewrite IsLeEventUnmasked_Ok. autorewrite with run. unfold id.
  destruct (le_event_unmasked _ ca).
  2: { eexists. split; [reflexivity|]. split; [done|]. by apply Hrefused. }
  eexists. split; [reflexivity|]. split; [done|].
  destruct (LeRemoteConnectionParameterRequestReply_run imin' imax' tmo' lat' min_ce max_ce ca a
    Ha Hlat') as [Hinvalid Hvalid].
  split; [exact Hinvalid|]. split.
  - intros Hv. rewrite (Hvalid Hv). erewrite IncomingLeConnectionParameterUpdate_run by done.
    do 4 eexists. do 4 (split; [reflexivity|]). unfold parameters_of. cbn [Z.eqb].
    by rewrite !connection_of_set, !decide_True, Ha, Hb.
  - split; [|by apply Hrefused]. unfold LeRemoteConnectionParameterRequestNegativeReply.
    erewrite run_with_connection by done. by autorewrite with run.
Qed.
End Parameters.

(** ** The end of a connection *)

Section Ending.
Context {env : Environment}.

(** The connection [handle] can be closed: the library knows its link. *)
Definition can_disconnect (handle : Z) (c : LeController) : Prop :=
  handler_wf (connections_ c) ∧
  ∀ reason, link_layer_accepts (ll_ c) (link_layer_remove_link handle reason) = true.

(** An update of a connection keeps the tables well formed. *)
Lemma handler_wf_set_le_connection handle f c :
  (∀ k, LeAclConnection.handle (f k) = LeAclConnection.handle k) →
  handler_wf (connections_ c) → handler_wf (connections_ (set_le_connection handle f c)).
Proof.
  intros Hf [? Hl ? ? ? ?]. split; try done. cbn.
  intros h k [(-> & k' & Hh & ->)|[_ Hh]]%lookup_alter_Some; [|by apply Hl].
  rewrite Hf. by apply Hl.
Qed.

(** The library knows the links of the LE connections, and no other. *)
Definition linked (c : LeController) : Prop :=
  handler_wf (connections_ c) ∧ known_links (ll_ c) = dom (le_acl_connections_ (connections_ c)).
Lemma linked_can_disconnect {laws : LinkLayerLaws} handle c :
  linked c → is_Some (connection_of handle c) → can_disconnect handle c.
Proof.
  intros [Hwf Hlinks] Hk. split; [done|]. intros reason. rewrite accepts_remove_link, Hlinks.
  by apply bool_decide_eq_true, elem_of_dom.
Qed.
Lemma linked_can_connect {laws : LinkLayerLaws} c :
  linked c →
  (∃ u, kLeAclRangeStart ≤ u ≤ kLeAclRangeEnd ∧ le_acl_connections_ (connections_ c) !! u = None) →
  can_connect c.
Proof.
  intros [Hwf Hlinks] Hfree. split; [done|]. split; [done|]. intros handle address role Hnone.
  rewrite accepts_add_link, Hlinks. by apply bool_decide_eq_true, not_elem_of_dom.
Qed.
Lemma linked_set handle f c :
  (∀ k, LeAclConnection.handle (f k) = LeAclConnection.handle k) →
  linked c → linked (set_le_connection handle f c).
Proof.
  intros Hf [Hwf Hlinks]. split; [by apply handler_wf_set_le_connection|].
  cbn. by rewrite dom_alter_L.
Qed.

(** The controller without a connection; the library is told. *)
Definition dropped (handle reason : Z) (c : LeController) : LeController :=
  c <| connections_ ::= λ h, h <| le_acl_connections_ ::= delete handle |> |>
    <| ll_ ::= cons (link_layer_remove_link handle reason) |>.
Definition disconnection_output (handle reason : Z) (c : LeController) : list Output :=
  if event_unmasked EventCode.DISCONNECTION_COMPLETE c
  then [ScheduleTask 0 (SendEventLater (DisconnectionComplete ErrorCode.SUCCESS handle reason))]
  else [].

Lemma run_disconnect_handle {B} handle k (f : bool → M B) t c :
  handler_wf (connections_ c) → connection_of handle c = Some k →
  (disconnect_handle handle ≫= f) t c =
    f true t (c <| connections_ ::= λ h, h <| le_acl_connections_ ::= delete handle |> |>).
Proof.
  intros [Ha Hl Hs _ _ _] Hk. unfold connection_of in Hk. pose proof (Hl _ _ Hk) as [Hr _].
  assert (sco_connections_ (connections_ c) !! handle = None ∧
          acl_connections_ (connections_ c) !! handle = None) as [Hsco Hacl].
  { split; apply eq_None_not_Some; intros [k' Hk']; [apply Hs in Hk'|apply Ha in Hk'];
      unfold kAclRangeStart, kAclRangeEnd, kLeAclRangeStart, kLeAclRangeEnd, kScoRangeStart,
        kScoRangeEnd in *; lia. }
  unfold disconnect_handle. autorewrite with run.
  unfold Connections.Disconnect, HasLeAclHandle. rewrite Hsco, Hacl, bool_decide_true by by exists k.
  autorewrite with run. cbn [for_each]. by autorewrite with run.
Qed.

Lemma run_SendDisconnectionCompleteEvent {B} handle reason (f : () → M B) t c :
  (SendDisconnectionCompleteEvent handle reason ≫= f) t c =
    emit (disconnection_output handle reason c) (f () t c).
Proof.
  unfold SendDisconnectionCompleteEvent, disconnection_output. rewrite run_if_unmasked by done.
  destruct (event_unmasked _ c); by autorewrite with run.
Qed.

Lemma Disconnect_run handle host_reason reason t c k :
  can_disconnect handle c → connection_of handle c = Some k →
  Disconnect handle host_reason reason t c =
    Ok (ErrorCode.SUCCESS, dropped handle (ErrorCode.to_Z reason) c,
        ScheduleTask 0 (SendToRemote (DisconnectPacket (own k) (peer k) (ErrorCode.to_Z host_reason)) 0)
        :: disconnection_output handle (ErrorCode.to_Z reason) c).
Proof.
  intros [Hwf Hll] Hk. unfold Disconnect. erewrite run_with_connection by done.
  autorewrite with run. erewrite run_disconnect_handle by done.
  rewrite run_SendDisconnectionCompleteEvent. autorewrite with run.
  rewrite run_assert by apply Hll. unfold mret, M_ret. cbn. by rewrite app_nil_r.
Qed.

Lemma IncomingLeDisconnectPacket_run handle reason t c k :
  can_disconnect handle c → connection_of handle c = Some k →
  IncomingLeDisconnectPacket handle reason t c =
    Ok ((), dropped handle reason c, disconnection_output handle reason c).
Proof.
  intros [Hwf Hll] Hk. unfold IncomingLeDisconnectPacket. erewrite run_le_connection by done.
  pose proof (wf_le _ Hwf _ _ Hk) as [_ ->]. erewrite run_disconnect_handle by done.
  autorewrite with run. rewrite run_assert by done. autorewrite with run.
  rewrite run_assert by apply Hll.
  unfold SendDisconnectionCompleteEvent, disconnection_output. rewrite if_unmasked_run by done.
  by destruct (event_unmasked _ _).
Qed.

(** The connection a packet is received on. *)
Lemma GetLeAclConnectionHandle_Some own_address peer_address c handle :
  GetLeAclConnectionHandle own_address peer_address (connections_ c) = Some handle →
  ∃ k, connection_of handle c = Some k ∧ own k = own_address ∧ peer k = peer_address.
Proof.
  unfold GetLeAclConnectionHandle. intros ([handle' k] & Hf & ->)%fmap_Some.
  apply find_first_Some in Hf as [Hin [Ha Ho]%andb_prop]. apply elem_of_iterate in Hin.
  apply bool_decide_eq_true in Ha, Ho. by exists k.
Qed.

(** A packet received on a connection resets its timer, then is handled. *)
Lemma IncomingPacket_on_connection packet rssi handle m t c :
  IncomingConnectionPacket handle packet rssi = Some m →
  let '(source, destination) := packet_addresses packet in
  GetLeAclConnectionHandle destination source (connections_ c) = Some handle →
  IncomingPacket packet rssi t c = m t (set_le_connection handle (LeAclConnection.ResetLinkTimer t) c).
Proof.
  intros Hm. destruct (packet_addresses packet) as [s d] eqn:Ha. intros Hh.
  destruct (GetLeAclConnectionHandle_Some _ _ _ _ Hh) as (k & Hk & _).
  destruct packet; try discriminate Hm; injection Ha as <- <-;
    (cbn [IncomingPacket packet_addresses]; autorewrite with run; unfold id; rewrite Hh; autorewrite with run;
     erewrite run_le_connection by done; autorewrite with run; rewrite Hm; reflexivity).
Qed.

(** The end of a connection. A Disconnect command on one side, and the
    packet it sends on the other, remove that connection and no other from both
    sides. Each host gets one Disconnection
    Complete event, unless it masks it, with its own handle and the reason meant
    for it. On a handle that is not connected the command has no effect and
    answers Unknown Connection. *)
Theorem disconnection_procedure (ha hb ta tb rssi : Z) (ca cb : LeController) (a : LeAclConnection)
    (host_reason reason : ErrorCode.t)
    (Hca : can_disconnect ha ca) (Hcb : can_disconnect hb cb) (Ha : connection_of ha ca = Some a)
    (Hb : GetLeAclConnectionHandle (peer a) (own a) (connections_ cb) = Some hb) :
  (∀ handle, connection_of handle ca = None →
   Disconnect handle host_reason reason ta ca = Ok (ErrorCode.UNKNOWN_CONNECTION, ca, [])) ∧
  ∃ ca' outa cb',
  Disconnect ha host_reason reason ta ca = Ok (ErrorCode.SUCCESS, ca', outa) ∧
  sent_packets outa = [DisconnectPacket (own a) (peer a) (ErrorCode.to_Z host_reason)] ∧
  IncomingPacket (DisconnectPacket (own a) (peer a) (ErrorCode.to_Z host_reason)) rssi tb cb =
    Ok ((), cb', disconnection_output hb (ErrorCode.to_Z host_reason) cb) ∧
  drop 1 outa = disconnection_output ha (ErrorCode.to_Z reason) ca ∧
  le_acl_connections_ (connections_ ca') = delete ha (le_acl_connections_ (connections_ ca)) ∧
  le_acl_connections_ (connections_ cb') = delete hb (le_acl_connections_ (connections_ cb)).
Proof.
  split.
  { intros handle Hnone. unfold Disconnect, with_connection, HasLeAclHandle. autorewrite with run.
    unfold connection_of in Hnone. unfold id. rewrite Hnone.
    rewrite bool_decide_false by by intros []. done. }
  destruct (GetLeAclConnectionHandle_Some _ _ _ _ Hb) as (b & Hkb & _).
  pose proof (IncomingPacket_on_connection
    (DisconnectPacket (own a) (peer a) (ErrorCode.to_Z host_reason)) rssi hb _ tb cb eq_refl Hb) as Hrun.
  do 3 eexists. split; [by apply Disconnect_run|]. split.
  { unfold disconnection_output. by destruct (event_unmasked _ _). }
  split.
  { rewrite Hrun. erewrite IncomingLeDisconnectPacket_run; [reflexivity| |].
    - split; [|apply Hcb]. apply handler_wf_set_le_connection; [done|apply Hcb].
    - rewrite connection_of_set, decide_True, Hkb by done. reflexivity. }
  do 2 (split; [done|]). cbn. by rewrite delete_alter_eq.
Qed.

(** ** Supervision *)

(** The last time a connection may stay without a packet. *)
Definition deadline (k : LeAclConnection) : Z :=
  LeAclConnection.last_packet_timestamp_ k + LeAclConnection.timeout_ k.

(** The delay (in ms) of the next check that a run asks for. *)
Definition recheck (handle : Z) (out : list Output) : list Z :=
  omap (λ o, match o with
             | ScheduleTask d (CheckExpiringConnectionLater h) =>
                 if bool_decide (h = handle) then Some d else None
             | _ => None
             end) out.

(** A check at the time [t], and the next check at [t']: later than it was asked
    for, by at most [lag] nanoseconds. *)
Definition check_step (handle lag : Z) : relation (Z * LeController) := λ '(t, c) '(t', c'),
  ∃ out d, CheckExpiringConnection handle t c = Ok ((), c', out) ∧ recheck handle out = [d] ∧
  t + d * 1000000 < t' ≤ t + d * 1000000 + lag.

Lemma to_milliseconds_spec ns :
  0 ≤ ns → 0 ≤ to_milliseconds ns ∧ to_milliseconds ns * 1000000 ≤ ns < (to_milliseconds ns + 1) * 1000000.
Proof.
  intros. unfold to_milliseconds. rewrite Z.quot_div_nonneg by lia.
  pose proof (Z.div_mod ns 1000000 ltac:(lia)). pose proof (Z.mod_pos_bound ns 1000000 ltac:(lia)).
  pose proof (Z.div_pos ns 1000000 ltac:(lia) ltac:(lia)). lia.
Qed.

(** Before the deadline a check changes nothing and asks for another one, which
    is due at most one millisecond before the deadline or half of it. *)
Lemma CheckExpiringConnection_alive handle t c k :
  connection_of handle c = Some k → 0 ≤ LeAclConnection.timeout_ k → t ≤ deadline k →
  ∃ out d, CheckExpiringConnection handle t c = Ok ((), c, out) ∧ recheck handle out = [d] ∧
  let near := LeAclConnection.last_packet_timestamp_ k + LeAclConnection.timeout_ k `quot` 2 <? t in
  let due := if near then deadline k
             else LeAclConnection.last_packet_timestamp_ k + LeAclConnection.timeout_ k `quot` 2 in
  0 ≤ d ∧ t + d * 1000000 ≤ due < t + (d + 1) * 1000000 ∧ due ≤ deadline k ∧
  sent_packets out = (if near then [PingRequest (own k) (peer k)] else []).
Proof.
  intros Hk Hpos Ht. unfold CheckExpiringConnection, HasLeAclHandle. autorewrite with run. unfold id.
  rewrite bool_decide_true by by exists k. cbn [negb]. erewrite run_le_connection by done.
  autorewrite with run. unfold deadline in *.
  unfold LeAclConnection.HasExpired, LeAclConnection.IsNearExpiring, LeAclConnection.TimeUntilExpired,
    LeAclConnection.TimeUntilNearExpiring.
  assert (Z.quot (LeAclConnection.timeout_ k) 2 ≤ LeAclConnection.timeout_ k)
    by (rewrite Z.quot_div_nonneg by lia; apply Z.div_le_upper_bound; lia).
  set (half := LeAclConnection.last_packet_timestamp_ k + _ `quot` 2) in *.
  destruct (Z.ltb_spec (LeAclConnection.last_packet_timestamp_ k + LeAclConnection.timeout_ k - t) 0);
    [lia|].
  destruct (Z.ltb_spec (half - t) 0), (Z.ltb_spec half t); try lia.
  - autorewrite with run. do 2 eexists. split; [reflexivity|].
    cbn. rewrite bool_decide_true by done. split; [done|].
    pose proof (to_milliseconds_spec
      (LeAclConnection.last_packet_timestamp_ k + LeAclConnection.timeout_ k - t) ltac:(lia)).
    repeat split; try lia.
  - do 2 eexists. split; [reflexivity|]. cbn. rewrite bool_decide_true by done. split; [done|].
    pose proof (to_milliseconds_spec (half - t) ltac:(lia)). repeat split; lia.
Qed.

(** After it the connection is dropped. *)
Lemma CheckExpiringConnection_expired handle t c k :
  can_disconnect handle c → connection_of handle c = Some k → deadline k < t →
  CheckExpiringConnection handle t c =
    Ok ((), dropped handle (ErrorCode.to_Z ErrorCode.CONNECTION_TIMEOUT) c,
        ScheduleTask 0 (SendToRemote
          (DisconnectPacket (own k) (peer k) (ErrorCode.to_Z ErrorCode.CONNECTION_TIMEOUT)) 0) ::
        disconnection_output handle (ErrorCode.to_Z ErrorCode.CONNECTION_TIMEOUT) c).
Proof.
  intros Hc Hk Ht. unfold CheckExpiringConnection, HasLeAclHandle. autorewrite with run. unfold id.
  rewrite bool_decide_true by by exists k. cbn [negb]. erewrite run_le_connection by done.
  autorewrite with run. unfold LeAclConnection.HasExpired, LeAclConnection.TimeUntilExpired.
  unfold deadline in *. rewrite (proj2 (Z.ltb_lt _ _)) by lia.
  erewrite run_bind by by apply Disconnect_run. unfold mret, M_ret. cbn. by rewrite app_nil_r.
Qed.

Lemma check_steps handle lag n t c k t' c' :
  connection_of handle c = Some k → 0 ≤ LeAclConnection.timeout_ k → can_disconnect handle c → 0 < lag →
  nsteps (check_step handle lag) n (t, c) (t', c') →
  c' = c ∧ t + Z.of_nat n ≤ t' ∧ (t' ≤ deadline k + lag ∨ n = 0%nat) ∧
  Z.of_nat n ≤ Z.max 0 (deadline k - t + 1).
Proof.
  intros Hk Hpos Hc Hlag. revert t. induction n as [|n IH]; intros t Hsteps.
  { inversion Hsteps; subst. repeat split; try lia. }
  inversion Hsteps as [|? ? [t1 c1] ? Hstep Hrest]; subst.
  destruct Hstep as (out & d & E & Hre & Hd).
  destruct (Z.le_gt_cases t (deadline k)) as [Ht|Ht].
  2: { exfalso. rewrite (CheckExpiringConnection_expired handle t c k) in E by (done || lia).
       injection E as _ <-. revert Hre. unfold disconnection_output.
       by destruct (event_unmasked _ _). }
  destruct (CheckExpiringConnection_alive handle t c k Hk Hpos Ht)
    as (out' & d' & E' & Hre' & Hd0 & Hdue & Hle & _).
  rewrite E' in E. injection E as <- <-. rewrite Hre' in Hre. injection Hre as <-.
  destruct (IH t1 Hrest) as (-> & Hn & Hlast & Hbound). split; [done|].
  assert (t + d' * 1000000 ≤ deadline k) by (etrans; [apply Hdue|exact Hle]).
  split; [lia|]. split; [|lia]. left.
  destruct Hlast as [?| ->]; [done|]. inversion Hrest; subst. lia.
Qed.

(** C18. Supervision. Take a connection whose link the library would remove if asked to
    (in every state a controller can reach the library knows the links of its connections),
    on which no packet is received, and any number of checks, each run after it was asked for and at most [lag]
    nanoseconds late. Up to the deadline (the supervision timeout after the last
    packet) a check changes nothing, pings the peer once half of the time is over,
    and asks for exactly one more check, due no later than the deadline. So
    there is a bound on the number of checks, the last one comes at most [lag]
    after the deadline, and it drops the connection, tells the peer and the host
    Connection Timeout, and asks for no other check. *)
Theorem supervision_timeout (handle lag t t' : Z) (n : nat) (c c' : LeController) (k : LeAclConnection)
    (Hk : connection_of handle c = Some k) (Hpos : 0 ≤ LeAclConnection.timeout_ k)
    (Hc : can_disconnect handle c) (Hlag : 0 < lag) (Ht : t ≤ deadline k)
    (Hsteps : nsteps (check_step handle lag) n (t, c) (t', c')) :
  c' = c ∧ Z.of_nat n ≤ deadline k - t + 1 ∧ t' ≤ deadline k + lag ∧
  if t' <=? deadline k then
    ∃ out d, CheckExpiringConnection handle t' c = Ok ((), c, out) ∧ recheck handle out = [d] ∧
    0 ≤ d ∧ t' + d * 1000000 ≤ deadline k ∧
    sent_packets out =
      (if LeAclConnection.last_packet_timestamp_ k + LeAclConnection.timeout_ k `quot` 2 <? t'
       then [PingRequest (own k) (peer k)] else [])
  else
    let reason := ErrorCode.to_Z ErrorCode.CONNECTION_TIMEOUT in
    ∃ out, CheckExpiringConnection handle t' c = Ok ((), dropped handle reason c, out) ∧
    connection_of handle (dropped handle reason c) = None ∧
    out = ScheduleTask 0 (SendToRemote (DisconnectPacket (own k) (peer k) reason) 0) ::
            disconnection_output handle reason c ∧ recheck handle out = [].
Proof.
  destruct (check_steps handle lag n t c k t' c' Hk Hpos Hc Hlag Hsteps) as (-> & Hn & Hlast & Hbound).
  split; [done|]. split; [lia|]. split.
  { destruct Hlast as [?| ->]; [done|]. inversion Hsteps; subst. lia. }
  destruct (Z.leb_spec t' (deadline k)) as [Ht'|Ht'].
  - destruct (CheckExpiringConnection_alive handle t' c k Hk Hpos Ht')
      as (out & d & E & Hre & Hd & Hdue & Hle & Hs).
    exists out, d. do 3 (split; [done|]). split; [|exact Hs]. etrans; [apply Hdue|exact Hle].
  - intros reason. eexists. split; [by apply CheckExpiringConnection_expired|]. split.
    { unfold connection_of, dropped. cbn. apply lookup_delete_eq. }
    split; [done|]. unfold disconnection_output. by destruct (event_unmasked _ _).
Qed.
End Ending.

(** ** Reset *)

Section Resetting.
Context {env : Environment}.

(** The packets that close all the connections. *)
Definition disconnect_packets (reason : ErrorCode.t) (l : list (Z * LeAclConnection)) : list Output :=
  (λ '(_, k), ScheduleTask 0 (SendToRemote
     (DisconnectPacket (own k) (peer k) (ErrorCode.to_Z reason)) 0)) <$> l.

Lemma DisconnectAll_run reason t c :
  DisconnectAll reason t c =
    Ok ((), c, disconnect_packets reason (iterate (le_acl_connections_ (connections_ c)))).
Proof.
  unfold DisconnectAll, GetLeAclHandles. autorewrite with run.
  assert (∀ h k, (h, k) ∈ iterate (le_acl_connections_ (connections_ c)) → connection_of h c = Some k)
    as Hin by (intros h k; apply elem_of_iterate).
  revert Hin. generalize (iterate (le_acl_connections_ (connections_ c))).
  intros l. induction l as [|[h k] l IH]; intros Hin; [done|]. cbn [fmap list_fmap fst for_each].
  autorewrite with run. erewrite run_le_connection by (apply Hin; left). autorewrite with run.
  rewrite IH by (intros; apply Hin; by right). done.
Qed.

Lemma cancel_run (tasks : list Z) t c :
  for_each tasks (λ task_id, output (CancelTask task_id)) t c = Ok ((), c, CancelTask <$> tasks).
Proof.
  induction tasks as [|task tasks IH]; [done|]. cbn [for_each]. autorewrite with run. by rewrite IH.
Qed.

(** What a reset leaves: a new controller but for the default PHYs and the random
    address, and for what survives. *)
Definition reset_state (c : LeController) : LeController :=
  (new_controller (address_ c) (properties_ c))
    <| default_tx_phys_ := LeSupportedPhys (properties_ c) |>
    <| default_rx_phys_ := LeSupportedPhys (properties_ c) |>
    <| random_address_ := kEmpty |>
    <| channel_sounding_host_support_ := channel_sounding_host_support_ c |>
    <| requested_tx_phys_ := requested_tx_phys_ c |>
    <| requested_rx_phys_ := requested_rx_phys_ c |>
    <| iso_sdu_ := iso_sdu_ c |>
    <| rand_calls_ := rand_calls_ c |>.

Lemma le_Reset_run (t : Z) (c : LeController) :
  ∃ cancelled, Reset t c = Ok ((), reset_state c,
    disconnect_packets ErrorCode.REMOTE_USER_TERMINATED_CONNECTION
      (iterate (le_acl_connections_ (connections_ c))) ++ (CancelTask <$> cancelled)).
Proof.
  unfold Reset. erewrite run_bind by apply DisconnectAll_run. autorewrite with run.
  cbn [Connections.Reset]. erewrite run_bind by apply cancel_run.
  unfold modify, emit. cbn [mbind outcome_bind]. rewrite app_nil_r.
  eexists. replace (reset_state c) with (reset_fields (c <| connections_ := empty_handler |>)); [reflexivity|].
  by destruct c.
Qed.

(** Reset always succeeds, from any state. It sends one disconnection to the
    peer of each connection, in the order of the table, and cancels the streams;
    the host gets no event. The state afterwards is that of a new controller
    with the same address and properties, except that the default PHYs are all
    the supported ones and the random address is empty, and that four things
    survive: the channel sounding host support flag, the last PHYs requested, the
    SDU in reception and the state of the random number generator. *)
Theorem Reset_spec (t : Z) (c : LeController) :
  ∃ out c', Reset t c = Ok ((), c', out) ∧
  (∃ cancelled, out = disconnect_packets ErrorCode.REMOTE_USER_TERMINATED_CONNECTION
                        (iterate (le_acl_connections_ (connections_ c))) ++ (CancelTask <$> cancelled)) ∧
  c' = (new_controller (address_ c) (properties_ c))
         <| default_tx_phys_ := LeSupportedPhys (properties_ c) |>
         <| default_rx_phys_ := LeSupportedPhys (properties_ c) |>
         <| random_address_ := kEmpty |>
         <| channel_sounding_host_support_ := channel_sounding_host_support_ c |>
         <| requested_tx_phys_ := requested_tx_phys_ c |>
         <| requested_rx_phys_ := requested_rx_phys_ c |>
         <| iso_sdu_ := iso_sdu_ c |>
         <| rand_calls_ := rand_calls_ c |>.
Proof. destruct (le_Reset_run t c) as [cancelled E]. do 2 eexists. split; [exact E|]. split; [by eexists|done]. Qed.
End Resetting.

(** ** Reception *)

Section Reception.
Context {env : Environment}.

(** Only the connection [handle], and the library's state, may differ. *)
Definition only_touches (handle : Z) (c c' : LeController) : Prop :=
  (∀ h, h ≠ handle → connection_of h c' = connection_of h c) ∧
  ∃ m l, c' = c <| connections_ ::= λ h, h <| le_acl_connections_ := m |> |> <| ll_ := l |>.

Lemma only_touches_refl handle c : only_touches handle c c.
Proof.
  split; [done|]. exists (le_acl_connections_ (connections_ c)), (ll_ c).
  by destruct c as [??????????????????[]].
Qed.

Lemma only_touches_set handle f c c' :
  only_touches handle c c' → only_touches handle c (set_le_connection handle f c').
Proof.
  intros [Ho (m & l & ->)]. split.
  - intros h Hh. rewrite connection_of_set, decide_False by done. by apply Ho.
  - by exists (alter f handle m), l.
Qed.

Lemma only_touches_dropped handle reason c c' :
  only_touches handle c c' → only_touches handle c (dropped handle reason c').
Proof.
  intros [Ho (m & l & ->)]. split; [|by do 2 eexists].
  intros h Hh. rewrite <-Ho by done. unfold connection_of, dropped. cbn. by apply lookup_delete_ne.
Qed.

Lemma only_touches_ll handle call c c' :
  only_touches handle c c' → only_touches handle c (c' <| ll_ ::= cons call |>).
Proof. intros [Ho (m & l & ->)]. split; [done|]. by do 2 eexists. Qed.

(** A packet that only the other role sends. *)
Definition role_violation (packet : LinkLayerPacket) (k : LeAclConnection) : bool :=
  match packet with
  | LlPhyRsp _ _ _ _ | LlSubrateReq _ _ _ _ _ _ _ => bool_decide (LeAclConnection.role k ≠ Role.CENTRAL)
  | LlPhyUpdateInd _ _ _ _ _ | LlSubrateInd _ _ _ _ _ _ _ _ =>
      bool_decide (LeAclConnection.role k ≠ Role.PERIPHERAL)
  | _ => false
  end.

(** A packet whose handler evaluates what it may not: the product of the peer's
    values in a subrate request, and the parameters of a channel sounding
    procedure, which the host may not have set. *)
Definition evaluates_unchecked (packet : LinkLayerPacket) : bool :=
  match packet with
  | LlSubrateReq _ _ _ _ _ _ _ | LlCsReq _ _ _ | LlCsRsp _ _ _ _ _ | LlCsInd _ _ _ _ => true
  | _ => false
  end.

(** [m] returns and touches the connection [handle] only. *)
Definition stays_on (handle : Z) (m : M ()) (t : Z) (c0 c : LeController) : Prop :=
  ∃ c' out, m t c = Ok ((), c', out) ∧ only_touches handle c0 c'.

(** The last call of a handler: it sends a packet or an event, or nothing. *)
Ltac last_call :=
  do 2 eexists; split; [first [reflexivity|by apply send_if_unmasked_run]|];
  auto using only_touches_set, only_touches_ll, only_touches_dropped.

(** [m], from a controller that differs from [c0] on the connection [handle] only,
    leaves one that does; where [total], it returns. *)
Definition within (total : bool) (handle : Z) {A} (m : M A) : Prop :=
  ∀ t c0 c, only_touches handle c0 c → is_Some (connection_of handle c) →
  match m t c with
  | Ok (_, c', _) => only_touches handle c0 c' ∧ is_Some (connection_of handle c')
  | _ => total = false
  end.

Lemma within_bind total handle {A B} (m : M A) (f : A → M B) :
  within total handle m → (∀ a, within total handle (f a)) → within total handle (m ≫= f).
Proof.
  intros Hm Hf t c0 c H0 Hk. specialize (Hm t c0 c H0 Hk). unfold mbind, M_bind.
  destruct (m t c) as [[[a c1] o1]| | |]; [|done..]. destruct Hm as [H1 Hk1].
  specialize (Hf a t c0 c1 H1 Hk1). by destruct (f a t c1) as [[[b c2] o2]| | |].
Qed.
Lemma within_same total handle {A} (m : M A) :
  (∀ t c, ∃ a out, m t c = Ok (a, c, out)) → within total handle m.
Proof. intros Hm t c0 c H0 Hk. destruct (Hm t c) as (a & out & ->). by split. Qed.
Lemma within_update total handle f : within total handle (update_le_connection handle f).
Proof.
  intros t c0 c H0 Hk. cbn. split; [by apply only_touches_set|].
  rewrite connection_of_set, decide_True by done. by apply fmap_is_Some.
Qed.
Lemma within_connection total handle : within total handle (le_connection handle).
Proof.
  intros t c0 c H0 [k Hk]. pose proof (run_le_connection handle k mret t c Hk) as E. revert E.
  unfold mbind, M_bind. destruct (le_connection handle t c) as [[[k' c1] out]| | |] eqn:El; [|done..].
  cbn. intros [= <- -> _]. split; [done|by exists k'].
Qed.
Lemma within_lift handle {A} (r : outcome A) : within false handle (lift r).
Proof. intros t c0 c H0 Hk. unfold lift. by destruct r. Qed.
Lemma within_for_each total handle {A} (l : list A) (f : A → M ()) :
  (∀ a, within total handle (f a)) → within total handle (for_each l f).
Proof.
  intros Hf. induction l as [|a l IH]; [by apply within_same; do 2 eexists|].
  by apply within_bind.
Qed.

(** Decomposes a handler. *)
Ltac within_step :=
  lazymatch goal with
  | |- within _ _ (if ?b then _ else _) => destruct b
  | |- within _ _ (match ?x with _ => _ end) => destruct x
  | |- within _ _ (let _ := _ in _) => cbv zeta
  | |- within _ _ (_ ≫= _) => apply within_bind; [|intros ?]
  | |- within _ _ (for_each _ _) => apply within_for_each; intros ?
  | |- within _ _ (update_le_connection _ _) => apply within_update
  | |- within _ _ (le_connection _) => apply within_connection
  | |- within _ _ (lift (IsLeEventUnmasked _ _)) => rewrite IsLeEventUnmasked_Ok
  | |- within _ _ (lift (Ok _)) => apply within_same; by do 2 eexists
  | |- within false _ (lift _) => apply within_lift
  | |- within _ _ (tell _ _) => apply within_same; intros; rewrite tell_run; by do 2 eexists
  | |- within _ _ (schedule_if_unmasked _ _) =>
      apply within_same; intros; rewrite schedule_if_unmasked_run; by do 2 eexists
  | |- within _ _ _ => apply within_same; by do 2 eexists
  end.

(** The handlers of the channel sounding, subrating and isochronous packets. *)
Lemma later_packets_within handle packet rssi m :
  IncomingConnectionPacket handle packet rssi = Some m →
  match packet with
  | LlSubrateReq _ _ _ _ _ _ _ | LlCsReq _ _ _ | LlCsRsp _ _ _ _ _ | LlCsInd _ _ _ _ => within false handle m
  | LeConnectedIsochronousPdu _ _ _ _ _ _
  | LlCsCapabilitiesReq _ _ _ | LlCsCapabilitiesRsp _ _ _ _ | LlCsFaeReq _ _ | LlCsFaeRsp _ _ _ _
  | LlCsConfigReq _ _ _ | LlCsConfigRsp _ _ _ _ | LlCsSecurityEnableReq _ _ _ _ _
  | LlCsSecurityEnableRsp _ _ _ _ _ _ | LlCsTerminateReq _ _ _ _ _ | LlCsTerminateRsp _ _ _ _ _
  | LlCsChannelMapInd _ _ _ _ => within true handle m
  | _ => True
  end.
Proof.
  intros Hm. destruct packet; try exact I; injection Hm as <-.
  all: unfold IncomingLeConnectedIsochronousPdu, IncomingLlSubrateReq, IncomingLlCsCapabilitiesReq,
    IncomingLlCsCapabilitiesRsp, IncomingLlCsFaeReq, IncomingLlCsFaeRsp, IncomingLlCsConfigReq,
    IncomingLlCsConfigRsp, IncomingLlCsSecurityReq, IncomingLlCsSecurityRsp, IncomingLlCsReq,
    IncomingLlCsRsp, IncomingLlCsInd, IncomingLlCsChannelMapInd, IncomingLlCsTerminateReq,
    IncomingLlCsTerminateRsp, procedure_started, procedure_stopped, capabilities_event, learn, update_cs.
  all: repeat within_step.
Qed.

Lemma within_stays handle m t c0 c :
  within true handle m → only_touches handle c0 c → is_Some (connection_of handle c) →
  stays_on handle m t c0 c.
Proof.
  intros Hm H0 Hk. specialize (Hm t c0 c H0 Hk).
  destruct (m t c) as [[[[] c'] out]| | |] eqn:E; [|done..]. exists c', out. by destruct Hm.
Qed.
Lemma within_may handle m t c0 c :
  within false handle m → only_touches handle c0 c → is_Some (connection_of handle c) →
  ∀ c' out, m t c = Ok ((), c', out) → only_touches handle c0 c'.
Proof. intros Hm H0 Hk c' out E. specialize (Hm t c0 c H0 Hk). rewrite E in Hm. by destruct Hm. Qed.

(** The library takes the payload of an LLCP packet. *)
Definition takes_payload (packet : LinkLayerPacket) (c : LeController) : Prop :=
  match packet with
  | LlcpPacket _ _ payload => ∀ handle, link_layer_accepts (ll_ c) (link_layer_ingest_llcp handle payload) = true
  | _ => True
  end.

(** What the reception of [packet] by [m] guarantees. *)
Definition received (handle : Z) (packet : LinkLayerPacket) (m : M ()) (k : LeAclConnection) (t : Z)
    (c0 c : LeController) : Prop :=
  if role_violation packet k then m t c = Fatal
  else if evaluates_unchecked packet then ∀ c' out, m t c = Ok ((), c', out) → only_touches handle c0 c'
  else stays_on handle m t c0 c.

(** The handlers of the packets received on a connection. *)
Lemma IncomingConnectionPacket_run handle packet rssi m t c0 c k :
  IncomingConnectionPacket handle packet rssi = Some m →
  can_disconnect handle c → takes_payload packet c → only_touches handle c0 c → connection_of handle c = Some k →
  received handle packet m k t c0 c.
Proof.
  intros Hm Hc Htakes Ht Hk. pose proof (later_packets_within _ _ _ _ Hm) as Hlater. unfold received.
  destruct packet; try discriminate Hm; cbn [evaluates_unchecked role_violation];
    try (by apply within_stays); try (by apply within_may).
  all: try match type of Hlater with
    within false _ _ => destruct (bool_decide _) eqn:Hrole; [|by apply within_may] end.
  all: clear Hlater; injection Hm as <-.
  all: try match goal with |- if ?b then _ else _ => destruct b eqn:Hrole end.
  all: unfold stays_on, IncomingLeAclPacket, IncomingLlcpPacket, IncomingLeConnectionParameterRequest,
    IncomingLeEncryptConnection, IncomingLeEncryptConnectionResponse, IncomingLeReadRemoteFeatures,
    IncomingLeReadRemoteFeaturesResponse, IncomingReadRemoteVersion, IncomingReadRemoteVersionResponse,
    IncomingPingRequest, IncomingLlPhyReq, IncomingLlPhyRsp, IncomingLlPhyUpdateInd, IncomingLlSubrateReq.
  all: try erewrite run_le_connection by done.
  all: autorewrite with run; try rewrite IsLeEventUnmasked_Ok; autorewrite with run.
  all: try (do 2 eexists; split; [reflexivity|]; auto using only_touches_set; fail).
  - destruct (GetLeAclConnectionHandle _ _ _); [|last_call]. autorewrite with run. rewrite Htakes. last_call.
  - destruct (bool_decide _); [last_call|]. unfold send_phy_update_ind. autorewrite with run. last_call.
  - apply bool_decide_eq_true in Hrole.
    by rewrite (bool_decide_false (LeAclConnection.role k = Role.CENTRAL)) by exact Hrole.
  - apply bool_decide_eq_false, dec_stable in Hrole. rewrite run_assert by by rewrite Hrole.
    unfold send_phy_update_ind. autorewrite with run. last_call.
  - apply bool_decide_eq_true in Hrole.
    by rewrite (bool_decide_false (LeAclConnection.role k = Role.PERIPHERAL)) by exact Hrole.
  - apply bool_decide_eq_false, dec_stable in Hrole. rewrite run_assert by by rewrite Hrole.
    autorewrite with run. last_call.
  - erewrite IncomingLeDisconnectPacket_run by done. last_call.
  - destruct (GetLeAclConnectionHandle _ _ _); last_call.
  - destruct (le_event_unmasked _ _); last_call.
  - erewrite IncomingLeConnectionParameterUpdate_run by done. destruct (status =? 0); last_call.
  - last_call.
  - destruct (if negb _ then _ else _) as [? success]. destruct (LeAclConnection.IsEncrypted k); [last_call|].
    destruct success; autorewrite with run; last_call.
  - destruct (status =? _); cbn [when]; autorewrite with run; last_call.
  - apply bool_decide_eq_true in Hrole.
    by rewrite (bool_decide_false (LeAclConnection.role k = Role.CENTRAL)) by exact Hrole.
  - apply bool_decide_eq_true in Hrole. unfold IncomingLlSubrateInd. erewrite run_le_connection by done.
    by rewrite (bool_decide_false (LeAclConnection.role k = Role.PERIPHERAL)) by exact Hrole.
  - apply bool_decide_eq_false, dec_stable in Hrole. erewrite IncomingLlSubrateInd_run by done.
    do 2 eexists. split; [done|]. destruct (_ =? _); auto using only_touches_set.
Qed.

(** C17. Reception on a connection. A packet of a connection is handled on the
    connection between its destination and its source, or dropped if there is
    none. The packets that only the other role sends abort the controller: the
    answer to a PHY request and a subrate request received by a peripheral, the
    PHY and subrate indications received by a central. Handling any other returns,
    except that a subrate request and the packets that start a channel sounding
    procedure may abort. What is handled may change that connection, and nothing
    else of the controller but the state of the library: no other connection, list,
    advertiser, scanner or initiator. The library is one that keeps to its laws
    about links and knows those of the connections, as it does in every state a
    controller can reach; if the packet is an LLCP packet, it takes its payload. *)
Theorem reception_isolated {laws : LinkLayerLaws} (packet : LinkLayerPacket) (rssi t : Z) (c : LeController)
    (Hpacket : is_Some (IncomingConnectionPacket 0 packet rssi)) (Hlinked : linked c)
    (Htakes : takes_payload packet c) :
  let '(source, destination) := packet_addresses packet in
  let m := IncomingPacket packet rssi in
  match GetLeAclConnectionHandle destination source (connections_ c) with
  | None => m t c = Ok ((), c, [])
  | Some handle =>
      ∃ k, connection_of handle c = Some k ∧ own k = destination ∧ peer k = source ∧
      if role_violation packet k then m t c = Fatal
      else if evaluates_unchecked packet then ∀ c' out, m t c = Ok ((), c', out) → only_touches handle c c'
      else ∃ c' out, m t c = Ok ((), c', out) ∧ only_touches handle c c'
  end.
Proof.
  destruct (packet_addresses packet) as [source destination] eqn:Ha.
  destruct (GetLeAclConnectionHandle destination source (connections_ c)) as [handle|] eqn:Hh.
  - assert (is_Some (IncomingConnectionPacket handle packet rssi)) as [m Hm].
    { destruct Hpacket as [m Hm]. destruct packet; try discriminate Hm; by eexists. }
    pose proof (IncomingPacket_on_connection packet rssi handle m t c Hm) as Hrun. rewrite Ha in Hrun.
    specialize (Hrun Hh). cbv zeta.
    destruct (GetLeAclConnectionHandle_Some _ _ _ _ Hh) as (k & Hk & Hown & Hpeer).
    exists k. do 3 (split; [done|]). rewrite Hrun.
    set (c1 := set_le_connection handle (LeAclConnection.ResetLinkTimer t) c).
    replace (role_violation packet k) with (role_violation packet (LeAclConnection.ResetLinkTimer t k))
      by by destruct packet.
    apply (IncomingConnectionPacket_run handle packet rssi m t c c1); [done| |by destruct packet| |].
    + apply linked_can_disconnect; [by apply linked_set|].
      unfold c1. rewrite connection_of_set, decide_True, Hk by done. by eexists.
    + apply only_touches_set, only_touches_refl.
    + unfold c1. by rewrite connection_of_set, decide_True, Hk.
  - destruct Hpacket as [m Hm]. destruct packet; try discriminate Hm; injection Ha as <- <-;
      (cbn [IncomingPacket packet_addresses]; autorewrite with run; unfold id; by rewrite Hh).
Qed.
End Reception.

(** ** Examples *)

#[local] Existing Instance example_environment.
#[local] Existing Instance example_link_laws.

Lemma connected_linked roles n c : linked c → linked (connected roles n c).
Proof.
  revert n c. induction roles as [|role roles IH]; intros n c Hc; [done|]. cbn [connected].
  destruct (CreateLeConnection _ _ _ _ _ _ _ _) as [[handle h]| | |] eqn:E; [|done..].
  apply IH. destruct Hc as [Hwf Hlinks]. split; [by eapply handler_wf_create_le|].
  apply CreateLeConnection_inserts in E as [_ E]; [|done]. cbn. by rewrite E, Hlinks, dom_insert_L.
Qed.

Lemma example_end_linked roles : linked (example_end roles).
Proof.
  unfold example_end, LeSetDefaultPhy. destruct (check_phys _ _ _ _ _) as [|[? ?]];
    apply connected_linked; (split; [apply empty_handler_wf|symmetry; apply dom_empty_L]).
Qed.

(** Two ends of a connection: the peers of [example_end] are not each other, so
    the peripheral is given the mirrored addresses. *)
Definition mirrored (k : LeAclConnection) : LeAclConnection :=
  k <| LeAclConnection.address := LeAclConnection.own_address k |>
    <| LeAclConnection.own_address := LeAclConnection.address k |>.
Definition example_central : LeController := example_end [Role.CENTRAL].
Definition example_peripheral : LeController :=
  set_le_connection 0x200 mirrored (example_end [Role.PERIPHERAL]).
Lemma example_peripheral_linked : linked example_peripheral.
Proof. apply linked_set; [done|apply example_end_linked]. Qed.

Lemma encryption_procedure_witness :
  let a := example_connection 0x200 example_central in
  let b := example_connection 0x200 example_peripheral in
  LeAclConnection.encrypted_ a = false ∧ LeAclConnection.encrypted_ b = false ∧
  ∃ ca1 out1, HandleLeEnableEncryption 0x200 (replicate 8 1) 2 (replicate 16 3) 0 example_central =
                Ok ((), ca1, out1) ∧
  sent_packets out1 = [LeEncryptConnection (own a) (peer a) (replicate 8 1) 2 (replicate 16 3)].
Proof.
  intros a b. split; [reflexivity|]. split; [reflexivity|].
  edestruct (encryption_procedure 0x200 0x200 0 example_central example_peripheral a b
    (replicate 8 1) 2 (replicate 16 3) (replicate 16 3)) as (ca1 & out1 & E & Hs & _);
    [vm_compute; reflexivity..|].
  exists ca1, out1. split; [exact E|exact Hs].
Defined.

Lemma parameter_request_procedure_witness :
  valid_reply 24 40 200 0 0 0 ∧
  ∃ out, LeConnectionUpdate 0x200 24 40 0 200 0 example_peripheral =
    Ok (ErrorCode.SUCCESS, example_peripheral, out).
Proof.
  split; [unfold valid_reply; lia|].
  edestruct (parameter_request_procedure 0x200 0x200 0 example_central example_peripheral
    (example_connection 0x200 example_central) (example_connection 0x200 example_peripheral)
    24 40 0 200 24 40 200 0 0 0 ErrorCode.CONNECTION_TIMEOUT) as [E _];
    [vm_compute; reflexivity..|lia|discriminate|].
  eexists. exact E.
Defined.

Lemma disconnection_procedure_witness :
  ∃ ca' out cb' out', Disconnect 0x200 ErrorCode.CONNECTION_TIMEOUT ErrorCode.SUCCESS 0 example_central =
    Ok (ErrorCode.SUCCESS, ca', out) ∧
  IncomingPacket (DisconnectPacket (example_address 1) (example_address 2) 8) 0 0 example_peripheral =
    Ok ((), cb', out') ∧
  le_acl_connections_ (connections_ cb') =
    delete 0x200 (le_acl_connections_ (connections_ example_peripheral)).
Proof.
  edestruct (disconnection_procedure 0x200 0x200 0 0 0 example_central example_peripheral
    (example_connection 0x200 example_central) ErrorCode.CONNECTION_TIMEOUT ErrorCode.SUCCESS)
    as [_ (ca' & outa & cb' & E & _ & Hrun & _ & _ & Hb)];
    [apply linked_can_disconnect; [apply example_end_linked|eexists; vm_compute; reflexivity]
    |apply linked_can_disconnect; [apply example_peripheral_linked|eexists; vm_compute; reflexivity]|vm_compute; reflexivity..|].
  do 4 eexists. split; [exact E|]. split; [exact Hrun|exact Hb].
Defined.

Lemma supervision_timeout_witness :
  let k := example_connection 0x200 example_central in
  deadline k = 3000000000 ∧ check_step 0x200 10 (0, example_central) (1500000005, example_central) ∧
  ∃ out d, CheckExpiringConnection 0x200 1500000005 example_central = Ok ((), example_central, out) ∧
  recheck 0x200 out = [d] ∧ sent_packets out = [PingRequest (own k) (peer k)].
Proof.
  intros k.
  assert (check_step 0x200 10 (0, example_central) (1500000005, example_central)) as Hstep.
  { do 2 eexists. split; [vm_compute; reflexivity|]. split; [vm_compute; reflexivity|]. lia. }
  split; [vm_compute; reflexivity|]. split; [exact Hstep|].
  edestruct (supervision_timeout 0x200 10 0 1500000005 1 example_central example_central k)
    as (_ & _ & _ & H).
  - vm_compute. reflexivity.
  - vm_compute. discriminate.
  - apply linked_can_disconnect; [apply example_end_linked|eexists; vm_compute; reflexivity].
  - reflexivity.
  - vm_compute. discriminate.
  - apply nsteps_once. exact Hstep.
  - replace (1500000005 <=? deadline k) with true in H by (vm_compute; reflexivity).
    destruct H as (out & d & E & Hre & _ & _ & Hs). exists out, d.
    split; [exact E|]. split; [exact Hre|]. etrans; [exact Hs|]. reflexivity.
Defined.

Lemma reception_isolated_witness :
  ∃ c' out, IncomingPacket (PingRequest (example_address 2) (example_address 1)) 0 5 example_central =
    Ok ((), c', out) ∧ only_touches 0x200 example_central c'.
Proof.
  pose proof (reception_isolated (PingRequest (example_address 2) (example_address 1)) 0 5
    example_central) as H. cbn [packet_addresses] in H.
  specialize (H ltac:(by eexists) (example_end_linked _) I).
  replace (GetLeAclConnectionHandle (example_address 1) (example_address 2)
    (connections_ example_central)) with (Some 0x200) in H by (vm_compute; reflexivity).
  destruct H as (k & _ & _ & _ & c' & out & E & Ht).
  exists c', out. split; [exact E|exact Ht].
Defined.

(** A device that advertises with the address 1, and one that initiates with 2. *)
Definition public (n : Z) : AddressWithType :=
  MkAddressWithType (example_address n) AddressType.PUBLIC_DEVICE_ADDRESS.
Definition example_advertiser : LeController :=
  idle <| legacy_advertiser_ ::= λ a,
    a <| LegacyAdvertiser.advertising_enable := true |>
      <| LegacyAdvertiser.advertising_address := public 1 |> |>.
Definition example_initiator : LeController :=
  (new_controller (example_address 2) example_properties) <| initiator_ ::= λ i,
    i <| Initiator.connect_enable := true |>
      <| Initiator.pending_connect_request := Some (public 1) |> |>.

Lemma connection_establishment_witness :
  let ci := MkConnectInd (public 2) (public 1) 24 0 200 in
  ∃ p' outp c' outc, IncomingLeConnectPacket ci 0 example_advertiser = Ok ((), p', outp) ∧
  sent_packets outp = [connect_complete ci] ∧
  IncomingPacket (connect_complete ci) 0 0 example_initiator = Ok ((), c', outc) ∧
  Initiator.connect_enable (initiator_ c') = false.
Proof.
  intros ci.
  assert (∀ c, connections_ c = empty_handler → ll_ c = [] → can_connect c) as Hcan.
  { intros c Hc Hl. apply linked_can_connect.
    - split; [rewrite Hc; apply empty_handler_wf|]. rewrite Hc, Hl. symmetry. apply dom_empty_L.
    - exists 0x200. rewrite Hc. split; [by vm_compute|reflexivity]. }
  edestruct (connection_establishment 0 0 0 ci example_advertiser example_initiator)
    as (p' & outp & hp & kp & Ep & Hs & c' & outc & hc & kc & Ec & H);
    [apply Hcan; reflexivity..|repeat split; vm_compute; reflexivity|reflexivity|].
  exists p', outp, c', outc. split; [exact Ep|]. split; [exact Hs|].
  split; [exact Ec|apply H].
Defined.

(** A central that updates the parameters of its connection tells its host and
    its peer, which takes them, but keeps the old ones: the ends disagree. *)
Example central_keeps_parameters :
  match LeConnectionUpdate 0x200 24 40 0 200 0 example_central with
  | Ok (status, ca, out) =>
      match sent_packets out with
      | [LeConnectionParameterUpdate _ _ s i l m] =>
          match IncomingLeConnectionParameterUpdate 0x200 s i l m 0 example_peripheral with
          | Ok (_, cb, _) => Some (status, parameters_of 0x200 ca, parameters_of 0x200 cb)
          | _ => None
          end
      | _ => None
      end
  | _ => None
  end = Some (ErrorCode.SUCCESS, Some default_connection_parameters,
              Some (MkLeAclConnectionParameters 40 1 0 0 200)).
Proof. vm_compute. reflexivity. Qed.
