(* ===== verification/Tasks.v ===== *)
(** * The task queue of a controller (le_controller.cc, le_controller.h)

    A controller defers work to callbacks kept in an ordered set, and runs the
    ones that are due at each tick.  The classic controller (bredr_controller.cc)
    has the same queue. *)

From stdpp Require Import sorting.
From S2P Require Import Prelude.
#[local] Open Scope Z_scope.

(** What a callback is depends on the client; times are in nanoseconds. *)
Record Task {A : Type} := MkTask {
  time : Z;
  periodic : bool;
  (** In milliseconds. *)
  period : Z;
  callback : A;
  task_id : Z;
}.
Arguments Task A : clear implicits.
Arguments MkTask {A} time periodic period callback task_id.
#[export] Instance Task_rebuild {A} : Rebuild (Task A) := λ t,
  MkTask (time t) (periodic t) (period t) (callback t) (task_id t).

(** [Task::operator<]. *)
Definition task_before {A} (a b : Task A) : Prop :=
  time a < time b ∨ (time a = time b ∧ task_id a < task_id b).
#[export] Instance task_before_dec {A} (a b : Task A) : Decision (task_before a b).
Proof. unfold task_before. apply _. Defined.

(** [task_queue_], a [std::set]: insertion has no effect if an equivalent task is
    there. *)
Fixpoint insert_task {A} (t : Task A) (q : list (Task A)) : list (Task A) :=
  match q with
  | [] => [t]
  | x :: q' =>
      if decide (task_before t x) then t :: q
      else if decide (task_before x t) then x :: insert_task t q' else q
  end.

Record TaskQueue {A : Type} := MkTaskQueue {
  task_queue_ : list (Task A);
  (** A [uint32_t]. *)
  task_counter_ : Z;
}.
Arguments TaskQueue A : clear implicits.
Arguments MkTaskQueue {A} task_queue_ task_counter_.
#[export] Instance TaskQueue_rebuild {A} : Rebuild (TaskQueue A) := λ q,
  MkTaskQueue (task_queue_ q) (task_counter_ q).

Definition empty_queue {A} : TaskQueue A := MkTaskQueue [] 0.
Definition kInvalidTaskId : Z := 0.
Definition nanoseconds_of_ms (ms : Z) : Z := ms * 1000000.

Section Queue.
Context {A : Type}.
Implicit Types (t : Task A) (q : TaskQueue A).

Definition id_in_use (id : Z) (tasks : list (Task A)) : bool :=
  existsb (λ t, task_id t =? id) tasks.

(** The loop of [NextTaskId]: the identifier and the counter after it. *)
Fixpoint next_task_id (fuel : nat) (tasks : list (Task A)) (counter : Z) : outcome (Z * Z) :=
  match fuel with
  | O => Hang
  | S fuel =>
      if (counter =? kInvalidTaskId) || id_in_use counter tasks
      then next_task_id fuel tasks (u32 (counter + 1))
      else Ok (counter, u32 (counter + 1))
  end.

(** Every turn but the last meets an identifier in use, or 0. *)
Definition NextTaskId (q : TaskQueue A) : outcome (Z * TaskQueue A) :=
  '(id, counter) ← next_task_id (length (task_queue_ q) + 2) (task_queue_ q) (task_counter_ q);
  Ok (id, q <| task_counter_ := counter |>).

Definition ScheduleTask (now delay : Z) (task_callback : A) (q : TaskQueue A)
  : outcome (Z * TaskQueue A) :=
  '(task_id, q) ← NextTaskId q;
  Ok (task_id, q <| task_queue_ ::= insert_task
        (MkTask (now + nanoseconds_of_ms delay) false 0 task_callback task_id) |>).

Definition SchedulePeriodicTask (now delay period : Z) (task_callback : A) (q : TaskQueue A)
  : outcome (Z * TaskQueue A) :=
  '(task_id, q) ← NextTaskId q;
  Ok (task_id, q <| task_queue_ ::= insert_task
        (MkTask (now + nanoseconds_of_ms delay) true period task_callback task_id) |>).

Fixpoint cancel (id : Z) (tasks : list (Task A)) : list (Task A) :=
  match tasks with
  | [] => []
  | t :: tasks => if task_id t =? id then tasks else t :: cancel id tasks
  end.
Definition CancelScheduledTask (id : Z) (q : TaskQueue A) : TaskQueue A :=
  q <| task_queue_ ::= cancel id |>.

(** The loop of [RunPendingTasks].  A callback may do anything to the state of
    the controller and to the queue. *)
Context {S : Type} (call : A → S * TaskQueue A → outcome (S * TaskQueue A)).

Fixpoint RunPendingTasks (fuel : nat) (now : Z) (w : S * TaskQueue A) : outcome (S * TaskQueue A) :=
  match fuel with
  | O => Hang
  | Datatypes.S fuel =>
      let '(s, q) := w in
      match task_queue_ q with
      | [] => Ok w
      | task :: rest =>
          if now <? time task then Ok w
          else
            '(s, q) ← call (callback task) (s, q <| task_queue_ := rest |>);
            let q :=
              if periodic task
              then q <| task_queue_ ::= insert_task
                          (task <| time := now + nanoseconds_of_ms (period task) |>) |>
              else q in
            RunPendingTasks fuel now (s, q)
      end
  end.
End Queue.

(** ** The ordered set *)

Section Ordered.
Context {A : Type}.
Implicit Types (t : Task A) (q l k : list (Task A)).

#[export] Instance task_before_irreflexive : Irreflexive (@task_before A).
Proof. intros t. unfold complement, task_before. lia. Qed.
#[export] Instance task_before_transitive : Transitive (@task_before A).
Proof. intros x y z. unfold task_before. lia. Qed.

(** Neither comes first: they have the same time and identifier. *)
Definition equivalent t t' : Prop := time t = time t' ∧ task_id t = task_id t'.
Lemma not_before t t' : ¬ task_before t t' → ¬ task_before t' t → equivalent t t'.
Proof. unfold task_before, equivalent. lia. Qed.

Definition sorted q : Prop := StronglySorted task_before q.

Lemma elem_of_insert_task x t q : x ∈ insert_task t q → x = t ∨ x ∈ q.
Proof.
  induction q as [|y q IH]; simpl; [intros ->%list_elem_of_singleton; by left|].
  destruct (decide (task_before t y)); [intros [->|?]%elem_of_cons; auto|].
  destruct (decide (task_before y t)); [|auto].
  intros [->|[->|?]%IH]%elem_of_cons; rewrite ?elem_of_cons; auto.
Qed.

Lemma insert_task_subset t q : q ⊆ insert_task t q.
Proof.
  induction q as [|y q IH]; simpl; [set_solver|].
  destruct (decide (task_before t y)); [set_solver|].
  destruct (decide (task_before y t)); set_solver.
Qed.

Lemma insert_task_equivalent t q : ∃ x, x ∈ insert_task t q ∧ equivalent x t.
Proof.
  induction q as [|y q IH]; simpl; [exists t; split; [set_solver|done]|].
  destruct (decide (task_before t y)); [exists t; split; [set_solver|done]|].
  destruct (decide (task_before y t)).
  - destruct IH as (x & ? & ?). exists x. split; [set_solver|done].
  - exists y. split; [set_solver|]. by apply not_before.
Qed.

Lemma insert_task_sorted t q : sorted q → sorted (insert_task t q).
Proof.
  induction 1 as [|y q Hq IH Hy]; simpl; [repeat constructor|].
  destruct (decide (task_before t y)) as [Hty|].
  - constructor; [by constructor|]. constructor; [done|].
    eapply Forall_impl; [exact Hy|]. intros z ?. by etrans.
  - destruct (decide (task_before y t)) as [Hyt|]; [|by constructor].
    constructor; [exact IH|]. rewrite Forall_forall in *. intros z [->|?]%elem_of_insert_task; auto.
Qed.

(** A sorted list is determined by its elements. *)
Lemma sorted_sublist l k : sorted l → sorted k → l ⊆ k → sublist l k.
Proof.
  intros Hl Hk. revert l Hl. induction Hk as [|y k Hk IH Hy]; intros l Hl Hsub.
  { destruct l as [|x l]; [constructor|]. specialize (Hsub x). set_solver. }
  rewrite Forall_forall in Hy.
  destruct Hl as [|x l Hl Hx]; [apply sublist_nil_l|]. rewrite Forall_forall in Hx.
  destruct (proj1 (elem_of_cons k x y) (Hsub x ltac:(by left))) as [->|Hxk].
  - apply sublist_skip, IH; [done|]. intros z Hz.
    specialize (Hsub z ltac:(by right)). apply elem_of_cons in Hsub as [->|]; [|done].
    exfalso. eapply (irreflexivity task_before y). by apply Hx.
  - apply sublist_cons, IH; [by constructor; [|rewrite Forall_forall]|].
    intros z Hz. specialize (Hsub z Hz). apply elem_of_cons in Hsub as [->|]; [|done].
    apply Hy in Hxk. exfalso. apply elem_of_cons in Hz as [->|Hz].
    + by eapply (irreflexivity task_before x).
    + apply Hx in Hz. eapply (irreflexivity task_before x). by etrans.
Qed.

Lemma sorted_same l k : sorted l → sorted k → l ⊆ k → k ⊆ l → l = k.
Proof.
  intros. apply (anti_symm sublist); by apply sorted_sublist.
Qed.
End Ordered.

(** ** Identifiers *)

Section Identifiers.
Context {A : Type}.
Implicit Types (tasks : list (Task A)) (q : TaskQueue A).

Lemma id_in_use_false id tasks : id_in_use id tasks = false ↔ id ∉ task_id <$> tasks.
Proof.
  unfold id_in_use. rewrite list_elem_of_fmap. split.
  - intros H (t & -> & Ht). rewrite <-not_true_iff_false, existsb_exists in H.
    apply H. exists t. split; [by apply list_elem_of_In|]. by apply Z.eqb_eq.
  - intros H. apply not_true_iff_false. rewrite existsb_exists. intros (t & Ht & E).
    apply H. exists t. split; [|by apply list_elem_of_In]. symmetry. by apply Z.eqb_eq.
Qed.

(** An identifier the loop passes over. *)
Definition taken (id : Z) tasks : Prop := id ∈ kInvalidTaskId :: (task_id <$> tasks).

Lemma taken_spec id tasks : (id =? kInvalidTaskId) || id_in_use id tasks = true ↔ taken id tasks.
Proof.
  unfold taken. rewrite elem_of_cons, orb_true_iff, Z.eqb_eq.
  pose proof (id_in_use_false id tasks). destruct (id_in_use id tasks); [|naive_solver].
  split; [|tauto]. intros _. destruct (decide (id ∈ task_id <$> tasks)) as [|Hn]; [by right|].
  by apply H in Hn.
Qed.

Lemma next_task_id_run fuel tasks counter :
  fits 32 counter →
  (∃ id, next_task_id fuel tasks counter = Ok (id, u32 (id + 1)) ∧ fits 32 id ∧ ¬ taken id tasks) ∨
  (∀ i, (i < fuel)%nat → taken (u32 (counter + Z.of_nat i)) tasks).
Proof.
  revert counter. induction fuel as [|fuel IH]; intros counter Hc; [right; lia|]. cbn [next_task_id].
  destruct (_ || _) eqn:E.
  - destruct (IH (u32 (counter + 1))) as [H|H]; [by apply wrap_fits|by left|]. right.
    intros [|i] Hi.
    + rewrite Z.add_0_r, wrap_id by done. by apply taken_spec.
    + specialize (H i ltac:(lia)). unfold wrap in *. rewrite Z.add_mod_idemp_l in H by lia.
      by replace (counter + Z.of_nat (S i)) with (counter + 1 + Z.of_nat i) by lia.
  - left. exists counter. split; [done|]. split; [done|]. rewrite <-taken_spec. by rewrite E.
Qed.

(** Among as many consecutive identifiers as there are tasks, and two more, one
    is free. *)
Lemma next_task_id_Ok tasks counter :
  fits 32 counter → zlength tasks + 2 ≤ 2 ^ 32 →
  ∃ id, next_task_id (length tasks + 2) tasks counter = Ok (id, u32 (id + 1)) ∧
  fits 32 id ∧ ¬ taken id tasks.
Proof.
  intros Hc Hlen. unfold zlength in Hlen.
  destruct (next_task_id_run (length tasks + 2) tasks counter Hc) as [|H]; [done|]. exfalso.
  set (ids := (λ i, u32 (counter + Z.of_nat i)) <$> seq 0 (length tasks + 2)).
  assert (NoDup ids) as Hnd.
  { apply NoDup_fmap_2_strong; [|apply NoDup_seq]. intros i j Hi%elem_of_seq Hj%elem_of_seq E.
    unfold wrap in E. apply (f_equal (λ z, (z - counter) mod 2 ^ 32)) in E.
    rewrite !Zminus_mod_idemp_l in E. replace (counter + Z.of_nat i - counter) with (Z.of_nat i) in E by lia.
    replace (counter + Z.of_nat j - counter) with (Z.of_nat j) in E by lia.
    rewrite !Z.mod_small in E by lia. lia. }
  assert (ids ⊆+ kInvalidTaskId :: (task_id <$> tasks)) as Hsub.
  { apply NoDup_submseteq; [done|]. unfold ids. intros id (i & -> & Hi%elem_of_seq)%list_elem_of_fmap.
    apply H. lia. }
  apply submseteq_length in Hsub. unfold ids in Hsub. cbn in Hsub.
  rewrite !length_fmap, length_seq in Hsub. lia.
Qed.

Lemma cancel_insert t tasks : task_id t ∉ task_id <$> tasks → cancel (task_id t) (insert_task t tasks) = tasks.
Proof.
  induction tasks as [|x tasks IH]; simpl; intros Hnin.
  { by rewrite Z.eqb_refl. }
  apply not_elem_of_cons in Hnin as [Hne Hnin].
  assert (task_id x =? task_id t = false) as Hx by (apply Z.eqb_neq; congruence).
  destruct (decide (task_before t x)) as [|Htx]; simpl; [by rewrite Z.eqb_refl|].
  destruct (decide (task_before x t)) as [|Hxt]; simpl; [rewrite Hx; by f_equal; apply IH|].
  destruct (not_before _ _ Htx Hxt) as [_ E]. by rewrite E in Hne.
Qed.

Lemma cancel_absent id tasks : id ∉ task_id <$> tasks → cancel id tasks = tasks.
Proof.
  induction tasks as [|x tasks IH]; [done|]. simpl. intros [Hne Hnin]%not_elem_of_cons.
  rewrite (proj2 (Z.eqb_neq _ _)) by congruence. by f_equal; apply IH.
Qed.

(** Tasks have distinct identifiers other than 0, and are in order. *)
Record queue_wf (q : TaskQueue A) : Prop := {
  wf_sorted : sorted (task_queue_ q);
  wf_ids : NoDup (kInvalidTaskId :: (task_id <$> task_queue_ q));
  wf_counter : fits 32 (task_counter_ q);
}.

Lemma insert_task_ids t tasks :
  task_id t ∉ task_id <$> tasks →
  task_id <$> insert_task t tasks ≡ₚ task_id t :: (task_id <$> tasks).
Proof.
  induction tasks as [|x tasks IH]; simpl; intros Hnin; [done|].
  apply not_elem_of_cons in Hnin as [Hne Hnin].
  destruct (decide (task_before t x)) as [|Htx]; [done|].
  destruct (decide (task_before x t)) as [|Hxt]; simpl.
  - rewrite IH by done. apply Permutation_swap.
  - destruct (not_before _ _ Htx Hxt) as [_ E]. by rewrite E in Hne.
Qed.

Lemma insert_wf now ms periodic period a id q :
  queue_wf q → ¬ taken id (task_queue_ q) →
  queue_wf (q <| task_counter_ := u32 (id + 1) |>
              <| task_queue_ ::= insert_task (MkTask (now + ms) periodic period a id) |>).
Proof.
  intros [Hs Hids Hc] [Hz Hid]%not_elem_of_cons. split; cbn.
  - by apply insert_task_sorted.
  - inversion Hids as [|? ? Hz0 Hnd]; subst. rewrite insert_task_ids by done.
    constructor; [|by constructor]. apply not_elem_of_cons. split; [by intros E; apply Hz|done].
  - by apply wrap_fits.
Qed.

Lemma empty_queue_wf : queue_wf (@empty_queue A).
Proof. split; [constructor|by repeat constructor; set_solver|by vm_compute]. Qed.

Lemma cancel_subset id tasks : sublist (cancel id tasks) tasks.
Proof.
  induction tasks as [|x tasks IH]; simpl; [done|].
  destruct (_ =? _); [by apply sublist_cons|by apply sublist_skip].
Qed.

Lemma sorted_sublist_sorted l tasks : sublist l tasks → sorted tasks → sorted l.
Proof.
  intros Hsub Hs. revert l Hsub. induction Hs as [|x tasks Hs IH Hx]; intros l Hsub.
  - apply sublist_nil_r in Hsub as ->. constructor.
  - apply sublist_cons_r in Hsub as [Hsub|(l' & -> & Hsub)]; [by apply IH|].
    constructor; [by apply IH|]. rewrite Forall_forall in *. intros y Hy.
    apply Hx. by eapply sublist_subseteq.
Qed.

Lemma CancelScheduledTask_wf id q : queue_wf q → queue_wf (CancelScheduledTask id q).
Proof.
  intros [Hs Hids Hc]. split; cbn; [|inversion Hids as [|? ? Hz Hnd]; subst|done].
  - eapply sorted_sublist_sorted; [apply cancel_subset|done].
  - pose proof (cancel_subset id (task_queue_ q)) as Hsub.
    apply (fmap_sublist task_id) in Hsub. constructor; [|by eapply sublist_NoDup].
    intros Hin. apply Hz. by eapply sublist_subseteq.
Qed.
End Identifiers.

(** ** Scheduling and cancelling *)

Section Scheduling.
Context {A : Type}.

Lemma NextTaskId_Ok (q : TaskQueue A) :
  queue_wf q → zlength (task_queue_ q) + 2 ≤ 2 ^ 32 →
  ∃ id, NextTaskId q = Ok (id, q <| task_counter_ := u32 (id + 1) |>) ∧
  fits 32 id ∧ ¬ taken id (task_queue_ q).
Proof.
  intros Hq Hlen. destruct (next_task_id_Ok (task_queue_ q) (task_counter_ q)) as (id & E & Hid);
    [apply Hq|done|].
  exists id. split; [|done]. unfold NextTaskId. by rewrite E.
Qed.

(** Scheduling a task, once or periodically, always returns, with an
    identifier that is not 0 and not that of a task in the queue (up to 2^32 - 2
    tasks). It adds exactly that task, at its time, and the queue stays in order
    with distinct identifiers. Cancelling the identifier takes that task out
    again and leaves the others as they were; cancelling one that is not in the
    queue has no effect. *)
Theorem task_scheduling (now delay period : Z) (a : A) (q : TaskQueue A)
    (Hq : queue_wf q) (Hroom : zlength (task_queue_ q) + 2 ≤ 2 ^ 32) :
  (∃ id q', ScheduleTask now delay a q = Ok (id, q') ∧ queue_wf q' ∧
   id ≠ kInvalidTaskId ∧ id ∉ task_id <$> task_queue_ q ∧
   (∀ t, t ∈ task_queue_ q' ↔
         t = MkTask (now + delay * 1000000) false 0 a id ∨ t ∈ task_queue_ q) ∧
   task_queue_ (CancelScheduledTask id q') = task_queue_ q) ∧
  (∃ id q', SchedulePeriodicTask now delay period a q = Ok (id, q') ∧ queue_wf q' ∧
   id ≠ kInvalidTaskId ∧ id ∉ task_id <$> task_queue_ q ∧
   (∀ t, t ∈ task_queue_ q' ↔
         t = MkTask (now + delay * 1000000) true period a id ∨ t ∈ task_queue_ q) ∧
   task_queue_ (CancelScheduledTask id q') = task_queue_ q) ∧
  (∀ id, id ∉ task_id <$> task_queue_ q → CancelScheduledTask id q = q).
Proof.
  destruct (NextTaskId_Ok q Hq Hroom) as (id & E & _ & Hfree).
  assert (∀ periodic period, let t := MkTask (now + nanoseconds_of_ms delay) periodic period a id in
    id ≠ kInvalidTaskId ∧ id ∉ task_id <$> task_queue_ q ∧
    (∀ x, x ∈ insert_task t (task_queue_ q) ↔ x = t ∨ x ∈ task_queue_ q) ∧
    cancel id (insert_task t (task_queue_ q)) = task_queue_ q) as Hins.
  { intros periodic p t. apply not_elem_of_cons in Hfree as [Hz Hid]. do 2 (split; [done|]). split.
    - intros x. split; [apply elem_of_insert_task|].
      intros [->|Hx]; [|by apply insert_task_subset].
      assert (cancel id (insert_task t (task_queue_ q)) = task_queue_ q) as Hc by by apply (cancel_insert t).
      destruct (insert_task_equivalent t (task_queue_ q)) as (y & Hy & _ & Hyid).
      destruct (elem_of_insert_task _ _ _ Hy) as [->|Hy']; [done|].
      exfalso. apply Hid. apply list_elem_of_fmap. exists y. by rewrite Hyid.
    - by apply (cancel_insert t). }
  unfold ScheduleTask, SchedulePeriodicTask. rewrite E. cbn [mbind outcome_bind].
  split; [|split].
  - do 2 eexists. split; [reflexivity|]. split; [by apply insert_wf|]. apply Hins.
  - do 2 eexists. split; [reflexivity|]. split; [by apply insert_wf|]. apply Hins.
  - intros id' Hid'. unfold CancelScheduledTask. destruct q. cbn in *. by rewrite cancel_absent.
Qed.

(** The same, one direction at a time, for the clients of the queue. *)
Lemma next_task_id_sound fuel (tasks : list (Task A)) counter id counter' :
  fits 32 counter → next_task_id fuel tasks counter = Ok (id, counter') →
  ¬ taken id tasks ∧ counter' = u32 (id + 1).
Proof.
  revert counter. induction fuel as [|fuel IH]; intros counter Hc; [done|]. cbn [next_task_id].
  destruct (_ || _) eqn:E; [by apply IH, wrap_fits|].
  intros [= <- <-]. rewrite <-taken_spec. by rewrite E.
Qed.

Definition one_shot_task (now delay : Z) (a : A) (id : Z) : Task A :=
  MkTask (now + nanoseconds_of_ms delay) false 0 a id.

Lemma ScheduleTask_wf now delay (a : A) q id q' :
  queue_wf q → ScheduleTask now delay a q = Ok (id, q') →
  queue_wf q' ∧ task_queue_ q' = insert_task (one_shot_task now delay a id) (task_queue_ q).
Proof.
  intros Hq. unfold ScheduleTask, NextTaskId.
  intros ([id' q1] & ([id0 counter] & E & [= <- <-])%bind_Ok & [= <- <-])%bind_Ok.
  destruct (next_task_id_sound _ _ _ _ _ (wf_counter _ Hq) E) as [Hid ->].
  split; [|done]. by apply insert_wf.
Qed.

Lemma length_insert_task t (q : list (Task A)) : (length (insert_task t q) ≤ length q + 1)%nat.
Proof.
  induction q as [|x q IH]; simpl; [lia|].
  destruct (decide _); [simpl; lia|]. destruct (decide _); simpl; lia.
Qed.

(** The part of the invariant that survives when a periodic task is put back: by
    then its identifier may have been given to another task. *)
Record queue_ordered (q : TaskQueue A) : Prop := {
  ord_sorted : sorted (task_queue_ q);
  ord_counter : fits 32 (task_counter_ q);
}.
Lemma NextTaskId_ordered (q : TaskQueue A) id q' :
  fits 32 (task_counter_ q) → NextTaskId q = Ok (id, q') →
  task_queue_ q' = task_queue_ q ∧ fits 32 (task_counter_ q').
Proof.
  intros Hq. unfold NextTaskId. intros ([id0 counter] & E & [= <- <-])%bind_Ok.
  destruct (next_task_id_sound _ _ _ _ _ Hq E) as [_ ->]. split; [done|by apply wrap_fits].
Qed.
Lemma ScheduleTask_ordered now delay (a : A) (q : TaskQueue A) id q' :
  queue_ordered q → ScheduleTask now delay a q = Ok (id, q') → queue_ordered q'.
Proof.
  intros [Hs Hc] ([id' q1] & E & [= <- <-])%bind_Ok.
  destruct (NextTaskId_ordered _ _ _ Hc E) as [Eq ?]. split; [|done]. cbn. rewrite Eq. by apply insert_task_sorted.
Qed.
Lemma SchedulePeriodicTask_ordered now delay period (a : A) (q : TaskQueue A) id q' :
  queue_ordered q → SchedulePeriodicTask now delay period a q = Ok (id, q') → queue_ordered q'.
Proof.
  intros [Hs Hc] ([id' q1] & E & [= <- <-])%bind_Ok.
  destruct (NextTaskId_ordered _ _ _ Hc E) as [Eq ?]. split; [|done]. cbn. rewrite Eq. by apply insert_task_sorted.
Qed.
(** A task with a fresh identifier is added to the others. *)
Lemma insert_task_perm (t : Task A) (q : list (Task A)) : task_id t ∉ task_id <$> q → insert_task t q ≡ₚ t :: q.
Proof.
  induction q as [|x q IH]; intros Hfresh; simpl; [done|].
  destruct (decide _) as [|Hn1]; [done|]. destruct (decide _) as [|Hn2].
  - rewrite IH; [apply perm_swap|]. intros ?. apply Hfresh. by right.
  - exfalso. apply Hfresh. assert (task_id t = task_id x) as -> by (unfold task_before in *; lia). left.
Qed.
Lemma ScheduleTask_perm now delay (a : A) (q : TaskQueue A) id q' :
  fits 32 (task_counter_ q) → ScheduleTask now delay a q = Ok (id, q') →
  fits 32 (task_counter_ q') ∧
  task_queue_ q' ≡ₚ one_shot_task now delay a id :: task_queue_ q.
Proof.
  intros Hq. unfold ScheduleTask, NextTaskId.
  intros ([id' q1] & ([id0 counter] & E & [= <- <-])%bind_Ok & [= <- <-])%bind_Ok.
  destruct (next_task_id_sound _ _ _ _ _ Hq E) as [Hid ->]. split; [by apply wrap_fits|].
  apply insert_task_perm. cbn. intros ?. apply Hid. by right.
Qed.
(** [q'] is [q] with one-shot tasks for the callbacks [l]. *)
Record adds (q q' : TaskQueue A) (l : list A) : Prop := {
  adds_counter : fits 32 (task_counter_ q');
  adds_tasks : ∃ ts, callback <$> ts = l ∧ Forall (λ t, periodic t = false) ts ∧
    ∀ t, t ∈ task_queue_ q' ↔ t ∈ ts ∨ t ∈ task_queue_ q;
  adds_length : zlength (task_queue_ q') ≤ zlength (task_queue_ q) + zlength l;
}.
(** There is room for [n] more tasks. *)
Definition room (n : Z) (q : TaskQueue A) : Prop :=
  fits 32 (task_counter_ q) ∧ zlength (task_queue_ q) + n + 1 ≤ 2 ^ 32.

Lemma adds_nil q : fits 32 (task_counter_ q) → adds q q [].
Proof.
  intros. split; [done| |rewrite zlength_nil; lia]. exists []. do 2 (split; [done|]). set_solver.
Qed.
Lemma adds_trans q1 q2 q3 l l' : adds q1 q2 l → adds q2 q3 l' → adds q1 q3 (l ++ l').
Proof.
  intros [_ (ts & <- & Hts & E) H] [Hc (ts' & <- & Hts' & E') H']. split; [done| |].
  - exists (ts ++ ts'). rewrite fmap_app. split; [done|]. split; [by apply Forall_app|].
    intros t. rewrite E', E, elem_of_app. tauto.
  - rewrite zlength_app. lia.
Qed.
Lemma adds_room q q' l n : room (zlength l + n) q → adds q q' l → room n q'.
Proof. intros [_ H] [Hc _ Hl]. split; [done|lia]. Qed.

Lemma ScheduleTask_adds now delay (a : A) q n :
  room (1 + n) q → 0 ≤ n →
  ∃ id q', ScheduleTask now delay a q = Ok (id, q') ∧ adds q q' [a] ∧ room n q'.
Proof.
  intros [Hc Hroom] Hn.
  destruct (next_task_id_Ok (task_queue_ q) (task_counter_ q)) as (id & E & Hid & Hfree); [done|lia|].
  assert (En : NextTaskId q = Ok (id, q <| task_counter_ := u32 (id + 1) |>)).
  { unfold NextTaskId. by rewrite E. }
  unfold ScheduleTask. rewrite En. cbn [mbind outcome_bind].
  set (t := MkTask (now + nanoseconds_of_ms delay) false 0 a id).
  assert (Hadd : adds q (q <| task_counter_ := u32 (id + 1) |> <| task_queue_ ::= insert_task t |>) [a]).
  { split; cbn.
    - by apply wrap_fits.
    - exists [t]. split; [done|]. split; [by constructor|]. intros x. split.
      + intros [->|?]%elem_of_insert_task; [left; by left|by right].
      + intros [->%list_elem_of_singleton|Hx]; [|by apply insert_task_subset].
        destruct (insert_task_equivalent t (task_queue_ q)) as (y & Hy & Et & Eid).
        destruct (elem_of_insert_task _ _ _ Hy) as [->|Hy']; [done|]. exfalso.
        apply Hfree. right. apply list_elem_of_fmap. by exists y.
    - pose proof (length_insert_task t (task_queue_ q)). unfold zlength. cbn. lia. }
  exists id. eexists. split; [reflexivity|]. split; [exact Hadd|]. eapply adds_room; [|exact Hadd]. by split.
Qed.

Lemma CancelScheduledTask_ordered id (q : TaskQueue A) :
  queue_ordered q → queue_ordered (CancelScheduledTask id q).
Proof. intros [? ?]. split; [|done]. eapply sorted_sublist_sorted; [apply cancel_subset|done]. Qed.

Lemma ScheduleTask_Ok now delay (a : A) q :
  queue_wf q → zlength (task_queue_ q) + 2 ≤ 2 ^ 32 → ∃ id q', ScheduleTask now delay a q = Ok (id, q').
Proof.
  intros Hq Hroom. destruct (NextTaskId_Ok q Hq Hroom) as (id & E & _). unfold ScheduleTask.
  rewrite E. by do 2 eexists.
Qed.

Lemma length_cancel id (q : list (Task A)) : (length (cancel id q) ≤ length q)%nat.
Proof. apply sublist_length, cancel_subset. Qed.
Lemma Forall_insert_task (P : Task A → Prop) t q : P t → Forall P q → Forall P (insert_task t q).
Proof. rewrite !Forall_forall. intros Ht Hq x [->|?]%elem_of_insert_task; auto. Qed.
Lemma Forall_cancel (P : Task A → Prop) id q : Forall P q → Forall P (cancel id q).
Proof.
  rewrite !Forall_forall. intros Hq x Hx. apply Hq. by eapply sublist_subseteq; [apply cancel_subset|].
Qed.
End Scheduling.

(** ** Running the tasks that are due *)

Section Running.
Context {A S : Type} (call : A → S * TaskQueue A → outcome (S * TaskQueue A)) (now : Z).

Definition due (tasks : list (Task A)) : list (Task A) := filter (λ t, time t ≤ now) tasks.

(** What a callback may do to the queue: it cancels tasks, and schedules tasks
    for later than [now], as the clock and the delays make it do. *)
Definition defers (q q' : TaskQueue A) : Prop :=
  sorted (task_queue_ q') ∧ due (task_queue_ q') ⊆ task_queue_ q.

(** The callbacks made, recorded. *)
Definition logged (a : A) (w : (S * list A) * TaskQueue A) : outcome ((S * list A) * TaskQueue A) :=
  let '((s, log), q) := w in
  '(s, q) ← call a (s, q);
  Ok ((s, log ++ [a]), q).

Lemma due_insert t q : now < time t → due q ⊆ due (insert_task t q) ∧ due (insert_task t q) ⊆ due q.
Proof.
  intros Ht. unfold due. split; intros x; rewrite !list_elem_of_filter; intros [Hx Hin]; split; try done.
  - by apply insert_task_subset.
  - apply elem_of_insert_task in Hin as [->|]; [lia|done].
Qed.

Lemma due_sorted q : sorted q → sorted (due q).
Proof. intros. eapply sorted_sublist_sorted; [apply sublist_filter|done]. Qed.

Lemma due_cons t q : sorted (t :: q) → (time t ≤ now → due (t :: q) = t :: due q) ∧
  (now < time t → due (t :: q) = []).
Proof.
  intros Hs. inversion Hs as [|? ? Hq Ht]; subst. unfold due. split; intros Htime.
  - by rewrite filter_cons_True.
  - rewrite filter_cons_False by lia. apply elem_of_nil_inv. rewrite Forall_forall in Ht.
    intros x [Hx Hin]%list_elem_of_filter. apply Ht in Hin. unfold task_before in Hin. lia.
Qed.

(** One turn of the loop: the tasks still due are those of the rest of the queue,
    less those cancelled. *)
Lemma turn_due task rest q1 :
  sorted (task :: rest) → time task ≤ now → (periodic task = true → 0 < period task) →
  defers (MkTaskQueue rest (task_counter_ q1)) q1 →
  let q2 := if periodic task
            then q1 <| task_queue_ ::= insert_task
                         (task <| time := now + nanoseconds_of_ms (period task) |>) |>
            else q1 in
  sorted (task_queue_ q2) ∧ sublist (due (task_queue_ q2)) (due rest) ∧
  (rest ⊆ task_queue_ q1 → due (task_queue_ q2) = due rest ∧ rest ⊆ task_queue_ q2 ∧
   (periodic task = true → ∃ t, t ∈ task_queue_ q2 ∧ task_id t = task_id task ∧
      time t = now + nanoseconds_of_ms (period task))).
Proof.
  intros Hs Htime Hperiod [Hs1 Hdue] q2. inversion Hs as [|? ? Hrest Htask]; subst.
  set (task' := task <| time := now + nanoseconds_of_ms (period task) |>).
  assert (sorted (task_queue_ q2)) as Hs2.
  { unfold q2. destruct (periodic task); [by apply insert_task_sorted|done]. }
  assert (due (task_queue_ q1) ⊆ due (task_queue_ q2) ∧ due (task_queue_ q2) ⊆ due (task_queue_ q1)) as [H12 H21].
  { unfold q2. destruct (periodic task); [|done]. cbn. apply due_insert.
    unfold nanoseconds_of_ms. cbn. specialize (Hperiod eq_refl). lia. }
  assert (due (task_queue_ q2) ⊆ due rest) as Hsub.
  { intros x Hx. apply H21 in Hx. pose proof (Hdue x Hx) as Hin. cbn in Hin.
    unfold due in *. apply list_elem_of_filter in Hx as [? _]. by apply list_elem_of_filter. }
  split; [done|]. split; [by apply sorted_sublist; [apply due_sorted..|]|].
  intros Hloyal. split; [|split].
  - apply sorted_same; [by apply due_sorted..|done|]. intros x Hx. apply H12. unfold due in *.
    apply list_elem_of_filter in Hx as [? ?]. apply list_elem_of_filter. auto.
  - intros x Hx. unfold q2. destruct (periodic task); [|by apply Hloyal].
    by apply insert_task_subset, Hloyal.
  - intros Hp. unfold q2. rewrite Hp.
    destruct (insert_task_equivalent task' (task_queue_ q1)) as (t & Ht & Htt & Hid). by exists t.
Qed.

(** No callback cancels a task. *)
Definition loyal : Prop :=
  ∀ a s q s' q', call a (s, q) = Ok (s', q') → task_queue_ q ⊆ task_queue_ q'.

(** Every due task of [q] has run, and the rest of the queue is kept. *)
Definition completes (q q' : TaskQueue A) (ran : list A) : Prop :=
  ran = callback <$> due (task_queue_ q) ∧
  (∀ t, t ∈ task_queue_ q → now < time t → t ∈ task_queue_ q') ∧
  (∀ t, t ∈ due (task_queue_ q) → periodic t = true →
   ∃ t', t' ∈ task_queue_ q' ∧ task_id t' = task_id t ∧ time t' = now + period t * 1000000).

(** A periodic task is put back after its callback. *)
Definition put_back (task : Task A) (q : TaskQueue A) : TaskQueue A :=
  if periodic task
  then q <| task_queue_ ::= insert_task (task <| time := now + nanoseconds_of_ms (period task) |>) |>
  else q.

(** [J] is an invariant of the loop, under which the callbacks return. *)
Context (J : S → TaskQueue A → Prop).
Context (Hcall : ∀ s task rest counter,
  J s (MkTaskQueue (task :: rest) counter) → sorted (task :: rest) → time task ≤ now →
  ∃ s' q', call (callback task) (s, MkTaskQueue rest counter) = Ok (s', q') ∧
           defers (MkTaskQueue rest counter) q' ∧ J s' (put_back task q')).

Lemma run_pending fuel s log q :
  J s q → sorted (task_queue_ q) →
  Forall (λ t, periodic t = true → 0 < period t) (due (task_queue_ q)) →
  (length (due (task_queue_ q)) < fuel)%nat →
  ∃ s' ran q', RunPendingTasks logged fuel now ((s, log), q) = Ok ((s', log ++ ran), q') ∧
  sublist ran (callback <$> due (task_queue_ q)) ∧ sorted (task_queue_ q') ∧
  due (task_queue_ q') = [] ∧ J s' q' ∧ (loyal → completes q q' ran).
Proof.
  revert s log q. induction fuel as [|fuel IH]; intros s log q HJ Hs Hper Hlen; [lia|].
  cbn [RunPendingTasks]. destruct (task_queue_ q) as [|task rest] eqn:Hq.
  { exists s, [], q. rewrite app_nil_r. do 2 (split; [done|]). rewrite Hq. do 3 (split; [done|]).
    intros _. unfold completes. rewrite Hq. split; [done|]. by split; intros t ?%elem_of_nil. }
  destruct (due_cons task rest Hs) as [Hdue Hnone]. destruct (Z.ltb_spec now (time task)) as [Ht|Ht].
  { exists s, [], q. rewrite app_nil_r, Hq, (Hnone Ht). do 5 (split; [done|]).
    intros _. unfold completes. rewrite Hq, (Hnone Ht). split; [done|].
    split; [done|]. intros t ?%elem_of_nil. done. }
  rewrite (Hdue Ht) in *. apply Forall_cons in Hper as [Hp Hper]. cbn in Hlen.
  inversion Hs as [|? ? Hsr _]; subst.
  destruct q as [tasks counter]. cbn in Hq. subst tasks.
  destruct (Hcall s task rest counter HJ Hs Ht) as (s1 & q1 & E & Hdef & HJ1).
  cbn [logged]. change ((MkTaskQueue (task :: rest) counter) <| task_queue_ := rest |>)
    with (MkTaskQueue rest counter). rewrite E. cbn [mbind outcome_bind].
  destruct (turn_due task rest q1 Hs Ht Hp) as (Hs2 & Hsub & Hloyal); [exact Hdef|].
  fold (put_back task q1) in *. set (q2 := put_back task q1) in *.
  destruct (IH s1 (log ++ [callback task]) q2) as (s' & ran & q' & Erun & Hran & Hs' & Hd' & HJ' & Hcomp);
    [done|done| |apply sublist_length in Hsub; lia|].
  { rewrite Forall_forall in *. intros t Hin. apply Hper. by eapply sublist_subseteq. }
  exists s', (callback task :: ran), q'. rewrite Erun, <-app_assoc. split; [done|].
  split; [cbn; apply sublist_skip; etrans; [exact Hran|by apply fmap_sublist]|]. do 3 (split; [done|]).
  intros Hl. destruct (Hcomp Hl) as (-> & Hkeep & Hagain).
  destruct (Hloyal (Hl _ _ _ _ _ E)) as (Hd2 & Hrest & Hre).
  unfold completes. cbn [task_queue_]. rewrite (Hdue Ht), Hd2. rewrite Hd2 in Hagain. split; [done|]. split.
  - intros t [->|Hin]%elem_of_cons Htime; [lia|]. by apply Hkeep; [apply Hrest|].
  - intros t [->|Hin]%elem_of_cons Hpt; [|by apply Hagain].
    destruct (Hre Hpt) as (t' & Hin' & Hid & Htime). exists t'. split; [|done].
    apply Hkeep; [done|]. unfold nanoseconds_of_ms in Htime. specialize (Hp Hpt). lia.
Qed.
End Running.

(** What the callbacks keep, the loop keeps. *)
Lemma RunPendingTasks_keeps {A S} (call : A → S * TaskQueue A → outcome (S * TaskQueue A)) now
    (J : S → TaskQueue A → Prop) fuel s q s' q' :
  (∀ s task rest counter s' q', J s (MkTaskQueue (task :: rest) counter) → time task ≤ now →
     call (callback task) (s, MkTaskQueue rest counter) = Ok (s', q') → J s' (put_back now task q')) →
  J s q → RunPendingTasks call fuel now (s, q) = Ok (s', q') → J s' q'.
Proof.
  intros Hcall. revert s q. induction fuel as [|fuel IH]; intros s q HJ; [done|]. cbn [RunPendingTasks].
  destruct q as [[|task rest] counter]; cbn [task_queue_]; [by intros [= <- <-]|].
  destruct (Z.ltb_spec now (time task)); [by intros [= <- <-]|].
  intros ([s1 q1] & E & Er)%bind_Ok. eapply IH; [|exact Er]. by eapply Hcall.
Qed.

(** The record of the callbacks does not change the run. *)
Lemma logged_run {A S} (call : A → S * TaskQueue A → outcome (S * TaskQueue A)) now fuel s log q s' log' q' :
  RunPendingTasks (logged call) fuel now ((s, log), q) = Ok ((s', log'), q') →
  RunPendingTasks call fuel now (s, q) = Ok (s', q').
Proof.
  revert s log q. induction fuel as [|fuel IH]; intros s log q; [done|]. cbn [RunPendingTasks].
  destruct (task_queue_ q) as [|task rest]; [by intros [= <- _ <-]|].
  destruct (now <? time task); [by intros [= <- _ <-]|]. cbn [logged].
  destruct (call _ _) as [[s1 q1]| | |]; cbn [mbind outcome_bind]; try done. apply IH.
Qed.

(** C19. [RunPendingTasks]. Let the callbacks return, cancel tasks, and schedule
    tasks for later than the time of the tick; let the periods of the periodic
    tasks that are due be positive. Then the loop ends, after at most one turn
    per task due, and it leaves no task that is due: the callbacks made are those
    of tasks due at the start, in the order of time and identifier, each once. If
    no callback cancels a task, all of them are made, the other tasks stay, and
    every periodic task is scheduled again, a period after the tick. *)
Theorem RunPendingTasks_spec {A S : Type} (call : A → S * TaskQueue A → outcome (S * TaskQueue A))
    (now : Z) (s : S) (q : TaskQueue A)
    (Hcall : ∀ a s q, sorted (task_queue_ q) → ∃ s' q', call a (s, q) = Ok (s', q') ∧ defers now q q')
    (Hsorted : sorted (task_queue_ q))
    (Hperiods : Forall (λ t, periodic t = true → 0 < period t) (due now (task_queue_ q))) :
  ∃ s' ran q',
  RunPendingTasks (logged call) (length (due now (task_queue_ q)) + 1) now ((s, []), q) =
    Ok ((s', ran), q') ∧
  sublist ran (callback <$> due now (task_queue_ q)) ∧ sorted (task_queue_ q') ∧
  due now (task_queue_ q') = [] ∧ (loyal call → completes now q q' ran).
Proof.
  destruct (run_pending call now (λ _ _, True)) with (fuel := (length (due now (task_queue_ q)) + 1)%nat)
    (s := s) (log := @nil A) (q := q) as (s' & ran & q' & ? & ? & ? & ? & _ & ?);
    [|done|done|done|lia|by exists s', ran, q'].
  intros s0 task rest counter _ Hs _.
  destruct (Hcall (callback task) s0 (MkTaskQueue rest counter)) as (s1 & q1 & ? & ?); [|by exists s1, q1].
  by inversion Hs.
Qed.

(** A period of 0 keeps the task due, and the loop does not end. *)
Lemma period_zero_hangs {A S} (t : Task A) counter now (s : S) fuel :
  time t ≤ now → periodic t = true → period t = 0 →
  RunPendingTasks (λ _ w, Ok w) fuel now (s, MkTaskQueue [t] counter) = Hang.
Proof.
  revert t. induction fuel as [|fuel IH]; intros t Ht Hp H0; [done|].
  cbn [RunPendingTasks task_queue_]. rewrite (proj2 (Z.ltb_ge _ _)) by done. rewrite Hp. cbn. apply IH; cbn; [|done|done].
  rewrite H0. unfold nanoseconds_of_ms. lia.
Qed.

(** A periodic task that cancels itself runs again: while its callback runs it is
    not in the queue, and it is put back afterwards. *)
Example self_cancel_ignored :
  match RunPendingTasks (λ id '(s, q), Ok (s, CancelScheduledTask id q)) 5 0
          ((), MkTaskQueue [MkTask 0 true 10 7 7] 8) with
  | Ok (_, q) => task_id <$> task_queue_ q
  | _ => []
  end = [7].
Proof. reflexivity. Qed.

Lemma task_scheduling_witness :
  let q := MkTaskQueue [MkTask 5 false 0 true 1] 1 in
  queue_wf q ∧ ∃ id q', ScheduleTask 0 3 false q = Ok (id, q') ∧ id ∉ task_id <$> task_queue_ q.
Proof.
  intros q.
  assert (queue_wf q) as Hq.
  { split; [repeat constructor| |vm_compute; split; [discriminate|reflexivity]].
    apply NoDup_ListNoDup. repeat constructor; cbn; intuition discriminate. }
  split; [exact Hq|]. destruct (task_scheduling 0 3 0 false q Hq) as [(id & q' & E & _ & _ & Hid & _) _].
  - vm_compute. discriminate.
  - exists id, q'. split; [exact E|exact Hid].
Defined.

Lemma RunPendingTasks_spec_witness :
  let q := MkTaskQueue [MkTask 1 true 10 1 1; MkTask 2 false 0 2 2; MkTask 9 false 0 3 3] 4 in
  let call (a : Z) (w : Z * TaskQueue Z) := let '(s, q) := w in Ok (s + a, q) in
  ∃ s' q', RunPendingTasks (logged call) 3 5 ((0, []), q) = Ok ((s', [1; 2]), q').
Proof.
  intros q call.
  destruct (RunPendingTasks_spec call 5 0 q) as (s' & ran & q' & E & _ & _ & _ & H).
  - intros a s q0 Hs. do 2 eexists. split; [reflexivity|]. split; [exact Hs|].
    intros x [_ Hx]%list_elem_of_filter. exact Hx.
  - unfold sorted. repeat constructor; cbn; lia.
  - repeat constructor; cbn; lia.
  - destruct H as [Hran _]; [intros a s0 q0 s1 q1 [= _ ->] x Hx; exact Hx|].
    exists s', q'. subst ran. exact E.
Defined.
