(* ===== verification/AsyncManager.v ===== *)
(** * The task manager (model/setup/async_manager.cc, async_manager.h)

    [AsyncTaskManager] runs callbacks at their times on a thread of its own, for clients on
    other threads and for the callbacks themselves.  A thread takes [internal_mutex_] for each access
    to the tasks; a critical section that cannot block is one step, and one that blocks while it
    holds the mutex (a cancellation that waits for a callback) is several. *)

From stdpp Require Import sorting.
From S2P Require Import Prelude PhyLayer TestModel Tasks.
#[local] Open Scope Z_scope.

(** ** The tasks *)

(** [kMaxTaskId]: -1 as a [uint16_t]. *)
Definition kMaxTaskId : Z := 65535.
Definition NextAsyncTaskId (id : Z) : Z := if id =? kMaxTaskId then 1 else id + 1.

(** What a task has besides its time, period and identifier.  [object] stands for the
    address of the task, which shared pointers and its mutex [in_callback] go by. *)
Record Job (Callback : Type) := MkJob { user_id : Z; what : Callback; object : Z }.
Arguments MkJob {Callback}. Arguments user_id {Callback}. Arguments what {Callback}. Arguments object {Callback}.

Record AsyncTaskManager (Callback : Type) := MkManager {
  lastTaskId_ : Z;
  lastUserId_ : Z;
  tasks_by_id_ : gmap Z (Tasks.Task (Job Callback));
  tasks_by_user_id_ : gmap Z (gset Z);
  task_queue_ : list (Tasks.Task (Job Callback));
  running_ : bool;
  objects : Z;
}.
Arguments MkManager {Callback}. Arguments lastTaskId_ {Callback}. Arguments lastUserId_ {Callback}.
Arguments tasks_by_id_ {Callback}. Arguments tasks_by_user_id_ {Callback}. Arguments task_queue_ {Callback}.
Arguments running_ {Callback}. Arguments objects {Callback}.

Section Manager.
Context {Callback : Type}.
Notation Task := (Tasks.Task (Job Callback)).
Notation Manager := (AsyncTaskManager Callback).
Implicit Types (m : Manager) (t : Task).

#[export] Instance manager_rebuild : Rebuild Manager := λ m,
  MkManager (lastTaskId_ m) (lastUserId_ m) (tasks_by_id_ m) (tasks_by_user_id_ m) (task_queue_ m) (running_ m) (objects m).

Definition new_manager : Manager := MkManager kInvalidTaskId 1 ∅ ∅ [] false 0.
Definition owner t : Z := user_id (callback t).
Definition address t : Z := object (callback t).

Definition GetNextUserId m : Z * Manager := (lastUserId_ m, m <| lastUserId_ ::= λ id, u16 (id + 1) |>).

(** The loop of [scheduleTask]. *)
Fixpoint next_id_loop (fuel : nat) (last : Z) m : outcome Z :=
  match fuel with
  | O => Hang
  | S fuel =>
      let id := NextAsyncTaskId last in
      if has_value (tasks_by_id_ m !! id) then next_id_loop fuel id m else Ok id
  end.
(** The first part of [scheduleTask], under the mutex; [t] is the task that its
    caller has made. *)
Definition scheduleTask (time : Z) (periodic : bool) (period : Z) (user : Z) (what : Callback) m
  : outcome (Z * Manager) :=
  if Z.of_nat (size (tasks_by_id_ m)) =? kMaxTaskId then Ok (kInvalidTaskId, m)
  else
    id ← next_id_loop (S (size (tasks_by_id_ m))) (lastTaskId_ m) m;
    let t := MkTask time periodic period (MkJob user what (objects m)) id in
    Ok (id, m <| lastTaskId_ := id |> <| objects ::= Z.succ |>
              <| tasks_by_id_ ::= <[id := t]> |>
              <| tasks_by_user_id_ ::= partial_alter (λ ids, Some ({[id]} ∪ default ∅ ids)) user |>
              <| task_queue_ ::= insert_task t |>).
Definition ExecAsync (now : Z) (user delay : Z) (what : Callback) m : outcome (Z * Manager) :=
  scheduleTask (now + nanoseconds_of_ms delay) false 0 user what m.
Definition ExecAsyncPeriodically (now : Z) (user delay period : Z) (what : Callback) m : outcome (Z * Manager) :=
  scheduleTask (now + nanoseconds_of_ms delay) true period user what m.

(** [task_queue_.erase(task)]: what is equivalent to it. *)
Definition same_key t t' : Prop := time t = time t' ∧ task_id t = task_id t'.
#[export] Instance same_key_dec t t' : Decision (same_key t t').
Proof. unfold same_key. apply _. Defined.
Definition erase t (q : list Task) : list Task := filter (λ t', ¬ same_key t t') q.
(** [cancel_task_with_lock_held], but for the mutex of the task. *)
Definition cancel_task_with_lock_held (id : Z) m : bool * Manager :=
  match tasks_by_id_ m !! id with
  | None => (false, m)
  | Some t => (true, m <| task_queue_ ::= erase t |> <| tasks_by_id_ ::= delete id |>)
  end.
(** [CancelAsyncTasksFromUser] on the task thread. *)
Definition cancel_user_tasks (user : Z) m : bool * Manager :=
  match tasks_by_user_id_ m !! user with
  | None => (false, m)
  | Some ids =>
      let m := foldl (λ m id, snd (cancel_task_with_lock_held id m)) m (ascending ids) in
      (true, m <| tasks_by_user_id_ ::= delete user |>)
  end.

(** The first block of [ThreadRoutine]: the task to run, if there is one. The entry of
    [tasks_by_id_] is the same object as the one in the queue. *)
Definition pop (now : Z) m : option Task * Manager :=
  match task_queue_ m with
  | [] => (None, m)
  | t :: rest =>
      if time t <? now then
        let m := m <| task_queue_ := rest |> in
        if periodic t then
          let t' := t <| time ::= λ n, n + nanoseconds_of_ms (period t) |> in
          (Some t, m <| task_queue_ ::= insert_task t' |> <| tasks_by_id_ ::= <[task_id t := t']> |>)
        else
          (Some t, m <| tasks_by_user_id_ ::= partial_alter (λ ids, Some (default ∅ ids ∖ {[task_id t]})) (owner t) |>
                     <| tasks_by_id_ ::= delete (task_id t) |>)
      else (None, m)
  end.
(** The first part of [stopThread]. *)
Definition stop m : Manager :=
  m <| tasks_by_id_ := ∅ |> <| task_queue_ := [] |> <| running_ := false |>.
End Manager.

(** ** The threads *)

(** A call of a member function. *)
Inductive Call (Callback : Type) :=
| CallGetNextUserId
| CallExecAsync (user delay : Z) (what : Callback)
| CallExecAsyncPeriodically (user delay period : Z) (what : Callback)
| CallCancelAsyncTask (id : Z)
| CallCancelAsyncTasksFromUser (user : Z)
| CallStopThread.
Arguments CallGetNextUserId {Callback}. Arguments CallExecAsync {Callback}.
Arguments CallExecAsyncPeriodically {Callback}. Arguments CallCancelAsyncTask {Callback}.
Arguments CallCancelAsyncTasksFromUser {Callback}. Arguments CallStopThread {Callback}.

(** Where a thread is: in its own code, before the mutex, between the two parts of
    [scheduleTask], holding the mutex with tasks to cancel (and then the entry of a user to erase),
    or joining the task thread. *)
Inductive Activity (Callback : Type) :=
| Free
| Calling (c : Call Callback)
| Starting
| Cancelling (ids : list Z) (user : option Z)
| Joining.
Arguments Free {Callback}. Arguments Calling {Callback}. Arguments Starting {Callback}.
Arguments Cancelling {Callback}. Arguments Joining {Callback}.

(** Where the task thread is: [Testing] comes before the condition of its loop, [Checking]
    before the first block; [InCallback] holds the mutex of the task and waits for
    [synchronization_mutex_]; [Running] holds both. *)
Inductive Phase (Callback : Type) :=
| NotStarted
| Testing
| Checking
| Popped (t : Tasks.Task (Job Callback))
| InCallback (t : Tasks.Task (Job Callback))
| Running (t : Tasks.Task (Job Callback)) (a : Activity Callback)
| Waiting
| Stopped.
Arguments NotStarted {Callback}. Arguments Testing {Callback}. Arguments Checking {Callback}. Arguments Popped {Callback}.
Arguments InCallback {Callback}. Arguments Running {Callback}. Arguments Waiting {Callback}. Arguments Stopped {Callback}.

(** Who holds [synchronization_mutex_]. *)
Inductive Holder := TaskThread | ClientThread (c : Z).

Record Client (Callback : Type) := MkClient { critical : bool; activity : Activity Callback }.
Arguments MkClient {Callback}. Arguments critical {Callback}. Arguments activity {Callback}.

(** What has happened, the last first. *)
Inductive Event (Callback : Type) :=
| Invoked (t : Tasks.Task (Job Callback)) (now : Z)
| Cancelled (c : Z) (t : Tasks.Task (Job Callback)).
Arguments Invoked {Callback}. Arguments Cancelled {Callback}.

Record Threads (Callback : Type) := MkThreads {
  manager : AsyncTaskManager Callback;
  internal_mutex_ : option Z;
  synchronization_mutex_ : option Holder;
  phase : Phase Callback;
  clients : gmap Z (Client Callback);
  clock : Z;
  history : list (Event Callback);
  (** [std::terminate] was called: a thread is assigned to a [std::thread] that has one. *)
  terminated : bool;
}.
Arguments MkThreads {Callback}. Arguments manager {Callback}. Arguments internal_mutex_ {Callback}.
Arguments synchronization_mutex_ {Callback}. Arguments phase {Callback}. Arguments clients {Callback}.
Arguments clock {Callback}. Arguments history {Callback}. Arguments terminated {Callback}.

Section Threads.
Context {Callback : Type}.
Notation Task := (Tasks.Task (Job Callback)).
Notation State := (Threads Callback).
Implicit Types (s : State) (t : Task) (m : AsyncTaskManager Callback).

#[export] Instance threads_rebuild : Rebuild State := λ s,
  MkThreads (manager s) (internal_mutex_ s) (synchronization_mutex_ s) (phase s) (clients s) (clock s) (history s) (terminated s).

Definition set_client (c : Z) (k : Client Callback) s : State := s <| clients ::= <[c := k]> |>.
Definition on_manager (f : AsyncTaskManager Callback → AsyncTaskManager Callback) s : State := s <| manager ::= f |>.

(** The task whose mutex the task thread holds. *)
Definition in_callback s : option Task :=
  match phase s with InCallback t | Running t _ => Some t | _ => None end.
(** A cancellation of [id] by another thread blocks. *)
Definition blocks s (id : Z) : bool :=
  match tasks_by_id_ (manager s) !! id, in_callback s with
  | Some t, Some t' => address t =? address t'
  | _, _ => false
  end.

(** [tryStartThread]. *)
Definition tryStartThread s : State :=
  if running_ (manager s) then s
  else
    let s := on_manager (λ m, m <| running_ := true |>) s in
    match phase s with NotStarted => s <| phase := Testing |> | _ => s <| terminated := true |> end.

(** A call that schedules a task: what it does to the tasks, and what is left to do. *)
Definition call_tasks (c : Call Callback) s : option (outcome (Activity Callback * AsyncTaskManager Callback)) :=
  let m := manager s in
  let scheduled (x : outcome (Z * AsyncTaskManager Callback)) :=
    '(id, m) ← x; Ok (if id =? kInvalidTaskId then Free else Starting, m) in
  match c with
  | CallExecAsync user delay what => Some (scheduled (ExecAsync (clock s) user delay what m))
  | CallExecAsyncPeriodically user delay period what =>
      Some (scheduled (ExecAsyncPeriodically (clock s) user delay period what m))
  | _ => None
  end.
(** The task that a cancellation takes away. *)
Definition cancelled (c id : Z) s : list (Event Callback) :=
  match tasks_by_id_ (manager s) !! id with Some t => [Cancelled c t] | None => [] end.

Inductive move : State → State → Prop :=
| move_time s now : clock s ≤ now → move s (s <| clock := now |>)
(** The task thread. *)
| move_pop s t m :
    phase s = Checking → internal_mutex_ s = None →
    pop (clock s) (manager s) = (Some t, m) → move s (s <| manager := m |> <| phase := Popped t |>)
| move_nothing s m :
    phase s = Checking → internal_mutex_ s = None →
    pop (clock s) (manager s) = (None, m) → move s (s <| manager := m |> <| phase := Waiting |>)
| move_enter s t : phase s = Popped t → move s (s <| phase := InCallback t |>)
| move_invoke s t :
    phase s = InCallback t → synchronization_mutex_ s = None →
    move s (s <| phase := Running t Free |> <| synchronization_mutex_ := Some TaskThread |>
              <| history ::= cons (Invoked t (clock s)) |>)
| move_callback_calls s t c : phase s = Running t Free → move s (s <| phase := Running t (Calling c) |>)
| move_callback_user_id s t :
    phase s = Running t (Calling CallGetNextUserId) →
    move s (on_manager (λ m, snd (GetNextUserId m)) (s <| phase := Running t Free |>))
| move_callback_call s t c a m :
    phase s = Running t (Calling c) → internal_mutex_ s = None → call_tasks c s = Some (Ok (a, m)) →
    move s (s <| manager := m |> <| phase := Running t a |>)
| move_callback_start s t :
    phase s = Running t Starting → internal_mutex_ s = None →
    move s (tryStartThread (s <| phase := Running t Free |>))
| move_callback_cancel s t id :
    phase s = Running t (Calling (CallCancelAsyncTask id)) → internal_mutex_ s = None →
    move s (on_manager (λ m, snd (cancel_task_with_lock_held id m)) (s <| phase := Running t Free |>))
| move_callback_cancel_user s t user :
    phase s = Running t (Calling (CallCancelAsyncTasksFromUser user)) → internal_mutex_ s = None →
    move s (on_manager (λ m, snd (cancel_user_tasks user m)) (s <| phase := Running t Free |>))
| move_callback_stop s t :
    phase s = Running t (Calling CallStopThread) → internal_mutex_ s = None →
    move s (on_manager stop (s <| phase := Running t Free |>))
| move_return s t :
    phase s = Running t Free → move s (s <| phase := Waiting |> <| synchronization_mutex_ := None |>)
(** The last block tests [running_] and waits; the wait ends when it is notified, in time,
    or at any other moment. *)
| move_wake s : phase s = Waiting → internal_mutex_ s = None → move s (s <| phase := Testing |>)
| move_break s :
    phase s = Waiting → internal_mutex_ s = None → running_ (manager s) = false → move s (s <| phase := Stopped |>)
| move_loop s : phase s = Testing → running_ (manager s) = true → move s (s <| phase := Checking |>)
| move_end_loop s : phase s = Testing → running_ (manager s) = false → move s (s <| phase := Stopped |>)
(** The other threads. *)
| move_client_calls s c k call :
    clients s !! c = Some (MkClient k Free) → move s (set_client c (MkClient k (Calling call)) s)
| move_client_user_id s c k :
    clients s !! c = Some (MkClient k (Calling CallGetNextUserId)) →
    move s (on_manager (λ m, snd (GetNextUserId m)) (set_client c (MkClient k Free) s))
| move_client_call s c k call a m :
    clients s !! c = Some (MkClient k (Calling call)) → internal_mutex_ s = None →
    call_tasks call s = Some (Ok (a, m)) → move s (set_client c (MkClient k a) (s <| manager := m |>))
| move_client_start s c k :
    clients s !! c = Some (MkClient k Starting) → internal_mutex_ s = None →
    move s (tryStartThread (set_client c (MkClient k Free) s))
| move_client_cancel s c k id :
    clients s !! c = Some (MkClient k (Calling (CallCancelAsyncTask id))) → internal_mutex_ s = None →
    move s (set_client c (MkClient k (Cancelling [id] None)) s <| internal_mutex_ := Some c |>)
| move_client_cancel_user s c k user ids :
    clients s !! c = Some (MkClient k (Calling (CallCancelAsyncTasksFromUser user))) → internal_mutex_ s = None →
    tasks_by_user_id_ (manager s) !! user = Some ids →
    move s (set_client c (MkClient k (Cancelling (ascending ids) (Some user))) s <| internal_mutex_ := Some c |>)
| move_client_cancel_unknown s c k user :
    clients s !! c = Some (MkClient k (Calling (CallCancelAsyncTasksFromUser user))) → internal_mutex_ s = None →
    tasks_by_user_id_ (manager s) !! user = None → move s (set_client c (MkClient k Free) s)
| move_client_cancel_one s c k id ids user :
    clients s !! c = Some (MkClient k (Cancelling (id :: ids) user)) → blocks s id = false →
    move s (on_manager (λ m, snd (cancel_task_with_lock_held id m)) (set_client c (MkClient k (Cancelling ids user)) s)
              <| history ::= app (cancelled c id s) |>)
| move_client_cancel_end s c k user :
    clients s !! c = Some (MkClient k (Cancelling [] user)) →
    move s (on_manager (λ m, from_option (λ u, m <| tasks_by_user_id_ ::= delete u |>) m user)
              (set_client c (MkClient k Free) s) <| internal_mutex_ := None |>)
| move_client_stop s c k :
    clients s !! c = Some (MkClient k (Calling CallStopThread)) → internal_mutex_ s = None →
    move s (on_manager stop (set_client c (MkClient k (if running_ (manager s) then Joining else Free)) s))
| move_client_join s c k :
    clients s !! c = Some (MkClient k Joining) → phase s = Stopped →
    move s (set_client c (MkClient k Free) s <| phase := NotStarted |>)
(** [Synchronize]. *)
| move_synchronize s c :
    clients s !! c = Some (MkClient false Free) → synchronization_mutex_ s = None →
    move s (set_client c (MkClient true Free) s <| synchronization_mutex_ := Some (ClientThread c) |>)
| move_leave s c :
    clients s !! c = Some (MkClient true Free) →
    move s (set_client c (MkClient false Free) s <| synchronization_mutex_ := None |>)
| move_new_client s c : clients s !! c = None → move s (set_client c (MkClient false Free) s).
(** Nothing goes on after [std::terminate]. *)
Definition step s s' : Prop := terminated s = false ∧ move s s'.

Definition initial : State := MkThreads new_manager None None NotStarted ∅ 0 [] false.
Definition reachable : State → Prop := rtc step initial.
End Threads.

(** ** The tasks, queued and by their identifiers *)

Section Tasks.
Context {Callback : Type}.
Notation Task := (Tasks.Task (Job Callback)).
Implicit Types (t : Task) (m : AsyncTaskManager Callback) (q : list Task).

(** The queue is in order and holds the tasks of the map, each under its identifier, in the set
    of its user, and an object of its own. *)
Record manager_wf m : Prop := {
  wf_sorted : sorted (task_queue_ m);
  wf_queue : ∀ t, t ∈ task_queue_ m ↔ tasks_by_id_ m !! task_id t = Some t;
  wf_ids : ∀ id t, tasks_by_id_ m !! id = Some t → task_id t = id ∧ 1 ≤ id ≤ kMaxTaskId ∧ 0 ≤ address t < objects m;
  wf_users : ∀ id t, tasks_by_id_ m !! id = Some t → ∃ ids, tasks_by_user_id_ m !! owner t = Some ids ∧ id ∈ ids;
  wf_objects : ∀ id t id' t', tasks_by_id_ m !! id = Some t → tasks_by_id_ m !! id' = Some t' →
    address t = address t' → id = id';
  wf_last : 0 ≤ lastTaskId_ m ≤ kMaxTaskId ∧ 0 ≤ objects m;
}.

Lemma new_manager_wf : manager_wf new_manager.
Proof.
  split; cbn; [constructor| |by intros ? ? ?%lookup_empty_Some|by intros ? ? ?%lookup_empty_Some| |done].
  - intros t. rewrite elem_of_nil, lookup_empty. done.
  - by intros ? ? ? ? ?%lookup_empty_Some.
Qed.

(** *** Identifiers *)

(** The k-th identifier that the loop tries. *)
Definition tried (last k : Z) : Z := (last + k - 1) `mod` kMaxTaskId + 1.
Lemma tried_range last k : 1 ≤ tried last k ≤ kMaxTaskId.
Proof. unfold tried, kMaxTaskId. pose proof (Z.mod_pos_bound (last + k - 1) 65535). lia. Qed.
Lemma tried_next last : 0 ≤ last ≤ kMaxTaskId → NextAsyncTaskId last = tried last 1.
Proof.
  unfold NextAsyncTaskId, tried, kMaxTaskId. intros Hl. destruct (Z.eqb_spec last 65535) as [->|Hne]; [done|].
  rewrite Z.mod_small; lia.
Qed.
Lemma tried_succ last k : 1 ≤ k → tried (tried last 1) k = tried last (k + 1).
Proof.
  unfold tried, kMaxTaskId. intros Hk. f_equal.
  replace ((last + 1 - 1) mod 65535 + 1 + k - 1) with ((last + 1 - 1) mod 65535 + k) by lia.
  rewrite Zplus_mod_idemp_l. f_equal. lia.
Qed.
Lemma tried_inj last k k' :
  1 ≤ k ≤ kMaxTaskId → 1 ≤ k' ≤ kMaxTaskId → tried last k = tried last k' → k = k'.
Proof.
  unfold tried, kMaxTaskId. intros Hk Hk' E.
  assert ((last + k - 1) mod 65535 = (last + k' - 1) mod 65535) as E' by lia.
  pose proof (Z.div_mod (last + k - 1) 65535) as D. pose proof (Z.div_mod (last + k' - 1) 65535) as D'. lia.
Qed.

Lemma next_id_loop_spec fuel last m :
  0 ≤ last ≤ kMaxTaskId →
  match next_id_loop fuel last m with
  | Ok id => ∃ k, 1 ≤ k ≤ Z.of_nat fuel ∧ id = tried last k ∧ tasks_by_id_ m !! id = None
  | Hang => ∀ k, 1 ≤ k ≤ Z.of_nat fuel → is_Some (tasks_by_id_ m !! tried last k)
  | Fatal | Undef => False
  end.
Proof.
  revert last. induction fuel as [|fuel IH]; intros last Hl; [intros k Hk; lia|]. cbn [next_id_loop].
  rewrite tried_next by done. destruct (tasks_by_id_ m !! tried last 1) as [t|] eqn:E; cbn [has_value].
  2: { exists 1. by split_and!; [lia|lia|..]. }
  pose proof (tried_range last 1) as Hr. specialize (IH (tried last 1) ltac:(lia)).
  destruct (next_id_loop fuel (tried last 1) m) as [id| | |]; try done.
  - destruct IH as (k & Hk & -> & Hn). exists (k + 1). rewrite tried_succ in * by lia. by split_and!; [lia|lia|..].
  - intros k Hk. destruct (decide (k = 1)) as [->|]; [by rewrite E|].
    replace k with (k - 1 + 1) by lia. rewrite <-tried_succ by lia. apply IH. lia.
Qed.
Lemma next_id_loop_ends m :
  0 ≤ lastTaskId_ m ≤ kMaxTaskId → Z.of_nat (size (tasks_by_id_ m)) < kMaxTaskId →
  ∃ id, next_id_loop (S (size (tasks_by_id_ m))) (lastTaskId_ m) m = Ok id ∧
    1 ≤ id ≤ kMaxTaskId ∧ tasks_by_id_ m !! id = None.
Proof.
  intros Hl Hs. pose proof (next_id_loop_spec (S (size (tasks_by_id_ m))) (lastTaskId_ m) m Hl) as H.
  destruct (next_id_loop _ _ _) as [id| | |]; try done.
  - destruct H as (k & _ & -> & Hn). exists (tried (lastTaskId_ m) k). split; [done|]. split; [apply tried_range|done].
  - exfalso. set (ids := tried (lastTaskId_ m) <$> seqZ 1 (Z.of_nat (S (size (tasks_by_id_ m))))).
    assert (NoDup ids) as Hnd.
    { apply NoDup_fmap_2_strong; [|apply NoDup_seqZ]. intros x y Hx%elem_of_seqZ Hy%elem_of_seqZ. apply tried_inj; lia. }
    assert (ids ⊆+ elements (dom (tasks_by_id_ m))) as Hsub.
    { apply NoDup_submseteq; [done|]. intros a (k & -> & Hk%elem_of_seqZ)%list_elem_of_fmap.
      apply elem_of_elements, elem_of_dom, H. lia. }
    apply submseteq_length in Hsub. unfold ids in Hsub. rewrite length_fmap, length_seqZ in Hsub.
    change (length (elements (dom (tasks_by_id_ m)))) with (size (dom (tasks_by_id_ m))) in Hsub.
    rewrite size_dom in Hsub. lia.
Qed.

(** *** Scheduling *)

Lemma elem_of_insert_fresh t q x :
  sorted q → (∀ y, y ∈ q → task_id y ≠ task_id t) → x ∈ insert_task t q ↔ x = t ∨ x ∈ q.
Proof.
  intros Hq Hfresh. split; [apply elem_of_insert_task|]. intros [->|Hx]; [|by apply insert_task_subset].
  destruct (insert_task_equivalent t q) as (y & Hy & _ & Eid).
  apply elem_of_insert_task in Hy as Hy'. destruct Hy' as [->|Hy']; [done|]. by destruct (Hfresh y Hy').
Qed.

Lemma scheduleTask_run time periodic period user what m :
  manager_wf m → Z.of_nat (size (tasks_by_id_ m)) < kMaxTaskId →
  ∃ id, let t := MkTask time periodic period (MkJob user what (objects m)) id in
  scheduleTask time periodic period user what m =
    Ok (id, m <| lastTaskId_ := id |> <| objects ::= Z.succ |> <| tasks_by_id_ ::= <[id := t]> |>
              <| tasks_by_user_id_ ::= partial_alter (λ ids, Some ({[id]} ∪ default ∅ ids)) user |>
              <| task_queue_ ::= insert_task t |>) ∧
  1 ≤ id ≤ kMaxTaskId ∧ tasks_by_id_ m !! id = None.
Proof.
  intros Hm Hs. destruct (next_id_loop_ends m) as (id & E & Hid & Hn); [apply Hm|done|].
  exists id. unfold scheduleTask. rewrite (proj2 (Z.eqb_neq _ _)) by lia. by rewrite E.
Qed.
Lemma scheduleTask_full time periodic period user what m :
  Z.of_nat (size (tasks_by_id_ m)) = kMaxTaskId →
  scheduleTask time periodic period user what m = Ok (kInvalidTaskId, m).
Proof. intros Hs. unfold scheduleTask. by rewrite Hs. Qed.
Lemma size_bound m : manager_wf m → Z.of_nat (size (tasks_by_id_ m)) ≤ kMaxTaskId.
Proof.
  intros Hm. assert (elements (dom (tasks_by_id_ m)) ⊆+ seqZ 1 kMaxTaskId) as Hsub.
  { apply NoDup_submseteq; [apply NoDup_elements|]. intros id Hid. apply elem_of_elements, elem_of_dom in Hid as [t Ht].
    apply elem_of_seqZ. apply (wf_ids m Hm) in Ht as (_ & ? & _). lia. }
  apply submseteq_length in Hsub. rewrite length_seqZ in Hsub.
  change (length (elements (dom (tasks_by_id_ m)))) with (size (dom (tasks_by_id_ m))) in Hsub.
  rewrite size_dom in Hsub. unfold kMaxTaskId in *. lia.
Qed.

Lemma schedule_wf t id user m :
  manager_wf m → task_id t = id → owner t = user → address t = objects m → 1 ≤ id ≤ kMaxTaskId → tasks_by_id_ m !! id = None →
  manager_wf (m <| lastTaskId_ := id |> <| objects ::= Z.succ |> <| tasks_by_id_ ::= <[id := t]> |>
              <| tasks_by_user_id_ ::= partial_alter (λ ids, Some ({[id]} ∪ default ∅ ids)) user |>
              <| task_queue_ ::= insert_task t |>).
Proof.
  intros Hm Et Eu Ea Hid Hn.
  assert (∀ y, y ∈ task_queue_ m → task_id y ≠ task_id t) as Hfresh.
  { intros y Hy%(wf_queue m Hm) E. rewrite E, Et, Hn in Hy. done. }
  assert (∀ id' t', tasks_by_id_ m !! id' = Some t' → address t' ≠ address t) as Hobj.
  { intros id' t' Ht'. apply (wf_ids m Hm) in Ht' as (_ & _ & ?). lia. }
  split; cbn.
  - by apply insert_task_sorted, Hm.
  - intros x. rewrite elem_of_insert_fresh by (done || apply Hm). rewrite (wf_queue m Hm). split.
    + intros [->|Hx]; [by rewrite Et, lookup_insert_eq|]. rewrite lookup_insert_ne; [done|congruence].
    + rewrite lookup_insert_Some. intros [[_ <-]|[_ ?]]; auto.
  - intros i x [[<- <-]|[Hne Hx]]%lookup_insert_Some.
    + rewrite Ea. pose proof (wf_last m Hm). split_and!; lia.
    + apply (wf_ids m Hm) in Hx as (? & ? & ?). split_and!; lia.
  - intros i x [[<- <-]|[Hne Hx]]%lookup_insert_Some.
    + rewrite Eu, lookup_partial_alter_eq. eexists. split; [done|]. set_solver.
    + apply (wf_users m Hm) in Hx as (ids & Hids & Hin). destruct (decide (owner x = user)) as [Ex|].
      * rewrite Ex in *. rewrite lookup_partial_alter_eq, Hids. eexists. split; [done|]. cbn. set_solver.
      * rewrite lookup_partial_alter_ne by done. by exists ids.
  - intros i x i' x' [[<- <-]|[Hne Hx]]%lookup_insert_Some [[<- <-]|[Hne' Hx']]%lookup_insert_Some E; try done.
    + by apply Hobj in Hx'.
    + by apply Hobj in Hx.
    + by eapply (wf_objects m Hm).
  - pose proof (wf_last m Hm). lia.
Qed.
Lemma scheduleTask_wf time periodic period user what m id m' :
  manager_wf m → scheduleTask time periodic period user what m = Ok (id, m') → manager_wf m'.
Proof.
  intros Hm E. destruct (decide (Z.of_nat (size (tasks_by_id_ m)) = kMaxTaskId)) as [Hs|Hs].
  { rewrite scheduleTask_full in E by done. by injection E as _ <-. }
  pose proof (size_bound m Hm) as Hb.
  destruct (scheduleTask_run time periodic period user what m Hm ltac:(lia)) as (id' & E' & Hid & Hn).
  rewrite E in E'. injection E' as -> ->. by apply schedule_wf.
Qed.

(** *** Cancelling *)

Lemma erase_queue t m x :
  manager_wf m → t ∈ task_queue_ m → x ∈ erase t (task_queue_ m) ↔ x ∈ task_queue_ m ∧ task_id x ≠ task_id t.
Proof.
  intros Hm Ht. unfold erase. rewrite list_elem_of_filter. split.
  - intros [Hk Hx]. split; [done|]. intros E. apply Hk. apply (wf_queue m Hm) in Ht, Hx.
    rewrite E in Hx. rewrite Ht in Hx. by injection Hx as ->.
  - intros [Hx Hne]. split; [|done]. by intros [_ E].
Qed.
Lemma sorted_filter (P : Task → Prop) `{∀ t, Decision (P t)} q : sorted q → sorted (filter P q).
Proof.
  unfold sorted. induction 1 as [|x q Hq IH Hx]; [constructor|]. rewrite filter_cons. case_decide; [|done].
  constructor; [done|]. rewrite Forall_forall in *. intros y [_ Hy]%list_elem_of_filter. by apply Hx.
Qed.

Lemma remove_wf id t q m :
  manager_wf m → tasks_by_id_ m !! id = Some t → sorted q → (∀ x, x ∈ q ↔ x ∈ task_queue_ m ∧ task_id x ≠ id) →
  manager_wf (m <| task_queue_ := q |> <| tasks_by_id_ ::= delete id |>).
Proof.
  intros Hm Ht Hq Hx. split; cbn.
  - done.
  - intros x. rewrite Hx, (wf_queue m Hm), lookup_delete_Some. naive_solver.
  - intros i x [_ Hi]%lookup_delete_Some. by apply Hm.
  - intros i x [_ Hi]%lookup_delete_Some. by apply Hm.
  - intros i x i' x' [_ Hi]%lookup_delete_Some [_ Hi']%lookup_delete_Some. by apply Hm.
  - apply Hm.
Qed.
Lemma cancel_task_wf id m : manager_wf m → manager_wf (snd (cancel_task_with_lock_held id m)).
Proof.
  intros Hm. unfold cancel_task_with_lock_held. destruct (tasks_by_id_ m !! id) as [t|] eqn:Ht; [|done]. cbn [snd].
  apply (remove_wf id t); [done..| |].
  - apply sorted_filter, Hm.
  - pose proof (wf_ids m Hm id t Ht) as (E & _). intros x. rewrite <-E. apply erase_queue; [done|].
    apply (wf_queue m Hm). by rewrite E.
Qed.
Lemma cancel_task_by_id id m : tasks_by_id_ (snd (cancel_task_with_lock_held id m)) = delete id (tasks_by_id_ m).
Proof.
  unfold cancel_task_with_lock_held. destruct (tasks_by_id_ m !! id) eqn:E; [done|]. cbn. by rewrite delete_id.
Qed.
Lemma cancel_task_users id m : tasks_by_user_id_ (snd (cancel_task_with_lock_held id m)) = tasks_by_user_id_ m.
Proof. unfold cancel_task_with_lock_held. by destruct (tasks_by_id_ m !! id). Qed.
Lemma cancel_tasks_wf ids m :
  manager_wf m → let m' := foldl (λ m id, snd (cancel_task_with_lock_held id m)) m ids in
  manager_wf m' ∧ (∀ id t, tasks_by_id_ m' !! id = Some t → id ∉ ids ∧ tasks_by_id_ m !! id = Some t).
Proof.
  revert m. induction ids as [|id ids IH]; intros m Hm; cbn [foldl].
  { split; [done|]. intros i t Hi. split; [apply not_elem_of_nil|done]. }
  destruct (IH (snd (cancel_task_with_lock_held id m))) as [Hw Hl]; [by apply cancel_task_wf|]. split; [done|].
  intros i t Hi. apply Hl in Hi as [Hn Hi]. rewrite cancel_task_by_id in Hi. apply lookup_delete_Some in Hi as [? ?].
  split; [|done]. rewrite not_elem_of_cons. naive_solver.
Qed.
(** The entry of a user goes when none of the user's tasks is left. *)
Lemma erase_user_wf user m :
  manager_wf m → (∀ id t, tasks_by_id_ m !! id = Some t → owner t ≠ user) →
  manager_wf (m <| tasks_by_user_id_ ::= delete user |>).
Proof.
  intros Hm Hu. split; try apply Hm. cbn. intros id t Ht. rewrite lookup_delete_ne; [by apply Hm|].
  intros ->. by eapply Hu.
Qed.
Lemma cancel_user_tasks_wf user m : manager_wf m → manager_wf (snd (cancel_user_tasks user m)).
Proof.
  intros Hm. unfold cancel_user_tasks. destruct (tasks_by_user_id_ m !! user) as [ids|] eqn:Hids; [|done]. cbn [snd].
  destruct (cancel_tasks_wf (ascending ids) m Hm) as [Hw Hl]. apply erase_user_wf; [done|].
  intros id t Ht E. apply Hl in Ht as [Hn Ht]. apply (wf_users m Hm) in Ht as (ids' & Hids' & Hin).
  rewrite E, Hids in Hids'. injection Hids' as <-. by apply Hn, elem_of_ascending.
Qed.

(** *** The task thread *)

Lemma pop_wf now m : manager_wf m → manager_wf (snd (pop now m)).
Proof.
  intros Hm. unfold pop. destruct (task_queue_ m) as [|t rest] eqn:Eq; [done|].
  case_match; [|done]. assert (t ∈ task_queue_ m) as Hin by (rewrite Eq; by left).
  apply (wf_queue m Hm) in Hin as Ht. pose proof (wf_sorted m Hm) as Hs. rewrite Eq in Hs.
  apply StronglySorted_inv in Hs as [Hs Hfirst]. rewrite Forall_forall in Hfirst.
  assert (∀ x, x ∈ rest ↔ x ∈ task_queue_ m ∧ task_id x ≠ task_id t) as Hrest.
  { intros x. rewrite Eq. split.
    - intros Hx. split; [by right|]. intros E. assert (x ∈ task_queue_ m) as Hx' by (rewrite Eq; by right).
      apply (wf_queue m Hm) in Hx'. rewrite E, Ht in Hx'. injection Hx' as ->.
      by apply (irreflexivity task_before x), Hfirst.
    - intros [[->|Hx]%elem_of_cons Hne]; done. }
  destruct (periodic t); cbn [snd].
  - set (t' := t <| time ::= _ |>). assert (task_id t' = task_id t ∧ owner t' = owner t ∧ address t' = address t) as (Ei & Eo & Ea) by done.
    clearbody t'. apply (wf_ids m Hm) in Ht as Hti.
    assert (∀ y, y ∈ rest → task_id y ≠ task_id t') as Hfresh by (intros y Hy; rewrite Ei; by apply Hrest).
    split; cbn.
    + by apply insert_task_sorted.
    + intros x. rewrite elem_of_insert_fresh by done. rewrite lookup_insert_Some, Hrest, (wf_queue m Hm).
      split; [intros [->|[? ?]]; [by left|by right]|]. intros [[_ <-]|[? ?]]; auto.
    + intros i x [[<- <-]|[? Hx]]%lookup_insert_Some; [|by apply Hm]. by rewrite Ei, Ea.
    + intros i x [[<- <-]|[? Hx]]%lookup_insert_Some; [|by apply Hm]. rewrite Eo. by apply Hm.
    + intros i x i' x' [[<- <-]|[? Hx]]%lookup_insert_Some [[<- <-]|[? Hx']]%lookup_insert_Some E; try done.
      * rewrite Ea in E. by apply (wf_objects m Hm (task_id t) t i' x').
      * rewrite Ea in E. by apply (wf_objects m Hm i x (task_id t) t).
      * by apply (wf_objects m Hm i x i' x').
    + apply Hm.
  - pose proof (remove_wf (task_id t) t rest m Hm Ht Hs Hrest) as Hw. split; try apply Hw. cbn.
    intros i x [Hne Hx]%lookup_delete_Some. apply (wf_users m Hm) in Hx as (ids & Hids & Hxin).
    destruct (decide (owner x = owner t)) as [E|].
    + rewrite E, lookup_partial_alter_eq. rewrite E in Hids. rewrite Hids. eexists. split; [done|]. cbn. set_solver.
    + rewrite lookup_partial_alter_ne by done. by exists ids.
Qed.
Lemma pop_Some now m t m' :
  manager_wf m → pop now m = (Some t, m') →
  t ∈ task_queue_ m ∧ time t < now ∧ (∀ x, x ∈ task_queue_ m → x = t ∨ task_before t x) ∧ objects m' = objects m ∧
  (∀ id x, tasks_by_id_ m' !! id = Some x → ∃ id' x', tasks_by_id_ m !! id' = Some x' ∧ address x = address x').
Proof.
  intros Hm. unfold pop. destruct (task_queue_ m) as [|x rest] eqn:Eq; [done|].
  destruct (Z.ltb_spec (time x) now); [|done]. intros E.
  assert (x ∈ task_queue_ m) as Hx by (rewrite Eq; by left). apply (wf_queue m Hm) in Hx.
  pose proof (wf_sorted m Hm) as Hs. rewrite Eq in Hs. apply StronglySorted_inv in Hs as [_ Hfirst].
  rewrite Forall_forall in Hfirst.
  assert (x = t ∧ objects m' = objects m ∧ ∀ id y, tasks_by_id_ m' !! id = Some y →
    ∃ id' y', tasks_by_id_ m !! id' = Some y' ∧ address y = address y') as (<- & Eo & Hy).
  { destruct (periodic x); injection E as <- <-; (split; [done|]); (split; [done|]); cbn; intros id y.
    - intros [[<- <-]|[_ Hy]]%lookup_insert_Some; [by exists (task_id x), x|by exists id, y].
    - intros [_ Hy]%lookup_delete_Some. by exists id, y. }
  split; [by left|]. split; [done|]. split; [|by split]. intros y [->|Hy']%elem_of_cons; [by left|right]. by apply Hfirst.
Qed.
Lemma stop_wf m : manager_wf m → manager_wf (stop m).
Proof.
  intros Hm. split; cbn; [constructor| |by intros ? ? ?%lookup_empty_Some|by intros ? ? ?%lookup_empty_Some| |apply Hm].
  - intros t. rewrite elem_of_nil, lookup_empty. done.
  - by intros ? ? ? ? ?%lookup_empty_Some.
Qed.

(** Scheduling always ends, and gives the task an identifier that is not in use, from
    1 to 65535, as long as there is one: with fewer tasks than that the search for it is over after
    at most one turn more than there are tasks, the task is in the queue and in both maps, the others
    are as they were; with all in use nothing changes and the answer is the invalid identifier. *)
Theorem scheduleTask_spec (time : Z) (periodic : bool) (period user : Z) (what : Callback) m (Hm : manager_wf m) :
  ∃ id m', scheduleTask time periodic period user what m = Ok (id, m') ∧ manager_wf m' ∧
  if decide (Z.of_nat (size (tasks_by_id_ m)) = kMaxTaskId) then id = kInvalidTaskId ∧ m' = m
  else
    let t := MkTask time periodic period (MkJob user what (objects m)) id in
    1 ≤ id ≤ kMaxTaskId ∧ tasks_by_id_ m !! id = None ∧ tasks_by_id_ m' = <[id := t]> (tasks_by_id_ m) ∧
    (∀ x, x ∈ task_queue_ m' ↔ x = t ∨ x ∈ task_queue_ m) ∧
    ∀ u, default ∅ (tasks_by_user_id_ m' !! u) =
      if decide (u = user) then {[id]} ∪ default ∅ (tasks_by_user_id_ m !! u) else default ∅ (tasks_by_user_id_ m !! u).
Proof.
  case_decide as Hs.
  { exists kInvalidTaskId, m. by rewrite scheduleTask_full. }
  pose proof (size_bound m Hm) as Hb.
  destruct (scheduleTask_run time periodic period user what m Hm ltac:(lia)) as (id & E & Hid & Hn).
  do 2 eexists. split; [exact E|]. split; [by apply schedule_wf|]. split; [done|]. split; [done|]. split; [done|].
  split.
  - intros x. cbn. apply elem_of_insert_fresh; [apply Hm|]. intros y Hy%(wf_queue m Hm) Ey. cbn in Ey. by rewrite Ey, Hn in Hy.
  - intros u. cbn. case_decide as Hu; [subst; by rewrite lookup_partial_alter_eq|by rewrite lookup_partial_alter_ne].
Qed.
End Tasks.

(** ** The threads *)

Section Invariant.
Context {Callback : Type}.
Notation Task := (Tasks.Task (Job Callback)).
Notation State := (Threads Callback).
Implicit Types (s : State) (t : Task) (m : AsyncTaskManager Callback).

(** The task that the task thread has taken from the queue. *)
Definition taken (p : Phase Callback) : option Task :=
  match p with Popped t | InCallback t | Running t _ => Some t | _ => None end.
Definition is_running (p : Phase Callback) : bool := match p with Running _ _ => true | _ => false end.

Record threads_wf s : Prop := {
  wf_manager : manager_wf (manager s);
  (** A thread that cancels holds the mutex, and what it has still to cancel for a
      user are at least the tasks of the user. *)
  wf_cancelling : ∀ c k ids u, clients s !! c = Some (MkClient k (Cancelling ids u)) →
    internal_mutex_ s = Some c ∧
    ∀ user, u = Some user → ∀ id t, tasks_by_id_ (manager s) !! id = Some t → owner t = user → id ∈ ids;
  wf_mutex : ∀ c, internal_mutex_ s = Some c →
    ∃ k ids u, clients s !! c = Some (MkClient k (Cancelling ids u));
  wf_synchronized : synchronization_mutex_ s = Some TaskThread ↔ is_running (phase s) = true;
  wf_critical : ∀ c, synchronization_mutex_ s = Some (ClientThread c) ↔
    ∃ a, clients s !! c = Some (MkClient true a);
  wf_taken : ∀ t, taken (phase s) = Some t → time t < clock s ∧ 0 ≤ address t < objects (manager s);
  wf_history : ∀ t now, Invoked t now ∈ history s → time t < now;
}.

Lemma initial_wf : threads_wf initial.
Proof.
  split; cbn; try done; [apply new_manager_wf|..].
  - intros c. split; [done|]. by intros [a ?%lookup_empty_Some].
  - by intros t now ?%elem_of_nil.
Qed.

(** Steps of the task thread that change its phase and the tasks. *)
Lemma phase_wf s m p :
  threads_wf s → manager_wf m → is_running p = is_running (phase s) →
  (∀ t, taken p = Some t → time t < clock s ∧ 0 ≤ address t < objects m) →
  internal_mutex_ s = None ∨ tasks_by_id_ m = tasks_by_id_ (manager s) →
  threads_wf (s <| manager := m |> <| phase := p |>).
Proof.
  intros Hs Hm Hp Ht Hk. split; cbn; try apply Hs; try done.
  - intros c k ids u Hc. destruct (wf_cancelling s Hs c k ids u Hc) as [Hi Hu]. split; [done|].
    destruct Hk as [Hk| ->]; [congruence|done].
  - rewrite Hp. apply Hs.
Qed.
(** A client goes on to something that is not a cancellation. *)
Lemma client_wf s c k a a' m :
  threads_wf s → clients s !! c = Some (MkClient k a) → manager_wf m →
  (∀ ids u, a ≠ Cancelling ids u) → (∀ ids u, a' ≠ Cancelling ids u) →
  objects (manager s) ≤ objects m → internal_mutex_ s = None ∨ tasks_by_id_ m = tasks_by_id_ (manager s) →
  threads_wf (set_client c (MkClient k a') (s <| manager := m |>)).
Proof.
  intros Hs Hc Hm Ha Ha' Ho Hk. split; cbn; try apply Hs; try done.
  - intros c' k' ids u [[<- E]|[Hne Hc']]%lookup_insert_Some; [injection E as <- ->; by destruct (Ha' ids u)|].
    destruct (wf_cancelling s Hs c' k' ids u Hc') as [Hi Hu]. split; [done|].
    destruct Hk as [Hk| ->]; [congruence|done].
  - intros c' Hi. destruct (wf_mutex s Hs c' Hi) as (k' & ids & u & Hc').
    rewrite lookup_insert_ne; [by do 3 eexists|]. intros ->. rewrite Hc in Hc'. injection Hc' as <- ->. by destruct (Ha ids u).
  - intros c'. rewrite (wf_critical s Hs c'). destruct (decide (c = c')) as [->|Hne].
    + rewrite lookup_insert_eq, Hc. split; intros [x E]; injection E as -> <-; by eexists.
    + by rewrite lookup_insert_ne.
  - intros t Ht. apply (wf_taken s Hs) in Ht. lia.
Qed.

Lemma call_tasks_wf c s a m :
  manager_wf (manager s) → call_tasks c s = Some (Ok (a, m)) →
  manager_wf m ∧ objects (manager s) ≤ objects m ∧ (a = Free ∨ a = Starting).
Proof.
  intros Hm Hc.
  assert (∀ time periodic period user what,
    ('(id, m) ← scheduleTask time periodic period user what (manager s);
     Ok (if id =? kInvalidTaskId then Free else Starting, m)) = Ok (a, m) →
    manager_wf m ∧ objects (manager s) ≤ objects m ∧ (a = Free ∨ a = Starting)) as Hsched.
  { intros *. intros ([id m'] & E & [= <- <-])%bind_Ok. split; [by eapply scheduleTask_wf|].
    split; [|case_match; [by left|by right]].
    unfold scheduleTask in E. case_match; [by injection E as _ <-|].
    apply bind_Ok in E as (id' & _ & [= _ <-]). cbn. lia. }
  destruct c; cbn in Hc; try discriminate; injection Hc as Hc; by eapply Hsched.
Qed.
Lemma GetNextUserId_wf m : manager_wf m → manager_wf (snd (GetNextUserId m)).
Proof. intros [? ? ? ? ? ?]. by split. Qed.
Lemma running_wf b m : manager_wf m → manager_wf (m <| running_ := b |>).
Proof. intros [? ? ? ? ? ?]. by split. Qed.
Lemma tryStartThread_wf s : threads_wf s → threads_wf (tryStartThread s).
Proof.
  intros Hs. unfold tryStartThread. destruct (running_ (manager s)); [done|].
  assert (threads_wf (on_manager (λ m, m <| running_ := true |>) s)) as Hs'.
  { apply (phase_wf s _ (phase s) Hs); [by apply running_wf, Hs|done|apply Hs|by right]. }
  assert (threads_wf (on_manager (λ m, m <| running_ := true |>) s <| terminated := true |>)) as Ht by by destruct Hs'; split.
  cbn zeta. change (phase (on_manager _ s)) with (phase s). destruct (phase s) eqn:E; try exact Ht.
  apply (phase_wf s _ Testing Hs); [by apply running_wf, Hs|by rewrite E|done|by right].
Qed.
Lemma cancel_task_objects id m : objects (snd (cancel_task_with_lock_held id m)) = objects m.
Proof. unfold cancel_task_with_lock_held. by destruct (tasks_by_id_ m !! id). Qed.
Lemma cancel_user_tasks_objects user m : objects (snd (cancel_user_tasks user m)) = objects m.
Proof.
  unfold cancel_user_tasks. destruct (tasks_by_user_id_ m !! user) as [ids|]; [|done]. cbn [snd].
  transitivity (objects (foldl (λ m id, snd (cancel_task_with_lock_held id m)) m (ascending ids))); [done|].
  revert m. induction (ascending ids) as [|id l IH]; intros m; [done|]. cbn [foldl]. by rewrite IH, cancel_task_objects.
Qed.

(** The task thread gets and releases [synchronization_mutex_]. *)
Lemma invoke_wf s t :
  threads_wf s → phase s = InCallback t → synchronization_mutex_ s = None →
  threads_wf (s <| phase := Running t Free |> <| synchronization_mutex_ := Some TaskThread |>
                <| history ::= cons (Invoked t (clock s)) |>).
Proof.
  intros Hs Hp Hy. split; cbn; try apply Hs; try done.
  - intros c. split; [done|]. intros Hc. apply (wf_critical s Hs) in Hc. congruence.
  - intros x [= <-]. apply Hs. by rewrite Hp.
  - intros x now [[= -> ->]|Hx]%elem_of_cons; [|by apply (wf_history s Hs)].
    apply (wf_taken s Hs). by rewrite Hp.
Qed.
Lemma return_wf s t :
  threads_wf s → phase s = Running t Free →
  threads_wf (s <| phase := Waiting |> <| synchronization_mutex_ := None |>).
Proof.
  intros Hs Hp. split; cbn; try apply Hs; try done.
  intros c. split; [done|]. intros Hc. apply (wf_critical s Hs) in Hc.
  assert (synchronization_mutex_ s = Some TaskThread) by (apply (wf_synchronized s Hs); by rewrite Hp). congruence.
Qed.
(** A client gets and releases it. *)
Lemma critical_wf s c (k : bool) :
  threads_wf s → clients s !! c = Some (MkClient (negb k) Free) →
  (if k then synchronization_mutex_ s = None else True) →
  threads_wf (set_client c (MkClient k Free) s
    <| synchronization_mutex_ := if k then Some (ClientThread c) else None |>).
Proof.
  intros Hs Hc Hy. split; cbn; try apply Hs; try done.
  - intros c' k' ids u [[<- E]|[Hne Hc']]%lookup_insert_Some; [done|by apply (wf_cancelling s Hs c' k')].
  - intros c' Hi. destruct (wf_mutex s Hs c' Hi) as (k' & ids & u & Hc').
    rewrite lookup_insert_ne; [by do 3 eexists|]. intros ->. congruence.
  - split; [by destruct k|]. intros Hr. apply (wf_synchronized s Hs) in Hr. destruct k; [congruence|].
    assert (synchronization_mutex_ s = Some (ClientThread c)) by (apply (wf_critical s Hs); by eexists). congruence.
  - intros c'. destruct (decide (c = c')) as [->|Hne].
    + rewrite lookup_insert_eq. destruct k; [split; [by eexists|done]|]. split; [done|]. by intros [a E].
    + rewrite lookup_insert_ne by done. split; [by destruct k; [intros [= ->]|]|]. intros Ha.
      apply (wf_critical s Hs) in Ha. destruct k; [congruence|].
      assert (synchronization_mutex_ s = Some (ClientThread c)) by (apply (wf_critical s Hs); by eexists). congruence.
Qed.

(** A client starts and goes on with a cancellation. *)
Lemma cancelling_wf s c k a ids u m :
  threads_wf s → clients s !! c = Some (MkClient k a) → manager_wf m → objects m = objects (manager s) →
  (internal_mutex_ s = None ∨ internal_mutex_ s = Some c) →
  (∀ user, u = Some user → ∀ id t, tasks_by_id_ m !! id = Some t → owner t = user → id ∈ ids) →
  threads_wf (set_client c (MkClient k (Cancelling ids u)) (s <| manager := m |>) <| internal_mutex_ := Some c |>).
Proof.
  intros Hs Hc Hm Ho Hi Hu. split; cbn; try apply Hs; try done.
  - intros c' k' ids' u' [[<- E]|[Hne Hc']]%lookup_insert_Some; [by injection E as <- <- <-|].
    destruct (wf_cancelling s Hs c' k' ids' u' Hc') as [Hi' _]. destruct Hi; congruence.
  - intros c' [= <-]. rewrite lookup_insert_eq. by do 3 eexists.
  - intros c'. rewrite (wf_critical s Hs c'). destruct (decide (c = c')) as [->|Hne].
    + rewrite lookup_insert_eq, Hc. split; intros [x E]; injection E as -> <-; by eexists.
    + by rewrite lookup_insert_ne.
  - intros t Ht. rewrite Ho. by apply Hs.
Qed.
Lemma cancel_end_wf s c k user :
  threads_wf s → clients s !! c = Some (MkClient k (Cancelling [] user)) →
  threads_wf (on_manager (λ m, from_option (λ u, m <| tasks_by_user_id_ ::= delete u |>) m user)
    (set_client c (MkClient k Free) s) <| internal_mutex_ := None |>).
Proof.
  intros Hs Hc. destruct (wf_cancelling s Hs c k [] user Hc) as [Hi Hu].
  split; cbn; try apply Hs; try done.
  - destruct user as [u|]; [|apply Hs]. apply erase_user_wf; [apply Hs|]. intros id t Ht E.
    specialize (Hu u eq_refl id t Ht E). by apply elem_of_nil in Hu.
  - intros c' k' ids u [[<- E]|[Hne Hc']]%lookup_insert_Some; [done|].
    destruct (wf_cancelling s Hs c' k' ids u Hc') as [Hi' _]. congruence.
  - intros c'. rewrite (wf_critical s Hs c'). destruct (decide (c = c')) as [->|Hne].
    + rewrite lookup_insert_eq, Hc. split; intros [x E]; injection E as -> <-; by eexists.
    + by rewrite lookup_insert_ne.
  - intros t Ht. apply (wf_taken s Hs) in Ht. by destruct user.
Qed.

(** The phase of the task thread changes, and nothing else. *)
Lemma only_phase_wf s p :
  threads_wf s → is_running p = is_running (phase s) → (∀ t, taken p = Some t → taken (phase s) = Some t) →
  threads_wf (s <| phase := p |>).
Proof.
  intros Hs Hp Ht. apply (phase_wf s (manager s) p Hs); [apply Hs|done| |by right].
  intros t Et. by apply (wf_taken s Hs), Ht.
Qed.
(** The callback changes the tasks. *)
Lemma callback_wf s t a a' m :
  threads_wf s → phase s = Running t a → manager_wf m → objects (manager s) ≤ objects m →
  internal_mutex_ s = None ∨ tasks_by_id_ m = tasks_by_id_ (manager s) →
  threads_wf (s <| manager := m |> <| phase := Running t a' |>).
Proof.
  intros Hs Hp Hm Ho Hk. apply phase_wf; [done..|by rewrite Hp| |done]. intros x [= <-].
  assert (taken (phase s) = Some t) as Ht%(wf_taken s Hs) by by rewrite Hp. lia.
Qed.
(** A client goes on without changing the tasks. *)
Lemma only_client_wf s c k a a' :
  threads_wf s → clients s !! c = Some (MkClient k a) →
  (∀ ids u, a ≠ Cancelling ids u) → (∀ ids u, a' ≠ Cancelling ids u) → threads_wf (set_client c (MkClient k a') s).
Proof. intros Hs Hc Ha Ha'. apply (client_wf s c k a a' (manager s) Hs Hc); [apply Hs|done..|by right]. Qed.

Lemma new_client_wf s c : threads_wf s → clients s !! c = None → threads_wf (set_client c (MkClient false Free) s).
Proof.
  intros Hs Hc. split; cbn; try apply Hs.
  - intros c' k' ids u [[<- E]|[Hne Hc']]%lookup_insert_Some; [done|by apply (wf_cancelling s Hs c' k')].
  - intros c' Hi. destruct (wf_mutex s Hs c' Hi) as (k' & ids & u & Hc').
    rewrite lookup_insert_ne; [by do 3 eexists|]. congruence.
  - intros c'. rewrite (wf_critical s Hs c'). destruct (decide (c = c')) as [->|Hne].
    + rewrite lookup_insert_eq, Hc. by split; intros [x E].
    + by rewrite lookup_insert_ne.
Qed.

Lemma move_wf s s' : move s s' → threads_wf s → threads_wf s'.
Proof.
  intros Hmove Hs. pose proof (wf_manager s Hs) as Hm.
  destruct Hmove as [s now Hc|s t m Hp Hi Hpop|s m Hp Hi Hpop|s t Hp|s t Hp Hy|s t c Hp|s t Hp|s t c a m Hp Hi Hc
    |s t Hp Hi|s t id Hp Hi|s t user Hp Hi|s t Hp Hi|s t Hp|s Hp Hi|s Hp Hi Hr|s Hp Hr|s Hp Hr
    |s c k call Hc|s c k Hc|s c k call a m Hc Hi Hcall|s c k Hc Hi|s c k id Hc Hi|s c k user ids Hc Hi Hids
    |s c k user Hc Hi Hids|s c k id ids user Hc Hb|s c k user Hc|s c k Hc Hi|s c k Hc Hp|s c Hc Hy|s c Hc|s c Hc].
  - split; try apply Hs. cbn. intros t Ht. apply (wf_taken s Hs) in Ht. lia.
  - pose proof (pop_wf (clock s) (manager s) Hm) as Hw. rewrite Hpop in Hw.
    destruct (pop_Some (clock s) (manager s) t m Hm Hpop) as (Hin & Ht & _ & Ho & _).
    apply phase_wf; [done..|by rewrite Hp| |by left]. intros x [= <-]. rewrite Ho.
    apply (wf_queue _ Hm), (wf_ids _ Hm) in Hin as (_ & _ & ?). done.
  - pose proof (pop_wf (clock s) (manager s) Hm) as Hw. rewrite Hpop in Hw.
    apply phase_wf; [done..|by rewrite Hp|done|by left].
  - apply only_phase_wf; [done|by rewrite Hp|]. rewrite Hp. done.
  - by apply invoke_wf.
  - apply only_phase_wf; [done|by rewrite Hp|]. rewrite Hp. done.
  - apply (callback_wf s t _ Free _ Hs Hp); [by apply GetNextUserId_wf|cbn; lia|by right].
  - destruct (call_tasks_wf c s a m Hm Hc) as (Hw & Ho & _). apply (callback_wf s t _ a _ Hs Hp); [done..|by left].
  - apply tryStartThread_wf, only_phase_wf; [done|by rewrite Hp|]. rewrite Hp. done.
  - apply (callback_wf s t _ Free (snd (cancel_task_with_lock_held id (manager s))) Hs Hp); [by apply cancel_task_wf|rewrite cancel_task_objects; lia|by left].
  - apply (callback_wf s t _ Free (snd (cancel_user_tasks user (manager s))) Hs Hp); [by apply cancel_user_tasks_wf|rewrite cancel_user_tasks_objects; lia|by left].
  - apply (callback_wf s t _ Free _ Hs Hp); [by apply stop_wf|cbn; lia|by left].
  - by eapply return_wf.
  - apply only_phase_wf; [done|by rewrite Hp|done].
  - apply only_phase_wf; [done|by rewrite Hp|done].
  - apply only_phase_wf; [done|by rewrite Hp|done].
  - apply only_phase_wf; [done|by rewrite Hp|done].
  - by apply (only_client_wf s c k Free).
  - apply (client_wf s c k _ Free _ Hs Hc); [by apply GetNextUserId_wf|done..|cbn; lia|by right].
  - destruct (call_tasks_wf call s a m Hm Hcall) as (Hw & Ho & Ha).
    apply (client_wf s c k _ a _ Hs Hc); [done..|by destruct Ha as [-> | ->]|done|by left].
  - apply tryStartThread_wf. by apply (only_client_wf s c k Starting).
  - apply (cancelling_wf s c k _ [id] None (manager s) Hs Hc); [done..|by left|done].
  - apply (cancelling_wf s c k _ _ (Some user) (manager s) Hs Hc); [done..|by left|].
    intros u [= <-] id t Ht E. apply (wf_users _ Hm) in Ht as (ids' & Hids' & Hin).
    rewrite E, Hids in Hids'. injection Hids' as <-. by apply elem_of_ascending.
  - by apply (only_client_wf s c k (Calling (CallCancelAsyncTasksFromUser user))).
  - destruct (wf_cancelling s Hs c k _ user Hc) as [Hi Hu].
    pose proof (cancelling_wf s c k _ ids user (snd (cancel_task_with_lock_held id (manager s))) Hs Hc
      (cancel_task_wf id _ Hm) (cancel_task_objects id _) (or_intror Hi)) as Hw.
    destruct Hw as [W1 W2 W3 W4 W5 W6 W7].
    { intros u E i t Hi' Eo. rewrite cancel_task_by_id in Hi'. apply lookup_delete_Some in Hi' as [Hne Hi'].
      specialize (Hu u E i t Hi' Eo). by apply elem_of_cons in Hu as [->|?]. }
    split; try done; cbn in *.
    + intros c' k' ids' u' Hc'. rewrite Hi. by apply (W2 c' k').
    + intros c'. rewrite Hi. apply W3.
    + intros t now [Hx|Hx]%elem_of_app; [|by apply W7]. unfold cancelled in Hx.
      destruct (tasks_by_id_ (manager s) !! id); [by apply list_elem_of_singleton in Hx|by apply elem_of_nil in Hx].
  - by apply cancel_end_wf.
  - apply (client_wf s c k _ _ _ Hs Hc); [by apply stop_wf|done|by destruct (running_ (manager s))|cbn; lia|by left].
  - apply (only_phase_wf (set_client c (MkClient k Free) s) NotStarted); [by apply (only_client_wf s c k Joining)|cbn; by rewrite Hp|done].
  - by apply (critical_wf s c true).
  - by apply (critical_wf s c false).
  - by apply new_client_wf.
Qed.

Lemma threads_reachable_wf s : reachable s → threads_wf s.
Proof. revert s. apply rtc_ind_r; [apply initial_wf|]. intros s s' _ [_ Hstep]. by apply move_wf. Qed.

(** C26. However its threads interleave: the queue of the task manager is always in order
    of the times, it and the two maps agree on the tasks and no two tasks share an identifier, no
    callback ever starts before its time has passed, and of all the callbacks and the critical
    sections of other threads at most one runs at a time. *)
Theorem async_manager_invariant s (Hs : reachable s) :
  manager_wf (manager s) ∧ (∀ t now, Invoked t now ∈ history s → time t < now) ∧
  (∀ c a, clients s !! c = Some (MkClient true a) → is_running (phase s) = false ∧
     ∀ c' a', clients s !! c' = Some (MkClient true a') → c' = c).
Proof.
  apply threads_reachable_wf in Hs. split; [apply Hs|]. split; [by apply Hs|]. intros c a Hc.
  assert (synchronization_mutex_ s = Some (ClientThread c)) as Hy by (apply (wf_critical s Hs); by eexists).
  split.
  - destruct (is_running (phase s)) eqn:E; [|done]. apply (wf_synchronized s Hs) in E. congruence.
  - intros c' a' Hc'. assert (synchronization_mutex_ s = Some (ClientThread c')) by (apply (wf_critical s Hs); by eexists).
    congruence.
Qed.
End Invariant.

(** ** Cancelling tasks from other threads *)

Section Cancellation.
Context {Callback : Type}.
Notation Task := (Tasks.Task (Job Callback)).
Notation State := (Threads Callback).
Implicit Types (s : State) (t : Task) (m : AsyncTaskManager Callback).

(** How often the callback of a task has been called. *)
Fixpoint calls_of (o : Z) (es : list (Event Callback)) : nat :=
  match es with
  | [] => 0
  | Invoked t _ :: es => if address t =? o then S (calls_of o es) else calls_of o es
  | Cancelled _ _ :: es => calls_of o es
  end.
Definition invocations (o : Z) s : nat := calls_of o (history s).
(** The task thread will call it: it has taken the task. *)
Definition about_to_run (p : Phase Callback) t : Prop := p = Popped t ∨ p = InCallback t.

(** A task that is gone. *)
Definition retired (o : Z) s : Prop :=
  o < objects (manager s) ∧ (∀ id t, tasks_by_id_ (manager s) !! id = Some t → address t ≠ o) ∧
  (∀ t, about_to_run (phase s) t → address t ≠ o).

(** The tasks after an operation are tasks there were before, or new ones. *)
Definition no_revival m m' : Prop :=
  objects m ≤ objects m' ∧
  ∀ id t, tasks_by_id_ m' !! id = Some t →
    objects m ≤ address t ∨ ∃ id' t', tasks_by_id_ m !! id' = Some t' ∧ address t = address t'.

Lemma no_revival_same m m' : objects m' = objects m → tasks_by_id_ m' = tasks_by_id_ m → no_revival m m'.
Proof. intros E1 E2. split; [lia|]. rewrite E2. intros id t Ht. right. by exists id, t. Qed.
Lemma no_revival_sub m m' :
  objects m' = objects m → (∀ id t, tasks_by_id_ m' !! id = Some t → tasks_by_id_ m !! id = Some t) → no_revival m m'.
Proof. intros E1 E2. split; [lia|]. intros id t Ht%E2. right. by exists id, t. Qed.
Lemma cancel_task_no_revival id m : no_revival m (snd (cancel_task_with_lock_held id m)).
Proof.
  apply no_revival_sub; [apply cancel_task_objects|]. rewrite cancel_task_by_id.
  by intros i t [_ ?]%lookup_delete_Some.
Qed.
Lemma cancel_user_tasks_no_revival user m : manager_wf m → no_revival m (snd (cancel_user_tasks user m)).
Proof.
  intros Hm. apply no_revival_sub; [apply cancel_user_tasks_objects|]. unfold cancel_user_tasks.
  destruct (tasks_by_user_id_ m !! user) as [ids|]; [|done]. intros id t Ht. by apply (cancel_tasks_wf (ascending ids) m Hm).
Qed.
Lemma call_tasks_no_revival c s a m : call_tasks c s = Some (Ok (a, m)) → no_revival (manager s) m.
Proof.
  intros Hc.
  assert (∀ time periodic period user what,
    ('(id, m) ← scheduleTask time periodic period user what (manager s);
     Ok (if id =? kInvalidTaskId then Free else Starting, m)) = Ok (a, m) → no_revival (manager s) m) as Hsched.
  { intros *. intros ([id m'] & E & [= _ <-])%bind_Ok. unfold scheduleTask in E.
    case_match; [injection E as _ <-; by apply no_revival_same|].
    apply bind_Ok in E as (id' & _ & [= _ <-]). split; [cbn; lia|]. cbn.
    intros i t [[_ <-]|[_ Ht]]%lookup_insert_Some; [by left|right; by exists i, t]. }
  destruct c; cbn in Hc; try discriminate; injection Hc as Hc; by eapply Hsched.
Qed.
Lemma tryStartThread_manager s :
  objects (manager (tryStartThread s)) = objects (manager s) ∧
  tasks_by_id_ (manager (tryStartThread s)) = tasks_by_id_ (manager s) ∧
  history (tryStartThread s) = history s ∧
  (∀ t, about_to_run (phase (tryStartThread s)) t → about_to_run (phase s) t).
Proof.
  unfold tryStartThread. destruct (running_ (manager s)); [by split_and!|].
  destruct (phase s) eqn:E; cbn; rewrite ?E; split_and!; try done. by intros t [?|?].
Qed.

(** What a step may bring about. *)
Definition effects s s' : Prop :=
  no_revival (manager s) (manager s') ∧
  (∀ t, about_to_run (phase s') t → about_to_run (phase s) t ∨ t ∈ task_queue_ (manager s)) ∧
  (∀ o, invocations o s' = invocations o s ∨ ∃ t, phase s = InCallback t ∧ address t = o).

Lemma quiet_effects s s' :
  no_revival (manager s) (manager s') → (∀ t, about_to_run (phase s') t → about_to_run (phase s) t) →
  history s' = history s → effects s s'.
Proof.
  intros Hm Hp Hh. split; [done|]. split; [intros t Ht; left; by apply Hp|]. intros o. left. unfold invocations. by rewrite Hh.
Qed.
(** A step of the task thread that does not take a task. *)
Lemma idle_effects s s' :
  no_revival (manager s) (manager s') → (∀ t, ¬ about_to_run (phase s') t) → history s' = history s → effects s s'.
Proof. intros Hm Hp Hh. apply quiet_effects; [done| |done]. intros t Ht. by destruct (Hp t). Qed.
Lemma tryStartThread_effects s s' :
  no_revival (manager s) (manager s') → (∀ t, about_to_run (phase s') t → about_to_run (phase s) t) →
  history s' = history s → effects s (tryStartThread s').
Proof.
  intros [Ho Hm] Hp Hh. destruct (tryStartThread_manager s') as (E1 & E2 & E3 & Ha).
  apply quiet_effects; [|by intros t Ht%Ha; apply Hp|by rewrite E3].
  split; [by rewrite E1|]. by rewrite E2.
Qed.

Ltac idle := let E := fresh in intros ? [E|E]; cbn in E; congruence.
Lemma move_effects s s' : move s s' → threads_wf s → effects s s'.
Proof.
  intros Hmove Hs. pose proof (wf_manager s Hs) as Hm.
  assert (no_revival (manager s) (manager s)) as Hsame by by apply no_revival_same.
  destruct Hmove as [s now Hc|s t m Hp Hi Hpop|s m Hp Hi Hpop|s t Hp|s t Hp Hy|s t c Hp|s t Hp|s t c a m Hp Hi Hc
    |s t Hp Hi|s t id Hp Hi|s t user Hp Hi|s t Hp Hi|s t Hp|s Hp Hi|s Hp Hi Hr|s Hp Hr|s Hp Hr
    |s c k call Hc|s c k Hc|s c k call a m Hc Hi Hcall|s c k Hc Hi|s c k id Hc Hi|s c k user ids Hc Hi Hids
    |s c k user Hc Hi Hids|s c k id ids user Hc Hb|s c k user Hc|s c k Hc Hi|s c k Hc Hp|s c Hc Hy|s c Hc|s c Hc].
  all: try (apply quiet_effects; done).
  all: try (apply idle_effects; [done|idle|done]).
  - destruct (pop_Some (clock s) (manager s) t m Hm Hpop) as (Hin & _ & _ & Ho & Hids). split; [split; [cbn; lia|]|].
    + intros i x Hx. right. by eapply Hids.
    + split; [|by left]. intros x [[= <-]|Hx]; [by right|done].
  - assert (m = manager s) as ->; [|by apply idle_effects; [done|idle|done]].
    unfold pop in Hpop. destruct (task_queue_ (manager s)); [by injection Hpop|].
    destruct (_ <? _); [by destruct (periodic _)|by injection Hpop].
  - apply quiet_effects; [done| |done]. intros x [|[= <-]]; [done|by left].
  - split; [done|]. split; [by intros x [|]|]. intros o. unfold invocations. cbn. destruct (Z.eqb_spec (address t) o) as [<-|]; [|by left].
    right. by exists t.
  - apply idle_effects; [by eapply call_tasks_no_revival|idle|done].
  - apply tryStartThread_effects; [done|idle|done].
  - apply idle_effects; [apply cancel_task_no_revival|idle|done].
  - apply idle_effects; [by apply cancel_user_tasks_no_revival|idle|done].
  - apply quiet_effects; [by eapply call_tasks_no_revival|done..].
  - by apply tryStartThread_effects.
  - split; [apply cancel_task_no_revival|]. split; [by left|]. intros o. left. unfold invocations. cbn. unfold cancelled.
    by destruct (tasks_by_id_ (manager s) !! id).
  - apply quiet_effects; [apply no_revival_same; by destruct user|done..].
Qed.

(** A task that is gone does not come back, and is not called. *)
Lemma retired_step o s s' :
  threads_wf s → step s s' → retired o s → retired o s' ∧ invocations o s' = invocations o s.
Proof.
  intros Hs [_ Hmove] (Ho & Hids & Hp). destruct (move_effects s s' Hmove Hs) as ([Hle Hre] & Htake & Hinv).
  split; [split; [lia|split]|].
  - intros id t Ht E. apply Hre in Ht as [|(id' & t' & Ht' & E')]; [lia|]. apply (Hids id' t' Ht'). congruence.
  - intros t [Ht|Ht]%Htake; [by apply Hp|]. apply (wf_queue _ (wf_manager s Hs)) in Ht. by eapply Hids.
  - destruct (Hinv o) as [?|(t & Ht & E)]; [done|]. exfalso. by apply (Hp t); [right|].
Qed.
Lemma retired_forever o s s' :
  threads_wf s → rtc step s s' → retired o s → invocations o s' = invocations o s.
Proof.
  intros Hs Hsteps. induction Hsteps as [s|s s1 s2 Hstep _ IH]; [done|]. intros Hr.
  destruct (retired_step o s s1 Hs Hstep Hr) as [Hr1 E]. rewrite <-E. apply IH; [|done].
  by eapply move_wf; [apply Hstep|].
Qed.

(** C28. When the cancellation of a task by another thread takes effect, and the task thread
    has not just taken that task from the queue, the callback of the task is never called
    again, whatever the threads do after that. *)
Theorem cancelled_silent s c k id ids user t s'
  (Hs : reachable s) (Hc : clients s !! c = Some (MkClient k (Cancelling (id :: ids) user)))
  (Ht : tasks_by_id_ (manager s) !! id = Some t) (Hb : blocks s id = false)
  (Hp : ∀ t', phase s = Popped t' → address t' ≠ address t) :
  let s1 := on_manager (λ m, snd (cancel_task_with_lock_held id m)) (set_client c (MkClient k (Cancelling ids user)) s)
              <| history ::= app (cancelled c id s) |> in
  rtc step s1 s' → invocations (address t) s' = invocations (address t) s.
Proof.
  intros s1 Hsteps. apply threads_reachable_wf in Hs. pose proof (wf_manager s Hs) as Hm.
  assert (move s s1) as Hmove by by apply (move_client_cancel_one s c k id ids user).
  assert (invocations (address t) s1 = invocations (address t) s) as <-.
  { unfold invocations, s1. cbn. unfold cancelled. by rewrite Ht. }
  apply retired_forever; [by eapply move_wf|done|].
  pose proof (wf_ids _ Hm id t Ht) as (Hid & _ & Ha).
  split; [|split].
  - unfold s1. cbn. rewrite cancel_task_objects. lia.
  - intros i x Hx E. unfold s1 in Hx. cbn in Hx. rewrite cancel_task_by_id in Hx. apply lookup_delete_Some in Hx as [Hne Hx].
    apply Hne. by apply (wf_objects _ Hm id t i x).
  - intros x [Hx|Hx]; [by apply Hp|]. change (phase s = InCallback x) in Hx. unfold blocks, in_callback in Hb.
    rewrite Ht, Hx in Hb. apply Z.eqb_neq in Hb. congruence.
Qed.
End Cancellation.

(** ** A cancellation that waits for a callback that waits for it *)

Section Deadlock.
Context {Callback : Type}.
Notation Task := (Tasks.Task (Job Callback)).
Notation State := (Threads Callback).
Implicit Types (s : State) (t : Task).

(** As [s0] in all that the callback and its caller wait for. *)
Record as_before (c : Z) (client : Client Callback) s0 s : Prop := {
  before_wf : threads_wf s;
  before_phase : phase s = phase s0;
  before_client : clients s !! c = Some client;
  before_ids : tasks_by_id_ (manager s) = tasks_by_id_ (manager s0);
  before_queue : task_queue_ (manager s) = task_queue_ (manager s0);
  before_history : history s = history s0;
}.

Lemma deadlock_step c k id ids user t call s0 s s' :
  phase s0 = Running t (Calling call) → call ≠ CallGetNextUserId → blocks s0 id = true →
  as_before c (MkClient k (Cancelling (id :: ids) user)) s0 s → step s s' →
  as_before c (MkClient k (Cancelling (id :: ids) user)) s0 s'.
Proof.
  intros Hp0 Hcall Hb [Hs Hph Hk Hi Hq Hh] [_ Hmove].
  assert (internal_mutex_ s = Some c) as Hmutex by by apply (wf_cancelling s Hs c k (id :: ids) user).
  assert (blocks s id = true) as Hbs by (unfold blocks, in_callback in *; by rewrite Hi, Hph).
  assert (∀ c' k' ids' user', clients s !! c' = Some (MkClient k' (Cancelling ids' user')) → c' = c) as Honly.
  { intros c' k' ids' user' Hc'. apply (wf_cancelling s Hs) in Hc' as [E _]. congruence. }
  pose proof (move_wf s s' Hmove Hs) as Hs'. rewrite Hp0 in Hph.
  destruct Hmove as [s now Hc|s x m Hp _|s m Hp _|s x Hp|s x Hp Hy|s x c' Hp|s x Hp|s x c' a m Hp Hi' _
    |s x Hp Hi'|s x id' Hp Hi'|s x user' Hp Hi'|s x Hp Hi'|s x Hp|s Hp Hi'|s Hp Hi' _|s Hp _|s Hp _
    |s c' k' call' Hc|s c' k' Hc|s c' k' call' a m Hc Hi' _|s c' k' Hc Hi'|s c' k' id' Hc Hi'|s c' k' user' ids' Hc Hi' _
    |s c' k' user' Hc Hi' _|s c' k' id' ids' user' Hc Hb'|s c' k' user' Hc|s c' k' Hc Hi'|s c' k' Hc Hp|s c' Hc Hy|s c' Hc|s c' Hc].
  all: try congruence.
  all: try (exfalso; pose proof (Honly _ _ _ _ Hc); congruence).
  all: split; try done; try (cbn; congruence).
  all: cbn; rewrite lookup_insert_ne; [done|congruence].
Qed.

(** C27. A cancellation by another thread, made while the callback of that very task runs and
    has yet to schedule or cancel something, never ends, and neither does the callback: whatever
    happens, the task thread stays where it is and no callback is called any more. *)
Theorem cancel_deadlock s c k id ids user t call s'
  (Hs : reachable s) (Hp : phase s = Running t (Calling call)) (Hcall : call ≠ CallGetNextUserId)
  (Hc : clients s !! c = Some (MkClient k (Cancelling (id :: ids) user))) (Hb : blocks s id = true)
  (Hsteps : rtc step s s') :
  phase s' = phase s ∧ clients s' !! c = clients s !! c ∧ internal_mutex_ s' = Some c ∧
  task_queue_ (manager s') = task_queue_ (manager s) ∧ history s' = history s.
Proof.
  apply threads_reachable_wf in Hs.
  assert (as_before c (MkClient k (Cancelling (id :: ids) user)) s s') as [Hs' Hp' Hc' _ Hq Hh].
  { revert s' Hsteps. apply rtc_ind_r; [by split|]. intros s1 s2 _ Hstep H. by eapply deadlock_step. }
  split_and!; try done; [congruence|]. by apply (wf_cancelling s' Hs' c k (id :: ids) user).
Qed.
End Deadlock.

(** ** The test model on the task manager *)

(** What the model asks of its scheduler, on the task thread. *)
Definition task_manager (now : Z) : Scheduler (AsyncTaskManager PhyLayer.Task) := {|
  get_user_id := GetNextUserId;
  schedule_task user delay task m := match ExecAsync now user delay task m with Ok r => r | _ => (kInvalidTaskId, m) end;
  schedule_periodic_task user delay period task m :=
    match ExecAsyncPeriodically now user delay period task m with Ok r => r | _ => (kInvalidTaskId, m) end;
  cancel_task id m := snd (cancel_task_with_lock_held id m);
  cancel_tasks_from_user user m := snd (cancel_user_tasks user m);
|}.

(** ** Examples *)

Section Examples.
Notation State := (Threads ()).

(** A client schedules a periodic task, which becomes due. *)
Definition periodic_call : Call () := CallExecAsyncPeriodically 7 0 5 ().
Definition client_run (c : Z) (a : Activity ()) : gmap Z (Client ()) := {[c := MkClient false a]}.
Definition example_task (time : Z) : Tasks.Task (Job ()) := MkTask time true 5 (MkJob 7 () 0) 1.
Definition example_manager (time : Z) : AsyncTaskManager () :=
  MkManager 1 1 {[1 := example_task time]} {[7 := {[1]}]} [example_task time] true 1.
Definition due : State :=
  MkThreads (example_manager 0) None None Checking (client_run 0 Free) 1 [] false.
(** A run, step by step. *)
Ltac by_step m := eapply rtc_l; [split; [done|by eapply m]|].
Ltac arrives :=
  lazymatch goal with |- rtc _ ?s ?s' => replace s with s' by (vm_compute; reflexivity); apply rtc_refl end.
Lemma due_reachable : reachable due.
Proof.
  unfold reachable. by_step (move_new_client (Callback := ()) initial 0).
  eapply rtc_l; [split; [done|by apply (move_client_calls _ 0 false periodic_call)]|].
  eapply rtc_l; [split; [done|by eapply (move_client_call _ 0 false periodic_call)]|].
  eapply rtc_l; [split; [done|by eapply (move_client_start _ 0 false)]|].
  by_step @move_loop.
  eapply rtc_l; [split; [done|by apply (move_time _ 1)]|]. arrives.
Qed.
Lemma async_manager_invariant_witness :
  manager_wf (manager due) ∧ (∀ t now, Invoked t now ∈ history due → time t < now) ∧
  (∀ c a, clients due !! c = Some (MkClient true a) → is_running (phase due) = false ∧
     ∀ c' a', clients due !! c' = Some (MkClient true a') → c' = c).
Proof. apply (async_manager_invariant due). exact due_reachable. Defined.
Lemma scheduleTask_spec_witness :
  ∃ id m', scheduleTask 3 false 0 9 () (example_manager 0) = Ok (id, m') ∧ manager_wf m' ∧
  if decide (Z.of_nat (size (tasks_by_id_ (example_manager 0))) = kMaxTaskId) then id = kInvalidTaskId ∧ m' = example_manager 0
  else
    let t := MkTask 3 false 0 (MkJob 9 () (objects (example_manager 0))) id in
    1 ≤ id ≤ kMaxTaskId ∧ tasks_by_id_ (example_manager 0) !! id = None ∧
    tasks_by_id_ m' = <[id := t]> (tasks_by_id_ (example_manager 0)) ∧
    (∀ x, x ∈ task_queue_ m' ↔ x = t ∨ x ∈ task_queue_ (example_manager 0)) ∧
    ∀ u, default ∅ (tasks_by_user_id_ m' !! u) =
      if decide (u = 9) then {[id]} ∪ default ∅ (tasks_by_user_id_ (example_manager 0) !! u)
      else default ∅ (tasks_by_user_id_ (example_manager 0) !! u).
Proof.
  apply (scheduleTask_spec 3 false 0 9 () (example_manager 0)). apply (wf_manager due), threads_reachable_wf, due_reachable.
Defined.

(** The client is about to cancel the task, which the task thread waits to run. *)
Definition waiting : State :=
  MkThreads (example_manager 0) (Some 0) None Checking (client_run 0 (Cancelling [1] None)) 1 [] false.
Lemma waiting_reachable : reachable waiting.
Proof.
  unfold reachable; etrans; [exact due_reachable|].
  eapply rtc_l; [split; [done|by apply (move_client_calls _ 0 false (CallCancelAsyncTask 1))]|].
  eapply rtc_l; [split; [done|by apply (move_client_cancel _ 0 false 1)]|]. arrives.
Qed.
Lemma cancelled_silent_witness :
  invocations 0 (MkThreads (MkManager 1 1 ∅ {[7 := {[1]}]} [] true 1) None None Waiting (client_run 0 Free) 1
    [Cancelled 0 (example_task 0)] false) = invocations 0 waiting.
Proof.
  apply (cancelled_silent waiting 0 false 1 [] None (example_task 0)).
  - exact waiting_reachable.
  - reflexivity.
  - reflexivity.
  - reflexivity.
  - discriminate.
  - eapply rtc_l; [split; [done|by apply (move_client_cancel_end _ 0 false None)]|].
    eapply rtc_l; [split; [done|by eapply move_nothing]|]. arrives.
Defined.

(** The task thread has taken the task when it is cancelled: the cancellation returns, and then
    the callback is called. *)
Example cancel_race :
  ∃ s, reachable s ∧ clients s !! 0 = Some (MkClient false Free) ∧
  history s = [Invoked (example_task 0) 1; Cancelled 0 (example_task 5000000)].
Proof.
  exists (MkThreads (MkManager 1 1 ∅ {[7 := {[1]}]} [] true 1) None (Some TaskThread) (Running (example_task 0) Free)
    (client_run 0 Free) 1 [Invoked (example_task 0) 1; Cancelled 0 (example_task 5000000)] false).
  split; [|done]. unfold reachable; etrans; [exact due_reachable|].
  eapply rtc_l; [split; [done|by apply (move_client_calls _ 0 false (CallCancelAsyncTask 1))]|].
  by_step (@move_pop ()).
  eapply rtc_l; [split; [done|by apply (move_client_cancel _ 0 false 1)]|].
  eapply rtc_l; [split; [done|by apply (move_client_cancel_one _ 0 false 1 [] None)]|].
  eapply rtc_l; [split; [done|by apply (move_client_cancel_end _ 0 false None)]|].
  by_step (@move_enter ()). by_step (@move_invoke ()). arrives.
Qed.

(** The callback runs and is about to schedule a task, and the client cancels it. *)
Definition stuck : State :=
  MkThreads (example_manager 5000000) (Some 0) (Some TaskThread)
    (Running (example_task 0) (Calling (CallExecAsync 7 0 ())))
    (client_run 0 (Cancelling [1] None)) 1 [Invoked (example_task 0) 1] false.
Lemma stuck_reachable : reachable stuck.
Proof.
  unfold reachable; etrans; [exact due_reachable|].
  by_step (@move_pop ()). by_step (@move_enter ()). by_step (@move_invoke ()).
  eapply rtc_l; [split; [done|by apply (move_callback_calls _ (example_task 0) (CallExecAsync 7 0 ()))]|].
  eapply rtc_l; [split; [done|by apply (move_client_calls _ 0 false (CallCancelAsyncTask 1))]|].
  eapply rtc_l; [split; [done|by apply (move_client_cancel _ 0 false 1)]|]. arrives.
Qed.
Lemma cancel_deadlock_witness :
  let s' := stuck <| clock := 1000000000 |> in
  phase s' = phase stuck ∧ clients s' !! 0 = clients stuck !! 0 ∧ internal_mutex_ s' = Some 0 ∧
  task_queue_ (manager s') = task_queue_ (manager stuck) ∧ history s' = history stuck.
Proof.
  apply (cancel_deadlock stuck 0 false 1 [] None (example_task 0) (CallExecAsync 7 0 ())).
  - exact stuck_reachable.
  - reflexivity.
  - discriminate.
  - reflexivity.
  - reflexivity.
  - apply rtc_once. split; [done|]. by apply move_time.
Defined.

(** The manager is destroyed while a callback runs, which then schedules a task. *)
Example stop_terminates : ∃ s : State, reachable s ∧ terminated s = true.
Proof.
  eexists. split.
  - unfold reachable; etrans; [exact due_reachable|].
    by_step (@move_pop ()). by_step (@move_enter ()). by_step (@move_invoke ()).
    eapply rtc_l; [split; [done|by apply (move_callback_calls _ (example_task 0) (CallExecAsync 7 0 ()))]|].
    eapply rtc_l; [split; [done|by apply (move_client_calls _ 0 false CallStopThread)]|].
    eapply rtc_l; [split; [done|by apply (move_client_stop _ 0 false)]|].
    by_step (@move_callback_call ()). by_step (@move_callback_start ()). apply rtc_refl.
  - reflexivity.
Qed.

(** The task 1 of user 7 was cancelled by its identifier, which stays with the user; the
    identifiers have come round, 1 is a task of user 8, and cancelling the tasks of 7 cancels it. *)
Example cancels_for_another :
  (λ r, tasks_by_id_ (snd (cancel_user_tasks 7 (snd r)))) <$>
    ExecAsync 0 8 0 () (MkManager 65535 9 ∅ {[7 := {[1]}]} [] true 65535) = Ok ∅.
Proof. vm_compute. reflexivity. Qed.

(** A timer that is started twice goes on when it is stopped. *)
Example timer_goes_on :
  let H := task_manager 0 in
  let m := StopTimer (StartTimer (StartTimer (new_model (D := Address.Address * list Z) new_manager (0, 0, 0, 0)))) in
  map (λ t, what (callback t)) (task_queue_ (scheduler (air m))) = [TickTask].
Proof. vm_compute. reflexivity. Qed.
End Examples.

(** ** The file descriptors *)

Module AsyncFdWatcher.
(** The members of [AsyncFdWatcher]; a notification is a byte in the pipe. *)
Record Watcher (ReadCallback : Type) := MkWatcher {
  running_ : bool;
  watched_shared_fds_ : gmap Z ReadCallback;
  notification_listen_fd_ : Z;
  notifications : nat;
}.
Arguments MkWatcher {ReadCallback}. Arguments running_ {ReadCallback}. Arguments watched_shared_fds_ {ReadCallback}.
Arguments notification_listen_fd_ {ReadCallback}. Arguments notifications {ReadCallback}.

Section Watcher.
Context {ReadCallback W : Type}.
Notation Watcher := (Watcher ReadCallback).
Implicit Types (w : Watcher).
#[export] Instance watcher_rebuild : Rebuild Watcher := λ w,
  MkWatcher (running_ w) (watched_shared_fds_ w) (notification_listen_fd_ w) (notifications w).

Definition notifyThread w : Watcher := w <| notifications ::= S |>.
(** [pipe] is the descriptor that the system gives for the pipe, if it does. *)
Definition tryStartThread (pipe : option Z) w : bool * Watcher :=
  if running_ w then (true, w)
  else
    let w := w <| running_ := true |> in
    match pipe with
    | None => (false, w)
    | Some fd => (true, w <| notification_listen_fd_ := fd |> <| notifications := 0%nat |>)
    end.
Definition WatchFdForNonBlockingReads (pipe : option Z) (file_descriptor : Z) (callback : ReadCallback) w : Z * Watcher :=
  let w := w <| watched_shared_fds_ ::= <[file_descriptor := callback]> |> in
  let '(started, w) := tryStartThread pipe w in
  if started then (0, notifyThread w) else (-1, w).
Definition StopWatchingFileDescriptor (file_descriptor : Z) w : Watcher :=
  w <| watched_shared_fds_ ::= delete file_descriptor |>.
(** From another thread, which joins. *)
Definition stopThread w : Watcher :=
  if running_ w then (notifyThread (w <| running_ := false |>)) <| watched_shared_fds_ := ∅ |> else w.

(** [FD_SET] beyond [FD_SETSIZE] is undefined. *)
Definition FD_SETSIZE : Z := 1024.
Definition FD_SET (fd : Z) (fds : gset Z) : outcome (gset Z) :=
  if (0 <=? fd) && (fd <? FD_SETSIZE) then Ok ({[fd]} ∪ fds) else Undef.
Fixpoint add_fds (fds : list Z) (nfds : Z) (read_fds : gset Z) : outcome (Z * gset Z) :=
  match fds with
  | [] => Ok (nfds, read_fds)
  | fd :: fds => read_fds ← FD_SET fd read_fds; add_fds fds (Z.max fd nfds) read_fds
  end.
Definition setUpFileDescriptorSet w : outcome (Z * gset Z) :=
  read_fds ← FD_SET (notification_listen_fd_ w) ∅;
  add_fds (ascending (dom (watched_shared_fds_ w))) (notification_listen_fd_ w) read_fds.
(** Reads of ten bytes until one gives less: all of them. *)
Definition consumeThreadNotifications (read_fds : gset Z) w : Watcher :=
  if bool_decide (notification_listen_fd_ w ∈ read_fds) then w <| notifications := 0%nat |> else w.

(** What a callback does to the watcher and to its world. *)
Context (call : ReadCallback → Z → Watcher * W → outcome (Watcher * W)).
Fixpoint call_all (fds : list (Z * ReadCallback)) (x : Watcher * W) : outcome (Watcher * W) :=
  match fds with [] => Ok x | (fd, callback) :: fds => x ← call callback fd x; call_all fds x end.
Definition ready_callbacks (read_fds : gset Z) w : list (Z * ReadCallback) :=
  omap (λ fd, if bool_decide (fd ∈ read_fds) then callback ← watched_shared_fds_ w !! fd; Some (fd, callback) else None)
    (ascending (dom (watched_shared_fds_ w))).
Definition runAppropriateCallbacks (read_fds : gset Z) (x : Watcher * W) : outcome (Watcher * W) :=
  call_all (ready_callbacks read_fds (fst x)) x.
(** A round of [ThreadRoutine]; [select] gives the descriptors that can be read, or an
    error. *)
Definition round (select : Z → gset Z → option (gset Z)) (x : Watcher * W) : outcome (Watcher * W) :=
  '(nfds, read_fds) ← setUpFileDescriptorSet (fst x);
  match select (nfds + 1) read_fds with
  | None => Ok x
  | Some read_fds =>
      let w := consumeThreadNotifications read_fds (fst x) in
      if running_ w then runAppropriateCallbacks read_fds (w, snd x) else Ok (w, snd x)
  end.

(** The callbacks of a round are those of the watched descriptors that can be read. *)
Lemma elem_of_ready_callbacks read_fds w fd callback :
  (fd, callback) ∈ ready_callbacks read_fds w ↔ fd ∈ read_fds ∧ watched_shared_fds_ w !! fd = Some callback.
Proof.
  unfold ready_callbacks. rewrite list_elem_of_omap. setoid_rewrite elem_of_ascending. split.
  - intros (fd' & Hfd' & E). case_bool_decide; [|done]. apply bind_Some in E as (callback' & E & [= <- <-]). done.
  - intros [Hr Hw]. exists fd. split; [by eapply elem_of_dom_2|]. rewrite bool_decide_true by done. by rewrite Hw.
Qed.
End Watcher.

(** A callback that stops the watch on another descriptor, of which the callback still runs:
    the callbacks of a round are chosen before the first is called. *)
Example stopped_still_called :
  let call (callback fd : Z) (x : Watcher Z * list Z) := Ok (StopWatchingFileDescriptor callback (fst x), snd x ++ [fd]) in
  (λ x, (snd x, map_to_list (watched_shared_fds_ (fst x)))) <$>
    round call (λ _ fds, Some fds) (MkWatcher true {[5 := 6; 6 := 5]} 3 1, []) = Ok ([5; 6], []).
Proof. vm_compute. reflexivity. Qed.
(** The descriptor 1024 does not fit in the set. *)
Example many_descriptors :
  setUpFileDescriptorSet (snd (WatchFdForNonBlockingReads (Some 3) 1024 0 (MkWatcher (ReadCallback := Z) false ∅ 0 0))) = Undef.
Proof. vm_compute. reflexivity. Qed.
End AsyncFdWatcher.
