(* ===== verification/Controller.v ===== *)
(** * The LE controller as a whole (le_controller.cc)

    The commands of the host, the packets received and the ticks of the clock, on
    one controller with its task queue; the invariant of every reachable state;
    and that a tick always ends. *)

From S2P Require Import Prelude HciTypes Properties Address CsTypes Connections LeState LeLists LeAdvertiser LePhy.
From S2P Require Import LeScan LeConnect LeSubrate LeSounding LeSoundingLink LeApcf LeIso LeReports LeLink Tasks.

(** ** The commands of the host *)

Inductive Command :=
| CmdReset
| CmdSetRandomAddress (random_address : Address)
| CmdSetResolvablePrivateAddressTimeout (rpa_timeout : Z)
| CmdSetDataLength (handle tx_octets tx_time : Z)
| CmdSetHostFeature (bit_number bit_value : Z)
| CmdAddDeviceToResolvingList (type : PeerAddressType.t) (address : Address) (peer_irk local_irk : list Z)
| CmdRemoveDeviceFromResolvingList (type : PeerAddressType.t) (address : Address)
| CmdClearResolvingList
| CmdSetAddressResolutionEnable (enable : bool)
| CmdSetPrivacyMode (type : PeerAddressType.t) (address : Address) (mode : PrivacyMode.t)
| CmdClearFilterAcceptList
| CmdAddDeviceToFilterAcceptList (type : FilterAcceptListAddressType.t) (address : Address)
| CmdRemoveDeviceFromFilterAcceptList (type : FilterAcceptListAddressType.t) (address : Address)
| CmdAddDeviceToPeriodicAdvertiserList (type : AdvertiserAddressType.t) (address : Address) (sid : Z)
| CmdRemoveDeviceFromPeriodicAdvertiserList (type : AdvertiserAddressType.t) (address : Address) (sid : Z)
| CmdClearPeriodicAdvertiserList
| CmdPeriodicAdvertisingCreateSync (options : PeriodicAdvertisingOptions) (sid : Z)
    (type : AdvertiserAddressType.t) (address : Address) (timeout cte_type : Z)
| CmdPeriodicAdvertisingCreateSyncCancel
| CmdPeriodicAdvertisingTerminateSync (sync_handle : Z)
| CmdSetAdvertisingParameters (interval_min interval_max : Z) (type : AdvertisingType.t)
    (own : OwnAddressType.t) (peer_type : PeerAddressType.t) (peer : Address) (channel_map : Z)
    (policy : AdvertisingFilterPolicy.t)
| CmdSetAdvertisingData (data : list Z)
| CmdSetScanResponseData (data : list Z)
| CmdSetAdvertisingEnable (enable : bool)
| CmdSetAdvertisingSetRandomAddress (handle : Z) (address : Address)
| CmdSetExtendedAdvertisingParameters (handle : Z) (properties : AdvertisingEventProperties)
    (interval_min interval_max channel_map : Z) (own : OwnAddressType.t)
    (peer_type : PeerAddressType.t) (peer : Address) (policy : AdvertisingFilterPolicy.t)
    (tx_power : Z) (primary : PrimaryPhyType.t) (max_skip : Z) (secondary : SecondaryPhyType.t)
    (sid : Z) (notify : bool)
| CmdSetExtendedAdvertisingData (handle : Z) (operation : Operation.t)
    (preference : FragmentPreference.t) (data : list Z)
| CmdSetExtendedScanResponseData (handle : Z) (operation : Operation.t)
    (preference : FragmentPreference.t) (data : list Z)
| CmdSetExtendedAdvertisingEnable (enable : bool) (sets : list EnabledSet)
| CmdRemoveAdvertisingSet (handle : Z)
| CmdClearAdvertisingSets
| CmdSetPeriodicAdvertisingParameters (handle interval_min interval_max : Z) (tx_power : bool)
| CmdSetPeriodicAdvertisingData (handle : Z) (operation : Operation.t) (data : list Z)
| CmdSetPeriodicAdvertisingEnable (enable include_adi : bool) (handle : Z)
| CmdSetDefaultPhy (all_tx all_rx : bool) (tx rx : Z)
| CmdSetPhy (handle : Z) (all_tx all_rx : bool) (tx rx : Z)
| CmdSetScanParameters (type : LeScanType.t) (interval window : Z) (own : OwnAddressType.t)
    (policy : LeScanningFilterPolicy.t)
| CmdSetScanEnable (enable filter_duplicates : bool)
| CmdSetExtendedScanParameters (own : OwnAddressType.t) (policy : LeScanningFilterPolicy.t)
    (phys : Z) (parameters : list ScanningPhyParameters)
| CmdSetExtendedScanEnable (enable : bool) (filter_duplicates : FilterDuplicates.t)
    (duration period : Z)
| CmdCreateConnection (scan_interval scan_window : Z) (policy : InitiatorFilterPolicy.t)
    (peer : AddressWithType) (own : OwnAddressType.t) (interval_min interval_max max_latency
     supervision_timeout min_ce max_ce : Z)
| CmdCreateConnectionCancel
| CmdExtendedCreateConnection (policy : InitiatorFilterPolicy.t) (own : OwnAddressType.t)
    (peer : AddressWithType) (phys : Z) (parameters : list InitiatingPhyParameters)
| CmdDisconnect (handle : Z) (host_reason controller_reason : ErrorCode.t)
| CmdConnectionUpdate (handle interval_min interval_max latency supervision_timeout : Z)
| CmdRemoteConnectionParameterRequestReply (handle interval_min interval_max supervision_timeout
    latency min_ce max_ce : Z)
| CmdRemoteConnectionParameterRequestNegativeReply (handle : Z) (reason : ErrorCode.t)
| CmdEnableEncryption (handle : Z) (rand : list Z) (ediv : Z) (ltk : list Z)
| CmdLongTermKeyRequestReply (handle : Z) (ltk : list Z)
| CmdLongTermKeyRequestNegativeReply (handle : Z)
| CmdReadRemoteFeatures (handle : Z)
| CmdReadRemoteVersionInformation (handle : Z)
| CmdReadRemoteTransmitPowerLevel (handle phy : Z)
| CmdSetTransmitPowerReportingEnable (handle local_enable remote_enable : Z)
| CmdSetDefaultSubrate (p : LeAclSubrateParameters)
| CmdSubrateRequest (handle : Z) (p : LeAclSubrateParameters)
| CmdCsReadRemoteSupportedCapabilities (handle : Z)
| CmdCsSetDefaultSettings (handle role_enable antenna max_tx_power : Z)
| CmdCsReadRemoteFaeTable (handle : Z)
| CmdCsWriteCachedRemoteFaeTable (handle : Z) (table : list Z)
| CmdCsWriteCachedRemoteSupportedCapabilities (handle : Z) (caps : CsLocalSupportedCapabilities)
| CmdCsCreateConfig (handle create_context reserved : Z) (p : LeCsConfig)
| CmdCsRemoveConfig (handle config_id : Z)
| CmdCsSetChannelClassification (classification : list Z)
| CmdCsSecurityEnable (handle : Z)
| CmdCsSetProcedureParameters (handle config_id : Z) (p : LeCsProcedureParameters)
| CmdCsProcedureEnable (handle config_id enable : Z)
| CmdSetEventMask (mask : Z)
| CmdSetEventMaskPage2 (mask : Z)
| CmdSetLeEventMask (mask : Z)
| CmdSetSuggestedDataLength (octets time : Z)
| CmdApcfEnable (enable : bool)
| CmdApcf (filter_command : ApcfCommand).

Section Controller.
Context {env : Environment}.

(** A command that reads the clock and may be undefined. *)
Definition fallible (f : Z → LeController → outcome reply) : M ErrorCode.t :=
  t ← now;
  c ← gets id;
  '(status, c') ← lift (f t c);
  modify (λ _, c');;
  mret status.
Definition timed (f : Z → LeController → reply) : M ErrorCode.t :=
  t ← now;
  pure (f t).

(** A command of the filter; the room left is part of its answer. *)
Definition apcf_room (command : ApcfCommand) : M (ErrorCode.t * Z) :=
  c ← gets id;
  let '(answer, c') := apcf_execute command c in
  modify (λ _, c');;
  mret answer.
Definition apcf (command : ApcfCommand) : M ErrorCode.t :=
  '(status, _) ← apcf_room command;
  mret status.
(** A setter. *)
Definition set (f : LeController → LeController) : M ErrorCode.t := modify f;; mret ErrorCode.SUCCESS.

Definition execute (command : Command) : M ErrorCode.t :=
  match command with
  | CmdReset => Reset;; mret ErrorCode.SUCCESS
  | CmdSetRandomAddress a => pure (LeSetRandomAddress a)
  | CmdSetResolvablePrivateAddressTimeout s => pure (LeSetResolvablePrivateAddressTimeout s)
  | CmdSetDataLength h o t => pure (LeSetDataLength h o t)
  | CmdSetHostFeature n v => pure (LeSetHostFeature n v)
  | CmdAddDeviceToResolvingList t a p l => pure (LeAddDeviceToResolvingList t a p l)
  | CmdRemoveDeviceFromResolvingList t a => pure (LeRemoveDeviceFromResolvingList t a)
  | CmdClearResolvingList => pure LeClearResolvingList
  | CmdSetAddressResolutionEnable e => pure (LeSetAddressResolutionEnable e)
  | CmdSetPrivacyMode t a m => pure (LeSetPrivacyMode t a m)
  | CmdClearFilterAcceptList => pure LeClearFilterAcceptList
  | CmdAddDeviceToFilterAcceptList t a => pure (LeAddDeviceToFilterAcceptList t a)
  | CmdRemoveDeviceFromFilterAcceptList t a => pure (LeRemoveDeviceFromFilterAcceptList t a)
  | CmdAddDeviceToPeriodicAdvertiserList t a s => pure (LeAddDeviceToPeriodicAdvertiserList t a s)
  | CmdRemoveDeviceFromPeriodicAdvertiserList t a s =>
      pure (LeRemoveDeviceFromPeriodicAdvertiserList t a s)
  | CmdClearPeriodicAdvertiserList => pure LeClearPeriodicAdvertiserList
  | CmdPeriodicAdvertisingCreateSync o s t a m k =>
      pure (LePeriodicAdvertisingCreateSync o s t a m k)
  | CmdPeriodicAdvertisingCreateSyncCancel => LePeriodicAdvertisingCreateSyncCancel
  | CmdPeriodicAdvertisingTerminateSync h => pure (LePeriodicAdvertisingTerminateSync h)
  | CmdSetAdvertisingParameters i j t o pt p m f => pure (LeSetAdvertisingParameters i j t o pt p m f)
  | CmdSetAdvertisingData d => pure (LeSetAdvertisingData d)
  | CmdSetScanResponseData d => pure (LeSetScanResponseData d)
  | CmdSetAdvertisingEnable e => timed (λ t, LeSetAdvertisingEnable t e)
  | CmdSetAdvertisingSetRandomAddress h a => pure (LeSetAdvertisingSetRandomAddress h a)
  | CmdSetExtendedAdvertisingParameters h p i j m o pt pa f w p1 k p2 s n =>
      pure (LeSetExtendedAdvertisingParameters h p i j m o pt pa f w p1 k p2 s n)
  | CmdSetExtendedAdvertisingData h o f d => pure (LeSetExtendedAdvertisingData h o f d)
  | CmdSetExtendedScanResponseData h o f d => pure (LeSetExtendedScanResponseData h o f d)
  | CmdSetExtendedAdvertisingEnable e s => fallible (λ t, LeSetExtendedAdvertisingEnable t e s)
  | CmdRemoveAdvertisingSet h => pure (LeRemoveAdvertisingSet h)
  | CmdClearAdvertisingSets => pure LeClearAdvertisingSets
  | CmdSetPeriodicAdvertisingParameters h i j w => pure (LeSetPeriodicAdvertisingParameters h i j w)
  | CmdSetPeriodicAdvertisingData h o d => pure (LeSetPeriodicAdvertisingData h o d)
  | CmdSetPeriodicAdvertisingEnable e a h => timed (λ t, LeSetPeriodicAdvertisingEnable t e a h)
  | CmdSetDefaultPhy a b t r => pure (LeSetDefaultPhy a b t r)
  | CmdSetPhy h a b t r => LeSetPhy h a b t r
  | CmdSetScanParameters t i w o f => pure (LeSetScanParameters t i w o f)
  | CmdSetScanEnable e f => pure (LeSetScanEnable e f)
  | CmdSetExtendedScanParameters o f p l => fallible (λ _, LeSetExtendedScanParameters o f p l)
  | CmdSetExtendedScanEnable e f d p => timed (λ t, LeSetExtendedScanEnable t e f d p)
  | CmdCreateConnection si sw f p o i j l s m n => pure (LeCreateConnection si sw f p o i j l s m n)
  | CmdCreateConnectionCancel => LeCreateConnectionCancel
  | CmdExtendedCreateConnection f o p phys l => fallible (λ _, LeExtendedCreateConnection f o p phys l)
  | CmdDisconnect h r s => Disconnect h r s
  | CmdConnectionUpdate h i j l s => LeConnectionUpdate h i j l s
  | CmdRemoteConnectionParameterRequestReply h i j s l m n =>
      LeRemoteConnectionParameterRequestReply h i j s l m n
  | CmdRemoteConnectionParameterRequestNegativeReply h r =>
      LeRemoteConnectionParameterRequestNegativeReply h r
  | CmdEnableEncryption h r e k => LeEnableEncryption h r e k
  | CmdLongTermKeyRequestReply h k => LeLongTermKeyRequestReply h k
  | CmdLongTermKeyRequestNegativeReply h => LeLongTermKeyRequestNegativeReply h
  | CmdReadRemoteFeatures h => LeReadRemoteFeaturesPage0 h
  | CmdReadRemoteVersionInformation h => ReadRemoteVersionInformation h
  | CmdReadRemoteTransmitPowerLevel h phy => LeReadRemoteTransmitPowerLevel h phy
  | CmdSetTransmitPowerReportingEnable h l r => LeSetTransmitPowerReportingEnable h l r
  | CmdSetDefaultSubrate p => pure (LeSetDefaultSubrate p)
  | CmdSubrateRequest h p => LeSubrateRequest h p
  | CmdCsReadRemoteSupportedCapabilities h => LeCsReadRemoteSupportedCapabilities h
  | CmdCsSetDefaultSettings h r a p => LeCsSetDefaultSettings h r a p
  | CmdCsReadRemoteFaeTable h => LeCsReadRemoteFaeTable h
  | CmdCsWriteCachedRemoteFaeTable h t => LeCsWriteCachedRemoteFaeTable h t
  | CmdCsWriteCachedRemoteSupportedCapabilities h k => LeCsWriteCachedRemoteSupportedCapabilities h k
  | CmdCsCreateConfig h x r p => LeCsCreateConfig h x r p
  | CmdCsRemoveConfig h i => LeCsRemoveConfig h i
  | CmdCsSetChannelClassification m => LeCsSetChannelClassification m
  | CmdCsSecurityEnable h => LeCsSecurityEnable h
  | CmdCsSetProcedureParameters h i p => LeCsSetProcedureParameters h i p
  | CmdCsProcedureEnable h i e => LeCsProcedureEnable h i e
  | CmdSetEventMask m => set (SetEventMask m)
  | CmdSetEventMaskPage2 m => set (SetEventMaskPage2 m)
  | CmdSetLeEventMask m => set (SetLeEventMask m)
  | CmdSetSuggestedDataLength o t => set (λ c, SetLeSuggestedMaxTxTime t (SetLeSuggestedMaxTxOctets o c))
  | CmdApcfEnable e => pure (LeApcfEnable e)
  | CmdApcf k => apcf k
  end.

(** What the packet format makes sure of. *)
Definition command_ok (command : Command) : Prop :=
  match command with
  | CmdSetAdvertisingData d | CmdSetScanResponseData d => zlength d ≤ max_legacy_advertising_pdu_size
  | CmdSetExtendedAdvertisingEnable _ sets =>
      Forall (λ set, fits 8 (max_extended_advertising_events_ set)) sets
  | _ => True
  end.

(** ** The invariant *)

Record controller_wf (c : LeController) : Prop := {
  cwf_lists : lists_wf c;
  cwf_advertising : advertising_wf c;
  cwf_scanner : scanner_wf (scanner_ c);
  cwf_initiator : initiator_wf (initiator_ c);
  cwf_handles : handler_wf (connections_ c);
  cwf_addresses : own_addresses_wf c;
}.

(** The parts of the state the invariant reads. *)
Definition lists_part (c : LeController) :=
  (properties_ c, le_resolving_list_ c, le_filter_accept_list_ c, le_periodic_advertiser_list_ c).
Definition advertising_part (c : LeController) :=
  (properties_ c, extended_advertisers_ c, legacy_advertising_in_use_ c,
   extended_advertising_in_use_ c, legacy_advertiser_ c).
Definition links_part (c : LeController) := (scanner_ c, initiator_ c, connections_ c, random_address_ c, ll_ c).

Lemma lists_wf_part c c' : lists_part c' = lists_part c → lists_wf c → lists_wf c'.
Proof. intros [= ? ? ? ?]. by apply lists_wf_frame. Qed.
Lemma advertising_wf_part c c' : advertising_part c' = advertising_part c → advertising_wf c → advertising_wf c'.
Proof. intros [= ? ? ? ? ?]. by apply advertising_wf_frame. Qed.

Lemma own_addresses_part c c' :
  scanner_ c' = scanner_ c → initiator_ c' = initiator_ c → random_address_ c' = random_address_ c →
  own_addresses_wf c → own_addresses_wf c'.
Proof.
  intros Es Ei Er [Hs Hi]. split; unfold random_address_missing; rewrite ?Es, ?Ei, ?Er; [exact Hs|exact Hi].
Qed.

(** A change of one part. *)
Lemma cwf_change_lists c c' :
  controller_wf c → lists_wf c' → advertising_part c' = advertising_part c →
  links_part c' = links_part c → controller_wf c'.
Proof.
  intros [? ? Hs Hi Hh ?] Hl Ha [= Es Ei Eh Er _]. split; rewrite ?Es, ?Ei, ?Eh; try done.
  - by eapply advertising_wf_part.
  - by apply (own_addresses_part c).
Qed.
Lemma cwf_change_advertising c c' :
  controller_wf c → advertising_wf c' → lists_wf c' → links_part c' = links_part c → controller_wf c'.
Proof.
  intros [? ? Hs Hi Hh ?] Ha Hl [= Es Ei Eh Er _]. split; rewrite ?Es, ?Ei, ?Eh; try done.
  by apply (own_addresses_part c).
Qed.
Lemma cwf_change_scanner (select : LeController → bool * LeController) c c' :
  (∀ c, advertising_wf c → advertising_wf (snd (select c))) → controller_wf c →
  lists_part c' = lists_part c → advertising_part c' = advertising_part (snd (select c)) →
  (initiator_ c', connections_ c', random_address_ c') = (initiator_ c, connections_ c, random_address_ c) →
  scanner_wf (scanner_ c') →
  (Scanner.scan_enable (scanner_ c') = true → random_address_missing c' = false) → controller_wf c'.
Proof.
  intros Hs [? ? ? ? ? [_ ?]] Hl Ha [= Ei Eh Er] ? ?. split; rewrite ?Ei, ?Eh; try done.
  - by eapply lists_wf_part.
  - eapply advertising_wf_part; [exact Ha|]. by apply Hs.
  - split; [done|]. by rewrite Ei, Er.
Qed.
Lemma cwf_keep c c' :
  controller_wf c → lists_part c' = lists_part c → advertising_part c' = advertising_part c →
  links_part c' = links_part c → controller_wf c'.
Proof. intros Hc Hl. apply cwf_change_lists; [done|]. eapply lists_wf_part; [exact Hl|apply Hc]. Qed.

Lemma cwf_pure (f : LeController → reply) :
  (∀ c, controller_wf c → controller_wf (snd (f c))) → preserves controller_wf (λ _, True) (pure f).
Proof. intros Hf. by apply preserves_pure. Qed.

(** By cases on the tests of a handler: the part of the state is the same on
    every path. *)
Ltac head_of t := lazymatch t with ?f _ => head_of f | _ => t end.
Ltac same_part :=
  lazymatch goal with |- _ (snd ?r) = _ => let h := head_of r in unfold h end;
  unfold SelectLegacyAdvertising, SelectExtendedAdvertising, set_scanner, check_phys;
  repeat (case_match; simplify_eq/=; try reflexivity).
Ltac keeps Hc := apply (cwf_keep _ _ Hc); same_part.
(** *** The commands that generate private addresses *)

(** What the commands of the advertisers do to the rest of the state. *)
Definition beside_advertising (c c' : LeController) : Prop :=
  (lists_wf c → lists_wf c') ∧ links_part c' = links_part c.
#[local] Instance beside_advertising_preorder : PreOrder beside_advertising.
Proof. split; [by split|]. intros x y z [? ?] [? ?]. split; [auto|congruence]. Qed.

Lemma beside_same c c' :
  lists_part c' = lists_part c → links_part c' = links_part c → beside_advertising c c'.
Proof. split; [by apply lists_wf_part|done]. Qed.

Lemma GenerateResolvablePrivateAddress_parts a irk c :
  let c' := snd (GenerateResolvablePrivateAddress a irk c) in
  beside_advertising c c' ∧ advertising_part c' = advertising_part c.
Proof.
  split; [split; [apply GenerateResolvablePrivateAddress_wf|]|];
    unfold GenerateResolvablePrivateAddress, draw_rpa; (destruct (find_first _ _); [|done]); by destruct irk.
Qed.

Lemma LeSetAdvertisingEnable_beside t e c : beside_advertising c (snd (LeSetAdvertisingEnable t e c)).
Proof.
  unfold LeSetAdvertisingEnable.
  assert (beside_advertising c (snd (SelectLegacyAdvertising c))) as Hs.
  { unfold SelectLegacyAdvertising. case_match; by apply beside_same. }
  destruct (SelectLegacyAdvertising c) as [[] c1]; cbn [negb snd] in *; [|done].
  etrans; [exact Hs|]. clear Hs. destruct e; cbn [negb snd]; [|by apply beside_same].
  set (peer := PeerDeviceAddress _ _).
  destruct (GenerateResolvablePrivateAddress_parts peer Local c1) as [H2 _].
  destruct (GenerateResolvablePrivateAddress peer Local c1) as [r c2]. cbn [snd] in *.
  etrans; [exact H2|]. destruct (select_advertising_address _ _ _ _); [|done].
  destruct (GenerateResolvablePrivateAddress_parts peer Peer c2) as [H3 _].
  destruct (GenerateResolvablePrivateAddress peer Peer c2) as [r3 c3]. cbn [snd] in *.
  destruct (LegacyAdvertiser.advertising_type _); cbn [snd];
    first [by apply beside_same|etrans; [exact H3|by apply beside_same]].
Qed.

Lemma prepare_sets_beside sets c : beside_advertising c (snd (prepare_sets sets c)).
Proof.
  revert c. induction sets as [|set sets IH]; intros c; [done|]. cbn [prepare_sets].
  assert (beside_advertising c (snd (prepare_set set c))) as Hs.
  { unfold prepare_set. destruct (_ !! _) as [a|]; [|done]. destruct (check_enable a set); [done|].
    set (peer := PeerDeviceAddress _ _).
    destruct (GenerateResolvablePrivateAddress_parts peer Local c) as [H2 _].
    destruct (GenerateResolvablePrivateAddress peer Local c) as [r c2]. cbn [snd] in *.
    etrans; [exact H2|]. destruct (select_advertising_address _ _ _ _); [|done].
    destruct (GenerateResolvablePrivateAddress_parts peer Peer c2) as [H3 _].
    destruct (GenerateResolvablePrivateAddress peer Peer c2) as [r3 c3]. cbn [snd] in *.
    destruct (ExtendedAdvertiser.IsDirected _); cbn [snd];
      first [by apply beside_same|etrans; [exact H3|by apply beside_same]]. }
  destruct (prepare_set set c) as [[|] c1]; cbn [snd] in *; [done|]. by etrans.
Qed.

Lemma update_sets_beside f sets c : beside_advertising c (update_sets f sets c).
Proof.
  revert c. induction sets as [|set sets IH]; intros c; [done|]. cbn.
  etrans; [|apply IH]. by apply beside_same.
Qed.

Lemma LeSetExtendedAdvertisingEnable_beside t e sets c status c' :
  LeSetExtendedAdvertisingEnable t e sets c = Ok (status, c') → beside_advertising c c'.
Proof.
  unfold LeSetExtendedAdvertisingEnable.
  assert (beside_advertising c (snd (SelectExtendedAdvertising c))) as Hs.
  { unfold SelectExtendedAdvertising. case_match; by apply beside_same. }
  destruct (SelectExtendedAdvertising c) as [[] c1]; cbn [negb snd] in *; [|by intros [= _ <-]].
  intros (invalid & _ & E)%bind_Ok. etrans; [exact Hs|]. clear Hs.
  destruct invalid; [by injection E as _ <-|].
  destruct (negb e && is_empty sets); [injection E as _ <-; by apply beside_same|].
  destruct (is_empty sets); [by injection E as _ <-|].
  destruct e; cbn [negb] in E; [|injection E as _ <-; apply update_sets_beside].
  pose proof (prepare_sets_beside sets c1) as Hp.
  destruct (prepare_sets sets c1) as [[|] c2]; cbn [snd] in *; injection E as _ <-; [done|].
  etrans; [exact Hp|apply update_sets_beside].
Qed.

(** The commands of the initiator. *)
Lemma check_own_address_parts own policy peer c :
  let c' := snd (check_own_address own policy peer c) in
  beside_advertising c c' ∧ advertising_part c' = advertising_part c.
Proof.
  unfold check_own_address. destruct (_ && _); [done|]. destruct (_ && _); [|done].
  pose proof (GenerateResolvablePrivateAddress_parts peer Local c) as H.
  by destruct (GenerateResolvablePrivateAddress peer Local c).
Qed.

(** The initiator's commands keep all but the initiator and what selecting the
    kind of commands and generating an address change. *)
Definition initiator_only (select : LeController → bool * LeController) (c c' : LeController) : Prop :=
  (lists_wf c → lists_wf c') ∧ advertising_part c' = advertising_part (snd (select c)) ∧
  scanner_ c' = scanner_ c ∧ connections_ c' = connections_ c ∧ random_address_ c' = random_address_ c ∧
  ll_ c' = ll_ c.

Lemma LeCreateConnection_only si sw f p o i j l s m n c :
  initiator_only SelectLegacyAdvertising c (snd (LeCreateConnection si sw f p o i j l s m n c)).
Proof.
  unfold LeCreateConnection.
  assert (initiator_only SelectLegacyAdvertising c (snd (SelectLegacyAdvertising c))) as Hs.
  { unfold initiator_only, SelectLegacyAdvertising. destruct (extended_advertising_in_use_ c); [done|].
    split; [by apply lists_wf_part|done]. }
  unfold initiator_only in *.
  destruct (SelectLegacyAdvertising c) as [[] c1]; cbn [negb snd] in *; [|done].
  destruct (Initiator.IsEnabled _); [done|]. destruct (check_initiating_parameters _); [done|].
  pose proof (check_own_address_parts o f p c1) as [[H1 [= E1 E2 E3 E4 E5]] Ha].
  destruct (check_own_address o f p c1) as [pass c2]. cbn [snd] in *.
  destruct Hs as (? & ? & ? & ? & ? & ?).
  destruct pass; cbn [negb snd]; (split; [|split; [exact Ha|split_and!; cbn; congruence]]); [|by auto].
  intros Hl. eapply lists_wf_part; [|by apply H1, H]. done.
Qed.

Lemma LeExtendedCreateConnection_only f o p phys ps c status c' :
  LeExtendedCreateConnection f o p phys ps c = Ok (status, c') →
  initiator_only SelectExtendedAdvertising c c'.
Proof.
  unfold LeExtendedCreateConnection.
  assert (initiator_only SelectExtendedAdvertising c (snd (SelectExtendedAdvertising c))) as Hs.
  { unfold initiator_only, SelectExtendedAdvertising. destruct (legacy_advertising_in_use_ c); [done|].
    split; [by apply lists_wf_part|done]. }
  unfold initiator_only in *.
  destruct (SelectExtendedAdvertising c) as [[] c1]; cbn [negb snd] in *; [|by intros [= _ <-]].
  do 4 (destruct (_ : bool); [by intros [= _ <-]|]).
  destruct (check_all_initiating_parameters _); [by intros [= _ <-]|].
  pose proof (check_own_address_parts o f p c1) as [[H1 [= E1 E2 E3 E4 E5]] Ha].
  destruct (check_own_address o f p c1) as [pass c2]. cbn [snd] in *.
  destruct Hs as (? & ? & ? & ? & ? & ?).
  destruct pass; cbn [negb].
  2: { intros [= _ <-]. split; [by auto|]. split; [exact Ha|split_and!; congruence]. }
  intros ([? ?] & _ & ([? ?] & _ & ([? ?] & _ & [= _ <-])%bind_Ok)%bind_Ok)%bind_Ok.
  split; [|split; [exact Ha|split_and!; cbn; congruence]].
  intros Hl. eapply lists_wf_part; [|by apply H1, H]. done.
Qed.

Lemma LeSetExtendedScanParameters_parts own policy phys ps c status c' :
  LeSetExtendedScanParameters own policy phys ps c = Ok (status, c') →
  lists_part c' = lists_part c ∧ advertising_part c' = advertising_part (snd (SelectExtendedAdvertising c)) ∧
  initiator_ c' = initiator_ c ∧ connections_ c' = connections_ c ∧ random_address_ c' = random_address_ c ∧
  ll_ c' = ll_ c ∧ (c' = snd (SelectExtendedAdvertising c) ∨ Scanner.scan_enable (scanner_ c') = false).
Proof.
  unfold LeSetExtendedScanParameters, SelectExtendedAdvertising.
  destruct (legacy_advertising_in_use_ c); cbn [negb snd]; [intros [= _ <-]; split_and!; by auto|].
  destruct (Scanner.IsEnabled _) eqn:Hs; [intros [= _ <-]; split_and!; by auto|].
  do 2 (destruct (negb _); [intros [= _ <-]; split_and!; by auto|]).
  destruct (phys =? 0); [intros [= _ <-]; split_and!; by auto|].
  destruct (check_scan_parameters _); [intros [= _ <-]; split_and!; by auto|].
  intros ([o ?] & _ & ([o2 ?] & _ & [= _ <-])%bind_Ok)%bind_Ok. split_and!; try done. right. by destruct o, o2.
Qed.

Lemma cwf_timed (f : Z → LeController → reply) :
  (∀ t c, controller_wf c → controller_wf (snd (f t c))) →
  preserves controller_wf (λ _, True) (timed f).
Proof. intros Hf. apply preserves_bind; [apply preserves_now|]. intros t. apply cwf_pure, Hf. Qed.

Lemma cwf_fallible (f : Z → LeController → outcome reply) :
  (∀ t c status c', controller_wf c → f t c = Ok (status, c') → controller_wf c') →
  preserves controller_wf (λ _, True) (fallible f).
Proof.
  intros Hf t c a c' out Hc. unfold fallible. autorewrite with run. unfold id.
  destruct (f t c) as [[status c1]| | |] eqn:E; try discriminate. autorewrite with run.
  intros [= <- <- <-]. split; [by eapply Hf|done].
Qed.

Lemma initiator_only_cwf select c c' :
  (∀ c, advertising_wf c → advertising_wf (snd (select c))) → controller_wf c →
  initiator_only select c c' → initiator_wf (initiator_ c') →
  (Initiator.connect_enable (initiator_ c') = true →
   Initiator.own_address_type (initiator_ c') = OwnAddressType.RANDOM_DEVICE_ADDRESS →
   random_address_ c' ≠ kEmpty) → controller_wf c'.
Proof.
  intros Hs Hc (Hl & Ha & Es & Ec & Er & _) Hi Ho. split; [by apply Hl, Hc| | |done| |].
  - eapply advertising_wf_part; [exact Ha|apply Hs, Hc].
  - rewrite Es. apply Hc.
  - rewrite Ec. apply Hc.
  - split; [|done]. unfold random_address_missing. rewrite Es, Er. apply Hc.
Qed.

(** *** The handlers with outputs *)

Definition keeps_wf {A} (m : M A) : Prop := preserves controller_wf (λ _, True) m.

Lemma keeps_bind {A B} (m : M A) (f : A → M B) : keeps_wf m → (∀ a, keeps_wf (f a)) → keeps_wf (m ≫= f).
Proof. apply preserves_bind. Qed.
Lemma keeps_ret {A} (a : A) : keeps_wf (mret a).
Proof. apply preserves_ret. Qed.
Lemma keeps_gets {A} (f : LeController → A) : keeps_wf (gets f).
Proof. apply preserves_gets. Qed.
Lemma keeps_now : keeps_wf now.
Proof. apply preserves_now. Qed.
Lemma keeps_lift {A} (m : outcome A) : keeps_wf (lift m).
Proof. apply preserves_lift. Qed.
Lemma keeps_output o : keeps_wf (output o).
Proof. by apply preserves_output. Qed.
Lemma keeps_when b m : keeps_wf m → keeps_wf (when b m).
Proof. apply preserves_when. Qed.
Lemma keeps_for_each {A} (l : list A) body : (∀ x, keeps_wf (body x)) → keeps_wf (for_each l body).
Proof. intros H. apply preserves_for_each. intros x _. apply H. Qed.
Lemma keeps_for_each_or_return {A R} (l : list A) (body : A → M (option R)) :
  (∀ x, keeps_wf (body x)) → keeps_wf (for_each_or_return l body).
Proof. intros H. apply preserves_for_each_or_return. intros x _. apply H. Qed.
Lemma keeps_modify f : (∀ c, controller_wf c → controller_wf (f c)) → keeps_wf (modify f).
Proof. apply preserves_modify. Qed.

Lemma keeps_link_layer call : keeps_wf (link_layer call).
Proof.
  intros t c a c' out [Hl Ha ? ? ? ?] [= _ <- <-]. split; [|done]. split; try done;
    [by apply (lists_wf_part c)|by apply (advertising_wf_part c)|by apply (own_addresses_part c)].
Qed.

(** A change of the connections only. *)
Lemma cwf_connections c h :
  controller_wf c → handler_wf h → controller_wf (c <| connections_ := h |>).
Proof.
  intros [? ? ? ? ? ?] ?. split; try done;
    [by apply (lists_wf_part c)|by apply (advertising_wf_part c)|by apply (own_addresses_part c)].
Qed.
Lemma cwf_initiator_update c i :
  controller_wf c → initiator_wf i →
  (Initiator.connect_enable i = true → Initiator.connect_enable (initiator_ c) = true ∧
   Initiator.own_address_type i = Initiator.own_address_type (initiator_ c)) →
  controller_wf (c <| initiator_ := i |>).
Proof.
  intros [? ? ? ? ? [Hs Hi]] ? Ho. split; try done; [by apply (lists_wf_part c)|by apply (advertising_wf_part c)|].
  split; [exact Hs|]. cbn. intros [He ->]%Ho. by apply Hi.
Qed.

Lemma keeps_update_le_connection handle f :
  (∀ k, LeAclConnection.handle (f k) = LeAclConnection.handle k) →
  keeps_wf (update_le_connection handle f).
Proof.
  intros Hf. apply keeps_modify. intros c Hc. apply (cwf_connections c _ Hc).
  apply (handler_wf_set_le_connection handle f c Hf), Hc.
Qed.

Lemma keeps_disconnect_handle handle : keeps_wf (disconnect_handle handle).
Proof.
  intros t c a c' out Hc. unfold disconnect_handle. autorewrite with run.
  destruct (Connections.Disconnect handle (connections_ c)) as [[[found h] stopped]| | |] eqn:E;
    try discriminate.
  autorewrite with run. rewrite (run_bind _ _ _ _ _ _ _ (cancel_run stopped t _)).
  unfold mret, M_ret. intros [= _ <- <-]. split; [|by apply Forall_true].
  apply cwf_connections; [done|].
  eapply handler_step_wf; [apply Hc|]. by econstructor.
Qed.

Lemma keeps_resolve a : keeps_wf (pure (ResolvePrivateAddress a)).
Proof.
  apply preserves_pure. intros c Hc.
  pose proof (ResolvePrivateAddress_wf a c (cwf_lists _ Hc)) as Hl.
  destruct (ResolvePrivateAddress_frame a c) as [l E]. rewrite E in *. by apply (cwf_change_lists c).
Qed.

Lemma keeps_disable_legacy :
  keeps_wf (modify (λ c, c <| legacy_advertiser_ ::= LegacyAdvertiser.Disable |>)).
Proof.
  apply keeps_modify. intros c Hc. apply (cwf_change_advertising c); [done| | |done].
  - apply legacy_advertiser_wf; [apply Hc| |done].
    destruct (adv_legacy c (cwf_advertising _ Hc)) as [? ? ? ?]. by constructor.
  - apply (lists_wf_part c); [done|apply Hc].
Qed.

Lemma keeps_disable_set handle : keeps_wf (update_advertiser handle ExtendedAdvertiser.Disable).
Proof.
  apply keeps_modify. intros c Hc. apply (cwf_change_advertising c); [done| | |done].
  - apply alter_advertiser_wf; [apply Hc|]. intros limit a _. apply Disable_wf.
  - apply (lists_wf_part c); [done|apply Hc].
Qed.

(** The connection made is fresh, so the tables stay well formed. *)
Lemma keeps_create_connection (a r o : AddressWithType) role cp {B} (f : Z → M B) :
  (∀ handle, keeps_wf (f handle)) →
  keeps_wf (
    t ← now;
    c ← gets id;
    '(handle, h) ← lift (CreateLeConnection t a r o role cp (default_subrate_parameters_ c)
                           (connections_ c));
    modify (λ c, c <| connections_ := h |>);;
    f handle).
Proof.
  intros Hf t c b c' out Hc. autorewrite with run. unfold id.
  destruct (CreateLeConnection _ _ _ _ _ _ _ _) as [[handle h]| | |] eqn:E; try discriminate.
  autorewrite with run. apply (Hf handle). apply cwf_connections; [done|].
  eapply handler_wf_create_le; [apply Hc|exact E].
Qed.

(** By the structure of the handler. *)
Ltac keep_step :=
  lazymatch goal with
  | |- keeps_wf (mret _) => apply keeps_ret
  | |- keeps_wf (_ ≫= _) => apply keeps_bind; [|intros ?]
  | |- keeps_wf (gets _) => apply keeps_gets
  | |- keeps_wf now => apply keeps_now
  | |- keeps_wf (lift _) => apply keeps_lift
  | |- keeps_wf (output _) => apply keeps_output
  | |- keeps_wf (when _ _) => apply keeps_when
  | |- keeps_wf (for_each _ _) => apply keeps_for_each; intros ?
  | |- keeps_wf (for_each_or_return _ _) => apply keeps_for_each_or_return; intros ?
  | |- keeps_wf (link_layer _) => apply keeps_link_layer
  | |- keeps_wf (disconnect_handle _) => apply keeps_disconnect_handle
  | |- keeps_wf (pure (ResolvePrivateAddress _)) => apply keeps_resolve
  | |- keeps_wf (update_le_connection _ _) => apply keeps_update_le_connection; done
  | |- keeps_wf (update_advertiser _ ExtendedAdvertiser.Disable) => apply keeps_disable_set
  | |- keeps_wf (match ?x with _ => _ end) => destruct x
  | |- keeps_wf (modify _) =>
      first [apply keeps_disable_legacy|apply keeps_modify; intros c Hc; by apply (cwf_keep _ _ Hc)]
  end.
Ltac keep := repeat keep_step.

Lemma keeps_event_when b code event : keeps_wf (event_when b code event).
Proof. unfold event_when, send_event_. keep. Qed.
Lemma keeps_if_unmasked code yes no : keeps_wf yes → keeps_wf no → keeps_wf (if_unmasked code yes no).
Proof. intros. unfold if_unmasked. keep; done. Qed.
Lemma keeps_with_connection handle f : (∀ k, keeps_wf (f k)) → keeps_wf (with_connection handle f).
Proof. intros Hf. unfold with_connection, le_connection. keep. apply Hf. Qed.

Lemma keeps_schedule_if_unmasked code event : keeps_wf (schedule_if_unmasked code event).
Proof. unfold schedule_if_unmasked. keep. Qed.
Lemma keeps_update_cs handle f : keeps_wf (update_cs handle f).
Proof. by apply keeps_update_le_connection. Qed.

Ltac keep_more :=
  repeat lazymatch goal with
  | |- keeps_wf (schedule_if_unmasked _ _) => apply keeps_schedule_if_unmasked
  | |- keeps_wf (tell _ _) => apply keeps_event_when
  | |- keeps_wf (update_cs _ _) => apply keeps_update_cs
  | |- keeps_wf (let _ := _ in _) => cbv zeta
  | |- keeps_wf (event_when _ _ _) => apply keeps_event_when
  | |- keeps_wf (if_unmasked _ _ _) => apply keeps_if_unmasked
  | |- keeps_wf (with_connection _ _) => apply keeps_with_connection; intros ?
  | |- keeps_wf (send_if_unmasked _ _) => unfold send_if_unmasked
  | |- keeps_wf (send_event_ _) => unfold send_event_
  | |- keeps_wf (SendLeLinkLayerPacket _ _) => unfold SendLeLinkLayerPacket
  | |- keeps_wf (le_connection _) => unfold le_connection
  | |- keeps_wf (get_advertiser _) => unfold get_advertiser
  | |- keeps_wf (SendDisconnectionCompleteEvent _ _) => unfold SendDisconnectionCompleteEvent
  | |- keeps_wf (send_phy_update_ind _ _ _ _ _) => unfold send_phy_update_ind
  | |- _ => keep_step
  end.

Lemma keeps_Disconnect handle r s : keeps_wf (Disconnect handle r s).
Proof. unfold Disconnect. keep_more. Qed.
Lemma keeps_CheckExpiringConnection handle : keeps_wf (CheckExpiringConnection handle).
Proof. unfold CheckExpiringConnection. keep_more. all: first [apply keeps_Disconnect|idtac]. Qed.

Lemma keeps_HandleLeConnection a r o role i l s e : keeps_wf (HandleLeConnection a r o role i l s e).
Proof.
  unfold HandleLeConnection. apply keeps_create_connection. intros handle.
  apply keeps_bind; [apply keeps_CheckExpiringConnection|]. intros _. keep_more.
  apply keeps_modify. intros c Hc. case_bool_decide; [|done].
  apply cwf_initiator_update; [done|by destruct (cwf_initiator _ Hc)|done].
Qed.

Lemma keeps_accept_connection ci r : keeps_wf (accept_connection ci r).
Proof.
  unfold accept_connection. apply keeps_bind; [apply keeps_HandleLeConnection|]. intros handle. keep_more.
Qed.


Lemma keeps_IncomingLeConnectPacket ci : keeps_wf (IncomingLeConnectPacket ci).
Proof.
  unfold IncomingLeConnectPacket, ProcessIncomingLegacyConnectRequest,
    ProcessIncomingExtendedConnectRequest.
  keep_more; try apply keeps_accept_connection; keep_more.
Qed.

Lemma keeps_IncomingLeConnectCompletePacket ci : keeps_wf (IncomingLeConnectCompletePacket ci).
Proof.
  unfold IncomingLeConnectCompletePacket.
  keep; [apply keeps_HandleLeConnection|].
  apply keeps_modify. intros c Hc. apply cwf_initiator_update; [done|by destruct (cwf_initiator _ Hc)|done].
Qed.

Lemma keeps_IncomingLeScanPacket s a : keeps_wf (IncomingLeScanPacket s a).
Proof.
  unfold IncomingLeScanPacket, ProcessIncomingLegacyScanRequest, ProcessIncomingExtendedScanRequest.
  keep_more.
Qed.


(** Advertising reports: the scanner remembers packets and requests while it runs. *)
Lemma cwf_scanner_update c s :
  controller_wf c → scanner_wf s →
  (Scanner.scan_enable s = true → Scanner.scan_enable (scanner_ c) = true ∧
   Scanner.own_address_type s = Scanner.own_address_type (scanner_ c)) →
  controller_wf (c <| scanner_ := s |>).
Proof.
  intros [? ? ? ? ? [Hs Hi]] ? Ho. split; try done; [by apply (lists_wf_part c)|by apply (advertising_wf_part c)|].
  split; [|exact Hi]. unfold random_address_missing in *. cbn. intros [He ->]%Ho. by apply Hs.
Qed.
Lemma keeps_generate a irk : keeps_wf (pure (GenerateResolvablePrivateAddress a irk)).
Proof.
  apply preserves_pure. intros c Hc. destruct (GenerateResolvablePrivateAddress_parts a irk c) as [[Hl Hk] Ha].
  apply (cwf_change_lists c); [done|apply Hl, Hc|done..].
Qed.
Lemma keeps_resolve_or_keep a : keeps_wf (resolve_or_keep a).
Proof. unfold resolve_or_keep. keep. Qed.
Lemma keeps_choose_address own r : keeps_wf (choose_address own r).
Proof. unfold choose_address. keep_more. Qed.

(** The handlers of the scanner run while it is enabled. *)
Definition scanning_wf (c : LeController) : Prop := controller_wf c ∧ Scanner.scan_enable (scanner_ c) = true.
Definition keeps_scanning {A} (m : M A) : Prop := preserves scanning_wf (λ _, True) m.
Lemma keeps_scanning_of {A} (m : M A) :
  keeps_wf m → (∀ t c a c' out, m t c = Ok (a, c', out) → scanner_ c' = scanner_ c) → keeps_scanning m.
Proof.
  intros Hm Hs t c a c' out [Hc He] E. destruct (Hm _ _ _ _ _ Hc E) as [Hc' ?].
  split; [|done]. split; [done|]. by rewrite (Hs _ _ _ _ _ E).
Qed.
Lemma keeps_when_scanning (body : LeController → M ()) :
  (∀ c, keeps_scanning (body c)) →
  keeps_wf (c ← gets id; if negb (Scanner.IsEnabled (scanner_ c)) then mret () else body c).
Proof.
  intros Hb t c a c' out Hc. autorewrite with run. unfold id.
  destruct (Scanner.IsEnabled (scanner_ c)) eqn:He; cbn [negb].
  - intros E. destruct (Hb c t c a c' out (conj Hc He) E) as [[Hc' _] ?]. by split.
  - intros [= _ <- <-]. by split.
Qed.

Lemma scanning_resolve a : keeps_scanning (resolve_or_keep a).
Proof.
  unfold resolve_or_keep. apply preserves_bind; [|intros r; apply preserves_ret].
  apply keeps_scanning_of; [apply keeps_resolve|]. intros t c r c' out. unfold pure.
  destruct (ResolvePrivateAddress_frame a c) as [l E]. destruct (ResolvePrivateAddress a c) as [o c1].
  cbn in E. subst c1. by intros [= _ <- _].
Qed.
Lemma scanning_generate a irk : keeps_scanning (pure (GenerateResolvablePrivateAddress a irk)).
Proof.
  apply keeps_scanning_of; [apply keeps_generate|]. intros t c r c' out. unfold pure.
  destruct (GenerateResolvablePrivateAddress_parts a irk c) as [[_ Hk] _].
  destruct (GenerateResolvablePrivateAddress a irk c) as [o c1]. injection Hk as E _ _ _ _. by intros [= _ <- _].
Qed.
Lemma scanning_choose own r : keeps_scanning (choose_address own r).
Proof.
  apply keeps_scanning_of; [apply keeps_choose_address|]. intros t c a c' out. unfold choose_address.
  autorewrite with run. unfold id. destruct own; try (by intros [= _ <- _]);
    (destruct (negb _); [|done]; cbn [assert]; rewrite run_lift_Ok; by intros [= _ <- _]).
Qed.
Lemma scanning_modify f :
  (∀ s, scanner_wf s → Scanner.scan_enable s = true → scanner_wf (f s) ∧ Scanner.scan_enable (f s) = true ∧
        Scanner.own_address_type (f s) = Scanner.own_address_type s) →
  keeps_scanning (modify (set_scanner f)).
Proof.
  intros Hf. apply preserves_modify. intros c [Hc He].
  destruct (Hf _ (cwf_scanner _ Hc) He) as (Hw & He' & Ho). split; [|exact He'].
  by apply (cwf_scanner_update c).
Qed.
Lemma scanning_synchronized f : keeps_scanning (modify (λ c, c <| synchronized_ ::= f |>)).
Proof. apply preserves_modify. intros c [Hc He]. split; [by apply (cwf_keep c)|done]. Qed.

Ltac scan_step :=
  lazymatch goal with
  | |- keeps_scanning (let _ := _ in _) => cbv zeta
  | |- keeps_scanning (mret _) => apply preserves_ret
  | |- keeps_scanning (_ ≫= _) => apply preserves_bind; [|intros ?]
  | |- keeps_scanning (gets _) => apply preserves_gets
  | |- keeps_scanning now => apply preserves_now
  | |- keeps_scanning (lift _) => apply preserves_lift
  | |- keeps_scanning (output _) => by apply preserves_output
  | |- keeps_scanning (when _ _) => apply preserves_when
  | |- keeps_scanning (for_each _ _) => apply preserves_for_each; intros ? _
  | |- keeps_scanning (event_when _ _ _) => unfold event_when, send_event_
  | |- keeps_scanning (resolve_or_keep _) => apply scanning_resolve
  | |- keeps_scanning (pure (GenerateResolvablePrivateAddress _ _)) => apply scanning_generate
  | |- keeps_scanning (choose_address _ _) => apply scanning_choose
  | |- keeps_scanning (match ?x with _ => _ end) => destruct x
  | |- keeps_scanning (modify (set_scanner _)) =>
      apply scanning_modify; intros ? [? ? ? ?] ?; split_and!; [split|..]; cbn; try done; congruence
  | |- keeps_scanning (SendLeLinkLayerPacket _ _) => by apply preserves_output
  | |- preserves scanning_wf _ _ => progress fold (@keeps_scanning)
  end.
Ltac scans := repeat (scan_step; try change (preserves scanning_wf (λ _, True) ?m) with (keeps_scanning m)).

Lemma keeps_ScanIncomingLeLegacyAdvertisingPdu a t type data bytes rssi :
  keeps_wf (ScanIncomingLeLegacyAdvertisingPdu a t type data bytes rssi).
Proof.
  apply keeps_when_scanning. intros _. unfold check_duplicate, request_scan, send_scan_request. scans.
Qed.

Lemma keeps_ScanIncomingLeExtendedAdvertisingPdu a t pdu bytes rssi :
  keeps_wf (ScanIncomingLeExtendedAdvertisingPdu a t pdu bytes rssi).
Proof.
  apply keeps_when_scanning. intros c.
  unfold check_duplicate, request_scan, send_scan_request, read_phy, send_extended_reports, send_event_. scans.
Qed.
Lemma keeps_IncomingLeScanResponsePacket a data bytes rssi :
  keeps_wf (IncomingLeScanResponsePacket a data bytes rssi).
Proof.
  apply keeps_when_scanning. intros c. unfold check_duplicate, send_extended_reports, send_event_. scans.
Qed.
Lemma keeps_IncomingLePeriodicAdvertisingPdu a sid tx interval data rssi :
  keeps_wf (IncomingLePeriodicAdvertisingPdu a sid tx interval data rssi).
Proof.
  unfold IncomingLePeriodicAdvertisingPdu, establish_sync, report_syncs, report_sync.
  keep_more; try apply keeps_resolve_or_keep; keep_more.
Qed.

Lemma keeps_request_connection a t directed : keeps_wf (request_connection a t directed).
Proof.
  unfold request_connection. keep_more; try apply keeps_resolve_or_keep; try apply keeps_generate;
    try apply keeps_choose_address.
  apply keeps_modify. intros c Hc.
  apply cwf_initiator_update; [done|by destruct (cwf_initiator _ Hc)|done].
Qed.
Lemma keeps_IncomingLeLegacyAdvertisingPdu a t type data bytes rssi :
  keeps_wf (IncomingLeLegacyAdvertisingPdu a t type data bytes rssi).
Proof.
  apply keeps_bind; [apply keeps_ScanIncomingLeLegacyAdvertisingPdu|]. intros _.
  unfold ConnectIncomingLeLegacyAdvertisingPdu. keep_more. apply keeps_request_connection.
Qed.
Lemma keeps_IncomingLeExtendedAdvertisingPdu a t pdu bytes rssi :
  keeps_wf (IncomingLeExtendedAdvertisingPdu a t pdu bytes rssi).
Proof.
  apply keeps_bind; [apply keeps_ScanIncomingLeExtendedAdvertisingPdu|]. intros _.
  unfold ConnectIncomingLeExtendedAdvertisingPdu. keep_more. apply keeps_request_connection.
Qed.

Lemma keeps_IncomingConnectionPacket handle packet rssi m :
  IncomingConnectionPacket handle packet rssi = Some m → keeps_wf m.
Proof.
  destruct packet; intros [= <-];
    unfold IncomingLeAclPacket, IncomingLeDisconnectPacket, IncomingLlcpPacket,
      IncomingLeConnectionParameterRequest, IncomingLeConnectionParameterUpdate,
      IncomingLeEncryptConnection, IncomingLeEncryptConnectionResponse, IncomingLeReadRemoteFeatures,
      IncomingLeReadRemoteFeaturesResponse, IncomingReadRemoteVersion, IncomingReadRemoteVersionResponse,
      IncomingPingRequest, IncomingLlPhyReq, IncomingLlPhyRsp, IncomingLlPhyUpdateInd,
      IncomingLlSubrateReq, IncomingLlSubrateInd, IncomingLeConnectedIsochronousPdu,
      IncomingLlCsCapabilitiesReq, IncomingLlCsCapabilitiesRsp, IncomingLlCsFaeReq, IncomingLlCsFaeRsp,
      IncomingLlCsConfigReq, IncomingLlCsConfigRsp, IncomingLlCsSecurityReq, IncomingLlCsSecurityRsp,
      IncomingLlCsReq, IncomingLlCsRsp, IncomingLlCsInd, IncomingLlCsChannelMapInd,
      IncomingLlCsTerminateReq, IncomingLlCsTerminateRsp, procedure_started, procedure_stopped,
      capabilities_event, learn;
    keep_more.
Qed.

Lemma keeps_IncomingPacket packet rssi : keeps_wf (IncomingPacket packet rssi).
Proof.
  assert (∀ d s, keeps_wf (
      c ← gets id;
      match GetLeAclConnectionHandle d s (connections_ c) with
      | None => mret ()
      | Some handle =>
          t ← now;
          le_connection handle;;
          update_le_connection handle (LeAclConnection.ResetLinkTimer t);;
          default (mret ()) (IncomingConnectionPacket handle packet rssi)
      end)) as Hlink.
  { intros d s. apply keeps_bind; [keep_step|]. intros c. case_match; [|keep_step].
    unfold le_connection. do 3 (apply keeps_bind; [keep|]; intros ?).
    destruct (IncomingConnectionPacket _ _ _) eqn:E; cbn; [|keep_step].
    by eapply keeps_IncomingConnectionPacket. }
  destruct packet; cbn [IncomingPacket packet_addresses]; first [apply Hlink
    |apply keeps_IncomingLeScanPacket|apply keeps_IncomingLeConnectPacket
    |apply keeps_IncomingLeConnectCompletePacket|apply keeps_IncomingLeScanResponsePacket
    |apply keeps_IncomingLeLegacyAdvertisingPdu|apply keeps_IncomingLeExtendedAdvertisingPdu
    |apply keeps_IncomingLePeriodicAdvertisingPdu].
Qed.

Lemma keeps_HandleAcl handle pb bc data : keeps_wf (HandleAcl handle pb bc data).
Proof. unfold HandleAcl. keep_more. Qed.
Lemma keeps_HandleIso handle pb present payload : keeps_wf (HandleIso handle pb present payload).
Proof. unfold HandleIso. keep_more. Qed.
Lemma keeps_ForwardToLl command : keeps_wf (ForwardToLl command).
Proof. unfold ForwardToLl. keep_more. Qed.
Lemma keeps_HandleLeEnableEncryption handle r e k : keeps_wf (HandleLeEnableEncryption handle r e k).
Proof. unfold HandleLeEnableEncryption. keep_more. Qed.

Lemma keeps_LeSetPhy h a b tx rx : keeps_wf (LeSetPhy h a b tx rx).
Proof.
  unfold LeSetPhy. keep_more.
Qed.

Lemma keeps_LeCreateConnectionCancel : keeps_wf LeCreateConnectionCancel.
Proof.
  intros t c a c' out Hc. rewrite LeCreateConnectionCancel_run.
  destruct (Initiator.connect_enable _); intros [= _ <- <-]; (split; [|by apply Forall_true]); [|done].
  apply cwf_initiator_update; [done|by destruct (cwf_initiator _ Hc)|done].
Qed.

Lemma keeps_LePeriodicAdvertisingCreateSyncCancel : keeps_wf LePeriodicAdvertisingCreateSyncCancel.
Proof.
  unfold LePeriodicAdvertisingCreateSyncCancel. keep_more.
Qed.

(** The state of a new controller, and after a reset. *)
Definition properties_wf (p : ControllerProperties) : Prop :=
  0 ≤ le_resolving_list_size p ∧ 0 ≤ le_filter_accept_list_size p ∧
  0 ≤ le_periodic_advertiser_list_size p ∧ 0 ≤ le_max_advertising_data_length p.

(** Every configuration yields such properties. *)
Lemma configured_properties_sizes config : properties_wf (ControllerProperties_configured config).
Proof.
  assert (wf : wf_properties (ControllerProperties_configured config)).
  { unfold ControllerProperties_configured. repeat (apply wf_apply_if; [done || (intros; by apply wf_apply_switches)|]).
    apply wf_base. }
  destruct wf as (_ & _ & _ & _ & _ & fields). unfold properties_wf, scalar_fields, fits in *.
  repeat (apply Forall_cons in fields as [? fields]). cbn [fst snd] in *. lia.
Qed.

Lemma new_controller_wf address p : properties_wf p → controller_wf (new_controller address p).
Proof.
  intros (? & ? & ? & ?). split; [by apply new_controller_lists_wf|by apply new_controller_advertising_wf
    |apply new_scanner_wf|apply new_initiator_wf|apply empty_handler_wf|done].
Qed.

Lemma cwf_properties c : controller_wf c → properties_wf (properties_ c).
Proof.
  intros [[[] ? ? ?] [] _ _ _ _].
  pose proof (zlength_nonneg (le_resolving_list_ c)).
  pose proof (zlength_nonneg (le_filter_accept_list_ c)).
  pose proof (zlength_nonneg (le_periodic_advertiser_list_ c)).
  unfold properties_wf. lia.
Qed.

Lemma keeps_Reset : keeps_wf Reset.
Proof.
  intros t c a c' out Hc. unfold Reset. erewrite run_bind by apply DisconnectAll_run.
  autorewrite with run. cbn [Connections.Reset]. erewrite run_bind by apply cancel_run.
  unfold modify, emit. cbn [mbind outcome_bind]. intros [= _ <- _]. split; [|by apply Forall_true].
  pose proof (new_controller_wf (address_ c) (properties_ c) (cwf_properties c Hc)) as Hn.
  apply (cwf_keep ((new_controller (address_ c) (properties_ c)) <| random_address_ := kEmpty |>)); [|done..].
  destruct Hn as [Hl Ha ? ? ? ?]. split; try done; 
    [by refine (lists_wf_part _ _ _ Hl)|by refine (advertising_wf_part _ _ _ Ha)].
Qed.

Lemma scan_tick_address t s :
  (Scanner.scan_enable (scan_tick t s) = true → Scanner.scan_enable s = true) ∧
  Scanner.own_address_type (scan_tick t s) = Scanner.own_address_type s.
Proof.
  unfold scan_tick, Scanner.IsEnabled. destruct (Scanner.scan_enable s) eqn:E; [|by rewrite E].
  split; [done|]. unfold expire, pause, renew. by repeat case_match.
Qed.
Lemma keeps_LeScanning : keeps_wf LeScanning.
Proof.
  intros t c a c' out Hc. rewrite LeScanning_run. intros [= _ <- _].
  split; [|by apply Forall_true]. apply (cwf_scanner_update c); [done|apply scan_tick_wf, Hc|].
  destruct (scan_tick_address t (scanner_ c)). auto.
Qed.

Lemma keeps_LeAdvertising : keeps_wf LeAdvertising.
Proof.
  intros t c a c' out Hc E. split; [|by apply Forall_true]. destruct a.
  pose proof (LeAdvertising_wf t c c' out (cwf_advertising _ Hc) E) as Ha.
  destruct (LeAdvertising_run t c (cwf_advertising _ Hc)) as (out' & E' & _).
  assert (c' = c <| legacy_advertiser_ ::= λ a, fst (legacy_tick t a) |>
                 <| extended_advertisers_ ::= fmap (λ a, fst (set_tick t a)) |>) as Hc' by congruence.
  apply (cwf_change_advertising c); [done..| |].
  - subst c'. apply (lists_wf_part c); [done|apply Hc].
  - by subst c'.
Qed.

(** ** Every command *)

#[local] Hint Resolve cwf_lists cwf_advertising cwf_scanner : rc.
#[local] Hint Resolve LeSetAdvertisingParameters_wf LeSetAdvertisingData_wf LeSetScanResponseData_wf
  LeSetAdvertisingEnable_wf LeSetAdvertisingSetRandomAddress_wf LeSetExtendedAdvertisingParameters_wf
  LeSetExtendedAdvertisingData_wf LeSetExtendedScanResponseData_wf LeRemoveAdvertisingSet_wf
  LeClearAdvertisingSets_wf LeSetPeriodicAdvertisingParameters_wf LeSetPeriodicAdvertisingData_wf
  LeSetPeriodicAdvertisingEnable_wf SelectLegacyAdvertising_wf SelectExtendedAdvertising_wf
  LeSetScanParameters_scanner_wf LeSetScanEnable_scanner_wf LeSetExtendedScanEnable_scanner_wf : rc.

Ltac list_command := apply cwf_pure; intros c Hc; apply (cwf_change_lists _ _ Hc); [auto with rc|same_part..].
Ltac advertiser_command c Hc :=
  apply (cwf_change_advertising c); [done|auto with rc|eapply lists_wf_part; [|apply (cwf_lists _ Hc)]; same_part|same_part].

(** The commands of the connections. *)
Ltac link_command :=
  unfold LeConnectionUpdate, LeRemoteConnectionParameterRequestReply,
    LeRemoteConnectionParameterRequestNegativeReply, LeEnableEncryption, LeLongTermKeyRequestReply,
    LeLongTermKeyRequestNegativeReply, LeReadRemoteFeaturesPage0, ReadRemoteVersionInformation,
    LeReadRemoteTransmitPowerLevel, LeSetTransmitPowerReportingEnable, LeSubrateRequest,
    LeCsReadRemoteSupportedCapabilities, LeCsSetDefaultSettings, LeCsReadRemoteFaeTable,
    LeCsWriteCachedRemoteFaeTable, LeCsWriteCachedRemoteSupportedCapabilities, LeCsCreateConfig,
    LeCsRemoveConfig, LeCsSetChannelClassification, LeCsSecurityEnable, LeCsSetProcedureParameters,
    LeCsProcedureEnable;
  keep_more.
(** A scanner that runs has an address. *)
Definition scanner_ready (c : LeController) : Prop :=
  Scanner.scan_enable (scanner_ c) = true → random_address_missing c = false.
Lemma LeSetScanParameters_ready type i w own policy c :
  scanner_ready c → scanner_ready (snd (LeSetScanParameters type i w own policy c)).
Proof.
  intros Hc. unfold LeSetScanParameters, SelectLegacyAdvertising, Scanner.IsEnabled.
  destruct (extended_advertising_in_use_ c); [exact Hc|]. cbn [negb].
  destruct (Scanner.scan_enable _) eqn:He; [exact Hc|]. destruct (_ || _); [exact Hc|]. destruct (i <? w); [exact Hc|].
  unfold scanner_ready. cbn in *. congruence.
Qed.
Lemma LeSetScanEnable_ready enable fd c :
  scanner_ready c → scanner_ready (snd (LeSetScanEnable enable fd c)).
Proof.
  intros Hc. unfold LeSetScanEnable, SelectLegacyAdvertising.
  destruct (extended_advertising_in_use_ c); [exact Hc|]. cbn [negb]. destruct (negb enable); [by unfold scanner_ready|].
  destruct (random_address_missing _) eqn:Hm; [exact Hc|]. intros _. exact Hm.
Qed.
Lemma LeSetExtendedScanEnable_ready t enable fd d p c :
  scanner_ready c → scanner_ready (snd (LeSetExtendedScanEnable t enable fd d p c)).
Proof.
  intros Hc. unfold LeSetExtendedScanEnable, SelectExtendedAdvertising.
  destruct (legacy_advertising_in_use_ c); [exact Hc|]. cbn [negb]. destruct (negb enable); [by unfold scanner_ready|].
  destruct (_ && _); [exact Hc|]. destruct (_ && _); [exact Hc|].
  destruct (random_address_missing _) eqn:Hm; [exact Hc|]. intros _. exact Hm.
Qed.
#[local] Hint Resolve LeSetScanParameters_ready LeSetScanEnable_ready LeSetExtendedScanEnable_ready : rc.
Lemma cwf_ready c : controller_wf c → scanner_ready c.
Proof. intros Hc. exact (own_scanner _ (cwf_addresses _ Hc)). Qed.
#[local] Hint Resolve cwf_ready : rc.

(** The commands of the scanner. *)
Definition beside_scanner (c : LeController) := (initiator_ c, connections_ c, random_address_ c).
Ltac scanner_command c Hc select :=
  apply (cwf_change_scanner select c); [auto with rc|done|same_part|same_part| |auto with rc|];
  [|match goal with |- _ → random_address_missing ?c' = _ => change (scanner_ready c') end; auto with rc];
  match goal with |- (initiator_ ?c', connections_ ?c', _) = _ =>
    change (beside_scanner c' = beside_scanner c) end; same_part.

Lemma keeps_SetRandomAddress a : keeps_wf (pure (LeSetRandomAddress a)).
Proof.
  apply cwf_pure. intros c Hc. unfold LeSetRandomAddress.
  destruct (_ || _) eqn:E; [done|]. apply orb_false_iff in E as [[_ Es]%orb_false_iff Ei].
  case_bool_decide; [done|]. destruct Hc as [Hl Ha ? ? ? ?]. cbn [snd]. split; try done;
    [by refine (lists_wf_part _ _ _ Hl)|by refine (advertising_wf_part _ _ _ Ha)|].
  split; cbn.
  - intros He. unfold Scanner.IsEnabled in Es. by rewrite He in Es.
  - intros He. unfold Initiator.IsEnabled in Ei. by rewrite He in Ei.
Qed.

(** The initiator's commands check the random address. *)
Definition initiator_ready (c : LeController) : Prop :=
  Initiator.connect_enable (initiator_ c) = true →
  Initiator.own_address_type (initiator_ c) = OwnAddressType.RANDOM_DEVICE_ADDRESS → random_address_ c ≠ kEmpty.
Lemma check_own_address_random own policy peer c :
  fst (check_own_address own policy peer c) = true → own = OwnAddressType.RANDOM_DEVICE_ADDRESS →
  random_address_ (snd (check_own_address own policy peer c)) ≠ kEmpty.
Proof.
  intros Hp Ho. unfold check_own_address in *. rewrite Ho in *. rewrite bool_decide_true in Hp by done.
  rewrite bool_decide_true by done. cbn [andb] in *. by case_bool_decide.
Qed.
Lemma LeCreateConnection_ready si sw f p o i j l s m n c :
  initiator_ready c → initiator_ready (snd (LeCreateConnection si sw f p o i j l s m n c)).
Proof.
  intros Hc. unfold LeCreateConnection, SelectLegacyAdvertising.
  destruct (extended_advertising_in_use_ c); [done|]. cbn [negb].
  destruct (Initiator.IsEnabled _) eqn:He; [done|]. destruct (check_initiating_parameters _); [done|].
  set (c1 := c <| legacy_advertising_in_use_ := true |>) in *.
  pose proof (check_own_address_random o f p c1) as Hr.
  pose proof (check_own_address_parts o f p c1) as [[_ [= _ E _ _ _]] _].
  destruct (check_own_address o f p c1) as [pass c2]. cbn [fst snd] in *. unfold initiator_ready.
  destruct pass; cbn [negb snd]; [by intros _ Ho; apply Hr|].
  unfold Initiator.IsEnabled in He. cbn in E, He. rewrite E, He. by intros [=].
Qed.
Lemma LeExtendedCreateConnection_ready f o p phys ps c status c' :
  initiator_ready c → LeExtendedCreateConnection f o p phys ps c = Ok (status, c') → initiator_ready c'.
Proof.
  intros Hc. unfold LeExtendedCreateConnection, SelectExtendedAdvertising.
  destruct (legacy_advertising_in_use_ c); cbn [negb]; [by intros [= _ <-]|].
  destruct (Initiator.IsEnabled _) eqn:He; [by intros [= _ <-]|].
  do 2 (destruct (negb _); [by intros [= _ <-]|]). destruct (phys =? 0); [by intros [= _ <-]|].
  destruct (check_all_initiating_parameters _); [by intros [= _ <-]|].
  set (c1 := c <| extended_advertising_in_use_ := true |>) in *.
  pose proof (check_own_address_random o f p c1) as Hr.
  pose proof (check_own_address_parts o f p c1) as [[_ [= _ E _ _ _]] _].
  destruct (check_own_address o f p c1) as [pass c2]. cbn [fst snd] in *. unfold initiator_ready.
  destruct pass; cbn [negb].
  - intros ([? ?] & _ & ([? ?] & _ & ([? ?] & _ & [= _ <-])%bind_Ok)%bind_Ok)%bind_Ok. intros _ Ho. by apply Hr.
  - intros [= _ <-]. unfold Initiator.IsEnabled in He. cbn in E, He. rewrite E, He. by intros [=].
Qed.

Lemma keeps_apcf_room command : keeps_wf (apcf_room command).
Proof.
  unfold apcf_room. intros t c a c' out Hc. autorewrite with run. unfold id.
  pose proof (apcf_execute_frame command c) as [s E]. destruct (apcf_execute command c) as [answer c1].
  cbn in E. subst c1. intros [= _ <- <-]. split; [by apply (cwf_keep _ _ Hc)|by apply Forall_true].
Qed.

Lemma keeps_set f :
  (∀ c, lists_part (f c) = lists_part c ∧ advertising_part (f c) = advertising_part c ∧
        links_part (f c) = links_part c) → keeps_wf (set f).
Proof.
  intros Hf. unfold set. apply keeps_bind; [|intros _; apply keeps_ret].
  apply keeps_modify. intros c Hc. destruct (Hf c) as (? & ? & ?). by apply (cwf_keep c).
Qed.

Lemma execute_keeps command : command_ok command → keeps_wf (execute command).
Proof.
  intros Hok. destruct command; cbn [execute command_ok] in *;
    try (solve [apply cwf_pure; intros c Hc; keeps Hc]).
  all: try solve [list_command].
  all: try solve [apply cwf_pure; intros c Hc; advertiser_command c Hc].
  all: try solve [link_command].
  - apply keeps_bind; [apply keeps_Reset|]. intros _. apply keeps_ret.
  - apply keeps_SetRandomAddress.
  - apply keeps_LePeriodicAdvertisingCreateSyncCancel.
  - apply cwf_timed. intros t c Hc. destruct (LeSetAdvertisingEnable_beside t enable c) as [Hl Hk].
    apply (cwf_change_advertising c); auto with rc.
  - apply cwf_fallible. intros t c status c' Hc E.
    destruct (LeSetExtendedAdvertisingEnable_beside _ _ _ _ _ _ E) as [Hl Hk].
    apply (cwf_change_advertising c); [done| |auto with rc|done].
    eapply LeSetExtendedAdvertisingEnable_wf; [| |exact E]; auto with rc.
  - apply cwf_timed. intros t c Hc. advertiser_command c Hc.
  - apply keeps_LeSetPhy.
  - apply cwf_pure. intros c Hc. scanner_command c Hc SelectLegacyAdvertising.
  - apply cwf_pure. intros c Hc. scanner_command c Hc SelectLegacyAdvertising.
  - apply cwf_fallible. intros _ c status c' Hc E.
    destruct (LeSetExtendedScanParameters_parts _ _ _ _ _ _ _ E) as (? & ? & Ei & Ec & Er & _ & Hs).
    apply (cwf_change_scanner SelectExtendedAdvertising c); [auto with rc|done..|by rewrite Ei, Ec, Er| |].
    + eapply LeSetExtendedScanParameters_scanner_wf; [|exact E]. auto with rc.
    + destruct Hs as [-> | ->]; [|done]. unfold SelectExtendedAdvertising. case_match; apply Hc.
  - apply cwf_timed. intros t c Hc. scanner_command c Hc SelectExtendedAdvertising.
  - apply cwf_pure. intros c Hc. eapply (initiator_only_cwf SelectLegacyAdvertising c);
      [auto with rc|done|apply LeCreateConnection_only| |].
    + apply LeCreateConnection_initiator_wf, Hc.
    + exact (LeCreateConnection_ready _ _ _ _ _ _ _ _ _ _ _ _ (own_initiator _ (cwf_addresses _ Hc))).
  - apply keeps_LeCreateConnectionCancel.
  - apply cwf_fallible. intros _ c status c' Hc E.
    eapply (initiator_only_cwf SelectExtendedAdvertising c);
      [auto with rc|done|by eapply LeExtendedCreateConnection_only| |].
    + eapply LeExtendedCreateConnection_initiator_wf; [apply Hc|exact E].
    + eapply LeExtendedCreateConnection_ready; [exact (own_initiator _ (cwf_addresses _ Hc))|exact E].
  - apply keeps_Disconnect.
  - by apply keeps_set.
  - by apply keeps_set.
  - by apply keeps_set.
  - by apply keeps_set.
  - apply cwf_pure. intros c Hc. by apply (cwf_keep _ _ Hc).
  - unfold apcf. apply keeps_bind; [apply keeps_apcf_room|]. intros [status room]. apply keeps_ret.
Qed.

End Controller.
