(* ===== verification/KnownLinks.v ===== *)
(** * The links the link layer library knows

    Whatever the host commands and whatever is received, the links the library was
    told about are those of the LE connections: a connection is announced when it is
    made, and taken back when it is dropped.  So the library, which refuses to remove a
    link it does not know, never has a reason to. *)

From S2P Require Import Prelude HciTypes Properties Address CsTypes Connections LeState LeLists LeAdvertiser LePhy.
From S2P Require Import LeScan LeConnect LeSubrate LeSounding LeSoundingLink LeApcf LeIso LeReports LeLink Tasks Controller.

Section KnownLinks.
Context {env : Environment}.

(** ** Handlers that have nothing to do with links *)

Definition link_part (c : LeController) := (connections_ c, ll_ c).
Definition leaves_links {A} (m : M A) : Prop :=
  ∀ t c a c' out, m t c = Ok (a, c', out) → link_part c' = link_part c.

Lemma leaves_bind {A B} (m : M A) (f : A → M B) :
  leaves_links m → (∀ a, leaves_links (f a)) → leaves_links (m ≫= f).
Proof.
  intros Hm Hf t c b c' out (a & c1 & o1 & b' & c2 & o2 & H1 & H2 & [= -> -> ->])%M_bind_Ok.
  etrans; [by eapply Hf|by eapply Hm].
Qed.
Lemma leaves_ret {A} (a : A) : leaves_links (mret a).
Proof. by intros t c ? ? ? [= _ <- _]. Qed.
Lemma leaves_gets {A} (f : LeController → A) : leaves_links (gets f).
Proof. by intros t c ? ? ? [= _ <- _]. Qed.
Lemma leaves_now : leaves_links now.
Proof. by intros t c ? ? ? [= _ <- _]. Qed.
Lemma leaves_lift {A} (m : outcome A) : leaves_links (lift m).
Proof. intros t c ? ? ?. unfold lift. destruct m; by intros [= _ <- _]. Qed.
Lemma leaves_output o : leaves_links (output o).
Proof. by intros t c ? ? ? [= _ <- _]. Qed.
Lemma leaves_modify f : (∀ c, link_part (f c) = link_part c) → leaves_links (modify f).
Proof. intros Hf t c ? ? ? [= _ <- _]. apply Hf. Qed.
Lemma leaves_pure {A} (f : LeController → A * LeController) :
  (∀ c, link_part (snd (f c)) = link_part c) → leaves_links (pure f).
Proof. intros Hf t c ? ? ?. unfold pure. specialize (Hf c). destruct (f c). by intros [= _ <- _]. Qed.
Lemma leaves_when b m : leaves_links m → leaves_links (when b m).
Proof. destruct b; [done|]. intros _. apply leaves_ret. Qed.
Lemma leaves_for_each {A} (l : list A) body : (∀ x, leaves_links (body x)) → leaves_links (for_each l body).
Proof. intros Hb. induction l as [|x l IH]; [apply leaves_ret|]. by apply leaves_bind. Qed.
Lemma leaves_for_each_or_return {A R} (l : list A) (body : A → M (option R)) :
  (∀ x, leaves_links (body x)) → leaves_links (for_each_or_return l body).
Proof.
  intros Hb. induction l as [|x l IH]; [apply leaves_ret|]. apply leaves_bind; [done|].
  intros [r|]; [apply leaves_ret|done].
Qed.
Lemma leaves_resolve a : leaves_links (pure (ResolvePrivateAddress a)).
Proof. apply leaves_pure. intros c. by destruct (ResolvePrivateAddress_frame a c) as [l ->]. Qed.
Lemma leaves_generate a irk : leaves_links (pure (GenerateResolvablePrivateAddress a irk)).
Proof.
  apply leaves_pure. intros c. destruct (GenerateResolvablePrivateAddress_parts a irk c) as [[_ [= _ _ Ec _ El]] _].
  unfold link_part. by rewrite Ec, El.
Qed.

Ltac head_of t := lazymatch t with ?f _ => head_of f | _ => t end.
Ltac unfold_head t := let f := head_of t in unfold f.
(** By the structure of the handler. *)
Ltac leave :=
  cbv zeta;
  lazymatch goal with
  | |- leaves_links (mret _) => apply leaves_ret
  | |- leaves_links (gets _) => apply leaves_gets
  | |- leaves_links now => apply leaves_now
  | |- leaves_links (lift _) => apply leaves_lift
  | |- leaves_links (output _) => apply leaves_output
  | |- leaves_links (pure (ResolvePrivateAddress _)) => apply leaves_resolve
  | |- leaves_links (pure (GenerateResolvablePrivateAddress _ _)) => apply leaves_generate
  | |- leaves_links (modify _) => apply leaves_modify; intros ?; by repeat case_match
  | |- leaves_links (when _ _) => apply leaves_when; leave
  | |- leaves_links (for_each _ _) => apply leaves_for_each; intros ?; leave
  | |- leaves_links (for_each_or_return _ _) => apply leaves_for_each_or_return; intros ?; leave
  | |- leaves_links (_ ≫= _) => apply leaves_bind; [leave|intros ?; leave]
  | |- leaves_links (match ?x with _ => _ end) => destruct x; leave
  | |- leaves_links ?m => unfold_head m; leave
  end.

(** ** From a set of states to another *)

Definition leads {A} (P Q : LeController → Prop) (m : M A) : Prop :=
  ∀ t c a c' out, P c → m t c = Ok (a, c', out) → Q c'.
Definition about_links (P : LeController → Prop) : Prop :=
  ∀ c c', link_part c' = link_part c → P c → P c'.

Lemma link_leads_bind {A B} P Q R (m : M A) (f : A → M B) :
  leads P Q m → (∀ a, leads Q R (f a)) → leads P R (m ≫= f).
Proof.
  intros Hm Hf t c b c' out Hc (a & c1 & o1 & b' & c2 & o2 & H1 & H2 & [= -> -> ->])%M_bind_Ok.
  eapply Hf; [|exact H2]. by eapply Hm.
Qed.
Lemma leads_same {A} P (m : M A) : about_links P → leaves_links m → leads P P m.
Proof. intros HP Hm t c a c' out Hc E. eapply HP; [by eapply Hm|done]. Qed.
Lemma leads_emit {A} P (m : M A) o t c a c' out :
  leads P linked m → P c → emit o (m t c) = Ok (a, c', out) → linked c'.
Proof.
  intros Hm Hc. destruct (m t c) as [[[a1 c1] o1]| | |] eqn:E; intros [= _ <- _]. by eapply Hm.
Qed.

(** A connection that the library is yet to hear of, and one it is yet to forget. *)
Definition arriving (handle : Z) (c : LeController) : Prop :=
  handler_wf (connections_ c) ∧ {[handle]} ∪ known_links (ll_ c) = dom (le_acl_connections_ (connections_ c)).
Definition leaving (handle : Z) (c : LeController) : Prop :=
  handler_wf (connections_ c) ∧ known_links (ll_ c) ∖ {[handle]} = dom (le_acl_connections_ (connections_ c)).

Lemma about_linked : about_links linked.
Proof. intros c c' [= Ec El]. unfold linked. by rewrite Ec, El. Qed.
Lemma about_arriving handle : about_links (arriving handle).
Proof. intros c c' [= Ec El]. unfold arriving. by rewrite Ec, El. Qed.
Lemma about_leaving handle : about_links (leaving handle).
Proof. intros c c' [= Ec El]. unfold leaving. by rewrite Ec, El. Qed.
#[local] Hint Resolve about_linked about_arriving about_leaving : rc.

Definition keeps_linked {A} (m : M A) : Prop := leads linked linked m.
Lemma linked_leaves {A} (m : M A) : leaves_links m → keeps_linked m.
Proof. apply leads_same, about_linked. Qed.
Lemma linked_bind {A B} (m : M A) (f : A → M B) :
  keeps_linked m → (∀ a, keeps_linked (f a)) → keeps_linked (m ≫= f).
Proof. apply link_leads_bind. Qed.
Lemma linked_when b m : keeps_linked m → keeps_linked (when b m).
Proof. destruct b; [done|]. intros _. apply linked_leaves, leaves_ret. Qed.
Lemma linked_for_each {A} (l : list A) body : (∀ x, keeps_linked (body x)) → keeps_linked (for_each l body).
Proof.
  intros Hb. induction l as [|x l IH]; [apply linked_leaves, leaves_ret|]. by apply linked_bind.
Qed.
Lemma linked_for_each_or_return {A R} (l : list A) (body : A → M (option R)) :
  (∀ x, keeps_linked (body x)) → keeps_linked (for_each_or_return l body).
Proof.
  intros Hb. induction l as [|x l IH]; [apply linked_leaves, leaves_ret|]. apply linked_bind; [done|].
  intros [r|]; [apply linked_leaves, leaves_ret|done].
Qed.
Lemma linked_modify f : (∀ c, linked c → linked (f c)) → keeps_linked (modify f).
Proof. intros Hf t c ? ? ? Hc [= _ <- _]. by apply Hf. Qed.
Lemma linked_update_le_connection handle f :
  (∀ k, LeAclConnection.handle (f k) = LeAclConnection.handle k) →
  keeps_linked (update_le_connection handle f).
Proof. intros Hf. apply linked_modify. intros c. by apply linked_set. Qed.
Lemma linked_ingest_hci command : keeps_linked (link_layer (link_layer_ingest_hci command)).
Proof. intros t c ? ? ? Hc [= _ <- _]. exact Hc. Qed.
Lemma linked_ingest_llcp handle payload : keeps_linked (link_layer (link_layer_ingest_llcp handle payload)).
Proof. intros t c ? ? ? Hc [= _ <- _]. exact Hc. Qed.

(** *** The end of a connection *)

Lemma disconnect_handle_leads handle : leads linked (leaving handle) (disconnect_handle handle).
Proof.
  intros t c a c' out [Hwf Hlinks]. unfold disconnect_handle. autorewrite with run.
  destruct (Connections.Disconnect handle (connections_ c)) as [[[found h] stopped]| | |] eqn:E;
    try discriminate.
  assert (handler_wf h) as Hh by (eapply handler_step_wf; [exact Hwf|by econstructor]).
  autorewrite with run. rewrite (run_bind _ _ _ _ _ _ _ (cancel_run stopped t _)).
  unfold mret, M_ret. intros [= _ <- _]. split; [done|]. cbn. rewrite Hlinks.
  unfold Connections.Disconnect in E.
  assert (∀ k, le_acl_connections_ (connections_ c) !! handle = Some k → kLeAclRangeStart ≤ handle ≤ kLeAclRangeEnd)
    as Hle by (intros k Hk; apply (wf_le _ Hwf _ _ Hk)).
  destruct (sco_connections_ _ !! handle) as [s|] eqn:Hs; [|destruct (acl_connections_ _ !! handle) as [s|] eqn:Ha].
  - apply (wf_sco _ Hwf) in Hs. apply bind_Ok in E as (_ & _ & [= _ <- _]).
    cbn. apply difference_disjoint_L. rewrite disjoint_singleton_r, not_elem_of_dom.
    destruct (le_acl_connections_ _ !! handle) as [k|]; [|done]. specialize (Hle k eq_refl).
    unfold kLeAclRangeStart, kLeAclRangeEnd, kScoRangeStart, kScoRangeEnd in *. lia.
  - apply (wf_acl _ Hwf) in Ha as [Ha _]. apply bind_Ok in E as (_ & _ & [= _ <- _]).
    cbn. apply difference_disjoint_L. rewrite disjoint_singleton_r, not_elem_of_dom.
    destruct (le_acl_connections_ _ !! handle) as [k|]; [|done]. specialize (Hle k eq_refl).
    unfold kLeAclRangeStart, kLeAclRangeEnd, kAclRangeStart, kAclRangeEnd in *. lia.
  - unfold HasLeAclHandle in E. case_bool_decide as Hk; injection E as _ <- _; cbn.
    + by rewrite dom_delete_L.
    + apply difference_disjoint_L. rewrite disjoint_singleton_r, not_elem_of_dom.
      destruct (le_acl_connections_ _ !! handle); [|done]. by destruct Hk.
Qed.
Lemma remove_link_leads handle reason :
  leads (leaving handle) linked (link_layer (link_layer_remove_link handle reason)).
Proof. intros t c ? ? ? Hc [= _ <- _]. exact Hc. Qed.
Lemma add_link_leads handle address role :
  leads (arriving handle) linked (link_layer (link_layer_add_link handle address role)).
Proof. intros t c ? ? ? Hc [= _ <- _]. exact Hc. Qed.

Lemma linked_Disconnect handle r s : keeps_linked (Disconnect handle r s).
Proof.
  unfold Disconnect, with_connection. apply linked_bind; [apply linked_leaves; leave|]. intros c.
  destruct (negb _); [apply linked_leaves; leave|].
  apply linked_bind; [apply linked_leaves; leave|]. intros k.
  apply linked_bind; [apply linked_leaves; leave|]. intros _.
  apply (link_leads_bind _ (leaving handle)); [apply disconnect_handle_leads|]. intros _.
  apply (link_leads_bind _ (leaving handle)); [apply leads_same; [auto with rc|leave]|]. intros _.
  apply (link_leads_bind _ linked); [apply remove_link_leads|]. intros accepted. apply linked_leaves. leave.
Qed.
Lemma linked_IncomingLeDisconnectPacket handle reason : keeps_linked (IncomingLeDisconnectPacket handle reason).
Proof.
  unfold IncomingLeDisconnectPacket. apply linked_bind; [apply linked_leaves; leave|]. intros k.
  apply (link_leads_bind _ (leaving (LeAclConnection.handle k))); [apply disconnect_handle_leads|]. intros found.
  apply (link_leads_bind _ (leaving (LeAclConnection.handle k))); [apply leads_same; [auto with rc|leave]|]. intros _.
  apply (link_leads_bind _ linked); [apply remove_link_leads|]. intros accepted. apply linked_leaves. leave.
Qed.

(** Handlers that change connections go through the rules above, all else leaves the links. *)
Ltac keep_links :=
  cbv zeta;
  lazymatch goal with
  | |- keeps_linked (update_le_connection _ _) => by apply linked_update_le_connection
  | |- keeps_linked (link_layer (link_layer_ingest_hci _)) => apply linked_ingest_hci
  | |- keeps_linked (link_layer (link_layer_ingest_llcp _ _)) => apply linked_ingest_llcp
  | |- keeps_linked (Disconnect _ _ _) => apply linked_Disconnect
  | |- keeps_linked (IncomingLeDisconnectPacket _ _) => apply linked_IncomingLeDisconnectPacket
  | |- keeps_linked (when _ _) => apply linked_when; keep_links
  | |- keeps_linked (for_each _ _) => apply linked_for_each; intros ?; keep_links
  | |- keeps_linked (for_each_or_return _ _) => apply linked_for_each_or_return; intros ?; keep_links
  | |- keeps_linked (_ ≫= _) => apply linked_bind; [keep_links|intros ?; keep_links]
  | |- keeps_linked (match ?x with _ => _ end) => destruct x; keep_links
  | |- keeps_linked ?m => first [apply linked_leaves; solve [leave]|unfold_head m; keep_links]
  end.

Lemma linked_CheckExpiringConnection handle : keeps_linked (CheckExpiringConnection handle).
Proof. keep_links. Qed.

(** *** The start of a connection *)

Lemma linked_HandleLeConnection a r o role i l s e : keeps_linked (HandleLeConnection a r o role i l s e).
Proof.
  intros t c b c' out Hc. unfold HandleLeConnection. autorewrite with run. unfold id.
  destruct (CreateLeConnection _ _ _ _ _ _ _ _) as [[handle h]| | |] eqn:E; try discriminate.
  destruct Hc as [Hwf Hlinks]. destruct (CreateLeConnection_inserts _ _ _ _ _ _ _ _ _ _ Hwf E) as [_ Eh].
  autorewrite with run. set (c1 := c <| connections_ := h |>).
  assert (arriving handle c1) as Hc1.
  { split; [by eapply handler_wf_create_le|]. cbn. by rewrite Eh, Hlinks, dom_insert_L. }
  erewrite run_bind.
  2: { eapply (CheckExpiringConnection_new handle t c1);
         [unfold connection_of; cbn; rewrite Eh; apply lookup_insert_eq|done|done]. }
  generalize dependent c1. intros c1 Hc1. revert Hc1. apply leads_emit.
  apply (link_leads_bind _ (arriving handle)); [apply leads_same; [auto with rc|leave]|]. intros c2.
  apply (link_leads_bind _ (arriving handle)); [apply leads_same; [auto with rc|leave]|]. intros enhanced.
  apply (link_leads_bind _ (arriving handle)); [apply leads_same; [auto with rc|leave]|]. intros legacy.
  apply (link_leads_bind _ (arriving handle)); [apply leads_same; [auto with rc|leave]|]. intros _.
  apply (link_leads_bind _ linked); [apply add_link_leads|]. intros accepted. apply linked_leaves. leave.
Qed.

Lemma linked_accept_connection ci r : keeps_linked (accept_connection ci r).
Proof.
  unfold accept_connection. apply linked_bind; [apply linked_HandleLeConnection|].
  intros handle. apply linked_leaves. leave.
Qed.
Lemma linked_legacy_request ci : keeps_linked (ProcessIncomingLegacyConnectRequest ci).
Proof.
  unfold ProcessIncomingLegacyConnectRequest. apply linked_bind; [apply linked_leaves; leave|]. intros a.
  do 3 (destruct (_ : bool); [apply linked_leaves; leave|]).
  apply linked_bind; [apply linked_leaves; leave|]. intros r. apply linked_bind; [apply linked_leaves; leave|].
  intros c. destruct (negb _); [apply linked_leaves; leave|].
  apply linked_bind; [apply linked_accept_connection|]. intros _. apply linked_leaves. leave.
Qed.
Lemma linked_extended_request h ci : keeps_linked (ProcessIncomingExtendedConnectRequest h ci).
Proof.
  unfold ProcessIncomingExtendedConnectRequest. apply linked_bind; [apply linked_leaves; leave|]. intros a.
  do 3 (destruct (_ : bool); [apply linked_leaves; leave|]).
  apply linked_bind; [apply linked_leaves; leave|]. intros r. apply linked_bind; [apply linked_leaves; leave|].
  intros c. destruct (negb _); [apply linked_leaves; leave|]. apply linked_bind; [apply linked_leaves; leave|].
  intros _. apply linked_bind; [apply linked_accept_connection|]. intros k. apply linked_leaves. leave.
Qed.
Lemma linked_IncomingLeConnectPacket ci : keeps_linked (IncomingLeConnectPacket ci).
Proof.
  unfold IncomingLeConnectPacket. apply linked_bind; [apply linked_legacy_request|]. intros [];
    [apply linked_leaves; leave|]. apply linked_bind; [apply linked_leaves; leave|]. intros l.
  apply linked_bind; [|intros _; apply linked_leaves; leave]. apply linked_for_each_or_return. intros h.
  apply linked_bind; [apply linked_extended_request|]. intros []; apply linked_leaves; leave.
Qed.
Lemma linked_IncomingLeConnectCompletePacket ci : keeps_linked (IncomingLeConnectCompletePacket ci).
Proof.
  unfold IncomingLeConnectCompletePacket. apply linked_bind; [apply linked_leaves; leave|]. intros i. cbv zeta.
  destruct (_ && _); [apply linked_leaves; leave|]. apply linked_bind; [apply linked_leaves; leave|]. intros r.
  apply linked_bind; [apply linked_leaves; leave|]. intros e.
  apply linked_bind; [apply linked_HandleLeConnection|]. intros _. apply linked_leaves. leave.
Qed.

(** *** The packets received and the data of the host *)

Lemma linked_IncomingConnectionPacket handle packet rssi m :
  IncomingConnectionPacket handle packet rssi = Some m → keeps_linked m.
Proof. destruct packet; intros [= <-]; keep_links. Qed.

Lemma linked_on_connection d s packet rssi :
  keeps_linked (
    c ← gets id;
    match GetLeAclConnectionHandle d s (connections_ c) with
    | None => mret ()
    | Some handle =>
        t ← now;
        le_connection handle;;
        update_le_connection handle (LeAclConnection.ResetLinkTimer t);;
        default (mret ()) (IncomingConnectionPacket handle packet rssi)
    end).
Proof.
  apply linked_bind; [apply linked_leaves; leave|]. intros c.
  destruct (GetLeAclConnectionHandle _ _ _) as [handle|]; [|apply linked_leaves; leave].
  do 2 (apply linked_bind; [apply linked_leaves; leave|]; intros ?).
  apply linked_bind; [by apply linked_update_le_connection|]. intros _.
  destruct (IncomingConnectionPacket _ _ _) eqn:E; cbn; [|apply linked_leaves; leave].
  by eapply linked_IncomingConnectionPacket.
Qed.

Lemma linked_IncomingPacket packet rssi : keeps_linked (IncomingPacket packet rssi).
Proof.
  destruct packet; cbn [IncomingPacket packet_addresses]; first
    [apply linked_on_connection|apply linked_IncomingLeConnectPacket
    |apply linked_IncomingLeConnectCompletePacket|apply linked_leaves; leave].
Qed.
Lemma linked_HandleAcl handle pb bc data : keeps_linked (HandleAcl handle pb bc data).
Proof. apply linked_leaves. leave. Qed.
Lemma linked_HandleIso handle pb present payload : keeps_linked (HandleIso handle pb present payload).
Proof. apply linked_leaves. leave. Qed.
Lemma linked_ForwardToLl command : keeps_linked (ForwardToLl command).
Proof. keep_links. Qed.
Lemma linked_HandleLeEnableEncryption handle rand ediv ltk :
  keeps_linked (HandleLeEnableEncryption handle rand ediv ltk).
Proof. keep_links. Qed.
Lemma linked_LeAdvertising : keeps_linked LeAdvertising.
Proof. apply linked_leaves. leave. Qed.
Lemma linked_LeScanning : keeps_linked LeScanning.
Proof. apply linked_leaves. leave. Qed.
Lemma linked_Close : keeps_linked Close.
Proof. apply linked_leaves. leave. Qed.

(** The library is created anew by a reset, and no connection is left. *)
Lemma linked_Reset : keeps_linked Reset.
Proof.
  intros t c a c' out _. unfold Reset. erewrite run_bind by apply DisconnectAll_run.
  autorewrite with run. cbn [Connections.Reset]. erewrite run_bind by apply cancel_run.
  unfold modify, emit. cbn [mbind outcome_bind]. intros [= _ <- _].
  split; [apply empty_handler_wf|symmetry; apply dom_empty_L].
Qed.

(** *** The commands of the host *)

(** By cases on the tests of a command. *)
Ltac same_links :=
  lazymatch goal with |- _ (snd ?r) = _ => let h := head_of r in unfold h end;
  unfold SelectLegacyAdvertising, SelectExtendedAdvertising, set_scanner, check_phys;
  repeat (case_match; simplify_eq/=; try reflexivity).

Lemma leaves_timed (f : Z → LeController → reply) :
  (∀ t c, link_part (snd (f t c)) = link_part c) → leaves_links (timed f).
Proof. intros Hf. apply leaves_bind; [apply leaves_now|]. intros t. by apply leaves_pure. Qed.
Lemma leaves_fallible (f : Z → LeController → outcome reply) :
  (∀ t c status c', f t c = Ok (status, c') → link_part c' = link_part c) → leaves_links (fallible f).
Proof.
  intros Hf t c a c' out. unfold fallible. autorewrite with run. unfold id.
  destruct (f t c) as [[status c1]| | |] eqn:E; try discriminate. autorewrite with run.
  intros [= _ <- _]. by eapply Hf.
Qed.
Lemma leaves_set f : (∀ c, link_part (f c) = link_part c) → leaves_links (set f).
Proof. intros Hf. apply leaves_bind; [by apply leaves_modify|]. intros _. apply leaves_ret. Qed.
Lemma leaves_apcf command : leaves_links (apcf command).
Proof.
  unfold apcf, apcf_room. apply leaves_bind; [|intros []; apply leaves_ret]. intros t c a c' out.
  autorewrite with run. unfold id. pose proof (apcf_execute_frame command c) as [s E].
  destruct (apcf_execute command c) as [answer c1]. cbn in E. subst c1. by intros [= _ <- _].
Qed.
Lemma beside_advertising_links c c' : beside_advertising c c' → link_part c' = link_part c.
Proof. intros [_ [= _ _ Ec _ El]]. unfold link_part. by rewrite Ec, El. Qed.
Lemma initiator_only_links select c c' : initiator_only select c c' → link_part c' = link_part c.
Proof. intros (_ & _ & _ & Ec & _ & El). unfold link_part. by rewrite Ec, El. Qed.

Lemma execute_linked command : keeps_linked (execute command).
Proof.
  destruct command; cbn [execute];
    try solve [apply linked_leaves, leaves_pure; intros c; same_links].
  all: try solve [apply linked_leaves, leaves_timed; intros t c; same_links].
  all: try solve [apply linked_leaves, leaves_set; done].
  all: try solve [keep_links].
  - apply linked_bind; [apply linked_Reset|]. intros _. apply linked_leaves, leaves_ret.
  - apply linked_leaves, leaves_timed. intros t c. apply beside_advertising_links, LeSetAdvertisingEnable_beside.
  - apply linked_leaves, leaves_fallible. intros t c status c' E.
    by eapply beside_advertising_links, LeSetExtendedAdvertisingEnable_beside.
  - apply linked_leaves, leaves_fallible. intros _ c status c' E.
    destruct (LeSetExtendedScanParameters_parts _ _ _ _ _ _ _ E) as (_ & _ & _ & Ec & _ & El & _).
    unfold link_part. by rewrite Ec, El.
  - apply linked_leaves, leaves_pure. intros c. eapply initiator_only_links, LeCreateConnection_only.
  - apply linked_leaves, leaves_fallible. intros _ c status c' E.
    by eapply initiator_only_links, LeExtendedCreateConnection_only.
  - apply linked_leaves, leaves_apcf.
Qed.
End KnownLinks.
