(* ===== verification/Machine.v ===== *)
(** * The LE controller at work (le_controller.cc)

    One controller with its task queue and its clock: the commands of the host,
    the data and the packets received, and [Tick], as a transition system.  Its
    invariant, and that a tick always ends. *)

From S2P Require Import Prelude HciTypes Properties Address CsTypes Connections LeState LeLists LeAdvertiser LePhy.
From S2P Require Import LeScan LeConnect LeSubrate LeSounding LeSoundingLink LeApcf LeIso LeLink Tasks Controller KnownLinks.

(** What leaves the controller: [send_event_], [send_acl_], [send_iso_],
    [send_to_remote_]. *)
Inductive Emission :=
| EmitEvent (event : HciEvent)
| EmitAcl (handle packet_boundary_flag broadcast_flag : Z) (data : list Z)
| EmitIso (handle packet_boundary_flag sequence_number length : Z) (data : list Z)
| EmitPacket (packet : LinkLayerPacket) (tx_power : Z).

(** The controller, the number of times the clock was read, and what was emitted. *)
Record World := MkWorld {
  controller : LeController;
  readings : nat;
  emitted : list Emission;
}.
#[export] Instance World_rebuild : Rebuild World := λ w, MkWorld (controller w) (readings w) (emitted w).
Definition Machine : Type := World * TaskQueue TaskCallback.

Section Machine.
Context {env : Environment}.
(** The successive values of [steady_clock::now()].  A handler reads it once. *)
Context (clock : nat → Z).

Definition emission (e : Emission) (w : World) : World := w <| emitted ::= λ l, l ++ [e] |>.

(** The outputs of a handler that runs at [t]. *)
Definition perform_one (t : Z) (o : Output) (s : Machine) : outcome Machine :=
  let '(w, q) := s in
  match o with
  | SendEvent event => Ok (emission (EmitEvent event) w, q)
  | SendAcl handle pb bc data => Ok (emission (EmitAcl handle pb bc data) w, q)
  | SendIso handle pb sequence_number length data =>
      Ok (emission (EmitIso handle pb sequence_number length data) w, q)
  | CancelTask id => Ok (w, CancelScheduledTask id q)
  | LeState.ScheduleTask delay callback =>
      '(_, q) ← Tasks.ScheduleTask t delay callback q;
      Ok (w, q)
  end.
Fixpoint perform (t : Z) (out : list Output) (s : Machine) : outcome Machine :=
  match out with
  | [] => Ok s
  | o :: out => s ← perform_one t o s; perform t out s
  end.

(** A handler on the machine. *)
Definition run {A} (m : M A) (s : Machine) : outcome (A * Machine) :=
  let '(w, q) := s in
  let t := clock (readings w) in
  '(a, c, out) ← m t (controller w);
  s ← perform t out (w <| controller := c |> <| readings ::= S |>, q);
  Ok (a, s).

Definition run_callback (callback : TaskCallback) (s : Machine) : outcome Machine :=
  match callback with
  | SendToRemote packet tx_power =>
      let '(w, q) := s in
      Ok (emission (EmitPacket packet tx_power) (w <| readings ::= S |>), q)
  | SendEventLater event => snd <$> run (send_event_ event) s
  | CheckExpiringConnectionLater handle => snd <$> run (CheckExpiringConnection handle) s
  | HandleLeEnableEncryptionLater handle rand ediv ltk =>
      snd <$> run (HandleLeEnableEncryption handle rand ediv ltk) s
  end.

(** [RunPendingTasks] and [Tick]. *)
Definition run_pending_tasks (s : Machine) : outcome Machine :=
  let '(w, q) := s in
  let t := clock (readings w) in
  RunPendingTasks run_callback (length (due t (task_queue_ q)) + 1) t (w <| readings ::= S |>, q).
Definition Tick (s : Machine) : outcome Machine :=
  s ← run_pending_tasks s;
  '(_, s) ← run LeAdvertising s;
  '(_, s) ← run LeScanning s;
  Ok s.

(** What happens to a controller. *)
Inductive machine_step : Machine → Machine → Prop :=
| step_command command status s s' :
    command_ok command → run (execute command) s = Ok (status, s') → machine_step s s'
| step_acl handle pb bc data s s' :
    run (HandleAcl handle pb bc data) s = Ok ((), s') → machine_step s s'
| step_iso handle pb present payload s s' :
    run (HandleIso handle pb present payload) s = Ok ((), s') → machine_step s s'
| step_ll command s s' : run (ForwardToLl command) s = Ok ((), s') → machine_step s s'
| step_packet packet rssi s s' : run (IncomingPacket packet rssi) s = Ok ((), s') → machine_step s s'
| step_tick s s' : Tick s = Ok s' → machine_step s s'
| step_close s s' : run Close s = Ok ((), s') → machine_step s s'.

Definition new_machine (address : Address) (properties : ControllerProperties) : Machine :=
  (MkWorld (new_controller address properties) 0 [], empty_queue).

(** ** The invariant *)

(** The LE controller schedules no periodic task. *)
Definition one_shot (q : TaskQueue TaskCallback) : Prop :=
  Forall (λ t, periodic t = false) (task_queue_ q).
Record machine_wf (s : Machine) : Prop := {
  mwf_controller : controller_wf (controller (fst s));
  mwf_queue : queue_wf (snd s);
  mwf_one_shot : one_shot (snd s);
}.

(** What an output asks of the queue. *)
Definition is_schedule (o : Output) : bool :=
  match o with LeState.ScheduleTask _ _ => true | _ => false end.
Definition scheduled (out : list Output) : nat := length (List.filter is_schedule out).
Lemma scheduled_cons o out :
  Z.of_nat (scheduled (o :: out)) = Z.b2z (is_schedule o) + Z.of_nat (scheduled out).
Proof. unfold scheduled. destruct o; cbn; lia. Qed.
Lemma scheduled_app out out' : scheduled (out ++ out') = (scheduled out + scheduled out')%nat.
Proof. unfold scheduled. by rewrite List.filter_app, length_app. Qed.
Definition punctual (o : Output) : Prop :=
  match o with LeState.ScheduleTask delay _ => 0 ≤ delay | _ => True end.

(** Outputs performed at [t] only add tasks for [t] or later. *)
Definition not_before (t : Z) (q q' : TaskQueue TaskCallback) : Prop :=
  ∀ x, x ∈ task_queue_ q' → x ∈ task_queue_ q ∨ t ≤ time x.

Lemma perform_one_wf t o s s' :
  machine_wf s → perform_one t o s = Ok s' →
  machine_wf s' ∧ controller (fst s') = controller (fst s) ∧ readings (fst s') = readings (fst s) ∧
  zlength (task_queue_ (snd s')) ≤ zlength (task_queue_ (snd s)) + Z.b2z (is_schedule o) ∧
  (punctual o → not_before t (snd s) (snd s')).
Proof.
  destruct s as [w q]. intros [Hc Hq Hone]. destruct o; cbn.
  1-3: intros [= <-]; split; [by split|]; do 2 (split; [done|]); split; [cbn; lia|by left].
  - intros [= <-]. split; [split; [done|by apply CancelScheduledTask_wf|by apply Forall_cancel]|].
    do 2 (split; [done|]). cbn. pose proof (length_cancel task_id (task_queue_ q)). unfold zlength.
    split; [lia|]. intros _ x Hx. left. eapply sublist_subseteq; [apply cancel_subset|exact Hx].
  - intros ([id q'] & E & [= <-])%bind_Ok. destruct (ScheduleTask_wf _ _ _ _ _ _ Hq E) as [Hq' Et].
    split; [split; [done|done|unfold one_shot; cbn; rewrite Et; by apply Forall_insert_task]|].
    do 2 (split; [done|]). cbn. rewrite Et.
    pose proof (length_insert_task (one_shot_task t delay callback id) (task_queue_ q)).
    unfold zlength, not_before. cbn. rewrite Et. split; [lia|]. intros Hd x [->|Hx]%elem_of_insert_task; [right|by left].
    cbn. unfold nanoseconds_of_ms. lia.
Qed.

Lemma perform_wf t out s s' :
  machine_wf s → perform t out s = Ok s' →
  machine_wf s' ∧ controller (fst s') = controller (fst s) ∧ readings (fst s') = readings (fst s) ∧
  zlength (task_queue_ (snd s')) ≤ zlength (task_queue_ (snd s)) + Z.of_nat (scheduled out) ∧
  (Forall punctual out → not_before t (snd s) (snd s')).
Proof.
  revert s. induction out as [|o out IH]; intros s Hs; cbn [perform].
  { intros [= <-]. do 3 (split; [done|]). split; [unfold scheduled; cbn; lia|by left]. }
  intros (s1 & E1 & E2)%bind_Ok. destruct (perform_one_wf _ _ _ _ Hs E1) as (Hs1 & Ec & Er & Hl & Hb).
  destruct (IH s1 Hs1 E2) as (Hs' & Ec' & Er' & Hl' & Hb'). rewrite Ec', Er'. do 3 (split; [done|]).
  split.
  - rewrite scheduled_cons. lia.
  - intros [Ho Hout]%Forall_cons x Hx. destruct (Hb' Hout x Hx) as [Hx1|]; [|by right]. by apply (Hb Ho).
Qed.

Lemma perform_Ok t out s :
  machine_wf s → zlength (task_queue_ (snd s)) + Z.of_nat (scheduled out) + 1 ≤ 2 ^ 32 →
  ∃ s', perform t out s = Ok s'.
Proof.
  revert s. induction out as [|o out IH]; intros s Hs Hroom; cbn [perform]; [by eexists|].
  assert (∃ s1, perform_one t o s = Ok s1) as (s1 & E1).
  { destruct s as [w q], o; cbn; try by eexists.
    destruct (ScheduleTask_Ok t delay callback q) as (id & q' & ->); [apply Hs| |by eexists].
    rewrite scheduled_cons in Hroom. cbn in *. lia. }
  rewrite E1. destruct (perform_one_wf _ _ _ _ Hs E1) as (Hs1 & _ & _ & Hl & _). apply IH; [done|].
  rewrite scheduled_cons in Hroom. lia.
Qed.

Lemma run_wf {A} (m : M A) s a s' :
  keeps_wf m → machine_wf s → run m s = Ok (a, s') → machine_wf s'.
Proof.
  destruct s as [w q]. intros Hm [Hc Hq Hone]. unfold run.
  intros ([[a' c] out] & E & (s1 & Ep & [= <- <-])%bind_Ok)%bind_Ok.
  destruct (Hm _ _ _ _ _ Hc E) as [Hc' _]. by eapply perform_wf; [|exact Ep].
Qed.

(** *** How much a handler schedules *)

(** Run on a controller with [sets] advertising sets, [m] schedules at most [n]
    tasks, none for the past, and the sets stay as many. *)
Definition bounded {A} (sets n : nat) (m : M A) : Prop :=
  ∀ t c a c' out, size (extended_advertisers_ c) = sets → m t c = Ok (a, c', out) →
  size (extended_advertisers_ c') = sets ∧ (scheduled out ≤ n)%nat ∧ Forall punctual out.

Section Bounded.
Context {sets : nat}.
Lemma bounded_quiet {A} (m : M A) n :
  (∀ t c a c' out, m t c = Ok (a, c', out) → out = [] ∧ extended_advertisers_ c' = extended_advertisers_ c) →
  bounded sets n m.
Proof.
  intros Hm t c a c' out Hc E. destruct (Hm _ _ _ _ _ E) as [-> ->]. split; [done|].
  split; [unfold scheduled; cbn; lia|done].
Qed.
Lemma bounded_ret {A} (a : A) n : bounded sets n (mret a).
Proof. apply bounded_quiet. by intros t c ? ? ? [= <- <- <-]. Qed.
Lemma bounded_gets {A} (f : LeController → A) n : bounded sets n (gets f).
Proof. apply bounded_quiet. by intros t c ? ? ? [= <- <- <-]. Qed.
Lemma bounded_now n : bounded sets n now.
Proof. apply bounded_quiet. by intros t c ? ? ? [= <- <- <-]. Qed.
Lemma bounded_lift {A} (m : outcome A) n : bounded sets n (lift m).
Proof. apply bounded_quiet. intros t c ? ? ?. unfold lift. by destruct m; intros [= <- <- <-]. Qed.
Lemma bounded_modify f n :
  (∀ c, size (extended_advertisers_ (f c)) = size (extended_advertisers_ c)) → bounded sets n (modify f).
Proof.
  intros Hf t c ? ? ? Hc [= <- <- <-]. rewrite Hf. split; [done|]. split; [unfold scheduled; cbn; lia|done].
Qed.
Lemma bounded_event e n : bounded sets n (send_event_ e).
Proof.
  intros t c ? ? ? Hc [= <- <- <-]. split; [done|]. split; [unfold scheduled; cbn; lia|by repeat constructor].
Qed.
Lemma bounded_schedule d callback n : 0 ≤ d → bounded sets (S n) (output (LeState.ScheduleTask d callback)).
Proof.
  intros Hd t c ? ? ? Hc [= <- <- <-]. split; [done|].
  split; [unfold scheduled; cbn; lia|by repeat constructor].
Qed.
Lemma bounded_bind {A B} n n' (m : M A) (f : A → M B) :
  bounded sets n m → (∀ a, bounded sets n' (f a)) → bounded sets (n + n') (m ≫= f).
Proof.
  intros Hm Hf t c r c' out Hc (a & c1 & o1 & b & c2 & o2 & H1 & H2 & [= -> -> ->])%M_bind_Ok.
  destruct (Hm _ _ _ _ _ Hc H1) as (Hc1 & Hn1 & Hp1).
  destruct (Hf a _ _ _ _ _ Hc1 H2) as (Hc2 & Hn2 & Hp2). rewrite scheduled_app.
  split; [done|]. split; [lia|by apply Forall_app].
Qed.
Lemma bounded_when b n m : bounded sets n m → bounded sets n (when b m).
Proof. destruct b; [done|]. intros _. apply bounded_ret. Qed.
Lemma bounded_for_each {A} n (l : list A) body :
  (∀ x, bounded sets n (body x)) → bounded sets (length l * n) (for_each l body).
Proof.
  intros Hb. induction l as [|x l IH]; [apply bounded_ret|]. cbn [for_each length Nat.mul].
  by apply bounded_bind.
Qed.
Lemma bounded_update_advertiser handle f n : bounded sets n (update_advertiser handle f).
Proof.
  apply bounded_modify. intros c. cbn. destruct (extended_advertisers_ c !! handle) as [a|] eqn:E.
  - rewrite (alter_Some f _ _ a E). by rewrite map_size_insert, E.
  - by rewrite alter_None.
Qed.
End Bounded.

Ltac bounded_step :=
  lazymatch goal with
  | |- bounded _ _ (mret _) => apply bounded_ret
  | |- bounded _ _ (gets _) => apply bounded_gets
  | |- bounded _ _ now => apply bounded_now
  | |- bounded _ _ (lift _) => apply bounded_lift
  | |- bounded _ _ (send_event_ _) => apply bounded_event
  | |- bounded _ _ (output _) => apply bounded_schedule; lia
  | |- bounded _ _ (when _ _) => apply bounded_when
  | |- bounded _ _ (update_advertiser _ _) => apply bounded_update_advertiser
  | |- bounded _ _ (update_legacy _) => by apply bounded_modify
  | |- bounded _ _ (get_advertiser _) => unfold get_advertiser
  | |- bounded _ _ (SendLeLinkLayerPacket _ _) => unfold SendLeLinkLayerPacket
  | |- bounded _ _ (event_if_unmasked _ _) => unfold event_if_unmasked
  | |- bounded _ _ (match ?x with _ => _ end) => destruct x
  | |- bounded _ ?n (_ ≫= _) => apply (bounded_bind 0 n); [|intros ?]
  end.

Lemma bounded_legacy_timeout sets : bounded sets 0 legacy_advertising_timeout.
Proof. unfold legacy_advertising_timeout. repeat bounded_step. Qed.
Lemma bounded_legacy_event sets : bounded sets 1 legacy_advertising_event.
Proof. unfold legacy_advertising_event. repeat bounded_step. Qed.
Lemma bounded_tick sets handle : bounded sets 2 (extended_advertiser_tick handle).
Proof.
  unfold extended_advertiser_tick.
  apply (bounded_bind 0 2); [unfold extended_advertising_timeout; repeat bounded_step|intros _].
  apply (bounded_bind 0 2); [unfold extended_advertising_count; repeat bounded_step|intros _].
  apply (bounded_bind 1 1); [unfold extended_advertising_event; repeat bounded_step|intros _].
  unfold periodic_advertising_event. repeat bounded_step.
Qed.

Lemma LeAdvertising_bounded sets : bounded sets (1 + 2 * sets) LeAdvertising.
Proof.
  intros t c a c' out Hc. unfold LeAdvertising.
  intros E. revert t c a c' out Hc E. change (bounded sets (1 + 2 * sets) (
    legacy_advertising_timeout;; legacy_advertising_event;;
    handles ← gets (λ c, fst <$> iterate (extended_advertisers_ c));
    for_each handles extended_advertiser_tick)).
  apply (bounded_bind 0 _); [apply bounded_legacy_timeout|intros _].
  apply (bounded_bind 1 _); [apply bounded_legacy_event|intros _].
  intros t c a c' out Hc. autorewrite with run. intros E.
  assert (bounded sets (length (fst <$> iterate (extended_advertisers_ c)) * 2)
    (for_each (fst <$> iterate (extended_advertisers_ c)) extended_advertiser_tick)) as Hb
    by (apply bounded_for_each; intros ?; apply bounded_tick).
  assert (length (fst <$> iterate (extended_advertisers_ c)) = sets) as Hlen
    by (rewrite length_fmap, (Permutation_length (iterate_perm _)), length_map_to_list; done).
  rewrite Hlen, Nat.mul_comm in Hb. by eapply Hb.
Qed.

(** ** The invariant holds in every reachable state *)

Lemma run_callback_wf callback s s' :
  machine_wf s → run_callback callback s = Ok s' → machine_wf s'.
Proof.
  intros Hs. destruct callback as [packet tx|event|handle|handle rand ediv ltk]; cbn.
  - destruct s as [w q]. intros [= <-]. by destruct Hs.
  - destruct (run _ s) as [[a s1]| | |] eqn:E; intros [= <-]. eapply run_wf; [|exact Hs|exact E].
    apply keeps_output.
  - destruct (run _ s) as [[a s1]| | |] eqn:E; intros [= <-]. eapply run_wf; [|exact Hs|exact E].
    apply keeps_CheckExpiringConnection.
  - destruct (run _ s) as [[a s1]| | |] eqn:E; intros [= <-]. eapply run_wf; [|exact Hs|exact E].
    apply keeps_HandleLeEnableEncryption.
Qed.

Lemma queue_wf_tail task rest counter :
  queue_wf (MkTaskQueue (A := TaskCallback) (task :: rest) counter) → queue_wf (MkTaskQueue rest counter).
Proof.
  intros [Hs Hids Hc]. split; [by inversion Hs| |done]. cbn in *.
  inversion Hids as [|? ? Hn Hnd]; subst. inversion Hnd as [|? ? Hn' Hnd']; subst.
  constructor; [|done]. intros Hin. apply Hn. by right.
Qed.

Lemma machine_wf_tail w task rest counter :
  machine_wf (w, MkTaskQueue (task :: rest) counter) → machine_wf (w, MkTaskQueue rest counter).
Proof.
  intros [Hc Hq Hone]. split; [done|by eapply queue_wf_tail|]. cbn in *.
  by apply Forall_cons in Hone as [_ ?].
Qed.

Lemma RunPendingTasks_wf fuel t s s' :
  machine_wf s → RunPendingTasks run_callback fuel t s = Ok s' → machine_wf s'.
Proof.
  revert s. induction fuel as [|fuel IH]; intros [w q] Hs; [done|]. cbn [RunPendingTasks].
  destruct q as [tasks counter]. cbn [task_queue_]. destruct tasks as [|task rest]; [by intros [= <-]|].
  destruct (t <? time task); [by intros [= <-]|].
  intros ([w1 q1] & E & Erun)%bind_Ok.
  assert (machine_wf (w1, q1)) as H1.
  { eapply run_callback_wf; [|exact E]. by eapply (machine_wf_tail w task). }
  assert (periodic task = false) as Hp by (destruct Hs as [_ _ Hone]; by inversion Hone).
  rewrite Hp in Erun. by eapply IH.
Qed.

Lemma Tick_wf s s' : machine_wf s → Tick s = Ok s' → machine_wf s'.
Proof.
  intros Hs. unfold Tick. intros (s1 & E1 & E)%bind_Ok.
  apply bind_Ok in E as ([a2 s2] & E2 & E). apply bind_Ok in E as ([a3 s3] & E3 & [= <-]).
  eapply (run_wf LeScanning); [apply keeps_LeScanning| |exact E3].
  eapply (run_wf LeAdvertising); [apply keeps_LeAdvertising| |exact E2].
  destruct s as [w q]. unfold run_pending_tasks in E1.
  eapply RunPendingTasks_wf; [|exact E1]. by destruct Hs.
Qed.

Lemma keeps_Close : keeps_wf Close.
Proof.
  intros t c a c' out Hc. unfold Close. rewrite DisconnectAll_run. intros [= _ <- _].
  split; [done|by apply Forall_true].
Qed.

Lemma machine_step_wf s s' : machine_wf s → machine_step s s' → machine_wf s'.
Proof.
  intros Hs. destruct 1 as [command status s s' Hok E|handle pb bc data s s' E|handle pb present payload s s' E
    |ll_command s s' E|packet rssi s s' E|s s' E|s s' E].
  - eapply run_wf; [by apply execute_keeps|done|exact E].
  - eapply run_wf; [apply keeps_HandleAcl|done|exact E].
  - eapply run_wf; [apply keeps_HandleIso|done|exact E].
  - eapply run_wf; [apply keeps_ForwardToLl|done|exact E].
  - eapply run_wf; [apply keeps_IncomingPacket|done|exact E].
  - by eapply Tick_wf.
  - eapply run_wf; [apply keeps_Close|done|exact E].
Qed.

Lemma new_machine_wf address p : properties_wf p → machine_wf (new_machine address p).
Proof.
  intros Hp. split; [by apply new_controller_wf|apply empty_queue_wf|constructor].
Qed.

Lemma reachable_wf address p s :
  properties_wf p → rtc machine_step (new_machine address p) s → machine_wf s.
Proof.
  intros Hp Hreach. pose proof (new_machine_wf address p Hp) as H0. revert H0.
  induction Hreach as [s|s1 s2 s3 Hstep Hrest IH]; [done|]. intros H1. by eapply IH, machine_step_wf.
Qed.

(** *** The library knows the links *)

Lemma perform_controller t out s s' : perform t out s = Ok s' → controller (fst s') = controller (fst s).
Proof.
  revert s. induction out as [|o out IH]; intros [w q]; cbn [perform]; [by intros [= <-]|].
  intros ([w1 q1] & E1 & E2)%bind_Ok. rewrite (IH _ E2).
  destruct o; cbn in E1; try (injection E1 as <- _; done).
  by apply bind_Ok in E1 as ([id q'] & _ & [= <- _]).
Qed.
Lemma run_linked {A} (m : M A) s a s' :
  keeps_linked m → linked (controller (fst s)) → run m s = Ok (a, s') → linked (controller (fst s')).
Proof.
  destruct s as [w q]. intros Hm Hc. unfold run.
  intros ([[a' c] out] & E & (s1 & Ep & [= <- <-])%bind_Ok)%bind_Ok.
  rewrite (perform_controller _ _ _ _ Ep). cbn. by eapply Hm.
Qed.
Lemma run_callback_linked callback s s' :
  linked (controller (fst s)) → run_callback callback s = Ok s' → linked (controller (fst s')).
Proof.
  intros Hs. destruct callback as [packet tx|event|handle|handle rand ediv ltk]; cbn.
  { destruct s as [w q]. by intros [= <-]. }
  all: destruct (run _ s) as [[a s1]| | |] eqn:E; intros [= <-]; (eapply run_linked; [|exact Hs|exact E]).
  - apply linked_leaves, leaves_output.
  - apply linked_CheckExpiringConnection.
  - apply linked_HandleLeEnableEncryption.
Qed.
Lemma RunPendingTasks_linked fuel t s s' :
  linked (controller (fst s)) → RunPendingTasks run_callback fuel t s = Ok s' → linked (controller (fst s')).
Proof.
  revert s. induction fuel as [|fuel IH]; intros [w [tasks counter]] Hs; [done|]. cbn [RunPendingTasks task_queue_].
  destruct tasks as [|task rest]; [by intros [= <-]|].
  destruct (t <? time task); [by intros [= <-]|].
  intros ([w1 q1] & E & Erun)%bind_Ok. apply run_callback_linked in E; [|done].
  destruct (periodic task); (eapply IH; [|exact Erun]); exact E.
Qed.
Lemma machine_step_linked s s' :
  linked (controller (fst s)) → machine_step s s' → linked (controller (fst s')).
Proof.
  intros Hs. destruct 1 as [command status s s' Hok E|handle pb bc data s s' E|handle pb present payload s s' E
    |ll_command s s' E|packet rssi s s' E|s s' E|s s' E].
  6: { unfold Tick in E. apply bind_Ok in E as (s1 & E1 & E). apply bind_Ok in E as ([a2 s2] & E2 & E).
       apply bind_Ok in E as ([a3 s3] & E3 & [= <-]).
       eapply run_linked; [apply linked_LeScanning| |exact E3].
       eapply run_linked; [apply linked_LeAdvertising| |exact E2].
       destruct s as [w q]. eapply RunPendingTasks_linked; [|exact E1]. done. }
  all: eapply run_linked; [|exact Hs|exact E].
  - apply execute_linked.
  - apply linked_HandleAcl.
  - apply linked_HandleIso.
  - apply linked_ForwardToLl.
  - apply linked_IncomingPacket.
  - apply linked_Close.
Qed.
Lemma reachable_linked address p s :
  rtc machine_step (new_machine address p) s → linked (controller (fst s)).
Proof.
  intros Hreach.
  assert (linked (controller (fst (new_machine address p)))) as H0
    by (split; [apply empty_handler_wf|symmetry; apply dom_empty_L]).
  revert H0. induction Hreach as [s|s1 s2 s3 Hstep Hrest IH]; [done|]. intros H1. by eapply IH, machine_step_linked.
Qed.

(** What every reachable state satisfies. *)
Definition sound (s : Machine) : Prop := machine_wf s ∧ linked (controller (fst s)).

(** ** A tick ends *)

(** A handler returns, and schedules at most [n] tasks, none for the past. *)
Definition finishes {A} (n : nat) (m : M A) (t : Z) (c : LeController) : Prop :=
  ∃ a c' out, m t c = Ok (a, c', out) ∧ (scheduled out ≤ n)%nat ∧ Forall punctual out ∧
  size (extended_advertisers_ c') = size (extended_advertisers_ c).

Lemma run_Ok {A} (m : M A) n w q :
  sound (w, q) → keeps_wf m → keeps_linked m → finishes n m (clock (readings w)) (controller w) →
  zlength (task_queue_ q) + Z.of_nat n + 1 ≤ 2 ^ 32 →
  ∃ a w' q', run m (w, q) = Ok (a, (w', q')) ∧ sound (w', q') ∧
  not_before (clock (readings w)) q q' ∧ readings w' = S (readings w) ∧
  zlength (task_queue_ q') ≤ zlength (task_queue_ q) + Z.of_nat n ∧
  size (extended_advertisers_ (controller w')) = size (extended_advertisers_ (controller w)).
Proof.
  intros [Hs Hlinked] Hm Hk (a & c & out & E & Hn & Hp & Hsize) Hroom. unfold run. rewrite E. cbn [mbind outcome_bind].
  assert (machine_wf (w <| controller := c |> <| readings ::= S |>, q)) as H1.
  { destruct Hs as [Hc Hq Hone]. split; [by eapply Hm|done..]. }
  destruct (perform_Ok (clock (readings w)) out _ H1) as ([w' q'] & Ep); [cbn; lia|].
  rewrite Ep. destruct (perform_wf _ _ _ _ H1 Ep) as (Hs' & Ec & Er & Hl & Hb). cbn in *.
  exists a, w', q'. split; [done|]. split; [split; [done|cbn; rewrite Ec; by eapply Hk]|].
  split; [by apply Hb|]. split; [done|]. split; [lia|]. by rewrite Ec.
Qed.

Context {laws : LinkLayerLaws} (ticks : ∀ n, clock n < clock (S n)).

Lemma CheckExpiringConnection_finishes handle t c :
  linked c → finishes 2 (CheckExpiringConnection handle) t c.
Proof.
  intros Hc. destruct (connection_of handle c) as [k|] eqn:Hk.
  2: { unfold finishes, CheckExpiringConnection, HasLeAclHandle. autorewrite with run. unfold id.
    unfold connection_of in Hk. rewrite bool_decide_false by (rewrite Hk; by intros []).
    do 3 eexists. split; [reflexivity|]. split; [unfold scheduled; cbn; lia|by split]. }
  destruct (Z.ltb_spec (deadline k) t) as [Ht|Ht].
  { do 3 eexists. split; [apply CheckExpiringConnection_expired; [by apply linked_can_disconnect|done..]|].
    unfold disconnection_output. destruct (event_unmasked _ _);
      (split; [unfold scheduled; cbn; lia|]); (split; [by repeat constructor|done]). }
  unfold finishes, CheckExpiringConnection, HasLeAclHandle. autorewrite with run. unfold id.
  rewrite bool_decide_true by by exists k. cbn [negb]. erewrite run_le_connection by done.
  autorewrite with run. unfold LeAclConnection.HasExpired, LeAclConnection.IsNearExpiring.
  unfold deadline in Ht. destruct (Z.ltb_spec (LeAclConnection.TimeUntilExpired t k) 0) as [He|He].
  { unfold LeAclConnection.TimeUntilExpired in He. lia. }
  destruct (Z.ltb_spec (LeAclConnection.TimeUntilNearExpiring t k) 0) as [Hn|Hn].
  - autorewrite with run. do 3 eexists. split; [reflexivity|]. split; [unfold scheduled; cbn; lia|].
    split; [|done]. pose proof (to_milliseconds_spec _ He). repeat constructor; cbn; lia.
  - do 3 eexists. split; [reflexivity|]. split; [unfold scheduled; cbn; lia|].
    split; [|done]. pose proof (to_milliseconds_spec _ Hn). repeat constructor; cbn; lia.
Qed.

Lemma HandleLeEnableEncryption_finishes handle rand ediv ltk t c :
  finishes 2 (HandleLeEnableEncryption handle rand ediv ltk) t c.
Proof.
  unfold finishes, HandleLeEnableEncryption, HasLeAclHandle. autorewrite with run. unfold id.
  destruct (connection_of handle c) as [k|] eqn:Hk.
  - rewrite bool_decide_true by by exists k. cbn [negb]. erewrite run_le_connection by done.
    autorewrite with run. do 3 eexists. split; [reflexivity|]. split; [unfold scheduled; cbn; lia|].
    by split; [repeat constructor|].
  - unfold connection_of in Hk. rewrite bool_decide_false by (rewrite Hk; by intros []).
    do 3 eexists. split; [reflexivity|]. split; [unfold scheduled; cbn; lia|by split].
Qed.

(** A callback returns, whatever it is, and defers. *)
Lemma run_callback_Ok callback w q :
  sound (w, q) → zlength (task_queue_ q) + 3 ≤ 2 ^ 32 →
  ∃ w' q', run_callback callback (w, q) = Ok (w', q') ∧ sound (w', q') ∧
  not_before (clock (readings w)) q q' ∧ readings w' = S (readings w) ∧
  zlength (task_queue_ q') ≤ zlength (task_queue_ q) + 2 ∧
  size (extended_advertisers_ (controller w')) = size (extended_advertisers_ (controller w)).
Proof.
  intros Hs Hroom.
  assert (∀ (m : M ()), keeps_wf m → keeps_linked m → finishes 2 m (clock (readings w)) (controller w) →
    ∃ w' q', snd <$> run m (w, q) = Ok (w', q') ∧ sound (w', q') ∧
    not_before (clock (readings w)) q q' ∧ readings w' = S (readings w) ∧
    zlength (task_queue_ q') ≤ zlength (task_queue_ q) + 2 ∧
    size (extended_advertisers_ (controller w')) = size (extended_advertisers_ (controller w))) as Hrun.
  { intros m Hm Hk Hf. destruct (run_Ok m 2 w q Hs Hm Hk Hf) as (a & w' & q' & -> & ?); [lia|].
    by exists w', q'. }
  destruct callback as [packet tx|event|handle|handle rand ediv ltk]; cbn [run_callback].
  - do 2 eexists. split; [reflexivity|]. split; [by destruct Hs as [[] ?]|]. split; [by left|].
    split; [done|]. split; [lia|done].
  - apply Hrun; [apply keeps_output|apply linked_leaves, leaves_output|]. do 3 eexists. split; [reflexivity|].
    split; [unfold scheduled; cbn; lia|]. by split; [repeat constructor|].
  - apply Hrun; [apply keeps_CheckExpiringConnection|apply linked_CheckExpiringConnection|].
    apply CheckExpiringConnection_finishes, Hs.
  - apply Hrun; [apply keeps_HandleLeEnableEncryption|apply linked_HandleLeEnableEncryption|].
    apply HandleLeEnableEncryption_finishes.
Qed.
Lemma clock_after n m : (n ≤ m)%nat → clock n ≤ clock m.
Proof. induction 1 as [|m Hm IH]; [lia|]. specialize (ticks m). lia. Qed.

(** What the loop over the due tasks keeps: a task that runs is replaced by at
    most two, which are not due. *)
Definition ticking (t room : Z) (sets : nat) (w : World) (q : TaskQueue TaskCallback) : Prop :=
  sound (w, q) ∧ t < clock (readings w) ∧
  zlength (task_queue_ q) + zlength (due t (task_queue_ q)) ≤ room ∧
  size (extended_advertisers_ (controller w)) = sets.

Lemma ticking_turn t room sets w task rest counter :
  room + 3 ≤ 2 ^ 32 → ticking t room sets w (MkTaskQueue (task :: rest) counter) → time task ≤ t →
  ∃ w' q', run_callback (callback task) (w, MkTaskQueue rest counter) = Ok (w', q') ∧
    defers t (MkTaskQueue rest counter) q' ∧ ticking t room sets w' (put_back t task q').
Proof.
  intros Hroom ([Hs Hlinked] & Ht & Hlen & Hsize) Htime.
  assert (sound (w, MkTaskQueue rest counter)) as Hs1 by (split; [by eapply machine_wf_tail|done]).
  assert (periodic task = false) as Hp by (destruct Hs as [_ _ Hone]; by inversion Hone).
  pose proof (wf_sorted _ (mwf_queue _ Hs)) as Hsorted. cbn [snd task_queue_] in Hsorted, Hlen.
  rewrite (proj1 (due_cons t task rest Hsorted)) in Hlen by done.
  rewrite !zlength_cons in Hlen. pose proof (zlength_nonneg (due t rest)).
  destruct (run_callback_Ok (callback task) w (MkTaskQueue rest counter) Hs1) as
    (w' & q' & E & Hs' & Hb & Hr & Hl & Hz); [cbn; lia|]. cbn in Hl.
  assert (due t (task_queue_ q') ⊆ rest) as Hdue.
  { intros x [Hx Hin]%list_elem_of_filter. destruct (Hb x Hin) as [|Hlate]; [done|lia]. }
  pose proof (wf_sorted _ (mwf_queue _ (proj1 Hs'))) as Hsorted'. cbn in Hsorted'.
  exists w', q'. split; [done|]. split; [by split|]. unfold put_back. rewrite Hp.
  split; [done|]. split; [rewrite Hr; specialize (ticks (readings w)); lia|]. split; [|by rewrite Hz].
  assert (sublist (due t (task_queue_ q')) (due t rest)) as Hsub%sublist_length.
  { apply sorted_sublist; [by apply due_sorted|apply due_sorted; by inversion Hsorted|].
    intros x Hx. unfold due. apply list_elem_of_filter. split; [|by apply Hdue].
    by apply list_elem_of_filter in Hx as [? _]. }
  unfold zlength in *. lia.
Qed.

Lemma Tick_run w q :
  let t := clock (readings w) in
  let sets := size (extended_advertisers_ (controller w)) in
  sound (w, q) →
  zlength (task_queue_ q) + zlength (due t (task_queue_ q)) + 2 * Z.of_nat sets + 3 ≤ 2 ^ 32 →
  ∃ w1 q1 w' q', run_pending_tasks (w, q) = Ok (w1, q1) ∧ due t (task_queue_ q1) = [] ∧
  Tick (w, q) = Ok (w', q') ∧ sound (w', q').
Proof.
  intros t sets Hs Hroom.
  set (room := zlength (task_queue_ q) + zlength (due t (task_queue_ q))) in *.
  destruct (run_pending run_callback t (ticking t room sets)
    (λ w task rest counter H _ Ht, ticking_turn t room sets w task rest counter ltac:(lia) H Ht)
    (length (due t (task_queue_ q)) + 1) (w <| readings ::= S |>) [] q)
    as (w1 & ran & q1 & E1%logged_run & _ & _ & Hdue & (Hs1 & _ & Hroom1 & Hsize1) & _).
  - split; [by destruct Hs as [[] ?]|]. split; [apply ticks|]. split; [done|done].
  - apply (wf_sorted _ (mwf_queue _ (proj1 Hs))).
  - destruct Hs as [[_ _ Hone] _]. unfold one_shot in Hone. rewrite Forall_forall in *. intros x [_ Hx]%list_elem_of_filter.
    rewrite (Hone x Hx). done.
  - lia.
  - destruct (run_Ok LeAdvertising (1 + 2 * sets) w1 q1 Hs1 keeps_LeAdvertising linked_LeAdvertising) as
      ([] & w2 & q2 & E2 & Hs2 & _ & _ & Hl2 & _).
    { destruct (LeAdvertising_run (clock (readings w1)) (controller w1)) as (out & E & _); [apply (proj1 Hs1)|].
      destruct (LeAdvertising_bounded sets _ _ _ _ _ Hsize1 E) as (Hsz & Hn & Hp).
      do 3 eexists. split; [exact E|]. do 2 (split; [done|]). by rewrite Hsz. }
    { pose proof (zlength_nonneg (due t (task_queue_ q1))). lia. }
    destruct (run_Ok LeScanning 0 w2 q2 Hs2 keeps_LeScanning linked_LeScanning) as ([] & w3 & q3 & E3 & Hs3 & _).
    { do 3 eexists. split; [apply LeScanning_run|]. destruct (_ && _) eqn:Eb; cbn [event_output].
      - split; [unfold scheduled; cbn; lia|]. by split; [repeat constructor|].
      - split; [unfold scheduled; cbn; lia|]. by split. }
    { pose proof (zlength_nonneg (due t (task_queue_ q1))). lia. }
    exists w1, q1, w3, q3. unfold Tick, run_pending_tasks. fold t. rewrite E1. do 2 (split; [done|]).
    cbn [mbind outcome_bind]. rewrite E2. cbn [mbind outcome_bind]. by rewrite E3.
Qed.
End Machine.

(** The invariant of a controller at work. Whatever the host commands, the
    data and the packets received, the ticks and the end of the connections, in
    any order and with any clock, the lists keep to their sizes with distinct
    entries, the advertising sets are complete and fit their PDUs, the scanner
    and the initiator have valid parameters, the handles of the connections are
    in their ranges, the queue of tasks is in order with distinct identifiers,
    and no task is periodic. *)
Theorem machine_invariant {env : Environment} (clock : nat → Z) (address : Address)
    (p : ControllerProperties) (s : Machine) (Hp : properties_wf p)
    (Hreach : rtc (machine_step clock) (new_machine address p) s) :
  machine_wf s.
Proof. by eapply reachable_wf. Qed.

(** C10. A tick ends. In every state a controller can reach, if the clock advances
    between two readings and there is room for the identifiers of the tasks, then
    [Tick] returns: no callback aborts, the loop over the due tasks stops, with no
    task due left at the time it began, and so do [LeAdvertising] and [LeScanning].
    The link layer library removes the links it knows and refuses any other; that it
    is only asked to remove those it knows is part of what is shown: in every
    reachable state its links are those of the LE connections. *)
Theorem Tick_returns {env : Environment} {laws : LinkLayerLaws} (clock : nat → Z) (address : Address)
    (p : ControllerProperties) (w : World) (q : TaskQueue TaskCallback) (Hp : properties_wf p)
    (Hreach : rtc (machine_step clock) (new_machine address p) (w, q))
    (ticks : ∀ n, clock n < clock (S n)) :
  let t := clock (readings w) in
  known_links (ll_ (controller w)) = dom (le_acl_connections_ (connections_ (controller w))) ∧
  (zlength (task_queue_ q) + zlength (due t (task_queue_ q)) +
     2 * Z.of_nat (size (extended_advertisers_ (controller w))) + 3 ≤ 2 ^ 32 →
   ∃ w1 q1 w' q', run_pending_tasks clock (w, q) = Ok (w1, q1) ∧ due t (task_queue_ q1) = [] ∧
   Tick clock (w, q) = Ok (w', q')).
Proof.
  intros t. pose proof (reachable_wf clock address p _ Hp Hreach) as Hs.
  pose proof (reachable_linked clock address p _ Hreach) as Hlinked.
  split; [apply Hlinked|]. intros Hroom.
  destruct (Tick_run clock ticks w q (conj Hs Hlinked) Hroom) as (w1 & q1 & w' & q' & ? & ? & ? & _).
  by exists w1, q1, w', q'.
Qed.

(** ** Examples *)

#[local] Existing Instance example_environment.
#[local] Existing Instance example_link_laws.

(** A clock of one reading per millisecond; a controller that advertises, is
    connected to, and is told to encrypt. *)
Definition example_clock (n : nat) : Z := milliseconds (Z.of_nat n).
Definition example_start : Machine := new_machine (example_address 1) example_properties.
Definition connect_ind : LinkLayerPacket :=
  LeConnect (example_address 2) (example_address 1) AddressType.PUBLIC_DEVICE_ADDRESS
    AddressType.PUBLIC_DEVICE_ADDRESS 24 0 500.

Definition after {A} (m : M A) (s : Machine) : Machine :=
  match run example_clock m s with Ok (_, s') => s' | _ => s end.
Definition enabled_machine : Machine := after (execute (CmdSetAdvertisingEnable true)) example_start.
Definition connected_machine : Machine := after (IncomingPacket connect_ind 0) enabled_machine.
Definition encrypting_machine : Machine :=
  after (execute (CmdEnableEncryption 0x200 (replicate 8 1) 2 (replicate 16 3))) connected_machine.

Lemma encrypting_reachable : rtc (machine_step example_clock) example_start encrypting_machine.
Proof.
  eapply rtc_l; [apply (step_command _ (CmdSetAdvertisingEnable true) ErrorCode.SUCCESS _ enabled_machine);
    [done|vm_compute; reflexivity]|].
  eapply rtc_l; [apply (step_packet _ connect_ind 0 _ connected_machine); vm_compute; reflexivity|].
  eapply rtc_l; [apply (step_command _ (CmdEnableEncryption 0x200 (replicate 8 1) 2 (replicate 16 3))
    ErrorCode.SUCCESS _ encrypting_machine); [done|vm_compute; reflexivity]|].
  apply rtc_refl.
Qed.

Lemma machine_invariant_witness : machine_wf encrypting_machine.
Proof.
  apply (machine_invariant example_clock (example_address 1) example_properties);
    [vm_compute; repeat split; discriminate|exact encrypting_reachable].
Defined.

(** Its queue holds the keep alive timer, the packet that answers and the
    encryption request; the tick runs the last two and sends the packets. *)
Lemma Tick_returns_witness :
  let w := fst encrypting_machine in
  let q := snd encrypting_machine in
  length (task_queue_ q) = 3%nat ∧ length (due (example_clock (readings w)) (task_queue_ q)) = 2%nat ∧
  ∃ w' q', Tick example_clock encrypting_machine = Ok (w', q').
Proof.
  intros w q. split; [vm_compute; reflexivity|]. split; [vm_compute; reflexivity|].
  destruct (Tick_returns example_clock (example_address 1) example_properties
    (fst encrypting_machine) (snd encrypting_machine)) as [_ (w1 & q1 & w' & q' & _ & _ & E)].
  - vm_compute. repeat split; discriminate.
  - rewrite <-surjective_pairing. exact encrypting_reachable.
  - intros n. unfold example_clock, milliseconds. lia.
  - vm_compute. discriminate.
  - exists w', q'. rewrite <-surjective_pairing in E. exact E.
Defined.
