(* ===== verification/LeReception.v ===== *)
(** * Reception of advertising (le_controller.cc)

    Theorems about [LeReports]: reception returns, the active scan exchange and the
    start of a connection between two controllers, the cut of the reports, the filter
    of duplicates, and periodic synchronisation. *)

From S2P Require Import Prelude HciTypes Properties Address CsTypes Connections LeState LeLists LeAdvertiser LePhy.
From S2P Require Import LeScan LeConnect LeIso LeReports LeLink Tasks Controller Machine.

Section Steps.
Context {env : Environment}.

(** ** The steps of the handlers *)

(** The address a packet is attributed to, and what the resolution remembers. *)
Definition resolved (address : AddressWithType) (c : LeController) : AddressWithType :=
  default address (fst (ResolvePrivateAddress address c)).
Definition learnt (address : AddressWithType) (c : LeController) : LeController :=
  snd (ResolvePrivateAddress address c).

Lemma run_resolve_or_keep {B} a (f : AddressWithType → M B) t c :
  (resolve_or_keep a ≫= f) t c = f (resolved a c) t (learnt a c).
Proof. unfold resolve_or_keep. rewrite run_assoc, run_pure. by autorewrite with run. Qed.

Lemma learnt_frame a c : ∃ l, learnt a c = c <| le_resolving_list_ := l |>.
Proof. apply ResolvePrivateAddress_frame. Qed.

(** Whether an own address type may use the random address, and the address used. *)
Definition uses_random (own : OwnAddressType.t) : bool :=
  match own with
  | OwnAddressType.RANDOM_DEVICE_ADDRESS | OwnAddressType.RESOLVABLE_OR_RANDOM_ADDRESS => true
  | _ => false
  end.
Definition address_set (own : OwnAddressType.t) (c : LeController) : Prop :=
  uses_random own = true → random_address_ c ≠ kEmpty.
Definition chosen_address (own : OwnAddressType.t) (resolvable : option AddressWithType) (c : LeController)
  : AddressWithType :=
  let public_address := MkAddressWithType (address_ c) AddressType.PUBLIC_DEVICE_ADDRESS in
  let random_address := MkAddressWithType (random_address_ c) AddressType.RANDOM_DEVICE_ADDRESS in
  match own with
  | OwnAddressType.PUBLIC_DEVICE_ADDRESS => public_address
  | OwnAddressType.RANDOM_DEVICE_ADDRESS => random_address
  | OwnAddressType.RESOLVABLE_OR_PUBLIC_ADDRESS => default public_address resolvable
  | OwnAddressType.RESOLVABLE_OR_RANDOM_ADDRESS => default random_address resolvable
  end.

Lemma choose_address_run own r t c :
  address_set own c → choose_address own r t c = Ok (chosen_address own r c, c, []).
Proof.
  unfold address_set, choose_address. intros Hset. autorewrite with run. unfold id.
  destruct own; try done; by rewrite run_assert by (rewrite bool_decide_false; auto).
Qed.

Lemma choose_address_aborts own r t c :
  uses_random own = true → random_address_ c = kEmpty → choose_address own r t c = Fatal.
Proof.
  intros Hr He. unfold choose_address. autorewrite with run. unfold id. rewrite He.
  by destruct own.
Qed.

Lemma scanner_address_set c :
  random_address_missing c = false → address_set (Scanner.own_address_type (scanner_ c)) c.
Proof.
  unfold random_address_missing, address_set, uses_random. intros Hm Hu He.
  rewrite He in Hm. by destruct (Scanner.own_address_type (scanner_ c)).
Qed.

(** The packet is reported. *)
Definition is_fresh (bytes : list Z) (s : Scanner) : bool :=
  bool_decide (Scanner.filter_duplicates s = FilterDuplicates.DISABLED) ||
  negb (Scanner.IsPacketInHistory bytes s).
Definition remember (bytes : list Z) (s : Scanner) : Scanner :=
  if bool_decide (Scanner.filter_duplicates s = FilterDuplicates.DISABLED) then s
  else if Scanner.IsPacketInHistory bytes s then s
  else Scanner.AddPacketToHistory bytes s.

Lemma check_duplicate_run bytes t c :
  check_duplicate bytes t c = Ok (is_fresh bytes (scanner_ c), set_scanner (remember bytes) c, []).
Proof.
  unfold check_duplicate, is_fresh, remember, set_scanner. autorewrite with run. cbn [modify_field].
  destruct (bool_decide _); [by destruct c|]. destruct (Scanner.IsPacketInHistory _ _); [by destruct c|done].
Qed.

Lemma run_check_duplicate {B} bytes (f : bool → M B) t c :
  (check_duplicate bytes ≫= f) t c = f (is_fresh bytes (scanner_ c)) t (set_scanner (remember bytes) c).
Proof. erewrite run_bind by apply check_duplicate_run. apply emit_nil. Qed.

(** *** Scan requests *)

Definition scan_request (connectable extended : bool) (primary secondary : LlPhyType.t) (t : Z)
  : Scanner.ScanRequest :=
  Scanner.MkScanRequest connectable extended primary secondary (t + milliseconds kScanRequestTimeout).
Definition add_request (a : AddressWithType) (r : Scanner.ScanRequest) (s : Scanner) : Scanner :=
  s <| Scanner.pending_scan_requests ::= cons (a, r) |>.
Definition scan_packet (own a : AddressWithType) : LinkLayerPacket :=
  LeScan (GetAddress own) (GetAddress a) (GetAddressType own) (GetAddressType a).
Definition sends (packet : LinkLayerPacket) : list Output := [LeState.ScheduleTask 0 (SendToRemote packet 0)].
Definition own_address_of (own : OwnAddressType.t) (peer : AddressWithType) (c : LeController)
  : AddressWithType :=
  chosen_address own (fst (GenerateResolvablePrivateAddress peer Local c)) c.

(** *** What resolving and generating addresses leaves as it is *)

(** The part of a resolving list entry that identifies a peer. *)
Definition identity_of (e : ResolvingListEntry) : list Z * Address * PeerAddressType.t :=
  (peer_irk e, peer_identity_address e, peer_identity_address_type e).
(** [c'] is [c] with the scanner [s]: they may also differ in the resolvable
    addresses in use and in the random numbers drawn. *)
Definition scanner_now (s : Scanner) (c c' : LeController) : Prop :=
  ∃ l n, c' = ((c <| le_resolving_list_ := l |>) <| rand_calls_ := n |>) <| scanner_ := s |> ∧
  identity_of <$> l = identity_of <$> le_resolving_list_ c.

Lemma scanner_now_refl c : scanner_now (scanner_ c) c c.
Proof. exists (le_resolving_list_ c), (rand_calls_ c). by destruct c. Qed.
Lemma scanner_now_trans s s' c c' c'' :
  scanner_now s c c' → scanner_now s' c' c'' → scanner_now s' c c''.
Proof. intros (l & n & -> & Hl) (l' & n' & -> & Hl'). exists l', n'. split; [done|]. by rewrite Hl'. Qed.
Lemma scanner_now_set f s c c' : scanner_now s c c' → scanner_now (f s) c (set_scanner f c').
Proof. intros (l & n & -> & Hl). by exists l, n. Qed.

(** What only depends on other fields. *)
Section Now.
Context {s : Scanner} {c c' : LeController} (H : scanner_now s c c').
Lemma now_scanner : scanner_ c' = s.
Proof using H. by destruct H as (? & ? & -> & _). Qed.
Lemma now_unmasked e : le_event_unmasked e c' = le_event_unmasked e c.
Proof using H. by destruct H as (? & ? & -> & _). Qed.
Lemma now_legacy : legacy_advertising_in_use_ c' = legacy_advertising_in_use_ c.
Proof using H. by destruct H as (? & ? & -> & _). Qed.
Lemma now_extended : extended_advertising_in_use_ c' = extended_advertising_in_use_ c.
Proof using H. by destruct H as (? & ? & -> & _). Qed.
Lemma now_listed a : LeFilterAcceptListContainsAddress a c' = LeFilterAcceptListContainsAddress a c.
Proof using H. by destruct H as (? & ? & -> & _). Qed.
Lemma now_address_set own : address_set own c' ↔ address_set own c.
Proof using H. by destruct H as (? & ? & -> & _). Qed.
Lemma now_initiator : initiator_ c' = initiator_ c.
Proof using H. by destruct H as (? & ? & -> & _). Qed.
Lemma now_advertiser : legacy_advertiser_ c' = legacy_advertiser_ c.
Proof using H. by destruct H as (? & ? & -> & _). Qed.
Lemma now_advertisers : extended_advertisers_ c' = extended_advertisers_ c.
Proof using H. by destruct H as (? & ? & -> & _). Qed.
End Now.

Lemma identities_update_first f g l :
  (∀ e, identity_of (g e) = identity_of e) → identity_of <$> update_first f g l = identity_of <$> l.
Proof.
  intros Hg. induction l as [|e l IH]; [done|]. cbn. destruct (f e); cbn; [by rewrite Hg|by rewrite IH].
Qed.

Lemma now_update_list s c c' f g :
  (∀ e, identity_of (g e) = identity_of e) → scanner_now s c c' →
  scanner_now s c (c' <| le_resolving_list_ ::= update_first f g |>).
Proof.
  intros Hg (l & n & -> & Hl). exists (update_first f g l), n. split; [done|].
  by rewrite identities_update_first.
Qed.
Lemma now_learnt a c : scanner_now (scanner_ c) c (learnt a c).
Proof.
  unfold learnt, ResolvePrivateAddress. pose proof (scanner_now_refl c). repeat case_match; try done.
  by apply now_update_list.
Qed.
Lemma now_generated a irk c : scanner_now (scanner_ c) c (snd (GenerateResolvablePrivateAddress a irk c)).
Proof.
  unfold GenerateResolvablePrivateAddress. destruct (find_first _ _); [|apply scanner_now_refl].
  assert (∀ k, scanner_now (scanner_ c) c (snd (draw_rpa k c))) as Hn.
  { intros k. exists (le_resolving_list_ c), (rand_calls_ (snd (draw_rpa k c))). by destruct c. }
  destruct (draw_rpa _ c) as [x c1] eqn:E. apply (f_equal snd) in E. change (snd (x, c1)) with c1 in E. subst c1.
  destruct irk; cbn [snd]; [|apply now_update_list; [done|]]; eapply Hn.
Qed.

Lemma find_identity a l l' :
  identity_of <$> l = identity_of <$> l' →
  identity_of <$> find_first (λ e, IsRpaThatMatchesIrk a (peer_irk e)) l =
  identity_of <$> find_first (λ e, IsRpaThatMatchesIrk a (peer_irk e)) l'.
Proof.
  revert l'. induction l as [|e l IH]; intros [|e' l']; cbn; try done. intros [= H1 H2 H3 H].
  rewrite H1. destruct (IsRpaThatMatchesIrk _ _); [|by apply IH]. cbn. unfold identity_of. congruence.
Qed.

Lemma now_resolved {s c c'} a : scanner_now s c c' → resolved a c' = resolved a c.
Proof.
  intros (l & n & -> & Hl%(find_identity a)). unfold resolved, ResolvePrivateAddress.
  destruct (negb _); [done|]. cbn. destruct (le_resolving_list_enabled_ c); [|done]. cbn.
  destruct (find_first _ l), (find_first _ (le_resolving_list_ c)); try done. injection Hl as _ H1 H2.
  cbn. congruence.
Qed.

Lemma send_scan_request_run a r connectable extended primary secondary t c :
  address_set (Scanner.own_address_type (scanner_ c)) c →
  send_scan_request a r connectable extended primary secondary t c =
    Ok ((), set_scanner (add_request a (scan_request connectable extended primary secondary t))
              (snd (GenerateResolvablePrivateAddress r Local c)),
        sends (scan_packet (own_address_of (Scanner.own_address_type (scanner_ c)) r c) a)).
Proof.
  intros Hset. unfold send_scan_request, own_address_of. rewrite run_pure.
  pose proof (now_generated r Local c) as Hg.
  destruct (GenerateResolvablePrivateAddress r Local c) as [o c1]. cbn [fst snd] in *.
  autorewrite with run. rewrite (now_scanner Hg).
  erewrite run_bind by (apply choose_address_run; by apply (now_address_set Hg)).
  autorewrite with run. destruct Hg as (l & n & -> & _). done.
Qed.

(** *** The scanner and a scannable packet *)

(** The scanner reports the legacy packet [type] from [a], and asks [a] for more. *)
Definition scans (a : AddressWithType) (bytes : list Z) (c : LeController) : Prop :=
  Scanner.scan_enable (scanner_ c) = true ∧ random_address_missing c = false ∧
  active_scanning (scanner_ c) = true ∧ scanner_accepts (resolved a c) c = true ∧
  is_pending a (scanner_ c) = false ∧ is_fresh bytes (scanner_ c) = true.

Definition legacy_report (type : LegacyAdvertisingType.t) (a target : AddressWithType) (data : list Z) (rssi : Z)
    (c : LeController) : list Output :=
  event_output (le_event_unmasked SubeventCode.LE_ADVERTISING_REPORT c && legacy_advertising_in_use_ c)
    (LeAdvertisingReport (legacy_response type (resolved a c) data rssi)) ++
  event_output (le_event_unmasked SubeventCode.LE_EXTENDED_ADVERTISING_REPORT c && extended_advertising_in_use_ c)
    (LeExtendedAdvertisingReport (legacy_extended_response type (resolved a c) target data rssi)).

Lemma is_scannable_undirected type : is_scannable type = true → is_directed type = false.
Proof. by destruct type. Qed.

Lemma remember_settings bytes s :
  remember bytes s = s <| Scanner.history := Scanner.history (remember bytes s) |>.
Proof.
  unfold remember. destruct (bool_decide _); [by destruct s|].
  destruct (Scanner.IsPacketInHistory _ _); [by destruct s|done].
Qed.

Lemma ScanIncomingLeLegacyAdvertisingPdu_scans a target type data bytes rssi t c :
  is_scannable type = true → scans a bytes c →
  ∃ c' own, ScanIncomingLeLegacyAdvertisingPdu a target type data bytes rssi t c =
    Ok ((), c', legacy_report type a target data rssi c ++ sends (scan_packet own a)) ∧
  scanner_now (add_request a (scan_request (is_connectable type) false LlPhyType.LE_1M LlPhyType.NO_PACKETS t)
                 (remember bytes (scanner_ c))) c c'.
Proof.
  intros Htype (He & Hm & Hact & Hacc & Hp & Hf). unfold ScanIncomingLeLegacyAdvertisingPdu.
  autorewrite with run. unfold id, Scanner.IsEnabled. rewrite He. cbn [negb].
  rewrite run_resolve_or_keep. autorewrite with run. unfold legacy_report.
  pose proof (now_learnt a c) as Hl. set (c1 := learnt a c) in *. set (r := resolved a c) in *.
  rewrite (is_scannable_undirected type Htype). cbn [andb].
  assert (scanner_accepts r c1 = true) as ->.
  { unfold scanner_accepts in *. by rewrite (now_scanner Hl), (now_listed Hl). }
  cbn [negb]. rewrite run_check_duplicate, (now_scanner Hl), Hf. 
  pose proof (scanner_now_set (remember bytes) _ _ _ Hl) as Hr. set (c2 := set_scanner _ c1) in *.
  rewrite !run_event_when, !andb_false_r, !andb_true_r, !(now_unmasked Hr), (now_legacy Hl), (now_extended Hl).
  unfold request_scan. autorewrite with run. rewrite Htype, (now_scanner Hr).
  assert (active_scanning (remember bytes (scanner_ c)) = true) as ->
    by (rewrite remember_settings; exact Hact).
  assert (is_pending a (remember bytes (scanner_ c)) = false) as ->
    by (rewrite remember_settings; exact Hp).
  cbn [andb negb when]. rewrite send_scan_request_run.
  2: { rewrite (now_scanner Hr). apply (now_address_set Hr). rewrite remember_settings.
    by apply scanner_address_set. }
  cbn [emit mbind outcome_bind event_output]. do 2 eexists. split; [by rewrite <-app_assoc|].
  apply scanner_now_set. eapply scanner_now_trans; [exact Hr|].
  pose proof (now_generated r Local c2) as Hg. by rewrite (now_scanner Hr) in Hg.
Qed.

(** *** Scan responses *)

Lemma for_each_events {A} (f : A → HciEvent) body (l : list A) t c :
  (∀ x, body x t c = Ok ((), c, [SendEvent (f x)])) →
  for_each l body t c = Ok ((), c, SendEvent <$> (f <$> l)).
Proof. intros Hb. induction l as [|x l IH]; [done|]. by erewrite (for_each_cons x l) by done. Qed.

Definition extended_reports (response : LeExtendedAdvertisingResponse) (data : list Z) : list HciEvent :=
  (λ '(status, fragment), LeExtendedAdvertisingReport
     (response <| ext_data_status := status |> <| ext_advertising_data := fragment |>))
  <$> fragments max_extended_fragment data.

Lemma send_extended_reports_run response data t c :
  send_extended_reports response data t c = Ok ((), c, SendEvent <$> extended_reports response data).
Proof.
  unfold send_extended_reports, extended_reports. apply for_each_events. by intros [].
Qed.

(** What the host is told of the response to [r]. *)
Definition response_events (r : Scanner.ScanRequest) (a : AddressWithType) (data : list Z) (rssi : Z)
    (c : LeController) : list HciEvent :=
  (if legacy_advertising_in_use_ c && le_event_unmasked SubeventCode.LE_ADVERTISING_REPORT c
   then [LeAdvertisingReport (MkLeAdvertisingResponse AdvertisingEventType.SCAN_RESPONSE
           (GetAddressType (resolved a c)) (GetAddress (resolved a c)) data rssi)]
   else []) ++
  (if extended_advertising_in_use_ c && le_event_unmasked SubeventCode.LE_EXTENDED_ADVERTISING_REPORT c
   then extended_reports (scan_response_extended r (resolved a c) rssi) data
   else []).

Lemma IncomingLeScanResponsePacket_ignored a data bytes rssi t c :
  find_request a (scanner_ c) = None → IncomingLeScanResponsePacket a data bytes rssi t c = Ok ((), c, []).
Proof.
  intros Hnone. unfold IncomingLeScanResponsePacket. autorewrite with run. unfold id. rewrite Hnone.
  by destruct (negb _).
Qed.

Lemma IncomingLeScanResponsePacket_run a data bytes rssi t c r :
  Scanner.scan_enable (scanner_ c) = true → find_request a (scanner_ c) = Some r →
  ∃ c', IncomingLeScanResponsePacket a data bytes rssi t c =
    Ok ((), c', SendEvent <$> (if is_fresh bytes (scanner_ c) then response_events r a data rssi c else [])) ∧
  scanner_now (remember bytes (erase_request a (scanner_ c))) c c'.
Proof.
  intros He Hr. unfold IncomingLeScanResponsePacket. autorewrite with run. unfold id, Scanner.IsEnabled.
  rewrite He, Hr. cbn [negb]. rewrite run_resolve_or_keep, run_modify, run_check_duplicate.
  pose proof (now_learnt a c) as Hl. pose proof (scanner_now_set (erase_request a) _ _ _ Hl) as H2.
  pose proof (scanner_now_set (remember bytes) _ _ _ H2) as H3. rewrite (now_scanner H2).
  change (is_fresh bytes (erase_request a (scanner_ c))) with (is_fresh bytes (scanner_ c)).
  autorewrite with run. rewrite IsLeEventUnmasked_Ok. autorewrite with run.
  rewrite !(now_unmasked H3), (now_legacy H3), (now_extended H3). unfold response_events.
  exists (set_scanner (remember bytes) (set_scanner (erase_request a) (learnt a c))). split; [|exact H3].
  destruct (is_fresh bytes (scanner_ c)), (legacy_advertising_in_use_ c), (extended_advertising_in_use_ c),
    (le_event_unmasked SubeventCode.LE_ADVERTISING_REPORT c),
    (le_event_unmasked SubeventCode.LE_EXTENDED_ADVERTISING_REPORT c); try done;
    cbn [andb when]; rewrite send_extended_reports_run; by rewrite ?fmap_app.
Qed.

Lemma host_events_app out out' : host_events (out ++ out') = host_events out ++ host_events out'.
Proof. apply omap_app. Qed.
Lemma sent_packets_app out out' : sent_packets (out ++ out') = sent_packets out ++ sent_packets out'.
Proof. apply omap_app. Qed.

(** *** The advertiser *)

Definition legacy_pdu (a : LegacyAdvertiser) : LinkLayerPacket :=
  LeLegacyAdvertisingPdu
    (GetAddress (LegacyAdvertiser.advertising_address a)) (GetAddress (LegacyAdvertiser.target_address a))
    (GetAddressType (LegacyAdvertiser.advertising_address a)) (GetAddressType (LegacyAdvertiser.target_address a))
    (legacy_pdu_type (LegacyAdvertiser.advertising_type a))
    (if LegacyAdvertiser.IsDirected a then [] else LegacyAdvertiser.advertising_data a).
Definition advertised (t : Z) (a : LegacyAdvertiser) : LegacyAdvertiser :=
  a <| LegacyAdvertiser.next_event := t + slots (LegacyAdvertiser.advertising_interval a) |>.
Definition advertising_due (t : Z) (a : LegacyAdvertiser) : Prop :=
  LegacyAdvertiser.advertising_enable a = true ∧ LegacyAdvertiser.next_event a ≤ t.

Lemma legacy_advertising_event_due t c :
  advertising_due t (legacy_advertiser_ c) →
  legacy_advertising_event t c =
    Ok ((), c <| legacy_advertiser_ ::= advertised t |>,
        [LeState.ScheduleTask 0 (SendToRemote (legacy_pdu (legacy_advertiser_ c))
           (i8 (le_advertising_physical_channel_tx_power (properties_ c))))]).
Proof.
  intros [He Ht]. unfold legacy_advertising_event. autorewrite with run. unfold LegacyAdvertiser.IsEnabled.
  rewrite He, (proj2 (Z.leb_le _ _) Ht). cbn [andb when]. unfold update_legacy, SendLeLinkLayerPacket.
  by autorewrite with run.
Qed.

(** The legacy advertiser answers scan requests, from whoever they come. *)
Definition answers_scans (a : LegacyAdvertiser) : Prop :=
  LegacyAdvertiser.advertising_enable a = true ∧ LegacyAdvertiser.IsScannable a = true ∧
  listed_to_scan (LegacyAdvertiser.advertising_filter_policy a) = false.
Definition scan_answer (a : LegacyAdvertiser) (own : AddressWithType) : LinkLayerPacket :=
  LeScanResponse (GetAddress (LegacyAdvertiser.advertising_address a)) (GetAddress own)
    (GetAddressType (LegacyAdvertiser.advertising_address a)) (LegacyAdvertiser.scan_response_data a).

Lemma IncomingLeScanPacket_answers own t c :
  answers_scans (legacy_advertiser_ c) → extended_advertisers_ c = ∅ →
  ∃ c' tx, IncomingLeScanPacket own (LegacyAdvertiser.advertising_address (legacy_advertiser_ c)) t c =
    Ok ((), c', [LeState.ScheduleTask 0 (SendToRemote (scan_answer (legacy_advertiser_ c) own) tx)]) ∧
  legacy_advertiser_ c' = legacy_advertiser_ c.
Proof.
  intros (He & Hs & Hl) Hx. unfold IncomingLeScanPacket, ProcessIncomingLegacyScanRequest.
  rewrite run_pure. pose proof (now_learnt own c) as Hc1. unfold learnt in Hc1. set (c1 := snd _) in *.
  autorewrite with run. unfold id, LegacyAdvertiser.IsEnabled.
  rewrite (now_advertiser Hc1), He, Hs, Hl, bool_decide_false by by intros []. cbn [negb andb].
  autorewrite with run. rewrite (now_advertisers Hc1), Hx.
  replace (iterate (∅ : gmap Z ExtendedAdvertiser)) with (@nil (Z * ExtendedAdvertiser)).
  2: { symmetry. apply Permutation_nil. by rewrite (iterate_perm _), map_to_list_empty. }
  do 2 eexists. split; [done|apply (now_advertiser Hc1)].
Qed.

Lemma find_request_add a r s : find_request a (add_request a r s) = Some r.
Proof. unfold find_request, add_request. cbn. by rewrite bool_decide_true by done. Qed.
Lemma find_request_erased a s : find_request a (erase_request a s) = None.
Proof.
  unfold find_request, erase_request. destruct (find_first _ _) as [[a' r]|] eqn:E; [|done].
  apply find_first_Some in E as [Hin Ha]. cbn in Hin. apply list_elem_of_filter in Hin as [Hne _].
  by apply bool_decide_eq_true in Ha.
Qed.
Lemma find_request_remember a bytes s : find_request a (remember bytes s) = find_request a s.
Proof. by rewrite remember_settings. Qed.

Lemma ConnectIncomingLeLegacyAdvertisingPdu_idle a target type t c :
  Initiator.connect_enable (initiator_ c) = false →
  ConnectIncomingLeLegacyAdvertisingPdu a target type t c = Ok ((), c, []).
Proof.
  intros He. unfold ConnectIncomingLeLegacyAdvertisingPdu. autorewrite with run.
  unfold Initiator.IsEnabled. by rewrite He.
Qed.

Lemma address_eta (a : AddressWithType) : MkAddressWithType (GetAddress a) (GetAddressType a) = a.
Proof. by destruct a. Qed.

Lemma IncomingPacket_legacy a rssi :
  IncomingPacket (legacy_pdu a) rssi =
    IncomingLeLegacyAdvertisingPdu (LegacyAdvertiser.advertising_address a) (LegacyAdvertiser.target_address a)
      (legacy_pdu_type (LegacyAdvertiser.advertising_type a))
      (if LegacyAdvertiser.IsDirected a then [] else LegacyAdvertiser.advertising_data a)
      (packet_bytes (legacy_pdu a)) (u8 rssi).
Proof. unfold legacy_pdu at 1. cbn [IncomingPacket]. by rewrite !address_eta. Qed.
Lemma IncomingPacket_scan own a rssi : IncomingPacket (scan_packet own a) rssi = IncomingLeScanPacket own a.
Proof. unfold scan_packet. cbn [IncomingPacket]. by rewrite !address_eta. Qed.
Lemma IncomingPacket_scan_answer a own rssi :
  IncomingPacket (scan_answer a own) rssi =
    IncomingLeScanResponsePacket (LegacyAdvertiser.advertising_address a) (LegacyAdvertiser.scan_response_data a)
      (packet_bytes (scan_answer a own)) (u8 rssi).
Proof. unfold scan_answer at 1. cbn [IncomingPacket]. by rewrite !address_eta. Qed.

(** C12. The exchange of an active scan. A legacy advertiser whose event is due sends
    its advertising packet. A scanner that accepts it, scans actively and has no
    request to this advertiser pending reports it and sends one scan request.
    The advertiser, if it is scannable and answers everyone, answers that request
    with its scan response data in one packet, and goes on advertising as it was.
    The scanner reports the response (unless it filters duplicates and has seen it) as a
    scan response of the same device with that data, in the legacy form, in the
    extended form, or both, as the host uses and unmasked them. The request is
    then gone: the same response again is ignored. *)
Theorem active_scan (t ts ta tr t' rssi : Z) (adv s : LeController)
    (Hdue : advertising_due t (legacy_advertiser_ adv)) (Hanswers : answers_scans (legacy_advertiser_ adv))
    (Hno : extended_advertisers_ adv = ∅)
    (Hscans : scans (LegacyAdvertiser.advertising_address (legacy_advertiser_ adv))
                (packet_bytes (legacy_pdu (legacy_advertiser_ adv))) s)
    (Hidle : Initiator.connect_enable (initiator_ s) = false) :
  let a := legacy_advertiser_ adv in
  let type := legacy_pdu_type (LegacyAdvertiser.advertising_type a) in
  ∃ adv1 out1, legacy_advertising_event t adv = Ok ((), adv1, out1) ∧ sent_packets out1 = [legacy_pdu a] ∧
  ∃ s1 out2 request, IncomingPacket (legacy_pdu a) rssi ts s = Ok ((), s1, out2) ∧
    host_events out2 = host_events (legacy_report type (LegacyAdvertiser.advertising_address a)
      (LegacyAdvertiser.target_address a) (LegacyAdvertiser.advertising_data a) (u8 rssi) s) ∧
    sent_packets out2 = [request] ∧
  ∃ adv2 out3 response, IncomingPacket request rssi ta adv1 = Ok ((), adv2, out3) ∧
    sent_packets out3 = [response] ∧ host_events out3 = [] ∧
    legacy_advertiser_ adv2 = advertised t a ∧
  ∃ s2 out4, IncomingPacket response rssi tr s1 = Ok ((), s2, out4) ∧ sent_packets out4 = [] ∧
    host_events out4 = (if is_fresh (packet_bytes response) (scanner_ s1)
      then response_events (scan_request (is_connectable type) false LlPhyType.LE_1M LlPhyType.NO_PACKETS ts)
             (LegacyAdvertiser.advertising_address a) (LegacyAdvertiser.scan_response_data a) (u8 rssi) s
      else []) ∧
    IncomingPacket response rssi t' s2 = Ok ((), s2, []).
Proof.
  intros a type. do 2 eexists. split; [by apply legacy_advertising_event_due|]. split; [done|].
  assert (LegacyAdvertiser.IsDirected a = false ∧ is_scannable type = true) as [Hdir Htype].
  { destruct Hanswers as (_ & Hs & _). unfold type, LegacyAdvertiser.IsDirected, LegacyAdvertiser.IsScannable in *.
    fold a in Hs. by destruct (LegacyAdvertiser.advertising_type a). }
  destruct (ScanIncomingLeLegacyAdvertisingPdu_scans (LegacyAdvertiser.advertising_address a)
    (LegacyAdvertiser.target_address a) type (LegacyAdvertiser.advertising_data a)
    (packet_bytes (legacy_pdu a)) (u8 rssi) ts s Htype Hscans) as (s1 & own & E & Hs1).
  destruct (IncomingLeScanPacket_answers own ta (adv <| legacy_advertiser_ ::= advertised t |>)) as
    (adv2 & tx & Ea & Ha2); [exact Hanswers|exact Hno|].
  destruct (IncomingLeScanResponsePacket_run (LegacyAdvertiser.advertising_address a)
    (LegacyAdvertiser.scan_response_data a) (packet_bytes (scan_answer a own)) (u8 rssi) tr s1
    (scan_request (is_connectable type) false LlPhyType.LE_1M LlPhyType.NO_PACKETS ts)) as (s2 & Er & Hs2).
  { rewrite (now_scanner Hs1). cbn. rewrite remember_settings. apply Hscans. }
  { rewrite (now_scanner Hs1). apply find_request_add. }
  assert (∀ type a target data rssi c, sent_packets (legacy_report type a target data rssi c) = []) as Hquiet.
  { intros. unfold legacy_report, event_output. by repeat destruct (_ && _). }
  do 3 eexists. split.
  { rewrite IncomingPacket_legacy. unfold IncomingLeLegacyAdvertisingPdu. rewrite Hdir.
    erewrite run_bind by exact E. rewrite ConnectIncomingLeLegacyAdvertisingPdu_idle; [done|].
    by rewrite (now_initiator Hs1). }
  rewrite app_nil_r, host_events_app, sent_packets_app, Hquiet. split; [cbn; by rewrite app_nil_r|].
  split; [done|]. do 3 eexists. split; [rewrite IncomingPacket_scan; exact Ea|]. do 2 (split; [done|]).
  split; [exact Ha2|]. do 2 eexists. split; [rewrite IncomingPacket_scan_answer; exact Er|].
  unfold host_events, sent_packets. split; [apply sent_packets_events|]. split.
  - fold (host_events (SendEvent <$> (if is_fresh (packet_bytes (scan_answer a own)) (scanner_ s1) then
      response_events (scan_request (is_connectable type) false LlPhyType.LE_1M LlPhyType.NO_PACKETS ts)
        (LegacyAdvertiser.advertising_address a) (LegacyAdvertiser.scan_response_data a) (u8 rssi) s1 else []))).
    rewrite host_events_events. unfold response_events.
    by rewrite (now_resolved _ Hs1), !(now_unmasked Hs1), (now_legacy Hs1), (now_extended Hs1).
  - rewrite IncomingPacket_scan_answer. apply IncomingLeScanResponsePacket_ignored.
    rewrite (now_scanner Hs2), find_request_remember. apply find_request_erased.
Qed.

(** ** Reports in fragments *)

Lemma report_fragments_spec max fuel data :
  (0 < max)%nat → (length data < fuel)%nat →
  (∃ n, (report_fragments fuel max data).*1 = replicate n DataStatus.CONTINUING ++ [DataStatus.COMPLETE]) ∧
  concat (report_fragments fuel max data).*2 = data ∧
  Forall (λ fragment, (length fragment ≤ max)%nat) (report_fragments fuel max data).*2.
Proof.
  intros Hmax. revert data. induction fuel as [|fuel IH]; intros data Hfuel; [lia|]. cbn [report_fragments].
  rewrite length_drop. repeat case_bool_decide; try lia.
  - cbn. rewrite firstn_all2, app_nil_r by done. split; [by exists 0%nat|]. split; [done|by repeat constructor].
  - destruct (IH (drop max data)) as ([n Hn] & Hdata & Hlen); [rewrite length_drop; lia|]. cbn.
    rewrite Hn, Hdata, take_drop. split; [by exists (S n)|]. split; [done|].
    constructor; [|exact Hlen]. rewrite length_take. lia.
Qed.

Lemma fragments_spec max data :
  (0 < max)%nat →
  (∃ n, (fragments max data).*1 = replicate n DataStatus.CONTINUING ++ [DataStatus.COMPLETE]) ∧
  concat (fragments max data).*2 = data ∧
  Forall (λ fragment, (length fragment ≤ max)%nat) (fragments max data).*2.
Proof. intros Hmax. apply report_fragments_spec; [done|lia]. Qed.

Lemma request_scan_run b report a r connectable extended primary secondary t c :
  address_set (Scanner.own_address_type (scanner_ c)) c →
  ∃ c' out, request_scan b report a r connectable extended primary secondary t c = Ok ((), c', out) ∧
  host_events out = [] ∧ le_event_unmasked SubeventCode.LE_EXTENDED_ADVERTISING_REPORT c' =
    le_event_unmasked SubeventCode.LE_EXTENDED_ADVERTISING_REPORT c.
Proof.
  intros Hset. unfold request_scan. autorewrite with run. destruct (_ && report); cbn [when].
  - rewrite send_scan_request_run by done. do 2 eexists. do 2 (split; [done|]).
    apply (now_unmasked (scanner_now_set _ _ _ _ (now_generated r Local c))).
  - by do 2 eexists.
Qed.

(** The scanner reports the extended advertising [pdu] from [a] to [target]. *)
Record reports_extended (a target : AddressWithType) (pdu : ExtendedPdu) (bytes : list Z)
    (primary secondary : LlPhyType.t) (c : LeController) : Prop := {
  rx_enabled : Scanner.scan_enable (scanner_ c) = true;
  rx_extended : extended_advertising_in_use_ c = true;
  rx_address : random_address_missing c = false;
  rx_primary : pdu_primary_phy pdu = Some primary;
  rx_secondary : pdu_secondary_phy pdu = Some secondary;
  rx_scans : scans_primary primary (scanner_ c) = true;
  rx_supports : supports_secondary secondary (properties_ c) = true;
  rx_accepts : scanner_accepts (resolved a c) c = true;
  rx_target : pdu_directed pdu = true → IsLocalPublicOrRandomAddress target c = true;
  rx_fresh : is_fresh bytes (scanner_ c) = true;
  rx_unmasked : le_event_unmasked SubeventCode.LE_EXTENDED_ADVERTISING_REPORT c = true;
}.

(** C38. The report of extended advertising. A scanner that accepts an extended
    advertising packet (it scans the primary PHY, supports the secondary one,
    its filter policy lets the advertiser in, directed advertising names its own
    address, and the packet is no duplicate to be filtered) sends the host a series of reports. Put together, their data are
    the data of the packet, however long, also when there are none; none is longer than 229 bytes; they are
    the same but for the data; and all but the last are marked as continued,
    the last one as complete. *)
Theorem extended_report_reassembly (a target : AddressWithType) (pdu : ExtendedPdu) (bytes : list Z)
    (primary secondary : LlPhyType.t) (rssi t : Z) (c : LeController)
    (Hc : reports_extended a target pdu bytes primary secondary c) :
  ∃ c' out reports, ScanIncomingLeExtendedAdvertisingPdu a target pdu bytes rssi t c = Ok ((), c', out) ∧
  host_events out = LeExtendedAdvertisingReport <$> reports ∧
  concat (ext_advertising_data <$> reports) = pdu_advertising_data pdu ∧
  Forall (λ r, (length (ext_advertising_data r) ≤ 229)%nat) reports ∧
  Forall (λ r, r <| ext_data_status := DataStatus.COMPLETE |> <| ext_advertising_data := pdu_advertising_data pdu |> =
               extended_response pdu primary secondary (resolved a c) target rssi) reports ∧
  ∃ n, ext_data_status <$> reports = replicate n DataStatus.CONTINUING ++ [DataStatus.COMPLETE].
Proof.
  destruct Hc. unfold ScanIncomingLeExtendedAdvertisingPdu. autorewrite with run. unfold id, Scanner.IsEnabled.
  rewrite rx_enabled0, rx_extended0, rx_primary0, rx_secondary0. cbn [negb]. unfold read_phy.
  autorewrite with run. rewrite rx_scans0, rx_supports0. cbn [negb orb].
  rewrite run_resolve_or_keep. autorewrite with run.
  pose proof (now_learnt a c) as Hl. set (c1 := learnt a c) in *. set (r := resolved a c) in *.
  assert (scanner_accepts r c1 = true) as ->.
  { unfold scanner_accepts in *. by rewrite (now_scanner Hl), (now_listed Hl). }
  assert (pdu_directed pdu && negb (scanner_is_target target r c1) = false) as ->.
  { destruct (pdu_directed pdu); [|done]. specialize (rx_target0 eq_refl).
    assert (IsLocalPublicOrRandomAddress target c1 = true) as Ht by (by destruct Hl as (? & ? & -> & _)).
    unfold scanner_is_target, ValidateTargetA. rewrite Ht. by destruct (Scanner.scan_filter_policy _). }
  cbn [negb]. rewrite run_check_duplicate, (now_scanner Hl), rx_fresh0.
  pose proof (scanner_now_set (remember bytes) _ _ _ Hl) as Hr. set (c2 := set_scanner _ c1) in *.
  rewrite IsLeEventUnmasked_Ok, (now_unmasked Hl), rx_unmasked0. autorewrite with run. cbn [andb when].
  erewrite run_bind by apply send_extended_reports_run.
  destruct (request_scan_run (pdu_scannable pdu) true a r (pdu_connectable pdu) true primary secondary t c2)
    as (c3 & out & E & Hout & _).
  { rewrite (now_scanner Hr). apply (now_address_set Hr). rewrite remember_settings.
    by apply scanner_address_set. }
  rewrite E. set (response := extended_response _ _ _ _ _ _).
  set (report := λ '(status, fragment), response <| ext_data_status := status |>
    <| ext_advertising_data := fragment |>).
  exists c3, ((SendEvent <$> extended_reports response (pdu_advertising_data pdu)) ++ out),
    (report <$> fragments max_extended_fragment (pdu_advertising_data pdu)).
  split; [done|]. destruct (fragments_spec max_extended_fragment (pdu_advertising_data pdu)) as (Hn & Hd & Hf);
    [unfold max_extended_fragment; lia|].
  rewrite host_events_app, host_events_events, Hout, app_nil_r.
  assert (ext_advertising_data <$> (report <$> fragments max_extended_fragment (pdu_advertising_data pdu)) =
    (fragments max_extended_fragment (pdu_advertising_data pdu)).*2) as Edata.
  { rewrite <-list_fmap_compose. apply list_fmap_ext. by intros ? []. }
  split_and!.
  - unfold extended_reports. rewrite <-list_fmap_compose. apply list_fmap_ext. by intros ? [].
  - by rewrite Edata.
  - rewrite Forall_fmap. apply Forall_fmap in Hf. eapply Forall_impl; [exact Hf|]. by intros [].
  - rewrite Forall_fmap. apply Forall_true. intros []. cbn. unfold response, extended_response, direct_address.
    by destruct (pdu_directed pdu).
  - destruct Hn as [n Hn]. exists n. rewrite <-Hn, <-list_fmap_compose. apply list_fmap_ext. by intros ? [].
Qed.

(** ** Periodic advertising *)

(** The least number that is no key. *)
Lemma least_free {A} (m : gmap Z A) (n : nat) :
  (∃ u, 0 ≤ u < Z.of_nat n ∧ m !! u = None ∧ ∀ i, 0 ≤ i < u → is_Some (m !! i)) ∨
  ∀ i, 0 ≤ i < Z.of_nat n → is_Some (m !! i).
Proof.
  induction n as [|n [(u & ? & ?)|IH]]; [right; lia|left; exists u; split; [lia|done]|].
  destruct (m !! Z.of_nat n) as [x|] eqn:E.
  - right. intros i Hi. destruct (decide (i = Z.of_nat n)) as [->|]; [by exists x|apply IH; lia].
  - left. exists (Z.of_nat n). split; [lia|]. by split.
Qed.

Lemma some_free {A} (m : gmap Z A) : ¬ ∀ i, 0 ≤ i < Z.of_nat (S (size m)) → is_Some (m !! i).
Proof.
  intros Hall.
  assert (list_to_set (seqZ 0 (Z.of_nat (S (size m)))) ⊆ dom m) as Hsub%subseteq_size.
  { intros i Hi%elem_of_list_to_set%elem_of_seqZ. apply elem_of_dom, Hall. lia. }
  rewrite size_list_to_set, length_seqZ, size_dom in Hsub by apply NoDup_seqZ. lia.
Qed.

Lemma unused_sync_handle_finds m fuel h u :
  0 ≤ h ≤ u → u < 2 ^ 16 → m !! u = None → (∀ i, h ≤ i < u → is_Some (m !! i)) →
  (Z.to_nat (u - h) < fuel)%nat → unused_sync_handle fuel h m = Ok u.
Proof.
  revert h. induction fuel as [|fuel IH]; intros h Hh Hu Hfree Hused Hfuel; [lia|]. cbn [unused_sync_handle].
  destruct (decide (h = u)) as [->|]; [by rewrite Hfree|].
  destruct (Hused h) as [x ->]; [lia|]. cbn [has_value]. rewrite wrap_id by (unfold fits; lia).
  apply IH; try done; [lia|intros; apply Hused; lia|lia].
Qed.

Lemma unused_sync_handle_least m :
  Z.of_nat (size m) < 2 ^ 16 →
  ∃ u, 0 ≤ u < 2 ^ 16 ∧ m !! u = None ∧ (∀ i, 0 ≤ i < u → is_Some (m !! i)) ∧
  unused_sync_handle (S (size m)) 0 m = Ok u.
Proof.
  intros Hsize. destruct (least_free m (S (size m))) as [(u & Hu & Hfree & Hused)|H]; [|by apply some_free in H].
  assert (u < 2 ^ 16) as Hu' by lia. exists u. split; [lia|]. do 2 (split; [done|]).
  apply unused_sync_handle_finds; try done; lia.
Qed.

(** A loop in which one turn does something. *)
Lemma for_each_idle {A} (l : list A) body t c :
  (∀ y, y ∈ l → body y t c = Ok ((), c, [])) → for_each l body t c = Ok ((), c, []).
Proof.
  induction l as [|y l IH]; intros Hidle; [done|]. apply (for_each_cons y l _ _ _ c [] c []).
  - apply Hidle. by left.
  - apply IH. intros. apply Hidle. by right.
Qed.
Lemma for_each_one {A} (l : list A) x body t c c' out :
  NoDup l → x ∈ l → (∀ y c, y ∈ l → y ≠ x → body y t c = Ok ((), c, [])) →
  body x t c = Ok ((), c', out) → for_each l body t c = Ok ((), c', out).
Proof.
  intros Hnd Hx Hidle E. induction Hnd as [|y l Hy Hnd IH]; [by inversion Hx|].
  assert (x = y ∨ y ≠ x ∧ x ∈ l) as [->|[Hne Hin]].
  { apply elem_of_cons in Hx as [->|Hin]; [by left|]. right. split; [|done]. by intros ->. }
  - rewrite <-(app_nil_r out). eapply for_each_cons; [exact E|]. apply for_each_idle. intros z Hz.
    apply Hidle; [by right|]. by intros ->.
  - change out with ([] ++ out). eapply for_each_cons; [apply Hidle; [by left|done]|].
    apply IH; [done|]. intros z d Hz. apply Hidle. by right.
Qed.

(** The synchronisation with the periodic advertising of [a] under [sid]. *)
Definition sync_of (a : AddressWithType) (sid : Z) (c : LeController) (k : Synchronized) : bool :=
  matches_sync (advertiser_address_type_of (GetAddressType (resolved a c))) (GetAddress (resolved a c)) sid k.
Definition listens (c : LeController) : Prop :=
  Scanner.scan_enable (scanner_ c) = true ∧ extended_advertising_in_use_ c = true.

Definition refreshed (t : Z) (k : Synchronized) : Synchronized :=
  Synchronized.MkSynchronized (Synchronized.advertiser_address_type k) (Synchronized.advertiser_address k)
    (Synchronized.advertising_sid k) (Synchronized.sync_handle k) (Synchronized.sync_timeout k)
    (t + Synchronized.sync_timeout k).
Definition periodic_reports (handle tx_power rssi : Z) (data : list Z) : list HciEvent :=
  (λ '(status, fragment),
     LePeriodicAdvertisingReportV1 handle tx_power rssi NO_CONSTANT_TONE_EXTENSION status fragment)
  <$> fragments max_periodic_fragment data.

Lemma report_sync_run handle tx_power rssi data k t c :
  report_sync handle tx_power rssi data k t c =
    Ok ((), c <| synchronized_ ::= alter (refreshed t) handle |>,
        SendEvent <$> (if le_event_unmasked SubeventCode.LE_PERIODIC_ADVERTISING_REPORT_V1 c
                       then periodic_reports (Synchronized.sync_handle k) tx_power rssi data else [])).
Proof.
  unfold report_sync. autorewrite with run. rewrite IsLeEventUnmasked_Ok. autorewrite with run. unfold id.
  destruct (le_event_unmasked _ c); cbn [when]; [|by autorewrite with run].
  erewrite run_bind.
  2: { apply (for_each_events (λ '(status, fragment), LePeriodicAdvertisingReportV1
         (Synchronized.sync_handle k) tx_power rssi NO_CONSTANT_TONE_EXTENSION status fragment)).
    by intros []. }
  autorewrite with run. unfold modify. cbn [emit mbind outcome_bind]. by rewrite app_nil_r.
Qed.

(** The host waits for the periodic advertising of [a] under [sid]. *)
Definition awaits (a : AddressWithType) (sid : Z) (k : Synchronizing) (c : LeController) : Prop :=
  synchronizing_ c = Some k ∧
  matches_synchronizing (advertiser_address_type_of (GetAddressType (resolved a c)))
    (GetAddress (resolved a c)) sid c = true.
Definition new_sync (t handle sid : Z) (r : AddressWithType) (k : Synchronizing) : Synchronized :=
  Synchronized.MkSynchronized (advertiser_address_type_of (GetAddressType r)) (GetAddress r) sid handle
    (Synchronizing.sync_timeout k) (t + Synchronizing.sync_timeout k).
Definition established_event (handle sid interval : Z) (r : AddressWithType) : HciEvent :=
  LePeriodicAdvertisingSyncEstablishedV1 ErrorCode.SUCCESS handle sid (GetAddressType r) (GetAddress r)
    SecondaryPhyType.LE_1M interval ClockAccuracy.PPM_500.

Lemma IncomingLePeriodicAdvertisingPdu_establishes a sid tx interval data rssi t c k :
  listens c → awaits a sid k c → Z.of_nat (size (synchronized_ c)) < 2 ^ 16 →
  ∃ c' h, IncomingLePeriodicAdvertisingPdu a sid tx interval data rssi t c =
    Ok ((), c', event_output (le_event_unmasked SubeventCode.LE_PERIODIC_ADVERTISING_SYNC_ESTABLISHED_V1 c)
                  (established_event h sid interval (resolved a c))) ∧
  0 ≤ h < 2 ^ 16 ∧ synchronized_ c !! h = None ∧ (∀ i, 0 ≤ i < h → is_Some (synchronized_ c !! i)) ∧
  c' = (learnt a c) <| synchronized_ ::= <[h := new_sync t h sid (resolved a c) k]> |>
                    <| synchronizing_ := None |>.
Proof.
  intros [He Hx] [Hk Hm] Hsize. unfold IncomingLePeriodicAdvertisingPdu. autorewrite with run.
  unfold id, Scanner.IsEnabled. rewrite He, Hx. cbn [negb]. rewrite run_resolve_or_keep. autorewrite with run.
  pose proof (now_learnt a c) as Hl. set (c1 := learnt a c) in *. set (r := resolved a c) in *.
  assert (synchronizing_ c1 = Some k) as Hk1 by (destruct Hl as (? & ? & -> & _); exact Hk).
  assert (synchronized_ c1 = synchronized_ c) as Hs1 by (by destruct Hl as (? & ? & -> & _)).
  assert (matches_synchronizing (advertiser_address_type_of (GetAddressType r)) (GetAddress r) sid c1 = true)
    as Hm1 by (destruct Hl as (? & ? & -> & _); exact Hm).
  rewrite Hk1, Hm1. unfold establish_sync. autorewrite with run. unfold id. rewrite Hs1.
  destruct (unused_sync_handle_least (synchronized_ c) Hsize) as (h & Hh & Hfree & Hused & ->).
  autorewrite with run. exists (c1 <| synchronized_ ::= <[h := new_sync t h sid r k]> |>
    <| synchronizing_ := None |>), h. rewrite (now_unmasked Hl), andb_true_r.
  split; [unfold modify; cbn [emit mbind outcome_bind]; by rewrite app_nil_r|]. by repeat (split; [done|]).
Qed.

Lemma IncomingLePeriodicAdvertisingPdu_reports a sid tx interval data rssi t c h k :
  listens c → synchronizing_ c = None → synchronized_ c !! h = Some k → sync_of a sid c k = true →
  (∀ i k', synchronized_ c !! i = Some k' → i ≠ h → sync_of a sid c k' = false) →
  IncomingLePeriodicAdvertisingPdu a sid tx interval data rssi t c =
    Ok ((), (learnt a c) <| synchronized_ ::= alter (refreshed t) h |>,
        SendEvent <$> (if le_event_unmasked SubeventCode.LE_PERIODIC_ADVERTISING_REPORT_V1 c
                       then periodic_reports (Synchronized.sync_handle k) tx rssi data else [])).
Proof.
  intros [He Hx] Hn Hh Hk Hothers. unfold IncomingLePeriodicAdvertisingPdu. autorewrite with run.
  unfold id, Scanner.IsEnabled. rewrite He, Hx. cbn [negb]. rewrite run_resolve_or_keep. autorewrite with run.
  pose proof (now_learnt a c) as Hl. set (c1 := learnt a c) in *. set (r := resolved a c) in *.
  assert (synchronizing_ c1 = None) as -> by (destruct Hl as (? & ? & -> & _); exact Hn).
  assert (synchronized_ c1 = synchronized_ c) as Hs1 by (by destruct Hl as (? & ? & -> & _)).
  unfold report_syncs. autorewrite with run. rewrite Hs1. apply (for_each_one _ (h, k)).
  - rewrite (iterate_perm _). apply NoDup_map_to_list.
  - by apply elem_of_iterate.
  - intros [i k'] d Hi%elem_of_iterate Hne. unfold sync_of in Hothers. fold r in Hothers.
    rewrite (Hothers i k'); [done|done|]. intros ->. congruence.
  - unfold sync_of in Hk. fold r in Hk. rewrite Hk. cbn [when]. rewrite report_sync_run.
    by rewrite (now_unmasked Hl).
Qed.

Lemma resolved_synchronized a f o c :
  resolved a ((c <| synchronized_ ::= f |>) <| synchronizing_ := o |>) = resolved a c.
Proof.
  unfold resolved, ResolvePrivateAddress. cbn. destruct (IsRpa a), (le_resolving_list_enabled_ c); try done.
  cbn. by destruct (find_first _ _).
Qed.

Lemma periodic_reports_zip h tx rssi data :
  periodic_reports h tx rssi data =
    zip_with (LePeriodicAdvertisingReportV1 h tx rssi NO_CONSTANT_TONE_EXTENSION)
      (fragments max_periodic_fragment data).*1 (fragments max_periodic_fragment data).*2.
Proof.
  unfold periodic_reports. induction (fragments _ _) as [|[] l IH]; [done|]. cbn. by f_equal.
Qed.

(** C13. Periodic advertising. A scanning controller that is told to synchronise with
    an advertiser, by its address or through the list, and receives its periodic advertising,
    establishes the synchronisation once, under the least handle no other one has, as it tells the host,
    with the address it resolved. The search for the handle ends. The next packet
    of the advertiser is then reported under that handle, in pieces of at most
    247 bytes that put together are its data, and renews the timeout of this
    synchronisation and of no other. *)
Theorem periodic_synchronization (source destination : Address) (type : AddressType.t)
    (sid tx_power interval rssi t t' : Z) (data data' : list Z) (c : LeController) (k : Synchronizing)
    (Hlistens : listens c) (Hawaits : awaits (MkAddressWithType source type) sid k c)
    (Hroom : Z.of_nat (size (synchronized_ c)) < 2 ^ 16)
    (Hnew : ∀ i k', synchronized_ c !! i = Some k' → sync_of (MkAddressWithType source type) sid c k' = false) :
  let r := resolved (MkAddressWithType source type) c in
  let pdu data := LePeriodicAdvertisingPdu source destination type sid tx_power interval data in
  ∃ c1 out1 h, IncomingPacket (pdu data) rssi t c = Ok ((), c1, out1) ∧
  host_events out1 = (if le_event_unmasked SubeventCode.LE_PERIODIC_ADVERTISING_SYNC_ESTABLISHED_V1 c
                      then [established_event h sid interval r] else []) ∧
  0 ≤ h < 2 ^ 16 ∧ synchronized_ c !! h = None ∧ (∀ i, 0 ≤ i < h → is_Some (synchronized_ c !! i)) ∧
  synchronizing_ c1 = None ∧ synchronized_ c1 = <[h := new_sync t h sid r k]> (synchronized_ c) ∧
  ∃ c2 out2, IncomingPacket (pdu data') rssi t' c1 = Ok ((), c2, out2) ∧
  synchronizing_ c2 = None ∧ synchronized_ c2 = <[h := new_sync t' h sid r k]> (synchronized_ c) ∧
  (le_event_unmasked SubeventCode.LE_PERIODIC_ADVERTISING_REPORT_V1 c = true →
   ∃ n fragments,
     host_events out2 = zip_with (LePeriodicAdvertisingReportV1 h tx_power (u8 rssi) NO_CONSTANT_TONE_EXTENSION)
       (replicate n DataStatus.CONTINUING ++ [DataStatus.COMPLETE]) fragments ∧
     length fragments = S n ∧ concat fragments = data' ∧
     Forall (λ fragment, (length fragment ≤ 247)%nat) fragments).
Proof.
  intros r pdu. set (a := MkAddressWithType source type) in *.
  destruct (IncomingLePeriodicAdvertisingPdu_establishes a sid tx_power interval data (u8 rssi) t c k
    Hlistens Hawaits Hroom) as (c1 & h & E1 & Hh & Hfree & Hused & Hc1).
  assert (Hl : scanner_now (scanner_ c) c (learnt a c)) by apply now_learnt.
  assert (Hs1 : synchronized_ c1 = <[h := new_sync t h sid r k]> (synchronized_ c)).
  { subst c1. by destruct Hl as (? & ? & -> & _). }
  assert (Hn1 : synchronizing_ c1 = None) by by subst c1.
  assert (Hr1 : resolved a c1 = r).
  { subst c1. etrans; [apply resolved_synchronized|exact (now_resolved a Hl)]. }
  assert (Hl1 : listens c1) by (subst c1; destruct Hl as (? & ? & -> & _); exact Hlistens).
  assert (Hu1 : ∀ e, le_event_unmasked e c1 = le_event_unmasked e c)
    by (subst c1; by destruct Hl as (? & ? & -> & _)).
  assert (E2 := IncomingLePeriodicAdvertisingPdu_reports a sid tx_power interval data' (u8 rssi) t' c1 h
    (new_sync t h sid r k) Hl1 Hn1).
  rewrite Hs1 in E2. unfold sync_of in E2. rewrite Hr1 in E2.
  specialize (E2 (lookup_insert_eq _ _ _)).
  do 3 eexists. split; [exact E1|]. split; [by destruct (le_event_unmasked _ c)|].
  do 5 (split; [done|]). do 2 eexists. split; [apply E2|].
  { unfold matches_sync, new_sync. cbn. by rewrite !bool_decide_true, Z.eqb_refl by done. }
  { intros i k' Hi Hne. rewrite lookup_insert_ne in Hi by done. by apply Hnew in Hi. }
  pose proof (now_learnt a c1) as Hl2. split; [destruct Hl2 as (? & ? & -> & _); exact Hn1|]. split.
  { destruct Hl2 as (? & ? & -> & _). cbn. rewrite Hs1, (alter_Some _ _ _ _ (lookup_insert_eq _ _ _)).
    by rewrite insert_insert_eq. }
  rewrite Hu1. intros ->. rewrite host_events_events.
  destruct (fragments_spec max_periodic_fragment data') as ([n Hn] & Hd & Hf);
    [unfold max_periodic_fragment; lia|].
  exists n, (fragments max_periodic_fragment data').*2. rewrite <-Hn.
  split; [apply periodic_reports_zip|]. split; [|done].
  apply (f_equal length) in Hn. rewrite length_fmap, length_app, length_replicate in Hn. cbn in Hn.
  rewrite length_fmap. lia.
Qed.

(** ** From advertising to a connection *)

(** The advertiser lets everyone connect. *)
Definition open_to_all (a : LegacyAdvertiser) : Prop :=
  LegacyAdvertiser.IsConnectable a = true ∧ LegacyAdvertiser.IsDirected a = false ∧
  listed_to_connect (LegacyAdvertiser.advertising_filter_policy a) = false.
(** The initiator looks for [a]. *)
Definition initiates (a : AddressWithType) (c : LeController) : Prop :=
  Initiator.connect_enable (initiator_ c) = true ∧ Initiator.pending_connect_request (initiator_ c) = None ∧
  initiator_accepts (resolved a c) c = true ∧ address_set (Initiator.own_address_type (initiator_ c)) c.
Definition connect_request (ci : ConnectInd) : LinkLayerPacket :=
  LeConnect (GetAddress (ci_initiating_address ci)) (GetAddress (ci_advertising_address ci))
    (GetAddressType (ci_initiating_address ci)) (GetAddressType (ci_advertising_address ci))
    (ci_interval ci) (ci_latency ci) (ci_timeout ci).

Lemma request_connection_run a target t c :
  initiates a c →
  ∃ c' own, let phy := Initiator.le_1m_phy (initiator_ c) in
  let ci := MkConnectInd own a (Initiator.connection_interval_max phy) (Initiator.max_latency phy)
              (Initiator.supervision_timeout phy) in
  request_connection a target false t c = Ok ((), c', sends (connect_request ci)) ∧
  Initiator.pending_connect_request (initiator_ c') = Some a ∧ connections_ c' = connections_ c ∧
  le_event_mask_ c' = le_event_mask_ c ∧ event_mask_ c' = event_mask_ c ∧ ll_ c' = ll_ c.
Proof.
  intros (He & Hp & Hacc & Hset). unfold request_connection. rewrite run_resolve_or_keep. autorewrite with run.
  pose proof (now_learnt a c) as Hl. set (c1 := learnt a c) in *. set (r := resolved a c) in *. unfold id.
  assert (initiator_accepts r c1 = true) as ->.
  { unfold initiator_accepts in *. by rewrite (now_initiator Hl), (now_listed Hl). }
  cbn [negb andb]. rewrite run_pure. pose proof (now_generated r Local c1) as Hg.
  destruct (GenerateResolvablePrivateAddress r Local c1) as [o c2]. cbn [fst snd] in *.
  rewrite (now_scanner Hl) in Hg. pose proof (scanner_now_trans _ _ _ _ _ Hl Hg) as H2.
  rewrite (now_initiator Hl).
  erewrite run_bind by (apply choose_address_run; by apply (now_address_set H2)).
  autorewrite with run. do 2 eexists. split; [reflexivity|].
  by destruct H2 as (? & ? & -> & _).
Qed.

Lemma IncomingPacket_connect ci rssi : IncomingPacket (connect_request ci) rssi = IncomingLeConnectPacket ci.
Proof. unfold connect_request. cbn [IncomingPacket]. rewrite !address_eta. by destruct ci. Qed.
Lemma IncomingPacket_connect_complete ci rssi :
  IncomingPacket (connect_complete ci) rssi = IncomingLeConnectCompletePacket ci.
Proof. unfold connect_complete. cbn [IncomingPacket]. rewrite !address_eta. by destruct ci. Qed.

Lemma can_connect_same c c' : connections_ c' = connections_ c → ll_ c' = ll_ c → can_connect c → can_connect c'.
Proof. unfold can_connect, connection_of. by intros -> ->. Qed.

Lemma open_to_all_accepts ci t c :
  LegacyAdvertiser.advertising_enable (legacy_advertiser_ c) = true → open_to_all (legacy_advertiser_ c) →
  ci_advertising_address ci = LegacyAdvertiser.advertising_address (legacy_advertiser_ c) →
  accepts_request ci (c <| legacy_advertiser_ ::= advertised t |>).
Proof.
  intros He (Hc & Hd & Hl) Ha. unfold accepts_request. destruct (ResolvePrivateAddress _ _) as [o c1].
  split; [exact He|]. split; [exact Hc|]. split; [by rewrite Ha|]. unfold accepts_initiator.
  change (LegacyAdvertiser.IsDirected _) with (LegacyAdvertiser.IsDirected (legacy_advertiser_ c)).
  change (LegacyAdvertiser.advertising_filter_policy _) with
    (LegacyAdvertiser.advertising_filter_policy (legacy_advertiser_ c)). by rewrite Hd, Hl.
Qed.

(** C11. From advertising to a connection. An advertiser that lets everyone connect
    and whose event is due sends its packet. An initiator that looks for it (by its identity, or
    through the filter accept list), and has a free handle and the address it is to
    use, asks for a connection with the parameters its host gave for the 1M
    PHY, and remembers whom it asked. The advertiser accepts, stops advertising
    and answers; the initiator takes the answer and stops initiating. After these
    four packets each end has exactly one more connection, under a handle it did
    not use, peripheral and central, with mirrored addresses, the same
    parameters and the 1M PHY, and its event is the first its host hears, unless
    masked. No step aborts. *)
Theorem advertising_connection (t ti tp tc rssi : Z) (p c : LeController)
    (Hp : can_connect p) (Hc : can_connect c)
    (Hdue : advertising_due t (legacy_advertiser_ p)) (Hopen : open_to_all (legacy_advertiser_ p))
    (Hinit : initiates (LegacyAdvertiser.advertising_address (legacy_advertiser_ p)) c)
    (Hidle : Scanner.scan_enable (scanner_ c) = false) :
  let a := legacy_advertiser_ p in
  let phy := Initiator.le_1m_phy (initiator_ c) in
  ∃ p1 out1, legacy_advertising_event t p = Ok ((), p1, out1) ∧ sent_packets out1 = [legacy_pdu a] ∧
  ∃ c1 out2 request, IncomingPacket (legacy_pdu a) rssi ti c = Ok ((), c1, out2) ∧ sent_packets out2 = [request] ∧
  Initiator.pending_connect_request (initiator_ c1) = Some (LegacyAdvertiser.advertising_address a) ∧
  ∃ p2 outp response, IncomingPacket request rssi tp p1 = Ok ((), p2, outp) ∧ sent_packets outp = [response] ∧
  ∃ c2 outc, IncomingPacket response rssi tc c1 = Ok ((), c2, outc) ∧ sent_packets outc = [] ∧
  ∃ hp hc kp kc,
  connection_of hp p = None ∧ connection_of hc c = None ∧
  le_acl_connections_ (connections_ p2) = <[hp := kp]> (le_acl_connections_ (connections_ p)) ∧
  le_acl_connections_ (connections_ c2) = <[hc := kc]> (le_acl_connections_ (connections_ c)) ∧
  LeAclConnection.own_address kp = LegacyAdvertiser.advertising_address a ∧
  LeAclConnection.address kp = LeAclConnection.own_address kc ∧
  LeAclConnection.own_address kp = LeAclConnection.address kc ∧
  LeAclConnection.role kp = Role.PERIPHERAL ∧ LeAclConnection.role kc = Role.CENTRAL ∧
  LeAclConnection.parameters kp = LeAclConnection.parameters kc ∧
  LeAclConnection.parameters kc = MkLeAclConnectionParameters (Initiator.connection_interval_max phy) 1 0
    (Initiator.max_latency phy) (Initiator.supervision_timeout phy) ∧
  phys_of kp = (PhyType.LE_1M, PhyType.LE_1M) ∧ phys_of kc = (PhyType.LE_1M, PhyType.LE_1M) ∧
  LegacyAdvertiser.advertising_enable (legacy_advertiser_ p2) = false ∧
  Initiator.connect_enable (initiator_ c2) = false ∧ Initiator.pending_connect_request (initiator_ c2) = None ∧
  (wants_connection_events p = true →
   ∃ event rest, host_events outp = event :: rest ∧ announces hp Role.PERIPHERAL event) ∧
  (wants_connection_events c = true →
   ∃ event rest, host_events outc = event :: rest ∧ announces hc Role.CENTRAL event).
Proof.
  intros a phy. do 2 eexists. split; [by apply legacy_advertising_event_due|]. split; [done|].
  destruct (request_connection_run (LegacyAdvertiser.advertising_address a) (LegacyAdvertiser.target_address a)
    ti c Hinit) as (c1 & own & E & Hpend & Hconn & Hmask & Hmask' & Hll).
  set (ci := MkConnectInd _ _ _ _ _) in *.
  destruct (IncomingLeConnectPacket_accepts ci tp (p <| legacy_advertiser_ ::= advertised t |>)) as
    (p2 & outp & hp & kp & Ep & Hsp & Hnp & Hmp & Hap & Hop & Hrp & Hpp & Hphp & Hdis & Hep).
  { exact Hp. } { apply open_to_all_accepts; [apply Hdue|exact Hopen|done]. }
  destruct (IncomingLeConnectCompletePacket_completes ci tc c1) as
    (c2 & outc & hc & kc & Ec & Hsc & Hnc & Hmc & Hac & Hoc & Hrc & Hpc & Hphc & Hpend' & Hcen & Hec).
  { by apply (can_connect_same c). } { exact Hpend. }
  exists c1, (sends (connect_request ci)), (connect_request ci). split.
  { rewrite IncomingPacket_legacy. unfold IncomingLeLegacyAdvertisingPdu.
    erewrite (run_bind _ _ _ _ () c []).
    2: { unfold ScanIncomingLeLegacyAdvertisingPdu. autorewrite with run. unfold id, Scanner.IsEnabled.
      by rewrite Hidle. }
    rewrite emit_nil. unfold ConnectIncomingLeLegacyAdvertisingPdu. autorewrite with run.
    destruct Hinit as (He & Hnone & _). destruct Hopen as (Hcn & Hdir & _). fold a in Hcn, Hdir.
    unfold Initiator.IsEnabled. rewrite He, Hnone.
    assert (is_connectable (legacy_pdu_type (LegacyAdvertiser.advertising_type a)) = true ∧
      is_directed (legacy_pdu_type (LegacyAdvertiser.advertising_type a)) = false) as [-> ->].
    { unfold LegacyAdvertiser.IsConnectable, LegacyAdvertiser.IsDirected in *.
      by destruct (LegacyAdvertiser.advertising_type a). }
    exact E. }
  split; [done|]. split; [exact Hpend|].
  exists p2, outp, (connect_complete ci). rewrite IncomingPacket_connect. do 2 (split; [done|]).
  exists c2, outc. rewrite IncomingPacket_connect_complete. do 2 (split; [done|]).
  exists hp, hc, kp, kc. unfold connection_of in *. rewrite Hconn in Hnc, Hmc.
  assert (wants_connection_events c1 = wants_connection_events c) as Hw
    by (unfold wants_connection_events, le_event_unmasked; by rewrite Hmask, Hmask').
  rewrite Hw in Hec. rewrite Hap, Hoc, Hop, Hac, Hpp, Hpc. by repeat (split; [done|]).
Qed.

(** ** Reception returns *)

(** The scanner and the initiator that run have the address they are to use, and
    there is a handle left for a synchronisation. *)
Definition answering (c : LeController) : Prop :=
  (Scanner.scan_enable (scanner_ c) = true → random_address_missing c = false) ∧
  (Initiator.connect_enable (initiator_ c) = true → address_set (Initiator.own_address_type (initiator_ c)) c) ∧
  Z.of_nat (size (synchronized_ c)) < 2 ^ 16.
Definition answering_scan (c : LeController) : Prop :=
  answering c ∧ Scanner.scan_enable (scanner_ c) = true.

(** [m] returns from [P] to [P]. *)
Definition safe (P : LeController → Prop) {A} (m : M A) : Prop :=
  ∀ t c, P c → ∃ a c' out, m t c = Ok (a, c', out) ∧ P c'.

Section Safe.
Context {P : LeController → Prop}.
Lemma safe_ret {A} (a : A) : safe P (mret a).
Proof. intros t c Hc. by do 3 eexists. Qed.
Lemma safe_gets {A} (f : LeController → A) : safe P (gets f).
Proof. intros t c Hc. by do 3 eexists. Qed.
Lemma safe_output o : safe P (output o).
Proof. intros t c Hc. by do 3 eexists. Qed.
Lemma safe_bind {A B} (m : M A) (f : A → M B) : safe P m → (∀ a, safe P (f a)) → safe P (m ≫= f).
Proof.
  intros Hm Hf t c Hc. destruct (Hm t c Hc) as (a & c1 & o1 & E1 & H1).
  destruct (Hf a t c1 H1) as (b & c2 & o2 & E2 & H2). rewrite (run_bind _ _ _ _ _ _ _ E1), E2. by do 3 eexists.
Qed.
Lemma safe_when b m : safe P m → safe P (when b m).
Proof. destruct b; [done|]. intros _. apply safe_ret. Qed.
Lemma safe_for_each {A} (l : list A) body : (∀ x, safe P (body x)) → safe P (for_each l body).
Proof. intros Hb. induction l as [|x l IH]; [apply safe_ret|]. by apply safe_bind. Qed.
Lemma safe_modify f : (∀ c, P c → P (f c)) → safe P (modify f).
Proof. intros Hf t c Hc. do 3 eexists. split; [done|auto]. Qed.
Lemma safe_unmasked e : safe P (c ← gets id; lift (IsLeEventUnmasked e c)).
Proof. intros t c Hc. autorewrite with run. rewrite IsLeEventUnmasked_Ok. by do 3 eexists. Qed.
Lemma safe_lift_unmasked e c : safe P (lift (IsLeEventUnmasked e c)).
Proof. intros t c' Hc. rewrite IsLeEventUnmasked_Ok. by do 3 eexists. Qed.
Lemma safe_event_when b e event : safe P (event_when b e event).
Proof. intros t c Hc. rewrite event_when_run. by do 3 eexists. Qed.
Lemma safe_send_extended_reports r data : safe P (send_extended_reports r data).
Proof. intros t c Hc. rewrite send_extended_reports_run. by do 3 eexists. Qed.
End Safe.

Lemma answering_now s c c' :
  scanner_now s c c' → Scanner.own_address_type s = Scanner.own_address_type (scanner_ c) →
  Scanner.scan_enable s = Scanner.scan_enable (scanner_ c) → answering c → answering c'.
Proof.
  unfold answering, random_address_missing. intros (l & n & -> & _) Ho He. cbn. by rewrite Ho, He.
Qed.
Lemma answering_scan_now s c c' :
  scanner_now s c c' → Scanner.own_address_type s = Scanner.own_address_type (scanner_ c) →
  Scanner.scan_enable s = Scanner.scan_enable (scanner_ c) → answering_scan c → answering_scan c'.
Proof.
  intros Hn Ho He [Hc Hs]. split; [by eapply answering_now|]. by rewrite (now_scanner Hn), He.
Qed.
Lemma safe_resolve_or_keep a : safe answering_scan (resolve_or_keep a).
Proof.
  intros t c Hc. unfold resolve_or_keep. rewrite run_pure. do 3 eexists. split; [done|].
  by eapply answering_scan_now; [apply now_learnt|..].
Qed.
Lemma safe_set_scanner f :
  (∀ s, Scanner.own_address_type (f s) = Scanner.own_address_type s ∧ Scanner.scan_enable (f s) = Scanner.scan_enable s) →
  safe answering_scan (modify (set_scanner f)).
Proof.
  intros Hf. apply safe_modify. intros c. destruct (Hf (scanner_ c)).
  apply (answering_scan_now (f (scanner_ c)) c); [apply scanner_now_set, scanner_now_refl|done..].
Qed.
Lemma safe_check_duplicate bytes : safe answering_scan (check_duplicate bytes).
Proof.
  intros t c Hc. rewrite check_duplicate_run. do 3 eexists. split; [done|].
  eapply answering_scan_now; [apply scanner_now_set, scanner_now_refl|by rewrite remember_settings..|done].
Qed.
Lemma safe_request_scan b report a r connectable extended primary secondary :
  safe answering_scan (request_scan b report a r connectable extended primary secondary).
Proof.
  unfold request_scan. apply safe_bind; [apply safe_gets|]. intros s. apply safe_when. intros t c Hc.
  destruct Hc as [Hc He]. rewrite send_scan_request_run by (apply scanner_address_set; by apply Hc).
  do 3 eexists. split; [done|].
  eapply answering_scan_now; [apply scanner_now_set, now_generated|done..|done].
Qed.

(** The handlers of the scanner. *)
Lemma safe_when_scanning (body : LeController → M ()) :
  (∀ c, safe answering_scan (body c)) →
  safe answering (c ← gets id; if negb (Scanner.IsEnabled (scanner_ c)) then mret () else body c).
Proof.
  intros Hb t c Hc. autorewrite with run. unfold id.
  destruct (Scanner.IsEnabled (scanner_ c)) eqn:He; cbn [negb]; [|by do 3 eexists].
  destruct (Hb c t c (conj Hc He)) as (a & c' & out & E & Hc' & _). by exists a, c', out.
Qed.

Ltac safe_step :=
  lazymatch goal with
  | |- safe _ (let _ := _ in _) => cbv zeta
  | |- safe _ (mret _) => apply safe_ret
  | |- safe _ (_ ≫= _) => apply safe_bind; [|intros ?]
  | |- safe _ (gets _) => apply safe_gets
  | |- safe _ (output _) => apply safe_output
  | |- safe _ (when _ _) => apply safe_when
  | |- safe _ (for_each _ _) => apply safe_for_each; intros ?
  | |- safe _ (lift (IsLeEventUnmasked _ _)) => apply safe_lift_unmasked
  | |- safe _ (event_when _ _ _) => apply safe_event_when
  | |- safe _ (send_extended_reports _ _) => apply safe_send_extended_reports
  | |- safe _ (SendLeLinkLayerPacket _ _) => apply safe_output
  | |- safe _ (resolve_or_keep _) => apply safe_resolve_or_keep
  | |- safe _ (check_duplicate _) => apply safe_check_duplicate
  | |- safe _ (request_scan _ _ _ _ _ _ _ _) => apply safe_request_scan
  | |- safe _ (modify (set_scanner _)) => by apply safe_set_scanner
  | |- safe _ (match ?x with _ => _ end) => destruct x
  end.

Lemma safe_scan_legacy a target type data bytes rssi :
  safe answering (ScanIncomingLeLegacyAdvertisingPdu a target type data bytes rssi).
Proof. apply safe_when_scanning. intros _. repeat safe_step. Qed.
Lemma safe_scan_response a data bytes rssi : safe answering (IncomingLeScanResponsePacket a data bytes rssi).
Proof. apply safe_when_scanning. intros c. repeat safe_step. Qed.
Lemma safe_scan_extended a target pdu bytes rssi primary secondary :
  pdu_primary_phy pdu = Some primary → pdu_secondary_phy pdu = Some secondary →
  safe answering (ScanIncomingLeExtendedAdvertisingPdu a target pdu bytes rssi).
Proof.
  intros Hp Hs. apply safe_when_scanning. intros c. rewrite Hp, Hs. unfold read_phy.
  assert (∀ {A} (x : A), safe answering_scan (lift (Ok x))) as Hlift by (intros A x t d Hd; by do 3 eexists).
  destruct (negb _); [apply safe_ret|]. do 2 (apply safe_bind; [apply Hlift|intros ?]). repeat safe_step.
Qed.

Lemma request_connection_answers a target directed t c :
  answering c → address_set (Initiator.own_address_type (initiator_ c)) c →
  ∃ c' out, request_connection a target directed t c = Ok ((), c', out) ∧ answering c'.
Proof.
  intros Hc Hset. unfold request_connection. rewrite run_resolve_or_keep. autorewrite with run. unfold id.
  pose proof (now_learnt a c) as Hl. set (c1 := learnt a c) in *. set (r := resolved a c) in *.
  assert (answering c1) as Hc1 by by eapply answering_now.
  destruct (negb (initiator_accepts r c1)); [by do 2 eexists|].
  destruct (directed && _); [by do 2 eexists|]. rewrite run_pure.
  pose proof (now_generated r Local c1) as Hg.
  destruct (GenerateResolvablePrivateAddress r Local c1) as [o c2]. cbn [fst snd] in *.
  rewrite (now_scanner Hl) in Hg. pose proof (scanner_now_trans _ _ _ _ _ Hl Hg) as H2.
  rewrite (now_initiator Hl). erewrite run_bind by (apply choose_address_run; by apply (now_address_set H2)).
  autorewrite with run. do 2 eexists. split; [reflexivity|].
  assert (answering c2) as (Hs & Hi & Hz) by by eapply answering_now. by split.
Qed.

Lemma safe_connect_legacy a target type : safe answering (ConnectIncomingLeLegacyAdvertisingPdu a target type).
Proof.
  intros t c Hc. unfold ConnectIncomingLeLegacyAdvertisingPdu. autorewrite with run. unfold Initiator.IsEnabled.
  destruct (Initiator.connect_enable (initiator_ c)) eqn:He; cbn [negb orb]; [|by do 3 eexists].
  destruct (_ || _); [by do 3 eexists|].
  destruct (request_connection_answers a target (is_directed type) t c Hc) as (c' & out & -> & ?);
    [by apply Hc|by do 3 eexists].
Qed.
Lemma safe_connect_extended a target pdu : safe answering (ConnectIncomingLeExtendedAdvertisingPdu a target pdu).
Proof.
  intros t c Hc. unfold ConnectIncomingLeExtendedAdvertisingPdu. autorewrite with run.
  unfold Initiator.IsEnabled, id.
  destruct (Initiator.connect_enable (initiator_ c)) eqn:He; cbn [negb orb]; [|by do 3 eexists].
  destruct (_ || _); [by do 3 eexists|].
  destruct (request_connection_answers a target (pdu_directed pdu) t c Hc) as (c' & out & -> & ?);
    [by apply Hc|by do 3 eexists].
Qed.

Lemma safe_report_syncs type a sid tx rssi data : safe answering (report_syncs type a sid tx rssi data).
Proof.
  unfold report_syncs. apply safe_bind; [apply safe_gets|]. intros m. apply safe_for_each. intros [h k].
  apply safe_when. intros t c Hc. rewrite report_sync_run. do 3 eexists. split; [done|].
  destruct Hc as (? & ? & Hz). do 2 (split; [done|]). cbn.
  destruct (synchronized_ c !! h) as [x|] eqn:E; [|by rewrite alter_None].
  rewrite (alter_Some _ _ _ _ E), map_size_insert, E. done.
Qed.

Lemma periodic_returns a sid tx interval data rssi t c :
  answering c → ∃ c' out, IncomingLePeriodicAdvertisingPdu a sid tx interval data rssi t c = Ok ((), c', out).
Proof.
  intros Hc. unfold IncomingLePeriodicAdvertisingPdu. autorewrite with run. unfold id.
  destruct (negb _); [by do 2 eexists|]. destruct (negb _); [by do 2 eexists|].
  rewrite run_resolve_or_keep. autorewrite with run. unfold id.
  pose proof (now_learnt a c) as Hl. set (c1 := learnt a c) in *. set (r := resolved a c) in *.
  assert (answering c1) as Hc1 by by eapply answering_now.
  assert (∀ type a, ∃ c' out, report_syncs type a sid tx rssi data t c1 = Ok ((), c', out)) as Hreport.
  { intros type x. destruct (safe_report_syncs type x sid tx rssi data t c1 Hc1) as ([] & c' & out & -> & _).
    by do 2 eexists. }
  destruct (synchronizing_ c1) as [k|]; [|apply Hreport].
  destruct (matches_synchronizing _ _ _ _); [|apply Hreport].
  unfold establish_sync. autorewrite with run. unfold id.
  destruct (unused_sync_handle_least (synchronized_ c1)) as (h & _ & _ & _ & ->); [apply Hc1|].
  autorewrite with run. by do 2 eexists.
Qed.

Lemma safe_scan_request own a : safe answering (IncomingLeScanPacket own a).
Proof.
  unfold IncomingLeScanPacket. apply safe_bind.
  - intros t c Hc. unfold pure. pose proof (now_learnt own c) as Hl. unfold learnt in Hl.
    destruct (ResolvePrivateAddress own c) as [o c1]. do 3 eexists. split; [done|]. by eapply answering_now.
  - intros o. unfold ProcessIncomingLegacyScanRequest, ProcessIncomingExtendedScanRequest. repeat safe_step.
Qed.

(** A packet of advertising or scanning that sets all the fields the code reads. *)
Definition is_advertising (packet : LinkLayerPacket) : bool :=
  match packet with
  | LeScan _ _ _ _ | LeScanResponse _ _ _ _ | LeLegacyAdvertisingPdu _ _ _ _ _ _
  | LePeriodicAdvertisingPdu _ _ _ _ _ _ _ => true
  | LeExtendedAdvertisingPdu _ _ _ _ _ _ _ _ _ primary secondary _ _ => has_value primary && has_value secondary
  | _ => false
  end.

Lemma advertising_answered packet rssi t c :
  is_advertising packet = true → answering c →
  ∃ c' out, IncomingPacket packet rssi t c = Ok ((), c', out).
Proof.
  assert (∀ m : M (), safe answering m → answering c → ∃ c' out, m t c = Ok ((), c', out)) as Hsafe.
  { intros m Hm Hc. destruct (Hm t c Hc) as ([] & c' & out & -> & _). by do 2 eexists. }
  destruct packet; intros [=]; cbn [IncomingPacket]; try apply periodic_returns.
  - apply Hsafe. apply safe_bind; [apply safe_scan_legacy|intros _; apply safe_connect_legacy].
  - destruct primary_phy as [primary|], secondary_phy as [secondary|]; try done. apply Hsafe.
    apply safe_bind; [by eapply safe_scan_extended|intros _; apply safe_connect_extended].
  - apply Hsafe, safe_scan_request.
  - apply Hsafe, safe_scan_response.
Qed.

(** The reception of advertising never aborts. In every state a controller can
    reach, whatever is advertised and whoever scans or answers a scan, the handler
    returns and keeps the invariant, unless the controller initiates with the own address type Resolvable or
    Random and has no random address, or all [2^16] handles of
    synchronisations are in use. *)
Theorem advertising_received (clock : nat → Z) (address : Address) (p : ControllerProperties) (s : Machine)
    (packet : LinkLayerPacket) (rssi t : Z) (Hp : properties_wf p)
    (Hreach : rtc (machine_step clock) (new_machine address p) s)
    (Hpacket : is_advertising packet = true)
    (Hinit : Initiator.connect_enable (initiator_ (controller (fst s))) = true →
       Initiator.own_address_type (initiator_ (controller (fst s))) = OwnAddressType.RESOLVABLE_OR_RANDOM_ADDRESS →
       random_address_ (controller (fst s)) ≠ kEmpty)
    (Hroom : Z.of_nat (size (synchronized_ (controller (fst s)))) < 2 ^ 16) :
  ∃ c' out, IncomingPacket packet rssi t (controller (fst s)) = Ok ((), c', out) ∧ controller_wf c'.
Proof.
  pose proof (mwf_controller _ (reachable_wf clock address p s Hp Hreach)) as Hwf. set (c := controller _) in *.
  assert (answering c) as Hc.
  { destruct (cwf_addresses _ Hwf) as [Hs Hi]. split; [exact Hs|]. split; [|exact Hroom].
    intros He. unfold address_set, uses_random. destruct (Initiator.own_address_type _) eqn:Eo; try done; auto. }
  destruct (advertising_answered packet rssi t c Hpacket Hc) as (c' & out & E). exists c', out.
  split; [done|]. by eapply (keeps_IncomingPacket packet rssi).
Qed.
End Steps.

(** ** Examples *)

#[local] Existing Instance example_environment.

(** The device 1 advertises to all, and the device 2 scans actively. *)
Definition advertising_device : LeController :=
  idle <| legacy_advertiser_ ::= λ a,
    a <| LegacyAdvertiser.advertising_enable := true |>
      <| LegacyAdvertiser.advertising_address := public 1 |>
      <| LegacyAdvertiser.advertising_data := [2; 1; 6] |>
      <| LegacyAdvertiser.scan_response_data := [3; 9; 82; 67] |> |>.
Definition second_device : LeController :=
  (new_controller (example_address 2) example_properties)
    <| event_mask_ := 2 ^ 64 - 1 |> <| le_event_mask_ := 2 ^ 64 - 1 |>.
Definition scanning_device : LeController :=
  second_device <| legacy_advertising_in_use_ := true |>
    <| scanner_ ::= λ s,
      s <| Scanner.scan_enable := true |> <| Scanner.filter_duplicates := FilterDuplicates.ENABLED |>
        <| Scanner.le_1m_phy := Scanner.MkPhyParameters true LeScanType.ACTIVE 0x20 0x10 |> |>.

(** The host of the scanner hears the data, then the data of the scan response. *)
Lemma active_scan_witness :
  ∃ s1 out2 request adv2 out3 response s2 out4,
  IncomingPacket (legacy_pdu (legacy_advertiser_ advertising_device)) 0 0 scanning_device = Ok ((), s1, out2) ∧
  host_events out2 = [LeAdvertisingReport (MkLeAdvertisingResponse AdvertisingEventType.ADV_IND
    AddressType.PUBLIC_DEVICE_ADDRESS (example_address 1) [2; 1; 6] 0)] ∧
  IncomingPacket request 0 0 (advertising_device <| legacy_advertiser_ ::= advertised 0 |>) = Ok ((), adv2, out3) ∧
  sent_packets out3 = [response] ∧
  IncomingPacket response 0 0 s1 = Ok ((), s2, out4) ∧
  (is_fresh (packet_bytes response) (scanner_ s1) = true →
   host_events out4 = [LeAdvertisingReport (MkLeAdvertisingResponse AdvertisingEventType.SCAN_RESPONSE
     AddressType.PUBLIC_DEVICE_ADDRESS (example_address 1) [3; 9; 82; 67] 0)]).
Proof.
  destruct (active_scan 0 0 0 0 0 0 advertising_device scanning_device) as
    (adv1 & out1 & E1 & _ & s1 & out2 & request & E2 & Hev2 & _ & adv2 & out3 & response & E3 & Hs3 & _ & _ &
     s2 & out4 & E4 & _ & Hev4 & _).
  - split; vm_compute; [reflexivity|discriminate].
  - repeat split; vm_compute; reflexivity.
  - reflexivity.
  - repeat split; vm_compute; reflexivity.
  - reflexivity.
  - exists s1, out2, request, adv2, out3, response, s2, out4. split; [exact E2|].
    split; [rewrite Hev2; vm_compute; reflexivity|].
    rewrite legacy_advertising_event_due in E1 by (split; vm_compute; [reflexivity|discriminate]).
    injection E1 as <- _. split; [exact E3|]. split; [exact Hs3|]. split; [exact E4|].
    intros Hf. rewrite Hev4, Hf. vm_compute. reflexivity.
Defined.

(** Advertising of 300 bytes. *)
Definition extended_scanning_device : LeController :=
  second_device <| extended_advertising_in_use_ := true |>
    <| scanner_ ::= λ s,
      s <| Scanner.scan_enable := true |>
        <| Scanner.le_1m_phy := Scanner.MkPhyParameters true LeScanType.PASSIVE 0x20 0x10 |> |>.
Definition long_pdu : ExtendedPdu :=
  MkExtendedPdu false false false 1 0 (Some LlPhyType.LE_1M) (Some LlPhyType.LE_2M) 0 (replicate 300 7).
Lemma extended_report_reassembly_witness :
  ∃ c' out reports, ScanIncomingLeExtendedAdvertisingPdu (public 1) empty_address long_pdu [] 0 0
    extended_scanning_device = Ok ((), c', out) ∧
  host_events out = LeExtendedAdvertisingReport <$> reports ∧
  concat (ext_advertising_data <$> reports) = replicate 300 7.
Proof.
  destruct (extended_report_reassembly (public 1) empty_address long_pdu [] LlPhyType.LE_1M LlPhyType.LE_2M
    0 0 extended_scanning_device) as (c' & out & reports & E & Hev & Hd & _).
  - constructor; try (vm_compute; reflexivity). discriminate.
  - by exists c', out, reports.
Defined.

(** The device 2 synchronises with the periodic advertising of the device 1. *)
Definition synchronizing_device : LeController :=
  extended_scanning_device <| synchronizing_ := Some (Synchronizing.MkSynchronizing
    (MkPeriodicAdvertisingOptions false false false) AdvertiserAddressType.PUBLIC_DEVICE_OR_IDENTITY_ADDRESS
    (example_address 1) 4 (milliseconds 500)) |>.
Lemma periodic_synchronization_witness :
  let pdu := LePeriodicAdvertisingPdu (example_address 1) kEmpty AddressType.PUBLIC_DEVICE_ADDRESS 4 0 80 in
  ∃ c1 out1 h c2 out2, IncomingPacket (pdu [1]) 0 0 synchronizing_device = Ok ((), c1, out1) ∧
  host_events out1 = [established_event h 4 80 (public 1)] ∧
  IncomingPacket (pdu [2; 3]) 0 5 c1 = Ok ((), c2, out2) ∧
  Synchronized.timeout <$> synchronized_ c2 !! h = Some (5 + milliseconds 500).
Proof.
  intros pdu.
  destruct (periodic_synchronization (example_address 1) kEmpty AddressType.PUBLIC_DEVICE_ADDRESS 4 0 80 0 0 5
    [1] [2; 3] synchronizing_device (Synchronizing.MkSynchronizing
    (MkPeriodicAdvertisingOptions false false false) AdvertiserAddressType.PUBLIC_DEVICE_OR_IDENTITY_ADDRESS
    (example_address 1) 4 (milliseconds 500))) as
    (c1 & out1 & h & E1 & He1 & _ & _ & _ & _ & _ & c2 & out2 & E2 & _ & Hs2 & _).
  - split; reflexivity.
  - split; vm_compute; reflexivity.
  - vm_compute. reflexivity.
  - intros i k' Hi. discriminate Hi.
  - exists c1, out1, h, c2, out2. split; [exact E1|]. split; [exact He1|]. split; [exact E2|].
    rewrite Hs2, lookup_insert_eq. reflexivity.
Defined.

(** The device 2 connects to the device 1. *)
Definition initiating_device : LeController :=
  snd (LeCreateConnection 0x60 0x30 InitiatorFilterPolicy.USE_PEER_ADDRESS (public 1)
    OwnAddressType.PUBLIC_DEVICE_ADDRESS 0x18 0x28 0 0x2a 0 0 second_device).
Lemma advertising_connection_witness :
  ∃ c1 out2 request, IncomingPacket (legacy_pdu (legacy_advertiser_ advertising_device)) 0 0 initiating_device =
    Ok ((), c1, out2) ∧ sent_packets out2 = [request] ∧
  Initiator.pending_connect_request (initiator_ c1) = Some (public 1).
Proof.
  assert (∀ c, connections_ c = empty_handler → ll_ c = [] → can_connect c) as Hcan.
  { intros c Hc Hl. apply (linked_can_connect (laws := example_link_laws)).
    - split; [rewrite Hc; apply empty_handler_wf|]. rewrite Hc, Hl. symmetry. apply dom_empty_L.
    - exists 0x200. rewrite Hc. split; [by vm_compute|reflexivity]. }
  destruct (advertising_connection 0 0 0 0 0 advertising_device initiating_device) as
    (p1 & out1 & _ & _ & c1 & out2 & request & E & Hs & Hp & _).
  - apply Hcan; reflexivity.
  - apply Hcan; reflexivity.
  - split; vm_compute; [reflexivity|discriminate].
  - repeat split; vm_compute; reflexivity.
  - repeat split; vm_compute; try reflexivity. discriminate.
  - reflexivity.
  - by exists c1, out2, request.
Defined.

(** The controller that was connected and encrypts receives advertising. *)
Lemma advertising_received_witness :
  ∃ c' out, IncomingPacket (legacy_pdu (legacy_advertiser_ advertising_device)) 0 0
    (controller (fst encrypting_machine)) = Ok ((), c', out) ∧ controller_wf c'.
Proof.
  apply (advertising_received example_clock (example_address 1) example_properties encrypting_machine).
  - vm_compute. repeat split; discriminate.
  - exact encrypting_reachable.
  - reflexivity.
  - vm_compute. discriminate.
  - vm_compute. reflexivity.
Defined.

(** Through the filter accept list, [LE Create Connection] succeeds with the own
    address type Resolvable or Random though there is no random address; then
    the first connectable packet from a listed device aborts. *)
Example resolvable_or_random_aborts :
  let c := snd (LeAddDeviceToFilterAcceptList FilterAcceptListAddressType.PUBLIC (example_address 1) second_device) in
  let '(status, c) := LeCreateConnection 0x60 0x30 InitiatorFilterPolicy.USE_FILTER_ACCEPT_LIST_WITH_PEER_ADDRESS
    empty_address OwnAddressType.RESOLVABLE_OR_RANDOM_ADDRESS 0x18 0x28 0 0x2a 0 0 c in
  status = ErrorCode.SUCCESS ∧
  IncomingPacket (legacy_pdu (legacy_advertiser_ advertising_device)) 0 0 c = Fatal.
Proof. vm_compute. by split. Qed.

(** Through the periodic advertiser list, a second synchronisation with the same
    advertising train can be asked for, and is established. *)
Example second_synchronization :
  let t := AdvertiserAddressType.PUBLIC_DEVICE_OR_IDENTITY_ADDRESS in
  let pdu := LePeriodicAdvertisingPdu (example_address 1) kEmpty AddressType.PUBLIC_DEVICE_ADDRESS 4 0 80 [1] in
  let c := snd (LeAddDeviceToPeriodicAdvertiserList t (example_address 1) 4 extended_scanning_device) in
  let create := LePeriodicAdvertisingCreateSync (MkPeriodicAdvertisingOptions true false false) 0 t kEmpty 50 0 in
  match IncomingPacket pdu 0 0 (snd (create c)) with
  | Ok (_, c1, _) =>
      match IncomingPacket pdu 0 0 (snd (create c1)) with
      | Ok (_, c2, _) => Some (fst (create c1), Synchronized.advertiser_address <$> synchronized_ c2 !! 0,
                               Synchronized.advertiser_address <$> synchronized_ c2 !! 1)
      | _ => None
      end
  | _ => None
  end = Some (ErrorCode.SUCCESS, Some (example_address 1), Some (example_address 1)).
Proof. vm_compute. reflexivity. Qed.
