(* ===== verification/BrState.v ===== *)
(** * The state of the BR/EDR controller (bredr_controller.h)

    Its packets, events and deferred callbacks, its record, the link manager
    library as a parameter, and the monad of its handlers: everything a handler
    reads or changes (the task queue, the clock and what was sent included) is in
    the state. *)

From S2P Require Import Prelude HciTypes Properties Address Sco Connections Tasks.

(** ** Packets and events *)

(** The packets of packets/link_layer_packets.pdl that travel on [Phy::Type::BR_EDR]. *)
Inductive Payload :=
| Acl (packet_boundary_flag broadcast_flag : Z) (data : list Z)
| Sco (data : list Z)
| Disconnect (reason : Z)
| Lmp (payload : list Z)
| Inquiry (inquiry_type lap : Z)
| InquiryResponse (page_scan_repetition_mode class_of_device clock_offset : Z)
| InquiryResponseWithRssi (page_scan_repetition_mode class_of_device clock_offset rssi : Z)
| ExtendedInquiryResponse (page_scan_repetition_mode class_of_device clock_offset rssi : Z)
    (extended_inquiry_response : list Z)
| Page (class_of_device allow_role_switch : Z)
| PageResponse (try_role_switch : Z)
| PageReject (reason : Z)
| ReadClockOffset
| ReadClockOffsetResponse (offset : Z)
| ReadRemoteSupportedFeatures
| ReadRemoteSupportedFeaturesResponse (features : Z)
| ReadRemoteLmpFeatures
| ReadRemoteLmpFeaturesResponse (features : Z)
| ReadRemoteExtendedFeatures (page_number : Z)
| ReadRemoteExtendedFeaturesResponse (status page_number max_page_number features : Z)
| ReadRemoteVersionInformation
| ReadRemoteVersionInformationResponse (lmp_version lmp_subversion manufacturer_name : Z)
| RemoteNameRequest
| RemoteNameRequestResponse (name : list Z)
| ScoConnectionRequest (transmit_bandwidth receive_bandwidth max_latency voice_setting
    retransmission_effort packet_type class_of_device : Z)
| ScoConnectionResponse (status transmission_interval retransmission_window rx_packet_length
    tx_packet_length air_mode : Z) (extended : bool)
| ScoDisconnect (reason : Z)
| PingRequest
| PingResponse
| RoleSwitchRequest
| RoleSwitchResponse (status : Z)
(** A packet of a type the controller does not handle. *)
| OtherPacket (type : Z).
Record LinkLayerPacket := MkPacket {
  source_address : Address;
  destination_address : Address;
  payload : Payload;
}.

(** The events of packets/hci_packets.pdl that this controller sends.  A status
    or reason that may come from a packet is an 8 bit number. *)
Inductive HciEvent :=
| InquiryComplete (status : Z)
| InquiryResult (bd_addr : Address) (page_scan_repetition_mode class_of_device clock_offset : Z)
| InquiryResultWithRssi (address : Address)
    (page_scan_repetition_mode class_of_device clock_offset rssi : Z)
| ExtendedInquiryResult (address : Address)
    (page_scan_repetition_mode class_of_device clock_offset rssi : Z) (response : list Z)
| ConnectionComplete (status connection_handle : Z) (bd_addr : Address) (link_type : LinkType.t)
| ConnectionRequest (bd_addr : Address) (class_of_device : Z) (link_type : ConnectionRequestLinkType.t)
| DisconnectionComplete (status connection_handle reason : Z)
| RemoteNameRequestComplete (status : Z) (bd_addr : Address) (remote_name : list Z)
| RemoteHostSupportedFeaturesNotification (bd_addr : Address) (host_supported_features : Z)
| ReadRemoteSupportedFeaturesComplete (status connection_handle lmp_features : Z)
| ReadRemoteExtendedFeaturesComplete (status connection_handle page_number max_page_number
    extended_lmp_features : Z)
| ReadRemoteVersionInformationComplete (status connection_handle version manufacturer_name
    sub_version : Z)
| ReadClockOffsetComplete (status connection_handle clock_offset : Z)
| RoleChange (status : Z) (bd_addr : Address) (new_role : Role.t)
| ConnectionPacketTypeChanged (status connection_handle packet_type : Z)
| QosSetupComplete (status connection_handle service_type token_rate peak_bandwidth latency
    delay_variation : Z)
| NumberOfCompletedPackets (connection_handle host_num_of_completed_packets : Z)
| SynchronousConnectionComplete (status connection_handle : Z) (bd_addr : Address)
    (link_type : ScoLinkType.t) (transmission_interval_slots retransmission_window_slots
    rx_packet_length tx_packet_length air_mode : Z)
(** An event given by its code and its parameters: by the link manager library, or
    by the host in [RootcanalSendHciEvent]. *)
| LinkManagerEvent (event_code : Z) (parameters : list Z).

(** What leaves the controller: [send_event_], [send_acl_], [send_sco_],
    [send_to_remote_]. *)
Inductive Emission :=
| EmitEvent (event : HciEvent)
| EmitAcl (handle packet_boundary_flag broadcast_flag : Z) (data : list Z)
| EmitSco (handle : Z) (data : list Z)
| EmitPacket (packet : LinkLayerPacket) (tx_power : Z).

(** The callbacks given to [ScheduleTask], with the values they capture. *)
Inductive TaskCallback :=
| SendToRemote (packet : LinkLayerPacket) (tx_power : Z)
| SendEvent (event : HciEvent)
| RejectPeripheralConnectionLater (addr : Address) (reason : Z)
| ConnectionPacketTypeChangedLater (connection_handle packet_type : Z)
| CheckExpiringConnectionLater (handle : Z)
| SendScoToRemoteLater (handle : Z) (data : list Z)
(** Scheduled by the dual mode controller. *)
| SendAclLater (handle packet_boundary_flag broadcast_flag : Z) (data : list Z).

(** ** The link manager

    A library in Rust behind the functions of rust/include/rootcanal_rs.h.  A call
    is a finite program over the callbacks of [ControllerOps]: what it asks and
    sends is decided by its own state and the answers. *)
Inductive LmProgram (A : Type) : Type :=
| LmReturn (a : A)
| LmGetHandle (address : Address) (k : Z → LmProgram A)
| LmGetAddress (handle : Z) (k : Address → LmProgram A)
| LmGetExtendedFeatures (features_page : Z) (k : Z → LmProgram A)
| LmSendHciEvent (event_code : Z) (parameters : list Z) (k : LmProgram A)
| LmSendLmpPacket (to : Address) (data : list Z) (k : LmProgram A).
Arguments LmReturn {A}.
Arguments LmGetHandle {A}.
Arguments LmGetAddress {A}.
Arguments LmGetExtendedFeatures {A}.
Arguments LmSendHciEvent {A}.
Arguments LmSendLmpPacket {A}.

Class LinkManager := {
  lm_state : Type;
  link_manager_create : lm_state;
  link_manager_add_link : Address → lm_state → LmProgram (bool * lm_state);
  link_manager_remove_link : Address → lm_state → LmProgram (bool * lm_state);
  link_manager_ingest_hci : list Z → lm_state → LmProgram (bool * lm_state);
  link_manager_ingest_lmp : Address → list Z → lm_state → LmProgram (bool * lm_state);
  link_manager_tick : lm_state → LmProgram lm_state;
}.

(** What the code runs in: the library, the order of the hash tables, and the
    successive values of [steady_clock::now()]. *)
Class Environment := {
  env_lm :: LinkManager;
  env_order :: IterationOrder;
  clock : nat → Z;
}.

(** ** The controller *)

Record PageState := MkPageState {
  page_bd_addr : Address;
  page_allow_role_switch : Z;
  next_page_event : Z;
  page_timeout : Z;
}.
#[export] Instance PageState_rebuild : Rebuild PageState := λ p,
  MkPageState (page_bd_addr p) (page_allow_role_switch p) (next_page_event p) (page_timeout p).
Record PageScanState := MkPageScanState {
  page_scan_bd_addr : Address;
  authentication_required : bool;
  page_scan_allow_role_switch : Z;
}.
Record InquiryState := MkInquiryState {
  inquiry_lap : Z;
  num_responses : Z;
  next_inquiry_event : Z;
  inquiry_timeout : Z;
}.
#[export] Instance InquiryState_rebuild : Rebuild InquiryState := λ i,
  MkInquiryState (inquiry_lap i) (num_responses i) (next_inquiry_event i) (inquiry_timeout i).

Section State.
Context {env : Environment}.

Record BrEdrController := MkBrEdrController {
  address_ : Address;
  properties_ : ControllerProperties;
  host_supported_features_ : Z;
  le_host_support_ : bool;
  secure_simple_pairing_host_support_ : bool;
  secure_connections_host_support_ : bool;
  page_scan_enable_ : bool;
  inquiry_scan_enable_ : bool;
  inquiry_scan_interval_ : Z;
  inquiry_scan_window_ : Z;
  inquiry_mode_ : Z;
  page_timeout_ : Z;
  connection_accept_timeout_ : Z;
  page_scan_interval_ : Z;
  page_scan_window_ : Z;
  voice_setting_ : Z;
  authentication_enable_ : AuthenticationEnable.t;
  default_link_policy_settings_ : Z;
  sco_flow_control_enable_ : bool;
  local_name_ : list Z;
  extended_inquiry_response_ : list Z;
  class_of_device_ : Z;
  current_iac_lap_list_ : list Z;
  min_encryption_key_size_ : Z;
  event_mask_ : Z;
  event_mask_page_2_ : Z;
  page_scan_repetition_mode_ : PageScanRepetitionMode.t;
  connections_ : AclConnectionHandler;
  oob_id_ : Z;
  key_id_ : Z;
  lm_ : lm_state;
  page_ : option PageState;
  page_scan_ : option PageScanState;
  inquiry_ : option InquiryState;
  (** [task_queue_] and [task_counter_]. *)
  tasks : TaskQueue TaskCallback;
  (** How often the clock was read. *)
  readings : nat;
  (** What was sent so far. *)
  emitted : list Emission;
}.
#[global] Instance BrEdrController_rebuild : Rebuild BrEdrController := λ c,
  MkBrEdrController (address_ c) (properties_ c) (host_supported_features_ c) (le_host_support_ c)
    (secure_simple_pairing_host_support_ c) (secure_connections_host_support_ c)
    (page_scan_enable_ c) (inquiry_scan_enable_ c) (inquiry_scan_interval_ c)
    (inquiry_scan_window_ c) (inquiry_mode_ c) (page_timeout_ c) (connection_accept_timeout_ c)
    (page_scan_interval_ c) (page_scan_window_ c) (voice_setting_ c) (authentication_enable_ c)
    (default_link_policy_settings_ c) (sco_flow_control_enable_ c) (local_name_ c)
    (extended_inquiry_response_ c) (class_of_device_ c) (current_iac_lap_list_ c)
    (min_encryption_key_size_ c) (event_mask_ c) (event_mask_page_2_ c)
    (page_scan_repetition_mode_ c) (connections_ c) (oob_id_ c) (key_id_ c) (lm_ c) (page_ c)
    (page_scan_ c) (inquiry_ c) (tasks c) (readings c) (emitted c).

Definition kLocalNameSize : nat := 248.
Definition kExtendedInquiryResponseSize : nat := 240.

(** The constructor and the default member initialisers. *)
Definition new_controller (address : Address) (properties : ControllerProperties) : BrEdrController :=
  MkBrEdrController address properties 0 false false false false false 0x1000 0x0012
    (InquiryType.to_Z InquiryType.STANDARD) 0x2000 0x1FA0 0x0800 0x0012 0x0060
    AuthenticationEnable.NOT_REQUIRED 0 false (replicate kLocalNameSize 0)
    (replicate kExtendedInquiryResponseSize 0) 0 [] 16 0x00001fffffffffff 0 PageScanRepetitionMode.R0
    empty_handler 1 1 link_manager_create None None None empty_queue 0 [].

(** ** Handlers *)

Definition M (A : Type) : Type := BrEdrController → outcome (A * BrEdrController).

#[global] Instance M_ret : MRet M := λ A a c, Ok (a, c).
#[global] Instance M_bind : MBind M := λ A B f m c, '(a, c) ← m c; f a c.

Definition gets {A} (f : BrEdrController → A) : M A := λ c, Ok (f c, c).
Definition modify (f : BrEdrController → BrEdrController) : M () := λ c, Ok ((), f c).
Definition lift {A} (m : outcome A) : M A := λ c, a ← m; Ok (a, c).
Definition now : M Z := λ c, Ok (clock (readings c), c <| readings ::= S |>).
Definition emit (e : Emission) : M () := modify (λ c, c <| emitted ::= λ l, l ++ [e] |>).
Definition send_event_ (event : HciEvent) : M () := emit (EmitEvent event).
Definition when (b : bool) (m : M ()) : M () := if b then m else mret ().

(** [for (auto x : l) { body }]. *)
Fixpoint for_each {A} (l : list A) (body : A → M ()) : M () :=
  match l with
  | [] => mret ()
  | x :: l => body x ≫= λ _, for_each l body
  end.

(** An operation of [connections_] with a result, one without, and an update. *)
Definition on_connections {A} (f : AclConnectionHandler → outcome (A * AclConnectionHandler)) : M A :=
  λ c, '(a, h) ← f (connections_ c); Ok (a, c <| connections_ := h |>).
Definition update_acl (handle : Z) (f : AclConnection → AclConnection) : M () :=
  modify (λ c, c <| connections_ ::= λ h, h <| acl_connections_ ::= alter f handle |> |>).

(** *** Tasks *)

Definition ScheduleTask (delay : Z) (task_callback : TaskCallback) : M Z :=
  t ← now;
  q ← gets tasks;
  '(id, q) ← lift (Tasks.ScheduleTask t delay task_callback q);
  _ ← modify (λ c, c <| tasks := q |>);
  mret id.
Definition SchedulePeriodicTask (delay period : Z) (task_callback : TaskCallback) : M Z :=
  t ← now;
  q ← gets tasks;
  '(id, q) ← lift (Tasks.SchedulePeriodicTask t delay period task_callback q);
  _ ← modify (λ c, c <| tasks := q |>);
  mret id.
Definition CancelScheduledTask (task_id : Z) : M () :=
  modify (λ c, c <| tasks ::= Tasks.CancelScheduledTask task_id |>).

Definition kNoDelayMs : Z := 0.
Definition kPageInterval : Z := 1000 * 1000000.
Definition kInquiryInterval : Z := 2000 * 1000000.

Definition schedule_event (event : HciEvent) : M () := _ ← ScheduleTask kNoDelayMs (SendEvent event); mret ().

(** The transmit power is an [int8_t]; every caller leaves it 0. *)
Definition SendLinkLayerPacket (packet : LinkLayerPacket) : M () :=
  _ ← ScheduleTask kNoDelayMs (SendToRemote packet 0); mret ().

(** *** Event masks and features *)

(** [UINT64_C(1) << (evt - 1)] with an 8 bit [evt]: undefined from 64 on. *)
Definition IsEventUnmasked (event : EventCode.t) : M bool := λ c,
  let evt := EventCode.to_Z event in
  if evt <=? 64 then Ok (negb (Z.land (event_mask_ c) (Z.shiftl 1 (evt - 1)) =? 0), c)
  else
    let evt := u8 (evt - 64) in
    if evt - 1 <? 64 then Ok (negb (Z.land (event_mask_page_2_ c) (Z.shiftl 1 (evt - 1)) =? 0), c)
    else Undef.

Definition GetMaxLmpFeaturesPageNumber (c : BrEdrController) : Z :=
  u8 (zlength (lmp_features (properties_ c)) - 1).
(** A page out of the array is read past its end. *)
Definition GetLmpFeatures (page_number : Z) (c : BrEdrController) : outcome Z :=
  if page_number =? 1 then Ok (host_supported_features_ c)
  else unchecked (lmp_features (properties_ c) !! Z.to_nat page_number).
Definition GetClockOffset : Z := 0.

(** *** The callbacks of the link manager *)

(** [get_handle] returns -1 as a [uint16_t] for an unknown address. *)
Definition lm_get_handle (address : Address) (c : BrEdrController) : Z :=
  default 0xffff (GetAclConnectionHandle address (connections_ c)).
Definition lm_get_address (handle : Z) (c : BrEdrController) : outcome Address :=
  if HasAclHandle handle (connections_ c) then
    connection ← GetAclConnection handle (connections_ c);
    Ok (AclConnection.address connection)
  else if HasLeAclHandle handle (connections_ c) then
    connection ← GetLeAclConnection handle (connections_ c);
    Ok (GetAddress (LeAclConnection.address connection))
  else Ok kEmpty.

Fixpoint run_lm {A} (p : LmProgram A) : M A :=
  match p with
  | LmReturn a => mret a
  | LmGetHandle address k => gets (lm_get_handle address) ≫= λ handle, run_lm (k handle)
  | LmGetAddress handle k =>
      gets (lm_get_address handle) ≫= λ address, lift address ≫= λ address, run_lm (k address)
  | LmGetExtendedFeatures page k =>
      gets (GetLmpFeatures page) ≫= λ features, lift features ≫= λ features, run_lm (k features)
  | LmSendHciEvent event_code parameters k =>
      send_event_ (LinkManagerEvent event_code parameters) ≫= λ _, run_lm k
  | LmSendLmpPacket to data k =>
      gets address_ ≫= λ source,
      SendLinkLayerPacket (MkPacket source to (Lmp data)) ≫= λ _, run_lm k
  end.

(** [link_manager_f(lm_.get(), ...)], and under [ASSERT]. *)
Definition call_lm (f : lm_state → LmProgram (bool * lm_state)) : M bool :=
  lm ← gets lm_;
  '(ok, lm) ← run_lm (f lm);
  _ ← modify (λ c, c <| lm_ := lm |>);
  mret ok.
Definition assert_lm (f : lm_state → LmProgram (bool * lm_state)) : M () :=
  ok ← call_lm f;
  lift (assert ok).
End State.

(** ** Running a handler step by step *)

Section Run.
Context {env : Environment}.
Implicit Types (c : BrEdrController).

Lemma exec_ret {A B} (a : A) (k : A → M B) c : (mret a ≫= k) c = k a c.
Proof. done. Qed.
Lemma exec_gets {A B} (f : BrEdrController → A) (k : A → M B) c : (gets f ≫= k) c = k (f c) c.
Proof. done. Qed.
Lemma exec_modify {B} f (k : () → M B) c : (modify f ≫= k) c = k () (f c).
Proof. done. Qed.
Lemma exec_lift {A B} (m : outcome A) (k : A → M B) c : (lift m ≫= k) c = (a ← m; k a c).
Proof. unfold mbind at 1, M_bind, lift. by destruct m. Qed.
Lemma exec_lift_Ok {A B} (a : A) (k : A → M B) c : (lift (Ok a) ≫= k) c = k a c.
Proof. done. Qed.
Lemma exec_now {B} (k : Z → M B) c : (now ≫= k) c = k (clock (readings c)) (c <| readings ::= S |>).
Proof. done. Qed.
Lemma exec_send_event {B} event (k : () → M B) c :
  (send_event_ event ≫= k) c = k () (c <| emitted ::= λ l, l ++ [EmitEvent event] |>).
Proof. done. Qed.
Lemma exec_assoc {A B D} (m : M A) (f : A → M B) (g : B → M D) c :
  ((m ≫= f) ≫= g) c = (m ≫= (λ a, f a ≫= g)) c.
Proof. unfold mbind, M_bind. by destruct (m c) as [[a c1]| | |]. Qed.
Lemma exec_bind {A B} (m : M A) (k : A → M B) c a c' : m c = Ok (a, c') → (m ≫= k) c = k a c'.
Proof. intros E. unfold mbind at 1, M_bind. by rewrite E. Qed.
Lemma exec_bind_ret {A} (m : M A) c : (m ≫= mret) c = m c.
Proof. unfold mbind, M_bind. by destruct (m c) as [[a c1]| | |]. Qed.

Lemma ScheduleTask_run delay callback c :
  ScheduleTask delay callback c =
    ('(id, q) ← Tasks.ScheduleTask (clock (readings c)) delay callback (tasks c);
     Ok (id, c <| readings ::= S |> <| tasks := q |>)).
Proof.
  unfold ScheduleTask. rewrite exec_now, exec_gets, exec_lift.
  apply outcome_bind_ext. by intros [id q].
Qed.
Lemma SendLinkLayerPacket_run packet c :
  SendLinkLayerPacket packet c =
    ('(_, q) ← Tasks.ScheduleTask (clock (readings c)) kNoDelayMs (SendToRemote packet 0) (tasks c);
     Ok ((), c <| readings ::= S |> <| tasks := q |>)).
Proof.
  unfold SendLinkLayerPacket. unfold mbind at 1, M_bind. rewrite ScheduleTask_run.
  by destruct (Tasks.ScheduleTask _ _ _ _) as [[id q]| | |].
Qed.
Lemma schedule_event_run event c :
  schedule_event event c =
    ('(_, q) ← Tasks.ScheduleTask (clock (readings c)) kNoDelayMs (SendEvent event) (tasks c);
     Ok ((), c <| readings ::= S |> <| tasks := q |>)).
Proof.
  unfold schedule_event. unfold mbind at 1, M_bind. rewrite ScheduleTask_run.
  by destruct (Tasks.ScheduleTask _ _ _ _) as [[id q]| | |].
Qed.

(** The mask bit of an event other than the vendor specific one. *)
Definition unmasked (event : EventCode.t) c : bool :=
  if EventCode.to_Z event <=? 64 then bit (event_mask_ c) (EventCode.to_Z event - 1)
  else bit (event_mask_page_2_ c) (EventCode.to_Z event - 65).
Lemma IsEventUnmasked_run event c :
  IsEventUnmasked event c =
    if bool_decide (event = EventCode.VENDOR_SPECIFIC) then Undef else Ok (unmasked event c, c).
Proof.
  unfold IsEventUnmasked, unmasked, bit.
  destruct event; cbn -[Z.land Z.shiftl Z.eqb Z.testbit]; try done; by rewrite land_bit.
Qed.
End Run.

(** ** An environment for examples: a link manager of seven slots that takes every packet *)

Definition example_link_manager : LinkManager := {|
  lm_state := list Address;
  link_manager_create := [];
  link_manager_add_link := λ peer s,
    if bool_decide (length s < 7)%nat then LmReturn (true, peer :: s) else LmReturn (false, s);
  link_manager_remove_link := λ peer s,
    if bool_decide (peer ∈ s) then LmReturn (true, List.filter (λ a, negb (bool_decide (a = peer))) s)
    else LmReturn (false, s);
  link_manager_ingest_hci := λ _ s, LmReturn (true, s);
  link_manager_ingest_lmp := λ _ _ s, LmReturn (true, s);
  link_manager_tick := λ s, LmReturn s;
|}.
Definition example_environment : Environment := {|
  env_lm := example_link_manager;
  env_order := key_order;
  clock := λ n, Z.of_nat n * 1000;
|}.
