(* ===== verification/BaseBand.v ===== *)
(** * The baseband sniffer (model/devices/baseband_sniffer.cc, .h)

    A device that writes the BR/EDR pages and LMP packets it receives to a capture file, as the
    baseband packets they stand for, with the header check of the Core specification (Vol 2,
    Part B, 7.1.1).  Writing the bytes of a baseband packet is generated code, a parameter. *)

From S2P Require Import Prelude Properties Address HciSniffer BrState.

(** ** The packet header *)

(** The array [lookup] of [ReverseByte]. *)
Definition lookup : list Z := [0; 8; 4; 12; 2; 10; 6; 14; 1; 9; 5; 13; 3; 11; 7; 15].
Definition nibble (i : Z) : Z := default 0 (lookup !! Z.to_nat i).
Definition ReverseByte (b : Z) : Z := u8 (Z.lor (Z.shiftl (nibble (Z.land b 0xF)) 4) (nibble (Z.shiftr b 4))).

(** One turn of the loop of [HeaderErrorCheck], with the first bit of [data]. *)
Definition hec_step (value data : Z) : Z :=
  let bit := negb (Z.land (Z.lxor value data) 1 =? 0) in
  let value := Z.shiftr value 1 in
  if bit then Z.lxor value 0xe5 else value.
Fixpoint hec_loop (n : nat) (value data : Z) : Z :=
  match n with
  | O => value
  | S n => hec_loop n (hec_step value data) (Z.shiftr data 1)
  end.
Definition HeaderErrorCheck (uap data : Z) : Z := hec_loop 10 (ReverseByte uap) data.

Definition BuildBtPacketHeader (uap lt_addr packet_type : Z) (flow arqn seqn : bool) : Z :=
  let header := Z.lor (Z.lor (Z.lor (Z.lor (Z.land lt_addr 0x7) (Z.shiftl (Z.land packet_type 0xF) 3))
    (Z.shiftl (Z.b2z flow) 7)) (Z.shiftl (Z.b2z arqn) 8)) (Z.shiftl (Z.b2z seqn) 9) in
  u32 (Z.lor header (u32 (Z.shiftl (HeaderErrorCheck uap header) 10))).

(** ** The packets *)

(** The fields that [bredr_bb::DM1AclPacketBuilder] and [FHSAclPacketBuilder] share. *)
Record BaseBandPacket := MkBaseBandPacket {
  rf_channel : Z; signal_power : Z; noise_power : Z; access_code_offenses : Z;
  corrected_header_bits : Z; corrected_payload_bits : Z;
  lower_address_part : Z; reference_lap : Z; reference_uap : Z;
  bt_packet_header : Z; flags : Z;
}.
Inductive BaseBandBuilder :=
| FHSAclPacketBuilder (base : BaseBandPacket) (parity_bits lap eir sr sp uap nap class_of_device lt_addr clk
    page_scan_mode crc : Z)
| DM1AclPacketBuilder (base : BaseBandPacket) (llid flow : Z) (payload : list Z) (crc : Z).

Section Sniffer.
(** [SerializeToBytes], and the system's clock. *)
Context (SerializeToBytes : BaseBandBuilder → list Z) (now : Z).

(** The constructor, on the file it opens. *)
Definition BaseBandSniffer : list Z := pcap.WriteHeader 255.
Definition AppendRecord (packet : BaseBandBuilder) (output : list Z) : list Z :=
  let bytes := SerializeToBytes packet in
  output ++ pcap.WriteRecordHeader now (zlength bytes) ++ bytes.

Definition sniffed_flags : Z :=
  Z.lor (Z.lor (Z.lor (Z.lor (Z.lor (Z.lor 0x0001 0x0008) 0x0010) 0x0020) 0x0080) 0x0400) 0x0800.
Definition lap_of (address : Address) : Z :=
  Z.lor (Z.lor (a0 address) (Z.shiftl (a1 address) 8)) (Z.shiftl (a2 address) 16).
Definition nap_of (address : Address) : Z := Z.lor (a4 address) (Z.shiftl (a5 address) 8).
(** [lower_address_part] and [reference_lap] are declared [uint8_t]. *)
Definition base_packet (address : Address) (bt_packet_type : Z) : BaseBandPacket :=
  let lap := lap_of address in
  let uap := a3 address in
  MkBaseBandPacket 0 0 0 0 0 0 (u8 lap) (u8 lap) uap
    (BuildBtPacketHeader uap 0 bt_packet_type true true true) sniffed_flags.

(** What the device sees of a packet: the sniffer reads pages and LMP packets. *)
Definition ReceiveLinkLayerPacket (packet : LinkLayerPacket) (output : list Z) : list Z :=
  let address := source_address packet in
  match payload packet with
  | Page class_of_device _ =>
      AppendRecord
        (FHSAclPacketBuilder (base_packet address 2) 0 (lap_of address) 0 0 0 (a3 address) (nap_of address)
           class_of_device 1 0 0 0) output
  | Lmp lmp_bytes => AppendRecord (DM1AclPacketBuilder (base_packet address 3) 0x3 1 lmp_bytes 0) output
  | _ => output
  end.
End Sniffer.

(** ** The header check *)

(** What a receiver that expects [uap] has in its register after the eighteen bits of a header. *)
Definition residue (uap header : Z) : Z := hec_loop 18 (ReverseByte uap) header.

(** Statements on all the bytes are computed. *)
Lemma all_bytes (P : Z → bool) b : forallb P (seqZ 0 256) = true → fits 8 b → P b = true.
Proof. intros H Hb. rewrite forallb_forall in H. apply H, list_elem_of_In, elem_of_seqZ. unfold fits in Hb. lia. Qed.

Lemma ReverseByte_involutive b : fits 8 b → ReverseByte (ReverseByte b) = b.
Proof. intros Hb. apply Z.eqb_eq. by apply (all_bytes (λ b, ReverseByte (ReverseByte b) =? b) b). Qed.
Lemma ReverseByte_fits b : fits 8 b → fits 8 (ReverseByte b).
Proof.
  intros Hb. unfold fits. rewrite <-Z.leb_le, <-Z.ltb_lt, <-andb_true_iff.
  by apply (all_bytes (λ b, (0 <=? ReverseByte b) && (ReverseByte b <? 2 ^ 8)) b).
Qed.

Lemma hec_step_bit v d :
  hec_step v d = Z.lxor (Z.shiftr v 1) (if Z.testbit (Z.lxor v d) 0 then 0xe5 else 0).
Proof. unfold hec_step. change (Z.land ?x 1) with (Z.land x (Z.shiftl 1 0)). rewrite land_bit by done.
  destruct (Z.testbit _ 0); [done|]. by rewrite Z.lxor_0_r. Qed.
Lemma hec_step_linear v w d e : hec_step (Z.lxor v w) (Z.lxor d e) = Z.lxor (hec_step v d) (hec_step w e).
Proof.
  rewrite !hec_step_bit, !Z.lxor_spec, Z.shiftr_lxor.
  apply Z.bits_inj'. intros n _. rewrite !Z.lxor_spec.
  generalize (Z.testbit (Z.shiftr v 1) n) (Z.testbit (Z.shiftr w 1) n).
  destruct (Z.testbit v 0), (Z.testbit w 0), (Z.testbit d 0), (Z.testbit e 0); cbn [xorb];
    rewrite ?Z.bits_0; generalize (Z.testbit 229 n); by intros [] [] [].
Qed.
Lemma hec_loop_linear n v w d e :
  hec_loop n (Z.lxor v w) (Z.lxor d e) = Z.lxor (hec_loop n v d) (hec_loop n w e).
Proof.
  revert v w d e. induction n as [|n IH]; intros v w d e; [done|]. cbn [hec_loop].
  by rewrite hec_step_linear, Z.shiftr_lxor, IH.
Qed.
Lemma hec_loop_add n m v d :
  hec_loop (n + m) v d = hec_loop m (hec_loop n v d) (Z.shiftr d (Z.of_nat n)).
Proof.
  revert v d. induction n as [|n IH]; intros v d; [done|]. cbn [hec_loop Nat.add].
  rewrite IH, Z.shiftr_shiftr by lia. do 2 f_equal. lia.
Qed.
(** Only the first bits of the data count. *)
Lemma hec_loop_low n v d d' :
  (∀ i, 0 ≤ i < Z.of_nat n → Z.testbit d i = Z.testbit d' i) → hec_loop n v d = hec_loop n v d'.
Proof.
  revert v d d'. induction n as [|n IH]; intros v d d' H; [done|]. cbn [hec_loop].
  rewrite !hec_step_bit, !Z.lxor_spec, (H 0) by lia. apply IH. intros i Hi.
  rewrite !Z.shiftr_spec by lia. apply H. lia.
Qed.
Lemma hec_loop_fits n v d : fits 8 v → fits 8 (hec_loop n v d).
Proof.
  revert v d. induction n as [|n IH]; intros v d Hv; [done|]. cbn [hec_loop]. apply IH. rewrite hec_step_bit.
  apply fits_lxor; [done|by apply fits_shiftr|]. by destruct (Z.testbit _ 0).
Qed.

(** The register after its own value is zero, and only then. *)
Lemma hec_loop_zero v w : fits 8 v → fits 8 w → hec_loop 8 v w = 0 ↔ v = w.
Proof.
  intros Hv Hw.
  assert (∀ x, fits 8 x → hec_loop 8 x x = 0) as Hself.
  { intros x Hx. apply Z.eqb_eq. by apply (all_bytes (λ x, hec_loop 8 x x =? 0) x). }
  assert (∀ x, fits 8 x → hec_loop 8 x 0 = 0 → x = 0) as Hzero.
  { intros x Hx E. apply Z.eqb_eq. apply Z.eqb_eq in E. revert E. rewrite <-implb_true_iff.
    by apply (all_bytes (λ x, implb (hec_loop 8 x 0 =? 0) (x =? 0)) x). }
  split; [|by intros ->; apply Hself]. intros E. apply Z.lxor_eq, Hzero; [by apply fits_lxor|].
  rewrite <-(Z.lxor_nilpotent w), hec_loop_linear at 1. by rewrite E, Hself.
Qed.
Lemma HeaderErrorCheck_inj uap uap' d :
  fits 8 uap → fits 8 uap' → HeaderErrorCheck uap d = HeaderErrorCheck uap' d → uap = uap'.
Proof.
  unfold HeaderErrorCheck. intros Hu Hu' E.
  assert (∀ x, fits 8 x → hec_loop 10 x 0 = 0 → x = 0) as Hzero.
  { intros x Hx Ex. apply Z.eqb_eq. apply Z.eqb_eq in Ex. revert Ex. rewrite <-implb_true_iff.
    by apply (all_bytes (λ x, implb (hec_loop 10 x 0 =? 0) (x =? 0)) x). }
  rewrite <-(ReverseByte_involutive uap), <-(ReverseByte_involutive uap') by done. f_equal.
  apply Z.lxor_eq, Hzero; [by apply fits_lxor; [|apply ReverseByte_fits..]|].
  rewrite <-(Z.lxor_nilpotent d), hec_loop_linear, E at 1. apply Z.lxor_nilpotent.
Qed.

Lemma fits_shiftl w n x : 0 ≤ n → 0 ≤ w → fits w x → fits (w + n) (Z.shiftl x n).
Proof.
  intros Hn Hw [H1 H2]. unfold fits. rewrite Z.shiftl_mul_pow2, Z.pow_add_r by done.
  pose proof (Z.pow_pos_nonneg 2 n ltac:(done) Hn). nia.
Qed.
Lemma fits_le w w' x : 0 ≤ w ≤ w' → fits w x → fits w' x.
Proof. intros Hw [H1 H2]. pose proof (Z.pow_le_mono_r 2 w w' ltac:(done) (proj2 Hw)). unfold fits. lia. Qed.

(** The ten bits before the check. *)
Definition header_bits (lt_addr packet_type : Z) (flow arqn seqn : bool) : Z :=
  Z.lor (Z.lor (Z.lor (Z.lor (Z.land lt_addr 0x7) (Z.shiftl (Z.land packet_type 0xF) 3))
    (Z.shiftl (Z.b2z flow) 7)) (Z.shiftl (Z.b2z arqn) 8)) (Z.shiftl (Z.b2z seqn) 9).
Lemma header_bits_fits lt_addr packet_type flow arqn seqn : fits 10 (header_bits lt_addr packet_type flow arqn seqn).
Proof.
  assert (∀ b, fits 1 (Z.b2z b)) as Hb by (by intros []). unfold header_bits.
  repeat apply fits_lor; try done.
  - apply (fits_le 3); [lia|]. by apply fits_land_mask.
  - apply (fits_le (4 + 3)); [lia|]. apply fits_shiftl; try done. by apply fits_land_mask.
  - apply (fits_le (1 + 7)); [lia|]. by apply fits_shiftl.
  - apply (fits_le (1 + 8)); [lia|]. by apply fits_shiftl.
  - apply (fits_le (1 + 9)); [lia|]. by apply fits_shiftl.
Qed.
Lemma BuildBtPacketHeader_split uap lt_addr packet_type flow arqn seqn :
  fits 8 uap →
  let data := header_bits lt_addr packet_type flow arqn seqn in
  BuildBtPacketHeader uap lt_addr packet_type flow arqn seqn =
    Z.lor data (Z.shiftl (HeaderErrorCheck uap data) 10) ∧ fits 8 (HeaderErrorCheck uap data).
Proof.
  intros Hu data. assert (fits 8 (HeaderErrorCheck uap data)) as Hh by by apply hec_loop_fits, ReverseByte_fits.
  split; [|done]. change (BuildBtPacketHeader uap lt_addr packet_type flow arqn seqn) with
    (u32 (Z.lor data (u32 (Z.shiftl (HeaderErrorCheck uap data) 10)))).
  assert (fits (8 + 10) (Z.shiftl (HeaderErrorCheck uap data) 10)) as Hs by by apply fits_shiftl.
  rewrite (wrap_id 32 (Z.shiftl _ _)) by by apply (fits_le (8 + 10)).
  apply wrap_id, (fits_le 18); [done|]. apply fits_lor; [done| |done].
  apply (fits_le 10); [done|]. apply header_bits_fits.
Qed.

(** What a receiver finds in a header that was built for a [uap]. *)
Lemma residue_header uap data h :
  fits 10 data → residue uap (Z.lor data (Z.shiftl h 10)) = hec_loop 8 (HeaderErrorCheck uap data) h.
Proof.
  intros Hd. unfold residue, HeaderErrorCheck. rewrite (hec_loop_add 10 8). f_equal.
  - apply hec_loop_low. intros i Hi. rewrite Z.lor_spec, Z.shiftl_spec_low, orb_false_r by lia. done.
  - change (Z.of_nat 10) with 10. rewrite Z.shiftr_lor, Z.shiftr_shiftl_l by lia.
    rewrite Z.shiftr_div_pow2, Z.div_small by (unfold fits in Hd; lia). apply Z.lor_0_l.
Qed.
(** A burst of errors of eight bits or less leaves something in the register. *)
Lemma burst_residue b k : 0 < b < 256 → 0 ≤ k ≤ 10 → hec_loop 18 0 (Z.shiftl b k) ≠ 0.
Proof.
  intros Hb Hk.
  assert (forallb (λ k, negb (hec_loop 18 0 (Z.shiftl b k) =? 0)) (seqZ 0 11) || (b =? 0) = true) as H.
  { apply (all_bytes (λ b, forallb (λ k, negb (hec_loop 18 0 (Z.shiftl b k) =? 0)) (seqZ 0 11) || (b =? 0)) b);
      [vm_compute; reflexivity|unfold fits; lia]. }
  rewrite (proj2 (Z.eqb_neq b 0)), orb_false_r in H by lia. rewrite forallb_forall in H.
  apply Z.eqb_neq, negb_true_iff, H, list_elem_of_In, elem_of_seqZ. lia.
Qed.

Lemma residue_lxor uap x y : residue uap (Z.lxor x y) = Z.lxor (residue uap x) (hec_loop 18 0 y).
Proof. unfold residue. rewrite <-hec_loop_linear. by rewrite Z.lxor_0_r. Qed.
Lemma residue_zero uap uap' data :
  fits 8 uap → fits 8 uap' → fits 10 data →
  residue uap' (Z.lor data (Z.shiftl (HeaderErrorCheck uap data) 10)) = 0 ↔ uap = uap'.
Proof.
  intros Hu Hu' Hd. rewrite residue_header by done.
  rewrite hec_loop_zero by by apply hec_loop_fits, ReverseByte_fits.
  split; [|by intros ->]. intros E. symmetry in E. exact (HeaderErrorCheck_inj uap uap' data Hu Hu' E).
Qed.

(** C25. The check of the packet header does what it is for: a receiver's register is zero
    after a header exactly when the header was built for the receiver's UAP, and it is not zero
    when, of a header that was built for it, bits of a burst of at most eight are turned over. *)
Theorem header_check (uap uap' lt_addr packet_type : Z) (flow arqn seqn : bool)
  (Hu : fits 8 uap) (Hu' : fits 8 uap') :
  let header := BuildBtPacketHeader uap lt_addr packet_type flow arqn seqn in
  (residue uap' header = 0 ↔ uap = uap') ∧
  (∀ burst at_bit, 0 < burst < 256 → 0 ≤ at_bit ≤ 10 → residue uap (Z.lxor header (Z.shiftl burst at_bit)) ≠ 0).
Proof.
  intros header. destruct (BuildBtPacketHeader_split uap lt_addr packet_type flow arqn seqn Hu) as [E _].
  fold header in E. rewrite E. pose proof (header_bits_fits lt_addr packet_type flow arqn seqn) as Hd.
  split; [by apply residue_zero|]. intros burst k Hb Hk.
  rewrite residue_lxor, (proj2 (residue_zero uap uap _ Hu Hu Hd) eq_refl), Z.lxor_0_l. by apply burst_residue.
Qed.
Lemma header_check_witness :
  (residue 0x48 (BuildBtPacketHeader 0x47 0 2 true true true) = 0 ↔ 0x47 = 0x48) ∧
  (∀ burst at_bit, 0 < burst < 256 → 0 ≤ at_bit ≤ 10 →
    residue 0x47 (Z.lxor (BuildBtPacketHeader 0x47 0 2 true true true) (Z.shiftl burst at_bit)) ≠ 0).
Proof. apply (header_check 0x47 0x48 0 2 true true true); done. Defined.

(** The lower address part that a record carries is one byte of the three. *)
Example lap_truncated :
  let base := base_packet (MkAddress 0x11 0x22 0x33 0x44 0x55 0x66) 2 in
  lap_of (MkAddress 0x11 0x22 0x33 0x44 0x55 0x66) = 0x332211 ∧ reference_lap base = 0x11 ∧ lower_address_part base = 0x11.
Proof. repeat split. Qed.
