(* ===== verification/BrCommands.v ===== *)
(** * The commands of the BR/EDR controller (bredr_controller.cc)

    Link control, link policy, controller and baseband, and status commands. *)

From S2P Require Import Prelude HciTypes Properties Address Sco Connections Tasks BrState.

Section Commands.
Context {env : Environment}.

(** ** Links *)

Definition SendDisconnectionCompleteEvent (handle : Z) (reason : Z) : M () :=
  unmasked ← IsEventUnmasked EventCode.DISCONNECTION_COMPLETE;
  when unmasked
    (schedule_event (DisconnectionComplete (ErrorCode.to_Z ErrorCode.SUCCESS) handle reason)).

(** [connections_.Disconnect(handle, CancelScheduledTask)]. *)
Definition disconnect_handle (handle : Z) : M bool :=
  '(removed, stopped) ← on_connections (λ h, '(removed, h, stopped) ← Connections.Disconnect handle h;
                                             Ok ((removed, stopped), h));
  _ ← for_each stopped CancelScheduledTask;
  mret removed.

Definition Disconnect (handle : Z) (host_reason controller_reason : ErrorCode.t) : M ErrorCode.t :=
  h ← gets connections_;
  own ← gets address_;
  if HasScoHandle handle h then
    remote ← lift (GetScoAddress handle h);
    _ ← SendLinkLayerPacket (MkPacket own remote (ScoDisconnect (ErrorCode.to_Z host_reason)));
    _ ← disconnect_handle handle;
    _ ← SendDisconnectionCompleteEvent handle (ErrorCode.to_Z controller_reason);
    mret ErrorCode.SUCCESS
  else if HasAclHandle handle h then
    connection ← lift (GetAclConnection handle h);
    let own_address := AclConnection.own_address connection in
    let address := AclConnection.address connection in
    _ ← match GetScoConnectionHandle address h with
        | Some sco_handle =>
            _ ← SendLinkLayerPacket
                  (MkPacket own_address address (ScoDisconnect (ErrorCode.to_Z host_reason)));
            _ ← disconnect_handle sco_handle;
            SendDisconnectionCompleteEvent sco_handle (ErrorCode.to_Z controller_reason)
        | None => mret ()
        end;
    _ ← SendLinkLayerPacket
          (MkPacket own_address address (BrState.Disconnect (ErrorCode.to_Z host_reason)));
    _ ← disconnect_handle handle;
    _ ← SendDisconnectionCompleteEvent handle (ErrorCode.to_Z controller_reason);
    _ ← assert_lm (link_manager_remove_link address);
    mret ErrorCode.SUCCESS
  else mret ErrorCode.UNKNOWN_CONNECTION.

(** [duration_cast<milliseconds>] truncates towards zero. *)
Definition to_milliseconds (ns : Z) : Z := Z.quot ns 1000000.

(** The clock is read by each of the three tests. *)
Definition CheckExpiringConnection (handle : Z) : M () :=
  h ← gets connections_;
  if negb (HasAclHandle handle h) then mret () else
  connection ← lift (GetAclConnection handle h);
  t ← now;
  if AclConnection.HasExpired t connection then
    _ ← Disconnect handle ErrorCode.CONNECTION_TIMEOUT ErrorCode.CONNECTION_TIMEOUT;
    mret ()
  else
  t ← now;
  if AclConnection.IsNearExpiring t connection then
    _ ← SendLinkLayerPacket (MkPacket (AclConnection.own_address connection)
                               (AclConnection.address connection) PingRequest);
    t ← now;
    _ ← ScheduleTask (to_milliseconds (AclConnection.TimeUntilExpired t connection))
          (CheckExpiringConnectionLater handle);
    mret ()
  else
    t ← now;
    _ ← ScheduleTask (to_milliseconds (AclConnection.TimeUntilNearExpiring t connection))
          (CheckExpiringConnectionLater handle);
    mret ().

(** A new ACL connection: its timer, its policy and its role. *)
Definition set_up_connection (handle : Z) (role : Role.t) : M () :=
  _ ← CheckExpiringConnection handle;
  settings ← gets default_link_policy_settings_;
  _ ← update_acl handle (AclConnection.SetLinkPolicySettings settings);
  update_acl handle (AclConnection.SetRole role).
Definition create_acl (bd_addr own_address : Address) : M Z :=
  t ← now;
  on_connections (Connections.CreateConnection t bd_addr own_address).

(** *** SCO streams *)

Definition SendScoToRemote (handle : Z) (data : list Z) : M ErrorCode.t :=
  h ← gets connections_;
  if negb (HasScoHandle handle h) then mret ErrorCode.UNKNOWN_CONNECTION else
  source ← gets address_;
  destination ← lift (GetScoAddress handle h);
  _ ← SendLinkLayerPacket (MkPacket source destination (Sco data));
  mret ErrorCode.SUCCESS.

Definition StartScoStream (address : Address) : M Z :=
  h ← gets connections_;
  match GetScoConnectionHandle address h with
  | Some sco_handle => SchedulePeriodicTask 0 20 (SendScoToRemoteLater sco_handle [0; 0; 0; 0; 0])
  | None => lift Fatal
  end.

(** Whether [accept] starts a stream does not depend on the identifier of its task:
    the connection of [address] has one afterwards. *)
Definition accept_with_stream (address : Address)
    (accept : Z → AclConnectionHandler → outcome (bool * AclConnectionHandler)) : M bool :=
  h ← gets connections_;
  '(accepted, h') ← lift (accept kInvalidTaskId h);
  let starts :=
    match GetScoConnectionHandle address h with
    | Some handle =>
        match sco_connections_ h' !! handle with Some c => has_value (stream_handle_ c) | None => false end
    | None => false
    end in
  if accepted && starts then
    task_id ← StartScoStream address;
    on_connections (accept task_id)
  else
    _ ← modify (λ c, c <| connections_ := h' |>);
    mret accepted.
Definition AcceptPendingScoConnection (address : Address) (parameters : ScoLinkParameters) : M bool :=
  accept_with_stream address (Connections.AcceptPendingScoConnection address parameters).
Definition AcceptPendingScoConnection_negotiate (address : Address)
    (parameters : ScoConnectionParameters) : M bool :=
  accept_with_stream address (Connections.AcceptPendingScoConnection_negotiate address parameters).
Definition CancelPendingScoConnection (address : Address) : M () :=
  on_connections (λ h, h ← Connections.CancelPendingScoConnection address h; Ok ((), h)).
Definition CreateScoConnection (address : Address) (parameters : ScoConnectionParameters)
    (state : ScoState) (datapath : ScoDatapath) (legacy : bool) : M () :=
  on_connections (λ h, h ← Connections.CreateScoConnection address parameters state datapath legacy h;
                       Ok ((), h)).

(** ** Link control commands *)

Definition Inquiry (lap inquiry_length num_responses : Z) : M ErrorCode.t :=
  if (0xff <? num_responses) || (inquiry_length <? 0x1) || (0x30 <? inquiry_length) then
    mret ErrorCode.INVALID_HCI_COMMAND_PARAMETERS
  else
  pending ← gets inquiry_;
  if has_value pending then mret ErrorCode.COMMAND_DISALLOWED else
  t ← now;
  _ ← modify (λ c, c <| inquiry_ :=
        Some (MkInquiryState lap num_responses (t + kInquiryInterval)
                (t + inquiry_length * 1280 * 1000000)) |>);
  mret ErrorCode.SUCCESS.

Definition InquiryCancel : M ErrorCode.t :=
  pending ← gets inquiry_;
  if negb (has_value pending) then mret ErrorCode.COMMAND_DISALLOWED else
  _ ← modify (λ c, c <| inquiry_ := None |>);
  mret ErrorCode.SUCCESS.

(** [page_.has_value() && page_->bd_addr == bd_addr], and for [page_scan_]. *)
Definition paging (bd_addr : Address) (c : BrEdrController) : bool :=
  match page_ c with Some p => bool_decide (page_bd_addr p = bd_addr) | None => false end.
Definition being_paged (bd_addr : Address) (c : BrEdrController) : bool :=
  match page_scan_ c with Some p => bool_decide (page_scan_bd_addr p = bd_addr) | None => false end.
Definition connected (bd_addr : Address) (c : BrEdrController) : bool :=
  has_value (GetAclConnectionHandle bd_addr (connections_ c)).

(** [slots] of 625 microseconds. *)
Definition slots (n : Z) : Z := n * 625000.

Definition CreateConnection (bd_addr : Address) (allow_role_switch : Z) : M ErrorCode.t :=
  pending ← gets page_;
  if has_value pending then mret ErrorCode.COMMAND_DISALLOWED else
  exists_ ← gets (connected bd_addr);
  if exists_ : bool then mret ErrorCode.CONNECTION_ALREADY_EXISTS else
  establishing ← gets (being_paged bd_addr);
  if establishing : bool then mret ErrorCode.CONNECTION_ALREADY_EXISTS else
  t ← now;
  _ ← modify (λ c, c <| page_ :=
        Some (MkPageState bd_addr allow_role_switch (t + kPageInterval) (t + slots (page_timeout_ c))) |>);
  mret ErrorCode.SUCCESS.

Definition CreateConnectionCancel (bd_addr : Address) : M ErrorCode.t :=
  pending ← gets (paging bd_addr);
  if negb pending then mret ErrorCode.UNKNOWN_CONNECTION else
  unmasked ← IsEventUnmasked EventCode.CONNECTION_COMPLETE;
  _ ← when unmasked (schedule_event
        (ConnectionComplete (ErrorCode.to_Z ErrorCode.UNKNOWN_CONNECTION) 0 bd_addr LinkType.ACL));
  _ ← modify (λ c, c <| page_ := None |>);
  mret ErrorCode.SUCCESS.

(** The response to a connection request of a peer that paged this controller. *)
Definition accept_page (bd_addr : Address) (try_role_switch : bool) : M ErrorCode.t :=
  exists_ ← gets (connected bd_addr);
  if exists_ : bool then mret ErrorCode.SUCCESS else
  own ← gets address_;
  connection_handle ← create_acl bd_addr own;
  request ← gets page_scan_;
  let allowed := match request with Some p => negb (page_scan_allow_role_switch p =? 0) | None => false end in
  let role := if try_role_switch && allowed then Role.CENTRAL else Role.PERIPHERAL in
  _ ← set_up_connection connection_handle role;
  role_change ← (if bool_decide (role = Role.CENTRAL) then IsEventUnmasked EventCode.ROLE_CHANGE
                 else mret false);
  _ ← when role_change
        (schedule_event (RoleChange (ErrorCode.to_Z ErrorCode.SUCCESS) bd_addr role));
  _ ← assert_lm (link_manager_add_link bd_addr);
  unmasked ← IsEventUnmasked EventCode.CONNECTION_COMPLETE;
  _ ← when unmasked (schedule_event
        (ConnectionComplete (ErrorCode.to_Z ErrorCode.SUCCESS) connection_handle bd_addr LinkType.ACL));
  _ ← SendLinkLayerPacket (MkPacket own bd_addr (PageResponse (Z.b2z try_role_switch)));
  _ ← modify (λ c, if paging bd_addr c then c <| page_ := None |> else c);
  _ ← modify (λ c, c <| page_scan_ := None |>);
  mret ErrorCode.SUCCESS.

Definition sco_response (status : ErrorCode.t) (p : ScoLinkParameters) : Payload :=
  ScoConnectionResponse (ErrorCode.to_Z status) (transmission_interval p) (retransmission_window p)
    (rx_packet_length p) (tx_packet_length p) (air_mode p) (extended p).

(** The host accepts the pending SCO connection: the status, the handle and the
    parameters of the link, [failure] if they cannot be agreed on. *)
Definition accept_sco (bd_addr : Address) (parameters : ScoConnectionParameters) (failure : ErrorCode.t)
  : M (ErrorCode.t * Z * ScoLinkParameters) :=
  h ← gets connections_;
  sco_handle ← lift (unchecked (GetScoConnectionHandle bd_addr h));
  accepted ← AcceptPendingScoConnection_negotiate bd_addr parameters;
  if accepted : bool then
    link_parameters ← gets (λ c, GetScoLinkParameters bd_addr (connections_ c));
    mret (ErrorCode.SUCCESS, sco_handle, link_parameters)
  else
    _ ← CancelPendingScoConnection bd_addr;
    mret (failure, 0, no_link_parameters).

Definition AcceptConnectionRequest (bd_addr : Address) (try_role_switch : bool) : M ErrorCode.t :=
  paged ← gets (being_paged bd_addr);
  if paged : bool then accept_page bd_addr try_role_switch else
  h ← gets connections_;
  if HasPendingScoConnection bd_addr h then
    '(status, sco_handle, link_parameters) ←
      accept_sco bd_addr (GetScoConnectionParameters bd_addr h) ErrorCode.SCO_INTERVAL_REJECTED;
    own ← gets address_;
    _ ← SendLinkLayerPacket (MkPacket own bd_addr (sco_response status link_parameters));
    unmasked ← IsEventUnmasked EventCode.CONNECTION_COMPLETE;
    _ ← when unmasked
          (schedule_event (ConnectionComplete (ErrorCode.to_Z status) sco_handle bd_addr LinkType.SCO));
    mret ErrorCode.SUCCESS
  else mret ErrorCode.UNKNOWN_CONNECTION.

Definition RejectPeripheralConnection (addr : Address) (reason : Z) : M () :=
  own ← gets address_;
  _ ← SendLinkLayerPacket (MkPacket own addr (PageReject reason));
  unmasked ← IsEventUnmasked EventCode.CONNECTION_COMPLETE;
  when unmasked (send_event_ (ConnectionComplete reason 0xeff addr LinkType.ACL)).

Definition RejectConnectionRequest (bd_addr : Address) (reason : Z) : M ErrorCode.t :=
  paged ← gets (being_paged bd_addr);
  if negb paged then mret ErrorCode.UNKNOWN_CONNECTION else
  _ ← ScheduleTask kNoDelayMs (RejectPeripheralConnectionLater bd_addr reason);
  mret ErrorCode.SUCCESS.

(** [if (!connections_.HasAclHandle(handle)) return UNKNOWN_CONNECTION]. *)
Definition with_acl_or {A} (missing : A) (connection_handle : Z) (k : AclConnection → M A) : M A :=
  h ← gets connections_;
  if negb (HasAclHandle connection_handle h) then mret missing
  else lift (GetAclConnection connection_handle h) ≫= k.
Definition with_acl (connection_handle : Z) (k : AclConnection → M ErrorCode.t) : M ErrorCode.t :=
  with_acl_or ErrorCode.UNKNOWN_CONNECTION connection_handle k.

Definition ChangeConnectionPacketType (connection_handle packet_type : Z) : M ErrorCode.t :=
  with_acl connection_handle (λ _,
    _ ← ScheduleTask kNoDelayMs (ConnectionPacketTypeChangedLater connection_handle packet_type);
    mret ErrorCode.SUCCESS).
Definition connection_packet_type_changed (connection_handle packet_type : Z) : M () :=
  unmasked ← IsEventUnmasked EventCode.CONNECTION_PACKET_TYPE_CHANGED;
  when unmasked (send_event_
    (ConnectionPacketTypeChanged (ErrorCode.to_Z ErrorCode.SUCCESS) connection_handle packet_type)).

Definition ChangeConnectionLinkKey (connection_handle : Z) : M ErrorCode.t :=
  with_acl connection_handle (λ _, mret ErrorCode.COMMAND_DISALLOWED).

Definition RemoteNameRequest (bd_addr : Address) : M ErrorCode.t :=
  own ← gets address_;
  _ ← SendLinkLayerPacket (MkPacket own bd_addr ReadRemoteLmpFeatures);
  _ ← SendLinkLayerPacket (MkPacket own bd_addr BrState.RemoteNameRequest);
  mret ErrorCode.SUCCESS.

(** The reads that ask the peer of a connection. *)
Definition ask_peer (connection_handle : Z) (question : Payload) : M ErrorCode.t :=
  with_acl connection_handle (λ connection,
    _ ← SendLinkLayerPacket (MkPacket (AclConnection.own_address connection)
                               (AclConnection.address connection) question);
    mret ErrorCode.SUCCESS).
Definition ReadRemoteSupportedFeatures (connection_handle : Z) : M ErrorCode.t :=
  ask_peer connection_handle BrState.ReadRemoteSupportedFeatures.
Definition ReadRemoteExtendedFeatures (connection_handle page_number : Z) : M ErrorCode.t :=
  ask_peer connection_handle (BrState.ReadRemoteExtendedFeatures page_number).
Definition ReadRemoteVersionInformation (connection_handle : Z) : M ErrorCode.t :=
  ask_peer connection_handle BrState.ReadRemoteVersionInformation.
Definition ReadClockOffset (connection_handle : Z) : M ErrorCode.t :=
  ask_peer connection_handle BrState.ReadClockOffset.

(** *** Synchronous connections *)

Definition sco_request (p : ScoConnectionParameters) (class_of_device : Z) : Payload :=
  ScoConnectionRequest (transmit_bandwidth p) (receive_bandwidth p) (max_latency p)
    (voice_setting p) (retransmission_effort p) (packet_type p) class_of_device.

(** A pending connection with the peer of [connection], and the request to it. *)
Definition request_sco (connection : AclConnection) (parameters : ScoConnectionParameters)
    (datapath : ScoDatapath) (legacy : bool) : M ErrorCode.t :=
  h ← gets connections_;
  let address := AclConnection.address connection in
  if HasPendingScoConnection address h then mret ErrorCode.COMMAND_DISALLOWED else
  _ ← CreateScoConnection address parameters SCO_STATE_PENDING datapath legacy;
  own ← gets address_;
  class_of_device ← gets class_of_device_;
  _ ← SendLinkLayerPacket (MkPacket own address (sco_request parameters class_of_device));
  mret ErrorCode.SUCCESS.

Definition legacy_parameters (packet_type : Z) : ScoConnectionParameters :=
  MkScoConnectionParameters 8000 8000 0xffff 0x60 NO_RETRANSMISSION
    (Z.lor (Z.lor (Z.lor (Z.lor (Z.land (Z.shiftr packet_type 5) 0x7) NO_2_EV3_ALLOWED)
       NO_3_EV3_ALLOWED) NO_2_EV5_ALLOWED) NO_3_EV5_ALLOWED).
Definition AddScoConnection (connection_handle packet_type : Z) : M ErrorCode.t :=
  with_acl connection_handle (λ connection,
    request_sco connection (legacy_parameters packet_type) NORMAL true).

Definition SetupSynchronousConnection (connection_handle : Z) (parameters : ScoConnectionParameters)
    (datapath : ScoDatapath) : M ErrorCode.t :=
  with_acl connection_handle (λ connection, request_sco connection parameters datapath false).

Definition synchronous_connection_complete (status sco_handle : Z) (bd_addr : Address)
    (p : ScoLinkParameters) : HciEvent :=
  SynchronousConnectionComplete status sco_handle bd_addr
    (if extended p then ScoLinkType.ESCO else ScoLinkType.SCO)
    (if extended p then transmission_interval p else 0)
    (if extended p then retransmission_window p else 0)
    (if extended p then rx_packet_length p else 0)
    (if extended p then tx_packet_length p else 0) (air_mode p).

Definition AcceptSynchronousConnection (bd_addr : Address) (parameters : ScoConnectionParameters)
  : M ErrorCode.t :=
  h ← gets connections_;
  if negb (HasPendingScoConnection bd_addr h) then mret ErrorCode.COMMAND_DISALLOWED else
  '(status, sco_handle, link_parameters) ← accept_sco bd_addr parameters ErrorCode.STATUS_UNKNOWN;
  own ← gets address_;
  _ ← SendLinkLayerPacket (MkPacket own bd_addr (sco_response status link_parameters));
  _ ← schedule_event
        (synchronous_connection_complete (ErrorCode.to_Z status) sco_handle bd_addr link_parameters);
  mret ErrorCode.SUCCESS.

(** The reason is a 16 bit parameter; packet and event hold its low byte. *)
Definition RejectSynchronousConnection (bd_addr : Address) (reason : Z) : M ErrorCode.t :=
  let reason := if reason =? ErrorCode.to_Z ErrorCode.SUCCESS
                then ErrorCode.to_Z ErrorCode.REMOTE_USER_TERMINATED_CONNECTION else reason in
  h ← gets connections_;
  if negb (HasPendingScoConnection bd_addr h) then mret ErrorCode.COMMAND_DISALLOWED else
  _ ← CancelPendingScoConnection bd_addr;
  own ← gets address_;
  _ ← SendLinkLayerPacket
        (MkPacket own bd_addr (ScoConnectionResponse (u8 reason) 0 0 0 0 0 false));
  _ ← schedule_event (SynchronousConnectionComplete (u8 reason) 0 bd_addr ScoLinkType.ESCO 0 0 0 0 0x03);
  mret ErrorCode.SUCCESS.

Record ScoCodingFormat := MkScoCodingFormat {
  coding_format_ : Z;
  company_id_ : Z;
  vendor_specific_codec_id_ : Z;
}.
#[global] Instance ScoCodingFormat_eq_dec : EqDecision ScoCodingFormat.
Proof. solve_decision. Defined.
Definition TRANSPARENT : Z := 0x03.
Definition HCI : Z := 0x00.
(** The parameters of the enhanced commands that the code uses. *)
Record EnhancedParameters := MkEnhancedParameters {
  ep_transmit_bandwidth : Z;
  ep_receive_bandwidth : Z;
  transmit_coding_format : ScoCodingFormat;
  receive_coding_format : ScoCodingFormat;
  input_bandwidth : Z;
  output_bandwidth : Z;
  input_coding_format : ScoCodingFormat;
  output_coding_format : ScoCodingFormat;
  input_data_path : Z;
  output_data_path : Z;
  ep_max_latency : Z;
  ep_packet_type : Z;
  ep_retransmission_effort : Z;
}.
Definition transparent (f : ScoCodingFormat) : bool := coding_format_ f =? TRANSPARENT.
(** The checks of both commands, in order; [true] if one rejects. *)
Definition enhanced_rejected (p : EnhancedParameters) : bool :=
  bool_decide (transmit_coding_format p ≠ receive_coding_format p)
  || (negb (input_bandwidth p =? output_bandwidth p) && negb (input_bandwidth p =? 0)
      && negb (output_bandwidth p =? 0))
  || bool_decide (input_coding_format p ≠ output_coding_format p)
  || (transparent (transmit_coding_format p) && transparent (input_coding_format p)
      && negb (ep_transmit_bandwidth p =? input_bandwidth p))
  || negb (Bool.eqb (transparent (transmit_coding_format p)) (transparent (input_coding_format p)))
  || (transparent (receive_coding_format p) && transparent (output_coding_format p)
      && negb (ep_receive_bandwidth p =? output_bandwidth p))
  || negb (Bool.eqb (transparent (receive_coding_format p)) (transparent (output_coding_format p))).
Definition enhanced_parameters (p : EnhancedParameters) (voice_setting : Z) : ScoConnectionParameters :=
  MkScoConnectionParameters (ep_transmit_bandwidth p) (ep_receive_bandwidth p) (ep_max_latency p)
    voice_setting (ep_retransmission_effort p) (ep_packet_type p).

Definition EnhancedSetupSynchronousConnection (connection_handle : Z) (p : EnhancedParameters)
  : M ErrorCode.t :=
  if enhanced_rejected p then mret ErrorCode.INVALID_HCI_COMMAND_PARAMETERS else
  let datapath := if negb (input_data_path p =? HCI) || negb (output_data_path p =? HCI)
                  then SPOOFED else NORMAL in
  voice_setting ← gets voice_setting_;
  SetupSynchronousConnection connection_handle (enhanced_parameters p voice_setting) datapath.
Definition EnhancedAcceptSynchronousConnection (bd_addr : Address) (p : EnhancedParameters)
  : M ErrorCode.t :=
  if enhanced_rejected p then mret ErrorCode.INVALID_HCI_COMMAND_PARAMETERS else
  voice_setting ← gets voice_setting_;
  AcceptSynchronousConnection bd_addr (enhanced_parameters p voice_setting).

(** ** Link policy commands *)

Definition HoldMode (connection_handle hold_mode_max_interval hold_mode_min_interval : Z) : M ErrorCode.t :=
  with_acl connection_handle (λ _,
    if hold_mode_max_interval <? hold_mode_min_interval
    then mret ErrorCode.INVALID_HCI_COMMAND_PARAMETERS
    else mret ErrorCode.COMMAND_DISALLOWED).

Definition SniffMode (connection_handle sniff_max_interval sniff_min_interval sniff_attempt
    sniff_timeout : Z) : M ErrorCode.t :=
  with_acl connection_handle (λ _,
    if (sniff_max_interval <? sniff_min_interval) || (sniff_attempt <? 0x0001)
       || (0x7FFF <? sniff_attempt) || (0x7FFF <? sniff_timeout)
    then mret ErrorCode.INVALID_HCI_COMMAND_PARAMETERS
    else mret ErrorCode.COMMAND_DISALLOWED).

Definition ExitSniffMode (connection_handle : Z) : M ErrorCode.t :=
  with_acl connection_handle (λ _, mret ErrorCode.COMMAND_DISALLOWED).

(** The two values that mean "do not care" are replaced. *)
Definition selected (value default_value : Z) : Z :=
  if (value =? 0) || (value =? 0xffffffff) then default_value else value.
Definition QosSetup (connection_handle service_type token_rate peak_bandwidth latency delay_variation : Z)
  : M ErrorCode.t :=
  with_acl connection_handle (λ _,
    if 0x02 <? service_type then mret ErrorCode.INVALID_HCI_COMMAND_PARAMETERS else
    unmasked ← IsEventUnmasked EventCode.QOS_SETUP_COMPLETE;
    _ ← when unmasked (schedule_event
          (QosSetupComplete (ErrorCode.to_Z ErrorCode.SUCCESS) connection_handle service_type
             (selected token_rate 100000) (selected peak_bandwidth 200000)
             (selected latency 50000) (selected delay_variation 10000)));
    mret ErrorCode.SUCCESS).

(** A result through a pointer is [None] when the code leaves it alone. *)
Definition RoleDiscovery (connection_handle : Z) : M (ErrorCode.t * option Role.t) :=
  with_acl_or (ErrorCode.UNKNOWN_CONNECTION, None) connection_handle (λ connection,
    mret (ErrorCode.SUCCESS, Some (AclConnection.role_ connection))).

Definition SwitchRole (bd_addr : Address) (role : Role.t) : M ErrorCode.t :=
  h ← gets connections_;
  match GetAclConnectionHandle bd_addr h with
  | None => mret ErrorCode.UNKNOWN_CONNECTION
  | Some connection_handle =>
      connection ← lift (GetAclConnection connection_handle h);
      if has_value (GetScoConnectionHandle bd_addr h) then mret ErrorCode.COMMAND_DISALLOWED else
      match AclConnection.state_ connection with
      | kSniffMode => mret ErrorCode.COMMAND_DISALLOWED
      | _ =>
          _ ← (if bool_decide (role ≠ AclConnection.role_ connection) then
                 own ← gets address_;
                 SendLinkLayerPacket (MkPacket own bd_addr RoleSwitchRequest)
               else
                 unmasked ← IsEventUnmasked EventCode.ROLE_CHANGE;
                 when unmasked (schedule_event
                   (RoleChange (ErrorCode.to_Z ErrorCode.ROLE_SWITCH_FAILED) bd_addr role)));
          mret ErrorCode.SUCCESS
      end
  end.

Definition ReadLinkPolicySettings (connection_handle : Z) : M (ErrorCode.t * option Z) :=
  with_acl_or (ErrorCode.UNKNOWN_CONNECTION, None) connection_handle (λ connection,
    mret (ErrorCode.SUCCESS, Some (AclConnection.link_policy_settings_ connection))).
Definition WriteLinkPolicySettings (connection_handle link_policy_settings : Z) : M ErrorCode.t :=
  with_acl connection_handle (λ _,
    if 7 <? link_policy_settings then mret ErrorCode.INVALID_HCI_COMMAND_PARAMETERS else
    _ ← update_acl connection_handle (AclConnection.SetLinkPolicySettings link_policy_settings);
    mret ErrorCode.SUCCESS).
Definition ReadDefaultLinkPolicySettings : M (ErrorCode.t * Z) :=
  settings ← gets default_link_policy_settings_;
  mret (ErrorCode.SUCCESS, settings).
Definition WriteDefaultLinkPolicySettings (default_link_policy_settings : Z) : M ErrorCode.t :=
  if 7 <? default_link_policy_settings then mret ErrorCode.INVALID_HCI_COMMAND_PARAMETERS else
  _ ← modify (λ c, c <| default_link_policy_settings_ := u8 default_link_policy_settings |>);
  mret ErrorCode.SUCCESS.

Definition FlowSpecification (connection_handle flow_direction service_type : Z) : M ErrorCode.t :=
  with_acl connection_handle (λ _,
    if (0x01 <? flow_direction) || (0x02 <? service_type)
    then mret ErrorCode.INVALID_HCI_COMMAND_PARAMETERS
    else mret ErrorCode.COMMAND_DISALLOWED).

Definition SniffSubrating (connection_handle max_latency min_remote_timeout min_local_timeout : Z)
  : M ErrorCode.t :=
  with_acl connection_handle (λ _,
    if (max_latency <? 0x2) || (0xfffe <? max_latency) || (0xfffe <? min_remote_timeout)
       || (0xfffe <? min_local_timeout)
    then mret ErrorCode.INVALID_HCI_COMMAND_PARAMETERS
    else mret ErrorCode.SUCCESS).

(** ** Controller and baseband commands *)

Definition DisconnectAll (reason : ErrorCode.t) : M () :=
  h ← gets connections_;
  own ← gets address_;
  _ ← for_each (GetScoHandles h) (λ connection_handle,
        remote ← lift (GetScoAddress connection_handle h);
        SendLinkLayerPacket (MkPacket own remote (ScoDisconnect (ErrorCode.to_Z reason))));
  for_each (GetAclHandles h) (λ connection_handle,
    connection ← lift (GetAclConnection connection_handle h);
    SendLinkLayerPacket (MkPacket (AclConnection.own_address connection)
      (AclConnection.address connection) (BrState.Disconnect (ErrorCode.to_Z reason)))).

(** The parameters that a reset restores. *)
Definition reset_parameters (c : BrEdrController) : BrEdrController :=
  c <| host_supported_features_ := 0 |>
    <| le_host_support_ := false |>
    <| secure_simple_pairing_host_support_ := false |>
    <| secure_connections_host_support_ := false |>
    <| page_scan_enable_ := false |>
    <| inquiry_scan_enable_ := false |>
    <| inquiry_scan_interval_ := 0x1000 |>
    <| inquiry_scan_window_ := 0x0012 |>
    <| page_timeout_ := 0x2000 |>
    <| connection_accept_timeout_ := 0x1FA0 |>
    <| page_scan_interval_ := 0x0800 |>
    <| page_scan_window_ := 0x0012 |>
    <| voice_setting_ := 0x0060 |>
    <| authentication_enable_ := AuthenticationEnable.NOT_REQUIRED |>
    <| default_link_policy_settings_ := 0x0000 |>
    <| sco_flow_control_enable_ := false |>
    <| local_name_ := replicate kLocalNameSize 0 |>
    <| extended_inquiry_response_ := replicate kExtendedInquiryResponseSize 0 |>
    <| class_of_device_ := 0 |>
    <| min_encryption_key_size_ := 16 |>
    <| event_mask_ := 0x00001fffffffffff |>
    <| event_mask_page_2_ := 0x0 |>
    <| page_scan_repetition_mode_ := PageScanRepetitionMode.R0 |>
    <| oob_id_ := 1 |>
    <| key_id_ := 1 |>
    <| inquiry_mode_ := InquiryType.to_Z InquiryType.STANDARD |>
    <| current_iac_lap_list_ := [0x33] |>
    <| page_ := None |>
    <| page_scan_ := None |>
    <| inquiry_ := None |>
    <| lm_ := link_manager_create |>.
Definition Reset : M () :=
  _ ← DisconnectAll ErrorCode.REMOTE_USER_TERMINATED_CONNECTION;
  stopped ← on_connections (λ h, let '(h, stopped) := Connections.Reset h in Ok (stopped, h));
  _ ← for_each stopped CancelScheduledTask;
  modify reset_parameters.

Definition WriteLocalName (local_name : list Z) : M () :=
  modify (λ c, c <| local_name_ := local_name |>).
Definition ReadScanEnable (c : BrEdrController) : ScanEnable.t :=
  if inquiry_scan_enable_ c && page_scan_enable_ c then ScanEnable.INQUIRY_AND_PAGE_SCAN
  else if inquiry_scan_enable_ c then ScanEnable.INQUIRY_SCAN_ONLY
  else if page_scan_enable_ c then ScanEnable.PAGE_SCAN_ONLY
  else ScanEnable.NO_SCANS.
Definition WriteScanEnable (scan_enable : ScanEnable.t) : M () :=
  modify (λ c,
    c <| inquiry_scan_enable_ := bool_decide (scan_enable = ScanEnable.INQUIRY_AND_PAGE_SCAN)
                                 || bool_decide (scan_enable = ScanEnable.INQUIRY_SCAN_ONLY) |>
      <| page_scan_enable_ := bool_decide (scan_enable = ScanEnable.INQUIRY_AND_PAGE_SCAN)
                              || bool_decide (scan_enable = ScanEnable.PAGE_SCAN_ONLY) |>).
Definition WriteExtendedInquiryResponse (extended_inquiry_response : list Z) : M () :=
  modify (λ c, c <| extended_inquiry_response_ := extended_inquiry_response |>).

(** ['x array dddddd'] and the two low bytes of [oob_id_], in big endian order. *)
Definition oob_data (letter : Z) (digits : list Z) (oob_id : Z) : list Z :=
  [letter; 0x20; 0x61; 0x72; 0x72; 0x61; 0x79; 0x20] ++ digits
    ++ [Z.shiftr (oob_id mod 0x10000) 8; oob_id mod 0x100].
Definition take_oob_id : M Z :=
  oob_id ← gets oob_id_;
  _ ← modify (λ c, c <| oob_id_ ::= λ i, u32 (i + 1) |>);
  mret oob_id.
(** [c] and [r]; then the 192 bit and the 256 bit ones. *)
Definition ReadLocalOobData : M (list Z * list Z) :=
  oob_id ← take_oob_id;
  let digits := [0x30; 0x30; 0x30; 0x30; 0x30; 0x30] in
  mret (oob_data 0x63 digits oob_id, oob_data 0x72 digits oob_id).
Definition ReadLocalOobExtendedData : M (list Z * list Z * (list Z * list Z)) :=
  oob_id ← take_oob_id;
  let digits_192 := [0x31; 0x39; 0x32; 0x30; 0x30; 0x30] in
  let digits_256 := [0x32; 0x35; 0x36; 0x30; 0x30; 0x30] in
  mret ((oob_data 0x63 digits_192 oob_id, oob_data 0x72 digits_192 oob_id),
        (oob_data 0x63 digits_256 oob_id, oob_data 0x72 digits_256 oob_id)).

(** ** Status parameters *)

Definition ReadRssi (connection_handle : Z) : M (ErrorCode.t * option Z) :=
  with_acl_or (ErrorCode.UNKNOWN_CONNECTION, None) connection_handle (λ connection,
    mret (ErrorCode.SUCCESS, Some (AclConnection.rssi_ connection))).
Definition ReadEncryptionKeySize (connection_handle : Z) : M (ErrorCode.t * option Z) :=
  with_acl_or (ErrorCode.UNKNOWN_CONNECTION, None) connection_handle (λ _,
    mret (ErrorCode.SUCCESS, Some 16)).

(** ** Configuration *)

(** [host_supported_features_ |= bit], or [&= ~bit]. *)
Definition set_host_feature (bit : Z) (enable : bool) (c : BrEdrController) : BrEdrController :=
  c <| host_supported_features_ ::= λ f, if enable then Z.lor f bit else Z.ldiff f bit |>.
Definition SetSecureSimplePairingSupport (enable : bool) : M () :=
  modify (λ c, set_host_feature 0x1 enable (c <| secure_simple_pairing_host_support_ := enable |>)).
Definition SetLeHostSupport (enable : bool) : M () :=
  modify (λ c, set_host_feature 0x2 enable (c <| le_host_support_ := enable |>)).
Definition SetSecureConnectionsSupport (enable : bool) : M () :=
  modify (λ c, set_host_feature 0x8 enable (c <| secure_connections_host_support_ := enable |>)).

(** A vector copied into an array that is filled with zeros first. *)
Definition padded (size : nat) (l : list Z) : list Z := l ++ replicate (size - length l) 0.
Definition SetLocalName (local_name : list Z) : M () :=
  _ ← lift (assert (bool_decide (length local_name ≤ kLocalNameSize)%nat));
  modify (λ c, c <| local_name_ := padded kLocalNameSize local_name |>).
Definition SetExtendedInquiryResponse (extended_inquiry_response : list Z) : M () :=
  _ ← lift (assert (bool_decide (length extended_inquiry_response ≤ kExtendedInquiryResponseSize)%nat));
  modify (λ c, c <| extended_inquiry_response_ :=
                      padded kExtendedInquiryResponseSize extended_inquiry_response |>).

(** Setters of bredr_controller.h, with the width of the field. *)
Definition SetEventMask (event_mask : Z) : M () := modify (λ c, c <| event_mask_ := event_mask |>).
Definition SetEventMaskPage2 (event_mask : Z) : M () := modify (λ c, c <| event_mask_page_2_ := event_mask |>).
Definition SetClassOfDevice (class_of_device : Z) : M () :=
  modify (λ c, c <| class_of_device_ := class_of_device |>).
Definition SetAuthenticationEnable (enable : AuthenticationEnable.t) : M () :=
  modify (λ c, c <| authentication_enable_ := enable |>).
Definition SetScoFlowControlEnable (enable : bool) : M () :=
  modify (λ c, c <| sco_flow_control_enable_ := enable |>).
Definition SetVoiceSetting (voice_setting : Z) : M () := modify (λ c, c <| voice_setting_ := voice_setting |>).
Definition SetConnectionAcceptTimeout (timeout : Z) : M () :=
  modify (λ c, c <| connection_accept_timeout_ := timeout |>).
Definition SetMinEncryptionKeySize (min_encryption_key_size : Z) : M () :=
  modify (λ c, c <| min_encryption_key_size_ := min_encryption_key_size |>).
Definition SetPageTimeout (page_timeout : Z) : M () := modify (λ c, c <| page_timeout_ := page_timeout |>).
Definition SetInquiryMode (mode : Z) : M () := modify (λ c, c <| inquiry_mode_ := mode |>).

Definition WriteCurrentIacLap (iac_lap : list Z) : M () :=
  modify (λ c, c <| current_iac_lap_list_ :=
    if num_supported_iac (properties_ c) <? zlength iac_lap
    then take (Z.to_nat (num_supported_iac (properties_ c))) iac_lap else iac_lap |>).

Definition CentralLinkKey : M ErrorCode.t := mret ErrorCode.COMMAND_DISALLOWED.
Definition WriteLinkSupervisionTimeout (handle : Z) : M ErrorCode.t :=
  with_acl handle (λ _, mret ErrorCode.SUCCESS).
Definition HasAclConnection (connection_handle : Z) (c : BrEdrController) : bool :=
  HasAclHandle connection_handle (connections_ c).

(** The bytes of a command for the link manager. *)
Definition ForwardToLm (command : list Z) : M () := assert_lm (link_manager_ingest_hci command).
End Commands.
