(* ===== verification/BrLink.v ===== *)
(** * The BR/EDR controller on the air and in time (bredr_controller.cc)

    The packets received, the page and inquiry substates, the deferred callbacks
    and [Tick]. *)

From S2P Require Import Prelude HciTypes Properties Address Sco Connections Tasks BrState BrCommands.

Section Link.
Context {env : Environment}.

Definition SUCCESS : Z := ErrorCode.to_Z ErrorCode.SUCCESS.
Definition send_if_unmasked (code : EventCode.t) (event : HciEvent) : M () :=
  unmasked ← IsEventUnmasked code;
  when unmasked (send_event_ event).
Definition schedule_if_unmasked (code : EventCode.t) (event : HciEvent) : M () :=
  unmasked ← IsEventUnmasked code;
  when unmasked (schedule_event event).

(** The handle of the ACL connection with the source, or the packet is dropped. *)
Definition with_source (source : Address) (k : Z → M ()) : M () :=
  handle ← gets (λ c, GetAclConnectionHandle source (connections_ c));
  match handle with Some handle => k handle | None => mret () end.

(** ** Data *)

Definition FIRST_NON_AUTOMATICALLY_FLUSHABLE : Z := 0.
Definition FIRST_AUTOMATICALLY_FLUSHABLE : Z := 2.
Definition POINT_TO_POINT : Z := 0.

Definition IncomingAclPacket (source : Address) (packet_boundary_flag broadcast_flag : Z)
    (data : list Z) (rssi : Z) : M () :=
  let packet_boundary_flag :=
    if packet_boundary_flag =? FIRST_NON_AUTOMATICALLY_FLUSHABLE
    then FIRST_AUTOMATICALLY_FLUSHABLE else packet_boundary_flag in
  with_source source (λ handle,
    _ ← update_acl handle (AclConnection.SetRssi rssi);
    emit (EmitAcl handle packet_boundary_flag broadcast_flag data)).

Definition IncomingScoPacket (source : Address) (data : list Z) : M () :=
  sco_handle ← gets (λ c, GetScoConnectionHandle source (connections_ c));
  match sco_handle with Some handle => emit (EmitSco handle data) | None => mret () end.

Definition HandleAcl (connection_handle pb_flag bc_flag : Z) (data : list Z) : M () :=
  if negb (bc_flag =? POINT_TO_POINT) then lift Fatal else
  h ← gets connections_;
  _ ← (if HasAclHandle connection_handle h then
         connection ← lift (GetAclConnection connection_handle h);
         SendLinkLayerPacket (MkPacket (AclConnection.own_address connection)
           (AclConnection.address connection) (Acl pb_flag bc_flag data))
       else mret ());
  schedule_event (NumberOfCompletedPackets connection_handle 1).

(** ** Remote information *)

Definition IncomingRemoteNameRequest (source destination : Address) : M () :=
  name ← gets local_name_;
  SendLinkLayerPacket (MkPacket destination source (RemoteNameRequestResponse name)).
Definition IncomingRemoteNameRequestResponse (source : Address) (name : list Z) : M () :=
  send_if_unmasked EventCode.REMOTE_NAME_REQUEST_COMPLETE
    (RemoteNameRequestComplete SUCCESS source name).

Definition IncomingReadRemoteLmpFeatures (source destination : Address) : M () :=
  features ← gets host_supported_features_;
  SendLinkLayerPacket (MkPacket destination source (ReadRemoteLmpFeaturesResponse features)).
Definition IncomingReadRemoteLmpFeaturesResponse (source : Address) (features : Z) : M () :=
  send_if_unmasked EventCode.REMOTE_HOST_SUPPORTED_FEATURES_NOTIFICATION
    (RemoteHostSupportedFeaturesNotification source features).

Definition IncomingReadRemoteSupportedFeatures (source destination : Address) : M () :=
  features ← gets (λ c, lmp_features (properties_ c) !! 0%nat);
  features ← lift (unchecked features);
  SendLinkLayerPacket (MkPacket destination source (ReadRemoteSupportedFeaturesResponse features)).
Definition IncomingReadRemoteSupportedFeaturesResponse (source : Address) (features : Z) : M () :=
  with_source source (λ handle,
    send_if_unmasked EventCode.READ_REMOTE_SUPPORTED_FEATURES_COMPLETE
      (ReadRemoteSupportedFeaturesComplete SUCCESS handle features)).

(** The features are read whether or not the page exists. *)
Definition IncomingReadRemoteExtendedFeatures (source destination : Address) (page_number : Z) : M () :=
  pages ← gets (λ c, zlength (lmp_features (properties_ c)));
  let error_code := if pages <=? page_number
                    then ErrorCode.to_Z ErrorCode.INVALID_LMP_OR_LL_PARAMETERS else SUCCESS in
  max_page_number ← gets GetMaxLmpFeaturesPageNumber;
  features ← gets (GetLmpFeatures page_number);
  features ← lift features;
  SendLinkLayerPacket (MkPacket destination source
    (ReadRemoteExtendedFeaturesResponse error_code page_number max_page_number features)).
Definition IncomingReadRemoteExtendedFeaturesResponse (source : Address)
    (status page_number max_page_number features : Z) : M () :=
  with_source source (λ handle,
    send_if_unmasked EventCode.READ_REMOTE_EXTENDED_FEATURES_COMPLETE
      (ReadRemoteExtendedFeaturesComplete status handle page_number max_page_number features)).

(** The builder takes the LMP subversion as 8 bits and the company as 16. *)
Definition IncomingReadRemoteVersion (source destination : Address) : M () :=
  p ← gets properties_;
  SendLinkLayerPacket (MkPacket destination source
    (ReadRemoteVersionInformationResponse (u8 (lmp_version p)) (u8 (lmp_subversion p))
       (company_identifier p))).
Definition IncomingReadRemoteVersionResponse (source : Address)
    (version subversion manufacturer_name : Z) : M () :=
  with_source source (λ handle,
    send_if_unmasked EventCode.READ_REMOTE_VERSION_INFORMATION_COMPLETE
      (ReadRemoteVersionInformationComplete SUCCESS handle version manufacturer_name subversion)).

Definition IncomingReadClockOffset (source destination : Address) : M () :=
  SendLinkLayerPacket (MkPacket destination source (ReadClockOffsetResponse GetClockOffset)).
Definition IncomingReadClockOffsetResponse (source : Address) (offset : Z) : M () :=
  with_source source (λ handle,
    send_if_unmasked EventCode.READ_CLOCK_OFFSET_COMPLETE
      (ReadClockOffsetComplete SUCCESS handle offset)).

(** ** Connections *)

Definition IncomingDisconnectPacket (source : Address) (reason : Z) : M () :=
  with_source source (λ handle,
    removed ← disconnect_handle handle;
    _ ← lift (assert removed);
    _ ← assert_lm (link_manager_remove_link source);
    SendDisconnectionCompleteEvent handle reason).

Definition IncomingPagePacket (source : Address) (class_of_device allow_role_switch : Z) : M () :=
  enabled ← gets page_scan_enable_;
  if negb enabled then mret () else
  unmasked ← IsEventUnmasked EventCode.CONNECTION_REQUEST;
  own ← gets address_;
  if negb unmasked then
    SendLinkLayerPacket
      (MkPacket own source (PageReject (ErrorCode.to_Z ErrorCode.CONNECTION_TIMEOUT)))
  else
  exists_ ← gets (connected source);
  if exists_ : bool then mret () else
  pending ← gets page_scan_;
  if has_value pending then mret () else
  _ ← modify (λ c, c <| page_scan_ :=
        Some (MkPageScanState source (bool_decide (authentication_enable_ c = AuthenticationEnable.REQUIRED))
                allow_role_switch) |>);
  send_event_ (ConnectionRequest source class_of_device ConnectionRequestLinkType.ACL).

Definition IncomingPageRejectPacket (source : Address) (reason : Z) : M () :=
  expected ← gets (paging source);
  if negb expected then mret () else
  _ ← modify (λ c, c <| page_ := None |>);
  send_if_unmasked EventCode.CONNECTION_COMPLETE (ConnectionComplete reason 0 source LinkType.ACL).

Definition IncomingPageResponsePacket (source : Address) (try_role_switch : Z) : M () :=
  expected ← gets (paging source);
  if negb expected then mret () else
  own ← gets address_;
  connection_handle ← create_acl source own;
  pending ← gets page_;
  let allowed := match pending with Some p => negb (page_allow_role_switch p =? 0) | None => false end in
  let role := if allowed && negb (try_role_switch =? 0) then Role.PERIPHERAL else Role.CENTRAL in
  _ ← set_up_connection connection_handle role;
  _ ← modify (λ c, c <| page_ := None |>);
  _ ← assert_lm (link_manager_add_link source);
  _ ← (if bool_decide (role = Role.PERIPHERAL)
       then send_if_unmasked EventCode.ROLE_CHANGE (RoleChange SUCCESS source role) else mret ());
  send_if_unmasked EventCode.CONNECTION_COMPLETE
    (ConnectionComplete SUCCESS connection_handle source LinkType.ACL).

Definition opposite (role : Role.t) : Role.t :=
  match role with Role.CENTRAL => Role.PERIPHERAL | Role.PERIPHERAL => Role.CENTRAL end.

Definition IncomingRoleSwitchRequest (source : Address) : M () :=
  with_source source (λ handle,
    h ← gets connections_;
    own ← gets address_;
    connection ← lift (GetAclConnection handle h);
    if negb (AclConnection.IsRoleSwitchEnabled connection) then
      SendLinkLayerPacket (MkPacket own source
        (RoleSwitchResponse (ErrorCode.to_Z ErrorCode.ROLE_CHANGE_NOT_ALLOWED)))
    else
      _ ← SendLinkLayerPacket (MkPacket own source (RoleSwitchResponse SUCCESS));
      let new_role := opposite (AclConnection.role_ connection) in
      _ ← update_acl handle (AclConnection.SetRole new_role);
      schedule_if_unmasked EventCode.ROLE_CHANGE (RoleChange SUCCESS source new_role)).

Definition IncomingRoleSwitchResponse (source : Address) (status : Z) : M () :=
  with_source source (λ handle,
    h ← gets connections_;
    connection ← lift (GetAclConnection handle h);
    let new_role := if negb (status =? SUCCESS) then AclConnection.role_ connection
                    else opposite (AclConnection.role_ connection) in
    _ ← update_acl handle (AclConnection.SetRole new_role);
    schedule_if_unmasked EventCode.ROLE_CHANGE (RoleChange status source new_role)).

(** ** Synchronous connections *)

Definition IncomingScoConnectionRequest (source : Address) (parameters : ScoConnectionParameters)
    (class_of_device : Z) : M () :=
  h ← gets connections_;
  own ← gets address_;
  if HasPendingScoConnection source h then
    SendLinkLayerPacket (MkPacket own source
      (ScoConnectionResponse (ErrorCode.to_Z ErrorCode.SYNCHRONOUS_CONNECTION_LIMIT_EXCEEDED)
         0 0 0 0 0 false))
  else
    let extended := IsExtended parameters in
    _ ← CreateScoConnection source parameters
          (if extended then SCO_STATE_SENT_ESCO_CONNECTION_REQUEST
           else SCO_STATE_SENT_SCO_CONNECTION_REQUEST) NORMAL false;
    send_event_ (ConnectionRequest source class_of_device
      (if extended then ConnectionRequestLinkType.ESCO else ConnectionRequestLinkType.SCO)).

Definition IncomingScoConnectionResponse (source : Address) (status : Z) (p : ScoLinkParameters) : M () :=
  h ← gets connections_;
  let is_legacy := IsLegacyScoConnection source h in
  match GetScoConnectionHandle source h with
  | None => mret ()
  | Some sco_handle =>
      if status =? SUCCESS then
        _ ← AcceptPendingScoConnection source p;
        send_event_ (if is_legacy : bool then ConnectionComplete SUCCESS sco_handle source LinkType.SCO
                     else synchronous_connection_complete SUCCESS sco_handle source p)
      else
        _ ← CancelPendingScoConnection source;
        if is_legacy : bool then send_event_ (ConnectionComplete status 0 source LinkType.SCO)
        else
          connection_parameters ← gets (λ c, GetScoConnectionParameters source (connections_ c));
          send_event_ (SynchronousConnectionComplete status 0 source
            (if IsExtended connection_parameters then ScoLinkType.ESCO else ScoLinkType.SCO)
            0 0 0 0 0x03)
  end.

Definition IncomingScoDisconnect (source : Address) (reason : Z) : M () :=
  handle ← gets (λ c, GetScoConnectionHandle source (connections_ c));
  match handle with
  | Some handle =>
      _ ← disconnect_handle handle;
      SendDisconnectionCompleteEvent handle reason
  | None => mret ()
  end.

(** ** Inquiry *)

(** [rssi] is taken as a [uint8_t] here. *)
Definition IncomingInquiryPacket (source : Address) (inquiry_type lap : Z) (rssi : Z) : M () :=
  enabled ← gets inquiry_scan_enable_;
  if negb enabled then mret () else
  iac_laps ← gets current_iac_lap_list_;
  if negb (existsb (Z.eqb lap) iac_laps) then mret () else
  c ← gets id;
  let own := address_ c in
  let mode := PageScanRepetitionMode.to_Z (page_scan_repetition_mode_ c) in
  if inquiry_type =? InquiryType.to_Z InquiryType.STANDARD then
    SendLinkLayerPacket
      (MkPacket own source (InquiryResponse mode (class_of_device_ c) GetClockOffset))
  else if inquiry_type =? InquiryType.to_Z InquiryType.RSSI then
    SendLinkLayerPacket (MkPacket own source
      (InquiryResponseWithRssi mode (class_of_device_ c) GetClockOffset (u8 rssi)))
  else if inquiry_type =? InquiryType.to_Z InquiryType.EXTENDED then
    SendLinkLayerPacket (MkPacket own source
      (ExtendedInquiryResponse mode (class_of_device_ c) GetClockOffset (u8 rssi)
         (extended_inquiry_response_ c)))
  else mret ().

(** One event per response; the extended one ignores the event mask. *)
Definition IncomingInquiryResponsePacket (source : Address) (response : Payload) : M () :=
  match response with
  | InquiryResponse mode class_of_device clock_offset =>
      send_if_unmasked EventCode.INQUIRY_RESULT (InquiryResult source mode class_of_device clock_offset)
  | InquiryResponseWithRssi mode class_of_device clock_offset rssi =>
      send_if_unmasked EventCode.INQUIRY_RESULT_WITH_RSSI
        (InquiryResultWithRssi source mode class_of_device clock_offset rssi)
  | ExtendedInquiryResponse mode class_of_device clock_offset rssi eir =>
      send_event_ (ExtendedInquiryResult source mode class_of_device clock_offset rssi eir)
  | _ => mret ()
  end.

(** ** Reception *)

Definition IncomingLmpPacket (source : Address) (data : list Z) : M () :=
  assert_lm (link_manager_ingest_lmp source data).
Definition IncomingPingRequest (source destination : Address) : M () :=
  SendLinkLayerPacket (MkPacket destination source PingResponse).

Definition dispatch (source destination : Address) (p : Payload) (rssi : Z) : M () :=
  match p with
  | Acl pb bc data => IncomingAclPacket source pb bc data rssi
  | Sco data => IncomingScoPacket source data
  | BrState.Disconnect reason => IncomingDisconnectPacket source reason
  | Lmp data => IncomingLmpPacket source data
  | BrState.Inquiry inquiry_type lap => IncomingInquiryPacket source inquiry_type lap rssi
  | InquiryResponse _ _ _ | InquiryResponseWithRssi _ _ _ _ | ExtendedInquiryResponse _ _ _ _ _ =>
      IncomingInquiryResponsePacket source p
  | Page class_of_device allow_role_switch => IncomingPagePacket source class_of_device allow_role_switch
  | PageResponse try_role_switch => IncomingPageResponsePacket source try_role_switch
  | PageReject reason => IncomingPageRejectPacket source reason
  | BrState.RemoteNameRequest => IncomingRemoteNameRequest source destination
  | RemoteNameRequestResponse name => IncomingRemoteNameRequestResponse source name
  | BrState.ReadRemoteSupportedFeatures => IncomingReadRemoteSupportedFeatures source destination
  | ReadRemoteSupportedFeaturesResponse features =>
      IncomingReadRemoteSupportedFeaturesResponse source features
  | ReadRemoteLmpFeatures => IncomingReadRemoteLmpFeatures source destination
  | ReadRemoteLmpFeaturesResponse features => IncomingReadRemoteLmpFeaturesResponse source features
  | BrState.ReadRemoteExtendedFeatures page => IncomingReadRemoteExtendedFeatures source destination page
  | ReadRemoteExtendedFeaturesResponse status page max_page features =>
      IncomingReadRemoteExtendedFeaturesResponse source status page max_page features
  | BrState.ReadRemoteVersionInformation => IncomingReadRemoteVersion source destination
  | ReadRemoteVersionInformationResponse version subversion manufacturer_name =>
      IncomingReadRemoteVersionResponse source version subversion manufacturer_name
  | BrState.ReadClockOffset => IncomingReadClockOffset source destination
  | ReadClockOffsetResponse offset => IncomingReadClockOffsetResponse source offset
  | ScoConnectionRequest tx rx latency voice effort packet_type class_of_device =>
      IncomingScoConnectionRequest source
        (MkScoConnectionParameters tx rx latency voice effort packet_type) class_of_device
  | ScoConnectionResponse status interval window rx_length tx_length air_mode extended =>
      IncomingScoConnectionResponse source status
        (MkScoLinkParameters interval window rx_length tx_length air_mode extended)
  | ScoDisconnect reason => IncomingScoDisconnect source reason
  | PingRequest => IncomingPingRequest source destination
  | PingResponse => mret ()
  | RoleSwitchRequest => IncomingRoleSwitchRequest source
  | RoleSwitchResponse status => IncomingRoleSwitchResponse source status
  | OtherPacket _ => mret ()
  end.

(** Packets for another controller are dropped, broadcasts to the empty address
    are not; the timer of the link is reset before the packet is handled. *)
Definition IncomingPacket (incoming : LinkLayerPacket) (rssi : Z) : M () :=
  let source := source_address incoming in
  let destination := destination_address incoming in
  own ← gets address_;
  if bool_decide (destination ≠ kEmpty) && bool_decide (destination ≠ own) then mret () else
  handle ← gets (λ c, GetAclConnectionHandle source (connections_ c));
  _ ← match handle with
      | Some handle => t ← now; update_acl handle (AclConnection.ResetLinkTimer t)
      | None => mret ()
      end;
  dispatch source destination (payload incoming) rssi.

(** ** Time *)

Definition Paging : M () :=
  t ← now;
  c ← gets id;
  match page_ c with
  | None => mret ()
  | Some p =>
      if page_timeout p <=? t then
        _ ← send_event_ (ConnectionComplete (ErrorCode.to_Z ErrorCode.PAGE_TIMEOUT) 0
                           (page_bd_addr p) LinkType.ACL);
        modify (λ c, c <| page_ := None |>)
      else if (next_page_event p <=? t) && negb (being_paged (page_bd_addr p) c) then
        _ ← SendLinkLayerPacket (MkPacket (address_ c) (page_bd_addr p)
              (Page (class_of_device_ c) (page_allow_role_switch p)));
        modify (λ c, c <| page_ := Some (p <| next_page_event := t + kPageInterval |>) |>)
      else mret ()
  end.

Definition inquiry_step : M () :=
  t ← now;
  c ← gets id;
  match inquiry_ c with
  | None => mret ()
  | Some i =>
      if inquiry_timeout i <=? t then
        _ ← send_if_unmasked EventCode.INQUIRY_COMPLETE (InquiryComplete SUCCESS);
        modify (λ c, c <| inquiry_ := None |>)
      else if next_inquiry_event i <=? t then
        _ ← SendLinkLayerPacket (MkPacket (address_ c) kEmpty
              (BrState.Inquiry (inquiry_mode_ c) (inquiry_lap i)));
        modify (λ c, c <| inquiry_ := Some (i <| next_inquiry_event := t + kInquiryInterval |>) |>)
      else mret ()
  end.

(** What a callback does when its task runs. *)
Definition run_callback (callback : TaskCallback) : M () :=
  match callback with
  | SendToRemote packet tx_power => emit (EmitPacket packet tx_power)
  | SendEvent event => send_event_ event
  | RejectPeripheralConnectionLater addr reason => RejectPeripheralConnection addr reason
  | ConnectionPacketTypeChangedLater handle packet_type =>
      connection_packet_type_changed handle packet_type
  | CheckExpiringConnectionLater handle => CheckExpiringConnection handle
  | SendScoToRemoteLater handle data => _ ← SendScoToRemote handle data; mret ()
  | SendAclLater handle pb bc data => emit (EmitAcl handle pb bc data)
  end.

(** The queue of Tasks, with the rest of the controller as the state a callback may
    change. *)
Definition call_task (callback : TaskCallback) (s : BrEdrController * TaskQueue TaskCallback)
  : outcome (BrEdrController * TaskQueue TaskCallback) :=
  '(_, c) ← run_callback callback ((fst s) <| tasks := snd s |>);
  Ok (c, tasks c).
Definition RunPendingTasks : M () := λ c,
  let t := clock (readings c) in
  '(c, q) ← Tasks.RunPendingTasks call_task (length (due t (task_queue_ (tasks c))) + 1) t
              (c <| readings ::= S |>, tasks c);
  Ok ((), c <| tasks := q |>).

Definition Tick : M () :=
  _ ← RunPendingTasks;
  _ ← Paging;
  _ ← inquiry_step;
  lm ← gets lm_;
  lm ← run_lm (link_manager_tick lm);
  modify (λ c, c <| lm_ := lm |>).

Definition Close : M () := DisconnectAll ErrorCode.REMOTE_DEVICE_TERMINATED_CONNECTION_POWER_OFF.
End Link.
