(* ===== verification/BrInvariant.v ===== *)
(** * The invariant of the BR/EDR controller

    Every command, packet and tick keeps the tables and the task queue well
    formed, at most one ACL connection with each peer, and never pages a peer it
    is connected to. *)

From S2P Require Import Prelude HciTypes Properties Address Sco Connections Tasks BrState BrCommands BrLink.

Section Keeps.
Context {env : Environment}.
Implicit Types (c : BrEdrController).

(** ** Handlers that keep a property *)

Definition keeps {A} (P : BrEdrController → Prop) (m : M A) : Prop :=
  ∀ c a c', P c → m c = Ok (a, c') → P c'.

Section Rules.
Context (P : BrEdrController → Prop).

Lemma kept_ret {A} (a : A) : keeps P (mret a).
Proof. by intros c a' c' ? [= _ <-]. Qed.
Lemma kept_bind {A B} (m : M A) (f : A → M B) :
  keeps P m → (∀ a, keeps P (f a)) → keeps P (m ≫= f).
Proof. intros Hm Hf c b c' Hc ([a c1] & H1 & H2)%bind_Ok. eapply Hf; [by eapply Hm|exact H2]. Qed.
Lemma kept_gets {A} (f : BrEdrController → A) : keeps P (gets f).
Proof. by intros c a c' ? [= _ <-]. Qed.
Lemma kept_lift {A} (m : outcome A) : keeps P (lift m).
Proof. by intros c a c' ? (? & _ & [= _ <-])%bind_Ok. Qed.
Lemma kept_modify f : (∀ c, P c → P (f c)) → keeps P (modify f).
Proof. intros Hf c a c' ? [= _ <-]. auto. Qed.
Lemma kept_when b m : keeps P m → keeps P (when b m).
Proof. destruct b; [done|]. intros _. apply kept_ret. Qed.
Lemma kept_for_each {A} (l : list A) body : (∀ x, keeps P (body x)) → keeps P (for_each l body).
Proof.
  intros Hb. induction l as [|x l IH]; simpl; [apply kept_ret|]. by apply kept_bind.
Qed.
Lemma kept_IsEventUnmasked event : keeps P (IsEventUnmasked event).
Proof.
  intros c a c' Hc. unfold IsEventUnmasked. by repeat case_match; intros [= _ <-].
Qed.
End Rules.

(** ** The invariant *)

Definition acl_of c : gmap Z AclConnection := acl_connections_ (connections_ c).
Definition linked c (peer : Address) : Prop :=
  ∃ k x, acl_of c !! k = Some x ∧ AclConnection.address x = peer.

(** [busy] is a peer whose page is being answered by a connection. *)
Record br_wf_but (busy : option Address) c : Prop := {
  br_handler : handler_wf (connections_ c);
  br_le : le_acl_connections_ (connections_ c) = ∅;
  br_unique : ∀ k k' x x', acl_of c !! k = Some x → acl_of c !! k' = Some x' →
                AclConnection.address x = AclConnection.address x' → k = k';
  br_own : ∀ k x, acl_of c !! k = Some x → AclConnection.own_address x = address_ c;
  br_page : ∀ p, page_ c = Some p → busy ≠ Some (page_bd_addr p) → ¬ linked c (page_bd_addr p);
  br_tasks : queue_ordered (tasks c);
}.

(** It only reads the tables, the page state, the queue and the address. *)
Lemma br_wf_same busy c c' :
  connections_ c' = connections_ c → address_ c' = address_ c → page_ c' = page_ c →
  tasks c' = tasks c → br_wf_but busy c → br_wf_but busy c'.
Proof.
  intros E1 E2 E3 E4 [Hh Hle Hu Ho Hp Ht]. unfold linked, acl_of in *.
  split; unfold linked, acl_of; rewrite ?E1, ?E2, ?E4; [done..| |done].
  intros p. rewrite E3. apply Hp.
Qed.

(** A change of the tables that leaves the ACL connections, or removes some. *)
Lemma br_wf_connections busy c h :
  handler_wf h → le_acl_connections_ h = ∅ → acl_connections_ h ⊆ acl_of c →
  br_wf_but busy c → br_wf_but busy (c <| connections_ := h |>).
Proof.
  intros Hh Hle Hsub [_ _ Hu Ho Hp Ht].
  assert (sub : ∀ k x, acl_connections_ h !! k = Some x → acl_of c !! k = Some x)
    by (intros; by eapply lookup_weaken).
  split; cbn; try done.
  - intros k k' x x' ?%sub ?%sub. by eapply Hu.
  - intros k x ?%sub. by eapply Ho.
  - intros p E Hb (k & x & ?%sub & Ex). eapply (Hp p E Hb). by exists k, x.
Qed.

Lemma connected_spec peer c : connected peer c = true ↔ linked c peer.
Proof.
  unfold connected, linked, GetAclConnectionHandle. split.
  - destruct (find_first _ _) as [[k x]|] eqn:F; [|done]. intros _.
    apply find_first_Some in F as [F E]. apply elem_of_iterate in F. exists k, x. split; [done|].
    by apply bool_decide_eq_true in E.
  - intros (k & x & Hx & Hp). destruct (find_first _ _) as [|] eqn:F; [done|].
    rewrite find_first_None in F. specialize (F (k, x)). cbn in F.
    rewrite bool_decide_eq_false in F. exfalso. apply F; [|done]. by apply elem_of_iterate.
Qed.
Lemma paging_spec peer c : paging peer c = true ↔ ∃ p, page_ c = Some p ∧ page_bd_addr p = peer.
Proof. unfold paging. destruct (page_ c); [rewrite bool_decide_eq_true|]; naive_solver. Qed.

(** ** Elementary operations *)

Section Elementary.
Context (busy : option Address).
Abbreviation wf := (br_wf_but busy).

Lemma kept_same f :
  (∀ c, connections_ (f c) = connections_ c ∧ address_ (f c) = address_ c ∧
        page_ (f c) = page_ c ∧ tasks (f c) = tasks c) → keeps wf (modify f).
Proof. intros Hf. apply kept_modify. intros c. destruct (Hf c) as (? & ? & ? & ?). by apply br_wf_same. Qed.

Lemma kept_now : keeps wf now.
Proof. intros c a c' Hc [= _ <-]. by apply (br_wf_same busy c). Qed.
Lemma kept_send_event event : keeps wf (send_event_ event).
Proof. by apply kept_same. Qed.

Lemma br_wf_tasks c q : queue_ordered q → wf c → wf (c <| tasks := q |>).
Proof. intros ? []. by split. Qed.
Lemma kept_ScheduleTask delay callback : keeps wf (ScheduleTask delay callback).
Proof.
  intros c a c' Hc. unfold ScheduleTask.
  intros ([t c1] & E1 & ([q c2] & [= <- <-] & ([[id q'] c3] & E3 & E4)%bind_Ok)%bind_Ok)%bind_Ok.
  apply (kept_now _ _ _ Hc) in E1.
  apply bind_Ok in E3 as ([id' q1] & E3 & [= <- <- <-]).
  apply ScheduleTask_ordered in E3 as Hq; [|apply E1].
  apply bind_Ok in E4 as ([u c4] & [= <- <-] & [= <- <-]). by apply br_wf_tasks.
Qed.
Lemma kept_SchedulePeriodicTask delay period callback :
  keeps wf (SchedulePeriodicTask delay period callback).
Proof.
  intros c a c' Hc. unfold SchedulePeriodicTask.
  intros ([t c1] & E1 & ([q c2] & [= <- <-] & ([[id q'] c3] & E3 & E4)%bind_Ok)%bind_Ok)%bind_Ok.
  apply (kept_now _ _ _ Hc) in E1.
  apply bind_Ok in E3 as ([id' q1] & E3 & [= <- <- <-]).
  apply SchedulePeriodicTask_ordered in E3 as Hq; [|apply E1].
  apply bind_Ok in E4 as ([u c4] & [= <- <-] & [= <- <-]). by apply br_wf_tasks.
Qed.
Lemma kept_CancelScheduledTask id : keeps wf (CancelScheduledTask id).
Proof. apply kept_modify. intros c Hc. apply br_wf_tasks; [|done]. apply CancelScheduledTask_ordered, Hc. Qed.

Lemma kept_update_acl handle f :
  (∀ x, AclConnection.address (f x) = AclConnection.address x ∧
        AclConnection.own_address (f x) = AclConnection.own_address x ∧
        AclConnection.handle (f x) = AclConnection.handle x) →
  keeps wf (update_acl handle f).
Proof.
  intros Hf. apply kept_modify. intros c [[Ha Hl Hs L1 L2 L3] Hle Hu Ho Hp Ht].
  assert (back : ∀ k x, alter f handle (acl_of c) !! k = Some x →
    ∃ y, acl_of c !! k = Some y ∧ AclConnection.address x = AclConnection.address y ∧
         AclConnection.own_address x = AclConnection.own_address y ∧
         AclConnection.handle x = AclConnection.handle y).
  { intros k x. destruct (decide (k = handle)) as [->|].
    - rewrite lookup_alter_eq. intros (y & Hy & ->)%fmap_Some. exists y. by destruct (Hf y) as (-> & -> & ->).
    - rewrite lookup_alter_ne by done. eauto. }
  split; cbn; try done.
  - split; cbn; try done. intros k x (y & Hy & _ & _ & ->)%back. by apply Ha.
  - intros k k' x x' (y & Hy & -> & _)%back (y' & Hy' & -> & _)%back. by eapply Hu.
  - intros k x (y & Hy & _ & -> & _)%back. by eapply Ho.
  - intros p E Hb (k & x & (y & Hy & Ea & _)%back & Ex). eapply (Hp p E Hb). exists k, y. split; [done|congruence].
Qed.

Lemma empty_le c m : wf c → m ⊆ le_acl_connections_ (connections_ c) → m = ∅.
Proof.
  intros Hc Hle. rewrite (br_le _ _ Hc) in Hle. apply map_eq. intros i. rewrite lookup_empty.
  destruct (m !! i) eqn:E'; [|done]. by apply (lookup_weaken _ _ _ _ E') in Hle.
Qed.

(** An operation of the tables that only concerns SCO connections. *)
Lemma kept_sco {A} (f : AclConnectionHandler → outcome (A * AclConnectionHandler)) :
  (∀ h a h', f h = Ok (a, h') → handler_wf h →
     handler_wf h' ∧ acl_connections_ h' ⊆ acl_connections_ h ∧
     le_acl_connections_ h' ⊆ le_acl_connections_ h) →
  keeps wf (on_connections f).
Proof.
  intros Hf c a c' Hc ([a' h] & E & [= <- <-])%bind_Ok.
  destruct (Hf _ _ _ E) as (Hh & Hacl & Hle); [apply Hc|].
  apply br_wf_connections; [done| |done..].
  by apply (empty_le c).
Qed.
Lemma sco_only h m :
  handler_wf h → map_Forall (λ k _, kScoRangeStart ≤ k ≤ kScoRangeEnd) m →
  handler_wf (h <| sco_connections_ := m |>) ∧
  acl_connections_ (h <| sco_connections_ := m |>) ⊆ acl_connections_ h ∧
  le_acl_connections_ (h <| sco_connections_ := m |>) ⊆ le_acl_connections_ h.
Proof. intros [] Hm. split; [by split; cbn|by split; cbn]. Qed.

Lemma kept_disconnect_handle handle : keeps wf (disconnect_handle handle).
Proof.
  apply kept_bind.
  2:{ intros [removed stopped]. apply kept_bind; [|intros; apply kept_ret].
      apply kept_for_each. intros. apply kept_CancelScheduledTask. }
  apply kept_sco. intros h a h' ([[removed h1] stopped] & E & [= <- <-])%bind_Ok Hh.
  split; [eapply handler_step_wf; [exact Hh|by eapply step_disconnect]|].
  pose proof (Disconnect_cases handle h) as D. rewrite E in D.
  destruct D as [[l [= _ -> _]]|[[= _ -> _]|[[= _ -> _]|[= _ -> _]]]]; cbn;
    split; done || apply delete_subseteq.
Qed.

Lemma kept_CreateScoConnection a p st dp lg : keeps wf (CreateScoConnection a p st dp lg).
Proof.
  apply kept_sco. intros h u h' (h1 & E & [= _ <-])%bind_Ok Hh.
  split; [by eapply handler_wf_create_sco|].
  by apply bind_Ok in E as ([k l] & _ & [= <-]).
Qed.
Lemma kept_CancelPendingScoConnection a : keeps wf (CancelPendingScoConnection a).
Proof.
  apply kept_sco. intros h u h' (h1 & E & [= _ <-])%bind_Ok Hh.
  split; [eapply handler_step_wf; [exact Hh|by eapply step_cancel_sco]|].
  unfold Connections.CancelPendingScoConnection in E. destruct (find_sco _ _) as [[k c]|]; [|by simplify_eq].
  by apply bind_Ok in E as (? & _ & [= <-]).
Qed.
Lemma accept_tables addr p task h ok h' :
  Connections.AcceptPendingScoConnection addr p task h = Ok (ok, h') →
  acl_connections_ h' ⊆ acl_connections_ h ∧ le_acl_connections_ h' ⊆ le_acl_connections_ h.
Proof.
  unfold Connections.AcceptPendingScoConnection. destruct (find_sco _ _) as [[k c]|]; [|by intros [= _ <-]].
  by intros (? & _ & [= _ <-])%bind_Ok.
Qed.
Lemma negotiate_tables addr p task h ok h' :
  Connections.AcceptPendingScoConnection_negotiate addr p task h = Ok (ok, h') →
  acl_connections_ h' ⊆ acl_connections_ h ∧ le_acl_connections_ h' ⊆ le_acl_connections_ h.
Proof.
  unfold Connections.AcceptPendingScoConnection_negotiate.
  destruct (find_sco _ _) as [[k c]|]; [|by intros [= _ <-]].
  destruct (NegotiateLinkParameters _ _). by intros (? & _ & [= _ <-])%bind_Ok.
Qed.

(** A handler that ends by putting tables computed from the current ones. *)
Lemma kept_StartScoStream a : keeps wf (StartScoStream a).
Proof.
  apply kept_bind; [apply kept_gets|]. intros h. destruct (GetScoConnectionHandle a h).
  - apply kept_SchedulePeriodicTask.
  - apply kept_lift.
Qed.
Lemma kept_accept_with_stream a accept :
  (∀ task h ok h', accept task h = Ok (ok, h') → handler_wf h →
     handler_wf h' ∧ acl_connections_ h' ⊆ acl_connections_ h ∧
     le_acl_connections_ h' ⊆ le_acl_connections_ h) →
  keeps wf (accept_with_stream a accept).
Proof.
  intros Ha c b c' Hc. unfold accept_with_stream.
  intros ([h c1] & [= <- <-] & ([[accepted h'] c2] & E & E2)%bind_Ok)%bind_Ok.
  apply bind_Ok in E as ([? ?] & E & [= -> -> <-]). revert E2.
  destruct (accepted && _).
  - apply (kept_bind _ (StartScoStream a)); [apply kept_StartScoStream| |exact Hc].
    intros task. apply kept_sco. intros. by eapply Ha.
  - intros ([u c3] & [= <- <-] & [= <- <-])%bind_Ok.
    destruct (Ha _ _ _ _ E) as (Hh & Hacl & Hle); [apply Hc|].
    apply br_wf_connections; [done| |done..]. by apply (empty_le c).
Qed.
Lemma kept_run_lm {A} (p : LmProgram A) : keeps wf (run_lm p).
Proof.
  induction p as [r|a k IH|h k IH|n k IH|e l k IH|to d k IH]; cbn [run_lm].
  - apply kept_ret.
  - apply kept_bind; [apply kept_gets|done].
  - apply kept_bind; [apply kept_gets|]. intros. by apply kept_bind; [apply kept_lift|].
  - apply kept_bind; [apply kept_gets|]. intros. by apply kept_bind; [apply kept_lift|].
  - by apply kept_bind; [apply kept_send_event|].
  - apply kept_bind; [apply kept_gets|]. intros. apply kept_bind; [|done].
    apply kept_bind; [apply kept_ScheduleTask|intros; apply kept_ret].
Qed.
Lemma kept_call_lm f : keeps wf (call_lm f).
Proof.
  apply kept_bind; [apply kept_gets|]. intros lm. apply kept_bind; [apply kept_run_lm|].
  intros [ok lm']. by apply kept_bind; [apply kept_same|intros; apply kept_ret].
Qed.
End Elementary.

End Keeps.
Abbreviation br_wf := (br_wf_but None).

(** *** One rule per form of handler *)

Ltac keep_rule :=
  lazymatch goal with
  | |- ∀ _, _ => intros
  | |- keeps _ (let _ := _ in _) => cbv zeta
  | |- keeps _ (mret _) => apply kept_ret
  | |- keeps _ (mbind (λ '(_, _), _) _) => apply kept_bind; [|intros [? ?]]
  | |- keeps _ (_ ≫= _) => apply kept_bind
  | |- keeps _ (gets _) => apply kept_gets
  | |- keeps _ (lift _) => apply kept_lift
  | |- keeps _ now => apply kept_now
  | |- keeps _ (send_event_ _) => apply kept_send_event
  | |- keeps _ (emit _) => by apply kept_same
  | |- keeps _ (ScheduleTask _ _) => apply kept_ScheduleTask
  | |- keeps _ (SendLinkLayerPacket _) => unfold SendLinkLayerPacket
  | |- keeps _ (schedule_event _) => unfold schedule_event
  | |- keeps _ (IsEventUnmasked _) => apply kept_IsEventUnmasked
  | |- keeps _ (when _ _) => apply kept_when
  | |- keeps _ (for_each _ _) => apply kept_for_each
  | |- keeps _ (update_acl _ _) => by apply kept_update_acl
  | |- keeps _ (disconnect_handle _) => apply kept_disconnect_handle
  | |- keeps _ (CancelScheduledTask _) => apply kept_CancelScheduledTask
  | |- keeps _ (CreateScoConnection _ _ _ _ _) => apply kept_CreateScoConnection
  | |- keeps _ (CancelPendingScoConnection _) => apply kept_CancelPendingScoConnection
  | |- keeps _ (assert_lm _) => apply kept_bind; [apply kept_call_lm|]
  | |- keeps _ (if ?b then _ else _) => destruct b
  | |- keeps _ (match ?x with _ => _ end) => destruct x
  | |- keeps _ (modify _) => by apply kept_same
  end.
Ltac keep := repeat keep_rule.

Section Commands.
Context {env : Environment}.
Implicit Types (c : BrEdrController).

Section Handlers.
Context (busy : option Address).
Abbreviation wf := (br_wf_but busy).

Lemma kept_SendDisconnectionCompleteEvent h r : keeps wf (SendDisconnectionCompleteEvent h r).
Proof. unfold SendDisconnectionCompleteEvent. keep. Qed.
Lemma kept_Disconnect h r r' : keeps wf (Disconnect h r r').
Proof. unfold Disconnect. repeat (keep; try apply kept_SendDisconnectionCompleteEvent). Qed.
Lemma kept_CheckExpiringConnection h : keeps wf (CheckExpiringConnection h).
Proof. unfold CheckExpiringConnection. repeat (keep; try apply kept_Disconnect). Qed.
Lemma kept_set_up_connection h role : keeps wf (set_up_connection h role).
Proof. unfold set_up_connection. repeat (keep; try apply kept_CheckExpiringConnection). Qed.
Lemma kept_AcceptPendingScoConnection a p : keeps wf (AcceptPendingScoConnection a p).
Proof.
  apply kept_accept_with_stream. intros task h ok h' E Hh. split; [|by eapply accept_tables].
  eapply handler_step_wf; [exact Hh|by eapply step_accept_sco].
Qed.
Lemma kept_AcceptPendingScoConnection_negotiate a p :
  keeps wf (AcceptPendingScoConnection_negotiate a p).
Proof.
  apply kept_accept_with_stream. intros task h ok h' E Hh. split; [|by eapply negotiate_tables].
  eapply handler_step_wf; [exact Hh|by eapply step_negotiate_sco].
Qed.
Lemma kept_accept_sco a p e : keeps wf (accept_sco a p e).
Proof. unfold accept_sco. repeat (keep; try apply kept_AcceptPendingScoConnection_negotiate). Qed.
Lemma kept_SendScoToRemote h d : keeps wf (SendScoToRemote h d).
Proof. unfold SendScoToRemote. keep. Qed.
Lemma kept_RejectPeripheralConnection a r : keeps wf (RejectPeripheralConnection a r).
Proof. unfold RejectPeripheralConnection. keep. Qed.
End Handlers.

(** ** Connection set up *)

(** From [P] the handler leads to [Q]. *)
Definition leads {A} (P Q : BrEdrController → Prop) (m : M A) : Prop :=
  ∀ c a c', P c → m c = Ok (a, c') → Q c'.
Lemma leads_bind {A B} P Q R (m : M A) (f : A → M B) :
  leads P Q m → (∀ a, leads Q R (f a)) → leads P R (m ≫= f).
Proof. intros Hm Hf c b c' Hc ([a c1] & H1 & H2)%bind_Ok. eapply Hf; [by eapply Hm|exact H2]. Qed.

Lemma leads_gets {A B} P Q (f : BrEdrController → A) (k : A → M B) :
  (∀ a, leads (λ c, P c ∧ f c = a) Q (k a)) → leads P Q (gets f ≫= k).
Proof. intros Hk c b c' Hc ([a c1] & [= <- <-] & E)%bind_Ok. by eapply (Hk (f c)). Qed.
Lemma leads_keeps {A} P Q R (m : M A) : (∀ c, P c → Q c) → leads Q R m → leads P R m.
Proof. intros H Hm c a c' Hc. apply Hm. auto. Qed.

(** A page given up, or answered. *)
Lemma leads_no_page busy busy' : leads (br_wf_but busy) (br_wf_but busy') (modify (λ c, c <| page_ := None |>)).
Proof. intros c a c' [] [= _ <-]. by split. Qed.
Lemma leads_page_answered peer :
  leads (br_wf_but (Some peer)) br_wf (modify (λ c, if paging peer c then c <| page_ := None |> else c)).
Proof.
  intros c a c' Hc [= _ <-]. destruct (paging peer c) eqn:E.
  - by eapply (leads_no_page (Some peer) None _ ()).
  - destruct Hc as [? ? ? ? Hp ?]. split; try done. intros p Ep _. apply Hp; [done|].
    intros [= ->]. assert (paging (page_bd_addr p) c = true) by (apply paging_spec; eauto). congruence.
Qed.
Lemma leads_create_acl peer own :
  leads (λ c, br_wf c ∧ ¬ linked c peer ∧ address_ c = own) (br_wf_but (Some peer)) (create_acl peer own).
Proof.
  intros c k c' (Hc & Hn & <-). unfold create_acl.
  intros ([t c2] & E1 & ([k' h] & E2 & [= <- <-])%bind_Ok)%bind_Ok.
  assert (Hc2 : br_wf c2) by by eapply kept_now.
  assert (Hn2 : ¬ linked c2 peer) by by injection E1 as _ <-.
  assert (own2 : address_ c2 = address_ c) by by injection E1 as _ <-.
  pose proof (handler_wf_create_acl _ _ _ _ _ _ (br_handler _ _ Hc2) E2) as Hh.
  apply bind_Ok in E2 as ([u l] & Hu & [= <- <-]).
  apply GetUnusedHandle_Ok in Hu as (_ & Hfree & _); [|done..|apply (br_handler _ _ Hc2)].
  destruct Hc2 as [_ Hle Hun Ho Hp Ht].
  assert (back : ∀ i x, emplace u (AclConnection.new t u peer (address_ c) Role.CENTRAL) (acl_of c2) !! i = Some x →
    (i = u ∧ x = AclConnection.new t u peer (address_ c) Role.CENTRAL) ∨ acl_of c2 !! i = Some x).
  { intros i x. rewrite emplace_fresh by done. intros [[-> <-]|[_ ?]]%lookup_insert_Some; auto. }
  split; cbn; try done.
  - intros i i' x x' [[-> ->]|Hx]%back [[-> ->]|Hx']%back E; cbn in E; [done| | |by eapply Hun].
    + exfalso. apply Hn2. by exists i', x'.
    + exfalso. apply Hn2. by exists i, x.
  - intros i x [[-> ->]|Hx]%back; cbn; [done|by eapply Ho].
  - intros p Ep Hb (i & x & [[-> ->]|Hx]%back & E); cbn in E; [congruence|].
    apply (Hp p Ep); [done|]. by exists i, x.
Qed.

Lemma leads_step {A B} P Q (m : M A) (f : A → M B) :
  keeps P m → (∀ a, leads P Q (f a)) → leads P Q (m ≫= f).
Proof. apply leads_bind. Qed.
(** Steps that keep the weak invariant of [peer]. *)
Ltac steps := repeat (apply leads_step; [solve [keep; apply kept_set_up_connection]|intros; cbv zeta]).

Lemma kept_accept_page peer try_role_switch : keeps br_wf (accept_page peer try_role_switch).
Proof.
  change (leads br_wf br_wf (accept_page peer try_role_switch)). unfold accept_page.
  apply leads_gets. intros []; [by intros c a c' [Hc _] [= _ <-]|].
  apply leads_gets. intros own. apply (leads_bind _ (br_wf_but (Some peer))).
  { eapply leads_keeps; [|apply (leads_create_acl peer own)]. cbn. intros c [[Hc Hn] Ho].
    split; [done|]. split; [rewrite <-connected_spec; congruence|done]. }
  intros handle. steps.
  apply (leads_bind _ br_wf); [apply leads_page_answered|]. intros.
  apply (kept_bind br_wf); [by apply kept_same|intros; apply kept_ret].
Qed.

Lemma kept_IncomingPageResponsePacket peer try_role_switch :
  keeps br_wf (IncomingPageResponsePacket peer try_role_switch).
Proof.
  change (leads br_wf br_wf (IncomingPageResponsePacket peer try_role_switch)).
  unfold IncomingPageResponsePacket.
  apply leads_gets. intros []; cbn [negb]; [|by intros c a c' [Hc _] [= _ <-]].
  apply leads_gets. intros own. apply (leads_bind _ (br_wf_but (Some peer))).
  { eapply leads_keeps; [|apply (leads_create_acl peer own)]. cbn. intros c [[Hc Hp] Ho].
    split; [done|]. split; [|done]. apply paging_spec in Hp as (p & Ep & <-). by apply (br_page _ _ Hc). }
  intros handle. steps.
  apply (leads_bind _ br_wf); [apply leads_no_page|]. intros.
  apply (kept_bind br_wf); unfold send_if_unmasked; keep.
Qed.

Lemma kept_CreateConnection peer allow_role_switch : keeps br_wf (CreateConnection peer allow_role_switch).
Proof.
  change (leads br_wf br_wf (CreateConnection peer allow_role_switch)). unfold CreateConnection.
  apply leads_gets. intros [p|]; cbn [has_value]; [by intros c a c' [Hc _] [= _ <-]|].
  apply leads_gets. intros []; [by intros c a c' [[Hc _] _] [= _ <-]|].
  apply leads_gets. intros []; [by intros c a c' [[[Hc _] _] _] [= _ <-]|].
  intros c a c' [[[Hc _] Hn] _].
  assert (Hl : ¬ linked c peer) by (rewrite <-connected_spec; congruence).
  intros ([t c1] & [= _ <-] & ([u c2] & [= _ <-] & [= _ <-])%bind_Ok)%bind_Ok.
  destruct Hc as [? ? ? ? _ ?]. split; try done. by intros p [= <-] _.
Qed.

(** ** The other commands *)

Lemma kept_with_acl_or {A} P (missing : A) h k :
  (∀ x, keeps P (k x)) → keeps P (with_acl_or missing h k).
Proof.
  intros Hk. unfold with_acl_or. apply kept_bind; [apply kept_gets|]. intros t.
  destruct (negb _); [apply kept_ret|]. apply kept_bind; [apply kept_lift|done].
Qed.
Lemma kept_request_sco x p d l : keeps br_wf (request_sco x p d l).
Proof. unfold request_sco. keep. Qed.
Lemma kept_SetupSynchronousConnection h p d : keeps br_wf (SetupSynchronousConnection h p d).
Proof. apply kept_with_acl_or. intros. apply kept_request_sco. Qed.
Lemma kept_AcceptSynchronousConnection a p : keeps br_wf (AcceptSynchronousConnection a p).
Proof.
  unfold AcceptSynchronousConnection. apply kept_bind; [apply kept_gets|]. intros h.
  destruct (negb _); [apply kept_ret|]. apply kept_bind; [apply kept_accept_sco|].
  intros [[status sco_handle] p']. keep.
Qed.
Lemma kept_AcceptConnectionRequest a b : keeps br_wf (AcceptConnectionRequest a b).
Proof.
  unfold AcceptConnectionRequest. apply kept_bind; [apply kept_gets|].
  intros []; [apply kept_accept_page|]. apply kept_bind; [apply kept_gets|]. intros h.
  destruct (HasPendingScoConnection a h); [|apply kept_ret].
  apply kept_bind; [apply kept_accept_sco|]. intros [[status sco_handle] p]. keep.
Qed.
Lemma kept_ask_peer h q : keeps br_wf (ask_peer h q).
Proof. apply kept_with_acl_or. intros. keep. Qed.
Lemma kept_CreateConnectionCancel a : keeps br_wf (CreateConnectionCancel a).
Proof.
  unfold CreateConnectionCancel.
  repeat (keep; try (change (keeps br_wf ?m) with (leads br_wf br_wf m); apply leads_no_page)).
Qed.
Lemma kept_DisconnectAll r : keeps br_wf (DisconnectAll r).
Proof. unfold DisconnectAll. keep. Qed.
Lemma kept_Reset : keeps br_wf Reset.
Proof.
  unfold Reset. apply kept_bind; [apply kept_DisconnectAll|]. intros _.
  apply kept_bind.
  { intros c stopped c' Hc ([a h] & [= <- <-] & [= <- <-])%bind_Ok.
    apply br_wf_connections; [apply empty_handler_wf|done|apply map_empty_subseteq|done]. }
  intros stopped. apply kept_bind; [apply kept_for_each; intros; apply kept_CancelScheduledTask|].
  intros _ c u c' [Hh Hle Hu Ho Hp Ht] [= _ <-]. by split.
Qed.
End Commands.
