(* ===== verification/BrMachine.v ===== *)
(** * The BR/EDR controller at work

    The calls of the host, the packets received, and [Tick], as a transition
    system; what holds in every state it reaches. *)

From S2P Require Import Prelude HciTypes Properties Address Sco Connections Tasks BrState BrCommands BrLink.
From S2P Require Import BrInvariant.

Ltac head_of m := lazymatch m with ?f _ => head_of f | _ => m end.

Section Machine.
Context {env : Environment}.

(** The public operations that change the controller (bredr_controller.h). *)
Inductive host_call : ∀ {A}, M A → Prop :=
| call_Inquiry lap length n : host_call (Inquiry lap length n)
| call_InquiryCancel : host_call InquiryCancel
| call_CreateConnection a allow : host_call (CreateConnection a allow)
| call_Disconnect h r r' : host_call (Disconnect h r r')
| call_CreateConnectionCancel a : host_call (CreateConnectionCancel a)
| call_AcceptConnectionRequest a try : host_call (AcceptConnectionRequest a try)
| call_RejectConnectionRequest a r : host_call (RejectConnectionRequest a r)
| call_ChangeConnectionPacketType h t : host_call (ChangeConnectionPacketType h t)
| call_ChangeConnectionLinkKey h : host_call (ChangeConnectionLinkKey h)
| call_RemoteNameRequest a : host_call (RemoteNameRequest a)
| call_ReadRemoteSupportedFeatures h : host_call (ReadRemoteSupportedFeatures h)
| call_ReadRemoteExtendedFeatures h n : host_call (ReadRemoteExtendedFeatures h n)
| call_ReadRemoteVersionInformation h : host_call (ReadRemoteVersionInformation h)
| call_ReadClockOffset h : host_call (ReadClockOffset h)
| call_AddScoConnection h t : host_call (AddScoConnection h t)
| call_SetupSynchronousConnection h p d : host_call (SetupSynchronousConnection h p d)
| call_AcceptSynchronousConnection a p : host_call (AcceptSynchronousConnection a p)
| call_RejectSynchronousConnection a r : host_call (RejectSynchronousConnection a r)
| call_EnhancedSetupSynchronousConnection h p : host_call (EnhancedSetupSynchronousConnection h p)
| call_EnhancedAcceptSynchronousConnection a p : host_call (EnhancedAcceptSynchronousConnection a p)
| call_HoldMode h x y : host_call (HoldMode h x y)
| call_SniffMode h x y z t : host_call (SniffMode h x y z t)
| call_ExitSniffMode h : host_call (ExitSniffMode h)
| call_QosSetup h s t p l d : host_call (QosSetup h s t p l d)
| call_RoleDiscovery h : host_call (RoleDiscovery h)
| call_SwitchRole a r : host_call (SwitchRole a r)
| call_ReadLinkPolicySettings h : host_call (ReadLinkPolicySettings h)
| call_WriteLinkPolicySettings h s : host_call (WriteLinkPolicySettings h s)
| call_ReadDefaultLinkPolicySettings : host_call ReadDefaultLinkPolicySettings
| call_WriteDefaultLinkPolicySettings s : host_call (WriteDefaultLinkPolicySettings s)
| call_FlowSpecification h d t : host_call (FlowSpecification h d t)
| call_SniffSubrating h l r t : host_call (SniffSubrating h l r t)
| call_Reset : host_call Reset
| call_WriteLocalName n : host_call (WriteLocalName n)
| call_WriteScanEnable e : host_call (WriteScanEnable e)
| call_WriteExtendedInquiryResponse r : host_call (WriteExtendedInquiryResponse r)
| call_ReadLocalOobData : host_call ReadLocalOobData
| call_ReadLocalOobExtendedData : host_call ReadLocalOobExtendedData
| call_ReadRssi h : host_call (ReadRssi h)
| call_ReadEncryptionKeySize h : host_call (ReadEncryptionKeySize h)
| call_SetSecureSimplePairingSupport b : host_call (SetSecureSimplePairingSupport b)
| call_SetLeHostSupport b : host_call (SetLeHostSupport b)
| call_SetSecureConnectionsSupport b : host_call (SetSecureConnectionsSupport b)
| call_SetLocalName n : host_call (SetLocalName n)
| call_SetExtendedInquiryResponse r : host_call (SetExtendedInquiryResponse r)
| call_SetEventMask m : host_call (SetEventMask m)
| call_SetEventMaskPage2 m : host_call (SetEventMaskPage2 m)
| call_SetClassOfDevice k : host_call (SetClassOfDevice k)
| call_SetAuthenticationEnable e : host_call (SetAuthenticationEnable e)
| call_SetScoFlowControlEnable e : host_call (SetScoFlowControlEnable e)
| call_SetVoiceSetting v : host_call (SetVoiceSetting v)
| call_SetConnectionAcceptTimeout t : host_call (SetConnectionAcceptTimeout t)
| call_SetMinEncryptionKeySize s : host_call (SetMinEncryptionKeySize s)
| call_SetPageTimeout t : host_call (SetPageTimeout t)
| call_SetInquiryMode m : host_call (SetInquiryMode m)
| call_WriteCurrentIacLap l : host_call (WriteCurrentIacLap l)
| call_CentralLinkKey : host_call CentralLinkKey
| call_WriteLinkSupervisionTimeout h : host_call (WriteLinkSupervisionTimeout h)
| call_ForwardToLm bytes : host_call (ForwardToLm bytes)
| call_HandleAcl h pb bc data : host_call (HandleAcl h pb bc data)
| call_SendScoToRemote h data : host_call (SendScoToRemote h data)
| call_ScheduleTask delay callback : host_call (ScheduleTask delay callback)
| call_IsEventUnmasked event : host_call (IsEventUnmasked event)
| call_Close : host_call Close.

Inductive br_step : BrEdrController → BrEdrController → Prop :=
| step_call A (m : M A) a c c' : host_call m → m c = Ok (a, c') → br_step c c'
| step_packet incoming rssi c c' : IncomingPacket incoming rssi c = Ok ((), c') → br_step c c'
| step_tick c c' : Tick c = Ok ((), c') → br_step c c'.
Definition br_reachable (address : Address) (properties : ControllerProperties) : BrEdrController → Prop :=
  rtc br_step (new_controller address properties).

(** ** Every step keeps the invariant *)

Ltac handler_rule :=
  lazymatch goal with
  | |- keeps _ (with_acl_or _ _ _) => apply kept_with_acl_or; intros
  | |- keeps _ (CreateConnection _ _) => apply kept_CreateConnection
  | |- keeps _ (CreateConnectionCancel _) => apply kept_CreateConnectionCancel
  | |- keeps _ (AcceptConnectionRequest _ _) => apply kept_AcceptConnectionRequest
  | |- keeps _ (SetupSynchronousConnection _ _ _) => apply kept_SetupSynchronousConnection
  | |- keeps _ (AcceptSynchronousConnection _ _) => apply kept_AcceptSynchronousConnection
  | |- keeps _ Reset => apply kept_Reset
  | |- keeps _ (IncomingPageResponsePacket _ _) => apply kept_IncomingPageResponsePacket
  | |- keeps _ (SendDisconnectionCompleteEvent _ _) => apply kept_SendDisconnectionCompleteEvent
  | |- keeps _ (BrCommands.Disconnect _ _ _) => apply kept_Disconnect
  | |- keeps _ (CheckExpiringConnection _) => apply kept_CheckExpiringConnection
  | |- keeps _ (RejectPeripheralConnection _ _) => apply kept_RejectPeripheralConnection
  | |- keeps _ (AcceptPendingScoConnection _ _) => apply kept_AcceptPendingScoConnection
  | |- keeps _ (call_lm _) => apply kept_call_lm
  | |- keeps _ (modify (λ c, c <| page_ := None |>)) => apply (leads_no_page None None)
  | _ => keep_rule
  end.
(** A handler without a rule of its own is unfolded. *)
Ltac handler :=
  repeat first [ handler_rule | lazymatch goal with |- keeps _ ?m => let f := head_of m in unfold f end ].

Lemma host_call_keeps {A} (m : M A) : host_call m → keeps br_wf m.
Proof. destruct 1; handler. Qed.

Lemma kept_dispatch source destination p rssi : keeps br_wf (dispatch source destination p rssi).
Proof. destruct p; cbn [dispatch]; handler. Qed.

Lemma kept_IncomingPacket incoming rssi : keeps br_wf (IncomingPacket incoming rssi).
Proof.
  unfold IncomingPacket. apply kept_bind; [apply kept_gets|]. intros own.
  destruct (_ && _); [apply kept_ret|]. apply kept_bind; [apply kept_gets|]. intros handle.
  apply kept_bind; [|intros; apply kept_dispatch]. handler.
Qed.

(** ** Time *)

Lemma kept_Paging : keeps br_wf Paging.
Proof.
  intros c u c' Hc. unfold Paging. intros ([t c1] & E1 & ([c0 c2] & [= <- <-] & E)%bind_Ok)%bind_Ok.
  apply (kept_now None _ _ _ Hc) in E1. unfold id in E.
  destruct (page_ c1) as [p|] eqn:Ep; [|by injection E as _ <-].
  destruct (page_timeout p <=? t).
  { revert E. apply (kept_bind br_wf); [|intros; apply (leads_no_page None None)|done]. apply kept_send_event. }
  destruct (_ && _); [|by injection E as _ <-].
  apply bind_Ok in E as ([u3 c3] & E & [= _ <-]). rewrite SendLinkLayerPacket_run in E.
  apply bind_Ok in E as ([id q] & Eq & [= _ <-]).
  apply ScheduleTask_ordered in Eq; [|apply E1]. destruct E1 as [? ? ? ? Hp ?].
  split; try done. intros p' [= <-]. cbn. by apply Hp.
Qed.

Lemma kept_inquiry_step : keeps br_wf inquiry_step.
Proof. unfold inquiry_step. handler. Qed.
Lemma kept_run_callback callback : keeps br_wf (run_callback callback).
Proof. destruct callback; cbn [run_callback]; handler. Qed.

Lemma put_back_ordered t (task : Task TaskCallback) q : queue_ordered q → queue_ordered (put_back t task q).
Proof.
  intros [Hs Hc]. unfold put_back. destruct (periodic task); [|done].
  split; [by apply insert_task_sorted|done].
Qed.
Lemma kept_RunPendingTasks : keeps br_wf RunPendingTasks.
Proof.
  intros c u c' Hc. unfold RunPendingTasks. intros ([c1 q] & E & [= _ <-])%bind_Ok.
  apply (Tasks.RunPendingTasks_keeps call_task _ (λ c q, br_wf (c <| tasks := q |>))) in E; [done| |].
  - clear. intros c0 task rest counter c2 q2 Hc _ E. cbn in E.
    apply bind_Ok in E as ([u c1] & E & [= <- <-]). unfold call_task in E.
    assert (H1 : br_wf ((c0 <| tasks := MkTaskQueue (task :: rest) counter |>)
                          <| tasks := MkTaskQueue rest counter |>)).
    { apply br_wf_tasks; [|done]. destruct (br_tasks _ _ Hc) as [Hs ?]. split; [by inversion Hs|done]. }
    apply (kept_run_callback _ _ _ _ H1) in E.
    apply br_wf_tasks; [|exact E]. apply put_back_ordered, E.
  - apply br_wf_tasks; [apply Hc|]. by apply (br_wf_same None c).
Qed.

Lemma kept_Tick : keeps br_wf Tick.
Proof.
  unfold Tick. apply kept_bind; [apply kept_RunPendingTasks|]. intros _.
  apply kept_bind; [apply kept_Paging|]. intros _. apply kept_bind; [apply kept_inquiry_step|]. intros _.
  apply kept_bind; [apply kept_gets|]. intros lm. apply kept_bind; [apply kept_run_lm|]. intros lm'.
  by apply kept_same.
Qed.

Lemma new_controller_br_wf address properties : br_wf (new_controller address properties).
Proof.
  split; cbn; try done; [apply empty_handler_wf..|by split; [constructor|]].
Qed.

Lemma br_step_wf c c' : br_wf c → br_step c c' → br_wf c'.
Proof.
  intros Hc. destruct 1 as [A m a c c' Hm E|incoming rssi c c' E|c c' E].
  - by eapply host_call_keeps.
  - by eapply kept_IncomingPacket.
  - by eapply kept_Tick.
Qed.
Lemma br_reachable_keeps address properties c : br_reachable address properties c → br_wf c.
Proof.
  intros Hr. pose proof (new_controller_br_wf address properties) as H0. unfold br_reachable in Hr.
  induction Hr as [|c1 c2 c3 Hstep _ IH]; [done|]. by apply IH, (br_step_wf c1).
Qed.
End Machine.
