(* ===== verification/BrProcedures.v ===== *)
(** * Procedures of the BR/EDR controller

    What holds of a controller, or of two that exchange packets: the invariant of
    the links, connection set up, disconnection, role switch, synchronous
    connections, and reset. *)

From S2P Require Import Prelude HciTypes Properties Address Sco Connections Tasks BrState BrCommands BrLink.
From S2P Require Import BrInvariant BrMachine.

Section Runs.
Context {env : Environment}.
Implicit Types (c : BrEdrController).

(** ** Handlers that return *)

Definition runs {A} (m : M A) c (Q : A → BrEdrController → Prop) : Prop :=
  ∃ a c', m c = Ok (a, c') ∧ Q a c'.

Lemma runs_Ok {A} (m : M A) c a c' (Q : A → BrEdrController → Prop) : m c = Ok (a, c') → Q a c' → runs m c Q.
Proof. intros E HQ. by exists a, c'. Qed.
Lemma runs_bind {A B} (m : M A) (k : A → M B) c Q :
  runs m c (λ a c1, runs (k a) c1 Q) → runs (m ≫= k) c Q.
Proof.
  intros (a & c1 & E & b & c2 & Ek & HQ). exists b, c2. split; [|done]. by rewrite (exec_bind _ _ _ _ _ E).
Qed.
Lemma runs_mono {A} (m : M A) c (P Q : A → BrEdrController → Prop) :
  runs m c P → (∀ a c', P a c' → Q a c') → runs m c Q.
Proof. intros (a & c' & E & HP) H. exists a, c'. auto. Qed.
Lemma runs_gets {A B} (f : BrEdrController → A) (k : A → M B) c Q : runs (k (f c)) c Q → runs (gets f ≫= k) c Q.
Proof. done. Qed.
Lemma runs_modify {B} f (k : () → M B) c Q : runs (k ()) (f c) Q → runs (modify f ≫= k) c Q.
Proof. done. Qed.
Lemma runs_now {B} (k : Z → M B) c Q :
  runs (k (clock (readings c))) (c <| readings ::= S |>) Q → runs (now ≫= k) c Q.
Proof. done. Qed.
Lemma runs_lift {A B} (a : A) m (k : A → M B) c Q : m = Ok a → runs (k a) c Q → runs (lift m ≫= k) c Q.
Proof. by intros ->. Qed.
Lemma runs_unmasked {B} event (k : bool → M B) c Q :
  event ≠ EventCode.VENDOR_SPECIFIC → runs (k (unmasked event c)) c Q → runs (IsEventUnmasked event ≫= k) c Q.
Proof.
  intros Hne Hk. apply runs_bind. eapply runs_Ok; [|exact Hk].
  by rewrite IsEventUnmasked_run, bool_decide_false.
Qed.

(** ** Handlers that only schedule callbacks

    [c'] is [c] with one shot tasks for [l] and a later reading of the clock. *)
Record sends c c' (l : list TaskCallback) : Prop := {
  sends_adds : adds (tasks c) (tasks c') l;
  sends_readings : (readings c ≤ readings c')%nat;
  sends_rest : c' <| tasks := tasks c |> <| readings := readings c |> = c;
}.

Lemma sends_proj {A} (f : BrEdrController → A) c c' l :
  (∀ c q n, f (c <| tasks := q |> <| readings := n |>) = f c) → sends c c' l → f c' = f c.
Proof. intros Hf [_ _ E]. by rewrite <-(Hf c' (tasks c) (readings c)), E. Qed.

Lemma sends_nil c : fits 32 (task_counter_ (tasks c)) → sends c c [].
Proof. intros. split; [by apply adds_nil|done|by destruct c]. Qed.
Lemma sends_now c : fits 32 (task_counter_ (tasks c)) → sends c (c <| readings ::= S |>) [].
Proof. intros. split; [by apply adds_nil|cbn; lia|by destruct c]. Qed.
Lemma sends_trans c c1 c2 l l' : sends c c1 l → sends c1 c2 l' → sends c c2 (l ++ l').
Proof.
  intros [A1 R1 E1] [A2 R2 E2]. split; [by eapply adds_trans|lia|].
  etrans; [|exact E1]. rewrite <-E2. by destruct c2.
Qed.
Lemma sends_after_now c c' l : fits 32 (task_counter_ (tasks c)) → sends (c <| readings ::= S |>) c' l → sends c c' l.
Proof. intros Hc Hs. apply (sends_trans c (c <| readings ::= S |>) c' [] l); [by apply sends_now|done]. Qed.
(** An update that leaves the queue and the clock alone. *)
Lemma sends_update f c c' l :
  (∀ c q n, f (c <| tasks := q |> <| readings := n |>) = (f c) <| tasks := q |> <| readings := n |>) →
  (∀ c, tasks (f c) = tasks c ∧ readings (f c) = readings c) →
  sends c c' l → sends (f c) (f c') l.
Proof.
  intros Hf Hq [A1 R1 E1]. destruct (Hq c) as [Et Er], (Hq c') as [Et' Er'].
  split; rewrite ?Et, ?Er, ?Et', ?Er'; [done..|]. by rewrite <-Hf, E1.
Qed.

Lemma runs_ScheduleTask delay callback c n :
  room (1 + n) (tasks c) → 0 ≤ n →
  runs (ScheduleTask delay callback) c (λ _ c', sends c c' [callback] ∧ room n (tasks c')).
Proof.
  intros Hroom Hn.
  destruct (ScheduleTask_adds (clock (readings c)) delay callback (tasks c) n Hroom Hn) as (id & q & E & Ha & Hr).
  eapply runs_Ok; [by rewrite ScheduleTask_run, E|]. split; [|done]. split; [done|cbn; lia|by destruct c].
Qed.
Lemma runs_schedule_event event c n :
  room (1 + n) (tasks c) → 0 ≤ n →
  runs (schedule_event event) c (λ _ c', sends c c' [SendEvent event] ∧ room n (tasks c')).
Proof.
  intros Hroom Hn. apply runs_bind. eapply runs_mono; [by apply runs_ScheduleTask|].
  intros id c' H. by eapply runs_Ok.
Qed.
Lemma runs_SendLinkLayerPacket packet c n :
  room (1 + n) (tasks c) → 0 ≤ n →
  runs (SendLinkLayerPacket packet) c (λ _ c', sends c c' [SendToRemote packet 0] ∧ room n (tasks c')).
Proof.
  intros Hroom Hn. apply runs_bind. eapply runs_mono; [by apply runs_ScheduleTask|].
  intros id c' H. by eapply runs_Ok.
Qed.
Lemma runs_when_schedule (b : bool) event c n :
  room (1 + n) (tasks c) → 0 ≤ n →
  runs (when b (schedule_event event)) c
    (λ _ c', sends c c' (if b then [SendEvent event] else []) ∧ room n (tasks c')).
Proof.
  intros Hroom Hn. destruct b; [by apply runs_schedule_event|].
  eapply runs_Ok; [done|]. split; [apply sends_nil, Hroom|]. destruct Hroom. split; [done|lia].
Qed.
End Runs.

(** ** A new link *)

Section Links.
Context {env : Environment}.
Implicit Types (c : BrEdrController).

(** A link that is set up takes at most a second of the clock. *)
Definition prompt_clock : Prop :=
  ∀ i j, (i ≤ j ≤ i + 4)%nat → clock i ≤ clock j ≤ clock i + 1000000000.
(** The library, in the state it is in, has room for a link with [peer]. *)
Definition takes_link (peer : Address) c : Prop :=
  ∃ s', link_manager_add_link peer (lm_ c) = LmReturn (true, s').

Lemma runs_CheckExpiringConnection k x c n :
  acl_of c !! k = Some x → AclConnection.timeout_ x = supervision_timeout_ns →
  (∀ i, (readings c ≤ i ≤ readings c + 2)%nat → clock i ≤ AclConnection.last_packet_timestamp_ x + 1000000000) →
  room (1 + n) (tasks c) → 0 ≤ n →
  runs (CheckExpiringConnection k) c
    (λ _ c', sends c c' [CheckExpiringConnectionLater k] ∧ room n (tasks c')).
Proof.
  intros Hk Ht Hc Hroom Hn. unfold CheckExpiringConnection. apply runs_gets.
  unfold HasAclHandle, GetAclConnection. unfold acl_of in Hk. rewrite Hk, bool_decide_true by done. cbn [negb].
  eapply runs_lift; [done|].
  assert (Hx : ∀ i, (readings c ≤ i ≤ readings c + 2)%nat →
    AclConnection.HasExpired (clock i) x = false ∧ AclConnection.IsNearExpiring (clock i) x = false).
  { intros i Hi. specialize (Hc i Hi). unfold AclConnection.HasExpired, AclConnection.IsNearExpiring.
    unfold AclConnection.TimeUntilExpired, AclConnection.TimeUntilNearExpiring. rewrite Ht.
    unfold supervision_timeout_ns in *. change (Z.quot 3000000000 2) with 1500000000.
    split; apply Z.ltb_ge; lia. }
  apply runs_now. rewrite (proj1 (Hx (readings c) ltac:(lia))). apply runs_now.
  change (readings (c <| readings ::= S |>)) with (S (readings c)).
  rewrite (proj2 (Hx (S (readings c)) ltac:(lia))). apply runs_now.
  apply runs_bind. eapply runs_mono; [apply runs_ScheduleTask; [exact Hroom|done]|].
  intros id c' [Hs Hr]. eapply runs_Ok; [done|]. split; [|done].
  do 3 (apply (sends_after_now _ c') in Hs; [|apply Hroom]). done.
Qed.
Definition free_handle c : Prop := ∃ u, kAclRangeStart ≤ u ≤ kAclRangeEnd ∧ acl_of c !! u = None.
(** [c] with a new link, at time [t]. *)
Definition created k last t peer c : BrEdrController :=
  c <| connections_ ::= λ h,
       h <| last_acl_handle_ := last |>
         <| acl_connections_ ::= insert k (AclConnection.new t k peer (address_ c) Role.CENTRAL) |> |>.
Definition fresh_link k t peer role c : AclConnection :=
  AclConnection.SetRole role (AclConnection.SetLinkPolicySettings (default_link_policy_settings_ c)
    (AclConnection.new t k peer (address_ c) Role.CENTRAL)).
Definition new_link k last t peer role c : BrEdrController :=
  c <| connections_ ::= λ h,
       h <| last_acl_handle_ := last |> <| acl_connections_ ::= insert k (fresh_link k t peer role c) |> |>.

Lemma runs_create_acl busy peer c :
  br_wf_but busy c → free_handle c →
  runs (create_acl peer (address_ c)) c (λ k c', acl_of c !! k = None ∧
    ∃ last, c' = created k last (clock (readings c)) peer c <| readings ::= S |>).
Proof.
  intros Hc Hfree. unfold create_acl. apply runs_now.
  destruct (CreateConnection_fresh (clock (readings c)) peer (address_ c) (connections_ c)) as (k & last & E & Hk);
    [apply Hc|exact Hfree|].
  eapply runs_Ok; [|split; [exact Hk|by exists last]]. unfold on_connections.
  change (connections_ (c <| readings ::= S |>)) with (connections_ c). by rewrite E.
Qed.

Lemma runs_set_up_connection k last peer role c n :
  prompt_clock → room (1 + n) (tasks c) → 0 ≤ n →
  runs (set_up_connection k role) (created k last (clock (readings c)) peer c <| readings ::= S |>)
    (λ _ c', sends (new_link k last (clock (readings c)) peer role c) c' [CheckExpiringConnectionLater k] ∧
             room n (tasks c')).
Proof.
  intros Hclock Hroom Hn. unfold set_up_connection.
  set (t := clock (readings c)). set (c1 := created k last t peer c <| readings ::= S |>).
  assert (Hk : acl_of c1 !! k = Some (AclConnection.new t k peer (address_ c) Role.CENTRAL))
    by apply lookup_insert_eq.
  apply runs_bind. eapply runs_mono.
  { eapply (runs_CheckExpiringConnection k _ c1 n Hk); [done| |exact Hroom|done].
    intros i Hi. apply (Hclock (readings c) i). cbn in Hi. lia. }
  intros _ c2 [Hs Hr].
  assert (Hd : default_link_policy_settings_ c2 = default_link_policy_settings_ c)
    by by rewrite (sends_proj default_link_policy_settings_ c1 c2 _ ltac:(done) Hs).
  apply runs_gets. unfold update_acl. apply runs_modify. eapply runs_Ok; [done|].
  split; [|exact Hr].
  apply (sends_update (λ c', c' <| connections_ ::= λ h, h <| acl_connections_ ::=
    alter (AclConnection.SetLinkPolicySettings (default_link_policy_settings_ c2)) k |> |>)) in Hs; [|done..].
  apply (sends_update (λ c', c' <| connections_ ::= λ h, h <| acl_connections_ ::=
    alter (AclConnection.SetRole role) k |> |>)) in Hs; [|done..].
  apply sends_after_now; [apply Hroom|]. refine (eq_ind _ (λ c0, sends c0 _ _) Hs _ _).
  assert (E : alter (AclConnection.SetRole role) k (alter (AclConnection.SetLinkPolicySettings
      (default_link_policy_settings_ c2)) k (insert k (AclConnection.new t k peer (address_ c) Role.CENTRAL)
      (acl_of c))) = insert k (fresh_link k t peer role c) (acl_of c)).
  { unfold fresh_link. by rewrite !alter_insert_eq, Hd. }
  cbn. unfold acl_of in E. by rewrite E.
Qed.
Lemma runs_add_link {B} peer (k : () → M B) c Q :
  takes_link peer c → (∀ lm, runs (k ()) (c <| lm_ := lm |>) Q) →
  runs (assert_lm (link_manager_add_link peer) ≫= k) c Q.
Proof.
  intros [lm E] Hk. apply runs_bind. eapply runs_Ok; [|apply (Hk lm)].
  unfold assert_lm, call_lm. by rewrite exec_assoc, exec_gets, E.
Qed.

Lemma takes_link_sends peer c c' l : sends c c' l → takes_link peer c → takes_link peer c'.
Proof. intros Hs. unfold takes_link. by rewrite (sends_proj lm_ c c' l ltac:(done) Hs). Qed.

Lemma fmap_if {A B} (f : A → B) (b : bool) x : f <$> (if b then [x] else []) = if b then [f x] else [].
Proof. by destruct b. Qed.

(** The roles of the two ends, from the answer of the acceptor and the offer of
    the page. *)
Definition acceptor_role (try_role_switch : bool) (allow_role_switch : Z) : Role.t :=
  if try_role_switch && negb (allow_role_switch =? 0) then Role.CENTRAL else Role.PERIPHERAL.

Definition role_change (code_role role : Role.t) peer c : list HciEvent :=
  if bool_decide (role = code_role) && unmasked EventCode.ROLE_CHANGE c then [RoleChange SUCCESS peer role] else [].
Definition complete k peer c : list HciEvent :=
  if unmasked EventCode.CONNECTION_COMPLETE c then [ConnectionComplete SUCCESS k peer LinkType.ACL] else [].

Lemma runs_accept_page peer try_role_switch s c n :
  prompt_clock → takes_link peer c → br_wf c → free_handle c → page_scan_ c = Some s → ¬ linked c peer →
  room (4 + n) (tasks c) → 0 ≤ n →
  let role := acceptor_role try_role_switch (page_scan_allow_role_switch s) in
  runs (accept_page peer try_role_switch) c (λ status c', status = ErrorCode.SUCCESS ∧
    ∃ k last lm, acl_of c !! k = None ∧
    sends ((new_link k last (clock (readings c)) peer role c) <| lm_ := lm |>
             <| page_ := if paging peer c then None else page_ c |> <| page_scan_ := None |>) c'
      ([CheckExpiringConnectionLater k] ++ (SendEvent <$> role_change Role.CENTRAL role peer c)
         ++ (SendEvent <$> complete k peer c)
         ++ [SendToRemote (MkPacket (address_ c) peer (PageResponse (Z.b2z try_role_switch))) 0])).
Proof.
  intros Hclock Hlm Hc Hfree Hs Hl Hroom Hn role. unfold accept_page. apply runs_gets.
  assert (connected peer c = false) as -> by (apply not_true_iff_false; by rewrite connected_spec).
  apply runs_gets. apply runs_bind. eapply runs_mono; [by eapply runs_create_acl|].
  intros k c1 (Hk & last & ->). apply runs_gets.
  assert (page_scan_ (created k last (clock (readings c)) peer c <| readings ::= S |>) = Some s) as -> by done.
  cbv zeta. change (if try_role_switch && negb (page_scan_allow_role_switch s =? 0)
                    then Role.CENTRAL else Role.PERIPHERAL) with role.
  apply runs_bind. eapply runs_mono.
  { apply (runs_set_up_connection k last peer role c (3 + n)); [done|by rewrite Z.add_assoc|lia]. }
  intros _ c2 [S2 R2].
  assert (Hu : ∀ e, unmasked e c2 = unmasked e c)
    by (intros e; by rewrite (sends_proj (unmasked e) _ c2 _ ltac:(done) S2)).
  (* the role change *)
  apply runs_bind, (runs_mono _ _ (λ b c', b = bool_decide (role = Role.CENTRAL) && unmasked EventCode.ROLE_CHANGE c ∧ c' = c2)).
  { destruct (bool_decide (role = Role.CENTRAL)); [|by apply (runs_Ok _ _ false c2)].
    eapply runs_Ok; [by rewrite IsEventUnmasked_run|]. by rewrite Hu. }
  intros b c' [-> ->]. apply runs_bind. eapply runs_mono; [apply (runs_when_schedule _ _ _ (2 + n)); [by rewrite Z.add_assoc|lia]|].
  intros _ c3 [S3 R3]. pose proof (sends_trans _ _ _ _ _ S2 S3) as S3'. clear S2 S3.
  (* the link manager *)
  apply runs_add_link; [by apply (takes_link_sends _ _ _ _ S3')|]. intros lm. apply (sends_update (λ c, c <| lm_ := lm |>)) in S3'; [|done..].
  (* the events and the response *)
  apply runs_unmasked; [done|]. apply runs_bind.
  eapply runs_mono; [apply (runs_when_schedule _ _ _ (1 + n)); [by rewrite Z.add_assoc|lia]|].
  rewrite (sends_proj (unmasked EventCode.CONNECTION_COMPLETE) _ _ _ ltac:(done) S3').
  intros _ c4 [S4 R4]. pose proof (sends_trans _ _ _ _ _ S3' S4) as S4'. clear S3' S4.
  apply runs_bind. eapply runs_mono; [by apply (runs_SendLinkLayerPacket _ _ n)|].
  intros _ c5 [S5 R5]. pose proof (sends_trans _ _ _ _ _ S4' S5) as S5'. clear S4' S5.
  apply runs_modify, runs_modify. eapply runs_Ok; [done|]. split; [done|]. exists k, last, lm. split; [done|].
  assert (Ep : page_ c5 = page_ c) by by rewrite (sends_proj page_ _ _ _ ltac:(done) S5').
  assert (E5 : (if paging peer c5 then c5 <| page_ := None |> else c5) =
               c5 <| page_ := if paging peer c then None else page_ c |>).
  { assert (paging peer c5 = paging peer c) as -> by (unfold paging; by rewrite Ep).
    destruct (paging peer c); [done|]. rewrite <-Ep. by destruct c5. }
  unfold role_change, complete. rewrite E5, !fmap_if, !(assoc_L (++)).
  apply (sends_update (λ c', c' <| page_ := if paging peer c then None else page_ c |>)) in S5'; [|done..].
  by apply (sends_update (λ c', c' <| page_scan_ := None |>)) in S5'.
Qed.
(** Events sent at once. *)
Definition push (l : list HciEvent) c : BrEdrController := c <| emitted ::= λ e, e ++ (EmitEvent <$> l) |>.
Lemma push_nil c : push [] c = c.
Proof. destruct c. unfold push. rewrite fmap_nil. cbn. by rewrite app_nil_r. Qed.
Lemma push_app l l' c : push l' (push l c) = push (l ++ l') c.
Proof. unfold push. rewrite fmap_app. cbn. by rewrite (assoc_L (++)). Qed.
Lemma sends_push l c c' callbacks : sends c c' callbacks → sends (push l c) (push l c') callbacks.
Proof. by apply sends_update. Qed.
Lemma runs_send_if_unmasked code event c Q :
  code ≠ EventCode.VENDOR_SPECIFIC → Q () (push (if unmasked code c then [event] else []) c) →
  runs (send_if_unmasked code event) c Q.
Proof.
  intros Hne HQ. unfold send_if_unmasked. apply runs_unmasked; [done|].
  destruct (unmasked code c); [by eapply runs_Ok|]. eapply runs_Ok; [done|]. by rewrite push_nil in HQ.
Qed.

Definition initiator_role (try_role_switch allow_role_switch : Z) : Role.t :=
  if negb (allow_role_switch =? 0) && negb (try_role_switch =? 0) then Role.PERIPHERAL else Role.CENTRAL.

Lemma runs_page_response peer try_role_switch p c n :
  prompt_clock → takes_link peer c → br_wf c → free_handle c → page_ c = Some p → page_bd_addr p = peer →
  room (1 + n) (tasks c) → 0 ≤ n →
  let role := initiator_role try_role_switch (page_allow_role_switch p) in
  runs (IncomingPageResponsePacket peer try_role_switch) c (λ _ c',
    ∃ k last lm, acl_of c !! k = None ∧
    sends (push (role_change Role.PERIPHERAL role peer c ++ complete k peer c)
             ((new_link k last (clock (readings c)) peer role c) <| page_ := None |> <| lm_ := lm |>)) c'
      [CheckExpiringConnectionLater k]).
Proof.
  intros Hclock Hlm Hc Hfree Hp Hpeer Hroom Hn role. unfold IncomingPageResponsePacket. apply runs_gets.
  assert (paging peer c = true) as -> by (apply paging_spec; eauto). cbn [negb]. apply runs_gets.
  apply runs_bind. eapply runs_mono; [by eapply runs_create_acl|].
  intros k c1 (Hk & last & ->). apply runs_gets.
  assert (page_ (created k last (clock (readings c)) peer c <| readings ::= S |>) = Some p) as -> by done.
  cbv zeta. change (if negb (page_allow_role_switch p =? 0) && negb (try_role_switch =? 0)
                    then Role.PERIPHERAL else Role.CENTRAL) with role.
  apply runs_bind. eapply runs_mono; [by apply (runs_set_up_connection k last peer role c n)|].
  intros _ c2 [S2 R2]. apply runs_modify. apply (sends_update (λ c, c <| page_ := None |>)) in S2; [|done..].
  apply runs_add_link; [by apply (takes_link_sends _ _ _ _ S2)|]. intros lm. apply (sends_update (λ c, c <| lm_ := lm |>)) in S2; [|done..].
  apply runs_bind, (runs_mono _ _ (λ _ c', sends (push (role_change Role.PERIPHERAL role peer c)
    ((new_link k last (clock (readings c)) peer role c) <| page_ := None |> <| lm_ := lm |>)) c'
      [CheckExpiringConnectionLater k])).
  { unfold role_change. destruct (bool_decide (role = Role.PERIPHERAL)).
    - apply runs_send_if_unmasked; [done|].
      rewrite (sends_proj (unmasked EventCode.ROLE_CHANGE) _ _ _ ltac:(done) S2).
      by apply sends_push.
    - eapply runs_Ok; [done|]. by rewrite push_nil. }
  intros _ c3 S3. apply runs_send_if_unmasked; [done|]. exists k, last, lm. split; [done|].
  rewrite (sends_proj (unmasked EventCode.CONNECTION_COMPLETE) _ _ _ ltac:(done) S3), <-push_app.
  by apply sends_push.
Qed.
Lemma IncomingPacket_unlinked incoming rssi c :
  destination_address incoming = address_ c → ¬ linked c (source_address incoming) →
  IncomingPacket incoming rssi c =
    dispatch (source_address incoming) (destination_address incoming) (payload incoming) rssi c.
Proof.
  intros Hd Hl. unfold IncomingPacket. rewrite exec_gets, Hd, (bool_decide_false (address_ c ≠ address_ c)) by naive_solver.
  rewrite andb_false_r, exec_gets.
  assert (connected (source_address incoming) c = false) as Hn
    by (apply not_true_iff_false; by rewrite connected_spec).
  unfold connected in Hn. by destruct (GetAclConnectionHandle _ _).
Qed.

(** The page that [Paging] sends, and the response of the acceptor. *)
Definition page_packet (a b : BrEdrController) (p : PageState) : LinkLayerPacket :=
  MkPacket (address_ a) (address_ b) (Page (class_of_device_ a) (page_allow_role_switch p)).
Definition response_packet (a b : BrEdrController) (try_role_switch : bool) : LinkLayerPacket :=
  MkPacket (address_ b) (address_ a) (PageResponse (Z.b2z try_role_switch)).

Lemma runs_page_packet a b p rssi :
  page_scan_enable_ b = true → unmasked EventCode.CONNECTION_REQUEST b = true → page_scan_ b = None →
  ¬ linked b (address_ a) →
  ∃ required,
  IncomingPacket (page_packet a b p) rssi b =
    Ok ((), push [ConnectionRequest (address_ a) (class_of_device_ a) ConnectionRequestLinkType.ACL]
              (b <| page_scan_ := Some (MkPageScanState (address_ a) required (page_allow_role_switch p)) |>)).
Proof.
  intros Hscan Hmask Hidle Hl. eexists. rewrite IncomingPacket_unlinked by done. cbn [dispatch payload page_packet source_address].
  unfold IncomingPagePacket. rewrite exec_gets, Hscan. cbn [negb].
  erewrite exec_bind by by rewrite IsEventUnmasked_run. rewrite Hmask, exec_gets. cbn [negb].
  rewrite exec_gets. assert (connected (address_ a) b = false) as ->
    by (apply not_true_iff_false; by rewrite connected_spec).
  by rewrite exec_gets, Hidle.
Qed.

(** C14. Connection set up.  The controller [a] pages [b], which scans and is free;
    the host of [b] is told, and accepts; the response, which is among the
    callbacks [b] schedules, reaches [a].  The link manager library of each has a slot
    left for the other, as it does for up to seven links.  Then each has one link more, with the
    other: the roles are opposite, exchanged exactly if the page allows it and the
    acceptor asks for it; no page is pending on either side; each host is told, by
    an event at once or scheduled, unless it masked it. *)
Theorem connection_set_up (a b : BrEdrController) (p : PageState) (rssi rssi' : Z) (try_role_switch : bool)
    (Hclock : prompt_clock) (Hlm : takes_link (address_ b) a ∧ takes_link (address_ a) b) (Ha : br_wf a) (Hb : br_wf b)
    (Hpage : page_ a = Some p) (Hpeer : page_bd_addr p = address_ b)
    (Hscan : page_scan_enable_ b = true) (Hmask : unmasked EventCode.CONNECTION_REQUEST b = true)
    (Hidle : page_scan_ b = None) (Hlink : ¬ linked b (address_ a))
    (Hfree : free_handle a ∧ free_handle b) (Hroom : room 1 (tasks a) ∧ room 4 (tasks b)) :
  ∃ b1 b2 a1 ka kb,
  let role_b := acceptor_role try_role_switch (page_allow_role_switch p) in
  IncomingPacket (page_packet a b p) rssi b = Ok ((), b1) ∧
  emitted b1 = emitted b ++
    [EmitEvent (ConnectionRequest (address_ a) (class_of_device_ a) ConnectionRequestLinkType.ACL)] ∧
  AcceptConnectionRequest (address_ a) try_role_switch b1 = Ok (ErrorCode.SUCCESS, b2) ∧
  adds (tasks b) (tasks b2)
    ([CheckExpiringConnectionLater kb]
       ++ (SendEvent <$> role_change Role.CENTRAL role_b (address_ a) b ++ complete kb (address_ a) b)
       ++ [SendToRemote (response_packet a b try_role_switch) 0]) ∧
  IncomingPacket (response_packet a b try_role_switch) rssi' a = Ok ((), a1) ∧
  emitted a1 = emitted a ++
    (EmitEvent <$> role_change Role.PERIPHERAL (opposite role_b) (address_ b) a ++ complete ka (address_ b) a) ∧
  (acl_of a !! ka = None ∧ ∃ t, acl_of a1 = <[ka := fresh_link ka t (address_ b) (opposite role_b) a]> (acl_of a)) ∧
  (acl_of b !! kb = None ∧ ∃ t, acl_of b2 = <[kb := fresh_link kb t (address_ a) role_b b]> (acl_of b)) ∧
  page_ a1 = None ∧ page_scan_ b2 = None ∧ (page_ b2 = page_ b ∨ page_ b2 = None).
Proof.
  destruct Hfree as [Hfa Hfb], Hroom as [Hra Hrb], Hlm as [Hlma Hlmb].
  destruct (runs_page_packet a b p rssi Hscan Hmask Hidle Hlink) as [required Eb].
  match type of Eb with _ = Ok (_, ?b1) => set (s := b1) in Eb; exists s end.
  assert (Hs : br_wf s) by (eapply kept_IncomingPacket; [exact Hb|exact Eb]).
  edestruct (runs_accept_page (address_ a) try_role_switch
    (MkPageScanState (address_ a) required (page_allow_role_switch p)) s 0)
    as (status & b2 & E2 & -> & kb & lastb & lmb & Hkb & S2); [done..|].
  exists b2.
  assert (opposite_role : initiator_role (Z.b2z try_role_switch) (page_allow_role_switch p) =
                          opposite (acceptor_role try_role_switch (page_allow_role_switch p))).
  { unfold initiator_role, acceptor_role. destruct try_role_switch, (page_allow_role_switch p =? 0); done. }
  destruct (runs_page_response (address_ b) (Z.b2z try_role_switch) p a 0) as (u & a1 & E1 & ka & lasta & lma & Hka & S1); [done..|].
  exists a1, ka, kb. cbv zeta. rewrite <-opposite_role. destruct u.
  split; [exact Eb|]. split; [done|]. split.
  { unfold AcceptConnectionRequest. rewrite exec_gets.
    assert (being_paged (address_ a) s = true) as -> by (unfold being_paged; cbn; by rewrite bool_decide_true). exact E2. }
  split; [rewrite fmap_app, <-(assoc_L (++) (SendEvent <$> _)); apply S2|].
  split.
  { rewrite IncomingPacket_unlinked; [exact E1|done|]. change (¬ linked a (address_ b)). rewrite <-Hpeer. by apply Ha. }
  split; [by rewrite (sends_proj emitted _ _ _ ltac:(done) S1)|].
  split; [split; [done|]; exists (clock (readings a)); by rewrite (sends_proj acl_of _ _ _ ltac:(done) S1)|].
  split; [split; [done|]; exists (clock (readings b)); by rewrite (sends_proj acl_of _ _ _ ltac:(done) S2)|].
  rewrite (sends_proj page_ _ _ _ ltac:(done) S1), (sends_proj page_scan_ _ _ _ ltac:(done) S2),
    (sends_proj page_ _ _ _ ltac:(done) S2). do 2 (split; [done|]). cbn.
  destruct (paging _ _); [by right|by left].
Qed.
End Links.

(** ** The invariant *)

Section Invariant.
Context {env : Environment}.
Implicit Types (c : BrEdrController).

Lemma GetAclConnectionHandle_wf busy k x c :
  br_wf_but busy c → acl_of c !! k = Some x →
  GetAclConnectionHandle (AclConnection.address x) (connections_ c) = Some k.
Proof.
  intros Hc Hk. assert (connected (AclConnection.address x) c = true) as Hn
    by (apply connected_spec; by exists k, x).
  unfold connected, GetAclConnectionHandle in *. destruct (find_first _ _) as [[k' x']|] eqn:F; [|done].
  apply find_first_Some in F as [Hin%elem_of_iterate E]. apply bool_decide_eq_true in E. cbn. f_equal.
  by eapply (br_unique _ _ Hc).
Qed.
Lemma GetAclConnectionHandle_linked peer k c :
  GetAclConnectionHandle peer (connections_ c) = Some k →
  ∃ x, acl_of c !! k = Some x ∧ AclConnection.address x = peer.
Proof.
  unfold GetAclConnectionHandle. intros ([k' x] & F & ->)%fmap_Some.
  apply find_first_Some in F as [Hin%elem_of_iterate E]. apply bool_decide_eq_true in E. by exists x.
Qed.

(** Whatever the host calls and the peers send, in every state the controller
    reaches: an ACL connection is stored under its handle, which is in the range of
    ACL handles and belongs to the local address; it is the one that is found for
    its peer, so that there is at most one with each; the peer being paged is not
    connected; and the task queue is in order. *)
Theorem br_reachable_wf (address : Address) (properties : ControllerProperties) (c : BrEdrController)
    (Hr : br_reachable address properties c) :
  (∀ k x, acl_connections_ (connections_ c) !! k = Some x →
     kAclRangeStart ≤ k ≤ kAclRangeEnd ∧ AclConnection.handle x = k ∧
     AclConnection.own_address x = address_ c ∧
     GetAclConnectionHandle (AclConnection.address x) (connections_ c) = Some k) ∧
  (∀ p, page_ c = Some p → GetAclConnectionHandle (page_bd_addr p) (connections_ c) = None) ∧
  sorted (task_queue_ (tasks c)).
Proof.
  pose proof (br_reachable_keeps _ _ _ Hr) as Hc. split; [|split].
  - intros k x Hk. destruct (wf_acl _ (br_handler _ _ Hc) _ _ Hk) as [? ?].
    split; [done|]. split; [done|]. split; [by eapply (br_own _ _ Hc)|]. by eapply GetAclConnectionHandle_wf.
  - intros p Ep. destruct (GetAclConnectionHandle _ _) as [k|] eqn:E; [|done].
    apply GetAclConnectionHandle_linked in E as (x & Hx & E). exfalso.
    apply (br_page _ _ Hc p Ep); [done|]. by exists k, x.
  - apply (br_tasks _ _ Hc).
Qed.
End Invariant.

(** ** Disconnection *)

Section Disconnection.
Context {env : Environment}.
Implicit Types (c : BrEdrController).

(** The library, in the state it is in, removes the link with [peer]. *)
Definition drops_link (peer : Address) c : Prop :=
  ∃ s', link_manager_remove_link peer (lm_ c) = LmReturn (true, s').

Lemma runs_remove_link {B} peer (k : () → M B) c Q :
  drops_link peer c → (∀ lm, runs (k ()) (c <| lm_ := lm |>) Q) →
  runs (assert_lm (link_manager_remove_link peer) ≫= k) c Q.
Proof.
  intros [lm E] Hk. apply runs_bind. eapply runs_Ok; [|apply (Hk lm)].
  unfold assert_lm, call_lm. by rewrite exec_assoc, exec_gets, E.
Qed.

Definition drop_acl k c : BrEdrController :=
  c <| connections_ ::= λ h, h <| acl_connections_ ::= delete k |> |>.

(** An ACL handle names no SCO connection: [Disconnect] reaches the ACL table. *)
Lemma disconnect_acl busy k x c :
  br_wf_but busy c → acl_of c !! k = Some x →
  disconnect_handle k c =
    if bool_decide (GetScoConnectionHandle (AclConnection.address x) (connections_ c) = None)
    then Ok (true, drop_acl k c) else Fatal.
Proof.
  intros Hc Hk. destruct (wf_acl _ (br_handler _ _ Hc) _ _ Hk) as [Hr _].
  assert (Hsco : sco_connections_ (connections_ c) !! k = None).
  { destruct (sco_connections_ _ !! k) eqn:E; [|done]. apply (wf_sco _ (br_handler _ _ Hc)) in E.
    unfold kAclRangeStart, kAclRangeEnd, kScoRangeStart, kScoRangeEnd in *. lia. }
  unfold disconnect_handle, on_connections, Connections.Disconnect. unfold acl_of in Hk.
  unfold mbind at 1, M_bind. rewrite Hsco, Hk. by destruct (bool_decide _).
Qed.

Lemma runs_SendDisconnectionCompleteEvent k reason c n :
  room (1 + n) (tasks c) → 0 ≤ n →
  runs (SendDisconnectionCompleteEvent k reason) c (λ _ c',
    sends c c' (if unmasked EventCode.DISCONNECTION_COMPLETE c
                then [SendEvent (DisconnectionComplete SUCCESS k reason)] else []) ∧ room n (tasks c')).
Proof.
  intros Hroom Hn. unfold SendDisconnectionCompleteEvent. apply runs_unmasked; [done|].
  by apply runs_when_schedule.
Qed.

(** A disconnect packet.  From a peer that is not connected it has no effect.
    Otherwise, if there is a synchronous connection with the peer, established or
    only requested, the controller aborts; if there is none, the link is removed
    and nothing else changes, and the host is told unless it masked the event. *)
Theorem IncomingDisconnectPacket_spec (c : BrEdrController) (source : Address) (reason : Z)
    (Hlm : drops_link source c) (Hc : br_wf c) (Hroom : room 1 (tasks c)) :
  match GetAclConnectionHandle source (connections_ c) with
  | None => IncomingDisconnectPacket source reason c = Ok ((), c)
  | Some k =>
      match GetScoConnectionHandle source (connections_ c) with
      | Some _ => IncomingDisconnectPacket source reason c = Fatal
      | None => ∃ lm c', IncomingDisconnectPacket source reason c = Ok ((), c') ∧
          sends ((drop_acl k c) <| lm_ := lm |>) c'
            (if unmasked EventCode.DISCONNECTION_COMPLETE c
             then [SendEvent (DisconnectionComplete SUCCESS k reason)] else []) ∧
          GetAclConnectionHandle source (connections_ c') = None
      end
  end.
Proof.
  unfold IncomingDisconnectPacket, with_source.
  destruct (GetAclConnectionHandle source (connections_ c)) as [k|] eqn:Ek; [|by rewrite exec_gets, Ek].
  destruct (GetAclConnectionHandle_linked _ _ _ Ek) as (x & Hx & Ex).
  pose proof (disconnect_acl _ _ _ _ Hc Hx) as Ed. rewrite Ex in Ed.
  destruct (GetScoConnectionHandle source (connections_ c)) as [sco|] eqn:Es.
  { rewrite bool_decide_false in Ed by done. rewrite exec_gets, Ek. unfold mbind at 1, M_bind. by rewrite Ed. }
  rewrite bool_decide_true in Ed by done.
  assert (Hc' : br_wf (drop_acl k c)) by (by eapply kept_disconnect_handle; [exact Hc|exact Ed]).
  assert (Hruns : runs (gets (λ c, GetAclConnectionHandle source (connections_ c)) ≫= λ handle,
    match handle with
    | Some handle => removed ← disconnect_handle handle; _ ← lift (assert removed);
        _ ← assert_lm (link_manager_remove_link source); SendDisconnectionCompleteEvent handle reason
    | None => mret ()
    end) c (λ _ c', ∃ lm, sends ((drop_acl k c) <| lm_ := lm |>) c'
      (if unmasked EventCode.DISCONNECTION_COMPLETE c
       then [SendEvent (DisconnectionComplete SUCCESS k reason)] else []))).
  { apply runs_gets. rewrite Ek. apply runs_bind. eapply runs_Ok; [exact Ed|]. eapply runs_lift; [done|].
    apply runs_remove_link; [done|]. intros lm.
    eapply runs_mono; [by apply (runs_SendDisconnectionCompleteEvent _ _ _ 0)|].
    intros u c' [Hs _]. exists lm. exact Hs. }
  destruct Hruns as ([] & c' & E & lm & Hs). exists lm, c'. split; [exact E|]. split; [done|].
  rewrite (sends_proj connections_ _ _ _ ltac:(done) Hs).
  change (GetAclConnectionHandle source (connections_ (drop_acl k c)) = None).
  destruct (GetAclConnectionHandle source (connections_ (drop_acl k c))) as [k'|] eqn:Ek'; [|done].
  destruct (GetAclConnectionHandle_linked _ _ _ Ek') as (x' & Hx' & Ex').
  change (delete k (acl_of c) !! k' = Some x') in Hx'. apply lookup_delete_Some in Hx' as [Hne Hx'].
  exfalso. apply Hne. eapply (br_unique _ _ Hc); [exact Hx|exact Hx'|congruence].
Qed.
End Disconnection.

(** ** Reset *)

Section Reset.
Context {env : Environment}.
Implicit Types (c : BrEdrController).

Lemma runs_for_each_send {A} (l : list A) (body : A → M ()) (packet : A → LinkLayerPacket) c n :
  (∀ x c', x ∈ l → body x c' = SendLinkLayerPacket (packet x) c') → room (zlength l + n) (tasks c) → 0 ≤ n →
  runs (for_each l body) c (λ _ c',
    sends c c' ((λ x, SendToRemote (packet x) 0) <$> l) ∧ room n (tasks c')).
Proof.
  revert c. induction l as [|x l IH]; intros c Hbody Hroom Hn; cbn [for_each].
  { eapply runs_Ok; [done|]. split; [apply sends_nil, Hroom|done]. }
  rewrite zlength_cons, <-Z.add_assoc in Hroom. pose proof (zlength_nonneg l).
  destruct (runs_SendLinkLayerPacket (packet x) c (zlength l + n)) as (u & c1 & E1 & S1 & R1); [done|lia|].
  apply runs_bind. eapply runs_Ok; [rewrite Hbody by left; exact E1|].
  eapply runs_mono; [apply IH; [|done..]; intros; apply Hbody; by right|].
  intros _ c2 [S2 R2]. split; [|done]. exact (sends_trans _ _ _ _ _ S1 S2).
Qed.

Lemma runs_DisconnectAll reason c n :
  room (zlength (GetScoHandles (connections_ c)) + (zlength (GetAclHandles (connections_ c)) + n)) (tasks c) → 0 ≤ n →
  runs (DisconnectAll reason) c (λ _ c', ∃ l, sends c c' l ∧ room n (tasks c') ∧
    (∀ k x, acl_of c !! k = Some x → SendToRemote (MkPacket (AclConnection.own_address x)
       (AclConnection.address x) (BrState.Disconnect (ErrorCode.to_Z reason))) 0 ∈ l) ∧
    (∀ h s, sco_connections_ (connections_ c) !! h = Some s → SendToRemote (MkPacket (address_ c)
       (Sco.address_ s) (ScoDisconnect (ErrorCode.to_Z reason))) 0 ∈ l)).
Proof.
  intros Hroom Hn. unfold DisconnectAll. apply runs_gets, runs_gets. set (h := connections_ c) in *.
  assert (Hin : ∀ {A} (m : gmap Z A) k, k ∈ (fst <$> iterate m) → ∃ x, m !! k = Some x).
  { intros A m k ([k' x] & -> & Hkx)%list_elem_of_fmap. exists x. by apply elem_of_iterate in Hkx. }
  set (sco_packet := λ k, MkPacket (address_ c) (match sco_connections_ h !! k with Some s => Sco.address_ s | None => kEmpty end)
                            (ScoDisconnect (ErrorCode.to_Z reason))).
  set (acl_packet := λ k, match acl_connections_ h !! k with
                          | Some x => MkPacket (AclConnection.own_address x) (AclConnection.address x)
                                        (BrState.Disconnect (ErrorCode.to_Z reason))
                          | None => MkPacket kEmpty kEmpty PingRequest end).
  pose proof (zlength_nonneg (GetAclHandles h)).
  apply runs_bind. eapply runs_mono.
  { apply (runs_for_each_send _ _ sco_packet _ (zlength (GetAclHandles h) + n)); [|done|lia].
    intros k c' (s & Hs)%Hin. unfold GetScoAddress, sco_packet. by rewrite Hs, exec_lift_Ok. }
  intros _ c1 [S1 R1]. eapply runs_mono.
  { apply (runs_for_each_send _ _ acl_packet _ n); [|exact R1|done].
    intros k c' (x & Hx)%Hin. unfold GetAclConnection, acl_packet. by rewrite Hx, exec_lift_Ok. }
  intros _ c2 [S2 R2]. eexists. split; [exact (sends_trans _ _ _ _ _ S1 S2)|]. split; [done|]. split.
  - intros k x Hx. apply elem_of_app. right. apply list_elem_of_fmap. exists k. split.
    + unfold acl_packet. unfold acl_of in Hx. fold h in Hx. by rewrite Hx.
    + apply list_elem_of_fmap. exists (k, x). split; [done|]. by apply elem_of_iterate.
  - intros k s Hs. apply elem_of_app. left. apply list_elem_of_fmap. exists k. split.
    + unfold sco_packet. by rewrite Hs.
    + apply list_elem_of_fmap. exists (k, s). split; [done|]. by apply elem_of_iterate.
Qed.

(** Cancelled tasks. *)
Lemma runs_cancel_all l c :
  runs (for_each l CancelScheduledTask) c (λ _ c', ∃ q, c' = c <| tasks := q |> ∧ (l = [] → q = tasks c)).
Proof.
  revert c. induction l as [|id l IH]; intros c; cbn [for_each].
  { eapply runs_Ok; [done|]. exists (tasks c). by destruct c. }
  apply runs_bind. eapply runs_Ok; [done|]. eapply runs_mono; [apply IH|].
  intros _ c' (q & -> & _). by exists q.
Qed.

(** The rest of [Reset], once the peers are told. *)
Lemma Reset_run c u c1 :
  DisconnectAll ErrorCode.REMOTE_USER_TERMINATED_CONNECTION c = Ok (u, c1) →
  ∃ q, Reset c = Ok ((), reset_parameters (c1 <| connections_ := empty_handler |> <| tasks := q |>)) ∧
  (snd (Connections.Reset (connections_ c1)) = [] → q = tasks c1).
Proof.
  intros E1. set (stopped := snd (Connections.Reset (connections_ c1))).
  destruct (runs_cancel_all stopped (c1 <| connections_ := empty_handler |>)) as (u2 & c2 & E2 & q & -> & Hq).
  exists q. split; [|exact Hq]. unfold Reset. rewrite (exec_bind _ _ _ _ _ E1).
  rewrite (exec_bind _ _ _ stopped (c1 <| connections_ := empty_handler |>)) by done.
  by rewrite (exec_bind _ _ _ _ _ E2).
Qed.
Definition restored c : BrEdrController :=
  c <| current_iac_lap_list_ := [] |> <| tasks := empty_queue |> <| readings := 0%nat |> <| emitted := [] |>.

(** Reset returns, sends no event, and restores the state of a new controller
    with the same address and properties, up to the task queue and to the list of
    inquiry access codes: that of a new controller is empty, that of one that was
    reset holds the general code.  If no voice stream runs, each peer is sent a
    disconnect packet, and so is the other end of each synchronous connection. *)
Theorem controller_reset (c : BrEdrController)
    (Hroom : room (zlength (GetScoHandles (connections_ c)) + zlength (GetAclHandles (connections_ c))) (tasks c)) :
  ∃ c', Reset c = Ok ((), c') ∧ restored c' = new_controller (address_ c) (properties_ c) ∧
  emitted c' = emitted c ∧ current_iac_lap_list_ c' = [0x33] ∧
  ((∀ h s, sco_connections_ (connections_ c) !! h = Some s → stream_handle_ s = None) →
   let reason := ErrorCode.to_Z ErrorCode.REMOTE_USER_TERMINATED_CONNECTION in
   let scheduled := callback <$> task_queue_ (tasks c') in
   (∀ k x, acl_connections_ (connections_ c) !! k = Some x →
      SendToRemote (MkPacket (AclConnection.own_address x) (AclConnection.address x) (BrState.Disconnect reason)) 0
        ∈ scheduled) ∧
   (∀ h s, sco_connections_ (connections_ c) !! h = Some s →
      SendToRemote (MkPacket (address_ c) (Sco.address_ s) (ScoDisconnect reason)) 0 ∈ scheduled)).
Proof.
  destruct (runs_DisconnectAll ErrorCode.REMOTE_USER_TERMINATED_CONNECTION c 0) as (u & c1 & E1 & l & S1 & _ & Hacl & Hsco);
    [by rewrite Z.add_0_r|done|].
  destruct (Reset_run c u c1 E1) as (q & E & Hq). set (stopped := snd (Connections.Reset (connections_ c1))) in *.
  assert (Hc1 : connections_ c1 = connections_ c) by by rewrite (sends_proj connections_ _ _ _ ltac:(done) S1).
  exists (reset_parameters (c1 <| connections_ := empty_handler |> <| tasks := q |>)). split; [exact E|].
  split; [|split; [|split; [done|]]].
  - rewrite <-(sends_proj address_ _ _ _ ltac:(done) S1), <-(sends_proj properties_ _ _ _ ltac:(done) S1).
    reflexivity.
  - exact (sends_proj emitted _ _ _ ltac:(done) S1).
  - intros Hnone. cbv zeta.
    assert (stopped = []) as Hs.
    { unfold stopped. rewrite Hc1. cbn. apply concat_nil_Forall, Forall_fmap, Forall_forall.
      intros [h s] Hin%elem_of_iterate. cbn. by rewrite (Hnone _ _ Hin). }
    specialize (Hq Hs). destruct (adds_tasks _ _ _ (sends_adds _ _ _ S1)) as (ts & <- & _ & Hts).
    assert (Hin : ∀ cb, cb ∈ callback <$> ts → cb ∈ callback <$> task_queue_ q).
    { intros cb (t & -> & Ht)%list_elem_of_fmap. apply list_elem_of_fmap. exists t. split; [done|].
      subst q. apply Hts. by left. }
    split; intros; apply Hin; [by eapply Hacl|by eapply Hsco].
Qed.
End Reset.

(** ** Examples *)

Definition address_a : Address := MkAddress 1 0 0 0 0 0.
Definition address_b : Address := MkAddress 2 0 0 0 0 0.
#[local] Existing Instance example_environment.

Lemma example_prompt : prompt_clock.
Proof. intros i j Hij. cbn. lia. Qed.

(** The state after a call, a packet or a tick that returns. *)
Definition after {A} (m : M A) (c : BrEdrController) : BrEdrController :=
  match m c with Ok (_, c') => c' | _ => c end.
Lemma after_Ok {A} (m : M A) c : is_ok (m c) = true → ∃ a, m c = Ok (a, after m c).
Proof. unfold after. destruct (m c) as [[a c']| | |]; [by exists a|done..]. Qed.
Lemma reach_call {A} (m : M A) c c' :
  host_call m → is_ok (m c) = true → rtc br_step (after m c) c' → rtc br_step c c'.
Proof. intros Hm (a & E)%after_Ok. apply rtc_l. by eapply step_call. Qed.
Lemma reach_packet packet c c' :
  is_ok (IncomingPacket packet 0 c) = true → rtc br_step (after (IncomingPacket packet 0) c) c' → rtc br_step c c'.
Proof. intros ([] & E)%after_Ok. apply rtc_l. by eapply step_packet. Qed.

(** [a] pages [b], which accepts. *)
Definition new_a := new_controller address_a ControllerProperties_default.
Definition new_b := new_controller address_b ControllerProperties_default.
Definition connected_a : BrEdrController :=
  after (IncomingPacket (MkPacket address_b address_a (PageResponse 0)) 0)
    (after (CreateConnection address_b 1) new_a).
Definition connected_b : BrEdrController :=
  after (AcceptConnectionRequest address_a false)
    (after (IncomingPacket (MkPacket address_a address_b (Page 0 1)) 0)
      (after (WriteScanEnable ScanEnable.PAGE_SCAN_ONLY) new_b)).

Lemma connected_a_reachable : br_reachable address_a ControllerProperties_default connected_a.
Proof.
  eapply reach_call; [apply (call_CreateConnection address_b 1)|by vm_compute|].
  apply (reach_packet (MkPacket address_b address_a (PageResponse 0))); [by vm_compute|]. apply rtc_refl.
Qed.
Lemma connected_b_reachable : br_reachable address_b ControllerProperties_default connected_b.
Proof.
  eapply reach_call; [apply (call_WriteScanEnable ScanEnable.PAGE_SCAN_ONLY)|by vm_compute|].
  apply (reach_packet (MkPacket address_a address_b (Page 0 1))); [by vm_compute|].
  eapply reach_call; [apply (call_AcceptConnectionRequest address_a false)|by vm_compute|]. apply rtc_refl.
Qed.

Lemma br_reachable_wf_witness :
  br_reachable address_b ControllerProperties_default connected_b ∧
  GetAclConnectionHandle address_a (connections_ connected_b) = Some 0.
Proof.
  split; [exact connected_b_reachable|].
  destruct (br_reachable_wf _ _ _ connected_b_reachable) as [H _].
  assert (E : acl_connections_ (connections_ connected_b) !! 0 =
              Some (fresh_link 0 0 address_a Role.PERIPHERAL connected_b)) by (vm_compute; reflexivity).
  destruct (H _ _ E) as (_ & _ & _ & G). exact G.
Defined.

Lemma connection_set_up_witness :
  let p := MkPageState address_b 1 0 0 in
  let a := (new_controller address_a ControllerProperties_default) <| page_ := Some p |> in
  let b := (new_controller address_b ControllerProperties_default) <| page_scan_enable_ := true |> in
  ∃ b1 b2 a1, IncomingPacket (page_packet a b p) 0 b = Ok ((), b1) ∧
    AcceptConnectionRequest address_a true b1 = Ok (ErrorCode.SUCCESS, b2) ∧
    IncomingPacket (response_packet a b true) 0 a = Ok ((), a1) ∧ page_ a1 = None ∧
    AclConnection.role_ <$> acl_of a1 !! 0 = Some Role.PERIPHERAL.
Proof.
  intros p a b. assert (Ha : br_wf a).
  { pose proof (new_controller_br_wf address_a ControllerProperties_default) as []. split; try done.
    intros p' _ _ (k & x & Hx & _). cbn in Hx. by rewrite lookup_empty in Hx. }
  destruct (connection_set_up a b p 0 0 true) as (b1 & b2 & a1 & ka & kb & H); [exact example_prompt|
    split; eexists; vm_compute; reflexivity|exact Ha|by apply (br_wf_same None (new_controller address_b ControllerProperties_default)), new_controller_br_wf|
    reflexivity..| | | |].
  - intros (k & x & Hx & _). cbn in Hx. by rewrite lookup_empty in Hx.
  - split; exists 0; split; done.
  - split; vm_compute; repeat split; discriminate.
  - exists b1, b2, a1. destruct H as (E1 & _ & E2 & _ & E3 & _ & [_ [t Hacl]] & _ & Ep & _ & _).
    split; [exact E1|]. split; [exact E2|]. split; [exact E3|]. split; [exact Ep|].
    assert (ka = 0) as ->.
    { assert (Hk : (λ x, AclConnection.handle x) <$> (map_to_list (acl_of a1)).*2 = [0]).
      { vm_compute in E3. injection E3 as <-. vm_compute. reflexivity. }
      rewrite Hacl in Hk. change (acl_of a) with (∅ : gmap Z AclConnection) in Hk.
      rewrite insert_empty, map_to_list_singleton in Hk. by injection Hk. }
    rewrite Hacl. by rewrite lookup_insert_eq.
Defined.

Lemma IncomingDisconnectPacket_spec_witness :
  ∃ c', IncomingDisconnectPacket address_a 19 connected_b = Ok ((), c') ∧
        GetAclConnectionHandle address_a (connections_ c') = None.
Proof.
  pose proof (IncomingDisconnectPacket_spec connected_b address_a 19) as H.
  assert (E : GetAclConnectionHandle address_a (connections_ connected_b) = Some 0) by (vm_compute; reflexivity).
  assert (E' : GetScoConnectionHandle address_a (connections_ connected_b) = None) by (vm_compute; reflexivity).
  rewrite E, E' in H. destruct H as (lm & c' & Hrun & _ & Hnone).
  - eexists. vm_compute. reflexivity.
  - exact (br_reachable_keeps _ _ _ connected_b_reachable).
  - vm_compute. repeat split; discriminate.
  - exists c'. split; [exact Hrun|exact Hnone].
Defined.

(** A request for a synchronous connection crosses the disconnection by the peer. *)
Example crossing_disconnection_aborts :
  (_ ← AddScoConnection 0 0x20; IncomingPacket (MkPacket address_a address_b (BrState.Disconnect 19)) 0) connected_b = Fatal.
Proof. vm_compute. reflexivity. Qed.

Lemma controller_reset_witness :
  ∃ c', Reset connected_b = Ok ((), c') ∧ restored c' = new_b ∧
  SendToRemote (MkPacket address_b address_a (BrState.Disconnect 0x13)) 0 ∈ callback <$> task_queue_ (tasks c').
Proof.
  destruct (controller_reset connected_b) as (c' & E & Er & _ & _ & Hs); [vm_compute; repeat split; discriminate|].
  exists c'. split; [exact E|]. split; [exact Er|].
  destruct Hs as [Hacl _].
  - intros h s Hs. assert (E0 : sco_connections_ (connections_ connected_b) = ∅) by (vm_compute; reflexivity).
    rewrite E0, lookup_empty in Hs. discriminate Hs.
  - apply (Hacl 0 (fresh_link 0 0 address_a Role.PERIPHERAL connected_b)). vm_compute. reflexivity.
Defined.
