(* ===== verification/BrRole.v ===== *)
(** * The role switch between two BR/EDR controllers

    Two connected controllers whose hosts ask for role switches, and change their
    link policies, at any time, and whose packets arrive in any order. *)

From S2P Require Import Prelude HciTypes Properties Address Sco Connections Tasks BrState BrCommands BrLink.
From S2P Require Import BrInvariant BrMachine BrProcedures.

(** The packets among scheduled callbacks, and those that grant a role switch. *)
Definition packets (l : list TaskCallback) : list LinkLayerPacket :=
  omap (λ callback, match callback with SendToRemote p _ => Some p | _ => None end) l.
Definition grants (p : LinkLayerPacket) : bool :=
  match payload p with RoleSwitchResponse status => status =? SUCCESS | _ => false end.
Definition granted (l : list LinkLayerPacket) : nat := length (filter (λ p, grants p = true) l).

Section Role.
Context {env : Environment}.
Implicit Types (c : BrEdrController).

(** The tasks of [c'] are those of [c], and tasks that send [ps]. *)
Definition posts c c' (ps : list LinkLayerPacket) : Prop :=
  ∃ ts, task_queue_ (tasks c') ≡ₚ ts ++ task_queue_ (tasks c) ∧ packets (callback <$> ts) = ps.

(** What a handler does to the link [k] and the network. *)
Record on_link (k : Z) c (x' : AclConnection) c' (ps : list LinkLayerPacket) : Prop := {
  on_acl : acl_of c' = <[k := x']> (acl_of c);
  on_address : address_ c' = address_ c;
  on_posts : posts c c' ps;
  on_counter : fits 32 (task_counter_ (tasks c'));
}.

Lemma posts_nil c c' : tasks c' = tasks c → posts c c' [].
Proof. intros E. exists []. by rewrite E. Qed.
Lemma posts_trans c c1 c2 ps ps' : posts c c1 ps → posts c1 c2 ps' → posts c c2 (ps' ++ ps).
Proof.
  intros (ts & E & <-) (ts' & E' & <-). exists (ts' ++ ts). split; [by rewrite E', E, (assoc_L (++))|].
  unfold packets. by rewrite fmap_app, omap_app.
Qed.
Lemma on_link_trans k c x1 c1 x2 c2 ps ps' :
  on_link k c x1 c1 ps → on_link k c1 x2 c2 ps' → on_link k c x2 c2 (ps' ++ ps).
Proof.
  intros [A1 B1 C1 _] [A2 B2 C2 D2]. split; [|congruence|by eapply posts_trans|done].
  by rewrite A2, A1, insert_insert_eq.
Qed.

Section Link.
Context (k : Z) (x : AclConnection).

Lemma on_link_id c c' :
  acl_of c !! k = Some x → fits 32 (task_counter_ (tasks c)) → connections_ c' = connections_ c →
  address_ c' = address_ c → tasks c' = tasks c → on_link k c x c' [].
Proof.
  intros Hk Hf Hc Ha Ht. split; [|done|by apply posts_nil|by rewrite Ht].
  unfold acl_of in *. by rewrite Hc, insert_id.
Qed.
Lemma on_link_schedule delay callback c id c' :
  acl_of c !! k = Some x → fits 32 (task_counter_ (tasks c)) → ScheduleTask delay callback c = Ok (id, c') →
  on_link k c x c' (packets [callback]).
Proof.
  intros Hk Hf. rewrite ScheduleTask_run. intros ([id' q] & E & [= _ <-])%bind_Ok.
  destruct (ScheduleTask_perm _ _ _ _ _ _ Hf E) as [Hf' Hq].
  split; [cbn; by rewrite insert_id|done| |done].
  exists [one_shot_task (clock (readings c)) delay callback id']. split; [by rewrite Hq|done].
Qed.
Lemma on_link_send packet c u c' :
  acl_of c !! k = Some x → fits 32 (task_counter_ (tasks c)) → SendLinkLayerPacket packet c = Ok (u, c') →
  on_link k c x c' [packet].
Proof. intros Hk Hf ([id c1] & E & [= _ <-])%bind_Ok. by eapply on_link_schedule in E. Qed.
Lemma on_link_event code event c u c' :
  acl_of c !! k = Some x → fits 32 (task_counter_ (tasks c)) → code ≠ EventCode.VENDOR_SPECIFIC →
  schedule_if_unmasked code event c = Ok (u, c') → on_link k c x c' [].
Proof.
  intros Hk Hf Hne. unfold schedule_if_unmasked. rewrite (exec_bind _ _ _ (unmasked code c) c)
    by by rewrite IsEventUnmasked_run, bool_decide_false.
  destruct (unmasked code c); cbn [when]; [|by intros [= _ <-]; apply on_link_id].
  intros ([id c1] & E & [= _ <-])%bind_Ok. by eapply on_link_schedule in E.
Qed.
Lemma on_link_update f c u c' :
  acl_of c !! k = Some x → fits 32 (task_counter_ (tasks c)) → update_acl k f c = Ok (u, c') →
  on_link k c (f x) c' [].
Proof.
  intros Hk Hf [= _ <-]. split; [|done|by apply posts_nil|done]. by apply alter_Some.
Qed.
End Link.

(** ** The handlers of the role switch *)

Lemma on_link_lookup k c x' c' ps : on_link k c x' c' ps → acl_of c' !! k = Some x'.
Proof. intros [-> _ _ _]. apply lookup_insert_eq. Qed.
Lemma br_counter busy c : br_wf_but busy c → fits 32 (task_counter_ (tasks c)).
Proof. intros Hc. apply (br_tasks _ _ Hc). Qed.

Lemma SwitchRole_effect k x c role st c' :
  br_wf c → acl_of c !! k = Some x → SwitchRole (AclConnection.address x) role c = Ok (st, c') →
  ∃ ps, on_link k c x c' ps ∧
  Forall (eq (MkPacket (address_ c) (AclConnection.address x) RoleSwitchRequest)) ps.
Proof.
  intros Hc Hk. pose proof (br_counter _ _ Hc) as Hf. unfold SwitchRole. rewrite exec_gets.
  rewrite (GetAclConnectionHandle_wf _ _ _ _ Hc Hk). unfold GetAclConnection. unfold acl_of in Hk.
  rewrite Hk, exec_lift_Ok.
  assert (Hid : on_link k c x c []) by by apply on_link_id.
  destruct (has_value _); [intros [= _ <-]; by exists []|].
  destruct (AclConnection.state_ x); [..|by intros [= _ <-]; by exists []].
  all: intros ([u c1] & E & [= _ <-])%bind_Ok; destruct (bool_decide _);
    [rewrite exec_gets in E; eapply on_link_send in E; [|done..]; eexists; by split; [exact E|repeat constructor]
    |eapply on_link_event in E; [|done..]; exists []; by split].
Qed.

Lemma IncomingPacket_linked k x c destination p rssi u c' :
  br_wf c → acl_of c !! k = Some x → destination = address_ c →
  IncomingPacket (MkPacket (AclConnection.address x) destination p) rssi c = Ok (u, c') →
  ∃ t c1, on_link k c (AclConnection.ResetLinkTimer t x) c1 [] ∧ br_wf c1 ∧
          dispatch (AclConnection.address x) destination p rssi c1 = Ok (u, c').
Proof.
  intros Hc Hk ->. unfold IncomingPacket. cbn [destination_address source_address payload].
  rewrite exec_gets, (bool_decide_false (address_ c ≠ address_ c)) by naive_solver.
  rewrite andb_false_r, exec_gets, (GetAclConnectionHandle_wf _ _ _ _ Hc Hk), exec_assoc, exec_now.
  intros ([u1 c1] & E & Ed)%bind_Ok. exists (clock (readings c)), c1.
  pose proof (br_counter _ _ Hc) as Hf.
  pose proof E as E1. eapply (on_link_update k x) in E1; [|exact Hk|exact Hf]. destruct E1 as [A B C D].
  split; [by split|]. split; [|exact Ed].
  assert (Hc1 : br_wf (c <| readings ::= S |>)) by by apply (br_wf_same None c).
  eapply kept_update_acl; [|exact Hc1|exact E]. done.
Qed.

Lemma role_request_effect k x c rssi u c' :
  br_wf c → acl_of c !! k = Some x →
  IncomingPacket (MkPacket (AclConnection.address x) (address_ c) RoleSwitchRequest) rssi c = Ok (u, c') →
  ∃ x' status, on_link k c x' c' [MkPacket (address_ c) (AclConnection.address x) (RoleSwitchResponse status)] ∧
  AclConnection.address x' = AclConnection.address x ∧
  AclConnection.role_ x' = if status =? SUCCESS then opposite (AclConnection.role_ x) else AclConnection.role_ x.
Proof.
  intros Hc Hk (t & c1 & H1 & Hc1 & Ed)%(IncomingPacket_linked k x); [|done..].
  pose proof (on_link_lookup _ _ _ _ _ H1) as Hk1. pose proof (on_counter _ _ _ _ _ H1) as Hf1.
  set (x1 := AclConnection.ResetLinkTimer t x) in *. cbn [dispatch] in Ed.
  unfold IncomingRoleSwitchRequest, with_source in Ed.
  rewrite exec_gets in Ed. change (AclConnection.address x) with (AclConnection.address x1) in Ed.
  rewrite (GetAclConnectionHandle_wf _ _ _ _ Hc1 Hk1), exec_gets, exec_gets in Ed.
  unfold GetAclConnection in Ed. unfold acl_of in Hk1. rewrite Hk1, exec_lift_Ok, (on_address _ _ _ _ _ H1) in Ed.
  destruct (AclConnection.IsRoleSwitchEnabled x1); cbn [negb] in Ed.
  - apply bind_Ok in Ed as ([u2 c2] & E2 & ([u3 c3] & E3 & E4)%bind_Ok).
    eapply (on_link_send k x1) in E2; [|exact Hk1|exact Hf1].
    eapply on_link_update in E3; [|eapply on_link_lookup, E2|apply E2].
    eapply on_link_event in E4; [|eapply on_link_lookup, E3|apply E3|done].
    pose proof (on_link_trans _ _ _ _ _ _ _ _ H1 E2) as E5. pose proof (on_link_trans _ _ _ _ _ _ _ _ E5 E3) as E6.
    eexists _, SUCCESS. split; [exact (on_link_trans _ _ _ _ _ _ _ _ E6 E4)|done].
  - eapply (on_link_send k x1) in Ed; [|exact Hk1|exact Hf1].
    exists x1, (ErrorCode.to_Z ErrorCode.ROLE_CHANGE_NOT_ALLOWED). split; [|done].
    exact (on_link_trans _ _ _ _ _ _ _ _ H1 Ed).
Qed.

Lemma role_response_effect k x c status rssi u c' :
  br_wf c → acl_of c !! k = Some x →
  IncomingPacket (MkPacket (AclConnection.address x) (address_ c) (RoleSwitchResponse status)) rssi c = Ok (u, c') →
  ∃ x', on_link k c x' c' [] ∧ AclConnection.address x' = AclConnection.address x ∧
  AclConnection.role_ x' = if status =? SUCCESS then opposite (AclConnection.role_ x) else AclConnection.role_ x.
Proof.
  intros Hc Hk (t & c1 & H1 & Hc1 & Ed)%(IncomingPacket_linked k x); [|done..].
  pose proof (on_link_lookup _ _ _ _ _ H1) as Hk1. pose proof (on_counter _ _ _ _ _ H1) as Hf1.
  set (x1 := AclConnection.ResetLinkTimer t x) in *. cbn [dispatch] in Ed.
  unfold IncomingRoleSwitchResponse, with_source in Ed.
  rewrite exec_gets in Ed. change (AclConnection.address x) with (AclConnection.address x1) in Ed.
  rewrite (GetAclConnectionHandle_wf _ _ _ _ Hc1 Hk1), exec_gets in Ed.
  unfold GetAclConnection in Ed. unfold acl_of in Hk1. rewrite Hk1, exec_lift_Ok in Ed.
  apply bind_Ok in Ed as ([u3 c3] & E3 & E4).
  eapply (on_link_update k x1) in E3; [|exact Hk1|exact Hf1].
  eapply on_link_event in E4; [|eapply on_link_lookup, E3|apply E3|done].
  eexists. split; [|split].
  - pose proof (on_link_trans _ _ _ _ _ _ _ _ H1 E3) as E5. exact (on_link_trans _ _ _ _ _ _ _ _ E5 E4).
  - done.
  - by destruct (status =? SUCCESS).
Qed.
End Role.

(** ** Two controllers *)

Record RoleSystem {env : Environment} := MkRoleSystem {
  end_of : bool → BrEdrController;
  (** What was sent and has not arrived. *)
  flight : list LinkLayerPacket;
}.

Section System.
Context {env : Environment}.
Implicit Types (c : BrEdrController) (e : bool → BrEdrController).

Definition put_end (s : bool) c e : bool → BrEdrController := λ s', if Bool.eqb s' s then c else e s'.

Inductive role_step : RoleSystem → RoleSystem → Prop :=
| role_switch s e l role status c' ps :
    SwitchRole (address_ (e (negb s))) role (e s) = Ok (status, c') → posts (e s) c' ps →
    role_step (MkRoleSystem _ e l) (MkRoleSystem _ (put_end s c' e) (ps ++ l))
| role_policy s e l handle settings status c' :
    WriteLinkPolicySettings handle settings (e s) = Ok (status, c') →
    role_step (MkRoleSystem _ e l) (MkRoleSystem _ (put_end s c' e) l)
| role_packet s e l l' p rssi u c' ps :
    l ≡ₚ p :: l' → destination_address p = address_ (e s) →
    IncomingPacket p rssi (e s) = Ok (u, c') → posts (e s) c' ps →
    role_step (MkRoleSystem _ e l) (MkRoleSystem _ (put_end s c' e) (ps ++ l')).

(** The role of [c] on its link with [peer]. *)
Definition role_with (peer : Address) c : option Role.t :=
  GetAclConnectionHandle peer (connections_ c) ≫= λ k, AclConnection.role_ <$> acl_of c !! k.

Lemma role_with_spec peer c r :
  br_wf c → role_with peer c = Some r ↔
  ∃ k x, acl_of c !! k = Some x ∧ AclConnection.address x = peer ∧ AclConnection.role_ x = r.
Proof.
  intros Hc. unfold role_with. split.
  - intros (k & Hk & (x & Hx & ->)%fmap_Some)%bind_Some.
    apply GetAclConnectionHandle_linked in Hk as (x' & Hx' & <-). exists k, x'.
    rewrite Hx' in Hx. by injection Hx as <-.
  - intros (k & x & Hk & <- & <-). rewrite (GetAclConnectionHandle_wf _ _ _ _ Hc Hk). cbn. by rewrite Hk.
Qed.

Lemma posts_perm c c' ps ps' : posts c c' ps → posts c c' ps' → ps ≡ₚ ps'.
Proof.
  intros (ts & E & <-) (ts' & E' & <-). rewrite E in E'. apply Permutation_app_inv_r in E'.
  unfold packets. by rewrite E'.
Qed.

(** A packet of the procedure between the two ends. *)
Definition role_traffic e (p : LinkLayerPacket) : Prop :=
  ∃ s, source_address p = address_ (e s) ∧ destination_address p = address_ (e (negb s)) ∧
       (payload p = RoleSwitchRequest ∨ ∃ status, payload p = RoleSwitchResponse status).

Record agrees (S : RoleSystem) : Prop := {
  agrees_wf : ∀ s, br_wf (end_of S s);
  agrees_traffic : Forall (role_traffic (end_of S)) (flight S);
  agrees_roles : ∃ r, role_with (address_ (end_of S false)) (end_of S true) = Some r ∧
    role_with (address_ (end_of S true)) (end_of S false) =
      Some (if Nat.even (granted (flight S)) then opposite r else r);
}.

Lemma opposite_opposite r : opposite (opposite r) = r.
Proof. by destruct r. Qed.
Lemma granted_app l l' : granted (l ++ l') = (granted l + granted l')%nat.
Proof. unfold granted. by rewrite filter_app, length_app. Qed.
#[local] Instance granted_perm : Proper ((≡ₚ) ==> (=)) granted.
Proof. intros l l' E. unfold granted. by rewrite E. Qed.
#[local] Instance even_flip : Proper ((=) ==> (=)) Nat.even.
Proof. by intros ? ? ->. Qed.

(** The invariant, from either end. *)
Lemma agrees_side S s :
  agrees S → ∃ r, role_with (address_ (end_of S (negb s))) (end_of S s) = Some r ∧
    role_with (address_ (end_of S s)) (end_of S (negb s)) =
      Some (if Nat.even (granted (flight S)) then opposite r else r).
Proof.
  intros [_ _ (r & E1 & E2)]. destruct s; [by exists r|]. cbn [negb].
  eexists. split; [exact E2|]. rewrite E1. destruct (Nat.even _); by rewrite ?opposite_opposite.
Qed.

Lemma put_end_eq s c e : put_end s c e s = c.
Proof. unfold put_end. by rewrite eqb_reflx. Qed.
Lemma put_end_ne s c e : put_end s c e (negb s) = e (negb s).
Proof. unfold put_end. by destruct s. Qed.
Lemma put_end_address s c e s' : address_ c = address_ (e s) → address_ (put_end s c e s') = address_ (e s').
Proof. intros E. unfold put_end. by destruct (Bool.eqb_spec s' s) as [->|]. Qed.

(** One end handles something on its link: its role stays and so does the parity of
    the grants, or both change. *)
Lemma agrees_step e l s k x x' c' l' :
  agrees (MkRoleSystem _ e l) → acl_of (e s) !! k = Some x →
  AclConnection.address x = address_ (e (negb s)) → br_wf c' →
  acl_of c' !! k = Some x' → address_ c' = address_ (e s) → AclConnection.address x' = AclConnection.address x →
  Forall (role_traffic e) l' →
  (AclConnection.role_ x' = AclConnection.role_ x ∧ Nat.even (granted l') = Nat.even (granted l) ∨
   AclConnection.role_ x' = opposite (AclConnection.role_ x) ∧ Nat.even (granted l') = negb (Nat.even (granted l))) →
  agrees (MkRoleSystem _ (put_end s c' e) l').
Proof.
  intros HS Hk Ha Hc' Hk' Hown Hax Hl' Hr.
  assert (Haddr : ∀ s', address_ (put_end s c' e s') = address_ (e s')) by (intros; by apply put_end_address).
  assert (Hs : ∃ r, role_with (address_ (e (negb s))) c' = Some r ∧
    role_with (address_ (e s)) (e (negb s)) = Some (if Nat.even (granted l') then opposite r else r)).
  { destruct (agrees_side _ s HS) as (r & E1 & E2). cbn [end_of flight] in *.
    assert (r = AclConnection.role_ x) as ->.
    { apply role_with_spec in E1 as (k1 & x1 & Hk1 & Ha1 & <-); [|apply HS].
      assert (k1 = k) as -> by (eapply (br_unique _ _ (agrees_wf _ HS s)); [exact Hk1|exact Hk|congruence]).
      cbn in Hk1. congruence. }
    exists (AclConnection.role_ x'). split.
    - apply role_with_spec; [done|]. exists k, x'. split; [done|]. split; [congruence|done].
    - rewrite E2. destruct Hr as [[-> ->]|[-> ->]]; [done|].
      destruct (Nat.even _); cbn [negb]; by rewrite ?opposite_opposite. }
  split; cbn [end_of flight].
  - intros s'. unfold put_end. destruct (Bool.eqb s' s); [done|apply (agrees_wf _ HS s')].
  - eapply Forall_impl; [exact Hl'|]. intros p (s' & ? & ? & ?). exists s'. by rewrite !Haddr.
  - rewrite !Haddr. destruct Hs as (r & E1 & E2). destruct s; [by exists r|]. cbn [negb put_end Bool.eqb] in *.
    eexists. split; [exact E2|]. rewrite E1. destruct (Nat.even _); by rewrite ?opposite_opposite.
Qed.

Lemma granted_cons p l : granted (p :: l) = ((if grants p then 1 else 0) + granted l)%nat.
Proof. unfold granted. rewrite filter_cons. by destruct (grants p). Qed.
Lemma granted_requests p ps : grants p = false → Forall (eq p) ps → granted ps = 0%nat.
Proof. intros Hp. induction 1 as [|? ps <- _ IH]; [done|]. by rewrite granted_cons, Hp, IH. Qed.

(** The handle of the link, seen from one end. *)
Lemma agrees_link e l s :
  agrees (MkRoleSystem _ e l) →
  ∃ k x, acl_of (e s) !! k = Some x ∧ AclConnection.address x = address_ (e (negb s)).
Proof.
  intros HS. destruct (agrees_side _ s HS) as (r & E1 & _).
  apply role_with_spec in E1 as (k & x & ? & ? & _); [by exists k, x|apply HS].
Qed.

Lemma switch_agrees e l s role status c' ps :
  agrees (MkRoleSystem _ e l) → SwitchRole (address_ (e (negb s))) role (e s) = Ok (status, c') →
  posts (e s) c' ps → agrees (MkRoleSystem _ (put_end s c' e) (ps ++ l)).
Proof.
  intros HS E Hp. pose proof (agrees_wf _ HS s) as Hc. destruct (agrees_link _ _ s HS) as (k & x & Hk & Hx).
  rewrite <-Hx in E. assert (Hc' : br_wf c') by (eapply host_call_keeps; [apply call_SwitchRole|exact Hc|exact E]).
  apply (SwitchRole_effect k) in E as (ps' & Ho & Hps); [|done..].
  pose proof (posts_perm _ _ _ _ Hp (on_posts _ _ _ _ _ Ho)) as Hperm.
  eapply (agrees_step e l s k x x); [exact HS|exact Hk|exact Hx|exact Hc'|by eapply on_link_lookup|apply Ho|done| |].
  - apply Forall_app. split; [|apply HS]. rewrite Hperm. eapply Forall_impl; [exact Hps|].
    intros ? <-. exists s. split; [done|]. split; [exact Hx|by left].
  - left. split; [done|]. assert (granted ps' = 0%nat) as E0 by (eapply granted_requests; [|exact Hps]; done).
    by rewrite granted_app, Hperm, E0.
Qed.

Lemma policy_agrees e l s handle settings status c' :
  agrees (MkRoleSystem _ e l) → WriteLinkPolicySettings handle settings (e s) = Ok (status, c') →
  agrees (MkRoleSystem _ (put_end s c' e) l).
Proof.
  intros HS E. pose proof (agrees_wf _ HS s) as Hc. destruct (agrees_link _ _ s HS) as (k & x & Hk & Hx).
  assert (Hc' : br_wf c') by (eapply host_call_keeps; [apply call_WriteLinkPolicySettings|exact Hc|exact E]).
  assert (H : ∃ x', acl_of c' !! k = Some x' ∧ address_ c' = address_ (e s) ∧
    AclConnection.address x' = AclConnection.address x ∧ AclConnection.role_ x' = AclConnection.role_ x).
  { unfold WriteLinkPolicySettings, with_acl, with_acl_or in E. rewrite exec_gets in E.
    destruct (negb _); [injection E as _ <-; by exists x|]. rewrite exec_lift in E.
    apply bind_Ok in E as (y & _ & E). destruct (_ <? _); [injection E as _ <-; by exists x|].
    injection E as _ <-. destruct (decide (handle = k)) as [->|].
    - exists (AclConnection.SetLinkPolicySettings settings x).
      split; [|done]. change (alter (AclConnection.SetLinkPolicySettings settings) k (acl_of (e s)) !! k =
        Some (AclConnection.SetLinkPolicySettings settings x)). by rewrite lookup_alter_eq, Hk.
    - exists x. split; [|done].
      change (alter (AclConnection.SetLinkPolicySettings settings) handle (acl_of (e s)) !! k = Some x).
      by rewrite lookup_alter_ne. }
  destruct H as (x' & Hk' & Ha' & Hx' & Hr').
  eapply (agrees_step e l s k x x'); [exact HS|exact Hk|exact Hx|exact Hc'|done|done|done|apply HS|by left].
Qed.

Lemma packet_agrees e l l' s p rssi u c' ps :
  agrees (MkRoleSystem _ e l) → l ≡ₚ p :: l' → destination_address p = address_ (e s) →
  IncomingPacket p rssi (e s) = Ok (u, c') → posts (e s) c' ps →
  agrees (MkRoleSystem _ (put_end s c' e) (ps ++ l')).
Proof.
  intros HS El Ed E Hp. pose proof (agrees_wf _ HS s) as Hc. destruct (agrees_link _ _ s HS) as (k & x & Hk & Hx).
  assert (Hc' : br_wf c') by (eapply kept_IncomingPacket; [exact Hc|destruct u; exact E]).
  assert (Ht : Forall (role_traffic e) (p :: l')) by (rewrite <-El; apply HS).
  apply Forall_cons in Ht as [(s' & Es' & Ed' & Hpay) Ht].
  assert (Esrc : source_address p = AclConnection.address x).
  { rewrite Hx, Es'. destruct s, s'; cbn [negb] in *; congruence. }
  clear Es' Ed'.
  destruct p as [source destination pay]. cbn [source_address destination_address payload] in *. subst source destination.
  assert (Eg : granted l = granted (MkPacket (AclConnection.address x) (address_ (e s)) pay :: l')) by exact (granted_perm _ _ El).
  rewrite granted_cons in Eg. destruct Hpay as [->|[status ->]].
  - apply (role_request_effect k) in E as (x' & status & Ho & Hx' & Hr'); [|done..].
    pose proof (posts_perm _ _ _ _ Hp (on_posts _ _ _ _ _ Ho)) as Hperm.
    eapply (agrees_step e l s k x x'); [exact HS|exact Hk|exact Hx|exact Hc'|by eapply on_link_lookup|apply Ho|done| |].
    + apply Forall_app. split; [|done]. rewrite Hperm. repeat constructor. exists s.
      split; [done|]. split; [exact Hx|by right; exists status].
    + rewrite granted_app, Hperm, granted_cons, Eg. cbn [grants payload]. rewrite Hr'.
      destruct (status =? SUCCESS); [right|by left]. split; [done|]. cbn [granted]. by rewrite Nat.even_add.
  - apply (role_response_effect k) in E as (x' & Ho & Hx' & Hr'); [|done..].
    pose proof (posts_perm _ _ _ _ Hp (on_posts _ _ _ _ _ Ho)) as Hperm.
    eapply (agrees_step e l s k x x'); [exact HS|exact Hk|exact Hx|exact Hc'|by eapply on_link_lookup|apply Ho|done| |].
    + apply Forall_app. split; [|done]. by rewrite Hperm.
    + rewrite granted_app, Hperm, Eg. cbn [grants payload]. rewrite Hr'.
      destruct (status =? SUCCESS); [right|by left]. split; [done|].
      rewrite (Nat.even_add 1 (granted l')). by destruct (Nat.even (granted l')) eqn:Ev; cbn; rewrite ?Ev.
Qed.

(** C15. The role switch.  Two connected controllers with opposite roles; their
    hosts ask for role switches and change their link policies at any time, also
    both at once, and the packets arrive in any order.  In every state reached the
    two ends of the link have opposite roles, except while an odd number of grants
    is on its way: once nothing is, they agree again. *)
Theorem role_agreement (e : bool → BrEdrController) (S : RoleSystem) (r : Role.t)
    (Hwf : ∀ s, br_wf (e s))
    (Htrue : role_with (address_ (e false)) (e true) = Some r)
    (Hfalse : role_with (address_ (e true)) (e false) = Some (opposite r))
    (Hrun : rtc role_step (MkRoleSystem _ e []) S) :
  ∃ r', role_with (address_ (end_of S false)) (end_of S true) = Some r' ∧
        role_with (address_ (end_of S true)) (end_of S false) =
          Some (if Nat.even (granted (flight S)) then opposite r' else r').
Proof.
  apply agrees_roles. assert (H0 : agrees (MkRoleSystem _ e [])) by (split; [done|done|by exists r]).
  clear Htrue Hfalse Hwf. induction Hrun as [S|S1 S2 S3 Hstep _ IH]; [done|]. apply IH. destruct Hstep.
  - by eapply switch_agrees.
  - by eapply policy_agrees.
  - by eapply packet_agrees.
Qed.
End System.

(** [a], the central, asks to become the peripheral. *)
Definition pair_ab (s : bool) : @BrEdrController example_environment := if s then connected_a else connected_b.
Lemma role_agreement_witness :
  ∃ S r, rtc (@role_step example_environment) (MkRoleSystem _ pair_ab []) S ∧
    role_with (address_ (end_of S false)) (end_of S true) = Some r ∧
    role_with (address_ (end_of S true)) (end_of S false) =
      Some (if Nat.even (granted (flight S)) then opposite r else r).
Proof.
  assert (Hwf : ∀ s, br_wf (pair_ab s)).
  { intros []; eapply br_reachable_keeps; [exact connected_a_reachable|exact connected_b_reachable]. }
  assert (Hok : is_ok (SwitchRole address_b Role.PERIPHERAL connected_a) = true) by (vm_compute; reflexivity).
  destruct (after_Ok _ _ Hok) as [status E].
  assert (Hx : acl_of connected_a !! 0 =
    Some (fresh_link 0 1000 address_b Role.CENTRAL connected_a)) by (vm_compute; reflexivity).
  destruct (SwitchRole_effect 0 _ _ Role.PERIPHERAL status _ (Hwf true) Hx E) as (ps & [_ _ Hp _] & _).
  assert (Hrun : rtc (@role_step example_environment) (MkRoleSystem _ pair_ab [])
    (MkRoleSystem _ (put_end true (after (SwitchRole address_b Role.PERIPHERAL) connected_a) pair_ab) (ps ++ []))).
  { eapply rtc_once. eapply (role_switch true pair_ab); [exact E|exact Hp]. }
  assert (Ht : role_with (address_ (pair_ab false)) (pair_ab true) = Some Role.CENTRAL) by (vm_compute; reflexivity).
  assert (Hf : role_with (address_ (pair_ab true)) (pair_ab false) = Some Role.PERIPHERAL) by (vm_compute; reflexivity).
  destruct (role_agreement pair_ab _ Role.CENTRAL Hwf Ht Hf Hrun) as (r & H1 & H2).
  eexists _, r. split; [exact Hrun|]. split; [exact H1|exact H2].
Defined.
