(* ===== verification/BrSco.v ===== *)
(** * Synchronous connections between two BR/EDR controllers

    A request, its negotiation by the peer, and the answer. *)

From S2P Require Import Prelude HciTypes Properties Address Sco Connections Tasks BrState BrCommands BrLink.
From S2P Require Import BrInvariant BrMachine BrProcedures.

Section Sco.
Context {env : Environment}.
Implicit Types (c : BrEdrController).

Definition sco_of c : gmap Z ScoConnection := sco_connections_ (connections_ c).
Definition put_sco h s c : BrEdrController :=
  c <| connections_ ::= λ t, t <| sco_connections_ ::= insert h s |> |>.
Definition drop_sco h c : BrEdrController :=
  c <| connections_ ::= λ t, t <| sco_connections_ ::= delete h |> |>.

(** [h] is the only synchronous connection with [peer]. *)
Record only_sco (peer : Address) h s c : Prop := {
  only_entry : sco_of c !! h = Some s;
  only_address : Sco.address_ s = peer;
  only_unique : ∀ h' s', sco_of c !! h' = Some s' → Sco.address_ s' = peer → h' = h;
}.
Lemma only_find peer h s c : only_sco peer h s c → find_sco peer (connections_ c) = Some (h, s).
Proof.
  intros [Hh Ha Hu]. destruct (find_sco peer (connections_ c)) as [[h' s']|] eqn:E.
  - apply find_sco_Some in E as [E Ha']. assert (h' = h) as -> by by eapply Hu.
    unfold sco_of in Hh. congruence.
  - unfold find_sco in E. rewrite find_first_None in E. specialize (E (h, s)). cbn in E.
    rewrite bool_decide_eq_false in E. exfalso. apply E; [|done]. by apply elem_of_iterate.
Qed.
Lemma no_sco peer c h s :
  GetScoConnectionHandle peer (connections_ c) = None → sco_of c !! h = Some s → Sco.address_ s ≠ peer.
Proof.
  unfold GetScoConnectionHandle, find_sco. intros E%fmap_None Hh Ha. revert E.
  rewrite find_first_None. intros E. specialize (E (h, s)). cbn in E.
  rewrite bool_decide_eq_false in E. apply E; [|done]. by apply elem_of_iterate.
Qed.
Lemma only_put peer h s s' c :
  only_sco peer h s c → Sco.address_ s' = peer → only_sco peer h s' (put_sco h s' c).
Proof.
  intros [Hh Ha Hu] Ha'. split; [apply lookup_insert_eq|done|].
  intros h' s1 Hs. change (<[h := s']> (sco_of c) !! h' = Some s1) in Hs.
  apply lookup_insert_Some in Hs as [[<- _]|[_ ?]]; [done|by eapply Hu].
Qed.

Definition free_sco c : Prop := ∃ u, kScoRangeStart ≤ u ≤ kScoRangeEnd ∧ sco_of c !! u = None.
Lemma runs_CreateScoConnection busy peer p st dp lg c :
  br_wf_but busy c → free_sco c → GetScoConnectionHandle peer (connections_ c) = None →
  runs (CreateScoConnection peer p st dp lg) c (λ _ c',
    ∃ h last, sco_of c !! h = None ∧
    c' = put_sco h (new_ScoConnection peer p st dp lg)
           (c <| connections_ ::= λ t, t <| last_sco_handle_ := last |> |>) ∧
    only_sco peer h (new_ScoConnection peer p st dp lg) c').
Proof.
  intros Hc Hfree Hnone.
  destruct (GetUnusedHandle_finds (sco_of c) kScoRangeStart kScoRangeEnd (last_sco_handle_ (connections_ c)))
    as (h & E & Hh); [done..|apply (br_handler _ _ Hc)|exact Hfree|].
  eapply runs_Ok.
  { unfold CreateScoConnection, on_connections, Connections.CreateScoConnection.
    unfold sco_of in E. rewrite E. cbn [mbind outcome_bind]. reflexivity. }
  exists h, (next_handle kScoRangeStart kScoRangeEnd h). split; [done|].
  unfold sco_of in Hh. cbn. rewrite emplace_fresh by done. split; [done|].
  split; [apply lookup_insert_eq|done|].
  intros h' s Hs Ha. change (<[h := new_ScoConnection peer p st dp lg]> (sco_of c) !! h' = Some s) in Hs.
  apply lookup_insert_Some in Hs as [[<- _]|[_ Hs]]; [done|]. by destruct (no_sco _ _ _ _ Hnone Hs).
Qed.

(** ** Acceptance, with and without a stream *)

Lemma NegotiateLinkParameters_keeps pb s :
  let s' := snd (NegotiateLinkParameters pb s) in
  stream_handle_ s' = stream_handle_ s ∧ datapath_ s' = datapath_ s ∧ Sco.address_ s' = Sco.address_ s.
Proof. unfold NegotiateLinkParameters. by repeat case_match. Qed.

Definition negotiated (pb : ScoConnectionParameters) s : ScoConnection :=
  let '(ok, s') := NegotiateLinkParameters pb s in
  SetState (if ok then SCO_STATE_OPENED else SCO_STATE_CLOSED) s'.

Lemma runs_negotiate peer h s pb c :
  only_sco peer h s c → stream_handle_ s = None → datapath_ s = NORMAL →
  runs (AcceptPendingScoConnection_negotiate peer pb) c (λ ok c',
    ok = fst (NegotiateLinkParameters pb s) ∧ c' = put_sco h (negotiated pb s) c).
Proof.
  intros Ho Hstream Hpath. pose proof (only_find _ _ _ _ Ho) as Ef.
  destruct (NegotiateLinkParameters_keeps pb s) as (Es & Ep & _).
  unfold AcceptPendingScoConnection_negotiate, accept_with_stream. apply runs_gets.
  set (s' := negotiated pb s).
  assert (Hs' : stream_handle_ s' = None).
  { unfold s', negotiated. destruct (NegotiateLinkParameters pb s) eqn:En. cbn in *. congruence. }
  assert (E : Connections.AcceptPendingScoConnection_negotiate peer pb kInvalidTaskId (connections_ c) =
    Ok (fst (NegotiateLinkParameters pb s), (connections_ c) <| sco_connections_ ::= insert h s' |>)).
  { unfold Connections.AcceptPendingScoConnection_negotiate. rewrite Ef. unfold s', negotiated in *.
    destruct (NegotiateLinkParameters pb s) as [[] s1] eqn:En; cbn in *; [|done].
    unfold StartStream. rewrite (bool_decide_true (stream_handle_ _ = None)) by done. cbn.
    by rewrite Ep, Hpath. }
  eapply runs_lift; [exact E|]. cbv zeta. unfold GetScoConnectionHandle. rewrite Ef. cbn -[runs mbind].
  rewrite lookup_insert_eq, Hs'. cbn [has_value]. rewrite andb_false_r. apply runs_modify. by eapply runs_Ok.
Qed.

Lemma runs_SchedulePeriodicTask delay period callback c :
  room 1 (tasks c) →
  runs (SchedulePeriodicTask delay period callback) c (λ _ c', connections_ c' = connections_ c ∧ emitted c' = emitted c).
Proof.
  intros [Hc Hroom].
  destruct (next_task_id_Ok (task_queue_ (tasks c)) (task_counter_ (tasks c))) as (id & E & _); [done|lia|].
  unfold SchedulePeriodicTask. apply runs_now, runs_gets. eapply runs_lift.
  { unfold Tasks.SchedulePeriodicTask, NextTaskId. cbn [tasks]. change (tasks (c <| readings ::= S |>)) with (tasks c).
    rewrite E. reflexivity. }
  apply runs_modify. by eapply runs_Ok.
Qed.

(** The connection after the answer of the peer. *)
Definition opened (lp : ScoLinkParameters) s s' : Prop :=
  Sco.address_ s' = Sco.address_ s ∧ link_parameters_ s' = lp ∧ sco_state_ s' = SCO_STATE_OPENED ∧
  has_value (stream_handle_ s') = bool_decide (datapath_ s = SPOOFED).

Lemma runs_accept_answer peer h s lp c :
  only_sco peer h s c → stream_handle_ s = None → room 1 (tasks c) →
  runs (AcceptPendingScoConnection peer lp) c (λ _ c',
    ∃ s', opened lp s s' ∧ connections_ c' = (connections_ c) <| sco_connections_ ::= insert h s' |> ∧
          emitted c' = emitted c).
Proof.
  intros Ho Hstream Hroom. pose proof (only_find _ _ _ _ Ho) as Ef.
  unfold AcceptPendingScoConnection, accept_with_stream. apply runs_gets.
  set (s1 := SetState SCO_STATE_OPENED (SetLinkParameters lp s)).
  set (s' := λ task, if bool_decide (datapath_ s = SPOOFED) then s1 <| stream_handle_ := Some task |> else s1).
  assert (E : ∀ task t, find_sco peer t = Some (h, s) → Connections.AcceptPendingScoConnection peer lp task t =
    Ok (true, t <| sco_connections_ ::= insert h (s' task) |>)).
  { intros task t Et. unfold Connections.AcceptPendingScoConnection. rewrite Et. unfold StartStream, s'.
    rewrite (bool_decide_true (stream_handle_ _ = None)) by done. cbn. by destruct (bool_decide (datapath_ s = SPOOFED)). }
  assert (Hopened : ∀ task, opened lp s (s' task)).
  { intros task. unfold opened, s'. destruct (bool_decide (datapath_ s = SPOOFED)); [done|].
    do 3 (split; [done|]). cbn. by rewrite Hstream. }
  eapply runs_lift; [by apply E|]. cbv zeta. unfold GetScoConnectionHandle at 1. rewrite Ef. cbn -[runs mbind s'].
  rewrite lookup_insert_eq. pose proof (Hopened kInvalidTaskId) as (_ & _ & _ & ->).
  destruct (bool_decide (datapath_ s = SPOOFED)) eqn:Ed.
  - apply runs_bind. eapply runs_mono.
    { unfold StartScoStream. apply runs_gets. unfold GetScoConnectionHandle. rewrite Ef. cbn [fmap option_fmap option_map fst].
      by apply runs_SchedulePeriodicTask. }
    cbv beta. intros task c1 [Hc1 He1].
    assert (Er : on_connections (Connections.AcceptPendingScoConnection peer lp task) c1 =
      Ok (true, c1 <| connections_ := (connections_ c) <| sco_connections_ ::= insert h (s' task) |> |>)).
    { unfold on_connections. by rewrite Hc1, E. }
    eapply runs_Ok; [exact Er|]. exists (s' task). split; [done|]. split; [reflexivity|exact He1].
  - apply runs_modify. eapply runs_Ok; [done|]. by exists (s' kInvalidTaskId).
Qed.

Lemma runs_CancelPendingScoConnection peer h s c :
  only_sco peer h s c → stream_handle_ s = None →
  runs (CancelPendingScoConnection peer) c (λ _ c', c' = drop_sco h c).
Proof.
  intros Ho Hs. eapply runs_Ok; [|done]. unfold CancelPendingScoConnection, on_connections.
  unfold Connections.CancelPendingScoConnection. rewrite (only_find _ _ _ _ Ho).
  unfold destroy. by rewrite Hs.
Qed.

Lemma runs_accept_sco peer h s pb failure c :
  only_sco peer h s c → stream_handle_ s = None → datapath_ s = NORMAL →
  runs (accept_sco peer pb failure) c (λ r c',
    if fst (NegotiateLinkParameters pb s)
    then r = (ErrorCode.SUCCESS, h, link_parameters_ (negotiated pb s)) ∧ c' = put_sco h (negotiated pb s) c
    else r = (failure, 0, no_link_parameters) ∧ c' = drop_sco h (put_sco h (negotiated pb s) c)).
Proof.
  intros Ho Hs Hp. unfold accept_sco. apply runs_gets.
  assert (E : GetScoConnectionHandle peer (connections_ c) = Some h)
    by (unfold GetScoConnectionHandle; by rewrite (only_find _ _ _ _ Ho)).
  eapply runs_lift; [by rewrite E|]. apply runs_bind. eapply runs_mono; [by apply runs_negotiate|].
  intros ok c1 [-> ->].
  assert (Ho1 : only_sco peer h (negotiated pb s) (put_sco h (negotiated pb s) c)).
  { apply (only_put _ _ s); [done|]. rewrite <-(only_address _ _ _ _ Ho). unfold negotiated.
    destruct (NegotiateLinkParameters_keeps pb s) as (_ & _ & Ea). by destruct (NegotiateLinkParameters pb s). }
  destruct (fst (NegotiateLinkParameters pb s)).
  - apply runs_gets. eapply runs_Ok; [done|]. split; [|done]. unfold GetScoLinkParameters.
    by rewrite (only_find _ _ _ _ Ho1).
  - apply runs_bind. eapply runs_mono; [apply (runs_CancelPendingScoConnection peer h (negotiated pb s)); [done|]|].
    + unfold negotiated. destruct (NegotiateLinkParameters_keeps pb s) as (Es & _ & _).
      destruct (NegotiateLinkParameters pb s). cbn in *. congruence.
    + intros _ c2 ->. by eapply runs_Ok.
Qed.

(** The state, the handle and the parameters after the decision of the acceptor. *)
Definition decision (pb : ScoConnectionParameters) h s : ErrorCode.t * Z * ScoLinkParameters :=
  if fst (NegotiateLinkParameters pb s)
  then (ErrorCode.SUCCESS, h, link_parameters_ (negotiated pb s))
  else (ErrorCode.STATUS_UNKNOWN, 0, no_link_parameters).
Definition decided (pb : ScoConnectionParameters) h s c : BrEdrController :=
  if fst (NegotiateLinkParameters pb s) then put_sco h (negotiated pb s) c
  else drop_sco h (put_sco h (negotiated pb s) c).

Lemma runs_AcceptSynchronousConnection peer h s pb c n :
  only_sco peer h s c → stream_handle_ s = None → datapath_ s = NORMAL →
  HasPendingScoConnection peer (connections_ c) = true → room (2 + n) (tasks c) → 0 ≤ n →
  runs (AcceptSynchronousConnection peer pb) c (λ status c', status = ErrorCode.SUCCESS ∧
    let '(st, handle, lp) := decision pb h s in
    sends (decided pb h s c) c'
      [SendToRemote (MkPacket (address_ c) peer (sco_response st lp)) 0;
       SendEvent (synchronous_connection_complete (ErrorCode.to_Z st) handle peer lp)]).
Proof.
  intros Ho Hs Hp Hpend Hroom Hn. unfold AcceptSynchronousConnection. apply runs_gets. rewrite Hpend. cbn [negb].
  apply runs_bind. eapply runs_mono; [by apply runs_accept_sco|].
  intros r c1 Hr. assert (r = decision pb h s ∧ c1 = decided pb h s c) as [-> ->].
  { unfold decision, decided. by destruct (fst (NegotiateLinkParameters pb s)). }
  clear Hr. destruct (decision pb h s) as [[st handle] lp]. apply runs_gets.
  assert (Et : tasks (decided pb h s c) = tasks c) by (unfold decided; by destruct (fst _)).
  assert (Ea : address_ (decided pb h s c) = address_ c) by (unfold decided; by destruct (fst _)).
  rewrite Ea.
  apply runs_bind. eapply runs_mono; [apply (runs_SendLinkLayerPacket _ _ (1 + n)); [by rewrite Et, Z.add_assoc|lia]|].
  intros _ c2 [S2 R2]. apply runs_bind. eapply runs_mono; [by apply (runs_schedule_event _ _ n)|].
  intros _ c3 [S3 _]. eapply runs_Ok; [done|]. split; [done|]. exact (sends_trans _ _ _ _ _ S2 S3).
Qed.

(** ** The initiator *)

Lemma no_pending peer c :
  GetScoConnectionHandle peer (connections_ c) = None → HasPendingScoConnection peer (connections_ c) = false.
Proof.
  unfold GetScoConnectionHandle, HasPendingScoConnection. intros E%fmap_None. by rewrite E.
Qed.

Lemma runs_SetupSynchronousConnection k x p dp c n :
  br_wf c → acl_of c !! k = Some x → GetScoConnectionHandle (AclConnection.address x) (connections_ c) = None →
  free_sco c → room (1 + n) (tasks c) → 0 ≤ n →
  let s := new_ScoConnection (AclConnection.address x) p SCO_STATE_PENDING dp false in
  runs (SetupSynchronousConnection k p dp) c (λ status c', status = ErrorCode.SUCCESS ∧
    ∃ h last, sco_of c !! h = None ∧
    let c1 := put_sco h s (c <| connections_ ::= λ t, t <| last_sco_handle_ := last |> |>) in
    only_sco (AclConnection.address x) h s c1 ∧
    sends c1 c' [SendToRemote (MkPacket (address_ c) (AclConnection.address x)
                                 (sco_request p (class_of_device_ c))) 0] ∧ room n (tasks c')).
Proof.
  intros Hc Hk Hnone Hfree Hroom Hn s. unfold SetupSynchronousConnection, with_acl, with_acl_or.
  apply runs_gets. unfold HasAclHandle, GetAclConnection. unfold acl_of in Hk. rewrite Hk, bool_decide_true by done.
  cbn [negb]. eapply runs_lift; [done|]. unfold request_sco. apply runs_gets. cbv zeta. rewrite no_pending by done.
  apply runs_bind. eapply runs_mono; [by eapply runs_CreateScoConnection|].
  intros _ c1 (h & last & Hh & -> & Ho). apply runs_gets, runs_gets.
  apply runs_bind. eapply runs_mono; [by apply (runs_SendLinkLayerPacket _ _ n)|].
  intros _ c2 [S2 R2]. eapply runs_Ok; [done|]. split; [done|]. by exists h, last.
Qed.

(** ** Packets on a link *)

Definition touched k t c : BrEdrController :=
  c <| readings ::= S |> <| connections_ ::= λ h, h <| acl_connections_ ::= alter (AclConnection.ResetLinkTimer t) k |> |>.
Lemma touched_wf k t c : br_wf c → br_wf (touched k t c).
Proof.
  intros Hc. assert (H1 : br_wf (c <| readings ::= S |>)) by by apply (br_wf_same None c).
  by apply (kept_update_acl None k (AclConnection.ResetLinkTimer t) ltac:(done) _ () _ H1).
Qed.
Lemma runs_IncomingPacket k x p rssi c Q :
  br_wf c → acl_of c !! k = Some x →
  (∀ t, runs (dispatch (AclConnection.address x) (address_ c) p rssi) (touched k t c) Q) →
  runs (IncomingPacket (MkPacket (AclConnection.address x) (address_ c) p) rssi) c Q.
Proof.
  intros Hc Hk HQ. unfold IncomingPacket. cbn [destination_address source_address payload]. apply runs_gets.
  rewrite (bool_decide_false (address_ c ≠ address_ c)) by naive_solver. rewrite andb_false_r. apply runs_gets.
  rewrite (GetAclConnectionHandle_wf _ _ _ _ Hc Hk). apply runs_bind, runs_now.
  eapply runs_Ok; [done|]. apply HQ.
Qed.

Lemma runs_ScoConnectionRequest peer p class_of_device c :
  br_wf c → GetScoConnectionHandle peer (connections_ c) = None → free_sco c →
  let s := new_ScoConnection peer p (if IsExtended p then SCO_STATE_SENT_ESCO_CONNECTION_REQUEST
                                     else SCO_STATE_SENT_SCO_CONNECTION_REQUEST) NORMAL false in
  runs (IncomingScoConnectionRequest peer p class_of_device) c (λ _ c', ∃ h last, sco_of c !! h = None ∧
    c' = push [ConnectionRequest peer class_of_device
                (if IsExtended p then ConnectionRequestLinkType.ESCO else ConnectionRequestLinkType.SCO)]
           (put_sco h s (c <| connections_ ::= λ t, t <| last_sco_handle_ := last |> |>)) ∧
    only_sco peer h s c').
Proof.
  intros Hc Hnone Hfree s. unfold IncomingScoConnectionRequest. apply runs_gets, runs_gets.
  rewrite no_pending by done. cbv zeta. apply runs_bind. eapply runs_mono; [by eapply runs_CreateScoConnection|].
  intros _ c1 (h & last & Hh & -> & Ho). eapply runs_Ok; [done|]. exists h, last. split; [done|]. split; [done|].
  destruct Ho as [A B C]. by split.
Qed.

(** The answer [st, lp], and the event for the host of the initiator. *)
Definition answer_event peer h p (st : ErrorCode.t) lp : HciEvent :=
  if bool_decide (st = ErrorCode.SUCCESS) then synchronous_connection_complete SUCCESS h peer lp
  else SynchronousConnectionComplete (ErrorCode.to_Z st) 0 peer
         (if IsExtended p then ScoLinkType.ESCO else ScoLinkType.SCO) 0 0 0 0 0x03.
Lemma runs_ScoConnectionResponse peer h s st lp c :
  only_sco peer h s c → stream_handle_ s = None → legacy_ s = false → room 1 (tasks c) →
  runs (IncomingScoConnectionResponse peer (ErrorCode.to_Z st) lp) c (λ _ c',
    if bool_decide (st = ErrorCode.SUCCESS)
    then ∃ s', opened lp s s' ∧ sco_of c' = insert h s' (sco_of c) ∧
         emitted c' = emitted c ++ [EmitEvent (answer_event peer h no_connection_parameters st lp)]
    else sco_of c' = delete h (sco_of c) ∧
         emitted c' = emitted c ++ [EmitEvent (answer_event peer h no_connection_parameters st lp)]).
Proof.
  intros Ho Hs Hl Hroom. pose proof (only_find _ _ _ _ Ho) as Ef. unfold IncomingScoConnectionResponse.
  apply runs_gets. unfold IsLegacyScoConnection, GetScoConnectionHandle. rewrite Ef, Hl. cbv zeta. cbn [fmap option_fmap option_map fst].
  unfold answer_event. assert (Es : (ErrorCode.to_Z st =? SUCCESS) = bool_decide (st = ErrorCode.SUCCESS)) by by destruct st.
  rewrite Es. destruct (bool_decide (st = ErrorCode.SUCCESS)).
  - apply runs_bind. eapply runs_mono; [by apply runs_accept_answer|].
    intros _ c1 (s' & Hop & E1 & E2). eapply runs_Ok; [done|]. exists s'. split; [done|].
    split; [unfold sco_of; cbn; by rewrite E1|cbn; by rewrite E2].
  - apply runs_bind. eapply runs_mono; [by eapply runs_CancelPendingScoConnection|]. intros _ c1 ->.
    apply runs_gets. eapply runs_Ok; [done|]. split; [done|].
    enough (GetScoConnectionParameters peer (connections_ (drop_sco h c)) = no_connection_parameters) as -> by done.
    unfold GetScoConnectionParameters.
    destruct (find_sco peer (connections_ (drop_sco h c))) as [[h' s']|] eqn:E; [|done].
    apply find_sco_Some in E as [E Ea]. change (delete h (sco_of c) !! h' = Some s') in E.
    apply lookup_delete_Some in E as [Hne E]. exfalso. apply Hne. symmetry. by eapply (only_unique _ _ _ _ Ho).
Qed.

Lemma decided_tasks pb h s c : tasks (decided pb h s c) = tasks c.
Proof. unfold decided. by destruct (fst _). Qed.
Lemma negotiated_address pb s : Sco.address_ (negotiated pb s) = Sco.address_ s.
Proof.
  unfold negotiated. destruct (NegotiateLinkParameters_keeps pb s) as (_ & _ & E).
  by destruct (NegotiateLinkParameters pb s).
Qed.
Lemma only_sco_same peer h s c c' : sco_of c' = sco_of c → only_sco peer h s c → only_sco peer h s c'.
Proof. intros E [A B C]. by split; rewrite ?E. Qed.

Definition request_state (p : ScoConnectionParameters) : ScoState :=
  if IsExtended p then SCO_STATE_SENT_ESCO_CONNECTION_REQUEST else SCO_STATE_SENT_SCO_CONNECTION_REQUEST.

(** C16. Set up of a synchronous connection, over both ends.  The host of [a] asks
    for one with its peer [b], the host of [b] accepts with parameters of its own.
    If the two can be reconciled, both ends hold one connection more, opened, with
    the same link parameters, and a stream exactly at an initiator whose data path
    is not HCI.  If not, neither end keeps the connection.  Every command and packet
    returns, the packets are those the other end receives, and both hosts are told
    the same. *)
Theorem sco_set_up (a b : BrEdrController) (ka kb : Z) (xa xb : AclConnection)
    (p pb : ScoConnectionParameters) (dp : ScoDatapath) (rssi rssi' : Z)
    (Ha : br_wf a) (Hb : br_wf b)
    (Hka : acl_of a !! ka = Some xa) (Hxa : AclConnection.address xa = address_ b)
    (Hkb : acl_of b !! kb = Some xb) (Hxb : AclConnection.address xb = address_ a)
    (Hna : GetScoConnectionHandle (address_ b) (connections_ a) = None)
    (Hnb : GetScoConnectionHandle (address_ a) (connections_ b) = None)
    (Hfree : free_sco a ∧ free_sco b) (Hroom : room 2 (tasks a) ∧ room 2 (tasks b)) :
  let request := MkPacket (address_ a) (address_ b) (sco_request p (class_of_device_ a)) in
  let s := new_ScoConnection (address_ a) p (request_state p) NORMAL false in
  ∃ a1 a2 b1 b2 ha hb,
  let '(st, handle, lp) := decision pb hb s in
  let response := MkPacket (address_ b) (address_ a) (sco_response st lp) in
  SetupSynchronousConnection ka p dp a = Ok (ErrorCode.SUCCESS, a1) ∧
  adds (tasks a) (tasks a1) [SendToRemote request 0] ∧
  IncomingPacket request rssi b = Ok ((), b1) ∧
  AcceptSynchronousConnection (address_ a) pb b1 = Ok (ErrorCode.SUCCESS, b2) ∧
  adds (tasks b) (tasks b2) [SendToRemote response 0;
    SendEvent (synchronous_connection_complete (ErrorCode.to_Z st) handle (address_ a) lp)] ∧
  IncomingPacket response rssi' a1 = Ok ((), a2) ∧
  emitted a2 = emitted a ++ [EmitEvent (answer_event (address_ b) ha no_connection_parameters st lp)] ∧
  sco_of a !! ha = None ∧ sco_of b !! hb = None ∧
  if fst (NegotiateLinkParameters pb s) then
    ∃ sa sb, sco_of a2 = insert ha sa (sco_of a) ∧ sco_of b2 = insert hb sb (sco_of b) ∧
      Sco.address_ sa = address_ b ∧ Sco.address_ sb = address_ a ∧
      link_parameters_ sa = lp ∧ link_parameters_ sb = lp ∧
      sco_state_ sa = SCO_STATE_OPENED ∧ sco_state_ sb = SCO_STATE_OPENED ∧
      has_value (stream_handle_ sa) = bool_decide (dp = SPOOFED)
  else sco_of a2 = sco_of a ∧ sco_of b2 = sco_of b.
Proof.
  destruct Hfree as [Hfa Hfb], Hroom as [Hra Hrb]. intros request s.
  destruct (runs_SetupSynchronousConnection ka xa p dp a 1) as (st1 & a1 & E1 & -> & ha & la & Hha & Hoa & Sa & Ra);
    [done|done|by rewrite Hxa|done..|].
  rewrite Hxa in Hoa, Sa.
  (* the request *)
  assert (Hreq : runs (IncomingPacket request rssi) b (λ _ b1, ∃ hb, sco_of b !! hb = None ∧
    only_sco (address_ a) hb s b1 ∧ tasks b1 = tasks b ∧ address_ b1 = address_ b ∧ sco_of b1 = insert hb s (sco_of b))).
  { unfold request. rewrite <-Hxb at 1. apply (runs_IncomingPacket kb xb); [done|done|]. intros t.
    cbn [dispatch sco_request]. rewrite Hxb.
    eapply runs_mono; [apply runs_ScoConnectionRequest; [by apply touched_wf|done|done]|].
    intros _ c' (hb & last & Hhb & -> & Ho). exists hb. destruct p. by repeat split; try apply Ho. }
  destruct Hreq as ([] & b1 & E2 & hb & Hhb & Hob & Tb & Ab & Sb1).
  (* the acceptance *)
  destruct (runs_AcceptSynchronousConnection (address_ a) hb s pb b1 0) as (st2 & b2 & E3 & -> & Sb);
    [done|done|done| |by rewrite Tb|done|].
  { unfold HasPendingScoConnection. rewrite (only_find _ _ _ _ Hob). unfold s, request_state. by destruct (IsExtended p). }
  (* the answer *)
  set (sA := new_ScoConnection (address_ b) p SCO_STATE_PENDING dp false) in *.
  assert (Hoa1 : only_sco (address_ b) ha sA a1)
    by (eapply only_sco_same; [|exact Hoa]; by rewrite (sends_proj sco_of _ _ _ ltac:(done) Sa)).
  assert (Ha1 : br_wf a1) by (eapply host_call_keeps; [apply call_SetupSynchronousConnection|exact Ha|exact E1]).
  assert (Hka1 : acl_of a1 !! ka = Some xa) by by rewrite (sends_proj acl_of _ _ _ ltac:(done) Sa).
  assert (Aa1 : address_ a1 = address_ a) by by rewrite (sends_proj address_ _ _ _ ltac:(done) Sa).
  destruct (decision pb hb s) as [[st handle] lp] eqn:Ed.
  assert (Hres : runs (IncomingPacket (MkPacket (address_ b) (address_ a) (sco_response st lp)) rssi') a1 (λ _ a2,
    emitted a2 = emitted a ++ [EmitEvent (answer_event (address_ b) ha no_connection_parameters st lp)] ∧
    if bool_decide (st = ErrorCode.SUCCESS) then ∃ sa, opened lp sA sa ∧ sco_of a2 = insert ha sa (sco_of a)
    else sco_of a2 = sco_of a)).
  { rewrite <-Hxa at 1. rewrite <-Aa1. apply (runs_IncomingPacket ka xa); [done|done|]. intros t.
    cbn [dispatch sco_response]. rewrite Hxa.
    assert (Elp : MkScoLinkParameters (transmission_interval lp) (retransmission_window lp) (rx_packet_length lp)
      (tx_packet_length lp) (air_mode lp) (extended lp) = lp) by by destruct lp.
    rewrite Elp.
    assert (Es1 : sco_of a1 = insert ha sA (sco_of a)) by by rewrite (sends_proj sco_of _ _ _ ltac:(done) Sa).
    assert (Ee1 : emitted a1 = emitted a) by by rewrite (sends_proj emitted _ _ _ ltac:(done) Sa).
    eapply runs_mono; [apply (runs_ScoConnectionResponse _ ha sA); [by apply (only_sco_same _ _ _ a1)|done|done|exact Ra]|].
    change (sco_of (touched ka t a1)) with (sco_of a1). change (emitted (touched ka t a1)) with (emitted a1).
    rewrite Es1, Ee1. intros _ a2 H.
    destruct (bool_decide (st = ErrorCode.SUCCESS)).
    - destruct H as (sa & Hop & E & Ee). split; [exact Ee|]. exists sa. by rewrite E, insert_insert_eq.
    - destruct H as [E Ee]. split; [exact Ee|]. by rewrite E, delete_insert_id. }
  destruct Hres as ([] & a2 & E4 & Ee & Hs2).
  exists a1, a2, b1, b2, ha, hb. rewrite Ed. cbv zeta.
  split; [exact E1|]. split; [apply Sa|]. split; [exact E2|]. split; [exact E3|].
  rewrite Ab in Sb. split; [rewrite <-Tb; rewrite <-(decided_tasks pb hb s b1); apply Sb|].
  split; [exact E4|]. split; [exact Ee|]. split; [done|]. split; [done|].
  assert (Hb2 : sco_of b2 = sco_of (decided pb hb s b1)) by by rewrite (sends_proj sco_of _ _ _ ltac:(done) Sb).
  unfold decision, decided in *. destruct (fst (NegotiateLinkParameters pb s)) eqn:En.
  - injection Ed as <- <- <-. destruct Hs2 as (sa & (Has & Hlp & Hst & Hstr) & Hsa).
    exists sa, (negotiated pb s). rewrite Hsa, Hb2. split; [done|].
    split; [change (insert hb (negotiated pb s) (sco_of b1) = insert hb (negotiated pb s) (sco_of b)); by rewrite Sb1, insert_insert_eq|].
    split; [done|]. split; [apply negotiated_address|]. do 2 (split; [done|]). split; [done|]. split; [|done].
    unfold negotiated. destruct (NegotiateLinkParameters pb s). cbn in En. by subst.
  - injection Ed as <- <- <-. split; [done|]. rewrite Hb2.
    change (delete hb (insert hb (negotiated pb s) (sco_of b1)) = sco_of b). by rewrite Sb1, insert_insert_eq, delete_insert_id.
Qed.
End Sco.

(** A call with a 64 kbit/s voice channel and the data path of the host. *)
Definition voice : ScoConnectionParameters := MkScoConnectionParameters 8000 8000 13 0x60 0xff 0x3c8.

Lemma sco_set_up_witness :
  ∃ (a1 a2 b1 b2 : @BrEdrController example_environment) ha hb sa sb,
  SetupSynchronousConnection 0 voice NORMAL connected_a = Ok (ErrorCode.SUCCESS, a1) ∧
  AcceptSynchronousConnection address_a voice b1 = Ok (ErrorCode.SUCCESS, b2) ∧
  sco_of a2 = insert ha sa ∅ ∧ sco_of b2 = insert hb sb ∅ ∧ link_parameters_ sa = link_parameters_ sb ∧
  sco_state_ sa = SCO_STATE_OPENED.
Proof.
  pose proof (sco_set_up connected_a connected_b 0 0 (fresh_link 0 1000 address_b Role.CENTRAL connected_a)
    (fresh_link 0 0 address_a Role.PERIPHERAL connected_b) voice voice NORMAL 0 0) as H. cbv zeta in H.
  destruct H as (a1 & a2 & b1 & b2 & ha & hb & H).
  1: eapply br_reachable_keeps, connected_a_reachable.
  1: eapply br_reachable_keeps, connected_b_reachable.
  1,2,3,4,5,6: vm_compute; reflexivity.
  - split; exists 0x100; split; [vm_compute; split; discriminate|vm_compute; reflexivity
      |vm_compute; split; discriminate|vm_compute; reflexivity].
  - split; vm_compute; repeat split; discriminate.
  - match type of H with context [decision ?x hb ?s] => destruct (decision x hb s) as [[st handle] lp] end.
    destruct H as (E1 & _ & _ & E3 & _ & _ & _ & _ & _ & H).
    match type of H with if ?b then _ else _ => assert (E : b = true) by (vm_compute; reflexivity) end.
    rewrite E in H. destruct H as (sa & sb & Ha & Hb & _ & _ & La & Lb & St & _).
    exists a1, a2, b1, b2, ha, hb, sa, sb. split; [exact E1|]. split; [exact E3|].
    split; [exact Ha|]. split; [exact Hb|]. split; [congruence|exact St].
Defined.

(** A second connection with the same peer is not refused once the first is open;
    then the end of the link, which drops one of them, aborts the controller. *)
Example two_sco_connections_abort :
  let answer := MkPacket address_b address_a (ScoConnectionResponse 0 6 0 30 30 2 false) in
  (_ ← SetupSynchronousConnection 0 voice NORMAL; _ ← IncomingPacket answer 0;
   _ ← SetupSynchronousConnection 0 voice NORMAL; _ ← IncomingPacket answer 0;
   Disconnect 0 ErrorCode.REMOTE_USER_TERMINATED_CONNECTION
     ErrorCode.CONNECTION_TERMINATED_BY_LOCAL_HOST) connected_a = Fatal.
Proof. vm_compute. reflexivity. Qed.

(** A second answer for a connection with a stream aborts the controller too. *)
Example second_answer_aborts :
  let answer := MkPacket address_b address_a (ScoConnectionResponse 0 6 0 30 30 2 false) in
  (_ ← SetupSynchronousConnection 0 voice SPOOFED; _ ← IncomingPacket answer 0; IncomingPacket answer 0)
    connected_a = Fatal.
Proof. vm_compute. reflexivity. Qed.
