(* ===== verification/HciViews.v ===== *)
(** * The views of the HCI packets (packets/hci_packets.pdl)

    The build generates a C++ class per packet of hci_packets.pdl.  [XxxView::Create]
    reads the bytes of a packet; the view is valid if they have the format of the
    packet, and its getters return the fields.  The generated code is a parameter of
    the model: [Create] is [None] for a view that is not valid, and the values of the
    fields the code reads otherwise, in the order of the format. *)

From S2P Require Import Prelude HciTypes OpCodes Properties Address CsTypes Connections LeState LeLists LeAdvertiser.
From S2P Require Import LePhy LeScan LeConnect LeSubrate BrState BrCommands.

(** A view, by the type of its fields.  Numbers, and enumerations used as numbers,
    are [Z]; a field of one bit and [Enable] are [bool]. *)
Inductive view : Type → Type :=
| AclView : view (Z * Z * Z * list Z)
| ScoView : view (Z * Z * list Z)
| IsoView : view (Z * Z * bool * list Z)
| CommandView : view (Z * list Z)
| ResetView : view ()
| ReadBufferSizeView : view ()
| ReadFailedContactCounterView : view Z
| ReadRssiView : view Z
| ReadEncryptionKeySizeView : view Z
| HostBufferSizeView : view (Z * Z * Z * Z)
| ReadLocalVersionInformationView : view ()
| ReadRemoteVersionInformationView : view Z
| ReadBdAddrView : view ()
| ReadLocalSupportedCommandsView : view ()
| ReadLocalSupportedFeaturesView : view ()
| ReadLocalSupportedCodecsV1View : view ()
| ReadLocalExtendedFeaturesView : view Z
| ReadRemoteExtendedFeaturesView : view (Z * Z)
| SwitchRoleView : view (Address * Role.t)
| ReadRemoteSupportedFeaturesView : view Z
| ReadClockOffsetView : view Z
| AddScoConnectionView : view (Z * Z)
| SetupSynchronousConnectionView : view (Z * Z * Z * Z * Z * Z * Z)
| AcceptSynchronousConnectionView : view (Address * Z * Z * Z * Z * Z * Z)
| EnhancedSetupSynchronousConnectionView : view (Z * EnhancedParameters)
| EnhancedAcceptSynchronousConnectionView : view (Address * EnhancedParameters)
| RejectSynchronousConnectionView : view (Address * Z)
| ReadInquiryResponseTransmitPowerLevelView : view ()
| EnhancedFlushView : view (Z * Z)
| SetEventMaskPage2View : view Z
| ReadLocalOobDataView : view ()
| ReadLocalOobExtendedDataView : view ()
| SetMinEncryptionKeySizeView : view Z
| WriteSimplePairingModeView : view bool
| ChangeConnectionPacketTypeView : view (Z * Z)
| WriteLeHostSupportView : view (bool * bool)
| WriteSecureConnectionsHostSupportView : view bool
| SetEventMaskView : view Z
| ReadInquiryModeView : view ()
| WriteInquiryModeView : view Z
| ReadPageScanTypeView : view ()
| WritePageScanTypeView : view Z
| ReadInquiryScanTypeView : view ()
| WriteInquiryScanTypeView : view Z
| ChangeConnectionLinkKeyView : view Z
| CentralLinkKeyView : view Z
| WriteAuthenticationEnableView : view AuthenticationEnable.t
| ReadAuthenticationEnableView : view ()
| ReadClassOfDeviceView : view ()
| WriteClassOfDeviceView : view Z
| ReadPageTimeoutView : view ()
| WritePageTimeoutView : view Z
| HoldModeView : view (Z * Z * Z)
| SniffModeView : view (Z * Z * Z * Z * Z)
| ExitSniffModeView : view Z
| QosSetupView : view (Z * Z * Z * Z * Z * Z)
| RoleDiscoveryView : view Z
| ReadDefaultLinkPolicySettingsView : view ()
| WriteDefaultLinkPolicySettingsView : view Z
| SniffSubratingView : view (Z * Z * Z * Z)
| FlowSpecificationView : view (Z * Z * Z * Z * Z * Z * Z)
| ReadLinkPolicySettingsView : view Z
| WriteLinkPolicySettingsView : view (Z * Z)
| WriteLinkSupervisionTimeoutView : view (Z * Z)
| ReadLocalNameView : view ()
| WriteLocalNameView : view (list Z)
| WriteExtendedInquiryResponseView : view (Z * list Z)
| RefreshEncryptionKeyView : view Z
| ReadVoiceSettingView : view ()
| WriteVoiceSettingView : view Z
| ReadNumberOfSupportedIacView : view ()
| ReadCurrentIacLapView : view ()
| WriteCurrentIacLapView : view (list Z)
| ReadPageScanActivityView : view ()
| WritePageScanActivityView : view (Z * Z)
| ReadInquiryScanActivityView : view ()
| WriteInquiryScanActivityView : view (Z * Z)
| ReadScanEnableView : view ()
| WriteScanEnableView : view ScanEnable.t
| ReadTransmitPowerLevelView : view (Z * Z)
| ReadEnhancedTransmitPowerLevelView : view (Z * Z)
| ReadSynchronousFlowControlEnableView : view ()
| WriteSynchronousFlowControlEnableView : view bool
| SetEventFilterView : view Z
| InquiryView : view (Z * Z * Z)
| InquiryCancelView : view ()
| AcceptConnectionRequestView : view (Address * Z)
| RejectConnectionRequestView : view (Address * Z)
| DeleteStoredLinkKeyView : view (Address * Z)
| RemoteNameRequestView : view (Address * PageScanRepetitionMode.t * Z * Z)
| LeSetEventMaskView : view Z
| LeRequestPeerScaView : view Z
| LeSetHostFeatureV1View : view (Z * bool)
| LeReadBufferSizeV1View : view ()
| LeReadBufferSizeV2View : view ()
| LeEnhancedReadTransmitPowerLevelView : view (Z * Z)
| LeReadRemoteTransmitPowerLevelView : view (Z * Z)
| LeSetTransmitPowerReportingEnableView : view (Z * Z * Z)
| LeSetDefaultSubrateView : view (Z * Z * Z * Z * Z)
| LeSubrateRequestView : view (Z * Z * Z * Z * Z * Z)
| LeCsReadLocalSupportedCapabilitiesView : view ()
| LeCsReadRemoteSupportedCapabilitiesView : view Z
| LeCsWriteCachedRemoteSupportedCapabilitiesView : view (Z * CsLocalSupportedCapabilities)
| LeCsSetDefaultSettingsView : view (Z * Z * Z * Z)
| LeCsReadRemoteFaeTableView : view Z
| LeCsWriteCachedRemoteFaeTableView : view (Z * list Z)
| LeCsCreateConfigView : view (Z * Z * Z * Z * Z * Z * Z * Z * Z * Z * Z * Z * list Z * Z * Z * Z * Z * Z)
| LeCsRemoveConfigView : view (Z * Z)
| LeCsSetChannelClassificationView : view (list Z)
| LeCsSecurityEnableView : view Z
| LeCsSetProcedureParametersView : view (Z * Z * Z * Z * Z * Z * Z * Z * Z * Z * Z * Z * Z * Z)
| LeCsProcedureEnableView : view (Z * Z * bool)
| LeSetAddressResolutionEnableView : view bool
| LeSetResolvablePrivateAddressTimeoutView : view Z
| LeReadLocalSupportedFeaturesPage0View : view ()
| LeSetRandomAddressView : view Address
| LeSetAdvertisingParametersView : view (Z * Z * AdvertisingType.t * OwnAddressType.t * PeerAddressType.t *
    Address * Z * AdvertisingFilterPolicy.t)
| LeReadAdvertisingPhysicalChannelTxPowerView : view ()
| LeSetAdvertisingDataView : view (list Z)
| LeSetScanResponseDataView : view (list Z)
| LeSetAdvertisingEnableView : view bool
| LeSetScanParametersView : view (LeScanType.t * Z * Z * OwnAddressType.t * LeScanningFilterPolicy.t)
| LeSetScanEnableView : view (bool * bool)
| LeCreateConnectionView : view (Z * Z * InitiatorFilterPolicy.t * AddressType.t * Address *
    OwnAddressType.t * Z * Z * Z * Z * Z * Z)
| LeCreateConnectionCancelView : view ()
| LeConnectionUpdateView : view (Z * Z * Z * Z * Z * Z * Z)
| CreateConnectionView : view (Address * Z * PageScanRepetitionMode.t * Z * Z * Z)
| CreateConnectionCancelView : view Address
| DisconnectView : view (Z * ErrorCode.t)
| LeReadFilterAcceptListSizeView : view ()
| LeClearFilterAcceptListView : view ()
| LeAddDeviceToFilterAcceptListView : view (FilterAcceptListAddressType.t * Address)
| LeRemoveDeviceFromFilterAcceptListView : view (FilterAcceptListAddressType.t * Address)
| LeClearResolvingListView : view ()
| LeReadResolvingListSizeView : view ()
| LeReadPeerResolvableAddressView : view (PeerAddressType.t * Address)
| LeReadLocalResolvableAddressView : view (PeerAddressType.t * Address)
| LeReadMaximumDataLengthView : view ()
| LeReadPhyView : view Z
| LeSetDefaultPhyView : view (bool * bool * Z * Z)
| LeSetPhyView : view (Z * bool * bool * Z * Z * Z)
| LeSetDataLengthView : view (Z * Z * Z)
| LeReadSuggestedDefaultDataLengthView : view ()
| LeWriteSuggestedDefaultDataLengthView : view (Z * Z)
| LeReadLocalP256PublicKeyView : view ()
| LeAddDeviceToResolvingListView : view (PeerAddressType.t * Address * list Z * list Z)
| LeRemoveDeviceFromResolvingListView : view (PeerAddressType.t * Address)
| LeSetPeriodicAdvertisingParametersV1View : view (Z * Z * Z * bool)
| LeSetPeriodicAdvertisingDataView : view (Z * Operation.t * list Z)
| LeSetPeriodicAdvertisingEnableView : view (bool * bool * Z)
| LePeriodicAdvertisingCreateSyncView : view (PeriodicAdvertisingOptions * Z * AdvertiserAddressType.t *
    Address * Z * Z * Z)
| LePeriodicAdvertisingCreateSyncCancelView : view ()
| LePeriodicAdvertisingTerminateSyncView : view Z
| LeAddDeviceToPeriodicAdvertiserListView : view (AdvertiserAddressType.t * Address * Z)
| LeRemoveDeviceFromPeriodicAdvertiserListView : view (AdvertiserAddressType.t * Address * Z)
| LeClearPeriodicAdvertiserListView : view ()
| LeReadPeriodicAdvertiserListSizeView : view ()
| LeSetExtendedScanParametersView : view (OwnAddressType.t * LeScanningFilterPolicy.t * Z *
    list ScanningPhyParameters)
| LeSetExtendedScanEnableView : view (bool * FilterDuplicates.t * Z * Z)
| LeExtendedCreateConnectionV1View : view (InitiatorFilterPolicy.t * OwnAddressType.t * PeerAddressType.t *
    Address * Z * list InitiatingPhyParameters)
| LeReadTransmitPowerView : view ()
| LeSetPrivacyModeView : view (PeerAddressType.t * Address * PrivacyMode.t)
| LeReadRemoteFeaturesPage0View : view Z
| LeEncryptView : view (list Z * list Z)
| LeRandView : view ()
| LeReadSupportedStatesView : view ()
| LeRemoteConnectionParameterRequestReplyView : view (Z * Z * Z * Z * Z * Z * Z)
| LeRemoteConnectionParameterRequestNegativeReplyView : view (Z * ErrorCode.t)
| RootcanalCommandView : view Z
| RootcanalSendHciEventView : view (Z * list Z)
| RootcanalSendHciAclDataView : view (Z * Z * Z * list Z)
| LeGetVendorCapabilitiesView : view ()
| LeBatchScanView : view Z
| LeApcfView : view Z
| LeApcfEnableView : view bool
| LeApcfSetFilteringParametersView : view Z
| LeApcfAddFilteringParametersView : view (Z * Z * Z * Z * Z * Z * Z * Z * Z * Z * Z)
| LeApcfDeleteFilteringParametersView : view Z
| LeApcfClearFilteringParametersView : view ()
| LeApcfBroadcasterAddressView : view Z
| LeApcfAddBroadcasterAddressView : view (Z * Address * Z)
| LeApcfDeleteBroadcasterAddressView : view (Z * Address * Z)
| LeApcfClearBroadcasterAddressView : view Z
| LeApcfServiceUuidView : view (Z * Z * list Z)
| LeApcfServiceSolicitationUuidView : view (Z * Z * list Z)
| LeApcfLocalNameView : view (Z * Z * list Z)
| LeApcfManufacturerDataView : view (Z * Z * list Z)
| LeApcfServiceDataView : view (Z * Z * list Z)
| LeApcfTransportDiscoveryServiceView : view (Z * Z * list Z)
| LeApcfAdTypeFilterView : view (Z * Z * Z * list Z * list Z)
| LeApcfReadExtendedFeaturesView : view ()
| LeGetControllerActivityEnergyInfoView : view ()
| LeExSetScanParametersView : view (Z * Z * Z * OwnAddressType.t * Z)
| GetControllerDebugInfoView : view ()
| LeSetAdvertisingSetRandomAddressView : view (Z * Address)
| LeSetExtendedAdvertisingParametersV1View : view (Z * AdvertisingEventProperties * Z * Z * Z *
    OwnAddressType.t * PeerAddressType.t * Address * AdvertisingFilterPolicy.t * Z * PrimaryPhyType.t * Z * SecondaryPhyType.t * Z * bool)
| LeSetExtendedAdvertisingDataView : view (Z * Operation.t * FragmentPreference.t * list Z)
| LeSetExtendedScanResponseDataView : view (Z * Operation.t * FragmentPreference.t * list Z)
| LeSetExtendedAdvertisingEnableView : view (bool * list EnabledSet)
| LeReadMaximumAdvertisingDataLengthView : view ()
| LeReadNumberOfSupportedAdvertisingSetsView : view ()
| LeRemoveAdvertisingSetView : view Z
| LeClearAdvertisingSetsView : view ()
| LeStartEncryptionView : view (Z * list Z * Z * list Z)
| LeLongTermKeyRequestReplyView : view (Z * list Z)
| LeLongTermKeyRequestNegativeReplyView : view Z
| ReadConnectionAcceptTimeoutView : view ()
| WriteConnectionAcceptTimeoutView : view Z
| ReadLoopbackModeView : view ()
| WriteLoopbackModeView : view LoopbackMode.t.

(** The bytes of a packet the host sends. *)
Class Views := { Create : ∀ {A : Type}, view A → list Z → option A }.

(** What the format of hci_packets.pdl makes sure of: at most 31 bytes of legacy
    advertising data, and numbers of events that are bytes. *)
Class ViewLaws {views : Views} : Prop := {
  advertising_data_view : ∀ bytes data,
    Create LeSetAdvertisingDataView bytes = Some data → zlength data ≤ 31;
  scan_response_data_view : ∀ bytes data,
    Create LeSetScanResponseDataView bytes = Some data → zlength data ≤ 31;
  advertising_enable_view : ∀ bytes enable sets,
    Create LeSetExtendedAdvertisingEnableView bytes = Some (enable, sets) →
    Forall (λ set, fits 8 (max_extended_advertising_events_ set)) sets;
}.

(** ** Views for examples: some of the packets *)

(** The parameters of a command of the given operation code. *)
Definition parameters_of (op_code : Z) (bytes : list Z) : option (list Z) :=
  match bytes with
  | lo :: hi :: len :: payload =>
      if (lo + 256 * hi =? op_code) && (zlength payload =? len) then Some payload else None
  | _ => None
  end.
Definition no_parameters (op_code : Z) (bytes : list Z) : option () :=
  match parameters_of op_code bytes with Some [] => Some () | _ => None end.
Definition example_create {A} (v : view A) (bytes : list Z) : option A :=
  match v in view A return option A with
  | CommandView =>
      match bytes with
      | lo :: hi :: len :: payload =>
          if zlength payload =? len then Some (lo + 256 * hi, payload) else None
      | _ => None
      end
  | AclView =>
      match bytes with
      | lo :: hi :: len_lo :: len_hi :: payload =>
          if zlength payload =? len_lo + 256 * len_hi
          then Some (lo + 256 * (hi mod 16), hi / 16 mod 4, hi / 64, payload) else None
      | _ => None
      end
  | ResetView => no_parameters OpCode.RESET bytes
  | ReadBdAddrView => no_parameters OpCode.READ_BD_ADDR bytes
  | LeRandView => no_parameters OpCode.LE_RAND bytes
  | LeReadFilterAcceptListSizeView => no_parameters OpCode.LE_READ_FILTER_ACCEPT_LIST_SIZE bytes
  | WriteLoopbackModeView =>
      match parameters_of OpCode.WRITE_LOOPBACK_MODE bytes with
      | Some [0] => Some LoopbackMode.NO_LOOPBACK
      | Some [1] => Some LoopbackMode.ENABLE_LOCAL
      | _ => None
      end
  | LeSetAdvertisingDataView =>
      match parameters_of OpCode.LE_SET_ADVERTISING_DATA bytes with
      | Some (len :: data) =>
          if (len <=? 31) && (zlength data =? 31) then Some (take (Z.to_nat len) data) else None
      | _ => None
      end
  | _ => None
  end.
Definition example_views : Views := {| Create := @example_create |}.
Lemma example_view_laws : @ViewLaws example_views.
Proof.
  split; cbn; [|done..]. intros bytes data. destruct (parameters_of _ bytes) as [[|len l]|]; [done| |done].
  destruct (_ && _) eqn:E; [|done]. intros [= <-]. apply andb_prop in E as [E1 E2].
  unfold zlength in *. rewrite length_take. lia.
Qed.
