(* ===== verification/Random.v ===== *)
(** * The random numbers of the dual mode controller

    [random_generator_] is a [std::mt19937_64]: the Mersenne twister on 312 words of
    64 bits, with the constants the C++ standard gives. *)

From S2P Require Import Prelude Properties.

Definition word_count : nat := 312.
Definition u64 : Z → Z := wrap 64.

(** The last 312 words of the sequence, the oldest one first. *)
Definition mt19937_64 : Type := list Z.

Fixpoint seed_words (count : nat) (i x : Z) : list Z :=
  match count with
  | O => []
  | S count => x :: seed_words count (i + 1) (u64 (6364136223846793005 * Z.lxor x (Z.shiftr x 62) + i))
  end.
Definition seeded (seed : Z) : mt19937_64 := seed_words word_count 1 (u64 seed).

Definition tempered (x : Z) : Z :=
  let z := Z.lxor x (Z.land (Z.shiftr x 29) 0x5555555555555555) in
  let z := Z.lxor z (Z.land (Z.shiftl z 17) 0x71d67fffeda60000) in
  let z := Z.lxor z (Z.land (Z.shiftl z 37) 0xfff7eee000000000) in
  Z.lxor z (Z.shiftr z 43).

(** The word that follows [x :: y :: ...], where [z] is 156 words after [x]. *)
Definition next_word (x y z : Z) : Z :=
  let joined := Z.lor (Z.land x 0xffffffff80000000) (Z.land y 0x7fffffff) in
  Z.lxor z (Z.lxor (Z.shiftr joined 1) (if Z.odd joined then 0xb5026f5aa96619e9 else 0)).

(** [random_generator_()]. *)
Definition draw (g : mt19937_64) : Z * mt19937_64 :=
  match g with
  | x :: y :: rest =>
      let next := next_word x y (nth 156 g 0) in
      (tempered next, (y :: rest) ++ [next])
  | _ => (0, g)
  end.
Fixpoint draws (n : nat) (g : mt19937_64) : Z * mt19937_64 :=
  match n with O => draw g | S n => draws n (snd (draw g)) end.

(** The value the standard prescribes for the ten thousandth call of a generator
    that was constructed without a seed, which is seeded with 5489. *)
Example draws_standard : fst (draws 9999 (seeded 5489)) = 9981545732273789042.
Proof. vm_compute. reflexivity. Qed.

(** ** The values fit in 64 bits *)

Ltac fits64 :=
  repeat first
    [ assumption
    | apply fits_lxor; [done| |] | apply fits_land_mask; [done|] | apply fits_shiftr; [done|]
    | lazymatch goal with |- fits _ (if ?b then _ else _) => destruct b end
    | by vm_compute ].
Lemma tempered_fits x : fits 64 x → fits 64 (tempered x).
Proof. intros Hx. unfold tempered. cbv zeta. fits64. Qed.

Record generator_wf (g : mt19937_64) : Prop := {
  generator_length : length g = word_count;
  generator_words : Forall (fits 64) g;
}.
Lemma seed_words_length count i x : length (seed_words count i x) = count.
Proof. revert i x. induction count as [|count IH]; intros i x; [done|]. cbn [seed_words length]. by rewrite IH. Qed.
Lemma seed_words_fits count i x : fits 64 x → Forall (fits 64) (seed_words count i x).
Proof.
  revert i x. induction count as [|count IH]; intros i x Hx; [constructor|]. cbn [seed_words].
  constructor; [done|]. apply IH. by apply wrap_fits.
Qed.
Lemma seeded_wf seed : generator_wf (seeded seed).
Proof. split; [apply seed_words_length|]. by apply seed_words_fits, wrap_fits. Qed.

Lemma draw_wf g : generator_wf g → fits 64 (fst (draw g)) ∧ generator_wf (snd (draw g)).
Proof.
  intros [Hl Hw]. destruct g as [|x [|y rest]]; [done..|].
  assert (Hz : fits 64 (nth 156 (x :: y :: rest) 0)).
  { apply Forall_nth; [done|]. rewrite Hl. unfold word_count. lia. }
  assert (Hn : fits 64 (next_word x y (nth 156 (x :: y :: rest) 0))).
  { revert Hz. generalize (nth 156 (x :: y :: rest) 0). intros z Hz. unfold next_word. cbv zeta.
    apply fits_lxor; [done..|]. apply fits_lxor; [done| |by destruct (Z.odd _)].
    apply fits_shiftr; [done|]. apply fits_lor; [done|by apply fits_land_mask|].
    by apply fits_land_mask. }
  cbn [draw fst snd]. split; [by apply tempered_fits|].
  split; [rewrite length_app; cbn in *; lia|].
  inversion Hw as [|? ? _ Hrest]. apply Forall_app. by split; [|apply Forall_singleton].
Qed.
