(* ===== verification/DualState.v ===== *)
(** * The state of the dual mode controller (dual_mode_controller.h)

    The controller the host talks to: it holds the BR/EDR controller of BrState and
    the LE controller of Machine, reads the packets of the host, and sends what all
    three of them have to say, in order. *)

From S2P Require Import Prelude HciTypes OpCodes Properties Address CsTypes Sco Connections LeState Tasks.
From S2P Require Import Controller Machine BrState BrCommands HciViews Random.

(** ** What leaves the controller *)

(** A parameter of an event. *)
Inductive field :=
| FStatus (status : ErrorCode.t)
| FInt (n : Z)
| FBool (b : bool)
| FAddress (address : Address)
| FList (l : list Z).

(** The events: of the two controllers, and the dual mode controller's own. *)
Inductive HciEvent :=
| FromBr (event : BrState.HciEvent)
| FromLe (event : LeState.HciEvent)
| CommandComplete (num_hci_command_packets op_code : Z) (return_parameters : list field)
| CommandStatus (status : ErrorCode.t) (num_hci_command_packets op_code : Z)
| HardwareError (hardware_code : Z)
| LoopbackCommand (bytes : list Z)
| NumberOfCompletedPackets (connection_handle host_num_of_completed_packets : Z)
| ConnectionComplete (status : ErrorCode.t) (connection_handle : Z) (bd_addr : Address)
    (link_type : LinkType.t) (encryption_enabled : bool)
| EnhancedFlushComplete (connection_handle : Z)
| EncryptionKeyRefreshComplete (status : ErrorCode.t) (connection_handle : Z)
| LeRequestPeerScaComplete (status : ErrorCode.t) (connection_handle : Z) (accuracy : ClockAccuracy.t)
| LeReadLocalP256PublicKeyComplete (status : ErrorCode.t) (key_x_coordinate key_y_coordinate : list Z)
| VendorSpecific (payload : list Z).

(** The arguments of [invalid_packet_handler_] apart from the message. *)
Inductive InvalidPacketReason := kUnknown | kParseError | kUnsupported.

Inductive Emission :=
| EmitEvent (event : HciEvent)
| EmitAcl (handle packet_boundary_flag broadcast_flag : Z) (data : list Z)
| EmitSco (handle packet_status_flag : Z) (data : list Z)
| EmitIso (handle packet_boundary_flag sequence_number length : Z) (data : list Z)
| EmitBrPacket (packet : BrState.LinkLayerPacket) (tx_power : Z)
| EmitLePacket (packet : LeState.LinkLayerPacket) (tx_power : Z)
| InvalidPacket (reason : InvalidPacketReason) (bytes : list Z)
| Closed.

(** [PacketStatusFlag::CORRECTLY_RECEIVED], in every packet of the BR/EDR controller. *)
Definition CORRECTLY_RECEIVED : Z := 0.

(** [RegisterRemoteChannel], [RegisterEventChannel], [RegisterAclChannel],
    [RegisterScoChannel] and [RegisterIsoChannel]: the channels of the two
    controllers are the ones of the dual mode controller. *)
Definition from_br (e : BrState.Emission) : Emission :=
  match e with
  | BrState.EmitEvent event => EmitEvent (FromBr event)
  | BrState.EmitAcl handle pb bc data => EmitAcl handle pb bc data
  | BrState.EmitSco handle data => EmitSco handle CORRECTLY_RECEIVED data
  | BrState.EmitPacket packet tx_power => EmitBrPacket packet tx_power
  end.
Definition from_le (e : Machine.Emission) : Emission :=
  match e with
  | Machine.EmitEvent event => EmitEvent (FromLe event)
  | Machine.EmitAcl handle pb bc data => EmitAcl handle pb bc data
  | Machine.EmitIso handle pb sequence_number length data =>
      EmitIso handle pb sequence_number length data
  | Machine.EmitPacket packet tx_power => EmitLePacket packet tx_power
  end.

(** ** What the controller runs in *)

(** The functions of OpenSSL called by [generateP256Key], in the call of the given
    number: a key object, a key pair, its public point and group, two big numbers,
    the coordinates of the point; and [BN_bn2binpad]. *)
Class OpenSsl := {
  EC_KEY_new_by_curve_name : nat → bool;
  EC_KEY_generate_key : nat → bool;
  EC_KEY_get0_public_key : nat → bool;
  BN_new : nat → bool;
  EC_POINT_get_affine_coordinates : nat → option (Z * Z);
  BN_bn2binpad : Z → nat → option (list Z);
}.

Class DualEnvironment := {
  dual_br :: BrState.Environment;
  dual_le :: LeState.Environment;
  dual_views :: Views;
  dual_openssl :: OpenSsl;
}.

Section Dual.
Context {env : DualEnvironment}.

Record DualModeController := MkDualModeController {
  address_ : Address;
  properties_ : ControllerProperties;
  bredr_controller_ : BrEdrController;
  le_controller_ : Machine;
  loopback_mode_ : LoopbackMode.t;
  random_generator_ : mt19937_64;
  controller_reset_ : bool;
  (** [RegisterInvalidPacketHandler] was called. *)
  invalid_packet_handler_ : bool;
  (** [RegisterCloseCallback] was called. *)
  close_callback_ : bool;
  (** How often the clock was read, and a key generated. *)
  readings : nat;
  keys : nat;
  emitted : list Emission;
}.
#[global] Instance DualModeController_rebuild : Rebuild DualModeController := λ d,
  MkDualModeController (address_ d) (properties_ d) (bredr_controller_ d) (le_controller_ d)
    (loopback_mode_ d) (random_generator_ d) (controller_reset_ d) (invalid_packet_handler_ d)
    (close_callback_ d) (readings d) (keys d) (emitted d).

(** "3C:5A:B4:04:05:06" *)
Definition public_address : Address := MkAddress 0x06 0x05 0x04 0xB4 0x5A 0x3C.

(** The constructor; [id] is the number of the device. *)
Definition new_dual (id : Z) (properties : ControllerProperties) : DualModeController :=
  MkDualModeController public_address properties (BrState.new_controller public_address properties)
    (new_machine public_address properties) LoopbackMode.NO_LOOPBACK (seeded id) false false false 0 0 [].

(** ** Handlers *)

Definition D (A : Type) : Type := DualModeController → outcome (A * DualModeController).

#[global] Instance D_ret : MRet D := λ A a d, Ok (a, d).
#[global] Instance D_bind : MBind D := λ A B f m d, '(a, d) ← m d; f a d.

Definition gets {A} (f : DualModeController → A) : D A := λ d, Ok (f d, d).
Definition modify (f : DualModeController → DualModeController) : D () := λ d, Ok ((), f d).
Definition lift {A} (m : outcome A) : D A := λ d, a ← m; Ok (a, d).
Definition emit (e : Emission) : D () := modify (λ d, d <| emitted ::= λ l, l ++ [e] |>).
Definition send_event_ (event : HciEvent) : D () := emit (EmitEvent event).
Definition when (b : bool) (m : D ()) : D () := if b then m else mret ().

(** A call of the BR/EDR controller. *)
Definition on_bredr {A} (m : BrState.M A) : D A := λ d,
  '(a, c) ← m ((bredr_controller_ d) <| BrState.readings := readings d |> <| BrState.emitted := [] |>);
  Ok (a, d <| bredr_controller_ := c <| BrState.readings := 0%nat |> <| BrState.emitted := [] |> |>
           <| readings := BrState.readings c |>
           <| emitted ::= λ l, l ++ (from_br <$> BrState.emitted c) |>).

(** A call of the LE controller, at work with its task queue. *)
Definition on_le_machine {A} (f : Machine → outcome (A * Machine)) : D A := λ d,
  let '(w, q) := le_controller_ d in
  '(a, (w, q)) ← f (MkWorld (controller w) (readings d) [], q);
  Ok (a, d <| le_controller_ := (MkWorld (controller w) 0 [], q) |>
           <| readings := Machine.readings w |>
           <| emitted ::= λ l, l ++ (from_le <$> Machine.emitted w) |>).
Definition on_le {A} (m : LeState.M A) : D A := on_le_machine (run clock m).
Definition le_command (command : Command) : D ErrorCode.t := on_le (execute command).

(** A question to a controller. *)
Definition bredr_gets {A} (f : BrEdrController → A) : D A := gets (λ d, f (bredr_controller_ d)).
Definition le_gets {A} (f : LeController → A) : D A := gets (λ d, f (controller (fst (le_controller_ d)))).
Definition property (f : ControllerProperties → Z) : D Z := gets (λ d, f (properties_ d)).

(** *** Answers to commands *)

Definition kNumCommandPackets : Z := 0x01.
Definition complete (op_code : Z) (return_parameters : list field) : D () :=
  send_event_ (CommandComplete kNumCommandPackets op_code return_parameters).
Definition status (op_code : Z) (s : ErrorCode.t) : D () :=
  send_event_ (CommandStatus s kNumCommandPackets op_code).
Definition SendCommandCompleteUnknownOpCodeEvent (op_code : Z) : D () :=
  complete op_code [FInt (ErrorCode.to_Z ErrorCode.UNKNOWN_HCI_COMMAND)].

(** *** Packets of the host *)

(** The handler given to [RegisterInvalidPacketHandler]; the one of the constructor
    aborts. *)
Definition report_invalid_packet (reason : InvalidPacketReason) (bytes : list Z) : D () :=
  registered ← gets invalid_packet_handler_;
  if registered : bool then emit (InvalidPacket reason bytes) else lift Fatal.

(** [view = View::Create(packet); CHECK_PACKET_VIEW(view); k]. *)
Definition with_view {A} (v : view A) (packet : list Z) (k : A → D ()) : D () :=
  match Create v packet with
  | Some fields => k fields
  | None =>
      send_event_ (HardwareError 0x43);;
      report_invalid_packet kParseError packet
  end.
(** A view whose fields are read and that was not checked: the getters of a view that
    is not valid have no meaning. *)
Definition unchecked_view {A} (v : view A) (packet : list Z) : D A := lift (unchecked (Create v packet)).

(** A command: its bytes, and the fields of [CommandView]. *)
Record command := MkCommand {
  bytes : list Z;
  op_code : Z;
  payload : list Z;
}.

(** ** Configuration *)

(** The two controllers refer to the same properties: every record holds a copy. *)
Definition update_properties (f : ControllerProperties → ControllerProperties)
    (d : DualModeController) : DualModeController :=
  let '(w, q) := le_controller_ d in
  d <| properties_ ::= f |>
    <| bredr_controller_ ::= λ c, c <| BrState.properties_ ::= f |> |>
    <| le_controller_ := (MkWorld ((controller w) <| LeState.properties_ ::= f |>)
                            (Machine.readings w) (Machine.emitted w), q) |>.
Definition SetProperties (properties : ControllerProperties) : D () :=
  modify (update_properties (λ _, properties)).

(** [RegisterInvalidPacketHandler] and [RegisterCloseCallback]. *)
Definition RegisterInvalidPacketHandler : D () := modify (λ d, d <| invalid_packet_handler_ := true |>).
Definition RegisterCloseCallback : D () := modify (λ d, d <| close_callback_ := true |>).

(** [Device::SetAddress], through the references of the two controllers. *)
Definition SetAddress (address : Address) : D () := modify (λ d,
  let '(w, q) := le_controller_ d in
  d <| address_ := address |>
    <| bredr_controller_ ::= λ c, c <| BrState.address_ := address |> |>
    <| le_controller_ := (MkWorld ((controller w) <| LeState.address_ := address |>)
                            (Machine.readings w) (Machine.emitted w), q) |>).

(** ** Running a handler step by step *)

Implicit Types (d : DualModeController).

Lemma dual_exec_ret {A B} (a : A) (k : A → D B) d : (mret a ≫= k) d = k a d.
Proof. done. Qed.
Lemma dual_exec_gets {A B} (f : DualModeController → A) (k : A → D B) d : (gets f ≫= k) d = k (f d) d.
Proof. done. Qed.
Lemma dual_exec_modify {B} f (k : () → D B) d : (modify f ≫= k) d = k () (f d).
Proof. done. Qed.
Lemma dual_exec_send_event {B} event (k : () → D B) d :
  (send_event_ event ≫= k) d = k () (d <| emitted ::= λ l, l ++ [EmitEvent event] |>).
Proof. done. Qed.
Lemma D_bind_Ok {A B} (m : D A) (k : A → D B) d b d' :
  (m ≫= k) d = Ok (b, d') ↔ ∃ a d1, m d = Ok (a, d1) ∧ k a d1 = Ok (b, d').
Proof.
  unfold mbind at 1, D_bind. rewrite bind_Ok. split.
  - intros ([a d1] & E & K). eauto.
  - intros (a & d1 & E & K). by exists (a, d1).
Qed.
End Dual.

Example public_address_text : FromString "3C:5A:B4:04:05:06" = Some public_address.
Proof. reflexivity. Qed.

(** ** An environment for examples *)

Definition example_openssl : OpenSsl := {|
  EC_KEY_new_by_curve_name _ := true;
  EC_KEY_generate_key _ := true;
  EC_KEY_get0_public_key _ := true;
  BN_new _ := true;
  EC_POINT_get_affine_coordinates call := Some (Z.of_nat call, 1);
  BN_bn2binpad n size := Some (replicate (size - 1) 0 ++ [n]);
|}.
Definition example_dual_environment : DualEnvironment := {|
  dual_br := BrState.example_environment;
  dual_le := LeState.example_environment;
  dual_views := example_views;
  dual_openssl := example_openssl;
|}.
