(* ===== verification/DualBr.v ===== *)
(** * The commands of BR/EDR and of both transports (dual_mode_controller.cc)

    One definition per handler: the view of the command, the calls of the controllers,
    the answer.  A handler whose fields have no use in the code reads them all the
    same, because the view may be invalid. *)

From S2P Require Import Prelude HciTypes OpCodes Properties Address CsTypes Sco Connections LeState LeLists.
From S2P Require Import LeIso LeLink Controller Machine BrState BrCommands BrLink HciViews Random DualState.

Section DualBr.
Context {env : DualEnvironment}.

Notation SUCCESS := ErrorCode.SUCCESS.
Notation UNKNOWN_CONNECTION := ErrorCode.UNKNOWN_CONNECTION.

(** A command completed with a status only, and a successful one. *)
Definition answer (op_code : Z) (st : ErrorCode.t) : D () := complete op_code [FStatus st].
Definition succeed (op_code : Z) : D () := answer op_code SUCCESS.

(** The status of a command on a handle of the given range. *)
Definition known_acl (connection_handle : Z) : D ErrorCode.t :=
  known ← bredr_gets (HasAclConnection connection_handle);
  mret (if known : bool then SUCCESS else UNKNOWN_CONNECTION).

(** ** Link control *)

Definition Inquiry (c : command) : D () :=
  with_view InquiryView (bytes c) (λ '(lap, inquiry_length, num_responses),
    st ← on_bredr (BrCommands.Inquiry lap inquiry_length num_responses);
    status OpCode.INQUIRY st).
Definition InquiryCancel (c : command) : D () :=
  with_view InquiryCancelView (bytes c) (λ _,
    st ← on_bredr BrCommands.InquiryCancel;
    answer OpCode.INQUIRY_CANCEL st).
Definition CreateConnection (c : command) : D () :=
  with_view CreateConnectionView (bytes c)
    (λ '(bd_addr, _, _, _, _, allow_role_switch),
    st ← on_bredr (BrCommands.CreateConnection bd_addr allow_role_switch);
    status OpCode.CREATE_CONNECTION st).
Definition CreateConnectionCancel (c : command) : D () :=
  with_view CreateConnectionCancelView (bytes c) (λ address,
    st ← on_bredr (BrCommands.CreateConnectionCancel address);
    complete OpCode.CREATE_CONNECTION_CANCEL [FStatus st; FAddress address]).

(** [Disconnect(handle, reason)] of the two controllers: the default reason for the peer. *)
Definition controller_reason : ErrorCode.t := ErrorCode.CONNECTION_TERMINATED_BY_LOCAL_HOST.

(** [ForwardToLm], [ForwardToLl]. *)
Definition ForwardToLm (c : command) : D () := on_bredr (BrCommands.ForwardToLm (bytes c)).
Definition ForwardToLl (c : command) : D () := on_le (LeIso.ForwardToLl (bytes c)).

Definition Disconnect (c : command) : D () :=
  with_view DisconnectView (bytes c) (λ '(connection_handle, reason),
    if IsCisConnectionHandle connection_handle then ForwardToLl c else
    st ← (if IsAclConnectionHandle connection_handle || IsScoConnectionHandle connection_handle
          then on_bredr (BrCommands.Disconnect connection_handle reason controller_reason)
          else if IsLeAclConnectionHandle connection_handle
          then le_command (CmdDisconnect connection_handle reason controller_reason)
          else mret UNKNOWN_CONNECTION);
    status OpCode.DISCONNECT st).
(** [AcceptConnectionRequestRole::BECOME_CENTRAL] *)
Definition BECOME_CENTRAL : Z := 0x00.
Definition AcceptConnectionRequest (c : command) : D () :=
  with_view AcceptConnectionRequestView (bytes c) (λ '(bd_addr, role),
    st ← on_bredr (BrCommands.AcceptConnectionRequest bd_addr (role =? BECOME_CENTRAL));
    status OpCode.ACCEPT_CONNECTION_REQUEST st).
Definition RejectConnectionRequest (c : command) : D () :=
  with_view RejectConnectionRequestView (bytes c) (λ '(bd_addr, reason),
    st ← on_bredr (BrCommands.RejectConnectionRequest bd_addr reason);
    status OpCode.REJECT_CONNECTION_REQUEST st).
Definition ChangeConnectionPacketType (c : command) : D () :=
  with_view ChangeConnectionPacketTypeView (bytes c) (λ '(handle, packet_type),
    st ← on_bredr (BrCommands.ChangeConnectionPacketType handle packet_type);
    status OpCode.CHANGE_CONNECTION_PACKET_TYPE st).
Definition ChangeConnectionLinkKey (c : command) : D () :=
  with_view ChangeConnectionLinkKeyView (bytes c) (λ handle,
    st ← on_bredr (BrCommands.ChangeConnectionLinkKey handle);
    status OpCode.CHANGE_CONNECTION_LINK_KEY st).
Definition CentralLinkKey (c : command) : D () :=
  with_view CentralLinkKeyView (bytes c) (λ _,
    st ← on_bredr BrCommands.CentralLinkKey;
    status OpCode.CENTRAL_LINK_KEY st).
Definition RemoteNameRequest (c : command) : D () :=
  with_view RemoteNameRequestView (bytes c) (λ '(bd_addr, _, _, _),
    st ← on_bredr (BrCommands.RemoteNameRequest bd_addr);
    status OpCode.REMOTE_NAME_REQUEST st).
Definition ReadRemoteSupportedFeatures (c : command) : D () :=
  with_view ReadRemoteSupportedFeaturesView (bytes c) (λ connection_handle,
    st ← on_bredr (BrCommands.ReadRemoteSupportedFeatures connection_handle);
    status OpCode.READ_REMOTE_SUPPORTED_FEATURES st).
Definition ReadRemoteExtendedFeatures (c : command) : D () :=
  with_view ReadRemoteExtendedFeaturesView (bytes c) (λ '(connection_handle, page_number),
    st ← on_bredr (BrCommands.ReadRemoteExtendedFeatures connection_handle page_number);
    status OpCode.READ_REMOTE_EXTENDED_FEATURES st).
Definition ReadRemoteVersionInformation (c : command) : D () :=
  with_view ReadRemoteVersionInformationView (bytes c) (λ connection_handle,
    st ← (if IsAclConnectionHandle connection_handle
          then on_bredr (BrCommands.ReadRemoteVersionInformation connection_handle)
          else if IsLeAclConnectionHandle connection_handle
          then le_command (CmdReadRemoteVersionInformation connection_handle)
          else mret UNKNOWN_CONNECTION);
    status OpCode.READ_REMOTE_VERSION_INFORMATION st).
Definition ReadClockOffset (c : command) : D () :=
  with_view ReadClockOffsetView (bytes c) (λ connection_handle,
    st ← on_bredr (BrCommands.ReadClockOffset connection_handle);
    status OpCode.READ_CLOCK_OFFSET st).

(** *** Synchronous connections *)

Definition AddScoConnection (c : command) : D () :=
  with_view AddScoConnectionView (bytes c) (λ '(connection_handle, packet_type),
    st ← on_bredr (BrCommands.AddScoConnection connection_handle packet_type);
    status OpCode.ADD_SCO_CONNECTION st).
Definition SetupSynchronousConnection (c : command) : D () :=
  with_view SetupSynchronousConnectionView (bytes c)
    (λ '(connection_handle, transmit_bandwidth, receive_bandwidth, max_latency, voice_setting,
         retransmission_effort, packet_type),
    st ← on_bredr (BrCommands.SetupSynchronousConnection connection_handle
                     (MkScoConnectionParameters transmit_bandwidth receive_bandwidth max_latency
                        voice_setting retransmission_effort packet_type) NORMAL);
    status OpCode.SETUP_SYNCHRONOUS_CONNECTION st).
Definition AcceptSynchronousConnection (c : command) : D () :=
  with_view AcceptSynchronousConnectionView (bytes c)
    (λ '(bd_addr, transmit_bandwidth, receive_bandwidth, max_latency, voice_setting,
         retransmission_effort, packet_type),
    st ← on_bredr (BrCommands.AcceptSynchronousConnection bd_addr
                     (MkScoConnectionParameters transmit_bandwidth receive_bandwidth max_latency
                        voice_setting retransmission_effort packet_type));
    status OpCode.ACCEPT_SYNCHRONOUS_CONNECTION st).
Definition EnhancedSetupSynchronousConnection (c : command) : D () :=
  with_view EnhancedSetupSynchronousConnectionView (bytes c) (λ '(connection_handle, p),
    st ← on_bredr (BrCommands.EnhancedSetupSynchronousConnection connection_handle p);
    status OpCode.ENHANCED_SETUP_SYNCHRONOUS_CONNECTION st).
Definition EnhancedAcceptSynchronousConnection (c : command) : D () :=
  with_view EnhancedAcceptSynchronousConnectionView (bytes c) (λ '(bd_addr, p),
    st ← on_bredr (BrCommands.EnhancedAcceptSynchronousConnection bd_addr p);
    status OpCode.ENHANCED_ACCEPT_SYNCHRONOUS_CONNECTION st).
Definition RejectSynchronousConnection (c : command) : D () :=
  with_view RejectSynchronousConnectionView (bytes c) (λ '(bd_addr, reason),
    st ← on_bredr (BrCommands.RejectSynchronousConnection bd_addr reason);
    status OpCode.REJECT_SYNCHRONOUS_CONNECTION st).

(** ** Link policy *)

Definition HoldMode (c : command) : D () :=
  with_view HoldModeView (bytes c) (λ '(handle, hold_mode_max_interval, hold_mode_min_interval),
    st ← on_bredr (BrCommands.HoldMode handle hold_mode_max_interval hold_mode_min_interval);
    status OpCode.HOLD_MODE st).
Definition SniffMode (c : command) : D () :=
  with_view SniffModeView (bytes c)
    (λ '(handle, sniff_max_interval, sniff_min_interval, sniff_attempt, sniff_timeout),
    st ← on_bredr (BrCommands.SniffMode handle sniff_max_interval sniff_min_interval sniff_attempt
                     sniff_timeout);
    status OpCode.SNIFF_MODE st).
Definition ExitSniffMode (c : command) : D () :=
  with_view ExitSniffModeView (bytes c) (λ handle,
    st ← on_bredr (BrCommands.ExitSniffMode handle);
    status OpCode.EXIT_SNIFF_MODE st).
Definition QosSetup (c : command) : D () :=
  with_view QosSetupView (bytes c)
    (λ '(handle, service_type, token_rate, peak_bandwidth, latency, delay_variation),
    st ← on_bredr (BrCommands.QosSetup handle service_type token_rate peak_bandwidth latency
                     delay_variation);
    status OpCode.QOS_SETUP st).
Definition RoleDiscovery (c : command) : D () :=
  with_view RoleDiscoveryView (bytes c) (λ handle,
    '(st, role) ← on_bredr (BrCommands.RoleDiscovery handle);
    complete OpCode.ROLE_DISCOVERY
      [FStatus st; FInt handle; FInt (Role.to_Z (default Role.CENTRAL role))]).
Definition SwitchRole (c : command) : D () :=
  with_view SwitchRoleView (bytes c) (λ '(bd_addr, role),
    st ← on_bredr (BrCommands.SwitchRole bd_addr role);
    status OpCode.SWITCH_ROLE st).
Definition ReadLinkPolicySettings (c : command) : D () :=
  with_view ReadLinkPolicySettingsView (bytes c) (λ handle,
    '(st, settings) ← on_bredr (BrCommands.ReadLinkPolicySettings handle);
    complete OpCode.READ_LINK_POLICY_SETTINGS [FStatus st; FInt handle; FInt (default 0 settings)]).
Definition WriteLinkPolicySettings (c : command) : D () :=
  with_view WriteLinkPolicySettingsView (bytes c) (λ '(handle, settings),
    st ← on_bredr (BrCommands.WriteLinkPolicySettings handle settings);
    complete OpCode.WRITE_LINK_POLICY_SETTINGS [FStatus st; FInt handle]).
Definition ReadDefaultLinkPolicySettings (c : command) : D () :=
  with_view ReadDefaultLinkPolicySettingsView (bytes c) (λ _,
    '(st, settings) ← on_bredr BrCommands.ReadDefaultLinkPolicySettings;
    complete OpCode.READ_DEFAULT_LINK_POLICY_SETTINGS [FStatus st; FInt settings]).
Definition WriteDefaultLinkPolicySettings (c : command) : D () :=
  with_view WriteDefaultLinkPolicySettingsView (bytes c) (λ settings,
    st ← on_bredr (BrCommands.WriteDefaultLinkPolicySettings settings);
    answer OpCode.WRITE_DEFAULT_LINK_POLICY_SETTINGS st).
Definition FlowSpecification (c : command) : D () :=
  with_view FlowSpecificationView (bytes c) (λ '(handle, flow_direction, service_type, _, _, _, _),
    st ← on_bredr (BrCommands.FlowSpecification handle flow_direction service_type);
    status OpCode.FLOW_SPECIFICATION st).
Definition SniffSubrating (c : command) : D () :=
  with_view SniffSubratingView (bytes c)
    (λ '(connection_handle, max_latency, min_remote_timeout, min_local_timeout),
    st ← on_bredr (BrCommands.SniffSubrating connection_handle max_latency min_remote_timeout
                     min_local_timeout);
    complete OpCode.SNIFF_SUBRATING [FStatus st; FInt connection_handle]).

(** ** Controller and baseband *)

Definition SetEventMask (c : command) : D () :=
  with_view SetEventMaskView (bytes c) (λ mask,
    on_bredr (BrCommands.SetEventMask mask);;
    le_command (CmdSetEventMask mask);;
    succeed OpCode.SET_EVENT_MASK).
Definition SetEventMaskPage2 (c : command) : D () :=
  with_view SetEventMaskPage2View (bytes c) (λ mask,
    on_bredr (BrCommands.SetEventMaskPage2 mask);;
    le_command (CmdSetEventMaskPage2 mask);;
    succeed OpCode.SET_EVENT_MASK_PAGE_2).
Definition Reset (c : command) : D () :=
  with_view ResetView (bytes c) (λ _,
    on_bredr BrCommands.Reset;;
    le_command CmdReset;;
    modify (λ d, d <| loopback_mode_ := LoopbackMode.NO_LOOPBACK |> <| controller_reset_ := true |>);;
    succeed OpCode.RESET).
(** [FilterType::CLEAR_ALL_FILTERS] *)
Definition CLEAR_ALL_FILTERS : Z := 0x00.
Definition SetEventFilter (c : command) : D () :=
  with_view SetEventFilterView (bytes c) (λ filter_type,
    (if negb (filter_type =? CLEAR_ALL_FILTERS) then lift Fatal else mret ());;
    succeed OpCode.SET_EVENT_FILTER).
Definition EnhancedFlush (c : command) : D () :=
  with_view EnhancedFlushView (bytes c) (λ '(handle, _),
    status OpCode.ENHANCED_FLUSH SUCCESS;;
    unmasked ← on_bredr (IsEventUnmasked EventCode.ENHANCED_FLUSH_COMPLETE);
    when unmasked (send_event_ (EnhancedFlushComplete handle))).
Definition DeleteStoredLinkKey (c : command) : D () :=
  with_view DeleteStoredLinkKeyView (bytes c) (λ _,
    complete OpCode.DELETE_STORED_LINK_KEY [FStatus SUCCESS; FInt 0]).
Definition ReadLocalName (c : command) : D () :=
  with_view ReadLocalNameView (bytes c) (λ _,
    local_name ← bredr_gets local_name_;
    complete OpCode.READ_LOCAL_NAME [FStatus SUCCESS; FList local_name]).
Definition WriteLocalName (c : command) : D () :=
  with_view WriteLocalNameView (bytes c) (λ local_name,
    on_bredr (BrCommands.WriteLocalName local_name);;
    succeed OpCode.WRITE_LOCAL_NAME).
Definition ReadConnectionAcceptTimeout (c : command) : D () :=
  with_view ReadConnectionAcceptTimeoutView (bytes c) (λ _,
    timeout ← bredr_gets connection_accept_timeout_;
    complete OpCode.READ_CONNECTION_ACCEPT_TIMEOUT [FStatus SUCCESS; FInt timeout]).
Definition WriteConnectionAcceptTimeout (c : command) : D () :=
  with_view WriteConnectionAcceptTimeoutView (bytes c) (λ timeout,
    on_bredr (SetConnectionAcceptTimeout timeout);;
    succeed OpCode.WRITE_CONNECTION_ACCEPT_TIMEOUT).
Definition ReadPageTimeout (c : command) : D () :=
  with_view ReadPageTimeoutView (bytes c) (λ _,
    timeout ← bredr_gets page_timeout_;
    complete OpCode.READ_PAGE_TIMEOUT [FStatus SUCCESS; FInt timeout]).
Definition WritePageTimeout (c : command) : D () :=
  with_view WritePageTimeoutView (bytes c) (λ timeout,
    on_bredr (SetPageTimeout timeout);;
    succeed OpCode.WRITE_PAGE_TIMEOUT).
Definition ReadScanEnable (c : command) : D () :=
  with_view ReadScanEnableView (bytes c) (λ _,
    scan_enable ← bredr_gets BrCommands.ReadScanEnable;
    complete OpCode.READ_SCAN_ENABLE [FStatus SUCCESS; FInt (ScanEnable.to_Z scan_enable)]).
Definition WriteScanEnable (c : command) : D () :=
  with_view WriteScanEnableView (bytes c) (λ scan_enable,
    on_bredr (BrCommands.WriteScanEnable scan_enable);;
    succeed OpCode.WRITE_SCAN_ENABLE).
Definition ReadPageScanActivity (c : command) : D () :=
  with_view ReadPageScanActivityView (bytes c) (λ _,
    complete OpCode.READ_PAGE_SCAN_ACTIVITY [FStatus SUCCESS; FInt 0x1000; FInt 0x0012]).
Definition WritePageScanActivity (c : command) : D () :=
  with_view WritePageScanActivityView (bytes c) (λ _, succeed OpCode.WRITE_PAGE_SCAN_ACTIVITY).
Definition ReadInquiryScanActivity (c : command) : D () :=
  with_view ReadInquiryScanActivityView (bytes c) (λ _,
    complete OpCode.READ_INQUIRY_SCAN_ACTIVITY [FStatus SUCCESS; FInt 0x1000; FInt 0x0012]).
Definition WriteInquiryScanActivity (c : command) : D () :=
  with_view WriteInquiryScanActivityView (bytes c) (λ _, succeed OpCode.WRITE_INQUIRY_SCAN_ACTIVITY).
Definition ReadAuthenticationEnable (c : command) : D () :=
  with_view ReadAuthenticationEnableView (bytes c) (λ _,
    enable ← bredr_gets authentication_enable_;
    complete OpCode.READ_AUTHENTICATION_ENABLE
      [FStatus SUCCESS; FInt (AuthenticationEnable.to_Z enable)]).
Definition WriteAuthenticationEnable (c : command) : D () :=
  with_view WriteAuthenticationEnableView (bytes c) (λ enable,
    on_bredr (SetAuthenticationEnable enable);;
    succeed OpCode.WRITE_AUTHENTICATION_ENABLE).
Definition ReadClassOfDevice (c : command) : D () :=
  with_view ReadClassOfDeviceView (bytes c) (λ _,
    class_of_device ← bredr_gets class_of_device_;
    complete OpCode.READ_CLASS_OF_DEVICE [FStatus SUCCESS; FInt class_of_device]).
Definition WriteClassOfDevice (c : command) : D () :=
  with_view WriteClassOfDeviceView (bytes c) (λ class_of_device,
    on_bredr (SetClassOfDevice class_of_device);;
    succeed OpCode.WRITE_CLASS_OF_DEVICE).
Definition ReadVoiceSetting (c : command) : D () :=
  with_view ReadVoiceSettingView (bytes c) (λ _,
    voice_setting ← bredr_gets voice_setting_;
    complete OpCode.READ_VOICE_SETTING [FStatus SUCCESS; FInt voice_setting]).
Definition WriteVoiceSetting (c : command) : D () :=
  with_view WriteVoiceSettingView (bytes c) (λ voice_setting,
    on_bredr (SetVoiceSetting voice_setting);;
    succeed OpCode.WRITE_VOICE_SETTING).

(** [static_cast<uint8_t>(-20)] *)
Definition kTransmitPowerLevel : Z := 236.
Definition ReadTransmitPowerLevel (c : command) : D () :=
  with_view ReadTransmitPowerLevelView (bytes c) (λ '(connection_handle, _),
    st ← known_acl connection_handle;
    complete OpCode.READ_TRANSMIT_POWER_LEVEL
      [FStatus st; FInt connection_handle; FInt kTransmitPowerLevel]).
Definition ReadEnhancedTransmitPowerLevel (c : command) : D () :=
  with_view ReadEnhancedTransmitPowerLevelView (bytes c) (λ '(connection_handle, _),
    st ← known_acl connection_handle;
    complete OpCode.READ_ENHANCED_TRANSMIT_POWER_LEVEL
      [FStatus st; FInt connection_handle; FInt kTransmitPowerLevel; FInt kTransmitPowerLevel;
       FInt kTransmitPowerLevel]).
Definition ReadSynchronousFlowControlEnable (c : command) : D () :=
  with_view ReadSynchronousFlowControlEnableView (bytes c) (λ _,
    enabled ← bredr_gets sco_flow_control_enable_;
    complete OpCode.READ_SYNCHRONOUS_FLOW_CONTROL_ENABLE [FStatus SUCCESS; FBool enabled]).
Definition WriteSynchronousFlowControlEnable (c : command) : D () :=
  with_view WriteSynchronousFlowControlEnableView (bytes c) (λ enabled,
    on_bredr (SetScoFlowControlEnable enabled);;
    succeed OpCode.WRITE_SYNCHRONOUS_FLOW_CONTROL_ENABLE).
Definition HostBufferSize (c : command) : D () :=
  with_view HostBufferSizeView (bytes c) (λ _, succeed OpCode.HOST_BUFFER_SIZE).
Definition WriteLinkSupervisionTimeout (c : command) : D () :=
  with_view WriteLinkSupervisionTimeoutView (bytes c) (λ '(handle, _),
    st ← on_bredr (BrCommands.WriteLinkSupervisionTimeout handle);
    complete OpCode.WRITE_LINK_SUPERVISION_TIMEOUT [FStatus st; FInt handle]).
Definition ReadNumberOfSupportedIac (c : command) : D () :=
  with_view ReadNumberOfSupportedIacView (bytes c) (λ _,
    n ← property num_supported_iac;
    complete OpCode.READ_NUMBER_OF_SUPPORTED_IAC [FStatus SUCCESS; FInt n]).
Definition ReadCurrentIacLap (c : command) : D () :=
  with_view ReadCurrentIacLapView (bytes c) (λ _,
    laps ← bredr_gets current_iac_lap_list_;
    complete OpCode.READ_CURRENT_IAC_LAP [FStatus SUCCESS; FList laps]).
Definition WriteCurrentIacLap (c : command) : D () :=
  with_view WriteCurrentIacLapView (bytes c) (λ laps,
    on_bredr (BrCommands.WriteCurrentIacLap laps);;
    succeed OpCode.WRITE_CURRENT_IAC_LAP).

(** [InquiryScanType::STANDARD], [InquiryMode::STANDARD], [PageScanType::STANDARD] *)
Definition STANDARD : Z := 0x00.
Definition ReadInquiryScanType (c : command) : D () :=
  with_view ReadInquiryScanTypeView (bytes c) (λ _,
    complete OpCode.READ_INQUIRY_SCAN_TYPE [FStatus SUCCESS; FInt STANDARD]).
Definition WriteInquiryScanType (c : command) : D () :=
  with_view WriteInquiryScanTypeView (bytes c) (λ _, succeed OpCode.WRITE_INQUIRY_SCAN_TYPE).
Definition ReadInquiryMode (c : command) : D () :=
  with_view ReadInquiryModeView (bytes c) (λ _,
    complete OpCode.READ_INQUIRY_MODE [FStatus SUCCESS; FInt STANDARD]).
Definition WriteInquiryMode (c : command) : D () :=
  with_view WriteInquiryModeView (bytes c) (λ mode,
    on_bredr (SetInquiryMode mode);;
    succeed OpCode.WRITE_INQUIRY_MODE).
Definition ReadPageScanType (c : command) : D () :=
  with_view ReadPageScanTypeView (bytes c) (λ _,
    complete OpCode.READ_PAGE_SCAN_TYPE [FStatus SUCCESS; FInt STANDARD]).
Definition WritePageScanType (c : command) : D () :=
  with_view WritePageScanTypeView (bytes c) (λ _, succeed OpCode.WRITE_PAGE_SCAN_TYPE).
Definition WriteExtendedInquiryResponse (c : command) : D () :=
  with_view WriteExtendedInquiryResponseView (bytes c) (λ '(_, response),
    on_bredr (BrCommands.WriteExtendedInquiryResponse response);;
    succeed OpCode.WRITE_EXTENDED_INQUIRY_RESPONSE).
Definition RefreshEncryptionKey (c : command) : D () :=
  with_view RefreshEncryptionKeyView (bytes c) (λ handle,
    status OpCode.REFRESH_ENCRYPTION_KEY SUCCESS;;
    send_event_ (EncryptionKeyRefreshComplete SUCCESS handle)).
Definition WriteSimplePairingMode (c : command) : D () :=
  with_view WriteSimplePairingModeView (bytes c) (λ enabled,
    on_bredr (SetSecureSimplePairingSupport enabled);;
    succeed OpCode.WRITE_SIMPLE_PAIRING_MODE).
Definition WriteLeHostSupport (c : command) : D () :=
  with_view WriteLeHostSupportView (bytes c) (λ '(le_support, _),
    on_bredr (SetLeHostSupport le_support);;
    succeed OpCode.WRITE_LE_HOST_SUPPORT).
Definition WriteSecureConnectionsHostSupport (c : command) : D () :=
  with_view WriteSecureConnectionsHostSupportView (bytes c) (λ enabled,
    on_bredr (SetSecureConnectionsSupport enabled);;
    succeed OpCode.WRITE_SECURE_CONNECTIONS_HOST_SUPPORT).
Definition SetMinEncryptionKeySize (c : command) : D () :=
  with_view SetMinEncryptionKeySizeView (bytes c) (λ size,
    on_bredr (BrCommands.SetMinEncryptionKeySize size);;
    succeed OpCode.SET_MIN_ENCRYPTION_KEY_SIZE).
Definition ReadInquiryResponseTransmitPowerLevel (c : command) : D () :=
  with_view ReadInquiryResponseTransmitPowerLevelView (bytes c) (λ _,
    complete OpCode.READ_INQUIRY_RESPONSE_TRANSMIT_POWER_LEVEL [FStatus SUCCESS; FInt 20]).

(** The views of the next two are not used, and not checked. *)
Definition ReadLocalOobData (_ : command) : D () :=
  '(c, r) ← on_bredr BrCommands.ReadLocalOobData;
  complete OpCode.READ_LOCAL_OOB_DATA [FStatus SUCCESS; FList c; FList r].
Definition ReadLocalOobExtendedData (_ : command) : D () :=
  '(c_192, r_192, (c_256, r_256)) ← on_bredr BrCommands.ReadLocalOobExtendedData;
  complete OpCode.READ_LOCAL_OOB_EXTENDED_DATA
    [FStatus SUCCESS; FList c_192; FList r_192; FList c_256; FList r_256].

(** ** Informational and status parameters *)

Definition ReadLocalVersionInformation (c : command) : D () :=
  with_view ReadLocalVersionInformationView (bytes c) (λ _,
    p ← gets properties_;
    complete OpCode.READ_LOCAL_VERSION_INFORMATION
      [FStatus SUCCESS; FInt (hci_version p); FInt (hci_subversion p); FInt (lmp_version p);
       FInt (company_identifier p); FInt (lmp_subversion p)]).
Definition ReadLocalSupportedCommands (c : command) : D () :=
  with_view ReadLocalSupportedCommandsView (bytes c) (λ _,
    p ← gets properties_;
    complete OpCode.READ_LOCAL_SUPPORTED_COMMANDS [FStatus SUCCESS; FList (supported_commands p)]).
Definition ReadLocalSupportedFeatures (c : command) : D () :=
  with_view ReadLocalSupportedFeaturesView (bytes c) (λ _,
    features ← bredr_gets (GetLmpFeatures 0);
    features ← lift features;
    complete OpCode.READ_LOCAL_SUPPORTED_FEATURES [FStatus SUCCESS; FInt features]).
Definition ReadLocalExtendedFeatures (c : command) : D () :=
  with_view ReadLocalExtendedFeaturesView (bytes c) (λ page_number,
    max_page ← bredr_gets GetMaxLmpFeaturesPageNumber;
    features ← bredr_gets (GetLmpFeatures page_number);
    features ← lift features;
    complete OpCode.READ_LOCAL_EXTENDED_FEATURES
      [FStatus SUCCESS; FInt page_number; FInt max_page; FInt features]).
Definition ReadLocalSupportedCodecsV1 (c : command) : D () :=
  with_view ReadLocalSupportedCodecsV1View (bytes c) (λ _,
    p ← gets properties_;
    complete OpCode.READ_LOCAL_SUPPORTED_CODECS_V1
      [FStatus SUCCESS; FList (supported_standard_codecs p);
       FList (supported_vendor_specific_codecs p)]).
Definition ReadBufferSize (c : command) : D () :=
  with_view ReadBufferSizeView (bytes c) (λ _,
    p ← gets properties_;
    complete OpCode.READ_BUFFER_SIZE
      [FStatus SUCCESS; FInt (acl_data_packet_length p); FInt (sco_data_packet_length p);
       FInt (total_num_acl_data_packets p); FInt (total_num_sco_data_packets p)]).
Definition ReadBdAddr (c : command) : D () :=
  with_view ReadBdAddrView (bytes c) (λ _,
    address ← gets DualState.address_;
    complete OpCode.READ_BD_ADDR [FStatus SUCCESS; FAddress address]).
Definition ReadFailedContactCounter (c : command) : D () :=
  with_view ReadFailedContactCounterView (bytes c) (λ connection_handle,
    st ← known_acl connection_handle;
    complete OpCode.READ_FAILED_CONTACT_COUNTER [FStatus st; FInt connection_handle; FInt 0]).
(** With the view of the command that reads the counter. *)
Definition ResetFailedContactCounter (c : command) : D () :=
  with_view ReadFailedContactCounterView (bytes c) (λ connection_handle,
    st ← known_acl connection_handle;
    complete OpCode.RESET_FAILED_CONTACT_COUNTER [FStatus st; FInt connection_handle]).
Definition ReadRssi (c : command) : D () :=
  with_view ReadRssiView (bytes c) (λ connection_handle,
    '(st, rssi) ← (if IsAclConnectionHandle connection_handle
                   then on_bredr (BrCommands.ReadRssi connection_handle)
                   else if IsLeAclConnectionHandle connection_handle
                   then answer ← le_gets (LeLists.ReadRssi connection_handle); lift answer
                   else mret (UNKNOWN_CONNECTION, None));
    complete OpCode.READ_RSSI [FStatus st; FInt connection_handle; FInt (u8 (default 0 rssi))]).
Definition ReadEncryptionKeySize (c : command) : D () :=
  with_view ReadEncryptionKeySizeView (bytes c) (λ connection_handle,
    '(st, key_size) ← on_bredr (BrCommands.ReadEncryptionKeySize connection_handle);
    complete OpCode.READ_ENCRYPTION_KEY_SIZE
      [FStatus st; FInt connection_handle; FInt (default 0 key_size)]).

(** ** Testing *)

Definition ReadLoopbackMode (c : command) : D () :=
  with_view ReadLoopbackModeView (bytes c) (λ _,
    mode ← gets loopback_mode_;
    complete OpCode.READ_LOOPBACK_MODE [FStatus SUCCESS; FInt (LoopbackMode.to_Z mode)]).
Definition loopback_acl_handle : Z := 0x123.
Definition loopback_sco_handle : Z := 0x345.
Definition WriteLoopbackMode (c : command) : D () :=
  with_view WriteLoopbackModeView (bytes c) (λ mode,
    modify (λ d, d <| loopback_mode_ := mode |>);;
    address ← gets DualState.address_;
    send_event_ (DualState.ConnectionComplete SUCCESS loopback_acl_handle address LinkType.ACL false);;
    send_event_ (DualState.ConnectionComplete SUCCESS loopback_sco_handle address LinkType.SCO false);;
    succeed OpCode.WRITE_LOOPBACK_MODE).
End DualBr.
