(* ===== verification/DualLe.v ===== *)
(** * The LE commands (dual_mode_controller.cc)

    One definition per handler, in the way of DualBr.  The channel sounding, subrating
    and advertising commands hand their fields to the LE controller and answer with
    the status it returns. *)

From S2P Require Import Prelude HciTypes OpCodes Properties Address CsTypes Sco Connections LeState LeLists.
From S2P Require Import LeAdvertiser LePhy LeScan LeConnect LeSubrate LeSounding LeIso LeLink Controller Machine.
From S2P Require Import BrState BrCommands HciViews Random DualState DualBr.

Section DualLe.
Context {env : DualEnvironment}.

Notation SUCCESS := ErrorCode.SUCCESS.
Notation UNKNOWN_CONNECTION := ErrorCode.UNKNOWN_CONNECTION.

(** A command of the LE controller, completed with its status, and with the handle. *)
Definition run_complete (op_code : Z) (command : Command) : D () :=
  st ← le_command command;
  answer op_code st.
Definition run_complete_handle (op_code handle : Z) (command : Command) : D () :=
  st ← le_command command;
  complete op_code [FStatus st; FInt handle].
(** One answered with a status. *)
Definition run_status (op_code : Z) (command : Command) : D () :=
  st ← le_command command;
  status op_code st.

Definition known_le_acl (connection_handle : Z) : D bool :=
  le_gets (λ c, HasLeAclHandle connection_handle (LeState.connections_ c)).

(** ** Masks, features and sizes *)

Definition LeSetEventMask (c : command) : D () :=
  with_view LeSetEventMaskView (bytes c) (λ mask,
    le_command (CmdSetLeEventMask mask);;
    succeed OpCode.LE_SET_EVENT_MASK).
Definition LeSetHostFeatureV1 (c : command) : D () :=
  with_view LeSetHostFeatureV1View (bytes c) (λ '(bit_number, bit_value),
    run_complete OpCode.LE_SET_HOST_FEATURE_V1 (CmdSetHostFeature bit_number (Z.b2z bit_value))).
Definition LeReadBufferSizeV1 (c : command) : D () :=
  with_view LeReadBufferSizeV1View (bytes c) (λ _,
    p ← gets properties_;
    complete OpCode.LE_READ_BUFFER_SIZE_V1
      [FStatus SUCCESS; FInt (le_acl_data_packet_length p); FInt (total_num_le_acl_data_packets p)]).
Definition LeReadBufferSizeV2 (c : command) : D () :=
  with_view LeReadBufferSizeV2View (bytes c) (λ _,
    p ← gets properties_;
    complete OpCode.LE_READ_BUFFER_SIZE_V2
      [FStatus SUCCESS; FInt (le_acl_data_packet_length p); FInt (total_num_le_acl_data_packets p);
       FInt (iso_data_packet_length p); FInt (total_num_iso_data_packets p)]).
Definition LeReadLocalSupportedFeaturesPage0 (c : command) : D () :=
  with_view LeReadLocalSupportedFeaturesPage0View (bytes c) (λ _,
    le_features ← le_gets GetLeSupportedFeatures;
    complete OpCode.LE_READ_LOCAL_SUPPORTED_FEATURES_PAGE_0 [FStatus SUCCESS; FInt le_features]).
Definition LeReadSupportedStates (c : command) : D () :=
  with_view LeReadSupportedStatesView (bytes c) (λ _,
    states ← property le_supported_states;
    complete OpCode.LE_READ_SUPPORTED_STATES [FStatus SUCCESS; FInt states]).
Definition kLeMaximumDataLength : Z := 64.
Definition kLeMaximumDataTime : Z := 0x148.
Definition LeReadMaximumDataLength (c : command) : D () :=
  with_view LeReadMaximumDataLengthView (bytes c) (λ _,
    complete OpCode.LE_READ_MAXIMUM_DATA_LENGTH
      [FStatus SUCCESS; FInt (kLeMaximumDataLength + 10); FInt (kLeMaximumDataTime + 10);
       FInt kLeMaximumDataLength; FInt kLeMaximumDataTime]).
Definition LeReadSuggestedDefaultDataLength (c : command) : D () :=
  with_view LeReadSuggestedDefaultDataLengthView (bytes c) (λ _,
    octets ← le_gets le_suggested_max_tx_octets_;
    time ← le_gets le_suggested_max_tx_time_;
    complete OpCode.LE_READ_SUGGESTED_DEFAULT_DATA_LENGTH [FStatus SUCCESS; FInt octets; FInt time]).
Definition LeWriteSuggestedDefaultDataLength (c : command) : D () :=
  with_view LeWriteSuggestedDefaultDataLengthView (bytes c) (λ '(max_tx_octets, max_tx_time),
    st ← (if (0xFB <? max_tx_octets) || (max_tx_octets <? 0x1B) || (max_tx_time <? 0x148) ||
             (0x4290 <? max_tx_time)
          then mret ErrorCode.INVALID_HCI_COMMAND_PARAMETERS
          else le_command (CmdSetSuggestedDataLength max_tx_octets max_tx_time));
    answer OpCode.LE_WRITE_SUGGESTED_DEFAULT_DATA_LENGTH st).
Definition LeSetDataLength (c : command) : D () :=
  with_view LeSetDataLengthView (bytes c) (λ '(handle, tx_octets, tx_time),
    run_complete_handle OpCode.LE_SET_DATA_LENGTH handle (CmdSetDataLength handle tx_octets tx_time)).

(** ** Power and clock *)

Definition LeRequestPeerSca (c : command) : D () :=
  with_view LeRequestPeerScaView (bytes c) (λ connection_handle,
    known ← known_le_acl connection_handle;
    if known : bool then
      status OpCode.LE_REQUEST_PEER_SCA SUCCESS;;
      send_event_ (LeRequestPeerScaComplete SUCCESS connection_handle ClockAccuracy.PPM_500)
    else status OpCode.LE_REQUEST_PEER_SCA UNKNOWN_CONNECTION).
Definition LeEnhancedReadTransmitPowerLevel (c : command) : D () :=
  with_view LeEnhancedReadTransmitPowerLevelView (bytes c) (λ '(connection_handle, phy),
    known ← known_le_acl connection_handle;
    complete OpCode.LE_ENHANCED_READ_TRANSMIT_POWER_LEVEL
      [FStatus (if known : bool then SUCCESS else UNKNOWN_CONNECTION); FInt connection_handle;
       FInt phy; FInt kTransmitPowerLevel; FInt kTransmitPowerLevel]).
Definition LeReadRemoteTransmitPowerLevel (c : command) : D () :=
  with_view LeReadRemoteTransmitPowerLevelView (bytes c) (λ '(connection_handle, phy),
    run_status OpCode.LE_READ_REMOTE_TRANSMIT_POWER_LEVEL
      (CmdReadRemoteTransmitPowerLevel connection_handle phy)).
Definition LeSetTransmitPowerReportingEnable (c : command) : D () :=
  with_view LeSetTransmitPowerReportingEnableView (bytes c)
    (λ '(connection_handle, local_enable, remote_enable),
    run_complete_handle OpCode.LE_SET_TRANSMIT_POWER_REPORTING_ENABLE connection_handle
      (CmdSetTransmitPowerReportingEnable connection_handle local_enable remote_enable)).
Definition LeReadTransmitPower (c : command) : D () :=
  with_view LeReadTransmitPowerView (bytes c) (λ _,
    complete OpCode.LE_READ_TRANSMIT_POWER
      [FStatus SUCCESS; FInt kTransmitPowerLevel; FInt kTransmitPowerLevel]).

(** ** Subrating *)

Definition LeSetDefaultSubrate (c : command) : D () :=
  with_view LeSetDefaultSubrateView (bytes c)
    (λ '(subrate_min, subrate_max, max_latency, continuation_number, supervision_timeout),
    run_complete OpCode.LE_SET_DEFAULT_SUBRATE
      (CmdSetDefaultSubrate (MkLeAclSubrateParameters subrate_min subrate_max max_latency
                               continuation_number supervision_timeout))).
Definition LeSubrateRequest (c : command) : D () :=
  with_view LeSubrateRequestView (bytes c)
    (λ '(connection_handle, subrate_min, subrate_max, max_latency, continuation_number,
         supervision_timeout),
    run_status OpCode.LE_SUBRATE_REQUEST
      (CmdSubrateRequest connection_handle
         (MkLeAclSubrateParameters subrate_min subrate_max max_latency continuation_number
            supervision_timeout))).

(** ** Channel sounding *)

Definition LeCsReadLocalSupportedCapabilities (c : command) : D () :=
  with_view LeCsReadLocalSupportedCapabilitiesView (bytes c) (λ _,
    p ← gets properties_;
    let caps := cs_local_supported_capabilities p in
    complete OpCode.LE_CS_READ_LOCAL_SUPPORTED_CAPABILITIES
      [FStatus SUCCESS; FInt (num_config_supported caps);
       FInt (max_consecutive_procedures_supported caps); FInt (num_antennae_supported caps);
       FInt (max_antenna_paths_supported caps); FInt (roles_supported caps);
       FInt (modes_supported caps); FInt (rtt_capability caps); FInt (rtt_aa_only_n caps);
       FInt (rtt_sounding_n caps); FInt (rtt_random_sequence_n caps);
       FInt (nadm_sounding_capability caps); FInt (nadm_random_capability caps);
       FInt (cs_sync_phys_supported caps); FInt (subfeatures_supported caps);
       FInt (t_ip1_times_supported caps); FInt (t_ip2_times_supported caps);
       FInt (t_fcs_times_supported caps); FInt (t_pm_times_supported caps);
       FInt (t_sw_time_supported caps); FInt (tx_snr_capability caps)]).
Definition LeCsReadRemoteSupportedCapabilities (c : command) : D () :=
  with_view LeCsReadRemoteSupportedCapabilitiesView (bytes c) (λ connection_handle,
    run_status OpCode.LE_CS_READ_REMOTE_SUPPORTED_CAPABILITIES
      (CmdCsReadRemoteSupportedCapabilities connection_handle)).
Definition LeCsWriteCachedRemoteSupportedCapabilities (c : command) : D () :=
  with_view LeCsWriteCachedRemoteSupportedCapabilitiesView (bytes c) (λ '(connection_handle, caps),
    run_complete_handle OpCode.LE_CS_WRITE_CACHED_REMOTE_SUPPORTED_CAPABILITIES connection_handle
      (CmdCsWriteCachedRemoteSupportedCapabilities connection_handle caps)).
Definition LeCsSetDefaultSettings (c : command) : D () :=
  with_view LeCsSetDefaultSettingsView (bytes c)
    (λ '(connection_handle, role_enable, cs_sync_antenna_selection, max_tx_power),
    run_complete_handle OpCode.LE_CS_SET_DEFAULT_SETTINGS connection_handle
      (CmdCsSetDefaultSettings connection_handle role_enable cs_sync_antenna_selection max_tx_power)).
Definition LeCsReadRemoteFaeTable (c : command) : D () :=
  with_view LeCsReadRemoteFaeTableView (bytes c) (λ connection_handle,
    run_status OpCode.LE_CS_READ_REMOTE_FAE_TABLE (CmdCsReadRemoteFaeTable connection_handle)).
Definition LeCsWriteCachedRemoteFaeTable (c : command) : D () :=
  with_view LeCsWriteCachedRemoteFaeTableView (bytes c) (λ '(connection_handle, table),
    run_complete_handle OpCode.LE_CS_WRITE_CACHED_REMOTE_FAE_TABLE connection_handle
      (CmdCsWriteCachedRemoteFaeTable connection_handle table)).
Definition LeCsCreateConfig (c : command) : D () :=
  with_view LeCsCreateConfigView (bytes c)
    (λ '(connection_handle, config_id, create_context, main_mode_type, sub_mode_type,
         min_main_mode_steps, max_main_mode_steps, main_mode_repetition, mode_0_steps, role,
         rtt_type, cs_sync_phy, channel_map, channel_map_repetition, channel_selection_type,
         ch3c_shape, ch3c_jump, reserved),
    run_status OpCode.LE_CS_CREATE_CONFIG
      (CmdCsCreateConfig connection_handle create_context reserved
         (LeCsConfig.MkLeCsConfig config_id channel_map channel_map_repetition main_mode_type
            sub_mode_type min_main_mode_steps max_main_mode_steps main_mode_repetition mode_0_steps
            cs_sync_phy rtt_type role channel_selection_type ch3c_shape ch3c_jump false None))).
Definition LeCsRemoveConfig (c : command) : D () :=
  with_view LeCsRemoveConfigView (bytes c) (λ '(connection_handle, config_id),
    run_status OpCode.LE_CS_REMOVE_CONFIG (CmdCsRemoveConfig connection_handle config_id)).
Definition LeCsSetChannelClassification (c : command) : D () :=
  with_view LeCsSetChannelClassificationView (bytes c) (λ classification,
    run_complete OpCode.LE_CS_SET_CHANNEL_CLASSIFICATION (CmdCsSetChannelClassification classification)).
Definition LeCsSecurityEnable (c : command) : D () :=
  with_view LeCsSecurityEnableView (bytes c) (λ connection_handle,
    run_status OpCode.LE_CS_SECURITY_ENABLE (CmdCsSecurityEnable connection_handle)).
Definition LeCsSetProcedureParameters (c : command) : D () :=
  with_view LeCsSetProcedureParametersView (bytes c)
    (λ '(connection_handle, config_id, max_procedure_len, min_procedure_interval,
         max_procedure_interval, max_procedure_count, min_subevent_len, max_subevent_len,
         tone_antenna_config_selection, phy, tx_power_delta, preferred_peer_antenna,
         snr_control_initiator, snr_control_reflector),
    run_complete_handle OpCode.LE_CS_SET_PROCEDURE_PARAMETERS connection_handle
      (CmdCsSetProcedureParameters connection_handle config_id
         (LeCsProcedureParameters.MkLeCsProcedureParameters max_procedure_len min_procedure_interval
            max_procedure_interval max_procedure_count min_subevent_len max_subevent_len
            tone_antenna_config_selection phy tx_power_delta preferred_peer_antenna
            snr_control_initiator snr_control_reflector))).
Definition LeCsProcedureEnable (c : command) : D () :=
  with_view LeCsProcedureEnableView (bytes c) (λ '(connection_handle, config_id, enable),
    run_status OpCode.LE_CS_PROCEDURE_ENABLE
      (CmdCsProcedureEnable connection_handle config_id (Z.b2z enable))).

(** ** Privacy and device lists *)

Definition LeSetAddressResolutionEnable (c : command) : D () :=
  with_view LeSetAddressResolutionEnableView (bytes c) (λ enable,
    run_complete OpCode.LE_SET_ADDRESS_RESOLUTION_ENABLE (CmdSetAddressResolutionEnable enable)).
Definition LeSetResolvablePrivateAddressTimeout (c : command) : D () :=
  with_view LeSetResolvablePrivateAddressTimeoutView (bytes c) (λ rpa_timeout,
    run_complete OpCode.LE_SET_RESOLVABLE_PRIVATE_ADDRESS_TIMEOUT
      (CmdSetResolvablePrivateAddressTimeout rpa_timeout)).
Definition LeSetRandomAddress (c : command) : D () :=
  with_view LeSetRandomAddressView (bytes c) (λ random_address,
    run_complete OpCode.LE_SET_RANDOM_ADDRESS (CmdSetRandomAddress random_address)).
Definition LeReadFilterAcceptListSize (c : command) : D () :=
  with_view LeReadFilterAcceptListSizeView (bytes c) (λ _,
    size ← property le_filter_accept_list_size;
    complete OpCode.LE_READ_FILTER_ACCEPT_LIST_SIZE [FStatus SUCCESS; FInt size]).
Definition LeClearFilterAcceptList (c : command) : D () :=
  with_view LeClearFilterAcceptListView (bytes c) (λ _,
    run_complete OpCode.LE_CLEAR_FILTER_ACCEPT_LIST CmdClearFilterAcceptList).
Definition LeAddDeviceToFilterAcceptList (c : command) : D () :=
  with_view LeAddDeviceToFilterAcceptListView (bytes c) (λ '(address_type, address),
    run_complete OpCode.LE_ADD_DEVICE_TO_FILTER_ACCEPT_LIST
      (CmdAddDeviceToFilterAcceptList address_type address)).
Definition LeRemoveDeviceFromFilterAcceptList (c : command) : D () :=
  with_view LeRemoveDeviceFromFilterAcceptListView (bytes c) (λ '(address_type, address),
    run_complete OpCode.LE_REMOVE_DEVICE_FROM_FILTER_ACCEPT_LIST
      (CmdRemoveDeviceFromFilterAcceptList address_type address)).
Definition LeClearResolvingList (c : command) : D () :=
  with_view LeClearResolvingListView (bytes c) (λ _,
    run_complete OpCode.LE_CLEAR_RESOLVING_LIST CmdClearResolvingList).
Definition LeReadResolvingListSize (c : command) : D () :=
  with_view LeReadResolvingListSizeView (bytes c) (λ _,
    size ← property le_resolving_list_size;
    complete OpCode.LE_READ_RESOLVING_LIST_SIZE [FStatus SUCCESS; FInt size]).
Definition LeReadPeerResolvableAddress (c : command) : D () :=
  with_view LeReadPeerResolvableAddressView (bytes c) (λ '(peer_type, peer),
    '(st, address) ← le_gets (LeLists.LeReadPeerResolvableAddress peer_type peer);
    complete OpCode.LE_READ_PEER_RESOLVABLE_ADDRESS
      [FStatus st; FAddress (default kEmpty address)]).
Definition LeReadLocalResolvableAddress (c : command) : D () :=
  with_view LeReadLocalResolvableAddressView (bytes c) (λ '(peer_type, peer),
    '(st, address) ← le_gets (LeLists.LeReadLocalResolvableAddress peer_type peer);
    complete OpCode.LE_READ_LOCAL_RESOLVABLE_ADDRESS
      [FStatus st; FAddress (default kEmpty address)]).
Definition LeAddDeviceToResolvingList (c : command) : D () :=
  with_view LeAddDeviceToResolvingListView (bytes c) (λ '(peer_type, peer, peer_irk, local_irk),
    run_complete OpCode.LE_ADD_DEVICE_TO_RESOLVING_LIST
      (CmdAddDeviceToResolvingList peer_type peer peer_irk local_irk)).
Definition LeRemoveDeviceFromResolvingList (c : command) : D () :=
  with_view LeRemoveDeviceFromResolvingListView (bytes c) (λ '(peer_type, peer),
    run_complete OpCode.LE_REMOVE_DEVICE_FROM_RESOLVING_LIST
      (CmdRemoveDeviceFromResolvingList peer_type peer)).
Definition LeSetPrivacyMode (c : command) : D () :=
  with_view LeSetPrivacyModeView (bytes c) (λ '(peer_type, peer, mode),
    run_complete OpCode.LE_SET_PRIVACY_MODE (CmdSetPrivacyMode peer_type peer mode)).

(** ** Advertising *)

Definition LeSetAdvertisingParameters (c : command) : D () :=
  with_view LeSetAdvertisingParametersView (bytes c)
    (λ '(interval_min, interval_max, type, own, peer_type, peer, channel_map, policy),
    run_complete OpCode.LE_SET_ADVERTISING_PARAMETERS
      (CmdSetAdvertisingParameters interval_min interval_max type own peer_type peer channel_map
         policy)).
Definition LeReadAdvertisingPhysicalChannelTxPower (c : command) : D () :=
  with_view LeReadAdvertisingPhysicalChannelTxPowerView (bytes c) (λ _,
    power ← property le_advertising_physical_channel_tx_power;
    complete OpCode.LE_READ_ADVERTISING_PHYSICAL_CHANNEL_TX_POWER [FStatus SUCCESS; FInt power]).
Definition LeSetAdvertisingData (c : command) : D () :=
  with_view LeSetAdvertisingDataView (bytes c) (λ data,
    run_complete OpCode.LE_SET_ADVERTISING_DATA (CmdSetAdvertisingData data)).
Definition LeSetScanResponseData (c : command) : D () :=
  with_view LeSetScanResponseDataView (bytes c) (λ data,
    run_complete OpCode.LE_SET_SCAN_RESPONSE_DATA (CmdSetScanResponseData data)).
Definition LeSetAdvertisingEnable (c : command) : D () :=
  with_view LeSetAdvertisingEnableView (bytes c) (λ enable,
    run_complete OpCode.LE_SET_ADVERTISING_ENABLE (CmdSetAdvertisingEnable enable)).
Definition LeSetAdvertisingSetRandomAddress (c : command) : D () :=
  with_view LeSetAdvertisingSetRandomAddressView (bytes c) (λ '(handle, random_address),
    run_complete OpCode.LE_SET_ADVERTISING_SET_RANDOM_ADDRESS
      (CmdSetAdvertisingSetRandomAddress handle random_address)).
(** The selected transmit power is the requested one. *)
Definition LeSetExtendedAdvertisingParametersV1 (c : command) : D () :=
  with_view LeSetExtendedAdvertisingParametersV1View (bytes c)
    (λ '(handle, event_properties, interval_min, interval_max, channel_map, own, peer_type, peer,
         policy, tx_power, primary_phy, max_skip, secondary_phy, sid, notify),
    st ← le_command (CmdSetExtendedAdvertisingParameters handle event_properties interval_min
                       interval_max channel_map own peer_type peer policy tx_power primary_phy
                       max_skip secondary_phy sid notify);
    complete OpCode.LE_SET_EXTENDED_ADVERTISING_PARAMETERS_V1 [FStatus st; FInt tx_power]).
Definition LeSetExtendedAdvertisingData (c : command) : D () :=
  with_view LeSetExtendedAdvertisingDataView (bytes c) (λ '(handle, operation, preference, data),
    run_complete OpCode.LE_SET_EXTENDED_ADVERTISING_DATA
      (CmdSetExtendedAdvertisingData handle operation preference data)).
Definition LeSetExtendedScanResponseData (c : command) : D () :=
  with_view LeSetExtendedScanResponseDataView (bytes c) (λ '(handle, operation, preference, data),
    run_complete OpCode.LE_SET_EXTENDED_SCAN_RESPONSE_DATA
      (CmdSetExtendedScanResponseData handle operation preference data)).
Definition LeSetExtendedAdvertisingEnable (c : command) : D () :=
  with_view LeSetExtendedAdvertisingEnableView (bytes c) (λ '(enable, enabled_sets),
    run_complete OpCode.LE_SET_EXTENDED_ADVERTISING_ENABLE
      (CmdSetExtendedAdvertisingEnable enable enabled_sets)).
Definition LeReadMaximumAdvertisingDataLength (c : command) : D () :=
  with_view LeReadMaximumAdvertisingDataLengthView (bytes c) (λ _,
    length ← property le_max_advertising_data_length;
    complete OpCode.LE_READ_MAXIMUM_ADVERTISING_DATA_LENGTH [FStatus SUCCESS; FInt length]).
Definition LeReadNumberOfSupportedAdvertisingSets (c : command) : D () :=
  with_view LeReadNumberOfSupportedAdvertisingSetsView (bytes c) (λ _,
    n ← property le_num_supported_advertising_sets;
    complete OpCode.LE_READ_NUMBER_OF_SUPPORTED_ADVERTISING_SETS [FStatus SUCCESS; FInt n]).
Definition LeRemoveAdvertisingSet (c : command) : D () :=
  with_view LeRemoveAdvertisingSetView (bytes c) (λ handle,
    run_complete OpCode.LE_REMOVE_ADVERTISING_SET (CmdRemoveAdvertisingSet handle)).
Definition LeClearAdvertisingSets (c : command) : D () :=
  with_view LeClearAdvertisingSetsView (bytes c) (λ _,
    run_complete OpCode.LE_CLEAR_ADVERTISING_SETS CmdClearAdvertisingSets).

(** ** Periodic advertising *)

Definition LeSetPeriodicAdvertisingParametersV1 (c : command) : D () :=
  with_view LeSetPeriodicAdvertisingParametersV1View (bytes c)
    (λ '(handle, interval_min, interval_max, include_tx_power),
    run_complete OpCode.LE_SET_PERIODIC_ADVERTISING_PARAMETERS_V1
      (CmdSetPeriodicAdvertisingParameters handle interval_min interval_max include_tx_power)).
Definition LeSetPeriodicAdvertisingData (c : command) : D () :=
  with_view LeSetPeriodicAdvertisingDataView (bytes c) (λ '(handle, operation, data),
    run_complete OpCode.LE_SET_PERIODIC_ADVERTISING_DATA
      (CmdSetPeriodicAdvertisingData handle operation data)).
Definition LeSetPeriodicAdvertisingEnable (c : command) : D () :=
  with_view LeSetPeriodicAdvertisingEnableView (bytes c) (λ '(enable, include_adi, handle),
    run_complete OpCode.LE_SET_PERIODIC_ADVERTISING_ENABLE
      (CmdSetPeriodicAdvertisingEnable enable include_adi handle)).
Definition LePeriodicAdvertisingCreateSync (c : command) : D () :=
  with_view LePeriodicAdvertisingCreateSyncView (bytes c)
    (λ '(options, sid, address_type, address, _, sync_timeout, sync_cte_type),
    run_status OpCode.LE_PERIODIC_ADVERTISING_CREATE_SYNC
      (CmdPeriodicAdvertisingCreateSync options sid address_type address sync_timeout sync_cte_type)).
Definition LePeriodicAdvertisingCreateSyncCancel (c : command) : D () :=
  with_view LePeriodicAdvertisingCreateSyncCancelView (bytes c) (λ _,
    run_complete OpCode.LE_PERIODIC_ADVERTISING_CREATE_SYNC_CANCEL
      CmdPeriodicAdvertisingCreateSyncCancel).
Definition LePeriodicAdvertisingTerminateSync (c : command) : D () :=
  with_view LePeriodicAdvertisingTerminateSyncView (bytes c) (λ sync_handle,
    run_complete OpCode.LE_PERIODIC_ADVERTISING_TERMINATE_SYNC
      (CmdPeriodicAdvertisingTerminateSync sync_handle)).
Definition LeAddDeviceToPeriodicAdvertiserList (c : command) : D () :=
  with_view LeAddDeviceToPeriodicAdvertiserListView (bytes c) (λ '(address_type, address, sid),
    run_complete OpCode.LE_ADD_DEVICE_TO_PERIODIC_ADVERTISER_LIST
      (CmdAddDeviceToPeriodicAdvertiserList address_type address sid)).
Definition LeRemoveDeviceFromPeriodicAdvertiserList (c : command) : D () :=
  with_view LeRemoveDeviceFromPeriodicAdvertiserListView (bytes c) (λ '(address_type, address, sid),
    run_complete OpCode.LE_REMOVE_DEVICE_FROM_PERIODIC_ADVERTISER_LIST
      (CmdRemoveDeviceFromPeriodicAdvertiserList address_type address sid)).
Definition LeClearPeriodicAdvertiserList (c : command) : D () :=
  with_view LeClearPeriodicAdvertiserListView (bytes c) (λ _,
    run_complete OpCode.LE_CLEAR_PERIODIC_ADVERTISER_LIST CmdClearPeriodicAdvertiserList).
Definition LeReadPeriodicAdvertiserListSize (c : command) : D () :=
  with_view LeReadPeriodicAdvertiserListSizeView (bytes c) (λ _,
    size ← property le_periodic_advertiser_list_size;
    complete OpCode.LE_READ_PERIODIC_ADVERTISER_LIST_SIZE [FStatus SUCCESS; FInt size]).

(** ** Scanning and initiating *)

Definition LeSetScanParameters (c : command) : D () :=
  with_view LeSetScanParametersView (bytes c) (λ '(type, interval, window, own, policy),
    run_complete OpCode.LE_SET_SCAN_PARAMETERS (CmdSetScanParameters type interval window own policy)).
Definition LeSetScanEnable (c : command) : D () :=
  with_view LeSetScanEnableView (bytes c) (λ '(enable, filter_duplicates),
    run_complete OpCode.LE_SET_SCAN_ENABLE (CmdSetScanEnable enable filter_duplicates)).
Definition LeSetExtendedScanParameters (c : command) : D () :=
  with_view LeSetExtendedScanParametersView (bytes c) (λ '(own, policy, phys, parameters),
    run_complete OpCode.LE_SET_EXTENDED_SCAN_PARAMETERS
      (CmdSetExtendedScanParameters own policy phys parameters)).
Definition LeSetExtendedScanEnable (c : command) : D () :=
  with_view LeSetExtendedScanEnableView (bytes c) (λ '(enable, filter_duplicates, duration, period),
    run_complete OpCode.LE_SET_EXTENDED_SCAN_ENABLE
      (CmdSetExtendedScanEnable enable filter_duplicates duration period)).
Definition LeCreateConnection (c : command) : D () :=
  with_view LeCreateConnectionView (bytes c)
    (λ '(scan_interval, scan_window, policy, peer_type, peer, own, interval_min, interval_max,
         max_latency, supervision_timeout, min_ce_length, max_ce_length),
    run_status OpCode.LE_CREATE_CONNECTION
      (CmdCreateConnection scan_interval scan_window policy (MkAddressWithType peer peer_type) own
         interval_min interval_max max_latency supervision_timeout min_ce_length max_ce_length)).
Definition LeCreateConnectionCancel (c : command) : D () :=
  with_view LeCreateConnectionCancelView (bytes c) (λ _,
    run_complete OpCode.LE_CREATE_CONNECTION_CANCEL CmdCreateConnectionCancel).
Definition LeExtendedCreateConnectionV1 (c : command) : D () :=
  with_view LeExtendedCreateConnectionV1View (bytes c)
    (λ '(policy, own, peer_type, peer, phys, parameters),
    let peer_address_type :=
      match peer_type with
      | PeerAddressType.PUBLIC_DEVICE_OR_IDENTITY_ADDRESS => AddressType.PUBLIC_DEVICE_ADDRESS
      | PeerAddressType.RANDOM_DEVICE_OR_IDENTITY_ADDRESS => AddressType.RANDOM_DEVICE_ADDRESS
      end in
    run_status OpCode.LE_EXTENDED_CREATE_CONNECTION_V1
      (CmdExtendedCreateConnection policy own (MkAddressWithType peer peer_address_type) phys
         parameters)).

(** ** Connections *)

Definition LeConnectionUpdate (c : command) : D () :=
  with_view LeConnectionUpdateView (bytes c)
    (λ '(handle, interval_min, interval_max, max_latency, supervision_timeout, _, _),
    run_status OpCode.LE_CONNECTION_UPDATE
      (CmdConnectionUpdate handle interval_min interval_max max_latency supervision_timeout)).
Definition LeRemoteConnectionParameterRequestReply (c : command) : D () :=
  with_view LeRemoteConnectionParameterRequestReplyView (bytes c)
    (λ '(handle, interval_min, interval_max, latency, timeout, min_ce_length, max_ce_length),
    run_complete_handle OpCode.LE_REMOTE_CONNECTION_PARAMETER_REQUEST_REPLY handle
      (CmdRemoteConnectionParameterRequestReply handle interval_min interval_max timeout latency
         min_ce_length max_ce_length)).
Definition LeRemoteConnectionParameterRequestNegativeReply (c : command) : D () :=
  with_view LeRemoteConnectionParameterRequestNegativeReplyView (bytes c) (λ '(handle, reason),
    run_complete_handle OpCode.LE_REMOTE_CONNECTION_PARAMETER_REQUEST_NEGATIVE_REPLY handle
      (CmdRemoteConnectionParameterRequestNegativeReply handle reason)).
Definition LeReadRemoteFeaturesPage0 (c : command) : D () :=
  with_view LeReadRemoteFeaturesPage0View (bytes c) (λ handle,
    run_status OpCode.LE_READ_REMOTE_FEATURES_PAGE_0 (CmdReadRemoteFeatures handle)).
Definition LeReadPhy (c : command) : D () :=
  with_view LeReadPhyView (bytes c) (λ connection_handle,
    answer ← le_gets (LeLists.LeReadPhy connection_handle);
    '(st, phys) ← lift answer;
    (** [PhyType tx_phy{}]: the value 0. *)
    let '(tx_phy, rx_phy) := match phys with Some (t, r) => (PhyType.to_Z t, PhyType.to_Z r) | None => (0, 0) end in
    complete OpCode.LE_READ_PHY [FStatus st; FInt connection_handle; FInt tx_phy; FInt rx_phy]).
Definition LeSetDefaultPhy (c : command) : D () :=
  with_view LeSetDefaultPhyView (bytes c) (λ '(all_tx, all_rx, tx_phys, rx_phys),
    run_complete OpCode.LE_SET_DEFAULT_PHY (CmdSetDefaultPhy all_tx all_rx tx_phys rx_phys)).
Definition LeSetPhy (c : command) : D () :=
  with_view LeSetPhyView (bytes c) (λ '(handle, all_tx, all_rx, tx_phys, rx_phys, _),
    run_status OpCode.LE_SET_PHY (CmdSetPhy handle all_tx all_rx tx_phys rx_phys)).
Definition LeStartEncryption (c : command) : D () :=
  with_view LeStartEncryptionView (bytes c) (λ '(handle, rand, ediv, ltk),
    run_status OpCode.LE_START_ENCRYPTION (CmdEnableEncryption handle rand ediv ltk)).
Definition LeLongTermKeyRequestReply (c : command) : D () :=
  with_view LeLongTermKeyRequestReplyView (bytes c) (λ '(handle, ltk),
    run_complete_handle OpCode.LE_LONG_TERM_KEY_REQUEST_REPLY handle
      (CmdLongTermKeyRequestReply handle ltk)).
Definition LeLongTermKeyRequestNegativeReply (c : command) : D () :=
  with_view LeLongTermKeyRequestNegativeReplyView (bytes c) (λ handle,
    run_complete_handle OpCode.LE_LONG_TERM_KEY_REQUEST_NEGATIVE_REPLY handle
      (CmdLongTermKeyRequestNegativeReply handle)).

(** ** Cryptography *)

Definition LeEncrypt (c : command) : D () :=
  with_view LeEncryptView (bytes c) (λ '(key, plaintext_data),
    complete OpCode.LE_ENCRYPT [FStatus SUCCESS; FList (aes_128 key plaintext_data)]).
Definition LeRand (c : command) : D () :=
  with_view LeRandView (bytes c) (λ _,
    g ← gets random_generator_;
    let '(number, g) := draw g in
    modify (λ d, d <| random_generator_ := g |>);;
    complete OpCode.LE_RAND [FStatus SUCCESS; FInt number]).

(** [key_x_coordinate] and [key_y_coordinate] start as zeroes. *)
Definition no_coordinate : list Z := replicate 32 0.
Definition generateP256Key (call : nat) : ErrorCode.t * list Z * list Z :=
  let failed := (ErrorCode.UNSPECIFIED_ERROR, no_coordinate, no_coordinate) in
  if negb (EC_KEY_new_by_curve_name call) then failed
  else if negb (EC_KEY_generate_key call) then failed
  else if negb (EC_KEY_get0_public_key call) then failed
  else if negb (BN_new call) then failed
  else
    match EC_POINT_get_affine_coordinates call with
    | None => failed
    | Some (x, y) =>
        match BN_bn2binpad x 32 with
        | None => failed
        | Some x =>
            match BN_bn2binpad y 32 with
            | None => (ErrorCode.UNSPECIFIED_ERROR, x, no_coordinate)
            | Some y => (SUCCESS, x, y)
            end
        end
    end.
Definition LeReadLocalP256PublicKey (c : command) : D () :=
  with_view LeReadLocalP256PublicKeyView (bytes c) (λ _,
    status OpCode.LE_READ_LOCAL_P_256_PUBLIC_KEY SUCCESS;;
    call ← gets keys;
    modify (λ d, d <| keys ::= S |>);;
    let '(st, x, y) := generateP256Key call in
    send_event_ (LeReadLocalP256PublicKeyComplete st x y)).
End DualLe.
