(* ===== verification/DualVendor.v ===== *)
(** * The vendor commands (dual_mode_controller.cc, vendor_commands/csr.h)

    The commands of RootCanal itself, of Android, of the CSR controller the
    qualification tools expect, and of Intel's. *)

From S2P Require Import Prelude HciTypes OpCodes Properties Address CsTypes Sco Connections LeState LeLists.
From S2P Require Import LeApcf Controller Machine BrState BrCommands HciViews Random DualState DualBr.

(** [ApcfOpcode] *)
Module ApcfOpcode.
Definition ENABLE : Z := 0x00.
Definition SET_FILTERING_PARAMETERS : Z := 0x01.
Definition BROADCASTER_ADDRESS : Z := 0x02.
Definition SERVICE_UUID : Z := 0x03.
Definition SERVICE_SOLICITATION_UUID : Z := 0x04.
Definition LOCAL_NAME : Z := 0x05.
Definition MANUFACTURER_DATA : Z := 0x06.
Definition SERVICE_DATA : Z := 0x07.
Definition TRANSPORT_DISCOVERY_SERVICE : Z := 0x08.
Definition AD_TYPE_FILTER : Z := 0x09.
Definition READ_EXTENDED_FEATURES : Z := 0xFF.
End ApcfOpcode.

Section DualVendor.
Context {env : DualEnvironment}.

Notation SUCCESS := ErrorCode.SUCCESS.
Notation INVALID_HCI_COMMAND_PARAMETERS := ErrorCode.INVALID_HCI_COMMAND_PARAMETERS.

(** ** RootCanal *)

(** [RootcanalOpCode] *)
Definition SEND_HCI_EVENT : Z := 0x01.
Definition SEND_HCI_ACL_DATA : Z := 0x02.
(** In milliseconds. *)
Definition rootcanal_delay : Z := 5.
Definition RootcanalCommand (c : command) : D () :=
  with_view RootcanalCommandView (bytes c) (λ subop_code,
    let reply st := complete OpCode.ROOTCANAL_OPCODE [FStatus st; FInt subop_code] in
    if subop_code =? SEND_HCI_EVENT then
      with_view RootcanalSendHciEventView (bytes c) (λ '(event_code, payload),
        on_bredr (ScheduleTask rootcanal_delay (SendEvent (LinkManagerEvent event_code payload)));;
        reply SUCCESS)
    else if subop_code =? SEND_HCI_ACL_DATA then
      with_view RootcanalSendHciAclDataView (bytes c)
        (λ '(handle, packet_boundary_flag, broadcast_flag, payload),
        on_bredr (ScheduleTask rootcanal_delay
                    (SendAclLater handle packet_boundary_flag broadcast_flag payload));;
        reply SUCCESS)
    else reply ErrorCode.UNKNOWN_HCI_COMMAND).

(** ** Android *)

(** [ConnectionHandle::kVendorSpecificEventRangeStart], [kVendorSpecificEventRangeEnd] *)
Definition kVendorSpecificEventRangeStart : Z := 0x300.
Definition kVendorSpecificEventRangeEnd : Z := 0x3FF.
(** The fields of [VendorCapabilities_V_1_06] in the order the code sets them. *)
Definition vendor_capabilities (p : ControllerProperties) : list Z :=
  [0; 16; Z.b2z (supports_le_apcf_vendor_command p); le_apcf_filter_list_size p; 0;
   le_apcf_num_of_tracked_advertisers p; 0; 0; 0; 0; 0; 0; 0; 0; 0;
   kVendorSpecificEventRangeStart; kVendorSpecificEventRangeEnd; 0].
Definition LeGetVendorCapabilities (c : command) : D () :=
  with_view LeGetVendorCapabilitiesView (bytes c) (λ _,
    p ← gets properties_;
    if negb (supports_le_get_vendor_capabilities_command p)
    then SendCommandCompleteUnknownOpCodeEvent OpCode.LE_GET_VENDOR_CAPABILITIES
    else complete OpCode.LE_GET_VENDOR_CAPABILITIES [FStatus SUCCESS; FList (vendor_capabilities p)]).
Definition LeBatchScan (c : command) : D () :=
  with_view LeBatchScanView (bytes c) (λ _,
    SendCommandCompleteUnknownOpCodeEvent OpCode.LE_BATCH_SCAN).
Definition LeGetControllerActivityEnergyInfo (c : command) : D () :=
  with_view LeGetControllerActivityEnergyInfoView (bytes c) (λ _,
    SendCommandCompleteUnknownOpCodeEvent OpCode.LE_GET_CONTROLLER_ACTIVITY_ENERGY_INFO).
Definition LeExSetScanParameters (c : command) : D () :=
  with_view LeExSetScanParametersView (bytes c) (λ _,
    SendCommandCompleteUnknownOpCodeEvent OpCode.LE_EX_SET_SCAN_PARAMETERS).
Definition GetControllerDebugInfo (c : command) : D () :=
  with_view GetControllerDebugInfoView (bytes c) (λ _, succeed OpCode.GET_CONTROLLER_DEBUG_INFO).

(** *** The packet content filter *)

(** [ApcfApplicationAddressType::NOT_APPLICABLE] *)
Definition NOT_APPLICABLE : Z := 0x02.

(** The filter's answer: its status, the action and the room that is left. *)
Definition apcf_answer (apcf_opcode action : Z) (answer : ErrorCode.t * Z) : D () :=
  complete OpCode.LE_APCF [FStatus (fst answer); FInt apcf_opcode; FInt action; FInt (snd answer)].
Definition apcf_run (apcf_opcode action : Z) (filter_command : ApcfCommand) : D () :=
  answer ← on_le (apcf_room filter_command);
  apcf_answer apcf_opcode action answer.
Definition unknown_action : ErrorCode.t * Z := (INVALID_HCI_COMMAND_PARAMETERS, 0).

(** The view of the action is created and read; the view checked is the one of the
    sub command again. *)
Definition apcf_set_filtering_parameters (packet : list Z) : D () :=
  with_view LeApcfSetFilteringParametersView packet (λ action,
    answer ←
      (if action =? ApcfAction.ADD then
         '(i, features, list_logic, filter_logic, rssi_high, delivery_mode, onfound_timeout,
           onfound_timeout_cnt, rssi_low, onlost_timeout, tracking_entries) ←
           unchecked_view LeApcfAddFilteringParametersView packet;
         on_le (apcf_room (ApcfAdd (ApcfScanner.MkFilter i features list_logic filter_logic rssi_high delivery_mode
                  onfound_timeout onfound_timeout_cnt rssi_low onlost_timeout tracking_entries)))
       else if action =? ApcfAction.DELETE then
         i ← unchecked_view LeApcfDeleteFilteringParametersView packet;
         on_le (apcf_room (ApcfDelete i))
       else if action =? ApcfAction.CLEAR then on_le (apcf_room ApcfClear)
       else mret unknown_action);
    apcf_answer ApcfOpcode.SET_FILTERING_PARAMETERS action answer).
Definition apcf_broadcaster_address (packet : list Z) : D () :=
  with_view LeApcfBroadcasterAddressView packet (λ action,
    answer ←
      (if action =? ApcfAction.ADD then
         '(i, address, type) ← unchecked_view LeApcfAddBroadcasterAddressView packet;
         on_le (apcf_room (ApcfBroadcaster ApcfAction.ADD i address type))
       else if action =? ApcfAction.DELETE then
         '(i, address, type) ← unchecked_view LeApcfDeleteBroadcasterAddressView packet;
         on_le (apcf_room (ApcfBroadcaster ApcfAction.DELETE i address type))
       else if action =? ApcfAction.CLEAR then
         i ← unchecked_view LeApcfClearBroadcasterAddressView packet;
         on_le (apcf_room (ApcfBroadcaster ApcfAction.CLEAR i kEmpty NOT_APPLICABLE))
       else mret unknown_action);
    apcf_answer ApcfOpcode.BROADCASTER_ADDRESS action answer).
(** The commands with an action, a filter and bytes. *)
Definition apcf_table (v : view (Z * Z * list Z)) (apcf_opcode : Z)
    (filter_command : Z → Z → list Z → ApcfCommand) (packet : list Z) : D () :=
  with_view v packet (λ '(action, i, data), apcf_run apcf_opcode action (filter_command action i data)).
Definition LeApcf (c : command) : D () :=
  with_view LeApcfView (bytes c) (λ apcf_opcode,
    p ← gets properties_;
    let packet := bytes c in
    if negb (supports_le_apcf_vendor_command p)
    then SendCommandCompleteUnknownOpCodeEvent OpCode.LE_APCF
    else if apcf_opcode =? ApcfOpcode.ENABLE then
      with_view LeApcfEnableView packet (λ enable,
        st ← le_command (CmdApcfEnable enable);
        complete OpCode.LE_APCF [FStatus st; FInt apcf_opcode; FBool enable])
    else if apcf_opcode =? ApcfOpcode.SET_FILTERING_PARAMETERS then apcf_set_filtering_parameters packet
    else if apcf_opcode =? ApcfOpcode.BROADCASTER_ADDRESS then apcf_broadcaster_address packet
    else if apcf_opcode =? ApcfOpcode.SERVICE_UUID then
      apcf_table LeApcfServiceUuidView apcf_opcode ApcfServiceUuid packet
    else if apcf_opcode =? ApcfOpcode.SERVICE_SOLICITATION_UUID then
      apcf_table LeApcfServiceSolicitationUuidView apcf_opcode ApcfSolicitationUuid packet
    else if apcf_opcode =? ApcfOpcode.LOCAL_NAME then
      apcf_table LeApcfLocalNameView apcf_opcode ApcfLocalName packet
    else if apcf_opcode =? ApcfOpcode.MANUFACTURER_DATA then
      apcf_table LeApcfManufacturerDataView apcf_opcode ApcfManufacturer packet
    else if apcf_opcode =? ApcfOpcode.SERVICE_DATA then
      apcf_table LeApcfServiceDataView apcf_opcode ApcfServiceData packet
    else if apcf_opcode =? ApcfOpcode.TRANSPORT_DISCOVERY_SERVICE then
      with_view LeApcfTransportDiscoveryServiceView packet (λ '(action, _, _),
        apcf_answer apcf_opcode action unknown_action)
    else if apcf_opcode =? ApcfOpcode.AD_TYPE_FILTER then
      with_view LeApcfAdTypeFilterView packet (λ '(action, i, ad_type, data, mask),
        apcf_run apcf_opcode action (ApcfAdType action i ad_type data mask))
    else if apcf_opcode =? ApcfOpcode.READ_EXTENDED_FEATURES then
      with_view LeApcfReadExtendedFeaturesView packet (λ _,
        complete OpCode.LE_APCF [FStatus SUCCESS; FInt apcf_opcode; FBool false; FBool true])
    else
      complete OpCode.LE_APCF [FStatus INVALID_HCI_COMMAND_PARAMETERS; FInt apcf_opcode; FList []];;
      report_invalid_packet kUnsupported packet).

(** ** CSR *)

Definition byte_at (i : nat) (l : list Z) : Z := nth i l 0.
(** [(uint16_t)l[i] | ((uint16_t)l[i + 1] << 8)] *)
Definition word_at (i : nat) (l : list Z) : Z := Z.lor (byte_at i l) (Z.shiftl (byte_at (S i) l) 8).
(** Eight bytes, the lowest one first. *)
Fixpoint number_of (count : nat) (l : list Z) : Z :=
  match count with
  | O => 0
  | S count => Z.lor (byte_at 0 l) (Z.shiftl (number_of count (tail l)) 8)
  end.
(** [std::copy(value.begin(), value.end(), parameters.begin() + offset)] *)
Definition copy_at (offset : nat) (value parameters : list Z) : list Z :=
  take offset parameters ++ value ++ drop (offset + length value) parameters.

Definition CSR_VARID_BUILDID : Z := 0x2819.
Definition CSR_VARID_PS : Z := 0x7003.
Definition CSR_PSKEY_ENC_KEY_LMIN : Z := 0x00da.
Definition CSR_PSKEY_ENC_KEY_LMAX : Z := 0x00db.
Definition CSR_PSKEY_LOCAL_SUPPORTED_FEATURES : Z := 0x00ef.
Definition CSR_PSKEY_HCI_LMP_LOCAL_VERSION : Z := 0x010d.

Definition CsrReadVarid (varid : Z) (value : list Z) : outcome (list Z) :=
  if varid =? CSR_VARID_BUILDID then
    assert (2 <=? zlength value);;
    Ok (<[1%nat := 0x30]> (<[0%nat := 0xe8]> value))
  else Ok value.
Definition CsrWriteVarid (varid : Z) (value : list Z) : D () := mret ().
Definition CsrReadPskey (pskey : Z) (value : list Z) : outcome (list Z) :=
  if pskey =? CSR_PSKEY_ENC_KEY_LMIN then
    assert (negb (bool_decide (value = [])));;
    Ok (<[0%nat := 7]> value)
  else if pskey =? CSR_PSKEY_ENC_KEY_LMAX then
    assert (negb (bool_decide (value = [])));;
    Ok (<[0%nat := 16]> value)
  else if pskey =? CSR_PSKEY_HCI_LMP_LOCAL_VERSION then
    assert (2 <=? zlength value);;
    Ok (<[1%nat := 0x08]> (<[0%nat := 0x08]> value))
  else Ok value.
Definition CsrWritePskey (pskey : Z) (value : list Z) : D () :=
  if pskey =? CSR_PSKEY_LOCAL_SUPPORTED_FEATURES then
    lift (assert (8 <=? zlength value));;
    modify (update_properties (λ p, p <| lmp_features ::= <[0%nat := number_of 8 value]> |>))
  else mret ().

(** The parameters once the command has run; they are unchanged if they do not have
    the format. *)
Definition csr_run (parameters : list Z) : D (list Z) :=
  match parameters with
  | [] => mret parameters
  | code :: _ =>
      if negb (code =? 0xc2) || (zlength parameters <? 11) then mret parameters else
      let type := word_at 1 parameters in
      let varid := word_at 7 parameters in
      let length := u16 (2 * (word_at 3 parameters - 5)) in
      if (zlength parameters <? 11 + length) || ((varid =? CSR_VARID_PS) && (length <? 6))
      then mret parameters
      else if varid =? CSR_VARID_PS then
        let pskey := word_at 11 parameters in
        let length := u16 (2 * word_at 13 parameters) in
        if zlength parameters <? 17 + length then mret parameters else
        let value := take (Z.to_nat length) (drop 17 parameters) in
        if type =? 0 then
          value ← lift (CsrReadPskey pskey value);
          mret (copy_at 17 value parameters)
        else CsrWritePskey pskey value;; mret parameters
      else
        let value := take (Z.to_nat length) (drop 11 parameters) in
        if type =? 0 then
          value ← lift (CsrReadVarid varid value);
          mret (copy_at 11 value parameters)
        else CsrWriteVarid varid value;; mret parameters
  end.
(** The type of the answer is written over the one of the command; past the end of
    fewer than three parameters. *)
Definition CsrVendorCommand (c : command) : D () :=
  p ← gets properties_;
  if negb (supports_csr_vendor_command p)
  then SendCommandCompleteUnknownOpCodeEvent OpCode.CSR_OPCODE
  else
    parameters ← csr_run (payload c);
    (if zlength parameters <? 3 then lift Undef else mret ());;
    send_event_ (VendorSpecific (<[2%nat := 0x0]> (<[1%nat := 0x1]> parameters))).

(** ** Intel *)

(** The answers are given as bytes. *)
Definition IntelDdcConfigRead (c : command) : D () :=
  lift (assert (zlength (payload c) =? 2));;
  let id := word_at 0 (payload c) in
  complete OpCode.INTEL_DDC_CONFIG_READ
    [FList (if id =? 0x0204 then [ErrorCode.to_Z SUCCESS; 0x04; 0x02; 0x01; 0x10]
            else [ErrorCode.to_Z INVALID_HCI_COMMAND_PARAMETERS; 0x00; 0x00])].

(** The loop over the entries: a length, an identifier of two bytes and a value.
    [parameters] is what is left from [offset] on. *)
Fixpoint ddc_config_write (fuel : nat) (parameters : list Z) : D () :=
  match parameters with
  | [] => mret ()
  | len :: rest =>
      match fuel with
      | O => lift Hang
      | S fuel =>
          lift (assert ((2 <=? len) && (len <=? zlength rest)));;
          let id := word_at 0 rest in
          when ((id =? 0x0126) && (len =? 10))
            (modify (update_properties (λ p, p <| le_features := number_of 8 (drop 2 rest) |>)));;
          ddc_config_write fuel (drop (Z.to_nat len) rest)
      end
  end.
Definition IntelDdcConfigWrite (c : command) : D () :=
  ddc_config_write (length (payload c)) (payload c);;
  complete OpCode.INTEL_DDC_CONFIG_WRITE [FList [ErrorCode.to_Z SUCCESS; 0x00; 0x00]].
End DualVendor.
