(* ===== verification/DualMode.v ===== *)
(** * The dual mode controller (dual_mode_controller.cc)

    The tables of the commands, the dispatch of the packets of the host, the packets
    of the air, time, and the controller as a transition system. *)

From S2P Require Import Prelude HciTypes OpCodes Properties Address CsTypes Sco Connections LeState LeLists.
From S2P Require Import LeAdvertiser LePhy LeScan LeConnect LeSubrate LeSounding LeApcf LeIso LeLink Tasks.
From S2P Require Import Controller Machine BrState BrCommands BrLink BrInvariant BrMachine HciViews Random.
From S2P Require Import DualState DualBr DualLe DualVendor.

(** ** The tables *)

(** The bit of each command in the mask of the supported commands. *)
Definition GetOpCodeToIndex : list (Z * Z) := [
  (OpCode.INQUIRY, OpCodeIndex.INQUIRY);
  (OpCode.INQUIRY_CANCEL, OpCodeIndex.INQUIRY_CANCEL);
  (OpCode.PERIODIC_INQUIRY_MODE, OpCodeIndex.PERIODIC_INQUIRY_MODE);
  (OpCode.EXIT_PERIODIC_INQUIRY_MODE, OpCodeIndex.EXIT_PERIODIC_INQUIRY_MODE);
  (OpCode.CREATE_CONNECTION, OpCodeIndex.CREATE_CONNECTION);
  (OpCode.DISCONNECT, OpCodeIndex.DISCONNECT);
  (OpCode.ADD_SCO_CONNECTION, OpCodeIndex.ADD_SCO_CONNECTION);
  (OpCode.CREATE_CONNECTION_CANCEL, OpCodeIndex.CREATE_CONNECTION_CANCEL);
  (OpCode.ACCEPT_CONNECTION_REQUEST, OpCodeIndex.ACCEPT_CONNECTION_REQUEST);
  (OpCode.REJECT_CONNECTION_REQUEST, OpCodeIndex.REJECT_CONNECTION_REQUEST);
  (OpCode.LINK_KEY_REQUEST_REPLY, OpCodeIndex.LINK_KEY_REQUEST_REPLY);
  (OpCode.LINK_KEY_REQUEST_NEGATIVE_REPLY, OpCodeIndex.LINK_KEY_REQUEST_NEGATIVE_REPLY);
  (OpCode.PIN_CODE_REQUEST_REPLY, OpCodeIndex.PIN_CODE_REQUEST_REPLY);
  (OpCode.PIN_CODE_REQUEST_NEGATIVE_REPLY, OpCodeIndex.PIN_CODE_REQUEST_NEGATIVE_REPLY);
  (OpCode.CHANGE_CONNECTION_PACKET_TYPE, OpCodeIndex.CHANGE_CONNECTION_PACKET_TYPE);
  (OpCode.AUTHENTICATION_REQUESTED, OpCodeIndex.AUTHENTICATION_REQUESTED);
  (OpCode.SET_CONNECTION_ENCRYPTION, OpCodeIndex.SET_CONNECTION_ENCRYPTION);
  (OpCode.CHANGE_CONNECTION_LINK_KEY, OpCodeIndex.CHANGE_CONNECTION_LINK_KEY);
  (OpCode.CENTRAL_LINK_KEY, OpCodeIndex.CENTRAL_LINK_KEY);
  (OpCode.REMOTE_NAME_REQUEST, OpCodeIndex.REMOTE_NAME_REQUEST);
  (OpCode.REMOTE_NAME_REQUEST_CANCEL, OpCodeIndex.REMOTE_NAME_REQUEST_CANCEL);
  (OpCode.READ_REMOTE_SUPPORTED_FEATURES, OpCodeIndex.READ_REMOTE_SUPPORTED_FEATURES);
  (OpCode.READ_REMOTE_EXTENDED_FEATURES, OpCodeIndex.READ_REMOTE_EXTENDED_FEATURES);
  (OpCode.READ_REMOTE_VERSION_INFORMATION, OpCodeIndex.READ_REMOTE_VERSION_INFORMATION);
  (OpCode.READ_CLOCK_OFFSET, OpCodeIndex.READ_CLOCK_OFFSET);
  (OpCode.READ_LMP_HANDLE, OpCodeIndex.READ_LMP_HANDLE);
  (OpCode.SETUP_SYNCHRONOUS_CONNECTION, OpCodeIndex.SETUP_SYNCHRONOUS_CONNECTION);
  (OpCode.ACCEPT_SYNCHRONOUS_CONNECTION, OpCodeIndex.ACCEPT_SYNCHRONOUS_CONNECTION);
  (OpCode.REJECT_SYNCHRONOUS_CONNECTION, OpCodeIndex.REJECT_SYNCHRONOUS_CONNECTION);
  (OpCode.IO_CAPABILITY_REQUEST_REPLY, OpCodeIndex.IO_CAPABILITY_REQUEST_REPLY);
  (OpCode.USER_CONFIRMATION_REQUEST_REPLY, OpCodeIndex.USER_CONFIRMATION_REQUEST_REPLY);
  (OpCode.USER_CONFIRMATION_REQUEST_NEGATIVE_REPLY, OpCodeIndex.USER_CONFIRMATION_REQUEST_NEGATIVE_REPLY);
  (OpCode.USER_PASSKEY_REQUEST_REPLY, OpCodeIndex.USER_PASSKEY_REQUEST_REPLY);
  (OpCode.USER_PASSKEY_REQUEST_NEGATIVE_REPLY, OpCodeIndex.USER_PASSKEY_REQUEST_NEGATIVE_REPLY);
  (OpCode.REMOTE_OOB_DATA_REQUEST_REPLY, OpCodeIndex.REMOTE_OOB_DATA_REQUEST_REPLY);
  (OpCode.REMOTE_OOB_DATA_REQUEST_NEGATIVE_REPLY, OpCodeIndex.REMOTE_OOB_DATA_REQUEST_NEGATIVE_REPLY);
  (OpCode.IO_CAPABILITY_REQUEST_NEGATIVE_REPLY, OpCodeIndex.IO_CAPABILITY_REQUEST_NEGATIVE_REPLY);
  (OpCode.ENHANCED_SETUP_SYNCHRONOUS_CONNECTION, OpCodeIndex.ENHANCED_SETUP_SYNCHRONOUS_CONNECTION);
  (OpCode.ENHANCED_ACCEPT_SYNCHRONOUS_CONNECTION, OpCodeIndex.ENHANCED_ACCEPT_SYNCHRONOUS_CONNECTION);
  (OpCode.TRUNCATED_PAGE, OpCodeIndex.TRUNCATED_PAGE);
  (OpCode.TRUNCATED_PAGE_CANCEL, OpCodeIndex.TRUNCATED_PAGE_CANCEL);
  (OpCode.SET_CONNECTIONLESS_PERIPHERAL_BROADCAST, OpCodeIndex.SET_CONNECTIONLESS_PERIPHERAL_BROADCAST);
  (OpCode.SET_CONNECTIONLESS_PERIPHERAL_BROADCAST_RECEIVE, OpCodeIndex.SET_CONNECTIONLESS_PERIPHERAL_BROADCAST_RECEIVE);
  (OpCode.START_SYNCHRONIZATION_TRAIN, OpCodeIndex.START_SYNCHRONIZATION_TRAIN);
  (OpCode.RECEIVE_SYNCHRONIZATION_TRAIN, OpCodeIndex.RECEIVE_SYNCHRONIZATION_TRAIN);
  (OpCode.REMOTE_OOB_EXTENDED_DATA_REQUEST_REPLY, OpCodeIndex.REMOTE_OOB_EXTENDED_DATA_REQUEST_REPLY);
  (OpCode.HOLD_MODE, OpCodeIndex.HOLD_MODE);
  (OpCode.SNIFF_MODE, OpCodeIndex.SNIFF_MODE);
  (OpCode.EXIT_SNIFF_MODE, OpCodeIndex.EXIT_SNIFF_MODE);
  (OpCode.QOS_SETUP, OpCodeIndex.QOS_SETUP);
  (OpCode.ROLE_DISCOVERY, OpCodeIndex.ROLE_DISCOVERY);
  (OpCode.SWITCH_ROLE, OpCodeIndex.SWITCH_ROLE);
  (OpCode.READ_LINK_POLICY_SETTINGS, OpCodeIndex.READ_LINK_POLICY_SETTINGS);
  (OpCode.WRITE_LINK_POLICY_SETTINGS, OpCodeIndex.WRITE_LINK_POLICY_SETTINGS);
  (OpCode.READ_DEFAULT_LINK_POLICY_SETTINGS, OpCodeIndex.READ_DEFAULT_LINK_POLICY_SETTINGS);
  (OpCode.WRITE_DEFAULT_LINK_POLICY_SETTINGS, OpCodeIndex.WRITE_DEFAULT_LINK_POLICY_SETTINGS);
  (OpCode.FLOW_SPECIFICATION, OpCodeIndex.FLOW_SPECIFICATION);
  (OpCode.SNIFF_SUBRATING, OpCodeIndex.SNIFF_SUBRATING);
  (OpCode.SET_EVENT_MASK, OpCodeIndex.SET_EVENT_MASK);
  (OpCode.RESET, OpCodeIndex.RESET);
  (OpCode.SET_EVENT_FILTER, OpCodeIndex.SET_EVENT_FILTER);
  (OpCode.FLUSH, OpCodeIndex.FLUSH);
  (OpCode.READ_PIN_TYPE, OpCodeIndex.READ_PIN_TYPE);
  (OpCode.WRITE_PIN_TYPE, OpCodeIndex.WRITE_PIN_TYPE);
  (OpCode.READ_STORED_LINK_KEY, OpCodeIndex.READ_STORED_LINK_KEY);
  (OpCode.WRITE_STORED_LINK_KEY, OpCodeIndex.WRITE_STORED_LINK_KEY);
  (OpCode.DELETE_STORED_LINK_KEY, OpCodeIndex.DELETE_STORED_LINK_KEY);
  (OpCode.WRITE_LOCAL_NAME, OpCodeIndex.WRITE_LOCAL_NAME);
  (OpCode.READ_LOCAL_NAME, OpCodeIndex.READ_LOCAL_NAME);
  (OpCode.READ_CONNECTION_ACCEPT_TIMEOUT, OpCodeIndex.READ_CONNECTION_ACCEPT_TIMEOUT);
  (OpCode.WRITE_CONNECTION_ACCEPT_TIMEOUT, OpCodeIndex.WRITE_CONNECTION_ACCEPT_TIMEOUT);
  (OpCode.READ_PAGE_TIMEOUT, OpCodeIndex.READ_PAGE_TIMEOUT);
  (OpCode.WRITE_PAGE_TIMEOUT, OpCodeIndex.WRITE_PAGE_TIMEOUT);
  (OpCode.READ_SCAN_ENABLE, OpCodeIndex.READ_SCAN_ENABLE);
  (OpCode.WRITE_SCAN_ENABLE, OpCodeIndex.WRITE_SCAN_ENABLE);
  (OpCode.READ_PAGE_SCAN_ACTIVITY, OpCodeIndex.READ_PAGE_SCAN_ACTIVITY);
  (OpCode.WRITE_PAGE_SCAN_ACTIVITY, OpCodeIndex.WRITE_PAGE_SCAN_ACTIVITY);
  (OpCode.READ_INQUIRY_SCAN_ACTIVITY, OpCodeIndex.READ_INQUIRY_SCAN_ACTIVITY);
  (OpCode.WRITE_INQUIRY_SCAN_ACTIVITY, OpCodeIndex.WRITE_INQUIRY_SCAN_ACTIVITY);
  (OpCode.READ_AUTHENTICATION_ENABLE, OpCodeIndex.READ_AUTHENTICATION_ENABLE);
  (OpCode.WRITE_AUTHENTICATION_ENABLE, OpCodeIndex.WRITE_AUTHENTICATION_ENABLE);
  (OpCode.READ_CLASS_OF_DEVICE, OpCodeIndex.READ_CLASS_OF_DEVICE);
  (OpCode.WRITE_CLASS_OF_DEVICE, OpCodeIndex.WRITE_CLASS_OF_DEVICE);
  (OpCode.READ_VOICE_SETTING, OpCodeIndex.READ_VOICE_SETTING);
  (OpCode.WRITE_VOICE_SETTING, OpCodeIndex.WRITE_VOICE_SETTING);
  (OpCode.READ_AUTOMATIC_FLUSH_TIMEOUT, OpCodeIndex.READ_AUTOMATIC_FLUSH_TIMEOUT);
  (OpCode.WRITE_AUTOMATIC_FLUSH_TIMEOUT, OpCodeIndex.WRITE_AUTOMATIC_FLUSH_TIMEOUT);
  (OpCode.READ_NUM_BROADCAST_RETRANSMITS, OpCodeIndex.READ_NUM_BROADCAST_RETRANSMITS);
  (OpCode.WRITE_NUM_BROADCAST_RETRANSMITS, OpCodeIndex.WRITE_NUM_BROADCAST_RETRANSMITS);
  (OpCode.READ_HOLD_MODE_ACTIVITY, OpCodeIndex.READ_HOLD_MODE_ACTIVITY);
  (OpCode.WRITE_HOLD_MODE_ACTIVITY, OpCodeIndex.WRITE_HOLD_MODE_ACTIVITY);
  (OpCode.READ_TRANSMIT_POWER_LEVEL, OpCodeIndex.READ_TRANSMIT_POWER_LEVEL);
  (OpCode.READ_SYNCHRONOUS_FLOW_CONTROL_ENABLE, OpCodeIndex.READ_SYNCHRONOUS_FLOW_CONTROL_ENABLE);
  (OpCode.WRITE_SYNCHRONOUS_FLOW_CONTROL_ENABLE, OpCodeIndex.WRITE_SYNCHRONOUS_FLOW_CONTROL_ENABLE);
  (OpCode.SET_CONTROLLER_TO_HOST_FLOW_CONTROL, OpCodeIndex.SET_CONTROLLER_TO_HOST_FLOW_CONTROL);
  (OpCode.HOST_BUFFER_SIZE, OpCodeIndex.HOST_BUFFER_SIZE);
  (OpCode.HOST_NUMBER_OF_COMPLETED_PACKETS, OpCodeIndex.HOST_NUMBER_OF_COMPLETED_PACKETS);
  (OpCode.READ_LINK_SUPERVISION_TIMEOUT, OpCodeIndex.READ_LINK_SUPERVISION_TIMEOUT);
  (OpCode.WRITE_LINK_SUPERVISION_TIMEOUT, OpCodeIndex.WRITE_LINK_SUPERVISION_TIMEOUT);
  (OpCode.READ_NUMBER_OF_SUPPORTED_IAC, OpCodeIndex.READ_NUMBER_OF_SUPPORTED_IAC);
  (OpCode.READ_CURRENT_IAC_LAP, OpCodeIndex.READ_CURRENT_IAC_LAP);
  (OpCode.WRITE_CURRENT_IAC_LAP, OpCodeIndex.WRITE_CURRENT_IAC_LAP);
  (OpCode.SET_AFH_HOST_CHANNEL_CLASSIFICATION, OpCodeIndex.SET_AFH_HOST_CHANNEL_CLASSIFICATION);
  (OpCode.READ_INQUIRY_SCAN_TYPE, OpCodeIndex.READ_INQUIRY_SCAN_TYPE);
  (OpCode.WRITE_INQUIRY_SCAN_TYPE, OpCodeIndex.WRITE_INQUIRY_SCAN_TYPE);
  (OpCode.READ_INQUIRY_MODE, OpCodeIndex.READ_INQUIRY_MODE);
  (OpCode.WRITE_INQUIRY_MODE, OpCodeIndex.WRITE_INQUIRY_MODE);
  (OpCode.READ_PAGE_SCAN_TYPE, OpCodeIndex.READ_PAGE_SCAN_TYPE);
  (OpCode.WRITE_PAGE_SCAN_TYPE, OpCodeIndex.WRITE_PAGE_SCAN_TYPE);
  (OpCode.READ_AFH_CHANNEL_ASSESSMENT_MODE, OpCodeIndex.READ_AFH_CHANNEL_ASSESSMENT_MODE);
  (OpCode.WRITE_AFH_CHANNEL_ASSESSMENT_MODE, OpCodeIndex.WRITE_AFH_CHANNEL_ASSESSMENT_MODE);
  (OpCode.READ_EXTENDED_INQUIRY_RESPONSE, OpCodeIndex.READ_EXTENDED_INQUIRY_RESPONSE);
  (OpCode.WRITE_EXTENDED_INQUIRY_RESPONSE, OpCodeIndex.WRITE_EXTENDED_INQUIRY_RESPONSE);
  (OpCode.REFRESH_ENCRYPTION_KEY, OpCodeIndex.REFRESH_ENCRYPTION_KEY);
  (OpCode.READ_SIMPLE_PAIRING_MODE, OpCodeIndex.READ_SIMPLE_PAIRING_MODE);
  (OpCode.WRITE_SIMPLE_PAIRING_MODE, OpCodeIndex.WRITE_SIMPLE_PAIRING_MODE);
  (OpCode.READ_LOCAL_OOB_DATA, OpCodeIndex.READ_LOCAL_OOB_DATA);
  (OpCode.READ_INQUIRY_RESPONSE_TRANSMIT_POWER_LEVEL, OpCodeIndex.READ_INQUIRY_RESPONSE_TRANSMIT_POWER_LEVEL);
  (OpCode.WRITE_INQUIRY_TRANSMIT_POWER_LEVEL, OpCodeIndex.WRITE_INQUIRY_TRANSMIT_POWER_LEVEL);
  (OpCode.READ_DEFAULT_ERRONEOUS_DATA_REPORTING, OpCodeIndex.READ_DEFAULT_ERRONEOUS_DATA_REPORTING);
  (OpCode.WRITE_DEFAULT_ERRONEOUS_DATA_REPORTING, OpCodeIndex.WRITE_DEFAULT_ERRONEOUS_DATA_REPORTING);
  (OpCode.ENHANCED_FLUSH, OpCodeIndex.ENHANCED_FLUSH);
  (OpCode.SEND_KEYPRESS_NOTIFICATION, OpCodeIndex.SEND_KEYPRESS_NOTIFICATION);
  (OpCode.SET_EVENT_MASK_PAGE_2, OpCodeIndex.SET_EVENT_MASK_PAGE_2);
  (OpCode.READ_FLOW_CONTROL_MODE, OpCodeIndex.READ_FLOW_CONTROL_MODE);
  (OpCode.WRITE_FLOW_CONTROL_MODE, OpCodeIndex.WRITE_FLOW_CONTROL_MODE);
  (OpCode.READ_ENHANCED_TRANSMIT_POWER_LEVEL, OpCodeIndex.READ_ENHANCED_TRANSMIT_POWER_LEVEL);
  (OpCode.READ_LE_HOST_SUPPORT, OpCodeIndex.READ_LE_HOST_SUPPORT);
  (OpCode.WRITE_LE_HOST_SUPPORT, OpCodeIndex.WRITE_LE_HOST_SUPPORT);
  (OpCode.SET_MWS_CHANNEL_PARAMETERS, OpCodeIndex.SET_MWS_CHANNEL_PARAMETERS);
  (OpCode.SET_EXTERNAL_FRAME_CONFIGURATION, OpCodeIndex.SET_EXTERNAL_FRAME_CONFIGURATION);
  (OpCode.SET_MWS_SIGNALING, OpCodeIndex.SET_MWS_SIGNALING);
  (OpCode.SET_MWS_TRANSPORT_LAYER, OpCodeIndex.SET_MWS_TRANSPORT_LAYER);
  (OpCode.SET_MWS_SCAN_FREQUENCY_TABLE, OpCodeIndex.SET_MWS_SCAN_FREQUENCY_TABLE);
  (OpCode.SET_MWS_PATTERN_CONFIGURATION, OpCodeIndex.SET_MWS_PATTERN_CONFIGURATION);
  (OpCode.SET_RESERVED_LT_ADDR, OpCodeIndex.SET_RESERVED_LT_ADDR);
  (OpCode.DELETE_RESERVED_LT_ADDR, OpCodeIndex.DELETE_RESERVED_LT_ADDR);
  (OpCode.SET_CONNECTIONLESS_PERIPHERAL_BROADCAST_DATA, OpCodeIndex.SET_CONNECTIONLESS_PERIPHERAL_BROADCAST_DATA);
  (OpCode.READ_SYNCHRONIZATION_TRAIN_PARAMETERS, OpCodeIndex.READ_SYNCHRONIZATION_TRAIN_PARAMETERS);
  (OpCode.WRITE_SYNCHRONIZATION_TRAIN_PARAMETERS, OpCodeIndex.WRITE_SYNCHRONIZATION_TRAIN_PARAMETERS);
  (OpCode.READ_SECURE_CONNECTIONS_HOST_SUPPORT, OpCodeIndex.READ_SECURE_CONNECTIONS_HOST_SUPPORT);
  (OpCode.WRITE_SECURE_CONNECTIONS_HOST_SUPPORT, OpCodeIndex.WRITE_SECURE_CONNECTIONS_HOST_SUPPORT);
  (OpCode.READ_AUTHENTICATED_PAYLOAD_TIMEOUT, OpCodeIndex.READ_AUTHENTICATED_PAYLOAD_TIMEOUT);
  (OpCode.WRITE_AUTHENTICATED_PAYLOAD_TIMEOUT, OpCodeIndex.WRITE_AUTHENTICATED_PAYLOAD_TIMEOUT);
  (OpCode.READ_LOCAL_OOB_EXTENDED_DATA, OpCodeIndex.READ_LOCAL_OOB_EXTENDED_DATA);
  (OpCode.READ_EXTENDED_PAGE_TIMEOUT, OpCodeIndex.READ_EXTENDED_PAGE_TIMEOUT);
  (OpCode.WRITE_EXTENDED_PAGE_TIMEOUT, OpCodeIndex.WRITE_EXTENDED_PAGE_TIMEOUT);
  (OpCode.READ_EXTENDED_INQUIRY_LENGTH, OpCodeIndex.READ_EXTENDED_INQUIRY_LENGTH);
  (OpCode.WRITE_EXTENDED_INQUIRY_LENGTH, OpCodeIndex.WRITE_EXTENDED_INQUIRY_LENGTH);
  (OpCode.SET_ECOSYSTEM_BASE_INTERVAL, OpCodeIndex.SET_ECOSYSTEM_BASE_INTERVAL);
  (OpCode.CONFIGURE_DATA_PATH, OpCodeIndex.CONFIGURE_DATA_PATH);
  (OpCode.SET_MIN_ENCRYPTION_KEY_SIZE, OpCodeIndex.SET_MIN_ENCRYPTION_KEY_SIZE);
  (OpCode.READ_LOCAL_VERSION_INFORMATION, OpCodeIndex.READ_LOCAL_VERSION_INFORMATION);
  (OpCode.READ_LOCAL_SUPPORTED_FEATURES, OpCodeIndex.READ_LOCAL_SUPPORTED_FEATURES);
  (OpCode.READ_LOCAL_EXTENDED_FEATURES, OpCodeIndex.READ_LOCAL_EXTENDED_FEATURES);
  (OpCode.READ_BUFFER_SIZE, OpCodeIndex.READ_BUFFER_SIZE);
  (OpCode.READ_BD_ADDR, OpCodeIndex.READ_BD_ADDR);
  (OpCode.READ_DATA_BLOCK_SIZE, OpCodeIndex.READ_DATA_BLOCK_SIZE);
  (OpCode.READ_LOCAL_SUPPORTED_CODECS_V1, OpCodeIndex.READ_LOCAL_SUPPORTED_CODECS_V1);
  (OpCode.READ_LOCAL_SIMPLE_PAIRING_OPTIONS, OpCodeIndex.READ_LOCAL_SIMPLE_PAIRING_OPTIONS);
  (OpCode.READ_LOCAL_SUPPORTED_CODECS_V2, OpCodeIndex.READ_LOCAL_SUPPORTED_CODECS_V2);
  (OpCode.READ_LOCAL_SUPPORTED_CODEC_CAPABILITIES, OpCodeIndex.READ_LOCAL_SUPPORTED_CODEC_CAPABILITIES);
  (OpCode.READ_LOCAL_SUPPORTED_CONTROLLER_DELAY, OpCodeIndex.READ_LOCAL_SUPPORTED_CONTROLLER_DELAY);
  (OpCode.READ_FAILED_CONTACT_COUNTER, OpCodeIndex.READ_FAILED_CONTACT_COUNTER);
  (OpCode.RESET_FAILED_CONTACT_COUNTER, OpCodeIndex.RESET_FAILED_CONTACT_COUNTER);
  (OpCode.READ_LINK_QUALITY, OpCodeIndex.READ_LINK_QUALITY);
  (OpCode.READ_RSSI, OpCodeIndex.READ_RSSI);
  (OpCode.READ_AFH_CHANNEL_MAP, OpCodeIndex.READ_AFH_CHANNEL_MAP);
  (OpCode.READ_CLOCK, OpCodeIndex.READ_CLOCK);
  (OpCode.READ_ENCRYPTION_KEY_SIZE, OpCodeIndex.READ_ENCRYPTION_KEY_SIZE);
  (OpCode.GET_MWS_TRANSPORT_LAYER_CONFIGURATION, OpCodeIndex.GET_MWS_TRANSPORT_LAYER_CONFIGURATION);
  (OpCode.SET_TRIGGERED_CLOCK_CAPTURE, OpCodeIndex.SET_TRIGGERED_CLOCK_CAPTURE);
  (OpCode.READ_LOOPBACK_MODE, OpCodeIndex.READ_LOOPBACK_MODE);
  (OpCode.WRITE_LOOPBACK_MODE, OpCodeIndex.WRITE_LOOPBACK_MODE);
  (OpCode.ENABLE_IMPLEMENTATION_UNDER_TEST_MODE, OpCodeIndex.ENABLE_IMPLEMENTATION_UNDER_TEST_MODE);
  (OpCode.WRITE_SIMPLE_PAIRING_DEBUG_MODE, OpCodeIndex.WRITE_SIMPLE_PAIRING_DEBUG_MODE);
  (OpCode.WRITE_SECURE_CONNECTIONS_TEST_MODE, OpCodeIndex.WRITE_SECURE_CONNECTIONS_TEST_MODE);
  (OpCode.LE_SET_EVENT_MASK, OpCodeIndex.LE_SET_EVENT_MASK);
  (OpCode.LE_READ_BUFFER_SIZE_V1, OpCodeIndex.LE_READ_BUFFER_SIZE_V1);
  (OpCode.LE_READ_LOCAL_SUPPORTED_FEATURES_PAGE_0, OpCodeIndex.LE_READ_LOCAL_SUPPORTED_FEATURES_PAGE_0);
  (OpCode.LE_SET_RANDOM_ADDRESS, OpCodeIndex.LE_SET_RANDOM_ADDRESS);
  (OpCode.LE_SET_ADVERTISING_PARAMETERS, OpCodeIndex.LE_SET_ADVERTISING_PARAMETERS);
  (OpCode.LE_READ_ADVERTISING_PHYSICAL_CHANNEL_TX_POWER, OpCodeIndex.LE_READ_ADVERTISING_PHYSICAL_CHANNEL_TX_POWER);
  (OpCode.LE_SET_ADVERTISING_DATA, OpCodeIndex.LE_SET_ADVERTISING_DATA);
  (OpCode.LE_SET_SCAN_RESPONSE_DATA, OpCodeIndex.LE_SET_SCAN_RESPONSE_DATA);
  (OpCode.LE_SET_ADVERTISING_ENABLE, OpCodeIndex.LE_SET_ADVERTISING_ENABLE);
  (OpCode.LE_SET_SCAN_PARAMETERS, OpCodeIndex.LE_SET_SCAN_PARAMETERS);
  (OpCode.LE_SET_SCAN_ENABLE, OpCodeIndex.LE_SET_SCAN_ENABLE);
  (OpCode.LE_CREATE_CONNECTION, OpCodeIndex.LE_CREATE_CONNECTION);
  (OpCode.LE_CREATE_CONNECTION_CANCEL, OpCodeIndex.LE_CREATE_CONNECTION_CANCEL);
  (OpCode.LE_READ_FILTER_ACCEPT_LIST_SIZE, OpCodeIndex.LE_READ_FILTER_ACCEPT_LIST_SIZE);
  (OpCode.LE_CLEAR_FILTER_ACCEPT_LIST, OpCodeIndex.LE_CLEAR_FILTER_ACCEPT_LIST);
  (OpCode.LE_ADD_DEVICE_TO_FILTER_ACCEPT_LIST, OpCodeIndex.LE_ADD_DEVICE_TO_FILTER_ACCEPT_LIST);
  (OpCode.LE_REMOVE_DEVICE_FROM_FILTER_ACCEPT_LIST, OpCodeIndex.LE_REMOVE_DEVICE_FROM_FILTER_ACCEPT_LIST);
  (OpCode.LE_CONNECTION_UPDATE, OpCodeIndex.LE_CONNECTION_UPDATE);
  (OpCode.LE_SET_HOST_CHANNEL_CLASSIFICATION, OpCodeIndex.LE_SET_HOST_CHANNEL_CLASSIFICATION);
  (OpCode.LE_READ_CHANNEL_MAP, OpCodeIndex.LE_READ_CHANNEL_MAP);
  (OpCode.LE_READ_REMOTE_FEATURES_PAGE_0, OpCodeIndex.LE_READ_REMOTE_FEATURES_PAGE_0);
  (OpCode.LE_ENCRYPT, OpCodeIndex.LE_ENCRYPT);
  (OpCode.LE_RAND, OpCodeIndex.LE_RAND);
  (OpCode.LE_START_ENCRYPTION, OpCodeIndex.LE_START_ENCRYPTION);
  (OpCode.LE_LONG_TERM_KEY_REQUEST_REPLY, OpCodeIndex.LE_LONG_TERM_KEY_REQUEST_REPLY);
  (OpCode.LE_LONG_TERM_KEY_REQUEST_NEGATIVE_REPLY, OpCodeIndex.LE_LONG_TERM_KEY_REQUEST_NEGATIVE_REPLY);
  (OpCode.LE_READ_SUPPORTED_STATES, OpCodeIndex.LE_READ_SUPPORTED_STATES);
  (OpCode.LE_RECEIVER_TEST_V1, OpCodeIndex.LE_RECEIVER_TEST_V1);
  (OpCode.LE_TRANSMITTER_TEST_V1, OpCodeIndex.LE_TRANSMITTER_TEST_V1);
  (OpCode.LE_TEST_END, OpCodeIndex.LE_TEST_END);
  (OpCode.LE_REMOTE_CONNECTION_PARAMETER_REQUEST_REPLY, OpCodeIndex.LE_REMOTE_CONNECTION_PARAMETER_REQUEST_REPLY);
  (OpCode.LE_REMOTE_CONNECTION_PARAMETER_REQUEST_NEGATIVE_REPLY, OpCodeIndex.LE_REMOTE_CONNECTION_PARAMETER_REQUEST_NEGATIVE_REPLY);
  (OpCode.LE_SET_DATA_LENGTH, OpCodeIndex.LE_SET_DATA_LENGTH);
  (OpCode.LE_READ_SUGGESTED_DEFAULT_DATA_LENGTH, OpCodeIndex.LE_READ_SUGGESTED_DEFAULT_DATA_LENGTH);
  (OpCode.LE_WRITE_SUGGESTED_DEFAULT_DATA_LENGTH, OpCodeIndex.LE_WRITE_SUGGESTED_DEFAULT_DATA_LENGTH);
  (OpCode.LE_READ_LOCAL_P_256_PUBLIC_KEY, OpCodeIndex.LE_READ_LOCAL_P_256_PUBLIC_KEY);
  (OpCode.LE_GENERATE_DHKEY_V1, OpCodeIndex.LE_GENERATE_DHKEY_V1);
  (OpCode.LE_ADD_DEVICE_TO_RESOLVING_LIST, OpCodeIndex.LE_ADD_DEVICE_TO_RESOLVING_LIST);
  (OpCode.LE_REMOVE_DEVICE_FROM_RESOLVING_LIST, OpCodeIndex.LE_REMOVE_DEVICE_FROM_RESOLVING_LIST);
  (OpCode.LE_CLEAR_RESOLVING_LIST, OpCodeIndex.LE_CLEAR_RESOLVING_LIST);
  (OpCode.LE_READ_RESOLVING_LIST_SIZE, OpCodeIndex.LE_READ_RESOLVING_LIST_SIZE);
  (OpCode.LE_READ_PEER_RESOLVABLE_ADDRESS, OpCodeIndex.LE_READ_PEER_RESOLVABLE_ADDRESS);
  (OpCode.LE_READ_LOCAL_RESOLVABLE_ADDRESS, OpCodeIndex.LE_READ_LOCAL_RESOLVABLE_ADDRESS);
  (OpCode.LE_SET_ADDRESS_RESOLUTION_ENABLE, OpCodeIndex.LE_SET_ADDRESS_RESOLUTION_ENABLE);
  (OpCode.LE_SET_RESOLVABLE_PRIVATE_ADDRESS_TIMEOUT, OpCodeIndex.LE_SET_RESOLVABLE_PRIVATE_ADDRESS_TIMEOUT);
  (OpCode.LE_READ_MAXIMUM_DATA_LENGTH, OpCodeIndex.LE_READ_MAXIMUM_DATA_LENGTH);
  (OpCode.LE_READ_PHY, OpCodeIndex.LE_READ_PHY);
  (OpCode.LE_SET_DEFAULT_PHY, OpCodeIndex.LE_SET_DEFAULT_PHY);
  (OpCode.LE_SET_PHY, OpCodeIndex.LE_SET_PHY);
  (OpCode.LE_RECEIVER_TEST_V2, OpCodeIndex.LE_RECEIVER_TEST_V2);
  (OpCode.LE_TRANSMITTER_TEST_V2, OpCodeIndex.LE_TRANSMITTER_TEST_V2);
  (OpCode.LE_SET_ADVERTISING_SET_RANDOM_ADDRESS, OpCodeIndex.LE_SET_ADVERTISING_SET_RANDOM_ADDRESS);
  (OpCode.LE_SET_EXTENDED_ADVERTISING_PARAMETERS_V1, OpCodeIndex.LE_SET_EXTENDED_ADVERTISING_PARAMETERS_V1);
  (OpCode.LE_SET_EXTENDED_ADVERTISING_DATA, OpCodeIndex.LE_SET_EXTENDED_ADVERTISING_DATA);
  (OpCode.LE_SET_EXTENDED_SCAN_RESPONSE_DATA, OpCodeIndex.LE_SET_EXTENDED_SCAN_RESPONSE_DATA);
  (OpCode.LE_SET_EXTENDED_ADVERTISING_ENABLE, OpCodeIndex.LE_SET_EXTENDED_ADVERTISING_ENABLE);
  (OpCode.LE_READ_MAXIMUM_ADVERTISING_DATA_LENGTH, OpCodeIndex.LE_READ_MAXIMUM_ADVERTISING_DATA_LENGTH);
  (OpCode.LE_READ_NUMBER_OF_SUPPORTED_ADVERTISING_SETS, OpCodeIndex.LE_READ_NUMBER_OF_SUPPORTED_ADVERTISING_SETS);
  (OpCode.LE_REMOVE_ADVERTISING_SET, OpCodeIndex.LE_REMOVE_ADVERTISING_SET);
  (OpCode.LE_CLEAR_ADVERTISING_SETS, OpCodeIndex.LE_CLEAR_ADVERTISING_SETS);
  (OpCode.LE_SET_PERIODIC_ADVERTISING_PARAMETERS_V1, OpCodeIndex.LE_SET_PERIODIC_ADVERTISING_PARAMETERS_V1);
  (OpCode.LE_SET_PERIODIC_ADVERTISING_DATA, OpCodeIndex.LE_SET_PERIODIC_ADVERTISING_DATA);
  (OpCode.LE_SET_PERIODIC_ADVERTISING_ENABLE, OpCodeIndex.LE_SET_PERIODIC_ADVERTISING_ENABLE);
  (OpCode.LE_SET_EXTENDED_SCAN_PARAMETERS, OpCodeIndex.LE_SET_EXTENDED_SCAN_PARAMETERS);
  (OpCode.LE_SET_EXTENDED_SCAN_ENABLE, OpCodeIndex.LE_SET_EXTENDED_SCAN_ENABLE);
  (OpCode.LE_EXTENDED_CREATE_CONNECTION_V1, OpCodeIndex.LE_EXTENDED_CREATE_CONNECTION_V1);
  (OpCode.LE_PERIODIC_ADVERTISING_CREATE_SYNC, OpCodeIndex.LE_PERIODIC_ADVERTISING_CREATE_SYNC);
  (OpCode.LE_PERIODIC_ADVERTISING_CREATE_SYNC_CANCEL, OpCodeIndex.LE_PERIODIC_ADVERTISING_CREATE_SYNC_CANCEL);
  (OpCode.LE_PERIODIC_ADVERTISING_TERMINATE_SYNC, OpCodeIndex.LE_PERIODIC_ADVERTISING_TERMINATE_SYNC);
  (OpCode.LE_ADD_DEVICE_TO_PERIODIC_ADVERTISER_LIST, OpCodeIndex.LE_ADD_DEVICE_TO_PERIODIC_ADVERTISER_LIST);
  (OpCode.LE_REMOVE_DEVICE_FROM_PERIODIC_ADVERTISER_LIST, OpCodeIndex.LE_REMOVE_DEVICE_FROM_PERIODIC_ADVERTISER_LIST);
  (OpCode.LE_CLEAR_PERIODIC_ADVERTISER_LIST, OpCodeIndex.LE_CLEAR_PERIODIC_ADVERTISER_LIST);
  (OpCode.LE_READ_PERIODIC_ADVERTISER_LIST_SIZE, OpCodeIndex.LE_READ_PERIODIC_ADVERTISER_LIST_SIZE);
  (OpCode.LE_READ_TRANSMIT_POWER, OpCodeIndex.LE_READ_TRANSMIT_POWER);
  (OpCode.LE_READ_RF_PATH_COMPENSATION_POWER, OpCodeIndex.LE_READ_RF_PATH_COMPENSATION_POWER);
  (OpCode.LE_WRITE_RF_PATH_COMPENSATION_POWER, OpCodeIndex.LE_WRITE_RF_PATH_COMPENSATION_POWER);
  (OpCode.LE_SET_PRIVACY_MODE, OpCodeIndex.LE_SET_PRIVACY_MODE);
  (OpCode.LE_RECEIVER_TEST_V3, OpCodeIndex.LE_RECEIVER_TEST_V3);
  (OpCode.LE_TRANSMITTER_TEST_V3, OpCodeIndex.LE_TRANSMITTER_TEST_V3);
  (OpCode.LE_SET_CONNECTIONLESS_CTE_TRANSMIT_PARAMETERS, OpCodeIndex.LE_SET_CONNECTIONLESS_CTE_TRANSMIT_PARAMETERS);
  (OpCode.LE_SET_CONNECTIONLESS_CTE_TRANSMIT_ENABLE, OpCodeIndex.LE_SET_CONNECTIONLESS_CTE_TRANSMIT_ENABLE);
  (OpCode.LE_SET_CONNECTIONLESS_IQ_SAMPLING_ENABLE, OpCodeIndex.LE_SET_CONNECTIONLESS_IQ_SAMPLING_ENABLE);
  (OpCode.LE_SET_CONNECTION_CTE_RECEIVE_PARAMETERS, OpCodeIndex.LE_SET_CONNECTION_CTE_RECEIVE_PARAMETERS);
  (OpCode.LE_SET_CONNECTION_CTE_TRANSMIT_PARAMETERS, OpCodeIndex.LE_SET_CONNECTION_CTE_TRANSMIT_PARAMETERS);
  (OpCode.LE_CONNECTION_CTE_REQUEST_ENABLE, OpCodeIndex.LE_CONNECTION_CTE_REQUEST_ENABLE);
  (OpCode.LE_CONNECTION_CTE_RESPONSE_ENABLE, OpCodeIndex.LE_CONNECTION_CTE_RESPONSE_ENABLE);
  (OpCode.LE_READ_ANTENNA_INFORMATION, OpCodeIndex.LE_READ_ANTENNA_INFORMATION);
  (OpCode.LE_SET_PERIODIC_ADVERTISING_RECEIVE_ENABLE, OpCodeIndex.LE_SET_PERIODIC_ADVERTISING_RECEIVE_ENABLE);
  (OpCode.LE_PERIODIC_ADVERTISING_SYNC_TRANSFER, OpCodeIndex.LE_PERIODIC_ADVERTISING_SYNC_TRANSFER);
  (OpCode.LE_PERIODIC_ADVERTISING_SET_INFO_TRANSFER, OpCodeIndex.LE_PERIODIC_ADVERTISING_SET_INFO_TRANSFER);
  (OpCode.LE_SET_PERIODIC_ADVERTISING_SYNC_TRANSFER_PARAMETERS, OpCodeIndex.LE_SET_PERIODIC_ADVERTISING_SYNC_TRANSFER_PARAMETERS);
  (OpCode.LE_SET_DEFAULT_PERIODIC_ADVERTISING_SYNC_TRANSFER_PARAMETERS, OpCodeIndex.LE_SET_DEFAULT_PERIODIC_ADVERTISING_SYNC_TRANSFER_PARAMETERS);
  (OpCode.LE_GENERATE_DHKEY_V2, OpCodeIndex.LE_GENERATE_DHKEY_V2);
  (OpCode.LE_MODIFY_SLEEP_CLOCK_ACCURACY, OpCodeIndex.LE_MODIFY_SLEEP_CLOCK_ACCURACY);
  (OpCode.LE_READ_BUFFER_SIZE_V2, OpCodeIndex.LE_READ_BUFFER_SIZE_V2);
  (OpCode.LE_READ_ISO_TX_SYNC, OpCodeIndex.LE_READ_ISO_TX_SYNC);
  (OpCode.LE_SET_CIG_PARAMETERS, OpCodeIndex.LE_SET_CIG_PARAMETERS);
  (OpCode.LE_SET_CIG_PARAMETERS_TEST, OpCodeIndex.LE_SET_CIG_PARAMETERS_TEST);
  (OpCode.LE_CREATE_CIS, OpCodeIndex.LE_CREATE_CIS);
  (OpCode.LE_REMOVE_CIG, OpCodeIndex.LE_REMOVE_CIG);
  (OpCode.LE_ACCEPT_CIS_REQUEST, OpCodeIndex.LE_ACCEPT_CIS_REQUEST);
  (OpCode.LE_REJECT_CIS_REQUEST, OpCodeIndex.LE_REJECT_CIS_REQUEST);
  (OpCode.LE_CREATE_BIG, OpCodeIndex.LE_CREATE_BIG);
  (OpCode.LE_CREATE_BIG_TEST, OpCodeIndex.LE_CREATE_BIG_TEST);
  (OpCode.LE_TERMINATE_BIG, OpCodeIndex.LE_TERMINATE_BIG);
  (OpCode.LE_BIG_CREATE_SYNC, OpCodeIndex.LE_BIG_CREATE_SYNC);
  (OpCode.LE_BIG_TERMINATE_SYNC, OpCodeIndex.LE_BIG_TERMINATE_SYNC);
  (OpCode.LE_REQUEST_PEER_SCA, OpCodeIndex.LE_REQUEST_PEER_SCA);
  (OpCode.LE_SETUP_ISO_DATA_PATH, OpCodeIndex.LE_SETUP_ISO_DATA_PATH);
  (OpCode.LE_REMOVE_ISO_DATA_PATH, OpCodeIndex.LE_REMOVE_ISO_DATA_PATH);
  (OpCode.LE_ISO_TRANSMIT_TEST, OpCodeIndex.LE_ISO_TRANSMIT_TEST);
  (OpCode.LE_ISO_RECEIVE_TEST, OpCodeIndex.LE_ISO_RECEIVE_TEST);
  (OpCode.LE_ISO_READ_TEST_COUNTERS, OpCodeIndex.LE_ISO_READ_TEST_COUNTERS);
  (OpCode.LE_ISO_TEST_END, OpCodeIndex.LE_ISO_TEST_END);
  (OpCode.LE_SET_HOST_FEATURE_V1, OpCodeIndex.LE_SET_HOST_FEATURE_V1);
  (OpCode.LE_READ_ISO_LINK_QUALITY, OpCodeIndex.LE_READ_ISO_LINK_QUALITY);
  (OpCode.LE_ENHANCED_READ_TRANSMIT_POWER_LEVEL, OpCodeIndex.LE_ENHANCED_READ_TRANSMIT_POWER_LEVEL);
  (OpCode.LE_READ_REMOTE_TRANSMIT_POWER_LEVEL, OpCodeIndex.LE_READ_REMOTE_TRANSMIT_POWER_LEVEL);
  (OpCode.LE_SET_PATH_LOSS_REPORTING_PARAMETERS, OpCodeIndex.LE_SET_PATH_LOSS_REPORTING_PARAMETERS);
  (OpCode.LE_SET_PATH_LOSS_REPORTING_ENABLE, OpCodeIndex.LE_SET_PATH_LOSS_REPORTING_ENABLE);
  (OpCode.LE_SET_TRANSMIT_POWER_REPORTING_ENABLE, OpCodeIndex.LE_SET_TRANSMIT_POWER_REPORTING_ENABLE);
  (OpCode.LE_TRANSMITTER_TEST_V4, OpCodeIndex.LE_TRANSMITTER_TEST_V4);
  (OpCode.LE_SET_DATA_RELATED_ADDRESS_CHANGES, OpCodeIndex.LE_SET_DATA_RELATED_ADDRESS_CHANGES);
  (OpCode.LE_SET_DEFAULT_SUBRATE, OpCodeIndex.LE_SET_DEFAULT_SUBRATE);
  (OpCode.LE_SUBRATE_REQUEST, OpCodeIndex.LE_SUBRATE_REQUEST);
  (OpCode.LE_SET_EXTENDED_ADVERTISING_PARAMETERS_V2, OpCodeIndex.LE_SET_EXTENDED_ADVERTISING_PARAMETERS_V2);
  (OpCode.LE_SET_DECISION_DATA, OpCodeIndex.LE_SET_DECISION_DATA);
  (OpCode.LE_SET_DECISION_INSTRUCTIONS, OpCodeIndex.LE_SET_DECISION_INSTRUCTIONS);
  (OpCode.LE_SET_PERIODIC_ADVERTISING_SUBEVENT_DATA, OpCodeIndex.LE_SET_PERIODIC_ADVERTISING_SUBEVENT_DATA);
  (OpCode.LE_SET_PERIODIC_ADVERTISING_RESPONSE_DATA, OpCodeIndex.LE_SET_PERIODIC_ADVERTISING_RESPONSE_DATA);
  (OpCode.LE_SET_PERIODIC_SYNC_SUBEVENT, OpCodeIndex.LE_SET_PERIODIC_SYNC_SUBEVENT);
  (OpCode.LE_EXTENDED_CREATE_CONNECTION_V2, OpCodeIndex.LE_EXTENDED_CREATE_CONNECTION_V2);
  (OpCode.LE_SET_PERIODIC_ADVERTISING_PARAMETERS_V2, OpCodeIndex.LE_SET_PERIODIC_ADVERTISING_PARAMETERS_V2);
  (OpCode.LE_READ_ALL_LOCAL_SUPPORTED_FEATURES, OpCodeIndex.LE_READ_ALL_LOCAL_SUPPORTED_FEATURES);
  (OpCode.LE_READ_ALL_REMOTE_FEATURES, OpCodeIndex.LE_READ_ALL_REMOTE_FEATURES);
  (OpCode.LE_CS_READ_LOCAL_SUPPORTED_CAPABILITIES, OpCodeIndex.LE_CS_READ_LOCAL_SUPPORTED_CAPABILITIES);
  (OpCode.LE_CS_READ_REMOTE_SUPPORTED_CAPABILITIES, OpCodeIndex.LE_CS_READ_REMOTE_SUPPORTED_CAPABILITIES);
  (OpCode.LE_CS_WRITE_CACHED_REMOTE_SUPPORTED_CAPABILITIES, OpCodeIndex.LE_CS_WRITE_CACHED_REMOTE_SUPPORTED_CAPABILITIES);
  (OpCode.LE_CS_SECURITY_ENABLE, OpCodeIndex.LE_CS_SECURITY_ENABLE);
  (OpCode.LE_CS_SET_DEFAULT_SETTINGS, OpCodeIndex.LE_CS_SET_DEFAULT_SETTINGS);
  (OpCode.LE_CS_READ_REMOTE_FAE_TABLE, OpCodeIndex.LE_CS_READ_REMOTE_FAE_TABLE);
  (OpCode.LE_CS_WRITE_CACHED_REMOTE_FAE_TABLE, OpCodeIndex.LE_CS_WRITE_CACHED_REMOTE_FAE_TABLE);
  (OpCode.LE_CS_CREATE_CONFIG, OpCodeIndex.LE_CS_CREATE_CONFIG);
  (OpCode.LE_CS_REMOVE_CONFIG, OpCodeIndex.LE_CS_REMOVE_CONFIG);
  (OpCode.LE_CS_SET_CHANNEL_CLASSIFICATION, OpCodeIndex.LE_CS_SET_CHANNEL_CLASSIFICATION);
  (OpCode.LE_CS_SET_PROCEDURE_PARAMETERS, OpCodeIndex.LE_CS_SET_PROCEDURE_PARAMETERS);
  (OpCode.LE_CS_PROCEDURE_ENABLE, OpCodeIndex.LE_CS_PROCEDURE_ENABLE);
  (OpCode.LE_CS_TEST, OpCodeIndex.LE_CS_TEST);
  (OpCode.LE_CS_TEST_END, OpCodeIndex.LE_CS_TEST_END);
  (OpCode.LE_ADD_DEVICE_TO_MONITORED_ADVERTISERS_LIST, OpCodeIndex.LE_ADD_DEVICE_TO_MONITORED_ADVERTISERS_LIST);
  (OpCode.LE_REMOVE_DEVICE_FROM_MONITORED_ADVERTISERS_LIST, OpCodeIndex.LE_REMOVE_DEVICE_FROM_MONITORED_ADVERTISERS_LIST);
  (OpCode.LE_CLEAR_MONITORED_ADVERTISERS_LIST, OpCodeIndex.LE_CLEAR_MONITORED_ADVERTISERS_LIST);
  (OpCode.LE_READ_MONITORED_ADVERTISERS_LIST_SIZE, OpCodeIndex.LE_READ_MONITORED_ADVERTISERS_LIST_SIZE);
  (OpCode.LE_ENABLE_MONITORING_ADVERTISERS, OpCodeIndex.LE_ENABLE_MONITORING_ADVERTISERS);
  (OpCode.LE_FRAME_SPACE_UPDATE, OpCodeIndex.LE_FRAME_SPACE_UPDATE)].

Section DualMode.
Context {env : DualEnvironment}.

(** The handlers. *)
Definition GetHciCommandHandlers : list (Z * (command → D ())) := [
  (OpCode.INQUIRY, DualBr.Inquiry);
  (OpCode.INQUIRY_CANCEL, DualBr.InquiryCancel);
  (OpCode.CREATE_CONNECTION, DualBr.CreateConnection);
  (OpCode.DISCONNECT, DualBr.Disconnect);
  (OpCode.ADD_SCO_CONNECTION, DualBr.AddScoConnection);
  (OpCode.CREATE_CONNECTION_CANCEL, DualBr.CreateConnectionCancel);
  (OpCode.ACCEPT_CONNECTION_REQUEST, DualBr.AcceptConnectionRequest);
  (OpCode.REJECT_CONNECTION_REQUEST, DualBr.RejectConnectionRequest);
  (OpCode.LINK_KEY_REQUEST_REPLY, DualBr.ForwardToLm);
  (OpCode.LINK_KEY_REQUEST_NEGATIVE_REPLY, DualBr.ForwardToLm);
  (OpCode.PIN_CODE_REQUEST_REPLY, DualBr.ForwardToLm);
  (OpCode.PIN_CODE_REQUEST_NEGATIVE_REPLY, DualBr.ForwardToLm);
  (OpCode.CHANGE_CONNECTION_PACKET_TYPE, DualBr.ChangeConnectionPacketType);
  (OpCode.AUTHENTICATION_REQUESTED, DualBr.ForwardToLm);
  (OpCode.SET_CONNECTION_ENCRYPTION, DualBr.ForwardToLm);
  (OpCode.CHANGE_CONNECTION_LINK_KEY, DualBr.ChangeConnectionLinkKey);
  (OpCode.CENTRAL_LINK_KEY, DualBr.CentralLinkKey);
  (OpCode.REMOTE_NAME_REQUEST, DualBr.RemoteNameRequest);
  (OpCode.READ_REMOTE_SUPPORTED_FEATURES, DualBr.ReadRemoteSupportedFeatures);
  (OpCode.READ_REMOTE_EXTENDED_FEATURES, DualBr.ReadRemoteExtendedFeatures);
  (OpCode.READ_REMOTE_VERSION_INFORMATION, DualBr.ReadRemoteVersionInformation);
  (OpCode.READ_CLOCK_OFFSET, DualBr.ReadClockOffset);
  (OpCode.SETUP_SYNCHRONOUS_CONNECTION, DualBr.SetupSynchronousConnection);
  (OpCode.ACCEPT_SYNCHRONOUS_CONNECTION, DualBr.AcceptSynchronousConnection);
  (OpCode.REJECT_SYNCHRONOUS_CONNECTION, DualBr.RejectSynchronousConnection);
  (OpCode.IO_CAPABILITY_REQUEST_REPLY, DualBr.ForwardToLm);
  (OpCode.USER_CONFIRMATION_REQUEST_REPLY, DualBr.ForwardToLm);
  (OpCode.USER_CONFIRMATION_REQUEST_NEGATIVE_REPLY, DualBr.ForwardToLm);
  (OpCode.USER_PASSKEY_REQUEST_REPLY, DualBr.ForwardToLm);
  (OpCode.USER_PASSKEY_REQUEST_NEGATIVE_REPLY, DualBr.ForwardToLm);
  (OpCode.REMOTE_OOB_DATA_REQUEST_REPLY, DualBr.ForwardToLm);
  (OpCode.REMOTE_OOB_DATA_REQUEST_NEGATIVE_REPLY, DualBr.ForwardToLm);
  (OpCode.IO_CAPABILITY_REQUEST_NEGATIVE_REPLY, DualBr.ForwardToLm);
  (OpCode.ENHANCED_SETUP_SYNCHRONOUS_CONNECTION, DualBr.EnhancedSetupSynchronousConnection);
  (OpCode.ENHANCED_ACCEPT_SYNCHRONOUS_CONNECTION, DualBr.EnhancedAcceptSynchronousConnection);
  (OpCode.REMOTE_OOB_EXTENDED_DATA_REQUEST_REPLY, DualBr.ForwardToLm);
  (OpCode.HOLD_MODE, DualBr.HoldMode);
  (OpCode.SNIFF_MODE, DualBr.SniffMode);
  (OpCode.EXIT_SNIFF_MODE, DualBr.ExitSniffMode);
  (OpCode.QOS_SETUP, DualBr.QosSetup);
  (OpCode.ROLE_DISCOVERY, DualBr.RoleDiscovery);
  (OpCode.SWITCH_ROLE, DualBr.SwitchRole);
  (OpCode.READ_LINK_POLICY_SETTINGS, DualBr.ReadLinkPolicySettings);
  (OpCode.WRITE_LINK_POLICY_SETTINGS, DualBr.WriteLinkPolicySettings);
  (OpCode.READ_DEFAULT_LINK_POLICY_SETTINGS, DualBr.ReadDefaultLinkPolicySettings);
  (OpCode.WRITE_DEFAULT_LINK_POLICY_SETTINGS, DualBr.WriteDefaultLinkPolicySettings);
  (OpCode.FLOW_SPECIFICATION, DualBr.FlowSpecification);
  (OpCode.SNIFF_SUBRATING, DualBr.SniffSubrating);
  (OpCode.SET_EVENT_MASK, DualBr.SetEventMask);
  (OpCode.RESET, DualBr.Reset);
  (OpCode.SET_EVENT_FILTER, DualBr.SetEventFilter);
  (OpCode.DELETE_STORED_LINK_KEY, DualBr.DeleteStoredLinkKey);
  (OpCode.WRITE_LOCAL_NAME, DualBr.WriteLocalName);
  (OpCode.READ_LOCAL_NAME, DualBr.ReadLocalName);
  (OpCode.READ_CONNECTION_ACCEPT_TIMEOUT, DualBr.ReadConnectionAcceptTimeout);
  (OpCode.WRITE_CONNECTION_ACCEPT_TIMEOUT, DualBr.WriteConnectionAcceptTimeout);
  (OpCode.READ_PAGE_TIMEOUT, DualBr.ReadPageTimeout);
  (OpCode.WRITE_PAGE_TIMEOUT, DualBr.WritePageTimeout);
  (OpCode.READ_SCAN_ENABLE, DualBr.ReadScanEnable);
  (OpCode.WRITE_SCAN_ENABLE, DualBr.WriteScanEnable);
  (OpCode.READ_PAGE_SCAN_ACTIVITY, DualBr.ReadPageScanActivity);
  (OpCode.WRITE_PAGE_SCAN_ACTIVITY, DualBr.WritePageScanActivity);
  (OpCode.READ_INQUIRY_SCAN_ACTIVITY, DualBr.ReadInquiryScanActivity);
  (OpCode.WRITE_INQUIRY_SCAN_ACTIVITY, DualBr.WriteInquiryScanActivity);
  (OpCode.READ_AUTHENTICATION_ENABLE, DualBr.ReadAuthenticationEnable);
  (OpCode.WRITE_AUTHENTICATION_ENABLE, DualBr.WriteAuthenticationEnable);
  (OpCode.READ_CLASS_OF_DEVICE, DualBr.ReadClassOfDevice);
  (OpCode.WRITE_CLASS_OF_DEVICE, DualBr.WriteClassOfDevice);
  (OpCode.READ_VOICE_SETTING, DualBr.ReadVoiceSetting);
  (OpCode.WRITE_VOICE_SETTING, DualBr.WriteVoiceSetting);
  (OpCode.READ_TRANSMIT_POWER_LEVEL, DualBr.ReadTransmitPowerLevel);
  (OpCode.READ_SYNCHRONOUS_FLOW_CONTROL_ENABLE, DualBr.ReadSynchronousFlowControlEnable);
  (OpCode.WRITE_SYNCHRONOUS_FLOW_CONTROL_ENABLE, DualBr.WriteSynchronousFlowControlEnable);
  (OpCode.HOST_BUFFER_SIZE, DualBr.HostBufferSize);
  (OpCode.WRITE_LINK_SUPERVISION_TIMEOUT, DualBr.WriteLinkSupervisionTimeout);
  (OpCode.READ_NUMBER_OF_SUPPORTED_IAC, DualBr.ReadNumberOfSupportedIac);
  (OpCode.READ_CURRENT_IAC_LAP, DualBr.ReadCurrentIacLap);
  (OpCode.WRITE_CURRENT_IAC_LAP, DualBr.WriteCurrentIacLap);
  (OpCode.READ_INQUIRY_SCAN_TYPE, DualBr.ReadInquiryScanType);
  (OpCode.WRITE_INQUIRY_SCAN_TYPE, DualBr.WriteInquiryScanType);
  (OpCode.READ_INQUIRY_MODE, DualBr.ReadInquiryMode);
  (OpCode.WRITE_INQUIRY_MODE, DualBr.WriteInquiryMode);
  (OpCode.READ_PAGE_SCAN_TYPE, DualBr.ReadPageScanType);
  (OpCode.WRITE_PAGE_SCAN_TYPE, DualBr.WritePageScanType);
  (OpCode.WRITE_EXTENDED_INQUIRY_RESPONSE, DualBr.WriteExtendedInquiryResponse);
  (OpCode.REFRESH_ENCRYPTION_KEY, DualBr.RefreshEncryptionKey);
  (OpCode.WRITE_SIMPLE_PAIRING_MODE, DualBr.WriteSimplePairingMode);
  (OpCode.READ_LOCAL_OOB_DATA, DualBr.ReadLocalOobData);
  (OpCode.READ_INQUIRY_RESPONSE_TRANSMIT_POWER_LEVEL, DualBr.ReadInquiryResponseTransmitPowerLevel);
  (OpCode.ENHANCED_FLUSH, DualBr.EnhancedFlush);
  (OpCode.SEND_KEYPRESS_NOTIFICATION, DualBr.ForwardToLm);
  (OpCode.SET_EVENT_MASK_PAGE_2, DualBr.SetEventMaskPage2);
  (OpCode.READ_ENHANCED_TRANSMIT_POWER_LEVEL, DualBr.ReadEnhancedTransmitPowerLevel);
  (OpCode.WRITE_LE_HOST_SUPPORT, DualBr.WriteLeHostSupport);
  (OpCode.WRITE_SECURE_CONNECTIONS_HOST_SUPPORT, DualBr.WriteSecureConnectionsHostSupport);
  (OpCode.READ_LOCAL_OOB_EXTENDED_DATA, DualBr.ReadLocalOobExtendedData);
  (OpCode.SET_MIN_ENCRYPTION_KEY_SIZE, DualBr.SetMinEncryptionKeySize);
  (OpCode.READ_LOCAL_VERSION_INFORMATION, DualBr.ReadLocalVersionInformation);
  (OpCode.READ_LOCAL_SUPPORTED_COMMANDS, DualBr.ReadLocalSupportedCommands);
  (OpCode.READ_LOCAL_SUPPORTED_FEATURES, DualBr.ReadLocalSupportedFeatures);
  (OpCode.READ_LOCAL_EXTENDED_FEATURES, DualBr.ReadLocalExtendedFeatures);
  (OpCode.READ_BUFFER_SIZE, DualBr.ReadBufferSize);
  (OpCode.READ_BD_ADDR, DualBr.ReadBdAddr);
  (OpCode.READ_LOCAL_SUPPORTED_CODECS_V1, DualBr.ReadLocalSupportedCodecsV1);
  (OpCode.READ_FAILED_CONTACT_COUNTER, DualBr.ReadFailedContactCounter);
  (OpCode.RESET_FAILED_CONTACT_COUNTER, DualBr.ResetFailedContactCounter);
  (OpCode.READ_RSSI, DualBr.ReadRssi);
  (OpCode.READ_ENCRYPTION_KEY_SIZE, DualBr.ReadEncryptionKeySize);
  (OpCode.READ_LOOPBACK_MODE, DualBr.ReadLoopbackMode);
  (OpCode.WRITE_LOOPBACK_MODE, DualBr.WriteLoopbackMode);
  (OpCode.LE_SET_EVENT_MASK, DualLe.LeSetEventMask);
  (OpCode.LE_READ_BUFFER_SIZE_V1, DualLe.LeReadBufferSizeV1);
  (OpCode.LE_READ_LOCAL_SUPPORTED_FEATURES_PAGE_0, DualLe.LeReadLocalSupportedFeaturesPage0);
  (OpCode.LE_SET_RANDOM_ADDRESS, DualLe.LeSetRandomAddress);
  (OpCode.LE_SET_ADVERTISING_PARAMETERS, DualLe.LeSetAdvertisingParameters);
  (OpCode.LE_READ_ADVERTISING_PHYSICAL_CHANNEL_TX_POWER, DualLe.LeReadAdvertisingPhysicalChannelTxPower);
  (OpCode.LE_SET_ADVERTISING_DATA, DualLe.LeSetAdvertisingData);
  (OpCode.LE_SET_SCAN_RESPONSE_DATA, DualLe.LeSetScanResponseData);
  (OpCode.LE_SET_ADVERTISING_ENABLE, DualLe.LeSetAdvertisingEnable);
  (OpCode.LE_SET_SCAN_PARAMETERS, DualLe.LeSetScanParameters);
  (OpCode.LE_SET_SCAN_ENABLE, DualLe.LeSetScanEnable);
  (OpCode.LE_CREATE_CONNECTION, DualLe.LeCreateConnection);
  (OpCode.LE_CREATE_CONNECTION_CANCEL, DualLe.LeCreateConnectionCancel);
  (OpCode.LE_READ_FILTER_ACCEPT_LIST_SIZE, DualLe.LeReadFilterAcceptListSize);
  (OpCode.LE_CLEAR_FILTER_ACCEPT_LIST, DualLe.LeClearFilterAcceptList);
  (OpCode.LE_ADD_DEVICE_TO_FILTER_ACCEPT_LIST, DualLe.LeAddDeviceToFilterAcceptList);
  (OpCode.LE_REMOVE_DEVICE_FROM_FILTER_ACCEPT_LIST, DualLe.LeRemoveDeviceFromFilterAcceptList);
  (OpCode.LE_CONNECTION_UPDATE, DualLe.LeConnectionUpdate);
  (OpCode.LE_READ_REMOTE_FEATURES_PAGE_0, DualLe.LeReadRemoteFeaturesPage0);
  (OpCode.LE_ENCRYPT, DualLe.LeEncrypt);
  (OpCode.LE_RAND, DualLe.LeRand);
  (OpCode.LE_START_ENCRYPTION, DualLe.LeStartEncryption);
  (OpCode.LE_LONG_TERM_KEY_REQUEST_REPLY, DualLe.LeLongTermKeyRequestReply);
  (OpCode.LE_LONG_TERM_KEY_REQUEST_NEGATIVE_REPLY, DualLe.LeLongTermKeyRequestNegativeReply);
  (OpCode.LE_READ_SUPPORTED_STATES, DualLe.LeReadSupportedStates);
  (OpCode.LE_REMOTE_CONNECTION_PARAMETER_REQUEST_REPLY, DualLe.LeRemoteConnectionParameterRequestReply);
  (OpCode.LE_REMOTE_CONNECTION_PARAMETER_REQUEST_NEGATIVE_REPLY, DualLe.LeRemoteConnectionParameterRequestNegativeReply);
  (OpCode.LE_SET_DATA_LENGTH, DualLe.LeSetDataLength);
  (OpCode.LE_READ_SUGGESTED_DEFAULT_DATA_LENGTH, DualLe.LeReadSuggestedDefaultDataLength);
  (OpCode.LE_WRITE_SUGGESTED_DEFAULT_DATA_LENGTH, DualLe.LeWriteSuggestedDefaultDataLength);
  (OpCode.LE_READ_LOCAL_P_256_PUBLIC_KEY, DualLe.LeReadLocalP256PublicKey);
  (OpCode.LE_ADD_DEVICE_TO_RESOLVING_LIST, DualLe.LeAddDeviceToResolvingList);
  (OpCode.LE_REMOVE_DEVICE_FROM_RESOLVING_LIST, DualLe.LeRemoveDeviceFromResolvingList);
  (OpCode.LE_CLEAR_RESOLVING_LIST, DualLe.LeClearResolvingList);
  (OpCode.LE_READ_RESOLVING_LIST_SIZE, DualLe.LeReadResolvingListSize);
  (OpCode.LE_READ_PEER_RESOLVABLE_ADDRESS, DualLe.LeReadPeerResolvableAddress);
  (OpCode.LE_READ_LOCAL_RESOLVABLE_ADDRESS, DualLe.LeReadLocalResolvableAddress);
  (OpCode.LE_SET_ADDRESS_RESOLUTION_ENABLE, DualLe.LeSetAddressResolutionEnable);
  (OpCode.LE_SET_RESOLVABLE_PRIVATE_ADDRESS_TIMEOUT, DualLe.LeSetResolvablePrivateAddressTimeout);
  (OpCode.LE_READ_MAXIMUM_DATA_LENGTH, DualLe.LeReadMaximumDataLength);
  (OpCode.LE_READ_PHY, DualLe.LeReadPhy);
  (OpCode.LE_SET_DEFAULT_PHY, DualLe.LeSetDefaultPhy);
  (OpCode.LE_SET_PHY, DualLe.LeSetPhy);
  (OpCode.LE_SET_ADVERTISING_SET_RANDOM_ADDRESS, DualLe.LeSetAdvertisingSetRandomAddress);
  (OpCode.LE_SET_EXTENDED_ADVERTISING_PARAMETERS_V1, DualLe.LeSetExtendedAdvertisingParametersV1);
  (OpCode.LE_SET_EXTENDED_ADVERTISING_DATA, DualLe.LeSetExtendedAdvertisingData);
  (OpCode.LE_SET_EXTENDED_SCAN_RESPONSE_DATA, DualLe.LeSetExtendedScanResponseData);
  (OpCode.LE_SET_EXTENDED_ADVERTISING_ENABLE, DualLe.LeSetExtendedAdvertisingEnable);
  (OpCode.LE_READ_MAXIMUM_ADVERTISING_DATA_LENGTH, DualLe.LeReadMaximumAdvertisingDataLength);
  (OpCode.LE_READ_NUMBER_OF_SUPPORTED_ADVERTISING_SETS, DualLe.LeReadNumberOfSupportedAdvertisingSets);
  (OpCode.LE_REMOVE_ADVERTISING_SET, DualLe.LeRemoveAdvertisingSet);
  (OpCode.LE_CLEAR_ADVERTISING_SETS, DualLe.LeClearAdvertisingSets);
  (OpCode.LE_SET_PERIODIC_ADVERTISING_PARAMETERS_V1, DualLe.LeSetPeriodicAdvertisingParametersV1);
  (OpCode.LE_SET_PERIODIC_ADVERTISING_DATA, DualLe.LeSetPeriodicAdvertisingData);
  (OpCode.LE_SET_PERIODIC_ADVERTISING_ENABLE, DualLe.LeSetPeriodicAdvertisingEnable);
  (OpCode.LE_SET_EXTENDED_SCAN_PARAMETERS, DualLe.LeSetExtendedScanParameters);
  (OpCode.LE_SET_EXTENDED_SCAN_ENABLE, DualLe.LeSetExtendedScanEnable);
  (OpCode.LE_EXTENDED_CREATE_CONNECTION_V1, DualLe.LeExtendedCreateConnectionV1);
  (OpCode.LE_PERIODIC_ADVERTISING_CREATE_SYNC, DualLe.LePeriodicAdvertisingCreateSync);
  (OpCode.LE_PERIODIC_ADVERTISING_CREATE_SYNC_CANCEL, DualLe.LePeriodicAdvertisingCreateSyncCancel);
  (OpCode.LE_PERIODIC_ADVERTISING_TERMINATE_SYNC, DualLe.LePeriodicAdvertisingTerminateSync);
  (OpCode.LE_ADD_DEVICE_TO_PERIODIC_ADVERTISER_LIST, DualLe.LeAddDeviceToPeriodicAdvertiserList);
  (OpCode.LE_REMOVE_DEVICE_FROM_PERIODIC_ADVERTISER_LIST, DualLe.LeRemoveDeviceFromPeriodicAdvertiserList);
  (OpCode.LE_CLEAR_PERIODIC_ADVERTISER_LIST, DualLe.LeClearPeriodicAdvertiserList);
  (OpCode.LE_READ_PERIODIC_ADVERTISER_LIST_SIZE, DualLe.LeReadPeriodicAdvertiserListSize);
  (OpCode.LE_READ_TRANSMIT_POWER, DualLe.LeReadTransmitPower);
  (OpCode.LE_SET_PRIVACY_MODE, DualLe.LeSetPrivacyMode);
  (OpCode.LE_READ_BUFFER_SIZE_V2, DualLe.LeReadBufferSizeV2);
  (OpCode.LE_SET_CIG_PARAMETERS, DualBr.ForwardToLl);
  (OpCode.LE_SET_CIG_PARAMETERS_TEST, DualBr.ForwardToLl);
  (OpCode.LE_CREATE_CIS, DualBr.ForwardToLl);
  (OpCode.LE_REMOVE_CIG, DualBr.ForwardToLl);
  (OpCode.LE_ACCEPT_CIS_REQUEST, DualBr.ForwardToLl);
  (OpCode.LE_REJECT_CIS_REQUEST, DualBr.ForwardToLl);
  (OpCode.LE_CREATE_BIG, DualBr.ForwardToLl);
  (OpCode.LE_TERMINATE_BIG, DualBr.ForwardToLl);
  (OpCode.LE_REQUEST_PEER_SCA, DualLe.LeRequestPeerSca);
  (OpCode.LE_SETUP_ISO_DATA_PATH, DualBr.ForwardToLl);
  (OpCode.LE_REMOVE_ISO_DATA_PATH, DualBr.ForwardToLl);
  (OpCode.LE_SET_HOST_FEATURE_V1, DualLe.LeSetHostFeatureV1);
  (OpCode.LE_ENHANCED_READ_TRANSMIT_POWER_LEVEL, DualLe.LeEnhancedReadTransmitPowerLevel);
  (OpCode.LE_READ_REMOTE_TRANSMIT_POWER_LEVEL, DualLe.LeReadRemoteTransmitPowerLevel);
  (OpCode.LE_SET_TRANSMIT_POWER_REPORTING_ENABLE, DualLe.LeSetTransmitPowerReportingEnable);
  (OpCode.LE_SET_DEFAULT_SUBRATE, DualLe.LeSetDefaultSubrate);
  (OpCode.LE_SUBRATE_REQUEST, DualLe.LeSubrateRequest);
  (OpCode.LE_CS_READ_LOCAL_SUPPORTED_CAPABILITIES, DualLe.LeCsReadLocalSupportedCapabilities);
  (OpCode.LE_CS_READ_REMOTE_SUPPORTED_CAPABILITIES, DualLe.LeCsReadRemoteSupportedCapabilities);
  (OpCode.LE_CS_WRITE_CACHED_REMOTE_SUPPORTED_CAPABILITIES, DualLe.LeCsWriteCachedRemoteSupportedCapabilities);
  (OpCode.LE_CS_SECURITY_ENABLE, DualLe.LeCsSecurityEnable);
  (OpCode.LE_CS_SET_DEFAULT_SETTINGS, DualLe.LeCsSetDefaultSettings);
  (OpCode.LE_CS_READ_REMOTE_FAE_TABLE, DualLe.LeCsReadRemoteFaeTable);
  (OpCode.LE_CS_WRITE_CACHED_REMOTE_FAE_TABLE, DualLe.LeCsWriteCachedRemoteFaeTable);
  (OpCode.LE_CS_CREATE_CONFIG, DualLe.LeCsCreateConfig);
  (OpCode.LE_CS_REMOVE_CONFIG, DualLe.LeCsRemoveConfig);
  (OpCode.LE_CS_SET_CHANNEL_CLASSIFICATION, DualLe.LeCsSetChannelClassification);
  (OpCode.LE_CS_SET_PROCEDURE_PARAMETERS, DualLe.LeCsSetProcedureParameters);
  (OpCode.LE_CS_PROCEDURE_ENABLE, DualLe.LeCsProcedureEnable);
  (OpCode.CSR_OPCODE, DualVendor.CsrVendorCommand);
  (OpCode.ROOTCANAL_OPCODE, DualVendor.RootcanalCommand);
  (OpCode.LE_GET_VENDOR_CAPABILITIES, DualVendor.LeGetVendorCapabilities);
  (OpCode.LE_BATCH_SCAN, DualVendor.LeBatchScan);
  (OpCode.LE_APCF, DualVendor.LeApcf);
  (OpCode.LE_GET_CONTROLLER_ACTIVITY_ENERGY_INFO, DualVendor.LeGetControllerActivityEnergyInfo);
  (OpCode.LE_EX_SET_SCAN_PARAMETERS, DualVendor.LeExSetScanParameters);
  (OpCode.GET_CONTROLLER_DEBUG_INFO, DualVendor.GetControllerDebugInfo);
  (OpCode.INTEL_DDC_CONFIG_READ, DualVendor.IntelDdcConfigRead);
  (OpCode.INTEL_DDC_CONFIG_WRITE, DualVendor.IntelDdcConfigWrite)].

(** [count(op_code)] and [at(op_code)] on such a table. *)
Fixpoint lookup_code {A} (op_code : Z) (table : list (Z * A)) : option A :=
  match table with
  | [] => None
  | (code, a) :: table => if code =? op_code then Some a else lookup_code op_code table
  end.

(** ** Commands of the host *)

Definition is_vendor_command (op_code : Z) : bool := Z.shiftr op_code 10 =? 0x3f.
Definition is_known_command (op_code : Z) : bool := has_value (lookup_code op_code GetOpCodeToIndex).
Definition is_implemented_command (op_code : Z) : bool :=
  has_value (lookup_code op_code GetHciCommandHandlers).
Definition is_supported_command (p : ControllerProperties) (op_code : Z) : bool :=
  if (op_code =? OpCode.READ_LOCAL_SUPPORTED_COMMANDS) ||
     (is_vendor_command op_code && is_implemented_command op_code)
  then true
  else match lookup_code op_code GetOpCodeToIndex with
       | Some index => SupportsCommand p index
       | None => false
       end.
(** The commands local loopback mode does not send back. *)
Definition executed_in_loopback : list Z :=
  [OpCode.RESET; OpCode.SET_CONTROLLER_TO_HOST_FLOW_CONTROL; OpCode.HOST_BUFFER_SIZE;
   OpCode.HOST_NUMBER_OF_COMPLETED_PACKETS; OpCode.READ_BUFFER_SIZE; OpCode.READ_LOOPBACK_MODE;
   OpCode.WRITE_LOOPBACK_MODE].
Definition loops_back (op_code : Z) (d : DualModeController) : bool :=
  bool_decide (loopback_mode_ d = LoopbackMode.ENABLE_LOCAL) &&
  negb (bool_decide (op_code ∈ executed_in_loopback)).
Definition before_reset (op_code : Z) (d : DualModeController) : bool :=
  hardware_error_before_reset (quirks (properties_ d)) && negb (controller_reset_ d) &&
  negb (op_code =? OpCode.RESET).

Definition HandleCommand (packet : list Z) : D () :=
  with_view CommandView packet (λ '(op_code, payload),
    d ← gets id;
    if loops_back op_code d then send_event_ (LoopbackCommand packet)
    else if before_reset op_code d then send_event_ (HardwareError 0x42)
    else
      let is_supported := is_supported_command (properties_ d) op_code in
      match lookup_code op_code GetHciCommandHandlers with
      | Some handler =>
          if is_supported then handler (MkCommand packet op_code payload)
          else SendCommandCompleteUnknownOpCodeEvent op_code
      | None =>
          if is_supported && strict (properties_ d) then lift Fatal
          else SendCommandCompleteUnknownOpCodeEvent op_code
      end).

(** ** Data of the host *)

Definition HandleAcl (packet : list Z) : D () :=
  with_view AclView packet (λ '(connection_handle, packet_boundary_flag, broadcast_flag, data),
    mode ← gets loopback_mode_;
    if bool_decide (mode = LoopbackMode.ENABLE_LOCAL) then
      emit (EmitAcl connection_handle packet_boundary_flag broadcast_flag data);;
      send_event_ (NumberOfCompletedPackets connection_handle 1)
    else if IsAclConnectionHandle connection_handle then
      on_bredr (BrLink.HandleAcl connection_handle packet_boundary_flag broadcast_flag data)
    else if IsLeAclConnectionHandle connection_handle then
      on_le (LeLink.HandleAcl connection_handle packet_boundary_flag broadcast_flag data)
    else send_event_ (NumberOfCompletedPackets connection_handle 1)).
Definition HandleSco (packet : list Z) : D () :=
  with_view ScoView packet (λ '(handle, packet_status_flag, data),
    mode ← gets loopback_mode_;
    if bool_decide (mode = LoopbackMode.ENABLE_LOCAL) then
      emit (EmitSco handle packet_status_flag data);;
      flow_control ← bredr_gets sco_flow_control_enable_;
      when flow_control (send_event_ (NumberOfCompletedPackets handle 1))
    else
      on_bredr (SendScoToRemote handle data);;
      mret ()).
Definition HandleIso (packet : list Z) : D () :=
  with_view IsoView packet (λ '(handle, packet_boundary_flag, time_stamp_flag, payload),
    on_le (LeIso.HandleIso handle packet_boundary_flag time_stamp_flag payload)).

(** ** The air, and time *)

(** The link layer packets by the type of the physical layer. *)
Inductive Incoming :=
| BR_EDR (packet : BrState.LinkLayerPacket)
| LOW_ENERGY (packet : LeState.LinkLayerPacket).
Definition ReceiveLinkLayerPacket (incoming : Incoming) (rssi : Z) : D () :=
  match incoming with
  | BR_EDR packet => on_bredr (BrLink.IncomingPacket packet rssi)
  | LOW_ENERGY packet => on_le (LeLink.IncomingPacket packet rssi)
  end.

Definition Tick : D () :=
  on_bredr BrLink.Tick;;
  on_le_machine (λ s, s ← Machine.Tick clock s; Ok ((), s)).
Definition Close : D () :=
  on_bredr BrLink.Close;;
  on_le LeLink.Close;;
  registered ← gets close_callback_;
  when registered (emit Closed).

(** What happens to a controller. *)
Inductive dual_step : DualModeController → DualModeController → Prop :=
| step_handle_command packet d d' : HandleCommand packet d = Ok ((), d') → dual_step d d'
| step_handle_acl packet d d' : HandleAcl packet d = Ok ((), d') → dual_step d d'
| step_handle_sco packet d d' : HandleSco packet d = Ok ((), d') → dual_step d d'
| step_handle_iso packet d d' : HandleIso packet d = Ok ((), d') → dual_step d d'
| step_receive incoming rssi d d' : ReceiveLinkLayerPacket incoming rssi d = Ok ((), d') → dual_step d d'
| step_dual_tick d d' : Tick d = Ok ((), d') → dual_step d d'
| step_dual_close d d' : Close d = Ok ((), d') → dual_step d d'
| step_register d d' : RegisterInvalidPacketHandler d = Ok ((), d') → dual_step d d'
| step_register_close d d' : RegisterCloseCallback d = Ok ((), d') → dual_step d d'.
Definition dual_reachable (id : Z) (properties : ControllerProperties) : DualModeController → Prop :=
  rtc dual_step (new_dual id properties).
End DualMode.
