(* ===== verification/DualInvariant.v ===== *)
(** * What the handlers of the dual mode controller do in common

    Two judgements on handlers, with a rule for each construction: what a handler
    answers to the host, and that it keeps the invariants of the two controllers. *)

From S2P Require Import Prelude HciTypes OpCodes Properties Address CsTypes Sco Connections LeState LeLists.
From S2P Require Import LeAdvertiser LePhy LeScan LeConnect LeSubrate LeSounding LeApcf LeIso LeReports LeLink Tasks.
From S2P Require Import Controller Machine BrState BrCommands BrLink BrInvariant BrMachine HciViews Random.
From S2P Require Import DualState DualBr DualLe DualVendor DualMode.

(** ** Answers *)

(** What the host takes for an answer to a command. *)
Inductive response :=
| Answered (op_code : Z)
| Alarm (hardware_code : Z)
| Echoed
| Vendor.
Definition response_of (e : Emission) : option response :=
  match e with
  | EmitEvent (CommandComplete _ op_code _) => Some (Answered op_code)
  | EmitEvent (CommandStatus _ _ op_code) => Some (Answered op_code)
  | EmitEvent (HardwareError code) => Some (Alarm code)
  | EmitEvent (LoopbackCommand _) => Some Echoed
  | EmitEvent (VendorSpecific _) => Some Vendor
  | _ => None
  end.
Definition responses (l : list Emission) : list response := omap response_of l.

Lemma responses_app l l' : responses (l ++ l') = responses l ++ responses l'.
Proof. apply omap_app. Qed.
Lemma responses_from_br l : responses (from_br <$> l) = [].
Proof. induction l as [|[] l IH]; done. Qed.
Lemma responses_from_le l : responses (from_le <$> l) = [].
Proof. induction l as [|[] l IH]; done. Qed.

Section DualInvariant.
Context {env : DualEnvironment}.

(** The answers of every run that ends satisfy [P]. *)
Definition says {A} (P : list response → Prop) (m : D A) : Prop :=
  ∀ d a d', m d = Ok (a, d') → ∃ l, emitted d' = emitted d ++ l ∧ P (responses l).
Definition quiet {A} (m : D A) : Prop := says (λ r, r = []) m.

Lemma quiet_ret {A} (a : A) : quiet (mret a).
Proof. intros d ? ? [= _ <-]. exists []. by rewrite app_nil_r. Qed.
Lemma quiet_gets {A} (f : DualModeController → A) : quiet (gets f).
Proof. intros d ? ? [= _ <-]. exists []. by rewrite app_nil_r. Qed.
Lemma quiet_modify f : (∀ d, emitted (f d) = emitted d) → quiet (modify f).
Proof. intros Hf d ? ? [= _ <-]. exists []. by rewrite app_nil_r. Qed.
Lemma quiet_lift {A} (m : outcome A) : quiet (lift m).
Proof. intros d ? ?. unfold lift. intros (? & _ & [= _ <-])%bind_Ok. exists []. by rewrite app_nil_r. Qed.
Lemma quiet_on_bredr {A} (m : BrState.M A) : quiet (on_bredr m).
Proof.
  intros d a d'. unfold on_bredr. intros ([x c] & _ & [= _ <-])%bind_Ok.
  eexists. split; [reflexivity|]. apply responses_from_br.
Qed.
Lemma quiet_on_le_machine {A} (f : Machine → outcome (A * Machine)) : quiet (on_le_machine f).
Proof.
  intros d a d'. unfold on_le_machine. destruct (le_controller_ d) as [w q].
  intros ([x [w' q']] & _ & [= _ <-])%bind_Ok. eexists. split; [reflexivity|]. apply responses_from_le.
Qed.
Lemma says_emit (P : list response → Prop) e : P (responses [e]) → says P (emit e).
Proof. intros HP d ? ? [= _ <-]. by exists [e]. Qed.
Lemma says_send_event (P : list response → Prop) event : P (responses [EmitEvent event]) → says P (send_event_ event).
Proof. apply says_emit. Qed.

Lemma says_weaken {A} (P Q : list response → Prop) (m : D A) : (∀ r, P r → Q r) → says P m → says Q m.
Proof. intros HPQ Hm d a d' E. destruct (Hm _ _ _ E) as (l & El & Hl). eauto. Qed.
Lemma says_after_quiet {A B} P (m : D A) (k : A → D B) : quiet m → (∀ a, says P (k a)) → says P (m ≫= k).
Proof.
  intros Hm Hk d b d' (a & d1 & E1 & E2)%D_bind_Ok.
  destruct (Hm _ _ _ E1) as (l1 & H1 & R1). destruct (Hk a _ _ _ E2) as (l2 & H2 & R2).
  exists (l1 ++ l2). split; [by rewrite H2, H1, app_assoc|]. by rewrite responses_app, R1.
Qed.
Lemma says_before_quiet {A B} P (m : D A) (k : A → D B) : says P m → (∀ a, quiet (k a)) → says P (m ≫= k).
Proof.
  intros Hm Hk d b d' (a & d1 & E1 & E2)%D_bind_Ok.
  destruct (Hm _ _ _ E1) as (l1 & H1 & R1). destruct (Hk a _ _ _ E2) as (l2 & H2 & R2).
  exists (l1 ++ l2). split; [by rewrite H2, H1, app_assoc|]. by rewrite responses_app, R2, app_nil_r.
Qed.
Lemma quiet_bind {A B} (m : D A) (k : A → D B) : quiet m → (∀ a, quiet (k a)) → quiet (m ≫= k).
Proof. apply says_after_quiet. Qed.
Lemma quiet_when b m : quiet m → quiet (when b m).
Proof. destruct b; [done|intros; apply quiet_ret]. Qed.
Lemma quiet_report reason packet : quiet (report_invalid_packet reason packet).
Proof.
  apply says_after_quiet; [apply quiet_gets|]. intros []; [by apply says_emit|apply quiet_lift].
Qed.
Lemma says_view {A} (P : list response → Prop) (v : view A) packet k :
  P [Alarm 0x43] → (∀ fields, says P (k fields)) → says P (with_view v packet k).
Proof.
  intros Ha Hk. unfold with_view. destruct (Create v packet) as [fields|]; [apply Hk|].
  apply says_before_quiet; [by apply says_send_event|]. intros _. apply quiet_report.
Qed.
Lemma says_complete (P : list response → Prop) op_code fields : P [Answered op_code] → says P (complete op_code fields).
Proof. intros HP. by apply says_send_event. Qed.
Lemma says_status (P : list response → Prop) op_code st : P [Answered op_code] → says P (status op_code st).
Proof. intros HP. by apply says_send_event. Qed.

(** ** The invariant *)

Record dual_wf (d : DualModeController) : Prop := {
  dual_wf_br : br_wf (bredr_controller_ d);
  dual_wf_le : machine_wf (le_controller_ d);
  dual_wf_random : generator_wf (random_generator_ d);
}.

Definition dual_keeps {A} (m : D A) : Prop := ∀ d a d', dual_wf d → m d = Ok (a, d') → dual_wf d'.

Lemma dk_ret {A} (a : A) : dual_keeps (mret a).
Proof. by intros d ? ? ? [= _ <-]. Qed.
Lemma dk_gets {A} (f : DualModeController → A) : dual_keeps (gets f).
Proof. by intros d ? ? ? [= _ <-]. Qed.
Lemma dk_lift {A} (m : outcome A) : dual_keeps (lift m).
Proof. intros d ? ? ?. unfold lift. by intros (? & _ & [= _ <-])%bind_Ok. Qed.
Lemma dk_modify f : (∀ d, dual_wf d → dual_wf (f d)) → dual_keeps (modify f).
Proof. intros Hf d ? ? ? [= _ <-]. by apply Hf. Qed.
Lemma dk_emit e : dual_keeps (emit e).
Proof. by apply dk_modify; intros ? []. Qed.
Lemma dk_bind {A B} (m : D A) (k : A → D B) : dual_keeps m → (∀ a, dual_keeps (k a)) → dual_keeps (m ≫= k).
Proof. intros Hm Hk d b d' Hd (a & d1 & E1 & E2)%D_bind_Ok. eapply Hk; [|exact E2]. by eapply Hm. Qed.
Lemma dk_when b m : dual_keeps m → dual_keeps (when b m).
Proof. destruct b; [done|intros; apply dk_ret]. Qed.
Lemma dk_report reason packet : dual_keeps (report_invalid_packet reason packet).
Proof. apply dk_bind; [apply dk_gets|]. intros []; [apply dk_emit|apply dk_lift]. Qed.
Lemma dk_view {A} (v : view A) packet k :
  (∀ fields, Create v packet = Some fields → dual_keeps (k fields)) → dual_keeps (with_view v packet k).
Proof.
  intros Hk. unfold with_view. destruct (Create v packet) as [fields|]; [by apply Hk|].
  apply dk_bind; [apply dk_emit|]. intros _. apply dk_report.
Qed.

Lemma dk_bredr {A} (m : BrState.M A) : keeps br_wf m → dual_keeps (on_bredr m).
Proof.
  intros Hm d a d' [Hb Hl Hr]. unfold on_bredr. intros ([x c] & E & [= _ <-])%bind_Ok.
  split; cbn; [|done..]. apply (br_wf_same None c); [done..|]. eapply Hm; [|exact E].
  by apply (br_wf_same None (bredr_controller_ d)).
Qed.
Lemma dk_host_call {A} (m : BrState.M A) : host_call m → dual_keeps (on_bredr m).
Proof. intros Hm. by apply dk_bredr, host_call_keeps. Qed.
Lemma machine_wf_same w w' q : controller w' = controller w → machine_wf (w, q) → machine_wf (w', q).
Proof. intros E [Hc Hq Hone]. split; cbn in *; [by rewrite E|done..]. Qed.
Lemma dk_le_machine {A} (f : Machine → outcome (A * Machine)) :
  (∀ s a s', machine_wf s → f s = Ok (a, s') → machine_wf s') → dual_keeps (on_le_machine f).
Proof.
  intros Hf d a d' [Hb Hl Hr]. unfold on_le_machine. destruct (le_controller_ d) as [w q].
  intros ([x [w' q']] & E & [= _ <-])%bind_Ok. split; cbn; [done| |done].
  apply (machine_wf_same w'); [done|]. eapply Hf; [|exact E]. by apply (machine_wf_same w).
Qed.
Lemma dk_le {A} (m : LeState.M A) : keeps_wf m → dual_keeps (on_le m).
Proof. intros Hm. apply dk_le_machine. intros s a s' Hs E. by eapply run_wf. Qed.
Lemma dk_command command : command_ok command → dual_keeps (le_command command).
Proof. intros Hok. by apply dk_le, execute_keeps. Qed.

(** A change of the properties that keeps the sizes. *)
Definition sizes (p : ControllerProperties) :=
  (le_resolving_list_size p, le_filter_accept_list_size p, le_periodic_advertiser_list_size p,
   le_max_advertising_data_length p, le_num_supported_advertising_sets p).
Lemma cwf_same_sizes c c' :
  sizes (LeState.properties_ c') = sizes (LeState.properties_ c) →
  (le_resolving_list_ c', le_filter_accept_list_ c', le_periodic_advertiser_list_ c')
  = (le_resolving_list_ c, le_filter_accept_list_ c, le_periodic_advertiser_list_ c) →
  (extended_advertisers_ c', legacy_advertising_in_use_ c', extended_advertising_in_use_ c',
   legacy_advertiser_ c')
  = (extended_advertisers_ c, legacy_advertising_in_use_ c, extended_advertising_in_use_ c,
     legacy_advertiser_ c) →
  links_part c' = links_part c → controller_wf c → controller_wf c'.
Proof.
  intros [= E1 E2 E3 E4 E5] [= L1 L2 L3] [= A1 A2 A3 A4] [= K1 K2 K3 K4 _] [[] [] Hs Hi Hh Ho].
  split; [constructor|constructor|..|by apply (own_addresses_part c)]; rewrite ?E1, ?E2, ?E3, ?E4, ?E5, ?L1, ?L2, ?L3, ?A1, ?A2, ?A3, ?A4, ?K1, ?K2, ?K3; done.
Qed.
Lemma dk_update_properties f : (∀ p, sizes (f p) = sizes p) → dual_keeps (modify (update_properties f)).
Proof.
  intros Hf. apply dk_modify. intros d [Hb Hl Hr]. unfold update_properties.
  destruct (le_controller_ d) as [w q]. destruct Hl as [Hc Hq Hone]. split; cbn; [| |done].
  - by apply (br_wf_same None (bredr_controller_ d)).
  - split; cbn in *; [|done..]. apply (cwf_same_sizes (controller w)); [apply Hf|done..].
Qed.
End DualInvariant.
