(* ===== verification/CommandFormats.v ===== *)
(** * The formats of the commands (packets/hci_packets.pdl)

    The packets a command of the host may be, by its operation code: what the answers of
    the dual mode controller are measured against. *)

From S2P Require Import Prelude OpCodes HciViews.

(** A format of hci_packets.pdl, whatever its fields. *)
Inductive format :=
| Format {A : Type} (v : view A).
Definition has_format {views : Views} (f : format) (packet : list Z) : bool :=
  let '@Format A v := f in has_value (Create v packet).

(** The commands with parameters read by the controller itself.  The first format is
    that of the command; the others, those a command with commands of its own has
    after it.  Reset Failed Contact Counter is read with the format of Read Failed
    Contact Counter.  The commands of local OOB data and those of Intel have none. *)
Definition command_formats : list (Z * list format) := [
  (OpCode.INQUIRY, [Format InquiryView]);
  (OpCode.INQUIRY_CANCEL, [Format InquiryCancelView]);
  (OpCode.CREATE_CONNECTION, [Format CreateConnectionView]);
  (OpCode.ADD_SCO_CONNECTION, [Format AddScoConnectionView]);
  (OpCode.CREATE_CONNECTION_CANCEL, [Format CreateConnectionCancelView]);
  (OpCode.ACCEPT_CONNECTION_REQUEST, [Format AcceptConnectionRequestView]);
  (OpCode.REJECT_CONNECTION_REQUEST, [Format RejectConnectionRequestView]);
  (OpCode.CHANGE_CONNECTION_PACKET_TYPE, [Format ChangeConnectionPacketTypeView]);
  (OpCode.CHANGE_CONNECTION_LINK_KEY, [Format ChangeConnectionLinkKeyView]);
  (OpCode.CENTRAL_LINK_KEY, [Format CentralLinkKeyView]);
  (OpCode.REMOTE_NAME_REQUEST, [Format RemoteNameRequestView]);
  (OpCode.READ_REMOTE_SUPPORTED_FEATURES, [Format ReadRemoteSupportedFeaturesView]);
  (OpCode.READ_REMOTE_EXTENDED_FEATURES, [Format ReadRemoteExtendedFeaturesView]);
  (OpCode.READ_REMOTE_VERSION_INFORMATION, [Format ReadRemoteVersionInformationView]);
  (OpCode.READ_CLOCK_OFFSET, [Format ReadClockOffsetView]);
  (OpCode.SETUP_SYNCHRONOUS_CONNECTION, [Format SetupSynchronousConnectionView]);
  (OpCode.ACCEPT_SYNCHRONOUS_CONNECTION, [Format AcceptSynchronousConnectionView]);
  (OpCode.REJECT_SYNCHRONOUS_CONNECTION, [Format RejectSynchronousConnectionView]);
  (OpCode.ENHANCED_SETUP_SYNCHRONOUS_CONNECTION, [Format EnhancedSetupSynchronousConnectionView]);
  (OpCode.ENHANCED_ACCEPT_SYNCHRONOUS_CONNECTION, [Format EnhancedAcceptSynchronousConnectionView]);
  (OpCode.HOLD_MODE, [Format HoldModeView]);
  (OpCode.SNIFF_MODE, [Format SniffModeView]);
  (OpCode.EXIT_SNIFF_MODE, [Format ExitSniffModeView]);
  (OpCode.QOS_SETUP, [Format QosSetupView]);
  (OpCode.ROLE_DISCOVERY, [Format RoleDiscoveryView]);
  (OpCode.SWITCH_ROLE, [Format SwitchRoleView]);
  (OpCode.READ_LINK_POLICY_SETTINGS, [Format ReadLinkPolicySettingsView]);
  (OpCode.WRITE_LINK_POLICY_SETTINGS, [Format WriteLinkPolicySettingsView]);
  (OpCode.READ_DEFAULT_LINK_POLICY_SETTINGS, [Format ReadDefaultLinkPolicySettingsView]);
  (OpCode.WRITE_DEFAULT_LINK_POLICY_SETTINGS, [Format WriteDefaultLinkPolicySettingsView]);
  (OpCode.FLOW_SPECIFICATION, [Format FlowSpecificationView]);
  (OpCode.SNIFF_SUBRATING, [Format SniffSubratingView]);
  (OpCode.SET_EVENT_MASK, [Format SetEventMaskView]);
  (OpCode.RESET, [Format ResetView]);
  (OpCode.SET_EVENT_FILTER, [Format SetEventFilterView]);
  (OpCode.DELETE_STORED_LINK_KEY, [Format DeleteStoredLinkKeyView]);
  (OpCode.WRITE_LOCAL_NAME, [Format WriteLocalNameView]);
  (OpCode.READ_LOCAL_NAME, [Format ReadLocalNameView]);
  (OpCode.READ_CONNECTION_ACCEPT_TIMEOUT, [Format ReadConnectionAcceptTimeoutView]);
  (OpCode.WRITE_CONNECTION_ACCEPT_TIMEOUT, [Format WriteConnectionAcceptTimeoutView]);
  (OpCode.READ_PAGE_TIMEOUT, [Format ReadPageTimeoutView]);
  (OpCode.WRITE_PAGE_TIMEOUT, [Format WritePageTimeoutView]);
  (OpCode.READ_SCAN_ENABLE, [Format ReadScanEnableView]);
  (OpCode.WRITE_SCAN_ENABLE, [Format WriteScanEnableView]);
  (OpCode.READ_PAGE_SCAN_ACTIVITY, [Format ReadPageScanActivityView]);
  (OpCode.WRITE_PAGE_SCAN_ACTIVITY, [Format WritePageScanActivityView]);
  (OpCode.READ_INQUIRY_SCAN_ACTIVITY, [Format ReadInquiryScanActivityView]);
  (OpCode.WRITE_INQUIRY_SCAN_ACTIVITY, [Format WriteInquiryScanActivityView]);
  (OpCode.READ_AUTHENTICATION_ENABLE, [Format ReadAuthenticationEnableView]);
  (OpCode.WRITE_AUTHENTICATION_ENABLE, [Format WriteAuthenticationEnableView]);
  (OpCode.READ_CLASS_OF_DEVICE, [Format ReadClassOfDeviceView]);
  (OpCode.WRITE_CLASS_OF_DEVICE, [Format WriteClassOfDeviceView]);
  (OpCode.READ_VOICE_SETTING, [Format ReadVoiceSettingView]);
  (OpCode.WRITE_VOICE_SETTING, [Format WriteVoiceSettingView]);
  (OpCode.READ_TRANSMIT_POWER_LEVEL, [Format ReadTransmitPowerLevelView]);
  (OpCode.READ_SYNCHRONOUS_FLOW_CONTROL_ENABLE, [Format ReadSynchronousFlowControlEnableView]);
  (OpCode.WRITE_SYNCHRONOUS_FLOW_CONTROL_ENABLE, [Format WriteSynchronousFlowControlEnableView]);
  (OpCode.HOST_BUFFER_SIZE, [Format HostBufferSizeView]);
  (OpCode.WRITE_LINK_SUPERVISION_TIMEOUT, [Format WriteLinkSupervisionTimeoutView]);
  (OpCode.READ_NUMBER_OF_SUPPORTED_IAC, [Format ReadNumberOfSupportedIacView]);
  (OpCode.READ_CURRENT_IAC_LAP, [Format ReadCurrentIacLapView]);
  (OpCode.WRITE_CURRENT_IAC_LAP, [Format WriteCurrentIacLapView]);
  (OpCode.READ_INQUIRY_SCAN_TYPE, [Format ReadInquiryScanTypeView]);
  (OpCode.WRITE_INQUIRY_SCAN_TYPE, [Format WriteInquiryScanTypeView]);
  (OpCode.READ_INQUIRY_MODE, [Format ReadInquiryModeView]);
  (OpCode.WRITE_INQUIRY_MODE, [Format WriteInquiryModeView]);
  (OpCode.READ_PAGE_SCAN_TYPE, [Format ReadPageScanTypeView]);
  (OpCode.WRITE_PAGE_SCAN_TYPE, [Format WritePageScanTypeView]);
  (OpCode.WRITE_EXTENDED_INQUIRY_RESPONSE, [Format WriteExtendedInquiryResponseView]);
  (OpCode.REFRESH_ENCRYPTION_KEY, [Format RefreshEncryptionKeyView]);
  (OpCode.WRITE_SIMPLE_PAIRING_MODE, [Format WriteSimplePairingModeView]);
  (OpCode.READ_LOCAL_OOB_DATA, []);
  (OpCode.READ_INQUIRY_RESPONSE_TRANSMIT_POWER_LEVEL,
   [Format ReadInquiryResponseTransmitPowerLevelView]);
  (OpCode.ENHANCED_FLUSH, [Format EnhancedFlushView]);
  (OpCode.SET_EVENT_MASK_PAGE_2, [Format SetEventMaskPage2View]);
  (OpCode.READ_ENHANCED_TRANSMIT_POWER_LEVEL, [Format ReadEnhancedTransmitPowerLevelView]);
  (OpCode.WRITE_LE_HOST_SUPPORT, [Format WriteLeHostSupportView]);
  (OpCode.WRITE_SECURE_CONNECTIONS_HOST_SUPPORT, [Format WriteSecureConnectionsHostSupportView]);
  (OpCode.READ_LOCAL_OOB_EXTENDED_DATA, []);
  (OpCode.SET_MIN_ENCRYPTION_KEY_SIZE, [Format SetMinEncryptionKeySizeView]);
  (OpCode.READ_LOCAL_VERSION_INFORMATION, [Format ReadLocalVersionInformationView]);
  (OpCode.READ_LOCAL_SUPPORTED_COMMANDS, [Format ReadLocalSupportedCommandsView]);
  (OpCode.READ_LOCAL_SUPPORTED_FEATURES, [Format ReadLocalSupportedFeaturesView]);
  (OpCode.READ_LOCAL_EXTENDED_FEATURES, [Format ReadLocalExtendedFeaturesView]);
  (OpCode.READ_BUFFER_SIZE, [Format ReadBufferSizeView]);
  (OpCode.READ_BD_ADDR, [Format ReadBdAddrView]);
  (OpCode.READ_LOCAL_SUPPORTED_CODECS_V1, [Format ReadLocalSupportedCodecsV1View]);
  (OpCode.READ_FAILED_CONTACT_COUNTER, [Format ReadFailedContactCounterView]);
  (OpCode.RESET_FAILED_CONTACT_COUNTER, [Format ReadFailedContactCounterView]);
  (OpCode.READ_RSSI, [Format ReadRssiView]);
  (OpCode.READ_ENCRYPTION_KEY_SIZE, [Format ReadEncryptionKeySizeView]);
  (OpCode.READ_LOOPBACK_MODE, [Format ReadLoopbackModeView]);
  (OpCode.WRITE_LOOPBACK_MODE, [Format WriteLoopbackModeView]);
  (OpCode.LE_SET_EVENT_MASK, [Format LeSetEventMaskView]);
  (OpCode.LE_READ_BUFFER_SIZE_V1, [Format LeReadBufferSizeV1View]);
  (OpCode.LE_READ_LOCAL_SUPPORTED_FEATURES_PAGE_0, [Format LeReadLocalSupportedFeaturesPage0View]);
  (OpCode.LE_SET_RANDOM_ADDRESS, [Format LeSetRandomAddressView]);
  (OpCode.LE_SET_ADVERTISING_PARAMETERS, [Format LeSetAdvertisingParametersView]);
  (OpCode.LE_READ_ADVERTISING_PHYSICAL_CHANNEL_TX_POWER,
   [Format LeReadAdvertisingPhysicalChannelTxPowerView]);
  (OpCode.LE_SET_ADVERTISING_DATA, [Format LeSetAdvertisingDataView]);
  (OpCode.LE_SET_SCAN_RESPONSE_DATA, [Format LeSetScanResponseDataView]);
  (OpCode.LE_SET_ADVERTISING_ENABLE, [Format LeSetAdvertisingEnableView]);
  (OpCode.LE_SET_SCAN_PARAMETERS, [Format LeSetScanParametersView]);
  (OpCode.LE_SET_SCAN_ENABLE, [Format LeSetScanEnableView]);
  (OpCode.LE_CREATE_CONNECTION, [Format LeCreateConnectionView]);
  (OpCode.LE_CREATE_CONNECTION_CANCEL, [Format LeCreateConnectionCancelView]);
  (OpCode.LE_READ_FILTER_ACCEPT_LIST_SIZE, [Format LeReadFilterAcceptListSizeView]);
  (OpCode.LE_CLEAR_FILTER_ACCEPT_LIST, [Format LeClearFilterAcceptListView]);
  (OpCode.LE_ADD_DEVICE_TO_FILTER_ACCEPT_LIST, [Format LeAddDeviceToFilterAcceptListView]);
  (OpCode.LE_REMOVE_DEVICE_FROM_FILTER_ACCEPT_LIST, [Format LeRemoveDeviceFromFilterAcceptListView]);
  (OpCode.LE_CONNECTION_UPDATE, [Format LeConnectionUpdateView]);
  (OpCode.LE_READ_REMOTE_FEATURES_PAGE_0, [Format LeReadRemoteFeaturesPage0View]);
  (OpCode.LE_ENCRYPT, [Format LeEncryptView]);
  (OpCode.LE_RAND, [Format LeRandView]);
  (OpCode.LE_START_ENCRYPTION, [Format LeStartEncryptionView]);
  (OpCode.LE_LONG_TERM_KEY_REQUEST_REPLY, [Format LeLongTermKeyRequestReplyView]);
  (OpCode.LE_LONG_TERM_KEY_REQUEST_NEGATIVE_REPLY, [Format LeLongTermKeyRequestNegativeReplyView]);
  (OpCode.LE_READ_SUPPORTED_STATES, [Format LeReadSupportedStatesView]);
  (OpCode.LE_REMOTE_CONNECTION_PARAMETER_REQUEST_REPLY,
   [Format LeRemoteConnectionParameterRequestReplyView]);
  (OpCode.LE_REMOTE_CONNECTION_PARAMETER_REQUEST_NEGATIVE_REPLY,
   [Format LeRemoteConnectionParameterRequestNegativeReplyView]);
  (OpCode.LE_SET_DATA_LENGTH, [Format LeSetDataLengthView]);
  (OpCode.LE_READ_SUGGESTED_DEFAULT_DATA_LENGTH, [Format LeReadSuggestedDefaultDataLengthView]);
  (OpCode.LE_WRITE_SUGGESTED_DEFAULT_DATA_LENGTH, [Format LeWriteSuggestedDefaultDataLengthView]);
  (OpCode.LE_READ_LOCAL_P_256_PUBLIC_KEY, [Format LeReadLocalP256PublicKeyView]);
  (OpCode.LE_ADD_DEVICE_TO_RESOLVING_LIST, [Format LeAddDeviceToResolvingListView]);
  (OpCode.LE_REMOVE_DEVICE_FROM_RESOLVING_LIST, [Format LeRemoveDeviceFromResolvingListView]);
  (OpCode.LE_CLEAR_RESOLVING_LIST, [Format LeClearResolvingListView]);
  (OpCode.LE_READ_RESOLVING_LIST_SIZE, [Format LeReadResolvingListSizeView]);
  (OpCode.LE_READ_PEER_RESOLVABLE_ADDRESS, [Format LeReadPeerResolvableAddressView]);
  (OpCode.LE_READ_LOCAL_RESOLVABLE_ADDRESS, [Format LeReadLocalResolvableAddressView]);
  (OpCode.LE_SET_ADDRESS_RESOLUTION_ENABLE, [Format LeSetAddressResolutionEnableView]);
  (OpCode.LE_SET_RESOLVABLE_PRIVATE_ADDRESS_TIMEOUT, [Format LeSetResolvablePrivateAddressTimeoutView]);
  (OpCode.LE_READ_MAXIMUM_DATA_LENGTH, [Format LeReadMaximumDataLengthView]);
  (OpCode.LE_READ_PHY, [Format LeReadPhyView]);
  (OpCode.LE_SET_DEFAULT_PHY, [Format LeSetDefaultPhyView]);
  (OpCode.LE_SET_PHY, [Format LeSetPhyView]);
  (OpCode.LE_SET_ADVERTISING_SET_RANDOM_ADDRESS, [Format LeSetAdvertisingSetRandomAddressView]);
  (OpCode.LE_SET_EXTENDED_ADVERTISING_PARAMETERS_V1, [Format LeSetExtendedAdvertisingParametersV1View]);
  (OpCode.LE_SET_EXTENDED_ADVERTISING_DATA, [Format LeSetExtendedAdvertisingDataView]);
  (OpCode.LE_SET_EXTENDED_SCAN_RESPONSE_DATA, [Format LeSetExtendedScanResponseDataView]);
  (OpCode.LE_SET_EXTENDED_ADVERTISING_ENABLE, [Format LeSetExtendedAdvertisingEnableView]);
  (OpCode.LE_READ_MAXIMUM_ADVERTISING_DATA_LENGTH, [Format LeReadMaximumAdvertisingDataLengthView]);
  (OpCode.LE_READ_NUMBER_OF_SUPPORTED_ADVERTISING_SETS,
   [Format LeReadNumberOfSupportedAdvertisingSetsView]);
  (OpCode.LE_REMOVE_ADVERTISING_SET, [Format LeRemoveAdvertisingSetView]);
  (OpCode.LE_CLEAR_ADVERTISING_SETS, [Format LeClearAdvertisingSetsView]);
  (OpCode.LE_SET_PERIODIC_ADVERTISING_PARAMETERS_V1, [Format LeSetPeriodicAdvertisingParametersV1View]);
  (OpCode.LE_SET_PERIODIC_ADVERTISING_DATA, [Format LeSetPeriodicAdvertisingDataView]);
  (OpCode.LE_SET_PERIODIC_ADVERTISING_ENABLE, [Format LeSetPeriodicAdvertisingEnableView]);
  (OpCode.LE_SET_EXTENDED_SCAN_PARAMETERS, [Format LeSetExtendedScanParametersView]);
  (OpCode.LE_SET_EXTENDED_SCAN_ENABLE, [Format LeSetExtendedScanEnableView]);
  (OpCode.LE_EXTENDED_CREATE_CONNECTION_V1, [Format LeExtendedCreateConnectionV1View]);
  (OpCode.LE_PERIODIC_ADVERTISING_CREATE_SYNC, [Format LePeriodicAdvertisingCreateSyncView]);
  (OpCode.LE_PERIODIC_ADVERTISING_CREATE_SYNC_CANCEL,
   [Format LePeriodicAdvertisingCreateSyncCancelView]);
  (OpCode.LE_PERIODIC_ADVERTISING_TERMINATE_SYNC, [Format LePeriodicAdvertisingTerminateSyncView]);
  (OpCode.LE_ADD_DEVICE_TO_PERIODIC_ADVERTISER_LIST, [Format LeAddDeviceToPeriodicAdvertiserListView]);
  (OpCode.LE_REMOVE_DEVICE_FROM_PERIODIC_ADVERTISER_LIST,
   [Format LeRemoveDeviceFromPeriodicAdvertiserListView]);
  (OpCode.LE_CLEAR_PERIODIC_ADVERTISER_LIST, [Format LeClearPeriodicAdvertiserListView]);
  (OpCode.LE_READ_PERIODIC_ADVERTISER_LIST_SIZE, [Format LeReadPeriodicAdvertiserListSizeView]);
  (OpCode.LE_READ_TRANSMIT_POWER, [Format LeReadTransmitPowerView]);
  (OpCode.LE_SET_PRIVACY_MODE, [Format LeSetPrivacyModeView]);
  (OpCode.LE_READ_BUFFER_SIZE_V2, [Format LeReadBufferSizeV2View]);
  (OpCode.LE_REQUEST_PEER_SCA, [Format LeRequestPeerScaView]);
  (OpCode.LE_SET_HOST_FEATURE_V1, [Format LeSetHostFeatureV1View]);
  (OpCode.LE_ENHANCED_READ_TRANSMIT_POWER_LEVEL, [Format LeEnhancedReadTransmitPowerLevelView]);
  (OpCode.LE_READ_REMOTE_TRANSMIT_POWER_LEVEL, [Format LeReadRemoteTransmitPowerLevelView]);
  (OpCode.LE_SET_TRANSMIT_POWER_REPORTING_ENABLE, [Format LeSetTransmitPowerReportingEnableView]);
  (OpCode.LE_SET_DEFAULT_SUBRATE, [Format LeSetDefaultSubrateView]);
  (OpCode.LE_SUBRATE_REQUEST, [Format LeSubrateRequestView]);
  (OpCode.LE_CS_READ_LOCAL_SUPPORTED_CAPABILITIES, [Format LeCsReadLocalSupportedCapabilitiesView]);
  (OpCode.LE_CS_READ_REMOTE_SUPPORTED_CAPABILITIES, [Format LeCsReadRemoteSupportedCapabilitiesView]);
  (OpCode.LE_CS_WRITE_CACHED_REMOTE_SUPPORTED_CAPABILITIES,
   [Format LeCsWriteCachedRemoteSupportedCapabilitiesView]);
  (OpCode.LE_CS_SECURITY_ENABLE, [Format LeCsSecurityEnableView]);
  (OpCode.LE_CS_SET_DEFAULT_SETTINGS, [Format LeCsSetDefaultSettingsView]);
  (OpCode.LE_CS_READ_REMOTE_FAE_TABLE, [Format LeCsReadRemoteFaeTableView]);
  (OpCode.LE_CS_WRITE_CACHED_REMOTE_FAE_TABLE, [Format LeCsWriteCachedRemoteFaeTableView]);
  (OpCode.LE_CS_CREATE_CONFIG, [Format LeCsCreateConfigView]);
  (OpCode.LE_CS_REMOVE_CONFIG, [Format LeCsRemoveConfigView]);
  (OpCode.LE_CS_SET_CHANNEL_CLASSIFICATION, [Format LeCsSetChannelClassificationView]);
  (OpCode.LE_CS_SET_PROCEDURE_PARAMETERS, [Format LeCsSetProcedureParametersView]);
  (OpCode.LE_CS_PROCEDURE_ENABLE, [Format LeCsProcedureEnableView]);
  (OpCode.ROOTCANAL_OPCODE,
   [Format RootcanalCommandView; Format RootcanalSendHciEventView;
    Format RootcanalSendHciAclDataView]);
  (OpCode.LE_GET_VENDOR_CAPABILITIES, [Format LeGetVendorCapabilitiesView]);
  (OpCode.LE_BATCH_SCAN, [Format LeBatchScanView]);
  (OpCode.LE_APCF,
   [Format LeApcfView; Format LeApcfEnableView; Format LeApcfSetFilteringParametersView;
    Format LeApcfBroadcasterAddressView; Format LeApcfServiceUuidView;
    Format LeApcfServiceSolicitationUuidView; Format LeApcfLocalNameView;
    Format LeApcfManufacturerDataView; Format LeApcfServiceDataView;
    Format LeApcfTransportDiscoveryServiceView; Format LeApcfAdTypeFilterView;
    Format LeApcfReadExtendedFeaturesView]);
  (OpCode.LE_GET_CONTROLLER_ACTIVITY_ENERGY_INFO, [Format LeGetControllerActivityEnergyInfoView]);
  (OpCode.LE_EX_SET_SCAN_PARAMETERS, [Format LeExSetScanParametersView]);
  (OpCode.GET_CONTROLLER_DEBUG_INFO, [Format GetControllerDebugInfoView]);
  (OpCode.INTEL_DDC_CONFIG_READ, []);
  (OpCode.INTEL_DDC_CONFIG_WRITE, [])].

(** The commands handed over as they are, to the link manager and the link layer. *)
Definition link_manager_commands : list Z :=
  [OpCode.LINK_KEY_REQUEST_REPLY; OpCode.LINK_KEY_REQUEST_NEGATIVE_REPLY; OpCode.PIN_CODE_REQUEST_REPLY;
   OpCode.PIN_CODE_REQUEST_NEGATIVE_REPLY; OpCode.AUTHENTICATION_REQUESTED;
   OpCode.SET_CONNECTION_ENCRYPTION; OpCode.IO_CAPABILITY_REQUEST_REPLY;
   OpCode.USER_CONFIRMATION_REQUEST_REPLY; OpCode.USER_CONFIRMATION_REQUEST_NEGATIVE_REPLY;
   OpCode.USER_PASSKEY_REQUEST_REPLY; OpCode.USER_PASSKEY_REQUEST_NEGATIVE_REPLY;
   OpCode.REMOTE_OOB_DATA_REQUEST_REPLY; OpCode.REMOTE_OOB_DATA_REQUEST_NEGATIVE_REPLY;
   OpCode.IO_CAPABILITY_REQUEST_NEGATIVE_REPLY; OpCode.REMOTE_OOB_EXTENDED_DATA_REQUEST_REPLY;
   OpCode.SEND_KEYPRESS_NOTIFICATION].
Definition link_layer_commands : list Z :=
  [OpCode.LE_SET_CIG_PARAMETERS; OpCode.LE_SET_CIG_PARAMETERS_TEST; OpCode.LE_CREATE_CIS;
   OpCode.LE_REMOVE_CIG; OpCode.LE_ACCEPT_CIS_REQUEST; OpCode.LE_REJECT_CIS_REQUEST; OpCode.LE_CREATE_BIG;
   OpCode.LE_TERMINATE_BIG; OpCode.LE_SETUP_ISO_DATA_PATH; OpCode.LE_REMOVE_ISO_DATA_PATH].

(** Who answers a command. *)
Inductive responder :=
| LinkManagerAnswers
| LinkLayerAnswers
| DisconnectAnswers
| CsrAnswers
| ControllerAnswers (formats : list format).
Fixpoint formats_in (op_code : Z) (table : list (Z * list format)) : list format :=
  match table with
  | [] => []
  | (code, formats) :: table => if code =? op_code then formats else formats_in op_code table
  end.
Definition responder_of (op_code : Z) : responder :=
  if bool_decide (op_code ∈ link_manager_commands) then LinkManagerAnswers
  else if bool_decide (op_code ∈ link_layer_commands) then LinkLayerAnswers
  else if op_code =? OpCode.DISCONNECT then DisconnectAnswers
  else if op_code =? OpCode.CSR_OPCODE then CsrAnswers
  else ControllerAnswers (formats_in op_code command_formats).
