(* ===== verification/DualAnswers.v ===== *)
(** * Every command is answered once

    What the host hears after a command, whatever the command and its bytes are. *)

From S2P Require Import Prelude HciTypes OpCodes Properties Address CsTypes Sco Connections LeState LeLists.
From S2P Require Import LeAdvertiser LePhy LeScan LeConnect LeSubrate LeSounding LeApcf LeIso LeLink Tasks.
From S2P Require Import Controller Machine BrState BrCommands BrLink BrInvariant BrMachine HciViews Random CommandFormats.
From S2P Require Import DualState DualBr DualLe DualVendor DualMode DualInvariant.

Section DualAnswers.
Context {env : DualEnvironment}.

(** One answer for the command; or, for a command with commands of its own, the alarm
    for a packet that does not have the format of one of those. *)
Definition completes (others : list format) (op_code : Z) (packet : list Z) (r : list response) : Prop :=
  r = [Answered op_code] ∨
  r = [Alarm 0x43] ∧ Exists (λ f, has_format f packet = false) others.
(** The alarm if the packet does not have the format of the command. *)
Definition answers_formatted (formats : list format) (op_code : Z) (packet : list Z) (r : list response) : Prop :=
  match formats with
  | [] => completes [] op_code packet r
  | f :: others => if has_format f packet then completes others op_code packet r else r = [Alarm 0x43]
  end.

(** The libraries in Rust are called with the command, and take it. *)
Definition given_to_link_manager (packet : list Z) (d d' : DualModeController) : Prop :=
  on_bredr (call_lm (link_manager_ingest_hci packet)) d = Ok (true, d').
Definition library_calls (d : DualModeController) : list LinkLayerCall := ll_ (controller (fst (le_controller_ d))).
Definition given_to_link_layer (packet : list Z) (d d' : DualModeController) : Prop :=
  link_layer_accepts (library_calls d) (link_layer_ingest_hci packet) = true ∧
  library_calls d' = link_layer_ingest_hci packet :: library_calls d ∧ emitted d' = emitted d.

(** What the host hears after a command that has a handler. *)
Definition answers (op_code : Z) (packet : list Z) (d d' : DualModeController) (r : list response) : Prop :=
  match responder_of op_code with
  | LinkManagerAnswers => r = [] ∧ given_to_link_manager packet d d'
  | LinkLayerAnswers => r = [] ∧ given_to_link_layer packet d d'
  | DisconnectAnswers =>
      match Create DisconnectView packet with
      | None => r = [Alarm 0x43]
      | Some (connection_handle, _) =>
          if IsCisConnectionHandle connection_handle then r = [] ∧ given_to_link_layer packet d d'
          else r = [Answered op_code]
      end
  | CsrAnswers => r = [if supports_csr_vendor_command (properties_ d) then Vendor else Answered op_code]
  | ControllerAnswers formats => answers_formatted formats op_code packet r
  end.

(** ** Rules *)

Lemma says_format {A} (v : view A) others op_code packet k :
  (∀ fields, says (completes others op_code packet) (k fields)) →
  says (answers_formatted (Format v :: others) op_code packet) (with_view v packet k).
Proof.
  intros Hk. unfold with_view, answers_formatted, has_format. destruct (Create v packet) as [fields|]; [apply Hk|].
  apply says_before_quiet; [by apply says_send_event|]. intros _. apply quiet_report.
Qed.
Lemma says_subformat {A} (v : view A) others op_code packet k :
  Format v ∈ others → (∀ fields, says (completes others op_code packet) (k fields)) →
  says (completes others op_code packet) (with_view v packet k).
Proof.
  intros Hv Hk. unfold with_view. destruct (Create v packet) as [fields|] eqn:E; [apply Hk|].
  apply says_before_quiet; [|intros _; apply quiet_report]. apply says_send_event. right. split; [done|].
  apply Exists_exists. exists (Format v). split; [done|]. unfold has_format. by rewrite E.
Qed.
Lemma completes_own others op_code packet : completes others op_code packet [Answered op_code].
Proof. by left. Qed.

(** A goal about one handler is followed through its body. *)
Ltac head_of t := lazymatch t with ?f _ => head_of f | _ => t end.
Ltac unfold_head t := let f := head_of t in unfold f.
Ltac quiet_tac :=
  cbv zeta;
  lazymatch goal with
  | |- quiet (mret _) => apply quiet_ret
  | |- quiet (gets _) => apply quiet_gets
  | |- quiet (lift _) => apply quiet_lift
  | |- quiet (on_bredr _) => apply quiet_on_bredr
  | |- quiet (on_le_machine _) => apply quiet_on_le_machine
  | |- quiet (modify (update_properties _)) =>
      apply quiet_modify; intros ?; unfold update_properties; by destruct (le_controller_ _)
  | |- quiet (modify _) => by apply quiet_modify
  | |- quiet (emit _) => by apply says_emit
  | |- quiet (send_event_ _) => by apply says_send_event
  | |- quiet (report_invalid_packet _ _) => apply quiet_report
  | |- quiet (when _ _) => apply quiet_when; quiet_tac
  | |- quiet (_ ≫= _) => apply quiet_bind; [quiet_tac|intros ?; quiet_tac]
  | |- quiet (match ?x with _ => _ end) => destruct x; quiet_tac
  | |- quiet ?m => unfold_head m; quiet_tac
  end.
Ltac pairs x := try (let y := fresh in destruct x as [x y]; pairs x).
Ltac says_tac :=
  cbv zeta;
  lazymatch goal with
  | |- says (answers_formatted (_ :: _) _ _) (with_view _ _ _) =>
      apply says_format; let x := fresh in intros x; pairs x; says_tac
  | |- says (answers_formatted [] _ _) _ => unfold answers_formatted; says_tac
  | |- says _ (with_view _ _ _) =>
      apply says_subformat; [set_solver|let x := fresh in intros x; pairs x; says_tac]
  | |- says _ (complete _ _) => apply says_complete, completes_own
  | |- says _ (status _ _) => apply says_status, completes_own
  | |- says _ (complete _ _ ≫= _) => apply says_before_quiet; [says_tac|intros ?; quiet_tac]
  | |- says _ (status _ _ ≫= _) => apply says_before_quiet; [says_tac|intros ?; quiet_tac]
  | |- says _ (_ ≫= _) => apply says_after_quiet; [quiet_tac|intros ?; says_tac]
  | |- says _ (match ?x with _ => _ end) => destruct x; says_tac
  | |- says _ ?m => unfold_head m; says_tac
  end.

Lemma quiet_ddc_config_write fuel parameters : quiet (ddc_config_write fuel parameters).
Proof.
  revert parameters. induction fuel as [|fuel IH]; intros [|len rest]; cbn [ddc_config_write]; [quiet_tac..|].
  apply quiet_bind; [quiet_tac|]. intros _. cbv zeta. apply quiet_bind; [quiet_tac|]. intros _. apply IH.
Qed.
Lemma quiet_csr_run parameters : quiet (csr_run parameters).
Proof. unfold csr_run. quiet_tac. Qed.

Lemma handed_to_link_manager c d d' :
  DualBr.ForwardToLm c d = Ok ((), d') →
  ∃ l, emitted d' = emitted d ++ l ∧ responses l = [] ∧ given_to_link_manager (bytes c) d d'.
Proof.
  intros E. destruct (quiet_on_bredr _ _ _ _ E) as (l & El & Hl). exists l. split_and!; [done..|].
  unfold DualBr.ForwardToLm, BrCommands.ForwardToLm, assert_lm, on_bredr in E.
  apply bind_Ok in E as ([[] c'] & E & E'). apply bind_Ok in E as ([ok c1] & E1 & E2).
  unfold given_to_link_manager, on_bredr. rewrite E1. unfold BrState.lift in E2. destruct ok; [|done].
  injection E2 as ->. injection E' as <-. done.
Qed.
Lemma link_layer_takes bytes t c u c' out :
  LeIso.ForwardToLl bytes t c = Ok (u, c', out) →
  link_layer_accepts (ll_ c) (link_layer_ingest_hci bytes) = true ∧
  c' = c <| ll_ ::= cons (link_layer_ingest_hci bytes) |> ∧ out = [].
Proof.
  unfold LeIso.ForwardToLl. intros (a & c1 & o1 & b & c2 & o2 & E1 & E2 & [= -> -> ->])%LeState.M_bind_Ok.
  injection E1 as <- <- <-. unfold LeState.lift in E2. destruct (link_layer_accepts _ _); [|done].
  by injection E2 as <- <- <-.
Qed.
Lemma handed_to_link_layer c d d' :
  DualBr.ForwardToLl c d = Ok ((), d') →
  ∃ l, emitted d' = emitted d ++ l ∧ responses l = [] ∧ given_to_link_layer (bytes c) d d'.
Proof.
  unfold DualBr.ForwardToLl, on_le, on_le_machine, given_to_link_layer, library_calls.
  destruct (le_controller_ d) as [w q]. cbn [fst]. unfold run. intros H. cbv zeta in H.
  apply bind_Ok in H as ([u [w1 q1]] & H & [= _ <-]). apply bind_Ok in H as ([[u1 c1] out] & E & H).
  apply link_layer_takes in E as (Ha & -> & ->). injection H as _ <- <-.
  exists []. cbn. by rewrite app_nil_r.
Qed.

(** Every entry of the table. *)
Definition entry_answers (entry : Z * (command → D ())) : Prop :=
  ∀ c d d', snd entry c d = Ok ((), d') →
  ∃ l, emitted d' = emitted d ++ l ∧ answers (fst entry) (bytes c) d d' (responses l).

Lemma answers_Disconnect : entry_answers (OpCode.DISCONNECT, DualBr.Disconnect).
Proof.
  intros c d d'. cbn [fst snd]. unfold DualBr.Disconnect, with_view, answers.
  change (responder_of OpCode.DISCONNECT) with DisconnectAnswers. cbv iota.
  destruct (Create DisconnectView (bytes c)) as [[h r]|].
  - destruct (IsCisConnectionHandle h); [apply handed_to_link_layer|].
    apply (says_after_quiet (λ r, r = [Answered OpCode.DISCONNECT])); [quiet_tac|]. intros st. by apply says_status.
  - apply (says_before_quiet (λ r, r = [Alarm 0x43])); [by apply says_send_event|]. intros _. apply quiet_report.
Qed.
Lemma answers_CsrVendorCommand : entry_answers (OpCode.CSR_OPCODE, CsrVendorCommand).
Proof.
  intros c d d'. cbn [fst snd]. unfold CsrVendorCommand, answers.
  change (responder_of OpCode.CSR_OPCODE) with CsrAnswers. cbv iota. rewrite dual_exec_gets.
  destruct (supports_csr_vendor_command _); cbn [negb].
  - apply (says_after_quiet (λ r, r = [Vendor])); [apply quiet_csr_run|]. intros l.
    apply says_after_quiet; [quiet_tac|]. intros _. by apply says_send_event.
  - by apply (says_complete (λ r, r = [Answered OpCode.CSR_OPCODE])).
Qed.
Lemma says_IntelDdcConfigWrite c :
  says (answers_formatted [] OpCode.INTEL_DDC_CONFIG_WRITE (bytes c)) (IntelDdcConfigWrite c).
Proof. apply says_after_quiet; [apply quiet_ddc_config_write|]. intros _. says_tac. Qed.

Ltac entry_tac :=
  lazymatch goal with
  | |- entry_answers (_, DualBr.Disconnect) => apply answers_Disconnect
  | |- entry_answers (_, CsrVendorCommand) => apply answers_CsrVendorCommand
  | |- entry_answers (?op_code, _) =>
      let who := eval vm_compute in (responder_of op_code) in
      let E := fresh in
      intros c d d'; cbn [fst snd]; unfold answers;
      assert (responder_of op_code = who) as E by (vm_cast_no_check (eq_refl who)); rewrite E; clear E; cbv iota;
      lazymatch goal with
      | |- DualBr.ForwardToLm _ _ = _ → _ => apply handed_to_link_manager
      | |- DualBr.ForwardToLl _ _ = _ → _ => apply handed_to_link_layer
      | |- IntelDdcConfigWrite _ _ = _ → _ => apply says_IntelDdcConfigWrite
      | |- ?m _ = _ → ∃ l, _ ∧ answers_formatted ?fs ?op ?packet _ =>
          assert (says (answers_formatted fs op packet) m) as E; [clear; says_tac|apply E]
      end
  end.
Lemma handlers_answer : Forall entry_answers GetHciCommandHandlers.
Proof.
  unfold GetHciCommandHandlers.
  repeat lazymatch goal with
  | |- Forall _ [] => constructor
  | |- Forall _ (_ :: _) => apply Forall_cons; split; [entry_tac|]
  end.
Qed.

Lemma lookup_code_elem {A} op_code (table : list (Z * A)) a :
  lookup_code op_code table = Some a → (op_code, a) ∈ table.
Proof.
  induction table as [|[code b] table IH]; [done|]. cbn.
  destruct (Z.eqb_spec code op_code) as [->|]; [intros [= ->]; by left|right; auto].
Qed.

(** C3. Whatever packet the host sends as a command, if the controller goes on at all
    the host hears exactly one thing: its own command in local loopback mode; the
    alarm 0x42 for a command before the first reset, with the quirk; the alarm 0x43
    for bytes without the format of a command; or, for a command without a handler or
    that is not supported, its Command Complete event.  After a command with a handler
    it hears the alarm 0x43 if the bytes do not have the format of that command, and
    one Command Complete or Command Status event with the operation code otherwise;
    a command of the CSR controller has an event of its own where that is enabled.
    The sixteen commands of the link manager and the ten of the link layer, and the
    disconnection of an isochronous channel, are not answered here: the library is
    called with the packet and takes it. *)
Theorem HandleCommand_answers packet d d' (Hrun : HandleCommand packet d = Ok ((), d')) :
  ∃ l, emitted d' = emitted d ++ l ∧
  match Create CommandView packet with
  | None => responses l = [Alarm 0x43]
  | Some (op_code, _) =>
      if loops_back op_code d then responses l = [Echoed]
      else if before_reset op_code d then responses l = [Alarm 0x42]
      else if is_implemented_command op_code && is_supported_command (properties_ d) op_code
      then answers op_code packet d d' (responses l)
      else responses l = [Answered op_code]
  end.
Proof.
  unfold HandleCommand, with_view in Hrun. destruct (Create CommandView packet) as [[op_code payload]|].
  2: { revert Hrun. apply (says_before_quiet (λ r, r = [Alarm 0x43])); [by apply says_send_event|].
       intros _. apply quiet_report. }
  rewrite dual_exec_gets in Hrun. unfold id in Hrun.
  destruct (loops_back op_code d); [revert Hrun; by apply (says_send_event (λ r, r = [Echoed]))|].
  destruct (before_reset op_code d); [revert Hrun; by apply (says_send_event (λ r, r = [Alarm 0x42]))|].
  unfold is_implemented_command.
  destruct (lookup_code op_code GetHciCommandHandlers) as [handler|] eqn:Eh; cbv zeta in Hrun; cbn [has_value];
    destruct (is_supported_command _ _); cbn [andb] in *.
  2-4: revert Hrun; try (destruct (strict _); [done|]).
  2-4: by apply (says_complete (λ r, r = [Answered op_code])).
  apply lookup_code_elem in Eh. pose proof (proj1 (Forall_forall _ _) handlers_answer _ Eh) as H.
  by apply (H (MkCommand packet op_code payload)).
Qed.
End DualAnswers.

#[local] Existing Instance example_dual_environment.
(** A new controller answers the command LE Rand, and hands the command LE Remove CIG over. *)
Definition le_rand_packet : list Z := [0x18; 0x20; 0].
Definition le_remove_cig_packet : list Z := [0x65; 0x20; 1; 0].
Definition example_controller : DualModeController := new_dual 0 ControllerProperties_default.
Lemma HandleCommand_answers_witness :
  (∃ d' l, HandleCommand le_rand_packet example_controller = Ok ((), d') ∧
   emitted d' = emitted example_controller ++ l ∧ responses l = [Answered OpCode.LE_RAND]) ∧
  (∃ d', HandleCommand le_remove_cig_packet example_controller = Ok ((), d') ∧
   library_calls d' = [link_layer_ingest_hci le_remove_cig_packet]).
Proof.
  split.
  - assert (Hok : is_ok (HandleCommand le_rand_packet example_controller) = true) by (vm_compute; reflexivity).
    pose proof (HandleCommand_answers le_rand_packet example_controller) as H.
    revert Hok H. generalize (HandleCommand le_rand_packet example_controller) as result.
    intros [[[] d']| | |] Hok H; try discriminate Hok.
    destruct (H d' eq_refl) as (l & El & [Hl|[_ Hl]]); [|inversion Hl].
    exists d', l. split; [reflexivity|]. split; [exact El|exact Hl].
  - assert (Hok : is_ok (HandleCommand le_remove_cig_packet example_controller) = true) by (vm_compute; reflexivity).
    pose proof (HandleCommand_answers le_remove_cig_packet example_controller) as H.
    revert Hok H. generalize (HandleCommand le_remove_cig_packet example_controller) as result.
    intros [[[] d']| | |] Hok H; try discriminate Hok.
    destruct (H d' eq_refl) as (l & _ & _ & _ & Hl & _). exists d'. split; [reflexivity|exact Hl].
Defined.
