(* ===== verification/DualReachable.v ===== *)
(** * The states the dual mode controller reaches

    Every packet of the host, every packet of the air and every tick keep the
    invariants of the BR/EDR controller and of the LE controller. *)

From S2P Require Import Prelude HciTypes OpCodes Properties Address CsTypes Sco Connections LeState LeLists.
From S2P Require Import LeAdvertiser LePhy LeScan LeConnect LeSubrate LeSounding LeApcf LeIso LeLink Tasks.
From S2P Require Import Controller Machine BrState BrCommands BrLink BrInvariant BrMachine HciViews Random.
From S2P Require Import DualState DualBr DualLe DualVendor DualMode DualInvariant DualAnswers.

Section DualReachable.
Context {env : DualEnvironment} {laws : ViewLaws}.

Create HintDb host_calls discriminated.
#[local] Hint Constants Opaque : host_calls.
#[local] Hint Constructors host_call : host_calls.

Ltac head_of t := lazymatch t with ?f _ => head_of f | _ => t end.
Ltac unfold_head t := let f := head_of t in unfold f.
Ltac pairs x := try (let y := fresh in destruct x as [x y]; pairs x).
Ltac keeps_tac :=
  cbv zeta;
  lazymatch goal with
  | |- dual_keeps (mret _) => apply dk_ret
  | |- dual_keeps (gets _) => apply dk_gets
  | |- dual_keeps (lift _) => apply dk_lift
  | |- dual_keeps (on_bredr _) => apply dk_host_call; solve [eauto 1 with host_calls nocore]
  | |- dual_keeps (le_command _) => apply dk_command; try exact I
  | |- dual_keeps (on_le (apcf_room _)) => apply dk_le, keeps_apcf_room
  | |- dual_keeps (on_le (LeIso.ForwardToLl _)) => apply dk_le, keeps_ForwardToLl
  | |- dual_keeps (emit _) => apply dk_emit
  | |- dual_keeps (modify (update_properties _)) => by apply dk_update_properties
  | |- dual_keeps (modify _) => apply dk_modify; by intros ? []
  | |- dual_keeps (when _ _) => apply dk_when; keeps_tac
  | |- dual_keeps (report_invalid_packet _ _) => apply dk_report
  | |- dual_keeps (with_view _ _ _) =>
      apply dk_view; let x := fresh in intros x ?; pairs x; keeps_tac
  | |- dual_keeps (_ ≫= _) => apply dk_bind; [keeps_tac|intros ?; keeps_tac]
  | |- dual_keeps (match ?x with _ => _ end) => destruct x; keeps_tac
  | |- dual_keeps ?m => unfold_head m; keeps_tac
  end.

Lemma dk_LeSetAdvertisingData c : dual_keeps (LeSetAdvertisingData c).
Proof.
  apply dk_view. intros data Hv. unfold run_complete. apply dk_bind; [|intros; keeps_tac].
  apply dk_command. by eapply advertising_data_view.
Qed.
Lemma dk_LeSetScanResponseData c : dual_keeps (LeSetScanResponseData c).
Proof.
  apply dk_view. intros data Hv. unfold run_complete. apply dk_bind; [|intros; keeps_tac].
  apply dk_command. by eapply scan_response_data_view.
Qed.
Lemma dk_LeSetExtendedAdvertisingEnable c : dual_keeps (LeSetExtendedAdvertisingEnable c).
Proof.
  apply dk_view. intros [enable sets] Hv. unfold run_complete. apply dk_bind; [|intros; keeps_tac].
  apply dk_command. by eapply advertising_enable_view.
Qed.
Lemma dk_LeRand c : dual_keeps (LeRand c).
Proof.
  apply dk_view. intros _ _ d a d' [Hb Hl Hr]. rewrite dual_exec_gets.
  pose proof (draw_wf _ Hr) as [_ Hw]. destruct (draw (random_generator_ d)) as [number g].
  rewrite dual_exec_modify. intros E. eapply dk_emit; [|exact E]. by split.
Qed.
Lemma dk_ddc_config_write fuel parameters : dual_keeps (ddc_config_write fuel parameters).
Proof.
  revert parameters. induction fuel as [|fuel IH]; intros [|len rest]; cbn [ddc_config_write]; [keeps_tac..|].
  apply dk_bind; [keeps_tac|]. intros _. cbv zeta. apply dk_bind; [keeps_tac|]. intros _. apply IH.
Qed.
Lemma dk_IntelDdcConfigWrite c : dual_keeps (IntelDdcConfigWrite c).
Proof. apply dk_bind; [apply dk_ddc_config_write|]. intros _. keeps_tac. Qed.

Definition entry_keeps (entry : Z * (command → D ())) : Prop := ∀ c, dual_keeps (snd entry c).
Ltac entry_tac :=
  intros c; cbn [fst snd];
  lazymatch goal with
  | |- dual_keeps (LeSetAdvertisingData _) => apply dk_LeSetAdvertisingData
  | |- dual_keeps (LeSetScanResponseData _) => apply dk_LeSetScanResponseData
  | |- dual_keeps (LeSetExtendedAdvertisingEnable _) => apply dk_LeSetExtendedAdvertisingEnable
  | |- dual_keeps (LeRand _) => apply dk_LeRand
  | |- dual_keeps (IntelDdcConfigWrite _) => apply dk_IntelDdcConfigWrite
  | |- _ => keeps_tac
  end.
Lemma handlers_keep : Forall entry_keeps GetHciCommandHandlers.
Proof.
  unfold GetHciCommandHandlers.
  repeat lazymatch goal with
  | |- Forall _ [] => constructor
  | |- Forall _ (_ :: _) => apply Forall_cons; split; [entry_tac|]
  end.
Qed.

Lemma dk_HandleCommand packet : dual_keeps (HandleCommand packet).
Proof.
  apply dk_view. intros [op_code payload] _. apply dk_bind; [apply dk_gets|]. intros d.
  destruct (loops_back op_code d); [apply dk_emit|].
  destruct (before_reset op_code d); [apply dk_emit|]. cbv zeta.
  destruct (lookup_code op_code GetHciCommandHandlers) as [handler|] eqn:Eh; [|keeps_tac].
  destruct (is_supported_command _ _); [|keeps_tac].
  apply lookup_code_elem in Eh. exact (proj1 (Forall_forall _ _) handlers_keep _ Eh _).
Qed.
Lemma dk_HandleAcl packet : dual_keeps (HandleAcl packet).
Proof.
  apply dk_view. intros [[[h pb] bc] data] _. apply dk_bind; [apply dk_gets|]. intros mode.
  case_bool_decide; [keeps_tac|]. destruct (IsAclConnectionHandle h); [keeps_tac|].
  destruct (IsLeAclConnectionHandle h); [apply dk_le, keeps_HandleAcl|keeps_tac].
Qed.
Lemma dk_HandleSco packet : dual_keeps (HandleSco packet).
Proof.
  apply dk_view. intros [[h flag] data] _. apply dk_bind; [apply dk_gets|]. intros mode.
  case_bool_decide; keeps_tac.
Qed.
Lemma dk_HandleIso packet : dual_keeps (HandleIso packet).
Proof. apply dk_view. intros [[[h pb] ts] data] _. apply dk_le, keeps_HandleIso. Qed.
Lemma dk_receive incoming rssi : dual_keeps (ReceiveLinkLayerPacket incoming rssi).
Proof. destruct incoming as [packet|packet]; [apply dk_bredr, kept_IncomingPacket|apply dk_le, keeps_IncomingPacket]. Qed.
Lemma dk_Tick : dual_keeps Tick.
Proof.
  apply dk_bind; [apply dk_bredr, kept_Tick|]. intros _. apply dk_le_machine.
  intros s a s' Hs (s1 & E & [= _ <-])%bind_Ok. by eapply Tick_wf.
Qed.
Lemma dk_Close : dual_keeps Close.
Proof.
  apply dk_bind; [keeps_tac|]. intros _. apply dk_bind; [apply dk_le, keeps_Close|]. intros _. keeps_tac.
Qed.
Lemma dual_step_keeps d d' : dual_wf d → dual_step d d' → dual_wf d'.
Proof.
  intros Hd. destruct 1 as [p d d' E|p d d' E|p d d' E|p d d' E|i r m d d' Em E|d d' E|d d' E|d d' E|d d' E].
  - by eapply dk_HandleCommand.
  - by eapply dk_HandleAcl.
  - by eapply dk_HandleSco.
  - by eapply dk_HandleIso.
  - by eapply dk_receive.
  - by eapply dk_Tick.
  - by eapply dk_Close.
  - eapply dk_modify; [|done|exact E]. by intros ? [].
  - eapply dk_modify; [|done|exact E]. by intros ? [].
Qed.
Lemma new_dual_wf id properties : properties_wf properties → dual_wf (new_dual id properties).
Proof.
  intros Hp. split; [apply new_controller_br_wf|by apply new_machine_wf|apply seeded_wf].
Qed.

(** C4. In every state the dual mode controller reaches, whatever the host and the
    peers send and in whatever order with the ticks of the clock, both controllers
    satisfy their invariants (connection tables, device lists, advertising sets, task
    queues) and the random generator is well formed. *)
Theorem dual_reachable_wf id properties d (Hp : properties_wf properties)
    (Hreach : dual_reachable id properties d) : dual_wf d.
Proof.
  pose proof (new_dual_wf id properties Hp) as H0. revert H0. unfold dual_reachable in Hreach.
  induction Hreach as [d|d1 d2 d3 Hstep _ IH]; [done|]. intros H1. by eapply IH, dual_step_keeps.
Qed.
End DualReachable.

#[local] Existing Instance example_dual_environment.
#[local] Existing Instance example_view_laws.
(** A controller that has executed a command. *)
Lemma dual_reachable_wf_witness :
  ∃ d, HandleCommand le_rand_packet example_controller = Ok ((), d) ∧ dual_wf d.
Proof.
  assert (Hok : is_ok (HandleCommand le_rand_packet example_controller) = true) by (vm_compute; reflexivity).
  destruct (HandleCommand le_rand_packet example_controller) as [[[] d]| | |] eqn:E; try discriminate Hok.
  exists d. split; [reflexivity|]. apply (dual_reachable_wf 0 ControllerProperties_default d).
  - repeat split; discriminate.
  - eapply rtc_l; [|apply rtc_refl]. by apply (step_handle_command le_rand_packet).
Defined.
