(* ===== verification/DualCredits.v ===== *)
(** * Flow control of the ACL data

    The host counts the packets the controller has completed: each one it sends must
    be credited once, now or in a scheduled event. *)

From S2P Require Import Prelude HciTypes OpCodes Properties Address CsTypes Sco Connections LeState LeLists.
From S2P Require Import LeAdvertiser LePhy LeScan LeConnect LeSubrate LeSounding LeApcf LeIso LeLink Tasks.
From S2P Require Import Controller Machine BrState BrCommands BrLink BrInvariant BrMachine HciViews Random.
From S2P Require Import DualState DualBr DualLe DualVendor DualMode DualInvariant DualAnswers.

Definition total {T} (f : T → Z) (l : list T) : Z := foldr (λ x n, f x + n) 0 l.
Lemma total_app {T} (f : T → Z) l l' : total f (l ++ l') = total f l + total f l'.
Proof. unfold total. induction l as [|x l IH]; cbn in *; lia. Qed.
Lemma total_one {T} (f : T → Z) x : total f [x] = f x.
Proof. unfold total. cbn. lia. Qed.
Lemma total_cons {T} (f : T → Z) x l : total f (x :: l) = f x + total f l.
Proof. done. Qed.
#[export] Instance total_perm {T} (f : T → Z) : Proper ((≡ₚ) ==> eq) (total f).
Proof. intros l l'. unfold total. induction 1; cbn in *; lia. Qed.

#[global] Arguments total : simpl never.

(** ** Credits of one connection *)

Section Credits.
Context (handle : Z).

Definition of_handle (h n : Z) : Z := if h =? handle then n else 0.
Definition br_credit (event : BrState.HciEvent) : Z :=
  match event with BrState.NumberOfCompletedPackets h n => of_handle h n | _ => 0 end.
Definition le_credit (event : LeState.HciEvent) : Z :=
  match event with LeState.NumberOfCompletedPackets h n => of_handle h n | _ => 0 end.
Definition br_task_credit (t : Task BrState.TaskCallback) : Z :=
  match callback t with BrState.SendEvent event => br_credit event | _ => 0 end.
Definition le_task_credit (t : Task LeState.TaskCallback) : Z :=
  match callback t with SendEventLater event => le_credit event | _ => 0 end.
Definition credit (e : Emission) : Z :=
  match e with
  | EmitEvent (NumberOfCompletedPackets h n) => of_handle h n
  | EmitEvent (FromBr event) => br_credit event
  | EmitEvent (FromLe event) => le_credit event
  | _ => 0
  end.

Section Sent.
Context {env : DualEnvironment}.
(** Sent so far, and scheduled in the two task queues. *)
Definition credits (d : DualModeController) : Z :=
  total credit (emitted d)
  + total br_task_credit (task_queue_ (tasks (bredr_controller_ d)))
  + total le_task_credit (task_queue_ (snd (le_controller_ d))).

Lemma ScheduleTask_total {A} (f : Task A → Z) t delay (a : A) q id q' :
  fits 32 (task_counter_ q) → Tasks.ScheduleTask t delay a q = Ok (id, q') →
  fits 32 (task_counter_ q') ∧
  total f (task_queue_ q') = f (one_shot_task t delay a id) + total f (task_queue_ q).
Proof. intros Hc E. destruct (ScheduleTask_perm _ _ _ _ _ _ Hc E) as [Hc' ->]. done. Qed.

(** *** Each controller credits what it is given *)

Lemma br_HandleAcl_credits h pb bc data c u c' :
  fits 32 (task_counter_ (tasks c)) → BrLink.HandleAcl h pb bc data c = Ok (u, c') →
  BrState.emitted c' = BrState.emitted c ∧
  total br_task_credit (task_queue_ (tasks c')) = of_handle h 1 + total br_task_credit (task_queue_ (tasks c)).
Proof.
  intros Hc. unfold BrLink.HandleAcl. destruct (negb _); [done|]. rewrite BrState.exec_gets.
  assert (Hlast : ∀ c1, fits 32 (task_counter_ (tasks c1)) →
    schedule_event (BrState.NumberOfCompletedPackets h 1) c1 = Ok (u, c') →
    BrState.emitted c' = BrState.emitted c1 ∧
    total br_task_credit (task_queue_ (tasks c')) = of_handle h 1 + total br_task_credit (task_queue_ (tasks c1))).
  { intros c1 Hc1. rewrite schedule_event_run. intros ([id q] & E & [= _ <-])%bind_Ok. split; [done|].
    apply (ScheduleTask_total br_task_credit) in E as [_ E]; [exact E|done]. }
  destruct (HasAclHandle h (connections_ c)).
  - rewrite exec_assoc, exec_lift. intros (k & _ & E)%bind_Ok. revert E. unfold mbind at 1, M_bind.
    rewrite SendLinkLayerPacket_run. intros ([u1 c1] & ([id q] & E & [= _ <-])%bind_Ok & E2)%bind_Ok.
    destruct (ScheduleTask_total br_task_credit _ _ _ _ _ _ Hc E) as [Hq Et].
    apply Hlast in E2; [|done]. cbn [BrState.emitted tasks] in *. destruct E2 as [-> ->]. split; [done|]. cbn. rewrite Et. done.
  - rewrite BrState.exec_ret. by apply Hlast.
Qed.

Lemma perform_schedule t delay callback out w q s :
  fits 32 (task_counter_ q) → perform t (LeState.ScheduleTask delay callback :: out) (w, q) = Ok s →
  ∃ q', fits 32 (task_counter_ q') ∧ perform t out (w, q') = Ok s ∧
  total le_task_credit (task_queue_ q')
  = le_task_credit (MkTask 0 false 0 callback 0) + total le_task_credit (task_queue_ q).
Proof.
  intros Hq. cbn [perform perform_one]. intros (s1 & ([id q1] & E & [= <-])%bind_Ok & Ep)%bind_Ok.
  destruct (ScheduleTask_total le_task_credit _ _ _ _ _ _ Hq E) as [Hq1 Et]. by exists q1.
Qed.
Lemma le_HandleAcl_credits ticks h pb bc data w q u w' q' :
  fits 32 (task_counter_ q) → run ticks (LeLink.HandleAcl h pb bc data) (w, q) = Ok (u, (w', q')) →
  Machine.emitted w' = Machine.emitted w ∧
  total le_task_credit (task_queue_ q') = of_handle h 1 + total le_task_credit (task_queue_ q).
Proof.
  intros Hq. unfold run. intros ([[u1 c] out] & E & ([w1 q1] & Ep & [= _ <- <-])%bind_Ok)%bind_Ok.
  assert (Hout : ∃ l, out = l ++ [LeState.ScheduleTask 0 (SendEventLater (LeState.NumberOfCompletedPackets h 1))]
            ∧ (l = [] ∨ ∃ packet, l = [LeState.ScheduleTask 0 (LeState.SendToRemote packet 0)])).
  { unfold LeLink.HandleAcl, assert in E. destruct (bc =? 0); [|done]. autorewrite with run in E.
    unfold id in E. destruct (HasLeAclHandle _ _) eqn:Eh.
    - apply M_bind_Ok in E as (u2 & c2 & o2 & u3 & c3 & o3 & E2 & E3 & [= _ _ ->]).
      injection E3 as _ _ <-. exists o2. split; [done|]. right.
      apply M_bind_Ok in E2 as (k & c4 & o4 & u5 & c5 & o5 & E4 & E5 & [= _ _ ->]).
      unfold le_connection in E4. autorewrite with run in E4. revert E4. unfold LeState.lift.
      intros (k' & _ & [= _ _ <-])%bind_Ok. injection E5 as _ _ <-. by eexists.
    - autorewrite with run in E. injection E as _ _ <-. exists []. split; [done|by left]. }
  destruct Hout as (l & -> & [->|[packet ->]]); cbn [app] in Ep.
  - apply (perform_schedule _ _ _ _ _ _ _ Hq) in Ep as (q2 & _ & [= <- <-] & Et). done.
  - apply (perform_schedule _ _ _ _ _ _ _ Hq) in Ep as (q2 & Hq2 & Ep & Et).
    apply (perform_schedule _ _ _ _ _ _ _ Hq2) in Ep as (q3 & _ & [= <- <-] & Et3).
    split; [done|]. rewrite Et3, Et. cbn. lia.
Qed.

(** C6. Every ACL data packet the host sends is credited exactly once, whatever its
    connection handle: of the BR/EDR controller, of the LE controller, of neither, or
    in local loopback mode.  The credit is sent, or it is in one of the two task
    queues; the credits of the other handles do not change. *)
Theorem acl_packet_credited packet h pb bc data d d' (Hd : dual_wf d)
    (Hview : Create AclView packet = Some (h, pb, bc, data)) (Hrun : HandleAcl packet d = Ok ((), d')) :
  credits d' = of_handle h 1 + credits d.
Proof.
  revert Hrun. unfold HandleAcl, with_view. rewrite Hview, dual_exec_gets. unfold credits.
  destruct (bool_decide _).
  { unfold emit, send_event_, emit. rewrite dual_exec_modify. intros [= <-]. cbn. rewrite !total_app, !total_one. cbn. lia. }
  destruct (IsAclConnectionHandle h).
  { unfold on_bredr. intros ([u c] & E & [= _ <-])%bind_Ok. apply br_HandleAcl_credits in E as [Ee Et].
    - cbn in *. rewrite Ee, Et. cbn. rewrite app_nil_r. lia.
    - apply Hd. }
  destruct (IsLeAclConnectionHandle h).
  { unfold on_le, on_le_machine. destruct (le_controller_ d) as [w q] eqn:El.
    intros ([u [w' q']] & E & [= _ <-])%bind_Ok. apply le_HandleAcl_credits in E as [Ee Et].
    - cbn in *. rewrite Ee, Et. cbn. rewrite app_nil_r. lia.
    - destruct Hd as [_ [_ Hq _] _]. rewrite El in Hq. apply Hq. }
  intros [= <-]. cbn. rewrite total_app, total_one. cbn. lia.
Qed.
End Sent.
End Credits.

(** ** Examples *)

#[local] Existing Instance example_dual_environment.
(** A packet for a connection the LE controller does not have. *)
Definition acl_packet : list Z := [0xff; 0x0e; 2; 0; 0xaa; 0xbb].
Lemma acl_packet_credited_witness :
  ∃ d, HandleAcl acl_packet example_controller = Ok ((), d) ∧
  credits 0xeff d = 1 + credits 0xeff example_controller.
Proof.
  assert (Hok : is_ok (HandleAcl acl_packet example_controller) = true) by (vm_compute; reflexivity).
  destruct (HandleAcl acl_packet example_controller) as [[[] d]| | |] eqn:E; try discriminate Hok.
  exists d. split; [reflexivity|].
  refine (acl_packet_credited 0xeff acl_packet 0xeff 0 0 [0xaa; 0xbb] example_controller d _ _ E).
  - split; [apply new_controller_br_wf| |apply seeded_wf]. apply new_machine_wf. repeat split; discriminate.
  - reflexivity.
Defined.
