(* ===== verification/DualDispatch.v ===== *)
(** * The dispatch of the dual mode controller

    Commands without a handler, local loopback, HCI Reset, and the credits of the ACL
    data. *)

From S2P Require Import Prelude HciTypes OpCodes Properties Address CsTypes Sco Connections LeState LeLists.
From S2P Require Import LeAdvertiser LePhy LeScan LeConnect LeSubrate LeSounding LeApcf LeIso LeLink Tasks.
From S2P Require Import Controller Machine BrState BrCommands BrLink BrInvariant BrMachine BrProcedures HciViews Random.
From S2P Require Import DualState DualBr DualLe DualVendor DualMode DualInvariant DualAnswers DualReachable.

(** ** Commands without a handler *)

(** The commands the default properties declare supported, and that have no handler. *)
Definition supported_without_handler : list Z :=
  [OpCode.READ_LMP_HANDLE; OpCode.FLUSH; OpCode.READ_AUTOMATIC_FLUSH_TIMEOUT;
   OpCode.WRITE_AUTOMATIC_FLUSH_TIMEOUT; OpCode.READ_HOLD_MODE_ACTIVITY;
   OpCode.WRITE_HOLD_MODE_ACTIVITY; OpCode.SET_CONTROLLER_TO_HOST_FLOW_CONTROL;
   OpCode.HOST_NUMBER_OF_COMPLETED_PACKETS; OpCode.READ_LINK_SUPERVISION_TIMEOUT;
   OpCode.SET_AFH_HOST_CHANNEL_CLASSIFICATION; OpCode.READ_AFH_CHANNEL_ASSESSMENT_MODE;
   OpCode.WRITE_AFH_CHANNEL_ASSESSMENT_MODE; OpCode.READ_EXTENDED_INQUIRY_RESPONSE;
   OpCode.READ_SIMPLE_PAIRING_MODE; OpCode.WRITE_INQUIRY_TRANSMIT_POWER_LEVEL;
   OpCode.READ_LE_HOST_SUPPORT; OpCode.READ_SECURE_CONNECTIONS_HOST_SUPPORT;
   OpCode.READ_AUTHENTICATED_PAYLOAD_TIMEOUT; OpCode.WRITE_AUTHENTICATED_PAYLOAD_TIMEOUT;
   OpCode.READ_AFH_CHANNEL_MAP; OpCode.ENABLE_IMPLEMENTATION_UNDER_TEST_MODE;
   OpCode.WRITE_SIMPLE_PAIRING_DEBUG_MODE; OpCode.WRITE_SECURE_CONNECTIONS_TEST_MODE;
   OpCode.LE_SET_HOST_CHANNEL_CLASSIFICATION; OpCode.LE_READ_CHANNEL_MAP; OpCode.LE_RECEIVER_TEST_V1;
   OpCode.LE_TRANSMITTER_TEST_V1; OpCode.LE_TEST_END; OpCode.LE_READ_RF_PATH_COMPENSATION_POWER;
   OpCode.LE_WRITE_RF_PATH_COMPENSATION_POWER; OpCode.LE_TRANSMITTER_TEST_V4; OpCode.LE_CS_TEST;
   OpCode.LE_CS_TEST_END].

Section DualDispatch.
Context {env : DualEnvironment}.

Lemma lookup_code_None {A} op_code (table : list (Z * A)) :
  lookup_code op_code table = None ↔ op_code ∉ table.*1.
Proof.
  induction table as [|[code a] table IH]; cbn; [split; [intros _; apply not_elem_of_nil|done]|].
  rewrite not_elem_of_cons. destruct (Z.eqb_spec code op_code); naive_solver.
Qed.
Lemma lookup_code_Some {A} op_code (table : list (Z * A)) a :
  NoDup table.*1 → (op_code, a) ∈ table → lookup_code op_code table = Some a.
Proof.
  induction table as [|[code b] table IH]; cbn; [by intros _ ?%not_elem_of_nil|].
  intros [Hn Hnd]%NoDup_cons [[= -> ->]|Hin]%elem_of_cons; [by rewrite Z.eqb_refl|].
  destruct (Z.eqb_spec code op_code) as [->|]; [|by apply IH].
  destruct Hn. apply list_elem_of_fmap. by exists (op_code, a).
Qed.

(** The two tables have one entry per command, a bit is that of one command, and every
    bit is in the mask.  A handler is that of a vendor command, of the command that
    reads the mask, or of a command with a bit. *)
Definition code_known (op_code : Z) : bool :=
  is_vendor_command op_code || (op_code =? OpCode.READ_LOCAL_SUPPORTED_COMMANDS)
  || bool_decide (op_code ∈ GetOpCodeToIndex.*1).
Lemma tables :
  NoDup GetOpCodeToIndex.*1 ∧ NoDup GetOpCodeToIndex.*2 ∧ NoDup GetHciCommandHandlers.*1 ∧
  forallb index_ok GetOpCodeToIndex.*2 = true ∧ forallb code_known GetHciCommandHandlers.*1 = true.
Proof. split_and!; [apply (bool_decide_unpack _); by vm_compute..|by vm_compute|by vm_compute]. Qed.

(** A command with a bit in the default mask has a handler or is in the list. *)
Definition supported_entry (entry : Z * Z) : bool :=
  Bool.eqb (SupportsCommand ControllerProperties_default (snd entry)
            && negb (bool_decide (fst entry ∈ GetHciCommandHandlers.*1)))
           (bool_decide (fst entry ∈ supported_without_handler)).
Lemma supported_entries : forallb supported_entry GetOpCodeToIndex = true.
Proof. by vm_compute. Qed.
Lemma without_handler_known : forallb (λ op_code, bool_decide (op_code ∈ GetOpCodeToIndex.*1)) supported_without_handler = true.
Proof. by vm_compute. Qed.
Lemma read_commands_implemented : OpCode.READ_LOCAL_SUPPORTED_COMMANDS ∈ GetHciCommandHandlers.*1.
Proof. apply (bool_decide_unpack _). by vm_compute. Qed.

Lemma supported_default op_code :
  op_code ∉ GetHciCommandHandlers.*1 →
  is_supported_command ControllerProperties_default op_code = bool_decide (op_code ∈ supported_without_handler).
Proof.
  intros Hn. unfold is_supported_command, is_implemented_command.
  rewrite (proj2 (lookup_code_None op_code GetHciCommandHandlers) Hn). cbn [has_value]. rewrite andb_false_r, orb_false_r.
  destruct (Z.eqb_spec op_code OpCode.READ_LOCAL_SUPPORTED_COMMANDS) as [->|_];
    [destruct Hn; apply read_commands_implemented|].
  destruct (lookup_code op_code GetOpCodeToIndex) as [index|] eqn:E.
  - apply lookup_code_elem in E. pose proof supported_entries as H. rewrite forallb_forall in H.
    specialize (H (op_code, index)). rewrite <-list_elem_of_In in H. specialize (H E).
    unfold supported_entry in H. cbn [fst snd] in H.
    rewrite (bool_decide_false _ Hn), andb_true_r in H. by apply eqb_prop in H.
  - symmetry. apply bool_decide_eq_false. intros Hin. apply lookup_code_None in E.
    pose proof without_handler_known as H. rewrite forallb_forall in H. specialize (H op_code).
    rewrite <-list_elem_of_In in H. specialize (H Hin). by apply bool_decide_eq_true in H.
Qed.

(** C8. A command without a handler, with the default properties: the controller
    terminates the process if the command is one of the thirty-three the properties
    declare supported, and answers Unknown HCI Command otherwise, without any other
    effect. *)
Theorem HandleCommand_without_handler packet op_code payload d
    (Hp : properties_ d = ControllerProperties_default)
    (Hview : Create CommandView packet = Some (op_code, payload))
    (Hnone : op_code ∉ GetHciCommandHandlers.*1)
    (Hloop : loops_back op_code d = false) (Hreset : before_reset op_code d = false) :
  HandleCommand packet d =
    if bool_decide (op_code ∈ supported_without_handler) then Fatal
    else Ok ((), d <| emitted ::= λ l, l ++ [EmitEvent (CommandComplete 1 op_code
                        [FInt (ErrorCode.to_Z ErrorCode.UNKNOWN_HCI_COMMAND)])] |>).
Proof.
  unfold HandleCommand, with_view. rewrite Hview, dual_exec_gets. unfold id. rewrite Hloop, Hreset, Hp.
  rewrite (proj2 (lookup_code_None _ _) Hnone). cbv zeta. rewrite supported_default by done.
  by case_bool_decide.
Qed.

(** ** Local loopback *)

(** In local loopback mode the controller is inert: a command other than the seven
    that are executed comes back as it is, an ACL or SCO packet comes back with its
    flags and the credit for it (for SCO only under flow control), and nothing but
    what was sent changes. *)
Theorem loopback_inert d (Hmode : loopback_mode_ d = LoopbackMode.ENABLE_LOCAL) :
  (∀ packet op_code payload, Create CommandView packet = Some (op_code, payload) →
     op_code ∉ executed_in_loopback →
     HandleCommand packet d = Ok ((), d <| emitted ::= λ l, l ++ [EmitEvent (LoopbackCommand packet)] |>)) ∧
  (∀ packet handle pb bc data, Create AclView packet = Some (handle, pb, bc, data) →
     HandleAcl packet d = Ok ((), d <| emitted ::= λ l, l ++ [EmitAcl handle pb bc data;
                                       EmitEvent (NumberOfCompletedPackets handle 1)] |>)) ∧
  (∀ packet handle flag data, Create ScoView packet = Some (handle, flag, data) →
     HandleSco packet d = Ok ((), d <| emitted ::= λ l, l ++ EmitSco handle flag data ::
       (if sco_flow_control_enable_ (bredr_controller_ d)
        then [EmitEvent (NumberOfCompletedPackets handle 1)] else []) |>)).
Proof.
  split_and!; intros packet.
  - intros op_code payload Hv Hop. unfold HandleCommand, with_view. rewrite Hv, dual_exec_gets. unfold id, loops_back.
    by rewrite Hmode, bool_decide_true, bool_decide_false by done.
  - intros handle pb bc data Hv. unfold HandleAcl, with_view. rewrite Hv, dual_exec_gets, Hmode.
    rewrite bool_decide_true by done. unfold send_event_, emit. rewrite dual_exec_modify. unfold modify.
    do 2 f_equal. destruct d; cbn. by rewrite <-app_assoc.
  - intros handle flag data Hv. unfold HandleSco, with_view. rewrite Hv, dual_exec_gets, Hmode.
    rewrite bool_decide_true by done. unfold send_event_, emit, bredr_gets. rewrite dual_exec_modify, dual_exec_gets.
    cbn. destruct (sco_flow_control_enable_ _) eqn:E; cbn; unfold modify; do 2 f_equal; destruct d; cbn in *;
      by rewrite ?E, <-?app_assoc.
Qed.
(** ** HCI Reset *)

Lemma restored_log c n l :
  restored (c <| BrState.readings := n |> <| BrState.emitted := l |>) = restored c.
Proof. done. Qed.
(** What the two controllers' own operations leave alone. *)
Definition host_side (d : DualModeController) :=
  (DualState.address_ d, properties_ d, random_generator_ d, loopback_mode_ d, controller_reset_ d, emitted d).
Lemma host_side_log c n d :
  host_side (d <| bredr_controller_ := c |> <| readings := n |> <| emitted ::= λ l, l ++ [] |>) = host_side d.
Proof. unfold host_side. cbn. by rewrite app_nil_r. Qed.
Lemma host_side_le_log m n d :
  host_side (d <| le_controller_ := m |> <| readings := n |> <| emitted ::= λ l, l ++ [] |>) = host_side d.
Proof. unfold host_side. cbn. by rewrite app_nil_r. Qed.
Lemma on_bredr_Reset d :
  room (zlength (GetScoHandles (connections_ (bredr_controller_ d)))
        + zlength (GetAclHandles (connections_ (bredr_controller_ d)))) (tasks (bredr_controller_ d)) →
  ∃ d', on_bredr BrCommands.Reset d = Ok ((), d') ∧
  restored (bredr_controller_ d')
    = BrState.new_controller (BrState.address_ (bredr_controller_ d)) (BrState.properties_ (bredr_controller_ d)) ∧
  le_controller_ d' = le_controller_ d ∧ host_side d' = host_side d.
Proof.
  intros Hroom. set (c0 := (bredr_controller_ d) <| BrState.readings := readings d |> <| BrState.emitted := [] |>).
  destruct (runs_DisconnectAll ErrorCode.REMOTE_USER_TERMINATED_CONNECTION c0 0) as (u & c1 & E1 & l & S1 & _);
    [by rewrite Z.add_0_r|done|].
  destruct (Reset_run c0 u c1 E1) as (q & E & _).
  pose proof (sends_proj BrState.address_ _ _ _ ltac:(done) S1) as Ea.
  pose proof (sends_proj BrState.properties_ _ _ _ ltac:(done) S1) as Ep.
  pose proof (sends_proj BrState.emitted _ _ _ ltac:(done) S1) as Ee. cbn in Ee.
  remember (reset_parameters _) as c' eqn:Ec' in E.
  assert (He : BrState.emitted c' = []) by (subst c'; exact Ee).
  assert (Hr : restored c' = BrState.new_controller (BrState.address_ c0) (BrState.properties_ c0))
    by (subst c'; rewrite <-Ea, <-Ep; reflexivity).
  clear Ec' E1 S1 Ea Ep Ee. unfold on_bredr. fold c0. rewrite E. cbn [mbind outcome_bind]. rewrite He.
  eexists. split; [reflexivity|]. rewrite host_side_log. split; [|done].
  etrans; [apply restored_log|exact Hr].
Qed.

(** Outputs that only go to the task queue. *)
Definition goes_to_queue (o : Output) : Prop :=
  match o with LeState.ScheduleTask _ _ | CancelTask _ => True | _ => False end.
Lemma perform_emitted t out s s' :
  Forall goes_to_queue out → perform t out s = Ok s' → Machine.emitted (fst s') = Machine.emitted (fst s).
Proof.
  intros Hout. revert s. induction Hout as [|o out Ho _ IH]; intros s; cbn [perform]; [by intros [= <-]|].
  intros (s1 & E & Ep)%bind_Ok. rewrite (IH _ Ep). destruct s as [w q], o; try done; cbn in E.
  - by injection E as <-.
  - by apply bind_Ok in E as ([id q'] & _ & [= <-]).
Qed.

Lemma scheduled_disconnects reason l : scheduled (disconnect_packets reason l) = length l.
Proof. induction l as [|[h k] l IH]; [done|]. exact (f_equal S IH). Qed.
Lemma scheduled_cancels l : scheduled (CancelTask <$> l) = O.
Proof. by induction l. Qed.
Lemma run_eq {A} (m : LeState.M A) w q a c out s :
  m (clock (Machine.readings w)) (controller w) = Ok (a, c, out) →
  perform (clock (Machine.readings w)) out (w <| controller := c |> <| Machine.readings ::= S |>, q) = Ok s →
  run clock m (w, q) = Ok (a, s).
Proof. intros E Ep. unfold run. rewrite E. cbn [mbind outcome_bind]. by rewrite Ep. Qed.
Lemma on_le_Reset d :
  machine_wf (le_controller_ d) →
  zlength (task_queue_ (snd (le_controller_ d)))
  + Z.of_nat (size (le_acl_connections_ (LeState.connections_ (controller (fst (le_controller_ d)))))) + 1 ≤ 2 ^ 32 →
  ∃ d', le_command CmdReset d = Ok (ErrorCode.SUCCESS, d') ∧
  controller (fst (le_controller_ d')) = reset_state (controller (fst (le_controller_ d))) ∧
  bredr_controller_ d' = bredr_controller_ d ∧ host_side d' = host_side d.
Proof.
  intros Hwf Hroom. unfold le_command, on_le, on_le_machine. destruct (le_controller_ d) as [w q] eqn:El.
  cbn [fst snd] in *. set (w0 := MkWorld (controller w) (readings d) []).
  destruct (le_Reset_run (clock (readings d)) (controller w)) as [cancelled E].
  set (out := _ ++ _) in E.
  assert (Erun : execute CmdReset (clock (readings d)) (controller w) = Ok (ErrorCode.SUCCESS, reset_state (controller w), out)).
  { cbn [execute]. erewrite run_bind by exact E. unfold mret, LeState.M_ret, LeState.emit. cbn [mbind outcome_bind]. by rewrite app_nil_r. }
  assert (Hout : Forall goes_to_queue out).
  { apply Forall_app. split; apply Forall_fmap, Forall_forall; [by intros [h k] _|done]. }
  assert (Hscheduled : Z.of_nat (scheduled out) = Z.of_nat (size (le_acl_connections_ (LeState.connections_ (controller w))))).
  { unfold out. rewrite scheduled_app, scheduled_disconnects, scheduled_cancels, Nat.add_0_r.
    by rewrite (Permutation_length (iterate_perm _)), length_map_to_list. }
  assert (H1 : machine_wf (w0 <| controller := reset_state (controller w) |> <| Machine.readings ::= S |>, q)).
  { destruct Hwf as [Hc Hq Hone]. split; [|done..]. cbn.
    destruct (execute_keeps CmdReset I _ _ _ _ _ Hc Erun) as [Hc' _]. exact Hc'. }
  destruct (perform_Ok (clock (readings d)) out _ H1) as ([w1 q1] & Ep); [cbn [snd]; lia|].
  destruct (perform_wf _ _ _ _ H1 Ep) as (_ & Ec & _). apply (perform_emitted _ _ _ _ Hout) in Ep as Ee.
  cbn [fst Machine.emitted controller] in Ec, Ee.
  rewrite (run_eq _ _ _ _ _ _ _ Erun Ep). cbn [mbind outcome_bind].
  assert (Machine.emitted w1 = []) as -> by exact Ee.
  eexists. split; [reflexivity|]. rewrite host_side_le_log. split; [exact Ec|done].
Qed.

Lemma run_then {A B} (m : D A) (k : A → D B) d a d' : m d = Ok (a, d') → (m ≫= k) d = k a d'.
Proof. intros E. unfold mbind, D_bind. by rewrite E. Qed.

(** C7. HCI Reset returns, from every state that satisfies the invariants, if the task
    queues have room for one disconnection per link.  Both controllers are as new ones
    with the same address and properties, up to what their own resets leave; local
    loopback ends and the reset is noted; the random generator goes on.  The host
    hears exactly the Command Complete event. *)
Theorem HandleCommand_Reset packet payload d (Hd : dual_wf d)
    (Hview : Create CommandView packet = Some (OpCode.RESET, payload))
    (Hreset : Create ResetView packet = Some ())
    (Hsupported : is_supported_command (properties_ d) OpCode.RESET = true)
    (Hbr : room (zlength (GetScoHandles (connections_ (bredr_controller_ d)))
                 + zlength (GetAclHandles (connections_ (bredr_controller_ d)))) (tasks (bredr_controller_ d)))
    (Hle : zlength (task_queue_ (snd (le_controller_ d)))
           + Z.of_nat (size (le_acl_connections_ (LeState.connections_ (controller (fst (le_controller_ d)))))) + 1
           ≤ 2 ^ 32) :
  ∃ d', HandleCommand packet d = Ok ((), d') ∧
  restored (bredr_controller_ d')
    = BrState.new_controller (BrState.address_ (bredr_controller_ d)) (BrState.properties_ (bredr_controller_ d)) ∧
  controller (fst (le_controller_ d')) = reset_state (controller (fst (le_controller_ d))) ∧
  loopback_mode_ d' = LoopbackMode.NO_LOOPBACK ∧ controller_reset_ d' = true ∧
  (DualState.address_ d', properties_ d', random_generator_ d') =
    (DualState.address_ d, properties_ d, random_generator_ d) ∧
  emitted d' = emitted d ++ [EmitEvent (CommandComplete 1 OpCode.RESET [FStatus ErrorCode.SUCCESS])].
Proof.
  assert (Hl : loops_back OpCode.RESET d = false).
  { unfold loops_back. by rewrite (bool_decide_true (OpCode.RESET ∈ _)), andb_false_r by left. }
  assert (Hb : before_reset OpCode.RESET d = false) by (unfold before_reset; by rewrite Z.eqb_refl, andb_false_r).
  assert (Hh : lookup_code OpCode.RESET GetHciCommandHandlers = Some DualBr.Reset)
    by (lazy [GetHciCommandHandlers lookup_code]; reflexivity).
  unfold HandleCommand, with_view. rewrite Hview, dual_exec_gets. unfold id. rewrite Hl, Hb, Hh. cbv zeta.
  rewrite Hsupported. unfold DualBr.Reset, with_view. cbn [bytes]. rewrite Hreset.
  destruct (on_bredr_Reset d Hbr) as (d1 & E1 & Hc & Hl1 & Hs1).
  pose proof (on_le_Reset d1) as Hle1. rewrite Hl1 in Hle1.
  specialize (Hle1 (dual_wf_le _ Hd)).
  specialize (Hle1 Hle).
  destruct Hle1 as (d2 & E2 & Hw & Hb2 & Hs2).
  erewrite run_then by exact E1. erewrite run_then by exact E2. rewrite dual_exec_modify.
  rewrite <-Hb2 in Hc. rewrite Hs1 in Hs2. clear - Hc Hw Hs2. unfold host_side in Hs2.
  injection Hs2 as Ha Hp Hr _ _ He. eexists. split; [reflexivity|].
  split; [exact Hc|]. split; [exact Hw|]. cbn. by rewrite Ha, Hp, Hr, He.
Qed.
End DualDispatch.

(** ** Examples *)

#[local] Existing Instance example_dual_environment.
#[local] Existing Instance example_view_laws.
Lemma HandleCommand_without_handler_witness :
  HandleCommand [0x20; 0x04; 0] example_controller = Fatal ∧
  HandleCommand [0xff; 0x07; 0] example_controller =
    Ok ((), example_controller <| emitted := [EmitEvent (CommandComplete 1 0x07ff [FInt 1])] |>).
Proof.
  split.
  - rewrite (HandleCommand_without_handler _ 0x0420 []); [reflexivity|reflexivity|reflexivity| |reflexivity..].
    apply (bool_decide_unpack _). vm_compute. exact I.
  - rewrite (HandleCommand_without_handler _ 0x07ff []); [reflexivity|reflexivity|reflexivity| |reflexivity..].
    apply (bool_decide_unpack _). vm_compute. exact I.
Defined.
Definition looping_controller : DualModeController :=
  example_controller <| loopback_mode_ := LoopbackMode.ENABLE_LOCAL |>.
Lemma loopback_inert_witness :
  HandleCommand le_rand_packet looping_controller =
    Ok ((), looping_controller <| emitted := [EmitEvent (LoopbackCommand le_rand_packet)] |>).
Proof.
  destruct (loopback_inert looping_controller eq_refl) as (H & _ & _).
  rewrite (H _ OpCode.LE_RAND []); [reflexivity|reflexivity|]. apply (bool_decide_unpack _). vm_compute. exact I.
Defined.
Lemma looping_wf mode d : dual_wf d → dual_wf (d <| loopback_mode_ := mode |>).
Proof. intros [Hb Hl Hr]. by split. Qed.
(** Reset ends local loopback. *)
Lemma HandleCommand_Reset_witness :
  ∃ d, HandleCommand [0x03; 0x0c; 0] looping_controller = Ok ((), d) ∧
  loopback_mode_ d = LoopbackMode.NO_LOOPBACK ∧
  emitted d = [EmitEvent (CommandComplete 1 OpCode.RESET [FStatus ErrorCode.SUCCESS])].
Proof.
  destruct (HandleCommand_Reset [0x03; 0x0c; 0] [] looping_controller) as (d & E & _ & _ & El & _ & _ & Ee).
  - apply looping_wf, new_dual_wf. repeat split; discriminate.
  - reflexivity.
  - reflexivity.
  - by vm_compute.
  - by vm_compute.
  - by vm_compute.
  - exists d. split; [exact E|]. split; [exact El|exact Ee].
Defined.
