(* ===== verification/HciDevice.v ===== *)
(** * The controller at the end of a transport (model/devices/hci_device.cc)

    [HciDevice] is a dual mode controller whose channels are a transport: what the host sends
    goes to the controller, what the controller has to say to the host goes back.  What a handler
    emits is sent when the handler ends. *)

From Stdlib Require Import Ascii String.
From S2P Require Import Prelude HciTypes Properties Address H4 LeState BrState BrCommands HciViews DualState DualMode.
From S2P Require Import PhyLayer HciSniffer Devices.

(** [SerializeToBytes] of the packets a controller sends. *)
Class Serializers := {
  serialize_event : DualState.HciEvent → list Z;
  serialize_acl : Z → Z → Z → list Z → list Z;
  serialize_sco : Z → Z → list Z → list Z;
  serialize_iso : Z → Z → Z → Z → list Z → list Z;
  serialize_br : BrState.LinkLayerPacket → list Z;
  serialize_le : LeState.LinkLayerPacket → list Z;
}.

Record HciDevice {env : DualEnvironment} (T : Type) := MkHciDevice {
  transport_ : T;
  controller_ : DualModeController;
}.
Arguments MkHciDevice {env T}. Arguments transport_ {env T}. Arguments controller_ {env T}.

(** What leaves a device other than through its transport. *)
Inductive Outward :=
| ToAir (packet : list Z) (type : PhyType) (tx_power : Z)
| InvalidReported
| CloseCalled.

Module HciDevice.
Section HciDevice.
Context {env : DualEnvironment} {serializers : Serializers} `{HciTransport T}.

(** The channels of the constructor: [RegisterEventChannel] and the like, and the link layer
    channels. *)
Definition forward (e : Emission) (t : T) : outcome (T * list Outward) :=
  match e with
  | DualState.EmitEvent event => t ← transport_Send EVENT (serialize_event event) t; Ok (t, [])
  | DualState.EmitAcl handle pb bc data => t ← transport_Send ACL (serialize_acl handle pb bc data) t; Ok (t, [])
  | DualState.EmitSco handle status data => t ← transport_Send SCO (serialize_sco handle status data) t; Ok (t, [])
  | DualState.EmitIso handle pb sequence_number length data =>
      t ← transport_Send ISO (serialize_iso handle pb sequence_number length data) t; Ok (t, [])
  | EmitBrPacket packet tx_power => Ok (t, [ToAir (serialize_br packet) PhyLayer.BR_EDR tx_power])
  | EmitLePacket packet tx_power => Ok (t, [ToAir (serialize_le packet) PhyLayer.LOW_ENERGY tx_power])
  | InvalidPacket _ _ => Ok (t, [InvalidReported])
  | DualState.Closed => Ok (t, [CloseCalled])
  end.
Fixpoint forward_all (es : list Emission) (t : T) : outcome (T * list Outward) :=
  match es with
  | [] => Ok (t, [])
  | e :: es => '(t, o) ← forward e t; '(t, o') ← forward_all es t; Ok (t, o ++ o')
  end.
(** A handler of the controller, with its emissions. *)
Definition call (m : D ()) (h : HciDevice T) : outcome (HciDevice T * list Outward) :=
  '(_, d) ← m ((controller_ h) <| emitted := [] |>);
  '(t, o) ← forward_all (emitted d) (transport_ h);
  Ok (MkHciDevice t d, o).

(** The constructor. *)
Definition new (id : Z) (transport : T) (properties : ControllerProperties) : outcome (HciDevice T) :=
  '(_, d) ← (on_bredr (SetLocalName (bytes_of "gDevice-HCI")) ≫= λ _,
             on_bredr (SetExtendedInquiryResponse ([12; 9] ++ bytes_of "gDevice-hci"))) (new_dual id properties);
  Ok (MkHciDevice transport d).

Definition GetTypeString : list ascii := text_of_string "hci_device".
Definition Close (h : HciDevice T) : outcome (HciDevice T * list Outward) :=
  t ← transport_Close (transport_ h);
  call DualMode.Close (MkHciDevice t (controller_ h)).
(** The callbacks given to the transport. *)
Definition handle (c : callback) (h : HciDevice T) : outcome (HciDevice T * list Outward) :=
  match c with
  | OnPacket (COMMAND, packet) => call (HandleCommand packet) h
  | OnPacket (ACL, packet) => call (HandleAcl packet) h
  | OnPacket (SCO, packet) => call (HandleSco packet) h
  | OnPacket (ISO, packet) => call (HandleIso packet) h
  | OnPacket _ => Fatal
  | OnDisconnect => Close h
  end.
Fixpoint handle_all (cs : list callback) (h : HciDevice T) : outcome (HciDevice T * list Outward) :=
  match cs with
  | [] => Ok (h, [])
  | c :: cs => '(h, o) ← handle c h; '(h, o') ← handle_all cs h; Ok (h, o ++ o')
  end.
Definition Tick (h : HciDevice T) : outcome (HciDevice T * list Outward) :=
  '(t, calls) ← transport_Tick (transport_ h);
  '(h, o) ← handle_all calls (MkHciDevice t (controller_ h));
  '(h, o') ← call DualMode.Tick h;
  Ok (h, o ++ o').
(** [Device::ReceiveLinkLayerPacket]. *)
Definition ReceiveLinkLayerPacket (incoming : DualMode.Incoming) (rssi : Z) (h : HciDevice T)
  : outcome (HciDevice T * list Outward) := call (DualMode.ReceiveLinkLayerPacket incoming rssi) h.
End HciDevice.

(** ** A controller on a socket *)

Section OnSocket.
Context {env : DualEnvironment} {serializers : Serializers} `{AsyncDataChannel Chan}.
#[local] Existing Instance HciSocketTransport.socket_transport.
Import H4Parser H4DataChannelPacketizer.

Lemma RegisterCallbacks_host ds :
  Forall (λ d, fst d ≠ EVENT) ds → HciSocketTransport.RegisterCallbacks (OnPacket <$> ds) = Ok (OnPacket <$> ds).
Proof.
  induction 1 as [|[ty p] ds Hty _ IH]; [done|]. cbn in *. destruct ty; try done; cbn; by rewrite IH.
Qed.

(** What the host asks for, by the type of the packet. *)
Definition operation_of (d : delivery) : D () :=
  match fst d with
  | COMMAND => HandleCommand (snd d)
  | ACL => HandleAcl (snd d)
  | SCO => HandleSco (snd d)
  | ISO => HandleIso (snd d)
  | _ => lift Fatal
  end.
(** A controller that runs one operation after the other, and all that it emits. *)
Fixpoint serve (operations : list (D ())) (d : DualModeController) : outcome (DualModeController * list Emission) :=
  match operations with
  | [] => Ok (d, [])
  | operation :: operations =>
      '(_, d) ← operation (d <| emitted := [] |>);
      '(d', es) ← serve operations d;
      Ok (d', emitted d ++ es)
  end.
(** What the host gets of it, and what goes elsewhere. *)
Definition host_packet (e : Emission) : option delivery :=
  match e with
  | DualState.EmitEvent event => Some (EVENT, serialize_event event)
  | DualState.EmitAcl handle pb bc data => Some (ACL, serialize_acl handle pb bc data)
  | DualState.EmitSco handle status data => Some (SCO, serialize_sco handle status data)
  | DualState.EmitIso handle pb seq length data => Some (ISO, serialize_iso handle pb seq length data)
  | _ => None
  end.
Definition outward (e : Emission) : option Outward :=
  match e with
  | EmitBrPacket packet tx_power => Some (ToAir (serialize_br packet) PhyLayer.BR_EDR tx_power)
  | EmitLePacket packet tx_power => Some (ToAir (serialize_le packet) PhyLayer.LOW_ENERGY tx_power)
  | InvalidPacket _ _ => Some InvalidReported
  | DualState.Closed => Some CloseCalled
  | _ => None
  end.

(** [delivered s] is what the peer of the socket has been sent.  In the next [calls] calls the
    socket is connected and takes what it is given. *)
Context (delivered : Chan → list Z).
Fixpoint takes (calls : nat) (s : Chan) : Prop :=
  match calls with
  | O => True
  | S calls => Connected s = true ∧ ∀ bytes,
      fst (channel_Send bytes s) = zlength bytes ∧
      delivered (snd (channel_Send bytes s)) = delivered s ++ bytes ∧ takes calls (snd (channel_Send bytes s))
  end.

(** One packet on the socket, and all that a handler emits. *)
Definition sends_host (ds : list delivery) (t t' : HciSocketTransport Chan) : Prop :=
  h4_ t' = h4_ t ∧ ∀ n s, socket_ t = Some s → takes (2 * length ds + n) s →
  ∃ s', socket_ t' = Some s' ∧ delivered s' = delivered s ++ concat (encode <$> ds) ∧ takes n s'.
Lemma sends_host_nil t : sends_host [] t t.
Proof. split; [done|]. intros n s Hs Ht. exists s. by rewrite app_nil_r. Qed.
Lemma sends_host_app ds ds' t t' t'' : sends_host ds t t' → sends_host ds' t' t'' → sends_host (ds ++ ds') t t''.
Proof.
  intros [H4 H1] [H4' H2]. split; [congruence|]. intros n s Hs Ht. rewrite length_app in Ht.
  destruct (H1 (2 * length ds' + n)%nat s Hs) as (s1 & Hs1 & Hd1 & Ht1); [by replace (2 * length ds + (2 * length ds' + n))%nat
    with (2 * (length ds + length ds') + n)%nat by lia|].
  destruct (H2 n s1 Hs1 Ht1) as (s2 & Hs2 & Hd2 & Ht2). exists s2. split; [done|].
  split; [|done]. by rewrite Hd2, Hd1, fmap_app, concat_app, app_assoc.
Qed.
Lemma Send_host ty p t : ∃ t', HciSocketTransport.Send ty p t = Ok t' ∧ sends_host [(ty, p)] t t'.
Proof.
  unfold HciSocketTransport.Send. destruct (socket_ t) as [s|] eqn:Es.
  2: { exists t. split; [done|]. split; [done|]. intros n s Hs. congruence. }
  destruct (Connected s) eqn:Ec; cbn [negb].
  2: { exists t. split; [done|]. split; [done|]. intros n s' Hs [Ht _]. congruence. }
  unfold Send. destruct (channel_Send [u8_of_PacketType ty] s) as [r1 s1] eqn:E1.
  destruct (channel_Send p s1) as [r2 s2] eqn:E2. eexists. split; [reflexivity|]. split; [done|].
  intros n s' Hs' Ht. assert (s' = s) as -> by congruence. cbn [length Nat.mul Nat.add takes] in Ht. destruct Ht as [_ Ht].
  destruct (Ht [u8_of_PacketType ty]) as (_ & Hd1 & _ & Ht1). destruct (Ht1 p) as (_ & Hd2 & Ht2).
  rewrite E1 in Hd1, Hd2, Ht2. cbn [snd] in Hd1, Hd2, Ht2. rewrite E2 in Hd2, Ht2. exists s2. split; [done|]. split; [|done].
  cbn [snd] in Hd2. rewrite Hd2, Hd1. cbn. by rewrite app_nil_r, <-app_assoc.
Qed.
Lemma forwarded_to_host es t :
  ∃ t', forward_all es t = Ok (t', omap outward es) ∧ sends_host (omap host_packet es) t t'.
Proof.
  revert t. induction es as [|e es IH]; intros t; [exists t; split; [done|apply sends_host_nil]|]. cbn [forward_all].
  assert (∃ t1, forward e t = Ok (t1, option_list (outward e)) ∧ sends_host (option_list (host_packet e)) t t1)
    as (t1 & -> & H1).
  { destruct e; cbn [forward outward host_packet option_list transport_Send HciSocketTransport.socket_transport];
      try (exists t; split; [done|apply sends_host_nil]).
    all: match goal with |- context [HciSocketTransport.Send ?ty ?p ?t0] =>
           destruct (Send_host ty p t0) as (t1 & -> & H1) end; by exists t1. }
  destruct (IH t1) as (t2 & E2 & H2). cbn [mbind outcome_bind]. rewrite E2. exists t2. split.
  - cbn. by destruct (outward e).
  - cbn. replace (match host_packet e with Some y => y :: omap host_packet es | None => omap host_packet es end)
      with (option_list (host_packet e) ++ omap host_packet es) by (by destruct (host_packet e)).
    by eapply sends_host_app.
Qed.
Lemma handle_operation d (h : HciDevice (HciSocketTransport Chan)) :
  fst d ≠ EVENT → handle (OnPacket d) h = call (operation_of d) h.
Proof. by destruct d as [[] p]. Qed.

(** One operation of the controller of a device. *)
Lemma call_operation (m : D ()) (h : HciDevice (HciSocketTransport Chan)) :
  match m ((controller_ h) <| emitted := [] |>) with
  | Ok (_, d) => ∃ t', call m h = Ok (MkHciDevice t' d, omap outward (emitted d)) ∧
      sends_host (omap host_packet (emitted d)) (transport_ h) t'
  | Fatal => call m h = Fatal
  | Undef => call m h = Undef
  | Hang => call m h = Hang
  end.
Proof.
  unfold call. destruct (m _) as [[u d]| | |]; [|done..]. cbn [mbind outcome_bind].
  destruct (forwarded_to_host (emitted d) (transport_ h)) as (t' & -> & Ht). by exists t'.
Qed.
Fixpoint call_all (ms : list (D ())) (h : HciDevice (HciSocketTransport Chan))
  : outcome (HciDevice (HciSocketTransport Chan) * list Outward) :=
  match ms with
  | [] => Ok (h, [])
  | m :: ms => '(h, o) ← call m h; '(h, o') ← call_all ms h; Ok (h, o ++ o')
  end.
Lemma call_all_serve ms (h : HciDevice (HciSocketTransport Chan)) :
  match serve ms (controller_ h) with
  | Ok (d, es) => ∃ t', call_all ms h = Ok (MkHciDevice t' d, omap outward es) ∧
      sends_host (omap host_packet es) (transport_ h) t'
  | Fatal => call_all ms h = Fatal
  | Undef => call_all ms h = Undef
  | Hang => call_all ms h = Hang
  end.
Proof.
  revert h. induction ms as [|m ms IH]; intros h; cbn [serve call_all].
  { exists (transport_ h). split; [by destruct h|apply sends_host_nil]. }
  pose proof (call_operation m h) as Hm. destruct (m _) as [[u d]| | |]; [|by rewrite Hm..].
  destruct Hm as (t1 & -> & H1). cbn [mbind outcome_bind]. specialize (IH (MkHciDevice t1 d)).
  cbn [controller_ transport_] in IH. destruct (serve ms d) as [[d' es]| | |]; [|by rewrite IH..].
  destruct IH as (t2 & -> & H2). cbn [mbind outcome_bind]. exists t2. rewrite !omap_app.
  split; [done|by eapply sends_host_app].
Qed.
Lemma handle_all_tick ds (h : HciDevice (HciSocketTransport Chan)) :
  Forall (λ d, fst d ≠ EVENT) ds →
  ('(h, o) ← handle_all (OnPacket <$> ds) h; '(h, o') ← call DualMode.Tick h; Ok (h, o ++ o')) =
  call_all ((operation_of <$> ds) ++ [DualMode.Tick]) h.
Proof.
  intros Hds. revert h. induction Hds as [|d ds Hd Hds IH]; intros h; cbn [handle_all call_all fmap list_fmap app mbind outcome_bind].
  { destruct (call DualMode.Tick h) as [[h' o]| | |]; [|done..]. cbn. by rewrite app_nil_r. }
  rewrite handle_operation by done. destruct (call (operation_of d) h) as [[h1 o1]| | |]; [|done..].
  cbn [mbind outcome_bind]. rewrite <-IH. destruct (handle_all _ h1) as [[h2 o2]| | |]; [|done..].
  cbn [mbind outcome_bind]. destruct (call DualMode.Tick h2) as [[h3 o3]| | |]; [|done..].
  cbn [mbind outcome_bind]. by rewrite app_assoc.
Qed.

(** C35. From the host's socket and back. Whatever packets the host writes, however the
    kernel cuts their bytes, in the next tick the controller runs for each of them, in
    order, the operation for commands, for ACL, SCO or ISO data, on the packet
    unaltered, and then its tick; the device aborts or hangs only if one of these does.
    The host is sent all the events and data the controller emits meanwhile, in their
    order and each with its type, and nothing else, provided the socket takes them;
    what is for the air leaves the device in its order; and the transport is ready for
    the next packet. *)
Theorem hci_device_stream (h : HciDevice (HciSocketTransport Chan)) (socket socket' : Chan)
  (ds : list delivery) (gs : list nat)
  (Hsocket : socket_ (transport_ h) = Some socket)
  (Hrecv : channel_Recv socket = (MkChannel (concat (encode <$> ds)) gs RecvEAGAIN, socket'))
  (Hwf : wf (h4_parser_ (h4_ (transport_ h)))) (Hen : enable_recovery_state_ (h4_parser_ (h4_ (transport_ h))) = true)
  (Hst : state_ (h4_parser_ (h4_ (transport_ h))) = HCI_TYPE)
  (Hds : Forall packet_wf ds) (Hhost : Forall (λ d, fst d ≠ EVENT) ds) :
  match serve ((operation_of <$> ds) ++ [DualMode.Tick]) (controller_ h) with
  | Ok (d, es) =>
      ∃ t, Tick h = Ok (MkHciDevice t d, omap outward es) ∧
      state_ (h4_parser_ (h4_ t)) = HCI_TYPE ∧ wf (h4_parser_ (h4_ t)) ∧
      (takes (2 * length (omap host_packet es)) socket' →
       ∃ socket'', socket_ t = Some socket'' ∧
       delivered socket'' = delivered socket' ++ concat (encode <$> omap host_packet es))
  | Fatal => Tick h = Fatal
  | Undef => Tick h = Undef
  | Hang => Tick h = Hang
  end.
Proof.
  destruct (feed_encode_all ds (h4_parser_ (h4_ (transport_ h)))) as (parser & Hf & Hwfp & Hstp & _); [done..|].
  set (t1 := MkSocketTransport (Some socket') ((h4_ (transport_ h)) <| h4_parser_ := parser |>)).
  assert (Tick h = call_all ((operation_of <$> ds) ++ [DualMode.Tick]) (MkHciDevice t1 (controller_ h))) as ->.
  { rewrite <-handle_all_tick by done. unfold Tick at 1.
    cbn [transport_Tick HciSocketTransport.socket_transport]. unfold HciSocketTransport.Tick.
    rewrite Hsocket. cbn [unchecked mbind outcome_bind]. rewrite Hrecv.
    destruct (OnDataReady_loop_spec (S (length (concat (encode <$> ds)))) (h4_ (transport_ h))
      (MkChannel (concat (encode <$> ds)) gs RecvEAGAIN) []) as (p' & d & Hf' & Hl);
      [done..|by apply encode_all_bytes|simpl; lia|].
    cbn [pending] in Hf'. rewrite Hf in Hf'. injection Hf' as <- <-.
    unfold OnDataReady. cbn [pending]. rewrite Hl. cbn [after_pending ending app mbind outcome_bind].
    by rewrite RegisterCallbacks_host. }
  pose proof (call_all_serve ((operation_of <$> ds) ++ [DualMode.Tick]) (MkHciDevice t1 (controller_ h))) as Hs.
  cbn [controller_ transport_] in Hs. destruct (serve _ _) as [[d es]| | |]; [|done..].
  destruct Hs as (t & E & H4' & Hsent). exists t. split; [exact E|]. rewrite H4'. split; [exact Hstp|]. split; [exact Hwfp|].
  intros Ht. destruct (Hsent 0%nat socket') as (s & Hs1 & Hs2 & _); [done|by rewrite Nat.add_0_r|]. by exists s.
Qed.
End OnSocket.
End HciDevice.

(** ** Examples *)

#[local] Existing Instance HciSocketTransport.socket_transport.
Section Examples.
Import H4DataChannelPacketizer.
#[local] Instance example_env : DualEnvironment := example_dual_environment.
(** Command Complete events, and nothing of the others. *)
#[local] Instance example_serializers : Serializers := {|
  serialize_event event :=
    match event with
    | DualState.CommandComplete n op_code _ => [0x0e; 4; n; op_code mod 256; op_code / 256; 0]
    | _ => [0; 0]
    end;
  serialize_acl _ _ _ data := data; serialize_sco _ _ data := data;
  serialize_iso _ _ _ _ data := data; serialize_br _ := [0]; serialize_le _ := [0];
|}.
(** A socket: the bytes to read, and those that were sent. *)
#[local] Instance example_socket : AsyncDataChannel (list Z * list Z) := {|
  Connected _ := true;
  channel_Send bytes s := (zlength bytes, (fst s, snd s ++ bytes));
  channel_Recv s := (MkChannel (fst s) [] RecvEAGAIN, ([], snd s));
  channel_Close s := s;
|}.
(** The host has sent HCI_Reset and a command that does not exist. *)
Definition example_commands : list H4Parser.delivery :=
  [(COMMAND, [0x03; 0x0c; 0x00]); (COMMAND, [0x01; 0xfe; 0x01; 0xaa])].
Definition example_hci_device : HciDevice (HciSocketTransport (list Z * list Z)) :=
  MkHciDevice (HciSocketTransport.Create (Some (concat (H4Parser.encode <$> example_commands), [])))
    (new_dual 0 ControllerProperties_default).
(** It reads two Command Complete events. *)
Definition example_answers : list H4Parser.delivery :=
  [(EVENT, [0x0e; 4; 1; 0x03; 0x0c; 0]); (EVENT, [0x0e; 4; 1; 0x01; 0xfe; 0])].
Lemma hci_device_stream_witness :
  ∃ t d o s, HciDevice.Tick example_hci_device = Ok (MkHciDevice t d, o) ∧ socket_ t = Some s ∧
  snd s = concat (H4Parser.encode <$> example_answers).
Proof.
  pose proof (HciDevice.hci_device_stream snd example_hci_device
    (concat (H4Parser.encode <$> example_commands), []) ([], []) example_commands []) as H.
  assert (match HciDevice.serve ((HciDevice.operation_of <$> example_commands) ++ [DualMode.Tick])
            (controller_ example_hci_device) with
          | Ok (_, es) => omap HciDevice.host_packet es = example_answers
          | _ => False
          end) as Hes by (vm_compute; reflexivity).
  revert H Hes. generalize (HciDevice.serve ((HciDevice.operation_of <$> example_commands) ++ [DualMode.Tick])
    (controller_ example_hci_device)).
  intros [[d es]| | |] H Hes; try (exfalso; exact Hes). rewrite Hes in H.
  destruct H as (t & E & _ & _ & Hs).
  - reflexivity.
  - reflexivity.
  - split; [constructor|exact I].
  - reflexivity.
  - reflexivity.
  - unfold example_commands. repeat constructor; exists 3;
    (split; [reflexivity|]); (split; [vm_compute; discriminate|]); (split; [|reflexivity]);
    repeat constructor; vm_compute; discriminate.
  - repeat constructor; discriminate.
  - destruct Hs as (s & Hs & Hd); [by vm_compute; repeat split; try reflexivity|].
    exists t, d, (omap HciDevice.outward es), s. split; [exact E|]. split; [exact Hs|exact Hd].
Defined.
End Examples.
