(* ===== verification/DualQuiet.v ===== *)
(** * What a controller says when it receives a packet

    Nothing to its peers: what a handler sends on the air is sent by a task of its own, in a later
    tick.  So the exchange of packets among controllers never nests. *)

From S2P Require Import Prelude HciTypes Address LeState Tasks Controller Machine BrState BrCommands BrLink BrInvariant.
From S2P Require Import DualState DualMode.

Section BrQuiet.
Context {env : BrState.Environment}.

Definition br_heard_by_host (e : BrState.Emission) : Prop :=
  match e with BrState.EmitPacket _ _ => False | _ => True end.
Definition br_silent (c : BrEdrController) : Prop := Forall br_heard_by_host (BrState.emitted c).

Lemma silent_modify f : (∀ c, BrState.emitted (f c) = BrState.emitted c) → keeps br_silent (BrState.modify f).
Proof. intros Hf. apply kept_modify. intros c. unfold br_silent. by rewrite Hf. Qed.
Lemma silent_emit e : br_heard_by_host e → keeps br_silent (BrState.emit e).
Proof. intros He. apply kept_modify. intros c Hc. apply Forall_app. by split; [|constructor]. Qed.
Lemma silent_now : keeps br_silent now.
Proof. by intros c a c' Hc [= _ <-]. Qed.
Lemma silent_on_connections {A} (f : _ → outcome (A * _)) : keeps br_silent (on_connections f).
Proof. by intros c a c' Hc ([x h] & _ & [= _ <-])%bind_Ok. Qed.

Lemma silent_ScheduleTask delay callback : keeps br_silent (BrState.ScheduleTask delay callback).
Proof.
  apply kept_bind; [apply silent_now|]. intros t. apply kept_bind; [apply kept_gets|]. intros q.
  apply kept_bind; [apply kept_lift|]. intros [id q']. apply kept_bind; [by apply silent_modify|]. intros _. apply kept_ret.
Qed.
Lemma silent_run_lm {A} (p : LmProgram A) : keeps br_silent (run_lm p).
Proof.
  induction p; cbn [run_lm]; [apply kept_ret|..]; apply kept_bind; intros;
    try solve [apply kept_gets|by apply silent_emit|done].
  1, 2: by apply kept_bind; [apply kept_lift|].
  apply kept_bind; [|done]. apply kept_bind; [apply silent_ScheduleTask|]. intros _. apply kept_ret.
Qed.
Ltac head_of t := lazymatch t with ?f _ => head_of f | _ => t end.
Ltac unfold_head t := let f := head_of t in unfold f.
Ltac silent :=
  cbv zeta;
  lazymatch goal with
  | |- keeps _ (mret _) => apply kept_ret
  | |- keeps _ (BrState.gets _) => apply kept_gets
  | |- keeps _ (BrState.lift _) => apply kept_lift
  | |- keeps _ (BrState.modify _) => by apply silent_modify
  | |- keeps _ (BrState.emit _) => by apply silent_emit
  | |- keeps _ now => apply silent_now
  | |- keeps _ (on_connections _) => apply silent_on_connections
  | |- keeps _ (IsEventUnmasked _) => apply kept_IsEventUnmasked
  | |- keeps _ (BrState.when _ _) => apply kept_when; silent
  | |- keeps _ (BrState.for_each _ _) => apply kept_for_each; intros; silent
  | |- keeps _ (run_lm _) => apply silent_run_lm
  | |- keeps _ (BrState.ScheduleTask _ _) => apply silent_ScheduleTask
  | |- keeps _ (_ ≫= _) => apply kept_bind; [silent|intros; silent]
  | |- keeps _ (match ?x with _ => _ end) => destruct x; silent
  | |- keeps _ ?m => unfold_head m; silent
  end.
Lemma silent_IncomingPacket incoming rssi : keeps br_silent (BrLink.IncomingPacket incoming rssi).
Proof. silent. Qed.
End BrQuiet.

Section DualQuiet.
Context {env : DualEnvironment}.

Definition le_heard_by_host (e : Machine.Emission) : Prop :=
  match e with Machine.EmitPacket _ _ => False | _ => True end.
Definition heard_by_host (e : Emission) : Prop :=
  match e with
  | DualState.EmitEvent _ | DualState.EmitAcl _ _ _ _ | EmitSco _ _ _ | DualState.EmitIso _ _ _ _ _ => True
  | _ => False
  end.

Lemma perform_silent t out w q w' q' :
  perform t out (w, q) = Ok (w', q') → Forall le_heard_by_host (Machine.emitted w) →
  Forall le_heard_by_host (Machine.emitted w').
Proof.
  revert w q. induction out as [|o out IH]; intros w q; [by intros [= <- _]|]. cbn [perform].
  intros ([w1 q1] & E & E')%bind_Ok Hw. eapply IH; [exact E'|].
  destruct o; cbn in E; try (injection E as <- _; try done; apply Forall_app; by split; [|constructor]).
  apply bind_Ok in E as ([id q2] & _ & [= <- _]). done.
Qed.
Lemma run_silent {A} clock (m : LeState.M A) w q a w' q' :
  run clock m (w, q) = Ok (a, (w', q')) → Machine.emitted w = [] → Forall le_heard_by_host (Machine.emitted w').
Proof.
  unfold run. intros ([[a1 c1] out] & _ & ([w1 q1] & E & [= _ <- _])%bind_Ok)%bind_Ok Hw.
  eapply perform_silent; [exact E|]. cbn. rewrite Hw. constructor.
Qed.

(** Whatever arrives, and in whatever state. *)
Lemma receive_silent incoming rssi (d d' : DualModeController) :
  ReceiveLinkLayerPacket incoming rssi d = Ok ((), d') → emitted d = [] → Forall heard_by_host (emitted d').
Proof.
  intros E Hd. destruct incoming as [packet|packet]; cbn in E.
  - apply bind_Ok in E as ([u c] & E & [= _ <-]). cbn. rewrite Hd. cbn.
    apply silent_IncomingPacket in E; [|constructor]. apply Forall_fmap. eapply Forall_impl; [exact E|]. by intros [].
  - unfold on_le, on_le_machine in E. destruct (le_controller_ d) as [w q].
    apply bind_Ok in E as ([u [w' q']] & E & [= _ <-]). cbn. rewrite Hd. cbn.
    apply run_silent in E; [|done]. apply Forall_fmap. eapply Forall_impl; [exact E|]. by intros [].
Qed.
End DualQuiet.
