(* ===== verification/Simulation.v ===== *)
(** * The simulation: controllers on physical layers

    The devices of a test model are controllers at the end of a transport, and others.  What a
    controller says on the air reaches the other controllers; and whatever happens in the simulation,
    each controller stays well formed. *)

From Stdlib Require Import Ascii String.
From S2P Require Import Prelude H4 HciTypes Properties Address Connections LeState LeLists LeAdvertiser Tasks.
From S2P Require Import Controller Machine BrState BrCommands BrInvariant HciViews DualState DualMode DualInvariant DualReachable DualQuiet.
From S2P Require Import HciSniffer HciDevice PhyLayer TestModel.

(** A link layer packet, as the two controllers read it: generated code. *)
Class AirViews (V : Type) := {
  br_packet : V → BrState.LinkLayerPacket;
  le_packet : V → LeState.LinkLayerPacket;
}.

(** A device: a controller, a controller that the process ended in, with its last state, or
    another device. *)
Inductive Simulated {env : DualEnvironment} (T X : Type) :=
| Controller (h : HciDevice T)
| Ended (h : HciDevice T)
| Other (x : X).
Arguments Controller {env T X}. Arguments Ended {env T X}. Arguments Other {env T X}.

Section Simulation.
Context {env : DualEnvironment} {serializers : Serializers} `{HciTransport T} `{Device X} `{!AirViews View}.
Notation Simulated := (Simulated T X).

(** [Device::SendLinkLayerPacket] and [Device::Close], for what a call has said. *)
Fixpoint say (said : list Outward) (d : Simulated) : Action Simulated :=
  match said with
  | [] => Return d
  | ToAir packet type tx_power :: said => Do (SendLinkLayerPacket packet type tx_power) d (say said)
  | CloseCalled :: said => Do CloseCallback d (say said)
  | InvalidReported :: said => say said d
  end.
Definition perform (f : HciDevice T → outcome (HciDevice T * list Outward)) (h : HciDevice T) : Action Simulated :=
  match f h with
  | Ok (h, said) => say said (Controller h)
  | _ => Return (Ended h)
  end.
Fixpoint other (a : Action X) : Action Simulated :=
  match a with
  | Return x => Return (Other x)
  | Do e x k => Do e (Other x) (λ d, match d with Other x => other (k x) | _ => Return d end)
  end.

(** [DualModeController::ReceiveLinkLayerPacket]: the controller that reads the packet. *)
Definition incoming (view : View) (type : PhyType) : DualMode.Incoming :=
  match type with
  | PhyLayer.BR_EDR => DualMode.BR_EDR (br_packet view)
  | PhyLayer.LOW_ENERGY => DualMode.LOW_ENERGY (le_packet view)
  end.

(** A method that sends nothing. *)
Definition after (m : DualState.D ()) (h : HciDevice T) : HciDevice T :=
  match m (controller_ h) with
  | Ok (_, d) => MkHciDevice (transport_ h) d
  | _ => h
  end.
Definition on_controller (m : DualState.D ()) (d : Simulated) : Simulated :=
  match d with
  | Controller h => Controller (after m h)
  | Ended h => Ended (after m h)
  | Other x => Other x
  end.

(** What a device does when it receives a packet, and in a tick. *)
Definition receive (view : View) (type : PhyType) (rssi : Z) (d : Simulated) : Action Simulated :=
  match d with
  | Controller h => perform (HciDevice.ReceiveLinkLayerPacket (incoming view type) rssi) h
  | Ended h => Return (Ended h)
  | Other x => other (PhyLayer.ReceiveLinkLayerPacket view type rssi x)
  end.
Definition tick (d : Simulated) : Action Simulated :=
  match d with
  | Controller h => perform HciDevice.Tick h
  | Ended h => Return (Ended h)
  | Other x => other (device_Tick x)
  end.

#[export] Instance simulated_device : Device Simulated := {|
  View := View;
  parse_view := parse_view;
  PhyLayer.ReceiveLinkLayerPacket := receive;
  device_Tick := tick;
  PhyLayer.GetTypeString d :=
    match d with Controller _ | Ended _ => HciDevice.GetTypeString | Other x => PhyLayer.GetTypeString x end;
  device_address d :=
    match d with
    | Controller h | Ended h => DualState.address_ (controller_ h)
    | Other x => device_address x
    end;
  set_device_address a d :=
    match d with
    | Other x => Other (set_device_address a x)
    | _ => on_controller (SetAddress a) d
    end;
|}.

(** The device that a connection of a host makes: [HciDevice], the callback and the address. *)
Definition connect (id : Z) (transport : T) (properties : ControllerProperties) (address : Address)
  : outcome Simulated :=
  h ← HciDevice.new id transport properties;
  Ok (Controller (after (SetAddress address) (after DualState.RegisterCloseCallback h))).

(** [SetDeviceConfiguration], of a device that is a controller. *)
Definition configure (configuration : Configuration) : Simulated → Simulated :=
  on_controller (DualState.SetProperties (ControllerProperties_configured configuration)).
End Simulation.

(** ** Every controller stays well formed *)

Section Invariant.
Context {env : DualEnvironment} {laws : ViewLaws} {serializers : Serializers} `{HciTransport T} `{Device X}.
Context `{!AirViews View}.
Notation Simulated := (Simulated T X).

Definition controller_of (d : Simulated) : option DualModeController :=
  match d with Controller h | Ended h => Some (controller_ h) | Other _ => None end.
Definition device_wf (d : Simulated) : Prop := ∀ c, controller_of d = Some c → dual_wf c.

Lemma controller_wf_device (h : HciDevice T) : dual_wf (controller_ h) → device_wf (Controller h).
Proof. by intros Hh c [= <-]. Qed.
Lemma ended_wf_device (h : HciDevice T) : dual_wf (controller_ h) → device_wf (Ended h).
Proof. by intros Hh c [= <-]. Qed.

(** What a call of a controller keeps. *)
Definition hci_keeps (f : HciDevice T → outcome (HciDevice T * list Outward)) : Prop :=
  ∀ h h' said, dual_wf (controller_ h) → f h = Ok (h', said) → dual_wf (controller_ h').
Lemma call_keeps m : dual_keeps m → hci_keeps (HciDevice.call m).
Proof.
  intros Hm h h' said Hh ([u d] & E & ([t o] & _ & [= <- _])%bind_Ok)%bind_Ok. eapply Hm; [|exact E]. by destruct Hh.
Qed.
Lemma handle_keeps c : hci_keeps (HciDevice.handle c).
Proof.
  destruct c as [[[] packet]|]; cbn [HciDevice.handle]; try done.
  - apply call_keeps, dk_HandleCommand.
  - apply call_keeps, dk_HandleAcl.
  - apply call_keeps, dk_HandleSco.
  - apply call_keeps, dk_HandleIso.
  - intros h h' said Hh (t & _ & E)%bind_Ok. by eapply (call_keeps DualMode.Close dk_Close); [|exact E].
Qed.
Lemma handle_all_keeps cs : hci_keeps (HciDevice.handle_all cs).
Proof.
  induction cs as [|c cs IH]; intros h h' said Hh; [by intros [= <- _]|]. cbn [HciDevice.handle_all].
  intros ([h1 o1] & E1 & ([h2 o2] & E2 & [= <- _])%bind_Ok)%bind_Ok. eapply IH; [|exact E2]. by eapply handle_keeps.
Qed.
Lemma Tick_keeps : hci_keeps HciDevice.Tick.
Proof.
  intros h h' said Hh ([t cs] & _ & ([h1 o1] & E1 & ([h2 o2] & E2 & [= <- _])%bind_Ok)%bind_Ok)%bind_Ok.
  eapply (call_keeps DualMode.Tick dk_Tick); [|exact E2]. by eapply handle_all_keeps; [|exact E1].
Qed.

Lemma say_keeps said d : device_wf d → keeps device_wf (say said d).
Proof.
  revert d. induction said as [|[packet type tx| |] said IH]; intros d Hd; cbn [say]; [by constructor| | |];
    [by constructor|by apply IH|by constructor].
Qed.
Lemma perform_keeps f h : hci_keeps f → dual_wf (controller_ h) → keeps device_wf (perform f h).
Proof.
  intros Hf Hh. unfold perform. assert (keeps device_wf (Return (Ended h))) as He by by constructor; apply ended_wf_device.
  destruct (f h) as [[h' said]| | |] eqn:E; [|done..]. apply say_keeps, controller_wf_device. by eapply Hf.
Qed.
Lemma other_keeps a : keeps device_wf (other a).
Proof.
  induction a as [x|e x k IH]; cbn [other]; [by constructor|]. constructor; [done|]. intros [h|h|x'] Hd; [by constructor..|].
  apply IH.
Qed.

(** The settings. *)
Lemma dk_RegisterCloseCallback : dual_keeps DualState.RegisterCloseCallback.
Proof. apply dk_modify. by intros ? []. Qed.
Lemma after_keeps m (h : HciDevice T) : dual_keeps m → dual_wf (controller_ h) → dual_wf (controller_ (after m h)).
Proof. intros Hm Hh. unfold after. destruct (m (controller_ h)) as [[u d]| | |] eqn:E; [|done..]. by eapply Hm. Qed.

(** A controller without links, and one whose lists are empty. *)
Definition unlinked (c : DualModeController) : Prop := acl_connections_ (connections_ (bredr_controller_ c)) = ∅.
Definition unlisted (c : DualModeController) : Prop :=
  let l := Machine.controller (fst (le_controller_ c)) in
  (le_resolving_list_ l, le_filter_accept_list_ l, le_periodic_advertiser_list_ l) = ([], [], []) ∧
  extended_advertisers_ l = ∅.

Lemma SetAddress_wf a (h : HciDevice T) :
  dual_wf (controller_ h) →
  (BrState.address_ (bredr_controller_ (controller_ h)) = a ∨ unlinked (controller_ h)) →
  dual_wf (controller_ (after (SetAddress a) h)).
Proof.
  intros [Hb Hl Hr] Ha. unfold after, SetAddress, DualState.modify. cbn.
  destruct (le_controller_ (controller_ h)) as [w q]. destruct Hl as [Hc Hq Hone]. split; cbn; [|split; cbn in *; [|done..]|done].
  - destruct Ha as [<-|Hn]; [by apply (br_wf_same None (bredr_controller_ (controller_ h)))|].
    destruct Hb as [Hh Hle Hu Ho Hp Ht]. split; cbn; try done. intros k x Hk.
    unfold acl_of in Hk. cbn in Hk. rewrite Hn in Hk. by apply lookup_empty_Some in Hk.
  - by apply (cwf_same_sizes (controller w)).
Qed.
Lemma SetProperties_wf p (h : HciDevice T) :
  properties_wf p → dual_wf (controller_ h) →
  (sizes p = sizes (LeState.properties_ (controller (fst (le_controller_ (controller_ h))))) ∨ unlisted (controller_ h)) →
  dual_wf (controller_ (after (DualState.SetProperties p) h)).
Proof.
  intros Hp [Hb Hl Hr] Hs. unfold after, DualState.SetProperties, DualState.modify, update_properties. cbn.
  unfold unlisted in Hs. destruct (le_controller_ (controller_ h)) as [w q]. cbn in Hs.
  destruct Hl as [Hc Hq Hone]. split; cbn; [|split; cbn in *; [|done..]|done].
  - by apply (br_wf_same None (bredr_controller_ (controller_ h))).
  - destruct Hs as [Hs|[[= E1 E2 E3] E4]]; [by apply (cwf_same_sizes (controller w))|].
    destruct Hp as (P1 & P2 & P3 & P4). destruct Hc as [[] [] Hsc Hin Hh Ho].
    split; [constructor|constructor|done..|by apply (own_addresses_part (controller w))]; cbn; rewrite ?E1, ?E2, ?E3, ?E4; try done.
    + by apply resolving_list_wf_nil.
    + constructor.
    + change (size ∅) with 0%nat. lia.
Qed.

Lemma unlinked_bredr {A} (m : BrState.M A) d a d' :
  BrInvariant.keeps (λ c, acl_connections_ (connections_ c) = ∅) m → unlinked d → on_bredr m d = Ok (a, d') → unlinked d'.
Proof. intros Hm Hd ([x c] & E & [= _ <-])%bind_Ok. refine (Hm _ _ c _ E). exact Hd. Qed.
Lemma kept_setter (b : bool) f (P : BrEdrController → Prop) :
  (∀ c, P c → P (f c)) → BrInvariant.keeps P (BrState.lift (assert b) ≫= λ _, BrState.modify f).
Proof. intros Hf. apply kept_bind; [apply kept_lift|]. intros ?. by apply kept_modify. Qed.
Lemma new_wf id (transport : T) p h :
  properties_wf p → HciDevice.new id transport p = Ok h → dual_wf (controller_ h) ∧ unlinked (controller_ h).
Proof.
  intros Hp ([u d] & E & [= <-])%bind_Ok. split.
  - eapply (dk_bind (on_bredr (SetLocalName (bytes_of "gDevice-HCI")))); [| |by apply new_dual_wf|exact E].
    + apply dk_host_call. constructor.
    + intros ?. apply dk_host_call. constructor.
  - apply D_bind_Ok in E as (u1 & d1 & E1 & E2).
    apply unlinked_bredr in E1; [|by apply kept_setter|reflexivity].
    apply unlinked_bredr in E2; [exact E2|by apply kept_setter|exact E1].
Qed.
Lemma connect_wf id transport p a d : properties_wf p → connect id transport p a = Ok d → device_wf d.
Proof.
  intros Hp (h & Eh & Ed)%bind_Ok. destruct (new_wf _ _ _ _ Hp Eh) as [Hh Hu].
  injection Ed as Ed. rewrite <-Ed. apply controller_wf_device.
  apply SetAddress_wf; [apply after_keeps; [apply dk_RegisterCloseCallback|done]|by right].
Qed.

(** *** In the simulation *)

Context {M : Type} `{Scheduler M, IterationOrder}.
Context (connect_to_remote_ : list ascii → Z → PhyType → option Simulated).
Notation Model := (TestModel Simulated M).
Implicit Types m : Model.

(** New devices: controllers of hosts that connect, and others. *)
Definition created (d : Simulated) : Prop :=
  match d with
  | Controller _ => ∃ id transport properties address,
      properties_wf properties ∧ connect id transport properties address = Ok d
  | Ended _ => False
  | Other _ => True
  end.
(** Settings that change under a controller: its address while it has no link, the sizes of its
    lists while they are empty. *)
Definition change_permitted (c c' : DualModeController) : Prop :=
  (BrState.address_ (bredr_controller_ c') ≠ BrState.address_ (bredr_controller_ c) → unlinked c) ∧
  (sizes (LeState.properties_ (controller (fst (le_controller_ c')))) ≠
     sizes (LeState.properties_ (controller (fst (le_controller_ c)))) → unlisted c).
Definition settings_permitted m m' : Prop :=
  ∀ id p p' c c', devices (air m) !! id = Some p → devices (air m') !! id = Some p' →
    controller_of (device_ p) = Some c → controller_of (device_ p') = Some c' → change_permitted c c'.

Inductive simulation_step m m' : Prop :=
| simulation_model_step :
    model_step configure connect_to_remote_ m m' → added created m m' → settings_permitted m m' → simulation_step m m'.
Definition simulated (s : M) (prefix : Z * Z * Z * Z) : Model → Prop := rtc simulation_step (new_model s prefix).

Lemma receive_keeps view type r d : device_wf d → keeps device_wf (PhyLayer.ReceiveLinkLayerPacket view type r d).
Proof.
  destruct d as [h|h|x]; intros Hd; cbn.
  - apply perform_keeps; [|by apply Hd]. apply call_keeps, dk_receive.
  - by constructor.
  - apply other_keeps.
Qed.
Lemma tick_keeps d : device_wf d → keeps device_wf (device_Tick d).
Proof.
  destruct d as [h|h|x]; intros Hd; cbn.
  - apply perform_keeps; [apply Tick_keeps|by apply Hd].
  - by constructor.
  - apply other_keeps.
Qed.
Lemma created_wf d : created d → device_wf d.
Proof. destruct d as [h|h|x]; cbn; [|done..]. intros (id & t & p & a & Hp & E). by eapply connect_wf. Qed.

Lemma SetAddress_address a (h : HciDevice T) :
  BrState.address_ (bredr_controller_ (controller_ (after (SetAddress a) h))) = a.
Proof. unfold after, SetAddress, DualState.modify. by destruct (le_controller_ (controller_ h)). Qed.
Lemma SetProperties_sizes p (h : HciDevice T) :
  LeState.properties_ (controller (fst (le_controller_ (controller_ (after (DualState.SetProperties p) h))))) = p.
Proof.
  unfold after, DualState.SetProperties, DualState.modify, update_properties. by destruct (le_controller_ (controller_ h)).
Qed.
Lemma on_controller_wf f (d : Simulated) :
  device_wf d →
  (∀ h : HciDevice T, controller_of d = Some (controller_ h) → controller_of (on_controller f d) = Some (controller_ (after f h)) →
     dual_wf (controller_ h) → dual_wf (controller_ (after f h))) →
  device_wf (on_controller f d).
Proof.
  intros Hd Hf. destruct d as [h|h|x]; [apply controller_wf_device|apply ended_wf_device|done]; (apply Hf; [done|done|by apply Hd]).
Qed.

Lemma setting_keeps m m' :
  setting configure m m' → settings_permitted m m' → all_devices device_wf (air m) → all_devices device_wf (air m').
Proof.
  intros Hs Hp Hw. destruct Hs as [id a|id configuration]; revert Hp; unfold SetDeviceAddress, SetDeviceConfiguration;
    (destruct (has_device m id); [|done]); intros Hp j p' Hp'; cbn in Hp';
    apply lookup_alter_Some in Hp' as [(-> & p & Hpj & ->)|[_ Hp']]; try (by eapply Hw).
  - specialize (Hp j p (MkPhyDevice (set_device_address a (device_ p)) (phy_layers_ p) (close_callback_ p))).
    cbn [device_].
    assert (device_wf (on_controller (SetAddress a) (device_ p))) as Hon.
    { apply on_controller_wf; [by eapply Hw|]. intros h Hc Hc' Hh. apply SetAddress_wf; [done|].
      destruct (decide (BrState.address_ (bredr_controller_ (controller_ h)) = a)) as [|Hne]; [by left|right].
      eapply Hp; [done| |exact Hc| |].
      - cbn. by rewrite lookup_alter_eq, Hpj.
      - cbn. destruct (device_ p); [exact Hc'|exact Hc'|done].
      - by rewrite SetAddress_address. }
    destruct (device_ p); [exact Hon|exact Hon|done].
  - case_bool_decide as Ht; [|by eapply Hw]. cbn [device_].
    specialize (Hp j p (MkPhyDevice (configure configuration (device_ p)) (phy_layers_ p) (close_callback_ p))).
    apply on_controller_wf; [by eapply Hw|]. intros h Hc Hc' Hh.
    apply SetProperties_wf; [apply configured_properties_sizes|done|].
    match goal with |- ?x = ?y ∨ _ => destruct (decide (x = y)) as [|Hne]; [by left|right] end.
    eapply Hp; [done| |exact Hc|exact Hc'|].
    + cbn. rewrite lookup_alter_eq, Hpj. cbn. by rewrite bool_decide_true.
    + by rewrite SetProperties_sizes.
Qed.
Lemma simulation_step_keeps m m' :
  simulation_step m m' → model_wf m ∧ all_devices device_wf (air m) → model_wf m' ∧ all_devices device_wf (air m').
Proof.
  intros [Hs Ha Hp] [Hm Hw]. split; [by eapply model_step_wf|].
  destruct (model_step_devices configure connect_to_remote_ device_wf receive_keeps tick_keeps m m' Hm Hs) as [Hset|Hk].
  - by eapply setting_keeps.
  - apply Hk; [|done]. intros id p Hp' Hn. apply created_wf. by eapply Ha.
Qed.

(** A host that connects is a step of the simulation. *)
Lemma simulation_connect m transport properties h a m' :
  model_wf m → instance_counter m < 2 ^ 32 - 1 → properties_wf properties →
  HciDevice.new (instance_counter m) transport properties = Ok h →
  GenerateBluetoothAddress (instance_counter m) (snd (next_instance_id m)) = Ok a →
  AddHciConnection (instance_counter m) (Controller (after DualState.RegisterCloseCallback h)) None
    (snd (next_instance_id m)) = Ok (instance_counter m, m') →
  simulation_step m m'.
Proof.
  intros Hm Hi Hp Eh Ea E.
  destruct (AddHciConnection_run (snd (next_instance_id m)) (Controller (after DualState.RegisterCloseCallback h)) a
    (instance_counter m) Ea) as (m1 & E1 & _ & _ & Hd).
  rewrite E in E1. injection E1 as <-. change (air (snd (next_instance_id m))) with (air m) in Hd. split.
  - by eapply step_hci.
  - intros id p Hp' Hn. specialize (Hd id). rewrite Hp', Hn in Hd. case_decide; [|done]. injection Hd as ->. cbn.
    exists (instance_counter m), transport, properties, a. split; [done|]. unfold connect. by rewrite Eh.
  - intros id p p' c c' Hpm Hp' Hc Hc'. specialize (Hd id). rewrite Hp', Hpm in Hd. rewrite decide_False in Hd.
    + injection Hd as Hd. rewrite Hd, Hc in Hc'. by injection Hc' as <-.
    + intros ->. apply elem_of_dom_2, (wf_ids m Hm) in Hpm. lia.
Qed.

(** C5. Whatever happens in a simulation: hosts connect and send what they like, commands move
    devices among the layers and change their settings, time passes and the devices exchange packets
    with one another, other devices of any kind among them.  All the while each controller
    satisfies the invariants of its BR/EDR and its LE half, if its address changes only while it
    has no link and the sizes of its lists only while they are empty, and the layers and
    devices agree. *)
Theorem simulation_invariant (s : M) (prefix : Z * Z * Z * Z) m (Hm : simulated s prefix m) :
  model_wf m ∧
  ∀ id p c, devices (air m) !! id = Some p → controller_of (device_ p) = Some c → dual_wf c.
Proof.
  assert (model_wf m ∧ all_devices device_wf (air m)) as [Hwf Hall].
  { revert m Hm. apply rtc_ind_r.
    - split; [apply new_model_wf|]. intros id p Hp. unfold new_model in Hp. destruct (get_user_id s).
      cbn in Hp. by apply lookup_empty_Some in Hp.
    - intros m1 m2 _ Hs. by apply simulation_step_keeps. }
  split; [done|]. intros id p c Hp. by apply (Hall id p Hp).
Qed.
End Invariant.

(** ** What a controller says reaches the others *)

Section Exchange.
Context {env : DualEnvironment} {serializers : Serializers} `{HciTransport T} `{Device X} `{!AirViews View}.
Context {M : Type} `{Scheduler M, IterationOrder}.
(** The other devices take what they receive and do not answer. *)
Context (hear_other : View → PhyType → Z → X → X).
Context (Hquiet : ∀ view type r x, PhyLayer.ReceiveLinkLayerPacket view type r x = Return (hear_other view type r x)).
Notation Simulated := (Simulated T X).
Implicit Types w : Air Simulated M.

Definition hear (view : View (D := Simulated)) (type : PhyType) (r : Z) (d : Simulated) : Simulated :=
  match d with
  | Controller h =>
      match HciDevice.ReceiveLinkLayerPacket (incoming view type) r h with
      | Ok (h, _) => Controller h
      | _ => Ended h
      end
  | Ended h => Ended h
  | Other x => Other (hear_other view type r x)
  end.

Lemma forward_all_host es t t' said :
  HciDevice.forward_all es t = Ok (t', said) → Forall heard_by_host es → said = [].
Proof.
  revert t t' said. induction es as [|e es IH]; intros t t' said E He; [by injection E as _ <-|].
  apply Forall_cons in He as [He Hes]. cbn [HciDevice.forward_all] in E.
  apply bind_Ok in E as ([t1 o1] & E1 & ([t2 o2] & E2 & [= _ <-])%bind_Ok). rewrite (IH _ _ _ E2 Hes).
  destruct e; try done; cbn in E1; by apply bind_Ok in E1 as (t3 & _ & [= _ <-]).
Qed.
Lemma controller_quiet view type r (d : Simulated) :
  PhyLayer.ReceiveLinkLayerPacket view type r d = Return (hear view type r d).
Proof.
  destruct d as [h|h|x]; [|done|]; cbn.
  - unfold perform. destruct (HciDevice.ReceiveLinkLayerPacket _ r h) as [[h' said]| | |] eqn:E; [|done..].
    apply bind_Ok in E as ([[] d] & E & ([t o] & Ef & [= _ <-])%bind_Ok).
    apply receive_silent in E; [|done]. by rewrite (forward_all_host _ _ _ _ Ef E).
  - by rewrite Hquiet.
Qed.

(** The packets that the device [j] receives, and as often, of what the device [id] has said. *)
Definition receptions w (id j : Z) (said : list Outward) : list (View * PhyType) :=
  concat (map (λ o, match o with
    | ToAir packet type _ =>
        match parse_view packet with
        | Some view => replicate (length (filter (λ i, i = j) (receivers w id type))) (view, type)
        | None => []
        end
    | _ => []
    end) said).
Lemma elem_of_receptions w id j said view type :
  air_wf w →
  (view, type) ∈ receptions w id j said ↔
    (∃ packet tx, ToAir packet type tx ∈ said ∧ parse_view packet = Some view) ∧
    j ≠ id ∧ ∃ phy l, layers w !! phy = Some l ∧ phy_type l = type ∧ id ∈ PhyLayer.phy_devices_ l ∧ j ∈ PhyLayer.phy_devices_ l.
Proof.
  intros Hwf. rewrite <-(elem_of_receivers w id type j) by done. unfold receptions.
  rewrite list_elem_of_In, in_concat. setoid_rewrite in_map_iff. setoid_rewrite <-list_elem_of_In. split.
  - intros (l & ([packet type' tx| |] & <- & Ho) & Hin); try by apply elem_of_nil in Hin.
    destruct (parse_view packet) as [view'|] eqn:Hv; [|by apply elem_of_nil in Hin].
    apply elem_of_replicate in Hin as [[= -> ->] Hn]. split; [by eauto|].
    destruct (filter _ _) as [|i l] eqn:Hl; [done|].
    assert (i ∈ filter (λ i, i = j) (receivers w id type')) as Hi by (rewrite Hl; by left).
    by apply list_elem_of_filter in Hi as [-> Hi].
  - intros [(packet & tx & Ho & Hv) Hj]. eexists. split; [by exists (ToAir packet type tx)|]. cbn. rewrite Hv.
    apply elem_of_replicate. split; [done|]. assert (j ∈ filter (λ i, i = j) (receivers w id type)) as Hin
      by by apply list_elem_of_filter.
    by destruct (filter _ _); [apply elem_of_nil in Hin|].
Qed.
(** What is said can be read: [Create] of what [SerializeToBytes] has written is valid. *)
Definition readable (o : Outward) : Prop :=
  match o with ToAir packet _ _ => is_Some (parse_view packet) | _ => True end.
Definition hear_all (l : list ((View * PhyType) * Z)) (d : Simulated) : Simulated :=
  foldl (λ d x, hear x.1.1 x.1.2 x.2 d) d l.

Lemma hear_all_same view type rs d :
  hear_all (zip (replicate (length rs) (view, type)) rs) d = foldl (λ d r, hear view type r d) d rs.
Proof. revert d. induction rs as [|r rs IH]; intros d; [done|]. apply IH. Qed.
Lemma receptions_registry w w' id j said :
  registry w' = registry w → receptions w' id j said = receptions w id j said.
Proof.
  intros E. unfold receptions. f_equal. apply map_ext. intros [packet type tx| |]; [|done..].
  by rewrite (receivers_registry _ _ _ _ E).
Qed.

(** One packet. *)
Lemma send_one fuel id packet view type w p :
  air_wf w → devices w !! id = Some p → parse_view packet = Some view →
  ∃ w', PhyLayer.Send (S fuel) id packet type w = Ok w' ∧ registry w' = registry w ∧
  device_ <$> devices w' !! id = Some (device_ p) ∧
  ∀ j q, devices w !! j = Some q → ∃ rs,
    length rs = length (filter (λ i, i = j) (receivers w id type)) ∧ Forall (λ r, -127 ≤ r ≤ 0) rs ∧
    device_ <$> devices w' !! j = Some (foldl (λ d r, hear view type r d) (device_ q) rs).
Proof.
  intros Hwf Hp Hv. eexists. split; [apply (Send_quiet (D := Simulated) hear controller_quiet); [done|by eexists|exact Hv]|].
  split; [apply registry_delivers|].
  assert (∀ j q, devices w !! j = Some q → ∃ rs,
    length rs = length (filter (λ i, i = j) (receivers w id type)) ∧ Forall (λ r, -127 ≤ r ≤ 0) rs ∧
    device_ <$> devices (foldl (deliver (D := Simulated) hear view type) w (receivers w id type)) !! j =
      Some (foldl (λ d r, hear view type r d) (device_ q) rs)) as Hall.
  { intros j q Hq. destruct (delivers_heard (D := Simulated) hear view type (receivers w id type) w j q Hq) as (rs & Hl & Hf & E).
    exists rs. by rewrite E. }
  split; [|exact Hall]. destruct (Hall id p Hp) as (rs & Hl & _ & E).
  assert (filter (λ i, i = id) (receivers w id type) = []) as Hnil.
  { apply elem_of_nil_inv. intros i [-> Hi]%list_elem_of_filter. by apply elem_of_receivers in Hi as [? _]. }
  rewrite Hnil in Hl. by destruct rs.
Qed.

(** What a device does first. *)
Lemma air_send fuel id packet type tx (d : Simulated) k w p :
  devices (set_device id d w) !! id = Some p →
  run (S fuel) id (Do (SendLinkLayerPacket packet type tx) d k) w =
    (w1 ← PhyLayer.Send fuel id packet type (set_device id d w);
     p1 ← unchecked (devices w1 !! id);
     run fuel id (k (device_ p1)) w1).
Proof. intros Hp. cbn [run]. unfold PhyLayer.Send. by rewrite Hp. Qed.
Lemma air_close fuel id (d : Simulated) k w p :
  devices (set_device id d w) !! id = Some p →
  ∃ w1, registry w1 = registry (set_device id d w) ∧ devices w1 = devices (set_device id d w) ∧
  run (S fuel) id (Do CloseCallback d k) w = (p1 ← unchecked (devices w1 !! id); run fuel id (k (device_ p1)) w1).
Proof.
  intros Hp. cbn [run]. rewrite Hp. cbn [unchecked mbind outcome_bind]. destruct (close_callback_ p) as [user|].
  - destruct (schedule_task _ _ _ _) as [n s].
    by exists ((set_device id d w) <| scheduler := s |>).
  - by exists (set_device id d w).
Qed.

(** All that is said in a call, in order. *)
Definition heard_by_others w (id : Z) (said : list Outward) w' : Prop :=
  ∀ j q, j ≠ id → devices w !! j = Some q → ∃ rs,
    length rs = length (receptions w id j said) ∧ Forall (λ r, -127 ≤ r ≤ 0) rs ∧
    device_ <$> devices w' !! j = Some (hear_all (zip (receptions w id j said) rs) (device_ q)).

Lemma heard_more w id view type (packet : list Z) tx said w1 w' :
  parse_view packet = Some view → registry w1 = registry w →
  (∀ j q, j ≠ id → devices w !! j = Some q → ∃ rs,
     length rs = length (filter (λ i, i = j) (receivers w id type)) ∧ Forall (λ r, -127 ≤ r ≤ 0) rs ∧
     device_ <$> devices w1 !! j = Some (foldl (λ d r, hear view type r d) (device_ q) rs)) →
  heard_by_others w1 id said w' → heard_by_others w id (ToAir packet type tx :: said) w'.
Proof.
  intros Hv E Hone Hmore j q Hj Hq. destruct (Hone j q Hj Hq) as (rs & Hl & Hf & Ed).
  destruct (devices w1 !! j) as [q1|] eqn:Hq1; [|done]. injection Ed as Ed.
  destruct (Hmore j q1 Hj Hq1) as (rs' & Hl' & Hf' & Ed'). exists (rs ++ rs').
  rewrite (receptions_registry _ _ _ _ _ E) in Hl', Ed'.
  assert (receptions w id j (ToAir packet type tx :: said) = replicate (length rs) (view, type) ++ receptions w id j said) as ->.
  { unfold receptions. cbn [map concat]. cbn in Hv. by rewrite Hv, Hl. }
  split_and!.
  - by rewrite !length_app, length_replicate, Hl'.
  - by apply Forall_app.
  - rewrite zip_with_app by by rewrite length_replicate. rewrite <-hear_all_same in Ed.
    rewrite Ed', Ed. unfold hear_all. by rewrite foldl_app.
Qed.

Lemma run_say id said : ∀ fuel w d p,
  air_wf w → devices w !! id = Some p → Forall readable said → (length said < fuel)%nat →
  ∃ w', run fuel id (say said d) w = Ok w' ∧ registry w' = registry w ∧
  device_ <$> devices w' !! id = Some d ∧ heard_by_others w id said w'.
Proof.
  induction said as [|o said IH]; intros [|fuel] w d p Hwf Hp Hr Hf; try (cbn in Hf; lia).
  { exists (set_device id d w). split; [done|]. split; [apply registry_set_device|].
    rewrite (lookup_set_device _ _ _ _ Hp). split; [done|]. intros j q Hj Hq. exists [].
    by rewrite lookup_set_device_ne, Hq. }
  apply Forall_cons in Hr as [Ho Hr]. cbn [length] in Hf. set (w0 := set_device id d w).
  assert (registry w0 = registry w) as R0 by apply registry_set_device.
  assert (air_wf w0) as Hwf0 by by eapply air_wf_registry, Hwf.
  pose proof (lookup_set_device id d w p Hp) as Hp0. fold w0 in Hp0.
  assert (∀ j q, j ≠ id → devices w !! j = Some q → devices w0 !! j = Some q) as Hw0
    by by (intros; unfold w0; rewrite lookup_set_device_ne).
  destruct o as [packet type tx| |]; cbn [say].
  - destruct Ho as [view Hv]. destruct fuel as [|fuel]; [lia|].
    destruct (send_one fuel id packet view type w0 _ Hwf0 Hp0 Hv) as (w1 & E1 & R1 & D1 & Hone).
    destruct (devices w1 !! id) as [p1|] eqn:Hp1; [|done]. injection D1 as D1.
    destruct (IH (S fuel) w1 d p1) as (w' & E' & R' & D' & Hmore); [by eapply air_wf_registry|done|done|lia|].
    exists w'. split; [|split; [|split; [done|]]].
    + rewrite (air_send _ _ _ _ _ _ _ _ _ Hp0). fold w0. rewrite E1. cbn [mbind outcome_bind]. rewrite Hp1. cbn [unchecked mbind outcome_bind].
      by rewrite D1.
    + by rewrite R', R1, R0.
    + eapply (heard_more w id view type packet tx said w1); [done|by rewrite R1, R0| |done].
      intros j q Hj Hq. destruct (Hone j q (Hw0 j q Hj Hq)) as (rs & Hl & ?). exists rs.
      by rewrite Hl, (receivers_registry w w0).
  - destruct (IH (S fuel) w d p) as (w' & E' & R' & D' & Hmore); [done..|lia|]. by exists w'.
  - destruct (air_close fuel id d (say said) w _ Hp0) as (w1 & R1 & D1 & ->). fold w0 in R1, D1.
    assert (devices w1 !! id = Some (MkPhyDevice d (phy_layers_ p) (close_callback_ p))) as Hp1 by by rewrite D1.
    destruct (IH fuel w1 d (MkPhyDevice d (phy_layers_ p) (close_callback_ p))) as (w' & E' & R' & D' & Hmore); [by eapply air_wf_registry|exact Hp1|done|lia|].
    rewrite Hp1. cbn [unchecked mbind outcome_bind device_]. exists w'. split; [done|].
    split; [by rewrite R', R1, R0|]. split; [done|]. intros j q Hj Hq.
    destruct (Hmore j q Hj) as (rs & Hl & ?); [rewrite D1; by apply Hw0|]. exists rs.
    rewrite (receptions_registry w w1) in Hl by by rewrite R1, R0. split; [done|].
    by rewrite <-(receptions_registry w w1) by by rewrite R1, R0.
Qed.

(** C31. What a controller says in a tick on the physical layers it is on reaches the other
    devices on layers of the same type, and no one else: the tick returns, and each other device
    has received exactly those packets that it shares a layer with, in the order in which they
    were said, each as often as it shares a layer, with a signal strength between -127 and 0; a
    controller has done with them what its handlers do, and has said nothing on the air in the
    meantime, so that the controller that sent them is as its own tick left it. *)
Theorem controller_tick_reaches fuel id w p (h h' : HciDevice T) said
  (Hwf : air_wf w) (Hp : devices w !! id = Some p) (Hd : device_ p = Controller h)
  (Htick : HciDevice.Tick h = Ok (h', said)) (Hr : Forall readable said) (Hfuel : (length said < fuel)%nat) :
  ∃ w', PhyLayer.Tick fuel id w = Ok w' ∧ registry w' = registry w ∧
  device_ <$> devices w' !! id = Some (Controller h') ∧
  (∀ j q, j ≠ id → devices w !! j = Some q → ∃ rs,
    length rs = length (receptions w id j said) ∧ Forall (λ r, -127 ≤ r ≤ 0) rs ∧
    device_ <$> devices w' !! j = Some (hear_all (zip (receptions w id j said) rs) (device_ q))) ∧
  ∀ j view type, (view, type) ∈ receptions w id j said ↔
    (∃ packet tx, ToAir packet type tx ∈ said ∧ parse_view packet = Some view) ∧
    j ≠ id ∧ ∃ phy l, layers w !! phy = Some l ∧ phy_type l = type ∧ id ∈ PhyLayer.phy_devices_ l ∧ j ∈ PhyLayer.phy_devices_ l.
Proof.
  destruct (run_say id said fuel w (Controller h') p) as (w' & E & R & D & Hall); [done..|].
  exists w'. split; [|split; [done|split; [done|split; [done|]]]].
  - unfold PhyLayer.Tick. rewrite Hp. cbn [unchecked mbind outcome_bind]. rewrite Hd. cbn [device_Tick simulated_device tick].
    unfold perform. by rewrite Htick.
  - intros j view type. by apply elem_of_receptions.
Qed.
End Exchange.

(** ** Examples *)

Section Examples.
#[local] Instance example_env : DualEnvironment := example_dual_environment.
#[local] Existing Instance example_view_laws.
(** The bytes of a packet and of an event are told by their first byte. *)
#[local] Instance example_serializers : Serializers := {|
  serialize_event e := match e with FromBr (BrState.ConnectionRequest _ _ _) => [4] | _ => [0] end;
  serialize_acl _ _ _ data := data; serialize_sco _ _ data := data; serialize_iso _ _ _ _ data := data;
  serialize_br _ := [1]; serialize_le _ := [2];
|}.
(** A transport that keeps what is sent. *)
#[local] Instance example_transport : HciTransport (list (PacketType * list Z)) := {|
  transport_Send type packet t := Ok (t ++ [(type, packet)]);
  transport_Tick t := Ok (t, []);
  transport_Close t := Ok t;
|}.
Definition first_address : Address := MkAddress 0 0 0xde 0x10 0x4c 0xda.
Definition second_address : Address := MkAddress 1 0 0xde 0x10 0x4c 0xda.
Definition example_page : BrState.LinkLayerPacket := MkPacket first_address second_address (Page 0x1f00 0).
#[local] Instance example_views : AirViews (View (D := Address * list Z)) := {|
  br_packet _ := example_page;
  le_packet _ := LeScan first_address second_address AddressType.PUBLIC_DEVICE_ADDRESS AddressType.PUBLIC_DEVICE_ADDRESS;
|}.
Notation Transport := (list (PacketType * list Z)).
Notation Device_ := (Simulated Transport (Address * list Z)).

Definition example_hci : HciDevice Transport := MkHciDevice [] (new_dual 0 ControllerProperties_default).
(** One controller is about to page another, which may be paged. *)
Definition example_pager : HciDevice Transport :=
  after (on_bredr (BrState.SendLinkLayerPacket example_page)) (after (SetAddress first_address) example_hci).
Definition example_paged : HciDevice Transport :=
  after (on_bredr (WriteScanEnable ScanEnable.PAGE_SCAN_ONLY)) (after (SetAddress second_address) example_hci).
Definition example_simulation : Air Device_ Z :=
  two_on_air BR_EDR (Controller example_pager) (Controller example_paged) 1.
Definition sent_to_host (d : Device_) : option Transport :=
  match d with Controller h => Some (transport_ h) | _ => None end.

(** The host of the second controller is asked whether it accepts the connection. *)
Example page_reaches_host :
  let H := key_order in
  (λ w, (λ p, sent_to_host (device_ p)) <$> devices w !! 1) <$> PhyLayer.Tick 2 0 example_simulation =
    Ok (Some (Some [(EVENT, [4])])).
Proof. vm_compute. reflexivity. Qed.

Lemma controller_tick_reaches_witness :
  let H := key_order in
  let w := example_simulation in
  ∃ h' said, HciDevice.Tick example_pager = Ok (h', said) ∧
  ∃ w', PhyLayer.Tick (S (length said)) 0 w = Ok w' ∧ registry w' = registry w ∧
  device_ <$> devices w' !! 0 = Some (Controller h') ∧
  (∀ j q, j ≠ 0 → devices w !! j = Some q → ∃ rs,
    length rs = length (receptions w 0 j said) ∧ Forall (λ r, -127 ≤ r ≤ 0) rs ∧
    device_ <$> devices w' !! j = Some (hear_all example_hear (zip (receptions w 0 j said) rs) (device_ q))) ∧
  ∀ j view type, (view, type) ∈ receptions w 0 j said ↔
    (∃ packet tx, ToAir packet type tx ∈ said ∧ parse_view packet = Some view) ∧
    j ≠ 0 ∧ ∃ phy l, layers w !! phy = Some l ∧ phy_type l = type ∧ 0 ∈ PhyLayer.phy_devices_ l ∧ j ∈ PhyLayer.phy_devices_ l.
Proof.
  intros H w.
  assert (Hok : match HciDevice.Tick example_pager with Ok (_, [ToAir [1] _ _]) => True | _ => False end) by (vm_compute; exact I).
  destruct (HciDevice.Tick example_pager) as [[h' said]| | |] eqn:E; [|destruct Hok..].
  exists h', said. split; [reflexivity|].
  apply (@controller_tick_reaches _ _ _ _ _ example_device _ _ _ _ example_hear (λ _ _ _ _, eq_refl) (S (length said)) 0 w
    (MkPhyDevice (Controller example_pager) {[0 := ()]} None) example_pager h' said).
  - apply two_on_air_wf.
  - reflexivity.
  - reflexivity.
  - exact E.
  - destruct said as [|[[|[|[]|] []] type tx| |] []]; try destruct Hok. constructor; [by exists [1]|constructor].
  - constructor.
Defined.

(** A test model that a host has connected to. *)
Lemma simulation_invariant_witness :
  let H := key_order in
  ∃ h (m : TestModel Device_ Z),
    HciDevice.new 0 ([] : Transport) ControllerProperties_default = Ok h ∧
    AddHciConnection 0 (Controller (after DualState.RegisterCloseCallback h)) None
      (snd (next_instance_id (new_model 1 (0xda, 0x4c, 0x10, 0xde)))) = Ok (0, m) ∧
    model_wf m ∧
    ∀ id p c, devices (air m) !! id = Some p → controller_of (device_ p) = Some c → dual_wf c.
Proof.
  intros H.
  assert (Hok : is_ok (HciDevice.new 0 ([] : Transport) ControllerProperties_default) = true) by (vm_compute; reflexivity).
  destruct (HciDevice.new 0 ([] : Transport) ControllerProperties_default) as [h| | |] eqn:E; try discriminate Hok.
  set (m0 := new_model (D := Device_) 1 (0xda, 0x4c, 0x10, 0xde)).
  destruct (AddHciConnection_run (snd (next_instance_id m0)) (Controller (after DualState.RegisterCloseCallback h))
    first_address 0 eq_refl) as (m & Em & _).
  exists h, m. split; [reflexivity|]. split; [exact Em|].
  apply (simulation_invariant (λ _ _ _, None) 1 (0xda, 0x4c, 0x10, 0xde)). apply rtc_once.
  apply (simulation_connect (λ _ _ _, None) m0 [] ControllerProperties_default h first_address m).
  - apply new_model_wf.
  - reflexivity.
  - repeat split; discriminate.
  - exact E.
  - reflexivity.
  - exact Em.
Defined.
End Examples.
